(* ===== verification/_CoqProject ===== *)
-Q . S2P
Prelude.v
Bits.v
Checksum.v
VarInt.v
Hex.v
AddrTools.v
Message.v
ReplayProtector.v
MsgAt.v
Headers.v
EncodingScheme.v
NumberCompress.v
LabelSplicer.v
SwitchCore.v
SwitchNetwork.v
FramingIface.v
Nacl.v
Key.v
CryptoAuth.v
CryptoAuthProofs.v
CryptoFrame.v
Base10.v
Benc.v
BencSerial.v
SchemeBenc.v
ArrayList.v
HandleMap.v
Address.v
Pinger.v
RouteHeader.v
PFChan.v
PeerLink.v
EventEmitter.v
TUNAdapter.v
UpperDistributor.v
SessionManager.v
SessionProofs.v
SessionSafety.v
SessionDelivery.v
SessionErrors.v
UpperProofs.v
EventProofs.v
ControlHandler.v
SwitchPinger.v
ControlProofs.v
NetCore.v
NodeDelivery.v
Sockaddr.v
RouteGen.v
RouteGenProofs.v
InterfaceController.v
InterfaceProofs.v
InterfaceSafety.v
IpTunnel.v
IpTunnelProofs.v
