(* ===== verification/Prelude.v ===== *)
(** * hyperborians: a verification of its core

    hyperborians is an encrypted IPv6 network (a fork of cjdns).  A node forwards
    packets by source-routed labels, authenticates and encrypts every hop and
    every end-to-end session, derives addresses from public keys, finds paths
    with a DHT and can tunnel ordinary IP traffic.

    ** The program and the files that model it

    A packet passes through these parts, bottom to top:

    - streams and packet buffers: [wire/Message.h] and [wire/Message.c] are the
      buffer every component shifts, pushes to and pops from (Message.v; what a
      buffer has at an address: MsgAt.v);
      [interface/FramingIface.c] cuts byte streams into messages
      (FramingIface.v); [util/platform/Sockaddr.c] are the addresses of the
      lower network (Sockaddr.v);
    - the switch: [switch/SwitchCore.c] forwards a packet by the bits of its
      label (SwitchCore.v; several switches in a row: SwitchNetwork.v), with the
      interface numbers spelled by [switch/NumberCompress.h] (NumberCompress.v),
      the general spellings of [switch/EncodingScheme.c] (EncodingScheme.v,
      SchemeBenc.v) and the path algebra of [switch/LabelSplicer.h]
      (LabelSplicer.v);
    - cryptography: [crypto/CryptoAuth.c] makes sessions (CryptoAuth.v,
      CryptoAuthProofs.v; the room which encryption needs in a buffer:
      CryptoFrame.v), with the replay window of [crypto/ReplayProtector.h]
      (ReplayProtector.v) and the keys and addresses of [crypto/Key.c] and
      [crypto/AddressCalc.c] (Key.v);
    - headers of all of these: [wire/] (Headers.v, RouteHeader.v), the Internet
      checksum of [util/Checksum.h] (Checksum.v);
    - links to peers: [net/InterfaceController.c] has the sessions with the
      neighbours, moves packets between the wire and the switch, finds peers by
      beacons and pings them (InterfaceController.v, InterfaceProofs.v,
      InterfaceSafety.v), with the queues of [net/PeerLink.c] and the meters of
      [util/Kbps.h] (PeerLink.v);
    - sessions between ends: [net/SessionManager.c] encrypts end to end and keeps
      the paths (SessionManager.v; its invariant SessionProofs.v and
      SessionSafety.v, delivery SessionDelivery.v, errors SessionErrors.v);
    - the inside of a node: [net/UpperDistributor.c] between the sessions, the
      control packets, the tunnel and registered handlers (UpperDistributor.v,
      UpperProofs.v), [net/TUNAdapter.c] for the packets of the TUN device
      (TUNAdapter.v), [net/EventEmitter.c] between the core and the pathfinders
      (EventEmitter.v, EventProofs.v); [net/NetCore.c] plumbs them together
      (NetCore.v; two nodes with a wire between them: NodeDelivery.v);
    - control packets: [net/ControlHandler.c] answers pings, key and path
      requests and errors (ControlHandler.v), [net/SwitchPinger.c] sends pings
      along labels (SwitchPinger.v) with the bookkeeping of [util/Pinger.c]
      (Pinger.v) over the maps of [util/Map.h] (HandleMap.v); the events of
      [wire/PFChan.h] (PFChan.v), the nodes they name, [dht/Address.c] and
      [util/version/Version.c] (Address.v);
    - the IP tunnel: [tunnel/IpTunnel.c] (IpTunnel.v, IpTunnelProofs.v) and the
      routes it installs, [tunnel/RouteGen.c] (RouteGen.v, RouteGenProofs.v);
    - data for messages and configuration: [benc/] (Benc.v, BencSerial.v),
      [util/Base10.c] (Base10.v), [util/Hex.c] and [util/Base32.h] (Hex.v),
      [util/AddrTools.c] (AddrTools.v), [util/VarInt.h] (VarInt.v);
    - containers and arithmetic: [util/ArrayList.c], [util/QSort.h]
      (ArrayList.v), [util/Bits.h], [util/Endian.h] (Bits.v).

    This file holds what they share: machine integers, bytes in both orders,
    memory as lists of bytes ([rd], [wr], [get], [set]), the monad [Er], tactics
    and hint databases.

    ** Conventions

    A C integer is a [Z]; [u8] ... [i64] are the conversions to a width and are
    written wherever the C code can leave the width.  A struct is a record with
    the names of its fields, an array a list of bytes, a pointer into an array an
    index.  A [_be] field holds the value which a little-endian host reads from
    the big-endian bytes, and the conversions of [Endian.h] are applied where the
    source applies them.  State is passed explicitly: an operation takes the
    struct and returns the new one.  [Er A] is the result of code that may stop
    the process: [Assert_true], [Assert_ifParanoid], [Er_raise] and
    [Er_assert] end in [Abort].  Return codes are values.  Calls which leave the
    component (sending on an interface, system calls, callbacks) are collected in
    a list of outputs, in order.  The clock, random bytes and fresh memory are
    arguments.

    The configuration is the one the build produces on Linux: a little-endian
    host, [PARANOIA] on (assertions are checked), debug logging without keys,
    [NumberCompress_TYPE] v3x5x8, no NSA build.  Log output is left out, except
    where the call for the log makes an assertion.

    Code outside the repository's own is a class of operations with the laws its
    documentation states, and an executable instance which satisfies them:
    [Nacl] and [NaclLaws] (Nacl.v) for the cryptographic library, [InetText] and
    [InetTextLaws] (Sockaddr.v) for the conversion of addresses by libuv.

    ** Fuel

    Loops which are not structural take fuel.  Bit loops run at most 64 times
    and get 64; decimal numbers have at most 19 digits; the bencode reader gets
    the length of the message, every call consumes a byte
    ([benc_reader_terminates]: out of fuel never happens); comb sort gets a bound
    on gaps plus inversions ([qsort_sorts] proves it returns); the deframer one
    unit per byte ([deframe_fuel_enough]); the collapsing of routes the length of
    the list; the shift loop of the replay window 64 rounds
    ([shift_loop_exits]).  No theorem is of the form "if it returns".

    ** What the theorems show

    - Switch: what comes out for a label ([switch_forwards]), that a path there
      and back works through any number of switches with the label spliced from the
      hops ([network_round_trip]), the
      error packets ([switch_error_packet]), labels of new interfaces
      ([addInterface_label]), and that no packet and no order of interface
      operations reaches a failing assertion ([switch_never_aborts], an
      invariant over the reachable states).
    - CryptoAuth: a handshake between two ends completes and both ends have the
      same key ([handshake_completes]), data then flows in order
      ([established_stream]), what is accepted as authorised was sealed with a
      known password ([accepted_handshake_authorised]), no packet stops the
      process in up to a billion operations ([session_never_aborts], with one named
      exception: a session for which the library derived an all-zero secret fails an
      assertion); the replay window accepts every nonce at most once and every fresh
      one inside the window.
    - Labels: converting the first director keeps the route and finds every
      conversion there is ([convertLabel_keeps_route]); the test whether one path leads
      through another is exact ([routesThrough_iff]).
    - Encodings: schemes, directors, labels, bencode, addresses, keys, VarInt and
      Base32 survive their round trips; parsers return on any input.
    - Containers: array lists refine sequences, comb sort sorts, the sorted
      dictionary refines a map.
    - Framing: the receiver refines the one-shot parser whatever the chunks are.
    - Tunnel: the routes cover exactly what was asked for minus the exceptions
      (under the stated conditions; the examples beside the theorems show what
      happens outside of them), packets only pass with addresses of their
      connection, and a client gets the addresses which the server has for it.
    - Control packets: a ping is answered and reported with the version and key
      of the other node ([ping_answered]), no control packet stops the process
      ([control_plane_safe]), a ping is answered at most once, and only by its
      own handle and cookie ([responds_once]); until its handles wrap around the handle
      map refines a finite map ([handles_refine]).
    - Links: over an established session what the switch sends to a peer enters the
      switch of the other node unchanged ([link_delivers]); within the contract of its
      callers, and until handles and nonces are used up, nothing stops the interface
      controller ([interface_controller_safe], by an invariant over all runs; the examples beside [link_delivers] show what is outside); a meter is the sum over a window of time
      ([kbps_refines_window]).
    - Sessions: nothing that comes from the switch, the inside, the pathfinders or
      the clock stops the session manager ([session_manager_safe], an invariant over
      runs of up to five hundred million inputs within the contract of its interfaces;
      an all-zero secret of an established session is the named exception), data goes from one
      manager to the other ([session_delivers]), and a packet without an agreed
      key is answered by an error which tells why ([stale_session_answered]).
    - Inside: the handlers of the distributor refine a table
      ([upper_refines_table]), events reach every connected pathfinder once
      ([event_fanout]) and pathfinders can send what they like
      ([pathfinder_protocol]); the calls of the parts in NetCore.v into each other
      end ([dispatch_terminates]: some fuel is enough, and more changes nothing),
      and an IPv6 packet goes from the TUN device of a node to that of another
      ([node_delivers_ip6]).

    Behaviour which deviates from a comment or from the evident purpose is stated
    as an [Example] next to the theorem concerned.

    ** Not modelled

    The DHT's node store, searches and janitor ([dht/dhtcore]) are pointer
    graphs over intrusive trees; they, the pathfinder ([dht]), the allocator
    ([memory]; memory is never exhausted here, and what is freed matters only
    where an operation reacts to it: pings, peers, places in the switch), the
    admin interface and the client tools ([admin], [client]) and the random
    generator ([crypto/random]) are not part of this development. Device
    drivers, sockets, the event loop and the platform layer ([interface],
    [util/events], [util/platform], [util/Security*.c]) are calls of the
    operating system and of libuv: timers are operations which may happen at any
    time. The node of NetCore.v has no switch and no links in it: what leaves it
    goes over a wire; the switch and the links have their own theorems. [nacl],
    [libuv] and [crypto/sign] are vendored code; the first two are represented
    by the classes above. *)
From Stdlib Require Export ZArith Lia.
From stdpp Require Export base tactics list numbers decidable strings.

#[global] Set Default Proof Using "Type".
#[export] Set Warnings "-notation-overridden,-clear-no-such-hyp".
Global Open Scope Z_scope.

(** ** Fixed-width integers

    A C integer is a [Z] kept in its range; the casts below are the C
    conversions between widths (two's complement for the signed ones). *)
Definition u8 (z : Z) : Z := z mod 2 ^ 8.
Definition u16 (z : Z) : Z := z mod 2 ^ 16.
Definition u32 (z : Z) : Z := z mod 2 ^ 32.
Definition u64 (z : Z) : Z := z mod 2 ^ 64.
Definition i32 (z : Z) : Z := (z + 2 ^ 31) mod 2 ^ 32 - 2 ^ 31.
Definition i64 (z : Z) : Z := (z + 2 ^ 63) mod 2 ^ 64 - 2 ^ 63.

Definition UINT64_MAX : Z := 2 ^ 64 - 1.
Definition UINT32_MAX : Z := 2 ^ 32 - 1.

(** C's [!!x] on integers. *)
Definition nz (z : Z) : Z := Z.b2z (negb (z =? 0)).

(** [0 <= z < 2^w]. *)
Definition fits (w z : Z) : Prop := 0 <= z < 2 ^ w.

Abbreviation byte z := (fits 8 z).
Abbreviation bytes l := (Forall (fits 8) l).

(** ** The error monad

    [Er_raise] and a failed [Assert_true] both end the process
    (exception/Er.h, util/Assert.h): [Abort] is that outcome, with the reason
    for documentation only. *)
Inductive Er (A : Type) : Type :=
| Ret (a : A)
| Abort (why : string).
Arguments Ret {A} a.
Arguments Abort {A} why.

#[export] Instance Er_ret : MRet Er := @Ret.
#[export] Instance Er_bind : MBind Er := fun A B f m =>
  match m with Ret a => f a | Abort w => Abort w end.

Definition Assert_true (b : bool) : Er unit :=
  if b then Ret tt else Abort "Assertion failure".

(** Every [Assert_ifParanoid] is enabled: configure.ac defines PARANOIA. *)
Abbreviation Assert_ifParanoid := Assert_true.

(** ** Byte strings *)

(** Length of a list as a C size. *)
Abbreviation len l := (Z.of_nat (length l)).

(** Memory segments: [rd off n l] is the [n] bytes at offset [off] of [l];
    [wr off bs l] overwrites the bytes at [off] with [bs]. *)
Definition rd {A} (off n : Z) (l : list A) : list A :=
  take (Z.to_nat n) (drop (Z.to_nat off) l).
Definition wr {A} (off : Z) (bs l : list A) : list A :=
  take (Z.to_nat off) l ++ bs ++ drop (Z.to_nat off + length bs) l.

(** [memset(p, 0, n)] content. *)
Definition zeros (n : Z) : list Z := replicate (Z.to_nat n) 0.

(** Byte [i] of a C array (0 outside of the array). *)
Definition get (l : list Z) (i : Z) : Z := nth (Z.to_nat i) l 0.

(** A [n]-byte unsigned integer in memory, in either byte order. *)
Fixpoint le_bytes (n : nat) (z : Z) : list Z :=
  match n with
  | O => []
  | S n => z mod 256 :: le_bytes n (z / 256)
  end.

Fixpoint le_val (l : list Z) : Z :=
  match l with
  | [] => 0
  | b :: l => b + 256 * le_val l
  end.

Definition be_bytes (n : nat) (z : Z) : list Z := rev (le_bytes n z).
Definition be_val (l : list Z) : Z := le_val (rev l).

(** [memcmp(a, b, n)] on equally long byte strings: the sign of the first
    difference. *)
Fixpoint memcmp (a b : list Z) : Z :=
  match a, b with
  | x :: a, y :: b => if x =? y then memcmp a b else if x <? y then -1 else 1
  | _, _ => 0
  end.

(** ** Arithmetic lemmas *)

Lemma fits_mod w z : 0 <= w -> fits w (z mod 2 ^ w).
Proof. intros. apply Z.mod_pos_bound. lia. Qed.

Lemma fits_small w z : fits w z -> z mod 2 ^ w = z.
Proof. apply Z.mod_small. Qed.

Lemma fits_mono w w' z : w <= w' -> fits w z -> fits w' z.
Proof.
  unfold fits. intros Hw [? H]. split; [done|].
  eapply Z.lt_le_trans; [exact H|]. apply Z.pow_le_mono_r; lia.
Qed.

Lemma fits_testbit w z i : fits w z -> w <= i -> Z.testbit z i = false.
Proof.
  intros [Hl Hu] Hi. destruct (decide (i < 0)) as [Hn|Hn].
  { by apply Z.testbit_neg_r. }
  destruct (decide (z = 0)) as [->|Hz]; [apply Z.testbit_0_l|].
  apply Z.bits_above_log2; [done|].
  destruct (decide (w < 0)). { rewrite Z.pow_neg_r in Hu by done. lia. }
  apply Z.log2_lt_pow2; [lia|].
  eapply Z.lt_le_trans; [exact Hu|]. apply Z.pow_le_mono_r; lia.
Qed.

Lemma fits_of_testbit w z :
  0 <= w -> 0 <= z -> (forall i, w <= i -> Z.testbit z i = false) -> fits w z.
Proof.
  intros Hw Hz Hb. assert (z = z mod 2 ^ w) as ->; [|by apply fits_mod].
  apply Z.bits_inj'. intros i Hi. rewrite Z.testbit_mod_pow2 by done.
  destruct (Z.ltb_spec i w); simpl; [done|]. by apply Hb.
Qed.

Lemma fits_shiftr w n z : 0 <= n <= w -> fits w z -> fits (w - n) (Z.shiftr z n).
Proof.
  intros Hn [Hl Hu]. rewrite Z.shiftr_div_pow2 by lia. split.
  { apply Z.div_pos; lia. }
  apply Z.div_lt_upper_bound; [lia|].
  rewrite <- Z.pow_add_r by lia. by replace (n + (w - n)) with w by lia.
Qed.

Lemma fits_shiftr_same w n z : 0 <= n -> fits w z -> fits w (Z.shiftr z n).
Proof.
  intros Hn [Hl Hu]. rewrite Z.shiftr_div_pow2 by lia. split.
  { apply Z.div_pos; lia. }
  eapply Z.le_lt_trans; [|exact Hu]. apply Z.div_le_upper_bound; [lia|].
  assert (1 <= 2 ^ n) by (apply (Z.pow_le_mono_r 2 0); lia). nia.
Qed.

Lemma fits_shiftl w n z : 0 <= n -> 0 <= w -> fits w z -> fits (w + n) (Z.shiftl z n).
Proof.
  intros Hn Hw [Hl Hu]. rewrite Z.shiftl_mul_pow2 by done.
  unfold fits. rewrite Z.pow_add_r by done. split; nia.
Qed.

Lemma fits_land_l w a b : 0 <= w -> fits w a -> 0 <= b -> fits w (Z.land a b).
Proof.
  intros Hw Ha Hb. apply fits_of_testbit; [done| |].
  { apply Z.land_nonneg. by right. }
  intros i Hi. by rewrite Z.land_spec, (fits_testbit w a).
Qed.

Lemma fits_land_r w a b : 0 <= w -> 0 <= a -> fits w b -> fits w (Z.land a b).
Proof. intros. rewrite Z.land_comm. by apply fits_land_l. Qed.

Lemma fits_lor w a b : 0 <= w -> fits w a -> fits w b -> fits w (Z.lor a b).
Proof.
  intros Hw Ha Hb. apply fits_of_testbit; [done| |].
  { apply Z.lor_nonneg. split; [apply Ha|apply Hb]. }
  intros i Hi. by rewrite Z.lor_spec, (fits_testbit w a), (fits_testbit w b).
Qed.

Lemma fits_lxor w a b : 0 <= w -> fits w a -> fits w b -> fits w (Z.lxor a b).
Proof.
  intros Hw Ha Hb. apply fits_of_testbit; [done| |].
  { apply Z.lxor_nonneg. split; intros; [apply Hb|apply Ha]. }
  intros i Hi. by rewrite Z.lxor_spec, (fits_testbit w a), (fits_testbit w b).
Qed.

(** Disjoint pieces: [a] below bit [k], [b] from bit [k]. *)
Lemma lor_shiftl_add a b k :
  0 <= k -> fits k a -> Z.lor a (Z.shiftl b k) = a + b * 2 ^ k.
Proof.
  intros Hk Ha. rewrite <- Z.shiftl_mul_pow2 by done. symmetry.
  rewrite <- Z.lxor_lor.
  - apply Z.add_nocarry_lxor. apply Z.bits_inj'. intros i Hi.
    rewrite Z.land_spec, Z.shiftl_spec, Z.bits_0 by done.
    destruct (Z.ltb_spec i k).
    + rewrite (Z.testbit_neg_r b) by lia. apply andb_false_r.
    + by rewrite (fits_testbit k a).
  - apply Z.bits_inj'. intros i Hi.
    rewrite Z.land_spec, Z.shiftl_spec, Z.bits_0 by done.
    destruct (Z.ltb_spec i k).
    + rewrite (Z.testbit_neg_r b) by lia. apply andb_false_r.
    + by rewrite (fits_testbit k a).
Qed.

(** ** Byte-string lemmas *)

Lemma length_le_bytes n z : length (le_bytes n z) = n.
Proof. revert z. induction n; intros; simpl; auto. Qed.

Lemma length_be_bytes n z : length (be_bytes n z) = n.
Proof. unfold be_bytes. by rewrite length_rev, length_le_bytes. Qed.

Lemma le_bytes_bytes n z : bytes (le_bytes n z).
Proof.
  revert z. induction n as [|n IH]; intros z; simpl; constructor; [|done].
  by apply (fits_mod 8).
Qed.

Lemma be_bytes_bytes n z : bytes (be_bytes n z).
Proof. apply Forall_rev, le_bytes_bytes. Qed.

Lemma le_val_bytes n z : le_val (le_bytes n z) = z mod 2 ^ (8 * Z.of_nat n).
Proof.
  revert z. induction n as [|n IH]; intros z; simpl le_bytes; simpl le_val.
  { by rewrite Z.mod_1_r. }
  rewrite IH, Nat2Z.inj_succ, Z.mul_succ_r, Z.add_comm, Z.pow_add_r by lia.
  rewrite (Z.mul_comm (2 ^ _)), Z.rem_mul_r by lia. change (2 ^ 8) with 256. lia.
Qed.

Lemma le_val_app a b : le_val (a ++ b) = le_val a + 2 ^ (8 * len a) * le_val b.
Proof.
  induction a as [|x a IH]; cbn [app le_val length]; [simpl; lia|].
  rewrite IH. replace (8 * Z.of_nat (S (length a))) with (8 + 8 * len a) by lia.
  rewrite Z.pow_add_r by lia. change (2 ^ 8) with 256. ring.
Qed.

Lemma le_val_bound l : bytes l -> fits (8 * len l) (le_val l).
Proof.
  induction 1 as [|b l Hb _ IH]; [done|]. unfold fits in *. simpl le_val. simpl length.
  rewrite Nat2Z.inj_succ, Z.mul_succ_r, Z.pow_add_r by lia.
  change (2 ^ 8) with 256 in *. nia.
Qed.

Lemma le_bytes_val l : bytes l -> le_bytes (length l) (le_val l) = l.
Proof.
  induction 1 as [|b l Hb _ IH]; simpl; [done|].
  unfold fits in Hb. change (2 ^ 8) with 256 in Hb. f_equal.
  - rewrite Z.mul_comm, Z.mod_add by done. by apply Z.mod_small.
  - rewrite Z.mul_comm, Z.div_add by done. by rewrite Z.div_small.
Qed.

Lemma be_val_bytes n z : be_val (be_bytes n z) = z mod 2 ^ (8 * Z.of_nat n).
Proof. unfold be_val, be_bytes. rewrite rev_involutive. apply le_val_bytes. Qed.
Lemma be_val_nonce n : fits 32 n -> be_val (be_bytes 4 n) = n.
Proof. intros Hn. rewrite be_val_bytes. by apply (fits_small 32). Qed.

Lemma be_val_bound l : bytes l -> fits (8 * len l) (be_val l).
Proof.
  intros H. unfold be_val. rewrite <- length_rev. by apply le_val_bound, Forall_rev.
Qed.

Lemma be_bytes_val l : bytes l -> be_bytes (length l) (be_val l) = l.
Proof.
  intros H. unfold be_bytes, be_val. rewrite <- length_rev, le_bytes_val.
  - apply rev_involutive.
  - by apply Forall_rev.
Qed.

Lemma length_zeros n : 0 <= n -> len (zeros n) = n.
Proof. intros. unfold zeros. rewrite length_replicate. lia. Qed.

Lemma zeros_bytes n : bytes (zeros n).
Proof. apply Forall_replicate. done. Qed.

Lemma memcmp_refl a : memcmp a a = 0.
Proof. induction a; simpl; [done|]. by rewrite Z.eqb_refl. Qed.

Lemma memcmp_eq a b : length a = length b -> memcmp a b = 0 -> a = b.
Proof.
  revert b. induction a as [|x a IH]; intros [|y b]; simpl; try done.
  intros [= Hl]. destruct (Z.eqb_spec x y) as [->|]; [|destruct (x <? y); done].
  intros ?. f_equal. by apply IH.
Qed.

Lemma memcmp_zero_iff a b : length a = length b -> (memcmp a b =? 0) = bool_decide (a = b).
Proof.
  intros Hl. case_bool_decide as He; [subst; by rewrite memcmp_refl|].
  apply Z.eqb_neq. intros ?%memcmp_eq; done.
Qed.

Lemma memcmp_antisym a b : length a = length b -> memcmp b a = - memcmp a b.
Proof.
  revert b. induction a as [|x a IH]; intros [|y b]; simpl; try done.
  intros [= Hl]. rewrite (Z.eqb_sym y x). destruct (Z.eqb_spec x y); [by apply IH|].
  destruct (Z.ltb_spec x y), (Z.ltb_spec y x); lia.
Qed.

(** *** Segments of a decomposed buffer *)

Lemma rd_app {A} off n (a b c : list A) :
  off = len a -> n = len b -> rd off n (a ++ b ++ c) = b.
Proof.
  intros -> ->. unfold rd. rewrite !Nat2Z.id, drop_app_length. apply take_app_length.
Qed.

Lemma rd_app_0 {A} n (b c : list A) : n = len b -> rd 0 n (b ++ c) = b.
Proof. apply (rd_app 0 n []). done. Qed.

Lemma wr_app {A} off (bs a b c : list A) :
  off = len a -> length bs = length b -> wr off bs (a ++ b ++ c) = a ++ bs ++ c.
Proof.
  intros -> Hl. unfold wr. rewrite Nat2Z.id, take_app_length, Hl. f_equal. f_equal.
  by rewrite app_assoc, <- length_app, drop_app_length.
Qed.

Lemma length_wr {A} off (bs l : list A) :
  0 <= off -> off + len bs <= len l -> length (wr off bs l) = length l.
Proof.
  intros ? ?. unfold wr. rewrite !length_app, length_take, length_drop. lia.
Qed.

Lemma length_rd {A} off n (l : list A) :
  0 <= off -> 0 <= n -> off + n <= len l -> len (rd off n l) = n.
Proof. intros. unfold rd. rewrite length_take, length_drop. lia. Qed.

(** Cut a list in two at a given position. *)
Lemma list_split_at {A} (n : Z) (l : list A) :
  0 <= n <= len l -> exists a b, l = a ++ b /\ len a = n.
Proof.
  intros Hn. exists (take (Z.to_nat n) l), (drop (Z.to_nat n) l).
  rewrite take_drop, length_take. split; [done|lia].
Qed.

Lemma bytes_app l1 l2 : bytes (l1 ++ l2) <-> bytes l1 /\ bytes l2.
Proof. apply Forall_app. Qed.

(** ** Automation *)

(** Case analysis on the integer comparisons of the goal or of a hypothesis. *)
Ltac zcases :=
  repeat (match goal with
  | |- context [?a =? ?b] => destruct (Z.eqb_spec a b)
  | |- context [?a <? ?b] => destruct (Z.ltb_spec a b)
  | |- context [?a <=? ?b] => destruct (Z.leb_spec a b)
  | |- context [?a >? ?b] => rewrite (Z.gtb_ltb a b)
  | |- context [?a >=? ?b] => rewrite (Z.geb_leb a b)
  | H : context [?a =? ?b] |- _ => destruct (Z.eqb_spec a b) in H
  | H : context [?a <? ?b] |- _ => destruct (Z.ltb_spec a b) in H
  | H : context [?a <=? ?b] |- _ => destruct (Z.leb_spec a b) in H
  end; try lia; simpl in *).

(** Replace a decided comparison by its value. *)
Ltac zdecide b :=
  first [ replace b with true by (symmetry; first [apply Z.eqb_eq | apply Z.ltb_lt | apply Z.leb_le]; lia)
        | replace b with false by (symmetry; first [apply Z.eqb_neq | apply Z.ltb_ge | apply Z.leb_gt]; lia) ].

(** The same in a hypothesis. *)
Ltac zdecide_in b H :=
  first [ replace b with true in H by (symmetry; first [apply Z.eqb_eq | apply Z.ltb_lt | apply Z.leb_le]; lia)
        | replace b with false in H by (symmetry; first [apply Z.eqb_neq | apply Z.ltb_ge | apply Z.leb_gt]; lia) ].

(** Bitwise equality: compare bit by bit, normalising every bit operation,
    and split on the positions the goal compares. *)
Create Rewrite HintDb zbits.
#[export] Hint Rewrite Z.land_spec Z.lor_spec Z.lxor_spec Z.bits_0 Z.testbit_0_l : zbits.
#[export] Hint Rewrite Z.shiftl_spec Z.shiftr_spec Z.lnot_spec
  Z.testbit_mod_pow2 Z.testbit_ones_nonneg using lia : zbits.
#[export] Hint Rewrite andb_false_r andb_true_r andb_false_l andb_true_l
  orb_false_r orb_false_l orb_true_r orb_true_l xorb_false_r xorb_false_l : zbits.

Ltac kill_testbit :=
  repeat match goal with
  | |- context [Z.testbit ?a ?i] =>
      rewrite (Z.testbit_neg_r a i) by lia
  | H : fits ?w ?a |- context [Z.testbit ?a ?i] =>
      rewrite (fits_testbit w a i H) by lia
  end.

Ltac bitwise :=
  apply Z.bits_inj'; let i := fresh "i" in let Hi := fresh "Hi" in intros i Hi;
  autorewrite with zbits;
  repeat match goal with
  | |- context [?a <? ?b] => destruct (Z.ltb_spec a b); simpl
  end;
  kill_testbit; autorewrite with zbits; try done; try (f_equal; lia).

Create HintDb fits.
#[export] Hint Resolve fits_mod fits_lor fits_lxor fits_shiftr_same fits_land_l : fits.
#[export] Hint Resolve le_bytes_bytes be_bytes_bytes zeros_bytes : fits.

(** Unfold the width casts. *)
Ltac casts := unfold u8, u16, u32, u64, i32, i64 in *.

(** Step a monadic equation [m ≫= f = Ret x] to its intermediate value. *)
Lemma bind_of_ret {A B} (x : A) (f : A -> Er B) : (Ret x ≫= f) = f x.
Proof. done. Qed.

Lemma Er_bind_ret {A B} (m : Er A) (f : A -> Er B) b :
  m ≫= f = Ret b -> exists a, m = Ret a /\ f a = Ret b.
Proof. destruct m; simpl; intros H; [by eexists|discriminate]. Qed.

Lemma Assert_true_ret b x : Assert_true b = Ret x -> b = true.
Proof. by destruct b. Qed.

Ltac er_inv :=
  repeat match goal with
  | H : _ ≫= _ = Ret _ |- _ =>
      apply Er_bind_ret in H; let x := fresh "x" in let E := fresh "E" in
      destruct H as (x & E & H)
  | H : mret _ = Ret _ |- _ => unfold mret, Er_ret in H
  | H : Ret _ = Ret _ |- _ => injection H as H; subst
  | H : Abort _ = Ret _ |- _ => discriminate H
  | H : Assert_true _ = Ret _ |- _ => apply Assert_true_ret in H
  end.

(** ** Array cells *)

(** [a[i] = v] on a C array. *)
Definition set (l : list Z) (i v : Z) : list Z := <[Z.to_nat i := v]> l.

Lemma get_set_eq l i v : 0 <= i < len l -> get (set l i v) i = v.
Proof.
  intros Hi. unfold get, set. rewrite nth_lookup, list_lookup_insert_eq by lia. done.
Qed.

Lemma get_set_ne l i j v : 0 <= i -> 0 <= j -> i <> j -> get (set l i v) j = get l j.
Proof.
  intros ? ? Hne. unfold get, set.
  rewrite !nth_lookup, list_lookup_insert_ne by lia. done.
Qed.

Lemma length_set l i v : length (set l i v) = length l.
Proof. apply length_insert. Qed.

Lemma set_bytes l i v : bytes l -> byte v -> bytes (set l i v).
Proof. intros. by apply Forall_insert. Qed.

Lemma get_bytes l i : bytes l -> byte (get l i).
Proof.
  intros Hl. unfold get. rewrite nth_lookup. destruct (l !! Z.to_nat i) eqn:E; simpl; [|done].
  by apply (Forall_lookup_1 _ _ _ _ Hl E).
Qed.

Lemma be_val_snoc l b : be_val (l ++ [b]) = 256 * be_val l + b.
Proof. unfold be_val. rewrite rev_app_distr. simpl. lia. Qed.

Lemma be_bytes_S n z : be_bytes (S n) z = be_bytes n (z / 256) ++ [z mod 256].
Proof. done. Qed.

(** Appending a byte to an accumulator whose low byte is clear. *)
Lemma lor_byte k b : byte b -> Z.lor (256 * k) b = 256 * k + b.
Proof.
  intros Hb. rewrite Z.lor_comm, Z.mul_comm. change 256 with (2 ^ 8).
  rewrite <- Z.shiftl_mul_pow2, lor_shiftl_add, Z.shiftl_mul_pow2 by done. lia.
Qed.

(** A byte of a string from its little-endian value. *)
Lemma get_le_bytes_val l i :
  bytes l -> 0 <= i < len l -> get l i = (le_val l / 2 ^ (8 * i)) mod 256.
Proof.
  intros Hl. revert i. induction Hl as [|b l Hb _ IH]; intros i Hi; [simpl in Hi; lia|].
  unfold fits in Hb. change (2 ^ 8) with 256 in Hb. cbn [le_val]. unfold get.
  destruct (decide (i = 0)) as [->|].
  { simpl. rewrite Z.div_1_r, Z.mul_comm, Z.mod_add by done. by rewrite Z.mod_small. }
  replace (Z.to_nat i) with (S (Z.to_nat (i - 1))) by lia. cbn [nth].
  fold (get l (i - 1)). rewrite IH by (simpl length in Hi; lia). f_equal.
  replace (8 * i) with (8 + 8 * (i - 1)) by lia. rewrite Z.pow_add_r, <- Z.div_div by lia.
  change (2 ^ 8) with 256. rewrite (Z.mul_comm 256), Z.div_add, (Z.div_small b) by lia. done.
Qed.

(** Induction two elements at a time. *)
Lemma list_pair_ind {A} (P : list A -> Prop) :
  P [] -> (forall a, P [a]) -> (forall a b l, P l -> P (a :: b :: l)) -> forall l, P l.
Proof.
  intros H0 H1 H2.
  assert (forall l, P l /\ forall a, P (a :: l)) as H; [|intros l; apply H].
  induction l as [|b l [IH1 IH2]]; split; auto.
Qed.

Lemma be_val_app a b : be_val (a ++ b) = be_val a * 2 ^ (8 * len b) + be_val b.
Proof. unfold be_val. rewrite rev_app_distr, le_val_app, length_rev. lia. Qed.

Lemma rd_whole (l : list Z) n : n = len l -> rd 0 n l = l.
Proof. intros Hn. rewrite <- (app_nil_r l) at 1. by apply rd_app_0. Qed.

Lemma rd_rd {A} (l : list A) a b c n : 0 <= a -> 0 <= b -> 0 <= n -> b + n <= c -> rd b n (rd a c l) = rd (a + b) n l.
Proof.
  intros Ha Hb Hn Hc. unfold rd. rewrite skipn_firstn_comm, take_take, drop_drop.
  replace (Z.to_nat (a + b)) with (Z.to_nat a + Z.to_nat b)%nat by lia. f_equal. lia.
Qed.

Lemma rd_bytes off n l : bytes l -> bytes (rd off n l).
Proof. intros Hl. unfold rd. by apply Forall_take, Forall_drop. Qed.

Lemma length_rd_in {A} off n (l : list A) : 0 <= off -> 0 <= n -> off + n <= len l -> length (rd off n l) = Z.to_nat n.
Proof. intros. pose proof (length_rd off n l). lia. Qed.

(** *** Receiving *)

Lemma rd_of_app (a b c : list Z) off n : off = len a -> n = len b -> rd off n (a ++ b ++ c) = b.
Proof. intros. by apply rd_app. Qed.

Lemma even_of_8 a k : a mod 8 = 0 -> k mod 2 = 0 -> (a + k) mod 2 = 0.
Proof.
  intros Ha Hk. rewrite Z.add_mod, Hk by lia. replace (a mod 2) with 0; [done|].
  apply Z.div_exact in Ha; [|lia]. rewrite Ha. replace (8 * (a / 8)) with ((4 * (a / 8)) * 2) by lia.
  by rewrite Z_mod_mult.
Qed.

(** Reading a field out of a struct laid out as consecutive parts. *)
Lemma get_app_here {B : list Z} a off b :
  len a = off -> get (a ++ b :: B) off = b.
Proof.
  intros <-. unfold get. by rewrite Nat2Z.id, app_nth2, Nat.sub_diag by lia.
Qed.

(** Lengths of strings put together from known parts, and closed byte strings. *)
Ltac byte_lens :=
  unfold zeros; repeat rewrite ?length_app, ?length_be_bytes, ?length_le_bytes, ?length_replicate;
  cbn [length]; lia.
Ltac solve_bytes := repeat (apply Forall_cons; split; [by split|]); by apply Forall_nil.
