(* ===== verification/Bits.v ===== *)
(** * util/Bits.h, util/Bits.c and util/Endian.h

    Bit counting, logarithms, 64-bit bit reversal and byte swapping. The host
    is little endian (the [Endian_LITTLE] branches). The GCC builtins are
    given by their documented meaning. *)
From S2P Require Import Prelude.

(** ** Definitions *)

(** [while (!(number & 1)) { number >>= 1; out++; }]: at most 64 rounds for a
    nonzero 64-bit number. *)
Fixpoint ffs_loop (fuel : nat) (number out : Z) : Z :=
  match fuel with
  | O => out
  | S fuel =>
      if negb (Z.land number 1 =? 0) then out
      else ffs_loop fuel (Z.shiftr number 1) (out + 1)
  end.
Definition Bits_ffs64 (number : Z) : Z :=
  if number =? 0 then 0 else ffs_loop 64 number 1.

(** Number of set bits among the low [n] bits. *)
Fixpoint popcount (n : nat) (number : Z) : Z :=
  match n with
  | O => 0
  | S n => Z.b2z (Z.testbit number (Z.of_nat n)) + popcount n number
  end.
Definition Bits_popCountx64 (number : Z) : Z := popcount 64 number.

Definition Bits_popCountx32 (number : Z) : Z :=
  fold_left (fun out i => out + Z.land (Z.shiftr number i) 1) (seqZ 0 32) 0.

(** [__builtin_clzll]: leading zero bits of a nonzero 64-bit number. *)
Fixpoint clz_loop (n : nat) (number : Z) : Z :=
  match n with
  | O => 0
  | S n => if Z.testbit number (Z.of_nat n) then 0 else 1 + clz_loop n number
  end.
Definition builtin_clzll (number : Z) : Z := clz_loop 64 number.

Definition Bits_log2x64 (number : Z) : Z :=
  if number =? 0 then 0 else 63 - builtin_clzll number.

(** [while (number >>= 1) { out++; }]. *)
Fixpoint log2_loop (fuel : nat) (number out : Z) : Z :=
  match fuel with
  | O => out
  | S fuel =>
      let number := Z.shiftr number 1 in
      if number =? 0 then out else log2_loop fuel number (out + 1)
  end.
Definition Bits_log2x64_stupid (number : Z) : Z := log2_loop 64 number 0.
Definition Bits_log2x32 (number : Z) : Z := log2_loop 32 number 0.

Definition Bits_maxBits64 (bitCount : Z) : Er Z :=
  Assert_ifParanoid (bitCount <? 64) ;;
  Ret (u64 (Z.shiftl 1 bitCount - 1)).

(** [__builtin_bswap64] and friends. *)
Definition bswap (n : nat) (x : Z) : Z := le_val (rev (le_bytes n x)).
Definition Endian_byteSwap16 (x : Z) : Z := bswap 2 (u16 x).
Definition Endian_byteSwap32 (x : Z) : Z := bswap 4 (u32 x).
Definition Endian_byteSwap64 (x : Z) : Z := bswap 8 (u64 x).

Definition Endian_hostToBigEndian16 := Endian_byteSwap16.
Definition Endian_hostToBigEndian32 := Endian_byteSwap32.
Definition Endian_hostToBigEndian64 := Endian_byteSwap64.
Definition Endian_bigEndianToHost16 := Endian_hostToBigEndian16.
Definition Endian_bigEndianToHost32 := Endian_hostToBigEndian32.
Definition Endian_bigEndianToHost64 := Endian_hostToBigEndian64.
Definition Endian_hostToLittleEndian16 (x : Z) : Z := x.
Definition Endian_hostToLittleEndian32 (x : Z) : Z := x.
Definition Endian_hostToLittleEndian64 (x : Z) : Z := x.

Definition Bits_rotateAndMask (toReverse mask rotateBits : Z) : Z :=
  Z.lor (Z.land (Z.shiftr toReverse rotateBits) mask)
        (u64 (Z.shiftl (Z.land toReverse mask) rotateBits)).

Definition Bits_bitReverse64 (toReverse : Z) : Z :=
  let toReverse := Bits_rotateAndMask toReverse 0x5555555555555555 1 in
  let toReverse := Bits_rotateAndMask toReverse 0x3333333333333333 2 in
  let toReverse := Bits_rotateAndMask toReverse 0x0F0F0F0F0F0F0F0F 4 in
  bswap 8 toReverse.

Definition Bits_isZero (buffer : list Z) : bool := forallb (fun b => b =? 0) buffer.

(** The search of [Bits_memmem]: positions [i .. stop]. The offset of the
    first match in the haystack is returned. *)
Fixpoint memmem_loop (fuel : nat) (haystack needle : list Z) (i stop : Z) : option Z :=
  match fuel with
  | O => None
  | S fuel =>
      if i <=? stop then
        if (get haystack i =? get needle 0)
           && (memcmp (rd i (len needle) haystack) needle =? 0)
        then Some i
        else memmem_loop fuel haystack needle (i + 1) stop
      else None
  end.
Definition Bits_memmem (haystack needle : list Z) : option Z :=
  if (len haystack =? 0) || (len needle =? 0) then None
  else memmem_loop (S (length haystack)) haystack needle 0 (len haystack - len needle).

(** ** Logarithms and counts *)

Lemma clz_loop_log2 n number :
  0 < number -> fits (Z.of_nat n) number -> clz_loop n number = Z.of_nat n - 1 - Z.log2 number.
Proof.
  intros Hpos. induction n as [|n IH]; intros [Hl Hu].
  { simpl in Hu. lia. }
  cbn [clz_loop]. destruct (Z.testbit number (Z.of_nat n)) eqn:Hb.
  - enough (Z.log2 number = Z.of_nat n) by lia.
    apply Z.log2_unique; [lia|]. split; [|by rewrite <- Nat2Z.inj_succ].
    apply Z.nlt_ge. intros Hlt. rewrite (fits_testbit (Z.of_nat n)) in Hb; [done| |lia].
    by split.
  - rewrite IH; [lia|]. apply fits_of_testbit; [lia|lia|].
    intros i Hi. destruct (decide (i = Z.of_nat n)) as [->|]; [done|].
    apply (fits_testbit (Z.of_nat (S n))); [by split|lia].
Qed.

Lemma Bits_log2x64_log2 number : fits 64 number -> Bits_log2x64 number = Z.log2 number.
Proof.
  intros Hf. unfold Bits_log2x64, builtin_clzll. destruct (Z.eqb_spec number 0) as [->|]; [done|].
  rewrite clz_loop_log2; [lia| |done]. destruct Hf; lia.
Qed.

Lemma log2_loop_log2 fuel number out :
  0 <= number -> Z.log2 number <= Z.of_nat fuel ->
  log2_loop fuel number out = out + Z.log2 number.
Proof.
  revert number out. induction fuel as [|fuel IH]; intros number out Hn Hf.
  { assert (Z.log2 number = 0) by (pose proof (Z.log2_nonneg number); lia). simpl. lia. }
  cbn [log2_loop].
  assert (Z.log2 (Z.shiftr number 1) = Z.max 0 (Z.log2 number - 1)) as Hl.
  { destruct (Z.eq_dec number 0) as [->|]; [done|]. apply Z.log2_shiftr; lia. }
  pose proof (Z.log2_nonneg number).
  destruct (Z.eqb_spec (Z.shiftr number 1) 0) as [E|E].
  - apply Z.shiftr_eq_0_iff in E. destruct E as [->|[? ?]]; simpl; lia.
  - assert (0 <= Z.shiftr number 1) by (by apply Z.shiftr_nonneg).
    rewrite IH; [|done|lia].
    enough (1 <= Z.log2 number) by lia.
    rewrite Z.shiftr_div_pow2 in E by done.
    assert (2 ^ 1 <= number).
    { apply Z.nlt_ge. intros ?. apply E. by apply Z.div_small. }
    apply Z.log2_le_pow2; lia.
Qed.

(** The two logarithms of Bits.h agree on every 64-bit number. *)
Lemma Bits_log2x64_stupid_eq number :
  fits 64 number -> Bits_log2x64_stupid number = Bits_log2x64 number.
Proof.
  intros Hf. rewrite Bits_log2x64_log2 by done. unfold Bits_log2x64_stupid.
  rewrite log2_loop_log2; [lia|apply Hf|].
  destruct (decide (number <= 0)). { rewrite Z.log2_nonpos; lia. }
  apply Z.lt_le_incl, Z.log2_lt_pow2; [lia|apply Hf].
Qed.

Lemma Bits_log2x64_bound number : fits 64 number -> 0 <= Bits_log2x64 number <= 63.
Proof.
  intros Hf. rewrite Bits_log2x64_log2 by done. split; [apply Z.log2_nonneg|].
  destruct (decide (number <= 0)). { rewrite Z.log2_nonpos; lia. }
  enough (Z.log2 number < 64) by lia. apply Z.log2_lt_pow2; [lia|apply Hf].
Qed.

Lemma Bits_maxBits64_ret bitCount :
  0 <= bitCount < 64 -> Bits_maxBits64 bitCount = Ret (Z.ones bitCount).
Proof.
  intros ?. unfold Bits_maxBits64. zdecide (bitCount <? 64). simpl. f_equal.
  rewrite Z.shiftl_1_l, Z.ones_equiv. unfold u64. apply Z.mod_small.
  assert (0 < 2 ^ bitCount) by lia.
  assert (2 ^ bitCount <= 2 ^ 64) by (apply Z.pow_le_mono_r; lia). lia.
Qed.

Lemma popcount_bound n number : 0 <= popcount n number <= Z.of_nat n.
Proof.
  induction n as [|n IH]; simpl popcount; [lia|].
  destruct (Z.testbit number (Z.of_nat n)); simpl; lia.
Qed.

Lemma Bits_isZero_zeros n : Bits_isZero (zeros n) = true.
Proof. unfold zeros, Bits_isZero. induction (Z.to_nat n); simpl; auto. Qed.

Lemma Bits_isZero_true l : Bits_isZero l = true -> l = zeros (len l).
Proof.
  unfold zeros, Bits_isZero. rewrite Nat2Z.id. induction l as [|x l IH]; simpl; [done|].
  intros [Hx Hl]%andb_prop. apply Z.eqb_eq in Hx as ->. f_equal. by apply IH.
Qed.

(** ** Byte swapping and bit reversal *)

Lemma bswap_fits n x : fits (8 * Z.of_nat n) (bswap n x).
Proof.
  unfold bswap.
  assert (n = length (rev (le_bytes n x))) as Hl by (by rewrite length_rev, length_le_bytes).
  rewrite Hl at 1. apply le_val_bound, Forall_rev, le_bytes_bytes.
Qed.

(** Reading big-endian bytes with a host load and [bigEndianToHost]. *)
Lemma bswap_le_val l : bytes l -> bswap (length l) (le_val l) = be_val l.
Proof. intros. unfold bswap, be_val. by rewrite le_bytes_val. Qed.

Lemma le_bytes_bswap n x : le_bytes n (bswap n x) = be_bytes n x.
Proof.
  unfold bswap, be_bytes.
  assert (n = length (rev (le_bytes n x))) as Hl by (by rewrite length_rev, length_le_bytes).
  rewrite Hl at 1. apply le_bytes_val, Forall_rev, le_bytes_bytes.
Qed.

Lemma bswap_involutive n x : fits (8 * Z.of_nat n) x -> bswap n (bswap n x) = x.
Proof.
  intros Hx. unfold bswap at 1. rewrite le_bytes_bswap. unfold be_bytes.
  rewrite rev_involutive, le_val_bytes. by apply fits_small.
Qed.

Lemma le_val_testbit l i :
  bytes l -> 0 <= i -> Z.testbit (le_val l) i = Z.testbit (get l (i / 8)) (i mod 8).
Proof.
  intros Hb. revert i. induction Hb as [|b l Hb Hl IH]; intros i Hi.
  { unfold get. cbn [le_val]. destruct (Z.to_nat (i / 8)); cbn [nth];
      by rewrite !Z.testbit_0_l. }
  simpl le_val. change 256 with (2 ^ 8).
  rewrite Z.mul_comm, <- (lor_shiftl_add b) by done.
  rewrite Z.lor_spec, Z.shiftl_spec by done.
  pose proof (Z.div_mod i 8). pose proof (Z.mod_pos_bound i 8).
  destruct (Z.ltb_spec i 8).
  - rewrite (Z.testbit_neg_r _ (i - 8)), orb_false_r by lia.
    rewrite Z.div_small, Z.mod_small by lia. done.
  - rewrite (fits_testbit 8 b i), orb_false_l by done. rewrite IH by lia.
    replace (i - 8) with (i + (-1) * 8) by lia.
    rewrite Z.div_add, Z.mod_add by done. unfold get.
    assert (1 <= i / 8) by (apply Z.div_le_lower_bound; lia).
    replace (Z.to_nat (i / 8)) with (S (Z.to_nat (i / 8 + -1))) by lia. done.
Qed.

Lemma get_le_bytes n x i :
  0 <= i < Z.of_nat n -> get (le_bytes n x) i = (x / 2 ^ (8 * i)) mod 256.
Proof.
  revert x i. induction n as [|n IH]; intros x i Hi; [lia|].
  unfold get. simpl le_bytes. destruct (decide (i = 0)) as [->|].
  { simpl. by rewrite Z.div_1_r. }
  replace (Z.to_nat i) with (S (Z.to_nat (i - 1))) by lia. cbn [nth].
  fold (get (le_bytes n (x / 256)) (i - 1)). rewrite IH by lia.
  rewrite Z.div_div by lia. change 256 with (2 ^ 8) at 1.
  rewrite <- Z.pow_add_r by lia. by replace (8 + 8 * (i - 1)) with (8 * i) by lia.
Qed.

Lemma bswap_testbit n x i :
  0 <= i < 8 * Z.of_nat n ->
  Z.testbit (bswap n x) i = Z.testbit x (8 * (Z.of_nat n - 1 - i / 8) + i mod 8).
Proof.
  intros Hi. unfold bswap.
  rewrite le_val_testbit by (try lia; apply Forall_rev, le_bytes_bytes).
  assert (0 <= i / 8 < Z.of_nat n)
    by (split; [apply Z.div_pos; lia|apply Z.div_lt_upper_bound; lia]).
  pose proof (Z.mod_pos_bound i 8).
  unfold get at 1. rewrite rev_nth; rewrite length_le_bytes; [|lia].
  replace (n - S (Z.to_nat (i / 8)))%nat with (Z.to_nat (Z.of_nat n - 1 - i / 8)) by lia.
  fold (get (le_bytes n x) (Z.of_nat n - 1 - i / 8)).
  rewrite get_le_bytes by lia. change 256 with (2 ^ 8).
  rewrite Z.testbit_mod_pow2, Z.div_pow2_bits by lia.
  zdecide (i mod 8 <? 8). simpl. f_equal. lia.
Qed.

(** One round of the reversal swaps bit [i] with bit [i xor rotateBits]; the
    side condition is checked on all positions by computation. *)
Definition rotate_ok (mask s i : Z) : bool :=
  if Z.testbit mask i then negb (Z.testbit mask (i - s)) && (i + s =? Z.lxor i s)
  else Z.testbit mask (i - s) && (i - s =? Z.lxor i s).

Lemma rotateAndMask_testbit x mask s i :
  0 <= s -> forallb (rotate_ok mask s) (seqZ 0 64) = true -> 0 <= i < 64 ->
  Z.testbit (Bits_rotateAndMask x mask s) i = Z.testbit x (Z.lxor i s).
Proof.
  intros Hs Hall Hi. rewrite forallb_forall in Hall.
  assert (rotate_ok mask s i = true) as Hok.
  { apply Hall. apply list_elem_of_In, elem_of_seqZ. lia. }
  unfold Bits_rotateAndMask, u64.
  rewrite Z.lor_spec, Z.land_spec, Z.shiftr_spec, Z.testbit_mod_pow2, Z.shiftl_spec,
    Z.land_spec by lia. zdecide (i <? 64).
  unfold rotate_ok in Hok. destruct (Z.testbit mask i).
  - apply andb_prop in Hok as [H1 H2]. apply negb_true_iff in H1. apply Z.eqb_eq in H2.
    rewrite H1, H2, !andb_true_r, andb_false_r, orb_false_r. done.
  - apply andb_prop in Hok as [H1 H2]. apply Z.eqb_eq in H2.
    rewrite H1, H2, !andb_true_r, andb_false_r. done.
Qed.

Lemma Bits_bitReverse64_fits x : fits 64 (Bits_bitReverse64 x).
Proof. apply (bswap_fits 8). Qed.

Lemma Bits_bitReverse64_testbit x i :
  0 <= i < 64 -> Z.testbit (Bits_bitReverse64 x) i = Z.testbit x (63 - i).
Proof.
  intros Hi. unfold Bits_bitReverse64. rewrite bswap_testbit by lia.
  set (j := 8 * (Z.of_nat 8 - 1 - i / 8) + i mod 8).
  pose (ok i := let j := 8 * (Z.of_nat 8 - 1 - i / 8) + i mod 8 in
         let a := Z.lxor j 4 in let b := Z.lxor a 2 in
         (0 <=? j) && (j <? 64) && (0 <=? a) && (a <? 64) && (0 <=? b) && (b <? 64)
         && (Z.lxor b 1 =? 63 - i)).
  assert (ok i = true) as Hok.
  { assert (forallb ok (seqZ 0 64) = true) as Hall by (vm_compute; reflexivity).
    rewrite forallb_forall in Hall. apply Hall. apply list_elem_of_In, elem_of_seqZ. lia. }
  unfold ok in Hok. fold j in Hok. cbv zeta in Hok.
  repeat rewrite andb_true_iff in Hok. repeat rewrite ?Z.leb_le, ?Z.ltb_lt, ?Z.eqb_eq in Hok.
  destruct Hok as ((((((? & ?) & ?) & ?) & ?) & ?) & Heq).
  rewrite !rotateAndMask_testbit by (first [lia | vm_compute; reflexivity]).
  by rewrite Heq.
Qed.

Lemma Bits_bitReverse64_involutive x :
  fits 64 x -> Bits_bitReverse64 (Bits_bitReverse64 x) = x.
Proof.
  intros Hx. apply Z.bits_inj'. intros i Hi. destruct (Z.ltb_spec i 64).
  - rewrite !Bits_bitReverse64_testbit by lia. f_equal. lia.
  - rewrite (fits_testbit 64 x) by done. apply (fits_testbit 64); [|done].
    apply Bits_bitReverse64_fits.
Qed.

Lemma be32_bytes z : fits 32 z -> le_bytes 4 (Endian_hostToBigEndian32 z) = be_bytes 4 z.
Proof.
  intros Hz. unfold Endian_hostToBigEndian32, Endian_byteSwap32, u32. rewrite (fits_small 32) by done.
  apply (le_bytes_bswap 4).
Qed.

Lemma be64_bytes z : fits 64 z -> le_bytes 8 (Endian_hostToBigEndian64 z) = be_bytes 8 z.
Proof.
  intros Hz. unfold Endian_hostToBigEndian64, Endian_byteSwap64, u64. rewrite (fits_small 64) by done.
  apply (le_bytes_bswap 8).
Qed.

Lemma be16_bytes z : fits 16 z -> le_bytes 2 (Endian_hostToBigEndian16 z) = be_bytes 2 z.
Proof.
  intros Hz. unfold Endian_hostToBigEndian16, Endian_byteSwap16, u16. rewrite (fits_small 16) by done.
  apply (le_bytes_bswap 2).
Qed.
