(* ===== verification/Checksum.v ===== *)
(** * util/Checksum.h: the Internet checksum

    [addr] is the address of the buffer (its parity is asserted), [length] the
    number of bytes summed, a uint16_t. The 16-bit loads are host (little-endian) loads. *)
From S2P Require Import Prelude Bits.

(** ** Definitions *)

Definition Checksum_step (addr : Z) (buffer : list Z) (length state : Z) : Er Z :=
  let length := u16 length in
  Assert_true (addr mod 2 =? 0) ;;
  let state :=
    fold_left (fun state i => u32 (state + le_val [get buffer (2 * i); get buffer (2 * i + 1)]))
      (seqZ 0 (length / 2)) state in
  Ret (if negb (length mod 2 =? 0) then u32 (state + get buffer (length - 1)) else state).

Definition Checksum_step32 (content state : Z) : Z :=
  u32 (u32 (state + Z.shiftr content 16) + Z.land content 0xFFFF).

(** The folding loop; a 32-bit state needs at most two rounds. *)
Fixpoint complete_loop (fuel : nat) (state : Z) : Z :=
  match fuel with
  | O => state
  | S fuel =>
      if state >? 0xFFFF
      then complete_loop fuel (u32 (Z.shiftr state 16 + Z.land state 0xFFFF))
      else state
  end.
Definition Checksum_complete_be (state : Z) : Z :=
  u16 (Z.lnot (complete_loop 2 state)).

Definition Checksum_engine_be (addr : Z) (buffer : list Z) (length : Z) : Er Z :=
  Assert_true (addr mod 2 =? 0) ;;
  state ← Checksum_step addr buffer length 0;
  Ret (Checksum_complete_be state).

Definition Checksum_Ip6_be (addrA : Z) (sourceAndDestAddrs : list Z)
    (addrP : Z) (packetHeaderAndContent : list Z) (length packetType_be : Z) : Er Z :=
  let length := u16 length in
  Assert_true (addrA mod 2 =? 0) ;;
  Assert_true (addrP mod 2 =? 0) ;;
  sum ← Checksum_step addrA sourceAndDestAddrs 32 0;
  let length_be := Endian_hostToBigEndian32 length in
  let sum := Checksum_step32 length_be sum in
  let sum := Checksum_step32 packetType_be sum in
  sum ← Checksum_step addrP packetHeaderAndContent length sum;
  Ret (Checksum_complete_be sum).

Definition Checksum_udpIp6_be addrA sourceAndDestAddrs addrP udpHeaderAndContent length :=
  Checksum_Ip6_be addrA sourceAndDestAddrs addrP udpHeaderAndContent length
    (Endian_hostToBigEndian32 17).

Definition Checksum_icmp6_be addrA sourceAndDestAddrs addrP icmpHeaderAndContent length :=
  Checksum_Ip6_be addrA sourceAndDestAddrs addrP icmpHeaderAndContent length
    (Endian_hostToBigEndian32 58).

(** ** Specification: the sum of the 16-bit words, and its one's complement *)

(** Unbounded sum of the little-endian 16-bit words, the odd byte last. *)
Fixpoint wsum (l : list Z) : Z :=
  match l with
  | a :: b :: l => a + 256 * b + wsum l
  | [a] => a
  | [] => 0
  end.

Lemma get_cons2 a b l i : 0 <= i -> get (a :: b :: l) (i + 2) = get l i.
Proof. intros. unfold get. by replace (Z.to_nat (i + 2)) with (S (S (Z.to_nat i))) by lia. Qed.

Lemma fold_left_seqZ_shift {A} (f g : A -> Z -> A) n s :
  (forall x i, 0 <= i -> f x (1 + i) = g x i) ->
  fold_left f (seqZ 1 n) s = fold_left g (seqZ 0 n) s.
Proof.
  intros Hfg. replace (seqZ 1 n) with (Z.add 1 <$> seqZ 0 n) by apply fmap_add_seqZ.
  assert (Forall (fun i => 0 <= i) (seqZ 0 n)) as Hall.
  { apply Forall_forall. intros i Hi%elem_of_seqZ. lia. }
  revert s. induction Hall as [|i l Hi _ IH]; intros s; simpl; [done|].
  by rewrite Hfg, IH.
Qed.

Lemma u32_add_l a b : u32 (u32 a + b) = u32 (a + b).
Proof. unfold u32. apply Zplus_mod_idemp_l. Qed.

Lemma step_loop_wsum l s :
  fits 32 s ->
  (let state := fold_left (fun state i => u32 (state + le_val [get l (2 * i); get l (2 * i + 1)]))
      (seqZ 0 (len l / 2)) s in
   if negb (len l mod 2 =? 0) then u32 (state + get l (len l - 1)) else state)
  = u32 (s + wsum l).
Proof.
  revert s. induction l as [|a|a b l IH] using list_pair_ind; intros s Hs.
  - simpl. rewrite Z.add_0_r. symmetry. by apply fits_small.
  - done.
  - cbn [wsum]. cbv zeta.
    assert (len (a :: b :: l) = len l + 1 * 2) as -> by (simpl length; lia).
    rewrite Z.div_add, Z.mod_add by done.
    assert (0 <= len l / 2) by (apply Z.div_pos; lia).
    rewrite seqZ_cons by lia. replace (Z.pred (len l / 2 + 1)) with (len l / 2) by lia.
    cbn [fold_left].
    rewrite (fold_left_seqZ_shift _
      (fun state i => u32 (state + le_val [get l (2 * i); get l (2 * i + 1)]))); last first.
    { intros x i Hi. replace (2 * (1 + i)) with (2 * i + 2) by lia.
      replace (2 * i + 2 + 1) with (2 * i + 1 + 2) by lia. by rewrite !get_cons2 by lia. }
    cbv zeta in IH. specialize (IH (u32 (s + le_val [a; b]))).
    rewrite u32_add_l in IH. cbn [le_val] in IH.
    replace (s + (a + 256 * b + wsum l)) with (s + (a + 256 * (b + 256 * 0)) + wsum l) by lia.
    rewrite <- IH by (by apply fits_mod).
    change (get (a :: b :: l) (2 * 0)) with a. change (get (a :: b :: l) (2 * 0 + 1)) with b.
    cbn [le_val]. destruct (Z.eqb_spec (len l mod 2) 0); [done|]. simpl negb. cbv iota.
    assert (1 <= len l) by (destruct l; [done|simpl length; lia]).
    replace (len l + 1 * 2 - 1) with (len l - 1 + 2) by lia.
    by rewrite get_cons2 by lia.
Qed.

(** Lengths of packets fit. *)
Lemma u16_length {A} (l : list A) : len l <= 65535 -> u16 (len l) = len l.
Proof. intros. unfold u16. apply Z.mod_small. change (2 ^ 16) with 65536. lia. Qed.

Lemma Checksum_step_wsum addr buffer state :
  addr mod 2 = 0 -> len buffer <= 65535 -> fits 32 state ->
  Checksum_step addr buffer (len buffer) state = Ret (u32 (state + wsum buffer)).
Proof.
  intros Ha Hl Hs. unfold Checksum_step. rewrite u16_length by done. rewrite Ha. simpl Assert_true. cbv beta iota.
  simpl mbind. by rewrite step_loop_wsum.
Qed.

Lemma wsum_bound l : bytes l -> 0 <= wsum l /\ wsum l <= 65535 * ((len l + 1) / 2).
Proof.
  induction l as [|a|a b l IH] using list_pair_ind; intros Hb.
  - done.
  - apply Forall_cons in Hb as [Ha _]. unfold fits in Ha. change (2 ^ 8) with 256 in Ha.
    cbn [wsum length]. change ((Z.of_nat 1 + 1) / 2) with 1. lia.
  - apply Forall_cons in Hb as [Ha Hb]. apply Forall_cons in Hb as [Hb Hl].
    destruct (IH Hl) as [IH1 IH2]. unfold fits in Ha, Hb. change (2 ^ 8) with 256 in *.
    cbn [wsum length]. replace (Z.of_nat (S (S (length l))) + 1) with (len l + 1 + 1 * 2) by lia.
    rewrite Z.div_add by done. lia.
Qed.

Lemma wsum_app_even l1 l2 : len l1 mod 2 = 0 -> wsum (l1 ++ l2) = wsum l1 + wsum l2.
Proof.
  induction l1 as [|a|a b l IH] using list_pair_ind; intros Hm; [done|done|].
  cbn [app wsum]. rewrite IH; [lia|].
  replace (len (a :: b :: l)) with (len l + 1 * 2) in Hm by (simpl length; lia).
  by rewrite Z.mod_add in Hm.
Qed.

(** The folded value is the representative of the sum modulo 65535 in
    [1..65535], or 0 for 0. *)
Definition fold16 (s : Z) : Z := if s =? 0 then 0 else (s - 1) mod 65535 + 1.

Lemma fold_round s :
  fits 32 s -> 0xFFFF < s ->
  let s' := u32 (Z.shiftr s 16 + Z.land s 0xFFFF) in
  s' = s / 65536 + s mod 65536 /\ fold16 s' = fold16 s /\ 0 < s' <= 131070.
Proof.
  intros Hs Hgt. change 0xFFFF with (Z.ones 16). rewrite Z.land_ones, Z.shiftr_div_pow2 by done.
  change (2 ^ 16) with 65536. unfold fits in Hs. change (2 ^ 32) with 4294967296 in Hs.
  assert (0 <= s / 65536 <= 65535) by (split; [apply Z.div_pos|apply Z.lt_succ_r, Z.div_lt_upper_bound]; lia).
  pose proof (Z.mod_pos_bound s 65536). pose proof (Z.div_mod s 65536).
  cbv zeta. assert (u32 (s / 65536 + s mod 65536) = s / 65536 + s mod 65536) as ->.
  { unfold u32. apply Z.mod_small. change (2 ^ 32) with 4294967296. lia. }
  assert (0 < s / 65536) by (apply Z.div_str_pos; lia).
  split; [done|]. split; [|lia].
  unfold fold16. zdecide (s / 65536 + s mod 65536 =? 0). zdecide (s =? 0). f_equal.
  assert (s - 1 = s / 65536 + s mod 65536 - 1 + (s / 65536) * 65535) as Heq by lia.
  rewrite Heq. by rewrite Z.mod_add.
Qed.

Lemma complete_loop_fold16 s : fits 32 s -> complete_loop 2 s = fold16 s.
Proof.
  intros Hs.
  assert (forall t, 0 <= t <= 65535 -> fold16 t = t) as Hsmall.
  { intros t Ht. unfold fold16. destruct (Z.eqb_spec t 0) as [->|]; [done|].
    rewrite Z.mod_small; lia. }
  cbn [complete_loop]. rewrite Z.gtb_ltb. destruct (Z.ltb_spec 0xFFFF s) as [H|H].
  2:{ symmetry. apply Hsmall. destruct Hs. lia. }
  destruct (fold_round s Hs H) as (Heq & Hf & Hb). rewrite <- Hf. clear Hf Heq.
  set (t := u32 _) in *. clearbody t.
  rewrite Z.gtb_ltb. destruct (Z.ltb_spec 0xFFFF t) as [H'|H']; [|symmetry; apply Hsmall; lia].
  assert (fits 32 t) as Ht by (unfold fits; change (2 ^ 32) with 4294967296; lia).
  destruct (fold_round t Ht H') as (Heq & Hf & Hb'). rewrite <- Hf.
  symmetry. apply Hsmall. rewrite Heq.
  pose proof (Z.mod_pos_bound t 65536). pose proof (Z.div_mod t 65536).
  assert (t / 65536 = 1) by (symmetry; apply (Z.div_unique _ _ _ (t - 65536)); lia). lia.
Qed.

Lemma fold16_range s : 0 <= s -> 0 <= fold16 s <= 65535 /\ (0 < s -> 0 < fold16 s).
Proof.
  intros ?. unfold fold16. destruct (Z.eqb_spec s 0); [lia|].
  pose proof (Z.mod_pos_bound (s - 1) 65535). lia.
Qed.

(** The checksum of a 32-bit sum is 65535 minus its folding. *)
Lemma Checksum_complete_be_fold s :
  fits 32 s -> Checksum_complete_be s = 65535 - fold16 s.
Proof.
  intros Hs. unfold Checksum_complete_be. rewrite complete_loop_fold16 by done.
  destruct (fold16_range s) as [? _]; [apply Hs|]. unfold u16, Z.lnot.
  symmetry. apply (Z.mod_unique _ _ (-1)); change (2 ^ 16) with 65536; lia.
Qed.

(** Adding the checksum of [s] to [s] gives a sum whose checksum is 0. *)
Lemma Checksum_complete_be_verify s :
  0 <= s < 2 ^ 32 - 65535 -> Checksum_complete_be (s + Checksum_complete_be s) = 0.
Proof.
  intros Hs'. assert (fits 32 s) as Hs by (unfold fits; lia).
  rewrite (Checksum_complete_be_fold s Hs).
  destruct (fold16_range s) as [Hr Hp]; [apply Hs|].
  change (2 ^ 32) with 4294967296 in Hs'.
  rewrite Checksum_complete_be_fold by (unfold fits; change (2 ^ 32) with 4294967296; lia).
  enough (fold16 (s + (65535 - fold16 s)) = 65535) by lia.
  unfold fold16 at 1. destruct (Z.eqb_spec s 0) as [->|Hs0]; [done|].
  zdecide (s + (65535 - fold16 s) =? 0).
  unfold fold16. zdecide (s =? 0).
  pose proof (Z.div_mod (s - 1) 65535).
  enough ((s + (65535 - ((s - 1) mod 65535 + 1)) - 1) mod 65535 = 65534) by lia.
  symmetry. apply (Z.mod_unique _ _ ((s - 1) / 65535)); lia.
Qed.

(** ** Properties *)

(** A packet [pre ++ field ++ post] whose two-byte checksum field sits at an
    even offset, with a given field content. *)
Definition with_field (pre post : list Z) (ck : Z) : list Z := pre ++ le_bytes 2 ck ++ post.

Lemma wsum_with_field pre post ck :
  len pre mod 2 = 0 -> fits 16 ck -> wsum (with_field pre post ck) = wsum (with_field pre post 0) + ck.
Proof.
  intros He Hck. unfold with_field. rewrite !wsum_app_even by done. cbn [le_bytes app wsum].
  unfold fits in Hck. change (2 ^ 16) with 65536 in Hck.
  assert (ck / 256 mod 256 = ck / 256) as ->.
  { apply Z.mod_small. split; [apply Z.div_pos; lia|apply Z.div_lt_upper_bound; lia]. }
  change (0 mod 256) with 0. change (0 / 256 mod 256) with 0. pose proof (Z.div_mod ck 256). lia.
Qed.

Lemma length_with_field pre post ck ck' :
  len (with_field pre post ck) = len (with_field pre post ck').
Proof. unfold with_field. by rewrite !length_app, !length_le_bytes. Qed.

Lemma with_field_bytes pre post ck : bytes pre -> bytes post -> bytes (with_field pre post ck).
Proof. intros. unfold with_field. rewrite !Forall_app. auto with fits. Qed.

Lemma wsum_fits31 l : bytes l -> len l <= 65535 -> fits 31 (wsum l).
Proof.
  intros Hb Hl. destruct (wsum_bound l Hb) as [? Hu].
  assert ((len l + 1) / 2 <= 32768) by (apply Z.div_le_upper_bound; lia).
  unfold fits. change (2 ^ 31) with 2147483648. lia.
Qed.

Lemma Checksum_engine_be_wsum addr buffer :
  addr mod 2 = 0 -> bytes buffer -> len buffer <= 65535 ->
  Checksum_engine_be addr buffer (len buffer) = Ret (Checksum_complete_be (wsum buffer)).
Proof.
  intros Ha Hb Hl. unfold Checksum_engine_be. rewrite Ha. simpl Assert_true. simpl.
  rewrite Checksum_step_wsum by done. simpl. f_equal. f_equal.
  apply fits_small, (fits_mono 31); [lia|]. by apply wsum_fits31.
Qed.

Lemma Checksum_complete_be_fits s : fits 16 (Checksum_complete_be s).
Proof. by apply fits_mod. Qed.

Lemma checksum_step32_sum c s :
  fits 32 c -> 0 <= s -> s + 131070 < 2 ^ 32 ->
  exists d, Checksum_step32 c s = s + d /\ 0 <= d <= 131070.
Proof.
  intros Hc Hs Hb. exists (Z.shiftr c 16 + Z.land c 0xFFFF).
  assert (fits 16 (Z.shiftr c 16)) as [H1 H2] by (by apply (fits_shiftr 32 16)).
  assert (fits 16 (Z.land c 0xFFFF)) as [H3 H4] by (apply fits_land_r; [done|apply Hc|done]).
  change (2 ^ 16) with 65536 in *. change (2 ^ 32) with 4294967296 in *. split; [|lia].
  unfold Checksum_step32, u32. rewrite Zplus_mod_idemp_l, Z.mod_small; lia.
Qed.

(** The checksum stored in its field makes the whole verify; it is a 16-bit
    number. *)
Lemma engine_field addr pre post :
  addr mod 2 = 0 -> bytes pre -> bytes post -> len pre mod 2 = 0 ->
  len (with_field pre post 0) <= 65535 ->
  exists ck, fits 16 ck /\
    Checksum_engine_be addr (with_field pre post 0) (len (with_field pre post 0)) = Ret ck /\
    forall addr', addr' mod 2 = 0 ->
      Checksum_engine_be addr' (with_field pre post ck) (len (with_field pre post ck)) = Ret 0.
Proof.
  intros Ha Hpre Hpost He Hl.
  rewrite Checksum_engine_be_wsum by auto using with_field_bytes.
  eexists. split; [|split; [reflexivity|]]; [apply Checksum_complete_be_fits|].
  set (ck := Checksum_complete_be _). intros addr' Ha'.
  rewrite Checksum_engine_be_wsum; [|done|by apply with_field_bytes|
    by rewrite (length_with_field _ _ _ 0)].
  f_equal. rewrite wsum_with_field by (done || apply Checksum_complete_be_fits).
  apply Checksum_complete_be_verify.
  destruct (wsum_fits31 (with_field pre post 0)) as [? Hu]; [by apply with_field_bytes|done|].
  change (2 ^ 31) with 2147483648 in Hu. change (2 ^ 32) with 4294967296. lia.
Qed.

(** Control packets: when the checksum computed over a packet with a zeroed
    checksum field is stored in that field, checksumming the packet again gives
    0, which is the test the receiver makes. Any even field offset and any
    packet of at most 65535 bytes. *)
Theorem checksum_engine_verifies addr pre post :
  addr mod 2 = 0 -> bytes pre -> bytes post -> len pre mod 2 = 0 ->
  len (with_field pre post 0) <= 65535 ->
  exists ck,
    Checksum_engine_be addr (with_field pre post 0) (len (with_field pre post 0)) = Ret ck /\
    Checksum_engine_be addr (with_field pre post ck) (len (with_field pre post ck)) = Ret 0.
Proof.
  intros Ha Hpre Hpost He Hl.
  destruct (engine_field addr pre post Ha Hpre Hpost He Hl) as (ck & _ & Hck & Hv).
  exists ck. auto.
Qed.

Lemma checksum_engine_verifies_witness :
  exists ck,
    Checksum_engine_be 8 (with_field [1; 2] [3; 4; 255] 0) (len (with_field [1; 2] [3; 4; 255] 0)) = Ret ck /\
    Checksum_engine_be 8 (with_field [1; 2] [3; 4; 255] ck) (len (with_field [1; 2] [3; 4; 255] ck)) = Ret 0.
Proof.
  apply (checksum_engine_verifies 8 [1; 2] [3; 4; 255]).
  - reflexivity.
  - repeat constructor; done.
  - repeat constructor; done.
  - reflexivity.
  - vm_compute. discriminate.
Defined.

Lemma Checksum_Ip6_be_sum addrA ips addrP pkt ty :
  addrA mod 2 = 0 -> addrP mod 2 = 0 -> bytes ips -> len ips = 32 -> bytes pkt ->
  len pkt <= 65535 -> fits 32 ty ->
  exists base, 0 <= base <= 1310700 /\
    (forall pkt', bytes pkt' -> len pkt' = len pkt ->
      Checksum_Ip6_be addrA ips addrP pkt' (len pkt') ty = Ret (Checksum_complete_be (base + wsum pkt'))).
Proof.
  intros HA HP Hi Hi32 Hp Hl Hty.
  destruct (wsum_bound ips Hi) as [Hw0 Hw1]. rewrite Hi32 in Hw1.
  change ((32 + 1) / 2) with 16 in Hw1.
  assert (fits 32 (Endian_hostToBigEndian32 (len pkt))) as Hbe by apply (bswap_fits 4).
  destruct (checksum_step32_sum _ (wsum ips) Hbe) as (d1 & E1 & Hd1);
    [lia|change (2 ^ 32) with 4294967296; lia|].
  destruct (checksum_step32_sum ty (wsum ips + d1) Hty) as (d2 & E2 & Hd2);
    [lia|change (2 ^ 32) with 4294967296; lia|].
  exists (wsum ips + d1 + d2). split; [lia|]. intros pkt' Hp' Hl'.
  unfold Checksum_Ip6_be. rewrite u16_length by lia. rewrite HA, HP. simpl Assert_true. simpl.
  rewrite <- Hi32 at 1. rewrite Checksum_step_wsum by (done || lia). simpl.
  assert (u32 (0 + wsum ips) = wsum ips) as ->
    by (apply Z.mod_small; change (2 ^ 32) with 4294967296; lia).
  rewrite Hl', E1, E2, <- Hl'.
  assert (fits 32 (wsum ips + d1 + d2)) by (unfold fits; change (2 ^ 32) with 4294967296; lia).
  rewrite Checksum_step_wsum by (done || lia). simpl. f_equal. f_equal. apply Z.mod_small.
  destruct (wsum_fits31 pkt' Hp') as [? Hu]; [lia|].
  change (2 ^ 31) with 2147483648 in Hu. change (2 ^ 32) with 4294967296. lia.
Qed.

(** UDP and ICMPv6 packets: with the pseudo-header (addresses, length, next
    header), the checksum stored in its field makes the whole sum verify to 0. *)
Theorem checksum_ip6_verifies addrA ips addrP pre post ty :
  addrA mod 2 = 0 -> addrP mod 2 = 0 -> bytes ips -> len ips = 32 ->
  bytes pre -> bytes post -> len pre mod 2 = 0 -> fits 32 ty ->
  len (with_field pre post 0) <= 65535 ->
  exists ck,
    Checksum_Ip6_be addrA ips addrP (with_field pre post 0) (len (with_field pre post 0)) ty = Ret ck /\
    Checksum_Ip6_be addrA ips addrP (with_field pre post ck) (len (with_field pre post ck)) ty = Ret 0.
Proof.
  intros HA HP Hi Hi32 Hpre Hpost He Hty Hl.
  destruct (Checksum_Ip6_be_sum addrA ips addrP (with_field pre post 0) ty) as (base & Hb & Hsum);
    auto using with_field_bytes.
  rewrite Hsum by auto using with_field_bytes.
  eexists. split; [reflexivity|]. set (ck := Checksum_complete_be _).
  rewrite Hsum by (auto using with_field_bytes, length_with_field). f_equal.
  rewrite wsum_with_field by (done || apply Checksum_complete_be_fits).
  rewrite Z.add_assoc. apply Checksum_complete_be_verify.
  destruct (wsum_fits31 (with_field pre post 0)) as [? Hu]; [by apply with_field_bytes|done|].
  change (2 ^ 31) with 2147483648 in Hu. change (2 ^ 32) with 4294967296. lia.
Qed.

Lemma checksum_ip6_verifies_witness :
  exists ck,
    Checksum_udpIp6_be 0 (zeros 32) 4 (with_field [1; 2] [3; 4; 255] 0) 7 = Ret ck /\
    Checksum_udpIp6_be 0 (zeros 32) 4 (with_field [1; 2] [3; 4; 255] ck) 7 = Ret 0.
Proof.
  apply (checksum_ip6_verifies 0 (zeros 32) 4 [1; 2] [3; 4; 255] (Endian_hostToBigEndian32 17)).
  all: try reflexivity.
  - repeat constructor; done.
  - repeat constructor; done.
  - repeat constructor; done.
  - apply (bswap_fits 4).
  - vm_compute. discriminate.
Defined.
