(* ===== verification/VarInt.v ===== *)
(** * util/VarInt.h: the variable-length integers of the announce protocol

    An iterator is three offsets into a byte array [mem]; [VarInt_push] writes
    backwards from [ptr], [VarInt_pop] reads forwards. *)
From S2P Require Import Prelude.

(** ** Definitions *)

Record VarInt_Iter := mkIter { ptr : Z; end_ : Z; start : Z }.

Definition VarInt_clone (inp : VarInt_Iter) : VarInt_Iter :=
  {| ptr := ptr inp; end_ := end_ inp; start := start inp |}.
Definition VarInt_mk (p length : Z) : VarInt_Iter :=
  {| ptr := p; end_ := p + length; start := p |}.
Definition VarInt_toStart (iter : VarInt_Iter) : VarInt_Iter :=
  {| ptr := start iter; end_ := end_ iter; start := start iter |}.
Definition VarInt_toEnd (iter : VarInt_Iter) : VarInt_Iter :=
  {| ptr := end_ iter; end_ := end_ iter; start := start iter |}.
Definition VarInt_hasMore (iter : VarInt_Iter) : bool := end_ iter >? ptr iter.

Definition VarInt_sizeOf (val : Z) : Z :=
  nz (Z.shiftr val 32) * 4 + nz (Z.shiftr val 16) * 2
  + nz (Z.shiftr (u64 (val + 3)) 8) + 1.

(** [out |= *++bytes; out <<= 8;] *)
Definition pop_step (mem : list Z) (st : Z * Z) : Z * Z :=
  let bytes := snd st + 1 in
  (u64 (Z.shiftl (Z.lor (fst st) (get mem bytes)) 8), bytes).

(** Returns the status, the iterator and [*_out]. *)
Definition VarInt_pop (mem : list Z) (iter : VarInt_Iter) : Z * VarInt_Iter * option Z :=
  let b := get mem (ptr iter) in
  let len := end_ iter - ptr iter in
  let short :=
    if len <? 9 then
      if len <? 5 then
        if len <? 3 then (len <? 1) || (b >=? 0xfd)
        else b >=? 0xfe
      else b >=? 0xff
    else false in
  if short then (-1, iter, None) else
  let st := (0, ptr iter) in
  let st := if b =? 0xff then Nat.iter 4 (pop_step mem) st else st in
  let st := if (b =? 0xff) || (b =? 0xfe) then Nat.iter 2 (pop_step mem) st else st in
  let st := if (b =? 0xff) || (b =? 0xfe) || (b =? 0xfd)
            then let st := pop_step mem st in (fst st, snd st + 1) else st in
  let out := Z.lor (fst st) (get mem (snd st)) in
  (0, {| ptr := snd st + 1; end_ := end_ iter; start := start iter |}, Some out).

(** [for (int j = 0; j < i; j++) { *--ptr = val & 0xff; val >>= 8; }] *)
Fixpoint push_loop (i : nat) (mem : list Z) (p val : Z) : list Z * Z :=
  match i with
  | O => (mem, p)
  | S i => push_loop i (set mem (p - 1) (Z.land val 0xff)) (p - 1) (Z.shiftr val 8)
  end.

(** Returns the status, the iterator and the memory. *)
Definition VarInt_push (mem : list Z) (iter : VarInt_Iter) (val : Z) : Z * VarInt_Iter * list Z :=
  let padding := ptr iter - start iter in
  let short :=
    if padding <? 9 then
      if padding <? 5 then
        if padding <? 3 then (padding <? 1) || (val >? 0xfc)
        else val >? 0xffff
      else val >? 0xffffffff
    else false in
  if short then (-1, iter, mem) else
  let i := VarInt_sizeOf val in
  let '(mem, p) := push_loop (Z.to_nat i) mem (ptr iter) val in
  let '(mem, p) :=
    if i =? 8 then (set mem (p - 1) 0xff, p - 1)
    else if i =? 4 then (set mem (p - 1) 0xfe, p - 1)
    else if i =? 2 then (set mem (p - 1) 0xfd, p - 1)
    else (mem, p) in
  (0, {| ptr := p; end_ := end_ iter; start := start iter |}, mem).

(** ** Lemmas *)

(** An iterator inside its array. *)
Definition iter_ok (mem : list Z) (iter : VarInt_Iter) : Prop :=
  0 <= start iter <= ptr iter /\ ptr iter <= end_ iter <= len mem.

Lemma nz_shiftr v n : 0 <= n -> 0 <= v -> nz (Z.shiftr v n) = if v <? 2 ^ n then 0 else 1.
Proof.
  intros Hn Hv. unfold nz. rewrite Z.shiftr_div_pow2 by done.
  destruct (Z.ltb_spec v (2 ^ n)).
  - by rewrite Z.div_small.
  - destruct (Z.eqb_spec (v / 2 ^ n) 0) as [E|]; [|done].
    apply Z.div_small_iff in E; lia.
Qed.

(** The size written, by range. *)
Lemma VarInt_sizeOf_spec val :
  0 <= val < 2 ^ 64 - 3 ->
  VarInt_sizeOf val =
    if val <? 0xfd then 1 else if val <? 0x10000 then 2 else if val <? 0x100000000 then 4 else 8.
Proof.
  intros Hv. unfold VarInt_sizeOf.
  assert (u64 (val + 3) = val + 3) as -> by (apply Z.mod_small; lia).
  rewrite !nz_shiftr by lia. change (2 ^ 32) with 0x100000000. change (2 ^ 16) with 0x10000.
  change (2 ^ 8) with 0x100. zcases.
Qed.

Lemma push_loop_spec i mem p val :
  0 <= val -> Z.of_nat i <= p <= len mem ->
  exists mem', push_loop i mem p val = (mem', p - Z.of_nat i) /\ length mem' = length mem /\
    (forall j, 0 <= j < Z.of_nat i -> get mem' (p - Z.of_nat i + j) = get (be_bytes i val) j) /\
    (forall j, 0 <= j -> j < p - Z.of_nat i \/ p <= j -> get mem' j = get mem j).
Proof.
  revert mem p val. induction i as [|i IH]; intros mem p val Hv Hp.
  { exists mem. simpl. rewrite Z.sub_0_r. repeat split; auto; intros; lia. }
  cbn [push_loop]. destruct (IH (set mem (p - 1) (Z.land val 0xff)) (p - 1) (Z.shiftr val 8))
    as (mem' & E & Hl & Hin & Hout).
  { by apply Z.shiftr_nonneg. }
  { rewrite length_set. lia. }
  exists mem'. rewrite E. rewrite length_set in Hl. split; [f_equal; lia|]. split; [done|].
  change 0xff with (Z.ones 8) in *. rewrite Z.land_ones in * by done. change (2 ^ 8) with 256 in *.
  rewrite Z.shiftr_div_pow2 in Hin by done. change (2 ^ 8) with 256 in Hin.
  split.
  - intros j Hj. rewrite be_bytes_S. unfold get at 2.
    destruct (decide (j = Z.of_nat i)) as [->|].
    + rewrite Nat2Z.id, app_nth2; rewrite length_be_bytes; [|lia].
      rewrite Nat.sub_diag. replace (p - Z.of_nat (S i) + Z.of_nat i) with (p - 1) by lia.
      rewrite Hout by lia. rewrite get_set_eq by lia. done.
    + rewrite app_nth1 by (rewrite length_be_bytes; lia).
      fold (get (be_bytes i (val / 256)) j). rewrite <- Hin by lia. f_equal. lia.
  - intros j Hj Hor. rewrite Hout by lia. apply get_set_ne; lia.
Qed.

(** Reading [n] bytes accumulates them big-endian, shifted by one byte. *)
Lemma pop_steps mem p n st l :
  bytes l -> snd st = p -> fst st = 256 * be_val l ->
  (length l + n <= 7)%nat -> bytes mem ->
  exists l', bytes l' /\ length l' = (length l + n)%nat /\
    Nat.iter n (pop_step mem) st = (256 * be_val l', p + Z.of_nat n) /\
    l' = l ++ map (fun j => get mem (p + 1 + j)) (seqZ 0 (Z.of_nat n)).
Proof.
  intros Hl Hp Hst Hn Hmem. induction n as [|n IH].
  { exists l. rewrite Nat.add_0_r, app_nil_r, Z.add_0_r. repeat split; auto.
    simpl. destruct st; simpl in *. by subst. }
  destruct IH as (l' & Hl' & Hlen & Eit & El); [lia|].
  assert (byte (get mem (p + 1 + Z.of_nat n))) as Hb by (by apply get_bytes).
  exists (l' ++ [get mem (p + 1 + Z.of_nat n)]). split; [|split; [|split]].
  - apply Forall_app; auto.
  - rewrite length_app. simpl. lia.
  - simpl Nat.iter. rewrite Eit. unfold pop_step. cbn [fst snd].
    replace (p + Z.of_nat n + 1) with (p + 1 + Z.of_nat n) by lia.
    rewrite lor_byte by done. rewrite <- be_val_snoc. f_equal; [|lia].
    rewrite Z.shiftl_mul_pow2 by done. unfold u64. rewrite Z.mul_comm.
    apply Z.mod_small. change (2 ^ 8) with 256.
    assert (bytes (l' ++ [get mem (p + 1 + Z.of_nat n)])) as Hb' by (apply Forall_app; auto).
    apply be_val_bound in Hb' as [H1 H2].
    assert (2 ^ (8 * len (l' ++ [get mem (p + 1 + Z.of_nat n)])) <= 2 ^ 56).
    { apply Z.pow_le_mono_r; [lia|]. rewrite length_app. simpl. lia. }
    change (2 ^ 64) with (256 * 2 ^ 56). nia.
  - rewrite El, <- app_assoc. f_equal.
    rewrite seqZ_S, map_app. done.
Qed.

(** The reference encoding of a value. *)
Definition encoding (val : Z) : list Z :=
  if val <? 0xfd then [val]
  else if val <? 0x10000 then 0xfd :: be_bytes 2 val
  else if val <? 0x100000000 then 0xfe :: be_bytes 4 val
  else 0xff :: be_bytes 8 val.

(** [mem] holds [bs] at offset [p]. *)
Definition holds (mem : list Z) (p : Z) (bs : list Z) : Prop :=
  forall j, 0 <= j < len bs -> get mem (p + j) = get bs j.

Lemma holds_tail mem p b bs : holds mem p (b :: bs) -> get mem p = b /\ holds mem (p + 1) bs.
Proof.
  intros H. split.
  - specialize (H 0). rewrite Z.add_0_r in H. apply H. simpl length. lia.
  - intros j Hj. specialize (H (1 + j)). rewrite Z.add_assoc in H. rewrite H.
    + unfold get. by replace (Z.to_nat (1 + j)) with (S (Z.to_nat j)) by lia.
    + simpl length. lia.
Qed.

Lemma holds_seq mem p bs :
  holds mem p bs -> map (fun j => get mem (p + j)) (seqZ 0 (len bs)) = bs.
Proof.
  intros H. apply (list_eq_same_length _ _ (length bs)); [done| |].
  { rewrite length_map, length_seqZ. lia. }
  intros i x y Hi Hx Hy. change (map ?f ?l) with (f <$> l) in Hx.
  rewrite list_lookup_fmap, lookup_seqZ_lt in Hx by lia. simpl in Hx.
  injection Hx as <-. rewrite Z.add_0_l, H by lia. unfold get. rewrite Nat2Z.id, nth_lookup, Hy. done.
Qed.

(** Reading a tagged value: [n] accumulating steps, the last of them followed by
    a plain byte. *)
Lemma pop_tagged mem p n val :
  bytes mem -> holds mem (p + 1) (be_bytes (S n) val) -> fits (8 * Z.of_nat (S n)) val -> (n <= 7)%nat ->
  exists out, Nat.iter n (pop_step mem) (0, p) = (out, p + Z.of_nat n) /\
    Z.lor out (get mem (p + Z.of_nat n + 1)) = val.
Proof.
  intros Hmem Hh Hv Hn.
  destruct (pop_steps mem p n (0, p) []) as (l & Hl & Hlen & Eit & El); auto.
  eexists. split; [exact Eit|].
  assert (byte (get mem (p + Z.of_nat n + 1))) as Hb by (by apply get_bytes).
  rewrite lor_byte, <- be_val_snoc by done.
  enough (l ++ [get mem (p + Z.of_nat n + 1)] = be_bytes (S n) val) as ->.
  { rewrite be_val_bytes. by apply fits_small. }
  rewrite <- (holds_seq mem (p + 1) (be_bytes (S n) val) Hh), length_be_bytes, El.
  rewrite seqZ_S, map_app. by replace (p + Z.of_nat n + 1) with (p + 1 + (0 + Z.of_nat n)) by lia.
Qed.

Lemma VarInt_pop_encoding mem iter val :
  bytes mem -> fits 64 val -> holds mem (ptr iter) (encoding val) ->
  len (encoding val) <= end_ iter - ptr iter ->
  VarInt_pop mem iter =
    (0, {| ptr := ptr iter + len (encoding val); end_ := end_ iter; start := start iter |}, Some val).
Proof.
  intros Hmem Hv Hh Hlen. unfold encoding in *. destruct iter as [p e s]. cbn [ptr end_ start] in *.
  unfold VarInt_pop. cbn [ptr end_ start].
  destruct (Z.ltb_spec val 0xfd) as [H1|H1]; [|destruct (Z.ltb_spec val 0x10000) as [H2|H2];
    [|destruct (Z.ltb_spec val 0x100000000) as [H3|H3]]].
  all: apply holds_tail in Hh as [Hb Hh]; rewrite Hb;
    cbn [length] in *; rewrite ?length_be_bytes in *.
  - destruct Hv as [Hv _].
    zdecide (val =? 0xff). zdecide (val =? 0xfe). zdecide (val =? 0xfd).
    rewrite !Z.geb_leb. zdecide (0xfd <=? val). zdecide (0xfe <=? val). zdecide (0xff <=? val).
    zdecide (e - p <? 1). cbn [orb fst snd].
    replace (if e - p <? 9 then _ else false) with false by zcases.
    rewrite Hb, Z.lor_0_l. done.
  - destruct (pop_tagged mem p 1 val Hmem Hh) as (out & Eit & Elor);
      [split; [lia|change (2 ^ (8 * Z.of_nat 2)) with 0x10000; lia]|lia|].
    simpl (_ =? _). simpl (_ >=? _). cbn [orb]. zdecide (e - p <? 3).
    replace (if e - p <? 9 then _ else false) with false by zcases.
    simpl Nat.iter in Eit. rewrite Eit. cbn [fst snd]. rewrite Elor.
    by replace (p + Z.of_nat 1 + 1 + 1) with (p + Z.of_nat 3) by lia.
  - destruct (pop_tagged mem p 3 val Hmem Hh) as (out & Eit & Elor);
      [split; [lia|change (2 ^ (8 * Z.of_nat 4)) with 0x100000000; lia]|lia|].
    simpl (_ =? _). simpl (_ >=? _). cbn [orb]. zdecide (e - p <? 5).
    replace (if e - p <? 9 then _ else false) with false by zcases.
    change (pop_step mem (Nat.iter 2 (pop_step mem) (0, p))) with (Nat.iter 3 (pop_step mem) (0, p)).
    rewrite Eit. cbn [fst snd]. rewrite Elor.
    by replace (p + Z.of_nat 3 + 1 + 1) with (p + Z.of_nat 5) by lia.
  - destruct (pop_tagged mem p 7 val Hmem Hh) as (out & Eit & Elor); [done|lia|].
    simpl (_ =? _). simpl (_ >=? _). cbn [orb]. zdecide (e - p <? 9).
    change (pop_step mem (Nat.iter 2 (pop_step mem) (Nat.iter 4 (pop_step mem) (0, p))))
      with (Nat.iter 7 (pop_step mem) (0, p)).
    rewrite Eit. cbn [fst snd]. rewrite Elor.
    by replace (p + Z.of_nat 7 + 1 + 1) with (p + Z.of_nat 9) by lia.
Qed.

Lemma holds_app_l mem p a b : holds mem p (a ++ b) -> holds mem p a.
Proof.
  intros H j Hj. rewrite H by (rewrite length_app; lia). unfold get. by rewrite app_nth1 by lia.
Qed.

(** The loop followed by the optional tag byte. *)
Lemma push_tag mem p n val tag :
  0 <= val -> Z.of_nat n + 1 <= p <= len mem ->
  exists mem', push_loop n mem p val = (mem', p - Z.of_nat n) /\
    let mem'' := set mem' (p - Z.of_nat n - 1) tag in
    length mem'' = length mem /\ holds mem'' (p - Z.of_nat n - 1) (tag :: be_bytes n val) /\
    (forall j, 0 <= j -> j < p - Z.of_nat n - 1 \/ p <= j -> get mem'' j = get mem j).
Proof.
  intros Hv Hp. destruct (push_loop_spec n mem p val) as (mem' & E & Hl & Hin & Hout); [done|lia|].
  exists mem'. split; [done|]. cbv zeta. rewrite length_set. split; [done|]. split.
  - intros j Hj. simpl length in Hj. rewrite length_be_bytes in Hj.
    destruct (decide (j = 0)) as [->|].
    + rewrite Z.add_0_r. rewrite get_set_eq by lia. done.
    + rewrite get_set_ne by lia.
      replace (p - Z.of_nat n - 1 + j) with (p - Z.of_nat n + (j - 1)) by lia.
      rewrite Hin by lia. unfold get. by replace (Z.to_nat j) with (S (Z.to_nat (j - 1))) by lia.
  - intros j Hj Hor. rewrite get_set_ne by lia. apply Hout; lia.
Qed.

Lemma push_short iter mem val :
  0 <= val < 2 ^ 64 - 3 -> ptr iter - start iter < len (encoding val) ->
  VarInt_push mem iter val = (-1, iter, mem).
Proof.
  intros Hv Hs. unfold VarInt_push. unfold encoding in Hs.
  rewrite !Z.gtb_ltb.
  replace (if ptr iter - start iter <? 9 then _ else false) with true; [done|].
  destruct (Z.ltb_spec val 0xfd); [|destruct (Z.ltb_spec val 0x10000);
    [|destruct (Z.ltb_spec val 0x100000000)]].
  all: cbn [length] in Hs; rewrite ?length_be_bytes in Hs; zcases.
Qed.

Lemma push_encoding mem iter val :
  iter_ok mem iter -> 0 <= val < 2 ^ 64 - 3 -> len (encoding val) <= ptr iter - start iter ->
  exists mem', VarInt_push mem iter val =
      (0, {| ptr := ptr iter - len (encoding val); end_ := end_ iter; start := start iter |}, mem') /\
    length mem' = length mem /\ holds mem' (ptr iter - len (encoding val)) (encoding val) /\
    (forall j, 0 <= j -> j < ptr iter - len (encoding val) \/ ptr iter <= j -> get mem' j = get mem j).
Proof.
  intros Hok Hv Hs. unfold VarInt_push. rewrite VarInt_sizeOf_spec by done.
  destruct iter as [p e s]. unfold iter_ok in Hok. cbn [ptr end_ start] in *.
  unfold encoding in *. rewrite !Z.gtb_ltb.
  destruct (Z.ltb_spec val 0xfd); [|destruct (Z.ltb_spec val 0x10000);
    [|destruct (Z.ltb_spec val 0x100000000)]];
  cbn [length] in *; rewrite ?length_be_bytes in *.
  all: replace (if p - s <? 9 then _ else false) with false by zcases.
  - destruct (push_loop_spec 1 mem p val) as (mem' & E & Hl & Hin & Hout); [lia|lia|].
    change (Z.to_nat 1) with 1%nat. rewrite E. exists mem'. repeat split; auto.
    intros j Hj. simpl length in Hj. rewrite Hin by lia. assert (j = 0) as -> by lia.
    cbn [be_bytes le_bytes rev app]. unfold get. simpl. apply Z.mod_small. lia.
  - destruct (push_tag mem p 2 val 0xfd) as (mem' & E & Hl & Hh & Hout); [lia|lia|].
    change (Z.to_nat 2) with 2%nat. rewrite E. eexists.
    replace (p - Z.of_nat 3) with (p - Z.of_nat 2 - 1) by lia. split; [reflexivity|]. auto.
  - destruct (push_tag mem p 4 val 0xfe) as (mem' & E & Hl & Hh & Hout); [lia|lia|].
    change (Z.to_nat 4) with 4%nat. rewrite E. eexists.
    replace (p - Z.of_nat 5) with (p - Z.of_nat 4 - 1) by lia. split; [reflexivity|]. auto.
  - destruct (push_tag mem p 8 val 0xff) as (mem' & E & Hl & Hh & Hout); [lia|lia|].
    change (Z.to_nat 8) with 8%nat. rewrite E. eexists.
    replace (p - Z.of_nat 9) with (p - Z.of_nat 8 - 1) by lia. split; [reflexivity|]. auto.
Qed.

Lemma push_loop_bytes i mem p val : bytes mem -> 0 <= val -> bytes (fst (push_loop i mem p val)).
Proof.
  revert mem p val. induction i as [|i IH]; intros mem p val Hm Hv; [done|]. cbn [push_loop].
  apply IH; [|by apply Z.shiftr_nonneg]. apply set_bytes; [done|].
  by apply fits_land_r.
Qed.

Lemma VarInt_push_bytes mem iter val :
  bytes mem -> 0 <= val -> bytes (snd (VarInt_push mem iter val)).
Proof.
  intros Hm Hv. unfold VarInt_push.
  pose proof (push_loop_bytes (Z.to_nat (VarInt_sizeOf val)) mem (ptr iter) val Hm Hv) as Hb.
  destruct (push_loop _ _ _ _) as [mem' p]. simpl in Hb.
  repeat match goal with |- context [if ?b then _ else _] => destruct b end; simpl; auto using set_bytes;
    apply set_bytes; done.
Qed.

(** ** Properties *)

(** Writing a value and reading it back: for every value below 2^64 - 3,
    [VarInt_push] fails exactly when the space before the pointer is too small for
    the encoding (leaving everything untouched); otherwise it moves the pointer
    back by the size of the encoding, touches no other byte, and [VarInt_pop]
    from there returns the value and restores the iterator. *)
Theorem varint_push_pop mem iter val :
  iter_ok mem iter -> bytes mem -> 0 <= val < 2 ^ 64 - 3 ->
  (ptr iter - start iter < len (encoding val) -> VarInt_push mem iter val = (-1, iter, mem)) /\
  (len (encoding val) <= ptr iter - start iter ->
   exists iter' mem', VarInt_push mem iter val = (0, iter', mem') /\
     VarInt_pop mem' iter' = (0, iter, Some val) /\ iter_ok mem' iter' /\
     (forall j, 0 <= j -> j < ptr iter' \/ ptr iter <= j -> get mem' j = get mem j)).
Proof.
  intros Hok Hb Hv. split; [by apply push_short|]. intros Hs.
  destruct (push_encoding mem iter val Hok Hv Hs) as (mem' & E & Hl & Hh & Hout).
  pose proof (VarInt_push_bytes mem iter val Hb) as Hb'. rewrite E in Hb'. simpl in Hb'.
  do 2 eexists. split; [exact E|]. destruct iter as [p e s]. unfold iter_ok in *. cbn [ptr end_ start] in *.
  split; [|split; [lia|done]].
  rewrite (VarInt_pop_encoding _ _ val); cbn [ptr end_ start]; [|apply Hb'; lia|unfold fits; lia|done|lia].
  repeat f_equal. lia.
Qed.

Lemma varint_push_pop_witness :
  exists iter' mem', VarInt_push (zeros 12) (VarInt_toEnd (VarInt_mk 0 12)) 70000 = (0, iter', mem') /\
     VarInt_pop mem' iter' = (0, VarInt_toEnd (VarInt_mk 0 12), Some 70000).
Proof.
  destruct (varint_push_pop (zeros 12) (VarInt_toEnd (VarInt_mk 0 12)) 70000) as [_ H].
  - unfold iter_ok. simpl. lia.
  - apply zeros_bytes.
  - lia.
  - destruct H as (i & m & H1 & H2 & _); [vm_compute; discriminate|]. by exists i, m.
Defined.

(** The three largest 64-bit values: [val + 3] wraps in [VarInt_sizeOf], so
    the size is computed as 7, no tag byte is written, and the reader rejects
    what was pushed at the end of a buffer. *)
Theorem varint_top_values_unreadable mem iter val :
  iter_ok mem iter -> bytes mem -> 2 ^ 64 - 3 <= val < 2 ^ 64 ->
  ptr iter = end_ iter -> 9 <= ptr iter - start iter ->
  VarInt_sizeOf val = 7 /\
  exists iter' mem', VarInt_push mem iter val = (0, iter', mem') /\
    VarInt_pop mem' iter' = (-1, iter', None).
Proof.
  intros Hok Hb Hv Hend Hroom.
  assert (VarInt_sizeOf val = 7) as Hsz.
  { unfold VarInt_sizeOf. rewrite !nz_shiftr by (unfold u64; try lia; apply Z.mod_pos_bound; lia).
    assert (u64 (val + 3) = val + 3 - 2 ^ 64) as ->.
    { symmetry. apply (Z.mod_unique _ _ 1); lia. }
    change (2 ^ 32) with 0x100000000. change (2 ^ 16) with 0x10000. change (2 ^ 8) with 0x100.
    zcases. }
  split; [done|]. destruct iter as [p e s]. unfold iter_ok in Hok. cbn [ptr end_ start] in *.
  unfold VarInt_push. cbn [ptr end_ start]. rewrite Hsz. zdecide (p - s <? 9).
  destruct (push_loop_spec 7 mem p val) as (mem' & E & Hl & Hin & Hout); [lia|lia|].
  change (Z.to_nat 7) with 7%nat. rewrite E. simpl (_ =? _). cbv iota.
  do 2 eexists. split; [reflexivity|]. unfold VarInt_pop. cbn [ptr end_ start].
  specialize (Hin 0). rewrite Z.add_0_r in Hin. rewrite Hin by lia.
  assert (get (be_bytes 7 val) 0 = 0xff) as ->.
  { cbn [be_bytes le_bytes rev app]. unfold get. simpl nth.
    rewrite !Z.div_div by lia. change (256 * (256 * (256 * (256 * (256 * 256))))) with (2 ^ 48).
    symmetry. apply (Z.mod_unique _ _ 255); [lia|]. symmetry. simpl.
    apply (Z.div_unique _ _ _ (val - 65535 * 2 ^ 48)); lia. }
  zdecide (e - (p - Z.of_nat 7) <? 9). zdecide (e - (p - Z.of_nat 7) <? 5). done.
Qed.

Lemma varint_top_values_unreadable_witness :
  VarInt_sizeOf (2 ^ 64 - 1) = 7 /\
  exists iter' mem', VarInt_push (zeros 9) (VarInt_toEnd (VarInt_mk 0 9)) (2 ^ 64 - 1) = (0, iter', mem') /\
    VarInt_pop mem' iter' = (-1, iter', None).
Proof.
  apply (varint_top_values_unreadable (zeros 9) (VarInt_toEnd (VarInt_mk 0 9)) (2 ^ 64 - 1)).
  - unfold iter_ok. simpl. lia.
  - apply zeros_bytes.
  - lia.
  - reflexivity.
  - simpl. lia.
Defined.
