(* ===== verification/Hex.v ===== *)
(** * util/Hex.c and util/Base32.h: textual encodings of byte strings

    An output array is a list that the function overwrites from its first cell;
    the loops collect the bytes in the order in which they are written and
    [wr 0] stores them. *)
From S2P Require Import Prelude.

Definition Hex_BAD_INPUT : Z := -1.
Definition Hex_TOO_BIG : Z := -2.
Definition Base32_BAD_INPUT : Z := -1.
Definition Base32_TOO_BIG : Z := -2.

(** The characters of a string constant. *)
Definition chars (s : string) : list Z := map (fun c => Z.of_N (Ascii.N_of_ascii c)) (String.list_ascii_of_string s).

(** ** Hex *)
Module Hex.

Definition row99 : list Z := replicate 16 99.
Definition numForAscii : list Z :=
  row99 ++ row99 ++ row99 ++
  [0; 1; 2; 3; 4; 5; 6; 7; 8; 9; 99; 99; 99; 99; 99; 99] ++
  [99; 10; 11; 12; 13; 14; 15; 99; 99; 99; 99; 99; 99; 99; 99; 99] ++ row99 ++
  [99; 10; 11; 12; 13; 14; 15; 99; 99; 99; 99; 99; 99; 99; 99; 99] ++ row99.

Definition hexEntities : list Z := chars "0123456789abcdef".

Fixpoint encode_loop (inp : list Z) : list Z :=
  match inp with
  | [] => []
  | b :: inp => get hexEntities (Z.shiftr b 4) :: get hexEntities (Z.land b 15) :: encode_loop inp
  end.

Definition Hex_encode (output : list Z) (outputLength : Z) (inp : list Z) : Z * list Z :=
  let n := u32 (len inp * 2) in
  if outputLength <? n then (Hex_TOO_BIG, output)
  else
    let output := if outputLength >? n then set output n 0 else output in
    (n, wr 0 (encode_loop inp) output).

Definition Hex_decodeByte (highNibble lowNibble : Z) : Z :=
  if negb (Z.lor (Z.land highNibble 0x80) (Z.land lowNibble 0x80) =? 0) then -1
  else
    let high := get numForAscii highNibble in
    let low := get numForAscii lowNibble in
    if high + low <? 31 then Z.lor (Z.shiftl high 4) low else -1.

Definition Hex_isHexEntity (character : Z) : bool :=
  (Z.land character 0x80 =? 0) && (get numForAscii character <? 99).

(** The bytes stored before the loop ends, and whether it ended on a bad byte. *)
Fixpoint decode_loop (hex : list Z) : list Z * bool :=
  match hex with
  | h :: l :: hex =>
      let byte := Hex_decodeByte h l in
      if byte =? -1 then ([], false)
      else let '(out, ok) := decode_loop hex in (u8 byte :: out, ok)
  | _ => ([], true)
  end.

Definition Hex_decode (output : list Z) (outLength : Z) (hex : list Z) : Z * list Z :=
  let length := len hex in
  if negb (Z.land length 1 =? 0) then (Hex_BAD_INPUT, output)
  else if outLength <? length / 2 then (Hex_TOO_BIG, output)
  else
    let output := if outLength >? length / 2 then set output (length / 2) 0 else output in
    let '(out, ok) := decode_loop hex in
    (if ok then length / 2 else Hex_BAD_INPUT, wr 0 out output).

Definition Hex_encodeLowNibble (nibble : Z) : Z := get hexEntities (Z.land nibble 15).

Definition Hex_print (bytes : list Z) : Er (list Z) :=
  let outLen := len bytes * 2 in
  let '(r, outBuf) := Hex_encode (zeros (outLen + 1)) outLen bytes in
  Assert_true (r =? outLen) ;;
  Ret (set outBuf outLen 0).

(** *** Lemmas *)

Lemma length_encode_loop inp : len (encode_loop inp) = 2 * len inp.
Proof. induction inp as [|b inp IH]; [done|]. cbn [encode_loop length]. lia. Qed.

(** Every byte survives its two digits (checked on the 256 bytes). *)
Lemma decodeByte_encode b :
  byte b -> Hex_decodeByte (get hexEntities (Z.shiftr b 4)) (get hexEntities (Z.land b 15)) = b.
Proof.
  intros Hb.
  assert (forallb (fun b => Hex_decodeByte (get hexEntities (Z.shiftr b 4))
    (get hexEntities (Z.land b 15)) =? b) (seqZ 0 256) = true) as Hall by (vm_compute; reflexivity).
  rewrite forallb_forall in Hall. apply Z.eqb_eq, Hall, list_elem_of_In, elem_of_seqZ.
  unfold fits in Hb. change (2 ^ 8) with 256 in Hb. lia.
Qed.

Lemma decode_encode_loop bs : bytes bs -> decode_loop (encode_loop bs) = (bs, true).
Proof.
  induction 1 as [|b bs Hb _ IH]; [done|]. cbn [encode_loop decode_loop].
  rewrite decodeByte_encode by done. destruct Hb as [H1 H2]. zdecide (b =? -1).
  rewrite IH. unfold u8. by rewrite Z.mod_small.
Qed.

(** Valid digits, and only those, decode. *)
Definition digit (c : Z) : bool := Hex_isHexEntity c.

Lemma decodeByte_digits h l :
  byte h -> byte l ->
  (Hex_decodeByte h l = -1 /\ digit h && digit l = false) \/
  (0 <= Hex_decodeByte h l < 256 /\ digit h && digit l = true).
Proof.
  intros Hh Hl.
  assert (forallb (fun h => forallb (fun l =>
     if digit h && digit l then (0 <=? Hex_decodeByte h l) && (Hex_decodeByte h l <? 256)
     else Hex_decodeByte h l =? -1) (seqZ 0 256)) (seqZ 0 256) = true) as Hall
    by (vm_compute; reflexivity).
  rewrite forallb_forall in Hall.
  assert (In h (seqZ 0 256)) as Ih by (apply list_elem_of_In, elem_of_seqZ; apply Hh).
  assert (In l (seqZ 0 256)) as Il by (apply list_elem_of_In, elem_of_seqZ; apply Hl).
  specialize (Hall h Ih). rewrite forallb_forall in Hall. specialize (Hall l Il).
  destruct (digit h && digit l).
  - right. apply andb_prop in Hall as [H1%Z.leb_le H2%Z.ltb_lt]. done.
  - left. by apply Z.eqb_eq in Hall.
Qed.
End Hex.

Lemma rd_set_ge n l v : rd 0 n (set l n v) = rd 0 n l.
Proof. unfold rd, set. rewrite !drop_0. by apply take_insert_ge. Qed.

Lemma rd_wr_0 (bs out : list Z) : rd 0 (len bs) (wr 0 bs out) = bs.
Proof. unfold rd, wr. simpl. rewrite Nat2Z.id. apply take_app_length. Qed.

(** ** Base32 (the DNSCurve alphabet, least significant digit first) *)
Module Base32.

Definition numForAscii : list Z :=
  Hex.row99 ++ Hex.row99 ++ Hex.row99 ++
  [0; 1; 2; 3; 4; 5; 6; 7; 8; 9; 99; 99; 99; 99; 99; 99] ++
  [99; 99; 10; 11; 12; 99; 13; 14; 15; 99; 16; 17; 18; 19; 20; 99] ++
  [21; 22; 23; 24; 25; 26; 27; 28; 29; 30; 31; 99; 99; 99; 99; 99] ++
  [99; 99; 10; 11; 12; 99; 13; 14; 15; 99; 16; 17; 18; 19; 20; 99] ++
  [21; 22; 23; 24; 25; 26; 27; 28; 29; 30; 31; 99; 99; 99; 99; 99].

Definition kChars : list Z := chars "0123456789bcdfghjklmnpqrstuvwxyz".

(** Loop state: the bytes written so far ([outIndex] is their number), the
    accumulator ([nextByte] / [work]) and the number of bits in it. *)
Record st := mkSt { out : list Z; acc : Z; bits : Z }.

Inductive loop_result := Done (s : st) | Stop (err : Z) (s : st).

Fixpoint decode_loop (outLength : Z) (inp : list Z) (s : st) : loop_result :=
  match inp with
  | [] => Done s
  | c :: inp =>
      if negb (Z.land c 0x80 =? 0) then Stop Base32_BAD_INPUT s else
      let b := get numForAscii c in
      if b >? 31 then Stop Base32_BAD_INPUT s else
      let nextByte := Z.lor (acc s) (u32 (Z.shiftl b (bits s))) in
      let bits := bits s + 5 in
      if bits >=? 8 then
        if len (out s) >=? outLength then Stop Base32_TOO_BIG (mkSt (out s) nextByte bits)
        else decode_loop outLength inp (mkSt (out s ++ [u8 nextByte]) (Z.shiftr nextByte 8) (bits - 8))
      else decode_loop outLength inp (mkSt (out s) nextByte bits)
  end.

Definition Base32_decode (output : list Z) (outLength : Z) (inp : list Z) : Z * list Z :=
  match decode_loop outLength inp (mkSt [] 0 0) with
  | Stop e s => (e, wr 0 (out s) output)
  | Done s =>
      if (bits s >=? 5) || negb (acc s =? 0) then (Base32_BAD_INPUT, wr 0 (out s) output)
      else (len (out s), wr 0 (out s) output)
  end.

(** [while (bits >= 5) { ... }]: at most two rounds, as [bits <= 12]. *)
Fixpoint emit_loop (fuel : nat) (outputLength : Z) (s : st) : loop_result :=
  match fuel with
  | O => Done s
  | S fuel =>
      if bits s >=? 5 then
        if len (out s) >=? outputLength then Stop Base32_TOO_BIG s
        else emit_loop fuel outputLength
               (mkSt (out s ++ [get kChars (Z.land (acc s) 31)]) (Z.shiftr (acc s) 5) (bits s - 5))
      else Done s
  end.

Fixpoint encode_loop (outputLength : Z) (inp : list Z) (s : st) : loop_result :=
  match inp with
  | [] => Done s
  | b :: inp =>
      match emit_loop 3 outputLength
              (mkSt (out s) (Z.lor (acc s) (u32 (Z.shiftl b (bits s)))) (bits s + 8)) with
      | Stop e s => Stop e s
      | Done s => encode_loop outputLength inp s
      end
  end.

Definition Base32_encode (output : list Z) (outputLength : Z) (inp : list Z) : Z * list Z :=
  match encode_loop outputLength inp (mkSt [] 0 0) with
  | Stop e s => (e, wr 0 (out s) output)
  | Done s =>
      let finish o :=
        let output := wr 0 o output in
        (len o, if len o <? outputLength then set output (len o) 0 else output) in
      if negb (bits s =? 0) then
        if len (out s) >=? outputLength then (Base32_TOO_BIG, wr 0 (out s) output)
        else finish (out s ++ [get kChars (Z.land (acc s) 31)])
      else finish (out s)
  end.

(** *** Specification: base-32 digits, least significant first *)

Fixpoint digits (n : nat) (z : Z) : list Z :=
  match n with O => [] | S n => z mod 32 :: digits n (z / 32) end.

Lemma digits_snoc n z : digits (S n) z = digits n z ++ [(z / 32 ^ Z.of_nat n) mod 32].
Proof.
  revert z. induction n as [|n IH]; intros z.
  { simpl. by rewrite Z.div_1_r. }
  change (digits (S (S n)) z) with (z mod 32 :: digits (S n) (z / 32)).
  rewrite IH. simpl app. do 3 f_equal. rewrite Z.div_div by lia. f_equal.
  rewrite Nat2Z.inj_succ, Z.pow_succ_r by lia. done.
Qed.

Lemma length_digits n z : length (digits n z) = n.
Proof. revert z. induction n; intros; simpl; auto. Qed.

Lemma le_bytes_snoc n z : le_bytes (S n) z = le_bytes n z ++ [(z / 256 ^ Z.of_nat n) mod 256].
Proof.
  revert z. induction n as [|n IH]; intros z.
  { simpl. by rewrite Z.div_1_r. }
  change (le_bytes (S (S n)) z) with (z mod 256 :: le_bytes (S n) (z / 256)).
  rewrite IH. simpl app. do 3 f_equal. rewrite Z.div_div by lia. f_equal.
  rewrite Nat2Z.inj_succ, Z.pow_succ_r by lia. done.
Qed.

(** A stream [N] of which [consumed] bits entered the loop and the written
    symbols took [taken]: the accumulator holds the bits in between. *)
Definition window (N taken bits acc : Z) : Prop :=
  0 <= bits /\ acc = (N / 2 ^ taken) mod 2 ^ bits.

Lemma window_fits N taken bits acc : window N taken bits acc -> fits bits acc.
Proof. intros [Hb ->]. by apply fits_mod. Qed.

(** Adding the next [k] bits of the stream on top of the accumulator. *)
Lemma window_push N taken bits acc k :
  window N taken bits acc -> 0 <= k -> 0 <= taken -> bits + k <= 32 ->
  window N taken (bits + k)
    (Z.lor acc (u32 (Z.shiftl ((N / 2 ^ (taken + bits)) mod 2 ^ k) bits))).
Proof.
  intros Hw Hk Ht Hbk. pose proof (window_fits _ _ _ _ Hw) as Hf. destruct Hw as [Hb Hacc].
  split; [lia|]. assert (fits k ((N / 2 ^ (taken + bits)) mod 2 ^ k)) as Hd by (by apply fits_mod).
  unfold u32. rewrite (fits_small 32).
  2:{ apply (fits_mono (k + bits)); [lia|]. by apply fits_shiftl. }
  rewrite lor_shiftl_add by done. rewrite Hacc.
  rewrite !Z.pow_add_r, <- Z.div_div by lia. rewrite Z.rem_mul_r by lia. lia.
Qed.

(** Taking the low [k] bits out. *)
Lemma window_pop N taken bits acc k :
  window N taken bits acc -> 0 <= k <= bits -> 0 <= taken ->
  acc mod 2 ^ k = (N / 2 ^ taken) mod 2 ^ k /\ window N (taken + k) (bits - k) (Z.shiftr acc k).
Proof.
  intros [Hb ->] Hk Ht. rewrite Z.shiftr_div_pow2 by lia.
  assert (2 ^ bits = 2 ^ k * 2 ^ (bits - k)) as E by (rewrite <- Z.pow_add_r by lia; f_equal; lia).
  set (M := N / 2 ^ taken). rewrite E, Z.rem_mul_r by lia. split.
  - rewrite Z.mul_comm, Z.mod_add, Z.mod_mod by lia. done.
  - split; [lia|]. rewrite Z.mul_comm, Z.div_add by lia.
    rewrite (Z.div_small (M mod 2 ^ k)) by (apply Z.mod_pos_bound; lia).
    rewrite Z.add_0_l. unfold M. rewrite Z.div_div, <- Z.pow_add_r by lia. done.
Qed.

Definition kChar (d : Z) : Z := get kChars d.

Lemma pow32 m : 0 <= m -> 32 ^ m = 2 ^ (5 * m).
Proof. intros. change 32 with (2 ^ 5). rewrite <- Z.pow_mul_r by lia. done. Qed.
Lemma pow256 m : 0 <= m -> 256 ^ m = 2 ^ (8 * m).
Proof. intros. change 256 with (2 ^ 8). rewrite <- Z.pow_mul_r by lia. done. Qed.

(** The encoder's invariant after [m] symbols. *)
Definition enc_inv (N : Z) (m : nat) (s : st) : Prop :=
  out s = map kChar (digits m N) /\ window N (5 * Z.of_nat m) (bits s) (acc s).

Lemma enc_inv_length N m s : enc_inv N m s -> len (out s) = Z.of_nat m.
Proof. intros [-> _]. by rewrite length_map, length_digits. Qed.

Lemma enc_inv_emit N m s :
  enc_inv N m s -> 5 <= bits s ->
  enc_inv N (S m) (mkSt (out s ++ [kChar (Z.land (acc s) 31)]) (Z.shiftr (acc s) 5) (bits s - 5)).
Proof.
  intros [Ho Hw] Hb. destruct (window_pop _ _ _ _ 5 Hw) as [Hlow Hw']; [lia|lia|].
  split; cbn [out acc bits].
  - rewrite digits_snoc, map_app, Ho. simpl. do 3 f_equal.
    change 31 with (Z.ones 5). rewrite Z.land_ones, Hlow by done.
    change (2 ^ 5) with 32. rewrite pow32 by lia. done.
  - by replace (5 * Z.of_nat (S m)) with (5 * Z.of_nat m + 5) by lia.
Qed.

Lemma emit_loop_spec N fuel outLen m s :
  enc_inv N m s -> bits s < 5 * Z.of_nat fuel + 5 -> Z.of_nat m <= Z.max 0 outLen ->
  match emit_loop fuel outLen s with
  | Done s' => exists m', enc_inv N m' s' /\ bits s' < 5 /\
      5 * Z.of_nat m' + bits s' = 5 * Z.of_nat m + bits s /\ Z.of_nat m' <= Z.max 0 outLen
  | Stop e s' => e = Base32_TOO_BIG /\ 5 * (Z.max 0 outLen + 1) <= 5 * Z.of_nat m + bits s
  end.
Proof.
  revert m s. induction fuel as [|fuel IH]; intros m s Hinv Hb Hm; cbn [emit_loop].
  { exists m. repeat split; try apply Hinv; lia. }
  rewrite !Z.geb_leb. destruct (Z.leb_spec 5 (bits s)); [|exists m; auto with lia].
  rewrite (enc_inv_length N m s Hinv). destruct (Z.leb_spec outLen (Z.of_nat m)).
  { split; [done|lia]. }
  pose proof (enc_inv_emit N m s Hinv H) as Hinv'. unfold kChar in Hinv'.
  specialize (IH (S m) _ Hinv'). cbn [bits] in IH. specialize (IH ltac:(lia) ltac:(lia)).
  destruct (emit_loop _ _ _) as [s'|e s'].
  - destruct IH as (m' & ? & ? & ? & ?). exists m'. repeat split; try done; try lia; apply H1.
  - destruct IH. split; [done|lia].
Qed.

Lemma encode_loop_spec outLen inp pre m s :
  bytes (pre ++ inp) -> enc_inv (le_val (pre ++ inp)) m s -> bits s < 5 ->
  5 * Z.of_nat m + bits s = 8 * len pre -> Z.of_nat m <= Z.max 0 outLen ->
  match encode_loop outLen inp s with
  | Done s' => exists m', enc_inv (le_val (pre ++ inp)) m' s' /\ bits s' < 5 /\
      5 * Z.of_nat m' + bits s' = 8 * len (pre ++ inp) /\ Z.of_nat m' <= Z.max 0 outLen
  | Stop e s' => e = Base32_TOO_BIG /\ 5 * (Z.max 0 outLen + 1) <= 8 * len (pre ++ inp)
  end.
Proof.
  revert pre m s. induction inp as [|b inp IH]; intros pre m s Hb Hinv Hlt Hpos Hm.
  { simpl. rewrite app_nil_r in *. exists m. auto. }
  cbn [encode_loop]. set (N := le_val (pre ++ b :: inp)) in *.
  assert (pre ++ b :: inp = (pre ++ [b]) ++ inp) as Eapp by (by rewrite <- app_assoc).
  assert (b = (N / 2 ^ (8 * len pre)) mod 2 ^ 8) as Eb.
  { change (2 ^ 8) with 256. unfold N. 
    rewrite <- (get_le_bytes_val (pre ++ b :: inp)) by (done || (rewrite length_app; simpl; lia)).
    unfold get. rewrite Nat2Z.id, app_nth2, Nat.sub_diag by lia. done. }
  destruct Hinv as [Ho Hw]. pose proof Hw as [Hb0 _].
  pose proof (window_push N _ _ _ 8 Hw) as Hw'.
  rewrite Hpos, <- Eb in Hw'. specialize (Hw' ltac:(lia) ltac:(lia) ltac:(lia)).
  pose proof (emit_loop_spec N 3 outLen m
    (mkSt (out s) (Z.lor (acc s) (u32 (Z.shiftl b (bits s)))) (bits s + 8))) as Hemit.
  cbn [bits] in Hemit. specialize (Hemit (conj Ho Hw') ltac:(lia) Hm).
  destruct (emit_loop _ _ _) as [s'|e s'].
  - destruct Hemit as (m' & Hinv' & ? & ? & ?).
    specialize (IH (pre ++ [b]) m' s'). rewrite <- Eapp in IH. fold N in IH.
    apply IH; auto. rewrite length_app. simpl. lia.
  - destruct Hemit. split; [done|]. rewrite length_app. simpl length. lia.
Qed.

Lemma kChar_decode d :
  0 <= d < 32 -> Z.land (kChar d) 0x80 = 0 /\ get numForAscii (kChar d) = d.
Proof.
  intros Hd.
  assert (forallb (fun d => (Z.land (kChar d) 0x80 =? 0) && (get numForAscii (kChar d) =? d))
    (seqZ 0 32) = true) as Hall by (vm_compute; reflexivity).
  rewrite forallb_forall in Hall.
  assert (In d (seqZ 0 32)) as Hin by (apply list_elem_of_In, elem_of_seqZ; lia).
  specialize (Hall d Hin). apply andb_prop in Hall as [H1%Z.eqb_eq H2%Z.eqb_eq]. done.
Qed.

(** The decoder's invariant after [m] bytes. *)
Definition dec_inv (N : Z) (m : nat) (s : st) : Prop :=
  out s = le_bytes m N /\ window N (8 * Z.of_nat m) (bits s) (acc s).

Lemma digits_app a b N : digits (a + b) N = digits a N ++ digits b (N / 32 ^ Z.of_nat a).
Proof.
  revert N. induction a as [|a IH]; intros N; [simpl; by rewrite Z.div_1_r|].
  simpl. f_equal. rewrite IH, Z.div_div by lia. do 3 f_equal.
  change (Z.pow_pos 32 (Pos.of_succ_nat a)) with (32 ^ Z.of_nat (S a)).
  rewrite Nat2Z.inj_succ, Z.pow_succ_r by lia. done.
Qed.

Lemma decode_loop_spec outLen N c k m s :
  dec_inv N m s -> 0 <= bits s < 8 -> 8 * Z.of_nat m + bits s = 5 * Z.of_nat c ->
  5 * (Z.of_nat c + Z.of_nat k) / 8 <= outLen ->
  exists m' s',
    decode_loop outLen (map kChar (digits k (N / 32 ^ Z.of_nat c))) s = Done s' /\
    dec_inv N m' s' /\ 0 <= bits s' < 8 /\ 8 * Z.of_nat m' + bits s' = 5 * (Z.of_nat c + Z.of_nat k).
Proof.
  revert c m s. induction k as [|k IH]; intros c m s Hinv Hb Hpos Hout.
  { exists m, s. rewrite Z.add_0_r. auto. }
  cbn [digits map decode_loop].
  set (d := (N / 32 ^ Z.of_nat c) mod 32).
  assert (0 <= d < 32) as Hd by (by apply Z.mod_pos_bound).
  destruct (kChar_decode d Hd) as [E1 E2]. rewrite E1, E2. cbn [Z.eqb negb].
  rewrite Z.gtb_ltb, !Z.geb_leb. zdecide (31 <? d).
  assert (N / 32 ^ Z.of_nat c / 32 = N / 32 ^ Z.of_nat (S c)) as ->.
  { rewrite Z.div_div by lia. f_equal. rewrite Nat2Z.inj_succ, Z.pow_succ_r by lia. lia. }
  destruct Hinv as [Ho Hw].
  pose proof (window_push N _ _ _ 5 Hw) as Hw'. rewrite Hpos, <- pow32 in Hw' by lia.
  change (2 ^ 5) with 32 in Hw'. fold d in Hw'. specialize (Hw' ltac:(lia) ltac:(lia) ltac:(lia)).
  set (nb := Z.lor _ _) in *.
  assert (forall x, 5 * (Z.of_nat (S c) + Z.of_nat k) = x -> 5 * (Z.of_nat c + Z.of_nat (S k)) = x) as Hsh by lia.
  destruct (Z.leb_spec 8 (bits s + 5)).
  - assert (len (out s) = Z.of_nat m) as Hlen by (by rewrite Ho, length_le_bytes).
    rewrite Hlen. destruct (Z.leb_spec outLen (Z.of_nat m)) as [Hbad|].
    { exfalso. assert (Z.of_nat m + 1 <= 5 * (Z.of_nat c + Z.of_nat (S k)) / 8)
        by (apply Z.div_le_lower_bound; lia). lia. }
    destruct (window_pop _ _ _ _ 8 Hw') as [Hlow Hw'']; [lia|lia|].
    destruct (IH (S c) (S m) (mkSt (out s ++ [u8 nb]) (Z.shiftr nb 8) (bits s + 5 - 8)))
      as (m' & s' & E & Hinv' & Hb' & Hp'); cbn [bits].
    + split; cbn [out acc bits].
      * rewrite le_bytes_snoc, Ho. do 2 f_equal. unfold u8. rewrite Hlow, pow256 by lia. done.
      * by replace (8 * Z.of_nat (S m)) with (8 * Z.of_nat m + 8) by lia.
    + lia.
    + lia.
    + by replace (Z.of_nat (S c) + Z.of_nat k) with (Z.of_nat c + Z.of_nat (S k)) by lia.
    + exists m', s'. repeat split; try done; try apply Hinv'; lia.
  - destruct (IH (S c) m (mkSt (out s) nb (bits s + 5)))
      as (m' & s' & E & Hinv' & Hb' & Hp'); cbn [bits].
    + by split.
    + lia.
    + lia.
    + by replace (Z.of_nat (S c) + Z.of_nat k) with (Z.of_nat c + Z.of_nat (S k)) by lia.
    + exists m', s'. repeat split; try done; try apply Hinv'; lia.
Qed.

(** The text of a byte string: its base-32 digits, enough of them for all bits. *)
Definition text_len (n : Z) : Z := (8 * n + 4) / 5.
Definition text (bs : list Z) : list Z := map kChar (digits (Z.to_nat (text_len (len bs))) (le_val bs)).

Lemma length_text bs : len (text bs) = text_len (len bs).
Proof.
  unfold text. rewrite length_map, length_digits, Z2Nat.id; [done|].
  apply Z.div_pos; lia.
Qed.

Lemma Base32_encode_spec output outLen bs :
  bytes bs -> 0 <= outLen ->
  if text_len (len bs) <=? outLen
  then Base32_encode output outLen bs =
         (len (text bs),
          let o := wr 0 (text bs) output in
          if len (text bs) <? outLen then set o (len (text bs)) 0 else o)
  else fst (Base32_encode output outLen bs) = Base32_TOO_BIG.
Proof.
  intros Hb Ho. set (N := le_val bs).
  pose proof (encode_loop_spec outLen bs [] 0 (mkSt [] 0 0) Hb) as Hspec. simpl in Hspec. fold N in Hspec.
  assert (enc_inv N 0 (mkSt [] 0 0)) as H0.
  { split; [done|]. split; [simpl; lia|]. simpl bits. simpl acc. by rewrite Z.mod_1_r. }
  specialize (Hspec H0 ltac:(lia) ltac:(lia) ltac:(lia)).
  unfold Base32_encode. destruct (encode_loop _ _ _) as [s|e s].
  - destruct Hspec as (m & [Hout Hw] & Hb5 & Hpos & Hm).
    assert (len (out s) = Z.of_nat m) as Hlen by (by rewrite Hout, length_map, length_digits).
    pose proof Hw as [Hb0 Hacc].
    destruct (Z.eqb_spec (bits s) 0) as [Hz|Hnz]; cbn [negb].
    + assert (text_len (len bs) = Z.of_nat m) as Ht.
      { symmetry. apply (Z.div_unique _ _ _ 4); lia. }
      zdecide (text_len (len bs) <=? outLen).
      assert (out s = text bs) as ->.
      { unfold text. by rewrite Hout, Ht, Nat2Z.id. }
      done.
    + assert (text_len (len bs) = Z.of_nat m + 1) as Ht.
      { symmetry. apply (Z.div_unique _ _ _ (bits s - 1)); lia. }
      rewrite Hlen, Z.geb_leb. destruct (Z.leb_spec outLen (Z.of_nat m)).
      { by zdecide (text_len (len bs) <=? outLen). }
      zdecide (text_len (len bs) <=? outLen).
      assert (out s ++ [get kChars (Z.land (acc s) 31)] = text bs) as ->; [|done].
      unfold text. rewrite Ht. replace (Z.to_nat (Z.of_nat m + 1)) with (S m) by lia.
      rewrite digits_snoc, map_app, Hout. f_equal. simpl. unfold kChar. do 2 f_equal.
      change 31 with (Z.ones 5). rewrite Z.land_ones, Hacc, pow32 by lia. change (2 ^ 5) with 32. fold N.
      f_equal. apply Z.mod_small. destruct (le_val_bound bs Hb) as [HN0 HN1]. fold N in HN0, HN1.
      split; [apply Z.div_pos; lia|]. apply Z.div_lt_upper_bound; [lia|].
      rewrite <- Z.pow_add_r by lia. by replace (5 * Z.of_nat m + bits s) with (8 * len bs) by lia.
  - destruct Hspec as [-> Hbig].
    assert (outLen + 1 <= text_len (len bs)) by (apply Z.div_le_lower_bound; lia).
    by zdecide (text_len (len bs) <=? outLen).
Qed.

Lemma Base32_decode_text output outLen bs :
  bytes bs -> len bs <= outLen ->
  Base32_decode output outLen (text bs) = (len bs, wr 0 bs output).
Proof.
  intros Hb Ho. set (N := le_val bs).
  destruct (le_val_bound bs Hb) as [HN0 HN1]. fold N in HN0, HN1.
  set (k := Z.to_nat (text_len (len bs))).
  assert (Z.of_nat k = text_len (len bs)) as Hk by (unfold k; rewrite Z2Nat.id; [done|apply Z.div_pos; lia]).
  assert (0 <= 5 * Z.of_nat k - 8 * len bs < 5) as Hr.
  { rewrite Hk. unfold text_len. pose proof (Z.div_mod (8 * len bs + 4) 5).
    pose proof (Z.mod_pos_bound (8 * len bs + 4) 5). lia. }
  destruct (decode_loop_spec outLen N 0 k 0 (mkSt [] 0 0)) as (m & s & E & [Hout Hw] & Hb8 & Hpos).
  { split; [done|]. split; [simpl; lia|]. simpl bits. simpl acc. by rewrite Z.mod_1_r. }
  { simpl. lia. }
  { done. }
  { transitivity (len bs); [|done]. apply Z.lt_succ_r, Z.div_lt_upper_bound; lia. }
  simpl Z.of_nat in E, Hpos. change (32 ^ 0) with 1 in E. rewrite Z.div_1_r in E.
  unfold Base32_decode, text. fold N k. rewrite E.
  assert (m = length bs) as -> by lia.
  rewrite Z.geb_leb. zdecide (5 <=? bits s). pose proof Hw as [_ Hacc].
  rewrite Z.div_small in Hacc by done. rewrite Z.mod_0_l in Hacc by lia. rewrite Hacc. simpl.
  rewrite Hout. unfold N. rewrite le_bytes_val by done. done.
Qed.
End Base32.

(** ** Properties *)

(** Hex round trip: encoding into a large enough buffer and decoding the text
    gives the bytes back, with the documented return values. *)
Theorem hex_roundtrip bs out1 n1 out2 n2 :
  bytes bs -> 2 * len bs <= n1 < 2 ^ 32 -> len bs <= n2 ->
  exists text o2,
    fst (Hex.Hex_encode out1 n1 bs) = 2 * len bs /\
    rd 0 (2 * len bs) (snd (Hex.Hex_encode out1 n1 bs)) = text /\
    Hex.Hex_decode out2 n2 text = (len bs, o2) /\ rd 0 (len bs) o2 = bs.
Proof.
  intros Hb Hn1 Hn2. exists (Hex.encode_loop bs). unfold Hex.Hex_encode, Hex.Hex_decode.
  assert (u32 (len bs * 2) = 2 * len bs) as -> by (unfold u32; rewrite Z.mod_small; lia).
  zdecide (n1 <? 2 * len bs). rewrite Hex.length_encode_loop, Hex.decode_encode_loop by done.
  rewrite (Z.mul_comm 2 (len bs)), Z.div_mul by done. zdecide (n2 <? len bs).
  change (Z.land (len bs * 2) 1) with (Z.land (len bs * 2) (Z.ones 1)).
  rewrite Z.land_ones, Z.mod_mul by done. cbn [Z.eqb negb].
  eexists. split; [done|]. split; [|split; [done|]].
  - rewrite Z.mul_comm, <- Hex.length_encode_loop. destruct (_ >? _); apply rd_wr_0.
  - destruct (_ >? _); apply rd_wr_0.
Qed.

Lemma hex_roundtrip_witness :
  exists text o2,
    fst (Hex.Hex_encode (zeros 7) 7 [1; 171; 255]) = 6 /\
    rd 0 6 (snd (Hex.Hex_encode (zeros 7) 7 [1; 171; 255])) = text /\
    Hex.Hex_decode (zeros 3) 3 text = (3, o2) /\ rd 0 3 o2 = [1; 171; 255].
Proof.
  apply (hex_roundtrip [1; 171; 255] (zeros 7) 7 (zeros 3) 3).
  - repeat constructor; done.
  - simpl. lia.
  - simpl. lia.
Defined.

Lemma decode_loop_digits hex :
  bytes hex -> len hex mod 2 = 0 ->
  snd (Hex.decode_loop hex) = forallb Hex.digit hex.
Proof.
  induction hex as [|a|h l hex IH] using list_pair_ind; intros Hb He; [done|done|].
  apply Forall_cons in Hb as [Hh Hb]. apply Forall_cons in Hb as [Hl Hb].
  cbn [Hex.decode_loop forallb]. rewrite andb_assoc.
  destruct (Hex.decodeByte_digits h l Hh Hl) as [[E ->]|[E ->]].
  - rewrite E. done.
  - zdecide (Hex.Hex_decodeByte h l =? -1). rewrite andb_true_l, <- IH; [|done|].
    + by destruct (Hex.decode_loop hex).
    + replace (len (h :: l :: hex)) with (len hex + 1 * 2) in He by (simpl length; lia).
      by rewrite Z.mod_add in He.
Qed.

(** [Hex_decode] accepts exactly the even-length strings of hexadecimal digits
    (either case) whose bytes fit the output: on those it returns half the length,
    on every other input one of its two documented error codes. *)
Theorem hex_decode_accepts output outLen hex :
  bytes hex ->
  fst (Hex.Hex_decode output outLen hex) =
    if negb (len hex mod 2 =? 0) then Hex_BAD_INPUT
    else if outLen <? len hex / 2 then Hex_TOO_BIG
    else if forallb Hex.Hex_isHexEntity hex then len hex / 2 else Hex_BAD_INPUT.
Proof.
  intros Hb. unfold Hex.Hex_decode. change 1 with (Z.ones 1). rewrite Z.land_ones by done.
  change (2 ^ 1) with 2. destruct (Z.eqb_spec (len hex mod 2) 0) as [He|]; cbn [negb]; [|done].
  destruct (outLen <? len hex / 2); [done|].
  pose proof (decode_loop_digits hex Hb He) as Hd. unfold Hex.digit in Hd.
  destruct (Hex.decode_loop hex) as [o ok]. simpl in *. by rewrite Hd.
Qed.

Lemma hex_decode_accepts_witness :
  fst (Hex.Hex_decode (zeros 4) 4 [97; 103]) = Hex_BAD_INPUT.
Proof.
  rewrite (hex_decode_accepts (zeros 4) 4 [97; 103]); [reflexivity|].
  repeat constructor; done.
Defined.

(** Base32 round trip: [Base32_encode] fails exactly when the text does not
    fit; otherwise it writes ceil(8n/5) characters which [Base32_decode] turns
    back into the original [n] bytes. *)
Theorem base32_roundtrip bs out1 n1 out2 n2 :
  bytes bs -> 0 <= n1 -> len bs <= n2 ->
  let k := (8 * len bs + 4) / 5 in
  (n1 < k -> fst (Base32.Base32_encode out1 n1 bs) = Base32_TOO_BIG) /\
  (k <= n1 -> exists o1, Base32.Base32_encode out1 n1 bs = (k, o1) /\
     Base32.Base32_decode out2 n2 (rd 0 k o1) = (len bs, wr 0 bs out2)).
Proof.
  intros Hb Hn1 Hn2 k. pose proof (Base32.Base32_encode_spec out1 n1 bs Hb Hn1) as Hspec.
  fold (Base32.text_len (len bs)) in k.
  assert (k = len (Base32.text bs)) as Ek by (by rewrite Base32.length_text).
  rewrite Base32.length_text in Hspec. fold k in Hspec.
  clearbody k. split; intros Hk; zdecide_in (k <=? n1) Hspec; [exact Hspec|].
  eexists. split; [exact Hspec|].
  rewrite <- (Base32.Base32_decode_text out2 n2 bs) by done. f_equal.
  cbv zeta. rewrite Ek. destruct (len (Base32.text bs) <? n1); [|apply rd_wr_0].
  rewrite rd_set_ge. apply rd_wr_0.
Qed.

Lemma base32_roundtrip_witness :
  exists o1, Base32.Base32_encode (zeros 8) 8 [1; 2; 255] = (5, o1) /\
     Base32.Base32_decode (zeros 3) 3 (rd 0 5 o1) = (3, [1; 2; 255]).
Proof.
  apply (base32_roundtrip [1; 2; 255] (zeros 8) 8 (zeros 3) 3).
  - repeat constructor; done.
  - lia.
  - simpl. lia.
  - vm_compute. discriminate.
Defined.
