(* ===== verification/AddrTools.v ===== *)
(** * util/AddrTools.c: printing and parsing of labels, IPv6 and MAC addresses

    [AddrTools_parseIp] goes through the platform's socket address parser and is
    not modelled. Local arrays start with zeros; every cell read was written. *)
From S2P Require Import Prelude Bits Hex.
Import Hex.Hex.

Definition chr_dot : Z := 46.
Definition chr_colon : Z := 58.

(** ** Definitions *)

Definition AddrTools_printPath (path : Z) : list Z :=
  let path_be := Endian_hostToBigEndian64 path in
  let bytes := snd (Hex_encode (zeros 16) 16 (le_bytes 8 path_be)) in
  [get bytes 0; get bytes 1; get bytes 2; get bytes 3; chr_dot;
   get bytes 4; get bytes 5; get bytes 6; get bytes 7; chr_dot;
   get bytes 8; get bytes 9; get bytes 10; get bytes 11; chr_dot;
   get bytes 12; get bytes 13; get bytes 14; get bytes 15; 0].

(** [None] is the return value -1. *)
Definition AddrTools_parsePath (netAddr : list Z) : option Z :=
  if negb (get netAddr 4 =? chr_dot) || negb (get netAddr 9 =? chr_dot)
     || negb (get netAddr 14 =? chr_dot) || negb (get netAddr 19 =? 0)
  then None
  else
    let hex := [get netAddr 0; get netAddr 1; get netAddr 2; get netAddr 3;
                get netAddr 5; get netAddr 6; get netAddr 7; get netAddr 8;
                get netAddr 10; get netAddr 11; get netAddr 12; get netAddr 13;
                get netAddr 15; get netAddr 16; get netAddr 17; get netAddr 18] in
    let '(r, numberBytes) := Hex_decode (zeros 8) 8 hex in
    if negb (r =? 8) then None
    else
      let out_be := le_val numberBytes in
      Some (Endian_bigEndianToHost64 out_be).

Definition AddrTools_printIp (binIp : list Z) : list Z :=
  let hex := snd (Hex_encode (zeros 32) 32 binIp) in
  [get hex 0; get hex 1; get hex 2; get hex 3; chr_colon;
   get hex 4; get hex 5; get hex 6; get hex 7; chr_colon;
   get hex 8; get hex 9; get hex 10; get hex 11; chr_colon;
   get hex 12; get hex 13; get hex 14; get hex 15; chr_colon;
   get hex 16; get hex 17; get hex 18; get hex 19; chr_colon;
   get hex 20; get hex 21; get hex 22; get hex 23; chr_colon;
   get hex 24; get hex 25; get hex 26; get hex 27; chr_colon;
   get hex 28; get hex 29; get hex 30; get hex 31; 0].

(** Two digits of one byte, [Hex_encode(p, 2, &b, 1)]. *)
Definition hex2 (b : Z) : list Z := rd 0 2 (snd (Hex_encode (zeros 2) 2 [b])).

(** The loop: [p] is what was written so far. Each round consumes two bytes. *)
Fixpoint printShortIp_loop (fuel : nat) (binIp p : list Z) (i : Z) : list Z * Z :=
  match fuel with
  | O => (p, i)
  | S fuel =>
      if i <? 16 then
        let p := if negb (len p =? 0) then p ++ [chr_colon] else p in
        if get binIp i >? 0x0F then
          let p := p ++ hex2 (get binIp i) in
          let i := i + 1 in
          printShortIp_loop fuel binIp (p ++ hex2 (get binIp i)) (i + 1)
        else if get binIp i >? 0x00 then
          let p := p ++ [Hex_encodeLowNibble (get binIp i)] in
          let i := i + 1 in
          printShortIp_loop fuel binIp (p ++ hex2 (get binIp i)) (i + 1)
        else
          let i := i + 1 in
          if get binIp i >? 0x0F then
            printShortIp_loop fuel binIp (p ++ hex2 (get binIp i)) (i + 1)
          else
            printShortIp_loop fuel binIp (p ++ [Hex_encodeLowNibble (get binIp i)]) (i + 1)
      else (p, i)
  end.

(** The string written, without and with its terminator. *)
Definition AddrTools_printShortIp (binIp : list Z) : Er (list Z) :=
  let '(p, i) := printShortIp_loop 9 binIp [] 0 in
  Assert_true (len p <=? 40) ;;
  Assert_true (i <=? 16) ;;
  Ret (p ++ [0]).

(** [for (int i = 0; i < 18; i++) { hex[j++] = hexAddr[i++]; hex[j++] = hexAddr[i++]; }] *)
Fixpoint mac_digits (fuel : nat) (hexAddr : list Z) (i : Z) : list Z :=
  match fuel with
  | O => []
  | S fuel =>
      if i <? 18 then get hexAddr i :: get hexAddr (i + 1) :: mac_digits fuel hexAddr (i + 3)
      else []
  end.

Definition AddrTools_parseMac (hexAddr : list Z) : option (list Z) :=
  if forallb (fun i => get hexAddr i =? chr_colon) [2; 5; 8; 11; 14] then
    let hex := mac_digits 7 hexAddr 0 in
    let '(r, out) := Hex_decode (zeros 6) 6 hex in
    if negb (r =? 6) then None else Some out
  else None.

Definition AddrTools_printMac (binMac : list Z) : list Z :=
  let hex := snd (Hex_encode (zeros 12) 12 binMac) in
  [get hex 0; get hex 1; chr_colon; get hex 2; get hex 3; chr_colon;
   get hex 4; get hex 5; chr_colon; get hex 6; get hex 7; chr_colon;
   get hex 8; get hex 9; chr_colon; get hex 10; get hex 11; 0].

(** ** Lemmas *)

(** Encoding into a buffer of exactly the right size leaves the digits alone. *)
Lemma Hex_encode_exact out bs :
  len out = 2 * len bs -> 2 * len bs < 2 ^ 32 ->
  Hex_encode out (2 * len bs) bs = (2 * len bs, encode_loop bs).
Proof.
  intros Ho Hl. unfold Hex_encode.
  assert (u32 (len bs * 2) = 2 * len bs) as -> by (unfold u32; rewrite Z.mod_small; lia).
  rewrite Z.gtb_ltb, Z.ltb_irrefl. f_equal. unfold wr. simpl take.
  pose proof (length_encode_loop bs). rewrite drop_ge by (simpl; lia). by rewrite app_nil_r.
Qed.

Lemma Hex_decode_exact out bs :
  bytes bs -> len out = len bs ->
  Hex_decode out (len bs) (encode_loop bs) = (len bs, bs).
Proof.
  intros Hb Ho. unfold Hex_decode. rewrite length_encode_loop, decode_encode_loop by done.
  rewrite (Z.mul_comm 2), Z.div_mul by done. change 1 with (Z.ones 1).
  rewrite Z.land_ones, Z.mod_mul by done. simpl (negb _). cbv iota.
  rewrite Z.gtb_ltb, Z.ltb_irrefl. f_equal. unfold wr. simpl take.
  rewrite drop_ge by (simpl; lia). by rewrite app_nil_r.
Qed.

(** Name the cells of a list of known length. *)
Ltac name_cells l H :=
  repeat (destruct l as [|? l]; [discriminate H|]); destruct l; [|discriminate H]; clear H.

(** Evaluate array reads at constant positions of an explicit list. *)
Ltac eval_get :=
  repeat match goal with
  | |- context [get ?l ?i] =>
      let v := eval cbv [get nth Z.to_nat Pos.to_nat Pos.iter_op Nat.add] in (get l i) in
      change (get l i) with v
  end.

(** The digits of [bs], as an opaque list. *)
Lemma hex_text n bs :
  bytes bs -> length bs = n -> Z.of_nat n < 2 ^ 31 ->
  exists t, length t = (2 * n)%nat /\
    (forall out k, length out = (2 * n)%nat -> k = 2 * Z.of_nat n -> snd (Hex_encode out k bs) = t) /\
    (forall out k, length out = n -> k = Z.of_nat n -> Hex_decode out k t = (k, bs)).
Proof.
  intros Hb Hl Hn. exists (encode_loop bs). pose proof (length_encode_loop bs).
  split; [lia|]. subst n. split; intros out k Ho ->.
  - rewrite Hex_encode_exact by lia. done.
  - apply Hex_decode_exact; [done|lia].
Qed.

(** ** Properties *)

(** Switch labels: every 64-bit label printed as "0000.0000.0000.0013" is
    parsed back to the same label. *)
Theorem printPath_parsePath path :
  fits 64 path -> AddrTools_parsePath (AddrTools_printPath path) = Some path.
Proof.
  intros Hp. unfold AddrTools_printPath, Endian_hostToBigEndian64, Endian_byteSwap64.
  unfold u64. rewrite (fits_small 64 path Hp), le_bytes_bswap.
  pose proof (be_bytes_bytes 8 path) as Hb. pose proof (length_be_bytes 8 path) as Hl.
  pose proof (be_val_bytes 8 path) as Hv. rewrite fits_small in Hv by done.
  set (bs := be_bytes 8 path) in *. clearbody bs.
  destruct (hex_text 8 bs Hb Hl) as (t & Ht & E & D); [lia|].
  rewrite (E (zeros 16) 16 eq_refl eq_refl). specialize (D (zeros 8) 8 eq_refl eq_refl). clear E.
  name_cells t Ht. unfold AddrTools_parsePath. eval_get.
  cbn [Z.eqb chr_dot Pos.eqb negb orb]. rewrite D.
  simpl (negb _). cbv iota. f_equal.
  unfold Endian_bigEndianToHost64, Endian_hostToBigEndian64, Endian_byteSwap64, u64.
  pose proof (le_val_bound bs Hb) as Hf. pose proof (bswap_le_val bs Hb) as Hs.
  rewrite Hl in Hf, Hs. rewrite (fits_small 64) by done. by rewrite Hs.
Qed.

Lemma printPath_parsePath_witness :
  AddrTools_parsePath (AddrTools_printPath 0x13) = Some 0x13.
Proof. apply (printPath_parsePath 0x13). vm_compute. split; [discriminate|reflexivity]. Defined.

Lemma printMac_parseMac mac :
  bytes mac -> length mac = 6%nat -> AddrTools_parseMac (AddrTools_printMac mac) = Some mac.
Proof.
  intros Hb Hl. unfold AddrTools_printMac.
  destruct (hex_text 6 mac Hb Hl) as (t & Ht & E & D); [lia|].
  rewrite (E (zeros 12) 12 eq_refl eq_refl). specialize (D (zeros 6) 6 eq_refl eq_refl). clear E.
  name_cells t Ht. unfold AddrTools_parseMac. cbn [forallb]. eval_get. simpl (forallb _ _).
  cbn [Z.eqb chr_colon Pos.eqb andb].
  match goal with |- context [mac_digits ?n ?l ?i] =>
    let v := eval vm_compute in (mac_digits n l i) in change (mac_digits n l i) with v end.
  rewrite D. done.
Qed.

(** MAC addresses: the printed form of any 6 bytes is parsed back to them, and
    [AddrTools_parseMac] rejects any string without a ':' at one of the five
    separator positions. *)
Theorem mac_roundtrip mac bad i :
  bytes mac -> length mac = 6%nat ->
  In i [2; 5; 8; 11; 14] -> get bad i <> chr_colon ->
  AddrTools_parseMac (AddrTools_printMac mac) = Some mac /\ AddrTools_parseMac bad = None.
Proof.
  intros Hb Hl Hi Hbad. split; [by apply printMac_parseMac|].
  unfold AddrTools_parseMac. destruct (forallb _ _) eqn:E; [|done].
  rewrite forallb_forall in E. specialize (E i Hi). apply Z.eqb_eq in E. done.
Qed.

Lemma mac_roundtrip_witness :
  AddrTools_parseMac (AddrTools_printMac [0; 17; 34; 51; 68; 255]) = Some [0; 17; 34; 51; 68; 255]
  /\ AddrTools_parseMac (zeros 17) = None.
Proof.
  apply (mac_roundtrip [0; 17; 34; 51; 68; 255] (zeros 17) 5).
  - repeat constructor; done.
  - reflexivity.
  - simpl. auto.
  - vm_compute. discriminate.
Defined.

(** Reference text of a 16-bit group: hexadecimal without leading zeros. *)
Definition short_group (v : Z) : list Z :=
  let d k := get hexEntities (Z.land (Z.shiftr v (4 * k)) 15) in
  if v <? 0x10 then [d 0]
  else if v <? 0x100 then [d 1; d 0]
  else if v <? 0x1000 then [d 2; d 1; d 0]
  else [d 3; d 2; d 1; d 0].

(** Groups joined by ':'. *)
Fixpoint join (gs : list (list Z)) : list Z :=
  match gs with
  | [] => []
  | [g] => g
  | g :: gs => g ++ chr_colon :: join gs
  end.

Fixpoint groups (ip : list Z) : list Z :=
  match ip with
  | h :: l :: ip => 256 * h + l :: groups ip
  | _ => []
  end.

(** What one round of the loop appends for the bytes [h] and [l]. *)
Definition round_text (h l : Z) : list Z :=
  if h >? 0x0F then hex2 h ++ hex2 l
  else if h >? 0x00 then Hex_encodeLowNibble h :: hex2 l
  else if l >? 0x0F then hex2 l else [Hex_encodeLowNibble l].

Lemma round_text_short h l : byte h -> byte l -> round_text h l = short_group (256 * h + l).
Proof.
  intros Hh Hl.
  assert (forallb (fun h => forallb (fun l =>
    bool_decide (round_text h l = short_group (256 * h + l))) (seqZ 0 256)) (seqZ 0 256) = true) as Hall
    by (vm_compute; reflexivity).
  rewrite forallb_forall in Hall.
  assert (In h (seqZ 0 256)) as Ih by (apply list_elem_of_In, elem_of_seqZ; apply Hh).
  assert (In l (seqZ 0 256)) as Il by (apply list_elem_of_In, elem_of_seqZ; apply Hl).
  specialize (Hall h Ih). rewrite forallb_forall in Hall. specialize (Hall l Il).
  by apply bool_decide_eq_true in Hall.
Qed.

Lemma short_group_length v : 1 <= len (short_group v) <= 4.
Proof. unfold short_group. repeat case_match; simpl; lia. Qed.

(** One unfolding of the loop, in terms of [round_text]. *)
Lemma printShortIp_round fuel ip p i :
  i < 16 ->
  printShortIp_loop (S fuel) ip p i =
  printShortIp_loop fuel ip
    ((if negb (len p =? 0) then p ++ [chr_colon] else p) ++ round_text (get ip i) (get ip (i + 1))) (i + 2).
Proof.
  intros Hi. cbn [printShortIp_loop]. zdecide (i <? 16). unfold round_text.
  replace (i + 1 + 1) with (i + 2) by lia.
  destruct (get ip i >? 0x0F); [by rewrite <- app_assoc|].
  destruct (get ip i >? 0x00); [by rewrite <- app_assoc|].
  by destruct (get ip (i + 1) >? 0x0F).
Qed.

Lemma printShortIp_round' fuel ip p i :
  i < 16 -> p <> [] ->
  printShortIp_loop (S fuel) ip p i =
  printShortIp_loop fuel ip (p ++ chr_colon :: round_text (get ip i) (get ip (i + 1))) (i + 2).
Proof.
  intros Hi Hp. rewrite printShortIp_round by done.
  assert (len p <> 0) by (destruct p; [done|simpl; lia]). zdecide (len p =? 0). simpl (negb _). cbv iota.
  by rewrite <- app_assoc.
Qed.

Lemma short_group_nonempty v : short_group v <> [].
Proof. pose proof (short_group_length v) as H. intros E. rewrite E in H. simpl in H. lia. Qed.

(** [AddrTools_printShortIp] prints every 16-byte address as its eight groups
    in shortest hexadecimal form separated by ':', NUL terminated, and its two
    assertions (at most 40 characters, at most 16 bytes read) hold. *)
Theorem printShortIp_groups ip :
  bytes ip -> length ip = 16%nat ->
  AddrTools_printShortIp ip = Ret (join (map short_group (groups ip)) ++ [0]) /\
  len (join (map short_group (groups ip)) ++ [0]) <= 40.
Proof.
  intros Hb Hl.
  assert (len (join (map short_group (groups ip))) <= 39) as Hlen.
  { name_cells ip Hl. cbn [groups map]. cbn [join]. rewrite !length_app. cbn [length].
    rewrite !length_app. cbn [length].
    repeat (rewrite length_app; cbn [length]).
    repeat match goal with |- context [short_group ?v] =>
      pose proof (short_group_length v); generalize dependent (length (short_group v)); intros end. lia. }
  split; [|rewrite length_app; simpl; lia].
  unfold AddrTools_printShortIp.
  enough (printShortIp_loop 9 ip [] 0 = (join (map short_group (groups ip)), 16)) as ->.
  { zdecide (len (join (map short_group (groups ip))) <=? 40). done. }
  clear Hlen. name_cells ip Hl. rewrite !Forall_cons in Hb. destruct_and!.
  rewrite printShortIp_round by done. simpl (negb _). cbv iota. eval_get.
  rewrite round_text_short by done. rewrite app_nil_l.
  cbn [groups map join].
  do 7 (rewrite printShortIp_round' by
          first [done | apply short_group_nonempty | by intros [_ ?]%app_eq_nil];
        eval_get; rewrite round_text_short by done).
  cbn [printShortIp_loop]. rewrite <- !app_assoc. done.
Qed.

Lemma printShortIp_groups_witness :
  AddrTools_printShortIp ([0xfc; 0; 0; 0; 0; 0x1f; 0x01; 0x23] ++ zeros 8) =
    Ret (join (map short_group [0xfc00; 0; 0x1f; 0x123; 0; 0; 0; 0]) ++ [0]) /\
  len (join (map short_group [0xfc00; 0; 0x1f; 0x123; 0; 0; 0; 0]) ++ [0]) <= 40.
Proof.
  apply (printShortIp_groups ([0xfc; 0; 0; 0; 0; 0x1f; 0x01; 0x23] ++ zeros 8)).
  - repeat constructor; done.
  - reflexivity.
Defined.
