(* ===== verification/Message.v ===== *)
(** * wire/Message.h, wire/Message.c: the packet buffer

    A [Message] is a window ([bytes], [length]) in an allocation; the [padding]
    bytes before the window are room for headers, and [capacity] bounds the
    window's growth at its end.  [bytes] is an offset into the allocation's
    content [mem]; [addr] is the allocation's address, which only the alignment
    loop of [Message_clone] looks at.  [msg_view] is the specification: the
    three segments a message denotes; every lemma about an operation says how
    it moves the borders of the segments. *)
From S2P Require Import Prelude Bits.

(** ** Definitions *)

Record Message := mkMessage {
  msg_length : Z;
  msg_padding : Z;
  msg_bytes : Z;
  msg_capacity : Z;
  msg_associatedFd : Z;
  msg_addr : Z;
  msg_mem : list Z;
}.

(** [mem] is what the allocator returned at address [addr]: [messageLength +
    amountOfPadding] bytes of unspecified content. *)
Definition Message_new (messageLength amountOfPadding addr : Z) (mem : list Z) : Message :=
  {| msg_length := i32 messageLength; msg_padding := i32 amountOfPadding;
     msg_bytes := amountOfPadding; msg_capacity := i32 messageLength;
     msg_associatedFd := 0; msg_addr := addr; msg_mem := mem |}.

Definition Message_setAssociatedFd (msg : Message) (fd : Z) : Message :=
  {| msg_length := msg_length msg; msg_padding := msg_padding msg;
     msg_bytes := msg_bytes msg; msg_capacity := msg_capacity msg;
     msg_associatedFd := if fd =? -1 then 0 else if fd =? 0 then -1 else fd;
     msg_addr := msg_addr msg; msg_mem := msg_mem msg |}.

Definition Message_getAssociatedFd (msg : Message) : Z :=
  if msg_associatedFd msg =? -1 then 0
  else if msg_associatedFd msg =? 0 then -1
  else msg_associatedFd msg.

(** [while ((allocation % 8) != (origin % 8)) { allocation++; }], returning how
    many bytes were skipped; seven steps reach every residue. *)
Fixpoint clone_align (fuel : nat) (allocation origin : Z) : Z :=
  match fuel with
  | O => 0
  | S fuel =>
      if negb (allocation mod 8 =? origin mod 8)
      then 1 + clone_align fuel (allocation + 1) origin else 0
  end.

#[global] Arguments clone_align : simpl never.

(** [addr] and [mem] are the fresh allocation of [len + 8] bytes. *)
Definition Message_clone (toClone : Message) (addr : Z) (mem : list Z) : Er Message :=
  Assert_true (msg_capacity toClone >=? msg_length toClone);;
  let len := msg_capacity toClone + msg_padding toClone in
  let origin := msg_bytes toClone - msg_padding toClone in
  let skip := clone_align 8 addr (msg_addr toClone + origin) in
  Ret {| msg_length := msg_length toClone; msg_padding := msg_padding toClone;
         msg_bytes := skip + msg_padding toClone; msg_capacity := msg_capacity toClone;
         msg_associatedFd := 0; msg_addr := addr;
         msg_mem := wr skip (rd origin len (msg_mem toClone)) mem |}.

(** [Allocator_realloc] keeps the content, at the address [addr] and with the
    bytes of [grown] after it. *)
Definition Message_copyOver (output input : Message) (addr : Z) (grown : list Z) : Message :=
  let inTotalLength := msg_length input + msg_padding input in
  let outTotalLength := msg_length output + msg_padding output in
  let origin := msg_bytes output - msg_padding output in
  let '(origin, addr, mem) :=
    if inTotalLength >? outTotalLength
    then (0, addr, take (Z.to_nat inTotalLength) (drop (Z.to_nat origin) (msg_mem output) ++ grown))
    else (origin, msg_addr output, msg_mem output) in
  {| msg_length := msg_length input; msg_padding := msg_padding input;
     msg_bytes := origin + msg_padding input; msg_capacity := msg_capacity output;
     msg_associatedFd := msg_associatedFd output; msg_addr := addr;
     msg_mem := wr origin (rd (msg_bytes input - msg_padding input) inTotalLength (msg_mem input)) mem |}.

(** [amount] is an [int32_t], and so is its negation. *)
Definition Message_eshift (toShift : Message) (amount : Z) : Er Message :=
  if (amount >? 0) && (msg_padding toShift <? amount) then Abort "buffer overflow"
  else if msg_length toShift <? i32 (- amount) then Abort "buffer underflow"
  else Ret {| msg_length := msg_length toShift + amount;
              msg_padding := msg_padding toShift - amount;
              msg_bytes := msg_bytes toShift - amount;
              msg_capacity := msg_capacity toShift + amount;
              msg_associatedFd := msg_associatedFd toShift;
              msg_addr := msg_addr toShift; msg_mem := msg_mem toShift |}.

Definition Message_reset (toShift : Message) : Er Message :=
  Assert_true (msg_length toShift <=? msg_capacity toShift);;
  let toShift :=
    {| msg_length := msg_capacity toShift; msg_padding := msg_padding toShift;
       msg_bytes := msg_bytes toShift; msg_capacity := msg_capacity toShift;
       msg_associatedFd := msg_associatedFd toShift;
       msg_addr := msg_addr toShift; msg_mem := msg_mem toShift |} in
  Message_eshift toShift (- msg_length toShift).

(** *** Error packets *)

Definition set_msg_length (m : Message) (l : Z) : Message :=
  {| msg_length := l; msg_padding := msg_padding m; msg_bytes := msg_bytes m;
     msg_capacity := msg_capacity m; msg_associatedFd := msg_associatedFd m;
     msg_addr := msg_addr m; msg_mem := msg_mem m |}.

(** Stores at [msg->bytes + off]. *)
Definition msg_write (msg : Message) (off : Z) (bs : list Z) : Message :=
  {| msg_length := msg_length msg; msg_padding := msg_padding msg;
     msg_bytes := msg_bytes msg; msg_capacity := msg_capacity msg;
     msg_associatedFd := msg_associatedFd msg; msg_addr := msg_addr msg;
     msg_mem := wr (msg_bytes msg + off) bs (msg_mem msg) |}.

(** The [n] bytes at [msg->bytes + off]. *)
Definition msg_read (msg : Message) (off n : Z) : list Z :=
  rd (msg_bytes msg + off) n (msg_mem msg).

(** [object] is the memory at the pointer, [None] for NULL. *)
Definition Message_epush (msg : Message) (object : option (list Z)) (size : Z) : Er Message :=
  msg ← Message_eshift msg (i32 size);
  Ret (msg_write msg 0 (match object with
                        | Some object => take (Z.to_nat size) object
                        | None => zeros size
                        end)).

(** The second component is what is stored through a non-NULL [object]. *)
Definition Message_epop (msg : Message) (size : Z) : Er (Message * list Z) :=
  msg ← Message_eshift msg (- i32 size);
  Ret (msg, msg_read msg (- i32 size) size).

(** [Message_pushH(8 * n)] and [Message_popH(8 * n)]. *)
Definition Message_pushH (n : nat) (msg : Message) (dat : Z) : Er Message :=
  Message_epush msg (Some (le_bytes n dat)) (Z.of_nat n).
Definition Message_popH (n : nat) (msg : Message) : Er (Message * Z) :=
  '(msg, out) ← Message_epop msg (Z.of_nat n);
  Ret (msg, le_val out).

Definition Message_epush8 := Message_pushH 1.
Definition Message_epop8 := Message_popH 1.
Definition Message_epush16h := Message_pushH 2.
Definition Message_epop16h := Message_popH 2.
Definition Message_epush32h := Message_pushH 4.
Definition Message_epop32h := Message_popH 4.
Definition Message_epush64h := Message_pushH 8.
Definition Message_epop64h := Message_popH 8.

(** [Message_popBE(size)], [toHost] being its [Endian_bigEndianToHost]. *)
Definition Message_popBE (n : nat) (toHost : Z -> Z) (msg : Message) : Er (Message * Z) :=
  '(msg, out) ← Message_popH n msg;
  Ret (msg, toHost out).
Definition Message_epop16be := Message_popBE 2 Endian_bigEndianToHost16.
Definition Message_epop32be := Message_popBE 4 Endian_bigEndianToHost32.
Definition Message_epop64be := Message_popBE 8 Endian_bigEndianToHost64.

(** [Message_popLE(size)]: the host is little endian. *)
Definition Message_popLE (n : nat) (msg : Message) : Er (Message * Z) :=
  '(msg, out) ← Message_popH n msg;
  Ret (msg, out).
Definition Message_epop16le := Message_popLE 2.
Definition Message_epop32le := Message_popLE 4.
Definition Message_epop64le := Message_popLE 8.

(** All three [..le] macros of the source expand to [Message_epush16h]; passing
    the value as a [uint16_t] truncates it. *)
Definition Message_epush16le (msg : Message) (x : Z) : Er Message :=
  Message_epush16h msg (u16 (Endian_hostToLittleEndian16 x)).
Definition Message_epush32le (msg : Message) (x : Z) : Er Message :=
  Message_epush16h msg (u16 (Endian_hostToLittleEndian32 x)).
Definition Message_epush64le (msg : Message) (x : Z) : Er Message :=
  Message_epush16h msg (u16 (Endian_hostToLittleEndian64 x)).

Definition Message_epush16be (msg : Message) (x : Z) : Er Message :=
  Message_epush16h msg (Endian_hostToBigEndian16 x).
Definition Message_epush32be (msg : Message) (x : Z) : Er Message :=
  Message_epush32h msg (Endian_hostToBigEndian32 x).
Definition Message_epush64be (msg : Message) (x : Z) : Er Message :=
  Message_epush64h msg (Endian_hostToBigEndian64 x).

(** ** The specification of a message *)

(** [m] has the padding [pre], the content [c] and the spare room [post]. *)
Definition msg_view (m : Message) (pre c post : list Z) : Prop :=
  exists slack tail,
    msg_mem m = slack ++ pre ++ c ++ post ++ tail /\
    msg_bytes m = len slack + len pre /\
    msg_padding m = len pre /\ msg_length m = len c /\
    msg_capacity m = len c + len post /\
    len pre + len c + len post < 2 ^ 31.

(** The content of a message, as code that reads [bytes[0..length)] sees it. *)
Definition msg_content (m : Message) : list Z := msg_read m 0 (msg_length m).

(** Some view exists: the window and its room lie inside of the allocation. *)
Definition msg_ok (m : Message) : Prop := exists pre c post, msg_view m pre c post.

(** ** Lemmas *)

Ltac msg_lens := repeat (rewrite ?length_app, ?Nat2Z.inj_add in * ).

Lemma msg_view_length m pre c post : msg_view m pre c post -> msg_length m = len c.
Proof. intros (? & ? & ?). tauto. Qed.

Lemma msg_view_content m pre c post : msg_view m pre c post -> msg_content m = c.
Proof.
  intros (slack & tail & Hm & Hb & Hp & Hl & _).
  unfold msg_content, msg_read. rewrite Hm, Hl, app_assoc.
  apply rd_app; msg_lens; lia.
Qed.

Lemma i32_small z : - 2 ^ 31 <= z < 2 ^ 31 -> i32 z = z.
Proof. intros. unfold i32. rewrite Z.mod_small; lia. Qed.

Lemma i32_above z : z < 2 ^ 31 -> z <= i32 z.
Proof. intros. unfold i32. Z.to_euclidean_division_equations; lia. Qed.

Lemma eshift_pop m pre a c post :
  msg_view m pre (a ++ c) post ->
  exists m', Message_eshift m (- len a) = Ret m' /\ msg_view m' (pre ++ a) c post /\
    msg_read m' (- len a) (len a) = a /\ msg_associatedFd m' = msg_associatedFd m.
Proof.
  intros (slack & tail & Hm & Hb & Hp & Hl & Hc & Hs). msg_lens.
  unfold Message_eshift.
  rewrite (i32_small (- - len a)) by lia. rewrite (proj2 (Z.ltb_ge (msg_length m) _)) by lia.
  destruct (Z.gtb_spec (- len a) 0); [lia|]. simpl. eexists. split; [done|]. repeat split.
  - exists slack, tail. simpl. msg_lens. rewrite Hm. split; [by rewrite <- !app_assoc|]. lia.
  - unfold msg_read. simpl. rewrite Hm, app_assoc, <- (app_assoc a).
    apply rd_app; msg_lens; lia.
Qed.

Lemma eshift_push m pre a c post :
  msg_view m (pre ++ a) c post ->
  exists m', Message_eshift m (len a) = Ret m' /\ msg_view m' pre (a ++ c) post /\
    msg_associatedFd m' = msg_associatedFd m.
Proof.
  intros (slack & tail & Hm & Hb & Hp & Hl & Hc & Hs). msg_lens.
  unfold Message_eshift.
  destruct (Z.ltb_spec (msg_padding m) (len a)); [lia|].
  rewrite i32_small by lia. destruct (Z.ltb_spec (msg_length m) (- len a)); [lia|].
  rewrite andb_false_r. eexists. split; [done|]. split; [|done].
  exists slack, tail. simpl. msg_lens. rewrite Hm. split; [by rewrite <- !app_assoc|]. lia.
Qed.

Lemma msg_write_view m pre a b c post bs :
  msg_view m pre (a ++ b ++ c) post -> length bs = length b ->
  msg_view (msg_write m (len a) bs) pre (a ++ bs ++ c) post.
Proof.
  intros (slack & tail & Hm & Hb & Hp & Hl & Hc & Hs) Hlen.
  exists slack, tail. unfold msg_write. simpl. msg_lens. rewrite Hlen. split; [|lia].
  rewrite Hm, Hb.
  replace (slack ++ pre ++ (a ++ b ++ c) ++ post ++ tail)
    with ((slack ++ pre ++ a) ++ b ++ (c ++ post ++ tail)) by by rewrite <- !app_assoc.
  rewrite wr_app by (rewrite ?length_app; lia). by rewrite <- !app_assoc.
Qed.

Lemma msg_read_view m pre a b c post :
  msg_view m pre (a ++ b ++ c) post -> msg_read m (len a) (len b) = b.
Proof.
  intros (slack & tail & Hm & Hb & _). unfold msg_read. rewrite Hm, Hb.
  replace (slack ++ pre ++ (a ++ b ++ c) ++ post ++ tail)
    with ((slack ++ pre ++ a) ++ b ++ (c ++ post ++ tail)) by by rewrite <- !app_assoc.
  apply rd_app; msg_lens; lia.
Qed.

Lemma epush_addr m o n m' :
  Message_epush m o n = Ret m' ->
  msg_addr m' = msg_addr m /\ msg_bytes m' = msg_bytes m - i32 n.
Proof.
  unfold Message_epush, Message_eshift. cbn [mbind Er_bind].
  destruct (_ && _); [done|]. destruct (_ <? _); [done|]. by intros [= <-].
Qed.

Lemma epush_view m pre room c post object size :
  msg_view m (pre ++ room) c post -> len room = size ->
  size <= match object with Some o => len o | None => size end ->
  exists m', Message_epush m object size = Ret m' /\
    msg_view m' pre (match object with Some o => take (Z.to_nat size) o
                                     | None => zeros size end ++ c) post /\
    msg_associatedFd m' = msg_associatedFd m.
Proof.
  intros Hv <- Hle.
  assert (len room < 2 ^ 31) by (destruct Hv as (? & ? & _ & _ & _ & _ & _ & Hs); msg_lens; lia).
  destruct (eshift_push _ _ _ _ _ Hv) as (m1 & He & Hv1 & Hfd).
  unfold Message_epush. rewrite i32_small, He by lia. simpl. eexists. split; [done|].
  split; [|exact Hfd].
  change 0 with (len (@nil Z)). apply (msg_write_view m1 pre [] room c post); [exact Hv1|].
  destruct object; [rewrite length_take|unfold zeros; rewrite length_replicate]; lia.
Qed.

Lemma epop_view m pre a c post size :
  msg_view m pre (a ++ c) post -> len a = size ->
  exists m', Message_epop m size = Ret (m', a) /\ msg_view m' (pre ++ a) c post /\
    msg_associatedFd m' = msg_associatedFd m.
Proof.
  intros Hv <-.
  assert (len a < 2 ^ 31) by (destruct Hv as (? & ? & _ & _ & _ & _ & _ & Hs); msg_lens; lia).
  destruct (eshift_pop _ _ _ _ _ Hv) as (m1 & He & Hv1 & Hrd & Hfd).
  unfold Message_epop. rewrite i32_small, He by lia. simpl. rewrite Hrd. eauto.
Qed.

Lemma pushH_view n m pre room c post dat :
  msg_view m (pre ++ room) c post -> length room = n ->
  exists m', Message_pushH n m dat = Ret m' /\ msg_view m' pre (le_bytes n dat ++ c) post /\
    msg_associatedFd m' = msg_associatedFd m.
Proof.
  intros Hv Hr. unfold Message_pushH.
  destruct (epush_view m pre room c post (Some (le_bytes n dat)) (Z.of_nat n) Hv)
    as (m' & He & Hv' & Hfd); [lia|rewrite length_le_bytes; lia|].
  exists m'. split; [done|]. split; [|done].
  rewrite Nat2Z.id, take_ge in Hv' by (by rewrite length_le_bytes). exact Hv'.
Qed.

Lemma popH_view n m pre a c post :
  msg_view m pre (a ++ c) post -> length a = n ->
  exists m', Message_popH n m = Ret (m', le_val a) /\ msg_view m' (pre ++ a) c post /\
    msg_associatedFd m' = msg_associatedFd m.
Proof.
  intros Hv Ha. unfold Message_popH.
  destruct (epop_view m pre a c post (Z.of_nat n) Hv) as (m' & He & Hv' & Hfd); [lia|].
  rewrite He. simpl. eauto.
Qed.

(** The big-endian pushes lay the number out most significant byte first. *)
Lemma epush16be_view m pre room c post x :
  fits 16 x -> msg_view m (pre ++ room) c post -> length room = 2%nat ->
  exists m', Message_epush16be m x = Ret m' /\ msg_view m' pre (be_bytes 2 x ++ c) post /\
    msg_associatedFd m' = msg_associatedFd m.
Proof.
  intros Hx Hv Hr. unfold Message_epush16be, Endian_hostToBigEndian16, Endian_byteSwap16, u16.
  rewrite (fits_small _ x Hx), <- le_bytes_bswap. by apply (pushH_view 2 m pre room).
Qed.

Lemma epush32be_view m pre room c post x :
  fits 32 x -> msg_view m (pre ++ room) c post -> length room = 4%nat ->
  exists m', Message_epush32be m x = Ret m' /\ msg_view m' pre (be_bytes 4 x ++ c) post /\
    msg_associatedFd m' = msg_associatedFd m.
Proof.
  intros Hx Hv Hr. unfold Message_epush32be, Endian_hostToBigEndian32, Endian_byteSwap32, u32.
  rewrite (fits_small _ x Hx), <- le_bytes_bswap. by apply (pushH_view 4 m pre room).
Qed.

Lemma epush64be_view m pre room c post x :
  fits 64 x -> msg_view m (pre ++ room) c post -> length room = 8%nat ->
  exists m', Message_epush64be m x = Ret m' /\ msg_view m' pre (be_bytes 8 x ++ c) post /\
    msg_associatedFd m' = msg_associatedFd m.
Proof.
  intros Hx Hv Hr. unfold Message_epush64be, Endian_hostToBigEndian64, Endian_byteSwap64, u64.
  rewrite (fits_small _ x Hx), <- le_bytes_bswap. by apply (pushH_view 8 m pre room).
Qed.

(** The big-endian pops read it back. *)
Lemma popBE_view n toHost m pre a c post :
  (forall l, length l = n -> bytes l -> toHost (le_val l) = be_val l) ->
  msg_view m pre (a ++ c) post -> bytes a -> length a = n ->
  exists m', Message_popBE n toHost m = Ret (m', be_val a) /\ msg_view m' (pre ++ a) c post /\
    msg_associatedFd m' = msg_associatedFd m.
Proof.
  intros Hh Hv Hb Ha. unfold Message_popBE.
  destruct (popH_view n m pre a c post Hv Ha) as (m' & He & Hv' & Hfd).
  rewrite He. simpl. rewrite (Hh a Ha Hb). eauto.
Qed.

Lemma toHost_be n w cast : cast = (fun x => x mod 2 ^ w) -> w = 8 * Z.of_nat n ->
  forall l, length l = n -> bytes l -> bswap n (cast (le_val l)) = be_val l.
Proof.
  intros -> -> l Hl Hb. rewrite fits_small by (rewrite <- Hl; by apply le_val_bound).
  rewrite <- Hl. by apply bswap_le_val.
Qed.

Lemma epop16be_view m pre a c post :
  msg_view m pre (a ++ c) post -> bytes a -> length a = 2%nat ->
  exists m', Message_epop16be m = Ret (m', be_val a) /\ msg_view m' (pre ++ a) c post /\
    msg_associatedFd m' = msg_associatedFd m.
Proof. apply popBE_view. by apply (toHost_be 2 16). Qed.

Lemma epop32be_view m pre a c post :
  msg_view m pre (a ++ c) post -> bytes a -> length a = 4%nat ->
  exists m', Message_epop32be m = Ret (m', be_val a) /\ msg_view m' (pre ++ a) c post /\
    msg_associatedFd m' = msg_associatedFd m.
Proof. apply popBE_view. by apply (toHost_be 4 32). Qed.

Lemma epop64be_view m pre a c post :
  msg_view m pre (a ++ c) post -> bytes a -> length a = 8%nat ->
  exists m', Message_epop64be m = Ret (m', be_val a) /\ msg_view m' (pre ++ a) c post /\
    msg_associatedFd m' = msg_associatedFd m.
Proof. apply popBE_view. by apply (toHost_be 8 64). Qed.

Lemma host16 l : length l = 2%nat -> bytes l -> Endian_bigEndianToHost16 (le_val l) = be_val l.
Proof. apply (toHost_be 2 16 _ eq_refl eq_refl). Qed.

Lemma host32 l : length l = 4%nat -> bytes l -> Endian_bigEndianToHost32 (le_val l) = be_val l.
Proof. apply (toHost_be 4 32 _ eq_refl eq_refl). Qed.

Lemma host64 l : length l = 8%nat -> bytes l -> Endian_bigEndianToHost64 (le_val l) = be_val l.
Proof. apply (toHost_be 8 64 _ eq_refl eq_refl). Qed.

Lemma msg_read_sub m pre c post off n : msg_view m pre c post -> 0 <= off -> 0 <= n -> off + n <= len c ->
  msg_read m off n = rd off n c.
Proof.
  intros Hv Ho Hn Hle. destruct (list_split_at off c ltac:(lia)) as (a & r & -> & Ha).
  rewrite length_app in Hle. destruct (list_split_at n r ltac:(lia)) as (b & d & -> & Hb).
  rewrite <- Ha, <- Hb, (msg_read_view m pre a b d post Hv). by rewrite rd_app.
Qed.

Lemma eshift_ret m n m' : Message_eshift m n = Ret m' -> 0 < n ->
  n <= msg_padding m /\ msg_padding m' = msg_padding m - n /\
  msg_addr m' = msg_addr m /\ msg_bytes m' = msg_bytes m - n.
Proof.
  unfold Message_eshift. intros E Hn. destruct (Z.gtb_spec n 0); [|lia].
  destruct (Z.ltb_spec (msg_padding m) n); [done|]. cbn [andb] in E.
  destruct (msg_length m <? _); [done|]. injection E as <-. cbn. lia.
Qed.

Lemma epush_ret m o n m' : Message_epush m o n = Ret m' -> 0 < n < 2 ^ 31 ->
  n <= msg_padding m /\ msg_padding m' = msg_padding m - n /\
  msg_addr m' = msg_addr m /\ msg_bytes m' = msg_bytes m - n.
Proof.
  unfold Message_epush. intros E Hn. rewrite i32_small in E by lia.
  destruct (Message_eshift m n) as [m1|] eqn:E1; [|done]. injection E as <-.
  apply eshift_ret in E1; [|lia]. exact E1.
Qed.

(** A store at the start of the content. *)
Lemma write_start m pre b c post bs :
  msg_view m pre (b ++ c) post -> length bs = length b -> msg_view (msg_write m 0 bs) pre (bs ++ c) post.
Proof. apply (msg_write_view m pre [] b c post bs). Qed.

(** Behind [a]. *)
Lemma write_behind m pre a b c post bs off :
  msg_view m pre (a ++ b ++ c) post -> length bs = length b -> off = len a ->
  msg_view (msg_write m off bs) pre (a ++ bs ++ c) post.
Proof. intros Hv Hl ->. by apply (msg_write_view m pre a b c post bs). Qed.

(** The read of a part of the content. *)
Lemma read_part m pre a b c post off n :
  msg_view m pre (a ++ b ++ c) post -> off = len a -> n = len b -> msg_read m off n = b.
Proof. intros Hv -> ->. by apply (msg_read_view m pre a b c post). Qed.

(** What an allocator returns for a size: an address and that many bytes. *)
Definition malloc_ok (malloc : Z -> Z * list Z) : Prop := forall n, length (malloc n).2 = Z.to_nat n.

Lemma Message_new_view malloc n : malloc_ok malloc -> 0 <= n < 2 ^ 31 ->
  msg_view (Message_new 0 n (malloc n).1 (malloc n).2) (malloc n).2 [] [].
Proof.
  intros Hm Hn. pose proof (Hm n) as Hl. exists [], []. unfold Message_new.
  cbn [msg_mem msg_bytes msg_padding msg_length msg_capacity app length]. rewrite !i32_small by lia.
  rewrite !app_nil_r. split_and!; lia || done.
Qed.

Lemma set_msg_length_view m pre a b post l :
  msg_view m pre (a ++ b) post -> l = len a -> msg_view (set_msg_length m l) pre a (b ++ post).
Proof.
  intros (slack & tail & Hm & Hb & Hp & Hl & Hc & Hs) ->. exists slack, tail. simpl.
  rewrite !length_app in *. rewrite Hm, <- !app_assoc. split; [done|]. lia.
Qed.

(** ** Messages with access in front of the content *)

Lemma msg_write_front m pre r c1 c2 post off bs1 bs2 :
  msg_view m (pre ++ r) (c1 ++ c2) post -> off = - len r ->
  length bs1 = length r -> length bs2 = length c1 ->
  msg_view (msg_write m off (bs1 ++ bs2)) (pre ++ bs1) (bs2 ++ c2) post.
Proof.
  intros (slack & tail & Hm & Hb & Hp & Hl & Hc & Hs) -> H1 H2.
  exists slack, tail. cbn [msg_write msg_length msg_padding msg_bytes msg_capacity msg_mem].
  rewrite Hm. split; [|msg_lens; repeat split; lia].
  replace (slack ++ (pre ++ r) ++ (c1 ++ c2) ++ post ++ tail)
    with ((slack ++ pre) ++ (r ++ c1) ++ (c2 ++ post ++ tail)) by (by rewrite !app_assoc).
  rewrite wr_app by (msg_lens; lia). by rewrite !app_assoc.
Qed.

Lemma msg_read_front m pre r c1 c2 post off n :
  msg_view m (pre ++ r) (c1 ++ c2) post -> off = - len r -> n = len r + len c1 ->
  msg_read m off n = r ++ c1.
Proof.
  intros (slack & tail & Hm & Hb & _) -> ->. unfold msg_read. rewrite Hm, Hb.
  replace (slack ++ (pre ++ r) ++ (c1 ++ c2) ++ post ++ tail)
    with ((slack ++ pre) ++ (r ++ c1) ++ (c2 ++ post ++ tail)) by (by rewrite !app_assoc).
  apply rd_app; msg_lens; lia.
Qed.

Lemma reset_view m pre c post :
  msg_view m pre c post ->
  exists m', Message_reset m = Ret m' /\ msg_view m' (pre ++ c ++ post) [] [].
Proof.
  intros (slack & tail & Hm & Hb & Hp & Hl & Hc & Hs). unfold Message_reset.
  rewrite (proj2 (Z.leb_le _ _)) by lia. simpl.
  edestruct (eshift_pop {| msg_length := msg_capacity m; msg_padding := msg_padding m;
       msg_bytes := msg_bytes m; msg_capacity := msg_capacity m;
       msg_associatedFd := msg_associatedFd m;
       msg_addr := msg_addr m; msg_mem := msg_mem m |} pre (c ++ post) [] []) as (m' & He & Hv & _).
  - exists slack, tail. simpl. msg_lens. rewrite app_nil_r, <- app_assoc. split; [done|]. simpl. lia.
  - exists m'. split; [|done]. rewrite <- He. f_equal. msg_lens. lia.
Qed.

Lemma clone_align_spec fuel allocation origin :
  (exists k, 0 <= k < Z.of_nat fuel /\ (allocation + k) mod 8 = origin mod 8) ->
  let s := clone_align fuel allocation origin in
  0 <= s < Z.of_nat fuel /\ (allocation + s) mod 8 = origin mod 8.
Proof.
  revert allocation. induction fuel as [|fuel IH]; intros allocation (k & Hk & He); [lia|].
  unfold clone_align; fold clone_align. destruct (Z.eqb_spec (allocation mod 8) (origin mod 8)) as [Hd|Hd]; simpl negb.
  { cbv zeta iota. rewrite Z.add_0_r. split; [lia|done]. }
  cbv zeta iota. destruct (IH (allocation + 1)) as [H1 H2].
  { exists (k - 1). destruct (decide (k = 0)) as [->|]; [by rewrite Z.add_0_r in He|].
    split; [lia|]. by replace (allocation + 1 + (k - 1)) with (allocation + k) by lia. }
  cbv zeta in *. split; [lia|]. by rewrite Z.add_assoc.
Qed.

Lemma clone_align_8 allocation origin :
  let s := clone_align 8 allocation origin in
  0 <= s < 8 /\ (allocation + s) mod 8 = origin mod 8.
Proof.
  apply clone_align_spec. exists ((origin - allocation) mod 8).
  split; [apply Z.mod_pos_bound; lia|].
  rewrite Zplus_mod_idemp_r. f_equal. lia.
Qed.

Lemma le_bytes_u16 x : le_bytes 2 (u16 x) = le_bytes 2 x.
Proof.
  change (u16 x) with (x mod 2 ^ (8 * Z.of_nat 2)). rewrite <- le_val_bytes.
  pose proof (le_bytes_val (le_bytes 2 x) (le_bytes_bytes 2 x)) as H.
  by rewrite length_le_bytes in H.
Qed.

(** ** Properties *)

(** [C40] Moving the start of a message by any amount but INT32_MIN succeeds exactly
    when the new start stays inside of the padding and the content; the window then
    still lies in the allocation, no byte of padding or content is lost, and
    otherwise the process is stopped before anything is changed.  (The negation of
    INT32_MIN is INT32_MIN again, so that amount passes the check:
    [eshift_by_int32_min].) *)
Theorem message_eshift_spec m pre c post amount :
  msg_view m pre c post -> - 2 ^ 31 < amount < 2 ^ 31 ->
  match Message_eshift m amount with
  | Ret m' =>
      - len c <= amount <= len pre /\ msg_mem m' = msg_mem m /\
      exists pre' c', msg_view m' pre' c' post /\
        pre' ++ c' = pre ++ c /\ len c' = len c + amount
  | Abort _ => amount < - len c \/ len pre < amount
  end.
Proof.
  intros Hv Ha. destruct (decide (0 <= amount)) as [Hpos|Hneg].
  - destruct (decide (amount <= len pre)) as [Hle|Hgt].
    + destruct (list_split_at (len pre - amount) pre) as (p1 & p2 & -> & Hp); [lia|].
      msg_lens. destruct (eshift_push _ _ _ _ _ Hv) as (m' & He & Hv' & _).
      replace amount with (len p2) by lia. rewrite He. split; [lia|]. split.
      { unfold Message_eshift in He. repeat case_match; by simplify_eq. }
      exists p1, (p2 ++ c). rewrite length_app, app_assoc. split; [done|]. split; [done|lia].
    + destruct Hv as (? & ? & _ & _ & Hp & _). unfold Message_eshift.
      rewrite (proj2 (Z.ltb_lt _ _)) by lia. destruct (Z.gtb_spec amount 0); simpl; lia.
  - destruct (decide (- amount <= len c)) as [Hle|Hgt].
    + destruct (list_split_at (- amount) c) as (c1 & c2 & -> & Hp); [lia|].
      destruct (eshift_pop _ _ _ _ _ Hv) as (m' & He & Hv' & _).
      replace amount with (- len c1) by lia. rewrite He. msg_lens. split; [lia|]. split.
      { unfold Message_eshift in He. repeat case_match; by simplify_eq. }
      exists (pre ++ c1), c2. rewrite app_assoc. split; [done|]. split; [done|lia].
    + destruct Hv as (? & ? & _ & _ & _ & Hl & _). unfold Message_eshift.
      rewrite i32_small by lia. destruct (Z.gtb_spec amount 0); [lia|]. simpl.
      rewrite (proj2 (Z.ltb_lt _ _)) by lia. lia.
Qed.

(** A 3-byte message with 20 bytes of padding and 2 spare bytes. *)
Definition example_msg : Message :=
  {| msg_length := 3; msg_padding := 20; msg_bytes := 20; msg_capacity := 5;
     msg_associatedFd := 0; msg_addr := 4096; msg_mem := zeros 20 ++ [1; 2; 3; 4; 5] |}.

Lemma example_msg_view : msg_view example_msg (zeros 20) [1; 2; 3] [4; 5].
Proof. exists [], []. vm_compute. repeat split; done. Qed.

Lemma message_eshift_spec_witness :
  match Message_eshift example_msg (-2) with
  | Ret m' =>
      -3 <= -2 <= 20 /\ msg_mem m' = msg_mem example_msg /\
      exists pre' c', msg_view m' pre' c' [4; 5] /\
        pre' ++ c' = zeros 20 ++ [1; 2; 3] /\ len c' = 3 + -2
  | Abort _ => -2 < -3 \/ 20 < -2
  end.
Proof. exact (message_eshift_spec example_msg _ _ _ (-2) example_msg_view ltac:(lia)). Defined.

(** The one amount which gets past the check: 2^31 bytes are taken off a message of
    three. *)
Example eshift_by_int32_min :
  exists m', Message_eshift example_msg (- 2 ^ 31) = Ret m' /\ msg_length m' = 3 - 2 ^ 31.
Proof. eexists. split; [vm_compute; reflexivity|reflexivity]. Qed.

(** Numbers pushed in front of a message in network byte order are popped
    back unchanged, innermost last; in between, the packet starts with their
    big-endian representation followed by the untouched content. *)
Theorem message_be_roundtrip m pre room c post x y z :
  msg_view m (pre ++ room) c post -> length room = 14%nat ->
  fits 16 x -> fits 32 y -> fits 64 z ->
  exists m1 m2,
    (m ← Message_epush64be m z; m ← Message_epush32be m y; Message_epush16be m x) = Ret m1 /\
    msg_content m1 = be_bytes 2 x ++ be_bytes 4 y ++ be_bytes 8 z ++ c /\
    ('(m, x) ← Message_epop16be m1; '(m, y) ← Message_epop32be m;
     '(m, z) ← Message_epop64be m; Ret (m, x, y, z)) = Ret (m2, x, y, z) /\
    msg_content m2 = c /\ msg_ok m2.
Proof.
  intros Hv Hr Hx Hy Hz.
  destruct (list_split_at 2 room) as (r2 & r & -> & H2); [lia|].
  destruct (list_split_at 4 r) as (r4 & r8 & -> & H4); [msg_lens; lia|].
  msg_lens. rewrite !app_assoc in Hv.
  destruct (epush64be_view _ _ _ _ _ z Hz Hv) as (m1 & -> & Hv1 & _); [lia|].
  destruct (epush32be_view _ _ _ _ _ y Hy Hv1) as (m2 & Hm2 & Hv2 & _); [lia|].
  destruct (epush16be_view _ _ _ _ _ x Hx Hv2) as (m3 & Hm3 & Hv3 & _); [lia|].
  destruct (epop16be_view _ _ _ _ _ Hv3) as (n1 & Hn1 & Hw1 & _);
    [apply be_bytes_bytes|apply length_be_bytes|].
  destruct (epop32be_view _ _ _ _ _ Hw1) as (n2 & Hn2 & Hw2 & _);
    [apply be_bytes_bytes|apply length_be_bytes|].
  destruct (epop64be_view _ _ _ _ _ Hw2) as (n3 & Hn3 & Hw3 & _);
    [apply be_bytes_bytes|apply length_be_bytes|].
  exists m3, n3. simpl. rewrite Hm2. simpl. rewrite Hm3. split; [done|].
  split; [by apply (msg_view_content _ _ _ _ Hv3)|].
  rewrite Hn1. simpl. rewrite Hn2. simpl. rewrite Hn3. simpl.
  rewrite !be_val_bytes, !fits_small by done. split; [done|].
  split; [by apply (msg_view_content _ _ _ _ Hw3)|]. by do 3 eexists.
Qed.

Lemma message_be_roundtrip_witness :
  exists m1 m2,
    (m ← Message_epush64be example_msg 0x1122334455667788;
     m ← Message_epush32be m 0xdeadbeef; Message_epush16be m 0xfc00) = Ret m1 /\
    msg_content m1 = be_bytes 2 0xfc00 ++ be_bytes 4 0xdeadbeef
      ++ be_bytes 8 0x1122334455667788 ++ [1; 2; 3] /\
    ('(m, x) ← Message_epop16be m1; '(m, y) ← Message_epop32be m;
     '(m, z) ← Message_epop64be m; Ret (m, x, y, z))
      = Ret (m2, 0xfc00, 0xdeadbeef, 0x1122334455667788) /\
    msg_content m2 = [1; 2; 3] /\ msg_ok m2.
Proof.
  apply (message_be_roundtrip example_msg (zeros 6) (zeros 14) _ [4; 5]);
    [exact example_msg_view|reflexivity|split; vm_compute; congruence..].
Defined.

(** A clone has the padding, the content and the spare room of the original
    in storage of its own, at an address with the original's alignment. *)
Theorem message_clone_spec m pre c post addr mem :
  msg_view m pre c post -> len mem = len pre + len c + len post + 8 ->
  exists m', Message_clone m addr mem = Ret m' /\ msg_view m' pre c post /\
    (msg_addr m' + msg_bytes m') mod 8 = (msg_addr m + msg_bytes m) mod 8.
Proof.
  intros (slack & tail & Hm & Hb & Hp & Hl & Hc & Hs) Hmem. unfold Message_clone.
  destruct (Z.geb_spec (msg_capacity m) (msg_length m)); [|lia]. simpl.
  set (origin := msg_addr m + (msg_bytes m - msg_padding m)).
  destruct (clone_align_8 addr origin) as [Hk Hal]. cbv zeta in *.
  set (k := clone_align 8 addr origin) in *. eexists. split; [done|]. split.
  - destruct (list_split_at k mem) as (s & mem' & -> & Hs'); [lia|].
    destruct (list_split_at (len pre + len c + len post) mem') as (b & t & -> & Hb');
      [msg_lens; lia|].
    exists s, t. simpl. msg_lens. split; [|lia].
    rewrite Hm. replace (slack ++ pre ++ c ++ post ++ tail)
      with (slack ++ (pre ++ c ++ post) ++ tail) by by rewrite <- !app_assoc.
    rewrite rd_app by (msg_lens; lia).
    rewrite wr_app by (rewrite ?length_app; lia). by rewrite <- !app_assoc.
  - simpl. replace (addr + (k + msg_padding m)) with (addr + k + msg_padding m) by lia.
    rewrite Z.add_mod, Hal, <- Z.add_mod by lia. subst origin. f_equal. lia.
Qed.

Lemma message_clone_spec_witness :
  exists m', Message_clone example_msg 2051 (zeros 33) = Ret m' /\
    msg_view m' (zeros 20) [1; 2; 3] [4; 5] /\
    (msg_addr m' + msg_bytes m') mod 8 = (4096 + 20) mod 8.
Proof. exact (message_clone_spec example_msg _ _ _ 2051 (zeros 33) example_msg_view eq_refl). Defined.

(** [Message_epush32le] writes two bytes where its name and its counterpart
    [Message_epop32le] have four: the upper half of the number never reaches the
    packet. *)
Theorem message_epush32le_truncates m pre room c post x :
  msg_view m (pre ++ room) c post -> length room = 2%nat ->
  exists m', Message_epush32le m x = Ret m' /\
    msg_view m' pre ([x mod 256; x / 256 mod 256] ++ c) post.
Proof.
  intros Hv Hr. unfold Message_epush32le, Endian_hostToLittleEndian32, Message_epush16h.
  destruct (pushH_view 2 m pre room c post (u16 x) Hv Hr) as (m' & He & Hv' & _).
  rewrite le_bytes_u16 in Hv'. eauto.
Qed.

Lemma message_epush32le_truncates_witness :
  exists m', Message_epush32le example_msg 0xaabbccdd = Ret m' /\
    msg_view m' (zeros 18) [0xdd; 0xcc; 1; 2; 3] [4; 5].
Proof.
  exact (message_epush32le_truncates example_msg (zeros 18) (zeros 2) _ _ 0xaabbccdd
           example_msg_view eq_refl).
Defined.
