(* ===== verification/ReplayProtector.v ===== *)
(** * crypto/ReplayProtector.h: the sliding window against replayed packets

    The concrete state is a 64-bit field over the nonces from [baseOffset] on;
    the abstract state is the list of the nonces accepted so far.  [rp_inv]
    relates the two, and [checkNonce_refines] says that the window implements
    the set: nothing is accepted twice, and whatever is refused was accepted
    before or lies below the window. *)
From S2P Require Import Prelude Bits.

(** ** Definitions *)

Record ReplayProtector := mkReplayProtector {
  bitfield : Z;
  baseOffset : Z;
  duplicates : Z;
  lostPackets : Z;
  receivedOutOfRange : Z;
}.

(** A session's protector starts zeroed. *)
Definition ReplayProtector_empty : ReplayProtector := mkReplayProtector 0 0 0 0 0.

(** [x << n] for a [uint64_t]: the hardware takes the count modulo 64 (C leaves
    counts outside of the width undefined). *)
Definition shl64 (x n : Z) : Z := u64 (Z.shiftl x (n mod 64)).

Definition RelayProtector_lostInShift (bitfield shiftAmount : Z) : Z :=
  if shiftAmount =? 0 then 0
  else if shiftAmount >? 63 then shiftAmount - Bits_popCountx64 bitfield
  else shiftAmount - Bits_popCountx64 (shl64 bitfield (64 - shiftAmount)).

(** [ReplayProtector_DO_SHIFT(bits)] on the context and [offset]. *)
Definition ReplayProtector_DO_SHIFT (bits : Z) (context : ReplayProtector) (offset : Z)
  : ReplayProtector * Z :=
  ({| bitfield := if bits >? 63 then 0 else Z.shiftr (bitfield context) bits;
      baseOffset := u32 (baseOffset context + bits);
      duplicates := duplicates context;
      lostPackets := lostPackets context;
      receivedOutOfRange := receivedOutOfRange context |},
   u32 (offset - bits)).

(** [context->lostPackets += lostInShift(...)]. *)
Definition add_lost (context : ReplayProtector) (n : Z) : ReplayProtector :=
  {| bitfield := bitfield context; baseOffset := baseOffset context;
     duplicates := duplicates context; lostPackets := u32 (lostPackets context + n);
     receivedOutOfRange := receivedOutOfRange context |}.

(** The body of the [while] loop. *)
Definition shift_body (context : ReplayProtector) (offset : Z) : ReplayProtector * Z :=
  if Z.land (bitfield context) 0xffffffff =? 0xffffffff
  then ReplayProtector_DO_SHIFT 32 context offset
  else
    let context :=
      add_lost context (RelayProtector_lostInShift (bitfield context) (i32 (u32 (offset - 47)))) in
    ReplayProtector_DO_SHIFT (u32 (offset - 47)) context offset.

(** [while (offset > 63)], with a bound on the iterations; [shift_loop_exits]
    shows that three are always enough. *)
Fixpoint shift_loop (fuel : nat) (context : ReplayProtector) (offset : Z)
  : ReplayProtector * Z :=
  match fuel with
  | O => (context, offset)
  | S fuel =>
      if offset >? 63 then
        let '(context, offset) := shift_body context offset in shift_loop fuel context offset
      else (context, offset)
  end.

Definition ReplayProtector_checkNonce (nonce : Z) (context : ReplayProtector)
  : bool * ReplayProtector :=
  if nonce <? baseOffset context then
    (false, {| bitfield := bitfield context; baseOffset := baseOffset context;
               duplicates := duplicates context; lostPackets := lostPackets context;
               receivedOutOfRange := u32 (receivedOutOfRange context + 1) |})
  else
    let '(context, offset) := shift_loop 3 context (u32 (nonce - baseOffset context)) in
    if negb (Z.land (bitfield context) (Z.shiftl 1 offset) =? 0) then
      (false, {| bitfield := bitfield context; baseOffset := baseOffset context;
                 duplicates := u32 (duplicates context + 1);
                 lostPackets := lostPackets context;
                 receivedOutOfRange := receivedOutOfRange context |})
    else
      (true, {| bitfield := Z.lor (bitfield context) (Z.shiftl 1 offset);
                baseOffset := baseOffset context; duplicates := duplicates context;
                lostPackets := lostPackets context;
                receivedOutOfRange := receivedOutOfRange context |}).

(** The nonces accepted when [nonces] arrive in this order, newest first. *)
Fixpoint accept_all (nonces : list Z) (context : ReplayProtector) (seen : list Z)
  : list Z * ReplayProtector :=
  match nonces with
  | [] => (seen, context)
  | n :: nonces =>
      let '(ok, context) := ReplayProtector_checkNonce n context in
      accept_all nonces context (if ok then n :: seen else seen)
  end.

(** ** The invariant *)

(** [seen] is what was accepted: below the window anything may be in it, inside
    of the window exactly the nonces whose bit is set, above it nothing.  The
    window starts where it started at first or at least 32 below some accepted
    nonce. *)
Record rp_inv (start : Z) (seen : list Z) (c : ReplayProtector) : Prop := {
  rp_bits : fits 64 (bitfield c);
  rp_base : fits 32 (baseOffset c);
  rp_set : forall n, baseOffset c <= n ->
    Z.testbit (bitfield c) (n - baseOffset c) = true <-> n ∈ seen;
  rp_slack : baseOffset c = start \/ exists n, n ∈ seen /\ baseOffset c + 32 <= n;
}.

(** The same relation while a nonce at [offset] from the base is looked at. *)
Record rp_shifting (start : Z) (seen : list Z) (nonce : Z) (c : ReplayProtector) (offset : Z) : Prop := {
  rs_bits : fits 64 (bitfield c);
  rs_base : 0 <= baseOffset c;
  rs_off : 0 <= offset;
  rs_nonce : baseOffset c + offset = nonce;
  rs_set : forall n, baseOffset c <= n ->
    Z.testbit (bitfield c) (n - baseOffset c) = true <-> n ∈ seen;
  rs_slack : baseOffset c = start \/ 32 <= offset \/ exists n, n ∈ seen /\ baseOffset c + 32 <= n;
}.

(** ** Lemmas *)

Lemma do_shift_ok start seen nonce c offset bits :
  rp_shifting start seen nonce c offset -> fits 32 nonce -> 0 <= bits -> bits + 32 <= offset ->
  let '(c', offset') := ReplayProtector_DO_SHIFT bits c offset in
  rp_shifting start seen nonce c' offset' /\ offset' = offset - bits.
Proof.
  intros [Hb Hba Ho Hn Hs _] Hf H0 H32. unfold ReplayProtector_DO_SHIFT, fits in *. casts.
  rewrite !Z.mod_small by lia. split; [|done]. split; simpl; try lia.
  - case_match; [done|]. by apply (fits_shiftr_same 64).
  - intros n Hle. rewrite <- (Hs n) by lia.
    destruct (Z.gtb_spec bits 63) as [Hgt|Hle'].
    + rewrite Z.testbit_0_l, (fits_testbit 64) by (done || lia). done.
    + rewrite Z.shiftr_spec by lia.
      by replace (n - (baseOffset c + bits) + bits) with (n - baseOffset c) by lia.
Qed.

Lemma shift_body_ok start seen nonce c offset :
  rp_shifting start seen nonce c offset -> fits 32 nonce -> 63 < offset ->
  let '(c', offset') := shift_body c offset in
  rp_shifting start seen nonce c' offset' /\
  (offset' = 47 \/
   Z.land (bitfield c) 0xffffffff = 0xffffffff /\
   offset' = offset - 32 /\ bitfield c' = Z.shiftr (bitfield c) 32).
Proof.
  intros Hr Hf Ho. unfold shift_body.
  assert (fits 32 offset) by (destruct Hr; unfold fits in *; lia).
  destruct (Z.eqb_spec (Z.land (bitfield c) 0xffffffff) 0xffffffff) as [He|He].
  - pose proof (do_shift_ok _ _ _ _ _ 32 Hr Hf) as Hd.
    unfold ReplayProtector_DO_SHIFT in *. destruct Hd as [Hd1 Hd2]; [lia..|]. auto.
  - assert (Hu : u32 (offset - 47) = offset - 47)
      by (casts; unfold fits in *; apply Z.mod_small; lia).
    rewrite Hu.
    set (c1 := add_lost _ _).
    assert (rp_shifting start seen nonce c1 offset) as Hr1 by (destruct Hr; split; done).
    pose proof (do_shift_ok _ _ _ _ _ (offset - 47) Hr1 Hf) as Hd.
    destruct (ReplayProtector_DO_SHIFT _ _ _). destruct Hd as [Hd1 Hd2]; [lia..|].
    split; [done|]. left. lia.
Qed.

Lemma shift_loop_ok fuel : forall start seen nonce c offset,
  rp_shifting start seen nonce c offset -> fits 32 nonce ->
  let '(c', offset') := shift_loop fuel c offset in rp_shifting start seen nonce c' offset'.
Proof.
  induction fuel as [|fuel IH]; intros start seen nonce c offset Hr Hf; simpl; [done|].
  destruct (Z.gtb_spec offset 63); [|done].
  pose proof (shift_body_ok _ _ _ _ _ Hr Hf) as Hs.
  destruct (shift_body c offset). apply IH; [|done]. by apply Hs.
Qed.

Lemma low_half_empty b : fits 64 b -> Z.land (Z.shiftr (Z.shiftr b 32) 32) 0xffffffff = 0.
Proof.
  intros Hb. rewrite Z.shiftr_shiftr by lia. change (32 + 32) with 64.
  by rewrite Z.shiftr_div_pow2, Z.div_small by (done || lia).
Qed.

(** Two happy shifts empty the field, so the third iteration is the last. *)
Lemma shift_loop_exits start seen nonce c offset :
  rp_shifting start seen nonce c offset -> fits 32 nonce ->
  snd (shift_loop 3 c offset) <= 63.
Proof.
  intros Hr Hf. cbn [shift_loop].
  destruct (Z.gtb_spec offset 63) as [H1|H1]; [|done].
  pose proof (shift_body_ok _ _ _ _ _ Hr Hf H1) as Hs1.
  destruct (shift_body c offset) as [c1 o1]. destruct Hs1 as [Hr1 Hs1].
  destruct (Z.gtb_spec o1 63) as [H2|H2]; [|done].
  pose proof (shift_body_ok _ _ _ _ _ Hr1 Hf H2) as Hs2.
  destruct (shift_body c1 o1) as [c2 o2]. destruct Hs2 as [Hr2 Hs2].
  destruct (Z.gtb_spec o2 63) as [H3|H3]; [|done].
  pose proof (shift_body_ok _ _ _ _ _ Hr2 Hf H3) as Hs3.
  destruct (shift_body c2 o2) as [c3 o3]. simpl. destruct Hs3 as [_ [->|(Hf3 & _)]]; [done|].
  destruct Hs1 as [->|(_ & _ & Hb1)]; [lia|]. destruct Hs2 as [->|(_ & _ & Hb2)]; [lia|].
  rewrite Hb2, Hb1, low_half_empty in Hf3 by (by destruct Hr). done.
Qed.

Lemma shift_loop_stop fuel c offset : offset <= 63 -> shift_loop fuel c offset = (c, offset).
Proof. destruct fuel; simpl; [done|]. by destruct (Z.gtb_spec offset 63); [lia|]. Qed.

Lemma shift_loop_add n fuel : forall c offset,
  shift_loop (n + fuel) c offset =
  let '(c, offset) := shift_loop n c offset in shift_loop fuel c offset.
Proof.
  induction n as [|n IH]; intros c offset; simpl; [done|].
  destruct (Z.gtb_spec offset 63); [|by rewrite shift_loop_stop].
  destruct (shift_body c offset). apply IH.
Qed.

Lemma shift_loop_more start seen nonce c offset fuel :
  rp_shifting start seen nonce c offset -> fits 32 nonce ->
  shift_loop (3 + fuel) c offset = shift_loop 3 c offset.
Proof.
  intros Hr Hf. rewrite shift_loop_add. pose proof (shift_loop_exits _ _ _ _ _ Hr Hf) as Hx.
  destruct (shift_loop 3 c offset). by apply shift_loop_stop.
Qed.

Lemma bit_test b offset :
  0 <= offset -> negb (Z.land b (Z.shiftl 1 offset) =? 0) = Z.testbit b offset.
Proof.
  intros Ho. rewrite Z.shiftl_1_l.
  destruct (Z.eqb_spec (Z.land b (2 ^ offset)) 0) as [He|He]; simpl.
  - apply (f_equal (fun z => Z.testbit z offset)) in He.
    rewrite Z.land_spec, Z.pow2_bits_true, andb_true_r, Z.bits_0 in He by done. done.
  - symmetry. apply not_false_iff_true. intros Hf. apply He. apply Z.bits_inj'. intros i Hi.
    rewrite Z.land_spec, Z.bits_0.
    destruct (decide (i = offset)) as [->|]; [by rewrite Hf|].
    by rewrite Z.pow2_bits_false, andb_false_r by done.
Qed.

(** The window implements the set of accepted nonces. *)
Lemma checkNonce_refines start seen nonce c :
  rp_inv start seen c -> fits 32 nonce ->
  let '(ok, c') := ReplayProtector_checkNonce nonce c in
  rp_inv start (if ok then nonce :: seen else seen) c' /\
  (if ok then nonce ∉ seen else nonce ∈ seen \/ nonce < baseOffset c).
Proof.
  intros [Hb Hba Hs Hsl] Hf. unfold ReplayProtector_checkNonce.
  destruct (Z.ltb_spec nonce (baseOffset c)) as [Hlt|Hge]; [by split; [|right]|].
  assert (Hu : u32 (nonce - baseOffset c) = nonce - baseOffset c)
    by (casts; unfold fits in *; apply Z.mod_small; lia).
  rewrite Hu.
  assert (Hr : rp_shifting start seen nonce c (nonce - baseOffset c))
    by (split; try done; try (unfold fits in *; lia); destruct Hsl; [by left|by right; right]).
  pose proof (shift_loop_ok 3 _ _ _ _ _ Hr Hf) as Hl.
  pose proof (shift_loop_exits _ _ _ _ _ Hr Hf) as Hx.
  destruct (shift_loop 3 c _) as [c1 o]. simpl in Hx. destruct Hl as [Lb Lba Lo Ln Ls Lsl].
  rewrite bit_test by done.
  destruct (Z.testbit (bitfield c1) o) eqn:Ht.
  - assert (Hin : nonce ∈ seen) by (apply Ls; [lia|]; by replace (nonce - baseOffset c1) with o by lia).
    split; [|by left]. split; simpl; [done|unfold fits in *; lia|done|].
    destruct Lsl as [?|[?|?]]; [by left| |by right]. right. exists nonce. split; [done|lia].
  - assert (Hin : nonce ∉ seen).
    { rewrite <- (Ls nonce) by lia. replace (nonce - baseOffset c1) with o by lia. by rewrite Ht. }
    split; [|done]. split; simpl.
    + apply fits_lor; [done..|]. rewrite Z.shiftl_1_l. split; [lia|].
      apply Z.pow_lt_mono_r; lia.
    + unfold fits in *. lia.
    + intros n Hn. rewrite Z.lor_spec, orb_true_iff, Ls by done.
      rewrite Z.shiftl_1_l, Z.pow2_bits_eqb, Z.eqb_eq, elem_of_cons by done.
      split; intros [?|?]; (by left; lia) || (by right; lia) || (by left) || by right.
    + destruct Lsl as [?|[?|(m & ? & ?)]]; [by left|right|right].
      * exists nonce. split; [constructor|lia].
      * exists m. split; [by constructor|done].
Qed.

Lemma accept_all_inv nonces : forall start seen c,
  rp_inv start seen c -> NoDup seen -> Forall (fits 32) nonces ->
  let '(seen', c') := accept_all nonces c seen in rp_inv start seen' c' /\ NoDup seen'.
Proof.
  induction nonces as [|n nonces IH]; intros start seen c Hi Hd Hf; simpl; [done|].
  apply Forall_cons in Hf as [Hn Hf]. pose proof (checkNonce_refines _ seen n c Hi Hn) as Hr.
  destruct (ReplayProtector_checkNonce n c) as [ok c1]. destruct Hr as [Hr1 Hr2].
  apply IH; [done| |done]. destruct ok; [by constructor|done].
Qed.

Lemma rp_inv_empty : rp_inv 0 [] ReplayProtector_empty.
Proof.
  split; simpl; [by split..| |by left].
  intros n Hn. rewrite Z.testbit_0_l. split; [done|intros H; inversion H].
Qed.

Lemma checkNonce_fresh start seen nonce c :
  rp_inv start seen c -> fits 32 nonce -> start <= nonce -> nonce ∉ seen ->
  Forall (fun m => m < nonce + 32) seen -> fst (ReplayProtector_checkNonce nonce c) = true.
Proof.
  intros Hi Hn Hs Hin Hlt. pose proof (checkNonce_refines _ seen nonce c Hi Hn) as Hr.
  destruct (ReplayProtector_checkNonce nonce c) as [[] c1]; [done|].
  destruct Hr as [_ [?|Hr]]; [done|]. destruct Hi as [_ _ _ [Hz|(m & Hm & Hle)]]; [lia|].
  rewrite Forall_forall in Hlt. specialize (Hlt m Hm). simpl in Hlt. lia.
Qed.

(** ** Properties *)

(** [C26] Whatever nonces arrive in whatever order, none is accepted twice, and
    the loop that moves the window always finishes within its three
    iterations (a further bound changes nothing). *)
Theorem replay_accepts_once nonces nonce fuel :
  Forall (fits 32) (nonce :: nonces) ->
  let '(seen, c) := accept_all nonces ReplayProtector_empty [] in
  NoDup seen /\
  (baseOffset c <= nonce ->
   shift_loop (3 + fuel) c (u32 (nonce - baseOffset c)) =
   shift_loop 3 c (u32 (nonce - baseOffset c))) /\
  (nonce ∈ seen -> fst (ReplayProtector_checkNonce nonce c) = false).
Proof.
  intros [Hn Hf]%Forall_cons.
  pose proof (accept_all_inv nonces 0 [] _ rp_inv_empty (NoDup_nil_2) Hf) as Ha.
  destruct (accept_all nonces ReplayProtector_empty []) as [seen c]. destruct Ha as [Hi Hd].
  split; [done|]. split.
  - intros Hb. apply (shift_loop_more 0 seen nonce); [|done].
    destruct Hi as [? ? ? Hsl]. unfold fits, u32 in *.
    rewrite Z.mod_small by lia. split; try done; try lia.
    destruct Hsl; [by left|by right; right].
  - intros Hin. pose proof (checkNonce_refines _ seen nonce c Hi Hn) as Hr.
    destruct (ReplayProtector_checkNonce nonce c) as [[] c1]; [|done]. by destruct Hr.
Qed.

Lemma replay_accepts_once_witness :
  let '(seen, c) := accept_all [7; 7; 200; 3; 201; 200] ReplayProtector_empty [] in
  NoDup seen /\
  (baseOffset c <= 7 ->
   shift_loop (3 + 9) c (u32 (7 - baseOffset c)) = shift_loop 3 c (u32 (7 - baseOffset c))) /\
  (7 ∈ seen -> fst (ReplayProtector_checkNonce 7 c) = false).
Proof.
  refine (replay_accepts_once [7; 7; 200; 3; 201; 200] 7 9 _).
  repeat constructor; vm_compute; congruence.
Defined.

(** [C27] Reordering by less than 32 is harmless: a nonce that was not accepted
    before and is more than the highest accepted one minus 32 is accepted, in
    particular every nonce higher than all the earlier ones. *)
Theorem replay_accepts_fresh nonces nonce :
  Forall (fits 32) (nonce :: nonces) ->
  let '(seen, c) := accept_all nonces ReplayProtector_empty [] in
  nonce ∉ seen -> Forall (fun m => m < nonce + 32) seen ->
  fst (ReplayProtector_checkNonce nonce c) = true.
Proof.
  intros [Hn Hf]%Forall_cons.
  pose proof (accept_all_inv nonces 0 [] _ rp_inv_empty (NoDup_nil_2) Hf) as Ha.
  destruct (accept_all nonces ReplayProtector_empty []) as [seen c]. destruct Ha as [Hi _].
  intros Hin Hlt. apply (checkNonce_fresh 0 seen); try done. apply Hn.
Qed.

Lemma replay_accepts_fresh_witness :
  fst (ReplayProtector_checkNonce 170 (snd (accept_all [7; 200; 201] ReplayProtector_empty [])))
  = true.
Proof.
  refine (replay_accepts_fresh [7; 200; 201] 170 _ _ _).
  - repeat constructor; vm_compute; congruence.
  - by apply (bool_decide_unpack _).
  - repeat constructor; vm_compute; congruence.
Defined.
