(* ===== verification/MsgAt.v ===== *)
(** * Messages by position: what the proofs about handlers of packets use

    [geometry] is all that decides whether a shift succeeds: the length, the
    padding and the address of a message.  [msg_at] adds the bytes: padding,
    content and room behind, the content beginning at a given address. *)
From S2P Require Import Prelude Bits Message Checksum.

(** ** What decides whether a shift succeeds *)

(** Length, padding and position of a message. *)
Definition geometry (m : Message) (l p a : Z) : Prop :=
  msg_length m = l /\ msg_padding m = p /\ msg_addr m + msg_bytes m = a.

(** ** What decides whether a shift succeeds *)

Lemma geometry_write m l p a off bs : geometry m l p a -> geometry (msg_write m off bs) l p a.
Proof. done. Qed.

Lemma geometry_length m l p a n : geometry m l p a -> geometry (set_msg_length m n) n p a.
Proof. intros (_ & Hp & Ha). by split. Qed.

Lemma eshift_geometry m l p a n : geometry m l p a -> n <= p -> - n <= l /\ - 2 ^ 31 < n < 2 ^ 31 ->
  exists m', Message_eshift m n = Ret m' /\ geometry m' (l + n) (p - n) (a - n) /\
    msg_mem m' = msg_mem m.
Proof.
  intros (Hl & Hp & Ha) Hn Hm. unfold Message_eshift. rewrite Hl, Hp.
  rewrite (proj2 (Z.ltb_ge p n)) by lia. rewrite andb_false_r. rewrite i32_small by lia. rewrite (proj2 (Z.ltb_ge l (- n))) by lia.
  eexists. split; [done|]. split; [|done]. unfold geometry. cbn. lia.
Qed.

Lemma epush_geometry m l p a o n : geometry m l p a -> 0 <= n <= p -> 0 <= l -> n < 2 ^ 31 ->
  exists m', Message_epush m o n = Ret m' /\ geometry m' (l + n) (p - n) (a - n).
Proof.
  intros Hg Hn Hl Hb. unfold Message_epush. rewrite i32_small by lia.
  destruct (eshift_geometry m l p a n Hg) as (m' & -> & Hg' & _); [lia|lia|]. cbn [mbind Er_bind].
  eexists. split; [done|]. by apply geometry_write.
Qed.

Lemma epop_geometry m l p a n : geometry m l p a -> 0 <= n <= l -> 0 <= p -> n < 2 ^ 31 ->
  exists m', Message_epop m n = Ret (m', msg_read m' (- n) n) /\ geometry m' (l - n) (p + n) (a + n) /\
    msg_mem m' = msg_mem m.
Proof.
  intros Hg Hn Hp Hb. unfold Message_epop. rewrite i32_small by lia.
  destruct (eshift_geometry m l p a (- n) Hg) as (m' & -> & Hg' & Hm); [lia|lia|].
  exists m'. split; [done|]. by replace (l - n) with (l + - n) by lia;
    replace (p + n) with (p - - n) by lia; replace (a + n) with (a - - n) by lia.
Qed.

Lemma epush32be_geometry m l p a x : geometry m l p a -> 4 <= p -> 0 <= l ->
  exists m', Message_epush32be m x = Ret m' /\ geometry m' (l + 4) (p - 4) (a - 4).
Proof. intros Hg Hp Hl. apply (epush_geometry m l p a _ 4 Hg); lia. Qed.

Lemma checksum_ret a buffer n : a mod 2 = 0 -> exists ck, Checksum_engine_be a buffer n = Ret ck.
Proof.
  intros Ha. unfold Checksum_engine_be, Checksum_step. rewrite Ha. cbn. by eexists.
Qed.

(** A control packet whose checksum is right, wherever it lies. *)
Definition verifies (c : list Z) : Prop :=
  forall a, a mod 2 = 0 -> Checksum_engine_be a c (len c) = Ret 0.

#[export] Hint Resolve geometry_write geometry_length : core.

(** ** Messages at an address *)

(** A read which stays within the first part. *)
Lemma rd_prefix (x c : list Z) off n : 0 <= off -> 0 <= n -> off + n <= len x -> rd off n (x ++ c) = rd off n x.
Proof. intros Ho Hn Hl. unfold rd. rewrite drop_app_le by lia. apply take_app_le. rewrite length_drop. lia. Qed.

(** The content begins at the address [a]. *)
Definition msg_at (m : Message) (a : Z) (pre c post : list Z) : Prop :=
  msg_view m pre c post /\ msg_addr m + msg_bytes m = a.

(** ** Messages at an address *)

Lemma at_geometry m a pre c post : msg_at m a pre c post -> geometry m (len c) (len pre) a.
Proof. intros [(s & t & _ & _ & Hp & Hl & _) Ha]. by split. Qed.

Lemma eshift_pos m n m' : Message_eshift m n = Ret m' ->
  msg_addr m' + msg_bytes m' = msg_addr m + msg_bytes m - n.
Proof. unfold Message_eshift. do 2 (case_match; [done|]). intros [= <-]. cbn. lia. Qed.

Lemma at_shift_pop m a pre x c post n : msg_at m a pre (x ++ c) post -> n = - len x ->
  exists m', Message_eshift m n = Ret m' /\ msg_at m' (a + len x) (pre ++ x) c post.
Proof.
  intros [Hv Ha] ->. destruct (eshift_pop m pre x c post Hv) as (m' & E & Hv' & _).
  exists m'. split; [done|]. split; [done|]. apply eshift_pos in E. lia.
Qed.

Lemma at_shift_push m a pre x c post n : msg_at m a (pre ++ x) c post -> n = len x ->
  exists m', Message_eshift m n = Ret m' /\ msg_at m' (a - len x) pre (x ++ c) post.
Proof.
  intros [Hv Ha] ->. destruct (eshift_push m pre x c post Hv) as (m' & E & Hv' & _).
  exists m'. split; [done|]. split; [done|]. apply eshift_pos in E. lia.
Qed.

Lemma at_bound m a pre c post : msg_at m a pre c post -> len pre + len c + len post < 2 ^ 31.
Proof. intros [(s & t & _ & _ & _ & _ & _ & Hb) _]. done. Qed.

Lemma at_epop m a pre x c post n : msg_at m a pre (x ++ c) post -> n = len x ->
  exists m', Message_epop m n = Ret (m', x) /\ msg_at m' (a + n) (pre ++ x) c post.
Proof.
  intros Hat ->. pose proof (at_bound _ _ _ _ _ Hat) as Hb. rewrite length_app in Hb. destruct Hat as [Hv Ha].
  destruct (epop_view m pre x c post (len x) Hv eq_refl) as (m' & E & Hv' & _).
  exists m'. split; [done|]. split; [done|]. unfold Message_epop in E. rewrite i32_small in E by lia.
  destruct (Message_eshift m (- len x)) as [m1|] eqn:E1; [|done]. injection E as <- _.
  apply eshift_pos in E1. lia.
Qed.

Lemma at_epush m a pre room c post x : msg_at m a (pre ++ room) c post -> length room = length x ->
  exists m', Message_epush m (Some x) (len x) = Ret m' /\ msg_at m' (a - len x) pre (x ++ c) post.
Proof.
  intros Hat Hr. pose proof (at_bound _ _ _ _ _ Hat) as Hb. rewrite length_app in Hb. destruct Hat as [Hv Ha].
  destruct (epush_view m pre room c post (Some x) (len x) Hv) as (m' & E & Hv' & _); [lia|lia|].
  rewrite Nat2Z.id, take_ge in Hv' by lia. exists m'. split; [done|]. split; [done|].
  apply epush_addr in E as [-> ->]. rewrite i32_small by lia. lia.
Qed.

Lemma at_epush_zeros m a pre room c post n : msg_at m a (pre ++ room) c post -> len room = n ->
  exists m', Message_epush m None n = Ret m' /\ msg_at m' (a - n) pre (zeros n ++ c) post.
Proof.
  intros Hat Hr. pose proof (at_bound _ _ _ _ _ Hat) as Hb. rewrite length_app in Hb. destruct Hat as [Hv Ha].
  destruct (epush_view m pre room c post None n Hv) as (m' & E & Hv' & _); [done|lia|].
  exists m'. split; [done|]. split; [done|].
  apply epush_addr in E as [-> ->]. rewrite i32_small by lia. lia.
Qed.

Lemma at_write m a pre x b c post off bs : msg_at m a pre (x ++ b ++ c) post ->
  length bs = length b -> off = len x -> msg_at (msg_write m off bs) a pre (x ++ bs ++ c) post.
Proof. intros [Hv Ha] Hl ->. split; [by apply write_behind with b|done]. Qed.

Lemma at_write_front m a pre r c post off bs : msg_at m a (pre ++ r) c post ->
  length bs = length r -> off = - len r -> msg_at (msg_write m off bs) a (pre ++ bs) c post.
Proof.
  intros [Hv Ha] Hl ->. split; [|done].
  pose proof (msg_write_front m pre r [] c post (- len r) bs [] Hv eq_refl Hl eq_refl) as H.
  by rewrite app_nil_r in H.
Qed.

Lemma at_read m a pre x b c post off n : msg_at m a pre (x ++ b ++ c) post ->
  off = len x -> n = len b -> msg_read m off n = b.
Proof. intros [Hv _] Ho Hn. by apply (read_part m pre x b c post off n Hv). Qed.

Lemma at_content m a pre c post : msg_at m a pre c post -> msg_content m = c /\ msg_length m = len c.
Proof. intros [Hv _]. split; [by eapply msg_view_content|by eapply msg_view_length]. Qed.

Lemma at_clone m a pre c post addr mem : msg_at m a pre c post -> len mem = len pre + len c + len post + 8 ->
  exists m' a', Message_clone m addr mem = Ret m' /\ msg_at m' a' pre c post /\ a' mod 8 = a mod 8.
Proof.
  intros [Hv Ha] Hmem. destruct (message_clone_spec m pre c post addr mem Hv Hmem) as (m' & E & Hv' & Hal).
  exists m', (msg_addr m' + msg_bytes m'). rewrite Ha in Hal. done.
Qed.

(** Contents as lists of chunks, overwritten chunk by chunk. *)
Lemma at_write_chunk m a pre l1 b l2 post off bs : msg_at m a pre (concat (l1 ++ b :: l2)) post ->
  length bs = length b -> off = len (concat l1) ->
  msg_at (msg_write m off bs) a pre (concat (l1 ++ bs :: l2)) post.
Proof. rewrite !concat_app. cbn [concat]. by apply at_write. Qed.

Lemma at_set_length m a pre x y post l : msg_at m a pre (x ++ y) post -> l = len x ->
  msg_at (set_msg_length m l) a pre x (y ++ post).
Proof. intros [Hv Ha] Hl. split; [by apply set_msg_length_view|done]. Qed.

(** The last bytes of the padding. *)
Lemma split_room (pre : list Z) n : 0 <= n <= len pre ->
  exists pre' room, pre = pre' ++ room /\ len room = n /\ len pre' = len pre - n.
Proof.
  intros Hn. exists (take (Z.to_nat (len pre - n)) pre), (drop (Z.to_nat (len pre - n)) pre).
  rewrite take_drop. split; [done|]. rewrite length_take, length_drop. lia.
Qed.

(** The bytes of a number are those of its low part. *)
Lemma be_bytes_mod n x : be_bytes n (x mod 2 ^ (8 * Z.of_nat n)) = be_bytes n x.
Proof. rewrite <- be_val_bytes. rewrite <- (length_be_bytes n x) at 1. apply be_bytes_val, be_bytes_bytes. Qed.

Lemma le_bytes_be32 x : le_bytes 4 (Endian_hostToBigEndian32 x) = be_bytes 4 x.
Proof. unfold Endian_hostToBigEndian32, Endian_byteSwap32. rewrite le_bytes_bswap. exact (be_bytes_mod 4 x). Qed.

(** Numbers in network order. *)
Lemma at_epush_be n m a pre room c post x : msg_at m a (pre ++ room) c post -> length room = n ->
  exists m', Message_pushH n m (bswap n (x mod 2 ^ (8 * Z.of_nat n))) = Ret m' /\
    msg_at m' (a - Z.of_nat n) pre (be_bytes n x ++ c) post.
Proof.
  intros Hm Hr. unfold Message_pushH.
  destruct (at_epush m a pre room c post (le_bytes n (bswap n (x mod 2 ^ (8 * Z.of_nat n)))) Hm) as (m' & E & Hm');
    [by rewrite length_le_bytes|].
  rewrite length_le_bytes in E, Hm'. exists m'. split; [done|].
  by rewrite le_bytes_bswap, be_bytes_mod in Hm'.
Qed.

Lemma at_epush32be m a pre room c post x : msg_at m a (pre ++ room) c post -> length room = 4%nat ->
  exists m', Message_epush32be m x = Ret m' /\ msg_at m' (a - 4) pre (be_bytes 4 x ++ c) post.
Proof. exact (at_epush_be 4 m a pre room c post x). Qed.

Lemma at_epush16be m a pre room c post x : msg_at m a (pre ++ room) c post -> length room = 2%nat ->
  exists m', Message_epush16be m x = Ret m' /\ msg_at m' (a - 2) pre (be_bytes 2 x ++ c) post.
Proof. exact (at_epush_be 2 m a pre room c post x). Qed.

Lemma at_epop32be m a pre x c post : msg_at m a pre (x ++ c) post -> length x = 4%nat -> bytes x ->
  exists m', Message_epop32be m = Ret (m', be_val x) /\ msg_at m' (a + 4) (pre ++ x) c post.
Proof.
  intros Hm Hx Hb. unfold Message_epop32be, Message_popBE, Message_popH.
  destruct (at_epop m a pre x c post (Z.of_nat 4) Hm) as (m' & -> & Hm'); [lia|]. cbn [mbind Er_bind].
  rewrite host32 by done. by exists m'.
Qed.

(** The same with the cut of the content as an equation. *)
Lemma at_read_of m a pre c post x b y off n : msg_at m a pre c post -> c = x ++ b ++ y ->
  off = len x -> n = len b -> msg_read m off n = b.
Proof. intros Hm ->. by apply at_read with (1 := Hm). Qed.

Lemma at_write_of m a pre c post x b y off bs : msg_at m a pre c post -> c = x ++ b ++ y ->
  length bs = length b -> off = len x -> msg_at (msg_write m off bs) a pre (x ++ bs ++ y) post.
Proof. intros Hm -> Hl Ho. by apply at_write with b. Qed.

(** Side conditions about the cut of a content: lists up to associativity, lengths. *)
Ltac known_lengths :=
  repeat match goal with
  | H : length ?x = _ |- context [length ?x] => rewrite H
  | |- context [length (_ ++ _)] => rewrite length_app
  | |- context [length (le_bytes _ _)] => rewrite length_le_bytes
  | |- context [length (be_bytes _ _)] => rewrite length_be_bytes
  | |- context [length (zeros ?n)] => change (length (zeros n)) with (length (replicate (Z.to_nat n) 0)); rewrite length_replicate
  end; cbn [length].
Ltac cut := rewrite <- ?app_assoc; cbn [app]; rewrite <- ?app_assoc; try reflexivity.
Ltac part := first [ solve [cut] | known_lengths; cbn [length]; lia ].

(** ** Positions in the allocation

    [pos m A s e b]: the message lies at [A], its room begins at [s], its content
    ends at [e] and begins at [b].  Shifts only move [b]. *)
Definition pos (m : Message) (A s e b : Z) : Prop :=
  msg_addr m = A /\ msg_padding m = b - s /\ msg_length m = e - b /\ msg_bytes m = b.

Lemma at_pos m a pre c post : msg_at m a pre c post ->
  pos m (msg_addr m) (msg_bytes m - len pre) (msg_bytes m + len c) (msg_bytes m) /\ a = msg_addr m + msg_bytes m.
Proof. intros [(x & y & _ & _ & Hp & Hl & _) Ha]. unfold pos. split; [|done]. split_and!; lia. Qed.

Lemma pos_eshift m A s e b n : pos m A s e b -> s <= b - n <= e /\ - 2 ^ 31 < n < 2 ^ 31 ->
  exists m', Message_eshift m n = Ret m' /\ pos m' A s e (b - n).
Proof.
  intros (HA & Hp & Hl & Hb) Hn. unfold Message_eshift. rewrite Hp, Hl.
  rewrite (proj2 (Z.ltb_ge (b - s) n)) by lia. rewrite andb_false_r. rewrite i32_small by lia. rewrite (proj2 (Z.ltb_ge (e - b) (- n))) by lia.
  eexists. split; [done|]. unfold pos. cbn. rewrite Hb. split_and!; lia.
Qed.

Lemma pos_eshift_inv m A s e b n m' : pos m A s e b -> Message_eshift m n = Ret m' ->
  pos m' A s e (b - n) /\ (- 2 ^ 31 < n -> b - n <= e) /\ (0 < n -> s <= b - n) /\ msg_mem m' = msg_mem m.
Proof.
  intros (HA & Hp & Hl & Hb). unfold Message_eshift. rewrite Hp, Hl.
  destruct (_ && _) eqn:E1; [done|]. destruct (Z.ltb_spec (e - b) (i32 (- n))); [done|]. intros [= <-].
  unfold pos. cbn. rewrite Hb. split; [split_and!; lia|]. split; [intros Hn; pose proof (i32_above (- n)); lia|]. split; [|done]. intros Hn.
  rewrite (proj2 (Z.gtb_lt n 0) Hn) in E1. cbn in E1. lia.
Qed.

Lemma pos_write m A s e b off bs : pos m A s e b -> pos (msg_write m off bs) A s e b.
Proof. done. Qed.

Lemma pos_length m A s e b : pos m A s e b -> pos (set_msg_length m 0) A s b b.
Proof. intros (HA & Hp & Hl & Hb). unfold pos. cbn. split_and!; lia. Qed.

Lemma pos_epush m A s e b o n : pos m A s e b -> 0 <= n < 2 ^ 31 -> s <= b - n -> b <= e ->
  exists m', Message_epush m o n = Ret m' /\ pos m' A s e (b - n).
Proof.
  intros Hm Hn Hs He. unfold Message_epush. rewrite i32_small by lia.
  destruct (pos_eshift m A s e b n Hm) as (m' & -> & Hm'); [lia|]. cbn [mbind Er_bind]. eexists. split; [done|].
  by apply pos_write.
Qed.

Lemma pos_epush32be m A s e b x : pos m A s e b -> s <= b - 4 -> b <= e ->
  exists m', Message_epush32be m x = Ret m' /\ pos m' A s e (b - 4).
Proof. intros Hm Hs He. by apply (pos_epush m A s e b _ 4). Qed.

Lemma pos_epush16 m A s e b x : pos m A s e b -> s <= b - 2 -> b <= e ->
  exists m', Message_epush16h m x = Ret m' /\ pos m' A s e (b - 2).
Proof. intros Hm Hs He. by apply (pos_epush m A s e b _ 2). Qed.

Lemma pos_epop m A s e b n : pos m A s e b -> 0 <= n < 2 ^ 31 -> s <= b -> b + n <= e ->
  exists m' bs, Message_epop m n = Ret (m', bs) /\ pos m' A s e (b + n).
Proof.
  intros Hm Hn Hs He. unfold Message_epop. rewrite i32_small by lia.
  destruct (pos_eshift m A s e b (- n) Hm) as (m' & -> & Hm'); [lia|]. cbn [mbind Er_bind].
  eexists _, _. split; [done|]. by replace (b + n) with (b - - n) by lia.
Qed.

Lemma pos_epop32be m A s e b : pos m A s e b -> s <= b -> b + 4 <= e ->
  exists m' x, Message_epop32be m = Ret (m', x) /\ pos m' A s e (b + 4).
Proof.
  intros Hm Hs He. unfold Message_epop32be, Message_popBE, Message_popH.
  destruct (pos_epop m A s e b (Z.of_nat 4) Hm) as (m' & bs & -> & Hm'); [lia..|]. cbn. by eexists _, _.
Qed.

Lemma pos_epop16 m A s e b : pos m A s e b -> s <= b -> b + 2 <= e ->
  exists m' x, Message_epop16h m = Ret (m', x) /\ pos m' A s e (b + 2).
Proof.
  intros Hm Hs He. unfold Message_epop16h, Message_popH.
  destruct (pos_epop m A s e b (Z.of_nat 2) Hm) as (m' & bs & -> & Hm'); [lia..|]. cbn. by eexists _, _.
Qed.

#[export] Hint Resolve pos_write : core.
