(* ===== verification/Headers.v ===== *)
(** * wire/: the packet headers

    One record per header struct, its fields in host representation (a [_be]
    field holds what a little-endian host reads from the big-endian bytes), the
    accessors of the header files, and the layout of the struct in a packet
    ([..._bytes] and its inverse [..._of], used by the components that cast a
    packet's content to a header). *)
From S2P Require Import Prelude Bits.

(** ** Switch header (wire/SwitchHeader.h) *)

Record SwitchHeader := mkSwitchHeader {
  label_be : Z;
  congestAndSuppressErrors : Z;
  versionAndLabelShift : Z;
  trafficClass_be : Z;
}.

Definition SwitchHeader_SIZE : Z := 12.
Definition SwitchHeader_CURRENT_VERSION : Z := 1.
Definition SwitchHeader_MASK (x : Z) : Z := Z.shiftl 1 x - 1.

Definition SwitchHeader_getVersion (header : SwitchHeader) : Z :=
  Z.shiftr (versionAndLabelShift header) 6.

Definition SwitchHeader_setVersion (header : SwitchHeader) (version : Z) : Er SwitchHeader :=
  Assert_true (version <? 4);;
  Ret {| label_be := label_be header;
         congestAndSuppressErrors := congestAndSuppressErrors header;
         versionAndLabelShift :=
           u8 (Z.lor (Z.shiftl version 6) (Z.land (versionAndLabelShift header) (SwitchHeader_MASK 6)));
         trafficClass_be := trafficClass_be header |}.

Definition SwitchHeader_getLabelShift (header : SwitchHeader) : Z :=
  Z.land (versionAndLabelShift header) (SwitchHeader_MASK 6).

Definition SwitchHeader_setLabelShift (header : SwitchHeader) (shift : Z) : Er SwitchHeader :=
  Assert_true (shift <? 64);;
  let v := u8 (Z.shiftl (Z.shiftr (versionAndLabelShift header) 6) 6) in
  Ret {| label_be := label_be header;
         congestAndSuppressErrors := congestAndSuppressErrors header;
         versionAndLabelShift := u8 (Z.lor v shift);
         trafficClass_be := trafficClass_be header |}.

Definition SwitchHeader_getCongestion (header : SwitchHeader) : Z :=
  Z.shiftr (congestAndSuppressErrors header) 1.

Definition SwitchHeader_setCongestion (header : SwitchHeader) (cong : Z) : Er SwitchHeader :=
  Assert_true (cong <=? 127);;
  let cong := if cong =? 0 then cong + 1 else cong in
  Ret {| label_be := label_be header;
         congestAndSuppressErrors :=
           u8 (Z.lor (Z.land (congestAndSuppressErrors header) 1) (Z.shiftl cong 1));
         versionAndLabelShift := versionAndLabelShift header;
         trafficClass_be := trafficClass_be header |}.

Definition SwitchHeader_getTrafficClass (header : SwitchHeader) : Z :=
  Endian_bigEndianToHost16 (trafficClass_be header).

Definition SwitchHeader_setTrafficClass (header : SwitchHeader) (tc : Z) : SwitchHeader :=
  {| label_be := label_be header;
     congestAndSuppressErrors := congestAndSuppressErrors header;
     versionAndLabelShift := versionAndLabelShift header;
     trafficClass_be := Endian_hostToBigEndian16 tc |}.

Definition SwitchHeader_getSuppressErrors (header : SwitchHeader) : bool :=
  negb (Z.land (congestAndSuppressErrors header) 1 =? 0).

Definition SwitchHeader_setSuppressErrors (header : SwitchHeader) (suppress : bool)
  : SwitchHeader :=
  let c := u8 (Z.shiftl (Z.shiftr (congestAndSuppressErrors header) 1) 1) in
  {| label_be := label_be header;
     congestAndSuppressErrors := u8 (Z.lor c (Z.b2z suppress));
     versionAndLabelShift := versionAndLabelShift header;
     trafficClass_be := trafficClass_be header |}.

(** [header->label_be = x]. *)
Definition with_label_be (header : SwitchHeader) (x : Z) : SwitchHeader :=
  {| label_be := x;
     congestAndSuppressErrors := congestAndSuppressErrors header;
     versionAndLabelShift := versionAndLabelShift header;
     trafficClass_be := trafficClass_be header |}.

(** The packed layout of the struct, and a packet's bytes cast to it. *)
Definition SwitchHeader_bytes (h : SwitchHeader) : list Z :=
  le_bytes 8 (label_be h) ++ [congestAndSuppressErrors h; versionAndLabelShift h]
  ++ le_bytes 2 (trafficClass_be h).
Definition SwitchHeader_of (l : list Z) : SwitchHeader :=
  {| label_be := le_val (rd 0 8 l); congestAndSuppressErrors := get l 8;
     versionAndLabelShift := get l 9; trafficClass_be := le_val (rd 10 2 l) |}.

(** ** Data header (wire/DataHeader.h) *)

Record DataHeader := mkDataHeader {
  versionAndFlags : Z;
  unused : Z;
  contentType_be : Z;
}.

Definition DataHeader_CURRENT_VERSION : Z := 1.

Definition DataHeader_getContentType (hdr : DataHeader) : Z :=
  Endian_bigEndianToHost16 (contentType_be hdr).

Definition DataHeader_setContentType (hdr : DataHeader) (type : Z) : Er DataHeader :=
  Assert_true (type <=? 0xffff);;
  Ret {| versionAndFlags := versionAndFlags hdr; unused := unused hdr;
         contentType_be := Endian_hostToBigEndian16 type |}.

Definition DataHeader_setVersion (hdr : DataHeader) (version : Z) : DataHeader :=
  {| versionAndFlags := u8 (Z.lor (Z.land (versionAndFlags hdr) 0x0f) (Z.shiftl version 4));
     unused := unused hdr; contentType_be := contentType_be hdr |}.

Definition DataHeader_getVersion (hdr : DataHeader) : Z := Z.shiftr (versionAndFlags hdr) 4.

(** ** Peer header (wire/PeerHeader.h) *)

Record PeerHeader := mkPeerHeader {
  versionAndSessNum : Z;
  congest : Z;
  timestamp_be : Z;
}.

Definition PeerHeader_getTimestamp (hdr : PeerHeader) : Z :=
  Endian_bigEndianToHost16 (timestamp_be hdr).

Definition PeerHeader_setTimestamp (hdr : PeerHeader) (timestamp : Z) : PeerHeader :=
  {| versionAndSessNum := versionAndSessNum hdr; congest := congest hdr;
     timestamp_be := Endian_hostToBigEndian16 timestamp |}.

Definition PeerHeader_setVersion (hdr : PeerHeader) (version : Z) : Er PeerHeader :=
  Assert_true (version <? Z.shiftl 1 5);;
  Ret {| versionAndSessNum :=
           u8 (Z.lor (Z.land (versionAndSessNum hdr) (Z.shiftl 1 5 - 1)) (Z.shiftl version 5));
         congest := congest hdr; timestamp_be := timestamp_be hdr |}.

Definition PeerHeader_getVersion (hdr : PeerHeader) : Z := Z.shiftr (versionAndSessNum hdr) 5.

Definition PeerHeader_getSessionNum (hdr : PeerHeader) : Z :=
  Z.land (versionAndSessNum hdr) (Z.shiftl 1 5 - 1).

(** (Declared to return a [uint8_t], the source returns nothing.) *)
Definition PeerHeader_setSessionNum (hdr : PeerHeader) (sessNum : Z) : Er PeerHeader :=
  Assert_true (sessNum <=? Z.shiftl 1 5);;
  Ret {| versionAndSessNum :=
           u8 (Z.lor (Z.land (versionAndSessNum hdr) (Z.shiftl 1 5 - 1)) sessNum);
         congest := congest hdr; timestamp_be := timestamp_be hdr |}.

(** ** Handshake header (wire/CryptoHeader.h) *)

Record CryptoHeader_Challenge := mkChallenge {
  challenge_type : Z;
  challenge_lookup : list Z;
  requirePacketAuthAndDerivationCount : Z;
  challenge_additional : Z;
}.

Definition CryptoHeader_Challenge_SIZE : Z := 12.
Definition CryptoHeader_Challenge_KEYSIZE : Z := 8.

Definition CryptoHeader_getAuthChallengeDerivations (ac : CryptoHeader_Challenge) : Z :=
  Z.land (Endian_bigEndianToHost16 (requirePacketAuthAndDerivationCount ac)) (Z.shiftr 0xffff 1).

Definition CryptoHeader_setAuthChallengeDerivations (ac : CryptoHeader_Challenge)
  (derivations : Z) : CryptoHeader_Challenge :=
  {| challenge_type := challenge_type ac; challenge_lookup := challenge_lookup ac;
     requirePacketAuthAndDerivationCount := Endian_hostToBigEndian16 derivations;
     challenge_additional := challenge_additional ac |}.

Definition Challenge_bytes (c : CryptoHeader_Challenge) : list Z :=
  challenge_type c :: challenge_lookup c
  ++ le_bytes 2 (requirePacketAuthAndDerivationCount c) ++ le_bytes 2 (challenge_additional c).
Definition Challenge_of (l : list Z) : CryptoHeader_Challenge :=
  {| challenge_type := get l 0; challenge_lookup := rd 1 7 l;
     requirePacketAuthAndDerivationCount := le_val (rd 8 2 l);
     challenge_additional := le_val (rd 10 2 l) |}.

(** [nonce] in host representation; the byte arrays as they are. *)
Record CryptoHeader := mkCryptoHeader {
  ch_nonce : Z;
  ch_auth : CryptoHeader_Challenge;
  handshakeNonce : list Z;
  ch_publicKey : list Z;
  authenticator : list Z;
  encryptedTempKey : list Z;
}.

Definition CryptoHeader_SIZE : Z := 120.

Definition CryptoHeader_bytes (h : CryptoHeader) : list Z :=
  le_bytes 4 (ch_nonce h) ++ Challenge_bytes (ch_auth h) ++ handshakeNonce h
  ++ ch_publicKey h ++ authenticator h ++ encryptedTempKey h.
Definition CryptoHeader_of (l : list Z) : CryptoHeader :=
  {| ch_nonce := le_val (rd 0 4 l); ch_auth := Challenge_of (rd 4 12 l);
     handshakeNonce := rd 16 24 l; ch_publicKey := rd 40 32 l;
     authenticator := rd 72 16 l; encryptedTempKey := rd 88 32 l |}.

(** ** IP headers (wire/Headers.h) *)

Record Headers_IP6Fragment := mkIP6Fragment {
  frag_nextHeader : Z;
  frag_zero : Z;
  fragmentOffsetAndMoreFragments_be : Z;
  frag_identifier : Z;
}.

Definition with_frag (f : Headers_IP6Fragment) (x : Z) : Headers_IP6Fragment :=
  {| frag_nextHeader := frag_nextHeader f; frag_zero := frag_zero f;
     fragmentOffsetAndMoreFragments_be := x; frag_identifier := frag_identifier f |}.

Definition Headers_IP6Fragment_getOffset (frag : Headers_IP6Fragment) : Z :=
  Z.shiftr (Endian_bigEndianToHost16 (fragmentOffsetAndMoreFragments_be frag)) 3.

(** [Endian_hostToBigEndian16] takes a [uint16_t]: [offset << 3] is truncated. *)
Definition Headers_IP6Fragment_setOffset (frag : Headers_IP6Fragment) (offset : Z)
  : Headers_IP6Fragment :=
  let f := Z.land (fragmentOffsetAndMoreFragments_be frag) (Endian_hostToBigEndian16 7) in
  with_frag frag (Z.lor f (Endian_hostToBigEndian16 (u16 (Z.shiftl offset 3)))).

Definition Headers_IP6Fragment_hasMoreFragments (frag : Headers_IP6Fragment) : Z :=
  Z.land (fragmentOffsetAndMoreFragments_be frag) (Endian_hostToBigEndian16 1).

Definition Headers_IP6Fragment_setMoreFragments (frag : Headers_IP6Fragment) (more : Z)
  : Headers_IP6Fragment :=
  let f := fragmentOffsetAndMoreFragments_be frag in
  if negb (more =? 0)
  then with_frag frag (Z.lor f (Endian_hostToBigEndian16 1))
  else with_frag frag (Z.land f (Endian_hostToBigEndian16 (u16 (Z.shiftl 0xFFFF 1)))).

Definition Headers_getIpVersion (header : list Z) : Z :=
  Z.shiftr (Z.land (get header 0) 0xF0) 4.

Definition Headers_IP4Header_SIZE : Z := 20.

(** [size] is the [sizeof] of the pointed-to header. *)
Definition Headers_setIpVersion (size : Z) (header : list Z) : list Z :=
  set header 0
    (u8 (Z.lor (get header 0) (Z.shiftl (if size =? Headers_IP4Header_SIZE then 4 else 6) 4))).

(** ** Control messages and error codes (wire/Control.h, wire/Error.h) *)

Definition Control_ERROR_be : Z := Endian_hostToBigEndian16 2.
Definition Control_PING_be : Z := Endian_hostToBigEndian16 3.
Definition Control_Ping_MAGIC : Z := Endian_hostToBigEndian32 0x09f91102.
Definition Control_PONG_be : Z := Endian_hostToBigEndian16 4.
Definition Control_Pong_MAGIC : Z := Endian_hostToBigEndian32 0x9d74e35b.
Definition Control_KEYPING_be : Z := Endian_hostToBigEndian16 5.
Definition Control_KeyPing_MAGIC : Z := Endian_hostToBigEndian32 0x01234567.
Definition Control_KEYPONG_be : Z := Endian_hostToBigEndian16 6.
Definition Control_KeyPong_MAGIC : Z := Endian_hostToBigEndian32 0x89abcdef.
Definition Control_GETSNODE_QUERY_be : Z := Endian_hostToBigEndian16 7.
Definition Control_GETSNODE_QUERY_MAGIC : Z := Endian_hostToBigEndian32 0x736e6f71.
Definition Control_GETSNODE_REPLY_be : Z := Endian_hostToBigEndian16 8.
Definition Control_GETSNODE_REPLY_MAGIC : Z := Endian_hostToBigEndian32 0x736e6f72.
Definition Control_RPATH_QUERY_be : Z := Endian_hostToBigEndian16 9.
Definition Control_RPATH_QUERY_MAGIC : Z := Endian_hostToBigEndian32 0x736e6f71.
Definition Control_RPATH_REPLY_be : Z := Endian_hostToBigEndian16 10.
Definition Control_RPATH_REPLY_MAGIC : Z := Endian_hostToBigEndian32 0x736e6f72.

Definition Control_Header_SIZE : Z := 4.
Definition Control_Error_HEADER_SIZE : Z := 4.
Definition Control_Error_MIN_SIZE : Z := Control_Error_HEADER_SIZE + SwitchHeader_SIZE + 4.
Definition Control_Error_MAX_SIZE : Z := 256.
Definition Control_Ping_HEADER_SIZE : Z := 8.
Definition Control_Ping_MIN_SIZE : Z := 8.
Definition Control_Ping_MAX_SIZE : Z := 256.
Definition Control_Pong_HEADER_SIZE : Z := Control_Ping_HEADER_SIZE.
Definition Control_Pong_MIN_SIZE : Z := Control_Ping_MIN_SIZE.
Definition Control_KeyPing_HEADER_SIZE : Z := 40.
Definition Control_KeyPing_MAX_SIZE : Z := Control_KeyPing_HEADER_SIZE + 64.
Definition Control_KeyPong_HEADER_SIZE : Z := Control_KeyPing_HEADER_SIZE.
Definition Control_KeyPong_MAX_SIZE : Z := Control_KeyPing_MAX_SIZE.
Definition Control_GetSnode_HEADER_SIZE : Z := 56.
Definition Control_RPath_HEADER_SIZE : Z := 16.

Definition Control_typeString (type_be : Z) : string :=
  if type_be =? Control_ERROR_be then "ERROR"
  else if type_be =? Control_PING_be then "PING"
  else if type_be =? Control_PONG_be then "PONG"
  else if type_be =? Control_KEYPING_be then "KEYPING"
  else if type_be =? Control_KEYPONG_be then "KEYPONG"
  else if type_be =? Control_GETSNODE_QUERY_be then "GETSNODE_QUERY"
  else if type_be =? Control_GETSNODE_REPLY_be then "GETSNODE_REPLY"
  else if type_be =? Control_RPATH_QUERY_be then "RPATH_QUERY"
  else if type_be =? Control_RPATH_REPLY_be then "RPATH_REPLY"
  else "UNKNOWN".

Definition Error_NONE : Z := 0.
Definition Error_MALFORMED_ADDRESS : Z := 1.
Definition Error_FLOOD : Z := 2.
Definition Error_LINK_LIMIT_EXCEEDED : Z := 3.
Definition Error_OVERSIZE_MESSAGE : Z := 4.
Definition Error_UNDERSIZE_MESSAGE : Z := 5.
Definition Error_AUTHENTICATION : Z := 6.
Definition Error_INVALID : Z := 7.
Definition Error_UNDELIVERABLE : Z := 8.
Definition Error_LOOP_ROUTE : Z := 9.
Definition Error_RETURN_PATH_INVALID : Z := 10.

Definition Error_strerror (err : Z) : string :=
  if err =? Error_NONE then "Error_NONE"
  else if err =? Error_MALFORMED_ADDRESS then "Error_MALFORMED_ADDRESS"
  else if err =? Error_FLOOD then "Error_FLOOD"
  else if err =? Error_LINK_LIMIT_EXCEEDED then "Error_LINK_LIMIT_EXCEEDED"
  else if err =? Error_OVERSIZE_MESSAGE then "Error_OVERSIZE_MESSAGE"
  else if err =? Error_UNDERSIZE_MESSAGE then "Error_UNDERSIZE_MESSAGE"
  else if err =? Error_AUTHENTICATION then "Error_AUTHENTICATION"
  else if err =? Error_INVALID then "Error_INVALID"
  else if err =? Error_UNDELIVERABLE then "Error_UNDELIVERABLE"
  else if err =? Error_LOOP_ROUTE then "Error_LOOP_ROUTE"
  else if err =? Error_RETURN_PATH_INVALID then "Error_RETURN_PATH_INVALID"
  else "UNKNOWN".

(** ** Lemmas *)

Record SwitchHeader_wf (h : SwitchHeader) : Prop := {
  sh_label : fits 64 (label_be h);
  sh_congest : byte (congestAndSuppressErrors h);
  sh_version : byte (versionAndLabelShift h);
  sh_class : fits 16 (trafficClass_be h);
}.

(** A statement about a byte and a number below [n] holds if it holds of all of
    them; such statements are decided by evaluation. *)
Lemma byte_cases (P : Z -> bool) z :
  forallb P (seqZ 0 256) = true -> byte z -> P z = true.
Proof.
  intros H Hz. rewrite forallb_forall in H. apply H.
  apply list_elem_of_In, elem_of_seqZ. unfold fits in Hz. lia.
Qed.

Lemma byte_below_cases (n : Z) (P : Z -> Z -> bool) z k :
  forallb (fun z => forallb (P z) (seqZ 0 n)) (seqZ 0 256) = true ->
  byte z -> 0 <= k < n -> P z k = true.
Proof.
  intros H Hz Hk. pose proof (byte_cases _ z H Hz) as Hf. simpl in Hf.
  rewrite forallb_forall in Hf. apply Hf. apply list_elem_of_In, elem_of_seqZ. lia.
Qed.

Lemma length_SwitchHeader_bytes h : length (SwitchHeader_bytes h) = 12%nat.
Proof. reflexivity. Qed.

Lemma SwitchHeader_bytes_bytes h : SwitchHeader_wf h -> bytes (SwitchHeader_bytes h).
Proof.
  intros []. unfold SwitchHeader_bytes. repeat (apply Forall_app; split); auto with fits.
Qed.

Lemma SwitchHeader_of_bytes h rest :
  SwitchHeader_wf h -> SwitchHeader_of (SwitchHeader_bytes h ++ rest) = h.
Proof.
  intros [Hl _ _ Ht]. destruct h as [l c v t]; simpl in Hl, Ht. unfold SwitchHeader_of.
  unfold SwitchHeader_bytes; cbn [label_be congestAndSuppressErrors versionAndLabelShift
    trafficClass_be]. rewrite <- !app_assoc. f_equal.
  - rewrite rd_app_0, le_val_bytes by done. by apply fits_small.
  - rewrite (app_assoc _ [c; v]). rewrite rd_app, le_val_bytes by done. by apply fits_small.
Qed.

Lemma SwitchHeader_bytes_of l : bytes l -> length l = 12%nat -> SwitchHeader_bytes (SwitchHeader_of l) = l.
Proof.
  intros Hb Hl. destruct l as [|a [|b [|c [|d [|e [|f [|g [|h [|i [|j [|k [|x [|]]]]]]]]]]]]]; try done.
  apply (bytes_app [a; b; c; d; e; f; g; h]) in Hb as [H8 Hb]. apply (bytes_app [i; j]) in Hb as [_ H2].
  apply le_bytes_val in H8, H2. cbn [length] in H8, H2.
  change (le_bytes 8 (le_val [a; b; c; d; e; f; g; h]) ++ [i; j] ++ le_bytes 2 (le_val [k; x]) =
    [a; b; c; d; e; f; g; h] ++ [i; j] ++ [k; x]).
  by rewrite H8, H2.
Qed.

Lemma SwitchHeader_of_wf l : bytes l -> (12 <= length l)%nat -> SwitchHeader_wf (SwitchHeader_of l).
Proof.
  intros Hl Hlen. unfold SwitchHeader_of.
  assert (Hrd : forall off n, 0 <= off -> 0 <= n -> off + n <= 12 -> fits (8 * n) (le_val (rd off n l))).
  { intros off n H1 H2 H3. replace n with (len (rd off n l)) at 1 by (apply length_rd; lia).
    apply le_val_bound. unfold rd. by apply Forall_take, Forall_drop. }
  split; simpl; [apply (Hrd 0 8); lia|by apply get_bytes..|apply (Hrd 10 2); lia].
Qed.

(** ** Properties *)

(** The accessors of the switch header address separate fields: each
    setter stores what its getter returns (a congestion of 0 is sent as 1, which
    is how old switches are told apart) and leaves every other field alone. *)
Theorem switch_header_fields h version shift cong tc suppress :
  SwitchHeader_wf h ->
  0 <= version < 4 -> 0 <= shift < 64 -> 0 <= cong <= 127 -> fits 16 tc ->
  exists h1 h2 h3,
    SwitchHeader_setVersion h version = Ret h1 /\
    SwitchHeader_setLabelShift h1 shift = Ret h2 /\
    SwitchHeader_setCongestion h2 cong = Ret h3 /\
    let h' := SwitchHeader_setSuppressErrors (SwitchHeader_setTrafficClass h3 tc) suppress in
    SwitchHeader_getVersion h' = version /\
    SwitchHeader_getLabelShift h' = shift /\
    SwitchHeader_getCongestion h' = Z.max 1 cong /\
    SwitchHeader_getTrafficClass h' = tc /\
    SwitchHeader_getSuppressErrors h' = suppress /\
    label_be h' = label_be h /\ SwitchHeader_wf h'.
Proof.
  intros [Hl Hc Hv Ht] Hver Hsh Hco Htc.
  unfold SwitchHeader_setVersion. rewrite (proj2 (Z.ltb_lt version 4)) by lia.
  unfold SwitchHeader_setLabelShift. rewrite (proj2 (Z.ltb_lt shift 64)) by lia.
  unfold SwitchHeader_setCongestion. rewrite (proj2 (Z.leb_le cong 127)) by lia.
  do 3 eexists. split; [reflexivity|]. split; [reflexivity|]. split; [reflexivity|].
  unfold SwitchHeader_getVersion, SwitchHeader_getLabelShift, SwitchHeader_getCongestion,
    SwitchHeader_getTrafficClass, SwitchHeader_getSuppressErrors, SwitchHeader_setTrafficClass,
    SwitchHeader_setSuppressErrors. cbn [label_be congestAndSuppressErrors versionAndLabelShift
      trafficClass_be].
  pose proof (byte_below_cases 256 (fun v k =>
    let version := k / 64 in let shift := k mod 64 in
    let w := u8 (Z.lor (Z.shiftl version 6) (Z.land v (SwitchHeader_MASK 6))) in
    let w := u8 (Z.lor (u8 (Z.shiftl (Z.shiftr w 6) 6)) shift) in
    (Z.shiftr w 6 =? version) && (Z.land w (SwitchHeader_MASK 6) =? shift))
    (versionAndLabelShift h) (version * 64 + shift) ltac:(vm_compute; reflexivity) Hv ltac:(lia))
    as Hb1.
  cbv beta zeta in Hb1.
  rewrite Z.div_add_l, (Z.div_small shift), Z.add_0_r, (Z.add_comm (_ * _)), Z.mod_add,
    (Z.mod_small shift) in Hb1 by lia.
  apply andb_true_iff in Hb1 as [Hb1 Hb2]. apply Z.eqb_eq in Hb1, Hb2. rewrite Hb1, Hb2.
  pose proof (byte_below_cases 256 (fun v k =>
    let cong := k / 2 in let s := k mod 2 in
    let w := u8 (Z.lor (Z.land v 1) (Z.shiftl (if cong =? 0 then cong + 1 else cong) 1)) in
    let w := u8 (Z.lor (u8 (Z.shiftl (Z.shiftr w 1) 1)) s) in
    (Z.shiftr w 1 =? Z.max 1 cong) && (Z.land w 1 =? s))
    (congestAndSuppressErrors h) (cong * 2 + Z.b2z suppress) ltac:(vm_compute; reflexivity) Hc
    ltac:(destruct suppress; simpl; lia)) as Hc1.
  cbv beta zeta in Hc1. assert (0 <= Z.b2z suppress < 2) by (destruct suppress; simpl; lia).
  rewrite Z.div_add_l, (Z.div_small (Z.b2z suppress)), Z.add_0_r, (Z.add_comm (_ * _)), Z.mod_add,
    (Z.mod_small (Z.b2z suppress)) in Hc1 by lia.
  apply andb_true_iff in Hc1 as [Hc1 Hc2]. apply Z.eqb_eq in Hc1, Hc2. rewrite Hc1, Hc2.
  do 3 (split; [done|]). split; [|split; [by destruct suppress|]; split; [done|]].
  - unfold Endian_bigEndianToHost16, Endian_hostToBigEndian16, Endian_byteSwap16, u16.
    rewrite (fits_small 16 tc), (fits_small 16 (bswap 2 tc)) by (done || apply (bswap_fits 2)).
    by apply (bswap_involutive 2).
  - split; cbn; [done|apply (fits_mod 8); lia..|apply (bswap_fits 2)].
Qed.

Lemma switch_header_fields_witness :
  exists h1 h2 h3,
    SwitchHeader_setVersion (mkSwitchHeader 0x13 1 0xff 7) 1 = Ret h1 /\
    SwitchHeader_setLabelShift h1 13 = Ret h2 /\
    SwitchHeader_setCongestion h2 0 = Ret h3 /\
    let h' := SwitchHeader_setSuppressErrors (SwitchHeader_setTrafficClass h3 0xffff) false in
    SwitchHeader_getVersion h' = 1 /\ SwitchHeader_getLabelShift h' = 13 /\
    SwitchHeader_getCongestion h' = Z.max 1 0 /\ SwitchHeader_getTrafficClass h' = 0xffff /\
    SwitchHeader_getSuppressErrors h' = false /\ label_be h' = 0x13 /\ SwitchHeader_wf h'.
Proof.
  apply (switch_header_fields (mkSwitchHeader 0x13 1 0xff 7) 1 13 0 0xffff false);
    [split; split; vm_compute; congruence|lia|lia|lia|split; vm_compute; congruence].
Defined.

(** [PeerHeader_setSessionNum] does not set the session number: it keeps the
    low five bits, the old session number, ORs the new one into it, and clears
    the version instead. *)
Theorem peer_header_setSessionNum_mixes hdr sessNum :
  byte (versionAndSessNum hdr) -> 0 <= sessNum < 32 ->
  exists hdr', PeerHeader_setSessionNum hdr sessNum = Ret hdr' /\
    PeerHeader_getVersion hdr' = 0 /\
    PeerHeader_getSessionNum hdr' = Z.lor (PeerHeader_getSessionNum hdr) sessNum.
Proof.
  intros Hb Hs. unfold PeerHeader_setSessionNum.
  rewrite (proj2 (Z.leb_le _ _)) by (change (Z.shiftl 1 5) with 32; lia). eexists. split; [reflexivity|].
  unfold PeerHeader_getVersion, PeerHeader_getSessionNum. cbn [versionAndSessNum].
  pose proof (byte_below_cases 32 (fun v s =>
    let w := u8 (Z.lor (Z.land v (Z.shiftl 1 5 - 1)) s) in
    (Z.shiftr w 5 =? 0) && (Z.land w (Z.shiftl 1 5 - 1) =? Z.lor (Z.land v (Z.shiftl 1 5 - 1)) s))
    (versionAndSessNum hdr) sessNum ltac:(vm_compute; reflexivity) Hb Hs) as H.
  apply andb_true_iff in H as [H1 H2]. by apply Z.eqb_eq in H1, H2.
Qed.

Lemma peer_header_setSessionNum_mixes_witness :
  exists hdr', PeerHeader_setSessionNum (mkPeerHeader 0xa5 0 0) 2 = Ret hdr' /\
    PeerHeader_getVersion hdr' = 0 /\ PeerHeader_getSessionNum hdr' = 7.
Proof.
  exact (peer_header_setSessionNum_mixes (mkPeerHeader 0xa5 0 0) 2
           ltac:(split; vm_compute; congruence) ltac:(lia)).
Defined.
