(* ===== verification/EncodingScheme.v ===== *)
(** * switch/EncodingScheme.c: how a switch spells interface numbers in labels

    A scheme is a list of forms; a form is a prefix (the low bits of the label,
    by which the form is recognised) and the width of the interface number, the
    director, above it.  The scheme with widths 3, 5 and 8 gets special
    treatment throughout ([EncodingScheme_is358]). *)
From S2P Require Import Prelude Bits.

(** ** Definitions *)

Record EncodingScheme_Form := mkForm {
  bitCount : Z;
  prefixLen : Z;
  prefix : Z;
}.

#[export] Instance Form_eq_dec : EqDecision EncodingScheme_Form.
Proof. solve_decision. Defined.

(** [count] is the length of [forms]. *)
Record EncodingScheme := mkScheme { forms : list EncodingScheme_Form }.

Definition count (scheme : EncodingScheme) : Z := len (forms scheme).

(** [scheme->forms[i]]. *)
Definition form_at (scheme : EncodingScheme) (i : Z) : EncodingScheme_Form :=
  nth (Z.to_nat i) (forms scheme) (mkForm 0 0 0).

Definition EncodingScheme_getFormNum_INVALID : Z := -1.
Definition EncodingScheme_parseDirector_INVALID : Z := -1.
Definition EncodingScheme_convertLabel_convertTo_CANNONICAL : Z := -5000.
Definition EncodingScheme_convertLabel_INVALID : Z := UINT64_MAX.

Definition EncodingScheme_formSize (form : EncodingScheme_Form) : Z :=
  bitCount form + prefixLen form.

Fixpoint getFormNum_loop (fs : list EncodingScheme_Form) (i routeLabel : Z) : Er Z :=
  match fs with
  | [] => Ret EncodingScheme_getFormNum_INVALID
  | form :: fs =>
      Assert_true ((prefixLen form >? 0) && (prefixLen form <? 32));;
      Assert_true ((bitCount form >? 0) && (bitCount form <? 32));;
      if 0 =? u32 (Z.shiftl (Z.lxor (prefix form) (u32 routeLabel)) (32 - prefixLen form))
      then Ret i
      else getFormNum_loop fs (i + 1) routeLabel
  end.

Definition EncodingScheme_getFormNum (scheme : EncodingScheme) (routeLabel : Z) : Er Z :=
  if count scheme =? 1 then Ret 0 else getFormNum_loop (forms scheme) 0 routeLabel.

(** The memory of a form: two 16-bit fields and a 32-bit one. *)
Definition form_bytes (f : EncodingScheme_Form) : list Z :=
  le_bytes 2 (bitCount f) ++ le_bytes 2 (prefixLen f) ++ le_bytes 4 (prefix f).

Definition v358 : list EncodingScheme_Form :=
  [mkForm 3 1 1; mkForm 5 2 (Z.shiftl 1 1); mkForm 8 2 0].

Definition EncodingScheme_is358 (scheme : EncodingScheme) : bool :=
  if negb (count scheme =? 3) then false
  else forallb (fun fg => memcmp (form_bytes (fst fg)) (form_bytes (snd fg)) =? 0)
         (zip v358 (forms scheme)).

Definition EncodingScheme_parseDirector (scheme : EncodingScheme) (label : Z) : Er Z :=
  formNum ← EncodingScheme_getFormNum scheme label;
  if formNum =? EncodingScheme_getFormNum_INVALID
  then Ret EncodingScheme_parseDirector_INVALID
  else
    let currentForm := form_at scheme formNum in
    m ← Bits_maxBits64 (bitCount currentForm);
    let dir := i32 (Z.land (Z.shiftr label (prefixLen currentForm)) m) in
    if negb (EncodingScheme_is358 scheme)
    then Ret (Z.lxor dir (Z.b2z (count scheme >? 1)))
    else if formNum >? 0
    then Ret (dir + Z.b2z (dir >? 0))
    else Ret (dir + (Z.b2z (dir =? 0) - Z.b2z (dir =? 1))).

(** [for (formNum = 0; ...; formNum++) { if (fits formNum) break; }]. *)
Fixpoint find_form (fits_form : Z -> EncodingScheme_Form -> bool)
  (fs : list EncodingScheme_Form) (formNum : Z) : Z :=
  match fs with
  | [] => formNum
  | f :: fs => if fits_form formNum f then formNum else find_form fits_form fs (formNum + 1)
  end.

(** The value is computed in 32 bits ([dir] is an [int], [prefix] a
    [uint32_t]). *)
Definition EncodingScheme_serializeDirector (scheme : EncodingScheme) (dir formNum : Z) : Z :=
  let '(dir, formNum) :=
    if negb (EncodingScheme_is358 scheme) then
      let formNum :=
        if formNum <? 0
        then find_form (fun _ f => Z.shiftr dir (bitCount f) =? 0) (forms scheme) 0
        else formNum in
      (Z.lxor dir (Z.b2z (count scheme >? 1)), formNum)
    else
      let formNum :=
        if formNum <? 0
        then find_form (fun n f => Z.shiftr (dir - nz n) (bitCount f) =? 0) (forms scheme) 0
        else formNum in
      (if negb (formNum =? 0) then dir - Z.b2z (dir >? 0)
       else dir + (Z.b2z (dir =? 0) - Z.b2z (dir =? 1)), formNum) in
  if formNum >=? count scheme then UINT64_MAX
  else
    let f := form_at scheme formNum in
    u32 (Z.lor (u32 (Z.shiftl dir (prefixLen f))) (prefix f)).

(** [(form->prefix & Bits_maxBits64(form->prefixLen)) == 1]. *)
Definition prefix_is_one (form : EncodingScheme_Form) : Er bool :=
  m ← Bits_maxBits64 (prefixLen form);
  Ret (Z.land (prefix form) m =? 1).

(** The loop over the forms for the canonical form: the first one which is wide
    enough, [None] if there is none. *)
Fixpoint canonical_loop (fs : list EncodingScheme_Form) (i minBitsA minBitsB : Z)
  : Er (option Z) :=
  match fs with
  | [] => Ret None
  | form :: fs =>
      one ← prefix_is_one form;
      let minBits := if (one : bool) then minBitsA else minBitsB in
      if bitCount form >=? minBits then Ret (Some i)
      else canonical_loop fs (i + 1) minBitsA minBitsB
  end.

(** The part of [EncodingScheme_convertLabel] after the director was taken off
    the label: [director] is the decoded number, [routeLabel] the rest. *)
Definition convertLabel_encode (scheme : EncodingScheme) (routeLabel director convertTo : Z)
  : Er Z :=
  if (convertTo <? 0) || (convertTo >=? count scheme)
  then Ret EncodingScheme_convertLabel_INVALID
  else
    let nextForm := form_at scheme convertTo in
    director ←
      (if negb (EncodingScheme_is358 scheme) then Ret director
       else
         one ← prefix_is_one nextForm;
         if (one : bool)
         then Ret (u64 (director - Z.b2z (director =? 1) + Z.b2z (director =? 0)))
         else Ret (u64 (director - Z.b2z (director >? 0))));
    if Bits_log2x64 director + 1 >? bitCount nextForm
    then Ret EncodingScheme_convertLabel_INVALID
    else if Bits_log2x64 routeLabel + EncodingScheme_formSize nextForm >? 59
    then Ret EncodingScheme_convertLabel_INVALID
    else
      let routeLabel := u64 (Z.shiftl routeLabel (bitCount nextForm)) in
      let routeLabel := Z.lor routeLabel director in
      let routeLabel := u64 (Z.shiftl routeLabel (prefixLen nextForm)) in
      let routeLabel := Z.lor routeLabel (prefix nextForm) in
      m ← Bits_maxBits64 (prefixLen nextForm + bitCount nextForm);
      if Z.land routeLabel m =? 1
      then Ret EncodingScheme_convertLabel_INVALID
      else Ret routeLabel.

Definition EncodingScheme_convertLabel (scheme : EncodingScheme) (routeLabel convertTo : Z)
  : Er Z :=
  formNum ← EncodingScheme_getFormNum scheme routeLabel;
  if formNum =? EncodingScheme_getFormNum_INVALID
  then Ret EncodingScheme_convertLabel_INVALID
  else
    let currentForm := form_at scheme formNum in
    m ← (if count scheme =? 1 then Ret 0
         else Bits_maxBits64 (prefixLen currentForm + bitCount currentForm));
    if (count scheme =? 1) || (Z.land routeLabel m =? 1) then
      if (convertTo =? 0) || (convertTo =? EncodingScheme_convertLabel_convertTo_CANNONICAL)
      then Ret routeLabel
      else Ret EncodingScheme_convertLabel_INVALID
    else
      let routeLabel := Z.shiftr routeLabel (prefixLen currentForm) in
      m ← Bits_maxBits64 (bitCount currentForm);
      let director := Z.land routeLabel m in
      let routeLabel := Z.shiftr routeLabel (bitCount currentForm) in
      director ←
        (if negb (EncodingScheme_is358 scheme) then Ret director
         else
           one ← prefix_is_one currentForm;
           if (one : bool)
           then Ret (u64 (director - Z.b2z (director =? 1) + Z.b2z (director =? 0)))
           else Ret (u64 (director + Z.b2z (director >? 0))));
      convertTo ←
        (if convertTo =? EncodingScheme_convertLabel_convertTo_CANNONICAL then
           let minBitsA := Bits_log2x64 director + 1 in
           let minBitsB := Bits_log2x64 (director - Z.b2z (director >? 0)) + 1 in
           i ← canonical_loop (forms scheme) 0 minBitsA minBitsB;
           Ret (default convertTo i)
         else Ret convertTo);
      convertLabel_encode scheme routeLabel director convertTo.

(** Returns the form and the number of consumed bits; 0 if [d] is no form.
    ([Bits_maxBits64] is [Z.ones] for the counts below 32 it is given here and
    in [EncodingScheme_isSane].) *)
Definition decodeForm (d : Z) : EncodingScheme_Form * Z :=
  let pl := Z.land d (Z.ones 5) in
  let d := Z.shiftr d 5 in
  let bc := Z.land d (Z.ones 5) in
  if bc <? 1 then (mkForm 0 pl 0, 0)
  else
    let d := Z.shiftr d 5 in
    (mkForm bc pl (Z.land d (Z.ones pl)), 5 + 5 + pl).

(** Returns the updated block and the number of bits of the form. *)
Definition encodeForm (inp : EncodingScheme_Form) (data bits : Z) : Er (Z * Z) :=
  let data := Z.lor data (u64 (Z.shiftl (Z.land (prefixLen inp) (Z.ones 5)) bits)) in
  let bits := bits + 5 in
  let data := Z.lor data (u64 (Z.shiftl (Z.land (bitCount inp) (Z.ones 5)) bits)) in
  let bits := bits + 5 in
  m ← Bits_maxBits64 (prefixLen inp);
  let data := Z.lor data (u64 (Z.shiftl (Z.land (prefix inp) m) bits)) in
  Ret (data, 5 + 5 + prefixLen inp).

(** One form of a variable-width scheme against the scheme. *)
Definition sane_form (scheme : EncodingScheme) (i : nat) (form : EncodingScheme_Form) : bool :=
  negb ((prefixLen form =? 0) || (prefixLen form >? 31)) &&
  negb ((bitCount form =? 0) || (bitCount form >? 31)) &&
  negb (EncodingScheme_formSize form >? 59) &&
  negb ((0 <? i)%nat && (bitCount form <=? bitCount (nth (i - 1) (forms scheme) (mkForm 0 0 0)))) &&
  forallb (fun j =>
    negb (negb (j =? i)%nat &&
          (Z.land (prefix (nth j (forms scheme) (mkForm 0 0 0))) (Z.ones (prefixLen form))
           =? prefix form)))
    (seq 0 (length (forms scheme))).

Definition EncodingScheme_isSane (scheme : EncodingScheme) : bool :=
  if count scheme =? 0 then false
  else if count scheme >? 31 then false
  else if count scheme =? 1 then
    let f := form_at scheme 0 in
    if negb (prefixLen f =? 0) || negb (prefix f =? 0) then false
    else if (bitCount f =? 0) || (bitCount f >? 31) then false
    else true
  else
    forallb (fun i => sane_form scheme i (nth i (forms scheme) (mkForm 0 0 0)))
      (seq 0 (length (forms scheme))).

(** [while (bits > 8) { out->bytes[outIndex++] = block & 0xff; ... }], [out]
    being the bytes written so far and [cap] the length of the string. *)
Fixpoint flush_loop (fuel : nat) (cap : Z) (out : list Z) (bits block : Z)
  : Er (list Z * Z * Z) :=
  match fuel with
  | O => Ret (out, bits, block)
  | S fuel =>
      if bits >? 8 then
        Assert_true (len out <? cap);;
        flush_loop fuel cap (out ++ [Z.land block 0xff]) (bits - 8) (Z.shiftr block 8)
      else Ret (out, bits, block)
  end.

Fixpoint serialize_loop (fs : list EncodingScheme_Form) (cap : Z) (out : list Z) (bits block : Z)
  : Er (list Z * Z * Z) :=
  match fs with
  | [] => Ret (out, bits, block)
  | f :: fs =>
      '(block, n) ← encodeForm f block bits;
      '(out, bits, block) ← flush_loop 8 cap out (bits + n) block;
      serialize_loop fs cap out bits block
  end.

Definition EncodingScheme_serialize (scheme : EncodingScheme) : Er (list Z) :=
  Assert_ifParanoid (EncodingScheme_isSane scheme);;
  '(out, bits, block) ← serialize_loop (forms scheme) (count scheme * 6) [] 0 0;
  Ret (if bits >? 0 then out ++ [Z.land block 0xff] else out).

(** [while (bits < 56 && dataIndex < data->len)]: [data] is what is left to
    load. *)
Fixpoint load_loop (data : list Z) (bits block : Z) : list Z * Z * Z :=
  match data with
  | [] => ([], bits, block)
  | b :: rest =>
      if bits <? 56
      then load_loop rest (bits + 8) (Z.lor block (u64 (Z.shiftl (Z.land b 0xff) bits)))
      else (data, bits, block)
  end.

(** [for (;;)]; every iteration consumes at least ten bits or leaves, so the
    number of bits of the input bounds the iterations. *)
Fixpoint deserialize_loop (fuel : nat) (data : list Z) (bits block : Z)
  (out : list EncodingScheme_Form) : Er (option (list EncodingScheme_Form)) :=
  match fuel with
  | O => Abort "out of fuel"
  | S fuel =>
      let '(data, bits, block) := load_loop data bits block in
      let '(next, ret) := decodeForm block in
      let bits := bits - ret in
      if (ret =? 0) || (bits <? 0) then
        if negb (block =? 0) || (0 <? len data) || (bits <? 0) then Ret None
        else Ret (Some out)
      else
        let block := Z.shiftr block ret in
        Assert_true (Z.shiftr (prefix next) (prefixLen next) =? 0);;
        deserialize_loop fuel data bits block (out ++ [next])
  end.

Definition EncodingScheme_deserialize (data : list Z) : Er (option EncodingScheme) :=
  fs ← deserialize_loop (S (8 * length data)) data 0 0 [];
  Ret (match fs with
       | None => None
       | Some fs => if EncodingScheme_isSane (mkScheme fs) then Some (mkScheme fs) else None
       end).

Definition EncodingScheme_defineFixedWidthScheme (bitCount : Z) : Er EncodingScheme :=
  let scheme := mkScheme [mkForm (u16 bitCount) 0 0] in
  Assert_true (EncodingScheme_isSane scheme);;
  Ret scheme.

Definition EncodingScheme_defineDynWidthScheme (fs : list EncodingScheme_Form)
  : Er EncodingScheme :=
  let scheme := mkScheme fs in
  Assert_ifParanoid (EncodingScheme_isSane scheme);;
  Ret scheme.

Definition EncodingScheme_compare (a b : EncodingScheme) : Z :=
  if count a =? count b
  then memcmp (concat (map form_bytes (forms a))) (concat (map form_bytes (forms b)))
  else if count a >? count b then 1 else -1.

Definition EncodingScheme_isSelfRoute (scheme : EncodingScheme) (routeLabel : Z) : Er bool :=
  formNum ← EncodingScheme_getFormNum scheme routeLabel;
  if formNum =? EncodingScheme_getFormNum_INVALID then Ret false
  else
    let currentForm := form_at scheme formNum in
    m ← Bits_maxBits64 (prefixLen currentForm + bitCount currentForm);
    Ret (Z.land routeLabel m =? 1).

Definition EncodingScheme_isOneHop (scheme : EncodingScheme) (routeLabel : Z) : Er bool :=
  fn ← EncodingScheme_getFormNum scheme routeLabel;
  if fn =? EncodingScheme_getFormNum_INVALID then Ret false
  else
    let form := form_at scheme fn in
    Ret (Bits_log2x64 routeLabel =? prefixLen form + bitCount form).

(** ** Well-formed schemes *)

(** The label's low bits are the form's prefix. *)
Definition matches (f : EncodingScheme_Form) (label : Z) : Prop :=
  label mod 2 ^ prefixLen f = prefix f.

#[export] Instance matches_dec f label : Decision (matches f label).
Proof. unfold matches. apply _. Defined.

Record form_ok (f : EncodingScheme_Form) : Prop := {
  fo_prefixLen : 0 <= prefixLen f < 32;
  fo_bitCount : 0 < bitCount f < 32;
  fo_size : EncodingScheme_formSize f <= 59;
  fo_prefix : 0 <= prefix f < 2 ^ prefixLen f;
}.

(** A scheme which passes [EncodingScheme_isSane] and whose prefixes fit in their
    declared length, which [EncodingScheme_isSane] does not look at. *)
Record scheme_ok (s : EncodingScheme) : Prop := {
  so_sane : EncodingScheme_isSane s = true;
  so_unsigned : Forall (fun f => 0 <= bitCount f /\ 0 <= prefixLen f) (forms s);
  so_prefix : Forall (fun f => 0 <= prefix f < 2 ^ prefixLen f) (forms s);
}.

(** ** Lemmas *)

Lemma form_at_in s i : 0 <= i < count s -> In (form_at s i) (forms s).
Proof. intros. unfold form_at, count in *. apply nth_In. lia. Qed.

Lemma sane_fixed f :
  EncodingScheme_isSane (mkScheme [f]) = true ->
  prefixLen f = 0 /\ prefix f = 0 /\ bitCount f <> 0 /\ bitCount f <= 31.
Proof.
  unfold EncodingScheme_isSane. simpl. unfold form_at. simpl.
  destruct (Z.eqb_spec (prefixLen f) 0); [|done]. destruct (Z.eqb_spec (prefix f) 0); [|done].
  destruct (Z.eqb_spec (bitCount f) 0); [done|]. destruct (Z.gtb_spec (bitCount f) 31); [done|].
  done.
Qed.

Lemma sane_multi s :
  EncodingScheme_isSane s = true -> count s <> 1 ->
  2 <= count s <= 31 /\
  forall i, (i < length (forms s))%nat ->
    sane_form s i (nth i (forms s) (mkForm 0 0 0)) = true.
Proof.
  unfold EncodingScheme_isSane. intros H H1. assert (0 <= count s) by (unfold count; lia).
  destruct (Z.eqb_spec (count s) 0); [done|]. destruct (Z.gtb_spec (count s) 31); [done|].
  destruct (Z.eqb_spec (count s) 1); [done|]. split; [lia|].
  intros i Hi. rewrite forallb_forall in H. apply (H i), in_seq. lia.
Qed.

Lemma scheme_ok_forms s : scheme_ok s -> Forall form_ok (forms s).
Proof.
  intros [Hs Hu Hp]. apply Forall_forall. intros f Hf.
  rewrite Forall_forall in Hu, Hp. pose proof (Hu f Hf) as Hu1. pose proof (Hp f Hf) as Hp1.
  destruct (decide (count s = 1)) as [H1|H1].
  - destruct s as [[|g [|? ?]]]; unfold count in H1; simpl in *; try lia.
    apply list_elem_of_singleton in Hf as ->. apply sane_fixed in Hs.
    unfold EncodingScheme_formSize. split; unfold EncodingScheme_formSize; lia.
  - apply sane_multi in Hs as [Hc Hs]; [|done].
    apply list_elem_of_In, (In_nth _ _ (mkForm 0 0 0)) in Hf as (i & Hi & <-).
    specialize (Hs i Hi). unfold sane_form in Hs.
    repeat (apply andb_true_iff in Hs as [Hs ?H]).
    repeat match goal with H : negb (_ || _) = true |- _ =>
      apply negb_true_iff, orb_false_iff in H as [?H ?H] end.
    repeat match goal with H : (_ =? _) = false |- _ => apply Z.eqb_neq in H end.
    apply negb_true_iff in H0. rewrite Z.gtb_ltb in *.
    repeat match goal with H : (_ <? _) = false |- _ => apply Z.ltb_ge in H end.
    split; lia.
Qed.

Lemma form_at_ok s i : scheme_ok s -> 0 <= i < count s -> form_ok (form_at s i).
Proof.
  intros Hs Hi. apply scheme_ok_forms in Hs. rewrite Forall_forall in Hs.
  apply Hs, list_elem_of_In, form_at_in, Hi.
Qed.

(** The forms of a scheme are told apart by their prefixes. *)
Lemma scheme_ok_distinct s i j :
  scheme_ok s -> 0 <= i < count s -> 0 <= j < count s -> i <> j ->
  prefix (form_at s j) mod 2 ^ prefixLen (form_at s i) <> prefix (form_at s i).
Proof.
  intros Hok Hi Hj Hne.
  destruct (sane_multi s (so_sane s Hok)) as [_ Hs]; [lia|].
  pose proof (form_at_ok s i Hok Hi) as [Hpl _ _ _].
  specialize (Hs (Z.to_nat i) ltac:(unfold count in *; lia)). fold (form_at s i) in Hs.
  unfold sane_form in Hs. apply andb_true_iff in Hs as [_ Hs]. rewrite forallb_forall in Hs.
  specialize (Hs (Z.to_nat j) ltac:(apply in_seq; unfold count in *; lia)).
  fold (form_at s j) in Hs. apply negb_true_iff, andb_false_iff in Hs as [Hs|Hs].
  - apply negb_false_iff, Nat.eqb_eq in Hs. lia.
  - rewrite Z.land_ones in Hs by lia. by apply Z.eqb_neq in Hs.
Qed.

Lemma matches_unique s i j label :
  scheme_ok s -> 0 <= i < count s -> 0 <= j < count s ->
  matches (form_at s i) label -> matches (form_at s j) label -> i = j.
Proof.
  intros Hok Hi Hj Mi Mj. destruct (decide (i = j)) as [|Hne]; [done|exfalso].
  pose proof (form_at_ok s i Hok Hi) as [Hpi _ _ _].
  pose proof (form_at_ok s j Hok Hj) as [Hpj _ _ _]. unfold matches in *.
  assert (Hmm : forall a b, 0 <= a <= b -> (label mod 2 ^ b) mod 2 ^ a = label mod 2 ^ a).
  { intros a b Hab. apply Z.bits_inj'. intros n Hn.
    rewrite !Z.testbit_mod_pow2 by lia.
    destruct (Z.ltb_spec n a), (Z.ltb_spec n b); simpl; try done; lia. }
  destruct (decide (prefixLen (form_at s i) <= prefixLen (form_at s j))) as [Hle|Hle].
  - apply (scheme_ok_distinct s i j); try done. rewrite <- Mj, Hmm by lia. done.
  - apply (scheme_ok_distinct s j i); try done. rewrite <- Mi, Hmm by lia. done.
Qed.

Lemma form_test f label :
  0 <= prefixLen f < 32 -> 0 <= prefix f < 2 ^ prefixLen f ->
  (0 =? u32 (Z.shiftl (Z.lxor (prefix f) (u32 label)) (32 - prefixLen f))) =
  bool_decide (matches f label).
Proof.
  intros Hl Hp. unfold u32, matches. rewrite Z.shiftl_mul_pow2 by lia.
  replace (2 ^ 32) with (2 ^ prefixLen f * 2 ^ (32 - prefixLen f)) at 2
    by (rewrite <- Z.pow_add_r by lia; f_equal; lia).
  rewrite Z.mul_mod_distr_r by lia.
  assert (He : Z.lxor (prefix f) (label mod 2 ^ 32) mod 2 ^ prefixLen f
               = Z.lxor (prefix f) (label mod 2 ^ prefixLen f)).
  { apply Z.bits_inj'. intros n Hn. rewrite Z.testbit_mod_pow2, !Z.lxor_spec by lia.
    rewrite !Z.testbit_mod_pow2 by lia.
    destruct (Z.ltb_spec n (prefixLen f)), (Z.ltb_spec n 32); simpl; try done; try lia.
    all: rewrite (fits_testbit (prefixLen f)) by done; done. }
  rewrite He. case_bool_decide as Hm.
  - rewrite Hm, Z.lxor_nilpotent. done.
  - apply Z.eqb_neq. intros Hz. apply Hm. symmetry. apply Z.lxor_eq. nia.
Qed.

Lemma getFormNum_loop_spec fs i label :
  Forall (fun f => form_ok f /\ 0 < prefixLen f) fs ->
  (exists k, (k < length fs)%nat /\ matches (nth k fs (mkForm 0 0 0)) label /\
     getFormNum_loop fs i label = Ret (i + Z.of_nat k)) \/
  (Forall (fun f => ~ matches f label) fs /\ getFormNum_loop fs i label = Ret (-1)).
Proof.
  revert i. induction fs as [|f fs IH]; intros i Hf; cbn [getFormNum_loop].
  { right. by split. }
  apply Forall_cons in Hf as [[[Hpl Hbc Hsz Hp] Hpos] Hf].
  destruct (Z.gtb_spec (prefixLen f) 0); [|lia]. destruct (Z.ltb_spec (prefixLen f) 32); [|lia].
  destruct (Z.gtb_spec (bitCount f) 0); [|lia]. destruct (Z.ltb_spec (bitCount f) 32); [|lia].
  cbn [andb Assert_true mbind Er_bind]. rewrite form_test by lia. case_bool_decide as Hm.
  - left. exists 0%nat. split; [simpl; lia|]. split; [done|]. f_equal. lia.
  - destruct (IH (i + 1) Hf) as [(k & Hk & Hmk & He)|[Ha He]].
    + left. exists (S k). split; [simpl; lia|]. split; [done|]. rewrite He. f_equal. lia.
    + right. split; [by constructor|done].
Qed.

Lemma getFormNum_spec s label :
  scheme_ok s ->
  (exists i, 0 <= i < count s /\ EncodingScheme_getFormNum s label = Ret i /\
     matches (form_at s i) label) \/
  (EncodingScheme_getFormNum s label = Ret (-1) /\
   forall i, 0 <= i < count s -> ~ matches (form_at s i) label).
Proof.
  intros Hok. unfold EncodingScheme_getFormNum. destruct (Z.eqb_spec (count s) 1) as [H1|H1].
  - left. exists 0. split; [lia|]. split; [done|]. destruct Hok as [Hs _ _].
    destruct s as [[|f [|? ?]]]; unfold count in H1; simpl in *; try lia.
    apply sane_fixed in Hs as (Hl & Hp & _). unfold matches, form_at. simpl.
    rewrite Hl, Hp. apply Z.mod_1_r.
  - pose proof (sane_multi s (so_sane s Hok) H1) as [_ Hs].
    assert (Hf : Forall (fun f => form_ok f /\ 0 < prefixLen f) (forms s)).
    { apply Forall_forall. intros f Hf. pose proof (scheme_ok_forms s Hok) as Ho.
      rewrite Forall_forall in Ho. specialize (Ho f Hf). split; [done|].
      apply list_elem_of_In, (In_nth _ _ (mkForm 0 0 0)) in Hf as (i & Hi & <-).
      specialize (Hs i Hi). unfold sane_form in Hs. destruct Ho as [? _ _ _].
      destruct (Z.eqb_spec (prefixLen (nth i (forms s) (mkForm 0 0 0))) 0); [done|lia]. }
    destruct (getFormNum_loop_spec (forms s) 0 label Hf) as [(k & Hk & Hm & He)|[Ha He]].
    + left. exists (Z.of_nat k). unfold count, form_at. rewrite Nat2Z.id. split; [lia|]. done.
    + right. split; [done|]. intros i Hi. rewrite Forall_forall in Ha.
      apply Ha, list_elem_of_In, form_at_in, Hi.
Qed.

Lemma getFormNum_matches s label i :
  scheme_ok s -> 0 <= i < count s -> matches (form_at s i) label ->
  EncodingScheme_getFormNum s label = Ret i.
Proof.
  intros Hok Hi Hm. destruct (getFormNum_spec s label Hok) as [(j & Hj & He & Hmj)|[_ Hn]].
  - by rewrite (matches_unique s i j label).
  - by destruct (Hn i Hi).
Qed.

(** *** Labels as a form, a raw director and the rest of the path *)

Definition mkLabel (f : EncodingScheme_Form) (raw rest : Z) : Z :=
  prefix f + 2 ^ prefixLen f * (raw + 2 ^ bitCount f * rest).

Lemma mkLabel_matches f raw rest : form_ok f -> matches f (mkLabel f raw rest).
Proof.
  intros [Hl _ _ Hp]. unfold matches, mkLabel.
  rewrite (Z.mul_comm (2 ^ prefixLen f)), Z.mod_add by lia. by apply Z.mod_small.
Qed.

Lemma mkLabel_shift f raw rest :
  form_ok f -> Z.shiftr (mkLabel f raw rest) (prefixLen f) = raw + 2 ^ bitCount f * rest.
Proof.
  intros [Hl _ _ Hp]. unfold mkLabel. rewrite Z.shiftr_div_pow2 by lia.
  rewrite (Z.mul_comm (2 ^ prefixLen f)), Z.div_add by lia.
  rewrite Z.div_small by done. lia.
Qed.

Lemma mkLabel_raw f raw rest :
  form_ok f -> 0 <= raw < 2 ^ bitCount f ->
  Z.land (Z.shiftr (mkLabel f raw rest) (prefixLen f)) (Z.ones (bitCount f)) = raw.
Proof.
  intros Hf Hr. rewrite mkLabel_shift by done. destruct Hf as [_ Hb _ _].
  rewrite Z.land_ones, (Z.mul_comm (2 ^ _)), Z.mod_add by lia. by apply Z.mod_small.
Qed.

Lemma mkLabel_rest f raw rest :
  form_ok f -> 0 <= raw < 2 ^ bitCount f ->
  Z.shiftr (mkLabel f raw rest) (EncodingScheme_formSize f) = rest.
Proof.
  intros Hf Hr. unfold EncodingScheme_formSize. rewrite Z.add_comm, <- Z.shiftr_shiftr
    by (destruct Hf; lia).
  rewrite mkLabel_shift by done. destruct Hf as [_ Hb _ _].
  rewrite Z.shiftr_div_pow2, (Z.mul_comm (2 ^ _)), Z.div_add by lia.
  rewrite Z.div_small by done. lia.
Qed.

Lemma mkLabel_eta f label :
  form_ok f -> matches f label ->
  label = mkLabel f (Z.land (Z.shiftr label (prefixLen f)) (Z.ones (bitCount f)))
            (Z.shiftr (Z.shiftr label (prefixLen f)) (bitCount f)).
Proof.
  intros [Hl Hb _ _] Hm. unfold mkLabel, matches in *. rewrite Z.land_ones by lia.
  rewrite !Z.shiftr_div_pow2 by lia. rewrite <- Hm.
  rewrite (Z.add_comm ((_ / _) mod _)), <- Z.div_mod by lia.
  rewrite Z.add_comm. apply Z.div_mod. lia.
Qed.

Lemma land_ones_bound a n : 0 <= n -> 0 <= Z.land a (Z.ones n) < 2 ^ n.
Proof. intros. rewrite Z.land_ones by done. apply Z.mod_pos_bound. lia. Qed.

(** The interface number a raw director of form [i] stands for. *)
Definition dir_of (s : EncodingScheme) (i raw : Z) : Z :=
  if negb (EncodingScheme_is358 s) then Z.lxor raw (Z.b2z (count s >? 1))
  else if i >? 0 then raw + Z.b2z (raw >? 0)
  else raw + (Z.b2z (raw =? 0) - Z.b2z (raw =? 1)).

Lemma parseDirector_mkLabel s i raw rest :
  scheme_ok s -> 0 <= i < count s -> 0 <= raw < 2 ^ bitCount (form_at s i) ->
  EncodingScheme_parseDirector s (mkLabel (form_at s i) raw rest) = Ret (dir_of s i raw).
Proof.
  intros Hok Hi Hr. pose proof (form_at_ok s i Hok Hi) as Hf.
  unfold EncodingScheme_parseDirector.
  rewrite (getFormNum_matches s _ i Hok Hi) by (by apply mkLabel_matches).
  cbn [mbind Er_bind]. destruct (Z.eqb_spec i EncodingScheme_getFormNum_INVALID) as [->|_];
    [unfold EncodingScheme_getFormNum_INVALID in Hi; lia|].
  rewrite Bits_maxBits64_ret by (destruct Hf; lia). cbn [mbind Er_bind].
  rewrite mkLabel_raw by done.
  assert (2 ^ bitCount (form_at s i) <= 2 ^ 31) by (destruct Hf; apply Z.pow_le_mono_r; lia).
  replace (i32 raw) with raw by (unfold i32; rewrite Z.mod_small; lia).
  unfold dir_of. destruct (negb _); [done|]. by destruct (i >? 0).
Qed.

Lemma form_bytes_inj f g : form_ok f -> form_ok g -> form_bytes f = form_bytes g -> f = g.
Proof.
  intros [Hl1 Hb1 _ Hp1] [Hl2 Hb2 _ Hp2] H. unfold form_bytes in H.
  apply app_inj_1 in H as [H1 H]; [|by rewrite !length_le_bytes].
  apply app_inj_1 in H as [H2 H3]; [|by rewrite !length_le_bytes].
  assert (Hpow : forall n, 0 <= n < 32 -> 2 ^ n <= 2 ^ 31) by (intros; apply Z.pow_le_mono_r; lia).
  apply (f_equal le_val) in H1, H2, H3. rewrite !le_val_bytes in *.
  pose proof (Hpow _ Hl1). pose proof (Hpow _ Hl2).
  rewrite !Z.mod_small in * by (simpl; lia).
  destruct f, g; simpl in *; by subst.
Qed.

Lemma v358_ok : Forall form_ok v358.
Proof.
  unfold v358. change (Z.shiftl 1 1) with 2.
  do 3 (apply Forall_cons_2;
        [split; unfold EncodingScheme_formSize; cbn [bitCount prefixLen prefix]; lia|]).
  apply Forall_nil_2.
Qed.

Lemma is358_forms s : scheme_ok s -> EncodingScheme_is358 s = true -> forms s = v358.
Proof.
  intros Hok H. pose proof (scheme_ok_forms s Hok) as Hf. unfold EncodingScheme_is358 in H.
  destruct (Z.eqb_spec (count s) 3) as [Hc|]; [|done]. unfold count in Hc.
  destruct s as [[|f0 [|f1 [|f2 [|? ?]]]]]; simpl in *; try lia.
  apply Forall_cons in Hf as [F0 Hf]. apply Forall_cons in Hf as [F1 Hf].
  apply Forall_cons in Hf as [F2 _].
  pose proof v358_ok as Hv. unfold v358 in *.
  apply Forall_cons in Hv as [G0 Hv]. apply Forall_cons in Hv as [G1 Hv].
  apply Forall_cons in Hv as [G2 _].
  assert (Heq : forall f g, form_ok f -> form_ok g ->
                  (memcmp (form_bytes f) (form_bytes g) =? 0) = true -> f = g).
  { intros f g Hff Hgg Hm. apply Z.eqb_eq, memcmp_eq in Hm; [|done]. by apply form_bytes_inj. }
  apply andb_true_iff in H as [H0 H]. apply andb_true_iff in H as [H1 H].
  apply andb_true_iff in H as [H2 _].
  by rewrite <- (Heq _ _ G0 F0 H0), <- (Heq _ _ G1 F1 H1), <- (Heq _ _ G2 F2 H2).
Qed.

(** In the 3-5-8 scheme only form 0 has the prefix 1. *)
Lemma prefix_is_one_358 s i :
  scheme_ok s -> EncodingScheme_is358 s = true -> 0 <= i < count s ->
  prefix_is_one (form_at s i) = Ret (i =? 0) /\ i <= 2.
Proof.
  intros Hok H Hi. apply is358_forms in H; [|done]. unfold count, form_at in *. rewrite H in *.
  simpl in Hi. assert (Hc : i = 0 \/ i = 1 \/ i = 2) by lia.
  destruct Hc as [->|[->| ->]]; split; [reflexivity|lia|reflexivity|lia|reflexivity|lia].
Qed.

Lemma prefix_is_one_ret s i :
  scheme_ok s -> 0 <= i < count s -> exists b, prefix_is_one (form_at s i) = Ret b.
Proof.
  intros Hok Hi. pose proof (form_at_ok s i Hok Hi) as [? _ _ _]. unfold prefix_is_one.
  rewrite Bits_maxBits64_ret by lia. by eexists.
Qed.

(** *** Converting between forms *)

Lemma log2_bound n z : 0 <= z -> 0 <= n -> Z.log2 z + 1 <= n -> z < 2 ^ n.
Proof.
  intros Hz Hn Hl. destruct (decide (z = 0)) as [->|]; [lia|].
  eapply Z.lt_le_trans; [apply Z.log2_spec; lia|]. apply Z.pow_le_mono_r; lia.
Qed.

(** The assembly of the new label does not overflow. *)
Lemma assemble_mkLabel f raw rest :
  form_ok f -> 0 <= raw < 2 ^ bitCount f -> 0 <= rest ->
  Z.log2 rest + EncodingScheme_formSize f <= 59 ->
  Z.lor (u64 (Z.shiftl (Z.lor (u64 (Z.shiftl rest (bitCount f))) raw) (prefixLen f))) (prefix f)
  = mkLabel f raw rest /\ mkLabel f raw rest < 2 ^ 60.
Proof.
  intros [Hl Hb Hs Hp] Hr Hrest Hlog. unfold EncodingScheme_formSize in *.
  assert (Hrb : rest < 2 ^ (60 - bitCount f - prefixLen f)) by (apply log2_bound; lia).
  assert (H60 : 2 ^ prefixLen f * (2 ^ bitCount f * 2 ^ (60 - bitCount f - prefixLen f)) = 2 ^ 60)
    by (rewrite <- !Z.pow_add_r by lia; f_equal; lia).
  assert (H0 : 0 < 2 ^ bitCount f) by lia. assert (H1 : 0 < 2 ^ prefixLen f) by lia.
  assert (Hm : raw + 2 ^ bitCount f * rest < 2 ^ bitCount f * 2 ^ (60 - bitCount f - prefixLen f))
    by nia.
  assert (Hm2 : mkLabel f raw rest < 2 ^ 60).
  { unfold mkLabel. rewrite <- H60.
    set (K := 2 ^ bitCount f * _) in *. set (x := raw + _) in *. nia. }
  assert (Hsmall : 2 ^ bitCount f * rest < 2 ^ 64).
  { eapply Z.le_lt_trans; [|eapply Z.lt_trans; [exact Hm2|]]; [|by apply Z.pow_lt_mono_r].
    unfold mkLabel. nia. }
  assert (Hsmall2 : (raw + rest * 2 ^ bitCount f) * 2 ^ prefixLen f < 2 ^ 64).
  { eapply Z.le_lt_trans; [|eapply Z.lt_trans; [exact Hm2|]]; [|by apply Z.pow_lt_mono_r].
    unfold mkLabel. nia. }
  assert (Hor : forall x lo k, 0 <= k -> 0 <= lo < 2 ^ k -> 0 <= x * 2 ^ k < 2 ^ 64 ->
                  Z.lor (u64 (Z.shiftl x k)) lo = lo + x * 2 ^ k).
  { intros x lo k Hk Hlo Hx. unfold u64. rewrite Z.mod_small by (by rewrite Z.shiftl_mul_pow2).
    rewrite Z.lor_comm. by apply lor_shiftl_add. }
  split; [|done]. rewrite (Hor rest raw) by lia. rewrite Hor by nia. unfold mkLabel. lia.
Qed.

(** The number which [convertLabel] carries from one form to another. *)
Definition carried (s : EncodingScheme) (i raw : Z) : Z :=
  if negb (EncodingScheme_is358 s) then raw
  else if i =? 0 then raw - Z.b2z (raw =? 1) + Z.b2z (raw =? 0)
  else raw + Z.b2z (raw >? 0).

Lemma dir_of_carried s i raw :
  0 <= i -> dir_of s i raw =
  if negb (EncodingScheme_is358 s) then Z.lxor (carried s i raw) (Z.b2z (count s >? 1))
  else carried s i raw.
Proof.
  intros Hi. unfold dir_of, carried. destruct (negb _); [done|].
  destruct (Z.gtb_spec i 0), (Z.eqb_spec i 0); try lia; done.
Qed.

(** Only the self label carries the number 1. *)
Lemma carried_not_1 s i raw :
  EncodingScheme_is358 s = true -> 0 <= raw -> (i = 0 -> raw <> 0) -> carried s i raw <> 1.
Proof.
  intros H Hr Hz. unfold carried. rewrite H. simpl. destruct (Z.eqb_spec i 0) as [->|].
  - specialize (Hz eq_refl).
    destruct (Z.eqb_spec raw 1), (Z.eqb_spec raw 0); simpl; lia.
  - destruct (Z.gtb_spec raw 0); simpl; lia.
Qed.

(** The raw director of form [j] for a carried number. *)
Lemma encode_director s j n :
  scheme_ok s -> 0 <= j < count s -> 0 <= n < 2 ^ 63 ->
  (EncodingScheme_is358 s = true -> n <> 1) ->
  exists raw, 0 <= raw < 2 ^ 64 /\ carried s j raw = n /\
    (if negb (EncodingScheme_is358 s) then Ret n
     else
       one ← prefix_is_one (form_at s j);
       if (one : bool)
       then Ret (u64 (n - Z.b2z (n =? 1) + Z.b2z (n =? 0)))
       else Ret (u64 (n - Z.b2z (n >? 0)))) = Ret raw.
Proof.
  intros Hok Hj Hn H1. unfold carried. destruct (EncodingScheme_is358 s) eqn:H358; simpl negb.
  2: { exists n. split; [lia|done]. }
  specialize (H1 eq_refl). destruct (prefix_is_one_358 s j Hok H358 Hj) as [-> Hj2].
  cbn [mbind Er_bind]. destruct (Z.eqb_spec j 0) as [->|Hj0].
  - exists (n - Z.b2z (n =? 1) + Z.b2z (n =? 0)).
    destruct (Z.eqb_spec n 1); [lia|]. simpl (Z.b2z false). rewrite Z.sub_0_r.
    destruct (Z.eqb_spec n 0) as [->|]; simpl; [split; [lia|done]|].
    rewrite Z.add_0_r. destruct (Z.eqb_spec n 1), (Z.eqb_spec n 0); try lia. simpl.
    unfold u64. rewrite Z.mod_small by lia. split; [lia|]. split; [lia|done].
  - exists (n - Z.b2z (n >? 0)). destruct (Z.gtb_spec n 0); simpl.
    + destruct (Z.gtb_spec (n - 1) 0); simpl; [|lia].
      unfold u64. rewrite Z.mod_small by lia. split; [lia|]. split; [lia|done].
    + replace n with 0 by lia. split; [lia|done].
Qed.

Lemma convertLabel_encode_spec s rest n j :
  scheme_ok s -> fits 64 rest -> 0 <= n < 2 ^ 63 -> (EncodingScheme_is358 s = true -> n <> 1) ->
  exists l, convertLabel_encode s rest n j = Ret l /\
    (l = EncodingScheme_convertLabel_INVALID \/
     0 <= j < count s /\ exists raw, 0 <= raw < 2 ^ bitCount (form_at s j) /\
       carried s j raw = n /\ l = mkLabel (form_at s j) raw rest).
Proof.
  intros Hok Hrest Hn H1. unfold convertLabel_encode.
  destruct (Z.ltb_spec j 0), (Z.geb_spec j (count s)); cbn [orb]; try (eexists; by split; [|left]).
  assert (Hj : 0 <= j < count s) by lia. pose proof (form_at_ok s j Hok Hj) as Hf.
  destruct (encode_director s j n Hok Hj Hn H1) as (raw & Hraw & Hc & ->). cbn [mbind Er_bind].
  rewrite !Bits_log2x64_log2 by done.
  destruct (Z.gtb_spec (Z.log2 raw + 1) (bitCount (form_at s j))) as [|Hbits];
    [eexists; by split; [|left]|].
  destruct (Z.gtb_spec (Z.log2 rest + EncodingScheme_formSize (form_at s j)) 59) as [|Hsz];
    [eexists; by split; [|left]|].
  assert (Hraw' : 0 <= raw < 2 ^ bitCount (form_at s j))
    by (split; [lia|]; apply log2_bound; destruct Hf; lia).
  destruct (assemble_mkLabel (form_at s j) raw rest Hf Hraw') as [-> _];
    [by destruct Hrest|done|].
  rewrite Bits_maxBits64_ret by (destruct Hf; unfold EncodingScheme_formSize in *; lia).
  cbn [mbind Er_bind]. destruct (_ =? 1); [eexists; by split; [|left]|].
  eexists. split; [done|]. right. split; [done|]. by exists raw.
Qed.

(** The canonical form is found, at or before any form which is wide enough. *)
Lemma canonical_loop_ret fs i a b k one :
  Forall form_ok fs -> (k < length fs)%nat ->
  prefix_is_one (nth k fs (mkForm 0 0 0)) = Ret one ->
  (if one : bool then a else b) <= bitCount (nth k fs (mkForm 0 0 0)) ->
  exists r, canonical_loop fs i a b = Ret (Some r) /\ i <= r <= i + Z.of_nat k.
Proof.
  revert i k. induction fs as [|f fs IH]; intros i k Hf Hk Ho Hw; cbn [canonical_loop length] in *.
  { lia. }
  apply Forall_cons in Hf as [Hf Hfs]. destruct k as [|k]; cbn [nth] in *.
  - rewrite Ho. cbn [mbind Er_bind]. destruct (Z.geb_spec (bitCount f) (if one then a else b)); [|lia].
    exists i. split; [done|lia].
  - unfold prefix_is_one at 1.
    rewrite Bits_maxBits64_ret by (destruct Hf; lia). cbn [mbind Er_bind].
    destruct (_ >=? _); [exists i; split; [done|lia]|].
    destruct (IH (i + 1) k Hfs) as (r & -> & Hr); [lia|exact Ho|exact Hw|]. exists r. split; [done|lia].
Qed.

Lemma self_label f raw rest :
  form_ok f -> 0 <= raw < 2 ^ bitCount f ->
  Z.land (mkLabel f raw rest) (Z.ones (prefixLen f + bitCount f)) = prefix f + 2 ^ prefixLen f * raw.
Proof.
  intros [Hl Hb _ Hp] Hr. rewrite Z.land_ones by lia. unfold mkLabel.
  rewrite Z.mul_add_distr_l, Z.mul_assoc, <- Z.pow_add_r by lia.
  rewrite Z.add_assoc, (Z.mul_comm (2 ^ (_ + _))), Z.mod_add by lia.
  apply Z.mod_small. rewrite Z.pow_add_r by lia.
  assert (0 < 2 ^ prefixLen f) by lia. nia.
Qed.

Lemma log2_width n z : 0 < n -> 0 <= z < 2 ^ n -> Z.log2 z + 1 <= n.
Proof.
  intros Hn [Hz Hlt]. destruct (decide (z = 0)) as [->|]; [simpl; lia|].
  assert (Z.log2 z < n); [|lia]. apply Z.log2_lt_pow2; lia.
Qed.

(** The canonical form of a label is never behind the form it is in. *)
Lemma carried_width s i raw :
  scheme_ok s -> 0 <= i < count s -> 0 <= raw < 2 ^ bitCount (form_at s i) ->
  let n := carried s i raw in
  0 <= n <= 2 ^ 31 /\
  exists k, 0 <= k <= i /\
    canonical_loop (forms s) 0 (Z.log2 n + 1) (Z.log2 (n - Z.b2z (n >? 0)) + 1) = Ret (Some k).
Proof.
  intros Hok Hi Hr n. pose proof (form_at_ok s i Hok Hi) as Hf.
  assert (Hb31 : 2 ^ bitCount (form_at s i) <= 2 ^ 31)
    by (destruct Hf; apply Z.pow_le_mono_r; lia).
  assert (Hn : 0 <= n <= 2 ^ 31).
  { subst n. unfold carried. repeat case_match; try lia.
    - destruct (Z.eqb_spec raw 1), (Z.eqb_spec raw 0); simpl; lia.
    - destruct (Z.gtb_spec raw 0); simpl; lia. }
  split; [done|]. destruct (prefix_is_one_ret s i Hok Hi) as [one Hone].
  destruct (canonical_loop_ret (forms s) 0 (Z.log2 n + 1) (Z.log2 (n - Z.b2z (n >? 0)) + 1)
              (Z.to_nat i) one) as (k & He & Hk).
  - by apply scheme_ok_forms.
  - unfold count in Hi. lia.
  - exact Hone.
  - fold (form_at s i).
    assert (Hsub : 0 <= n - Z.b2z (n >? 0)) by (destruct (Z.gtb_spec n 0); simpl; lia).
    destruct (EncodingScheme_is358 s) eqn:H358.
    + destruct (prefix_is_one_358 s i Hok H358 Hi) as [He _]. rewrite He in Hone.
      injection Hone as <-. subst n. unfold carried in *. rewrite H358 in *. cbn [negb] in *.
      destruct (Z.eqb_spec i 0) as [->|].
      * apply log2_width; [destruct Hf; lia|]. split; [lia|].
        apply is358_forms in H358; [|done].
        assert (bitCount (form_at s 0) = 3) as Hb3 by (unfold form_at; by rewrite H358).
        rewrite Hb3 in *. change (2 ^ 3) with 8 in *.
        destruct (Z.eqb_spec raw 1), (Z.eqb_spec raw 0); cbn [Z.b2z]; lia.
      * apply log2_width; [destruct Hf; lia|].
        destruct (Z.gtb_spec raw 0); cbn [Z.b2z] in *; destruct (Z.gtb_spec (raw + 1) 0);
          destruct (Z.gtb_spec (raw + 0) 0); cbn [Z.b2z] in *; lia.
    + subst n. unfold carried in *. rewrite H358 in *. cbn [negb] in *.
      destruct one; (apply log2_width; [destruct Hf; lia|]); [done|].
      destruct (Z.gtb_spec raw 0); cbn [Z.b2z] in *; lia.
  - exists k. split; [lia|done].
Qed.

(** The self label is the only one whose low bits are 0..01. *)
Lemma not_self_358 s i raw rest :
  scheme_ok s -> EncodingScheme_is358 s = true -> 0 <= i < count s ->
  0 <= raw < 2 ^ bitCount (form_at s i) ->
  Z.land (mkLabel (form_at s i) raw rest)
    (Z.ones (prefixLen (form_at s i) + bitCount (form_at s i))) <> 1 ->
  i = 0 -> raw <> 0.
Proof.
  intros Hok H358 Hi Hr Hs -> ->. apply Hs. rewrite self_label by (auto using form_at_ok).
  apply is358_forms in H358; [|done]. unfold form_at. by rewrite H358.
Qed.

Lemma convertLabel_spec s label convertTo :
  scheme_ok s -> fits 64 label ->
  exists l', EncodingScheme_convertLabel s label convertTo = Ret l' /\
    (l' = EncodingScheme_convertLabel_INVALID \/
     (exists i, 0 <= i < count s /\ matches (form_at s i) label /\ l' = label) \/
     exists i j raw raw' rest, 0 <= i < count s /\ 0 <= j < count s /\
       0 <= raw < 2 ^ bitCount (form_at s i) /\ 0 <= raw' < 2 ^ bitCount (form_at s j) /\
       label = mkLabel (form_at s i) raw rest /\ l' = mkLabel (form_at s j) raw' rest /\
       carried s j raw' = carried s i raw /\
       (if convertTo =? EncodingScheme_convertLabel_convertTo_CANNONICAL
        then j <= i else j = convertTo)).
Proof.
  intros Hok Hl. unfold EncodingScheme_convertLabel.
  destruct (getFormNum_spec s label Hok) as [(i & Hi & -> & Hm)|[-> _]]; cbn [mbind Er_bind].
  2: { eexists. split; [done|by left]. }
  destruct (Z.eqb_spec i EncodingScheme_getFormNum_INVALID) as [->|_];
    [unfold EncodingScheme_getFormNum_INVALID in Hi; lia|].
  pose proof (form_at_ok s i Hok Hi) as Hf.
  set (f := form_at s i) in *.
  set (raw := Z.land (Z.shiftr label (prefixLen f)) (Z.ones (bitCount f))).
  set (rest := Z.shiftr (Z.shiftr label (prefixLen f)) (bitCount f)).
  assert (Heta : label = mkLabel f raw rest) by (by apply mkLabel_eta).
  assert (Hraw : 0 <= raw < 2 ^ bitCount f) by (apply land_ones_bound; destruct Hf; lia).
  assert (Hself : exists m, (if count s =? 1 then Ret 0 else Bits_maxBits64 (prefixLen f + bitCount f))
      = Ret m /\ ((count s =? 1) = false -> m = Z.ones (prefixLen f + bitCount f))).
  { destruct (count s =? 1); [by eexists|].
    rewrite Bits_maxBits64_ret by (destruct Hf; unfold EncodingScheme_formSize in *; lia).
    by eexists. }
  destruct Hself as (m & -> & Hself). cbn [mbind Er_bind].
  destruct ((count s =? 1) || (Z.land label m =? 1)) eqn:Hc.
  { destruct ((convertTo =? 0) || _).
    - exists label. split; [done|]. right. left. by exists i.
    - eexists. split; [done|by left]. }
  apply orb_false_iff in Hc as [Hc1 Hc2]. rewrite (Hself Hc1) in Hc2. apply Z.eqb_neq in Hc2.
  rewrite Bits_maxBits64_ret by (destruct Hf; lia). cbn [mbind Er_bind]. fold raw rest.
  assert (Hn1 : EncodingScheme_is358 s = true -> carried s i raw <> 1).
  { intros H358. apply carried_not_1; [done|lia|]. rewrite Heta in Hc2.
    by apply (not_self_358 s i raw rest). }
  destruct (carried_width s i raw Hok Hi Hraw) as (Hn & k & Hk & Hcan).
  assert (Hdir : (if negb (EncodingScheme_is358 s) then Ret raw
         else one ← prefix_is_one f;
           if (one : bool) then Ret (u64 (raw - Z.b2z (raw =? 1) + Z.b2z (raw =? 0)))
           else Ret (u64 (raw + Z.b2z (raw >? 0)))) = Ret (carried s i raw)).
  { unfold carried in *. destruct (EncodingScheme_is358 s) eqn:H358; [|done]. cbn [negb] in *.
    subst f. destruct (prefix_is_one_358 s i Hok H358 Hi) as [-> _]. cbn [mbind Er_bind].
    destruct (i =? 0); f_equal; unfold u64; rewrite Z.mod_small; lia. }
  rewrite Hdir. cbn [mbind Er_bind].
  assert (Hrest : fits 64 rest)
    by (subst rest; apply fits_shiftr_same; [destruct Hf; lia|];
        apply fits_shiftr_same; [destruct Hf; lia|done]).
  rewrite !Bits_log2x64_log2 by (destruct (Z.gtb_spec (carried s i raw) 0);
    unfold fits; cbn [Z.b2z]; lia).
  destruct (convertTo =? EncodingScheme_convertLabel_convertTo_CANNONICAL).
  - rewrite Hcan. cbn [mbind Er_bind]. change (default convertTo (Some k)) with k.
    destruct (convertLabel_encode_spec s rest (carried s i raw) k Hok Hrest) as (l' & -> & Hl');
      [lia|done|]. exists l'. split; [done|].
    destruct Hl' as [?|(Hj & raw' & Hr' & Hcar & ->)]; [by left|]. right. right.
    exists i, k, raw, raw', rest. repeat (split; [done|]). lia.
  - cbn [mbind Er_bind].
    destruct (convertLabel_encode_spec s rest (carried s i raw) convertTo Hok Hrest)
      as (l' & -> & Hl'); [lia|done|]. exists l'. split; [done|].
    destruct Hl' as [?|(Hj & raw' & Hr' & Hcar & ->)]; [by left|]. right. right.
    exists i, convertTo, raw, raw', rest. by repeat (split; [done|]).
Qed.

(** What is returned when it is valid. *)
Lemma converted_label s label convertTo l' : scheme_ok s ->
  l' = EncodingScheme_convertLabel_INVALID \/
  (exists i, 0 <= i < count s /\ matches (form_at s i) label /\ l' = label) \/
  (exists i j raw raw' rest, 0 <= i < count s /\ 0 <= j < count s /\
     0 <= raw < 2 ^ bitCount (form_at s i) /\ 0 <= raw' < 2 ^ bitCount (form_at s j) /\
     label = mkLabel (form_at s i) raw rest /\ l' = mkLabel (form_at s j) raw' rest /\
     carried s j raw' = carried s i raw /\
     (if convertTo =? EncodingScheme_convertLabel_convertTo_CANNONICAL
      then j <= i else j = convertTo)) ->
  l' <> EncodingScheme_convertLabel_INVALID ->
  exists i j, 0 <= i < count s /\ 0 <= j < count s /\
    EncodingScheme_getFormNum s label = Ret i /\ EncodingScheme_getFormNum s l' = Ret j /\
    EncodingScheme_parseDirector s l' = EncodingScheme_parseDirector s label /\
    Z.shiftr l' (EncodingScheme_formSize (form_at s j)) =
    Z.shiftr label (EncodingScheme_formSize (form_at s i)) /\
    (l' = label \/ j = convertTo \/
     convertTo = EncodingScheme_convertLabel_convertTo_CANNONICAL /\ j <= i).
Proof.
  intros Hok Hc Hv.
  destruct Hc as [?|[(i & Hi & Hm & ->)|(i & j & raw & raw' & rest & Hi & Hj & Hr & Hr' & -> & -> & Hcar & Hto)]].
  - done.
  - exists i, i. pose proof (getFormNum_matches s label i Hok Hi Hm).
    split_and!; (done || lia || by left).
  - exists i, j. pose proof (form_at_ok s i Hok Hi) as Fi. pose proof (form_at_ok s j Hok Hj) as Fj.
    rewrite !mkLabel_rest, !parseDirector_mkLabel, !dir_of_carried, Hcar by (done || lia).
    split; [done|]. split; [done|]. split_and!; try done.
    + by apply getFormNum_matches, mkLabel_matches.
    + by apply getFormNum_matches, mkLabel_matches.
    + destruct (Z.eqb_spec convertTo EncodingScheme_convertLabel_convertTo_CANNONICAL);
        right; [right|left]; done.
Qed.

(** *** When the conversion succeeds *)

Lemma carried_inj s i x y : 0 <= x -> 0 <= y -> carried s i x = carried s i y -> x = y.
Proof.
  intros Hx Hy. unfold carried. destruct (negb _); [done|]. destruct (i =? 0).
  - destruct (Z.eqb_spec x 1), (Z.eqb_spec x 0), (Z.eqb_spec y 1), (Z.eqb_spec y 0); cbn [Z.b2z]; lia.
  - destruct (Z.gtb_spec x 0), (Z.gtb_spec y 0); cbn [Z.b2z]; lia.
Qed.

(** The self-route in the form [i]: the director which is 0..01 on the wire. *)
Definition self_route (s : EncodingScheme) (i label : Z) : Prop :=
  label mod 2 ^ EncodingScheme_formSize (form_at s i) = 1.

Lemma land_size f label : form_ok f ->
  Z.land label (Z.ones (prefixLen f + bitCount f)) = label mod 2 ^ EncodingScheme_formSize f.
Proof. intros []. rewrite Z.land_ones by lia. unfold EncodingScheme_formSize. do 2 f_equal. lia. Qed.

Lemma convertLabel_encode_complete s rest raw j :
  scheme_ok s -> fits 64 rest -> 0 <= j < count s -> 0 <= raw < 2 ^ bitCount (form_at s j) ->
  (EncodingScheme_is358 s = true -> carried s j raw <> 1) ->
  Z.log2 rest + EncodingScheme_formSize (form_at s j) <= 59 ->
  ~ self_route s j (mkLabel (form_at s j) raw rest) ->
  convertLabel_encode s rest (carried s j raw) j = Ret (mkLabel (form_at s j) raw rest).
Proof.
  intros Hok Hrest Hj Hraw H1 Hsz Hself. pose proof (form_at_ok s j Hok Hj) as Hf. unfold convertLabel_encode.
  destruct (Z.ltb_spec j 0), (Z.geb_spec j (count s)); try lia. cbn [orb].
  assert (Hn : 0 <= carried s j raw < 2 ^ 63).
  { pose proof (carried_width s j raw Hok Hj Hraw) as [Hn _]. assert (2 ^ 31 < 2 ^ 63) by done. lia. }
  destruct (encode_director s j (carried s j raw) Hok Hj Hn H1) as (raw2 & Hraw2 & Hc & ->). cbn [mbind Er_bind].
  apply carried_inj in Hc as ->; [|lia..].
  rewrite !Bits_log2x64_log2 by done.
  pose proof (log2_width (bitCount (form_at s j)) raw ltac:(destruct Hf; lia) Hraw) as Hw.
  destruct (Z.gtb_spec (Z.log2 raw + 1) (bitCount (form_at s j))); [lia|].
  destruct (Z.gtb_spec (Z.log2 rest + EncodingScheme_formSize (form_at s j)) 59); [lia|].
  destruct (assemble_mkLabel (form_at s j) raw rest Hf Hraw) as [-> _]; [by destruct Hrest|done|].
  rewrite Bits_maxBits64_ret by (destruct Hf; unfold EncodingScheme_formSize in *; lia).
  cbn [mbind Er_bind]. rewrite land_size by done. by rewrite (proj2 (Z.eqb_neq _ _) Hself).
Qed.

(** The label [l] is [label], which is in form [i], in form [j]: the same interface and the
    same remaining path, within the 60 bits of a label, and neither is the self-route. *)
Record converts (s : EncodingScheme) (label i l j : Z) : Prop := {
  cv_i : 0 <= i < count s;
  cv_j : 0 <= j < count s;
  cv_from : EncodingScheme_getFormNum s label = Ret i;
  cv_to : EncodingScheme_getFormNum s l = Ret j;
  cv_director : EncodingScheme_parseDirector s l = EncodingScheme_parseDirector s label;
  cv_rest : Z.shiftr l (EncodingScheme_formSize (form_at s j)) =
            Z.shiftr label (EncodingScheme_formSize (form_at s i));
  cv_room : Z.log2 (Z.shiftr l (EncodingScheme_formSize (form_at s j))) +
            EncodingScheme_formSize (form_at s j) <= 59;
  cv_not_self : ~ self_route s i label;
  cv_not_self' : ~ self_route s j l;
}.

Lemma getFormNum_ret_matches s label i : scheme_ok s -> 0 <= i < count s ->
  EncodingScheme_getFormNum s label = Ret i -> matches (form_at s i) label.
Proof.
  intros Hok Hi He. destruct (getFormNum_spec s label Hok) as [(k & Hk & E & Hm)|[E _]]; [congruence|].
  rewrite E in He. injection He as <-. lia.
Qed.

(** A label by its form. *)
Lemma label_parts s label i : scheme_ok s -> 0 <= i < count s -> matches (form_at s i) label ->
  exists raw, 0 <= raw < 2 ^ bitCount (form_at s i) /\
    label = mkLabel (form_at s i) raw (Z.shiftr label (EncodingScheme_formSize (form_at s i))).
Proof.
  intros Hok Hi Hm. pose proof (form_at_ok s i Hok Hi) as Hf. pose proof (mkLabel_eta _ _ Hf Hm) as E.
  set (raw := Z.land _ _) in E. assert (Hr : 0 <= raw < 2 ^ bitCount (form_at s i))
    by (apply land_ones_bound; destruct Hf; lia).
  exists raw. split; [done|]. rewrite E at 2. by rewrite mkLabel_rest.
Qed.

Lemma dir_of_inj s i j x y : 0 <= i -> 0 <= j -> dir_of s i x = dir_of s j y -> carried s i x = carried s j y.
Proof.
  intros Hi Hj. rewrite !dir_of_carried by done. destruct (negb _); [|done]. intros H.
  apply (f_equal (fun z => Z.lxor z (Z.b2z (count s >? 1)))) in H.
  by rewrite !Z.lxor_assoc, !Z.lxor_nilpotent, !Z.lxor_0_r in H.
Qed.

Lemma convertLabel_self s label i convertTo :
  scheme_ok s -> 0 <= i < count s -> EncodingScheme_getFormNum s label = Ret i -> self_route s i label ->
  convertTo = 0 \/ convertTo = EncodingScheme_convertLabel_convertTo_CANNONICAL ->
  EncodingScheme_convertLabel s label convertTo = Ret label.
Proof.
  intros Hok Hi Hf Hs Hto. pose proof (form_at_ok s i Hok Hi) as Fi. unfold EncodingScheme_convertLabel. rewrite Hf.
  cbn [mbind Er_bind]. destruct (Z.eqb_spec i EncodingScheme_getFormNum_INVALID) as [->|_];
    [unfold EncodingScheme_getFormNum_INVALID in Hi; lia|].
  assert ((convertTo =? 0) || (convertTo =? EncodingScheme_convertLabel_convertTo_CANNONICAL) = true) as ->
    by (destruct Hto as [-> | ->]; reflexivity).
  destruct (count s =? 1); [done|].
  rewrite (Bits_maxBits64_ret (prefixLen (form_at s i) + _))
    by (destruct Fi; unfold EncodingScheme_formSize in *; lia). cbn [mbind Er_bind orb].
  rewrite land_size, (proj2 (Z.eqb_eq _ _) Hs) by done. done.
Qed.

(** What the conversion does up to the encoding. *)
Lemma convertLabel_decode s i raw rest convertTo :
  scheme_ok s -> 0 <= i < count s -> 0 <= raw < 2 ^ bitCount (form_at s i) -> count s <> 1 ->
  ~ self_route s i (mkLabel (form_at s i) raw rest) -> 
  (EncodingScheme_is358 s = true -> carried s i raw <> 1) /\
  EncodingScheme_convertLabel s (mkLabel (form_at s i) raw rest) convertTo =
    (convertTo ←
       (if convertTo =? EncodingScheme_convertLabel_convertTo_CANNONICAL then
          k ← canonical_loop (forms s) 0 (Z.log2 (carried s i raw) + 1)
                (Z.log2 (carried s i raw - Z.b2z (carried s i raw >? 0)) + 1);
          Ret (default convertTo k)
        else Ret convertTo);
     convertLabel_encode s rest (carried s i raw) convertTo).
Proof.
  intros Hok Hi Hraw Hc1 Hself. pose proof (form_at_ok s i Hok Hi) as Hf.
  assert (Hn1 : EncodingScheme_is358 s = true -> carried s i raw <> 1).
  { intros H358. apply carried_not_1; [done|lia|]. apply (not_self_358 s i raw rest); try done.
    by rewrite land_size. }
  split; [done|]. unfold EncodingScheme_convertLabel.
  rewrite (getFormNum_matches s _ i Hok Hi) by (by apply mkLabel_matches). cbn [mbind Er_bind].
  destruct (Z.eqb_spec i EncodingScheme_getFormNum_INVALID) as [->|_];
    [unfold EncodingScheme_getFormNum_INVALID in Hi; lia|].
  rewrite (proj2 (Z.eqb_neq _ _) Hc1).
  rewrite (Bits_maxBits64_ret (prefixLen (form_at s i) + _))
    by (destruct Hf; unfold EncodingScheme_formSize in *; lia). cbn [mbind Er_bind orb].
  rewrite land_size, (proj2 (Z.eqb_neq _ _) Hself) by done.
  rewrite Bits_maxBits64_ret by (destruct Hf; lia). cbn [mbind Er_bind].
  rewrite mkLabel_raw by done.
  replace (Z.shiftr (Z.shiftr (mkLabel (form_at s i) raw rest) (prefixLen (form_at s i))) (bitCount (form_at s i))) with rest
    by (rewrite Z.shiftr_shiftr, Z.add_comm by (destruct Hf; lia); symmetry; by apply mkLabel_rest).
  destruct (carried_width s i raw Hok Hi Hraw) as (Hn & _).
  assert (Hdir : (if negb (EncodingScheme_is358 s) then Ret raw
         else one ← prefix_is_one (form_at s i);
           if (one : bool) then Ret (u64 (raw - Z.b2z (raw =? 1) + Z.b2z (raw =? 0)))
           else Ret (u64 (raw + Z.b2z (raw >? 0)))) = Ret (carried s i raw)).
  { unfold carried in *. destruct (EncodingScheme_is358 s) eqn:H358; [|done]. cbn [negb] in *.
    destruct (prefix_is_one_358 s i Hok H358 Hi) as [-> _]. cbn [mbind Er_bind].
    destruct (i =? 0); f_equal; unfold u64; rewrite Z.mod_small; lia. }
  rewrite Hdir. cbn [mbind Er_bind]. cbv zeta.
  rewrite !Bits_log2x64_log2; [done|..]; unfold fits; destruct (Z.gtb_spec (carried s i raw) 0); cbn [Z.b2z]; lia.
Qed.

(** A conversion which is possible is what the function returns. *)
Lemma convertLabel_complete s label i l j :
  scheme_ok s -> fits 64 label -> converts s label i l j ->
  EncodingScheme_convertLabel s label j = Ret l.
Proof.
  intros Hok Hl [Hi Hj Hfrom Hto Hdir Hrest Hroom Hs Hs'].
  apply getFormNum_ret_matches in Hfrom, Hto; [|done..].
  pose proof (form_at_ok s i Hok Hi) as Fi. pose proof (form_at_ok s j Hok Hj) as Fj.
  destruct (label_parts s label i Hok Hi Hfrom) as (raw & Hr & E).
  destruct (label_parts s l j Hok Hj Hto) as (raw' & Hr' & E').
  rewrite Hrest in E', Hroom. set (rest := Z.shiftr label _) in *.
  assert (Hrf : fits 64 rest)
    by (apply fits_shiftr_same; [unfold EncodingScheme_formSize; destruct Fi; lia|done]).
  rewrite E, E', !parseDirector_mkLabel in Hdir by done. injection Hdir as Hdir.
  apply dir_of_inj in Hdir; [|lia..]. rewrite E in Hs |- *. rewrite E' in Hs' |- *. clear E E'.
  destruct (Z.eqb_spec (count s) 1) as [Hc1|Hc1].
  { assert (i = 0 /\ j = 0) as [-> ->] by lia. apply carried_inj in Hdir as ->; [|lia..].
    unfold EncodingScheme_convertLabel.
    rewrite (getFormNum_matches s _ 0 Hok Hi) by (by apply mkLabel_matches). cbn [mbind Er_bind].
    change (0 =? EncodingScheme_getFormNum_INVALID) with false. by rewrite (proj2 (Z.eqb_eq _ _) Hc1). }
  destruct (convertLabel_decode s i raw rest j Hok Hi Hr Hc1 Hs) as [Hn1 ->].
  replace (j =? EncodingScheme_convertLabel_convertTo_CANNONICAL) with false
    by (unfold EncodingScheme_convertLabel_convertTo_CANNONICAL; symmetry; apply Z.eqb_neq; lia).
  cbn [mbind Er_bind]. rewrite <- Hdir. apply convertLabel_encode_complete; try done. by rewrite Hdir.
Qed.

(** In the 3-5-8 scheme the loop for the canonical form finds one which holds the
    number: by computation over all raw directors. *)
Definition canonical_fits (i raw : Z) : bool :=
  let s := mkScheme v358 in
  let n := carried s i raw in
  (n =? 1) ||
  match canonical_loop v358 0 (Z.log2 n + 1) (Z.log2 (n - Z.b2z (n >? 0)) + 1) with
  | Ret (Some k) =>
      let r := if k =? 0 then n - Z.b2z (n =? 1) + Z.b2z (n =? 0) else n - Z.b2z (n >? 0) in
      let f := form_at s k in
      (0 <=? k) && (k <=? i) && (k <? 3) && (0 <=? r) && (r <? 2 ^ bitCount f) && (carried s k r =? n) &&
      negb (prefix f + 2 ^ prefixLen f * r =? 1) &&
      (EncodingScheme_formSize f <=? EncodingScheme_formSize (form_at s i))
  | _ => false
  end.

Lemma canonical_fits_358 i raw :
  0 <= i < 3 -> 0 <= raw < 2 ^ bitCount (form_at (mkScheme v358) i) -> canonical_fits i raw = true.
Proof.
  intros Hi Hr.
  assert (Hall : forallb (fun i => forallb (fun r => (Z.of_nat r >=? 2 ^ bitCount (form_at (mkScheme v358) i)) ||
    canonical_fits i (Z.of_nat r)) (seq 0 256)) [0; 1; 2] = true) by (vm_compute; reflexivity).
  rewrite forallb_forall in Hall. specialize (Hall i). rewrite forallb_forall in Hall.
  assert (Hb : 2 ^ bitCount (form_at (mkScheme v358) i) <= 256).
  { assert (i = 0 \/ i = 1 \/ i = 2) as [-> |[-> | ->]] by lia; by vm_compute. }
  specialize (Hall ltac:(assert (i = 0 \/ i = 1 \/ i = 2) as [-> |[-> | ->]] by lia; cbn; auto) (Z.to_nat raw)).
  rewrite in_seq, Z2Nat.id in Hall by lia. specialize (Hall ltac:(lia)).
  destruct (Z.geb_spec raw (2 ^ bitCount (form_at (mkScheme v358) i))); [lia|done].
Qed.

Lemma convertLabel_canonical_358 s i raw rest :
  scheme_ok s -> EncodingScheme_is358 s = true -> 0 <= i < count s -> 0 <= raw < 2 ^ bitCount (form_at s i) ->
  fits 64 rest -> Z.log2 rest + EncodingScheme_formSize (form_at s i) <= 59 ->
  ~ self_route s i (mkLabel (form_at s i) raw rest) ->
  exists k raw', 0 <= raw' < 2 ^ bitCount (form_at s k) /\ 0 <= k < count s /\
    EncodingScheme_convertLabel s (mkLabel (form_at s i) raw rest) EncodingScheme_convertLabel_convertTo_CANNONICAL
    = Ret (mkLabel (form_at s k) raw' rest) /\ Z.log2 rest + EncodingScheme_formSize (form_at s k) <= 59.
Proof.
  intros Hok H358 Hi Hr Hrest Hroom Hself. pose proof (is358_forms s Hok H358) as Hforms.
  destruct s as [fs]. cbn [forms] in Hforms. subst fs. change (count (mkScheme v358)) with 3 in Hi.
  destruct (convertLabel_decode (mkScheme v358) i raw rest EncodingScheme_convertLabel_convertTo_CANNONICAL Hok Hi Hr ltac:(done) Hself)
    as [Hn1 ->]. specialize (Hn1 H358). rewrite Z.eqb_refl. cbn [forms].
  pose proof (canonical_fits_358 i raw Hi Hr) as Hc. unfold canonical_fits in Hc. cbv zeta in Hc.
  set (n := carried (mkScheme v358) i raw) in *. rewrite (proj2 (Z.eqb_neq _ _) Hn1) in Hc. cbn [orb] in Hc.
  destruct (canonical_loop v358 0 _ _) as [[k|]|]; [|done..].
  set (r := if k =? 0 then _ else _) in Hc. rewrite !andb_true_iff, !Z.leb_le, !Z.ltb_lt, Z.eqb_eq in Hc.
  destruct Hc as [[[[[[[Hk0 Hki] Hk3] Hr0] Hrb] Hcar] Hns] Hsz]. apply negb_true_iff, Z.eqb_neq in Hns.
  cbn [mbind Er_bind]. change (default EncodingScheme_convertLabel_convertTo_CANNONICAL (Some k)) with k.
  assert (Hk : 0 <= k < count (mkScheme v358)) by (change (count (mkScheme v358)) with 3; lia).
  exists k, r. split; [done|]. split; [done|]. split; [|lia]. rewrite <- Hcar.
  apply convertLabel_encode_complete; try done; [by rewrite Hcar|lia|].
  pose proof (form_at_ok _ k Hok Hk) as Hf. unfold self_route. rewrite <- land_size by done.
  by rewrite self_label by (done || lia).
Qed.

(** A label of at most 60 bits is not the mark for an invalid one. *)
Lemma mkLabel_valid f raw rest : form_ok f -> 0 <= raw < 2 ^ bitCount f -> 0 <= rest ->
  Z.log2 rest + EncodingScheme_formSize f <= 59 -> mkLabel f raw rest <> EncodingScheme_convertLabel_INVALID.
Proof.
  intros Hf Hr H0 Hsz E. pose proof (mkLabel_rest f raw rest Hf Hr) as Hs. rewrite E in Hs. rewrite <- Hs in Hsz.
  change EncodingScheme_convertLabel_INVALID with (Z.ones 64) in Hsz.
  assert (0 <= EncodingScheme_formSize f) by (unfold EncodingScheme_formSize; destruct Hf; lia).
  pose proof (fo_size f Hf). rewrite Z.shiftr_div_pow2, Z.ones_div_pow2, Z.ones_equiv, Z.log2_pred_pow2 in Hsz by lia. lia.
Qed.

(** *** Directors *)

(** The low 32 bits hold a first hop of at most 32 bits. *)
Lemma serialize_assemble f raw :
  form_ok f -> 0 <= raw < 2 ^ bitCount f -> EncodingScheme_formSize f <= 32 ->
  u32 (Z.lor (u32 (Z.shiftl raw (prefixLen f))) (prefix f)) = mkLabel f raw 0.
Proof.
  intros [Hl Hb _ Hp] Hr Hs. unfold EncodingScheme_formSize in Hs.
  assert (H32 : 2 ^ prefixLen f * 2 ^ bitCount f <= 2 ^ 32)
    by (rewrite <- Z.pow_add_r by lia; apply Z.pow_le_mono_r; lia).
  assert (0 < 2 ^ prefixLen f) by lia. assert (0 < 2 ^ bitCount f) by lia.
  assert (Hsum : prefix f + raw * 2 ^ prefixLen f < 2 ^ 32)
    by (set (P := 2 ^ prefixLen f) in *; set (B := 2 ^ bitCount f) in *; nia).
  unfold u32 at 2. rewrite Z.mod_small by (rewrite Z.shiftl_mul_pow2 by lia; nia).
  rewrite Z.lor_comm, lor_shiftl_add by (unfold fits; lia). unfold u32. rewrite Z.mod_small by nia.
  unfold mkLabel. lia.
Qed.

Lemma lxor_1_bound n x : 0 < n -> 0 <= x < 2 ^ n -> 0 <= Z.lxor x 1 < 2 ^ n.
Proof.
  intros Hn Hx. assert (1 < 2 ^ n) by (apply (Z.pow_lt_mono_r 2 0); lia).
  apply (fits_lxor n x 1); [lia|done|unfold fits; lia].
Qed.

(** Serializing into form [j] inverts the meaning of the raw directors of [j]. *)
Lemma serializeDirector_form s j raw :
  scheme_ok s -> 0 <= j < count s -> 0 <= raw < 2 ^ bitCount (form_at s j) ->
  EncodingScheme_formSize (form_at s j) <= 32 ->
  EncodingScheme_serializeDirector s (dir_of s j raw) j = mkLabel (form_at s j) raw 0.
Proof.
  intros Hok Hj Hr Hsz. unfold EncodingScheme_serializeDirector, dir_of.
  destruct (Z.ltb_spec j 0); [lia|]. destruct (Z.geb_spec j (count s)) as [|Hlt]; [lia|].
  assert (Hgeb : (j >=? count s) = false) by (destruct (Z.geb_spec j (count s)); [lia|done]).
  destruct (EncodingScheme_is358 s); cbn [negb].
  - rewrite Hgeb. rewrite <- serialize_assemble by (by try apply form_at_ok). do 3 f_equal.
    destruct (Z.gtb_spec j 0), (Z.eqb_spec j 0); try lia; cbn [negb].
    + destruct (Z.gtb_spec raw 0); cbn [Z.b2z].
      * destruct (Z.gtb_spec (raw + 1) 0); cbn [Z.b2z]; f_equal; lia.
      * destruct (Z.gtb_spec (raw + 0) 0); cbn [Z.b2z]; f_equal; lia.
    + destruct (Z.eqb_spec raw 0) as [->|]; [done|].
      destruct (Z.eqb_spec raw 1) as [->|]; [done|]. cbn [Z.b2z].
      replace (raw + (0 - 0)) with raw by lia.
      destruct (Z.eqb_spec raw 0), (Z.eqb_spec raw 1); cbn [Z.b2z]; try lia. f_equal. lia.
  - rewrite Hgeb, <- serialize_assemble by (by try apply form_at_ok).
    by rewrite Z.lxor_assoc, Z.lxor_nilpotent, Z.lxor_0_r.
Qed.

Lemma find_form_spec P fs i :
  (exists k, (k < length fs)%nat /\ find_form P fs i = i + Z.of_nat k /\
     P (i + Z.of_nat k) (nth k fs (mkForm 0 0 0)) = true) \/
  find_form P fs i = i + len fs.
Proof.
  revert i. induction fs as [|f fs IH]; intros i; simpl; [right; lia|].
  destruct (P i f) eqn:HP.
  - left. exists 0%nat. split; [lia|]. by replace (i + Z.of_nat 0) with i by lia.
  - destruct (IH (i + 1)) as [(k & Hk & He & HP')| ->]; [left|right; lia].
    exists (S k). split; [lia|]. rewrite He.
    replace (i + Z.of_nat (S k)) with (i + 1 + Z.of_nat k) by lia. done.
Qed.

Lemma shiftr_0_bound x n : 0 <= n -> 0 <= x -> (Z.shiftr x n =? 0) = (x <? 2 ^ n).
Proof.
  intros Hn Hx. rewrite Z.shiftr_div_pow2 by done.
  destruct (Z.ltb_spec x (2 ^ n)).
  - apply Z.eqb_eq, Z.div_small. lia.
  - apply Z.eqb_neq. assert (1 <= x / 2 ^ n); [|lia]. apply Z.div_le_lower_bound; lia.
Qed.

(** The form [serializeDirector] chooses in the 3-5-8 scheme. *)
Lemma choice_358 s dir :
  scheme_ok s -> EncodingScheme_is358 s = true -> 0 <= dir ->
  find_form (fun n f => Z.shiftr (dir - nz n) (bitCount f) =? 0) (forms s) 0 =
  if dir <? 8 then 0 else if dir <? 33 then 1 else if dir <? 257 then 2 else 3.
Proof.
  intros Hok H358 Hd. rewrite (is358_forms s Hok H358). unfold v358. cbn [find_form bitCount].
  change (nz 0) with 0. change (nz (0 + 1)) with 1. change (nz (0 + 1 + 1)) with 1.
  change (0 + 1 + 1 + 1) with 3. change (0 + 1 + 1) with 2. change (0 + 1) with 1.
  rewrite (shiftr_0_bound (dir - 0)) by lia. change (2 ^ 3) with 8. rewrite Z.sub_0_r.
  destruct (Z.ltb_spec dir 8); [done|]. rewrite !shiftr_0_bound by lia.
  change (2 ^ 5) with 32. change (2 ^ 8) with 256.
  destruct (Z.ltb_spec (dir - 1) 32), (Z.ltb_spec dir 33); try lia.
  destruct (Z.ltb_spec (dir - 1) 256), (Z.ltb_spec dir 257); lia.
Qed.

(** Every number below the width of some form is the meaning of a raw director
    of the form [serializeDirector] chooses for it. *)
Lemma serializeDirector_choice s dir :
  scheme_ok s -> 0 <= dir < 2 ^ 31 ->
  EncodingScheme_serializeDirector s dir (-1) = UINT64_MAX \/
  exists j raw, 0 <= j < count s /\ 0 <= raw < 2 ^ bitCount (form_at s j) /\
    dir_of s j raw = dir /\
    EncodingScheme_serializeDirector s dir (-1) = EncodingScheme_serializeDirector s dir j.
Proof.
  intros Hok Hd. unfold EncodingScheme_serializeDirector, dir_of.
  destruct (EncodingScheme_is358 s) eqn:H358; cbn [negb]; change (-1 <? 0) with true; cbv iota.
  - rewrite choice_358 by (done || lia). pose proof (is358_forms s Hok H358) as Hv.
    assert (Hc : count s = 3) by (unfold count; by rewrite Hv).
    assert (Hb : bitCount (form_at s 0) = 3 /\ bitCount (form_at s 1) = 5 /\ bitCount (form_at s 2) = 8)
      by (unfold form_at; by rewrite Hv). destruct Hb as (Hb0 & Hb1 & Hb2). rewrite Hc.
    destruct (Z.ltb_spec dir 8); [|destruct (Z.ltb_spec dir 33);
      [|destruct (Z.ltb_spec dir 257); [|by left]]]; right.
    + exists 0, (dir + (Z.b2z (dir =? 0) - Z.b2z (dir =? 1))). rewrite Hb0. change (2 ^ 3) with 8.
      split; [lia|]. destruct (Z.eqb_spec dir 0) as [->|]; [by repeat split|].
      destruct (Z.eqb_spec dir 1) as [->|]; [by repeat split|]. cbn [Z.b2z].
      split; [lia|]. split; [|done]. destruct (Z.eqb_spec (dir + (0 - 0)) 0); [lia|].
      destruct (Z.eqb_spec (dir + (0 - 0)) 1); [lia|]. simpl. lia.
    + exists 1, (dir - 1). rewrite Hb1. change (2 ^ 5) with 32. split; [lia|]. split; [lia|].
      split; [|done]. simpl. destruct (Z.gtb_spec (dir - 1) 0); simpl; lia.
    + exists 2, (dir - 1). rewrite Hb2. change (2 ^ 8) with 256. split; [lia|]. split; [lia|].
      split; [|done]. simpl. destruct (Z.gtb_spec (dir - 1) 0); simpl; lia.
  - destruct (find_form_spec (fun _ f => Z.shiftr dir (bitCount f) =? 0) (forms s) 0)
      as [(k & Hk & -> & HP)| ->].
    + right. assert (Hj : 0 <= 0 + Z.of_nat k < count s) by (unfold count; lia).
      pose proof (form_at_ok s _ Hok Hj) as Hf. set (j := 0 + Z.of_nat k) in *.
      replace k with (Z.to_nat j) in HP by lia. fold (form_at s j) in HP.
      rewrite shiftr_0_bound in HP by (destruct Hf; lia). apply Z.ltb_lt in HP.
      exists j, (Z.lxor dir (Z.b2z (count s >? 1))). split; [done|]. split.
      * destruct (count s >? 1); cbn [Z.b2z]; [|rewrite Z.lxor_0_r; lia].
        apply lxor_1_bound; [destruct Hf; lia|lia].
      * rewrite Z.lxor_assoc, Z.lxor_nilpotent, Z.lxor_0_r. split; [done|].
        by destruct (Z.ltb_spec j 0); [lia|].
    + left. destruct (Z.geb_spec (0 + len (forms s)) (count s)); [done|unfold count in *; lia].
Qed.

(** *** The serialized scheme as one little-endian number *)

Definition form_width (f : EncodingScheme_Form) : Z := 10 + prefixLen f.
Definition form_code (f : EncodingScheme_Form) : Z :=
  prefixLen f + 2 ^ 5 * (bitCount f + 2 ^ 5 * prefix f).

Fixpoint scheme_width (fs : list EncodingScheme_Form) : Z :=
  match fs with [] => 0 | f :: fs => form_width f + scheme_width fs end.
Fixpoint scheme_code (fs : list EncodingScheme_Form) : Z :=
  match fs with [] => 0 | f :: fs => form_code f + 2 ^ form_width f * scheme_code fs end.

Lemma form_code_bound f : form_ok f -> 0 <= form_code f < 2 ^ form_width f.
Proof.
  intros [Hl Hb _ Hp]. unfold form_code, form_width. rewrite Z.pow_add_r by lia.
  change (2 ^ 5) with 32. change (2 ^ 10) with 1024. lia.
Qed.

Lemma scheme_width_bound fs :
  Forall form_ok fs -> 10 * len fs <= scheme_width fs <= 41 * len fs.
Proof.
  induction 1 as [|f fs [Hl _ _ _] _ IH]; simpl; [lia|]. unfold form_width. lia.
Qed.

Lemma scheme_code_nonneg fs : Forall form_ok fs -> 0 <= scheme_code fs.
Proof.
  induction 1 as [|f fs Hf _ IH]; simpl; [lia|]. pose proof (form_code_bound f Hf). nia.
Qed.

Lemma encodeForm_spec f block bits :
  form_ok f -> 0 <= bits <= 8 -> 0 <= block < 2 ^ bits ->
  encodeForm f block bits = Ret (block + 2 ^ bits * form_code f, form_width f).
Proof.
  intros [Hl Hb _ Hp] Hbits Hblock. unfold encodeForm.
  assert (Hpl : 2 ^ prefixLen f <= 2 ^ 31) by (apply Z.pow_le_mono_r; lia).
  assert (Hbits8 : 2 ^ bits <= 2 ^ 8) by (apply Z.pow_le_mono_r; lia).
  rewrite Bits_maxBits64_ret by lia. cbn [mbind Er_bind]. rewrite !Z.land_ones by lia.
  assert (Hor : forall d v b w, 0 <= b -> 0 <= d < 2 ^ b -> 0 <= v < 2 ^ w -> 0 <= w -> b + w <= 64 ->
     Z.lor d (u64 (Z.shiftl (v mod 2 ^ w) b)) = d + 2 ^ b * v).
  { intros d v b w H1 H2 H3 H4 H5. rewrite (Z.mod_small v) by done.
    assert (Hw : 2 ^ w * 2 ^ b <= 2 ^ 64)
      by (rewrite <- Z.pow_add_r by lia; apply Z.pow_le_mono_r; lia).
    unfold u64. rewrite Z.mod_small by (rewrite Z.shiftl_mul_pow2 by lia; nia).
    rewrite lor_shiftl_add by done. lia. }
  assert (P5 : 2 ^ (bits + 5) = 2 ^ bits * 32) by (by rewrite Z.pow_add_r by lia).
  assert (P10 : 2 ^ (bits + 5 + 5) = 2 ^ bits * 32 * 32)
    by (rewrite Z.pow_add_r, P5 by lia; reflexivity).
  assert (A1 : 0 <= block + 2 ^ bits * prefixLen f < 2 ^ bits * 32) by nia.
  assert (A2 : 0 <= block + 2 ^ bits * prefixLen f + 2 ^ bits * 32 * bitCount f
               < 2 ^ bits * 32 * 32) by nia.
  rewrite (Hor block (prefixLen f) bits 5) by lia.
  rewrite (Hor _ (bitCount f) (bits + 5) 5) by (rewrite ?P5; lia).
  rewrite (Hor _ (prefix f) (bits + 5 + 5) (prefixLen f)) by (rewrite ?P10, ?P5; lia).
  unfold form_code, form_width. rewrite P10, P5. change (2 ^ 5) with 32. do 2 f_equal. ring.
Qed.

(** What a writer state [(out, bits, block)] stands for: a number and its
    width. *)
Definition written (out : list Z) (bits block : Z) : Z := le_val out + 2 ^ (8 * len out) * block.

Lemma flush_loop_spec fuel cap out bits block :
  bits <= 8 + 8 * Z.of_nat fuel -> 0 <= bits -> 0 <= block < 2 ^ bits -> bytes out ->
  8 * len out + bits <= 8 * cap ->
  exists out' bits' block',
    flush_loop fuel cap out bits block = Ret (out', bits', block') /\
    bytes out' /\ 0 <= bits' <= 8 /\ (0 < bits -> 0 < bits') /\ 0 <= block' < 2 ^ bits' /\
    8 * len out' + bits' = 8 * len out + bits /\
    written out' bits' block' = written out bits block.
Proof.
  revert out bits block. induction fuel as [|fuel IH]; intros out bits block Hf H0 Hb Ho Hcap;
    cbn [flush_loop]; [by exists out, bits, block; repeat split; try lia|].
  destruct (Z.gtb_spec bits 8) as [Hgt|]; [|by exists out, bits, block; repeat split; try lia].
  rewrite (proj2 (Z.ltb_lt (len out) cap)) by lia. cbn [Assert_true mbind Er_bind].
  assert (Hp : 2 ^ bits = 2 ^ 8 * 2 ^ (bits - 8)) by (rewrite <- Z.pow_add_r by lia; f_equal; lia).
  change 0xff with (Z.ones 8). rewrite Z.land_ones, Z.shiftr_div_pow2 by lia.
  change (2 ^ 8) with 256 in *.
  destruct (IH (out ++ [block mod 256]) (bits - 8) (block / 256))
    as (out' & bits' & block' & -> & Hout & Hb' & Hpos & Hbl & Hlen & Hw).
  - lia.
  - lia.
  - split; [apply Z.div_pos; lia|]. apply Z.div_lt_upper_bound; lia.
  - apply bytes_app. split; [done|]. constructor; [|done]. apply (fits_mod 8). lia.
  - rewrite length_app. simpl. lia.
  - exists out', bits', block'. rewrite length_app in Hlen. simpl in Hlen.
    repeat (split; [done || lia|]). rewrite Hw. unfold written.
    rewrite le_val_app, length_app, Nat2Z.inj_add, Z.mul_add_distr_l, Z.pow_add_r by lia.
    simpl le_val. change (2 ^ (8 * len [block mod 256])) with 256.
    rewrite (Z.div_mod block 256) at 3 by lia. ring.
Qed.

Lemma serialize_loop_spec fs cap : forall out bits block,
  Forall form_ok fs -> bytes out -> 0 <= bits <= 8 -> 0 <= block < 2 ^ bits ->
  8 * len out + bits + scheme_width fs <= 8 * cap ->
  exists out' bits' block',
    serialize_loop fs cap out bits block = Ret (out', bits', block') /\
    bytes out' /\ 0 <= bits' <= 8 /\ 0 <= block' < 2 ^ bits' /\
    8 * len out' + bits' = 8 * len out + bits + scheme_width fs /\
    written out' bits' block' = written out bits (block + 2 ^ bits * scheme_code fs).
Proof.
  induction fs as [|f fs IH]; intros out bits block Hf Ho Hb Hbl Hcap.
  - exists out, bits, block. cbn. repeat (split; [done || lia|]). f_equal. lia.
  - apply Forall_cons in Hf as [Hf Hfs]. cbn [serialize_loop scheme_width scheme_code] in *.
    rewrite encodeForm_spec by done. cbn [mbind Er_bind].
    pose proof (form_code_bound f Hf) as Hc. pose proof (scheme_width_bound fs Hfs) as Hw.
    assert (Hfw : 10 <= form_width f <= 41) by (destruct Hf; unfold form_width; lia).
    assert (Hnew : 0 <= block + 2 ^ bits * form_code f < 2 ^ (bits + form_width f)).
    { rewrite Z.pow_add_r by lia. assert (0 < 2 ^ bits) by lia. nia. }
    destruct (flush_loop_spec 8 cap out (bits + form_width f) (block + 2 ^ bits * form_code f))
      as (out1 & bits1 & block1 & -> & Ho1 & Hb1 & _ & Hbl1 & Hlen1 & Hw1); [lia|lia|done|done|lia|].
    cbn [mbind Er_bind].
    destruct (IH out1 bits1 block1 Hfs Ho1 Hb1 Hbl1)
      as (out2 & bits2 & block2 & -> & Ho2 & Hb2 & Hbl2 & Hlen2 & Hw2); [lia|].
    exists out2, bits2, block2. repeat (split; [done || lia|]). rewrite Hw2.
    unfold written in *. rewrite Z.mul_add_distr_l, Z.add_assoc, Hw1.
    rewrite (Z.mul_assoc (2 ^ (8 * len out1))), <- Z.pow_add_r, Hlen1 by lia.
    rewrite !Z.pow_add_r by lia. ring.
Qed.

(** Loading keeps the number still to be decoded and its width, and stops with
    56 bits at hand or with all of the data loaded. *)
Lemma load_loop_spec data : forall bits block,
  bytes data -> 0 <= bits < 64 -> 0 <= block < 2 ^ bits ->
  let '(data', bits', block') := load_loop data bits block in
  bytes data' /\ bits <= bits' < 64 /\ 0 <= block' < 2 ^ bits' /\
  (56 <= bits' \/ data' = []) /\ bits' + 8 * len data' = bits + 8 * len data /\
  block' + 2 ^ bits' * le_val data' = block + 2 ^ bits * le_val data.
Proof.
  induction data as [|b data IH]; intros bits block Hd Hb Hbl; cbn [load_loop].
  { split_and!; (done || lia || by right). }
  apply Forall_cons in Hd as [Hbyte Hd].
  destruct (Z.ltb_spec bits 56) as [Hlt|Hge].
  2: { split_and!; (done || lia || (by left) || by constructor). }
  change 0xff with (Z.ones 8). rewrite Z.land_ones, (Z.mod_small b) by (done || lia).
  unfold fits in Hbyte. change (2 ^ 8) with 256 in Hbyte.
  assert (Hp : 2 ^ (bits + 8) = 2 ^ bits * 256) by (by rewrite Z.pow_add_r by lia).
  assert (Hp64 : 2 ^ bits * 256 <= 2 ^ 64)
    by (rewrite <- Hp; apply Z.pow_le_mono_r; lia).
  assert (He : Z.lor block (u64 (Z.shiftl b bits)) = block + b * 2 ^ bits).
  { unfold u64. rewrite Z.mod_small by (rewrite Z.shiftl_mul_pow2 by lia; nia).
    apply lor_shiftl_add; [lia|done]. }
  rewrite He. specialize (IH (bits + 8) (block + b * 2 ^ bits) Hd).
  destruct (load_loop data (bits + 8) _) as [[data' bits'] block'].
  destruct IH as (H1 & H2 & H3 & H4 & H5 & H6); [lia|nia|].
  split; [done|]. split; [lia|]. split; [done|]. split; [done|].
  cbn [length le_val]. split; [lia|]. rewrite H6, Hp. ring.
Qed.

Lemma decodeForm_code f q :
  form_ok f -> 0 <= q ->
  decodeForm (form_code f + 2 ^ form_width f * q) = (f, form_width f).
Proof.
  intros [Hl Hb _ Hp] Hq. unfold decodeForm. rewrite !Z.land_ones by (lia || auto).
  unfold form_code, form_width. rewrite Z.pow_add_r by lia.
  set (P := 2 ^ prefixLen f) in *. change (2 ^ 10) with (32 * 32). change (2 ^ 5) with 32.
  replace (prefixLen f + 32 * (bitCount f + 32 * prefix f) + 32 * 32 * P * q)
    with (prefixLen f + (bitCount f + (prefix f + q * P) * 32) * 32) by ring.
  rewrite Z.mod_add, (Z.mod_small (prefixLen f)) by lia.
  rewrite Z.shiftr_div_pow2 by lia. change (2 ^ 5) with 32.
  rewrite Z.div_add, (Z.div_small (prefixLen f)), Z.add_0_l by lia.
  rewrite Z.mod_add, (Z.mod_small (bitCount f)) by lia.
  destruct (Z.ltb_spec (bitCount f) 1); [lia|].
  rewrite Z.shiftr_div_pow2 by lia. change (2 ^ 5) with 32.
  rewrite Z.div_add, (Z.div_small (bitCount f)), Z.add_0_l by lia.
  rewrite Z.land_ones by lia. fold P. rewrite Z.mod_add, Z.mod_small by lia. by destruct f.
Qed.

(** Whatever is decoded respects the invariant of the forms. *)
Lemma decodeForm_ok d f n :
  0 <= d -> decodeForm d = (f, n) -> n = 0 \/
  (n = form_width f /\ 10 <= n <= 41 /\
   (0 <= bitCount f /\ 0 <= prefixLen f < 32) /\ 0 <= prefix f < 2 ^ prefixLen f).
Proof.
  intros Hd. unfold decodeForm, form_width.
  pose proof (land_ones_bound d 5 ltac:(lia)) as H1.
  pose proof (land_ones_bound (Z.shiftr d 5) 5 ltac:(lia)) as H2. change (2 ^ 5) with 32 in *.
  destruct (Z.ltb_spec (Z.land (Z.shiftr d 5) (Z.ones 5)) 1).
  - intros [= <- <-]. by left.
  - intros [= <- <-]. right. cbn [prefixLen bitCount prefix].
    pose proof (land_ones_bound (Z.shiftr (Z.shiftr d 5) 5) (Z.land d (Z.ones 5)) ltac:(lia)). lia.
Qed.

Lemma deserialize_loop_code fs : forall fuel data bits block out,
  Forall form_ok fs -> bytes data -> 0 <= bits < 64 -> 0 <= block < 2 ^ bits ->
  (length fs < fuel)%nat ->
  block + 2 ^ bits * le_val data = scheme_code fs ->
  scheme_width fs <= bits + 8 * len data < scheme_width fs + 8 ->
  deserialize_loop fuel data bits block out = Ret (Some (out ++ fs)).
Proof.
  induction fs as [|f fs IH]; intros fuel data bits block out Hf Hd Hb Hbl Hfuel Hcode Hw;
    (destruct fuel as [|fuel]; [simpl in Hfuel; lia|]); cbn [deserialize_loop];
    pose proof (load_loop_spec data bits block Hd Hb Hbl) as Hload;
    destruct (load_loop data bits block) as [[data' bits'] block'];
    destruct Hload as (Hd' & Hb' & Hbl' & Hfull & Hlen & Hval);
    cbn [scheme_code scheme_width length] in *.
  - assert (data' = []) as ->.
    { destruct Hfull as [?|?]; [|done]. destruct data'; [done|]. simpl length in Hlen. lia. }
    simpl in Hval. replace block' with 0 by lia.
    change (decodeForm 0) with (mkForm 0 0 0, 0). cbn [Z.eqb orb].
    destruct (Z.ltb_spec (bits' - 0) 0); [lia|]. simpl. by rewrite app_nil_r.
  - apply Forall_cons in Hf as [Hf Hfs].
    pose proof (form_code_bound f Hf) as Hc. pose proof (scheme_width_bound fs Hfs) as Hwb.
    pose proof (scheme_code_nonneg fs Hfs) as Hcn.
    assert (Hfw : 10 <= form_width f <= 41) by (destruct Hf; unfold form_width; lia).
    assert (Hfit : form_width f <= bits').
    { destruct Hfull as [?| ->]; [lia|]. simpl in Hlen. lia. }
    (* the low bits of the block are the form, the rest is the number of the others *)
    set (q := block' / 2 ^ form_width f).
    assert (Hpw : 2 ^ bits' = 2 ^ form_width f * 2 ^ (bits' - form_width f))
      by (rewrite <- Z.pow_add_r by lia; f_equal; lia).
    assert (Hmod : block' mod 2 ^ form_width f = form_code f).
    { rewrite <- (Z.mod_small (form_code f) (2 ^ form_width f)) by done.
      replace (form_code f) with (block' + (2 ^ (bits' - form_width f) * le_val data'
        - scheme_code fs) * 2 ^ form_width f) by nia.
      by rewrite Z.mod_add by lia. }
    assert (Hblock : block' = form_code f + 2 ^ form_width f * q)
      by (pose proof (Z.div_mod block' (2 ^ form_width f)); subst q; lia).
    assert (Hq : 0 <= q) by (apply Z.div_pos; lia).
    rewrite Hblock at 1. rewrite decodeForm_code by done.
    destruct (Z.eqb_spec (form_width f) 0); [lia|].
    destruct (Z.ltb_spec (bits' - form_width f) 0); [lia|]. cbn [orb].
    rewrite shiftr_0_bound by (destruct Hf; lia).
    rewrite (proj2 (Z.ltb_lt _ _)) by (destruct Hf; lia). cbn [Assert_true mbind Er_bind].
    rewrite Z.shiftr_div_pow2 by lia. fold q. rewrite (app_assoc out [f] fs : _ ++ f :: fs = _).
    apply IH; [done|done|lia| |lia| |lia].
    + split; [done|]. subst q. apply Z.div_lt_upper_bound; lia.
    + nia.
Qed.

Lemma deserialize_loop_total : forall fuel data bits block out,
  bytes data -> 0 <= bits < 64 -> 0 <= block < 2 ^ bits ->
  bits + 8 * len data < Z.of_nat fuel ->
  Forall (fun f => (0 <= bitCount f /\ 0 <= prefixLen f) /\ 0 <= prefix f < 2 ^ prefixLen f) out ->
  exists r, deserialize_loop fuel data bits block out = Ret r /\
    forall fs, r = Some fs ->
      Forall (fun f => (0 <= bitCount f /\ 0 <= prefixLen f) /\ 0 <= prefix f < 2 ^ prefixLen f) fs.
Proof.
  induction fuel as [|fuel IH]; intros data bits block out Hd Hb Hbl Hfuel Ho; [lia|].
  cbn [deserialize_loop]. pose proof (load_loop_spec data bits block Hd Hb Hbl) as Hload.
  destruct (load_loop data bits block) as [[data' bits'] block'].
  destruct Hload as (Hd' & Hb' & Hbl' & _ & Hlen & _).
  destruct (decodeForm block') as [next ret] eqn:Hdec.
  apply decodeForm_ok in Hdec; [|lia].
  destruct (Z.eqb_spec ret 0) as [->|Hret]; cbn [orb].
  { destruct (_ || _); eexists; (split; [done|]); intros ? [=]; by subst. }
  destruct Hdec as [?|(-> & Hr & Hu & Hp)]; [done|].
  destruct (Z.ltb_spec (bits' - form_width next) 0) as [Hneg|Hpos]; cbn [orb].
  { rewrite !orb_true_r. eexists. split; [done|]. by intros ? [=]. }
  rewrite shiftr_0_bound by lia. rewrite (proj2 (Z.ltb_lt _ _)) by lia.
  cbn [Assert_true mbind Er_bind]. apply IH; [done|lia| |lia|].
  - rewrite Z.shiftr_div_pow2 by lia. split; [apply Z.div_pos; lia|].
    apply Z.div_lt_upper_bound; [lia|]. rewrite <- Z.pow_add_r by lia.
    replace (form_width next + (bits' - form_width next)) with bits' by lia. lia.
  - apply Forall_app. split; [done|]. constructor; [|done]. split; [lia|done].
Qed.

(** ** Properties *)

(** The 3-5-8 scheme of the running switch, and a scheme of two forms. *)
Definition scheme_358 : EncodingScheme := mkScheme v358.
Definition scheme_48 : EncodingScheme := mkScheme [mkForm 4 1 1; mkForm 8 1 0].

Lemma scheme_358_ok : scheme_ok scheme_358.
Proof.
  split; [reflexivity|..]; unfold scheme_358, v358; cbn [forms]; change (Z.shiftl 1 1) with 2;
    repeat constructor; cbn; lia.
Qed.

(** [C29] Converting the first director of a label to another form never stops
    the process, and decides exactly.  A label it returns goes the same way: the same
    interface, the same remaining path, in the form that was asked for (a form
    at most as wide as the old one when the canonical form was asked for).  Whenever
    the label has a conversion to the form that was asked for, with the same interface and
    path, within 60 bits and not mistaken for the self-route, that is what is returned:
    INVALID means that there is none.  The self-route stays what it is when form 0 or
    the canonical form is asked for.  In the 3-5-8 scheme of the switch the canonical
    form of a label of at most 60 bits always exists; in other schemes the
    canonical form can be missed ([canonical_form_lost]), although EncodingScheme.h
    allows INVALID only when the conversion is impossible. *)
Theorem convertLabel_keeps_route s label convertTo :
  scheme_ok s -> fits 64 label ->
  exists l', EncodingScheme_convertLabel s label convertTo = Ret l' /\
    (l' <> EncodingScheme_convertLabel_INVALID ->
     exists i j, 0 <= i < count s /\ 0 <= j < count s /\
       EncodingScheme_getFormNum s label = Ret i /\ EncodingScheme_getFormNum s l' = Ret j /\
       EncodingScheme_parseDirector s l' = EncodingScheme_parseDirector s label /\
       Z.shiftr l' (EncodingScheme_formSize (form_at s j)) =
       Z.shiftr label (EncodingScheme_formSize (form_at s i)) /\
       (l' = label \/ j = convertTo \/
        convertTo = EncodingScheme_convertLabel_convertTo_CANNONICAL /\ j <= i)) /\
    (forall i l, converts s label i l convertTo -> l' = l) /\
    (forall i, 0 <= i < count s -> EncodingScheme_getFormNum s label = Ret i -> self_route s i label ->
       convertTo = 0 \/ convertTo = EncodingScheme_convertLabel_convertTo_CANNONICAL -> l' = label) /\
    (forall i, 0 <= i < count s -> EncodingScheme_getFormNum s label = Ret i -> ~ self_route s i label ->
       EncodingScheme_is358 s = true -> convertTo = EncodingScheme_convertLabel_convertTo_CANNONICAL ->
       Z.log2 (Z.shiftr label (EncodingScheme_formSize (form_at s i))) + EncodingScheme_formSize (form_at s i) <= 59 ->
       l' <> EncodingScheme_convertLabel_INVALID).
Proof.
  intros Hok Hl. destruct (convertLabel_spec s label convertTo Hok Hl) as (l' & He & Hc).
  exists l'. split; [done|]. split; [|split_and!].
  - intros Hv. by apply (converted_label s label convertTo l').
  - intros i l Hcv. pose proof (convertLabel_complete s label i l convertTo Hok Hl Hcv) as Hx. congruence.
  - intros i Hi Hf Hs Hto. pose proof (convertLabel_self s label i convertTo Hok Hi Hf Hs Hto). congruence.
  - intros i Hi Hf Hs H358 -> Hroom. pose proof (form_at_ok s i Hok Hi) as Fi.
    apply getFormNum_ret_matches in Hf; [|done..]. destruct (label_parts s label i Hok Hi Hf) as (raw & Hr & E).
    set (rest := Z.shiftr label _) in *.
    assert (Hrf : fits 64 rest)
      by (apply fits_shiftr_same; [unfold EncodingScheme_formSize; destruct Fi; lia|done]).
    rewrite E in He, Hs. destruct (convertLabel_canonical_358 s i raw rest Hok H358 Hi Hr Hrf Hroom Hs)
      as (k & raw' & Hr' & Hk & E' & Hsz). rewrite E' in He. injection He as <-.
    apply mkLabel_valid; [by apply form_at_ok|done|apply Hrf|done].
Qed.

(** Interface 6 in form 0, converted to form 2 (ten bits instead of four): the label
    0x4c14 of the same path, which is the only one. *)
Lemma convertLabel_keeps_route_witness :
  converts scheme_358 0x13d 0 0x4c14 2 /\
  exists l', EncodingScheme_convertLabel scheme_358 0x13d 2 = Ret l' /\ l' = 0x4c14 /\
    EncodingScheme_parseDirector scheme_358 l' = EncodingScheme_parseDirector scheme_358 0x13d.
Proof.
  assert (converts scheme_358 0x13d 0 0x4c14 2) as Hc.
  { split; try (by vm_compute); try (by unfold self_route; vm_compute). }
  split; [exact Hc|].
  destruct (convertLabel_keeps_route scheme_358 0x13d 2 scheme_358_ok ltac:(split; vm_compute; congruence))
    as (l' & E & H1 & H2 & _).
  exists l'. split; [exact E|]. pose proof (H2 0 0x4c14 Hc) as ->. split; [done|]. by vm_compute.
Defined.

(** Director numbers survive the label: a number serialized in the form the
    scheme chooses for it is parsed back, whatever path follows it in the
    label; and the director of a label, serialized in the label's own form,
    gives the label's first hop again. *)
Theorem director_roundtrip s dir rest label :
  scheme_ok s -> Forall (fun f => EncodingScheme_formSize f <= 32) (forms s) ->
  0 <= dir < 2 ^ 31 ->
  let w := EncodingScheme_serializeDirector s dir (-1) in
  (w = UINT64_MAX \/
   exists j, 0 <= j < count s /\
     EncodingScheme_parseDirector s (w + rest * 2 ^ EncodingScheme_formSize (form_at s j)) = Ret dir) /\
  (EncodingScheme_parseDirector s label = Ret dir ->
   exists i, EncodingScheme_getFormNum s label = Ret i /\
     EncodingScheme_serializeDirector s dir i =
     label mod 2 ^ EncodingScheme_formSize (form_at s i)).
Proof.
  intros Hok Hsz Hd w. rewrite Forall_forall in Hsz.
  assert (Hs32 : forall j, 0 <= j < count s -> EncodingScheme_formSize (form_at s j) <= 32)
    by (intros j Hj; apply Hsz, list_elem_of_In, form_at_in, Hj). split.
  - destruct (serializeDirector_choice s dir Hok Hd) as [?|(j & raw & Hj & Hr & <- & Hw)]; [by left|].
    right. exists j. split; [done|]. subst w. rewrite Hw, serializeDirector_form by auto.
    rewrite <- (parseDirector_mkLabel s j raw rest) by done. f_equal.
    unfold mkLabel, EncodingScheme_formSize. pose proof (form_at_ok s j Hok Hj) as [].
    rewrite Z.pow_add_r by lia. ring.
  - intros Hp. destruct (getFormNum_spec s label Hok) as [(i & Hi & He & Hm)|[He _]].
    2: { unfold EncodingScheme_parseDirector in Hp. rewrite He in Hp. simpl in Hp.
         injection Hp as <-. unfold EncodingScheme_parseDirector_INVALID in Hd. lia. }
    exists i. split; [done|]. pose proof (form_at_ok s i Hok Hi) as Hf.
    pose proof (mkLabel_eta _ label Hf Hm) as Heta.
    set (raw := Z.land _ _) in Heta. set (rest' := Z.shiftr _ _) in Heta.
    assert (Hr : 0 <= raw < 2 ^ bitCount (form_at s i))
      by (apply land_ones_bound; destruct Hf; lia).
    rewrite Heta, parseDirector_mkLabel in Hp by done. injection Hp as <-.
    rewrite serializeDirector_form by auto. rewrite Heta.
    unfold EncodingScheme_formSize. rewrite Z.add_comm, <- Z.land_ones by (destruct Hf; lia).
    rewrite self_label by done. unfold mkLabel. ring.
Qed.

Lemma director_roundtrip_witness :
  (EncodingScheme_serializeDirector scheme_358 40 (-1) = UINT64_MAX \/
   exists j, 0 <= j < 3 /\
     EncodingScheme_parseDirector scheme_358
       (EncodingScheme_serializeDirector scheme_358 40 (-1)
        + 0x15 * 2 ^ EncodingScheme_formSize (form_at scheme_358 j)) = Ret 40) /\
  (EncodingScheme_parseDirector scheme_358 0x549c = Ret 40 ->
   exists i, EncodingScheme_getFormNum scheme_358 0x549c = Ret i /\
     EncodingScheme_serializeDirector scheme_358 40 i =
     0x549c mod 2 ^ EncodingScheme_formSize (form_at scheme_358 i)).
Proof.
  refine (director_roundtrip scheme_358 40 0x15 0x549c scheme_358_ok _ _); [|lia].
  repeat constructor; vm_compute; congruence.
Defined.

(** A scheme sent to another node is understood there: deserializing what
    was serialized gives the scheme back, and serializing never runs into its
    bounds assertion. *)
Theorem scheme_serialize_roundtrip s :
  scheme_ok s ->
  exists data, EncodingScheme_serialize s = Ret data /\ bytes data /\
    EncodingScheme_deserialize data = Ret (Some s).
Proof.
  intros Hok. pose proof (scheme_ok_forms s Hok) as Hf. pose proof (scheme_width_bound _ Hf) as Hw.
  unfold EncodingScheme_serialize. rewrite (so_sane s Hok). cbn [Assert_true mbind Er_bind].
  destruct (serialize_loop_spec (forms s) (count s * 6) [] 0 0 Hf)
    as (out & bits & block & -> & Ho & Hb & Hbl & Hlen & Hval); [done|lia|lia| |].
  { unfold count. simpl. lia. }
  cbn [mbind Er_bind]. set (data := if bits >? 0 then _ else _).
  assert (H8 : 2 ^ bits <= 2 ^ 8) by (apply Z.pow_le_mono_r; lia).
  assert (Hdata : bytes data /\ le_val data = scheme_code (forms s) /\
                  scheme_width (forms s) <= 8 * len data < scheme_width (forms s) + 8).
  { unfold written in Hval. simpl in Hval, Hlen. subst data.
    destruct (Z.gtb_spec bits 0) as [Hp|Hz].
    - change 0xff with (Z.ones 8). rewrite Z.land_ones, Z.mod_small by lia. split_and!.
      + apply bytes_app. split; [done|]. by repeat constructor; unfold fits; lia.
      + rewrite le_val_app. simpl le_val. lia.
      + rewrite length_app. simpl. lia.
      + rewrite length_app. simpl. lia.
    - replace bits with 0 in * by lia. simpl in Hbl. replace block with 0 in * by lia.
      split_and!; (done || lia). }
  destruct Hdata as (Hbytes & Hcode & Hwidth). exists data. split; [done|]. split; [done|].
  unfold EncodingScheme_deserialize.
  rewrite (deserialize_loop_code (forms s)) by (done || (simpl; lia) || lia). simpl.
  destruct s as [fs]. simpl in *. by rewrite (so_sane _ Hok).
Qed.

Lemma scheme_serialize_roundtrip_witness :
  exists data, EncodingScheme_serialize scheme_358 = Ret data /\ bytes data /\
    EncodingScheme_deserialize data = Ret (Some scheme_358).
Proof. exact (scheme_serialize_roundtrip scheme_358 scheme_358_ok). Defined.

(** Reading a scheme from arbitrary bytes always terminates without a failed
    assertion, and a scheme which is accepted satisfies the invariant that the
    label operations rely on. *)
Theorem scheme_deserialize_total data :
  bytes data ->
  exists r, EncodingScheme_deserialize data = Ret r /\
    match r with Some s => scheme_ok s | None => True end.
Proof.
  intros Hd. unfold EncodingScheme_deserialize.
  destruct (deserialize_loop_total (S (8 * length data)) data 0 0 [] Hd) as (r & -> & Hr);
    [lia|simpl; lia|lia|done|]. cbn [mbind Er_bind]. eexists. split; [done|].
  destruct r as [fs|]; [|done]. destruct (EncodingScheme_isSane (mkScheme fs)) eqn:Hs; [|done].
  specialize (Hr fs eq_refl). rewrite Forall_forall in Hr.
  split; [done|..]; apply Forall_forall; intros f Hf; by apply Hr.
Qed.

Lemma scheme_deserialize_total_witness :
  exists r, EncodingScheme_deserialize [0x61; 0x04; 0x98; 0x10; 0x82; 0] = Ret r /\
    match r with Some s => scheme_ok s | None => True end.
Proof.
  exact (scheme_deserialize_total [0x61; 0x04; 0x98; 0x10; 0x82; 0]
           ltac:(repeat constructor; vm_compute; congruence)).
Defined.

(** *** Limits of the code *)

(** The canonical form of a label is looked for with the extra slot of the
    3-5-8 scheme in mind, in every scheme: director 8 of this scheme is sent to
    a form of three bits, does not fit, and the label counts as invalid. *)
Example canonical_form_lost :
  let s := mkScheme [mkForm 3 1 0; mkForm 8 1 1] in
  let label := mkLabel (mkForm 8 1 1) 8 5 in
  EncodingScheme_isSane s = true /\
  EncodingScheme_convertLabel s label 1 = Ret label /\
  EncodingScheme_convertLabel s label EncodingScheme_convertLabel_convertTo_CANNONICAL
  = Ret EncodingScheme_convertLabel_INVALID.
Proof. vm_compute. auto. Qed.

(** A first hop of more than 32 bits is truncated: the number is not parsed
    back. *)
Example serializeDirector_truncated :
  let s := mkScheme [mkForm 3 1 1; mkForm 31 2 2] in
  EncodingScheme_isSane s = true /\
  EncodingScheme_parseDirector s (EncodingScheme_serializeDirector s (2 ^ 30 + 4) (-1)) = Ret 4.
Proof. vm_compute. auto. Qed.

(** Prefixes with bits above their declared length make [EncodingScheme_isSane]
    overlook that two forms cannot be told apart. *)
Example isSane_overlooks_long_prefix :
  let s := mkScheme [mkForm 3 1 3; mkForm 8 1 5] in
  EncodingScheme_isSane s = true /\
  forall label, EncodingScheme_getFormNum s label <> Ret 1.
Proof.
  split; [reflexivity|]. intros label. unfold EncodingScheme_getFormNum, count.
  cbn -[Z.shiftl Z.lxor u32 Z.eqb]. change (Z.of_nat 2 =? 1) with false.
  change (32 - 1) with 31. cbv iota.
  replace (u32 (Z.shiftl (Z.lxor 5 (u32 label)) 31)) with (u32 (Z.shiftl (Z.lxor 3 (u32 label)) 31)).
  { unfold EncodingScheme_getFormNum_INVALID. destruct (0 =? _); discriminate. }
  apply Z.bits_inj'. intros i Hi. unfold u32. rewrite !Z.testbit_mod_pow2, !Z.shiftl_spec by lia.
  destruct (Z.ltb_spec i 32); cbn [andb]; [|done]. rewrite !Z.lxor_spec. f_equal.
  destruct (decide (i - 31 < 0)); [by rewrite !Z.testbit_neg_r by lia|].
  by replace (i - 31) with 0 by lia.
Qed.
