(* ===== verification/NumberCompress.v ===== *)
(** * switch/NumberCompress.h: interface numbers of the running switch

    The hand-written encoders of the four supported schemes.  The switch is
    built with [NumberCompress_TYPE] v3x5x8; [v3x5x8_is_scheme_358] identifies
    that encoder with the table-driven one of [EncodingScheme]. *)
From S2P Require Import Prelude Bits EncodingScheme.

(** ** Definitions *)

Definition NumberCompress_f4_INTERFACES : Z := 16.
Definition NumberCompress_f4_defineScheme : Er EncodingScheme :=
  EncodingScheme_defineFixedWidthScheme 4.
Definition NumberCompress_f4_bitsUsedForLabel (label : Z) : Z := 4.
Definition NumberCompress_f4_bitsUsedForNumber (number : Z) : Er Z :=
  Assert_true (number <? 16);; Ret 4.
Definition NumberCompress_f4_getCompressed (number bitsUsed : Z) : Er Z :=
  Assert_true (number <? 16);; Ret number.
Definition NumberCompress_f4_getDecompressed (label bitsUsed : Z) : Z := Z.land label 0xf.

Definition NumberCompress_f8_INTERFACES : Z := 256.
Definition NumberCompress_f8_defineScheme : Er EncodingScheme :=
  EncodingScheme_defineFixedWidthScheme 8.
Definition NumberCompress_f8_bitsUsedForLabel (label : Z) : Z := 8.
Definition NumberCompress_f8_bitsUsedForNumber (number : Z) : Er Z :=
  Assert_true (number <? 256);; Ret 8.
Definition NumberCompress_f8_getCompressed (number bitsUsed : Z) : Er Z :=
  Assert_true (number <? 256);; Ret number.
Definition NumberCompress_f8_getDecompressed (label bitsUsed : Z) : Z := Z.land label 0xff.

Definition NumberCompress_v3x5x8_INTERFACES : Z := 257.
Definition NumberCompress_v3x5x8_defineScheme : Er EncodingScheme :=
  EncodingScheme_defineDynWidthScheme
    [mkForm 3 1 1; mkForm 5 2 (Z.shiftl 1 1); mkForm 8 2 0].

Definition NumberCompress_v3x5x8_bitsUsedForLabel (label : Z) : Z :=
  if negb (0 =? Z.land label 0x1) then 4
  else if negb (0 =? Z.land label 0x2) then 7
  else 10.

Definition NumberCompress_v3x5x8_bitsUsedForNumber (number : Z) : Z :=
  if number <? 8 then 4 else if number <? 33 then 7 else 10.

(** The shifts are in [uint32_t]. *)
Definition NumberCompress_v3x5x8_getCompressed (number bitsUsed : Z) : Z :=
  if 1 =? number then 1
  else if bitsUsed =? 4 then
    if 0 =? number then 3 else Z.lor (u32 (Z.shiftl number 1)) 1
  else if bitsUsed =? 7 then
    if 0 =? number then 2 else Z.lor (u32 (Z.shiftl (number - 1) 2)) 2
  else if bitsUsed =? 10 then
    if 0 =? number then 0 else u32 (Z.shiftl (number - 1) 2)
  else 0.

Definition NumberCompress_v3x5x8_getDecompressed (label bitsUsed : Z) : Z :=
  if bitsUsed =? 4 then
    let number := Z.land (Z.shiftr label 1) 0x7 in
    if 0 =? number then 1 else if 1 =? number then 0 else number
  else if bitsUsed =? 7 then
    let number := Z.land (Z.shiftr label 2) 0x1f in
    if negb (0 =? number) then number + 1 else number
  else if bitsUsed =? 10 then
    let number := Z.land (Z.shiftr label 2) 0xff in
    if negb (0 =? number) then number + 1 else number
  else 0.

Definition NumberCompress_v4x8_INTERFACES : Z := 256.
Definition NumberCompress_v4x8_defineScheme : Er EncodingScheme :=
  EncodingScheme_defineDynWidthScheme [mkForm 4 1 1; mkForm 8 1 0].

Definition NumberCompress_v4x8_getDecompressed (label bitsUsed : Z) : Z :=
  if Z.land label 0x1f =? 1 then 1
  else if bitsUsed =? 5 then Z.lxor (Z.land (Z.shiftr label 1) 0xf) 1
  else if bitsUsed =? 9 then Z.lxor (Z.land (Z.shiftr label 1) 0xff) 1
  else 0.

Definition NumberCompress_v4x8_getCompressed (number bitsUsed : Z) : Z :=
  if 1 =? number then 1
  else if bitsUsed =? 5 then Z.lxor (u32 (Z.shiftl number 1)) 3
  else if bitsUsed =? 9 then Z.lxor (u32 (Z.shiftl number 1)) 2
  else 0.

Definition NumberCompress_v4x8_bitsUsedForLabel (label : Z) : Z :=
  if negb (Z.land label 1 =? 0) then 5 else 9.

Definition NumberCompress_v4x8_bitsUsedForNumber (number : Z) : Z :=
  if number <? 16 then 5 else 9.

(** [NumberCompress_TYPE] is v3x5x8. *)
Definition NumberCompress_INTERFACES : Z := NumberCompress_v3x5x8_INTERFACES.
Definition NumberCompress_bitsUsedForLabel := NumberCompress_v3x5x8_bitsUsedForLabel.
Definition NumberCompress_bitsUsedForNumber := NumberCompress_v3x5x8_bitsUsedForNumber.
Definition NumberCompress_getCompressed := NumberCompress_v3x5x8_getCompressed.
Definition NumberCompress_getDecompressed := NumberCompress_v3x5x8_getDecompressed.
Definition NumberCompress_decompress (label : Z) : Z :=
  NumberCompress_getDecompressed label (NumberCompress_bitsUsedForLabel label).

Definition NumberCompress_getLabelFor (target whoIsAsking : Z) : Z :=
  let targetBits := NumberCompress_bitsUsedForLabel target in
  let whoIsAskingBits := NumberCompress_bitsUsedForLabel whoIsAsking in
  if targetBits >=? whoIsAskingBits then target
  else
    let targetIfaceNum := NumberCompress_getDecompressed target targetBits in
    Z.lor
      (u64 (Z.shiftl (Z.land target (u64 (Z.shiftl UINT64_MAX targetBits)))
              (whoIsAskingBits - targetBits)))
      (NumberCompress_getCompressed targetIfaceNum whoIsAskingBits).

(** ** Lemmas *)

(** The width read off a label. *)
Definition width_ok (bits : Z) : Prop := bits = 4 \/ bits = 7 \/ bits = 10.

Lemma bitsUsedForLabel_low bits lo rest :
  width_ok bits -> 0 <= lo < 2 ^ bits ->
  NumberCompress_bitsUsedForLabel (lo + 2 ^ bits * rest) = NumberCompress_bitsUsedForLabel lo.
Proof.
  intros Hb Hlo. unfold NumberCompress_bitsUsedForLabel, NumberCompress_v3x5x8_bitsUsedForLabel.
  assert (Hl : forall m n, 0 <= n <= bits -> m = Z.land m (Z.ones n) ->
            Z.land (lo + 2 ^ bits * rest) m = Z.land lo m).
  { intros m n Hn Hm. rewrite Hm, (Z.land_comm m), !Z.land_assoc, !Z.land_ones by lia.
    replace (2 ^ bits) with (2 ^ (bits - n) * 2 ^ n) by (rewrite <- Z.pow_add_r by lia; f_equal; lia).
    replace (lo + _) with (lo + 2 ^ (bits - n) * rest * 2 ^ n) by ring.
    by rewrite Z.mod_add by lia. }
  destruct Hb as [->|[->| ->]]; by rewrite !(Hl _ 2) by (lia || reflexivity).
Qed.

Lemma getDecompressed_low bits lo rest :
  width_ok bits -> 0 <= lo < 2 ^ bits ->
  NumberCompress_getDecompressed (lo + 2 ^ bits * rest) bits = NumberCompress_getDecompressed lo bits.
Proof.
  intros Hb Hlo. unfold NumberCompress_getDecompressed, NumberCompress_v3x5x8_getDecompressed.
  assert (Hs : forall k w, 0 <= k -> 0 <= w -> k + w = bits ->
            Z.land (Z.shiftr (lo + 2 ^ bits * rest) k) (Z.ones w) = Z.land (Z.shiftr lo k) (Z.ones w)).
  { intros k w Hk Hw <-. rewrite !Z.land_ones, !Z.shiftr_div_pow2 by lia. rewrite Z.pow_add_r by lia.
    replace (lo + _) with (lo + 2 ^ w * rest * 2 ^ k) by ring.
    rewrite Z.div_add, (Z.mul_comm (2 ^ w)), Z.mod_add by lia. done. }
  change 0x7 with (Z.ones 3). change 0x1f with (Z.ones 5). change 0xff with (Z.ones 8).
  destruct Hb as [->|[->| ->]]; cbn [Z.eqb Pos.eqb].
  - by rewrite (Hs 1 3) by lia.
  - by rewrite (Hs 2 5) by lia.
  - by rewrite (Hs 2 8) by lia.
Qed.

Definition compress_check (number bits : Z) : bool :=
  let c := NumberCompress_getCompressed number bits in
  (NumberCompress_bitsUsedForLabel c =? bits)
  && (NumberCompress_getDecompressed c bits =? number)
  && (0 <=? c) && (c <? 2 ^ bits).

(** A number in a sufficiently wide form; 1 has only the form of four bits. *)
Lemma compress_ok number bits :
  0 <= number < NumberCompress_INTERFACES -> width_ok bits ->
  NumberCompress_bitsUsedForNumber number <= bits -> (number = 1 -> bits = 4) ->
  let c := NumberCompress_getCompressed number bits in
  NumberCompress_bitsUsedForLabel c = bits /\ NumberCompress_getDecompressed c bits = number /\
  0 <= c < 2 ^ bits.
Proof.
  intros Hn Hb Hw H1.
  assert (Hall : forallb (fun n => forallb (fun b =>
            negb ((NumberCompress_bitsUsedForNumber n <=? b) && (negb (n =? 1) || (b =? 4)))
            || compress_check n b) [4; 7; 10]) (seqZ 0 257) = true) by (vm_compute; reflexivity).
  rewrite forallb_forall in Hall. unfold NumberCompress_INTERFACES, NumberCompress_v3x5x8_INTERFACES in Hn.
  specialize (Hall number ltac:(apply list_elem_of_In, elem_of_seqZ; lia)).
  rewrite forallb_forall in Hall.
  specialize (Hall bits ltac:(destruct Hb as [->|[->| ->]]; simpl; auto)).
  apply orb_true_iff in Hall as [Hall|Hall].
  - apply negb_true_iff, andb_false_iff in Hall as [Hall|Hall].
    + apply Z.leb_gt in Hall. lia.
    + apply orb_false_iff in Hall as [Ha Hb']. apply negb_false_iff, Z.eqb_eq in Ha.
      apply Z.eqb_neq in Hb'. tauto.
  - unfold compress_check in Hall. cbv zeta in Hall.
    rewrite !andb_true_iff, !Z.eqb_eq, Z.leb_le, Z.ltb_lt in Hall. cbv zeta. tauto.
Qed.

Lemma serialize_compress number :
  0 <= number < NumberCompress_INTERFACES ->
  EncodingScheme_serializeDirector scheme_358 number (-1) =
  NumberCompress_getCompressed number (NumberCompress_bitsUsedForNumber number).
Proof.
  intros Hn.
  assert (Hall : forallb (fun n => EncodingScheme_serializeDirector scheme_358 n (-1) =?
     NumberCompress_getCompressed n (NumberCompress_bitsUsedForNumber n)) (seqZ 0 257) = true)
    by (vm_compute; reflexivity).
  rewrite forallb_forall in Hall. apply Z.eqb_eq, Hall, list_elem_of_In, elem_of_seqZ.
  unfold NumberCompress_INTERFACES, NumberCompress_v3x5x8_INTERFACES in Hn. lia.
Qed.

Definition parse_check (lo : Z) : bool :=
  match EncodingScheme_parseDirector scheme_358 lo with
  | Ret d => d =? NumberCompress_decompress lo
  | Abort _ => false
  end.

(** The ten low bits decide. *)
Lemma parse_low lo rest :
  0 <= lo < 2 ^ 10 ->
  EncodingScheme_parseDirector scheme_358 (lo + 2 ^ 10 * rest) =
  EncodingScheme_parseDirector scheme_358 lo.
Proof.
  intros Hlo. unfold EncodingScheme_parseDirector.
  assert (Hm : forall i, 0 <= i < 3 ->
     matches (form_at scheme_358 i) (lo + 2 ^ 10 * rest) <-> matches (form_at scheme_358 i) lo).
  { intros i Hi. unfold matches. assert (Hp : 0 <= prefixLen (form_at scheme_358 i) <= 10)
      by (assert (i = 0 \/ i = 1 \/ i = 2) as [->|[->| ->]] by lia; vm_compute; split; discriminate).
    replace (2 ^ 10) with (2 ^ (10 - prefixLen (form_at scheme_358 i)) * 2 ^ prefixLen (form_at scheme_358 i))
      by (rewrite <- Z.pow_add_r by lia; f_equal; lia).
    replace (lo + _) with (lo + 2 ^ (10 - prefixLen (form_at scheme_358 i)) * rest
      * 2 ^ prefixLen (form_at scheme_358 i)) by ring. by rewrite Z.mod_add by lia. }
  destruct (getFormNum_spec scheme_358 lo scheme_358_ok) as [(i & Hi & He & Hmi)|[He Hn]].
  - rewrite He, (getFormNum_matches scheme_358 _ i scheme_358_ok Hi) by (by apply Hm).
    cbn [mbind Er_bind]. destruct (_ =? EncodingScheme_getFormNum_INVALID); [done|].
    assert (Hl : Z.land (Z.shiftr (lo + 2 ^ 10 * rest) (prefixLen (form_at scheme_358 i)))
                  (Z.ones (bitCount (form_at scheme_358 i))) =
                Z.land (Z.shiftr lo (prefixLen (form_at scheme_358 i)))
                  (Z.ones (bitCount (form_at scheme_358 i)))).
    { pose proof (form_at_ok scheme_358 i scheme_358_ok Hi) as [].
      assert (bitCount (form_at scheme_358 i) + prefixLen (form_at scheme_358 i) <= 10)
        by (unfold count in Hi; cbn in Hi;
            assert (i = 0 \/ i = 1 \/ i = 2) as [->|[->| ->]] by lia; vm_compute; discriminate).
      apply Z.bits_inj'. intros n Hn. rewrite !Z.land_spec, !Z.shiftr_spec by lia.
      destruct (Z.ltb_spec n (bitCount (form_at scheme_358 i))) as [Hlt|Hge].
      - f_equal. rewrite <- (Z.mod_pow2_bits_low lo 10) by lia.
        rewrite <- (Z.mod_pow2_bits_low (lo + _) 10) by lia.
        by rewrite (Z.mul_comm (2 ^ 10)), Z.mod_add by lia.
      - by rewrite Z.ones_spec_high, !andb_false_r by lia. }
    rewrite !Bits_maxBits64_ret by (pose proof (form_at_ok scheme_358 i scheme_358_ok Hi) as []; lia).
    cbn [mbind Er_bind]. by rewrite Hl.
  - destruct (getFormNum_spec scheme_358 (lo + 2 ^ 10 * rest) scheme_358_ok)
      as [(i & Hi & _ & Hmi)|[He' _]].
    + exfalso. by apply (Hn i Hi), Hm.
    + by rewrite He, He'.
Qed.

Lemma bitsUsedForLabel_width l : width_ok (NumberCompress_bitsUsedForLabel l).
Proof.
  unfold NumberCompress_bitsUsedForLabel, NumberCompress_v3x5x8_bitsUsedForLabel, width_ok.
  repeat case_match; auto.
Qed.

Lemma decompress_low label :
  NumberCompress_bitsUsedForLabel label = NumberCompress_bitsUsedForLabel (label mod 2 ^ 10) /\
  NumberCompress_decompress label = NumberCompress_decompress (label mod 2 ^ 10).
Proof.
  pose proof (Z.mod_pos_bound label (2 ^ 10) ltac:(lia)) as Hlo.
  assert (He : label = label mod 2 ^ 10 + 2 ^ 10 * (label / 2 ^ 10))
    by (rewrite Z.add_comm; apply Z.div_mod; lia).
  set (lo := label mod 2 ^ 10) in *. set (rest := label / 2 ^ 10) in *. rewrite He.
  unfold NumberCompress_decompress. rewrite (bitsUsedForLabel_low 10) by (done || (right; by right)).
  split; [done|]. pose proof (bitsUsedForLabel_width lo) as Hw.
  set (bits := NumberCompress_bitsUsedForLabel lo) in *.
  assert (Hb : 0 <= bits <= 10) by (destruct Hw as [->|[->| ->]]; lia).
  assert (Hsplit : lo = lo mod 2 ^ bits + 2 ^ bits * (lo / 2 ^ bits))
    by (rewrite Z.add_comm; apply Z.div_mod; lia).
  rewrite Hsplit at 1.
  replace (2 ^ 10) with (2 ^ bits * 2 ^ (10 - bits)) by (rewrite <- Z.pow_add_r by lia; f_equal; lia).
  rewrite <- Z.mul_assoc, <- Z.add_assoc, <- Z.mul_add_distr_l.
  rewrite (getDecompressed_low bits) by (done || (apply Z.mod_pos_bound; lia)).
  rewrite <- (getDecompressed_low bits (lo mod 2 ^ bits) (lo / 2 ^ bits))
    by (done || (apply Z.mod_pos_bound; lia)). by rewrite <- Hsplit.
Qed.

(** Deciding a property of the ten low bits by evaluation. *)
Lemma low_cases (P : Z -> bool) label :
  forallb P (seqZ 0 1024) = true -> P (label mod 2 ^ 10) = true.
Proof.
  intros H. rewrite forallb_forall in H. apply H, list_elem_of_In, elem_of_seqZ.
  pose proof (Z.mod_pos_bound label 1024 ltac:(lia)). change (2 ^ 10) with 1024. lia.
Qed.

Lemma decompress_bound label :
  0 <= NumberCompress_decompress label < NumberCompress_INTERFACES /\
  NumberCompress_bitsUsedForNumber (NumberCompress_decompress label)
    <= NumberCompress_bitsUsedForLabel label.
Proof.
  destruct (decompress_low label) as [-> ->].
  pose proof (low_cases (fun lo =>
    let n := NumberCompress_decompress lo in
    (0 <=? n) && (n <? 257) &&
    (NumberCompress_bitsUsedForNumber n <=? NumberCompress_bitsUsedForLabel lo)) label
    ltac:(vm_compute; reflexivity)) as H.
  cbv beta zeta in H. rewrite !andb_true_iff, !Z.leb_le, Z.ltb_lt in H. tauto.
Qed.

(** ** Properties *)

(** [C39] The switch's own encoder and the table-driven 3-5-8 scheme agree: every
    label is parsed to the same interface, and every interface number is
    written the same way. *)
Theorem v3x5x8_is_scheme_358 label number :
  0 <= label -> 0 <= number < NumberCompress_INTERFACES ->
  EncodingScheme_parseDirector scheme_358 label = Ret (NumberCompress_decompress label) /\
  EncodingScheme_serializeDirector scheme_358 number (-1) =
    NumberCompress_getCompressed number (NumberCompress_bitsUsedForNumber number).
Proof.
  intros Hl Hn. split; [|by apply serialize_compress].
  rewrite (proj2 (decompress_low label)).
  pose proof (low_cases parse_check label ltac:(vm_compute; reflexivity)) as Hc.
  pose proof (Z.mod_pos_bound label (2 ^ 10) ltac:(lia)) as Hlo.
  rewrite (Z.div_mod label (2 ^ 10)) at 1 by lia. rewrite Z.add_comm, parse_low by done.
  unfold parse_check in Hc. destruct (EncodingScheme_parseDirector scheme_358 _); [|done].
  by apply Z.eqb_eq in Hc as ->.
Qed.

Lemma v3x5x8_is_scheme_358_witness :
  EncodingScheme_parseDirector scheme_358 0xdeadbeef = Ret (NumberCompress_decompress 0xdeadbeef) /\
  EncodingScheme_serializeDirector scheme_358 200 (-1) =
    NumberCompress_getCompressed 200 (NumberCompress_bitsUsedForNumber 200).
Proof.
  apply (v3x5x8_is_scheme_358 0xdeadbeef 200);
    [lia|unfold NumberCompress_INTERFACES, NumberCompress_v3x5x8_INTERFACES; lia].
Defined.

Lemma land_high target k :
  fits 64 target -> 0 <= k <= 64 ->
  Z.land target (u64 (Z.shiftl UINT64_MAX k)) = Z.shiftr target k * 2 ^ k.
Proof.
  intros Ht Hk. rewrite <- Z.shiftl_mul_pow2 by lia. apply Z.bits_inj'. intros i Hi.
  unfold u64. change UINT64_MAX with (Z.ones 64).
  rewrite Z.land_spec, Z.testbit_mod_pow2, !Z.shiftl_spec by lia.
  destruct (Z.ltb_spec i k).
  - rewrite !(Z.testbit_neg_r _ (i - k)) by lia. by rewrite !andb_false_r.
  - rewrite Z.shiftr_spec by lia. replace (i - k + k) with i by lia.
    destruct (Z.ltb_spec i 64); cbn [andb].
    + rewrite Z.ones_spec_low, andb_true_r by lia. done.
    + rewrite andb_false_r. symmetry. by apply (fits_testbit 64).
Qed.

(** A label handed out for a source interface with a wider representation
    still leads to the same interface and the same remaining path, in the
    source's width, so that the switch can swap one for the other. *)
Theorem getLabelFor_compatible target whoIsAsking :
  fits 64 target -> Z.log2 target < 58 -> NumberCompress_decompress target <> 1 ->
  let label := NumberCompress_getLabelFor target whoIsAsking in
  let bits := NumberCompress_bitsUsedForLabel label in
  bits = Z.max (NumberCompress_bitsUsedForLabel target) (NumberCompress_bitsUsedForLabel whoIsAsking) /\
  NumberCompress_decompress label = NumberCompress_decompress target /\
  Z.shiftr label bits = Z.shiftr target (NumberCompress_bitsUsedForLabel target).
Proof.
  intros Ht Hlog Hd label bits. subst bits label. unfold NumberCompress_getLabelFor.
  pose proof (bitsUsedForLabel_width target) as HtB.
  pose proof (bitsUsedForLabel_width whoIsAsking) as HaB.
  destruct (decompress_bound target) as [Hn Hnb].
  change (NumberCompress_getDecompressed target (NumberCompress_bitsUsedForLabel target))
    with (NumberCompress_decompress target).
  set (tb := NumberCompress_bitsUsedForLabel target) in *.
  set (ab := NumberCompress_bitsUsedForLabel whoIsAsking) in *.
  destruct (Z.geb_spec tb ab) as [Hge|Hlt]; [split; [lia|done]|].
  set (n := NumberCompress_decompress target) in *.
  assert (Hb4 : 4 <= tb <= 10 /\ 4 <= ab <= 10)
    by (destruct HtB as [->|[->| ->]], HaB as [->|[->| ->]]; lia).
  destruct (compress_ok n ab Hn HaB ltac:(lia) ltac:(done)) as (Hcw & Hcd & Hcb).
  set (c := NumberCompress_getCompressed n ab) in *. set (rest := Z.shiftr target tb).
  assert (Hlab : Z.lor (u64 (Z.shiftl (Z.land target (u64 (Z.shiftl UINT64_MAX tb))) (ab - tb))) c
                 = c + 2 ^ ab * rest).
  { rewrite land_high by (done || lia). fold rest. rewrite Z.shiftl_mul_pow2, <- Z.mul_assoc,
      <- Z.pow_add_r by lia. replace (tb + (ab - tb)) with ab by lia.
    assert (Htb : target < 2 ^ 58).
    { destruct (decide (target = 0)) as [->|]; [lia|]. apply Z.log2_lt_pow2; [|done].
      unfold fits in Ht. lia. }
    assert (Hr : rest < 2 ^ (58 - tb)).
    { subst rest. rewrite Z.shiftr_div_pow2 by lia. apply Z.div_lt_upper_bound; [lia|].
      rewrite <- Z.pow_add_r by lia. by replace (tb + (58 - tb)) with 58 by lia. }
    assert (H0 : 0 <= rest) by (apply Z.shiftr_nonneg; unfold fits in Ht; lia).
    assert (Hm : 2 ^ (58 - tb) * 2 ^ ab <= 2 ^ 64)
      by (rewrite <- Z.pow_add_r by lia; apply Z.pow_le_mono_r; lia).
    unfold u64. rewrite Z.mod_small by nia.
    rewrite <- Z.shiftl_mul_pow2, Z.lor_comm, lor_shiftl_add by (done || lia). lia. }
  rewrite Hlab. unfold NumberCompress_decompress.
  rewrite bitsUsedForLabel_low, Hcw, getDecompressed_low, Hcd by done.
  split; [lia|]. split; [done|].
  rewrite Z.shiftr_div_pow2, (Z.mul_comm (2 ^ ab)), Z.div_add, Z.div_small by lia. lia.
Qed.

Lemma getLabelFor_compatible_witness :
  let label := NumberCompress_getLabelFor 0x15 0x7c in
  let bits := NumberCompress_bitsUsedForLabel label in
  bits = 10 /\ NumberCompress_decompress label = 2 /\ Z.shiftr label bits = 1.
Proof.
  exact (getLabelFor_compatible 0x15 0x7c ltac:(split; vm_compute; congruence)
           ltac:(vm_compute; reflexivity) ltac:(vm_compute; congruence)).
Defined.
