(* ===== verification/LabelSplicer.v ===== *)
(** * switch/LabelSplicer.h: composing paths

    A label is a path of directors above a leading 1 bit.  [splice] puts one
    path behind another, [unsplice] takes a prefix off, [routesThrough] asks
    whether one path is the beginning of another. *)
From S2P Require Import Prelude Bits.

(** ** Definitions *)

Definition LabelSplicer_unsplice (fullPath midPath : Z) : Z :=
  Z.shiftr fullPath (Bits_log2x64 midPath).

Definition LabelSplicer_splice (goHere viaHere : Z) : Z :=
  let log2ViaHere := Bits_log2x64 viaHere in
  if Bits_log2x64 goHere + log2ViaHere >? 59 then UINT64_MAX
  else Z.lxor (u64 (Z.shiftl (Z.lxor goHere 1) log2ViaHere)) viaHere.

Definition LabelSplicer_routesThrough (destination midPath : Z) : bool :=
  if midPath >? destination then false
  else if midPath <? 2 then true
  else
    let mask := Z.shiftr UINT64_MAX (64 - Bits_log2x64 midPath) in
    Z.land destination mask =? Z.land midPath mask.

(** ** Lemmas *)

(** Splicing is multiplication by the length of the first path: the leading 1 of
    [viaHere] makes place for [goHere]. *)
Lemma splice_value goHere viaHere :
  fits 64 goHere -> fits 64 viaHere -> 0 < goHere -> 0 < viaHere ->
  Z.log2 goHere + Z.log2 viaHere <= 59 ->
  LabelSplicer_splice goHere viaHere = (viaHere - 2 ^ Z.log2 viaHere) + goHere * 2 ^ Z.log2 viaHere.
Proof.
  intros Fg Fv Hg Hv Hlog. unfold LabelSplicer_splice. rewrite !Bits_log2x64_log2 by done.
  destruct (Z.gtb_spec (Z.log2 goHere + Z.log2 viaHere) 59); [lia|].
  set (k := Z.log2 viaHere) in *. assert (Hk : 0 <= k) by apply Z.log2_nonneg.
  pose proof (Z.log2_spec viaHere Hv) as Hvs. fold k in Hvs.
  assert (Hgb : goHere < 2 ^ (60 - k)).
  { eapply Z.lt_le_trans; [apply Z.log2_spec; lia|]. apply Z.pow_le_mono_r; lia. }
  pose proof (Z.log2_nonneg goHere) as Hgn.
  assert (Hp60 : 2 ^ (60 - k) * 2 ^ k = 2 ^ 60) by (rewrite <- Z.pow_add_r by lia; f_equal; lia).
  assert (Hx : 0 <= Z.lxor goHere 1 < 2 ^ (60 - k)).
  { apply (fits_lxor (60 - k)); [lia|unfold fits; lia|].
    unfold fits. lia. }
  unfold u64. rewrite Z.mod_small by (rewrite Z.shiftl_mul_pow2 by done; nia).
  set (lo := viaHere - 2 ^ k). assert (Hlo : fits k lo)
    by (unfold fits; rewrite Z.pow_succ_r in Hvs by done; lia).
  assert (Hv' : viaHere = Z.lor lo (Z.shiftl 1 k))
    by (rewrite lor_shiftl_add by done; lia).
  replace (lo + goHere * 2 ^ k) with (Z.lor lo (Z.shiftl goHere k))
    by (by rewrite lor_shiftl_add).
  rewrite Hv'. apply Z.bits_inj'. intros i Hi.
  rewrite !Z.lxor_spec, !Z.lor_spec, !Z.shiftl_spec by done.
  destruct (Z.ltb_spec i k).
  - rewrite !(Z.testbit_neg_r _ (i - k)) by lia. by rewrite orb_false_r.
  - rewrite (fits_testbit k lo i) by done. rewrite Z.lxor_spec. simpl.
    by rewrite xorb_assoc, xorb_nilpotent, xorb_false_r.
Qed.

(** A path: positive, at most 60 bits, as every label the code accepts. *)
Definition path (p : Z) : Prop := 0 < p < 2 ^ 60.

Lemma path_fits p : path p -> fits 64 p.
Proof. unfold path, fits. assert (2 ^ 60 < 2 ^ 64) by done. lia. Qed.

(** A label is its low bits below a leading one. *)
Lemma path_low p : 0 < p -> exists lo, 0 <= lo < 2 ^ Z.log2 p /\ p = lo + 2 ^ Z.log2 p.
Proof.
  intros Hp. pose proof (Z.log2_spec p Hp) as H.
  rewrite Z.pow_succ_r in H by apply Z.log2_nonneg. exists (p - 2 ^ Z.log2 p). lia.
Qed.

Lemma log2_compose lo k g : 0 <= k -> 0 <= lo < 2 ^ k -> 0 < g ->
  Z.log2 (lo + g * 2 ^ k) = Z.log2 g + k.
Proof.
  intros Hk Hlo Hg. pose proof (Z.log2_spec g Hg) as Hs. pose proof (Z.log2_nonneg g).
  rewrite Z.pow_succ_r in Hs by done. apply Z.log2_unique; [lia|].
  rewrite Z.pow_succ_r, Z.pow_add_r by lia. nia.
Qed.

Lemma splice_log2 goHere viaHere :
  path goHere -> path viaHere -> Z.log2 goHere + Z.log2 viaHere <= 59 ->
  Z.log2 (LabelSplicer_splice goHere viaHere) = Z.log2 goHere + Z.log2 viaHere /\
  path (LabelSplicer_splice goHere viaHere).
Proof.
  intros Hg Hv Hl. rewrite splice_value by (auto using path_fits || (unfold path in *; lia)).
  destruct (path_low viaHere) as (lo & Hlo & He); [unfold path in *; lia|].
  replace (viaHere - 2 ^ Z.log2 viaHere) with lo by lia.
  assert (Hlog : Z.log2 (lo + goHere * 2 ^ Z.log2 viaHere) = Z.log2 goHere + Z.log2 viaHere)
    by (apply log2_compose; [apply Z.log2_nonneg|done|unfold path in *; lia]).
  split; [done|]. unfold path in *. split; [nia|].
  apply Z.log2_lt_cancel. rewrite Hlog, Z.log2_pow2 by lia. lia.
Qed.

(** ** Properties *)

(** Splicing and unsplicing: a spliced label is as long as its two parts
    together, taking the first part off again leaves the second, and a splice
    which would not fit is refused with the invalid label. *)
Theorem splice_unsplice goHere viaHere :
  path goHere -> path viaHere ->
  let w := LabelSplicer_splice goHere viaHere in
  if Z.log2 goHere + Z.log2 viaHere <=? 59
  then path w /\ Z.log2 w = Z.log2 goHere + Z.log2 viaHere /\
       LabelSplicer_unsplice w viaHere = goHere /\ w mod 2 ^ Z.log2 viaHere = viaHere mod 2 ^ Z.log2 viaHere
  else w = UINT64_MAX.
Proof.
  intros Hg Hv w. destruct (Z.leb_spec (Z.log2 goHere + Z.log2 viaHere) 59) as [Hle|Hgt].
  - destruct (splice_log2 goHere viaHere Hg Hv Hle) as [H1 H2]. split; [done|]. split; [done|].
    subst w. unfold LabelSplicer_unsplice.
    rewrite splice_value, Bits_log2x64_log2 by (auto using path_fits || (unfold path in *; lia)).
    destruct (path_low viaHere) as (lo & Hlo & He); [unfold path in *; lia|].
    pose proof (Z.log2_nonneg viaHere). set (k := Z.log2 viaHere) in *.
    replace (viaHere - 2 ^ k) with lo by lia. split.
    + rewrite Z.shiftr_div_pow2, Z.div_add, Z.div_small by lia. lia.
    + rewrite Z.mod_add by lia. rewrite He. replace (lo + 2 ^ k) with (lo + 1 * 2 ^ k) by lia.
      by rewrite Z.mod_add by lia.
  - subst w. unfold LabelSplicer_splice. rewrite !Bits_log2x64_log2 by auto using path_fits.
    by destruct (Z.gtb_spec (Z.log2 goHere + Z.log2 viaHere) 59); [|lia].
Qed.

Lemma splice_unsplice_witness :
  path (LabelSplicer_splice 0x13 0x15) /\ Z.log2 (LabelSplicer_splice 0x13 0x15) = 4 + 4 /\
  LabelSplicer_unsplice (LabelSplicer_splice 0x13 0x15) 0x15 = 0x13 /\
  LabelSplicer_splice 0x13 0x15 mod 2 ^ 4 = 0x15 mod 2 ^ 4.
Proof.
  exact (splice_unsplice 0x13 0x15 ltac:(split; vm_compute; congruence)
           ltac:(split; vm_compute; congruence)).
Defined.

(** Splicing is associative: a path assembled hop by hop from either end is
    the same label. *)
Theorem splice_assoc a b c :
  path a -> path b -> path c -> Z.log2 a + Z.log2 b + Z.log2 c <= 59 ->
  LabelSplicer_splice c (LabelSplicer_splice b a) = LabelSplicer_splice (LabelSplicer_splice c b) a.
Proof.
  intros Ha Hb Hc Hl. pose proof (Z.log2_nonneg a). pose proof (Z.log2_nonneg b).
  pose proof (Z.log2_nonneg c).
  destruct (splice_log2 b a Hb Ha) as [Lba Pba]; [lia|].
  destruct (splice_log2 c b Hc Hb) as [Lcb Pcb]; [lia|].
  rewrite (splice_value c (LabelSplicer_splice b a)), (splice_value (LabelSplicer_splice c b) a)
    by (auto using path_fits || (unfold path in *; lia)).
  rewrite Lba, !splice_value by (auto using path_fits || (unfold path in *; lia)).
  rewrite Z.pow_add_r by lia. ring.
Qed.

Lemma splice_assoc_witness :
  LabelSplicer_splice 0x1f (LabelSplicer_splice 0x13 0x15) =
  LabelSplicer_splice (LabelSplicer_splice 0x1f 0x13) 0x15.
Proof.
  apply (splice_assoc 0x15 0x13 0x1f); try (split; vm_compute; congruence).
  vm_compute. congruence.
Defined.

(** [C19] [LabelSplicer_routesThrough] decides exactly whether the destination is
    reached by going to [midPath] first: whether it is a splice behind it. *)
Theorem routesThrough_iff destination midPath :
  path destination -> path midPath ->
  LabelSplicer_routesThrough destination midPath = true <->
  exists goHere, path goHere /\ Z.log2 goHere + Z.log2 midPath <= 59 /\
    destination = LabelSplicer_splice goHere midPath.
Proof.
  intros Hd Hm. pose proof (path_low midPath ltac:(unfold path in *; lia)) as (lo & Hlo & He).
  pose proof (Z.log2_nonneg midPath) as Hk. set (k := Z.log2 midPath) in *.
  assert (Hk60 : k < 60) by (apply Z.log2_lt_pow2; unfold path in *; lia).
  assert (Htest : LabelSplicer_routesThrough destination midPath = true <->
                  midPath <= destination /\ destination mod 2 ^ k = lo).
  { unfold LabelSplicer_routesThrough. destruct (Z.gtb_spec midPath destination); [split; [done|lia]|].
    destruct (Z.ltb_spec midPath 2).
    - assert (midPath = 1) as Hm1 by (unfold path in *; lia). subst k. rewrite Hm1 in *.
      change (2 ^ Z.log2 1) with 1 in *. rewrite Z.mod_1_r. split; [lia|done].
    - rewrite Bits_log2x64_log2 by auto using path_fits. fold k. cbv zeta.
      replace (Z.shiftr UINT64_MAX (64 - k)) with (Z.ones k).
      2: { change UINT64_MAX with (Z.ones 64). rewrite Z.shiftr_div_pow2, Z.ones_div_pow2 by lia.
           f_equal. lia. }
      rewrite !Z.land_ones by done. rewrite He at 1.
      replace ((lo + 2 ^ k) mod 2 ^ k) with lo.
      2: { replace (lo + 2 ^ k) with (lo + 1 * 2 ^ k) by lia. rewrite Z.mod_add by lia.
           symmetry. by apply Z.mod_small. }
      rewrite Z.eqb_eq. split; [done|]. by intros [_ ?]. }
  rewrite Htest. split.
  - intros [Hle Hmod]. set (g := destination / 2 ^ k).
    assert (Hdg : destination = lo + g * 2 ^ k)
      by (rewrite <- Hmod; subst g; pose proof (Z.div_mod destination (2 ^ k)); lia).
    assert (Hg0 : 0 < g) by nia. exists g.
    assert (Hlog : Z.log2 g + k <= 59).
    { rewrite <- (log2_compose lo k g), <- Hdg by done.
      assert (Z.log2 destination < 60); [|lia]. apply Z.log2_lt_pow2; unfold path in *; lia. }
    assert (Hpg : path g).
    { split; [done|]. apply Z.log2_lt_cancel. rewrite Z.log2_pow2 by lia. lia. }
    split; [done|]. split; [done|].
    rewrite splice_value by (auto using path_fits || (unfold path in *; lia)). fold k. lia.
  - intros (g & Hg & Hlog & ->).
    rewrite splice_value by (auto using path_fits || (unfold path in *; lia)). fold k.
    replace (midPath - 2 ^ k) with lo by lia. rewrite Z.mod_add by lia. split.
    + unfold path in Hg. nia.
    + by apply Z.mod_small.
Qed.

Lemma routesThrough_iff_witness :
  LabelSplicer_routesThrough 0x135 0x15 = true <->
  exists goHere, path goHere /\ Z.log2 goHere + Z.log2 0x15 <= 59 /\
    0x135 = LabelSplicer_splice goHere 0x15.
Proof.
  apply (routesThrough_iff 0x135 0x15); split; vm_compute; congruence.
Defined.
