(* ===== verification/SwitchCore.v ===== *)
(** * switch/SwitchCore.c: the label switch

    The core is an array of interfaces, slot 1 being the router.  A packet which
    comes in on one slot is sent out on the slot its label begins with, the
    label shifted and the bit-reversed number of the source slot put on top of
    it, so that the label, bit-reversed, is the way back
    ([switch_return_path]).

    Iface.h connects pairs of interface objects; the user's end of a connection
    is named by a number here, and [conns] holds the [connectedIf] fields of
    the users' ends.  [jobs] are the on-free jobs the core has registered with
    allocators: freeing allocator [a] runs [removeInterface] on the slot of each
    job [(a, slot)]. *)
From stdpp Require Import gmap.
From S2P Require Import Prelude Bits Checksum Message Headers EncodingScheme NumberCompress.

(** ** Definitions *)

(** [send] and [core] are non-NULL or not; the magic number of [Identity] is set
    in every slot with [send]. *)
Record SwitchInterface := mkSwitchInterface {
  si_send : bool;
  si_connectedIf : option Z;
  si_alloc : option Z;
  si_core : bool;
  si_onFree : option (Z * Z);
  si_state : Z;
}.

(** What [calloc] and [memset] leave. *)
Definition si_zero : SwitchInterface := mkSwitchInterface false None None false None 0.

Record SwitchCore := mkSwitchCore {
  interfaces : list SwitchInterface;
  conns : gmap Z Z;
  jobs : list (Z * Z);
}.

Definition SwitchCore_setInterfaceState_ifaceState_DOWN : Z := 0.
Definition SwitchCore_setInterfaceState_ifaceState_UP : Z := 1.
Definition SwitchCore_addInterface_OUT_OF_SPACE : Z := -1.

Definition slot (core : SwitchCore) (i : Z) : SwitchInterface :=
  nth (Z.to_nat i) (interfaces core) si_zero.
Definition set_slot (core : SwitchCore) (i : Z) (si : SwitchInterface) : SwitchCore :=
  {| interfaces := <[Z.to_nat i := si]> (interfaces core);
     conns := conns core; jobs := jobs core |}.

(** *** Iface.h *)

(** [Iface_plumb(user, &slot->iface)]. *)
Definition Iface_plumb (core : SwitchCore) (user i : Z) : Er SwitchCore :=
  Assert_true (bool_decide (conns core !! user = None));;
  Assert_true (bool_decide (si_connectedIf (slot core i) = None));;
  let si := slot core i in
  let core := set_slot core i
    {| si_send := si_send si; si_connectedIf := Some user; si_alloc := si_alloc si;
       si_core := si_core si; si_onFree := si_onFree si; si_state := si_state si |} in
  Ret {| interfaces := interfaces core; conns := <[user := i]> (conns core);
         jobs := jobs core |}.

(** [Iface_unplumb(user, &slot->iface)]. *)
Definition Iface_unplumb (core : SwitchCore) (user i : Z) : Er SwitchCore :=
  Assert_true (bool_decide (conns core !! user = Some i));;
  Assert_true (bool_decide (si_connectedIf (slot core i) = Some user));;
  let si := slot core i in
  let core := set_slot core i
    {| si_send := si_send si; si_connectedIf := None; si_alloc := si_alloc si;
       si_core := si_core si; si_onFree := si_onFree si; si_state := si_state si |} in
  Ret {| interfaces := interfaces core; conns := delete user (conns core);
         jobs := jobs core |}.

(** [Iface_next(&core->interfaces[i].iface, msg)]: the message reaches the
    connected user, which is asserted to exist. *)
Definition Iface_next (core : SwitchCore) (i : Z) (msg : Message) : Er (option (Z * Z * Message)) :=
  match si_connectedIf (slot core i) with
  | Some user => Ret (Some (i, user, msg))
  | None => Abort "not connected"
  end.

(** The header of an error packet, made from the zeroed memory. *)
Definition error_header (causeLabel_be : Z) : Er SwitchHeader :=
  let h := SwitchHeader_of (zeros 12) in
  let h := with_label_be h (Bits_bitReverse64 causeLabel_be) in
  let h := SwitchHeader_setSuppressErrors h true in
  h ← SwitchHeader_setVersion h SwitchHeader_CURRENT_VERSION;
  let h := SwitchHeader_setTrafficClass h 0xffff in
  SwitchHeader_setCongestion h 0.

(** [struct ErrorPacket8]: switch header (0), handle (12), checksum (16), type
    (18), error type (20), the cause (24). *)
Definition sendError (core : SwitchCore) (iface : Z) (cause : Message) (code : Z)
  : Er (option (Z * Z * Message)) :=
  if msg_length cause <? SwitchHeader_SIZE + 4 then Ret None
  else
    let causeHeader := SwitchHeader_of (msg_read cause 0 SwitchHeader_SIZE) in
    if SwitchHeader_getSuppressErrors causeHeader then Ret None
    else
      let cause := set_msg_length cause
        (if msg_length cause <? Control_Error_MAX_SIZE then msg_length cause
         else Control_Error_MAX_SIZE) in
      cause ← Message_epush cause None
        (SwitchHeader_SIZE + 4 + Control_Header_SIZE + Control_Error_HEADER_SIZE);
      h ← error_header (label_be causeHeader);
      let cause := msg_write cause 0 (SwitchHeader_bytes h) in
      let cause := msg_write cause 12 (le_bytes 4 0xffffffff) in
      let cause := msg_write cause 18 (le_bytes 2 Control_ERROR_be) in
      let cause := msg_write cause 20 (le_bytes 4 (Endian_hostToBigEndian32 code)) in
      let cause := msg_write cause 16 (le_bytes 2 0) in
      let length := msg_length cause - SwitchHeader_SIZE - 4 in
      checksum ←
        Checksum_engine_be (msg_addr cause + msg_bytes cause + 16) (msg_read cause 16 length) length;
      let cause := msg_write cause 16 (le_bytes 2 checksum) in
      Iface_next core iface cause.

(** *** Forwarding *)

(** The checks and the choice of the width of the source discriminator:
    [inl code] is an error to report, [inr bits] the width. *)
Definition switch_bits (label sourceIndex destIndex sourceBits bits : Z) : Z + Z :=
  if (1 =? destIndex) && negb (1 =? Z.land label 0xf) then inl Error_MALFORMED_ADDRESS
  else if sourceBits >? bits then
    if destIndex =? 1 then
      if negb (0 =? Z.land (Z.lxor label 1) (Z.shiftr UINT64_MAX (64 - sourceBits - 4)))
      then inl Error_RETURN_PATH_INVALID
      else inr sourceBits
    else if 1 =? sourceIndex then
      if negb (0 =? Z.shiftr label (bits + 64 - sourceBits))
      then inl Error_MALFORMED_ADDRESS
      else inr bits
    else inl Error_MALFORMED_ADDRESS
  else inr bits.

(** [receiveMessage] on the interface in slot [sourceIndex].  (The copy of the
    message's beginning that the source makes is not used.) *)
Definition receiveMessage (core : SwitchCore) (message : Message) (sourceIndex : Z)
  : Er (option (Z * Z * Message)) :=
  if msg_length message <? SwitchHeader_SIZE then Ret None
  else
    let header := SwitchHeader_of (msg_read message 0 SwitchHeader_SIZE) in
    let label := Endian_bigEndianToHost64 (label_be header) in
    let bits := NumberCompress_bitsUsedForLabel label in
    let destIndex := NumberCompress_getDecompressed label bits in
    let sourceBits := NumberCompress_bitsUsedForNumber sourceIndex in
    Assert_true (destIndex <? NumberCompress_INTERFACES);;
    Assert_true (sourceIndex <? NumberCompress_INTERFACES);;
    match switch_bits label sourceIndex destIndex sourceBits bits with
    | inl code => sendError core sourceIndex message code
    | inr bits =>
        if bool_decide (si_alloc (slot core destIndex) = None)
        then sendError core sourceIndex message Error_MALFORMED_ADDRESS
        else if (si_state (slot core destIndex) =? SwitchCore_setInterfaceState_ifaceState_DOWN)
                && negb (1 =? sourceIndex)
        then sendError core sourceIndex message Error_UNDELIVERABLE
        else
          let sourceLabel := Bits_bitReverse64 (NumberCompress_getCompressed sourceIndex bits) in
          let targetLabel := Z.lor (Z.shiftr label bits) sourceLabel in
          let header := with_label_be header (Endian_hostToBigEndian64 targetLabel) in
          let labelShift := SwitchHeader_getLabelShift header + bits in
          if labelShift >? 63
          then Ret None
          else
            header ← SwitchHeader_setLabelShift header labelShift;
            let header := SwitchHeader_setTrafficClass header 0xffff in
            Iface_next core destIndex (msg_write message 0 (SwitchHeader_bytes header))
    end.

(** A user sends through its end of a connection ([Iface_send]). *)
Definition user_send (core : SwitchCore) (user : Z) (msg : Message)
  : Er (option (Z * Z * Message)) :=
  match conns core !! user with
  | Some i => Assert_true (si_send (slot core i));; receiveMessage core msg i
  | None => Abort "not connected"
  end.

(** *** The interfaces *)

(** [Allocator_onFree] and [Allocator_cancelOnFree]: a job is known by the
    allocator and the slot; cancelling an unknown one fails. *)
Definition add_job (core : SwitchCore) (alloc i : Z) : SwitchCore :=
  {| interfaces := interfaces core; conns := conns core; jobs := (alloc, i) :: jobs core |}.
Definition cancel_job (core : SwitchCore) (job : option (Z * Z)) : Er SwitchCore :=
  match job with
  | None => Abort "NULL job"
  | Some job =>
      Assert_true (bool_decide (job ∈ jobs core));;
      Ret {| interfaces := interfaces core; conns := conns core;
             jobs := filter (fun j => j <> job) (jobs core) |}
  end.

Definition removeInterface (core : SwitchCore) (i : Z) : SwitchCore := set_slot core i si_zero.

(** [Allocator_free(alloc)]: the jobs of the allocator run and are gone. *)
Definition free_alloc (core : SwitchCore) (alloc : Z) : SwitchCore :=
  let mine := filter (fun j : Z * Z => j.1 = alloc) (jobs core) in
  let core := foldl (fun c (j : Z * Z) => removeInterface c j.2) core mine in
  {| interfaces := interfaces core; conns := conns core;
     jobs := filter (fun j : Z * Z => j.1 <> alloc) (jobs core) |}.

Definition SwitchCore_setInterfaceState (core : SwitchCore) (userIf ifaceState : Z)
  : Er SwitchCore :=
  match conns core !! userIf with
  | None => Abort "not connected"
  | Some i =>
      Assert_true (si_send (slot core i));;
      Assert_true (ifaceState =? Z.land ifaceState 1);;
      let si := slot core i in
      Ret (set_slot core i
        {| si_send := si_send si; si_connectedIf := si_connectedIf si; si_alloc := si_alloc si;
           si_core := si_core si; si_onFree := si_onFree si; si_state := ifaceState |})
  end.

(** [si->onFree = Allocator_onFree(si->alloc, removeInterface, si)]. *)
Definition register_onFree (core : SwitchCore) (i : Z) : Er SwitchCore :=
  let si := slot core i in
  match si_alloc si with
  | None => Abort "NULL allocator"
  | Some alloc =>
      Ret (set_slot (add_job core alloc i) i
        {| si_send := si_send si; si_connectedIf := si_connectedIf si; si_alloc := si_alloc si;
           si_core := si_core si; si_onFree := Some (alloc, i); si_state := si_state si |})
  end.

Definition SwitchCore_swapInterfaces (core : SwitchCore) (userIf1 userIf2 : Z) : Er SwitchCore :=
  match conns core !! userIf1, conns core !! userIf2 with
  | Some i1, Some i2 =>
      Assert_true (si_send (slot core i1));;
      Assert_true (si_send (slot core i2));;
      core ← Iface_unplumb core userIf1 i1;
      core ← Iface_unplumb core userIf2 i2;
      core ← cancel_job core (si_onFree (slot core i1));
      core ← cancel_job core (si_onFree (slot core i2));
      let si3 := slot core i1 in
      let core := set_slot core i1 (slot core i2) in
      let core := set_slot core i2 si3 in
      core ← register_onFree core i1;
      core ← register_onFree core i2;
      core ← Iface_plumb core userIf2 i1;
      Iface_plumb core userIf1 i2
  | _, _ => Abort "not connected"
  end.

(** [for (;;ifIndex++)]: the first slot without [send]. *)
Fixpoint find_vacant (l : list SwitchInterface) (ifIndex : Z) : option Z :=
  match l with
  | [] => None
  | si :: l => if si_send si then find_vacant l (ifIndex + 1) else Some ifIndex
  end.

(** The result code, the new core and [*labelOut]. *)
Definition SwitchCore_addInterface (core : SwitchCore) (iface alloc : Z)
  : Er (Z * SwitchCore * option Z) :=
  match find_vacant (interfaces core) 0 with
  | None => Ret (SwitchCore_addInterface_OUT_OF_SPACE, core, None)
  | Some ifIndex =>
      let core := set_slot core ifIndex
        {| si_send := true; si_connectedIf := si_connectedIf (slot core ifIndex);
           si_alloc := Some alloc; si_core := true; si_onFree := Some (alloc, ifIndex);
           si_state := SwitchCore_setInterfaceState_ifaceState_UP |} in
      let core := add_job core alloc ifIndex in
      core ← Iface_plumb core iface ifIndex;
      let bits := NumberCompress_bitsUsedForNumber ifIndex in
      Ret (0, core, Some (Z.lor (NumberCompress_getCompressed ifIndex bits) (Z.shiftl 1 bits)))
  end.

Definition SwitchCore_new (allocator : Z) : SwitchCore :=
  set_slot
    {| interfaces := replicate (Z.to_nat NumberCompress_INTERFACES) si_zero; conns := ∅; jobs := [] |}
    1
    {| si_send := true; si_connectedIf := None; si_alloc := Some allocator; si_core := true;
       si_onFree := None; si_state := SwitchCore_setInterfaceState_ifaceState_UP |}.

(** ** The abstract switch *)

(** The label of a header, in host order. *)
Definition label_of (h : SwitchHeader) : Z := Endian_bigEndianToHost64 (label_be h).

(** What the switch does with a label coming from slot [s]: an error code, or
    the slot it goes to, the new label and the width of the discriminator which
    was exchanged. *)
Definition route (core : SwitchCore) (s label : Z) : Z + Z * Z * Z :=
  let d := NumberCompress_decompress label in
  match switch_bits label s d (NumberCompress_bitsUsedForNumber s)
          (NumberCompress_bitsUsedForLabel label) with
  | inl code => inl code
  | inr bits =>
      if bool_decide (si_alloc (slot core d) = None) then inl Error_MALFORMED_ADDRESS
      else if (si_state (slot core d) =? 0) && negb (1 =? s) then inl Error_UNDELIVERABLE
      else inr (d, Z.lor (Z.shiftr label bits)
                     (Bits_bitReverse64 (NumberCompress_getCompressed s bits)), bits)
  end.

(** The header of a forwarded packet. *)
Definition forwarded (h : SwitchHeader) (label' bits : Z) : SwitchHeader :=
  {| label_be := Endian_hostToBigEndian64 label';
     congestAndSuppressErrors := congestAndSuppressErrors h;
     versionAndLabelShift :=
       u8 (Z.lor (u8 (Z.shiftl (Z.shiftr (versionAndLabelShift h) 6) 6))
             (SwitchHeader_getLabelShift h + bits));
     trafficClass_be := Endian_hostToBigEndian16 0xffff |}.

(** ** Lemmas *)

Lemma label_of_fits h : fits 64 (label_of h).
Proof. apply (bswap_fits 8). Qed.

Lemma label_roundtrip x : fits 64 x ->
  Endian_bigEndianToHost64 (Endian_hostToBigEndian64 x) = x.
Proof.
  intros Hx. unfold Endian_bigEndianToHost64, Endian_hostToBigEndian64, Endian_byteSwap64, u64.
  rewrite (fits_small 64 x), (fits_small 64 (bswap 8 x)) by (done || apply (bswap_fits 8)).
  by apply (bswap_involutive 8).
Qed.

(** *** Label arithmetic *)

(** The new label, bit-reversed, begins with the source discriminator, followed
    by the reversed old label. *)
Lemma reversed_label label b c :
  fits 64 label -> 0 <= b < 64 -> 0 <= c < 2 ^ b ->
  Bits_bitReverse64 (Z.lor (Z.shiftr label b) (Bits_bitReverse64 c))
  = c + 2 ^ b * (Bits_bitReverse64 label mod 2 ^ (64 - b)).
Proof.
  intros Hl Hb Hc. rewrite (Z.mul_comm (2 ^ b)), <- lor_shiftl_add by (done || lia).
  apply Z.bits_inj'. intros i Hi. rewrite Z.lor_spec, Z.shiftl_spec by lia.
  destruct (Z.ltb_spec i 64) as [H64|H64].
  - rewrite Bits_bitReverse64_testbit, Z.lor_spec, Z.shiftr_spec by lia.
    rewrite Bits_bitReverse64_testbit by lia. replace (63 - (63 - i)) with i by lia.
    destruct (Z.ltb_spec i b).
    + rewrite (Z.testbit_neg_r _ (i - b)), (fits_testbit 64 label) by (done || lia).
      by rewrite orb_false_r.
    + rewrite (fits_testbit b c) by (done || lia). rewrite orb_false_r. simpl.
      rewrite Z.testbit_mod_pow2, (proj2 (Z.ltb_lt (i - b) (64 - b))) by lia. cbn [andb].
      rewrite Bits_bitReverse64_testbit by lia. f_equal. lia.
  - rewrite (fits_testbit 64) by (done || apply Bits_bitReverse64_fits).
    rewrite (fits_testbit b c) by (done || lia).
    rewrite Z.testbit_mod_pow2, (proj2 (Z.ltb_ge (i - b) (64 - b))) by lia. done.
Qed.

(** Exchanging the discriminators once more restores the reversed label. *)
Lemma reversed_twice label b :
  fits 64 label -> 0 <= b < 64 ->
  Z.lor (Bits_bitReverse64 label mod 2 ^ (64 - b)) (Bits_bitReverse64 (label mod 2 ^ b))
  = Bits_bitReverse64 label.
Proof.
  intros Hl Hb. apply Z.bits_inj'. intros i Hi.
  rewrite Z.lor_spec, Z.testbit_mod_pow2 by lia.
  destruct (Z.ltb_spec i 64) as [H64|H64].
  - rewrite !Bits_bitReverse64_testbit, Z.testbit_mod_pow2 by lia.
    destruct (Z.ltb_spec i (64 - b)), (Z.ltb_spec (63 - i) b); try lia; cbn [andb orb];
      by rewrite ?orb_false_r.
  - rewrite !(fits_testbit 64 (Bits_bitReverse64 _)) by (done || apply Bits_bitReverse64_fits).
    by rewrite andb_false_r.
Qed.

(** A label begins with the encoding of the interface it is decompressed to. *)
Lemma compress_decompress label :
  let b := NumberCompress_bitsUsedForLabel label in
  NumberCompress_getCompressed (NumberCompress_decompress label) b = label mod 2 ^ b.
Proof.
  cbv zeta. destruct (decompress_low label) as [Hb Hd]. rewrite Hb, Hd.
  pose proof (low_cases (fun lo => let b := NumberCompress_bitsUsedForLabel lo in
    (NumberCompress_getCompressed (NumberCompress_decompress lo) b =? lo mod 2 ^ b) && (0 <=? b)
    && (b <=? 10)) label ltac:(vm_compute; reflexivity)) as H.
  cbv beta zeta in H. rewrite !andb_true_iff, Z.eqb_eq, !Z.leb_le in H.
  destruct H as [[-> H0] H1]. set (b := NumberCompress_bitsUsedForLabel _) in *.
  apply Z.bits_inj'. intros i Hi. rewrite !Z.testbit_mod_pow2 by lia.
  destruct (Z.ltb_spec i b), (Z.ltb_spec i 10); try lia; done.
Qed.

Lemma decompress_1 label :
  NumberCompress_decompress label = 1 ->
  label mod 16 = 1 /\ NumberCompress_bitsUsedForLabel label = 4.
Proof.
  intros H. destruct (decompress_low label) as [Hb Hd]. rewrite Hb. rewrite Hd in H.
  pose proof (low_cases (fun lo => negb (NumberCompress_decompress lo =? 1) ||
    (lo mod 16 =? 1) && (NumberCompress_bitsUsedForLabel lo =? 4)) label
    ltac:(vm_compute; reflexivity)) as Hc.
  cbv beta in Hc. rewrite H in Hc. simpl in Hc. rewrite andb_true_iff, !Z.eqb_eq in Hc.
  destruct Hc as [Hc1 Hc2]. split; [|done]. rewrite <- Hc1.
  change 16 with (2 ^ 4). apply Z.bits_inj'. intros i Hi. rewrite !Z.testbit_mod_pow2 by lia.
  destruct (Z.ltb_spec i 4), (Z.ltb_spec i 10); try lia; done.
Qed.

(** The width the switch settles on holds both numbers. *)
Lemma switch_bits_spec label s bits :
  fits 64 label -> 0 <= s < NumberCompress_INTERFACES ->
  switch_bits label s (NumberCompress_decompress label) (NumberCompress_bitsUsedForNumber s)
    (NumberCompress_bitsUsedForLabel label) = inr bits ->
  width_ok bits /\ NumberCompress_bitsUsedForNumber s <= bits /\
  NumberCompress_bitsUsedForNumber (NumberCompress_decompress label) <= bits /\
  NumberCompress_getCompressed (NumberCompress_decompress label) bits = label mod 2 ^ bits.
Proof.
  intros Hl Hs. unfold switch_bits.
  set (d := NumberCompress_decompress label). set (b := NumberCompress_bitsUsedForLabel label).
  set (sb := NumberCompress_bitsUsedForNumber s).
  assert (Hsb : width_ok sb)
    by (unfold sb, NumberCompress_bitsUsedForNumber, NumberCompress_v3x5x8_bitsUsedForNumber, width_ok;
        repeat case_match; auto).
  pose proof (bitsUsedForLabel_width label) as Hb. fold b in Hb.
  destruct (_ && _); [done|]. destruct (Z.gtb_spec sb b) as [Hgt|Hle].
  - destruct (Z.eqb_spec d 1) as [Hd|Hd].
    + destruct (Z.eqb_spec 0 (Z.land (Z.lxor label 1) (Z.shiftr UINT64_MAX (64 - sb - 4)))) as [He|];
        [|done]. cbn [negb]. intros [= <-]. split; [done|]. split; [lia|]. rewrite Hd.
      split; [destruct Hsb as [-> |[-> | ->]]; vm_compute; discriminate|].
      assert (Hmask : Z.shiftr UINT64_MAX (64 - sb - 4) = Z.ones (sb + 4)).
      { change UINT64_MAX with (Z.ones 64). destruct Hsb as [-> |[-> | ->]]; reflexivity. }
      rewrite Hmask in He. change (NumberCompress_getCompressed 1 sb) with 1.
      apply Z.bits_inj'. intros i Hi.
      rewrite Z.testbit_mod_pow2 by (destruct Hsb as [-> |[-> | ->]]; lia).
      destruct (Z.ltb_spec i sb) as [Hlt|Hge]; cbn [andb].
      * apply (f_equal (fun z => Z.testbit z i)) in He.
        rewrite Z.land_spec, Z.lxor_spec, Z.bits_0, Z.ones_spec_low, andb_true_r in He by lia.
        by destruct (Z.testbit label i), (Z.testbit 1 i).
      * apply (fits_testbit 1); [by split|]. destruct Hsb as [-> |[-> | ->]]; lia.
    + destruct (Z.eqb_spec 1 s) as [<-|]; [|done].
      exfalso. unfold sb in Hgt. change (NumberCompress_bitsUsedForNumber 1) with 4 in Hgt.
      destruct Hb as [H|[H|H]]; rewrite H in Hgt; lia.
  - intros [= <-]. split; [done|]. split; [done|].
    split; [apply decompress_bound|apply compress_decompress].
Qed.

Lemma route_inv core s label d label' bits :
  fits 64 label -> 0 <= s < NumberCompress_INTERFACES ->
  route core s label = inr (d, label', bits) ->
  d = NumberCompress_decompress label /\
  label' = Z.lor (Z.shiftr label bits) (Bits_bitReverse64 (NumberCompress_getCompressed s bits)) /\
  width_ok bits /\ NumberCompress_bitsUsedForNumber s <= bits /\
  NumberCompress_bitsUsedForNumber d <= bits /\
  NumberCompress_getCompressed d bits = label mod 2 ^ bits /\ fits 64 label'.
Proof.
  intros Hl Hs. unfold route.
  destruct (switch_bits _ _ _ _ _) as [code|b] eqn:Hsb; [done|].
  apply switch_bits_spec in Hsb; [|done..]. destruct Hsb as (Hw & Hsb & Hdb & Hc).
  destruct (bool_decide _); [done|]. destruct (_ && _); [done|]. intros [= <- <- <-].
  split_and!; try done. apply fits_lor; [lia| |apply Bits_bitReverse64_fits].
  apply fits_shiftr_same; [|done]. destruct Hw as [-> |[-> | ->]]; lia.
Qed.

(** The way back: the reversed label leads from the destination to the source,
    and turns into the reversal of the label the packet came with. *)
Lemma route_back core s label d label' bits :
  fits 64 label -> 0 <= s < NumberCompress_INTERFACES -> s <> 1 ->
  route core s label = inr (d, label', bits) ->
  si_alloc (slot core s) <> None -> si_state (slot core s) <> 0 \/ d = 1 ->
  route core d (Bits_bitReverse64 label') = inr (s, Bits_bitReverse64 label, bits).
Proof.
  intros Hl Hs Hs1 Hr Ha Hst. pose proof (route_inv _ _ _ _ _ _ Hl Hs Hr) as
    (Hd & Hl' & Hw & Hsb & Hdb & Hdc & _).
  assert (Hb : 4 <= bits <= 10) by (destruct Hw as [-> |[-> | ->]]; lia).
  destruct (compress_ok s bits Hs Hw Hsb ltac:(done)) as (Hcb & Hcd & Hcr).
  set (c := NumberCompress_getCompressed s bits) in *.
  assert (Hrev : Bits_bitReverse64 label' = c + 2 ^ bits * (Bits_bitReverse64 label mod 2 ^ (64 - bits)))
    by (rewrite Hl'; apply reversed_label; (done || lia)).
  assert (Hub : NumberCompress_bitsUsedForLabel (Bits_bitReverse64 label') = bits)
    by (by rewrite Hrev, bitsUsedForLabel_low, Hcb by done).
  assert (Hde : NumberCompress_decompress (Bits_bitReverse64 label') = s).
  { unfold NumberCompress_decompress. by rewrite Hub, Hrev, getDecompressed_low, Hcd by done. }
  unfold route. rewrite Hde, Hub. unfold switch_bits.
  destruct (Z.eqb_spec 1 s); [lia|]. cbn [andb].
  destruct (Z.gtb_spec (NumberCompress_bitsUsedForNumber d) bits); [lia|].
  rewrite bool_decide_false by done.
  replace ((si_state (slot core s) =? 0) && negb (1 =? d)) with false.
  2: { destruct Hst as [Hst| ->]; [|by rewrite andb_false_r].
       by rewrite (proj2 (Z.eqb_neq _ _) Hst). }
  do 2 f_equal. f_equal. rewrite Hdc, Hrev.
  rewrite Z.shiftr_div_pow2, (Z.mul_comm (2 ^ bits)), Z.div_add, (Z.div_small c), Z.add_0_l by lia.
  apply reversed_twice; [done|lia].
Qed.

(** *** The implementation refines the abstract switch *)

Lemma forwarded_wf h label' bits :
  SwitchHeader_wf h -> SwitchHeader_wf (forwarded h label' bits).
Proof.
  intros [_ Hc _ _]. split; cbn; [apply (bswap_fits 8)|done|apply (fits_mod 8); lia|apply (bswap_fits 2)].
Qed.

Lemma header_read m pre h payload post :
  SwitchHeader_wf h -> msg_view m pre (SwitchHeader_bytes h ++ payload) post ->
  SwitchHeader_of (msg_read m 0 SwitchHeader_SIZE) = h.
Proof.
  intros Hh Hv. pose proof (msg_read_view m pre [] (SwitchHeader_bytes h) payload post Hv) as Hr.
  change (len (@nil Z)) with 0 in Hr. rewrite length_SwitchHeader_bytes in Hr.
  change SwitchHeader_SIZE with (Z.of_nat 12). rewrite Hr, <- (app_nil_r (SwitchHeader_bytes h)).
  by apply SwitchHeader_of_bytes.
Qed.

Lemma header_write m pre h h' payload post :
  msg_view m pre (SwitchHeader_bytes h ++ payload) post ->
  msg_view (msg_write m 0 (SwitchHeader_bytes h')) pre (SwitchHeader_bytes h' ++ payload) post.
Proof. intros Hv. by apply (msg_write_view m pre [] (SwitchHeader_bytes h) payload post). Qed.

(** What [receiveMessage] does, by the decision of [route]. *)
Lemma receiveMessage_route core m pre h payload post s :
  SwitchHeader_wf h -> msg_view m pre (SwitchHeader_bytes h ++ payload) post ->
  0 <= s < NumberCompress_INTERFACES ->
  receiveMessage core m s =
  match route core s (label_of h) with
  | inl code => sendError core s m code
  | inr (d, label', bits) =>
      if SwitchHeader_getLabelShift h + bits >? 63 then Ret None
      else Iface_next core d (msg_write m 0 (SwitchHeader_bytes (forwarded h label' bits)))
  end.
Proof.
  intros Hh Hv Hs. unfold receiveMessage.
  pose proof (msg_view_length _ _ _ _ Hv) as Hlen. rewrite length_app, length_SwitchHeader_bytes in Hlen.
  unfold SwitchHeader_SIZE at 1. destruct (Z.ltb_spec (msg_length m) 12); [lia|].
  rewrite (header_read m pre h payload post Hh Hv). fold (label_of h).
  change (NumberCompress_getDecompressed (label_of h) (NumberCompress_bitsUsedForLabel (label_of h)))
    with (NumberCompress_decompress (label_of h)).
  destruct (decompress_bound (label_of h)) as [Hd _].
  rewrite !(proj2 (Z.ltb_lt _ NumberCompress_INTERFACES)) by lia. cbn [Assert_true mbind Er_bind].
  unfold route. destruct (switch_bits _ _ _ _ _) as [code|bits]; [done|].
  destruct (bool_decide _); [done|].
  change SwitchCore_setInterfaceState_ifaceState_DOWN with 0.
  destruct (_ && _); [done|].
  change (SwitchHeader_getLabelShift (with_label_be ?a ?b)) with (SwitchHeader_getLabelShift a).
  destruct (Z.gtb_spec (SwitchHeader_getLabelShift h + bits) 63); [done|].
  unfold SwitchHeader_setLabelShift. rewrite (proj2 (Z.ltb_lt _ 64)) by lia. done.
Qed.

Lemma forwarded_fields h label' bits :
  SwitchHeader_wf h -> fits 64 label' -> 0 <= bits ->
  SwitchHeader_getLabelShift h + bits <= 63 ->
  label_of (forwarded h label' bits) = label' /\
  SwitchHeader_getLabelShift (forwarded h label' bits) = SwitchHeader_getLabelShift h + bits /\
  SwitchHeader_getVersion (forwarded h label' bits) = SwitchHeader_getVersion h /\
  SwitchHeader_getCongestion (forwarded h label' bits) = SwitchHeader_getCongestion h /\
  SwitchHeader_getSuppressErrors (forwarded h label' bits) = SwitchHeader_getSuppressErrors h /\
  SwitchHeader_getTrafficClass (forwarded h label' bits) = 0xffff.
Proof.
  intros [_ _ Hv _] Hl Hb Hsum. unfold SwitchHeader_getLabelShift, SwitchHeader_getVersion in *.
  cbn [forwarded versionAndLabelShift]. set (v := versionAndLabelShift h) in *.
  assert (Hn : 0 <= Z.land v (SwitchHeader_MASK 6) + bits < 64).
  { assert (0 <= Z.land v (SwitchHeader_MASK 6)) by (apply Z.land_nonneg; unfold fits in Hv; lia). lia. }
  pose proof (byte_below_cases 64 (fun v n =>
    let w := u8 (Z.lor (u8 (Z.shiftl (Z.shiftr v 6) 6)) n) in
    (Z.land w (SwitchHeader_MASK 6) =? n) && (Z.shiftr w 6 =? Z.shiftr v 6))
    v _ ltac:(vm_compute; reflexivity) Hv Hn) as Hc.
  cbv beta zeta in Hc. rewrite andb_true_iff, !Z.eqb_eq in Hc. destruct Hc as [Hc1 Hc2].
  split_and!; try done. unfold label_of. by apply label_roundtrip.
Qed.

(** ** Properties: forwarding *)

(** [C1] A packet whose label leads to interface [d], which is connected, comes out
    there with its payload untouched.  The label's first director is replaced, at
    the other end, by the reversed director of the interface the packet came from, the shift
    count is advanced by the width of the exchange, and the traffic class is
    overwritten with 0xffff; the version, the congestion and the wish to suppress
    errors stay.  (The shift count must have room for the exchange, up to 63.) *)
Theorem switch_forwards core m pre h payload post s d label' bits user :
  SwitchHeader_wf h -> msg_view m pre (SwitchHeader_bytes h ++ payload) post ->
  0 <= s < NumberCompress_INTERFACES ->
  route core s (label_of h) = inr (d, label', bits) ->
  SwitchHeader_getLabelShift h + bits <= 63 ->
  si_connectedIf (slot core d) = Some user ->
  exists out h',
    receiveMessage core m s = Ret (Some (d, user, out)) /\
    msg_view out pre (SwitchHeader_bytes h' ++ payload) post /\ SwitchHeader_wf h' /\
    d = NumberCompress_decompress (label_of h) /\
    label_of h' = Z.lor (Z.shiftr (label_of h) bits)
                    (Bits_bitReverse64 (NumberCompress_getCompressed s bits)) /\
    SwitchHeader_getLabelShift h' = SwitchHeader_getLabelShift h + bits /\
    SwitchHeader_getVersion h' = SwitchHeader_getVersion h /\
    SwitchHeader_getCongestion h' = SwitchHeader_getCongestion h /\
    SwitchHeader_getSuppressErrors h' = SwitchHeader_getSuppressErrors h /\
    SwitchHeader_getTrafficClass h' = 0xffff.
Proof.
  intros Hh Hv Hs Hr Hshift Hu.
  pose proof (route_inv _ _ _ _ _ _ (label_of_fits h) Hs Hr) as (Hd & Hl & Hw & _ & _ & _ & Hf).
  rewrite (receiveMessage_route core m pre h payload post s Hh Hv Hs), Hr.
  destruct (Z.gtb_spec (SwitchHeader_getLabelShift h + bits) 63); [lia|].
  unfold Iface_next. rewrite Hu. eexists _, (forwarded h label' bits). split; [done|].
  split; [by apply (header_write m pre h)|]. split; [by apply forwarded_wf|].
  destruct (forwarded_fields h label' bits) as (-> & -> & -> & -> & -> & ->);
    [done|done|destruct Hw as [-> |[-> | ->]]; lia|done|]. split_and!; done.
Qed.

(** A core with the router and two interfaces: users 10, 11 and 12 on the slots
    1, 0 and 2. *)
Definition example_core : SwitchCore :=
  match (c ← Iface_plumb (SwitchCore_new 100) 10 1;
         '(_, c, _) ← SwitchCore_addInterface c 11 101;
         '(_, c, _) ← SwitchCore_addInterface c 12 102; Ret c) with
  | Ret c => c
  | Abort _ => SwitchCore_new 100
  end.

(** A packet for interface 2, with 100 bytes of padding. *)
Definition example_header : SwitchHeader :=
  mkSwitchHeader (Endian_hostToBigEndian64 0x155) 2 0x40 0xffff.
Definition example_packet : Message :=
  {| msg_length := 17; msg_padding := 100; msg_bytes := 100; msg_capacity := 17;
     msg_associatedFd := 0; msg_addr := 4096;
     msg_mem := zeros 100 ++ SwitchHeader_bytes example_header ++ [1; 2; 3; 4; 5] |}.

Lemma example_header_wf : SwitchHeader_wf example_header.
Proof. split; split; vm_compute; congruence. Qed.

Lemma example_packet_view :
  msg_view example_packet (zeros 100) (SwitchHeader_bytes example_header ++ [1; 2; 3; 4; 5]) [].
Proof. exists [], []. vm_compute. repeat split; done. Qed.

Lemma switch_forwards_witness :
  exists out h',
    receiveMessage example_core example_packet 0 = Ret (Some (2, 12, out)) /\
    msg_view out (zeros 100) (SwitchHeader_bytes h' ++ [1; 2; 3; 4; 5]) [] /\ SwitchHeader_wf h' /\
    2 = NumberCompress_decompress (label_of example_header) /\
    label_of h' = Z.lor (Z.shiftr (label_of example_header) 4)
                    (Bits_bitReverse64 (NumberCompress_getCompressed 0 4)) /\
    SwitchHeader_getLabelShift h' = SwitchHeader_getLabelShift example_header + 4 /\
    SwitchHeader_getVersion h' = SwitchHeader_getVersion example_header /\
    SwitchHeader_getCongestion h' = SwitchHeader_getCongestion example_header /\
    SwitchHeader_getSuppressErrors h' = SwitchHeader_getSuppressErrors example_header /\
    SwitchHeader_getTrafficClass h' = 0xffff.
Proof.
  apply (switch_forwards example_core example_packet (zeros 100) example_header [1; 2; 3; 4; 5] []
           0 2 0xc000000000000015 4 12 example_header_wf example_packet_view);
    [unfold NumberCompress_INTERFACES, NumberCompress_v3x5x8_INTERFACES; lia
    |vm_compute; reflexivity|vm_compute; congruence|vm_compute; reflexivity].
Defined.

(** The way back: when the switch sent a packet from interface [s] to [d],
    a packet which comes in on [d] with the bit-reversal of the label that went
    out there is sent to [s], with the bit-reversal of the label which came in
    on [s].  SwitchNetwork.v carries this over a whole path. *)
Theorem switch_return_path core s d label label' bits m pre h payload post user :
  fits 64 label -> 0 <= s < NumberCompress_INTERFACES -> s <> 1 ->
  route core s label = inr (d, label', bits) ->
  si_alloc (slot core s) <> None -> (si_state (slot core s) <> 0 \/ d = 1) ->
  si_connectedIf (slot core s) = Some user ->
  SwitchHeader_wf h -> msg_view m pre (SwitchHeader_bytes h ++ payload) post ->
  label_of h = Bits_bitReverse64 label' -> SwitchHeader_getLabelShift h + bits <= 63 ->
  exists out h',
    receiveMessage core m d = Ret (Some (s, user, out)) /\
    msg_view out pre (SwitchHeader_bytes h' ++ payload) post /\
    label_of h' = Bits_bitReverse64 label.
Proof.
  intros Hl Hs Hs1 Hr Ha Hst Hu Hh Hv Hlab Hshift.
  pose proof (route_inv _ _ _ _ _ _ Hl Hs Hr) as (Hd & _ & Hw & _).
  pose proof (route_back core s label d label' bits Hl Hs Hs1 Hr Ha Hst) as Hb.
  assert (Hdr : 0 <= d < NumberCompress_INTERFACES) by (rewrite Hd; apply decompress_bound).
  rewrite <- Hlab in Hb. rewrite (receiveMessage_route core m pre h payload post d Hh Hv Hdr), Hb.
  destruct (Z.gtb_spec (SwitchHeader_getLabelShift h + bits) 63); [lia|].
  unfold Iface_next. rewrite Hu. eexists _, (forwarded h (Bits_bitReverse64 label) bits).
  split; [done|]. split; [by apply (header_write m pre h)|].
  apply forwarded_fields; [done|apply Bits_bitReverse64_fits| |done].
  destruct Hw as [-> |[-> | ->]]; lia.
Qed.

(** The reply to [example_packet]: label 0xa800000000000003. *)
Definition example_reply_header : SwitchHeader :=
  mkSwitchHeader (Endian_hostToBigEndian64 (Bits_bitReverse64 0xc000000000000015)) 2 0x40 0xffff.
Definition example_reply : Message :=
  {| msg_length := 12; msg_padding := 100; msg_bytes := 100; msg_capacity := 12;
     msg_associatedFd := 0; msg_addr := 4096;
     msg_mem := zeros 100 ++ SwitchHeader_bytes example_reply_header |}.

Lemma switch_return_path_witness :
  exists out h',
    receiveMessage example_core example_reply 2 = Ret (Some (0, 11, out)) /\
    msg_view out (zeros 100) (SwitchHeader_bytes h' ++ []) [] /\
    label_of h' = Bits_bitReverse64 0x155.
Proof.
  apply (switch_return_path example_core 0 2 0x155 0xc000000000000015 4 example_reply (zeros 100)
           example_reply_header [] [] 11).
  - split; vm_compute; congruence.
  - unfold NumberCompress_INTERFACES, NumberCompress_v3x5x8_INTERFACES; lia.
  - lia.
  - vm_compute; reflexivity.
  - vm_compute; congruence.
  - left. vm_compute; congruence.
  - vm_compute; reflexivity.
  - split; split; vm_compute; congruence.
  - exists [], []. vm_compute. repeat split; done.
  - vm_compute; reflexivity.
  - vm_compute; congruence.
Defined.

(** ** Error packets *)

Lemma bswap_reverse x :
  bswap 8 (u64 (Bits_bitReverse64 x)) = Bits_bitReverse64 (bswap 8 (u64 x)).
Proof.
  unfold u64. rewrite (fits_small 64 (Bits_bitReverse64 x)) by apply Bits_bitReverse64_fits.
  apply Z.bits_inj'. intros i Hi. destruct (Z.ltb_spec i 64) as [H|H].
  - rewrite bswap_testbit by lia.
    set (j := 8 * (Z.of_nat 8 - 1 - i / 8) + i mod 8).
    pose (ok i := let j := 8 * (Z.of_nat 8 - 1 - i / 8) + i mod 8 in
      (0 <=? j) && (j <? 64) &&
      (63 - j =? 8 * (Z.of_nat 8 - 1 - (63 - i) / 8) + (63 - i) mod 8)).
    assert (Hok : ok i = true).
    { assert (forallb ok (seqZ 0 64) = true) as Hall by (vm_compute; reflexivity).
      rewrite forallb_forall in Hall. apply Hall, list_elem_of_In, elem_of_seqZ. lia. }
    unfold ok in Hok. cbv zeta in Hok. fold j in Hok.
    rewrite !andb_true_iff, Z.leb_le, Z.ltb_lt, Z.eqb_eq in Hok. destruct Hok as [[? ?] Hj].
    rewrite !Bits_bitReverse64_testbit, bswap_testbit by lia.
    rewrite <- Hj, Z.testbit_mod_pow2 by lia.
    rewrite (proj2 (Z.ltb_lt _ 64)) by lia. done.
  - rewrite !(fits_testbit 64) by (done || apply (bswap_fits 8) || apply Bits_bitReverse64_fits). done.
Qed.

Lemma error_header_ret x :
  error_header x = Ret (mkSwitchHeader (Bits_bitReverse64 x) 3 0x40 0xffff).
Proof. reflexivity. Qed.

Lemma error_header_wf x : SwitchHeader_wf (mkSwitchHeader (Bits_bitReverse64 x) 3 0x40 0xffff).
Proof. split; cbn; [apply Bits_bitReverse64_fits|by split..]. Qed.

(** The control part of an error packet: the checksum field, then the rest. *)
Definition error_rest (code : Z) (cause : list Z) : list Z :=
  le_bytes 2 Control_ERROR_be ++ le_bytes 4 (Endian_hostToBigEndian32 code) ++ cause.

Lemma msg_view_eq m pre c c' post : msg_view m pre c post -> c = c' -> msg_view m pre c' post.
Proof. by intros H <-. Qed.

Lemma msg_write_at m pre a b r post off bs :
  msg_view m pre (a ++ b ++ r) post -> length bs = length b -> off = len a ->
  msg_view (msg_write m off bs) pre (a ++ bs ++ r) post.
Proof. intros Hv Hl ->. by apply (msg_write_view m pre a b r post bs). Qed.

(** The five stores into the pushed header. *)
Lemma error_writes m pre cause post h code :
  msg_view m pre (zeros 24 ++ cause) post ->
  let m1 := msg_write m 0 (SwitchHeader_bytes h) in
  let m2 := msg_write m1 12 (le_bytes 4 0xffffffff) in
  let m3 := msg_write m2 18 (le_bytes 2 Control_ERROR_be) in
  let m4 := msg_write m3 20 (le_bytes 4 (Endian_hostToBigEndian32 code)) in
  let m5 := msg_write m4 16 (le_bytes 2 0) in
  msg_view m5 pre ((SwitchHeader_bytes h ++ le_bytes 4 0xffffffff) ++
                   le_bytes 2 0 ++ error_rest code cause) post /\
  msg_addr m5 = msg_addr m /\ msg_bytes m5 = msg_bytes m /\ msg_length m5 = msg_length m.
Proof.
  intros Hv m1 m2 m3 m4 m5. split; [|done]. unfold error_rest.
  change (zeros 24) with (zeros 12 ++ zeros 4 ++ zeros 2 ++ zeros 2 ++ zeros 4) in Hv.
  rewrite <- !app_assoc in Hv. set (H := SwitchHeader_bytes h) in *.
  set (F := le_bytes 4 0xffffffff) in *. set (T := le_bytes 2 Control_ERROR_be) in *.
  set (E := le_bytes 4 (Endian_hostToBigEndian32 code)) in *.
  apply (msg_write_at m4 pre (H ++ F) (zeros 2) (T ++ E ++ cause)); [|done|done].
  rewrite <- (app_assoc H). apply (msg_view_eq _ _ ((H ++ F ++ zeros 2 ++ T) ++ E ++ cause));
    [|by rewrite <- !app_assoc].
  apply (msg_write_at m3 pre (H ++ F ++ zeros 2 ++ T) (zeros 4) cause); [|done|done].
  apply (msg_view_eq _ _ ((H ++ F ++ zeros 2) ++ T ++ zeros 4 ++ cause)); [|by rewrite <- !app_assoc].
  apply (msg_write_at m2 pre (H ++ F ++ zeros 2) (zeros 2) (zeros 4 ++ cause)); [|done|done].
  apply (msg_view_eq _ _ (H ++ F ++ zeros 2 ++ zeros 2 ++ zeros 4 ++ cause)); [|by rewrite <- !app_assoc].
  apply (msg_write_at m1 pre H (zeros 4)); [|done|done].
  by apply (msg_write_at m pre [] (zeros 12)).
Qed.

Lemma error_rest_bytes code cause : bytes cause -> bytes (error_rest code cause).
Proof.
  intros Hc. unfold error_rest. repeat (apply Forall_app; split); auto with fits.
Qed.

(** Behind [hd] the checksum of what follows is put into its field. *)
Lemma checksum_written m pre hd rest post :
  msg_view m pre (hd ++ le_bytes 2 0 ++ rest) post -> len hd = 16 -> bytes rest -> len rest <= 1000 ->
  (msg_addr m + msg_bytes m) mod 2 = 0 ->
  exists ck, let n := msg_length m - SwitchHeader_SIZE - 4 in
    Checksum_engine_be (msg_addr m + msg_bytes m + 16) (msg_read m 16 n) n = Ret ck /\
    msg_view (msg_write m 16 (le_bytes 2 ck)) pre (hd ++ with_field [] rest ck) post /\
    Checksum_engine_be 0 (with_field [] rest ck) (len (with_field [] rest ck)) = Ret 0.
Proof.
  intros Hv Hhd Hb Hl Hal. cbv zeta. pose proof (msg_view_length _ _ _ _ Hv) as Hlen.
  assert (msg_length m - SwitchHeader_SIZE - 4 = len (with_field [] rest 0)) as ->.
  { rewrite Hlen. unfold with_field, SwitchHeader_SIZE. rewrite !length_app, length_le_bytes. cbn [length]. lia. }
  assert (msg_read m 16 (len (with_field [] rest 0)) = with_field [] rest 0) as ->.
  { rewrite <- (app_nil_r (le_bytes 2 0 ++ rest)) in Hv. rewrite <- Hhd.
    exact (msg_read_view m pre hd (with_field [] rest 0) [] _ Hv). }
  destruct (engine_field (msg_addr m + msg_bytes m + 16) [] rest) as (ck & Hck & Hck1 & Hck2);
    [|constructor|done|done| |].
  - replace (msg_addr m + msg_bytes m + 16) with (msg_addr m + msg_bytes m + 8 * 2) by lia. by rewrite Z.mod_add by lia.
  - unfold with_field. rewrite !length_app, length_le_bytes. cbn [length]. lia.
  - exists ck. split; [exact Hck1|]. split; [|by apply Hck2].
    exact (msg_write_at m pre hd (le_bytes 2 0) rest _ 16 (le_bytes 2 ck) Hv eq_refl (eq_sym Hhd)).
Qed.

(** [C13] An error is reported to the interface the offending packet came from:
    its label is the bit-reversal of the packet's, it carries the error code
    and the first 256 bytes of the packet, its checksum verifies, and it asks
    for no further errors, so that an error packet never causes another one. *)
Theorem switch_error_packet core s m pre room h payload post code user :
  SwitchHeader_wf h -> msg_view m (pre ++ room) (SwitchHeader_bytes h ++ payload) post ->
  length room = 24%nat -> 4 <= len payload -> bytes payload ->
  SwitchHeader_getSuppressErrors h = false ->
  (msg_addr m + msg_bytes m) mod 2 = 0 ->
  si_connectedIf (slot core s) = Some user ->
  exists out eh ck post',
    let ctrl := with_field [] (error_rest code (take 256 (SwitchHeader_bytes h ++ payload))) ck in
    sendError core s m code = Ret (Some (s, user, out)) /\
    msg_view out pre (SwitchHeader_bytes eh ++ le_bytes 4 0xffffffff ++ ctrl) post' /\
    SwitchHeader_wf eh /\ label_of eh = Bits_bitReverse64 (label_of h) /\
    SwitchHeader_getVersion eh = SwitchHeader_CURRENT_VERSION /\
    Checksum_engine_be 0 ctrl (len ctrl) = Ret 0 /\
    forall s' code', sendError core s' out code' = Ret None.
Proof.
  intros Hh Hv Hroom Hpay Hb Hsup Hal Hu.
  set (c := SwitchHeader_bytes h ++ payload) in *.
  assert (Hcb : bytes c) by (apply bytes_app; auto using SwitchHeader_bytes_bytes).
  pose proof (msg_view_length _ _ _ _ Hv) as Hlen.
  assert (Hlc : 16 <= len c) by (subst c; rewrite length_app, length_SwitchHeader_bytes; lia).
  unfold sendError. unfold SwitchHeader_SIZE at 1. destruct (Z.ltb_spec (msg_length m) (12 + 4)); [lia|].
  rewrite (header_read m (pre ++ room) h payload post Hh Hv), Hsup.
  set (c' := take 256 c).
  assert (Hc'l : len c' = Z.min 256 (len c)) by (subst c'; rewrite length_take; lia).
  assert (Hv0 : msg_view (set_msg_length m (if msg_length m <? Control_Error_MAX_SIZE
      then msg_length m else Control_Error_MAX_SIZE)) (pre ++ room) c' (drop 256 c ++ post)).
  { apply set_msg_length_view; [by rewrite <- (take_drop 256 c) in Hv|].
    unfold Control_Error_MAX_SIZE. destruct (Z.ltb_spec (msg_length m) 256); lia. }
  destruct (epush_view _ pre room c' _ None 24 Hv0) as (m1 & He & Hv1 & _); [lia|lia|].
  change (SwitchHeader_SIZE + 4 + Control_Header_SIZE + Control_Error_HEADER_SIZE) with 24.
  rewrite He. cbn [mbind Er_bind]. rewrite error_header_ret.
  cbn [mbind Er_bind]. set (eh := mkSwitchHeader _ _ _ _).
  pose proof (error_writes m1 pre c' (drop 256 c ++ post) eh code Hv1) as Hw. cbv zeta in Hw.
  set (m5 := msg_write _ 16 (le_bytes 2 0)) in *. destruct Hw as (Hv5 & Ha5 & Hb5 & Hl5).
  set (rest := error_rest code c') in *.
  assert (Hrl : len rest = 6 + len c')
    by (subst rest; unfold error_rest; rewrite !length_app, !length_le_bytes; lia).
  apply epush_addr in He as [Hea Heb].
  destruct (checksum_written m5 pre _ rest _ Hv5) as (ck & Eck & Hvo & Hck);
    [by rewrite length_app, length_SwitchHeader_bytes|apply error_rest_bytes, Forall_take, Hcb|lia| |].
  { rewrite Ha5, Hb5, Hea, Heb. change (i32 24) with 24. cbn [set_msg_length msg_addr msg_bytes].
    replace (msg_addr m + (msg_bytes m - 24)) with (msg_addr m + msg_bytes m + (-12) * 2) by lia.
    by rewrite Z.mod_add by lia. }
  rewrite Eck. cbn [mbind Er_bind]. unfold Iface_next. rewrite Hu.
  eexists _, eh, ck, (drop 256 c ++ post). cbv zeta. split; [done|].
  rewrite <- app_assoc in Hvo. split; [exact Hvo|]. split; [apply error_header_wf|]. split.
  { unfold label_of, Endian_bigEndianToHost64, Endian_hostToBigEndian64, Endian_byteSwap64.
    apply bswap_reverse. }
  split; [done|]. split; [exact Hck|].
  intros s' code'. unfold sendError.
  rewrite (header_read _ pre eh _ _ (error_header_wf _) Hvo).
  change (SwitchHeader_getSuppressErrors eh) with true. cbv zeta iota.
  by destruct (msg_length _ <? SwitchHeader_SIZE + 4).
Qed.

Lemma switch_error_packet_witness :
  exists out eh ck post',
    let ctrl := with_field [] (error_rest 8
      (take 256 (SwitchHeader_bytes example_header ++ [1; 2; 3; 4; 5]))) ck in
    sendError example_core 0 example_packet 8 = Ret (Some (0, 11, out)) /\
    msg_view out (zeros 76) (SwitchHeader_bytes eh ++ le_bytes 4 0xffffffff ++ ctrl) post' /\
    SwitchHeader_wf eh /\ label_of eh = Bits_bitReverse64 (label_of example_header) /\
    SwitchHeader_getVersion eh = SwitchHeader_CURRENT_VERSION /\
    Checksum_engine_be 0 ctrl (len ctrl) = Ret 0 /\
    forall s' code', sendError example_core s' out code' = Ret None.
Proof.
  apply (switch_error_packet example_core 0 example_packet (zeros 76) (zeros 24) example_header
           [1; 2; 3; 4; 5] [] 8 11 example_header_wf example_packet_view);
    [reflexivity|simpl; lia|repeat constructor; vm_compute; congruence|reflexivity|reflexivity|reflexivity].
Defined.

(** ** The interfaces: invariant *)

(** A slot in use: its user's end points back at it, and it is removed when its
    allocator goes.  The router's slot is never removed and may be connected
    late. *)
Record slot_used (core : SwitchCore) (i : Z) : Prop := {
  su_send : si_send (slot core i) = true;
  su_core : si_core (slot core i) = true;
  su_state : si_state (slot core i) = 0 \/ si_state (slot core i) = 1;
  su_conn : forall u, si_connectedIf (slot core i) = Some u -> conns core !! u = Some i;
  su_alloc : exists a, si_alloc (slot core i) = Some a /\
    if i =? 1 then si_onFree (slot core i) = None
    else si_onFree (slot core i) = Some (a, i) /\ (a, i) ∈ jobs core /\
         si_connectedIf (slot core i) <> None;
}.

Record core_ok (core : SwitchCore) : Prop := {
  co_length : len (interfaces core) = NumberCompress_INTERFACES;
  co_router : si_send (slot core 1) = true;
  co_slots : forall i, 0 <= i < NumberCompress_INTERFACES ->
    slot core i = si_zero \/ slot_used core i;
  co_jobs : forall a i, (a, i) ∈ jobs core ->
    0 <= i < NumberCompress_INTERFACES /\ i <> 1 /\ si_alloc (slot core i) = Some a;
  co_conns : forall u i, conns core !! u = Some i -> 0 <= i < NumberCompress_INTERFACES;
}.

Lemma slot_lookup core i : slot core i = default si_zero (interfaces core !! Z.to_nat i).
Proof. unfold slot. by rewrite nth_lookup. Qed.

Lemma slot_set_eq core i si :
  0 <= i < len (interfaces core) -> slot (set_slot core i si) i = si.
Proof.
  intros Hi. rewrite slot_lookup. unfold set_slot. simpl.
  by rewrite list_lookup_insert_eq by lia.
Qed.

Lemma slot_set_ne core i j si :
  0 <= i -> 0 <= j -> i <> j -> slot (set_slot core i si) j = slot core j.
Proof.
  intros Hi Hj Hne. rewrite !slot_lookup. unfold set_slot. simpl.
  by rewrite list_lookup_insert_ne by lia.
Qed.

Lemma slot_set core i j si :
  0 <= i < len (interfaces core) -> 0 <= j ->
  slot (set_slot core i si) j = if decide (i = j) then si else slot core j.
Proof.
  intros Hi Hj. destruct (decide (i = j)) as [<-|]; [by apply slot_set_eq|].
  by apply slot_set_ne; lia.
Qed.

Lemma length_set_slot core i si : len (interfaces (set_slot core i si)) = len (interfaces core).
Proof. unfold set_slot. simpl. by rewrite length_insert. Qed.

Lemma used_not_zero core i : slot_used core i -> slot core i <> si_zero.
Proof. intros [Hs _ _ _ _] He. by rewrite He in Hs. Qed.

Lemma core_send_used core i :
  core_ok core -> 0 <= i < NumberCompress_INTERFACES -> si_send (slot core i) = true ->
  slot_used core i.
Proof. intros [_ _ Hs _ _] Hi He. destruct (Hs i Hi) as [Hz|]; [|done]. by rewrite Hz in He. Qed.

Lemma core_alloc_used core i :
  core_ok core -> 0 <= i < NumberCompress_INTERFACES -> si_alloc (slot core i) <> None ->
  slot_used core i.
Proof. intros [_ _ Hs _ _] Hi He. destruct (Hs i Hi) as [Hz|]; [|done]. by rewrite Hz in He. Qed.

(** *** Preservation *)

(** Slots which an operation does not touch stay in use, whatever happens to the
    jobs and connections of others. *)
Lemma slot_used_frame core core' i :
  slot_used core i -> slot core' i = slot core i ->
  (forall a, (a, i) ∈ jobs core -> si_alloc (slot core i) = Some a -> (a, i) ∈ jobs core') ->
  (forall u, conns core !! u = Some i -> si_connectedIf (slot core i) = Some u ->
     conns core' !! u = Some i) ->
  slot_used core' i.
Proof.
  intros [H1 H2 H3 H4 (a & Ha & H5)] He Hj Hc. split; rewrite He; try done.
  - intros u Hu. by apply Hc; [apply H4|].
  - exists a. split; [done|]. destruct (i =? 1); [done|]. destruct H5 as (H5 & H6 & H7).
    split; [done|]. split; [by apply Hj|done].
Qed.

Definition with_conn (si : SwitchInterface) (c : option Z) : SwitchInterface :=
  {| si_send := si_send si; si_connectedIf := c; si_alloc := si_alloc si;
     si_core := si_core si; si_onFree := si_onFree si; si_state := si_state si |}.
Definition with_onFree (si : SwitchInterface) (j : option (Z * Z)) : SwitchInterface :=
  {| si_send := si_send si; si_connectedIf := si_connectedIf si; si_alloc := si_alloc si;
     si_core := si_core si; si_onFree := j; si_state := si_state si |}.

(** The effect of an operation on slot [i]: only that slot changes. *)
Record updates (core core' : SwitchCore) (i : Z) (si : SwitchInterface) : Prop := {
  up_length : len (interfaces core') = len (interfaces core);
  up_slot : forall j, 0 <= j -> slot core' j = if decide (i = j) then si else slot core j;
}.

Lemma set_slot_updates core core' i si :
  0 <= i < len (interfaces core) -> interfaces core' = interfaces (set_slot core i si) ->
  updates core core' i si.
Proof.
  intros Hi He. split; [by rewrite He, length_set_slot|]. intros j Hj.
  unfold slot at 1. rewrite He. fold (slot (set_slot core i si) j). by apply slot_set.
Qed.

Lemma assert_ret {A} (b : bool) (k : unit -> Er A) r :
  (Assert_true b ≫= k) = Ret r -> b = true /\ k tt = Ret r.
Proof. by destruct b. Qed.

Lemma assert_decide_ret {A} P `{Decision P} (k : unit -> Er A) r :
  (Assert_true (bool_decide P) ≫= k) = Ret r -> P /\ k tt = Ret r.
Proof. intros [H1%bool_decide_eq_true H2]%assert_ret. done. Qed.

Lemma Iface_plumb_inv core u i core' :
  0 <= i < len (interfaces core) -> Iface_plumb core u i = Ret core' ->
  conns core !! u = None /\ si_connectedIf (slot core i) = None /\
  updates core core' i (with_conn (slot core i) (Some u)) /\
  conns core' = <[u := i]> (conns core) /\ jobs core' = jobs core.
Proof.
  intros Hi. unfold Iface_plumb. intros [H1 [H2 [= <-]]%assert_decide_ret]%assert_decide_ret.
  split_and!; try done.
  by apply set_slot_updates.
Qed.

Lemma Iface_unplumb_inv core u i core' :
  0 <= i < len (interfaces core) -> Iface_unplumb core u i = Ret core' ->
  conns core !! u = Some i /\ si_connectedIf (slot core i) = Some u /\
  updates core core' i (with_conn (slot core i) None) /\
  conns core' = delete u (conns core) /\ jobs core' = jobs core.
Proof.
  intros Hi. unfold Iface_unplumb. intros [H1 [H2 [= <-]]%assert_decide_ret]%assert_decide_ret.
  split_and!; try done.
  by apply set_slot_updates.
Qed.

Lemma cancel_job_inv core job core' :
  cancel_job core job = Ret core' ->
  exists j, job = Some j /\ interfaces core' = interfaces core /\ conns core' = conns core /\
    forall k, k ∈ jobs core' <-> k ∈ jobs core /\ k <> j.
Proof.
  destruct job as [j|]; [|done]. unfold cancel_job. intros [H1 [= <-]]%assert_decide_ret.
  exists j. split_and!; try done.
  intros k. simpl. rewrite list_elem_of_filter. tauto.
Qed.

Lemma register_onFree_inv core i core' :
  0 <= i < len (interfaces core) -> register_onFree core i = Ret core' ->
  exists a, si_alloc (slot core i) = Some a /\
    updates core core' i (with_onFree (slot core i) (Some (a, i))) /\
    conns core' = conns core /\ jobs core' = (a, i) :: jobs core.
Proof.
  intros Hi. unfold register_onFree. destruct (si_alloc (slot core i)) as [a|] eqn:Ha; [|done].
  intros [= <-]. exists a. split_and!; try done.
  apply set_slot_updates; [done|]. unfold with_onFree. by rewrite Ha.
Qed.

(** *** Preservation *)

Lemma core_ok_new allocator : core_ok (SwitchCore_new allocator).
Proof.
  unfold SwitchCore_new. set (c0 := {| interfaces := _; conns := _; jobs := _ |}).
  assert (Hlen : len (interfaces c0) = 257) by reflexivity.
  assert (H0 : forall j, slot c0 j = si_zero).
  { intros j. rewrite slot_lookup. unfold c0. cbn [interfaces].
    destruct (_ !! _) as [x|] eqn:Hx; [|done]. by apply lookup_replicate in Hx as [-> _]. }
  split.
  - by rewrite length_set_slot.
  - by rewrite slot_set_eq by lia.
  - intros i Hi. unfold NumberCompress_INTERFACES, NumberCompress_v3x5x8_INTERFACES in Hi.
    destruct (decide (1 = i)) as [<-|Hne].
    + right. split; rewrite slot_set_eq by lia; try done; [by right|]. by exists allocator.
    + left. rewrite slot_set_ne by lia. apply H0.
  - intros a i Hin. simpl in Hin. by apply elem_of_nil in Hin.
  - intros u i. simpl. by rewrite lookup_empty.
Qed.

Lemma find_vacant_spec l : forall k i,
  find_vacant l k = Some i ->
  k <= i < k + len l /\ exists si, l !! Z.to_nat (i - k) = Some si /\ si_send si = false.
Proof.
  induction l as [|si l IH]; intros k i; simpl; [done|].
  destruct (si_send si) eqn:Hs.
  - intros H. destruct (IH _ _ H) as (Hr & si' & Hl & Hs'). split; [lia|]. exists si'.
    split; [|done]. replace (Z.to_nat (i - k)) with (S (Z.to_nat (i - (k + 1)))) by lia. done.
  - intros [= <-]. split; [lia|]. exists si. by rewrite Z.sub_diag.
Qed.

Lemma find_vacant_None l : forall k i si,
  find_vacant l k = None -> l !! i = Some si -> si_send si = true.
Proof.
  induction l as [|x l IH]; intros k i si; simpl; [done|].
  destruct (si_send x) eqn:Hx; [|done]. destruct i as [|i]; simpl; [by intros _ [= <-]|]. apply IH.
Qed.

(** A vacant slot of a well-formed core is empty, and not the router's. *)
Lemma vacant_zero core i :
  core_ok core -> find_vacant (interfaces core) 0 = Some i ->
  0 <= i < NumberCompress_INTERFACES /\ slot core i = si_zero /\ i <> 1.
Proof.
  intros [Hlen Hr Hsl Hj Hco] Hv. apply find_vacant_spec in Hv as (Hi & si & Hsi & Hs).
  rewrite Z.sub_0_r in Hsi. assert (Hz : slot core i = si_zero).
  { destruct (Hsl i ltac:(lia)) as [?|[Hsend _ _ _ _]]; [done|].
    rewrite slot_lookup, Hsi in Hsend. simpl in Hsend. congruence. }
  split; [lia|]. split; [done|]. intros ->. by rewrite Hz in Hr.
Qed.

Lemma core_ok_add core iface alloc rc core' lbl :
  core_ok core -> SwitchCore_addInterface core iface alloc = Ret (rc, core', lbl) -> core_ok core'.
Proof.
  intros Hok. unfold SwitchCore_addInterface.
  destruct (find_vacant (interfaces core) 0) as [i|] eqn:Hv; [|by intros [= _ <- _]].
  destruct (vacant_zero core i Hok Hv) as (Hi & Hz & Hi1). destruct Hok as [Hlen Hr Hsl Hj Hco].
  rewrite Hz. cbn [si_connectedIf si_zero]. set (si := mkSwitchInterface _ _ _ _ _ _).
  set (c1 := add_job (set_slot core i si) alloc i).
  assert (U1 : updates core c1 i si) by (apply set_slot_updates; [lia|done]).
  destruct (Iface_plumb c1 iface i) as [c2|] eqn:Hp; [|done]. cbn [mbind Er_bind].
  intros [= _ <- _]. destruct U1 as [L1 S1].
  apply Iface_plumb_inv in Hp as (Hc & _ & [L2 S2] & C2 & J2); [|rewrite L1; lia].
  rewrite S1, decide_True in S2 by (done || lia).
  assert (Hslot : forall j, 0 <= j -> slot c2 j = if decide (i = j) then with_conn si (Some iface) else slot core j).
  { intros j Hj0. rewrite S2, S1 by done. by destruct (decide (i = j)). }
  change (conns c1) with (conns core) in *. change (jobs c1) with ((alloc, i) :: jobs core) in *.
  split.
  - lia.
  - by rewrite Hslot, decide_False by lia.
  - intros j Hj0. destruct (decide (i = j)) as [<-|Hne].
    + right. split; rewrite Hslot, decide_True by (done || lia); try done; [by right| |].
      * intros u [= <-]. by rewrite C2, lookup_insert_eq.
      * exists alloc. split; [done|]. destruct (Z.eqb_spec i 1); [done|].
        rewrite J2. split_and!; [done|apply list_elem_of_here|done].
    + destruct (Hsl j Hj0) as [?|Hu]; [left; by rewrite Hslot, decide_False by lia|right].
      apply (slot_used_frame core); [done|by rewrite Hslot, decide_False by lia| |].
      * intros a Ha _. rewrite J2. by apply list_elem_of_further.
      * intros u Hu1 _. rewrite C2, lookup_insert_ne; [done|congruence].
  - intros a j. rewrite J2, elem_of_cons. intros [[= -> ->]|Hin].
    + split; [lia|]. split; [done|]. by rewrite Hslot, decide_True by (done || lia).
    + destruct (Hj a j Hin) as (H1 & H2 & H3). split; [done|]. split; [done|].
      rewrite Hslot, decide_False by (lia || (intros <-; by rewrite Hz in H3)). done.
  - intros u j. rewrite C2, lookup_insert_Some. intros [[_ <-]|[_ ?]]; [done|by apply (Hco u)].
Qed.

Lemma core_ok_plumb_router core u core' :
  core_ok core -> Iface_plumb core u 1 = Ret core' -> core_ok core'.
Proof.
  intros [Hlen Hr Hsl Hj Hco] Hp.
  assert (H1 : 0 <= 1 < len (interfaces core))
    by (rewrite Hlen; unfold NumberCompress_INTERFACES, NumberCompress_v3x5x8_INTERFACES; lia).
  apply Iface_plumb_inv in Hp as (Hc & Hn & [L S] & C & J); [|done].
  assert (Hu1 : slot_used core 1) by (destruct (Hsl 1 ltac:(lia)) as [Hz|]; [by rewrite Hz in Hr|done]).
  split; [lia|by rewrite S by lia| | |].
  - intros i Hi. destruct (decide (1 = i)) as [<-|Hne].
    + right. destruct Hu1 as [U1 U2 U3 U4 (a & U5 & U6)].
      split; rewrite S, decide_True by (done || lia); try done.
      * intros v [= <-]. by rewrite C, lookup_insert_eq.
      * by exists a.
    + destruct (Hsl i Hi) as [?|Hu]; [left; by rewrite S, decide_False by lia|right].
      apply (slot_used_frame core); [done|by rewrite S, decide_False by lia|by rewrite J|].
      intros v Hv _. rewrite C, lookup_insert_ne; [done|congruence].
  - intros a i. rewrite J. intros Hin. destruct (Hj a i Hin) as (? & ? & ?).
    split_and!; try done; try lia. by rewrite S, decide_False by lia.
  - intros v j. rewrite C, lookup_insert_Some. intros [[_ <-]|[_ ?]]; [lia|by apply (Hco v)].
Qed.

Lemma core_ok_setState core u st core' :
  core_ok core -> SwitchCore_setInterfaceState core u st = Ret core' -> core_ok core'.
Proof.
  intros Hok. unfold SwitchCore_setInterfaceState.
  destruct (conns core !! u) as [i|] eqn:Hc; [|done].
  intros [Hs [Hst [= <-]]%assert_ret]%assert_ret.
  pose proof (co_conns core Hok u i Hc) as Hi.
  assert (Hst01 : st = 0 \/ st = 1).
  { apply Z.eqb_eq in Hst. change 1 with (Z.ones 1) in Hst. rewrite Z.land_ones in Hst by lia.
    pose proof (Z.mod_pos_bound st (2 ^ 1)). lia. }
  pose proof (core_send_used core i Hok Hi Hs) as [U1 U2 U3 U4 (a & U5 & U6)].
  destruct Hok as [Hlen Hr Hsl Hj Hco]. set (si := mkSwitchInterface _ _ _ _ _ _).
  destruct (set_slot_updates core (set_slot core i si) i si ltac:(lia) eq_refl) as [L S].
  split; [lia| | | |done].
  - rewrite S by lia. destruct (decide (i = 1)) as [->|]; done.
  - intros j Hj0. destruct (decide (i = j)) as [<-|Hne].
    + right. split; rewrite S, decide_True by (done || lia); try done. by exists a.
    + destruct (Hsl j Hj0) as [?|Hu]; [left; by rewrite S, decide_False by lia|right].
      apply (slot_used_frame core); try done. by rewrite S, decide_False by lia.
  - intros b j Hin. destruct (Hj b j Hin) as (? & ? & ?). split_and!; try done; try lia.
    rewrite S by lia. by destruct (decide (i = j)) as [->|].
Qed.

(** Removing the interfaces of a list of jobs empties exactly their slots. *)
Lemma remove_all_slots js : forall core,
  Forall (fun j : Z * Z => 0 <= j.2 < len (interfaces core)) js ->
  let core' := foldl (fun c (j : Z * Z) => removeInterface c j.2) core js in
  len (interfaces core') = len (interfaces core) /\ conns core' = conns core /\
  jobs core' = jobs core /\
  forall i, 0 <= i -> slot core' i = if decide (i ∈ js.*2) then si_zero else slot core i.
Proof.
  induction js as [|[a k] js IH]; intros core Hr; cbn [foldl].
  { split_and!; try done. }
  apply Forall_cons in Hr as [Hk Hr]. simpl in Hk.
  destruct (IH (removeInterface core k)) as (L & C & J & S).
  { unfold removeInterface. by setoid_rewrite length_set_slot. }
  change (interfaces (removeInterface core k)) with (interfaces (set_slot core k si_zero)) in L.
  rewrite length_set_slot in L. cbn [snd].
  split; [done|]. split; [done|]. split; [done|]. intros i Hi. rewrite S by done.
  unfold removeInterface. rewrite slot_set by done. cbn [fmap list_fmap snd].
  destruct (decide (i ∈ js.*2)) as [Hin|Hnin].
  - rewrite decide_True; [done|]. by apply list_elem_of_further.
  - destruct (decide (k = i)) as [->|Hne].
    + rewrite decide_True; [done|]. apply list_elem_of_here.
    + rewrite decide_False; [done|]. rewrite elem_of_cons. intros [?|?]; [congruence|done].
Qed.

(** Freeing an allocator empties the slots of its jobs. *)
Lemma free_alloc_spec core alloc : core_ok core ->
  len (interfaces (free_alloc core alloc)) = len (interfaces core) /\
  conns (free_alloc core alloc) = conns core /\
  jobs (free_alloc core alloc) = filter (fun j : Z * Z => j.1 <> alloc) (jobs core) /\
  forall i, 0 <= i ->
    slot (free_alloc core alloc) i = if decide ((alloc, i) ∈ jobs core) then si_zero else slot core i.
Proof.
  intros [Hlen Hr Hsl Hj Hco]. unfold free_alloc.
  set (mine := filter (fun j : Z * Z => j.1 = alloc) (jobs core)).
  assert (Hmine : forall i, i ∈ mine.*2 <-> (alloc, i) ∈ jobs core).
  { intros i. rewrite list_elem_of_fmap. split.
    - intros ([b k] & -> & Hin). apply list_elem_of_filter in Hin as [Hb Hin]. simpl in *. by subst.
    - intros Hin. exists (alloc, i). split; [done|]. by apply list_elem_of_filter. }
  destruct (remove_all_slots mine core) as (L & C & J & S).
  { apply Forall_forall. intros [b k] Hin. apply list_elem_of_filter in Hin as [_ Hin].
    destruct (Hj b k Hin) as (? & _). simpl. lia. }
  set (c1 := foldl _ core mine) in *. cbn [interfaces conns jobs].
  split; [done|]. split; [done|]. split; [by rewrite J|].
  intros i Hi. unfold slot at 1. cbn [interfaces]. fold (slot c1 i). rewrite S by done.
  destruct (decide (i ∈ mine.*2)) as [H|H]; rewrite Hmine in H;
    [by rewrite decide_True|by rewrite decide_False].
Qed.

Lemma core_ok_free core alloc : core_ok core -> core_ok (free_alloc core alloc).
Proof.
  intros Hok. destruct (free_alloc_spec core alloc Hok) as (L & C & J & Sl).
  destruct Hok as [Hlen Hr Hsl Hj Hco]. split.
  - lia.
  - rewrite Sl by lia. rewrite decide_False; [done|]. intros Hin.
    by destruct (Hj _ _ Hin) as (_ & ? & _).
  - intros i Hi. destruct (decide ((alloc, i) ∈ jobs core)) as [Hin|Hnin].
    { left. by rewrite Sl, decide_True by (done || lia). }
    destruct (Hsl i Hi) as [?|Hu]; [left; by rewrite Sl, decide_False by (done || lia)|right].
    apply (slot_used_frame core); [done|by rewrite Sl, decide_False by (done || lia)| |].
    + intros a Ha _. rewrite J. apply list_elem_of_filter. split; [|done].
      simpl. intros ->. done.
    + intros v Hv _. by rewrite C.
  - intros a i Hin. rewrite J in Hin. apply list_elem_of_filter in Hin as [Hne Hin].
    simpl in Hne. destruct (Hj a i Hin) as (? & ? & Ha). split_and!; try done; try lia.
    rewrite Sl, decide_False by (lia || (intros Hin'; destruct (Hj _ _ Hin') as (_ & _ & ?); congruence)).
    done.
  - by rewrite C.
Qed.

Lemma bind_ret {A B} (m : Er A) (k : A -> Er B) r :
  (m ≫= k) = Ret r -> exists a, m = Ret a /\ k a = Ret r.
Proof. destruct m as [a|]; [|done]. by exists a. Qed.

(** What swapping does: the two slots change places, everything else stays. *)
Lemma swap_inv core u1 u2 core' :
  core_ok core -> SwitchCore_swapInterfaces core u1 u2 = Ret core' ->
  exists i1 i2 a1 a2,
    conns core !! u1 = Some i1 /\ conns core !! u2 = Some i2 /\ i1 <> i2 /\ i1 <> 1 /\ i2 <> 1 /\
    si_alloc (slot core i1) = Some a1 /\ si_alloc (slot core i2) = Some a2 /\
    slot_used core i1 /\ slot_used core i2 /\
    len (interfaces core') = len (interfaces core) /\
    (forall j, 0 <= j -> slot core' j =
       if decide (i2 = j) then with_conn (with_onFree (slot core i1) (Some (a1, i2))) (Some u1)
       else if decide (i1 = j) then with_conn (with_onFree (slot core i2) (Some (a2, i1))) (Some u2)
       else slot core j) /\
    conns core' = <[u1 := i2]> (<[u2 := i1]> (conns core)) /\
    (forall k, k ∈ jobs core' <->
       k = (a1, i2) \/ k = (a2, i1) \/ (k ∈ jobs core /\ k <> (a1, i1) /\ k <> (a2, i2))).
Proof.
  intros Hok. unfold SwitchCore_swapInterfaces.
  destruct (conns core !! u1) as [i1|] eqn:Hu1; [|done].
  destruct (conns core !! u2) as [i2|] eqn:Hu2; [|done].
  pose proof (co_conns core Hok u1 i1 Hu1) as Hi1. pose proof (co_conns core Hok u2 i2 Hu2) as Hi2.
  pose proof (co_length core Hok) as Hlen.
  intros [Hs1 [Hs2 H]%assert_ret]%assert_ret.
  pose proof (core_send_used core i1 Hok Hi1 Hs1) as U1.
  pose proof (core_send_used core i2 Hok Hi2 Hs2) as U2.
  apply bind_ret in H as (c1 & (_ & K1 & [L1 S1] & C1 & J1)%Iface_unplumb_inv & H); [|lia].
  apply bind_ret in H as (c2 & (_ & K2 & [L2 S2] & C2 & J2)%Iface_unplumb_inv & H); [|lia].
  assert (Hne : i1 <> i2) by (intros <-; by rewrite S1, decide_True in K2 by (done || lia)).
  apply bind_ret in H as (c3 & (j1 & O1 & I3 & C3 & J3)%cancel_job_inv & H).
  apply bind_ret in H as (c4 & (j2 & O2 & I4 & C4 & J4)%cancel_job_inv & H).
  assert (S4 : forall j, slot c4 j = slot c2 j) by (intros j; unfold slot; by rewrite I4, I3).
  assert (S3 : forall j, slot c3 j = slot c2 j) by (intros j; unfold slot; by rewrite I3).
  assert (L4 : len (interfaces c4) = len (interfaces core)) by (rewrite I4, I3; lia).
  assert (T1 : slot c4 i1 = with_conn (slot core i1) None)
    by (rewrite S4, S2, decide_False, S1, decide_True by (done || lia); done).
  assert (T2 : slot c4 i2 = with_conn (slot core i2) None)
    by (rewrite S4, S2, decide_True, S1, decide_False by (done || lia); done).
  rewrite T1, T2 in H. set (t1 := with_conn (slot core i1) None) in *.
  set (t2 := with_conn (slot core i2) None) in *.
  destruct (set_slot_updates c4 (set_slot c4 i1 t2) i1 t2 ltac:(lia) eq_refl) as [L5 S5].
  destruct (set_slot_updates (set_slot c4 i1 t2) (set_slot (set_slot c4 i1 t2) i2 t1) i2 t1
              ltac:(lia) eq_refl) as [L6 S6].
  apply bind_ret in H as (c7 & (a2 & A2 & [L7 S7] & C7 & J7)%register_onFree_inv & H); [|lia].
  apply bind_ret in H as (c8 & (a1 & A1 & [L8 S8] & C8 & J8)%register_onFree_inv & H); [|lia].
  apply bind_ret in H as (c9 & (_ & _ & [L9 S9] & C9 & J9)%Iface_plumb_inv & H); [|lia].
  apply Iface_plumb_inv in H as (_ & _ & [L10 S10] & C10 & J10); [|lia].
  rewrite S6, decide_False, S5, decide_True in A2, S7 by (done || lia).
  rewrite S7, decide_False, S6, decide_True in A1, S8 by (done || lia).
  rewrite S8, decide_False, S7, decide_True in S9 by (done || lia).
  rewrite S9, decide_False, S8, decide_True in S10 by (done || lia).
  rewrite S2, decide_False, S1, decide_True in O1 by (done || lia).
  rewrite S3, S2, decide_True, S1, decide_False in O2 by (done || lia).
  exists i1, i2, a1, a2.
  pose proof U1 as [_ _ _ _ (b1 & B1 & F1)]. pose proof U2 as [_ _ _ _ (b2 & B2 & F2)].
  subst t1 t2. cbn [with_conn with_onFree si_alloc si_onFree] in A1, A2, O1, O2.
  assert (b1 = a1) as -> by congruence. assert (b2 = a2) as -> by congruence.
  destruct (Z.eqb_spec i1 1); [congruence|]. destruct (Z.eqb_spec i2 1); [congruence|].
  destruct F1 as (F1 & _). destruct F2 as (F2 & _).
  assert (j1 = (a1, i1)) as -> by congruence. assert (j2 = (a2, i2)) as -> by congruence.
  split_and!; try done; try lia.
  - intros j Hj. rewrite S10, S9, S8, S7, S6, S5, S4, S2, !S1 by (done || lia).
    destruct (decide (i2 = j)) as [<-|]; [done|]. by destruct (decide (i1 = j)) as [<-|].
  - rewrite C10, C9, C8, C7. change (conns (set_slot (set_slot c4 i1 ?x) i2 ?y)) with (conns c4).
    rewrite C4, C3, C2, C1.
    apply map_eq. intros k. rewrite !lookup_insert, !lookup_delete. by repeat case_decide.
  - intros k. rewrite J10, J9, J8, elem_of_cons, J7, elem_of_cons.
    change (jobs (set_slot (set_slot c4 i1 ?x) i2 ?y)) with (jobs c4).
    rewrite J4, J3, J2, J1. tauto.
Qed.

Lemma core_ok_swap core u1 u2 core' :
  core_ok core -> SwitchCore_swapInterfaces core u1 u2 = Ret core' -> core_ok core'.
Proof.
  intros Hok H.
  destruct (swap_inv core u1 u2 core' Hok H) as
    (i1 & i2 & a1 & a2 & Hu1 & Hu2 & Hne & Hi1 & Hi2 & A1 & A2 & U1 & U2 & L & S & C & J).
  pose proof (co_conns core Hok u1 i1 Hu1) as R1. pose proof (co_conns core Hok u2 i2 Hu2) as R2.
  assert (Hu12 : u1 <> u2) by congruence. pose proof Hok as [Hlen Hr Hsl Hj Hco].
  split.
  - lia.
  - by rewrite S, !decide_False by lia.
  - intros i Hi. destruct (decide (i2 = i)) as [<-|N2]; [|destruct (decide (i1 = i)) as [<-|N1]].
    + right. destruct U1 as [V1 V2 V3 V4 _]. split; rewrite S, decide_True by (done || lia); try done.
      * intros v [= <-]. by rewrite C, lookup_insert_eq.
      * exists a1. split; [done|]. rewrite (proj2 (Z.eqb_neq _ _) Hi2). split_and!; [done| |done].
        apply J. by left.
    + right. destruct U2 as [V1 V2 V3 V4 _].
      split; rewrite S, decide_False, decide_True by (done || lia); try done.
      * intros v [= <-]. by rewrite C, lookup_insert_ne, lookup_insert_eq by done.
      * exists a2. split; [done|]. rewrite (proj2 (Z.eqb_neq _ _) Hi1). split_and!; [done| |done].
        apply J. right. by left.
    + destruct (Hsl i Hi) as [?|Hu]; [left; by rewrite S, !decide_False by lia|right].
      apply (slot_used_frame core); [done|by rewrite S, !decide_False by lia| |].
      * intros a Ha _. apply J. right. right. split; [done|]. split; congruence.
      * intros v Hv _. rewrite C, !lookup_insert_ne by congruence. done.
  - intros a i Hin. apply J in Hin as [[= -> ->]|[[= -> ->]|(Hin & N1 & N2)]].
    + split; [done|]. split; [done|]. by rewrite S, decide_True by (done || lia).
    + split; [done|]. split; [done|]. by rewrite S, decide_False, decide_True by (done || lia).
    + destruct (Hj a i Hin) as (H1 & H2 & H3). split; [done|]. split; [done|].
      rewrite S by lia. rewrite decide_False by congruence. by rewrite decide_False by congruence.
  - intros v i. rewrite C, !lookup_insert_Some. intros [[_ <-]|[_ [[_ <-]|[_ ?]]]]; [done|done|].
    by apply (Hco v).
Qed.

(** The life of a switch: interfaces come, change state, change places, and go
    with their allocators. *)
Inductive core_step (core : SwitchCore) : SwitchCore -> Prop :=
| step_plumb_router u core' : Iface_plumb core u 1 = Ret core' -> core_step core core'
| step_add iface alloc rc core' lbl :
    SwitchCore_addInterface core iface alloc = Ret (rc, core', lbl) -> core_step core core'
| step_state u st core' : SwitchCore_setInterfaceState core u st = Ret core' -> core_step core core'
| step_swap u1 u2 core' : SwitchCore_swapInterfaces core u1 u2 = Ret core' -> core_step core core'
| step_free alloc : core_step core (free_alloc core alloc).

Inductive reachable : SwitchCore -> Prop :=
| reach_new allocator : reachable (SwitchCore_new allocator)
| reach_step core core' : reachable core -> core_step core core' -> reachable core'.

Lemma reachable_ok core : reachable core -> core_ok core.
Proof.
  induction 1 as [allocator|core core' _ IH Hs]; [apply core_ok_new|].
  destruct Hs as [u core' H|iface alloc rc core' lbl H|u st core' H|u1 u2 core' H|alloc];
    eauto using core_ok_plumb_router, core_ok_add, core_ok_setState, core_ok_swap, core_ok_free.
Qed.

Lemma used_connected core i :
  slot_used core i -> (i = 1 -> si_connectedIf (slot core 1) <> None) ->
  exists u, si_connectedIf (slot core i) = Some u.
Proof.
  intros [_ _ _ _ (a & _ & H)] H1. destruct (si_connectedIf (slot core i)) as [u|] eqn:Hc; [by exists u|].
  destruct (Z.eqb_spec i 1) as [->|]; [by destruct (H1 eq_refl)|]. by destruct H as (_ & _ & []).
Qed.

(** Reporting an error never stops the process. *)
Lemma sendError_ret core s m pre room h payload post code :
  SwitchHeader_wf h -> msg_view m (pre ++ room) (SwitchHeader_bytes h ++ payload) post ->
  length room = 24%nat -> bytes payload -> (msg_addr m + msg_bytes m) mod 2 = 0 ->
  (exists u, si_connectedIf (slot core s) = Some u) ->
  exists r, sendError core s m code = Ret r.
Proof.
  intros Hh Hv Hroom Hb Hal [u Hu]. unfold sendError.
  destruct (_ <? SwitchHeader_SIZE + 4); [by eexists|].
  destruct (SwitchHeader_getSuppressErrors _); [by eexists|].
  set (l := if msg_length m <? Control_Error_MAX_SIZE then _ else _). set (c := SwitchHeader_bytes h ++ payload) in *.
  pose proof (msg_view_length _ _ _ _ Hv) as Hlen.
  assert (Hl : l = len (take 256 c)).
  { subst l. unfold Control_Error_MAX_SIZE. rewrite length_take.
    destruct (Z.ltb_spec (msg_length m) 256); lia. }
  assert (Hv0 : msg_view (set_msg_length m l) (pre ++ room) (take 256 c) (drop 256 c ++ post))
    by (apply set_msg_length_view; [by rewrite take_drop|done]).
  destruct (epush_view _ pre room _ _ None 24 Hv0) as (m1 & He & Hv1 & _); [lia|lia|].
  change (SwitchHeader_SIZE + 4 + Control_Header_SIZE + Control_Error_HEADER_SIZE) with 24.
  pose proof (epush_addr _ _ _ _ He) as [Ha Hbb]. rewrite He. cbn [mbind Er_bind].
  rewrite error_header_ret. cbn [mbind Er_bind]. unfold Checksum_engine_be, Checksum_step.
  cbn [msg_write msg_addr msg_bytes]. rewrite Ha, Hbb. change (i32 24) with 24.
  cbn [set_msg_length msg_addr msg_bytes].
  replace (msg_addr m + (msg_bytes m - 24) + 16) with (msg_addr m + msg_bytes m + (-4) * 2) by lia.
  rewrite Z.mod_add, Hal by lia. cbn [Z.eqb Assert_true mbind Er_bind].
  unfold Iface_next. rewrite Hu. by eexists.
Qed.

(** [C6] In every state the switch can get into, with its router connected, every
    packet which comes in on an interface in use is dealt with, whatever its bytes
    and however short: it is forwarded, answered with an error or dropped, no
    assertion fails on the way, and a packet without a whole switch header is
    dropped.  The sender keeps the contract of the interface: an even address and
    24 bytes of room for the header of an error. *)
Theorem switch_never_aborts core s m pre room c post :
  reachable core -> si_connectedIf (slot core 1) <> None ->
  0 <= s < NumberCompress_INTERFACES -> si_send (slot core s) = true ->
  msg_view m (pre ++ room) c post -> bytes c ->
  length room = 24%nat -> (msg_addr m + msg_bytes m) mod 2 = 0 ->
  exists r, receiveMessage core m s = Ret r /\ (len c < SwitchHeader_SIZE -> r = None).
Proof.
  intros Hr H1 Hs Hsend Hv Hb Hroom Hal. apply reachable_ok in Hr.
  destruct (Z.lt_ge_cases (len c) SwitchHeader_SIZE) as [Hlt|Hge]; unfold SwitchHeader_SIZE in *.
  { unfold receiveMessage. rewrite (msg_view_length _ _ _ _ Hv). unfold SwitchHeader_SIZE.
    rewrite (proj2 (Z.ltb_lt _ _)) by lia. by eexists. }
  cut (exists r, receiveMessage core m s = Ret r); [intros [r Hx]; exists r; split; [done|lia]|].
  destruct (list_split_at 12 c ltac:(lia)) as (hd & payload & -> & Hhd). apply bytes_app in Hb as [Hbh Hb].
  rewrite <- (SwitchHeader_bytes_of hd Hbh) in Hv by lia.
  assert (Hh : SwitchHeader_wf (SwitchHeader_of hd)) by (apply SwitchHeader_of_wf; [done|lia]).
  revert Hh Hv. generalize (SwitchHeader_of hd). intros h Hh Hv.
  assert (Hus : exists u, si_connectedIf (slot core s) = Some u).
  { apply used_connected; [by apply core_send_used|by intros ->]. }
  rewrite (receiveMessage_route core m _ h payload post s Hh Hv Hs).
  destruct (route core s (label_of h)) as [code|[[d label'] bits]] eqn:Hroute.
  - by apply (sendError_ret core s m pre room h payload post).
  - destruct (_ >? 63); [by eexists|].
    pose proof (route_inv _ _ _ _ _ _ (label_of_fits h) Hs Hroute) as (Hd & _).
    assert (Hdr : 0 <= d < NumberCompress_INTERFACES) by (rewrite Hd; apply decompress_bound).
    assert (Hda : si_alloc (slot core d) <> None).
    { unfold route in Hroute. destruct (switch_bits _ _ _ _ _); [done|].
      case_bool_decide as Hn; [done|]. destruct (_ && _); [done|]. by simplify_eq. }
    destruct (used_connected core d) as [u Hu];
      [by apply core_alloc_used|by intros ->|].
    unfold Iface_next. rewrite Hu. by eexists.
Qed.

(** A run: the router is connected, two interfaces are added, they change
    places and the first allocator is freed. *)
Lemma example_reachable : reachable example_core.
Proof.
  eapply reach_step; [eapply reach_step; [eapply reach_step; [apply (reach_new 100)|]|]|].
  - apply (step_plumb_router _ 10). vm_compute. reflexivity.
  - apply (step_add _ 11 101 0 _ (Some 0x13)). vm_compute. reflexivity.
  - apply (step_add _ 12 102 0 _ (Some 0x15)). vm_compute. reflexivity.
Qed.

Lemma switch_never_aborts_witness :
  exists r, receiveMessage example_core example_packet 0 = Ret r /\
    (len (SwitchHeader_bytes example_header ++ [1; 2; 3; 4; 5]) < SwitchHeader_SIZE -> r = None).
Proof.
  apply (switch_never_aborts example_core 0 example_packet (zeros 76) (zeros 24)
           (SwitchHeader_bytes example_header ++ [1; 2; 3; 4; 5]) []).
  - exact example_reachable.
  - vm_compute. congruence.
  - unfold NumberCompress_INTERFACES, NumberCompress_v3x5x8_INTERFACES; lia.
  - vm_compute. reflexivity.
  - exact example_packet_view.
  - apply (bool_decide_unpack _). by vm_compute.
  - reflexivity.
  - reflexivity.
Defined.

(** Adding an interface connects it to a vacant slot (never the router's)
    and returns the label by which the router reaches it: a packet the router
    sends with that label goes to the new interface, and what is left of the
    label there is the self route 1, with the router as the way back. *)
Theorem addInterface_label core iface alloc rc core' lbl :
  reachable core -> SwitchCore_addInterface core iface alloc = Ret (rc, core', lbl) ->
  match lbl with
  | None => rc = SwitchCore_addInterface_OUT_OF_SPACE /\ core' = core /\
            forall i, 0 <= i < NumberCompress_INTERFACES -> si_send (slot core i) = true
  | Some label =>
      rc = 0 /\ exists i bits, 0 <= i < NumberCompress_INTERFACES /\ i <> 1 /\
        si_send (slot core i) = false /\ conns core' !! iface = Some i /\
        si_connectedIf (slot core' i) = Some iface /\
        route core' 1 label = inr (i, Z.lor 1 (Bits_bitReverse64 1), bits)
  end.
Proof.
  intros Hr. apply reachable_ok in Hr as Hok. unfold SwitchCore_addInterface.
  destruct (find_vacant (interfaces core) 0) as [i|] eqn:Hv.
  2: { intros [= <- <- <-]. split; [done|]. split; [done|]. intros i Hi.
       destruct (si_send (slot core i)) eqn:Hs; [done|exfalso].
       rewrite slot_lookup in Hs. pose proof (co_length core Hok) as Hlen.
       destruct (lookup_lt_is_Some_2 (interfaces core) (Z.to_nat i) ltac:(lia)) as [si Hsi].
       rewrite Hsi in Hs. simpl in Hs. pose proof (find_vacant_None _ _ _ _ Hv Hsi). congruence. }
  destruct (vacant_zero core i Hok Hv) as (Hi & Hz & Hi1). pose proof (co_length core Hok) as Hlen.
  rewrite Hz. cbn [si_connectedIf si_zero]. set (si := mkSwitchInterface _ _ _ _ _ _).
  set (c1 := add_job (set_slot core i si) alloc i).
  destruct (set_slot_updates core c1 i si ltac:(lia) eq_refl) as [L1 S1].
  intros (c2 & (_ & _ & [L2 S2] & C2 & _)%Iface_plumb_inv & [= <- <- <-])%bind_ret; [|lia].
  split; [done|]. set (bits := NumberCompress_bitsUsedForNumber i).
  assert (Hw : width_ok bits)
    by (unfold bits, NumberCompress_bitsUsedForNumber, NumberCompress_v3x5x8_bitsUsedForNumber, width_ok;
        repeat case_match; auto).
  destruct (compress_ok i bits Hi Hw ltac:(done) ltac:(done)) as (Hcb & Hcd & Hcr).
  set (c := NumberCompress_getCompressed i bits) in *.
  assert (Hb4 : 4 <= bits <= 10) by (destruct Hw as [-> |[-> | ->]]; lia).
  assert (Hlab : Z.lor c (Z.shiftl 1 bits) = c + 2 ^ bits * 1)
    by (rewrite lor_shiftl_add by (done || lia); lia).
  assert (Hslot : slot c2 i = with_conn si (Some iface)).
  { rewrite S2, decide_True by (done || lia). by rewrite S1, decide_True by (done || lia). }
  exists i, bits. split_and!; try done; try lia.
  - by rewrite Hz.
  - by rewrite C2, lookup_insert_eq.
  - by rewrite Hslot.
  - unfold route. rewrite Hlab.
    assert (Hub : NumberCompress_bitsUsedForLabel (c + 2 ^ bits * 1) = bits)
      by (by rewrite bitsUsedForLabel_low).
    assert (Hde : NumberCompress_decompress (c + 2 ^ bits * 1) = i).
    { unfold NumberCompress_decompress. rewrite Hub. by rewrite getDecompressed_low. }
    rewrite Hub, Hde. unfold switch_bits. destruct (Z.eqb_spec 1 i); [lia|]. cbn [andb].
    change (NumberCompress_bitsUsedForNumber 1) with 4. destruct (Z.gtb_spec 4 bits); [lia|].
    rewrite Hslot. rewrite bool_decide_false by done. rewrite andb_false_r.
    do 3 f_equal. rewrite Z.shiftr_div_pow2, Z.mul_1_r by lia.
    replace (c + 2 ^ bits) with (c + 1 * 2 ^ bits) by lia.
    rewrite Z.div_add, Z.div_small by lia. f_equal.
Qed.

Lemma addInterface_label_witness :
  exists core' label, SwitchCore_addInterface example_core 13 103 = Ret (0, core', Some label) /\
  (0 = 0 /\ exists i bits, 0 <= i < NumberCompress_INTERFACES /\ i <> 1 /\
     si_send (slot example_core i) = false /\ conns core' !! 13 = Some i /\
     si_connectedIf (slot core' i) = Some 13 /\
     route core' 1 label = inr (i, Z.lor 1 (Bits_bitReverse64 1), bits)).
Proof.
  destruct (SwitchCore_addInterface example_core 13 103) as [[[rc core'] [label|]]|] eqn:H;
    [|vm_compute in H; discriminate..].
  exists core', label. pose proof (addInterface_label example_core 13 103 rc core' (Some label)
    example_reachable H) as [Hrc Hi]. rewrite Hrc in *. split; [done|]. split; [done|exact Hi].
Defined.
