(* ===== verification/SwitchNetwork.v ===== *)
(** * Paths through several switches

    A path is a list of hops, each a switch with the slot where the packet comes
    in and the slot where it goes out; [carry] lets a packet run through
    [receiveMessage] of every switch on the path.  [network_round_trip] is the
    promise of label switching: the label spelled out of the hops' interface
    numbers leads along the path, and the reversed label of the packet which
    arrives leads back, without the switches keeping any state about it. *)
From S2P Require Import Prelude Bits Message Headers NumberCompress LabelSplicer SwitchCore.

(** ** Definitions *)

Record hop := mkHop { hop_core : SwitchCore; hop_in : Z; hop_out : Z }.

(** The packet at the end of the path, if every switch sends it the way the path
    goes. *)
Fixpoint carry (hops : list hop) (m : Message) : Er (option Message) :=
  match hops with
  | [] => Ret (Some m)
  | h :: hops =>
      r ← receiveMessage (hop_core h) m (hop_in h);
      match r with
      | Some (d, _, out) => if d =? hop_out h then carry hops out else Ret None
      | None => Ret None
      end
  end.

Definition turn (h : hop) : hop := mkHop (hop_core h) (hop_out h) (hop_in h).

(** The same path in the other direction. *)
Definition back (hops : list hop) : list hop := rev (map turn hops).

(** The width which holds both interface numbers of a hop, and the label that
    leads along a path. *)
Definition hop_bits (h : hop) : Z :=
  Z.max (NumberCompress_bitsUsedForNumber (hop_in h)) (NumberCompress_bitsUsedForNumber (hop_out h)).

Fixpoint path_bits (hops : list hop) : Z :=
  match hops with [] => 0 | h :: hops => hop_bits h + path_bits hops end.

Fixpoint path_label (hops : list hop) : Z :=
  match hops with
  | [] => 0
  | h :: hops =>
      NumberCompress_getCompressed (hop_out h) (hop_bits h) + 2 ^ hop_bits h * path_label hops
  end.

(** The label of one hop, with the leading 1 as in the label which
    [SwitchCore_addInterface] returns, and the label of a path as the node makes it:
    the labels of the hops spliced, in front of the 1 which is the way from a switch to
    its own router. *)
Definition hop_label (h : hop) : Z :=
  Z.lor (NumberCompress_getCompressed (hop_out h) (hop_bits h)) (Z.shiftl 1 (hop_bits h)).

Fixpoint spliced_label (hops : list hop) : Z :=
  match hops with
  | [] => 0
  | h :: hops =>
      match hops with [] => 1 | _ => LabelSplicer_splice (spliced_label hops) (hop_label h) end
  end.

(** An interface which is up and connected. *)
Record live (core : SwitchCore) (i : Z) : Prop := {
  live_range : 0 <= i < NumberCompress_INTERFACES;
  live_alloc : si_alloc (slot core i) <> None;
  live_up : si_state (slot core i) <> 0;
  live_conn : si_connectedIf (slot core i) <> None;
}.

Definition hop_live (h : hop) : Prop := live (hop_core h) (hop_in h) /\ live (hop_core h) (hop_out h).

(** The router is reached at the last hop and not before. *)
Fixpoint router_last (hops : list hop) : Prop :=
  match hops with
  | [] => True
  | h :: hops => (hop_out h = 1 <-> hops = []) /\ router_last hops
  end.

(** A path from somewhere (the router of the first switch or one of its
    neighbours) to the router of the last switch, through the neighbours of those
    in between. *)
Record path_to_router (hops : list hop) : Prop := {
  path_live : Forall hop_live hops;
  path_inner : Forall (fun h => hop_in h <> 1) (tail hops);
  path_last : router_last hops;
}.

(** ** Widths *)

Lemma number_width n : width_ok (NumberCompress_bitsUsedForNumber n).
Proof.
  unfold NumberCompress_bitsUsedForNumber, NumberCompress_v3x5x8_bitsUsedForNumber, width_ok.
  repeat case_match; auto.
Qed.

Lemma hop_width h : width_ok (hop_bits h).
Proof.
  unfold hop_bits. destruct (Z.max_spec (NumberCompress_bitsUsedForNumber (hop_in h))
    (NumberCompress_bitsUsedForNumber (hop_out h))) as [[_ ->]|[_ ->]]; apply number_width.
Qed.

Lemma width_bounds b : width_ok b -> 4 <= b <= 10.
Proof. intros [-> |[-> | ->]]; lia. Qed.

Lemma path_bits_nonneg hops : 0 <= path_bits hops.
Proof.
  induction hops as [|h hops IH]; cbn [path_bits]; [lia|].
  pose proof (width_bounds _ (hop_width h)). lia.
Qed.

(** Every interface number fits into the width of its hop. *)
Lemma code_bound n b :
  0 <= n < NumberCompress_INTERFACES -> width_ok b -> NumberCompress_bitsUsedForNumber n <= b ->
  0 <= NumberCompress_getCompressed n b < 2 ^ b.
Proof.
  intros Hn Hb Hw. destruct (Z.eqb_spec n 1) as [-> |H1].
  - change (NumberCompress_getCompressed 1 b) with 1. destruct Hb as [-> |[-> | ->]]; lia.
  - by apply (compress_ok n b Hn Hb Hw).
Qed.

Lemma path_label_bound hops :
  Forall hop_live hops -> 0 <= path_label hops < 2 ^ path_bits hops.
Proof.
  induction 1 as [|h hops [Hi Ho] _ IH]; cbn [path_label path_bits]; [lia|].
  pose proof (width_bounds _ (hop_width h)). pose proof (path_bits_nonneg hops).
  destruct (code_bound (hop_out h) (hop_bits h)) as [Hc1 Hc2];
    [apply Ho|apply hop_width|unfold hop_bits; lia|]. rewrite Z.pow_add_r by lia. nia.
Qed.

(** ** One switch *)

(** What a label shorter than its modulus says about its lower bits. *)
Lemma mod_pow2_low label k n x :
  0 <= k <= n -> label mod 2 ^ n = x -> label mod 2 ^ k = x mod 2 ^ k.
Proof.
  intros Hk <-. apply Z.bits_inj'. intros i Hi. rewrite !Z.testbit_mod_pow2 by lia.
  destruct (Z.ltb_spec i k), (Z.ltb_spec i n); try lia; done.
Qed.

Lemma router_label label :
  label mod 2 ^ 4 = 1 ->
  NumberCompress_bitsUsedForLabel label = 4 /\ NumberCompress_decompress label = 1 /\
  Z.land label 0xf = 1.
Proof.
  intros H4. assert (He : label = 1 + 2 ^ 4 * (label / 2 ^ 4))
    by (rewrite <- H4 at 1; rewrite Z.add_comm; apply Z.div_mod; lia).
  assert (Hub : NumberCompress_bitsUsedForLabel label = 4)
    by (rewrite He; by apply bitsUsedForLabel_low; [left|lia]).
  split; [done|]. split.
  - unfold NumberCompress_decompress. by rewrite Hub, He, getDecompressed_low by (by left || lia).
  - change 0xf with (Z.ones 4). by rewrite Z.land_ones by lia.
Qed.

(** At the router the code is followed by four zeros, so that a wide source
    number fits. *)
Lemma switch_bits_router label s sb :
  width_ok sb -> label mod 2 ^ (sb + 4) = 1 -> switch_bits label s 1 sb 4 = inr (Z.max sb 4).
Proof.
  intros Hw H1. pose proof (width_bounds sb Hw).
  pose proof (mod_pow2_low label 4 (sb + 4) 1 ltac:(lia) H1) as H4.
  destruct (router_label label H4) as (_ & _ & Hland). unfold switch_bits. rewrite Hland.
  cbn [Z.eqb Pos.eqb negb andb]. destruct (Z.gtb_spec sb 4) as [Hgt|Hle]; [|f_equal; lia].
  replace (Z.shiftr UINT64_MAX (64 - sb - 4)) with (Z.ones (sb + 4))
    by (change UINT64_MAX with (Z.ones 64); destruct Hw as [-> |[-> | ->]]; reflexivity).
  replace (Z.land (Z.lxor label 1) (Z.ones (sb + 4))) with 0; [cbn; f_equal; lia|].
  apply Z.bits_inj'. intros i Hi.
  rewrite Z.bits_0, Z.land_spec, Z.lxor_spec, Z.testbit_ones_nonneg by lia.
  destruct (Z.ltb_spec i (sb + 4)) as [Hlt|]; [|by rewrite andb_false_r].
  apply (f_equal (fun z => Z.testbit z i)) in H1.
  rewrite Z.testbit_mod_pow2, (proj2 (Z.ltb_lt _ _) Hlt) in H1 by lia. cbn [andb] in H1. rewrite H1.
  by destruct (Z.testbit 1 i).
Qed.

(** The switch follows the code of the outgoing interface. *)
Lemma route_code core s d label :
  let b := Z.max (NumberCompress_bitsUsedForNumber s) (NumberCompress_bitsUsedForNumber d) in
  live core d -> label mod 2 ^ b = NumberCompress_getCompressed d b ->
  (d = 1 -> label mod 2 ^ (b + 4) = 1) ->
  route core s label =
  inr (d, Z.lor (Z.shiftr label b) (Bits_bitReverse64 (NumberCompress_getCompressed s b)), b).
Proof.
  intros b [Hd Ha Hst _] Hc H1. assert (Hw : width_ok b) by apply (hop_width (mkHop core s d)).
  pose proof (width_bounds b Hw).
  cut (NumberCompress_decompress label = d /\
       switch_bits label s d (NumberCompress_bitsUsedForNumber s)
         (NumberCompress_bitsUsedForLabel label) = inr b).
  { intros [Hde Hsb]. unfold route. rewrite Hde, Hsb, bool_decide_false by done.
    by rewrite (proj2 (Z.eqb_neq _ _) Hst). }
  destruct (Z.eqb_spec d 1) as [-> |Hd1].
  - specialize (H1 eq_refl).
    destruct (router_label label (mod_pow2_low label 4 (b + 4) 1 ltac:(lia) H1)) as (-> & -> & _).
    split; [done|]. subst b. change (NumberCompress_bitsUsedForNumber 1) with 4 in *.
    replace (Z.max _ 4) with (NumberCompress_bitsUsedForNumber s) in *
      by (pose proof (width_bounds _ (number_width s)); lia).
    rewrite switch_bits_router by done. f_equal. lia.
  - destruct (compress_ok d b Hd Hw) as (Hcb & Hcd & Hcr); [lia|done|].
    assert (He : label = NumberCompress_getCompressed d b + 2 ^ b * (label / 2 ^ b))
      by (rewrite <- Hc, Z.add_comm; apply Z.div_mod; lia).
    assert (Hub : NumberCompress_bitsUsedForLabel label = b)
      by (rewrite He, bitsUsedForLabel_low by done; done).
    split.
    + unfold NumberCompress_decompress. rewrite Hub, He, getDecompressed_low by done. done.
    + unfold switch_bits. rewrite Hub, (proj2 (Z.eqb_neq 1 d)) by lia. cbn [andb].
      destruct (Z.gtb_spec (NumberCompress_bitsUsedForNumber s) b); [lia|done].
Qed.

(** A packet whose label begins with the code of [d] leaves there. *)
Lemma forward_hop core s d m pre h payload post :
  let b := Z.max (NumberCompress_bitsUsedForNumber s) (NumberCompress_bitsUsedForNumber d) in
  live core s -> live core d -> SwitchHeader_wf h ->
  msg_view m pre (SwitchHeader_bytes h ++ payload) post ->
  label_of h mod 2 ^ b = NumberCompress_getCompressed d b ->
  (d = 1 -> label_of h mod 2 ^ (b + 4) = 1) -> SwitchHeader_getLabelShift h + b <= 63 ->
  exists out h' user,
    receiveMessage core m s = Ret (Some (d, user, out)) /\
    msg_view out pre (SwitchHeader_bytes h' ++ payload) post /\ SwitchHeader_wf h' /\
    label_of h' = Z.lor (Z.shiftr (label_of h) b)
                    (Bits_bitReverse64 (NumberCompress_getCompressed s b)) /\
    SwitchHeader_getLabelShift h' = SwitchHeader_getLabelShift h + b.
Proof.
  intros b Hs Hd Hh Hv Hc H1 Hshift. pose proof (route_code core s d (label_of h) Hd Hc H1) as Hr.
  fold b in Hr. pose proof (hop_width (mkHop core s d)) as Hw. fold b in Hw.
  pose proof (route_inv _ _ _ _ _ _ (label_of_fits h) (live_range _ _ Hs) Hr) as (_&_&_&_&_&_&Hf).
  rewrite (receiveMessage_route core m pre h payload post s Hh Hv (live_range _ _ Hs)), Hr.
  destruct (Z.gtb_spec (SwitchHeader_getLabelShift h + b) 63); [lia|].
  unfold Iface_next. destruct (si_connectedIf (slot core d)) as [user|] eqn:Hu;
    [|by destruct (live_conn _ _ Hd)].
  eexists _, (forwarded h _ b), user. split; [done|].
  split; [by apply (header_write m pre h)|]. split; [by apply forwarded_wf|].
  pose proof (width_bounds b Hw).
  destruct (forwarded_fields h _ b Hh Hf ltac:(lia) Hshift) as (-> & -> & _). done.
Qed.

(** The label that goes out, reversed, begins with the code of the interface the
    packet came from, and leads to the reversal of the label it came with. *)
Lemma reversed_hop s d label b :
  fits 64 label -> 0 <= s < NumberCompress_INTERFACES -> width_ok b ->
  NumberCompress_bitsUsedForNumber s <= b ->
  label mod 2 ^ b = NumberCompress_getCompressed d b ->
  let reply := Bits_bitReverse64
    (Z.lor (Z.shiftr label b) (Bits_bitReverse64 (NumberCompress_getCompressed s b))) in
  reply mod 2 ^ b = NumberCompress_getCompressed s b /\
  (s = 1 -> label < 2 ^ 60 -> reply mod 2 ^ (b + 4) = 1) /\
  Z.lor (Z.shiftr reply b) (Bits_bitReverse64 (NumberCompress_getCompressed d b))
  = Bits_bitReverse64 label.
Proof.
  intros Hl Hs Hw Hsb Hc reply. pose proof (width_bounds b Hw).
  pose proof (code_bound s b Hs Hw Hsb) as Hcs.
  assert (Hr : reply = NumberCompress_getCompressed s b
                       + 2 ^ b * (Bits_bitReverse64 label mod 2 ^ (64 - b)))
    by (apply reversed_label; (done || lia)).
  split_and!.
  - rewrite Hr, (Z.mul_comm (2 ^ b)), Z.mod_add, Z.mod_small by lia. done.
  - intros -> Hlt. rewrite Hr. change (NumberCompress_getCompressed 1 b) with 1.
    assert (H16 : (Bits_bitReverse64 label mod 2 ^ (64 - b)) mod 2 ^ 4 = 0).
    { apply Z.bits_inj'. intros i Hi. rewrite Z.bits_0, !Z.testbit_mod_pow2 by lia.
      destruct (Z.ltb_spec i 4); [|done]. rewrite Bits_bitReverse64_testbit by lia.
      rewrite (fits_testbit 60 label) by (unfold fits in *; lia). by rewrite andb_false_r. }
    apply Z.div_exact in H16; [|lia]. rewrite H16, Z.mul_assoc, <- Z.pow_add_r by lia.
    rewrite (Z.mul_comm (2 ^ (b + 4))), Z.mod_add by lia. apply Z.mod_small.
    split; [lia|]. apply Z.pow_gt_1; lia.
  - rewrite <- Hc, Hr. rewrite Z.shiftr_div_pow2, (Z.mul_comm (2 ^ b)), Z.div_add, Z.div_small by lia.
    apply reversed_twice; [done|lia].
Qed.

(** What remains of the label behind the first code. *)
Lemma next_label label c c' b n rest :
  0 <= b -> 0 <= n -> b + n <= 64 -> 0 <= c < 2 ^ b -> 0 <= c' < 2 ^ b ->
  label mod 2 ^ (b + n) = c + 2 ^ b * rest ->
  Z.lor (Z.shiftr label b) (Bits_bitReverse64 c') mod 2 ^ n = rest.
Proof.
  intros Hb Hn Hbn Hc Hc' Hl.
  assert (Hr : label / 2 ^ b mod 2 ^ n = rest).
  { rewrite Z.pow_add_r, Z.rem_mul_r in Hl by lia.
    pose proof (Z.mod_pos_bound label (2 ^ b) ltac:(lia)). nia. }
  rewrite <- Hr. apply Z.bits_inj'. intros i Hi.
  rewrite !Z.testbit_mod_pow2, Z.lor_spec, <- Z.shiftr_div_pow2 by lia.
  destruct (Z.ltb_spec i n); [|done]. cbn [andb].
  rewrite Bits_bitReverse64_testbit, (fits_testbit b c') by (done || lia). by rewrite orb_false_r.
Qed.

(** ** Paths *)

Lemma carry_app a b m :
  carry (a ++ b) m = (r ← carry a m; match r with Some m => carry b m | None => Ret None end).
Proof.
  revert m. induction a as [|h a IH]; intros m; [done|]. cbn [app carry].
  destruct (receiveMessage _ _ _) as [[[[d u] out]|]|why]; [|done..]. cbn [mbind Er_bind].
  destruct (d =? hop_out h); [apply IH|done].
Qed.

(** One hop of a path: the packet goes on with the label of the remaining path,
    and the reply comes back with the label restored. *)
Lemma hop_there_and_back hp hops m pre h payload post :
  hop_live hp -> path_bits (hp :: hops) <= 60 -> Forall hop_live hops ->
  (hop_out hp = 1 -> hops = []) -> (hop_in hp = 1 -> label_of h < 2 ^ 60) ->
  SwitchHeader_wf h -> msg_view m pre (SwitchHeader_bytes h ++ payload) post ->
  label_of h mod 2 ^ (path_bits (hp :: hops) + 4) = path_label (hp :: hops) ->
  SwitchHeader_getLabelShift h + hop_bits hp <= 63 ->
  exists out h',
    carry [hp] m = Ret (Some out) /\ msg_view out pre (SwitchHeader_bytes h' ++ payload) post /\
    SwitchHeader_wf h' /\ SwitchHeader_getLabelShift h' = SwitchHeader_getLabelShift h + hop_bits hp /\
    label_of h' mod 2 ^ (path_bits hops + 4) = path_label hops /\
    forall reply rpre rh rpayload rpost,
      SwitchHeader_wf rh -> msg_view reply rpre (SwitchHeader_bytes rh ++ rpayload) rpost ->
      label_of rh = Bits_bitReverse64 (label_of h') ->
      SwitchHeader_getLabelShift rh + hop_bits hp <= 63 ->
      exists rout rh',
        carry [turn hp] reply = Ret (Some rout) /\
        msg_view rout rpre (SwitchHeader_bytes rh' ++ rpayload) rpost /\ SwitchHeader_wf rh' /\
        label_of rh' = Bits_bitReverse64 (label_of h) /\
        SwitchHeader_getLabelShift rh' = SwitchHeader_getLabelShift rh + hop_bits hp.
Proof.
  intros [Hi Ho] Hp Hlive Hlast Hin Hh Hv Hl Hshift. destruct hp as [core s d].
  cbn [path_bits path_label hop_core hop_in hop_out] in *.
  assert (Hw : width_ok (hop_bits (mkHop core s d))) by apply hop_width.
  set (b := hop_bits (mkHop core s d)) in *.
  pose proof (width_bounds b Hw) as Hb4. pose proof (path_bits_nonneg hops) as Hpn.
  pose proof (path_label_bound hops Hlive) as Hpl.
  destruct (code_bound d b (live_range _ _ Ho) Hw ltac:(unfold b, hop_bits; cbn; lia)) as [Hc1 Hc2].
  assert (Hc : label_of h mod 2 ^ b = NumberCompress_getCompressed d b).
  { rewrite (mod_pow2_low _ b (b + path_bits hops + 4) _ ltac:(lia) Hl), (Z.mul_comm (2 ^ b)), Z.mod_add by lia.
    by apply Z.mod_small. }
  assert (H1 : d = 1 -> label_of h mod 2 ^ (b + 4) = 1).
  { intros Hd. rewrite (Hlast Hd), Hd in Hl. cbn [path_bits path_label] in Hl.
    rewrite Z.mul_0_r, !Z.add_0_r in Hl. exact Hl. }
  destruct (forward_hop core s d m pre h payload post Hi Ho Hh Hv Hc H1 Hshift)
    as (out & h' & user & Hr & Hv' & Hh' & Hl' & Hs').
  change (Z.max _ _) with b in *.
  exists out, h'. cbn [carry hop_core hop_in hop_out]. rewrite Hr. cbn [mbind Er_bind]. rewrite Z.eqb_refl.
  destruct (reversed_hop s d (label_of h) b (label_of_fits h) (live_range _ _ Hi) Hw
              ltac:(unfold b, hop_bits; cbn; lia) Hc) as (Hr1 & Hr2 & Hr3).
  split_and!; try done.
  - rewrite Hl'. apply (next_label _ (NumberCompress_getCompressed d b)); try lia.
    + apply (code_bound s b (live_range _ _ Hi) Hw). unfold b, hop_bits. cbn. lia.
    + by rewrite Z.add_assoc.
  - intros reply rpre rh rpayload rpost Hrh Hrv Hrl Hrs. rewrite <- Hl' in Hr1, Hr2, Hr3.
    rewrite <- Hrl in Hr1, Hr2, Hr3.
    pose proof (forward_hop core d s reply rpre rh rpayload rpost Ho Hi Hrh Hrv) as Hq.
    rewrite (Z.max_comm (NumberCompress_bitsUsedForNumber d)) in Hq. change (Z.max _ _) with b in Hq.
    destruct Hq as (rout & rh' & u' & Hq & Hqv & Hqh & Hql & Hqs); [done|intros ->; auto|done|].
    exists rout, rh'. cbn [carry turn hop_in hop_out hop_core]. rewrite Hq. cbn [mbind Er_bind]. rewrite Z.eqb_refl.
    by rewrite Hql.
Qed.

Definition may_start (hops : list hop) (label : Z) : Prop :=
  match hops with hp :: _ => hop_in hp = 1 -> label < 2 ^ 60 | [] => True end.

Lemma path_there_and_back hops : forall m pre h payload post,
  path_to_router hops -> path_bits hops <= 60 -> may_start hops (label_of h) ->
  SwitchHeader_wf h -> msg_view m pre (SwitchHeader_bytes h ++ payload) post ->
  label_of h mod 2 ^ (path_bits hops + 4) = path_label hops ->
  SwitchHeader_getLabelShift h + path_bits hops <= 63 ->
  exists out h',
    carry hops m = Ret (Some out) /\ msg_view out pre (SwitchHeader_bytes h' ++ payload) post /\
    SwitchHeader_wf h' /\
    SwitchHeader_getLabelShift h' = SwitchHeader_getLabelShift h + path_bits hops /\
    forall reply rpre rh rpayload rpost,
      SwitchHeader_wf rh -> msg_view reply rpre (SwitchHeader_bytes rh ++ rpayload) rpost ->
      label_of rh = Bits_bitReverse64 (label_of h') ->
      SwitchHeader_getLabelShift rh + path_bits hops <= 63 ->
      exists rout rh',
        carry (back hops) reply = Ret (Some rout) /\
        msg_view rout rpre (SwitchHeader_bytes rh' ++ rpayload) rpost /\ SwitchHeader_wf rh' /\
        label_of rh' = Bits_bitReverse64 (label_of h) /\
        SwitchHeader_getLabelShift rh' = SwitchHeader_getLabelShift rh + path_bits hops.
Proof.
  induction hops as [|hp hops IH]; intros m pre h payload post [Hlive Hin Hlast] Hb Hstart Hh Hv Hl Hs.
  { exists m, h. cbn [path_bits] in *. split_and!; try done; [lia|]. intros reply rpre rh rpayload rpost.
    intros Hrh Hrv Hrl Hrs. exists reply, rh. split_and!; try done. lia. }
  apply Forall_cons in Hlive as [Hl1 Hl2]. destruct Hlast as [Hla1 Hla2].
  pose proof (path_bits_nonneg hops) as Hn. pose proof (width_bounds _ (hop_width hp)) as Hw.
  cbn [path_bits tail] in *.
  assert (Hp : path_to_router hops)
    by (split; [done|destruct hops; [done|by inversion Hin]|done]).
  destruct (hop_there_and_back hp hops m pre h payload post) as
    (m1 & h1 & Hc1 & Hv1 & Hh1 & Hs1 & Hl1' & Hback1); try done; [by intros ?%Hla1|cbn [path_bits]; lia|].
  destruct (IH m1 pre h1 payload post) as (out & h2 & Hc2 & Hv2 & Hh2 & Hs2 & Hback2); try done; [lia| |lia|].
  { destruct hops as [|hp' hops]; [done|]. cbn. intros H. inversion Hin; done. }
  exists out, h2. change (hp :: hops) with ([hp] ++ hops). rewrite carry_app, Hc1. cbn [mbind Er_bind].
  split_and!; try done; [lia|]. intros reply rpre rh rpayload rpost Hrh Hrv Hrl Hrs.
  destruct (Hback2 reply rpre rh rpayload rpost) as (r1 & rh1 & Hr1 & Hrv1 & Hrh1 & Hrl1 & Hrs1);
    try done; [lia|].
  destruct (Hback1 r1 rpre rh1 rpayload rpost) as (r2 & rh2 & Hr2 & Hrv2 & Hrh2 & Hrl2 & Hrs2);
    try done; [lia|].
  exists r2, rh2. unfold back. cbn [map rev app]. fold (back hops).
  rewrite carry_app, Hr1. cbn [mbind Er_bind]. split_and!; try done. lia.
Qed.

(** One more hop in front: [LabelSplicer_splice] shifts and adds. *)
Lemma path_label_splice h hops :
  hop_live h -> Forall hop_live hops -> 0 < path_label hops -> path_bits (h :: hops) <= 60 ->
  path_label (h :: hops) = LabelSplicer_splice (path_label hops) (hop_label h).
Proof.
  unfold hop_label. intros [_ Ho] Hl H0 Hb. cbn [path_bits path_label] in *. pose proof (hop_width h) as Hw.
  pose proof (width_bounds _ Hw). pose proof (path_bits_nonneg hops).
  pose proof (path_label_bound hops Hl) as [_ Hpl].
  pose proof (code_bound (hop_out h) (hop_bits h) (live_range _ _ Ho) Hw
    ltac:(unfold hop_bits; lia)) as Hc.
  set (b := hop_bits h) in *. set (c := NumberCompress_getCompressed _ _) in *.
  rewrite lor_shiftl_add, Z.mul_1_l by (done || lia).
  assert (Hlog : Z.log2 (c + 2 ^ b) = b) by (apply Z.log2_unique; [lia|rewrite Z.pow_succ_r by lia; lia]).
  assert (Hpl2 : Z.log2 (path_label hops) < path_bits hops)
    by (apply Z.log2_lt_pow2; lia).
  assert (H2 : 2 ^ path_bits hops <= 2 ^ 60) by (apply Z.pow_le_mono_r; lia).
  assert (H3 : 2 ^ b <= 2 ^ 10) by (apply Z.pow_le_mono_r; lia).
  assert (2 ^ 60 < 2 ^ 64 /\ 2 * 2 ^ 10 < 2 ^ 64) by done.
  rewrite splice_value by (unfold fits; rewrite ?Hlog; lia). rewrite Hlog. ring.
Qed.

(** What the splicing comes to. *)
Lemma spliced_label_path hops :
  Forall hop_live hops -> router_last hops -> path_bits hops <= 60 ->
  spliced_label hops = path_label hops /\ (hops <> [] -> 0 < path_label hops).
Proof.
  induction hops as [|h hops IH]; intros Hl Hr Hb; [done|].
  apply Forall_cons in Hl as [Hh Hl]. destruct Hr as [[H1 H2] Hr]. cbn [path_bits] in Hb.
  pose proof (width_bounds _ (hop_width h)). destruct hops as [|h2 hops].
  { cbn [spliced_label path_label]. rewrite (H2 eq_refl).
    change (NumberCompress_getCompressed 1 (hop_bits h)) with 1. rewrite Z.mul_0_r. by split. }
  destruct IH as [IH Hpos]; [done..|lia|]. specialize (Hpos ltac:(done)).
  change (spliced_label (h :: h2 :: hops)) with (LabelSplicer_splice (spliced_label (h2 :: hops)) (hop_label h)).
  rewrite IH. split; [symmetry; by apply path_label_splice|]. intros _.
  change (path_label (h :: h2 :: hops)) with
    (NumberCompress_getCompressed (hop_out h) (hop_bits h) + 2 ^ hop_bits h * path_label (h2 :: hops)).
  destruct Hh as [Hi Ho].
  destruct (code_bound (hop_out h) (hop_bits h)) as [Hc1 Hc2];
    [apply Ho|apply hop_width|unfold hop_bits; lia|]. nia.
Qed.

(** ** Properties *)

(** [C3] Label switching works end to end.  Take any path of live interfaces to the
    router of a switch whose director codes take at most 60 bits together (longer
    paths have no label), and a packet with the label which [LabelSplicer_splice]
    makes of the labels of the hops, as it leaves the sender (no shift yet).  It is delivered to the last
    router with its payload untouched; and whatever the receiver sends with the
    bit-reversal of the label it got is carried back along the same path, and
    arrives with the bit-reversal of the label the sender used. *)
Theorem network_round_trip hops m pre h payload post :
  path_to_router hops -> path_bits hops <= 60 ->
  SwitchHeader_wf h -> msg_view m pre (SwitchHeader_bytes h ++ payload) post ->
  label_of h = spliced_label hops -> SwitchHeader_getLabelShift h = 0 ->
  exists out h',
    carry hops m = Ret (Some out) /\ msg_view out pre (SwitchHeader_bytes h' ++ payload) post /\
    SwitchHeader_wf h' /\
    forall reply rpre rh rpayload rpost,
      SwitchHeader_wf rh -> msg_view reply rpre (SwitchHeader_bytes rh ++ rpayload) rpost ->
      label_of rh = Bits_bitReverse64 (label_of h') -> SwitchHeader_getLabelShift rh = 0 ->
      exists rout rh',
        carry (back hops) reply = Ret (Some rout) /\
        msg_view rout rpre (SwitchHeader_bytes rh' ++ rpayload) rpost /\
        label_of rh' = Bits_bitReverse64 (label_of h).
Proof.
  intros Hp Hb Hh Hv Hl Hs. pose proof (path_bits_nonneg hops).
  destruct (spliced_label_path hops (path_live _ Hp) (path_last _ Hp) Hb) as [E _]. rewrite E in Hl. clear E.
  pose proof (path_label_bound hops (path_live _ Hp)) as Hpl.
  assert (Hpow : 2 ^ path_bits hops <= 2 ^ 60) by (apply Z.pow_le_mono_r; lia).
  destruct (path_there_and_back hops m pre h payload post) as (out & h' & Hc & Hv' & Hh' & _ & Hback);
    try done; [| |lia|].
  { rewrite Hl. destruct hops; [done|]. intros _. lia. }
  { rewrite Hl. apply Z.mod_small. rewrite Z.pow_add_r by lia. lia. }
  exists out, h'. split_and!; try done. intros reply rpre rh rpayload rpost Hrh Hrv Hrl Hrs.
  destruct (Hback reply rpre rh rpayload rpost) as (rout & rh' & H1 & H2 & _ & H3 & _); try done; [lia|].
  by exists rout, rh'.
Qed.

(** From the router of one switch over a neighbour (slot 2 there, slot 0 here) to
    the router of the other. *)
Definition example_path : list hop := [mkHop example_core 1 2; mkHop example_core 0 1].
Definition example_path_header : SwitchHeader :=
  mkSwitchHeader (Endian_hostToBigEndian64 0x15) 2 0x40 0xffff.
Definition example_path_packet : Message :=
  {| msg_length := 14; msg_padding := 100; msg_bytes := 100; msg_capacity := 14;
     msg_associatedFd := 0; msg_addr := 4096;
     msg_mem := zeros 100 ++ SwitchHeader_bytes example_path_header ++ [1; 2] |}.

Lemma example_path_ok : path_to_router example_path.
Proof.
  assert (forall i, i = 0 \/ i = 1 \/ i = 2 -> live example_core i) as Hl.
  { intros i [-> |[-> | ->]]; split; try (vm_compute; congruence);
      unfold NumberCompress_INTERFACES, NumberCompress_v3x5x8_INTERFACES; lia. }
  split; [|repeat constructor; cbn; lia|cbn; intuition (done || lia)].
  repeat constructor; apply Hl; cbn; auto.
Qed.

Lemma example_path_view :
  msg_view example_path_packet (zeros 100) (SwitchHeader_bytes example_path_header ++ [1; 2]) [].
Proof. exists [], []. vm_compute. repeat split; done. Qed.

Lemma network_round_trip_witness :
  exists out h',
    carry example_path example_path_packet = Ret (Some out) /\
    msg_view out (zeros 100) (SwitchHeader_bytes h' ++ [1; 2]) [] /\ SwitchHeader_wf h' /\
    forall reply rpre rh rpayload rpost,
      SwitchHeader_wf rh -> msg_view reply rpre (SwitchHeader_bytes rh ++ rpayload) rpost ->
      label_of rh = Bits_bitReverse64 (label_of h') -> SwitchHeader_getLabelShift rh = 0 ->
      exists rout rh',
        carry (back example_path) reply = Ret (Some rout) /\
        msg_view rout rpre (SwitchHeader_bytes rh' ++ rpayload) rpost /\
        label_of rh' = Bits_bitReverse64 (label_of example_path_header).
Proof.
  apply (network_round_trip example_path example_path_packet (zeros 100) example_path_header [1; 2] []
           example_path_ok).
  - vm_compute. congruence.
  - split; split; vm_compute; congruence.
  - apply example_path_view.
  - vm_compute. reflexivity.
  - vm_compute. reflexivity.
Defined.
