(* ===== verification/FramingIface.v ===== *)
(** * interface/FramingIface.c: messages over a byte stream

    A stream (a pipe or a TCP connection) delivers bytes in chunks of any size;
    a message travels as four bytes of length followed by its content.  The
    receiver keeps a partly received header or the parts of a partly received
    frame.  [deframe] is the specification on the bytes of the whole stream;
    [receive_refines] shows that the receiver implements it chunk by chunk, and
    [framing_roundtrip] that what one end sends comes out at the other however
    the stream is chopped. *)
From S2P Require Import Prelude Bits Message.

(** ** Definitions *)

Definition REQUIRED_PADDING : Z := 512.

(** [struct FramingIface_pvt]; [frameParts] is the linked list, newest part
    first, and [header] the bytes of the union. *)
Record FramingIface := mkFraming {
  maxMessageSize : Z;
  bytesRemaining : Z;
  frameParts : list Message;
  header : list Z;
  headerIndex : Z;
}.

Definition set_remaining (fi : FramingIface) (n : Z) : FramingIface :=
  mkFraming (maxMessageSize fi) n (frameParts fi) (header fi) (headerIndex fi).
Definition set_parts (fi : FramingIface) (parts : list Message) : FramingIface :=
  mkFraming (maxMessageSize fi) (bytesRemaining fi) parts (header fi) (headerIndex fi).
Definition set_headerIndex (fi : FramingIface) (i : Z) : FramingIface :=
  mkFraming (maxMessageSize fi) (bytesRemaining fi) (frameParts fi) (header fi) i.
Definition set_header (fi : FramingIface) (bs : list Z) : FramingIface :=
  mkFraming (maxMessageSize fi) (bytesRemaining fi) (frameParts fi) bs (headerIndex fi).

Definition set_associatedFd (m : Message) (fd : Z) : Message :=
  {| msg_length := msg_length m; msg_padding := msg_padding m; msg_bytes := msg_bytes m;
     msg_capacity := msg_capacity m; msg_associatedFd := fd; msg_addr := msg_addr m;
     msg_mem := msg_mem m |}.

Section Framing.

(** What [Allocator_malloc] returns for a size: an address and the content of
    the memory, which is not specified. *)
Context (malloc : Z -> Z * list Z).

(** [for (part = fi->frameParts; part; part = part->next)], pushing every part in
    front of [out]. *)
Fixpoint merge_loop (parts : list Message) (out : Message) : Er Message :=
  match parts with
  | [] => Ret out
  | part :: parts =>
      out ← Message_epush out (Some (msg_read part 0 (msg_length part))) (msg_length part);
      let out := if msg_associatedFd out =? 0
                 then set_associatedFd out (msg_associatedFd part) else out in
      merge_loop parts out
  end.

Definition mergeMessage (fi : FramingIface) (last : Message) : Er Message :=
  let length := foldl (fun length part => i32 (length + msg_length part)) (msg_length last)
                  (frameParts fi) in
  let '(addr, mem) := malloc (length + REQUIRED_PADDING) in
  let out := Message_new 0 (u32 (length + REQUIRED_PADDING)) addr mem in
  out ← Message_epush out (Some (msg_read last 0 (msg_length last))) (msg_length last);
  let out := set_associatedFd out (msg_associatedFd last) in
  out ← merge_loop (frameParts fi) out;
  Assert_true (length <=? msg_length out);;
  Ret out.

(** [while (fi->headerIndex < 4)]: false when the chunk ran out. *)
Fixpoint header_loop (fuel : nat) (fi : FramingIface) (msg : Message)
  : Er (bool * FramingIface * Message) :=
  match fuel with
  | O => Ret (true, fi, msg)
  | S fuel =>
      if headerIndex fi <? 4 then
        if msg_length msg =? 0 then Ret (false, fi, msg)
        else
          let fi := set_header fi (set (header fi) (headerIndex fi) (get (msg_read msg 0 1) 0)) in
          msg ← Message_eshift msg (-1);
          header_loop fuel (set_headerIndex fi (headerIndex fi + 1)) msg
      else Ret (true, fi, msg)
  end.

(** The last branch: the chunk ends inside of a frame. *)
Definition first_part (fi : FramingIface) (msg : Message) : Er FramingIface :=
  let n := msg_length msg + 4 in
  let m := {| msg_length := n; msg_padding := 0; msg_bytes := 0; msg_capacity := n;
              msg_associatedFd := msg_associatedFd msg; msg_addr := (malloc n).1;
              msg_mem := zeros n |} in
  m ← Message_eshift m (- msg_length m);
  m ← Message_epush m (Some (msg_read msg 0 (msg_length msg))) (msg_length msg);
  m ← Message_epush m (Some (header fi)) 4;
  let fi := set_remaining fi (u32 (bytesRemaining fi - msg_length msg)) in
  Ret (set_parts fi [m]).

(** [for (;;)]: the new state and the messages passed to [messageIf], in order.
    Every turn takes four bytes off the chunk, hence the fuel. *)
Fixpoint frame_loop (fuel : nat) (fi : FramingIface) (msg : Message)
  : Er (FramingIface * list Message) :=
  match fuel with
  | O => Abort "out of fuel"
  | S fuel =>
      '(complete, fi, msg) ← header_loop 4 fi msg;
      if negb complete then Ret (fi, [])
      else
        let fi := set_headerIndex fi 0 in
        let fi := set_remaining fi (Endian_bigEndianToHost32 (le_val (header fi))) in
        if bytesRemaining fi >? maxMessageSize fi then Ret (fi, [])
        else if bytesRemaining fi =? u32 (msg_length msg) then Ret (set_remaining fi 0, [msg])
        else if bytesRemaining fi <? u32 (msg_length msg) then
          let '(addr, mem) := malloc (bytesRemaining fi + REQUIRED_PADDING) in
          let m := Message_new (bytesRemaining fi) REQUIRED_PADDING addr mem in
          let m := set_associatedFd m (msg_associatedFd msg) in
          let m := msg_write m 0 (msg_read msg 0 (bytesRemaining fi)) in
          msg ← Message_eshift msg (i32 (u32 (- bytesRemaining fi)));
          '(fi, out) ← frame_loop fuel (set_remaining fi 0) msg;
          Ret (fi, m :: out)
        else
          fi ← first_part fi msg;
          Ret (fi, [])
  end.

(** [receiveMessage] when no frame is being assembled, which is how it calls
    itself after a merge. *)
Definition receive_frames (fi : FramingIface) (msg : Message) : Er (FramingIface * list Message) :=
  if bytesRemaining fi >? maxMessageSize fi then Ret (fi, [])
  else frame_loop (S (Z.to_nat (msg_length msg))) fi msg.

Definition receiveMessage (fi : FramingIface) (msg : Message) : Er (FramingIface * list Message) :=
  if bytesRemaining fi >? maxMessageSize fi then Ret (fi, [])
  else if bool_decide (frameParts fi = []) then receive_frames fi msg
  else if bytesRemaining fi <=? u32 (msg_length msg) then
    wholeMessage ← mergeMessage fi msg;
    let fi := set_parts (set_remaining fi 0) [] in
    Assert_true (headerIndex fi =? 0);;
    receive_frames fi wholeMessage
  else
    let fi := set_remaining fi (u32 (bytesRemaining fi - msg_length msg)) in
    Ret (set_parts fi (msg :: frameParts fi), []).

(** The chunks of a stream one after the other. *)
Fixpoint receive_all (fi : FramingIface) (chunks : list Message)
  : Er (FramingIface * list Message) :=
  match chunks with
  | [] => Ret (fi, [])
  | msg :: chunks =>
      '(fi, out) ← receiveMessage fi msg;
      '(fi, outs) ← receive_all fi chunks;
      Ret (fi, out ++ outs)
  end.

End Framing.

(** What goes to [streamIf]. *)
Definition sendMessage (msg : Message) : Er Message := Message_epush32be msg (msg_length msg).

Definition FramingIface_new (maxMsgSize : Z) : FramingIface :=
  mkFraming maxMsgSize 0 [] (zeros 4) 0.

(** ** The specification *)

(** The frames in a stream of bytes and what is left of it: an incomplete frame,
    or nothing more ([None]) behind a length which is too large. *)
Fixpoint deframe_fuel (fuel : nat) (max : Z) (bs : list Z) : list (list Z) * option (list Z) :=
  match fuel with
  | O => ([], Some bs)
  | S fuel =>
      if len bs <? 4 then ([], Some bs)
      else
        let n := be_val (take 4 bs) in
        if n >? max then ([], None)
        else if len bs - 4 <? n then ([], Some bs)
        else
          let '(frames, rest) := deframe_fuel fuel max (drop (4 + Z.to_nat n) bs) in
          (take (Z.to_nat n) (drop 4 bs) :: frames, rest)
  end.

Definition deframe (max : Z) (bs : list Z) : list (list Z) * option (list Z) :=
  deframe_fuel (S (length bs)) max bs.

#[global] Arguments deframe : simpl never.

(** A message on the wire. *)
Definition frame (content : list Z) : list Z := be_bytes 4 (len content) ++ content.

(** ** The specification, on streams *)

Lemma deframe_fuel_enough max : forall fuel bs,
  (length bs < fuel)%nat -> deframe_fuel fuel max bs = deframe max bs.
Proof.
  intros fuel bs Hf. unfold deframe. remember (S (length bs)) as g eqn:Hg.
  assert (Hg' : (length bs < g)%nat) by lia. clear Hg. revert g bs Hf Hg'.
  induction fuel as [|fuel IH]; intros [|g] bs Hf Hg; [lia..|]. cbn [deframe_fuel].
  destruct (Z.ltb_spec (len bs) 4); [done|]. destruct (_ >? max); [done|].
  destruct (_ <? _); [done|]. rewrite (IH g); [done|rewrite length_drop; lia..].
Qed.

Lemma deframe_short max bs : len bs < 4 -> deframe max bs = ([], Some bs).
Proof. intros H. unfold deframe. cbn [deframe_fuel]. by zdecide (len bs <? 4). Qed.

Lemma deframe_header max h bs :
  length h = 4%nat ->
  deframe max (h ++ bs) =
  if be_val h >? max then ([], None)
  else if len bs <? be_val h then ([], Some (h ++ bs))
  else let '(frames, rest) := deframe max (drop (Z.to_nat (be_val h)) bs) in
       (take (Z.to_nat (be_val h)) bs :: frames, rest).
Proof.
  intros Hh. unfold deframe at 1. cbn [deframe_fuel]. rewrite length_app, Nat2Z.inj_add, Hh.
  zdecide (Z.of_nat 4 + len bs <? 4). rewrite take_app_length' by done.
  destruct (_ >? max); [done|]. replace (Z.of_nat 4 + len bs - 4) with (len bs) by lia.
  destruct (_ <? _); [done|]. rewrite (drop_app_length' h bs 4) by done.
  rewrite drop_app, (drop_ge h) by lia. cbn [app]. rewrite Hh.
  replace (4 + Z.to_nat (be_val h) - 4)%nat with (Z.to_nat (be_val h)) by lia.
  rewrite deframe_fuel_enough; [done|]. rewrite length_drop. lia.
Qed.

(** Reading a stream in two pieces: what the first leaves over is put in front of
    the second. *)
Lemma deframe_app max a b :
  deframe max (a ++ b) =
  let '(frames, rest) := deframe max a in
  match rest with
  | None => (frames, None)
  | Some p => let '(frames', rest') := deframe max (p ++ b) in (frames ++ frames', rest')
  end.
Proof.
  remember (length a) as n eqn:Hn. revert a Hn.
  induction (lt_wf n) as [n _ IH]. intros a ->.
  destruct (Z.ltb_spec (len a) 4) as [Hs|Hs].
  { rewrite (deframe_short max a) by done. by destruct (deframe max (a ++ b)). }
  rewrite <- (take_drop 4 a). set (h := take 4 a). set (t := drop 4 a).
  assert (Hh : length h = 4%nat) by (unfold h; rewrite length_take; lia).
  assert (Ht : (length t + 4 = length a)%nat) by (unfold t; rewrite length_drop; lia).
  rewrite <- app_assoc, !deframe_header by done. destruct (be_val h >? max) eqn:Hmax; [done|].
  destruct (Z.ltb_spec (len t) (be_val h)) as [Hl|Hl].
  - rewrite <- app_assoc, deframe_header by done.
    rewrite Hmax. case_match; [done|]. by case_match.
  - set (k := Z.to_nat (be_val h)). assert (Hk : (k <= length t)%nat) by lia.
    rewrite length_app, Nat2Z.inj_add. zdecide (len t + len b <? be_val h).
    rewrite take_app_le, drop_app_le by done.
    rewrite (IH (length (drop k t)) ltac:(rewrite length_drop; lia) _ eq_refl).
    destruct (deframe max (drop k t)) as [frames [p|]]; [|done].
    by destruct (deframe max (p ++ b)).
Qed.

Lemma deframe_frames max contents :
  Forall (fun c => len c <= max /\ fits 32 (len c)) contents ->
  deframe max (concat (map frame contents)) = (contents, Some []).
Proof.
  induction 1 as [|c contents [Hc Hf] _ IH]; [by apply deframe_short|]. cbn [map concat]. unfold frame at 1.
  rewrite <- app_assoc, deframe_header by apply length_be_bytes.
  rewrite be_val_bytes. change (8 * Z.of_nat 4) with 32. rewrite (fits_small 32) by done.
  destruct (Z.gtb_spec (len c) max); [lia|]. rewrite length_app, Nat2Z.inj_add.
  zdecide (len c + len (concat (map frame contents)) <? len c).
  rewrite Nat2Z.id, drop_app_length, take_app_length, IH. done.
Qed.

(** ** The receiver *)

(** The state and the bytes it stands for: those of an incomplete header, those
    of an incomplete frame, or [None] when the stream has been given up. *)
Inductive represents (fi : FramingIface) : option (list Z) -> Prop :=
| rep_dead : maxMessageSize fi < bytesRemaining fi -> represents fi None
| rep_header p :
    length (header fi) = 4%nat -> frameParts fi = [] -> bytesRemaining fi = 0 ->
    headerIndex fi = len p -> len p < 4 -> take (length p) (header fi) = p -> bytes p ->
    represents fi (Some p)
| rep_frame h parts t :
    length (header fi) = 4%nat -> headerIndex fi = 0 -> frameParts fi = parts -> parts <> [] ->
    Forall msg_ok parts -> concat (rev (map msg_content parts)) = h ++ t ->
    length h = 4%nat -> bytes h -> bytes t -> be_val h <= maxMessageSize fi ->
    len t < be_val h -> bytesRemaining fi = be_val h - len t ->
    represents fi (Some (h ++ t)).

Lemma set_prefix (hd p : list Z) x :
  length hd = 4%nat -> (length p < 4)%nat -> take (length p) hd = p ->
  take (S (length p)) (set hd (len p) x) = p ++ [x].
Proof.
  intros Hh Hp Ht. unfold set. rewrite Nat2Z.id, (take_S_r _ _ x).
  - by rewrite take_insert_ge, Ht.
  - rewrite list_lookup_insert_eq; [done|lia].
Qed.

Lemma header_loop_spec fuel : forall fi msg p pre c post,
  length (header fi) = 4%nat -> headerIndex fi = len p -> len p <= 4 ->
  take (length p) (header fi) = p -> msg_view msg pre c post -> (4 <= length p + fuel)%nat ->
  exists hd msg',
    length hd = 4%nat /\
    if len p + len c <? 4
    then header_loop fuel fi msg = Ret (false, set_headerIndex (set_header fi hd) (len (p ++ c)), msg') /\
         take (length (p ++ c)) hd = p ++ c
    else header_loop fuel fi msg = Ret (true, set_headerIndex (set_header fi hd) 4, msg') /\
         hd = p ++ take (4 - length p) c /\
         msg_view msg' (pre ++ take (4 - length p) c) (drop (4 - length p) c) post /\
         msg_associatedFd msg' = msg_associatedFd msg.
Proof.
  induction fuel as [|fuel IH]; intros fi msg p pre c post Hh Hi Hp Ht Hv Hf; cbn [header_loop].
  - exists (header fi), msg. split; [done|]. zdecide (len p + len c <? 4). split_and!.
    + destruct fi; cbn in *. by replace (headerIndex0) with 4 by lia.
    + replace (4 - length p)%nat with 0%nat by lia. by rewrite app_nil_r, <- Ht, take_ge by lia.
    + replace (4 - length p)%nat with 0%nat by lia. by rewrite app_nil_r.
    + done.
  - rewrite Hi. destruct (Z.ltb_spec (len p) 4) as [H4|H4].
    2: { exists (header fi), msg. split; [done|]. zdecide (len p + len c <? 4). split_and!.
         - destruct fi; cbn in *. by replace (headerIndex0) with 4 by lia.
         - replace (4 - length p)%nat with 0%nat by lia. by rewrite app_nil_r, <- Ht, take_ge by lia.
         - replace (4 - length p)%nat with 0%nat by lia. by rewrite app_nil_r.
         - done. }
    rewrite (msg_view_length _ _ _ _ Hv). destruct c as [|x c].
    { exists (header fi), msg. split; [done|]. change (len (@nil Z)) with 0.
      zdecide (len p + 0 <? 4). rewrite app_nil_r. split; [|done]. destruct fi; cbn in *. by rewrite <- Hi. }
    change (len (x :: c) =? 0) with false. cbv iota.
    pose proof (msg_read_view msg pre [] [x] c post Hv) as Hr. change (len (@nil Z)) with 0 in Hr.
    change (len [x]) with 1 in Hr. rewrite Hr. change (get [x] 0) with x.
    destruct (eshift_pop msg pre [x] c post Hv) as (m1 & He & Hv1 & _ & Hfd).
    change (- len [x]) with (-1) in He. rewrite He. cbn [mbind Er_bind].
    set (fi1 := set_headerIndex _ _).
    destruct (IH fi1 m1 (p ++ [x]) (pre ++ [x]) c post) as (hd & m2 & Hhd & Hres).
    + cbn. by rewrite length_set.
    + cbn. rewrite length_app, Hi. cbn. lia.
    + rewrite length_app. cbn. lia.
    + cbn. rewrite length_app, Nat.add_1_r. apply set_prefix; [done|lia|done].
    + done.
    + rewrite length_app. cbn. lia.
    + exists hd, m2. split; [done|]. rewrite length_app in Hres. cbn [length] in *.
      replace (len p + Z.of_nat (S (length c)) <? 4)
        with (Z.of_nat (length p + 1) + len c <? 4) by (f_equal; lia).
      destruct (_ <? 4) eqn:Hlt.
      * rewrite <- app_assoc in Hres. exact Hres.
      * destruct Hres as (Hr1 & Hr2 & Hr3 & Hr4). apply Z.ltb_ge in Hlt.
        replace (4 - length p)%nat with (S (4 - (length p + 1))) by lia. cbn [take drop].
        rewrite <- !app_assoc in Hr2, Hr3. rewrite Hr4. done.
Qed.

Section Receiving.
Context (malloc : Z -> Z * list Z) (malloc_size : forall n, 0 <= n -> len (malloc n).2 = n).
#[local] Set Default Proof Using "All".

Lemma msg_read_all m pre c post : msg_view m pre c post -> msg_read m 0 (len c) = c.
Proof.
  intros Hv. pose proof (msg_read_view m pre [] c [] post) as Hr. rewrite app_nil_r in Hr.
  by apply Hr.
Qed.

(** Pushing a whole byte string. *)
Lemma epush_all m pre room c post bs :
  msg_view m (pre ++ room) c post -> length room = length bs ->
  exists m', Message_epush m (Some bs) (len bs) = Ret m' /\ msg_view m' pre (bs ++ c) post /\
    msg_associatedFd m' = msg_associatedFd m.
Proof.
  intros Hv Hl. destruct (epush_view m pre room c post (Some bs) (len bs) Hv) as (m' & He & Hv' & Hf);
    [lia|done|]. exists m'. rewrite Nat2Z.id, take_ge in Hv' by lia. done.
Qed.

Lemma first_part_spec fi msg h c pre post :
  length h = 4%nat -> header fi = h -> headerIndex fi = 0 -> bytes h -> bytes c ->
  bytesRemaining fi = be_val h -> be_val h <= maxMessageSize fi -> len c < be_val h ->
  len c + 1024 < 2 ^ 31 -> msg_view msg pre c post ->
  exists fi', first_part malloc fi msg = Ret fi' /\ represents fi' (Some (h ++ c)) /\
    maxMessageSize fi' = maxMessageSize fi.
Proof.
  intros Hh Hhd Hi Hbh Hbc Hrem Hmax Hlt Hsmall Hv. unfold first_part.
  rewrite (msg_view_length _ _ _ _ Hv), (msg_read_all _ _ _ _ Hv). set (n := len c + 4).
  set (m0 := mkMessage _ _ _ _ _ _ _).
  assert (Hz : length (zeros n) = (4 + length c)%nat) by (unfold zeros, n; rewrite length_replicate; lia).
  assert (Hv0 : msg_view m0 [] (zeros n ++ []) []).
  { exists [], []. cbn. rewrite app_nil_r, !app_nil_r, Hz. unfold n. split_and!; (done || lia). }
  destruct (eshift_pop m0 [] (zeros n) [] [] Hv0) as (m1 & H1 & Hv1 & _ & _).
  replace (- msg_length m0) with (- len (zeros n)) by (cbn; rewrite Hz; unfold n; lia).
  rewrite H1. cbn [mbind Er_bind]. cbn [app] in Hv1.
  rewrite <- (take_drop 4 (zeros n)) in Hv1.
  destruct (epush_all m1 (take 4 (zeros n)) (drop 4 (zeros n)) [] [] c Hv1) as (m2 & H2 & Hv2 & _);
    [rewrite length_drop; lia|].
  rewrite H2. cbn [mbind Er_bind]. rewrite Hhd.
  destruct (epush_all m2 [] (take 4 (zeros n)) (c ++ []) [] h Hv2) as (m3 & H3 & Hv3 & _);
    [rewrite length_take; lia|].
  replace (len h) with 4 in H3 by lia. rewrite H3. cbn [mbind Er_bind]. rewrite app_nil_r in Hv3.
  eexists. split; [done|]. split; [|done].
  pose proof (be_val_bound h Hbh) as Hbv. rewrite Hh in Hbv. unfold fits in Hbv.
  apply (rep_frame _ h [m3] c); cbn; try done; try (by rewrite Hhd).
  - constructor; [|done]. by exists [], (h ++ c), [].
  - by rewrite app_nil_r, (msg_view_content _ _ _ _ Hv3).
  - rewrite Hrem. unfold u32. apply Z.mod_small. cbn in Hbv. lia.
Qed.

(** The copy of a frame that does not end the chunk. *)
Lemma copy_frame n fd a :
  0 <= n -> n + 1024 < 2 ^ 31 -> len a = n ->
  let '(addr, mem) := malloc (n + REQUIRED_PADDING) in
  exists pre, msg_view
    (msg_write (set_associatedFd (Message_new n REQUIRED_PADDING addr mem) fd) 0 a) pre a [].
Proof.
  intros Hn Hs Ha. pose proof (malloc_size (n + REQUIRED_PADDING)) as Hm.
  destruct (malloc (n + REQUIRED_PADDING)) as [addr mem]. cbn [snd] in Hm.
  unfold REQUIRED_PADDING in *. specialize (Hm ltac:(lia)). exists (take 512 mem).
  assert (Hv : msg_view (set_associatedFd (Message_new n 512 addr mem) fd) (take 512 mem)
                 ([] ++ drop 512 mem ++ []) []).
  { exists [], []. cbn. rewrite !app_nil_r, take_drop, length_take, length_drop, !i32_small by lia.
    split_and!; (done || lia). }
  pose proof (msg_write_view _ _ [] (drop 512 mem) [] [] a Hv) as Hw. rewrite !app_nil_r in Hw.
  apply Hw. rewrite length_drop. lia.
Qed.

Lemma frame_loop_spec fuel : forall fi msg p pre c post,
  length (header fi) = 4%nat -> frameParts fi = [] -> bytesRemaining fi = 0 ->
  headerIndex fi = len p -> len p < 4 -> take (length p) (header fi) = p -> bytes p ->
  msg_view msg pre c post -> bytes c -> (length c < fuel)%nat -> len c + 1024 < 2 ^ 31 ->
  exists fi' outs frames rest,
    frame_loop malloc fuel fi msg = Ret (fi', outs) /\
    deframe (maxMessageSize fi) (p ++ c) = (frames, rest) /\
    map msg_content outs = frames /\ Forall msg_ok outs /\ represents fi' rest /\
    maxMessageSize fi' = maxMessageSize fi.
Proof.
  induction fuel as [|fuel IH]; intros fi msg p pre c post Hh Hfp Hrem Hi Hp Ht Hbp Hv Hbc Hf Hsm; [lia|].
  cbn [frame_loop].
  destruct (header_loop_spec 4 fi msg p pre c post Hh Hi ltac:(lia) Ht Hv ltac:(lia))
    as (hd & m1 & Hhd & Hres).
  destruct (Z.ltb_spec (len p + len c) 4) as [Hshort|Hlong].
  { destruct Hres as [He Hpc]. rewrite He. cbn [mbind Er_bind negb]. eexists _, _, _, _.
    split; [done|]. rewrite deframe_short by (rewrite length_app; lia). split_and!; try done.
    apply rep_header; cbn; try done; [rewrite length_app; lia|by apply Forall_app]. }
  destruct Hres as (He & Hhe & Hv1 & Hfd). rewrite He. cbn [mbind Er_bind negb].
  set (k := (4 - length p)%nat) in *. set (c1 := drop k c) in *.
  assert (Hbh : bytes hd) by (rewrite Hhe; apply Forall_app; split; [done|by apply Forall_take]).
  assert (Hb1 : bytes c1) by by apply Forall_drop.
  assert (Hc1 : (length c1 + k = length c)%nat) by (unfold c1; rewrite length_drop; lia).
  replace (p ++ c) with (hd ++ c1) by (rewrite Hhe, <- app_assoc; unfold c1; by rewrite take_drop).
  rewrite deframe_header by done. cbn [header set_remaining set_headerIndex set_header].
  assert (Hval : Endian_bigEndianToHost32 (le_val hd) = be_val hd)
    by (by apply (toHost_be 4 32)).
  rewrite Hval. cbn [bytesRemaining set_remaining maxMessageSize].
  cbn [set_headerIndex set_header bytesRemaining maxMessageSize].
  destruct (be_val hd >? maxMessageSize fi) eqn:Hmax.
  { eexists _, _, _, _. split_and!; try done. apply rep_dead. cbn. apply Z.gtb_lt in Hmax. lia. }
  rewrite Z.gtb_ltb in Hmax. apply Z.ltb_ge in Hmax.
  rewrite (msg_view_length _ _ _ _ Hv1).
  pose proof (be_val_bound hd Hbh) as Hbv. rewrite Hhd in Hbv. change (8 * Z.of_nat 4) with 32 in Hbv.
  replace (u32 (len c1)) with (len c1) by (unfold u32; rewrite Z.mod_small; lia).
  destruct (Z.eqb_spec (be_val hd) (len c1)) as [Heq|Hne].
  { zdecide (len c1 <? be_val hd). rewrite Heq, Nat2Z.id, drop_all, take_ge by lia.
    rewrite deframe_short by (cbn; lia). eexists _, _, _, _. split; [done|]. split; [done|]. split_and!; try done.
    - cbn. by rewrite (msg_view_content _ _ _ _ Hv1).
    - constructor; [|done]. by eexists _, _, _.
    - apply rep_header; cbn; (done || lia). }
  destruct (Z.ltb_spec (be_val hd) (len c1)) as [Hlt|Hge].
  - zdecide (len c1 <? be_val hd). set (n := be_val hd) in *. set (a := take (Z.to_nat n) c1).
    unfold fits in Hbv. assert (Ha : len a = n) by (unfold a; rewrite length_take; lia).
    rewrite <- (take_drop (Z.to_nat n) c1) in Hv1. fold a in Hv1. set (c2 := drop _ c1) in *.
    assert (Hrd : msg_read m1 0 n = a).
    { rewrite <- Ha. apply (msg_read_view m1 _ [] a c2 post Hv1). }
    destruct (eshift_pop m1 _ a c2 post Hv1) as (m2 & Hs & Hv2 & _).
    pose proof (copy_frame n (msg_associatedFd m1) a ltac:(lia) ltac:(lia) Ha) as Hcopy.
    destruct (malloc (n + REQUIRED_PADDING)) as [addr mem]. destruct Hcopy as (cpre & Hcopy).
    rewrite Hrd. replace (i32 (u32 (- n))) with (- len a).
    2: { rewrite Ha. unfold i32, u32. rewrite Zplus_mod_idemp_l, Z.mod_small; lia. }
    rewrite Hs. cbn [mbind Er_bind].
    destruct (IH (mkFraming (maxMessageSize fi) 0 (frameParts fi) hd 0) m2 []
                ((pre ++ take k c) ++ a) c2 post)
      as (fi' & outs & frames & rest & Hr & Hd & Hm & Hok & Hrep & Hmx); cbn; try done;
      [by apply Forall_drop|unfold c2; rewrite length_drop; lia|unfold c2; rewrite length_drop; lia|].
    change (frame_loop malloc fuel _ m2) with
      (frame_loop malloc fuel (mkFraming (maxMessageSize fi) 0 (frameParts fi) hd 0) m2).
    rewrite Hr. cbn [mbind Er_bind]. cbn [app maxMessageSize] in Hd. rewrite Hd.
    eexists _, _, _, _. split_and!; try done.
    + cbn. by rewrite (msg_view_content _ _ _ _ Hcopy), Hm.
    + constructor; [by eexists _, _, _|done].
  - zdecide (len c1 <? be_val hd).
    destruct (first_part_spec (mkFraming (maxMessageSize fi) (be_val hd) (frameParts fi) hd 0)
                m1 hd c1 (pre ++ take k c) post) as (fi' & Hr & Hrep & Hmx); try done; [cbn; lia..|].
    change (first_part malloc _ m1) with
      (first_part malloc (mkFraming (maxMessageSize fi) (be_val hd) (frameParts fi) hd 0) m1).
    rewrite Hr. cbn [mbind Er_bind]. eexists _, _, _, _. split_and!; done.
Qed.

Lemma set_associatedFd_view m fd pre c post :
  msg_view m pre c post -> msg_view (set_associatedFd m fd) pre c post.
Proof. done. Qed.

(** The content of the parts, oldest first. *)
Definition parts_content (parts : list Message) : list Z := concat (rev (map msg_content parts)).

Lemma parts_content_cons m parts : parts_content (m :: parts) = parts_content parts ++ msg_content m.
Proof. unfold parts_content. cbn [map rev]. rewrite concat_app. cbn [concat]. by rewrite app_nil_r. Qed.

Lemma msg_ok_view m : msg_ok m -> exists pre post, msg_view m pre (msg_content m) post.
Proof.
  intros (pre & c & post & Hv). exists pre, post. by rewrite (msg_view_content _ _ _ _ Hv).
Qed.

Lemma merge_loop_spec parts : forall out pre room c post,
  Forall msg_ok parts -> msg_view out (pre ++ room) c post ->
  length room = length (parts_content parts) ->
  exists out', merge_loop parts out = Ret out' /\ msg_view out' pre (parts_content parts ++ c) post.
Proof.
  induction parts as [|m parts IH]; intros out pre room c post Hok Hv Hl; cbn [merge_loop].
  { destruct room; [|done]. rewrite app_nil_r in Hv. by exists out. }
  apply Forall_cons in Hok as [Hm Hok]. destruct (msg_ok_view m Hm) as (mpre & mpost & Hmv).
  rewrite (msg_view_length _ _ _ _ Hmv), (msg_read_all _ _ _ _ Hmv).
  rewrite parts_content_cons, length_app in Hl.
  set (k := length (parts_content parts)) in *.
  rewrite <- (take_drop k room), app_assoc in Hv.
  destruct (epush_all out (pre ++ take k room) (drop k room) c post (msg_content m) Hv)
    as (m1 & H1 & Hv1 & _); [rewrite length_drop; lia|].
  rewrite H1. cbn [mbind Er_bind].
  destruct (IH (if msg_associatedFd m1 =? 0 then set_associatedFd m1 (msg_associatedFd m) else m1)
              pre (take k room) (msg_content m ++ c) post) as (out' & Ho & Hvo); [done| |rewrite length_take; lia|].
  { destruct (_ =? 0); [by apply set_associatedFd_view|done]. }
  exists out'. split; [done|]. by rewrite parts_content_cons, <- app_assoc.
Qed.

Lemma parts_length parts : forall acc,
  Forall msg_ok parts -> 0 <= acc -> acc + len (parts_content parts) < 2 ^ 31 ->
  foldl (fun length part => i32 (length + msg_length part)) acc parts
  = acc + len (parts_content parts).
Proof.
  induction parts as [|m parts IH]; intros acc Hok Ha Hb; cbn [foldl]; [cbn; lia|].
  apply Forall_cons in Hok as [Hm Hok]. destruct (msg_ok_view m Hm) as (mpre & mpost & Hmv).
  rewrite parts_content_cons, length_app in *. rewrite (msg_view_length _ _ _ _ Hmv), i32_small by lia.
  rewrite IH by (done || lia). lia.
Qed.

Lemma mergeMessage_spec fi last pre c post :
  Forall msg_ok (frameParts fi) -> msg_view last pre c post ->
  len (parts_content (frameParts fi)) + len c + 1024 < 2 ^ 31 ->
  exists out opre, mergeMessage malloc fi last = Ret out /\
    msg_view out opre (parts_content (frameParts fi) ++ c) [].
Proof.
  intros Hok Hv Hs. unfold mergeMessage. rewrite (msg_view_length _ _ _ _ Hv), (msg_read_all _ _ _ _ Hv).
  rewrite parts_length by (done || lia). set (pc := parts_content (frameParts fi)) in *.
  pose proof (malloc_size (len c + len pc + REQUIRED_PADDING)) as Hm.
  destruct (malloc _) as [addr mem]. cbn [snd] in Hm. unfold REQUIRED_PADDING in *.
  specialize (Hm ltac:(lia)). set (out0 := Message_new _ _ _ _).
  set (r := drop 512 mem). assert (Hr : length r = (length pc + length c)%nat)
    by (unfold r; rewrite length_drop; lia).
  assert (Hv0 : msg_view out0 ((take 512 mem ++ take (length pc) r) ++ drop (length pc) r) [] []).
  { rewrite <- app_assoc, take_drop. unfold r. rewrite take_drop. exists [], []. cbn. unfold u32.
    rewrite Z.mod_small, !i32_small, !app_nil_r by lia. split_and!; (done || lia). }
  destruct (epush_all out0 _ (drop (length pc) r) [] [] c Hv0) as (m1 & H1 & Hv1 & _);
    [rewrite length_drop; lia|]. rewrite app_nil_r in Hv1.
  rewrite H1. cbn [mbind Er_bind].
  destruct (merge_loop_spec (frameParts fi) (set_associatedFd m1 (msg_associatedFd last))
              (take 512 mem) (take (length pc) r) c [] Hok) as (m2 & H2 & Hv2);
    [by apply set_associatedFd_view|fold pc; rewrite length_take; lia|].
  rewrite H2. cbn [mbind Er_bind]. fold pc in Hv2.
  rewrite (msg_view_length _ _ _ _ Hv2), length_app. zdecide (len c + len pc <=? Z.of_nat (length pc + length c)).
  cbn [Assert_true mbind Er_bind]. by exists m2, (take 512 mem).
Qed.

(** A chunk: the receiver delivers the frames it completes. *)
Lemma receive_refines fi st msg pre c post :
  represents fi st -> msg_view msg pre c post -> bytes c -> 0 <= maxMessageSize fi ->
  maxMessageSize fi + len c + 2048 < 2 ^ 31 ->
  exists fi' outs frames rest,
    receiveMessage malloc fi msg = Ret (fi', outs) /\
    match st with
    | None => ([], None)
    | Some p => deframe (maxMessageSize fi) (p ++ c)
    end = (frames, rest) /\
    map msg_content outs = frames /\ Forall msg_ok outs /\ represents fi' rest /\
    maxMessageSize fi' = maxMessageSize fi.
Proof.
  intros Hrep Hv Hbc Hmax Hs. unfold receiveMessage.
  destruct Hrep as [Hdead|p Hh Hfp Hrem Hi Hp Ht Hbp|h parts t Hh Hi Hfp Hne Hok Hpc Hhl Hbh Hbt Hbm Hlt Hrem].
  - destruct (Z.gtb_spec (bytesRemaining fi) (maxMessageSize fi)); [|lia].
    eexists _, _, _, _. split_and!; try done. by apply rep_dead.
  - destruct (Z.gtb_spec (bytesRemaining fi) (maxMessageSize fi)); [lia|].
    rewrite bool_decide_true by done. unfold receive_frames.
    destruct (Z.gtb_spec (bytesRemaining fi) (maxMessageSize fi)); [lia|].
    eapply frame_loop_spec; try done; [|lia]. rewrite (msg_view_length _ _ _ _ Hv). lia.
  - destruct (Z.gtb_spec (bytesRemaining fi) (maxMessageSize fi)); [lia|].
    rewrite bool_decide_false by (by rewrite Hfp). rewrite (msg_view_length _ _ _ _ Hv).
    unfold u32 at 1. rewrite (Z.mod_small (len c)) by lia.
    fold (parts_content parts) in Hpc.
    assert (Hpl : len (parts_content parts) = 4 + len t) by (rewrite Hpc, length_app; lia).
    destruct (Z.leb_spec (bytesRemaining fi) (len c)) as [Hle|Hgt].
    + destruct (mergeMessage_spec fi msg pre c post) as (whole & wpre & Hw & Hwv);
        rewrite ?Hfp; try done; [lia|].
      rewrite Hw. cbn [mbind Er_bind]. rewrite Hfp, Hpc in Hwv.
      replace (headerIndex _) with 0 by done. cbn [Z.eqb Assert_true mbind Er_bind].
      unfold receive_frames. cbn [bytesRemaining maxMessageSize set_parts set_remaining].
      destruct (Z.gtb_spec 0 (maxMessageSize fi)); [lia|].
      rewrite (msg_view_length _ _ _ _ Hwv).
      destruct (frame_loop_spec (S (Z.to_nat (len ((h ++ t) ++ c)))) (set_parts (set_remaining fi 0) [])
                  whole [] wpre ((h ++ t) ++ c) []) as (fi' & outs & frames & rest & Hres);
        cbn; try done; [| |rewrite !length_app in *; lia|by exists fi', outs, frames, rest].
      * apply Forall_app; split; [|done]. by apply Forall_app.
      * lia.
    + eexists _, _, _, _. split; [done|]. rewrite <- app_assoc, deframe_header by done.
      destruct (Z.gtb_spec (be_val h) (maxMessageSize fi)); [lia|].
      rewrite length_app, Nat2Z.inj_add. zdecide (len t + len c <? be_val h). split_and!; try done.
      apply (rep_frame _ h (msg :: frameParts fi) (t ++ c)); cbn; try done.
      * constructor; [by exists pre, c, post|by rewrite Hfp].
      * change (parts_content (msg :: frameParts fi) = h ++ t ++ c).
        by rewrite parts_content_cons, Hfp, Hpc, (msg_view_content _ _ _ _ Hv), <- app_assoc.
      * by apply Forall_app.
      * rewrite length_app. lia.
      * rewrite length_app. unfold u32. pose proof (be_val_bound h Hbh) as Hb. rewrite Hhl in Hb.
        unfold fits in Hb. change (8 * Z.of_nat 4) with 32 in Hb. rewrite Z.mod_small; lia.
Qed.

(** A chunk the receiver can handle: a well-formed message of moderate size. *)
Definition chunk_ok (max : Z) (m : Message) : Prop :=
  msg_ok m /\ bytes (msg_content m) /\ max + len (msg_content m) + 2048 < 2 ^ 31.

Lemma receive_all_refines chunks : forall fi st,
  represents fi st -> 0 <= maxMessageSize fi -> Forall (chunk_ok (maxMessageSize fi)) chunks ->
  exists fi' outs frames rest,
    receive_all malloc fi chunks = Ret (fi', outs) /\
    match st with
    | None => ([], None)
    | Some p => deframe (maxMessageSize fi) (p ++ concat (map msg_content chunks))
    end = (frames, rest) /\
    map msg_content outs = frames /\ Forall msg_ok outs /\ represents fi' rest.
Proof.
  induction chunks as [|msg chunks IH]; intros fi st Hrep Hmax Hok; cbn [receive_all].
  { assert (Hd : match st with None => ([], None)
                 | Some p => deframe (maxMessageSize fi) (p ++ concat (map msg_content [])) end = ([], st)).
    { destruct Hrep as [|p|h parts t ? ? ? ? ? ? Hh ? ? Hm Hlt ?]; [done|..]; cbn [map concat];
        rewrite app_nil_r; [by apply deframe_short|].
      rewrite deframe_header by done. destruct (Z.gtb_spec (be_val h) (maxMessageSize fi)); [lia|].
      by zdecide (len t <? be_val h). }
    eexists _, _, _, _. split; [done|]. by rewrite Hd. }
  apply Forall_cons in Hok as [(Hm & Hb & Hs) Hok].
  destruct (msg_ok_view msg Hm) as (pre & post & Hv).
  destruct (receive_refines fi st msg pre _ post Hrep Hv Hb Hmax Hs)
    as (fi1 & o1 & f1 & st1 & H1 & Hd1 & Hc1 & Hok1 & Hrep1 & Hm1).
  destruct (IH fi1 st1 Hrep1) as (fi2 & o2 & f2 & st2 & H2 & Hd2 & Hc2 & Hok2 & Hrep2);
    rewrite ?Hm1; try done.
  rewrite H1. cbn [mbind Er_bind]. rewrite H2. cbn [mbind Er_bind].
  exists fi2, (o1 ++ o2), (f1 ++ f2), st2. split; [done|]. rewrite map_app, Hc1, Hc2, Hm1 in *.
  split; [|by split_and!; try done; apply Forall_app].
  destruct st as [p|]; cbn [map concat].
  - rewrite app_assoc, deframe_app, Hd1. destruct st1 as [p1|]; [by rewrite Hd2|].
    injection Hd2 as <- <-. by rewrite app_nil_r.
  - injection Hd1 as <- <-. injection Hd2 as <- <-. done.
Qed.
End Receiving.

Lemma new_represents max : represents (FramingIface_new max) (Some []).
Proof. by apply rep_header. Qed.

Lemma sendMessage_frame m pre room c post :
  msg_view m (pre ++ room) c post -> length room = 4%nat ->
  exists m', sendMessage m = Ret m' /\ msg_content m' = frame c.
Proof.
  intros Hv Hr. unfold sendMessage. rewrite (msg_view_length _ _ _ _ Hv).
  destruct (epush32be_view m pre room c post (len c)) as (m' & He & Hv' & _); try done.
  { destruct Hv as (? & ? & _ & _ & _ & _ & _ & Hs). unfold fits. lia. }
  exists m'. split; [done|]. by apply (msg_view_content _ _ _ _ Hv').
Qed.

(** ** Properties *)

(** [C24] The receiver is a parser of the byte stream: whatever chunks the stream
    arrives in, empty ones and ones which break a header included, it does not
    fail and delivers exactly the frames of the concatenated stream, in order;
    behind a length above the maximum it delivers nothing more. *)
Theorem framing_refines malloc max chunks :
  (forall n, 0 <= n -> len (malloc n).2 = n) -> 0 <= max ->
  Forall (chunk_ok max) chunks ->
  exists fi outs, receive_all malloc (FramingIface_new max) chunks = Ret (fi, outs) /\
    Forall msg_ok outs /\
    map msg_content outs = (deframe max (concat (map msg_content chunks))).1 /\
    represents fi (deframe max (concat (map msg_content chunks))).2.
Proof.
  intros Hmal Hmax Hok.
  destruct (receive_all_refines malloc Hmal chunks (FramingIface_new max) _ (new_represents max) Hmax Hok)
    as (fi & outs & frames & rest & H & Hd & Hc & Ho & Hrep).
  cbn [app maxMessageSize FramingIface_new] in Hd. exists fi, outs. by rewrite Hd.
Qed.

(** Messages survive the stream: if every message fits the receiver's
    maximum and has four bytes of padding, then however the bytes that
    [sendMessage] produced are chopped into chunks, the receiver delivers the
    same contents in the same order. *)
Theorem framing_roundtrip malloc max msgs chunks :
  (forall n, 0 <= n -> len (malloc n).2 = n) -> 0 <= max ->
  Forall (fun m => exists pre room post, length room = 4%nat /\
                     msg_view m (pre ++ room) (msg_content m) post /\ len (msg_content m) <= max) msgs ->
  Forall (chunk_ok max) chunks ->
  (exists sent, mapM sendMessage msgs = Ret sent /\
     concat (map msg_content sent) = concat (map msg_content chunks)) ->
  exists fi outs, receive_all malloc (FramingIface_new max) chunks = Ret (fi, outs) /\
    map msg_content outs = map msg_content msgs.
Proof.
  intros Hmal Hmax Hms Hok (sent & Hsent & Hstream).
  destruct (receive_all_refines malloc Hmal chunks (FramingIface_new max) _ (new_represents max) Hmax Hok)
    as (fi & outs & frames & rest & H & Hd & Hc & Ho & Hrep).
  exists fi, outs. split; [done|]. cbn [app maxMessageSize FramingIface_new] in Hd.
  rewrite <- Hstream in Hd.
  assert (Hf : map msg_content sent = map frame (map msg_content msgs)).
  { clear -Hms Hsent. revert sent Hsent.
    induction Hms as [|m ms (pre & room & post & Hr & Hv & _) _ IH]; intros sent Hsent; cbn [mapM] in Hsent.
    { by injection Hsent as <-. }
    destruct (sendMessage_frame m pre room _ post Hv Hr) as (m' & He & Hc).
    rewrite He in Hsent. cbn [mbind Er_bind] in Hsent.
    destruct (mapM sendMessage ms) as [sent'|]; [|done]. cbn [mbind Er_bind] in Hsent.
    injection Hsent as <-. cbn [map]. by rewrite Hc, (IH sent'). }
  rewrite Hf, deframe_frames in Hd; [by injection Hd as <- <-|].
  rewrite Forall_map. eapply Forall_impl; [exact Hms|].
  intros m (pre & room & post & Hr & (? & ? & _ & _ & _ & _ & _ & Hs) & Hl). split; [done|].
  unfold fits. lia.
Qed.

(** Two messages, of two and one bytes, in three chunks. *)
Definition sample_message (c : list Z) : Message :=
  {| msg_length := len c; msg_padding := 8; msg_bytes := 8; msg_capacity := len c;
     msg_associatedFd := 0; msg_addr := 4096; msg_mem := zeros 8 ++ c |}.
Definition sample_chunks : list Message :=
  [sample_message [0; 0]; sample_message [0; 2; 7; 8; 0; 0]; sample_message [0; 1; 9]].
Definition sample_malloc (n : Z) : Z * list Z := (4096, zeros n).

Lemma sample_message_view c : len c < 1000 -> msg_view (sample_message c) (zeros 4 ++ zeros 4) c [].
Proof.
  intros Hc. exists [], []. cbn [sample_message msg_mem msg_bytes msg_padding msg_length msg_capacity].
  change (len (zeros 4 ++ zeros 4)) with 8. change (len (@nil Z)) with 0.
  rewrite !app_nil_r. split_and!; (done || lia).
Qed.

Lemma sample_message_content c : len c < 1000 -> msg_content (sample_message c) = c.
Proof. intros Hc. by apply (msg_view_content _ _ _ _ (sample_message_view c Hc)). Qed.

Lemma sample_chunk_ok c : bytes c -> len c < 1000 -> chunk_ok 100 (sample_message c).
Proof.
  intros Hb Hc. unfold chunk_ok. rewrite sample_message_content by done.
  split; [by eexists _, _, _; apply sample_message_view|]. split; [done|lia].
Qed.

Lemma sample_chunks_ok : Forall (chunk_ok 100) sample_chunks.
Proof.
  repeat (apply Forall_cons; split; [apply sample_chunk_ok; [|cbn; lia]|]); [..|apply Forall_nil; done];
    repeat (apply Forall_cons; split; [by split|]); by apply Forall_nil.
Qed.

Lemma framing_refines_witness :
  exists fi outs, receive_all sample_malloc (FramingIface_new 100) sample_chunks = Ret (fi, outs) /\
    Forall msg_ok outs /\
    map msg_content outs = (deframe 100 (concat (map msg_content sample_chunks))).1 /\
    represents fi (deframe 100 (concat (map msg_content sample_chunks))).2.
Proof.
  apply (framing_refines sample_malloc 100 sample_chunks).
  - intros n Hn. by apply length_zeros.
  - lia.
  - apply sample_chunks_ok.
Defined.

Lemma framing_roundtrip_witness :
  exists fi outs, receive_all sample_malloc (FramingIface_new 100) sample_chunks = Ret (fi, outs) /\
    map msg_content outs = map msg_content [sample_message [7; 8]; sample_message [9]].
Proof.
  apply (framing_roundtrip sample_malloc 100).
  - intros n Hn. by apply length_zeros.
  - lia.
  - repeat (apply Forall_cons; split; [exists (zeros 4), (zeros 4), []|]); [| |by apply Forall_nil];
      rewrite sample_message_content by (cbn; lia);
      (split; [done|split; [apply sample_message_view; cbn; lia|cbn; lia]]).
  - apply sample_chunks_ok.
  - eexists. split; vm_compute; reflexivity.
Defined.
