(* ===== verification/Nacl.v ===== *)
(** * The cryptographic library (nacl/, third-party code)

    The functions of NaCl which the program calls are parameters: a structure
    [Nacl] of operations and a structure [NaclLaws] of what NaCl's
    documentation promises about them.  [toy_nacl] is an executable instance
    which satisfies the laws, for evaluating the model. *)
From S2P Require Import Prelude.

(** Keys, nonces and messages are byte strings; a status is 0 on success. *)
Class Nacl := {
  (** [crypto_scalarmult_curve25519_base(q, n)]: the public key of [n]. *)
  scalarmult_base : list Z -> list Z;
  (** [crypto_scalarmult_curve25519(q, n, p)]. *)
  scalarmult : list Z -> list Z -> Z * list Z;
  (** [crypto_box_curve25519xsalsa20poly1305_beforenm(k, pk, sk)]. *)
  beforenm : list Z -> list Z -> Z * list Z;
  (** [crypto_box_curve25519xsalsa20poly1305_afternm(c, m, mlen, n, k)]. *)
  box_afternm : list Z -> list Z -> list Z -> list Z;
  (** [crypto_box_curve25519xsalsa20poly1305_open_afternm(m, c, clen, n, k)]:
      the status and the content of the output buffer. *)
  open_afternm : list Z -> list Z -> list Z -> Z * list Z;
  (** [crypto_hash_sha256], [crypto_hash_sha512]. *)
  sha256 : list Z -> list Z;
  sha512 : list Z -> list Z;
}.

Class NaclLaws (N : Nacl) : Prop := {
  (** Sizes. *)
  scalarmult_base_length : forall n, length (scalarmult_base n) = 32%nat;
  scalarmult_ok : forall n p, fst (scalarmult n p) = 0 /\ length (snd (scalarmult n p)) = 32%nat;
  beforenm_ok : forall pk sk, fst (beforenm pk sk) = 0 /\ length (snd (beforenm pk sk)) = 32%nat;
  sha256_length : forall m, length (sha256 m) = 32%nat;
  sha512_length : forall m, length (sha512 m) = 64%nat;
  open_length : forall c n k, (32 <= length c)%nat ->
    length (snd (open_afternm c n k)) = length c;
  (** Diffie-Hellman: both sides compute the same secret. *)
  scalarmult_comm : forall a b,
    snd (scalarmult a (scalarmult_base b)) = snd (scalarmult b (scalarmult_base a));
  beforenm_comm : forall a b,
    snd (beforenm (scalarmult_base a) b) = snd (beforenm (scalarmult_base b) a);
  (** "The first 32 bytes of the message must be 0": the ciphertext is as long as
      the message and begins with 16 zero bytes. *)
  box_shape : forall m n k, exists c, length c = (16 + length m)%nat /\
    box_afternm (zeros 32 ++ m) n k = zeros 16 ++ c;
  (** Opening what was boxed gives the message, with its 32 zero bytes. *)
  open_box : forall m n k,
    open_afternm (box_afternm (zeros 32 ++ m) n k) n k = (0, zeros 32 ++ m);
}.

(** ** A toy instance *)

Fixpoint xor_bytes (a b : list Z) : list Z :=
  match a, b with
  | x :: a, y :: b => Z.lxor x y :: xor_bytes a b
  | _, _ => []
  end.

(** [n] bytes of a string, padded with the byte [p]. *)
Definition fit (n : nat) (p : Z) (l : list Z) : list Z := take n (l ++ replicate n p).

Definition toy_nacl : Nacl := {|
  scalarmult_base n := fit 32 1 n;
  scalarmult n p := (0, xor_bytes (fit 32 1 n) (fit 32 1 p));
  beforenm pk sk := (0, 9 :: drop 1 (xor_bytes (fit 32 1 pk) (fit 32 1 sk)));
  box_afternm m n k := zeros 16 ++ fit 16 5 k ++ drop 32 m;
  open_afternm c n k :=
    if decide (take 16 (drop 16 c) = fit 16 5 k)
    then (0, zeros 32 ++ drop 32 c) else (-1, c);
  sha256 m := fit 32 3 m;
  sha512 m := fit 64 7 ((if bool_decide (take 32 m = zeros 32) then 0 else 252) :: m)
|}.

Lemma length_fit n p l : length (fit n p l) = n.
Proof. unfold fit. rewrite length_take, length_app, length_replicate. lia. Qed.

Lemma length_xor_bytes a : forall b, length a = length b -> length (xor_bytes a b) = length a.
Proof. induction a as [|x a IH]; intros [|y b]; simpl; try done. intros [= H]. by rewrite IH. Qed.

Lemma xor_bytes_comm a : forall b, xor_bytes a b = xor_bytes b a.
Proof. induction a as [|x a IH]; intros [|y b]; simpl; try done. by rewrite IH, Z.lxor_comm. Qed.

Lemma fit_fit n p q l : fit n p (fit n q l) = fit n q l.
Proof.
  unfold fit at 1. rewrite <- (length_fit n q l) at 1. by rewrite take_app_length.
Qed.

Lemma toy_laws : NaclLaws toy_nacl.
Proof.
  split; unfold scalarmult_base, scalarmult, beforenm, box_afternm, open_afternm, sha256, sha512, toy_nacl.
  - intros n. apply length_fit.
  - intros n p. split; [done|]. cbn [snd]. by rewrite length_xor_bytes; rewrite !length_fit.
  - intros pk sk. split; [done|]. cbn [snd length]. rewrite length_drop.
    by rewrite length_xor_bytes; rewrite !length_fit.
  - intros m. apply length_fit.
  - intros m. apply length_fit.
  - intros c n k Hc. case_decide; [|done]. cbn [snd].
    rewrite length_app, length_drop. unfold zeros. rewrite length_replicate. lia.
  - intros a b. cbn [snd]. rewrite !fit_fit. apply xor_bytes_comm.
  - intros a b. cbn [snd]. rewrite !fit_fit. by rewrite xor_bytes_comm.
  - intros m n k. exists (fit 16 5 k ++ m). rewrite drop_app_length'; [|done].
    by rewrite length_app, length_fit.
  - intros m n k. rewrite (drop_app_length' (zeros 32)) by done.
    rewrite (drop_app_length' (zeros 16)) by done.
    rewrite (take_app_length' (fit 16 5 k)) by (by rewrite length_fit).
    rewrite decide_True by done. rewrite app_assoc.
    rewrite drop_app_length'; [done|]. by rewrite length_app, length_fit.
Qed.
