(* ===== verification/Key.v ===== *)
(** * crypto/AddressCalc.c, crypto/Key.c: addresses and public keys as text

    A node's IPv6 address is the beginning of the double SHA-512 of its public
    key; only keys whose address begins with the byte fc are used.  Keys are
    written in base 32 with the suffix ".k". *)
From S2P Require Import Prelude Bits Hex Nacl.

(** ** Definitions: AddressCalc *)

Definition AddressCalc_ADDRESS_PREFIX : Z := 0xfc.
Definition AddressCalc_ADDRESS_PREFIX_BITS : Z := 8.

Definition ADDRESS_PREFIX_U64 : Z :=
  Endian_hostToBigEndian64
    (Z.shiftl AddressCalc_ADDRESS_PREFIX (64 - AddressCalc_ADDRESS_PREFIX_BITS)).
Definition ADDRESS_PREFIX_MASK : Z :=
  Endian_hostToBigEndian64
    (u64 (Z.shiftl UINT64_MAX (64 - AddressCalc_ADDRESS_PREFIX_BITS))).

Definition AddressCalc_validAddress (address : list Z) : bool :=
  let significant_bits := le_val (rd 0 8 address) in
  Z.land significant_bits ADDRESS_PREFIX_MASK =? ADDRESS_PREFIX_U64.

Definition AddressCalc_makeValidAddress (address : list Z) : list Z :=
  let significant_bits := le_val (rd 0 8 address) in
  let significant_bits := Z.land significant_bits (u64 (Z.lnot ADDRESS_PREFIX_MASK)) in
  let significant_bits := Z.lor significant_bits ADDRESS_PREFIX_U64 in
  wr 0 (le_bytes 8 significant_bits) address.

Definition Key_parse_TOO_SHORT : Z := -1.
Definition Key_parse_MALFORMED : Z := -2.
Definition Key_parse_DECODE_FAILED : Z := -3.
Definition Key_parse_INVALID : Z := -4.

Section Key.
Context {N : Nacl}.

(** The result and [addressOut]. *)
Definition AddressCalc_addressForPublicKey (key : list Z) : bool * list Z :=
  let hash := sha512 (take 32 key) in
  let hash := sha512 hash in
  let addressOut := take 16 hash in
  (AddressCalc_validAddress addressOut, addressOut).

(** ** Definitions: Key *)

(** [rand] is the sequence of 32-byte strings the random generator yields; the
    address, the public and the private key, [None] if the sequence ends
    first. *)
Fixpoint Key_gen (rand : list (list Z)) : option (list Z * list Z * list Z) :=
  match rand with
  | [] => None
  | privateKeyOut :: rand =>
      let publicKeyOut := scalarmult_base privateKeyOut in
      let '(ok, addressOut) := AddressCalc_addressForPublicKey publicKeyOut in
      if (ok : bool) then Some (addressOut, publicKeyOut, privateKeyOut) else Key_gen rand
  end.

Definition Key_parse_strerror (error : Z) : string :=
  if error =? 0 then "none"
  else if error =? Key_parse_TOO_SHORT then "key must be 52 characters long"
  else if error =? Key_parse_MALFORMED then "key must end in .k"
  else if error =? Key_parse_DECODE_FAILED then "failed to base-32 decode key"
  else if error =? Key_parse_INVALID then "not a valid hyperboria public key"
  else "unknown error".

(** [key] is [None] for NULL, otherwise the string's bytes (a zero byte
    follows); [keyBytesOut] the 32 bytes of the output array, [wantIp6] whether
    [ip6Out] is given.  The code, [keyBytesOut] and [*ip6Out]. *)
Definition Key_parse (key : option (list Z)) (keyBytesOut : list Z) (wantIp6 : bool)
  : Z * list Z * option (list Z) :=
  match key with
  | None => (Key_parse_TOO_SHORT, keyBytesOut, None)
  | Some key =>
      if len key <? 52 then (Key_parse_TOO_SHORT, keyBytesOut, None)
      else if negb (get key 52 =? 46) || negb (get key 53 =? 107)
      then (Key_parse_MALFORMED, keyBytesOut, None)
      else
        let '(n, keyBytesOut) := Base32.Base32_decode keyBytesOut 32 (rd 0 52 key) in
        if negb (n =? 32) then (Key_parse_DECODE_FAILED, keyBytesOut, None)
        else if wantIp6 then
          let '(_, ip6Out) := AddressCalc_addressForPublicKey keyBytesOut in
          if negb (AddressCalc_validAddress ip6Out)
          then (Key_parse_INVALID, keyBytesOut, Some ip6Out)
          else (0, keyBytesOut, Some ip6Out)
        else (0, keyBytesOut, None)
  end.

(** [out] is the 54 bytes of the new string. *)
Definition Key_stringify (key : list Z) : list Z :=
  let out := zeros 54 in
  let '(_, out) := Base32.Base32_encode out 53 key in
  set (set out 52 46) 53 107.

End Key.

(** ** Lemmas *)

Lemma validAddress_first a rest :
  byte a -> bytes rest -> length rest = 15%nat ->
  AddressCalc_validAddress (a :: rest) = (a =? 0xfc).
Proof.
  intros Ha Hr Hlen. unfold AddressCalc_validAddress.
  change ADDRESS_PREFIX_MASK with (Z.ones 8). change ADDRESS_PREFIX_U64 with 0xfc.
  rewrite Z.land_ones by lia. unfold rd. change (Z.to_nat 8) with 8%nat.
  change (drop (Z.to_nat 0) (a :: rest)) with (a :: rest). cbn [take le_val].
  change (2 ^ 8) with 256. rewrite (Z.mul_comm 256), Z.mod_add by lia.
  unfold fits in Ha. by rewrite Z.mod_small.
Qed.

Lemma length_stringify_text key : length key = 32%nat -> len (Base32.text key) = 52.
Proof. intros Hk. rewrite Base32.length_text, Hk. reflexivity. Qed.

Lemma stringify_text key :
  bytes key -> length key = 32%nat -> Key_stringify key = Base32.text key ++ [46; 107].
Proof.
  intros Hb Hk. pose proof (length_stringify_text key Hk) as Ht.
  pose proof (Base32.Base32_encode_spec (zeros 54) 53 key Hb ltac:(lia)) as He.
  unfold Key_stringify. set (r := Base32.Base32_encode (zeros 54) 53 key) in *.
  assert (Hl52 : Base32.text_len (len key) = 52) by (by rewrite Hk).
  rewrite Hl52, Ht in He. change (52 <=? 53) with true in He. cbv zeta iota in He. rewrite He.
  cbv zeta iota. change (52 <? 53) with true. cbv iota.
  remember (Base32.text key) as t eqn:Et. clear He r Et.
  assert (Hwr : wr 0 t (zeros 54) = t ++ [0; 0]).
  { unfold wr. change (Z.to_nat 0) with 0%nat. cbn [take Nat.add app].
    assert (length t = 52%nat) as -> by lia. reflexivity. }
  rewrite Hwr. unfold set. assert (Hl : length t = 52%nat) by lia.
  change (Z.to_nat 52) with 52%nat. change (Z.to_nat 53) with 53%nat.
  rewrite !insert_app_r_alt by lia. rewrite Hl. reflexivity.
Qed.

(** ** Properties *)

(** A public key survives being printed: the text of a key is its 52
    base-32 digits and ".k", and parsing it gives the key back, with its
    address, unless the address does not begin with fc, which is reported. *)
Theorem key_roundtrip {N : Nacl} key out :
  bytes key -> length key = 32%nat -> length out = 32%nat ->
  let addr := snd (AddressCalc_addressForPublicKey key) in
  length (Key_stringify key) = 54%nat /\
  Key_parse (Some (Key_stringify key)) out true =
    (if AddressCalc_validAddress addr then 0 else Key_parse_INVALID, key, Some addr) /\
  Key_parse (Some (Key_stringify key)) out false = (0, key, None).
Proof.
  intros Hb Hk Ho addr. rewrite stringify_text by done.
  pose proof (length_stringify_text key Hk) as Ht.
  assert (Hlen : length (Base32.text key ++ [46; 107]) = 54%nat) by (rewrite length_app; simpl; lia).
  split; [done|]. unfold Key_parse.
  assert (Hget : forall i, get (Base32.text key ++ [46; 107]) (52 + Z.of_nat i) = nth i [46; 107] 0).
  { intros i. unfold get. rewrite app_nth2 by lia. f_equal. lia. }
  pose proof (Hget 0%nat) as G0. pose proof (Hget 1%nat) as G1. cbn [nth] in G0, G1.
  change (52 + Z.of_nat 0) with 52 in G0. change (52 + Z.of_nat 1) with 53 in G1.
  rewrite G0, G1. rewrite (proj2 (Z.ltb_ge _ 52)) by lia. cbn [Z.eqb Pos.eqb negb orb].
  rewrite rd_app_0 by lia. rewrite Base32.Base32_decode_text by (done || lia).
  assert (Hwr : wr 0 key out = key).
  { unfold wr. change (Z.to_nat 0) with 0%nat. cbn [take Nat.add app].
    rewrite drop_ge by lia. apply app_nil_r. }
  rewrite Hwr. replace (len key) with 32 by lia. cbn [Z.eqb Pos.eqb negb].
  split; [|done]. unfold AddressCalc_addressForPublicKey in *. cbn [snd] in addr. subst addr.
  destruct (AddressCalc_validAddress _); done.
Qed.

#[local] Existing Instance toy_nacl.
#[local] Existing Instance toy_laws.

Definition example_key : list Z := map Z.of_nat (seq 7 32).

Lemma key_roundtrip_witness :
  let addr := snd (AddressCalc_addressForPublicKey (N := toy_nacl) example_key) in
  length (Key_stringify example_key) = 54%nat /\
  Key_parse (Some (Key_stringify example_key)) (zeros 32) true =
    (if AddressCalc_validAddress addr then 0 else Key_parse_INVALID, example_key, Some addr) /\
  Key_parse (Some (Key_stringify example_key)) (zeros 32) false = (0, example_key, None).
Proof.
  apply (key_roundtrip (N := toy_nacl) example_key (zeros 32));
    [repeat constructor; vm_compute; congruence|reflexivity|reflexivity].
Defined.

(** Key generation only yields keys whose address begins with fc, together
    with the private key they belong to, and it stops at the first random
    string that gives such a key. *)
Theorem key_gen_valid {N : Nacl} `{!NaclLaws N} pre priv rand :
  bytes (snd (AddressCalc_addressForPublicKey (scalarmult_base priv))) ->
  hd 0 (snd (AddressCalc_addressForPublicKey (scalarmult_base priv))) = 0xfc ->
  exists addr pub priv', Key_gen (pre ++ priv :: rand) = Some (addr, pub, priv') /\
    priv' ∈ pre ++ [priv] /\ pub = scalarmult_base priv' /\
    AddressCalc_addressForPublicKey pub = (true, addr).
Proof.
  intros Hb Hh. induction pre as [|p pre IH]; cbn [app Key_gen].
  - destruct (AddressCalc_addressForPublicKey (scalarmult_base priv)) as [ok addr] eqn:He.
    unfold AddressCalc_addressForPublicKey in He. injection He as Hok Haddr.
    assert (Hl : length addr = 16%nat) by (rewrite <- Haddr, length_take, sha512_length; lia).
    rewrite Haddr in Hok. destruct addr as [|a r]; [done|]. simpl in Hb, Hh, Hl.
    apply Forall_cons in Hb as [Ha Hr]. rewrite validAddress_first in Hok by (done || lia).
    subst a. simpl in Hok. subst ok.
    exists (0xfc :: r), (scalarmult_base priv), priv. split; [done|].
    split; [by apply list_elem_of_singleton|]. split; [done|].
    unfold AddressCalc_addressForPublicKey. rewrite Haddr. f_equal.
    rewrite validAddress_first by (done || lia). done.
  - destruct (AddressCalc_addressForPublicKey (scalarmult_base p)) as [[] addr] eqn:He.
    + exists addr, (scalarmult_base p), p. split; [done|]. split; [apply list_elem_of_here|]. done.
    + destruct IH as (a & pub & q & H1 & H2 & H3 & H4). exists a, pub, q.
      split; [done|]. split; [by apply list_elem_of_further|done].
Qed.

Lemma key_gen_valid_witness :
  exists addr pub priv', Key_gen (N := toy_nacl) ([] ++ example_key :: []) = Some (addr, pub, priv') /\
    priv' ∈ [] ++ [example_key] /\ pub = scalarmult_base priv' /\
    AddressCalc_addressForPublicKey pub = (true, addr).
Proof.
  apply (key_gen_valid (N := toy_nacl) [] example_key []);
    [repeat constructor; vm_compute; congruence|reflexivity].
Defined.
