(* ===== verification/CryptoAuth.v ===== *)
(** * crypto/CryptoAuth.c: sessions, passwords and the encrypted transport

    A session goes through a handshake (hello, key, first data packet) and then
    carries data.  [nextNonce] doubles as the state of the handshake: 0 initial,
    1 hello sent, 2 hello received, 3 key sent, 4 key received, more: data.

    Cryptography is the parameter [N : Nacl]; what the random generator and the
    clock return are arguments of the operations which ask for them.  Messages
    are the buffers of [Message]: every operation below reads and writes a
    packet at the offsets the C code does, relative to [msg->bytes].  Logging
    is left out but for the assertion its address printing makes
    ([cryptoAuthDebug]). *)
From Stdlib Require Import DecimalString.
From S2P Require Import Prelude Bits Message Headers ReplayProtector Nacl Hex Key.

(** ** Data *)

Record User := mkUser {
  passwordHash : list Z;
  userNameHash : list Z;
  user_secret : list Z;
  user_login : list Z;
  restrictedToip6 : list Z;
}.

Record CryptoAuth := mkCryptoAuth {
  ca_publicKey : list Z;
  ca_privateKey : list Z;
  users : list User;
}.

Record Session := mkSession {
  herPublicKey : list Z;
  replayProtector : ReplayProtector;
  herIp6 : list Z;
  resetAfterInactivitySeconds : Z;
  setupResetAfterInactivitySeconds : Z;
  sharedSecret : list Z;
  herTempPubKey : list Z;
  ourTempPrivKey : list Z;
  ourTempPubKey : list Z;
  password : option (list Z);
  login : option (list Z);
  nextNonce : Z;
  timeOfLastPacket : Z;
  authType : Z;
  isInitiator : bool;
  requireAuth : bool;
  established : bool;
}.

(** [session->field = x]. *)
Definition set_replayProtector (s : Session) (x : ReplayProtector) : Session :=
  {| herPublicKey := herPublicKey s; replayProtector := x; herIp6 := herIp6 s;
     resetAfterInactivitySeconds := resetAfterInactivitySeconds s;
     setupResetAfterInactivitySeconds := setupResetAfterInactivitySeconds s;
     sharedSecret := sharedSecret s; herTempPubKey := herTempPubKey s;
     ourTempPrivKey := ourTempPrivKey s; ourTempPubKey := ourTempPubKey s;
     password := password s; login := login s; nextNonce := nextNonce s;
     timeOfLastPacket := timeOfLastPacket s; authType := authType s;
     isInitiator := isInitiator s; requireAuth := requireAuth s;
     established := established s |}.

Definition set_sharedSecret (s : Session) (x : list Z) : Session :=
  {| herPublicKey := herPublicKey s; replayProtector := replayProtector s; herIp6 := herIp6 s;
     resetAfterInactivitySeconds := resetAfterInactivitySeconds s;
     setupResetAfterInactivitySeconds := setupResetAfterInactivitySeconds s;
     sharedSecret := x; herTempPubKey := herTempPubKey s; ourTempPrivKey := ourTempPrivKey s;
     ourTempPubKey := ourTempPubKey s; password := password s; login := login s;
     nextNonce := nextNonce s; timeOfLastPacket := timeOfLastPacket s; authType := authType s;
     isInitiator := isInitiator s; requireAuth := requireAuth s;
     established := established s |}.

Definition set_herTempPubKey (s : Session) (x : list Z) : Session :=
  {| herPublicKey := herPublicKey s; replayProtector := replayProtector s; herIp6 := herIp6 s;
     resetAfterInactivitySeconds := resetAfterInactivitySeconds s;
     setupResetAfterInactivitySeconds := setupResetAfterInactivitySeconds s;
     sharedSecret := sharedSecret s; herTempPubKey := x; ourTempPrivKey := ourTempPrivKey s;
     ourTempPubKey := ourTempPubKey s; password := password s; login := login s;
     nextNonce := nextNonce s; timeOfLastPacket := timeOfLastPacket s; authType := authType s;
     isInitiator := isInitiator s; requireAuth := requireAuth s;
     established := established s |}.

Definition set_nextNonce (s : Session) (x : Z) : Session :=
  {| herPublicKey := herPublicKey s; replayProtector := replayProtector s; herIp6 := herIp6 s;
     resetAfterInactivitySeconds := resetAfterInactivitySeconds s;
     setupResetAfterInactivitySeconds := setupResetAfterInactivitySeconds s;
     sharedSecret := sharedSecret s; herTempPubKey := herTempPubKey s;
     ourTempPrivKey := ourTempPrivKey s; ourTempPubKey := ourTempPubKey s;
     password := password s; login := login s; nextNonce := x;
     timeOfLastPacket := timeOfLastPacket s; authType := authType s;
     isInitiator := isInitiator s; requireAuth := requireAuth s;
     established := established s |}.

Definition set_timeOfLastPacket (s : Session) (x : Z) : Session :=
  {| herPublicKey := herPublicKey s; replayProtector := replayProtector s; herIp6 := herIp6 s;
     resetAfterInactivitySeconds := resetAfterInactivitySeconds s;
     setupResetAfterInactivitySeconds := setupResetAfterInactivitySeconds s;
     sharedSecret := sharedSecret s; herTempPubKey := herTempPubKey s;
     ourTempPrivKey := ourTempPrivKey s; ourTempPubKey := ourTempPubKey s;
     password := password s; login := login s; nextNonce := nextNonce s;
     timeOfLastPacket := x; authType := authType s; isInitiator := isInitiator s;
     requireAuth := requireAuth s; established := established s |}.

Definition set_isInitiator (s : Session) (x : bool) : Session :=
  {| herPublicKey := herPublicKey s; replayProtector := replayProtector s; herIp6 := herIp6 s;
     resetAfterInactivitySeconds := resetAfterInactivitySeconds s;
     setupResetAfterInactivitySeconds := setupResetAfterInactivitySeconds s;
     sharedSecret := sharedSecret s; herTempPubKey := herTempPubKey s;
     ourTempPrivKey := ourTempPrivKey s; ourTempPubKey := ourTempPubKey s;
     password := password s; login := login s; nextNonce := nextNonce s;
     timeOfLastPacket := timeOfLastPacket s; authType := authType s; isInitiator := x;
     requireAuth := requireAuth s; established := established s |}.

Definition set_tempKeys (s : Session) (x0 : list Z) (x1 : list Z) : Session :=
  {| herPublicKey := herPublicKey s; replayProtector := replayProtector s; herIp6 := herIp6 s;
     resetAfterInactivitySeconds := resetAfterInactivitySeconds s;
     setupResetAfterInactivitySeconds := setupResetAfterInactivitySeconds s;
     sharedSecret := sharedSecret s; herTempPubKey := herTempPubKey s; ourTempPrivKey := x0;
     ourTempPubKey := x1; password := password s; login := login s; nextNonce := nextNonce s;
     timeOfLastPacket := timeOfLastPacket s; authType := authType s;
     isInitiator := isInitiator s; requireAuth := requireAuth s;
     established := established s |}.

Definition set_established (s : Session) (x : bool) : Session :=
  {| herPublicKey := herPublicKey s; replayProtector := replayProtector s; herIp6 := herIp6 s;
     resetAfterInactivitySeconds := resetAfterInactivitySeconds s;
     setupResetAfterInactivitySeconds := setupResetAfterInactivitySeconds s;
     sharedSecret := sharedSecret s; herTempPubKey := herTempPubKey s;
     ourTempPrivKey := ourTempPrivKey s; ourTempPubKey := ourTempPubKey s;
     password := password s; login := login s; nextNonce := nextNonce s;
     timeOfLastPacket := timeOfLastPacket s; authType := authType s;
     isInitiator := isInitiator s; requireAuth := requireAuth s; established := x |}.

Definition set_auth (s : Session) (x0 : option (list Z)) (x1 : option (list Z)) (x2 : Z) : Session :=
  {| herPublicKey := herPublicKey s; replayProtector := replayProtector s; herIp6 := herIp6 s;
     resetAfterInactivitySeconds := resetAfterInactivitySeconds s;
     setupResetAfterInactivitySeconds := setupResetAfterInactivitySeconds s;
     sharedSecret := sharedSecret s; herTempPubKey := herTempPubKey s;
     ourTempPrivKey := ourTempPrivKey s; ourTempPubKey := ourTempPubKey s; password := x0;
     login := x1; nextNonce := nextNonce s; timeOfLastPacket := timeOfLastPacket s;
     authType := x2; isInitiator := isInitiator s; requireAuth := requireAuth s;
     established := established s |}.

Definition CryptoAuth_State_INIT : Z := 0.
Definition CryptoAuth_State_SENT_HELLO : Z := 1.
Definition CryptoAuth_State_RECEIVED_HELLO : Z := 2.
Definition CryptoAuth_State_SENT_KEY : Z := 3.
Definition CryptoAuth_State_RECEIVED_KEY : Z := 4.
Definition CryptoAuth_State_ESTABLISHED : Z := 100.

Definition Nonce_HELLO : Z := 0.
Definition Nonce_REPEAT_HELLO : Z := 1.
Definition Nonce_KEY : Z := 2.
Definition Nonce_REPEAT_KEY : Z := 3.
Definition Nonce_FIRST_TRAFFIC_PACKET : Z := 4.

Inductive CryptoAuth_DecryptErr :=
| DecryptErr_NONE | DecryptErr_RUNT | DecryptErr_NO_SESSION | DecryptErr_FINAL_SHAKE_FAIL
| DecryptErr_FAILED_DECRYPT_RUN_MSG | DecryptErr_KEY_PKT_ESTABLISHED_SESSION
| DecryptErr_WRONG_PERM_PUBKEY | DecryptErr_IP_RESTRICTED | DecryptErr_AUTH_REQUIRED
| DecryptErr_UNRECOGNIZED_AUTH | DecryptErr_STRAY_KEY | DecryptErr_HANDSHAKE_DECRYPT_FAILED
| DecryptErr_WISEGUY | DecryptErr_INVALID_PACKET | DecryptErr_REPLAY | DecryptErr_DECRYPT.

#[export] Instance DecryptErr_eq_dec : EqDecision CryptoAuth_DecryptErr.
Proof. solve_decision. Defined.

Definition CryptoAuth_stateString (state : Z) : string :=
  if state =? CryptoAuth_State_INIT then "INIT"
  else if state =? CryptoAuth_State_SENT_HELLO then "SENT_HELLO"
  else if state =? CryptoAuth_State_RECEIVED_HELLO then "RECEIVED_HELLO"
  else if state =? CryptoAuth_State_SENT_KEY then "SENT_KEY"
  else if state =? CryptoAuth_State_RECEIVED_KEY then "RECEIVED_KEY"
  else if state =? CryptoAuth_State_ESTABLISHED then "ESTABLISHED"
  else "INVALID".

Definition CryptoAuth_addUser_DUPLICATE : Z := -3.
Definition CryptoAuth_DEFAULT_RESET_AFTER_INACTIVITY_SECONDS : Z := 60.
Definition CryptoAuth_DEFAULT_SETUP_RESET_AFTER_INACTIVITY_SECONDS : Z := 10.

(** ** Secrets and passwords *)

Section CryptoAuth.
Context {N : Nacl}.

Definition getSharedSecret (myPrivateKey herPublicKey : list Z) (passwordHash : option (list Z))
  : Er (list Z) :=
  match passwordHash with
  | None =>
      let '(status, outputSecret) := beforenm herPublicKey myPrivateKey in
      Assert_true (status =? 0);; Ret outputSecret
  | Some passwordHash =>
      let '(status, key) := scalarmult myPrivateKey herPublicKey in
      Assert_true (status =? 0);; Ret (sha256 (key ++ take 32 passwordHash))
  end.

(** The secret and the twelve bytes of the challenge. *)
Definition hashPassword (login : option (list Z)) (password : list Z) (authType : Z)
  : Er (list Z * list Z) :=
  let secretOut := sha256 password in
  tempBuff ←
    (if authType =? 1 then Ret (sha256 secretOut)
     else if authType =? 2 then
       match login with Some login => Ret (sha256 login) | None => Abort "NULL login" end
     else Abort "Unsupported auth type");
  let challengeOut := take 12 tempBuff in
  let challengeOut := wr 8 (le_bytes 2 (Endian_hostToBigEndian16 0)) challengeOut in
  let challengeOut := wr 0 [authType] challengeOut in
  Ret (secretOut, wr 10 [0; 0] challengeOut).

(** The users in the order of the list; [auth] is the header's challenge. *)
Fixpoint getAuth_loop (auth : list Z) (us : list User) : option User :=
  match us with
  | [] => None
  | u :: us =>
      if (get auth 0 =? 1) && (memcmp (take 8 auth) (passwordHash u) =? 0) then Some u
      else if (get auth 0 =? 2) && (memcmp (take 8 auth) (userNameHash u) =? 0) then Some u
      else getAuth_loop auth us
  end.

Definition getAuth (auth : list Z) (ca : CryptoAuth) : option User :=
  if get auth 0 =? 0 then None else getAuth_loop auth (users ca).

(** ** Boxes *)

(** The status (0 or -1) and the message.  When opening fails, the 16 bytes in
    front of the message stay zeroed. *)
Definition decryptRndNonce (nonce : list Z) (msg : Message) (secret : list Z)
  : Er (Z * Message) :=
  if msg_length msg <? 16 then Ret (-1, msg)
  else
    Assert_true (msg_padding msg >=? 16);;
    let paddingSpace := msg_read msg (-16) 16 in
    let msg := msg_write msg (-16) (zeros 16) in
    let '(status, opened) :=
      open_afternm (msg_read msg (-16) (msg_length msg + 16)) nonce secret in
    let msg := msg_write msg (-16) opened in
    if negb (status =? 0) then Ret (-1, msg)
    else
      let msg := msg_write msg (-16) paddingSpace in
      msg ← Message_eshift msg (-16);
      Ret (0, msg).

Definition encryptRndNonce (nonce : list Z) (msg : Message) (secret : list Z) : Er Message :=
  Assert_true (msg_padding msg >=? 32);;
  let paddingSpace := msg_read msg (-32) 16 in
  let msg := msg_write msg (-32) (zeros 32) in
  let boxed := box_afternm (msg_read msg (-32) (msg_length msg + 32)) nonce secret in
  let msg := msg_write msg (-32) boxed in
  let msg := msg_write msg (-32) paddingSpace in
  Message_eshift msg 16.

(** [nonceAs]: the counter in the first or the second of two words, the rest of
    the 24 bytes zero. *)
Definition nonceAs (nonce : Z) (second : bool) : list Z :=
  wr (if second then 4 else 0) (le_bytes 4 nonce) (zeros 24).

Definition decrypt (nonce : Z) (msg : Message) (secret : list Z) (isInitiator : bool)
  : Er (Z * Message) :=
  decryptRndNonce (nonceAs nonce (negb isInitiator)) msg secret.

Definition encrypt (nonce : Z) (msg : Message) (secret : list Z) (isInitiator : bool)
  : Er Message :=
  encryptRndNonce (nonceAs nonce isInitiator) msg secret.

(** ** Sessions *)

Definition knowHerKey (session : Session) : bool := negb (Bits_isZero (herPublicKey session)).

(** Logging prints the peer's address ([getIp6]), which asserts that its key is
    known. *)
Definition cryptoAuthDebug (session : Session) : Er unit := Assert_true (knowHerKey session).

Definition reset (s : Session) : Session :=
  let s := set_nextNonce s CryptoAuth_State_INIT in
  let s := set_isInitiator s false in
  let s := set_tempKeys s (zeros 32) (zeros 32) in
  let s := set_herTempPubKey s (zeros 32) in
  let s := set_sharedSecret s (zeros 32) in
  let s := set_established s false in
  set_replayProtector s ReplayProtector_empty.

(** [nowSecs] is the clock; the difference is computed in 64 bits. *)
Definition resetIfTimeout (s : Session) (nowSecs : Z) : Er Session :=
  if nextNonce s =? CryptoAuth_State_SENT_HELLO then Ret s
  else
    let idle := u64 (nowSecs - timeOfLastPacket s) in
    if idle <? setupResetAfterInactivitySeconds s then Ret s
    else if (idle <? resetAfterInactivitySeconds s) && established s then Ret s
    else
      cryptoAuthDebug s;;
      Ret (reset (set_timeOfLastPacket s (u32 nowSecs))).

(** ** Sending *)

(** The header's challenge and key material up to the choice of the secret.
    [rand36] and [rand32] are what [Random_bytes] yields; the result is the
    message with the plain header, the session and the password hash. *)
Definition encryptHandshake_header (message : Message) (session : Session) (ca : CryptoAuth)
  (rand36 rand32 : list Z) : Er (Message * Session * option (list Z)) :=
  message ← Message_eshift message CryptoHeader_SIZE;
  let message := msg_write message 4 rand36 in
  let message := msg_write message 40 (ca_publicKey ca) in
  Assert_true (knowHerKey session);;
  '(message, passwordHash) ←
    (match password session with
     | Some password =>
         '(passwordHashStore, challenge) ←
           hashPassword (login session) password (u8 (authType session));
         Ret (msg_write message 4 challenge, Some passwordHashStore)
     | None =>
         let message := msg_write message 4 [u8 (authType session)] in
         Ret (msg_write message 14 [0; 0], None)
     end);
  let message := msg_write message 0 (le_bytes 4 (Endian_hostToBigEndian32 (nextNonce session))) in
  let session :=
    if (nextNonce session =? CryptoAuth_State_INIT)
       || (nextNonce session =? CryptoAuth_State_RECEIVED_HELLO)
    then set_tempKeys session rand32 (scalarmult_base rand32)
    else session in
  let message := msg_write message 88 (ourTempPubKey session) in
  cryptoAuthDebug session;;
  Ret (message, session, passwordHash).

(** The secret of the hello or key packet and the new state. *)
Definition encryptHandshake_secret (session : Session) (ca : CryptoAuth)
  (passwordHash : option (list Z)) : Er (Session * list Z) :=
  if nextNonce session <? CryptoAuth_State_RECEIVED_HELLO then
    sharedSecret ← getSharedSecret (ca_privateKey ca) (herPublicKey session) passwordHash;
    let session := set_isInitiator session true in
    Assert_true (nextNonce session <=? CryptoAuth_State_SENT_HELLO);;
    Ret (set_nextNonce session CryptoAuth_State_SENT_HELLO, sharedSecret)
  else
    Assert_ifParanoid (negb (Bits_isZero (herTempPubKey session)));;
    sharedSecret ← getSharedSecret (ca_privateKey ca) (herTempPubKey session) passwordHash;
    Assert_true (nextNonce session <=? CryptoAuth_State_SENT_KEY);;
    Ret (set_nextNonce session CryptoAuth_State_SENT_KEY, sharedSecret).

Definition encryptHandshake (message : Message) (session : Session) (ca : CryptoAuth)
  (rand36 rand32 : list Z) : Er (Message * Session) :=
  '(message, session, passwordHash) ← encryptHandshake_header message session ca rand36 rand32;
  '(session, sharedSecret) ← encryptHandshake_secret session ca passwordHash;
  Assert_true (bool_decide ((nextNonce session < CryptoAuth_State_RECEIVED_HELLO) <->
                            Bits_isZero (herTempPubKey session) = true));;
  let handshakeNonce := msg_read message 16 24 in
  message ← Message_eshift message (32 - CryptoHeader_SIZE);
  message ← encryptRndNonce handshakeNonce message sharedSecret;
  message ← Message_eshift message (CryptoHeader_SIZE - 32 - 16);
  Ret (message, session).

(** [CryptoAuth_encrypt] once the session is not stale. *)
Definition encrypt_ready (session : Session) (ca : CryptoAuth) (msg : Message)
  (rand36 rand32 : list Z) : Er (Message * Session) :=
  Assert_true ((msg_addr msg + msg_bytes msg) mod 4 =? 0);;
  if nextNonce session <? CryptoAuth_State_RECEIVED_KEY
  then encryptHandshake msg session ca rand36 rand32
  else
    session ←
      (if nextNonce session <=? CryptoAuth_State_RECEIVED_KEY then
         cryptoAuthDebug session;;
         Assert_ifParanoid (negb (Bits_isZero (ourTempPrivKey session)));;
         Assert_ifParanoid (negb (Bits_isZero (herTempPubKey session)));;
         secret ← getSharedSecret (ourTempPrivKey session) (herTempPubKey session) None;
         Ret (set_sharedSecret session secret)
       else Ret session);
    Assert_true (msg_length msg >? 0);;
    Assert_true (msg_padding msg >=? 36);;
    msg ← encrypt (nextNonce session) msg (sharedSecret session) (isInitiator session);
    msg ← Message_epush32be msg (nextNonce session);
    Ret (msg, set_nextNonce session (u32 (nextNonce session + 1))).

(** [CryptoAuth_encrypt] (it always returns 0). *)
Definition CryptoAuth_encrypt (session : Session) (ca : CryptoAuth) (msg : Message)
  (nowSecs : Z) (rand36 rand32 : list Z) : Er (Message * Session) :=
  session ← resetIfTimeout session nowSecs;
  let session := if nextNonce session >=? 0xfffffff0 then reset session else session in
  encrypt_ready session ca msg rand36 rand32.

(** ** Receiving *)

Definition updateTime (session : Session) (nowSecs : Z) : Session :=
  set_timeOfLastPacket session (u32 nowSecs).

Definition decryptMessage (session : Session) (nonce : Z) (content : Message) (secret : list Z)
  : Er (Message * Session * CryptoAuth_DecryptErr) :=
  '(status, content) ← decrypt nonce content secret (isInitiator session);
  if negb (status =? 0) then
    cryptoAuthDebug session;; Ret (content, session, DecryptErr_DECRYPT)
  else
    let '(ok, rp) := ReplayProtector_checkNonce nonce (replayProtector session) in
    let session := set_replayProtector session rp in
    if negb ok then
      cryptoAuthDebug session;; Ret (content, session, DecryptErr_REPLAY)
    else Ret (content, session, DecryptErr_NONE).

Definition ip6MatchesKey (ip6 key : list Z) : bool :=
  memcmp ip6 (snd (AddressCalc_addressForPublicKey key)) =? 0.

(** Who is connecting: an error, or the secret of the user whose password the
    header names. *)
Definition handshake_auth (session : Session) (ca : CryptoAuth) (auth : list Z)
  : CryptoAuth_DecryptErr + option (list Z) :=
  let userObj := getAuth auth ca in
  let restricted :=
    match userObj with
    | Some u => negb (get (restrictedToip6 u) 0 =? 0)
                && negb (ip6MatchesKey (restrictedToip6 u) (herPublicKey session))
    | None => false
    end in
  if restricted then inl DecryptErr_IP_RESTRICTED
  else if requireAuth session && bool_decide (userObj = None) then inl DecryptErr_AUTH_REQUIRED
  else if bool_decide (userObj = None) && negb (get auth 0 =? 0)
  then inl DecryptErr_UNRECOGNIZED_AUTH
  else inr (user_secret <$> userObj).

(** The secret to open the packet with and the state it leads to. *)
Definition handshake_secret (session : Session) (ca : CryptoAuth) (nonce : Z)
  (passwordHash : option (list Z)) : Er (CryptoAuth_DecryptErr + list Z * Z) :=
  if nonce <? Nonce_KEY then
    secret ← getSharedSecret (ca_privateKey ca) (herPublicKey session) passwordHash;
    Ret (inr (secret, CryptoAuth_State_RECEIVED_HELLO))
  else
    Assert_true ((nonce =? Nonce_KEY) || (nonce =? Nonce_REPEAT_KEY));;
    if negb (isInitiator session) then Ret (inl DecryptErr_STRAY_KEY)
    else
      secret ← getSharedSecret (ourTempPrivKey session) (herPublicKey session) passwordHash;
      Ret (inr (secret, CryptoAuth_State_RECEIVED_KEY)).

(** Opening the packet; [message] starts at the header, and the temporary key is
    returned. *)
Definition handshake_open (message : Message) (sharedSecret : list Z)
  : Er (Message * (CryptoAuth_DecryptErr + list Z)) :=
  let handshakeNonce := msg_read message 16 24 in
  message ← Message_eshift message (48 - CryptoHeader_SIZE);
  '(status, message) ← decryptRndNonce handshakeNonce message sharedSecret;
  if negb (status =? 0)
  then Ret (msg_write message (48 - CryptoHeader_SIZE) (zeros CryptoHeader_SIZE),
            inl DecryptErr_HANDSHAKE_DECRYPT_FAILED)
  else
    let encryptedTempKey := msg_read message 0 32 in
    if Bits_isZero encryptedTempKey then Ret (message, inl DecryptErr_WISEGUY)
    else
      message ← Message_eshift message (-32);
      Ret (message, inr encryptedTempKey).

(** "Post-decryption checking": a duplicate packet, or a repeated one with
    another key. *)
Definition handshake_invalid (session : Session) (nonce : Z) (tempKey : list Z) : Er bool :=
  let same := memcmp (herTempPubKey session) tempKey =? 0 in
  if nonce =? Nonce_HELLO then Ret same
  else if (nonce =? Nonce_KEY) && (nextNonce session >=? CryptoAuth_State_RECEIVED_KEY) then
    if same then
      Assert_true (negb (Bits_isZero (herTempPubKey session)));; Ret true
    else Ret false
  else if (nonce =? Nonce_REPEAT_KEY) && (nextNonce session >=? CryptoAuth_State_RECEIVED_KEY) then
    if negb same then
      Assert_true (negb (Bits_isZero (herTempPubKey session)));; Ret true
    else Ret false
  else Ret false.

(** A (possibly repeated) key packet in each state: [None] is a stray key,
    otherwise the session and its next nonce. *)
Definition handshake_key (session : Session) (nonce : Z) (tempKey : list Z)
  : Er (option (Session * Z)) :=
  Assert_true ((nonce =? Nonce_KEY) || (nonce =? Nonce_REPEAT_KEY));;
  if (nextNonce session =? CryptoAuth_State_INIT)
     || (nextNonce session =? CryptoAuth_State_RECEIVED_HELLO)
     || (nextNonce session =? CryptoAuth_State_SENT_KEY)
  then Ret None
  else if nextNonce session =? CryptoAuth_State_SENT_HELLO
  then Ret (Some (set_herTempPubKey session tempKey, CryptoAuth_State_RECEIVED_KEY))
  else if nextNonce session =? CryptoAuth_State_RECEIVED_KEY then
    if nonce =? Nonce_KEY
    then Ret (Some (set_herTempPubKey session tempKey, CryptoAuth_State_RECEIVED_KEY))
    else
      Assert_true (memcmp (herTempPubKey session) tempKey =? 0);;
      Ret (Some (session, CryptoAuth_State_RECEIVED_KEY))
  else
    Assert_true (negb (established session));;
    session ←
      (if nonce =? Nonce_KEY then
         let session := set_herTempPubKey session tempKey in
         cryptoAuthDebug session;;
         Assert_ifParanoid (negb (Bits_isZero (ourTempPrivKey session)));;
         Assert_ifParanoid (negb (Bits_isZero (herTempPubKey session)));;
         secret ← getSharedSecret (ourTempPrivKey session) (herTempPubKey session) None;
         Ret (set_sharedSecret session secret)
       else
         Assert_true (memcmp (herTempPubKey session) tempKey =? 0);; Ret session);
    Ret (Some (session, u32 (nextNonce session + 1))).

(** What a hello packet does. *)
Inductive hello_result :=
| hello_ignored                        (* accepted without a change of state *)
| hello_invalid                        (* repeated hello in a later state *)
| hello_state (session : Session) (next : Z).

Definition handshake_hello (session : Session) (ca : CryptoAuth) (nonce : Z) (tempKey : list Z)
  : Er hello_result :=
  Assert_true ((nonce =? Nonce_HELLO) || (nonce =? Nonce_REPEAT_HELLO));;
  if negb (memcmp (herTempPubKey session) tempKey =? 0) then
    if nextNonce session =? CryptoAuth_State_SENT_HELLO then
      if memcmp (herPublicKey session) (ca_publicKey ca) <? 0
      then Ret (hello_state (set_herTempPubKey (reset session) tempKey)
                  CryptoAuth_State_RECEIVED_HELLO)
      else Ret hello_ignored
    else if nextNonce session =? CryptoAuth_State_INIT
    then Ret (hello_state (set_herTempPubKey session tempKey) CryptoAuth_State_RECEIVED_HELLO)
    else Ret (hello_state (set_herTempPubKey (reset session) tempKey)
                CryptoAuth_State_RECEIVED_HELLO)
  else if (nextNonce session =? CryptoAuth_State_RECEIVED_HELLO)
          || (nextNonce session =? CryptoAuth_State_SENT_KEY)
  then Ret (hello_state session (nextNonce session))
  else Ret hello_invalid.

(** The end of [decryptHandshake]: the nonce may not go back. *)
Definition handshake_finish (session : Session) (next : Z) : Er Session :=
  Assert_true ((nextNonce session <? next)
               || ((nextNonce session <=? CryptoAuth_State_RECEIVED_KEY)
                   && (next =? nextNonce session)));;
  Ret (set_replayProtector (set_nextNonce session next) ReplayProtector_empty).

(** The packet is authentic: check it against the state and take the step. *)
Definition handshake_step (session : Session) (ca : CryptoAuth) (nonce next : Z)
  (tempKey : list Z) : Er (Session * CryptoAuth_DecryptErr) :=
  invalid ← handshake_invalid session nonce tempKey;
  if (invalid : bool) then Ret (session, DecryptErr_INVALID_PACKET)
  else if next =? CryptoAuth_State_RECEIVED_KEY then
    r ← handshake_key session nonce tempKey;
    match r with
    | None => Ret (session, DecryptErr_STRAY_KEY)
    | Some (session, next) =>
        session ← handshake_finish session next;
        Ret (session, DecryptErr_NONE)
    end
  else
    r ← handshake_hello session ca nonce tempKey;
    match r with
    | hello_ignored => Ret (session, DecryptErr_NONE)
    | hello_invalid => Ret (session, DecryptErr_INVALID_PACKET)
    | hello_state session next =>
        session ← handshake_finish session next;
        Ret (session, DecryptErr_NONE)
    end.

Definition decryptHandshake (session : Session) (ca : CryptoAuth) (nonce : Z) (message : Message)
  : Er (Message * Session * CryptoAuth_DecryptErr) :=
  if msg_length message <? CryptoHeader_SIZE then
    cryptoAuthDebug session;; Ret (message, session, DecryptErr_RUNT)
  else
    Assert_true (knowHerKey session);;
    if negb (memcmp (herPublicKey session) (msg_read message 40 32) =? 0)
    then Ret (message, session, DecryptErr_WRONG_PERM_PUBKEY)
    else
      Assert_true (bool_decide ((nextNonce session < CryptoAuth_State_RECEIVED_HELLO) <->
                                Bits_isZero (herTempPubKey session) = true));;
      match handshake_auth session ca (msg_read message 4 12) with
      | inl err => Ret (message, session, err)
      | inr passwordHash =>
          r ← handshake_secret session ca nonce passwordHash;
          match r with
          | inl err => Ret (message, session, err)
          | inr (sharedSecret, next) =>
              '(message, r) ← handshake_open message sharedSecret;
              match r with
              | inl err => Ret (message, session, err)
              | inr tempKey =>
                  '(session, err) ← handshake_step session ca nonce next tempKey;
                  Ret (message, session, err)
              end
          end
      end.

(** "This prevents a few ghost dropped packets": the window is moved whether or
    not the packet was authentic. *)
Definition start_window (session : Session) (nonce : Z) : Session :=
  let rp := replayProtector session in
  set_replayProtector session
    {| bitfield := 0; baseOffset := u32 (nonce + 1); duplicates := duplicates rp;
       lostPackets := lostPackets rp; receivedOutOfRange := receivedOutOfRange rp |}.

(** A data packet while the handshake is not finished. *)
Definition decrypt_final_step (session : Session) (nonce : Z) (msg : Message) (nowSecs : Z)
  : Er (Message * Session * CryptoAuth_DecryptErr) :=
  if nextNonce session <? CryptoAuth_State_SENT_KEY then
    cryptoAuthDebug session;; Ret (msg, session, DecryptErr_NO_SESSION)
  else
    cryptoAuthDebug session;;
    Assert_ifParanoid (negb (Bits_isZero (ourTempPrivKey session)));;
    Assert_ifParanoid (negb (Bits_isZero (herTempPubKey session)));;
    secret ← getSharedSecret (ourTempPrivKey session) (herTempPubKey session) None;
    '(msg, session, ret) ← decryptMessage session nonce msg secret;
    let session := start_window session nonce in
    if decide (ret = DecryptErr_NONE) then
      let session := set_sharedSecret session (take 32 secret) in
      let session := set_established session true in
      let session := set_nextNonce session (u32 (nextNonce session + 3)) in
      Ret (msg, updateTime session nowSecs, DecryptErr_NONE)
    else
      cryptoAuthDebug session;; Ret (msg, session, ret).

(** (The assertion on the padding in the source is always true: it is or-ed with
    a string.) *)
Definition CryptoAuth_decrypt (session : Session) (ca : CryptoAuth) (msg : Message) (nowSecs : Z)
  : Er (Message * Session * CryptoAuth_DecryptErr) :=
  if msg_length msg <? 20 then
    cryptoAuthDebug session;; Ret (msg, session, DecryptErr_RUNT)
  else
    Assert_true ((msg_addr msg + msg_bytes msg) mod 4 =? 0);;
    Assert_true (Z.rem (msg_capacity msg) 4 =? 0);;
    let nonce := Endian_bigEndianToHost32 (le_val (msg_read msg 0 4)) in
    msg ← Message_eshift msg (-4);
    if negb (established session) then
      if nonce >=? Nonce_FIRST_TRAFFIC_PACKET
      then decrypt_final_step session nonce msg nowSecs
      else
        msg ← Message_eshift msg 4;
        decryptHandshake session ca nonce msg
    else if nonce >=? Nonce_FIRST_TRAFFIC_PACKET then
      Assert_ifParanoid (negb (Bits_isZero (sharedSecret session)));;
      '(msg, session, ret) ← decryptMessage session nonce msg (sharedSecret session);
      if decide (ret = DecryptErr_NONE)
      then Ret (msg, updateTime session nowSecs, DecryptErr_NONE)
      else cryptoAuthDebug session;; Ret (msg, session, ret)
    else if nonce <=? Nonce_REPEAT_HELLO then
      cryptoAuthDebug session;;
      msg ← Message_eshift msg 4;
      decryptHandshake session ca nonce msg
    else
      cryptoAuthDebug session;;
      Ret (msg, session, DecryptErr_KEY_PKT_ESTABLISHED_SESSION).

(** ** Contexts and credentials *)

(** [privateKey] is [None] for NULL; [rand32] what the random generator yields. *)
Definition CryptoAuth_new (privateKey : option (list Z)) (rand32 : list Z) : CryptoAuth :=
  let privateKey := match privateKey with Some k => take 32 k | None => rand32 end in
  {| ca_publicKey := scalarmult_base privateKey; ca_privateKey := privateKey; users := [] |}.

(** [String_printf(alloc, "Anon #%d", i)]. *)
Definition anon_login (i : nat) : list Z :=
  chars "Anon #" ++ chars (NilZero.string_of_uint (Nat.to_uint i)).

Definition CryptoAuth_addUser_ipv6 (password : list Z) (login : option (list Z))
  (ipv6 : option (list Z)) (ca : CryptoAuth) : Er (Z * CryptoAuth) :=
  let login := match login with Some l => l | None => anon_login (length (users ca)) end in
  '(_, ac2) ← hashPassword (Some login) password 2;
  '(secret, ac1) ← hashPassword None password 1;
  let duplicate u := (memcmp secret (user_secret u) =? 0) && bool_decide (login = user_login u) in
  if existsb duplicate (users ca) then Ret (CryptoAuth_addUser_DUPLICATE, ca)
  else
    let user :=
      {| passwordHash := take 8 ac1; userNameHash := take 8 ac2; user_secret := secret;
         user_login := login;
         restrictedToip6 := match ipv6 with Some ip => take 16 ip | None => zeros 16 end |} in
    Ret (0, {| ca_publicKey := ca_publicKey ca; ca_privateKey := ca_privateKey ca;
               users := users ca ++ [user] |}).

Definition CryptoAuth_addUser (password : list Z) (login : option (list Z)) (ca : CryptoAuth)
  : Er (Z * CryptoAuth) := CryptoAuth_addUser_ipv6 password login None ca.

(** [while ((u = *up))]: the users which are not removed, and how many were. *)
Fixpoint removeUsers_loop (login : option (list Z)) (us : list User) : list User * Z :=
  match us with
  | [] => ([], 0)
  | u :: us =>
      let '(kept, count) := removeUsers_loop login us in
      if match login with None => true | Some l => bool_decide (l = user_login u) end
      then (kept, count + 1) else (u :: kept, count)
  end.

Definition CryptoAuth_removeUsers (ca : CryptoAuth) (login : option (list Z)) : Z * CryptoAuth :=
  let '(kept, count) := removeUsers_loop login (users ca) in
  (count, {| ca_publicKey := ca_publicKey ca; ca_privateKey := ca_privateKey ca; users := kept |}).

Definition CryptoAuth_getUsers (ca : CryptoAuth) : list (list Z) := map user_login (users ca).

Definition CryptoAuth_newSession (herKey : list Z) (requireAuth_ : bool) (nowSecs : Z) : Session :=
  {| herPublicKey := take 32 herKey; replayProtector := ReplayProtector_empty;
     herIp6 := snd (AddressCalc_addressForPublicKey herKey);
     resetAfterInactivitySeconds := CryptoAuth_DEFAULT_RESET_AFTER_INACTIVITY_SECONDS;
     setupResetAfterInactivitySeconds := CryptoAuth_DEFAULT_SETUP_RESET_AFTER_INACTIVITY_SECONDS;
     sharedSecret := zeros 32; herTempPubKey := zeros 32; ourTempPrivKey := zeros 32;
     ourTempPubKey := zeros 32; password := None; login := None; nextNonce := 0;
     timeOfLastPacket := u32 nowSecs; authType := 0; isInitiator := false;
     requireAuth := requireAuth_; established := false |}.

(** [String_clone(NULL)] is NULL. *)
Definition CryptoAuth_setAuth (pass log : option (list Z)) (session : Session) : Session :=
  if bool_decide (pass = None)
     && (bool_decide (password session <> None) || negb (authType session =? 0))
  then reset (set_auth session None (login session) 0)
  else if bool_decide (password session = None) || negb (bool_decide (password session = pass))
  then
    let session :=
      match log with
      | Some l => set_auth session pass (Some l) 2
      | None => set_auth session pass (login session) 1
      end in
    reset session
  else session.

Definition CryptoAuth_getState (session : Session) : Z :=
  if nextNonce session <=? CryptoAuth_State_RECEIVED_KEY then nextNonce session
  else if established session then CryptoAuth_State_ESTABLISHED
  else CryptoAuth_State_RECEIVED_KEY.

(** The exported names of the static functions. *)
Definition CryptoAuth_resetIfTimeout (session : Session) (nowSecs : Z) : Er Session :=
  resetIfTimeout session nowSecs.

Definition CryptoAuth_reset (session : Session) : Session := reset session.

Definition CryptoAuth_encryptRndNonce (nonce : list Z) (msg : Message) (secret : list Z)
  : Er Message := encryptRndNonce nonce msg secret.

Definition CryptoAuth_decryptRndNonce (nonce : list Z) (msg : Message) (secret : list Z)
  : Er (Z * Message) := decryptRndNonce nonce msg secret.

End CryptoAuth.
