(* ===== verification/CryptoAuthProofs.v ===== *)
(** * Theorems about crypto/CryptoAuth.c

    The definitions are those of [CryptoAuth].  Packets are described by the
    bytes of the message ([msg_view]); boxes by [seal] and [unseal]. *)
From S2P Require Import Prelude Bits Message Headers ReplayProtector Nacl Hex Key CryptoAuth.

(** Access to the padding alone. *)
Lemma msg_read_pad m p1 r p2 c post off n :
  msg_view m (p1 ++ r ++ p2) c post -> off = - (len r + len p2) -> n = len r ->
  msg_read m off n = r.
Proof.
  intros (slack & tail & Hm & Hb & _) -> ->. unfold msg_read. rewrite Hm, Hb.
  replace (slack ++ (p1 ++ r ++ p2) ++ c ++ post ++ tail)
    with ((slack ++ p1) ++ r ++ (p2 ++ c ++ post ++ tail)) by (by rewrite !app_assoc).
  apply rd_app; msg_lens; lia.
Qed.

Lemma msg_write_pad m p1 r p2 c post off bs :
  msg_view m (p1 ++ r ++ p2) c post -> off = - (len r + len p2) -> length bs = length r ->
  msg_view (msg_write m off bs) (p1 ++ bs ++ p2) c post.
Proof.
  intros (slack & tail & Hm & Hb & Hp & Hl & Hc & Hs) -> H1.
  exists slack, tail. cbn [msg_write msg_length msg_padding msg_bytes msg_capacity msg_mem].
  rewrite Hm. split; [|msg_lens; repeat split; lia].
  replace (slack ++ (p1 ++ r ++ p2) ++ c ++ post ++ tail)
    with ((slack ++ p1) ++ r ++ (p2 ++ c ++ post ++ tail)) by (by rewrite !app_assoc).
  rewrite wr_app by (msg_lens; lia). by rewrite !app_assoc.
Qed.

Lemma msg_view_padding m pre c post : msg_view m pre c post -> msg_padding m = len pre.
Proof. intros (? & ? & ?). tauto. Qed.

(** ** Boxes *)

#[local] Set Default Proof Using "All".

Section Boxes.
Context {N : Nacl}.

(** The boxed and the opened text, without the zero bytes of NaCl's interface. *)
Definition seal (nonce secret m : list Z) : list Z :=
  drop 16 (box_afternm (zeros 32 ++ m) nonce secret).
Definition unseal (nonce secret c : list Z) : option (list Z) :=
  let '(status, opened) := open_afternm (zeros 16 ++ c) nonce secret in
  if status =? 0 then Some (drop 32 opened) else None.

Context {L : NaclLaws N}.

Lemma box_seal nonce secret m :
  box_afternm (zeros 32 ++ m) nonce secret = zeros 16 ++ seal nonce secret m.
Proof.
  destruct (box_shape m nonce secret) as (c & Hc & He). unfold seal. rewrite He.
  by rewrite (drop_app_length' (zeros 16)).
Qed.

Lemma seal_length nonce secret m : length (seal nonce secret m) = (16 + length m)%nat.
Proof.
  destruct (box_shape m nonce secret) as (c & Hc & He). unfold seal. rewrite He.
  by rewrite (drop_app_length' (zeros 16)).
Qed.

Lemma unseal_seal nonce secret m : unseal nonce secret (seal nonce secret m) = Some m.
Proof.
  unfold unseal. rewrite <- box_seal, open_box. simpl Z.eqb. cbv iota.
  by rewrite (drop_app_length' (zeros 32)).
Qed.

Lemma unseal_length nonce secret c m :
  16 <= len c -> unseal nonce secret c = Some m -> len m = len c - 16.
Proof.
  intros Hc. unfold unseal.
  pose proof (open_length (zeros 16 ++ c) nonce secret) as Hl. rewrite length_app in Hl.
  change (length (zeros 16)) with 16%nat in Hl. specialize (Hl ltac:(lia)).
  destruct (open_afternm _ _ _) as [st o]. case_match; [|done]. intros [= <-].
  cbn [snd] in Hl. rewrite length_drop. lia.
Qed.

Lemma encryptRndNonce_view nonce secret m pre r1 r2 c post :
  msg_view m (pre ++ r1 ++ r2) c post -> length r1 = 16%nat -> length r2 = 16%nat ->
  exists m', encryptRndNonce nonce m secret = Ret m' /\
    msg_view m' (pre ++ r1) (seal nonce secret c) post.
Proof.
  intros Hv H1 H2. unfold encryptRndNonce.
  pose proof (msg_view_padding _ _ _ _ Hv) as Hp. pose proof (msg_view_length _ _ _ _ Hv) as Hl.
  rewrite !length_app in Hp.
  replace (msg_padding m >=? 32) with true by (symmetry; apply Z.geb_le; lia).
  cbn [mbind Er_bind Assert_true].
  rewrite (msg_read_pad m pre r1 r2 c post) by (done || lia).
  pose proof (msg_write_front m pre (r1 ++ r2) [] c post (-32) (zeros 32) [] Hv) as Hw.
  rewrite length_app, H1, H2, app_nil_r in Hw. specialize (Hw eq_refl eq_refl eq_refl).
  set (m1 := msg_write m (-32) (zeros 32)) in *.
  change (msg_length m1) with (msg_length m).
  rewrite (msg_read_front m1 pre (zeros 32) c [] post) by
    (rewrite ?app_nil_r; try done; rewrite Hl; change (len (zeros 32)) with 32; lia).
  rewrite box_seal. set (s := seal nonce secret c).
  pose proof (seal_length nonce secret c) as Hs. fold s in Hs.
  pose proof (msg_write_front m1 pre (zeros 32) c [] post (-32) (zeros 16 ++ take 16 s) (drop 16 s))
    as Hw2. rewrite !app_nil_r, <- !app_assoc, take_drop in Hw2.
  specialize (Hw2 Hw eq_refl ltac:(rewrite length_app, length_take, Hs; simpl; lia)
                  ltac:(rewrite length_drop, Hs; lia)).
  apply (msg_write_pad _ pre (zeros 16) (take 16 s) _ _ (-32) r1) in Hw2;
    [|rewrite length_take, Hs; change (len (zeros 16)) with 16; lia|done].
  rewrite app_assoc in Hw2. destruct (eshift_push _ _ _ _ _ Hw2) as (m' & He & Hv' & _).
  rewrite length_take, Hs in He. replace (Z.of_nat (16 `min` (16 + length c))) with 16 in He by lia.
  exists m'. split; [done|]. by rewrite take_drop in Hv'.
Qed.

(** Opening: the plain text, or a message of the same length. *)
Lemma decryptRndNonce_view nonce secret m pre r c post :
  msg_view m (pre ++ r) c post -> length r = 16%nat -> 16 <= len c ->
  match unseal nonce secret c with
  | Some p => exists m' tag, decryptRndNonce nonce m secret = Ret (0, m') /\
      length tag = 16%nat /\ msg_view m' (pre ++ r ++ tag) p post
  | None => exists m' r' c', decryptRndNonce nonce m secret = Ret (-1, m') /\
      length r' = 16%nat /\ length c' = length c /\ msg_view m' (pre ++ r') c' post
  end.
Proof.
  intros Hv Hr Hc. unfold decryptRndNonce, unseal.
  pose proof (msg_view_padding _ _ _ _ Hv) as Hp. pose proof (msg_view_length _ _ _ _ Hv) as Hl.
  rewrite !length_app in Hp. zdecide (msg_length m <? 16).
  replace (msg_padding m >=? 16) with true by (symmetry; apply Z.geb_le; lia).
  cbn [mbind Er_bind Assert_true].
  rewrite (msg_read_front m pre r [] c post) by (done || simpl; lia). rewrite app_nil_r.
  pose proof (msg_write_front m pre r [] c post (-16) (zeros 16) [] Hv) as Hw.
  rewrite Hr, app_nil_r in Hw. specialize (Hw eq_refl eq_refl eq_refl).
  set (m1 := msg_write m (-16) (zeros 16)) in *. change (msg_length m1) with (msg_length m).
  rewrite (msg_read_front m1 pre (zeros 16) c [] post) by
    (rewrite ?app_nil_r; try done; rewrite Hl; change (len (zeros 16)) with 16; lia).
  pose proof (open_length (zeros 16 ++ c) nonce secret) as Ho.
  rewrite length_app in Ho. change (length (zeros 16)) with 16%nat in Ho.
  specialize (Ho ltac:(lia)).
  destruct (open_afternm (zeros 16 ++ c) nonce secret) as [st o]. cbn [snd] in Ho.
  pose proof (msg_write_front m1 pre (zeros 16) c [] post (-16) (take 16 o) (drop 16 o)) as Hw2.
  rewrite !app_nil_r, take_drop in Hw2.
  specialize (Hw2 Hw eq_refl ltac:(rewrite length_take, Ho; simpl; lia)
                  ltac:(rewrite length_drop; lia)).
  destruct (Z.eqb_spec st 0) as [->|Hst]; cbn [negb].
  - pose proof (msg_write_front _ pre (take 16 o) [] (drop 16 o) post (-16) r [] Hw2) as Hw3.
    rewrite length_take, Ho, app_nil_r in Hw3.
    specialize (Hw3 ltac:(lia) ltac:(lia) eq_refl). simpl app in Hw3.
    rewrite <- (take_drop 16 (drop 16 o)) in Hw3.
    destruct (eshift_pop _ _ _ _ _ Hw3) as (m' & He & Hv' & _).
    rewrite length_take, length_drop, Ho in He.
    replace (- Z.of_nat (16 `min` (16 + length c - 16))) with (-16) in He by lia.
    exists m', (take 16 (drop 16 o)). rewrite He. split; [done|].
    rewrite length_take, length_drop, Ho. split; [lia|].
    rewrite drop_drop in Hv'. by rewrite <- app_assoc in Hv'.
  - eexists _, (take 16 o), (drop 16 o). split; [done|].
    rewrite length_take, length_drop, Ho. split_and!; [lia|lia|done].
Qed.
End Boxes.

#[local] Arguments Bits_isZero : simpl never.
#[local] Arguments knowHerKey : simpl never.

(** ** Secrets *)

Section Sessions.
Context {N : Nacl} {L : NaclLaws N}.

(** What [getSharedSecret] computes when the library does not fail. *)
Definition shared (priv pub : list Z) (passwordHash : option (list Z)) : list Z :=
  match passwordHash with
  | None => snd (beforenm pub priv)
  | Some h => sha256 (snd (scalarmult priv pub) ++ take 32 h)
  end.

Lemma getSharedSecret_ret priv pub ph : getSharedSecret priv pub ph = Ret (shared priv pub ph).
Proof.
  unfold getSharedSecret, shared. destruct ph as [h|].
  - pose proof (proj1 (scalarmult_ok priv pub)) as H. destruct (scalarmult priv pub) as [st k].
    simpl in *. by rewrite H.
  - pose proof (proj1 (beforenm_ok pub priv)) as H. destruct (beforenm pub priv) as [st k].
    simpl in *. by rewrite H.
Qed.

Lemma shared_length priv pub ph : length (shared priv pub ph) = 32%nat.
Proof. destruct ph; simpl; [apply sha256_length|apply beforenm_ok]. Qed.

Lemma shared_comm a b ph : shared a (scalarmult_base b) ph = shared b (scalarmult_base a) ph.
Proof. destruct ph; simpl; [by rewrite scalarmult_comm|apply beforenm_comm]. Qed.

(** ** The invariant of a session *)

Record session_ok (s : Session) : Prop := {
  so_key : knowHerKey s = true;
  so_nonce : fits 32 (nextNonce s);
  so_temp : nextNonce s < 2 <-> Bits_isZero (herTempPubKey s) = true;
  so_ours : nextNonce s = 1 \/ 3 <= nextNonce s -> Bits_isZero (ourTempPrivKey s) = false;
  so_herlen : length (herPublicKey s) = 32%nat;
  so_templen : length (herTempPubKey s) = 32%nat;
  so_ourlen : length (ourTempPubKey s) = 32%nat;
  so_est : established s = true -> exists pub priv, sharedSecret s = snd (beforenm pub priv);
  so_auth : password s <> None -> authType s = 1 \/ authType s = 2 /\ login s <> None;
}.

(** The secret of a running session is one which [CryptoAuth_decrypt] takes: an
    all-zero secret, should the library ever derive one, fails the assertion in
    front of [decryptMessage]. *)
Definition agreed (s : Session) : Prop :=
  established s = true -> Bits_isZero (sharedSecret s) = false.

#[export] Instance agreed_dec s : Decision (agreed s).
Proof using Type. unfold agreed. apply _. Defined.

Lemma agreed_idle s : established s = false -> agreed s.
Proof using Type. unfold agreed. congruence. Qed.

Lemma not_agreed s : ~ agreed s -> established s = true /\ Bits_isZero (sharedSecret s) = true.
Proof using Type.
  unfold agreed. intros Hn. destruct (established s); [|by destruct Hn].
  destruct (Bits_isZero (sharedSecret s)); [done|by destruct Hn].
Qed.

Record ca_ok (ca : CryptoAuth) : Prop := {
  ca_publen : length (ca_publicKey ca) = 32%nat;
}.

(** Messages as the callers must pass them. *)
Definition aligned (m : Message) : Prop := (msg_addr m + msg_bytes m) mod 4 = 0.

Lemma reset_ok s : session_ok s -> session_ok (reset s).
Proof.
  intros [H1 H2 H3 H4 H5 H6 H7 H8 H9].
  split; cbn [reset set_nextNonce set_isInitiator set_tempKeys set_herTempPubKey set_sharedSecret
    set_established set_replayProtector knowHerKey herPublicKey nextNonce herTempPubKey
    ourTempPrivKey ourTempPubKey established password authType login]; try done.
  unfold CryptoAuth_State_INIT. lia.
Qed.

Lemma resetIfTimeout_ok s now :
  session_ok s -> exists s', resetIfTimeout s now = Ret s' /\ session_ok s' /\
    nextNonce s' <= nextNonce s.
Proof.
  intros Hs. pose proof (so_nonce s Hs) as [Hn _]. unfold resetIfTimeout, cryptoAuthDebug.
  rewrite (so_key s Hs). cbn [mbind Er_bind Assert_true].
  assert (Hr : session_ok (reset (set_timeOfLastPacket s (u32 now)))).
  { apply reset_ok. destruct Hs. by split. }
  repeat case_match; eexists; (split; [done|]); split; try done; try lia.
Qed.

Lemma hashPassword_ret log pass t :
  t = 1 \/ t = 2 /\ log <> None ->
  exists ch, hashPassword log pass t = Ret (sha256 pass, ch) /\ length ch = 12%nat /\ get ch 0 = t.
Proof.
  intros Ht. unfold hashPassword.
  assert (Hx : exists tmp, length tmp = 32%nat /\
    (if t =? 1 then Ret (sha256 (sha256 pass))
     else if t =? 2 then match log with Some login => Ret (sha256 login)
                         | None => Abort "NULL login" end
     else Abort "Unsupported auth type") = Ret tmp).
  { destruct Ht as [->|[-> Hl]]; simpl.
    - eexists. split; [apply sha256_length|done].
    - destruct log; [|done]. eexists. split; [apply sha256_length|done]. }
  destruct Hx as (tmp & Hl & ->). cbn [mbind Er_bind].
  do 13 (destruct tmp as [|? tmp]; [done|]). by eexists.
Qed.

(** ** Hello and key packets *)

(** The bytes of a handshake packet. *)
Definition hs_packet (nonce : Z) (auth hnonce pub body : list Z) : list Z :=
  be_bytes 4 nonce ++ auth ++ hnonce ++ pub ++ body.

Lemma le_bytes_hostToBig32 x :
  fits 32 x -> le_bytes 4 (Endian_hostToBigEndian32 x) = be_bytes 4 x.
Proof.
  intros Hx. unfold Endian_hostToBigEndian32, Endian_byteSwap32, u32.
  by rewrite (fits_small _ x Hx), <- le_bytes_bswap.
Qed.

(** Writing inside of a part of the content. *)
Lemma msg_write_in m pre a b c post off k bs :
  msg_view m pre (a ++ b ++ c) post -> off = len a + k -> 0 <= k -> k + len bs <= len b ->
  msg_view (msg_write m off bs) pre (a ++ wr k bs b ++ c) post.
Proof.
  intros Hv -> Hk Hb. destruct (list_split_at k b ltac:(lia)) as (b1 & b' & -> & Hb1).
  rewrite length_app in Hb.
  destruct (list_split_at (len bs) b' ltac:(lia)) as (b2 & b3 & -> & Hb2).
  rewrite wr_app by lia.
  replace (len a + k) with (len (a ++ b1)) by (rewrite length_app; lia).
  replace (a ++ (b1 ++ bs ++ b3) ++ c) with ((a ++ b1) ++ bs ++ (b3 ++ c))
    by (by rewrite <- !app_assoc).
  apply (msg_write_view _ _ _ b2); [by rewrite <- !app_assoc in *|lia].
Qed.

(** The challenge a session sends and the password it stands for. *)
Definition auth_of (s : Session) (rand12 : list Z) : Er (list Z * option (list Z)) :=
  match password s with
  | Some p => '(h, ch) ← hashPassword (login s) p (u8 (authType s)); Ret (ch, Some h)
  | None => Ret (wr 10 [0; 0] (wr 0 [u8 (authType s)] rand12), None)
  end.

Lemma auth_of_ret s rand12 :
  session_ok s -> length rand12 = 12%nat ->
  exists auth ph, auth_of s rand12 = Ret (auth, ph) /\ length auth = 12%nat.
Proof.
  intros Hs Hr. unfold auth_of. destruct (password s) as [p|] eqn:Hp.
  - assert (Ha : u8 (authType s) = 1 \/ u8 (authType s) = 2 /\ login s <> None).
    { destruct (so_auth s Hs) as [->|[-> Hl]]; [by rewrite Hp|by left|by right]. }
    destruct (hashPassword_ret (login s) p _ Ha) as (ch & -> & Hl & _). by eexists _, _.
  - eexists _, _. split; [done|]. by do 12 (destruct rand12 as [|? rand12]; [done|]).
Qed.

Definition with_temp (s : Session) (rand32 : list Z) : Session :=
  if (nextNonce s =? CryptoAuth_State_INIT)
     || (nextNonce s =? CryptoAuth_State_RECEIVED_HELLO)
  then set_tempKeys s rand32 (scalarmult_base rand32) else s.

Lemma encryptHandshake_header_view s ca m pre room c post rand12 hn rand32 auth ph :
  session_ok s -> ca_ok ca -> length rand12 = 12%nat -> length hn = 24%nat ->
  msg_view m (pre ++ room) c post -> length room = 120%nat ->
  auth_of s rand12 = Ret (auth, ph) -> length auth = 12%nat ->
  exists m' pad, encryptHandshake_header m s ca (rand12 ++ hn) rand32
    = Ret (m', with_temp s rand32, ph) /\ length pad = 16%nat /\
    msg_view m' pre (be_bytes 4 (nextNonce s) ++ auth ++ hn ++ ca_publicKey ca ++ pad
                     ++ ourTempPubKey (with_temp s rand32) ++ c) post.
Proof.
  intros Hs Hca H12 H24 Hv Hroom Hau Hal. unfold encryptHandshake_header.
  destruct (eshift_push _ _ _ _ _ Hv) as (m0 & He & Hv0 & _).
  rewrite Hroom in He. change CryptoHeader_SIZE with (Z.of_nat 120). rewrite He. clear He Hv.
  cbn [mbind Er_bind].
  destruct (list_split_at 4 room ltac:(lia)) as (r1 & r' & -> & H1). rewrite length_app in Hroom.
  destruct (list_split_at 36 r' ltac:(lia)) as (r2 & r'' & -> & H2). rewrite length_app in Hroom.
  destruct (list_split_at 32 r'' ltac:(lia)) as (r3 & r''' & -> & H3). rewrite length_app in Hroom.
  destruct (list_split_at 16 r''' ltac:(lia)) as (r4 & r5 & -> & H4). rewrite length_app in Hroom.
  rewrite <- !app_assoc in Hv0.
  apply (msg_write_view _ _ _ _ _ _ (rand12 ++ hn)) in Hv0; [|rewrite length_app; lia].
  rewrite H1 in Hv0. set (m1 := msg_write m0 4 _) in *.
  assert (Hp : length (ca_publicKey ca) = length r3) by (rewrite (ca_publen ca Hca); lia).
  rewrite (app_assoc r1) in Hv0. apply (msg_write_view _ _ _ _ _ _ (ca_publicKey ca)) in Hv0;
    [|done]. rewrite !length_app in Hv0.
  replace (Z.of_nat _) with 40 in Hv0 by lia. set (m2 := msg_write m1 40 _) in *.
  rewrite (so_key s Hs). cbn [Assert_true].
  rewrite <- !app_assoc in Hv0.
  match goal with |- context [match password s with Some p => @?f p | None => ?g end] =>
    assert (exists m3, match password s with Some p => f p | None => g end = Ret (m3, ph) /\
      msg_view m3 pre (r1 ++ auth ++ hn ++ ca_publicKey ca ++ r4 ++ r5 ++ c) post)
      as (m3 & -> & Hv3) end.
  { unfold auth_of in Hau. destruct (password s) as [p|].
    - destruct (hashPassword _ _ _) as [[h ch]|]; [|done]. cbn [mbind Er_bind] in *.
      injection Hau as <- <-. eexists. split; [done|].
      apply (msg_write_view _ _ _ _ _ _ ch) in Hv0; [|lia]. by rewrite H1 in Hv0.
    - injection Hau as <- <-. eexists. split; [done|].
      apply (msg_write_in _ _ _ _ _ _ 14 10 [0; 0]); [|lia|lia|].
      + by apply (msg_write_in _ _ _ _ _ _ 4 0 [_]); [|lia|lia|simpl; lia].
      + rewrite length_wr by (simpl; lia). simpl. lia. }
  cbn [mbind Er_bind]. clear Hv0.
  apply (msg_write_view _ _ [] _ _ _ (be_bytes 4 (nextNonce s))) in Hv3;
    [|rewrite length_be_bytes; lia]. rewrite !app_nil_l in Hv3.
  change (len (@nil Z)) with 0 in Hv3.
  replace (le_bytes 4 (Endian_hostToBigEndian32 (nextNonce s))) with (be_bytes 4 (nextNonce s)).
  2: { symmetry. apply le_bytes_hostToBig32, Hs. }
  fold (with_temp s rand32). set (s' := with_temp s rand32).
  assert (Htl : length (ourTempPubKey s') = 32%nat).
  { unfold s', with_temp. case_match; [apply scalarmult_base_length|apply Hs]. }
  replace (be_bytes 4 (nextNonce s) ++ auth ++ hn ++ ca_publicKey ca ++ r4 ++ r5 ++ c)
    with ((be_bytes 4 (nextNonce s) ++ auth ++ hn ++ ca_publicKey ca ++ r4) ++ r5 ++ c) in Hv3
    by (by rewrite <- !app_assoc).
  apply (msg_write_view _ _ _ _ _ _ (ourTempPubKey s')) in Hv3; [|lia].
  rewrite !length_app, length_be_bytes in Hv3. replace (Z.of_nat (4 + _)) with 88 in Hv3 by lia.
  assert (Hk : knowHerKey s' = true) by (unfold s', with_temp; case_match; apply Hs).
  unfold cryptoAuthDebug. rewrite Hk. cbn [Assert_true].
  eexists _, r4. split; [done|]. split; [lia|]. by rewrite <- !app_assoc in Hv3.
Qed.

(** The whole packet: the secret depends on whether a hello or a key is sent. *)
Definition sent_state (s : Session) (rand32 : list Z) : Session :=
  let s := with_temp s rand32 in
  if nextNonce s <? 2 then set_nextNonce (set_isInitiator s true) 1 else set_nextNonce s 3.

Definition sent_secret (s : Session) (ca : CryptoAuth) (ph : option (list Z)) : list Z :=
  shared (ca_privateKey ca) (if nextNonce s <? 2 then herPublicKey s else herTempPubKey s) ph.

Lemma with_temp_fields s rand32 :
  nextNonce (with_temp s rand32) = nextNonce s /\
  herPublicKey (with_temp s rand32) = herPublicKey s /\
  herTempPubKey (with_temp s rand32) = herTempPubKey s.
Proof. unfold with_temp. by case_match. Qed.

Lemma sent_state_ok s rand32 :
  session_ok s -> nextNonce s <= 3 -> Bits_isZero rand32 = false ->
  session_ok (sent_state s rand32) /\ nextNonce (sent_state s rand32) <= nextNonce s + 1.
Proof.
  intros Hs Hn Hr. pose proof (so_nonce s Hs) as [Hn0 _]. destruct Hs.
  unfold sent_state, with_temp.
  assert (nextNonce s = 0 \/ nextNonce s = 1 \/ nextNonce s = 2 \/ nextNonce s = 3)
    as [E|[E|[E|E]]] by lia; rewrite E in *; cbn; rewrite ?E; (split; [|cbn; lia]);
    split; cbn; rewrite ?E; try done; try apply scalarmult_base_length;
    try (intros; apply so_ours0; lia); rewrite <- so_temp0; lia.
Qed.

Lemma encryptHandshake_view s ca m pre room c post rand12 hn rand32 auth ph :
  session_ok s -> ca_ok ca -> nextNonce s <= 3 -> length rand12 = 12%nat -> length hn = 24%nat ->
  msg_view m (pre ++ room) c post -> length room = 120%nat ->
  auth_of s rand12 = Ret (auth, ph) -> length auth = 12%nat ->
  exists m', encryptHandshake m s ca (rand12 ++ hn) rand32 = Ret (m', sent_state s rand32) /\
    msg_view m' pre (hs_packet (nextNonce s) auth hn (ca_publicKey ca)
      (seal hn (sent_secret s ca ph) (ourTempPubKey (with_temp s rand32) ++ c))) post.
Proof.
  intros Hs Hca Hn H12 H24 Hv Hroom Hau Hal. unfold encryptHandshake.
  destruct (encryptHandshake_header_view _ _ _ _ _ _ _ _ _ rand32 _ _ Hs Hca H12 H24 Hv Hroom Hau Hal)
    as (m1 & pad & -> & Hpad & Hv1). cbn [mbind Er_bind].
  destruct (with_temp_fields s rand32) as (E1 & E2 & E3).
  assert (encryptHandshake_secret (with_temp s rand32) ca ph
    = Ret (sent_state s rand32, sent_secret s ca ph)) as ->.
  { unfold encryptHandshake_secret, sent_state, sent_secret. rewrite E1, E2, E3.
    change CryptoAuth_State_RECEIVED_HELLO with 2.
    destruct (Z.ltb_spec (nextNonce s) 2) as [H2|H2]; rewrite getSharedSecret_ret.
    - cbn [mbind Er_bind nextNonce set_isInitiator]. rewrite E1.
      change CryptoAuth_State_SENT_HELLO with 1. by zdecide (nextNonce s <=? 1).
    - assert (Bits_isZero (herTempPubKey s) = false) as ->.
      { apply not_true_iff_false. rewrite <- (so_temp s Hs). lia. }
      change CryptoAuth_State_SENT_KEY with 3. cbn. by zdecide (nextNonce s <=? 3). }
  cbn [mbind Er_bind].
  assert (nextNonce (sent_state s rand32) < CryptoAuth_State_RECEIVED_HELLO <->
    Bits_isZero (herTempPubKey (sent_state s rand32)) = true) as Hiff.
  { unfold sent_state. rewrite E1. change CryptoAuth_State_RECEIVED_HELLO with 2.
    destruct (Z.ltb_spec (nextNonce s) 2); cbn [set_nextNonce set_isInitiator nextNonce herTempPubKey];
      rewrite E3, <- (so_temp s Hs); lia. }
  rewrite (bool_decide_eq_true_2 _ Hiff). cbn [Assert_true].
  replace (msg_read m1 16 24) with hn.
  2: { symmetry. rewrite app_assoc in Hv1. apply msg_read_view in Hv1.
       by rewrite length_app, length_be_bytes, Hal, H24 in Hv1. }
  set (head := be_bytes 4 (nextNonce s) ++ auth ++ hn ++ ca_publicKey ca).
  assert (Hh : length head = 72%nat).
  { unfold head. rewrite !length_app, length_be_bytes, (ca_publen ca Hca). lia. }
  replace (be_bytes 4 _ ++ auth ++ _) with ((head ++ pad) ++ ourTempPubKey (with_temp s rand32) ++ c)
    in Hv1 by (unfold head; by rewrite <- !app_assoc).
  destruct (eshift_pop _ _ _ _ _ Hv1) as (m2 & He & Hv2 & _).
  rewrite length_app, Hh, Hpad in He. change (32 - CryptoHeader_SIZE) with (- Z.of_nat (72 + 16)).
  rewrite He. cbn [mbind Er_bind].
  rewrite <- (take_drop 56 head), <- app_assoc, app_assoc in Hv2.
  destruct (encryptRndNonce_view hn (sent_secret s ca ph) m2 _ _ _ _ _ Hv2) as (m3 & -> & Hv3);
    [rewrite length_drop; lia|lia|].
  cbn [mbind Er_bind]. rewrite <- app_assoc, take_drop in Hv3.
  destruct (eshift_push _ _ _ _ _ Hv3) as (m4 & He4 & Hv4 & _). rewrite Hh in He4.
  change (CryptoHeader_SIZE - 32 - 16) with (Z.of_nat 72). rewrite He4. cbn [mbind Er_bind].
  eexists. split; [done|]. unfold hs_packet. unfold head in Hv4. by rewrite <- !app_assoc in Hv4.
Qed.

(** ** Data packets *)

Definition data_packet (nonce : Z) (secret : list Z) (initiator : bool) (c : list Z) : list Z :=
  be_bytes 4 nonce ++ seal (nonceAs nonce initiator) secret c.

(** The first data packet of the initiator computes the secret. *)
Definition with_secret (s : Session) : Session :=
  if nextNonce s <=? 4
  then set_sharedSecret s (shared (ourTempPrivKey s) (herTempPubKey s) None) else s.

Lemma temp_nonzero s : session_ok s -> 2 <= nextNonce s -> Bits_isZero (herTempPubKey s) = false.
Proof. intros Hs Hn. apply not_true_iff_false. rewrite <- (so_temp s Hs). lia. Qed.

Lemma with_secret_fields s :
  nextNonce (with_secret s) = nextNonce s /\ isInitiator (with_secret s) = isInitiator s.
Proof. unfold with_secret. by case_match. Qed.

Lemma encrypt_data_view s ca m pre room c post rand36 rand32 :
  session_ok s -> 4 <= nextNonce s < 0xfffffff0 -> aligned m ->
  msg_view m (pre ++ room) c post -> length room = 20%nat -> 16 <= len pre -> 0 < len c ->
  exists m', encrypt_ready s ca m rand36 rand32
      = Ret (m', set_nextNonce (with_secret s) (nextNonce s + 1)) /\
    msg_view m' pre
      (data_packet (nextNonce s) (sharedSecret (with_secret s)) (isInitiator s) c) post.
Proof.
  intros Hs Hn Ha Hv Hroom Hpre Hc. unfold encrypt_ready. rewrite (proj2 (Z.eqb_eq _ _) Ha). cbn [Assert_true].
  change CryptoAuth_State_RECEIVED_KEY with 4. zdecide (nextNonce s <? 4).
  match goal with |- context [if nextNonce s <=? 4 then ?x else ?y] =>
    assert ((if nextNonce s <=? 4 then x else y) = Ret (with_secret s)) as -> end.
  { unfold with_secret, cryptoAuthDebug. case_match; [|done].
    rewrite (so_key s Hs), (so_ours s Hs), (temp_nonzero s Hs) by lia.
    by rewrite getSharedSecret_ret. }
  cbn [mbind Er_bind]. destruct (with_secret_fields s) as [E1 E2]. rewrite E1, E2.
  pose proof (msg_view_length _ _ _ _ Hv) as Hl.
  pose proof (msg_view_padding _ _ _ _ Hv) as Hp. rewrite length_app in Hp.
  replace (msg_length m >? 0) with true by lia. replace (msg_padding m >=? 36) with true by lia.
  cbn [Assert_true]. unfold encrypt.
  destruct (list_split_at (len pre - 12) pre ltac:(lia)) as (p1 & p2 & -> & Hp1).
  rewrite length_app in Hp1.
  destruct (list_split_at 4 room ltac:(lia)) as (r1 & r2 & -> & Hr1). rewrite length_app in Hroom.
  replace ((p1 ++ p2) ++ r1 ++ r2) with (p1 ++ (p2 ++ r1) ++ r2) in Hv by (by rewrite <- !app_assoc).
  destruct (encryptRndNonce_view (nonceAs (nextNonce s) (isInitiator s))
    (sharedSecret (with_secret s)) m _ _ _ _ _ Hv) as (m1 & -> & Hv1);
    [rewrite length_app; lia|lia|]. cbn [mbind Er_bind].
  rewrite app_assoc in Hv1.
  destruct (epush32be_view m1 _ _ _ _ (nextNonce s) (so_nonce s Hs) Hv1)
    as (m2 & -> & Hv2 & _); [lia|].
  cbn [mbind Er_bind]. unfold u32. rewrite Z.mod_small by lia. by exists m2.
Qed.

(** Sending never fails: hello, key or data. *)
Lemma encrypt_ok s ca m pre c post now rand36 rand32 :
  session_ok s -> ca_ok ca -> aligned m -> msg_view m pre c post -> 120 <= len pre -> 0 < len c ->
  length rand36 = 36%nat -> Bits_isZero rand32 = false ->
  exists m' s', CryptoAuth_encrypt s ca m now rand36 rand32 = Ret (m', s') /\ session_ok s' /\
    nextNonce s' <= nextNonce s + 1.
Proof.
  intros Hs Hca Ha Hv Hpre Hc H36 H32.
  destruct (resetIfTimeout_ok s now Hs) as (s1 & Ht & Hs1 & Hn1).
  set (s2 := if nextNonce s1 >=? 0xfffffff0 then reset s1 else s1).
  assert (Hs2 : session_ok s2) by (unfold s2; case_match; [by apply reset_ok|done]).
  assert (Hn2 : nextNonce s2 <= nextNonce s /\ 0 <= nextNonce s2 < 0xfffffff0).
  { pose proof (so_nonce s1 Hs1) as [? _]. unfold s2.
    destruct (Z.geb_spec (nextNonce s1) 0xfffffff0); [|lia].
    change (nextNonce (reset s1)) with 0. lia. }
  unfold CryptoAuth_encrypt. rewrite Ht. cbn [mbind Er_bind]. fold s2.
  destruct (Z.lt_ge_cases (nextNonce s2) 4) as [H4|H4].
  - unfold encrypt_ready. rewrite (proj2 (Z.eqb_eq _ _) Ha). cbn [Assert_true mbind Er_bind].
    change CryptoAuth_State_RECEIVED_KEY with 4. zdecide (nextNonce s2 <? 4).
    destruct (list_split_at 12 rand36 ltac:(lia)) as (r12 & hn & -> & H12).
    rewrite length_app in H36.
    destruct (auth_of_ret s2 r12 Hs2 ltac:(lia)) as (auth & ph & Hau & Hal).
    destruct (list_split_at (len pre - 120) pre ltac:(lia)) as (p1 & p2 & -> & Hp).
    rewrite length_app in Hp.
    destruct (encryptHandshake_view s2 ca m p1 p2 c post r12 hn rand32 auth ph)
      as (m' & He & _); try done; try lia.
    destruct (sent_state_ok s2 rand32 Hs2 ltac:(lia) H32) as [Ho Hb].
    exists m', (sent_state s2 rand32). split; [done|]. split; [done|lia].
  - destruct (list_split_at (len pre - 20) pre ltac:(lia)) as (p1 & p2 & -> & Hp).
    rewrite length_app in Hp, Hpre.
    destruct (encrypt_data_view s2 ca m p1 p2 c post rand36 rand32) as (m' & He & _);
      try done; try lia.
    eexists m', _. split; [done|]. cbn [nextNonce set_nextNonce]. split; [|lia].
    destruct Hs2. unfold with_secret.
    case_match; split; cbn; try done; try (unfold fits; lia); try (intros; apply so_ours0; lia);
      try (rewrite <- so_temp0; lia); intros _; by eexists _, _.
Qed.

(** ** Receiving handshake packets *)

(** Opening a handshake packet: the failure, or the temporary key and the
    message which holds the content. *)
Lemma handshake_open_view m pre n4 auth hn pub body post secret :
  msg_view m pre (n4 ++ auth ++ hn ++ pub ++ body) post ->
  length n4 = 4%nat -> length auth = 12%nat -> length hn = 24%nat -> length pub = 32%nat ->
  48 <= len body ->
  match unseal hn secret body with
  | Some p =>
      if Bits_isZero (take 32 p)
      then exists m', handshake_open m secret = Ret (m', inl DecryptErr_WISEGUY)
      else exists m' front, handshake_open m secret = Ret (m', inr (take 32 p)) /\
             msg_view m' (pre ++ front) (drop 32 p) post
  | None => exists m', handshake_open m secret = Ret (m', inl DecryptErr_HANDSHAKE_DECRYPT_FAILED)
  end.
Proof.
  intros Hv H4 H12 H24 H32 Hb. unfold handshake_open.
  replace (msg_read m 16 24) with hn.
  2: { symmetry. rewrite app_assoc in Hv. apply msg_read_view in Hv.
       by rewrite length_app, H4, H12, H24 in Hv. }
  set (head := n4 ++ auth ++ hn ++ pub).
  assert (Hh : length head = 72%nat) by (unfold head; rewrite !length_app; lia).
  replace (n4 ++ _) with (head ++ body) in Hv by (unfold head; by rewrite <- !app_assoc).
  destruct (eshift_pop _ _ _ _ _ Hv) as (m1 & He & Hv1 & _). rewrite Hh in He.
  change (48 - CryptoHeader_SIZE) with (- Z.of_nat 72). rewrite He. cbn [mbind Er_bind].
  rewrite <- (take_drop 56 head), app_assoc in Hv1.
  pose proof (decryptRndNonce_view hn secret m1 _ _ _ _ Hv1) as Hd.
  rewrite length_drop, Hh in Hd. specialize (Hd eq_refl ltac:(lia)).
  pose proof (unseal_length hn secret body) as Hul.
  destruct (unseal hn secret body) as [p|].
  - destruct Hd as (m2 & tag & -> & Ht & Hv2). cbn [mbind Er_bind negb Z.eqb].
    specialize (Hul p ltac:(lia) eq_refl). rewrite <- (take_drop 32 p) in Hv2.
    assert (Htl : len (take 32 p) = 32) by (rewrite length_take; lia).
    replace (msg_read m2 0 32) with (take 32 p).
    2: { symmetry. rewrite <- (app_nil_l (take 32 p ++ drop 32 p)) in Hv2.
         apply msg_read_view in Hv2. by rewrite Htl in Hv2. }
    destruct (Bits_isZero (take 32 p)); [by eexists|].
    destruct (eshift_pop _ _ _ _ _ Hv2) as (m3 & He3 & Hv3 & _). rewrite Htl in He3.
    change (- (32)) with (-32) in He3. rewrite He3. cbn [mbind Er_bind].
    eexists _, (take 56 head ++ drop 56 head ++ tag ++ take 32 p). split; [done|]. by rewrite !app_assoc in *.
  - destruct Hd as (m2 & r' & c' & -> & _). cbn [mbind Er_bind negb Z.eqb]. by eexists.
Qed.

(** The step an authentic packet makes keeps the invariant. *)
Lemma handshake_finish_ok s next :
  session_ok (set_nextNonce s next) ->
  nextNonce s < next \/ nextNonce s <= 4 /\ next = nextNonce s ->
  exists s', handshake_finish s next = Ret s' /\ session_ok s' /\ nextNonce s' = next.
Proof.
  intros Hs Hn. unfold handshake_finish. change CryptoAuth_State_RECEIVED_KEY with 4.
  replace (_ || _) with true by lia. cbn [Assert_true mbind Er_bind].
  eexists. split; [done|]. split; [|done]. by destruct Hs.
Qed.

Lemma handshake_invalid_ret s nonce tempKey :
  session_ok s -> length tempKey = 32%nat ->
  exists b, handshake_invalid s nonce tempKey = Ret b /\
    (b = false -> 4 <= nextNonce s -> nonce = 3 -> herTempPubKey s = tempKey).
Proof.
  intros Hs Hl. unfold handshake_invalid. rewrite memcmp_zero_iff by (rewrite (so_templen s Hs); done).
  change CryptoAuth_State_RECEIVED_KEY with 4.
  change Nonce_HELLO with 0; change Nonce_KEY with 2; change Nonce_REPEAT_KEY with 3.
  assert (Hz : 4 <= nextNonce s -> Bits_isZero (herTempPubKey s) = false)
    by (intros; apply temp_nonzero; [done|lia]).
  case_bool_decide as He; destruct (Z.geb_spec (nextNonce s) 4) as [H4|H4];
    rewrite ?(Hz H4), ?andb_true_r, ?andb_false_r; zcases; subst; cbn;
    eexists; (split; [done|]); intros; try done; try lia.
Qed.

(** Taking her temporary key and going to a later state. *)
Lemma take_key_ok s k n :
  session_ok s -> length k = 32%nat -> Bits_isZero k = false -> 2 <= n < 2 ^ 32 ->
  (3 <= n -> Bits_isZero (ourTempPrivKey s) = false) ->
  session_ok (set_nextNonce (set_herTempPubKey s k) n).
Proof.
  intros [] Hl Hz Hn Ho. split; cbn; try done; try (unfold fits; lia).
  - rewrite Hz. split; [lia|done].
  - intros. apply Ho. lia.
Qed.

Lemma set_shared_ok s k :
  session_ok s -> (exists pub priv, k = snd (beforenm pub priv)) -> session_ok (set_sharedSecret s k).
Proof. intros [] Hz. by split. Qed.

Lemma next_ok s n :
  session_ok s -> 2 <= nextNonce s -> 2 <= n < 2 ^ 32 -> (3 <= n -> 3 <= nextNonce s) ->
  session_ok (set_nextNonce s n).
Proof.
  intros [] Hs Hn Ho. split; cbn; try done; try (unfold fits; lia).
  - rewrite <- so_temp0. lia.
  - intros. apply so_ours0. lia.
Qed.

Lemma handshake_key_ok s nonce tempKey :
  session_ok s -> length tempKey = 32%nat -> Bits_isZero tempKey = false ->
  nonce = 2 \/ nonce = 3 -> established s = false -> nextNonce s + 1 < 2 ^ 32 ->
  (4 <= nextNonce s -> nonce = 3 -> herTempPubKey s = tempKey) ->
  exists r, handshake_key s nonce tempKey = Ret r /\
    match r with
    | None => True
    | Some (s', n) => session_ok (set_nextNonce s' n) /\ n <= nextNonce s + 3 /\
        (nextNonce s' < n \/ nextNonce s' <= 4 /\ n = nextNonce s')
    end.
Proof.
  intros Hs Hl Hz Hn He Hb Hsame. unfold handshake_key. pose proof (so_nonce s Hs) as [H0 _].
  replace ((nonce =? Nonce_KEY) || (nonce =? Nonce_REPEAT_KEY)) with true
    by (by destruct Hn; subst). cbn [Assert_true mbind Er_bind].
  unfold CryptoAuth_State_INIT, CryptoAuth_State_RECEIVED_HELLO, CryptoAuth_State_SENT_KEY,
    CryptoAuth_State_SENT_HELLO, CryptoAuth_State_RECEIVED_KEY, Nonce_KEY.
  destruct (_ || _ || _) eqn:E1; [by eexists|].
  destruct (Z.eqb_spec (nextNonce s) 1) as [E2|E2].
  { eexists. split; [done|]. split; [|cbn; lia].
    apply take_key_ok; try done. intros _. apply (so_ours s Hs). lia. }
  assert (H4 : 4 <= nextNonce s) by lia.
  assert (Hour : Bits_isZero (ourTempPrivKey s) = false) by (apply (so_ours s Hs); lia).
  assert (Hm : nonce = 3 -> (memcmp (herTempPubKey s) tempKey =? 0) = true).
  { intros H3. rewrite (Hsame H4 H3). by rewrite memcmp_refl. }
  destruct (Z.eqb_spec (nextNonce s) 4) as [E3|E3].
  { destruct Hn as [-> | ->]; cbn [Z.eqb Pos.eqb].
    - eexists. split; [done|]. split; [by apply take_key_ok|cbn; lia].
    - rewrite (Hm eq_refl). cbn. eexists. split; [done|]. split; [|lia].
      rewrite <- E3. by destruct Hs. }
  rewrite He. cbn [negb Assert_true mbind Er_bind]. unfold u32.
  destruct Hn as [-> | ->]; cbn [Z.eqb Pos.eqb].
  - unfold cryptoAuthDebug. change (knowHerKey (set_herTempPubKey s tempKey)) with (knowHerKey s).
    rewrite (so_key s Hs). cbn [Assert_true mbind Er_bind ourTempPrivKey set_herTempPubKey herTempPubKey].
    rewrite Hour, Hz. cbn [negb Assert_true]. rewrite getSharedSecret_ret. cbn [mbind Er_bind].
    eexists. split; [done|]. cbn [nextNonce set_sharedSecret set_herTempPubKey].
    rewrite Z.mod_small by lia. split; [|lia].
    apply (set_shared_ok (set_nextNonce (set_herTempPubKey s tempKey) (nextNonce s + 1))).
    + apply take_key_ok; try done. lia.
    + by eexists _, _.
  - rewrite (Hm eq_refl). cbn [Assert_true mbind Er_bind]. eexists. split; [done|].
    rewrite Z.mod_small by lia. split; [|lia]. apply next_ok; try done; lia.
Qed.

Lemma handshake_hello_ok s ca nonce tempKey :
  session_ok s -> length tempKey = 32%nat -> Bits_isZero tempKey = false ->
  nonce = 0 \/ nonce = 1 ->
  exists r, handshake_hello s ca nonce tempKey = Ret r /\
    match r with
    | hello_state s' n => session_ok (set_nextNonce s' n) /\ n <= nextNonce s + 3 /\
        (nextNonce s' < n \/ nextNonce s' <= 4 /\ n = nextNonce s')
    | _ => True
    end.
Proof.
  intros Hs Hl Hz Hn. unfold handshake_hello. pose proof (so_nonce s Hs) as [H0 _].
  replace ((nonce =? Nonce_HELLO) || (nonce =? Nonce_REPEAT_HELLO)) with true
    by (by destruct Hn; subst). cbn [Assert_true mbind Er_bind].
  unfold CryptoAuth_State_INIT, CryptoAuth_State_RECEIVED_HELLO, CryptoAuth_State_SENT_KEY,
    CryptoAuth_State_SENT_HELLO.
  assert (Hreset : session_ok (set_nextNonce (set_herTempPubKey (reset s) tempKey) 2)).
  { apply take_key_ok; try done. by apply reset_ok. }
  assert (Hbound : nextNonce (set_herTempPubKey (reset s) tempKey) < 2) by done.
  repeat case_match; eexists; (split; [done|]); try done; (split; [|lia || (cbn; lia)]);
    try done.
  - apply take_key_ok; try done.
  - replace (set_nextNonce s (nextNonce s)) with s by (by destruct s). done.
Qed.

Lemma handshake_step_ok s ca nonce tempKey :
  session_ok s -> length tempKey = 32%nat -> Bits_isZero tempKey = false ->
  0 <= nonce < 4 -> (established s = true -> nonce < 2) -> nextNonce s + 1 < 2 ^ 32 ->
  exists s' e, handshake_step s ca nonce (if nonce <? 2 then 2 else 4) tempKey = Ret (s', e) /\
    session_ok s' /\ nextNonce s' <= nextNonce s + 3.
Proof.
  intros Hs Hl Hz Hn He Hb. unfold handshake_step.
  destruct (handshake_invalid_ret s nonce tempKey Hs Hl) as (b & -> & Hsame).
  cbn [mbind Er_bind]. destruct b; [eexists _, _; split; [done|]; split; [done|lia]|].
  change CryptoAuth_State_RECEIVED_KEY with 4. destruct (Z.ltb_spec nonce 2) as [H2|H2]; cbn [Z.eqb Pos.eqb].
  - destruct (handshake_hello_ok s ca nonce tempKey) as (r & -> & Hr); try done; [lia|].
    cbn [mbind Er_bind]. destruct r as [| |s' n];
      [eexists _, _; split; [done|]; split; [done|lia]..|].
    destruct Hr as (Ho & Hle & Hlt). destruct (handshake_finish_ok s' n Ho Hlt) as (s'' & -> & Hs'' & Hn'').
    cbn [mbind Er_bind]. eexists _, _. split; [done|]. split; [done|lia].
  - destruct (handshake_key_ok s nonce tempKey) as (r & -> & Hr); try done; [lia| |by auto|].
    { apply not_true_iff_false. intros Hx. specialize (He Hx). lia. }
    cbn [mbind Er_bind]. destruct r as [[s' n]|];
      [|eexists _, _; split; [done|]; split; [done|lia]].
    destruct Hr as (Ho & Hle & Hlt). destruct (handshake_finish_ok s' n Ho Hlt) as (s'' & -> & Hs'' & Hn'').
    cbn [mbind Er_bind]. eexists _, _. split; [done|]. split; [done|lia].
Qed.

(** What a handshake packet is worth, as a function of its fields: an error, or
    the opened text (the temporary key and the content). *)
Definition recv_secret (s : Session) (ca : CryptoAuth) (nonce : Z) (ph : option (list Z)) : list Z :=
  shared (if nonce <? 2 then ca_privateKey ca else ourTempPrivKey s) (herPublicKey s) ph.

Definition hs_verdict (s : Session) (ca : CryptoAuth) (nonce : Z) (auth hn pub body : list Z)
  : CryptoAuth_DecryptErr + list Z :=
  if negb (bool_decide (herPublicKey s = pub)) then inl DecryptErr_WRONG_PERM_PUBKEY
  else
    match handshake_auth s ca auth with
    | inl e => inl e
    | inr ph =>
        if (2 <=? nonce) && negb (isInitiator s) then inl DecryptErr_STRAY_KEY
        else
          match unseal hn (recv_secret s ca nonce ph) body with
          | None => inl DecryptErr_HANDSHAKE_DECRYPT_FAILED
          | Some p => if Bits_isZero (take 32 p) then inl DecryptErr_WISEGUY else inr p
          end
    end.

Lemma decryptHandshake_view s ca nonce m pre n4 auth hn pub body post :
  session_ok s -> 0 <= nonce < 4 -> msg_view m pre (n4 ++ auth ++ hn ++ pub ++ body) post ->
  length n4 = 4%nat -> length auth = 12%nat -> length hn = 24%nat -> length pub = 32%nat ->
  48 <= len body ->
  match hs_verdict s ca nonce auth hn pub body with
  | inl e => exists m', decryptHandshake s ca nonce m = Ret (m', s, e)
  | inr p => exists m' front,
      decryptHandshake s ca nonce m =
        ('(s', e) ← handshake_step s ca nonce (if nonce <? 2 then 2 else 4) (take 32 p);
         Ret (m', s', e)) /\
      msg_view m' (pre ++ front) (drop 32 p) post
  end.
Proof.
  intros Hs Hn Hv H4 H12 H24 H32 Hb. unfold decryptHandshake, hs_verdict.
  rewrite (msg_view_length _ _ _ _ Hv), !length_app. change CryptoHeader_SIZE with 120.
  zdecide (Z.of_nat (length n4 + (length auth + (length hn + (length pub + length body)))) <? 120).
  rewrite (so_key s Hs). cbn [Assert_true mbind Er_bind].
  replace (msg_read m 40 32) with pub.
  2: { symmetry. replace (n4 ++ _) with ((n4 ++ auth ++ hn) ++ pub ++ body) in Hv
         by (by rewrite <- !app_assoc). apply msg_read_view in Hv.
       by rewrite !length_app, H4, H12, H24, H32 in Hv. }
  replace (msg_read m 4 12) with auth.
  2: { symmetry. apply msg_read_view in Hv. by rewrite H4, H12 in Hv. }
  rewrite memcmp_zero_iff by (rewrite (so_herlen s Hs); done).
  destruct (bool_decide (herPublicKey s = pub)); cbn [negb]; [|by eexists].
  rewrite (bool_decide_eq_true_2 _ (so_temp s Hs)). cbn [Assert_true mbind Er_bind].
  destruct (handshake_auth s ca auth) as [e|ph]; [by eexists|].
  unfold handshake_secret, recv_secret. rewrite !getSharedSecret_ret. change Nonce_KEY with 2.
  change Nonce_REPEAT_KEY with 3.
  pose proof (fun secret =>
    handshake_open_view m pre n4 auth hn pub body post secret Hv H4 H12 H24 H32 Hb) as Hopen.
  destruct (Z.ltb_spec nonce 2) as [H2|H2].
  - zdecide (2 <=? nonce). cbn [andb mbind Er_bind].
    set (secret := shared _ _ ph). specialize (Hopen secret).
    destruct (unseal hn secret body) as [p|];
      [|destruct Hopen as (m' & ->); by eexists].
    destruct (Bits_isZero (take 32 p)); [destruct Hopen as (m' & ->); by eexists|].
    destruct Hopen as (m' & pre' & -> & Hv'). cbn [mbind Er_bind]. by exists m', pre'.
  - zdecide (2 <=? nonce). replace ((nonce =? 2) || (nonce =? 3)) with true by lia.
    cbn [andb Assert_true mbind Er_bind].
    destruct (isInitiator s); cbn [negb mbind Er_bind]; [|by eexists].
    set (secret := shared _ _ ph). specialize (Hopen secret).
    destruct (unseal hn secret body) as [p|];
      [|destruct Hopen as (m' & ->); by eexists].
    destruct (Bits_isZero (take 32 p)); [destruct Hopen as (m' & ->); by eexists|].
    destruct Hopen as (m' & pre' & -> & Hv'). cbn [mbind Er_bind]. by exists m', pre'.
Qed.

(** ** Receiving data packets *)

(** The result of [decryptMessage] as a function of the sealed text. *)
Lemma decryptMessage_view s nonce m pre r c post secret :
  session_ok s -> msg_view m (pre ++ r) c post -> length r = 16%nat -> 16 <= len c ->
  match unseal (nonceAs nonce (negb (isInitiator s))) secret c with
  | None => exists m', decryptMessage s nonce m secret = Ret (m', s, DecryptErr_DECRYPT)
  | Some p => exists m' tag,
      msg_view m' ((pre ++ r) ++ tag) p post /\
      decryptMessage s nonce m secret =
        let '(ok, rp) := ReplayProtector_checkNonce nonce (replayProtector s) in
        Ret (m', set_replayProtector s rp, if ok then DecryptErr_NONE else DecryptErr_REPLAY)
  end.
Proof.
  intros Hs Hv Hr Hc. unfold decryptMessage, decrypt, cryptoAuthDebug.
  pose proof (decryptRndNonce_view (nonceAs nonce (negb (isInitiator s))) secret m _ _ _ _ Hv Hr Hc)
    as Hd. destruct (unseal _ _ _) as [p|].
  - destruct Hd as (m' & tag & -> & Ht & Hv'). cbn [mbind Er_bind negb Z.eqb].
    exists m', tag. split; [by rewrite <- app_assoc|].
    destruct (ReplayProtector_checkNonce nonce (replayProtector s)) as [[|] rp]; [done|].
    change (knowHerKey (set_replayProtector s rp)) with (knowHerKey s).
    rewrite (so_key s Hs). done.
  - destruct Hd as (m' & r' & c' & -> & _). cbn [mbind Er_bind negb Z.eqb].
    rewrite (so_key s Hs). by eexists.
Qed.

Lemma set_replay_ok s rp : session_ok s -> session_ok (set_replayProtector s rp).
Proof. intros []. by split. Qed.

Lemma decryptMessage_ok s nonce m pre c post secret :
  session_ok s -> msg_view m pre c post -> 16 <= len pre -> 16 <= len c ->
  exists m' rp e, decryptMessage s nonce m secret = Ret (m', set_replayProtector s rp, e).
Proof.
  intros Hs Hv Hp Hc. destruct (list_split_at (len pre - 16) pre ltac:(lia)) as (p1 & p2 & -> & Hl).
  rewrite length_app in Hl.
  pose proof (decryptMessage_view s nonce m p1 p2 c post secret Hs Hv ltac:(lia) Hc) as Hd.
  destruct (unseal _ _ _) as [p|].
  - destruct Hd as (m' & pre' & _ & ->). destruct (ReplayProtector_checkNonce _ _) as [ok rp].
    by eexists _, _, _.
  - destruct Hd as (m' & ->). exists m', (replayProtector s), DecryptErr_DECRYPT.
    by replace (set_replayProtector s (replayProtector s)) with s by (by destruct s).
Qed.

(** ** Dispatch on the nonce *)

(** A message a caller may pass to [CryptoAuth_decrypt]. *)
Definition wire_ok (m : Message) : Prop := aligned m /\ Z.rem (msg_capacity m) 4 = 0.

Definition is_handshake (s : Session) (nonce : Z) : bool :=
  (nonce <? 4) && (negb (established s) || (nonce <? 2)).

(** A data packet of an established session. *)
Definition decrypt_running (s : Session) (nonce : Z) (msg : Message) (now : Z)
  : Er (Message * Session * CryptoAuth_DecryptErr) :=
  '(msg, s, ret) ← decryptMessage s nonce msg (sharedSecret s);
  if decide (ret = DecryptErr_NONE)
  then Ret (msg, updateTime s now, DecryptErr_NONE) else Ret (msg, s, ret).

Lemma eshift_back m pre a c post :
  msg_view m pre (a ++ c) post ->
  exists m1 m2, Message_eshift m (- len a) = Ret m1 /\ Message_eshift m1 (len a) = Ret m2 /\
    msg_view m1 (pre ++ a) c post /\ msg_view m2 pre (a ++ c) post.
Proof.
  intros Hv. destruct (eshift_pop _ _ _ _ _ Hv) as (m1 & H1 & Hv1 & _).
  destruct (eshift_push _ _ _ _ _ Hv1) as (m2 & H2 & Hv2 & _). by exists m1, m2.
Qed.

Lemma decrypt_dispatch s ca m pre n4 c post now :
  session_ok s -> (4 <= be_val n4 -> agreed s) -> wire_ok m -> msg_view m pre (n4 ++ c) post -> length n4 = 4%nat ->
  bytes n4 -> 16 <= len c -> 12 <= len pre ->
  exists m1 m2, msg_view m1 (pre ++ n4) c post /\ msg_view m2 pre (n4 ++ c) post /\
  CryptoAuth_decrypt s ca m now =
    let nonce := be_val n4 in
    if is_handshake s nonce then decryptHandshake s ca nonce m2
    else if nonce <? 4 then Ret (m1, s, DecryptErr_KEY_PKT_ESTABLISHED_SESSION)
    else if established s then decrypt_running s nonce m1 now
    else decrypt_final_step s nonce m1 now.
Proof.
  intros Hs Hagr [Ha Hcap] Hv H4 Hby Hc Hp.
  destruct (eshift_back _ _ _ _ _ Hv) as (m1 & m2 & He1 & He2 & Hv1 & Hv2).
  rewrite H4 in He1, He2. exists m1, m2. split; [done|]. split; [done|].
  unfold CryptoAuth_decrypt. rewrite (msg_view_length _ _ _ _ Hv), length_app.
  zdecide (Z.of_nat (length n4 + length c) <? 20).
  rewrite (proj2 (Z.eqb_eq _ _) Ha), (proj2 (Z.eqb_eq _ _) Hcap). cbn [Assert_true mbind Er_bind].
  replace (Endian_bigEndianToHost32 (le_val (msg_read m 0 4))) with (be_val n4).
  2: { rewrite <- (app_nil_l (n4 ++ c)) in Hv. apply msg_read_view in Hv.
       rewrite H4 in Hv. change (msg_read m 0 4) with (msg_read m (len (@nil Z)) (Z.of_nat 4)).
       rewrite Hv. symmetry. by apply (toHost_be 4 32). }
  change (-4) with (- Z.of_nat 4). rewrite He1. cbn [mbind Er_bind].
  change 4 with (Z.of_nat 4) at 1. change (Message_eshift m1 4) with (Message_eshift m1 (Z.of_nat 4)).
  rewrite !He2. cbn [mbind Er_bind]. cbv zeta.
  change Nonce_FIRST_TRAFFIC_PACKET with 4. change Nonce_REPEAT_HELLO with 1.
  unfold is_handshake, cryptoAuthDebug. rewrite (so_key s Hs). cbn [Assert_true mbind Er_bind].
  destruct (established s) eqn:Hest; cbn [negb orb];
    destruct (Z.geb_spec (be_val n4) 4) as [Hn|Hn].
  - zdecide (be_val n4 <? 4). cbn [andb]. rewrite (Hagr Hn Hest). cbn [negb Assert_true mbind Er_bind].
    unfold decrypt_running. destruct (decryptMessage_ok s (be_val n4) m1 (pre ++ n4) c post
      (sharedSecret s) Hs Hv1) as (m' & rp & e & ->); [rewrite length_app; lia|done|].
    cbn [mbind Er_bind]. case_decide; [done|].
    change (knowHerKey (set_replayProtector s rp)) with (knowHerKey s). by rewrite (so_key s Hs).
  - zdecide (be_val n4 <? 4). cbn [andb].
    destruct (Z.leb_spec (be_val n4) 1); [by zdecide (be_val n4 <? 2)|].
    by zdecide (be_val n4 <? 2).
  - by zdecide (be_val n4 <? 4).
  - by zdecide (be_val n4 <? 4).
Qed.

(** The final step: the secret of the two temporary keys. *)
Lemma decrypt_final_step_view s nonce m pre c post now :
  session_ok s -> msg_view m pre c post -> 16 <= len pre -> 16 <= len c -> 3 <= nextNonce s ->
  let secret := shared (ourTempPrivKey s) (herTempPubKey s) None in
  decrypt_final_step s nonce m now =
    '(msg, s', ret) ← decryptMessage s nonce m secret;
    let s' := start_window s' nonce in
    if decide (ret = DecryptErr_NONE)
    then Ret (msg, updateTime (set_nextNonce (set_established (set_sharedSecret s' secret) true)
                                 (u32 (nextNonce s + 3))) now, DecryptErr_NONE)
    else Ret (msg, s', ret).
Proof.
  intros Hs Hv Hp Hc Hn secret. unfold decrypt_final_step.
  change CryptoAuth_State_SENT_KEY with 3. zdecide (nextNonce s <? 3). unfold cryptoAuthDebug.
  rewrite (so_key s Hs), (so_ours s Hs), (temp_nonzero s Hs) by lia.
  cbn [negb Assert_true mbind Er_bind]. rewrite getSharedSecret_ret. fold secret.
  cbn [mbind Er_bind].
  destruct (decryptMessage_ok s nonce m pre c post secret) as (m' & rp & e & ->); try done.
  cbn [mbind Er_bind]. case_decide.
  - rewrite take_ge by (unfold secret; rewrite shared_length; lia). done.
  - change (knowHerKey _) with (knowHerKey s). by rewrite (so_key s Hs).
Qed.

(** Receiving never fails, whatever the packet: first for each kind of packet. *)
Definition returns_ok (s : Session) (r : Er (Message * Session * CryptoAuth_DecryptErr)) : Prop :=
  exists m' s' e, r = Ret (m', s', e) /\ session_ok s' /\ nextNonce s' <= nextNonce s + 3.

Lemma returns_same s m e : session_ok s -> returns_ok s (Ret (m, s, e)).
Proof. intros. eexists _, _, _. split; [done|]. split; [done|lia]. Qed.

Lemma decryptHandshake_ok s ca nonce m pre n4 c post :
  session_ok s -> msg_view m pre (n4 ++ c) post -> length n4 = 4%nat ->
  0 <= nonce < 4 -> (established s = true -> nonce < 2) -> nextNonce s + 3 < 2 ^ 32 ->
  returns_ok s (decryptHandshake s ca nonce m).
Proof.
  intros Hs Hv H4 Hn Hest Hb. destruct (Z.lt_ge_cases (len (n4 ++ c)) 120) as [Hr|Hlong].
  { unfold decryptHandshake. rewrite (msg_view_length _ _ _ _ Hv).
    change CryptoHeader_SIZE with 120. zdecide (len (n4 ++ c) <? 120).
    unfold cryptoAuthDebug. rewrite (so_key s Hs). by apply returns_same. }
  rewrite length_app in Hlong.
  destruct (list_split_at 12 c ltac:(lia)) as (auth & x & -> & H12). rewrite length_app in Hlong.
  destruct (list_split_at 24 x ltac:(lia)) as (hn & y & -> & H24). rewrite length_app in Hlong.
  destruct (list_split_at 32 y ltac:(lia)) as (pub & body & -> & H32). rewrite length_app in Hlong.
  pose proof (decryptHandshake_view s ca nonce m pre n4 auth hn pub body post Hs Hn Hv
    H4 ltac:(lia) ltac:(lia) ltac:(lia) ltac:(lia)) as Hd.
  destruct (hs_verdict _ _ _ _ _ _ _) as [e|p] eqn:Hverd.
  { destruct Hd as (m' & ->). by apply returns_same. }
  destruct Hd as (m' & pre' & -> & Hv').
  assert (Hkey : length (take 32 p) = 32%nat /\ Bits_isZero (take 32 p) = false).
  { unfold hs_verdict in Hverd. repeat case_match; try done. simplify_eq.
    split; [|done]. match goal with H : unseal _ _ _ = Some _ |- _ =>
      apply unseal_length in H; [|lia] end. rewrite length_take. lia. }
  destruct (handshake_step_ok s ca nonce (take 32 p)) as (s' & e & -> & Hs' & Hb');
    try tauto; try lia. by eexists _, _, _.
Qed.

Lemma decrypt_running_ok s nonce m pre c post now :
  session_ok s -> msg_view m pre c post -> 16 <= len pre -> 16 <= len c ->
  returns_ok s (decrypt_running s nonce m now).
Proof.
  intros Hs Hv Hp Hc. unfold decrypt_running.
  destruct (decryptMessage_ok s nonce m pre c post (sharedSecret s) Hs Hv Hp Hc)
    as (m' & rp & e & ->). cbn [mbind Er_bind].
  pose proof (set_replay_ok s rp Hs) as Hrp.
  case_decide; eexists _, _, _; (split; [done|]); split; try done; try (cbn; lia).
  destruct Hrp. by split.
Qed.

Lemma decrypt_final_ok s nonce m pre c post now :
  session_ok s -> msg_view m pre c post -> 16 <= len pre -> 16 <= len c ->
  nextNonce s + 3 < 2 ^ 32 ->
  returns_ok s (decrypt_final_step s nonce m now).
Proof.
  intros Hs Hv Hp Hc Hn. destruct (Z.lt_ge_cases (nextNonce s) 3) as [H3|H3].
  { unfold decrypt_final_step. change CryptoAuth_State_SENT_KEY with 3.
    zdecide (nextNonce s <? 3). unfold cryptoAuthDebug. rewrite (so_key s Hs).
    by apply returns_same. }
  rewrite (decrypt_final_step_view s nonce m pre c post now) by done.
  destruct (decryptMessage_ok s nonce m pre c post
    (shared (ourTempPrivKey s) (herTempPubKey s) None) Hs Hv Hp Hc)
    as (m' & rp & e & ->). cbn [mbind Er_bind].
  pose proof (so_nonce s Hs) as [Hn0 _].
  assert (Hfin : session_ok (set_nextNonce (set_sharedSecret s
    (shared (ourTempPrivKey s) (herTempPubKey s) None)) (nextNonce s + 3))).
  { apply next_ok; try (cbn; lia). apply set_shared_ok; [done|by eexists _, _]. }
  unfold u32. rewrite Z.mod_small by lia.
  case_decide; eexists _, _, _; (split; [done|]); split; try (cbn; lia).
  - destruct Hfin. split; try done. intros _. by eexists _, _.
  - by apply set_replay_ok, set_replay_ok.
Qed.

Lemma decrypt_ok s ca m pre c post now :
  session_ok s -> agreed s -> wire_ok m -> msg_view m pre c post -> bytes c -> 12 <= len pre ->
  nextNonce s + 3 < 2 ^ 32 ->
  returns_ok s (CryptoAuth_decrypt s ca m now).
Proof.
  intros Hs Hagr Hw Hv Hby Hp Hn. destruct (Z.lt_ge_cases (len c) 20) as [Hc|Hc].
  { unfold CryptoAuth_decrypt. rewrite (msg_view_length _ _ _ _ Hv). zdecide (len c <? 20).
    unfold cryptoAuthDebug. rewrite (so_key s Hs). by apply returns_same. }
  destruct (list_split_at 4 c ltac:(lia)) as (n4 & c' & -> & H4). rewrite length_app in Hc.
  apply bytes_app in Hby as [Hby Hby'].
  destruct (decrypt_dispatch s ca m pre n4 c' post now Hs (fun _ => Hagr) Hw Hv) as (m1 & m2 & Hv1 & Hv2 & ->);
    try done; try lia. cbv zeta. set (nonce := be_val n4).
  assert (Hnf : 0 <= nonce) by (pose proof (be_val_bound n4 Hby) as [? _]; done).
  assert (Hpre : 16 <= len (pre ++ n4)) by (rewrite length_app; lia).
  destruct (is_handshake s nonce) eqn:Hh.
  - apply andb_true_iff in Hh as [Hlt Hest].
    eapply decryptHandshake_ok; try done; try lia.
    intros Hx. rewrite Hx in Hest. simpl in Hest. lia.
  - destruct (nonce <? 4); [by apply returns_same|].
    destruct (established s);
      [eapply decrypt_running_ok|eapply decrypt_final_ok]; try done; lia.
Qed.

(** ** Runs of a session *)

(** What the rest of the program does with a session. *)
Inductive session_event :=
| ev_encrypt (m : Message) (now : Z) (rand36 rand32 : list Z)
| ev_decrypt (m : Message) (now : Z)
| ev_resetIfTimeout (now : Z)
| ev_reset
| ev_setAuth (pass log : option (list Z)).

Definition run_event (ca : CryptoAuth) (s : Session) (ev : session_event) : Er Session :=
  match ev with
  | ev_encrypt m now rand36 rand32 =>
      '(_, s) ← CryptoAuth_encrypt s ca m now rand36 rand32; Ret s
  | ev_decrypt m now => '(_, s, _) ← CryptoAuth_decrypt s ca m now; Ret s
  | ev_resetIfTimeout now => resetIfTimeout s now
  | ev_reset => Ret (reset s)
  | ev_setAuth pass log => Ret (CryptoAuth_setAuth pass log s)
  end.

Fixpoint run_events (ca : CryptoAuth) (s : Session) (evs : list session_event) : Er Session :=
  match evs with
  | [] => Ret s
  | ev :: evs => s ← run_event ca s ev; run_events ca s evs
  end.

(** What the callers promise: room in front of the message, alignment, random
    keys which are not zero.  The content of a received message is arbitrary. *)
Definition event_ok (ev : session_event) : Prop :=
  match ev with
  | ev_encrypt m _ rand36 rand32 =>
      aligned m /\ (exists pre c post, msg_view m pre c post /\ 120 <= len pre /\ 0 < len c) /\
      length rand36 = 36%nat /\ Bits_isZero rand32 = false
  | ev_decrypt m _ =>
      wire_ok m /\ exists pre c post, msg_view m pre c post /\ 12 <= len pre /\ bytes c
  | _ => True
  end.

Lemma setAuth_ok pass log s :
  session_ok s -> session_ok (CryptoAuth_setAuth pass log s) /\
    nextNonce (CryptoAuth_setAuth pass log s) <= nextNonce s.
Proof.
  intros Hs. pose proof (so_nonce s Hs) as [Hn _]. unfold CryptoAuth_setAuth.
  repeat case_match; split; try done; try lia; apply reset_ok; destruct Hs; split; try done;
    cbn; auto.
Qed.

Lemma run_event_ok ca s ev :
  session_ok s -> agreed s \/ (forall m now, ev <> ev_decrypt m now) -> ca_ok ca -> event_ok ev ->
  nextNonce s + 3 < 2 ^ 32 ->
  exists s', run_event ca s ev = Ret s' /\ session_ok s' /\ nextNonce s' <= nextNonce s + 3.
Proof.
  intros Hs Hagr Hca Hev Hn. pose proof (so_nonce s Hs) as [Hn0 _].
  destruct ev as [m now r36 r32|m now|now| |pass log]; cbn [run_event event_ok] in *.
  - destruct Hev as (Ha & (pre & c & post & Hv & Hp & Hc) & H36 & H32).
    destruct (encrypt_ok s ca m pre c post now r36 r32) as (m' & s' & -> & Hs' & Hb); try done.
    exists s'. split; [done|]. split; [done|lia].
  - destruct Hev as (Hw & pre & c & post & Hv & Hp & Hc).
    destruct Hagr as [Hagr|Hno]; [|by destruct (Hno m now)].
    destruct (decrypt_ok s ca m pre c post now) as (m' & s' & e & -> & Hs' & Hb); try done.
    by exists s'.
  - destruct (resetIfTimeout_ok s now Hs) as (s' & -> & Hs' & Hb).
    exists s'. split; [done|]. split; [done|lia].
  - exists (reset s). split; [done|]. split; [by apply reset_ok|].
    change (nextNonce (reset s)) with 0. lia.
  - destruct (setAuth_ok pass log s Hs) as [Ho Hb]. eexists. split; [done|]. split; [done|lia].
Qed.

(** Somewhere in the run a packet is decrypted by an established session whose
    secret, derived by the library from the temporary keys, is all zero: the
    assertion [Assert_ifParanoid(!Bits_isZero(session->sharedSecret, 32))]. *)
Definition decrypts_with_zero (ca : CryptoAuth) (s : Session) (evs : list session_event) : Prop :=
  exists evs1 m now evs2 s1, evs = evs1 ++ ev_decrypt m now :: evs2 /\
    run_events ca s evs1 = Ret s1 /\ session_ok s1 /\
    established s1 = true /\ Bits_isZero (sharedSecret s1) = true.

Lemma decrypts_with_zero_step ca s ev s1 evs :
  run_event ca s ev = Ret s1 -> decrypts_with_zero ca s1 evs -> decrypts_with_zero ca s (ev :: evs).
Proof.
  intros He (evs1 & m & now & evs2 & s2 & -> & Hr & H). exists (ev :: evs1), m, now, evs2, s2.
  split; [done|]. split; [|done]. cbn [run_events]. by rewrite He.
Qed.

Lemma event_agreed s ev :
  agreed s \/ (exists m now, ev = ev_decrypt m now) /\ established s = true /\ Bits_isZero (sharedSecret s) = true
  \/ (forall m now, ev <> ev_decrypt m now).
Proof.
  destruct (decide (agreed s)) as [|Hn]; [by left|right]. apply not_agreed in Hn.
  destruct ev as [| m now| | |]; try (by right). left. split; [by eexists _, _|done].
Qed.

Lemma run_events_ok ca evs : forall s,
  session_ok s -> ca_ok ca -> Forall event_ok evs -> nextNonce s + 3 * len evs < 2 ^ 32 ->
  (exists s', run_events ca s evs = Ret s' /\ session_ok s' /\
    nextNonce s' <= nextNonce s + 3 * len evs) \/ decrypts_with_zero ca s evs.
Proof.
  induction evs as [|ev evs IH]; intros s Hs Hca Hevs Hn; cbn [run_events length] in *.
  { left. exists s. split; [done|]. split; [done|lia]. }
  apply Forall_cons in Hevs as [Hev Hevs].
  destruct (event_agreed s ev) as [Hagr|[((m & now & ->) & He & Hz)|Hagr]].
  2: { right. by exists [], m, now, evs, s. }
  all: destruct (run_event_ok ca s ev) as (s1 & E1 & Hs1 & Hb1); try done; try lia; try by left.
  all: try (by right).
  all: rewrite E1; cbn [mbind Er_bind];
    (destruct (IH s1) as [(s' & E' & Hs' & Hb')|Hz]; try done; [lia| |]).
  all: try (by right; eapply decrypts_with_zero_step).
  all: left; exists s'; split; [done|]; split; [done|lia].
Qed.

Lemma newSession_ok herKey req now :
  length herKey = 32%nat -> Bits_isZero herKey = false ->
  session_ok (CryptoAuth_newSession herKey req now).
Proof.
  intros Hl Hz. unfold CryptoAuth_newSession. split; cbn; try done; try lia.
  - unfold knowHerKey. cbn. rewrite take_ge by lia. by rewrite Hz.
  - rewrite length_take. lia.
Qed.

End Sessions.

(** ** Two parties *)

Section Protocol.
Context {N : Nacl} {L : NaclLaws N}.

(** [s] sends the content [c] as [packet] and becomes [s'], whatever aligned
    buffer with room for the headers the content is in; the bytes in front and
    behind stay. *)
Definition sends (s : Session) (ca : CryptoAuth) (now : Z) (rand36 rand32 c : list Z)
  (s' : Session) (packet : list Z) : Prop :=
  forall m pre post, msg_view m pre c post -> aligned m -> 120 <= len pre ->
  exists m' pre' room, CryptoAuth_encrypt s ca m now rand36 rand32 = Ret (m', s') /\ pre = pre' ++ room /\
    msg_view m' pre' packet post.

(** [s] gets [c] out of [packet] and becomes [s']. *)
Definition receives (s : Session) (ca : CryptoAuth) (now : Z) (packet : list Z)
  (s' : Session) (c : list Z) : Prop :=
  forall m pre post, msg_view m pre packet post -> wire_ok m -> 12 <= len pre ->
  exists m' front, CryptoAuth_decrypt s ca m now = Ret (m', s', DecryptErr_NONE) /\
    msg_view m' (pre ++ front) c post.

(** [s] refuses [packet] with the error [e] and becomes [s']. *)
Definition refuses (s : Session) (ca : CryptoAuth) (now : Z) (packet : list Z)
  (s' : Session) (e : CryptoAuth_DecryptErr) : Prop :=
  e <> DecryptErr_NONE /\
  forall m pre post, msg_view m pre packet post -> wire_ok m -> 12 <= len pre ->
  exists m', CryptoAuth_decrypt s ca m now = Ret (m', s', e).

(** A session which is not stale at [now]. *)
Definition fresh (s : Session) (now : Z) : Prop := resetIfTimeout s now = Ret s.

(** Both ends of an established connection, seen from the sender: the same
    secret, opposite roles, and the receiver has only seen older nonces. *)
Record paired (a b : Session) : Prop := {
  pd_a : session_ok a;
  pd_b : session_ok b;
  pd_est_b : established b = true;
  pd_secret : sharedSecret a = sharedSecret b;
  pd_nonzero : Bits_isZero (sharedSecret b) = false;
  pd_role : isInitiator a = negb (isInitiator b);
  pd_started : 5 <= nextNonce a;
  pd_window : exists start seen, rp_inv start seen (replayProtector b) /\
    start <= nextNonce a /\ Forall (fun n => n < nextNonce a) seen;
}.

Lemma sends_data s ca now rand36 rand32 c :
  session_ok s -> 4 <= nextNonce s < 0xfffffff0 -> fresh s now -> 0 < len c ->
  sends s ca now rand36 rand32 c (set_nextNonce (with_secret s) (nextNonce s + 1))
    (data_packet (nextNonce s) (sharedSecret (with_secret s)) (isInitiator s) c).
Proof.
  intros Hs Hn Hf Hc m pre post Hv Ha Hp. unfold CryptoAuth_encrypt. rewrite Hf.
  cbn [mbind Er_bind]. replace (nextNonce s >=? 0xfffffff0) with false by lia.
  destruct (list_split_at (len pre - 20) pre ltac:(lia)) as (p1 & p2 & -> & Hl).
  rewrite length_app in Hl, Hp.
  destruct (encrypt_data_view s ca m p1 p2 c post rand36 rand32) as (m' & He & Hv');
    try done; try lia.
  by exists m', p1, p2.
Qed.

Lemma running_data s ca now n sealed c m pre post :
  session_ok s -> established s = true -> agreed s -> fits 32 n -> 4 <= n -> 16 <= len sealed ->
  unseal (nonceAs n (negb (isInitiator s))) (sharedSecret s) sealed = Some c ->
  msg_view m pre (be_bytes 4 n ++ sealed) post -> wire_ok m -> 12 <= len pre ->
  exists m' front, msg_view m' (pre ++ front) c post /\
    CryptoAuth_decrypt s ca m now =
      let '(ok, rp) := ReplayProtector_checkNonce n (replayProtector s) in
      let s := set_replayProtector s rp in
      Ret (m', if ok then updateTime s now else s,
           if ok then DecryptErr_NONE else DecryptErr_REPLAY).
Proof.
  intros Hs He Hagr Hn H4 Hl Hu Hv Hw Hp.
  destruct (decrypt_dispatch s ca m pre (be_bytes 4 n) sealed post now) as (m1 & m2 & Hv1 & _ & ->);
    try done; [apply be_bytes_bytes|]. cbv zeta. rewrite be_val_nonce by done.
  unfold is_handshake. zdecide (n <? 4). cbn [andb]. rewrite He. unfold decrypt_running.
  destruct (list_split_at (len pre - 12) pre ltac:(lia)) as (p1 & p2 & -> & Hp1).
  rewrite length_app in Hp1. rewrite <- app_assoc in Hv1.
  pose proof (decryptMessage_view s n m1 p1 (p2 ++ be_bytes 4 n) sealed post (sharedSecret s) Hs Hv1)
    as Hd. rewrite length_app, length_be_bytes in Hd. specialize (Hd ltac:(lia) Hl).
  rewrite Hu in Hd. destruct Hd as (m' & tag & Hv' & ->). exists m', (be_bytes 4 n ++ tag).
  split; [by rewrite !app_assoc in *|].
  destruct (ReplayProtector_checkNonce n (replayProtector s)) as [[|] rp]; done.
Qed.

(** A data packet from [a] to [b], and the same packet again. *)
Lemma paired_delivers a b caa cab c now now' rand36 rand32 :
  paired a b -> nextNonce a < 0xfffffff0 -> fresh a now -> 0 < len c ->
  let a' := set_nextNonce a (nextNonce a + 1) in
  let packet := data_packet (nextNonce a) (sharedSecret a) (isInitiator a) c in
  exists b' b'',
    sends a caa now rand36 rand32 c a' packet /\
    receives b cab now' packet b' c /\ paired a' b' /\ nextNonce b' = nextNonce b /\
    refuses b' cab now' packet b'' DecryptErr_REPLAY /\ paired a' b''.
Proof.
  intros [Ha Hb He Hsec Hnz Hrole H5 (start & seen & Hrp & Hst & Hseen)] Hn Hf Hc a' packet.
  assert (Hws : with_secret a = a) by (unfold with_secret; by zdecide (nextNonce a <=? 4)).
  pose proof (sends_data a caa now rand36 rand32 c Ha ltac:(lia) Hf Hc) as Hsend.
  rewrite Hws in Hsend. pose proof (so_nonce a Ha) as Hfits.
  unfold packet, data_packet in *. clear packet. set (sealed := seal _ _ c) in *.
  assert (Hun : forall s, isInitiator s = isInitiator b -> sharedSecret s = sharedSecret b ->
    unseal (nonceAs (nextNonce a) (negb (isInitiator s))) (sharedSecret s) sealed = Some c).
  { unfold sealed. intros s -> ->. rewrite <- Hsec, <- Hrole. apply unseal_seal. }
  pose proof (seal_length (nonceAs (nextNonce a) (isInitiator a)) (sharedSecret a) c) as Hlen.
  fold sealed in Hlen.
  assert (Hnin : nextNonce a ∉ seen).
  { intros Hin. rewrite Forall_forall in Hseen. specialize (Hseen _ Hin). simpl in Hseen. lia. }
  pose proof (checkNonce_refines _ _ _ _ Hrp Hfits) as Hck.
  pose proof (checkNonce_fresh _ _ _ _ Hrp Hfits Hst Hnin
    ltac:(eapply Forall_impl; [exact Hseen|simpl; intros; lia])) as Hok.
  destruct (ReplayProtector_checkNonce (nextNonce a) (replayProtector b)) as [ok rp] eqn:Echk.
  simpl in Hok. subst ok. destruct Hck as [Hrp' _].
  set (b' := updateTime (set_replayProtector b rp) now').
  pose proof (checkNonce_refines _ _ _ _ Hrp' Hfits) as Hck2.
  destruct (ReplayProtector_checkNonce (nextNonce a) rp) as [ok2 rp2] eqn:Echk2.
  assert (ok2 = false) as ->.
  { destruct ok2; [|done]. destruct Hck2 as [_ Hx]. destruct Hx. constructor. }
  destruct Hck2 as [Hrp2 _].
  assert (Hna : nextNonce a' = nextNonce a + 1) by done.
  assert (Hpair : forall s, session_ok s -> established s = true ->
    isInitiator s = isInitiator b -> sharedSecret s = sharedSecret b ->
    rp_inv start (nextNonce a :: seen) (replayProtector s) -> paired a' s).
  { intros s Hs1 Hs2 Hs3 Hs4 Hs5. split; try done.
    - apply next_ok; try done; unfold fits in *; lia.
    - by rewrite Hs4.
    - by rewrite Hs4.
    - by rewrite Hs3.
    - rewrite Hna. lia.
    - exists start, (nextNonce a :: seen). rewrite Hna. split; [done|]. split; [lia|].
      constructor; [lia|]. eapply Forall_impl; [exact Hseen|simpl; intros; lia]. }
  assert (Hb' : session_ok b') by (pose proof (set_replay_ok b rp Hb) as []; by split).
  exists b', (set_replayProtector b' rp2). split; [done|]. split_and!.
  - intros m pre post Hv Hw Hp.
    destruct (running_data b cab now' (nextNonce a) sealed c m pre post Hb He (fun _ => Hnz) Hfits ltac:(lia)
      ltac:(lia) (Hun b eq_refl eq_refl) Hv Hw Hp) as (m' & front & Hcont & ->). rewrite Echk. by exists m', front.
  - by apply Hpair.
  - done.
  - split; [done|]. intros m pre post Hv Hw Hp.
    destruct (running_data b' cab now' (nextNonce a) sealed c m pre post Hb' He (fun _ => Hnz) Hfits ltac:(lia)
      ltac:(lia) (Hun b' eq_refl eq_refl) Hv Hw Hp) as (m' & front & Hcont & ->).
    change (replayProtector b') with rp. rewrite Echk2. by exists m'.
  - apply Hpair; try done. by apply set_replay_ok.
Qed.

(** A stream of packets, each of which also arrives a second time. *)
Fixpoint delivers_all (a b : Session) (caa cab : CryptoAuth) (now now' : Z)
  (rands : list Z * list Z) (cs : list (list Z)) : Prop :=
  match cs with
  | [] => True
  | c :: cs => exists packet a' b' b'',
      sends a caa now (fst rands) (snd rands) c a' packet /\
      receives b cab now' packet b' c /\
      refuses b' cab now' packet b'' DecryptErr_REPLAY /\
      delivers_all a' b'' caa cab now now' rands cs
  end.

Lemma fresh_next s n now : fresh s now -> 5 <= nextNonce s -> 5 <= n -> fresh (set_nextNonce s n) now.
Proof.
  unfold fresh, resetIfTimeout. change CryptoAuth_State_SENT_HELLO with 1.
  cbn [nextNonce set_nextNonce timeOfLastPacket setupResetAfterInactivitySeconds
       resetAfterInactivitySeconds established].
  intros Hf Hs Hn. zdecide (n =? 1). zdecide_in (nextNonce s =? 1) Hf.
  case_match; [done|]. case_match; [done|].
  destruct (cryptoAuthDebug s); [|done]. cbn [mbind Er_bind] in Hf.
  injection Hf as Hf. apply (f_equal nextNonce) in Hf.
  change (nextNonce (reset _)) with 0 in Hf. lia.
Qed.

Lemma paired_delivers_all caa cab now now' rands cs : forall a b,
  paired a b -> nextNonce a + len cs <= 0xfffffff0 -> fresh a now ->
  Forall (fun c => 0 < len c) cs -> delivers_all a b caa cab now now' rands cs.
Proof.
  induction cs as [|c cs IH]; intros a b Hp Hn Hf Hcs; cbn [delivers_all length] in *; [done|].
  apply Forall_cons in Hcs as [Hc Hcs].
  destruct (paired_delivers a b caa cab c now now' (fst rands) (snd rands) Hp ltac:(lia) Hf Hc)
    as (b' & b'' & H1 & H2 & _ & _ & H4 & H5).
  eexists _, (set_nextNonce a (nextNonce a + 1)), b', b''. split_and!; try done.
  apply IH; try done.
  - change (nextNonce (set_nextNonce a (nextNonce a + 1))) with (nextNonce a + 1). lia.
  - pose proof (pd_started a b Hp). apply fresh_next; [done|lia|lia].
Qed.

(** ** The handshake *)

Lemma sends_handshake s ca now r12 hn r32 auth ph c :
  session_ok s -> ca_ok ca -> nextNonce s <= 3 -> fresh s now ->
  length r12 = 12%nat -> length hn = 24%nat ->
  auth_of s r12 = Ret (auth, ph) -> length auth = 12%nat ->
  sends s ca now (r12 ++ hn) r32 c (sent_state s r32)
    (hs_packet (nextNonce s) auth hn (ca_publicKey ca)
       (seal hn (sent_secret s ca ph) (ourTempPubKey (with_temp s r32) ++ c))).
Proof.
  intros Hs Hca Hn Hf H12 H24 Hau Hal m pre post Hv Ha Hp. unfold CryptoAuth_encrypt. rewrite Hf.
  cbn [mbind Er_bind]. replace (nextNonce s >=? 0xfffffff0) with false by lia.
  unfold encrypt_ready. rewrite (proj2 (Z.eqb_eq _ _) Ha). cbn [Assert_true mbind Er_bind].
  change CryptoAuth_State_RECEIVED_KEY with 4. zdecide (nextNonce s <? 4).
  destruct (list_split_at (len pre - 120) pre ltac:(lia)) as (p1 & p2 & -> & Hl).
  rewrite length_app in Hl.
  destruct (encryptHandshake_view s ca m p1 p2 c post r12 hn r32 auth ph)
    as (m' & He & Hv'); try done; try lia.
  by exists m', p1, p2.
Qed.

Lemma receives_handshake s ca now nonce auth hn pub body p s' :
  session_ok s -> 0 <= nonce < 4 -> established s = false ->
  length auth = 12%nat -> length hn = 24%nat -> length pub = 32%nat -> 48 <= len body ->
  hs_verdict s ca nonce auth hn pub body = inr p ->
  handshake_step s ca nonce (if nonce <? 2 then 2 else 4) (take 32 p) = Ret (s', DecryptErr_NONE) ->
  receives s ca now (hs_packet nonce auth hn pub body) s' (drop 32 p).
Proof.
  intros Hs Hn Hest H12 H24 H32 Hb Hverd Hstep m pre post Hv Hw Hp. unfold hs_packet in Hv.
  destruct (decrypt_dispatch s ca m pre (be_bytes 4 nonce) _ post now Hs (fun _ => agreed_idle s Hest) Hw Hv)
    as (m1 & m2 & _ & Hv2 & ->); [done|apply be_bytes_bytes|rewrite !length_app; lia|done|].
  cbv zeta. rewrite be_val_nonce by (unfold fits; lia).
  unfold is_handshake. zdecide (nonce <? 4). rewrite Hest. cbn [andb negb orb].
  pose proof (decryptHandshake_view s ca nonce m2 pre _ auth hn pub body post Hs Hn Hv2
    eq_refl H12 H24 H32 Hb) as Hd.
  rewrite Hverd in Hd. destruct Hd as (m' & front & -> & Hv'). rewrite Hstep.
  by exists m', front.
Qed.

(** The state after the first data packet of the peer. *)
Definition final_state (s : Session) (n now : Z) (rp : ReplayProtector) : Session :=
  updateTime (set_nextNonce (set_established (set_sharedSecret
    (start_window (set_replayProtector s rp) n)
    (shared (ourTempPrivKey s) (herTempPubKey s) None)) true) (u32 (nextNonce s + 3))) now.

Lemma receives_final s ca now n sealed c rp :
  session_ok s -> established s = false -> 3 <= nextNonce s -> fits 32 n -> 4 <= n ->
  16 <= len sealed ->
  unseal (nonceAs n (negb (isInitiator s))) (shared (ourTempPrivKey s) (herTempPubKey s) None) sealed
    = Some c ->
  ReplayProtector_checkNonce n (replayProtector s) = (true, rp) ->
  receives s ca now (be_bytes 4 n ++ sealed) (final_state s n now rp) c.
Proof.
  intros Hs Hest H3 Hn H4 Hl Hu Hck m pre post Hv Hw Hp.
  destruct (decrypt_dispatch s ca m pre (be_bytes 4 n) sealed post now) as (m1 & m2 & Hv1 & _ & ->);
    try done; [by intros _; apply agreed_idle|apply be_bytes_bytes|]. cbv zeta. rewrite be_val_nonce by done.
  unfold is_handshake. zdecide (n <? 4). cbn [andb]. rewrite Hest.
  assert (Hp' : 16 <= len (pre ++ be_bytes 4 n)) by (rewrite length_app, length_be_bytes; lia).
  rewrite (decrypt_final_step_view s n m1 _ sealed post now Hs Hv1 Hp' Hl H3).
  destruct (list_split_at (len pre - 12) pre ltac:(lia)) as (p1 & p2 & -> & Hp1).
  rewrite length_app in Hp1. rewrite <- app_assoc in Hv1.
  pose proof (decryptMessage_view s n m1 p1 (p2 ++ be_bytes 4 n) sealed post
    (shared (ourTempPrivKey s) (herTempPubKey s) None) Hs Hv1) as Hd.
  rewrite length_app, length_be_bytes in Hd. specialize (Hd ltac:(lia) Hl).
  rewrite Hu in Hd. destruct Hd as (m' & tag & Hv' & ->). exists m', (be_bytes 4 n ++ tag). rewrite Hck.
  split; [done|]. by rewrite !app_assoc in *.
Qed.

(** A session nothing has happened to yet. *)
Record initial_session (s : Session) (herKey : list Z) (t0 : Z) : Prop := {
  is_ok : session_ok s;
  is_nonce : nextNonce s = 0;
  is_key : herPublicKey s = herKey;
  is_est : established s = false;
  is_init : isInitiator s = false;
  is_time : timeOfLastPacket s = t0;
  is_setup : setupResetAfterInactivitySeconds s = 10;
}.

Lemma fresh_soon s now :
  0 <= timeOfLastPacket s <= now -> now < timeOfLastPacket s + setupResetAfterInactivitySeconds s ->
  now < 2 ^ 64 -> fresh s now.
Proof.
  intros H1 H2 H3. unfold fresh, resetIfTimeout. case_match; [done|]. unfold u64.
  rewrite Z.mod_small by lia.
  by zdecide (now - timeOfLastPacket s <? setupResetAfterInactivitySeconds s).
Qed.

Lemma take_app_32 (k c : list Z) : length k = 32%nat -> take 32 (k ++ c) = k /\ drop 32 (k ++ c) = c.
Proof. intros Hl. by rewrite take_app_length', drop_app_length'. Qed.

(** A hello packet to a session in its initial state. *)
Lemma initial_receives_hello s ca now auth ph hn pub key c t0 :
  initial_session s pub t0 -> length auth = 12%nat -> length hn = 24%nat -> length pub = 32%nat ->
  handshake_auth s ca auth = inr ph -> length key = 32%nat -> Bits_isZero key = false ->
  let s' := set_replayProtector (set_nextNonce (set_herTempPubKey s key) 2) ReplayProtector_empty in
  receives s ca now
    (hs_packet 0 auth hn pub (seal hn (shared (ca_privateKey ca) pub ph) (key ++ c))) s' c.
Proof.
  intros [Hs Hn Hk He _ _ _] H12 H24 H32 Hau Hkl Hkz s'. subst pub.
  destruct (take_app_32 key c Hkl) as [Et Ed]. rewrite <- Ed at 2.
  assert (Hz : (memcmp (herTempPubKey s) key =? 0) = false).
  { rewrite memcmp_zero_iff by (by rewrite (so_templen s Hs)). apply bool_decide_eq_false.
    intros <-. rewrite (proj1 (so_temp s Hs)) in Hkz; [done|lia]. }
  apply receives_handshake; try done.
  - rewrite seal_length, length_app. lia.
  - unfold hs_verdict. rewrite bool_decide_eq_true_2 by done. cbn [negb]. rewrite Hau.
    cbn [Z.leb Z.compare andb]. unfold recv_secret. cbn [Z.ltb Z.compare].
    rewrite unseal_seal, Et, Hkz. done.
  - rewrite Et. unfold handshake_step, handshake_invalid, handshake_hello. rewrite Hz, Hn.
    cbn. unfold handshake_finish. cbn. by rewrite Hn.
Qed.

(** A key packet to a session which sent a hello. *)
Lemma hello_sent_receives_key s ca now auth ph hn pub key c :
  session_ok s -> nextNonce s = 1 -> herPublicKey s = pub -> established s = false ->
  isInitiator s = true -> length auth = 12%nat -> length hn = 24%nat ->
  handshake_auth s ca auth = inr ph -> length key = 32%nat -> Bits_isZero key = false ->
  let s' := set_replayProtector (set_nextNonce (set_herTempPubKey s key) 4) ReplayProtector_empty in
  receives s ca now
    (hs_packet 2 auth hn pub (seal hn (shared (ourTempPrivKey s) pub ph) (key ++ c))) s' c.
Proof.
  intros Hs Hn Hk He Hi H12 H24 Hau Hkl Hkz s'. subst pub.
  destruct (take_app_32 key c Hkl) as [Et Ed]. rewrite <- Ed at 2.
  apply receives_handshake; try done.
  - apply Hs.
  - rewrite seal_length, length_app. lia.
  - unfold hs_verdict. rewrite bool_decide_eq_true_2 by done. cbn [negb]. rewrite Hau, Hi.
    rewrite andb_false_r. unfold recv_secret. cbn [Z.ltb Z.compare].
    change (2 <? 2) with false. cbv iota. rewrite unseal_seal, Et, Hkz. done.
  - rewrite Et. unfold handshake_step, handshake_invalid, handshake_key. rewrite Hn.
    cbn. unfold handshake_finish. cbn. by rewrite Hn.
Qed.

(** Both sides hold the other's temporary key, no data was sent yet. *)
Record keyed (a b : Session) (t0 : Z) : Prop := {
  ky_a : session_ok a;
  ky_b : session_ok b;
  ky_nonces : nextNonce a = 4 /\ nextNonce b = 3;
  ky_est : established a = false /\ established b = false;
  ky_role : isInitiator a = true /\ isInitiator b = false;
  ky_temp_a : herTempPubKey a = scalarmult_base (ourTempPrivKey b);
  ky_temp_b : herTempPubKey b = scalarmult_base (ourTempPrivKey a);
  ky_window : replayProtector a = ReplayProtector_empty /\ replayProtector b = ReplayProtector_empty;
  ky_time : timeOfLastPacket a = t0 /\ setupResetAfterInactivitySeconds a = 10 /\
            setupResetAfterInactivitySeconds b = 10;
}.

Lemma hello_received_ok s key :
  session_ok s -> length key = 32%nat -> Bits_isZero key = false ->
  session_ok (set_replayProtector (set_nextNonce (set_herTempPubKey s key) 2) ReplayProtector_empty).
Proof. intros. apply set_replay_ok, take_key_ok; done. Qed.

Lemma auth_of_length s r12 auth ph :
  session_ok s -> length r12 = 12%nat -> auth_of s r12 = Ret (auth, ph) -> length auth = 12%nat.
Proof.
  intros Hs Hr He. destruct (auth_of_ret s r12 Hs Hr) as (x & y & E & Hx).
  rewrite He in E. by injection E as -> ->.
Qed.

Section Handshake.
Context (caA caB : CryptoAuth) (sA sB : Session) (t0 t1 t2 t3 t4 : Z)
  (r12A hnA tmpA authA r12B hnB tmpB authB : list Z) (phA phB : option (list Z))
  (c1 c2 : list Z).
Context (HcaA : ca_publicKey caA = scalarmult_base (ca_privateKey caA))
  (HcaB : ca_publicKey caB = scalarmult_base (ca_privateKey caB))
  (HsA : initial_session sA (ca_publicKey caB) t0) (HsB : initial_session sB (ca_publicKey caA) t0)
  (Hlen : length r12A = 12%nat /\ length hnA = 24%nat /\ length r12B = 12%nat /\ length hnB = 24%nat)
  (HtA : Bits_isZero tmpA = false) (HtB : Bits_isZero tmpB = false)
  (HpA : Bits_isZero (scalarmult_base tmpA) = false)
  (HpB : Bits_isZero (scalarmult_base tmpB) = false)
  (HauA : auth_of sA r12A = Ret (authA, phA)) (HaccB : handshake_auth sB caB authA = inr phA)
  (HauB : auth_of sB r12B = Ret (authB, phB)) (HaccA : handshake_auth sA caA authB = inr phB)
  (Htime : 0 <= t0 <= t1 /\ t1 <= t2 /\ t2 <= t3 /\ t3 <= t4 < t0 + 10 /\ t4 < 2 ^ 32).

(** Hello and key. *)
Lemma handshake_keys :
  exists sA1 sB1 sA2 sB2 p1 p2,
    sends sA caA t1 (r12A ++ hnA) tmpA c1 sA1 p1 /\ receives sB caB t1 p1 sB1 c1 /\
    sends sB1 caB t2 (r12B ++ hnB) tmpB c2 sB2 p2 /\ receives sA1 caA t2 p2 sA2 c2 /\
    keyed sA2 sB2 t0 /\ ourTempPrivKey sA2 = tmpA /\ ourTempPrivKey sB2 = tmpB.
Proof.
  destruct Hlen as (L1 & L2 & L3 & L4).
  assert (HokA : ca_ok caA) by (split; rewrite HcaA; apply scalarmult_base_length).
  assert (HokB : ca_ok caB) by (split; rewrite HcaB; apply scalarmult_base_length).
  pose proof HsA as [SA NA KA EA IA TA UA]. pose proof HsB as [SB NB KB EB IB TB UB].
  set (sA1 := sent_state sA tmpA).
  set (sB1 := set_replayProtector (set_nextNonce (set_herTempPubKey sB (scalarmult_base tmpA)) 2)
                ReplayProtector_empty).
  assert (EsA1 : sA1 = set_nextNonce (set_isInitiator
    (set_tempKeys sA tmpA (scalarmult_base tmpA)) true) 1).
  { unfold sA1, sent_state, with_temp. rewrite NA. cbn. by rewrite NA. }
  assert (EsB2 : sent_state sB1 tmpB = set_nextNonce
    (set_tempKeys sB1 tmpB (scalarmult_base tmpB)) 3) by done.
  assert (SA1 : session_ok sA1) by (apply sent_state_ok; [done|lia|done]).
  assert (SB1 : session_ok sB1) by (apply hello_received_ok; [done|apply scalarmult_base_length|done]).
  pose proof (auth_of_length _ _ _ _ SA L1 HauA) as AL.
  pose proof (auth_of_length _ _ _ _ SB L3 HauB) as BL.
  exists sA1, sB1,
    (set_replayProtector (set_nextNonce (set_herTempPubKey sA1 (scalarmult_base tmpB)) 4)
       ReplayProtector_empty), (sent_state sB1 tmpB),
    (hs_packet 0 authA hnA (ca_publicKey caA)
       (seal hnA (shared (ca_privateKey caB) (ca_publicKey caA) phA) (scalarmult_base tmpA ++ c1))),
    (hs_packet 2 authB hnB (ca_publicKey caB)
       (seal hnB (shared tmpA (ca_publicKey caB) phB) (scalarmult_base tmpB ++ c2))).
  split_and!.
  - pose proof (sends_handshake sA caA t1 r12A hnA tmpA authA phA c1 SA HokA ltac:(lia)
      ltac:(apply fresh_soon; rewrite ?TA, ?UA; lia) L1 L2 HauA AL) as H.
    unfold sent_secret, with_temp in H. rewrite NA, KA in H. cbn in H.
    rewrite HcaB, shared_comm, <- HcaA in H. done.
  - apply (initial_receives_hello sB caB t1 authA phA hnA _ _ c1 t0 HsB); try done.
    + apply HokA.
    + apply scalarmult_base_length.
  - pose proof (sends_handshake sB1 caB t2 r12B hnB tmpB authB phB c2 SB1 HokB ltac:(by vm_compute)
      ltac:(apply fresh_soon; cbn; rewrite ?TB, ?UB; lia) L3 L4 HauB BL) as H.
    unfold sent_secret, with_temp in H. cbn in H. rewrite shared_comm, <- HcaB in H. done.
  - replace tmpA with (ourTempPrivKey sA1) at 1 by (by rewrite EsA1).
    apply hello_sent_receives_key; try done; try (by rewrite EsA1).
    apply scalarmult_base_length.
  - split; try done; try (rewrite EsA1; done).
    + apply set_replay_ok, take_key_ok; try done; [apply scalarmult_base_length|].
      intros _. by rewrite EsA1.
    + apply sent_state_ok; [done|by vm_compute|done].
  - by rewrite EsA1.
  - done.
Qed.
End Handshake.

Lemma rp_inv_start n dup lost oor :
  fits 32 n ->
  rp_inv n [] {| bitfield := 0; baseOffset := n; duplicates := dup; lostPackets := lost;
                 receivedOutOfRange := oor |}.
Proof.
  intros Hn. split; simpl; [by split|done| |by left].
  intros k Hk. rewrite Z.testbit_0_l. split; [done|intros H; inversion H].
Qed.

Lemma final_state_ok s n now rp :
  session_ok s -> 3 <= nextNonce s -> nextNonce s + 3 < 2 ^ 32 ->
  session_ok (final_state s n now rp) /\ nextNonce (final_state s n now rp) = nextNonce s + 3.
Proof.
  intros Hs H3 Hb. unfold final_state, u32. rewrite Z.mod_small by lia. split; [|done].
  assert (Hok : session_ok (set_nextNonce s (nextNonce s + 3))) by (apply next_ok; try done; lia).
  destruct Hok. split; try done. intros _. by eexists _, _.
Qed.

(** The first data packets in both directions finish the handshake. *)
Lemma keyed_data a b caa cab t0 t3 t4 rands c3 c4 :
  keyed a b t0 -> 0 <= t0 <= t3 -> t3 <= t4 < t0 + 10 -> t4 < 2 ^ 32 -> 0 < len c3 -> 0 < len c4 ->
  Bits_isZero (shared (ourTempPrivKey a) (herTempPubKey a) None) = false ->
  exists a' a'' b' b'' p3 p4,
    sends a caa t3 (fst rands) (snd rands) c3 a' p3 /\ receives b cab t3 p3 b' c3 /\
    sends b' cab t4 (fst rands) (snd rands) c4 b'' p4 /\ receives a' caa t4 p4 a'' c4 /\
    paired a'' b'' /\ paired b'' a''.
Proof.
  intros [SA SB [NA NB] [EA EB] [IA IB] TA TB [WA WB] (TT & UA & UB)] Ht0 Ht Ht4 Hc3 Hc4 Hz.
  set (sec := shared (ourTempPrivKey a) (herTempPubKey a) None).
  assert (Esec : shared (ourTempPrivKey b) (herTempPubKey b) None = sec).
  { unfold sec. rewrite TA, TB. apply shared_comm. }
  set (a' := set_nextNonce (set_sharedSecret a sec) 5).
  set (rp4 := snd (ReplayProtector_checkNonce 4 ReplayProtector_empty)).
  set (rp6 := snd (ReplayProtector_checkNonce 6 ReplayProtector_empty)).
  set (b' := final_state b 4 t3 rp4).
  assert (SA' : session_ok a').
  { apply (set_shared_ok (set_nextNonce a 5)); [apply next_ok; try done; lia|by eexists _, _]. }
  destruct (final_state_ok b 4 t3 rp4 SB ltac:(lia) ltac:(lia)) as [SB' NB'].
  fold b' in SB', NB'. rewrite NB in NB'. change (3 + 3) with 6 in NB'.
  set (b'' := set_nextNonce b' 7).
  assert (SB'' : session_ok b'') by (apply next_ok; try done; lia).
  set (a'' := final_state a' 6 t4 rp6).
  destruct (final_state_ok a' 6 t4 rp6 SA' ltac:(by vm_compute) ltac:(by vm_compute)) as [SA'' NA''].
  fold a'' in SA'', NA''. change (nextNonce a') with 5 in NA''.
  change (5 + 3) with 8 in NA''.
  assert (Hwa : set_nextNonce (with_secret a) (nextNonce a + 1) = a' /\
                sharedSecret (with_secret a) = sec).
  { unfold with_secret. by rewrite NA. }
  assert (Hwb : with_secret b' = b') by (unfold with_secret; by rewrite NB').
  assert (Eb' : sharedSecret b' = sec) by exact Esec.
  assert (Za : Bits_isZero (sharedSecret a'') = false) by exact Hz.
  assert (Zb : Bits_isZero (sharedSecret b'') = false) by (change (Bits_isZero (sharedSecret b') = false); by rewrite Eb').
  exists a', a'', b', b'', (data_packet 4 sec true c3), (data_packet 6 sec false c4). split_and!.
  - pose proof (sends_data a caa t3 (fst rands) (snd rands) c3 SA ltac:(lia)
      ltac:(apply fresh_soon; lia) Hc3) as H. destruct Hwa as [Hw1 Hw2].
    by rewrite Hw1, Hw2, NA, IA in H.
  - apply receives_final; try done; [lia|rewrite seal_length; lia| |by rewrite WB].
    rewrite Esec, IB. apply unseal_seal.
  - pose proof (sends_data b' cab t4 (fst rands) (snd rands) c4 SB' ltac:(lia)) as H.
    rewrite Hwb, NB', Eb' in H. change (isInitiator b') with (isInitiator b) in H.
    rewrite IB in H. apply H; [|done]. apply fresh_soon; cbn; unfold u32; rewrite ?Z.mod_small; lia.
  - apply receives_final; try done; [rewrite seal_length; lia| |by cbn; rewrite WA].
    change (isInitiator a') with (isInitiator a). rewrite IA. apply unseal_seal.
  - split; try done; [by cbn; rewrite IA, IB|].
    eexists 5, []. rewrite NA''. split; [by apply rp_inv_start|]. split; [lia|done].
  - split; try done; [by cbn; rewrite IA, IB|].
    eexists 7, []. split; [by apply rp_inv_start|]. done.
Qed.

(** [C4] The handshake completes and the connection works.  Two sessions in their
    initial state, each configured with the other's public key and each
    accepting the other's credentials, exchange a hello, a key and one data
    packet in each direction within ten seconds (the setup timeout).  Their
    temporary private and public keys are not zero, nor is the secret which the
    library derives from them: the code refuses a zero temporary key as a forgery and
    stops at a zero secret.  Every packet is accepted and delivers exactly the
    content which was passed to [CryptoAuth_encrypt]; at the end both are
    established with the same secret and opposite roles, which is all that
    [paired_delivers_all] needs to deliver any stream of further packets in either
    direction and to refuse second copies. *)
Theorem handshake_completes caA caB sA sB t0 t1 t2 t3 t4 r12A hnA tmpA authA r12B hnB tmpB authB
  phA phB rands c1 c2 c3 c4 :
  ca_publicKey caA = scalarmult_base (ca_privateKey caA) ->
  ca_publicKey caB = scalarmult_base (ca_privateKey caB) ->
  initial_session sA (ca_publicKey caB) t0 -> initial_session sB (ca_publicKey caA) t0 ->
  length r12A = 12%nat /\ length hnA = 24%nat /\ length r12B = 12%nat /\ length hnB = 24%nat ->
  Bits_isZero tmpA = false -> Bits_isZero tmpB = false ->
  Bits_isZero (scalarmult_base tmpA) = false -> Bits_isZero (scalarmult_base tmpB) = false ->
  auth_of sA r12A = Ret (authA, phA) -> handshake_auth sB caB authA = inr phA ->
  auth_of sB r12B = Ret (authB, phB) -> handshake_auth sA caA authB = inr phB ->
  Bits_isZero (snd (beforenm (scalarmult_base tmpB) tmpA)) = false ->
  0 <= t0 <= t1 /\ t1 <= t2 /\ t2 <= t3 /\ t3 <= t4 < t0 + 10 /\ t4 < 2 ^ 32 ->
  0 < len c3 -> 0 < len c4 ->
  exists sA1 sA2 sA3 sA4 sB1 sB2 sB3 sB4 p1 p2 p3 p4,
    sends sA caA t1 (r12A ++ hnA) tmpA c1 sA1 p1 /\ receives sB caB t1 p1 sB1 c1 /\
    sends sB1 caB t2 (r12B ++ hnB) tmpB c2 sB2 p2 /\ receives sA1 caA t2 p2 sA2 c2 /\
    sends sA2 caA t3 (fst rands) (snd rands) c3 sA3 p3 /\ receives sB2 caB t3 p3 sB3 c3 /\
    sends sB3 caB t4 (fst rands) (snd rands) c4 sB4 p4 /\ receives sA3 caA t4 p4 sA4 c4 /\
    paired sA4 sB4 /\ paired sB4 sA4.
Proof.
  intros H1 H2 H3 H4 H5 H6 H7 H8 H9 H10 H11 H12 H13 Hnz Ht Hc3 Hc4.
  destruct (handshake_keys caA caB sA sB t0 t1 t2 t3 t4 r12A hnA tmpA authA r12B hnB tmpB authB phA phB
    c1 c2) as (sA1 & sB1 & sA2 & sB2 & p1 & p2 & E1 & E2 & E3 & E4 & Hk & EA & EB); try done.
  destruct (keyed_data sA2 sB2 caA caB t0 t3 t4 rands c3 c4 Hk)
    as (sA3 & sA4 & sB3 & sB4 & p3 & p4 & E5 & E6 & E7 & E8 & E9); try done; try lia.
  { by rewrite (ky_temp_a _ _ _ Hk), EA, EB. }
  by exists sA1, sA2, sA3, sA4, sB1, sB2, sB3, sB4, p1, p2, p3, p4.
Qed.

(** [C7] Over an established pair of sessions any stream of non-empty packets is
    delivered: each packet the sender produces is accepted by the receiver with
    the content that was sent, and when a second copy of it arrives the copy is
    refused as a replay without disturbing what follows. *)
Theorem established_stream caa cab now now' rands cs a b :
  paired a b -> nextNonce a + len cs <= 0xfffffff0 -> fresh a now ->
  Forall (fun c => 0 < len c) cs -> delivers_all a b caa cab now now' rands cs.
Proof. apply paired_delivers_all. Qed.
End Protocol.

(** ** Authentication *)

Section Authentication.
Context {N : Nacl} {L : NaclLaws N}.

Record user_ok (u : User) : Prop := {
  uo_pass : length (passwordHash u) = 8%nat;
  uo_name : length (userNameHash u) = 8%nat;
  uo_ip6 : length (restrictedToip6 u) = 16%nat;
}.

(** The challenge names the user by its password or by its login. *)
Definition names_user (auth : list Z) (u : User) : Prop :=
  get auth 0 = 1 /\ take 8 auth = passwordHash u \/
  get auth 0 = 2 /\ take 8 auth = userNameHash u.

#[export] Instance names_user_dec auth u : Decision (names_user auth u).
Proof. unfold names_user. apply _. Defined.

(** The user may connect with this key. *)
Definition ip6_allowed (u : User) (herKey : list Z) : Prop :=
  get (restrictedToip6 u) 0 <> 0 ->
  snd (AddressCalc_addressForPublicKey herKey) = restrictedToip6 u.

Lemma user_match auth u :
  length auth = 12%nat -> user_ok u ->
  (get auth 0 =? 1) && (memcmp (take 8 auth) (passwordHash u) =? 0)
  || (get auth 0 =? 2) && (memcmp (take 8 auth) (userNameHash u) =? 0)
  = bool_decide (names_user auth u).
Proof.
  intros Ha [H1 H2 _]. assert (length (take 8 auth) = 8%nat) by (rewrite length_take; lia).
  rewrite !memcmp_zero_iff by lia. unfold names_user. symmetry.
  destruct (Z.eqb_spec (get auth 0) 1), (Z.eqb_spec (get auth 0) 2); cbn [andb orb];
    repeat case_bool_decide; tauto.
Qed.

Lemma getAuth_loop_find auth us :
  length auth = 12%nat -> Forall user_ok us ->
  getAuth_loop auth us = snd <$> list_find (names_user auth) us.
Proof.
  intros Ha. induction 1 as [|u us Hu Hus IH]; cbn [getAuth_loop list_find]; [done|].
  pose proof (user_match auth u Ha Hu) as Hm.
  destruct ((get auth 0 =? 1) && _); cbn [orb] in Hm.
  { symmetry in Hm. apply bool_decide_eq_true in Hm. by rewrite decide_True. }
  destruct ((get auth 0 =? 2) && _).
  { symmetry in Hm. apply bool_decide_eq_true in Hm. by rewrite decide_True. }
  symmetry in Hm. apply bool_decide_eq_false in Hm. rewrite decide_False by done.
  rewrite IH. by destruct (list_find _ us) as [[]|].
Qed.

Lemma getAuth_find auth ca :
  length auth = 12%nat -> Forall user_ok (users ca) ->
  getAuth auth ca = snd <$> list_find (names_user auth) (users ca).
Proof.
  intros Ha Hus. unfold getAuth. rewrite getAuth_loop_find by done.
  destruct (Z.eqb_spec (get auth 0) 0) as [E|]; [|done].
  destruct (list_find _ _) as [[i u]|] eqn:Ef; [|done].
  apply list_find_Some in Ef as (_ & [[H _]|[H _]] & _); lia.
Qed.

Lemma address_length key : length (snd (AddressCalc_addressForPublicKey key)) = 16%nat.
Proof.
  unfold AddressCalc_addressForPublicKey. cbn [snd]. rewrite length_take, sha512_length. lia.
Qed.

(** What [handshake_auth] decides. *)
Lemma handshake_auth_spec s ca auth ph :
  length auth = 12%nat -> Forall user_ok (users ca) ->
  handshake_auth s ca auth = inr ph ->
  match ph with
  | None => requireAuth s = false /\ get auth 0 = 0
  | Some h => exists u, u ∈ users ca /\ h = user_secret u /\ names_user auth u /\
                ip6_allowed u (herPublicKey s)
  end.
Proof.
  intros Ha Hus. unfold handshake_auth. rewrite getAuth_find by done.
  destruct (list_find _ _) as [[i u]|] eqn:Ef; cbn [fmap option_fmap option_map snd].
  - apply list_find_Some in Ef as (Hi & Hn & _).
    assert (Hin : u ∈ users ca) by (eapply list_elem_of_lookup_2; done).
    rewrite Forall_forall in Hus. destruct (Hus u Hin) as [_ _ H16].
    rewrite bool_decide_eq_false_2 by done. rewrite andb_false_r.
    destruct (_ && _) eqn:Er; [done|]. cbn [andb]. intros [= <-]. exists u. split_and!; try done.
    intros Hr. apply Z.eqb_neq in Hr. rewrite Hr in Er. unfold ip6MatchesKey in Er.
    rewrite memcmp_zero_iff in Er by (by rewrite H16, address_length).
    cbn in Er. apply negb_false_iff, bool_decide_eq_true in Er. done.
  - rewrite bool_decide_eq_true_2 by done. cbn [andb]. rewrite andb_true_r.
    destruct (requireAuth s); [done|]. destruct (Z.eqb_spec (get auth 0) 0); [|done].
    by intros [= <-].
Qed.

(** [C5] Only authorised peers get through.  If [CryptoAuth_decrypt] accepts a
    handshake packet, it comes from the session's permanent key and it was
    opened with a secret that involves the private key and the password of an
    authorised user: the user is in the list, the challenge names it by its
    password or its login, and the peer's address is the one the user is
    restricted to, if any.  Without a password it is accepted only if the session
    does not require one and the packet claims none. *)
Theorem accepted_handshake_authorised s ca m pre n4 auth hn pub body post now m' s' :
  session_ok s -> Forall user_ok (users ca) -> wire_ok m -> 12 <= len pre ->
  msg_view m pre (n4 ++ auth ++ hn ++ pub ++ body) post ->
  length n4 = 4%nat -> bytes n4 -> be_val n4 < 4 -> length auth = 12%nat ->
  length hn = 24%nat -> length pub = 32%nat -> 48 <= len body ->
  CryptoAuth_decrypt s ca m now = Ret (m', s', DecryptErr_NONE) ->
  herPublicKey s = pub /\
  exists ph p,
    unseal hn (recv_secret s ca (be_val n4) ph) body = Some p /\ msg_content m' = drop 32 p /\
    match ph with
    | None => requireAuth s = false /\ get auth 0 = 0
    | Some h => exists u, u ∈ users ca /\ h = user_secret u /\ names_user auth u /\
                  ip6_allowed u (herPublicKey s)
    end.
Proof.
  intros Hs Hus Hw Hp Hv H4 Hby Hn H12 H24 H32 Hb Hd.
  destruct (decrypt_dispatch s ca m pre n4 _ post now Hs ltac:(lia) Hw Hv)
    as (m1 & m2 & _ & Hv2 & E); try done; [rewrite !length_app; lia|]. rewrite E in Hd. clear E. cbv zeta in Hd.
  destruct (is_handshake s (be_val n4)); [|zdecide_in (be_val n4 <? 4) Hd; done].
  pose proof (be_val_bound n4 Hby) as [Hn0 _].
  pose proof (decryptHandshake_view s ca (be_val n4) m2 pre n4 auth hn pub body post Hs
    ltac:(lia) Hv2 H4 H12 H24 H32 Hb) as Hview.
  unfold hs_verdict in Hview. case_bool_decide as Hk; cbn [negb] in Hview.
  2: { destruct Hview as (x & E). rewrite E in Hd. congruence. }
  split; [done|]. destruct (handshake_auth s ca auth) as [e|ph] eqn:Hau.
  { destruct Hview as (x & E). rewrite E in Hd. injection Hd as _ _ ->.
    exfalso. revert Hau. unfold handshake_auth. repeat case_match; congruence. }
  exists ph. pose proof (handshake_auth_spec s ca auth ph H12 Hus Hau) as Hspec.
  destruct (_ && _); [destruct Hview as (x & E); rewrite E in Hd; congruence|].
  destruct (unseal _ _ _) as [p|]; [|destruct Hview as (x & E); rewrite E in Hd; congruence].
  destruct (Bits_isZero _); [destruct Hview as (x & E); rewrite E in Hd; congruence|].
  destruct Hview as (x & pre' & E & Hvx). exists p. split; [done|]. split; [|done].
  rewrite E in Hd. destruct (handshake_step _ _ _ _ _) as [[s1 e1]|]; [|done].
  cbn [mbind Er_bind] in Hd. injection Hd as <- _ _. by apply msg_view_content in Hvx.
Qed.

(** ** Users *)

Lemma addUser_ret pass log ip ca :
  exists log' ac1 ac2,
    log' = match log with Some l => l | None => anon_login (length (users ca)) end /\
    hashPassword None pass 1 = Ret (sha256 pass, ac1) /\
    hashPassword (Some log') pass 2 = Ret (sha256 pass, ac2) /\
    length ac1 = 12%nat /\ length ac2 = 12%nat /\ get ac1 0 = 1 /\ get ac2 0 = 2 /\
    CryptoAuth_addUser_ipv6 pass log ip ca =
      if existsb (fun u => (memcmp (sha256 pass) (user_secret u) =? 0)
                           && bool_decide (log' = user_login u)) (users ca)
      then Ret (CryptoAuth_addUser_DUPLICATE, ca)
      else Ret (0, {| ca_publicKey := ca_publicKey ca; ca_privateKey := ca_privateKey ca;
        users := users ca ++
          [{| passwordHash := take 8 ac1; userNameHash := take 8 ac2; user_secret := sha256 pass;
              user_login := log';
              restrictedToip6 := match ip with Some ip => take 16 ip | None => zeros 16 end |}] |}).
Proof.
  set (log' := match log with Some l => l | None => anon_login (length (users ca)) end).
  destruct (hashPassword_ret None pass 1) as (ac1 & E1 & L1 & G1); [by left|].
  destruct (hashPassword_ret (Some log') pass 2) as (ac2 & E2 & L2 & G2); [by right|].
  exists log', ac1, ac2. split_and!; try done.
  unfold CryptoAuth_addUser_ipv6. fold log'. by rewrite E2, E1.
Qed.

(** Which sessions send the credentials of a user. *)
Definition has_credentials (s : Session) (pass : list Z) (log : option (list Z)) : Prop :=
  password s = Some pass /\
  (authType s = 1 \/ authType s = 2 /\ login s = log /\ log <> None).

(** Adding a user authorises the peers which have its credentials: after
    [CryptoAuth_addUser_ipv6] the challenge which a session with this password
    (and login) sends is accepted by every session of the context whose peer
    satisfies the address restriction, and stands for the same secret on both
    sides, unless the hash of an earlier user coincides. *)
Theorem addUser_authorises s r12 auth ph pass log ip ca ca' peer :
  has_credentials s pass log -> Forall user_ok (users ca) ->
  match ip with Some ip => length ip = 16%nat /\
    (get ip 0 <> 0 -> snd (AddressCalc_addressForPublicKey (herPublicKey peer)) = ip)
  | None => True end ->
  CryptoAuth_addUser_ipv6 pass log ip ca = Ret (0, ca') ->
  auth_of s r12 = Ret (auth, ph) -> Forall (fun u => ~ names_user auth u) (users ca) ->
  ph = Some (sha256 pass) /\ handshake_auth peer ca' auth = inr ph /\ Forall user_ok (users ca').
Proof.
  intros [Hpw Hty] Hus Hip Hadd Hau Hfree.
  destruct (addUser_ret pass log ip ca) as (log' & ac1 & ac2 & Elog & E1 & E2 & L1 & L2 & G1 & G2 & E).
  rewrite E in Hadd. destruct (existsb _ _); [by injection Hadd|]. injection Hadd as <-.
  cbn [users]. set (u := mkUser _ _ _ _ _).
  assert (Hu : user_ok u).
  { split; cbn [u passwordHash userNameHash restrictedToip6]; [rewrite length_take; lia..|].
    destruct ip as [ip|]; [|done]. rewrite length_take. lia. }
  assert (Hauth : (auth = ac1 \/ auth = ac2) /\ ph = Some (sha256 pass)).
  { unfold auth_of in Hau. rewrite Hpw in Hau. destruct Hty as [Ht|(Ht & Hl & Hne)]; rewrite Ht in Hau.
    - change (u8 1) with 1 in Hau. change (hashPassword (login s) pass 1) with
        (hashPassword None pass 1) in Hau. rewrite E1 in Hau. cbn in Hau.
      injection Hau as <- <-. tauto.
    - change (u8 2) with 2 in Hau. rewrite Hl in Hau. destruct log as [l|]; [|done]. subst log'.
      rewrite E2 in Hau. cbn in Hau. injection Hau as <- <-. tauto. }
  destruct Hauth as [Hauth ->].
  assert (Hnames : names_user auth u) by (destruct Hauth; subst auth; [by left|by right]).
  assert (Hlen : length auth = 12%nat) by (by destruct Hauth; subst auth).
  split; [done|]. assert (Hus' : Forall user_ok (users ca ++ [u])) by (apply Forall_app; auto).
  split; [|done]. unfold handshake_auth. rewrite getAuth_find by done. cbn [users].
  assert (Hfind : list_find (names_user auth) (users ca ++ [u]) = Some (length (users ca), u)).
  { rewrite list_find_app_r by (by apply list_find_None). cbn. by rewrite decide_True. }
  rewrite Hfind. cbn [fmap option_fmap option_map snd].
  rewrite (bool_decide_eq_false_2 (Some u = None)) by done.
  assert (Hr : negb (get (restrictedToip6 u) 0 =? 0)
    && negb (ip6MatchesKey (restrictedToip6 u) (herPublicKey peer)) = false).
  { cbn [u restrictedToip6]. destruct ip as [ip|]; [|done]. destruct Hip as [Hl Hip].
    rewrite take_ge by lia. destruct (Z.eqb_spec (get ip 0) 0); [done|]. cbn [negb andb].
    unfold ip6MatchesKey. rewrite Hip by done. by rewrite memcmp_refl. }
  rewrite Hr. by rewrite andb_false_r.
Qed.

(** ** Peculiarities *)

(** While the handshake is not finished, the replay window is moved to the
    nonce of any data packet, even if the packet is not authentic: one forged
    packet with a high nonce is refused, but it makes the session refuse the next
    authentic one as a replay. *)
Theorem forged_packet_moves_window s ca now n0 sealed0 n sealed c :
  session_ok s -> established s = false -> 3 <= nextNonce s ->
  4 <= n <= n0 -> fits 32 (n0 + 1) -> 16 <= len sealed0 -> 16 <= len sealed ->
  let secret := shared (ourTempPrivKey s) (herTempPubKey s) None in
  let as_receiver := negb (isInitiator s) in
  unseal (nonceAs n0 as_receiver) secret sealed0 = None ->
  unseal (nonceAs n as_receiver) secret sealed = Some c ->
  exists s1 s2,
    refuses s ca now (be_bytes 4 n0 ++ sealed0) s1 DecryptErr_DECRYPT /\
    refuses s1 ca now (be_bytes 4 n ++ sealed) s2 DecryptErr_REPLAY.
Proof.
  intros Hs He H3 Hn Hf Hl0 Hl. cbv zeta. intros Hu0 Hu. unfold fits in Hf.
  assert (Hgen : forall s k z e s', session_ok s -> established s = false -> 3 <= nextNonce s ->
    4 <= k < 2 ^ 32 -> 16 <= len z -> e <> DecryptErr_NONE ->
    (forall m pre r post, msg_view m (pre ++ r) z post -> length r = 16%nat ->
      exists m', decryptMessage s k m (shared (ourTempPrivKey s) (herTempPubKey s) None)
        = Ret (m', s', e)) ->
    refuses s ca now (be_bytes 4 k ++ z) (start_window s' k) e).
  { clear - L. intros s k z e s' Hs He H3 Hk Hl Hne Hdec. split; [done|]. intros m pre post Hv Hw Hp.
    destruct (decrypt_dispatch s ca m pre (be_bytes 4 k) z post now) as (m1 & m2 & Hv1 & _ & ->);
      try done; [by intros _; apply agreed_idle|apply be_bytes_bytes|]. cbv zeta. rewrite be_val_nonce by (unfold fits; lia).
    unfold is_handshake. zdecide (k <? 4). cbn [andb]. rewrite He.
    assert (Hp' : 16 <= len (pre ++ be_bytes 4 k)) by (rewrite length_app, length_be_bytes; lia).
    rewrite (decrypt_final_step_view s k m1 _ z post now Hs Hv1 Hp' Hl H3).
    destruct (list_split_at (len pre - 12) pre ltac:(lia)) as (p1 & p2 & -> & Hp1).
    rewrite length_app in Hp1. rewrite <- app_assoc in Hv1.
    destruct (Hdec _ _ _ _ Hv1) as (m' & ->); [rewrite length_app, length_be_bytes; lia|].
    exists m'. cbn [mbind Er_bind]. by rewrite decide_False. }
  exists (start_window s n0).
  eexists (start_window (set_replayProtector (start_window s n0) _) n). split.
  - apply Hgen; try done; [lia|]. intros m pre r post Hv Hr.
    pose proof (decryptMessage_view s n0 m pre r sealed0 post
      (shared (ourTempPrivKey s) (herTempPubKey s) None) Hs Hv Hr Hl0) as Hd.
    by rewrite Hu0 in Hd.
  - apply Hgen; try done; [by apply set_replay_ok|lia|]. intros m pre r post Hv Hr.
    pose proof (decryptMessage_view (start_window s n0) n m pre r sealed post
      (shared (ourTempPrivKey s) (herTempPubKey s) None)
      (set_replay_ok _ _ Hs) Hv Hr Hl) as Hd.
    change (isInitiator (start_window s n0)) with (isInitiator s) in Hd. rewrite Hu in Hd.
    destruct Hd as (m' & pre' & _ & Hd). exists m'. etransitivity; [exact Hd|]. clear Hd.
    unfold start_window at 1. cbn [replayProtector set_replayProtector].
    unfold ReplayProtector_checkNonce. cbn [baseOffset]. unfold u32.
    rewrite (Z.mod_small (n0 + 1)) by lia. by zdecide (n <? n0 + 1).
Qed.

(** [requireAuth] also applies to the answer to our own hello: a session
    which began the connection refuses a key packet that carries no
    authentication. *)
Theorem requireAuth_refuses_key s ca now auth hn body :
  session_ok s -> isInitiator s = true -> requireAuth s = true -> established s = false ->
  length auth = 12%nat -> length hn = 24%nat -> 48 <= len body -> get auth 0 = 0 ->
  refuses s ca now (hs_packet 2 auth hn (herPublicKey s) body) s DecryptErr_AUTH_REQUIRED.
Proof.
  intros Hs Hi Hr He H12 H24 Hb Hz. split; [done|]. intros m pre post Hv Hw Hp. unfold hs_packet in Hv.
  destruct (decrypt_dispatch s ca m pre (be_bytes 4 2) _ post now Hs (fun _ => agreed_idle s He) Hw Hv)
    as (m1 & m2 & _ & Hv2 & ->); [done|apply be_bytes_bytes|rewrite !length_app; lia|done|].
  cbv zeta. rewrite be_val_nonce by done. unfold is_handshake. rewrite He.
  pose proof (decryptHandshake_view s ca 2 m2 pre _ auth hn _ body post Hs ltac:(lia) Hv2
    eq_refl H12 H24 (so_herlen s Hs) Hb) as Hd.
  unfold hs_verdict, handshake_auth, getAuth in Hd.
  rewrite (bool_decide_eq_true_2 (herPublicKey s = herPublicKey s)) in Hd by done.
  rewrite Hz, Hr in Hd. done.
Qed.

(** Clearing the credentials of a session which has none announces a password
    (type 1) that is not there. *)
Lemma setAuth_null_announces s :
  password s = None -> authType s = 0 -> authType (CryptoAuth_setAuth None None s) = 1.
Proof. intros H1 H2. unfold CryptoAuth_setAuth. by rewrite H1, H2. Qed.

(** At the highest nonce a repeated key packet hits the assertion that nonces
    never go backward. *)
Lemma repeat_key_aborts_at_max s ca :
  session_ok s -> established s = false -> nextNonce s = 2 ^ 32 - 1 ->
  handshake_step s ca 3 4 (herTempPubKey s) = Abort "Assertion failure".
Proof.
  intros _ He Hn. destruct s. cbn in He, Hn. subst. unfold handshake_step, handshake_invalid, handshake_key.
  by rewrite memcmp_refl.
Qed.
End Authentication.

(** ** Two concrete parties

    Alice connects to Bob with a password; the cryptography is [toy_nacl]. *)

#[local] Existing Instance toy_nacl.
#[local] Existing Instance toy_laws.

Definition alice_ca : CryptoAuth := CryptoAuth_new (Some (replicate 32 2)) [].
Definition bob_ca : CryptoAuth :=
  {| ca_publicKey := replicate 32 4; ca_privateKey := replicate 32 4;
     users := match CryptoAuth_addUser_ipv6 [112; 119] None None
                      (CryptoAuth_new (Some (replicate 32 4)) []) with
              | Ret (_, ca) => users ca
              | Abort _ => []
              end |}.
Definition alice : Session :=
  CryptoAuth_setAuth (Some [112; 119]) None (CryptoAuth_newSession (replicate 32 4) false 1000).
Definition bob : Session := CryptoAuth_newSession (replicate 32 2) true 1000.
Definition alice_auth : list Z := 1 :: 119 :: replicate 6 3 ++ [0; 0; 0; 0].
Definition bob_auth : list Z := 0 :: replicate 9 8 ++ [0; 0].

Lemma toy_nonzero pk sk : Bits_isZero (snd (beforenm pk sk)) = false.
Proof. done. Qed.

Lemma alice_initial : initial_session alice (ca_publicKey bob_ca) 1000.
Proof.
  split; try done. unfold alice.
  by apply (proj1 (setAuth_ok (Some [112; 119]) None _
    (newSession_ok (replicate 32 4) false 1000 eq_refl eq_refl))).
Qed.

Lemma bob_initial : initial_session bob (ca_publicKey alice_ca) 1000.
Proof. split; try done. by apply newSession_ok. Qed.

Lemma handshake_completes_witness :
  exists sA1 sA2 sA3 sA4 sB1 sB2 sB3 sB4 p1 p2 p3 p4,
    sends alice alice_ca 1001 (replicate 12 8 ++ replicate 24 7) (replicate 32 5) [1; 2] sA1 p1 /\
    receives bob bob_ca 1001 p1 sB1 [1; 2] /\
    sends sB1 bob_ca 1002 (replicate 12 8 ++ replicate 24 6) (replicate 32 9) [] sB2 p2 /\
    receives sA1 alice_ca 1002 p2 sA2 [] /\
    sends sA2 alice_ca 1003 [] [] [3; 4] sA3 p3 /\ receives sB2 bob_ca 1003 p3 sB3 [3; 4] /\
    sends sB3 bob_ca 1004 [] [] [5] sB4 p4 /\ receives sA3 alice_ca 1004 p4 sA4 [5] /\
    paired sA4 sB4 /\ paired sB4 sA4.
Proof.
  exact (handshake_completes alice_ca bob_ca alice bob 1000 1001 1002 1003 1004
    (replicate 12 8) (replicate 24 7) (replicate 32 5) alice_auth
    (replicate 12 8) (replicate 24 6) (replicate 32 9) bob_auth (Some (112 :: 119 :: replicate 30 3)) None
    ([], []) [1; 2] [] [3; 4] [5] eq_refl eq_refl alice_initial bob_initial
    (conj eq_refl (conj eq_refl (conj eq_refl eq_refl))) eq_refl eq_refl eq_refl eq_refl
    ltac:(by vm_compute) ltac:(by vm_compute) ltac:(by vm_compute) ltac:(by vm_compute) eq_refl
    ltac:(lia) ltac:(done) ltac:(done)).
Defined.

(** The ends of a running connection. *)
Definition running (initiator : bool) (herKey : Z) : Session :=
  let s := set_isInitiator (CryptoAuth_newSession (replicate 32 herKey) false 1000) initiator in
  let s := set_tempKeys (set_herTempPubKey s (replicate 32 5)) (replicate 32 6) (replicate 32 6) in
  set_nextNonce (set_established (set_sharedSecret s (9 :: replicate 31 3)) true) 8.

Lemma running_ok initiator herKey : 0 < herKey -> session_ok (running initiator herKey).
Proof.
  intros Hk. split; cbn; try done; unfold knowHerKey, Bits_isZero; cbn.
  - by zdecide (herKey =? 0).
  - intros _. by exists (replicate 32 5), (replicate 32 6).
Qed.

Lemma running_paired : paired (running true 4) (running false 2).
Proof.
  split; try done; try (by apply running_ok).
  exists 0, []. split; [apply rp_inv_empty|]. by split.
Qed.

Lemma running_fresh initiator herKey : fresh (running initiator herKey) 1003.
Proof. by apply fresh_soon. Qed.

Lemma established_stream_witness :
  delivers_all (running true 4) (running false 2) alice_ca bob_ca 1003 1004 ([], []) [[1; 2]; [3]; [4]].
Proof.
  refine (established_stream alice_ca bob_ca 1003 1004 ([], []) [[1; 2]; [3]; [4]] _ _
    running_paired _ (running_fresh _ _) _).
  - cbn. lia.
  - repeat constructor.
Defined.

(** A buffer with 124 bytes of room, and one with the bytes of a packet. *)
Definition buffer (room : nat) (c : list Z) : Message :=
  {| msg_length := len c; msg_padding := Z.of_nat room; msg_bytes := Z.of_nat room;
     msg_capacity := len c; msg_associatedFd := 0; msg_addr := 4096;
     msg_mem := replicate room 0 ++ c |}.

Lemma buffer_view room c :
  Z.of_nat room + len c < 2 ^ 31 -> msg_view (buffer room c) (replicate room 0) c [].
Proof.
  intros Hb.
  exists [], []. unfold buffer.
  cbn [msg_mem msg_bytes msg_padding msg_length msg_capacity length app].
  rewrite length_replicate, !app_nil_r. repeat split; lia.
Qed.

Definition hello_body : list Z :=
  seal (replicate 24 7) (shared (replicate 32 4) (replicate 32 2) (Some (112 :: 119 :: replicate 30 3)))
    (replicate 32 5 ++ [1; 2; 3; 4]).
Definition hello_msg : Message :=
  buffer 124 (be_bytes 4 0 ++ alice_auth ++ replicate 24 7 ++ replicate 32 2 ++ hello_body).


Lemma bob_users_ok : Forall user_ok (users bob_ca).
Proof. by repeat constructor. Qed.

Definition accepted : Message * Session :=
  match CryptoAuth_decrypt bob bob_ca hello_msg 1001 with
  | Ret (m, s, _) => (m, s)
  | Abort _ => (hello_msg, bob)
  end.

Lemma accepted_handshake_authorised_witness :
  herPublicKey bob = replicate 32 2 /\
  exists ph p,
    unseal (replicate 24 7) (recv_secret bob bob_ca (be_val (be_bytes 4 0)) ph) hello_body = Some p /\
    msg_content (fst accepted) = drop 32 p /\
    match ph with
    | None => requireAuth bob = false /\ get alice_auth 0 = 0
    | Some h => exists u, u ∈ users bob_ca /\ h = user_secret u /\ names_user alice_auth u /\
                  ip6_allowed u (herPublicKey bob)
    end.
Proof.
  apply (accepted_handshake_authorised bob bob_ca hello_msg (replicate 124 0) (be_bytes 4 0)
    alice_auth (replicate 24 7) (replicate 32 2) hello_body [] 1001 (fst accepted) (snd accepted));
    try done.
  - apply bob_initial.
  - apply bob_users_ok.
  - by apply buffer_view.
  - apply be_bytes_bytes.
Defined.

Lemma addUser_authorises_witness :
  Some (112 :: 119 :: replicate 30 3) = Some (sha256 [112; 119]) /\
  handshake_auth bob bob_ca alice_auth = inr (Some (112 :: 119 :: replicate 30 3)) /\
  Forall user_ok (users bob_ca).
Proof.
  apply (addUser_authorises alice (replicate 12 8) alice_auth _ [112; 119] None None
    (CryptoAuth_new (Some (replicate 32 4)) []) bob_ca bob); try done.
  split; [done|by left].
Defined.

(** Bob after the key packet: he waits for the first data packet. *)
Definition waiting : Session :=
  let s := set_herTempPubKey bob (replicate 32 5) in
  set_nextNonce (set_tempKeys s (replicate 32 6) (replicate 32 6)) 3.

Lemma forged_packet_moves_window_witness :
  exists s1 s2,
    refuses waiting bob_ca 1003 (be_bytes 4 1000 ++ zeros 20) s1 DecryptErr_DECRYPT /\
    refuses s1 bob_ca 1003
      (be_bytes 4 4 ++ seal (nonceAs 4 true) (shared (replicate 32 6) (replicate 32 5) None) [1; 2])
      s2 DecryptErr_REPLAY.
Proof.
  apply (forged_packet_moves_window waiting bob_ca 1003 1000 (zeros 20) 4 _ [1; 2]); try done.
Defined.

(** Alice after her hello, requiring authentication. *)
Definition hello_sent : Session :=
  set_nextNonce (set_isInitiator (set_tempKeys bob (replicate 32 6) (replicate 32 6)) true) 1.

Lemma hello_sent_ok : session_ok hello_sent.
Proof. by split. Qed.

Lemma requireAuth_refuses_key_witness :
  refuses hello_sent bob_ca 1003
    (hs_packet 2 bob_auth (replicate 24 7) (herPublicKey hello_sent) (zeros 48))
    hello_sent DecryptErr_AUTH_REQUIRED.
Proof.
  by apply (requireAuth_refuses_key hello_sent bob_ca 1003 bob_auth (replicate 24 7) (zeros 48)
    hello_sent_ok).
Defined.
