(* ===== verification/CryptoFrame.v ===== *)
(** * What CryptoAuth leaves alone

    Callers of [CryptoAuth_encrypt] and [CryptoAuth_decrypt] rely on facts which are
    not about cryptography: where in the packet's allocation the result begins
    ([decrypt_pos], [encrypt_pos]) and that the peer's identity in the session does
    not change ([decrypt_peer], [encrypt_peer]).  They hold for every outcome and
    every session, by inversion of the code. *)
From S2P Require Import Prelude Bits Message Checksum MsgAt Headers ReplayProtector Nacl Key CryptoAuth.

Section Frame.
Context {N : Nacl}.

Ltac er_cases :=
  repeat (er_inv; match goal with
  | H : (match ?x with _ => _ end) = Ret _ |- _ => let E := fresh "E" in destruct x eqn:E
  | H : (let '(_, _) := ?x in _) = Ret _ |- _ => let E := fresh "E" in destruct x eqn:E
  | x : _ * _ |- _ => destruct x
  end); er_inv; simplify_eq.

(** ** Positions *)

Lemma decryptRndNonce_pos nonce m secret st m' A s e b : pos m A s e b -> s <= b ->
  decryptRndNonce nonce m secret = Ret (st, m') ->
  if st =? 0 then pos m' A s e (b + 16) /\ b + 16 <= e else pos m' A s e b.
Proof.
  intros Hm Hs. unfold decryptRndNonce. destruct (_ <? 16); [by intros [= <- <-]|]. intros H. er_inv.
  destruct (open_afternm _ _ _) as [status opened]. destruct (negb (status =? 0)); er_inv; [done|].
  eapply (pos_eshift_inv _ A s e b) in E0 as (Hp & He & _); [|by repeat apply pos_write].
  specialize (He ltac:(lia)).
  cbn [Z.eqb]. replace (b + 16) with (b - -16) by lia. by split.
Qed.

Lemma decryptMessage_pos se nonce m secret m' se' err A s e b : pos m A s e b -> s <= b ->
  decryptMessage se nonce m secret = Ret (m', se', err) ->
  exists b', pos m' A s e b' /\ b <= b' <= Z.max b e /\ (err = DecryptErr_NONE -> b' = b + 16).
Proof.
  intros Hm Hs. unfold decryptMessage, decrypt. intros H. er_inv. destruct x as [st m1].
  apply (decryptRndNonce_pos _ _ _ _ _ A s e b) in E; [|done..].
  destruct (st =? 0); cbn [negb] in H.
  - destruct E as [Hp He]. destruct (ReplayProtector_checkNonce _ _) as [ok rp].
    destruct ok; cbn [negb] in H; er_inv; exists (b + 16); (split; [done|]); split; [lia|done|lia|done].
  - er_inv. exists b. split; [done|]. split; [lia|done].
Qed.

Lemma handshake_open_pos m secret m' r A s e b : pos m A s e b -> s <= b ->
  handshake_open m secret = Ret (m', r) ->
  exists b', pos m' A s e b' /\ b <= b' <= e /\ (r <> inl DecryptErr_NONE) /\ (forall k, r = inr k -> b' = b + 120).
Proof.
  intros Hm Hs. unfold handshake_open. intros H. er_inv.
  apply (pos_eshift_inv _ A s e b) in E as (Hp & He & _); [|done]. specialize (He ltac:(by vm_compute)). change (b - (48 - CryptoHeader_SIZE)) with (b + 72) in *.
  destruct x0 as [st m1]. apply (decryptRndNonce_pos _ _ _ _ _ A s e (b + 72)) in E0; [|done|lia].
  destruct (st =? 0); cbn [negb] in H.
  - destruct E0 as [Hp1 He1]. destruct (Bits_isZero _); er_inv.
    + exists (b + 72 + 16). split; [done|]. split; [lia|]. by split.
    + apply (pos_eshift_inv _ A s e (b + 72 + 16)) in E as (Hp2 & He2 & _); [|done]. specialize (He2 ltac:(lia)).
      exists (b + 72 + 16 - -32). split; [done|]. split; [lia|]. split; [done|]. intros k _. lia.
  - er_inv. exists (b + 72). split; [by apply pos_write|]. split; [lia|]. by split.
Qed.

Lemma decryptHandshake_pos se ca nonce m m' se' err A s e b : pos m A s e b -> s <= b <= e ->
  decryptHandshake se ca nonce m = Ret (m', se', err) ->
  exists b', pos m' A s e b' /\ b <= b' <= e /\ (err = DecryptErr_NONE -> b' = b + 120).
Proof.
  intros Hm Hs. unfold decryptHandshake.
  destruct (_ <? _); [intros H; er_inv; exists b; split; [done|]; split; [lia|done]|]. intros H. er_inv.
  destruct (negb _); [er_inv; exists b; split; [done|]; split; [lia|done]|]. er_inv.
  destruct (handshake_auth _ _ _) as [err0|ph] eqn:Eauth.
  { er_inv. exists b. split; [done|]. split; [lia|]. intros ->. exfalso. revert Eauth. unfold handshake_auth.
    by repeat case_match. }
  er_inv. destruct x1 as [err0|[secret next]].
  { er_inv. exists b. split; [done|]. split; [lia|]. intros ->. exfalso.
    match goal with H : handshake_secret _ _ _ _ = _ |- _ => revert H end. unfold handshake_secret. intros H. by er_cases. }
  er_inv. destruct x1 as [m1 r].
  match goal with H : handshake_open _ _ = _ |- _ => rename H into Eo end.
  apply (handshake_open_pos _ _ _ _ A s e b) in Eo as (b1 & Hp1 & Hb1 & Hne & Hr); [|done|lia].
  exists b1. destruct r as [err0|k]; er_inv; [|destruct x1; er_inv]; (split; [done|]); (split; [done|]).
  - congruence.
  - intros _. by apply (Hr k).
Qed.

Lemma decrypt_pos se ca m now m' se' err A s e b : pos m A s e b -> s <= b <= e ->
  CryptoAuth_decrypt se ca m now = Ret (m', se', err) ->
  exists b', pos m' A s e b' /\ b <= b' <= e /\
    (err = DecryptErr_NONE ->
     b' = b + if Endian_bigEndianToHost32 (le_val (msg_read m 0 4)) <? 4 then 120 else 20).
Proof.
  intros Hm Hs. unfold CryptoAuth_decrypt.
  destruct (_ <? 20); [intros H; er_inv; exists b; split; [done|]; split; [lia|done]|]. intros H. er_inv.
  apply (pos_eshift_inv _ A s e b) in E1 as (Hp & He & _); [|done]. specialize (He ltac:(lia)). replace (b - -4) with (b + 4) in * by lia.
  set (nonce := Endian_bigEndianToHost32 _) in *. change Nonce_FIRST_TRAFFIC_PACKET with 4 in *.
  assert (forall m1 se1 err1 sec, decryptMessage se nonce x1 sec = Ret (m1, se1, err1) -> 4 <= nonce ->
    exists b', pos m1 A s e b' /\ b <= b' <= e /\ (err1 = DecryptErr_NONE -> b' = b + if nonce <? 4 then 120 else 20))
    as Hrun.
  { intros m1 se1 err1 sec Ed Hn. eapply (decryptMessage_pos _ _ _ _ _ _ _ A s e (b + 4)) in Ed as (b' & Hb & Hle & Hnone);
      [|done|lia]. exists b'. split; [done|]. split; [lia|]. intros He'. rewrite (proj2 (Z.ltb_ge _ _)) by lia.
    specialize (Hnone He'). lia. }
  assert (forall m1, decryptHandshake se ca nonce m1 = Ret (m', se', err) -> Message_eshift x1 4 = Ret m1 -> nonce < 4 ->
    exists b', pos m' A s e b' /\ b <= b' <= e /\ (err = DecryptErr_NONE -> b' = b + if nonce <? 4 then 120 else 20))
    as Hhs.
  { intros m1 Ed Esh Hn. apply (pos_eshift_inv _ A s e (b + 4)) in Esh as (Hp1 & _); [|done].
    replace (b + 4 - 4) with b in Hp1 by lia.
    apply (decryptHandshake_pos _ _ _ _ _ _ _ A s e b) in Ed as (b' & Hb & Hle & Hnone); [|done|lia].
    exists b'. split; [done|]. split; [lia|]. rewrite (proj2 (Z.ltb_lt _ _)) by done. done. }
  destruct (negb (established se)) eqn:Eest; destruct (Z.geb_spec nonce 4) as [Hn|Hn].
  - unfold decrypt_final_step in H. destruct (_ <? CryptoAuth_State_SENT_KEY); er_inv.
    { exists (b + 4). split; [done|]. split; [lia|done]. }
    match goal with H : decryptMessage _ _ _ _ = Ret ?x |- _ => destruct x as [[m1 se1] err1]; rename H into Ed end.
    eapply Hrun in Ed as (b' & Hb & Hle & Hnone); [|done]. exists b'. case_decide; er_inv; eauto.
  - er_inv. by eapply Hhs.
  - er_inv. match goal with H : decryptMessage _ _ _ _ = Ret ?x |- _ => destruct x as [[m1 se1] err1]; rename H into Ed end.
    eapply Hrun in Ed as (b' & Hb & Hle & Hnone); [|done].
    exists b'. case_decide; er_inv; eauto.
  - destruct (nonce <=? Nonce_REPEAT_HELLO); er_inv; [by eapply Hhs|].
    exists (b + 4). split; [done|]. split; [lia|done].
Qed.

Lemma encryptRndNonce_pos nonce m secret m' A s e b : pos m A s e b ->
  encryptRndNonce nonce m secret = Ret m' -> pos m' A s e (b - 16).
Proof.
  intros Hm. unfold encryptRndNonce. intros H. er_inv.
  eapply (pos_eshift_inv _ A s e b) in H as (Hp & _); [done|]. by repeat apply pos_write.
Qed.

Lemma encryptHandshake_pos m se ca r36 r32 m' se' A s e b : pos m A s e b ->
  encryptHandshake m se ca r36 r32 = Ret (m', se') -> pos m' A s e (b - 120) /\ nextNonce se' < 4.
Proof.
  intros Hm. unfold encryptHandshake. intros H. er_inv. destruct x as [[m1 se1] ph]. er_inv.
  destruct x as [se2 secret]. er_inv.
  match goal with H : encryptHandshake_header _ _ _ _ _ = _ |- _ => rename H into Eh end.
  match goal with H : encryptHandshake_secret _ _ _ = _ |- _ => rename H into Es end.
  assert (pos m1 A s e (b - 120)) as Hm1.
  { unfold encryptHandshake_header in Eh. er_inv.
    match goal with H : Message_eshift m _ = _ |- _ => apply (pos_eshift_inv _ A s e b) in H as (Hp & _); [|done] end.
    match goal with H : match password se with _ => _ end = Ret ?y |- _ => rename H into Ep; destruct y as [m2 ph'] end.
    assert (pos m2 A s e (b - 120)) as Hm2.
    { destruct (password se); er_inv; [|by repeat apply pos_write].
      match goal with H : hashPassword _ _ _ = Ret ?y |- _ => destruct y end. er_inv. by repeat apply pos_write. }
    er_inv. by repeat apply pos_write. }
  split.
  - match goal with H : Message_eshift m1 _ = Ret ?y |- _ =>
      apply (pos_eshift_inv _ A s e (b - 120)) in H as (Hp1 & _); [|done] end.
    match goal with H : encryptRndNonce _ _ _ = _ |- _ => eapply encryptRndNonce_pos in H as Hp2; [|exact Hp1] end.
    match goal with H : Message_eshift _ (CryptoHeader_SIZE - 32 - 16) = _ |- _ =>
      eapply (pos_eshift_inv _ A s e) in H as (Hp3 & _); [|exact Hp2] end.
    unfold CryptoHeader_SIZE in Hp3. by replace (b - 120 - (32 - 120) - 16 - (120 - 32 - 16)) with (b - 120) in Hp3 by lia.
  - unfold encryptHandshake_secret in Es. destruct (_ <? _); er_inv; done.
Qed.

(** A second look at the clock does not change the state again. *)
Lemma resetIfTimeout_twice s now s1 s2 : resetIfTimeout s now = Ret s1 -> resetIfTimeout s1 now = Ret s2 ->
  nextNonce s2 = nextNonce s1.
Proof.
  intros H1. assert (s1 = s \/ nextNonce s1 = 0) as [->|H0].
  { unfold resetIfTimeout in H1. repeat (case_match; [er_inv; by left|]). er_inv. by right. }
  - rewrite H1. by intros [= ->].
  - unfold resetIfTimeout. intros H2. repeat (case_match; [er_inv; done|]). er_inv. by rewrite H0.
Qed.

Lemma encrypt_ready_pos se ca m r36 r32 m' se' A s e b : pos m A s e b -> 0 <= nextNonce se < 0xfffffff0 ->
  encrypt_ready se ca m r36 r32 = Ret (m', se') ->
  pos m' A s e (b - if nextNonce se <? 4 then 120 else 20) /\ (nextNonce se' <? 4) = (nextNonce se <? 4).
Proof.
  intros Hm Hn. unfold encrypt_ready. intros H'. er_inv. change CryptoAuth_State_RECEIVED_KEY with 4 in *.
  destruct (Z.ltb_spec (nextNonce se) 4) as [H4|H4].
  - apply (encryptHandshake_pos _ _ _ _ _ _ _ A s e b) in H' as [Hp Hn']; [|done]. split; [done|].
    by apply Z.ltb_lt.
  - er_inv.
    match goal with H : context [nextNonce se <=? 4] |- _ => rename H into Ek end.
    match goal with H : encrypt _ _ _ _ = Ret ?y |- _ => eapply encryptRndNonce_pos in H as Hp1; [|exact Hm] end.
    assert (nextNonce x0 = nextNonce se) as Hx.
    { destruct (nextNonce se <=? 4); er_inv; done. }
    match goal with H : Message_epush32be _ _ = Ret _ |- _ => rename H into Epush end.
    unfold Message_epush32be, Message_epush32h, Message_pushH, Message_epush in Epush. er_inv.
    match goal with H : Message_eshift _ _ = Ret _ |- _ => eapply (pos_eshift_inv _ A s e) in H as (Hp2 & _); [|exact Hp1] end.
    split.
    + replace (b - 20) with (b - 16 - i32 (Z.of_nat 4)) by (change (i32 (Z.of_nat 4)) with 4; lia). by apply pos_write.
    + cbn [nextNonce set_nextNonce]. rewrite Hx. unfold u32. rewrite Z.mod_small by lia. apply Z.ltb_ge. lia.
Qed.

Lemma encrypt_pos se ca m now r36 r32 m' se' A s e b : pos m A s e b -> s <= b ->
  (forall s1, resetIfTimeout se now = Ret s1 -> nextNonce s1 = nextNonce se) -> 0 <= nextNonce se < 0xfffffff0 ->
  CryptoAuth_encrypt se ca m now r36 r32 = Ret (m', se') ->
  pos m' A s e (b - if nextNonce se <? 4 then 120 else 20) /\ (nextNonce se' <? 4) = (nextNonce se <? 4).
Proof.
  intros Hm Hs Hfresh Hn. unfold CryptoAuth_encrypt. destruct (resetIfTimeout se now) as [s1|]; [|done].
  specialize (Hfresh s1 eq_refl). rewrite <- Hfresh in *. clear Hfresh se. rename s1 into se. cbn [mbind Er_bind].
  rewrite Z.geb_leb. destruct (Z.leb_spec 0xfffffff0 (nextNonce se)); [lia|]. by apply encrypt_ready_pos.
Qed.

(** Whatever state the session is in: a handshake header or the frame of a data
    packet. *)
Lemma encrypt_space se ca m now r36 r32 m' se' A s e b : pos m A s e b -> fits 32 (nextNonce se) ->
  CryptoAuth_encrypt se ca m now r36 r32 = Ret (m', se') -> exists k, pos m' A s e (b - k) /\ (k = 120 \/ k = 20).
Proof.
  intros Hm Hf. unfold CryptoAuth_encrypt. destruct (resetIfTimeout se now) as [s1|] eqn:E; [|done]. cbn [mbind Er_bind].
  assert (fits 32 (nextNonce s1)) as Hf1.
  { unfold resetIfTimeout in E. repeat (case_match; [er_inv; done|]). er_inv. by split. }
  unfold fits in Hf1. set (s2 := if nextNonce s1 >=? 0xfffffff0 then reset s1 else s1).
  assert (0 <= nextNonce s2 < 0xfffffff0) as Hn2 by (unfold s2; destruct (Z.geb_spec (nextNonce s1) 0xfffffff0); [by split|lia]).
  intros H. apply (encrypt_ready_pos _ _ _ _ _ _ _ A s e b) in H as [Hp _]; [|done..]. eexists. split; [exact Hp|].
  case_match; auto.
Qed.

(** ** Capacity

    Shifting a message moves the end of its capacity as little as the rest. *)
Definition cap_end (m : Message) : Z := msg_capacity m + msg_bytes m.

Lemma eshift_cap m n m' : Message_eshift m n = Ret m' -> cap_end m' = cap_end m.
Proof. unfold Message_eshift. destruct (_ && _); [done|]. destruct (_ <? _); [done|]. intros [= <-]. unfold cap_end. cbn. lia. Qed.

Lemma decryptRndNonce_cap nonce m secret st m' : decryptRndNonce nonce m secret = Ret (st, m') -> cap_end m' = cap_end m.
Proof.
  unfold decryptRndNonce. destruct (_ <? 16); [by intros [= _ <-]|]. intros H. er_inv.
  destruct (open_afternm _ _ _) as [status opened]. destruct (negb (status =? 0)); er_inv; [done|].
  by match goal with H : Message_eshift _ _ = Ret _ |- _ => apply eshift_cap in H end.
Qed.

Lemma decryptMessage_cap se nonce m secret m' se' err : decryptMessage se nonce m secret = Ret (m', se', err) -> cap_end m' = cap_end m.
Proof.
  unfold decryptMessage, decrypt. intros H. er_inv. destruct x as [st m1]. apply decryptRndNonce_cap in E.
  repeat (er_inv; first [destruct (negb _)|destruct (ReplayProtector_checkNonce _ _)]); er_inv; done.
Qed.

Lemma handshake_open_cap m secret m' r : handshake_open m secret = Ret (m', r) -> cap_end m' = cap_end m.
Proof.
  unfold handshake_open. intros H. er_inv. destruct x0 as [st m1]. apply eshift_cap in E. apply decryptRndNonce_cap in E0.
  destruct (negb _); er_inv; [by rewrite <- E, <- E0|]. destruct (Bits_isZero _); er_inv; [congruence|].
  match goal with H : Message_eshift _ _ = Ret _ |- _ => apply eshift_cap in H end. congruence.
Qed.

Lemma decryptHandshake_cap se ca nonce m m' se' err : decryptHandshake se ca nonce m = Ret (m', se', err) -> cap_end m' = cap_end m.
Proof.
  unfold decryptHandshake. destruct (_ <? _); [intros H; by er_inv|]. intros H. er_inv.
  destruct (negb _); [by er_inv|]. er_inv. destruct (handshake_auth _ _ _); [by er_inv|]. er_inv.
  destruct x1 as [?|[secret next]]; [by er_inv|]. er_inv. destruct x1 as [m1 r].
  match goal with H : handshake_open _ _ = _ |- _ => apply handshake_open_cap in H as Hc end.
  destruct r; er_inv; [done|]. destruct x1; er_inv; done.
Qed.

Lemma decrypt_cap se ca m now m' se' err : CryptoAuth_decrypt se ca m now = Ret (m', se', err) -> cap_end m' = cap_end m.
Proof.
  unfold CryptoAuth_decrypt. destruct (_ <? 20); [intros H; by er_inv|]. intros H. er_inv. apply eshift_cap in E1 as Hc1.
  destruct (negb (established se)); destruct (_ >=? Nonce_FIRST_TRAFFIC_PACKET).
  - unfold decrypt_final_step in H. destruct (_ <? CryptoAuth_State_SENT_KEY); er_inv; [done|].
    match goal with H : decryptMessage _ _ _ _ = Ret ?y |- _ => destruct y as [[m1 se1] err1]; apply decryptMessage_cap in H end.
    case_decide; er_inv; congruence.
  - er_inv. match goal with H : Message_eshift x1 _ = Ret _ |- _ => apply eshift_cap in H end.
    match goal with H : decryptHandshake _ _ _ _ = _ |- _ => apply decryptHandshake_cap in H end. congruence.
  - er_inv. match goal with H : decryptMessage _ _ _ _ = Ret ?y |- _ => destruct y as [[m1 se1] err1]; apply decryptMessage_cap in H end.
    case_decide; er_inv; congruence.
  - destruct (_ <=? Nonce_REPEAT_HELLO); er_inv; [|done].
    match goal with H : Message_eshift x1 _ = Ret _ |- _ => apply eshift_cap in H end.
    match goal with H : decryptHandshake _ _ _ _ = _ |- _ => apply decryptHandshake_cap in H end. congruence.
Qed.

(** ** The peer *)

Definition same_peer (s s' : Session) : Prop :=
  herPublicKey s' = herPublicKey s /\ herIp6 s' = herIp6 s.

Lemma same_peer_refl s : same_peer s s.
Proof. done. Qed.

Lemma resetIfTimeout_peer s now s' : resetIfTimeout s now = Ret s' -> same_peer s s'.
Proof. unfold resetIfTimeout. intros H. by er_cases. Qed.

Lemma encrypt_peer se ca m now r36 r32 m' se' : CryptoAuth_encrypt se ca m now r36 r32 = Ret (m', se') -> same_peer se se'.
Proof.
  unfold CryptoAuth_encrypt. intros H. er_inv.
  match goal with H : resetIfTimeout _ _ = Ret ?y |- _ => apply resetIfTimeout_peer in H as [H1 H2]; rename y into s1 end.
  unfold same_peer. rewrite <- H1, <- H2. set (s2 := if _ >=? _ then _ else _) in H.
  assert (same_peer s1 s2) as [H3 H4] by (unfold s2; by case_match). rewrite <- H3, <- H4.
  clearbody s2. unfold encrypt_ready in H. er_inv. destruct (_ <? _).
  - unfold encryptHandshake, encryptHandshake_header, encryptHandshake_secret in H. er_cases; destruct (_ || _); done.
  - by er_cases.
Qed.

Lemma decryptMessage_peer se nonce m secret m' se' err :
  decryptMessage se nonce m secret = Ret (m', se', err) -> same_peer se se'.
Proof. unfold decryptMessage. intros H. by er_cases. Qed.

Lemma handshake_step_peer se ca nonce next k se' err :
  handshake_step se ca nonce next k = Ret (se', err) -> same_peer se se'.
Proof.
  unfold handshake_step, handshake_key, handshake_hello, handshake_finish. intros H. by er_cases.
Qed.

Lemma decrypt_peer se ca m now m' se' err :
  CryptoAuth_decrypt se ca m now = Ret (m', se', err) -> same_peer se se'.
Proof.
  assert (forall nonce m1, decryptHandshake se ca nonce m1 = Ret (m', se', err) -> same_peer se se') as Hhs.
  { intros nonce m1. unfold decryptHandshake. intros H. destruct (_ <? _); er_inv; [done|].
    destruct (negb _); er_inv; [done|]. destruct (handshake_auth _ _ _); er_inv; [done|].
    match goal with H : handshake_secret _ _ _ _ = Ret ?y |- _ => destruct y as [|[? ?]] end; er_inv; [done|].
    match goal with H : handshake_open _ _ = Ret ?y |- _ => destruct y as [? [|]] end; er_inv; [done|].
    match goal with H : handshake_step _ _ _ _ _ = Ret ?y |- _ => destruct y; apply handshake_step_peer in H end.
    by er_inv. }
  assert (forall nonce m1, decrypt_final_step se nonce m1 now = Ret (m', se', err) -> same_peer se se') as Hfin.
  { intros nonce m1. unfold decrypt_final_step. intros H. destruct (_ <? _); er_inv; [done|].
    match goal with H : decryptMessage _ _ _ _ = Ret ?y |- _ => destruct y as [[? ?] ?]; apply decryptMessage_peer in H end.
    by case_decide; er_inv. }
  unfold CryptoAuth_decrypt. intros H. destruct (_ <? 20); er_inv; [done|].
  destruct (negb _); [destruct (_ >=? _); er_inv; eauto|].
  destruct (_ >=? _); er_inv.
  - match goal with H : decryptMessage _ _ _ _ = Ret ?y |- _ => destruct y as [[? ?] ?]; apply decryptMessage_peer in H end.
    by case_decide; er_inv.
  - destruct (_ <=? _); er_inv; eauto using same_peer_refl.
Qed.

End Frame.
