(* ===== verification/Base10.v ===== *)
(** * util/Base10.c: decimal numbers in a message

    [Base10_write] pushes a number in front of a message, [Base10_read] pops
    one.  Signed 64-bit arithmetic is modelled with wrap-around. *)
From S2P Require Import Prelude Bits Message.

(** ** Definitions *)

Definition is_digit (chr : Z) : bool := (48 <=? chr) && (chr <=? 57).

(** [while (num > 0)]: a positive [int64_t] has at most 19 digits. *)
Fixpoint write_loop (fuel : nat) (msg : Message) (num : Z) : Er Message :=
  match fuel with
  | O => Ret msg
  | S fuel =>
      if num >? 0 then
        msg ← Message_epush8 msg (48 + Z.rem num 10);
        write_loop fuel msg (Z.quot num 10)
      else Ret msg
  end.

Definition Base10_write (msg : Message) (num : Z) : Er Message :=
  let negative := num <? 0 in
  if negative || negb (num =? 0) then
    let num := if negative then i64 (- num) else num in
    msg ← write_loop 19 msg num;
    if negative then Message_epush8 msg 45 else Ret msg
  else Message_epush8 msg 48.

(** The inner [while]: every iteration pops a byte. *)
Fixpoint read_loop (fuel : nat) (msg : Message) (chr out : Z) (negative : bool)
  : Er (Message * Z) :=
  let result (out : Z) := if negative then i64 (- out) else out in
  if is_digit chr then
    let out := i64 (i64 (out * 10) + (chr - 48)) in
    if msg_length msg =? 0 then Ret (msg, result out)
    else
      '(msg, chr) ← Message_epop8 msg;
      match fuel with
      | O => Abort "out of fuel"
      | S fuel => read_loop fuel msg chr out negative
      end
  else
    msg ← Message_epush8 msg chr;
    Ret (msg, result out).

Definition Base10_read (msg : Message) : Er (Message * Z) :=
  '(msg, chr) ← Message_epop8 msg;
  '(msg, chr, negative) ←
    (if chr =? 45 then '(msg, chr) ← Message_epop8 msg; Ret (msg, chr, true)
     else Ret (msg, chr, false));
  if is_digit chr then read_loop (Z.to_nat (msg_length msg)) msg chr 0 negative
  else
    _ ← Message_epush8 msg chr;
    Abort "No base10 characters found".

(** [str] holds the bytes before the terminator, at the address [addr]. *)
Definition Base10_fromString (str : list Z) (addr : Z) : Er (option Z) :=
  let length := i32 (len str) in
  if length <? 1 then Ret None
  else if (get str 0 =? 45)
          && ((length <? 2) || (get str 1 <? 48) || (get str 1 >? 57)) then Ret None
  else if negb (get str 0 =? 45) && ((get str 0 <? 48) || (get str 0 >? 57)) then Ret None
  else
    '(_, num) ← Base10_read
      {| msg_length := length; msg_padding := 0; msg_bytes := 0; msg_capacity := length;
         msg_associatedFd := 0; msg_addr := addr; msg_mem := str ++ [0] |};
    Ret (Some num).

(** ** The text of a number *)

Fixpoint digits (fuel : nat) (n : Z) : list Z :=
  match fuel with
  | O => []
  | S fuel => (if n <? 10 then [] else digits fuel (n / 10)) ++ [48 + n mod 10]
  end.

Definition num_text (n : Z) : list Z :=
  if n <? 0 then 45 :: digits 19 (- n) else digits 19 n.

(** The value of a string of digits, after the value [acc]. *)
Definition dval (acc : Z) (l : list Z) : Z := fold_left (fun a d => a * 10 + (d - 48)) l acc.

Definition digit_char (c : Z) : Prop := 48 <= c <= 57.

(** ** Lemmas *)

Lemma epush8_view m pre r c post x :
  msg_view m (pre ++ [r]) c post -> byte x ->
  exists m', Message_epush8 m x = Ret m' /\ msg_view m' pre (x :: c) post.
Proof.
  intros Hv Hx. destruct (pushH_view 1 m pre [r] c post x Hv eq_refl) as (m' & He & Hv' & _).
  exists m'. split; [done|]. simpl le_bytes in Hv'. by rewrite Z.mod_small in Hv' by done.
Qed.

Lemma epop8_view m pre x c post :
  msg_view m pre (x :: c) post ->
  exists m', Message_epop8 m = Ret (m', x) /\ msg_view m' (pre ++ [x]) c post.
Proof.
  intros Hv. destruct (popH_view 1 m pre [x] c post Hv eq_refl) as (m' & He & Hv' & _).
  exists m'. split; [|done]. unfold Message_epop8. rewrite He. simpl le_val. do 2 f_equal. lia.
Qed.

(** Popping a byte and pushing it back. *)
Lemma epop8_push8 m pre x c post :
  msg_view m pre (x :: c) post -> byte x ->
  exists m1 m2, Message_epop8 m = Ret (m1, x) /\ Message_epush8 m1 x = Ret m2 /\
    msg_view m1 (pre ++ [x]) c post /\ msg_view m2 pre (x :: c) post.
Proof.
  intros Hv Hx. destruct (epop8_view _ _ _ _ _ Hv) as (m1 & H1 & Hv1).
  destruct (epush8_view _ _ _ _ _ x Hv1 Hx) as (m2 & H2 & Hv2). by exists m1, m2.
Qed.

Lemma digits_pow fuel : forall n, 0 <= n < 10 ^ Z.of_nat fuel -> 0 < n ->
  Forall digit_char (digits fuel n) /\ dval 0 (digits fuel n) = n /\ digits fuel n <> [].
Proof.
  induction fuel as [|fuel IH]; intros n Hn Hp; cbn [digits].
  { change (10 ^ Z.of_nat 0) with 1 in Hn. lia. }
  assert (Hd : digit_char (48 + n mod 10)).
  { unfold digit_char. pose proof (Z.mod_pos_bound n 10). lia. }
  split; [|split; [|by destruct (if n <? 10 then _ else _)]].
  - apply Forall_app. split; [|by constructor]. case_match; [done|]. apply IH; [|].
    + split; [by apply Z.div_pos; lia|]. apply Z.div_lt_upper_bound; [lia|].
      rewrite Nat2Z.inj_succ, Z.pow_succ_r in Hn by lia. lia.
    + apply Z.div_str_pos. lia.
  - unfold dval. rewrite fold_left_app. cbn [fold_left].
    destruct (Z.ltb_spec n 10) as [Hlt|Hge]; cbn [fold_left].
    + rewrite Z.mod_small by lia. lia.
    + destruct (IH (n / 10)) as (_ & Hv & _).
      * split; [by apply Z.div_pos; lia|]. apply Z.div_lt_upper_bound; [lia|].
        rewrite Nat2Z.inj_succ, Z.pow_succ_r in Hn by lia. lia.
      * apply Z.div_str_pos. lia.
      * unfold dval in Hv. rewrite Hv. pose proof (Z.div_mod n 10). lia.
Qed.

Lemma digits_length fuel : forall k n, 0 <= n < 10 ^ Z.of_nat k -> (1 <= k)%nat ->
  (length (digits fuel n) <= k)%nat.
Proof.
  induction fuel as [|fuel IH]; intros k n Hn Hk; cbn [digits length]; [lia|]. rewrite length_app. cbn [length].
  destruct (Z.ltb_spec n 10); cbn [length]; [lia|].
  destruct k as [|[|k]]; [lia|cbn in Hn; lia|]. specialize (IH (S k) (n / 10)).
  rewrite Nat2Z.inj_succ, Z.pow_succ_r in Hn by lia.
  enough (0 <= n / 10 < 10 ^ Z.of_nat (S k)) by (specialize (IH ltac:(done)); lia).
  split; [by apply Z.div_pos; lia|]. apply Z.div_lt_upper_bound; lia.
Qed.

Lemma dval_bound l : forall acc, Forall digit_char l -> 0 <= acc -> acc <= dval acc l.
Proof.
  unfold dval. induction l as [|d l IH]; intros acc Hl Ha; cbn [fold_left]; [lia|].
  apply Forall_cons in Hl as [Hd Hl]. unfold digit_char in Hd.
  specialize (IH (acc * 10 + (d - 48)) Hl). lia.
Qed.

Lemma dval_cons acc d l : dval acc (d :: l) = dval (acc * 10 + (d - 48)) l.
Proof. done. Qed.

(** Writing pushes the digits, the lowest first. *)
Lemma write_loop_view fuel : forall m pre room c post n,
  0 < n < 10 ^ Z.of_nat fuel -> msg_view m (pre ++ room) c post ->
  length room = length (digits fuel n) ->
  exists m', write_loop fuel m n = Ret m' /\ msg_view m' pre (digits fuel n ++ c) post.
Proof.
  induction fuel as [|fuel IH]; intros m pre room c post n Hn Hv Hr; cbn [write_loop digits] in *.
  { change (10 ^ Z.of_nat 0) with 1 in Hn. lia. }
  replace (n >? 0) with true by lia.
  rewrite Z.rem_mod_nonneg, Z.quot_div_nonneg by lia.
  destruct room as [|r room _] using rev_ind; [rewrite length_app in Hr; cbn in Hr; lia|].
  rewrite app_assoc in Hv.
  destruct (epush8_view m _ r c post (48 + n mod 10) Hv) as (m1 & -> & Hv1).
  { pose proof (Z.mod_pos_bound n 10). unfold fits. lia. }
  cbn [mbind Er_bind]. rewrite <- app_assoc. cbn [app].
  rewrite !length_app in Hr. cbn [length] in Hr.
  destruct (Z.ltb_spec n 10) as [Hlt|Hge].
  - rewrite Z.div_small by lia. assert (room = []) as -> by (destruct room; [done|cbn in Hr; lia]).
    rewrite app_nil_r in Hv1. exists m1. split; [by destruct fuel|done].
  - apply IH with (room := room); [|done|lia]. split; [apply Z.div_str_pos; lia|].
    apply Z.div_lt_upper_bound; [lia|].
    rewrite Nat2Z.inj_succ, Z.pow_succ_r in Hn by lia. lia.
Qed.

(** The numbers which have a text: all but the smallest [int64_t]. *)
Definition int64_ok (n : Z) : Prop := - 2 ^ 63 < n < 2 ^ 63.

Lemma i64_small z : - 2 ^ 63 <= z < 2 ^ 63 -> i64 z = z.
Proof. intros. unfold i64. rewrite Z.mod_small; lia. Qed.

Lemma Base10_write_view m pre room c post n :
  int64_ok n -> msg_view m (pre ++ room) c post -> length room = length (num_text n) ->
  exists m', Base10_write m n = Ret m' /\ msg_view m' pre (num_text n ++ c) post.
Proof.
  unfold int64_ok. intros Hn Hv Hr. unfold Base10_write, num_text in *.
  destruct (Z.ltb_spec n 0) as [Hneg|Hpos]; cbn [orb].
  - rewrite i64_small by lia. destruct room as [|r room]; [done|]. injection Hr as Hr.
    replace (pre ++ r :: room) with ((pre ++ [r]) ++ room) in Hv by (by rewrite <- app_assoc).
    destruct (write_loop_view 19 m _ room c post (- n) ltac:(lia) Hv Hr) as (m1 & -> & Hv1).
    cbn [mbind Er_bind]. by apply (epush8_view m1 pre r _ post 45).
  - destruct (Z.eqb_spec n 0) as [->|Hne]; cbn [negb].
    + destruct room as [|r [|? ?]]; [done| |done]. by apply (epush8_view m pre r c post 48).
    + destruct (write_loop_view 19 m pre room c post n ltac:(lia) Hv Hr) as (m1 & -> & Hv1).
      by exists m1.
Qed.

(** What may follow a number: nothing, or a byte which is not a digit. *)
Definition stops (c : list Z) : Prop :=
  match c with [] => True | x :: _ => byte x /\ ~ digit_char x end.

Lemma is_digit_spec chr : is_digit chr = true <-> digit_char chr.
Proof. unfold is_digit, digit_char. lia. Qed.

Lemma read_loop_view ds : forall fuel m pre d c post acc neg,
  Forall digit_char (d :: ds) -> stops c -> 0 <= acc -> dval acc (d :: ds) < 2 ^ 63 ->
  msg_view m (pre ++ [d]) (ds ++ c) post -> (length (ds ++ c) <= fuel)%nat ->
  exists m', read_loop fuel m d acc neg
      = Ret (m', if neg then - dval acc (d :: ds) else dval acc (d :: ds)) /\
    msg_view m' (pre ++ d :: ds) c post.
Proof.
  induction ds as [|d' ds IH]; intros fuel m pre d c post acc neg Hds Hc Hacc Hval Hv Hf;
    apply Forall_cons in Hds as [Hd Hds]; pose proof Hd as Hd'; unfold digit_char in Hd'.
  all: destruct fuel as [|fuel]; cbn [read_loop].
  all: rewrite (proj2 (is_digit_spec d) Hd), (msg_view_length _ _ _ _ Hv).
  all: pose proof (dval_bound _ (acc * 10 + (d - 48)) Hds ltac:(lia)) as Hle.
  all: rewrite (dval_cons acc d) in *.
  all: rewrite (i64_small (acc * 10)) by lia; rewrite (i64_small (acc * 10 + (d - 48))) by lia.
  - destruct c; [|cbn in Hf; lia]. cbn. exists m. split; [|done].
    destruct neg; [by rewrite i64_small by (cbn in *; lia)|done].
  - destruct c as [|x c]; cbn [app length Z.of_nat Z.eqb].
    { exists m. split; [|done]. destruct neg; [by rewrite i64_small by (cbn in *; lia)|done]. }
    destruct Hc as [Hx Hnd]. destruct (epop8_push8 m _ x c post Hv Hx) as (m1 & m2 & -> & Hp & _ & Hv2).
    cbn [mbind Er_bind]. assert (Hxd : is_digit x = false).
    { apply not_true_iff_false. by rewrite is_digit_spec. }
    destruct fuel; cbn [read_loop]; rewrite Hxd, Hp; cbn [mbind Er_bind]; exists m2; (split; [|done]);
      destruct neg; try done; by rewrite i64_small by (cbn in *; lia).
  - cbn in Hf. lia.
  - cbn [app length]. zdecide (Z.of_nat (S (length (ds ++ c))) =? 0).
    destruct (epop8_view m _ d' (ds ++ c) post Hv) as (m1 & -> & Hv1). cbn [mbind Er_bind].
    rewrite (app_assoc pre [d]) in Hv1 || idtac.
    destruct (IH fuel m1 (pre ++ [d]) d' c post (acc * 10 + (d - 48)) neg) as (m' & He & Hv');
      try done; try lia. { cbn in Hf. lia. }
    exists m'. split; [exact He|]. by rewrite <- app_assoc in Hv'.
Qed.

(** Reading what is in front of a message: a sign and digits. *)
Lemma Base10_read_view m pre (neg : bool) ds c post :
  Forall digit_char ds -> ds <> [] -> stops c -> dval 0 ds < 2 ^ 63 ->
  msg_view m pre ((if neg then [45] else []) ++ ds ++ c) post ->
  exists m', Base10_read m = Ret (m', if neg then - dval 0 ds else dval 0 ds) /\
    msg_view m' (pre ++ (if neg then [45] else []) ++ ds) c post.
Proof.
  intros Hds Hne Hc Hval Hv. destruct ds as [|d ds]; [done|]. unfold Base10_read.
  pose proof Hds as Hds'. apply Forall_cons in Hds' as [Hd _]. pose proof Hd as Hd'.
  unfold digit_char in Hd'.
  assert (Hgo : forall m1 p, msg_view m1 (p ++ [d]) (ds ++ c) post ->
    exists m', (if is_digit d then read_loop (Z.to_nat (msg_length m1)) m1 d 0 neg
                else _ ← Message_epush8 m1 d; Abort "No base10 characters found")
      = Ret (m', if neg then - dval 0 (d :: ds) else dval 0 (d :: ds)) /\
      msg_view m' (p ++ d :: ds) c post).
  { intros m1 p Hv1. rewrite (proj2 (is_digit_spec d) Hd), (msg_view_length _ _ _ _ Hv1), Nat2Z.id.
    by apply read_loop_view with (post := post). }
  destruct neg; cbn [app] in *.
  - destruct (epop8_view _ _ _ _ _ Hv) as (m1 & -> & Hv1). cbn [mbind Er_bind Z.eqb Pos.eqb].
    destruct (epop8_view _ _ _ _ _ Hv1) as (m2 & -> & Hv2). cbn [mbind Er_bind].
    destruct (Hgo m2 (pre ++ [45]) Hv2) as (m' & -> & Hv'). exists m'. split; [done|].
    by rewrite <- app_assoc in Hv'.
  - destruct (epop8_view _ _ _ _ _ Hv) as (m1 & -> & Hv1). cbn [mbind Er_bind].
    zdecide (d =? 45). cbn [mbind Er_bind]. by apply Hgo.
Qed.

Lemma num_text_shape n : int64_ok n ->
  exists ds, num_text n = (if n <? 0 then [45] else []) ++ ds /\ Forall digit_char ds /\ ds <> [] /\
    dval 0 ds = Z.abs n.
Proof.
  unfold int64_ok, num_text. intros Hn. destruct (Z.ltb_spec n 0).
  - destruct (digits_pow 19 (- n)) as (H1 & H2 & H3); [lia|lia|].
    exists (digits 19 (- n)). split_and!; try done. rewrite H2. lia.
  - destruct (Z.eq_dec n 0) as [->|Hne].
    + exists [48]. split_and!; try done. by repeat constructor.
    + destruct (digits_pow 19 n) as (H1 & H2 & H3); [lia|lia|].
      exists (digits 19 n). split_and!; try done. rewrite H2. lia.
Qed.

(** Numbers survive the round trip: a 64-bit integer other than the smallest
    one, written in front of a message with enough room, is read back, and the
    rest of the message is what it was (a number ends where its text is not
    followed by a digit). *)
Theorem base10_roundtrip m pre room c post n :
  int64_ok n -> stops c -> msg_view m (pre ++ room) c post -> length room = length (num_text n) ->
  exists m1 m2, Base10_write m n = Ret m1 /\ msg_content m1 = num_text n ++ c /\
    Base10_read m1 = Ret (m2, n) /\ msg_view m2 (pre ++ num_text n) c post.
Proof.
  intros Hn Hc Hv Hr. destruct (Base10_write_view m pre room c post n Hn Hv Hr) as (m1 & E1 & Hv1).
  exists m1. destruct (num_text_shape n Hn) as (ds & Ht & Hds & Hne & Hval).
  pose proof Hv1 as Hv1'. rewrite Ht, <- app_assoc in Hv1'. unfold int64_ok in Hn.
  destruct (Base10_read_view m1 pre (n <? 0) ds c post) as (m2 & E2 & Hv2); try done.
  { rewrite Hval. lia. }
  exists m2. split; [done|]. split; [by eapply msg_view_content|]. rewrite E2, Ht. split; [|done].
  rewrite Hval. do 2 f_equal. destruct (Z.ltb_spec n 0); lia.
Qed.

Lemma base10_roundtrip_witness :
  exists m1 m2, Base10_write example_msg (-1205) = Ret m1 /\
    msg_content m1 = num_text (-1205) ++ [1; 2; 3] /\
    Base10_read m1 = Ret (m2, -1205) /\ msg_view m2 (zeros 15 ++ num_text (-1205)) [1; 2; 3] [4; 5].
Proof.
  apply (base10_roundtrip example_msg (zeros 15) (zeros 5)); try done.
  - split; [done|]. unfold digit_char. lia.
  - apply example_msg_view.
Defined.

(** The smallest number is written as a lone minus sign. *)
Example base10_int64_min :
  exists m, Base10_write example_msg (- 2 ^ 63) = Ret m /\ msg_content m = [45; 1; 2; 3].
Proof. eexists. split; vm_compute; done. Qed.
