(* ===== verification/Benc.v ===== *)
(** * benc/: the objects of bencoded messages

    [String], [List], [Dict] and [Object] of benc/Object.h with the operations of
    benc/String.c, benc/List.c, benc/Dict.c and the deep copy of
    benc/serialization/cloner/Cloner.c.  A linked list of items or entries is a
    Rocq list in the order of the links; an operation which changes the list
    behind a pointer returns the new list.  [None] stands for NULL. *)
From Stdlib Require Import Sorted.
From stdpp Require Import gmap sorting.
From S2P Require Import Prelude.

(** ** Data *)

(** Strings are their bytes; [Object_UNPARSABLE] is never constructed. *)
Unset Elimination Schemes.
Inductive Object :=
| Object_INTEGER (number : Z)
| Object_STRING (string : list Z)
| Object_LIST (items : list Object)
| Object_DICT (entries : list (list Z * Object)).
Set Elimination Schemes.

Abbreviation List := (list Object).
Abbreviation Dict := (list (list Z * Object)).

(** Induction through the nested lists. *)
Section Object_ind.
Context (P : Object -> Prop)
  (HI : forall n, P (Object_INTEGER n)) (HS : forall s, P (Object_STRING s))
  (HL : forall l, Forall P l -> P (Object_LIST l))
  (HD : forall d, Forall (fun e => P (snd e)) d -> P (Object_DICT d)).

Fixpoint Object_rect_nested (o : Object) : P o :=
  match o with
  | Object_INTEGER n => HI n
  | Object_STRING s => HS s
  | Object_LIST l =>
      HL l ((fix go (l : list Object) : Forall P l :=
               match l with
               | [] => List.Forall_nil _
               | o :: l => List.Forall_cons _ o l (Object_rect_nested o) (go l)
               end) l)
  | Object_DICT d =>
      HD d ((fix go (d : Dict) : Forall (fun e => P (snd e)) d :=
               match d with
               | [] => List.Forall_nil _
               | (k, v) :: d => List.Forall_cons _ (k, v) d (Object_rect_nested v) (go d)
               end) d)
  end.
End Object_ind.

(** ** Strings *)

(** [String_newBinary(bytes, length)]. *)
Definition String_newBinary (bytes : option (list Z)) (length : Z) : list Z :=
  match bytes with Some b => take (Z.to_nat length) b | None => zeros length end.

(** A [char] is signed. *)
Definition schar (b : Z) : Z := if b <? 128 then b else b - 256.

Fixpoint compare_loop (a b : list Z) (alen blen : Z) : Z :=
  match a, b with
  | x :: a, y :: b =>
      let d := schar x - schar y in
      if negb (d =? 0) then d else compare_loop a b alen blen
  | _, _ => i32 (alen - blen)
  end.

Definition String_compare (a b : option (list Z)) : Z :=
  match a, b with
  | Some a, Some b => compare_loop a b (len a) (len b)
  | None, Some _ => 1
  | Some _, None => -1
  | None, None => 0
  end.

Definition String_equals (a b : option (list Z)) : bool :=
  match a, b with
  | Some a, Some b => (len a =? len b) && (memcmp a b =? 0)
  | None, None => true
  | _, _ => false
  end.

(** ** Lists *)

Definition List_new : List := [].
Definition List_size (l : List) : Z := i32 (len l).
Definition addObject (l : List) (item : Object) : List := item :: l.
Definition List_addInt (l : List) (toAdd : Z) : List := addObject l (Object_INTEGER toAdd).
Definition List_addString (l : List) (toAdd : list Z) : List := addObject l (Object_STRING toAdd).
Definition List_addDict (l : List) (toAdd : Dict) : List := addObject l (Object_DICT toAdd).
Definition List_addList (l : List) (toAdd : List) : List := addObject l (Object_LIST toAdd).

(** [for (i = 0; entry; i++)]. *)
Fixpoint getObject_loop (entry : List) (i index : Z) : option Object :=
  match entry with
  | [] => None
  | elem :: next => if i =? index then Some elem else getObject_loop next (u32 (i + 1)) index
  end.
Definition getObject (l : List) (index : Z) : option Object := getObject_loop l 0 index.

Definition List_getInt (l : List) (index : Z) : option Z :=
  match getObject l index with Some (Object_INTEGER n) => Some n | _ => None end.
Definition List_getString (l : List) (index : Z) : option (list Z) :=
  match getObject l index with Some (Object_STRING s) => Some s | _ => None end.
Definition List_getDict (l : List) (index : Z) : option Dict :=
  match getObject l index with Some (Object_DICT d) => Some d | _ => None end.
Definition List_getList (l : List) (index : Z) : option List :=
  match getObject l index with Some (Object_LIST l) => Some l | _ => None end.

(** ** Dictionaries *)

Definition Dict_new : Dict := [].
Definition Dict_size (d : option Dict) : Z :=
  match d with Some d => i32 (len d) | None => 0 end.

Fixpoint lookup_loop (curr : Dict) (key : list Z) : option Object :=
  match curr with
  | [] => None
  | (k, val) :: next => if String_equals (Some key) (Some k) then Some val else lookup_loop next key
  end.
Definition lookupObject (d : option Dict) (key : option (list Z)) : option Object :=
  match d, key with Some d, Some key => lookup_loop d key | _, _ => None end.

Definition Dict_getInt (d : option Dict) (key : option (list Z)) : option Z :=
  match lookupObject d key with Some (Object_INTEGER n) => Some n | _ => None end.
Definition Dict_getString (d : option Dict) (key : option (list Z)) : option (list Z) :=
  match lookupObject d key with Some (Object_STRING s) => Some s | _ => None end.
Definition Dict_getDict (d : option Dict) (key : option (list Z)) : option Dict :=
  match lookupObject d key with Some (Object_DICT d) => Some d | _ => None end.
Definition Dict_getList (d : option Dict) (key : option (list Z)) : option List :=
  match lookupObject d key with Some (Object_LIST l) => Some l | _ => None end.

(** The dictionary after the put and the displaced value. *)
Fixpoint putObject (current : Dict) (key : list Z) (value : Object) : Dict * option Object :=
  match current with
  | [] => ([(key, value)], None)
  | (k, val) :: next =>
      let cmp := String_compare (Some key) (Some k) in
      if cmp <? 0 then ((key, value) :: current, None)
      else if cmp =? 0 then ((k, value) :: next, Some val)
      else let '(next, out) := putObject next key value in ((k, val) :: next, out)
  end.

Definition Dict_putInt (d : Dict) (key : list Z) (value : Z) : Dict * option Object :=
  putObject d key (Object_INTEGER value).
Definition Dict_putString (d : Dict) (key value : option (list Z)) : Dict * option Object :=
  match key, value with
  | Some key, Some value => putObject d key (Object_STRING value)
  | _, _ => (d, None)
  end.
Definition Dict_putList (d : Dict) (key : option (list Z)) (value : option List)
  : Dict * option Object :=
  match key, value with
  | Some key, Some value => putObject d key (Object_LIST value)
  | _, _ => (d, None)
  end.
Definition Dict_putDict (d : Dict) (key : option (list Z)) (value : option Dict)
  : Dict * option Object :=
  match key, value with
  | Some key, Some value => putObject d key (Object_DICT value)
  | _, _ => (d, None)
  end.

Fixpoint Dict_remove (current : Dict) (key : list Z) : Dict * Z :=
  match current with
  | [] => ([], 0)
  | (k, val) :: next =>
      if String_equals (Some key) (Some k) then (next, 1)
      else let '(next, r) := Dict_remove next key in ((k, val) :: next, r)
  end.

(** ** The deep copy *)

Section Cloner.
Context (clone : Object -> Object).
Definition cloneList : List -> List :=
  fix cloneList (orig : List) : List :=
    match orig with [] => [] | elem :: next => clone elem :: cloneList next end.
Definition cloneDict : Dict -> Dict :=
  fix cloneDict (orig : Dict) : Dict :=
    match orig with
    | [] => []
    | (key, val) :: next =>
        (String_newBinary (Some key) (len key), clone val) :: cloneDict next
    end.
End Cloner.

Fixpoint clone (orig : Object) : Object :=
  match orig with
  | Object_INTEGER number => Object_INTEGER number
  | Object_STRING string => Object_STRING (String_newBinary (Some string) (len string))
  | Object_LIST l => Object_LIST (cloneList clone l)
  | Object_DICT d => Object_DICT (cloneDict clone d)
  end.
Definition Cloner_cloneDict (orig : Dict) : Dict := cloneDict clone orig.
Definition Cloner_cloneList (orig : List) : List := cloneList clone orig.

(** ** Lemmas *)

Lemma String_equals_spec a b : String_equals (Some a) (Some b) = bool_decide (a = b).
Proof.
  unfold String_equals. destruct (Z.eqb_spec (len a) (len b)) as [Hl|Hl].
  - apply memcmp_zero_iff. lia.
  - symmetry. apply bool_decide_eq_false. by intros ->.
Qed.

Lemma schar_inj x y : byte x -> byte y -> schar x - schar y = 0 -> x = y.
Proof. unfold fits, schar. zcases; lia. Qed.

(** The strings which occur in practice: bytes, not too long to compare. *)
Definition key_ok (k : list Z) : Prop := bytes k /\ len k < 2 ^ 31.

Lemma i32_sub a b : 0 <= a < 2 ^ 31 -> 0 <= b < 2 ^ 31 -> i32 (a - b) = a - b.
Proof. intros. unfold i32. rewrite Z.mod_small; lia. Qed.

(** [String_compare] is the sign of a lexicographic order on signed bytes. *)
Inductive key_lt : list Z -> list Z -> Prop :=
| key_lt_nil y b : key_lt [] (y :: b)
| key_lt_head x y a b : schar x < schar y -> key_lt (x :: a) (y :: b)
| key_lt_tail x y a b : schar x = schar y -> key_lt a b -> key_lt (x :: a) (y :: b).

Lemma key_lt_trans a b c : key_lt a b -> key_lt b c -> key_lt a c.
Proof.
  intros Hab. revert c. induction Hab as [y b|x y a b H|x y a b H Hab IH]; intros c Hbc;
    inversion Hbc; subst; try (by constructor); try (constructor; lia).
  apply key_lt_tail; [lia|]. by apply IH.
Qed.

Lemma key_lt_irrefl a : ~ key_lt a a.
Proof. induction a as [|x a IH]; intros H; inversion H; subst; [lia|by apply IH]. Qed.

Lemma compare_loop_spec a : forall b p, bytes a -> bytes b ->
  len a + p < 2 ^ 31 -> len b + p < 2 ^ 31 -> 0 <= p ->
  let c := compare_loop a b (len a + p) (len b + p) in
  (c < 0 <-> key_lt a b) /\ (c = 0 <-> a = b) /\ (0 < c <-> key_lt b a).
Proof.
  induction a as [|x a IH]; intros [|y b] p Ha Hb Hla Hlb Hp; cbn [compare_loop length] in *;
    try (rewrite i32_sub by lia).
  - cbn. repeat split; try lia; try done; intros H; inversion H.
  - repeat split; try lia; try done; try constructor; intros H; inversion H.
  - repeat split; try lia; try done; try constructor; intros H; inversion H.
  - apply Forall_cons in Ha as [Hx Ha]. apply Forall_cons in Hb as [Hy Hb].
    destruct (Z.eqb_spec (schar x - schar y) 0) as [E|E]; cbn [negb].
    + apply schar_inj in E as ->; [|done..].
      destruct (IH b (p + 1) Ha Hb ltac:(lia) ltac:(lia) ltac:(lia)) as (H1 & H2 & H3).
      replace (Z.of_nat (S (length a)) + p) with (len a + (p + 1)) by lia.
      replace (Z.of_nat (S (length b)) + p) with (len b + (p + 1)) by lia.
      rewrite H1, H2, H3. split_and!; split.
      * intros; by apply key_lt_tail.
      * intros H; inversion H; subst; [lia|done].
      * by intros ->.
      * by intros [= ->].
      * intros; by apply key_lt_tail.
      * intros H; inversion H; subst; [lia|done].
    + split_and!; split.
      * intros. apply key_lt_head. lia.
      * intros H; inversion H; subst; lia.
      * lia.
      * intros [= -> ->]. lia.
      * intros. apply key_lt_head. lia.
      * intros H; inversion H; subst; lia.
Qed.

Lemma String_compare_spec a b :
  key_ok a -> key_ok b ->
  let c := String_compare (Some a) (Some b) in
  (c < 0 <-> key_lt a b) /\ (c = 0 <-> a = b) /\ (0 < c <-> key_lt b a).
Proof.
  intros [Ha Hla] [Hb Hlb]. unfold String_compare.
  pose proof (compare_loop_spec a b 0 Ha Hb ltac:(lia) ltac:(lia) ltac:(lia)) as H.
  by rewrite !Z.add_0_r in H.
Qed.

(** ** Dictionaries are maps *)

Definition dict_map (d : Dict) : gmap (list Z) Object := list_to_map d.
Definition keys_ok (d : Dict) : Prop := Forall key_ok (d.*1).
Definition sorted (d : Dict) : Prop := StronglySorted key_lt (d.*1).

Lemma lookup_loop_map d key : lookup_loop d key = dict_map d !! key.
Proof.
  unfold dict_map. induction d as [|[k v] d IH]; cbn [lookup_loop list_to_map]; [done|].
  rewrite String_equals_spec, IH. case_bool_decide as E.
  - subst. cbn. by rewrite lookup_insert_eq.
  - cbn. by rewrite lookup_insert_ne.
Qed.

Lemma sorted_absent d key : Forall (key_lt key) (d.*1) -> dict_map d !! key = None.
Proof.
  intros Hall. apply not_elem_of_list_to_map. intros Hin.
  rewrite Forall_forall in Hall. by apply (key_lt_irrefl key), Hall.
Qed.

Lemma putObject_keys d key v k : k ∈ (fst (putObject d key v)).*1 -> k = key \/ k ∈ d.*1.
Proof.
  induction d as [|[k' v'] d IH]; cbn [putObject]; [cbn; rewrite elem_of_cons; tauto|].
  case_match; [cbn; rewrite !elem_of_cons; tauto|]. case_match; [cbn; tauto|].
  destruct (putObject d key v) as [d' out]. cbn in *. rewrite !elem_of_cons. tauto.
Qed.

Lemma putObject_map d key v :
  keys_ok d -> key_ok key -> dict_map (fst (putObject d key v)) = <[key := v]> (dict_map d).
Proof.
  intros Hd Hk. unfold dict_map. induction d as [|[k v'] d IH]; [done|].
  apply Forall_cons in Hd as [Hk' Hd]. cbn [fst] in Hk'. specialize (IH Hd). cbn [putObject].
  destruct (String_compare_spec key k Hk Hk') as (H1 & H2 & H3).
  destruct (Z.ltb_spec (String_compare (Some key) (Some k)) 0) as [Hlt|Hge]; [done|].
  destruct (Z.eqb_spec (String_compare (Some key) (Some k)) 0) as [He|Hne].
  - apply H2 in He as ->. cbn. by rewrite insert_insert_eq.
  - assert (key <> k) by (rewrite <- H2; done).
    destruct (putObject d key v) as [d' out]. cbn in *. rewrite IH. by apply insert_insert_ne.
Qed.

Lemma putObject_out d key v :
  keys_ok d -> key_ok key -> sorted d -> snd (putObject d key v) = dict_map d !! key.
Proof.
  intros Hd Hk Hs. induction d as [|[k v'] d IH]; [done|].
  apply Forall_cons in Hd as [Hk' Hd]. cbn [fst] in Hk'.
  apply StronglySorted_inv in Hs as [Hs Hall]. specialize (IH Hd Hs). cbn [putObject].
  destruct (String_compare_spec key k Hk Hk') as (H1 & H2 & H3).
  destruct (Z.ltb_spec (String_compare (Some key) (Some k)) 0) as [Hlt|Hge].
  - symmetry. apply sorted_absent. apply H1 in Hlt. constructor; [done|].
    eapply Forall_impl; [exact Hall|]. intros x. by apply key_lt_trans.
  - destruct (Z.eqb_spec (String_compare (Some key) (Some k)) 0) as [He|Hne].
    + apply H2 in He as ->. unfold dict_map. cbn. by rewrite lookup_insert_eq.
    + assert (key <> k) by (rewrite <- H2; done).
      destruct (putObject d key v) as [d' out]. unfold dict_map in *. cbn in *.
      by rewrite lookup_insert_ne.
Qed.

Lemma putObject_sorted d key v :
  keys_ok d -> key_ok key -> sorted d ->
  sorted (fst (putObject d key v)) /\ keys_ok (fst (putObject d key v)).
Proof.
  intros Hd Hk Hs. split.
  2: { apply Forall_forall. intros k [->|Hin]%putObject_keys; [done|].
       unfold keys_ok in Hd. rewrite Forall_forall in Hd. by apply Hd. }
  induction d as [|[k v'] d IH]; [by repeat constructor|].
  apply Forall_cons in Hd as [Hk' Hd]. cbn [fst] in Hk'.
  pose proof Hs as Hs0. apply StronglySorted_inv in Hs as [Hs Hall]. specialize (IH Hd Hs).
  cbn [putObject]. destruct (String_compare_spec key k Hk Hk') as (H1 & H2 & H3).
  destruct (Z.ltb_spec (String_compare (Some key) (Some k)) 0) as [Hlt|Hge].
  - apply H1 in Hlt. constructor; [done|]. constructor; [done|].
    eapply Forall_impl; [exact Hall|]. intros x. by apply key_lt_trans.
  - destruct (Z.eqb_spec (String_compare (Some key) (Some k)) 0) as [He|Hne]; [done|].
    pose proof (putObject_keys d key v) as Hkeys.
    destruct (putObject d key v) as [d' out]. cbn [fst] in *. constructor; [done|].
    apply Forall_forall. intros x Hx. destruct (Hkeys x Hx) as [->|Hin].
    + apply H3. lia.
    + rewrite Forall_forall in Hall. by apply Hall.
Qed.

Lemma sorted_NoDup d : sorted d -> NoDup (d.*1).
Proof.
  unfold sorted. induction 1 as [|k l Hs IH Hall]; constructor; [|done].
  intros Hin. rewrite Forall_forall in Hall. by apply (key_lt_irrefl k), Hall.
Qed.

Lemma Dict_remove_keys d key : sublist (fst (Dict_remove d key)).*1 (d.*1).
Proof.
  induction d as [|[k v] d IH]; cbn [Dict_remove]; [done|]. case_match; [by constructor|].
  destruct (Dict_remove d key) as [d' r]. by constructor.
Qed.

Lemma Forall_sublist {A} (P : A -> Prop) l l' : sublist l l' -> Forall P l' -> Forall P l.
Proof.
  induction 1 as [|x l l' Hs IH|x l l' Hs IH]; [done| |]; intros [H1 H2]%Forall_cons; [|by apply IH].
  constructor; [done|by apply IH].
Qed.

Lemma StronglySorted_sublist {A} (R : A -> A -> Prop) l l' :
  sublist l l' -> StronglySorted R l' -> StronglySorted R l.
Proof.
  induction 1 as [|x l l' Hs IH|x l l' Hs IH]; [done| |]; intros [H1 H2]%StronglySorted_inv.
  - constructor; [by apply IH|]. by eapply Forall_sublist.
  - by apply IH.
Qed.

Lemma Dict_remove_map d key :
  NoDup (d.*1) ->
  dict_map (fst (Dict_remove d key)) = delete key (dict_map d) /\
  snd (Dict_remove d key) = match dict_map d !! key with Some _ => 1 | None => 0 end.
Proof.
  unfold dict_map. induction d as [|[k v] d IH]; cbn [Dict_remove fmap list_fmap fst]; intros Hnd.
  { split; [|done]. cbn. by rewrite delete_id. }
  apply NoDup_cons in Hnd as [Hni Hnd]. rewrite String_equals_spec, list_to_map_cons.
  case_bool_decide as E.
  - subst k. rewrite lookup_insert_eq. split; [|done]. cbn [fst].
    rewrite delete_insert_id; [done|by apply not_elem_of_list_to_map].
  - destruct (IH Hnd) as (I1 & I2). destruct (Dict_remove d key) as [d' r].
    cbn [fst snd] in I1, I2. rewrite lookup_insert_ne by congruence. split; cbn [fst snd]; [|done].
    by rewrite list_to_map_cons, I1, delete_insert_ne by congruence.
Qed.

(** The deep copy is equal to the original. *)
Lemma clone_id o : clone o = o.
Proof.
  assert (Hs : forall s, String_newBinary (Some s) (len s) = s).
  { intros s. unfold String_newBinary. by rewrite Nat2Z.id, take_ge. }
  induction o as [n|s|l IH|d IH] using Object_rect_nested; cbn [clone]; [done|by rewrite Hs| |].
  - f_equal. induction IH as [|o l Ho _ IHl]; cbn [cloneList]; [done|]. by rewrite Ho, IHl.
  - f_equal. induction IH as [|[k v] d Hv _ IHd]; cbn [cloneDict]; [done|].
    cbn [snd] in Hv. by rewrite Hs, Hv, IHd.
Qed.

(** A dictionary behaves as a finite map from keys to values: on a
    dictionary whose keys are in order (the ones this code builds), [putObject]
    inserts or replaces and returns what was displaced, [lookupObject] looks up,
    [Dict_remove] deletes and says whether there was something, [Dict_size] counts
    the keys, and both updates keep the keys in order. *)
Theorem dict_refines_map d key v :
  keys_ok d -> sorted d -> key_ok key -> len d < 2 ^ 31 ->
  lookupObject (Some d) (Some key) = dict_map d !! key /\
  Dict_size (Some d) = Z.of_nat (size (dict_map d)) /\
  (let '(d', displaced) := putObject d key v in
   dict_map d' = <[key := v]> (dict_map d) /\ displaced = dict_map d !! key /\
   sorted d' /\ keys_ok d') /\
  (let '(d', removed) := Dict_remove d key in
   dict_map d' = delete key (dict_map d) /\
   removed = match dict_map d !! key with Some _ => 1 | None => 0 end /\ sorted d' /\ keys_ok d').
Proof.
  intros Hd Hs Hk Hl. pose proof (sorted_NoDup d Hs) as Hnd.
  split; [apply lookup_loop_map|]. split.
  { unfold Dict_size, dict_map. rewrite map_size_list_to_map by done.
    unfold i32. rewrite Z.mod_small; lia. }
  pose proof (putObject_map d key v Hd Hk) as P1. pose proof (putObject_out d key v Hd Hk Hs) as P2.
  pose proof (putObject_sorted d key v Hd Hk Hs) as P3.
  pose proof (Dict_remove_map d key Hnd) as [R1 R2]. pose proof (Dict_remove_keys d key) as R3.
  destruct (putObject d key v) as [d1 out]. destruct (Dict_remove d key) as [d2 r].
  cbn [fst snd] in *. split; [by destruct P3|]. split_and!; try done.
  - by eapply StronglySorted_sublist.
  - by eapply Forall_sublist.
Qed.

Lemma dict_refines_map_witness :
  (let d := fst (putObject (fst (putObject [] [98] (Object_INTEGER 1))) [97] (Object_INTEGER 2)) in
   lookupObject (Some d) (Some [98]) = dict_map d !! [98] /\
   Dict_size (Some d) = Z.of_nat (size (dict_map d)) /\
   (let '(d', displaced) := putObject d [98] (Object_INTEGER 5) in
    dict_map d' = <[[98] := Object_INTEGER 5]> (dict_map d) /\ displaced = dict_map d !! [98] /\
    sorted d' /\ keys_ok d') /\
   (let '(d', removed) := Dict_remove d [98] in
    dict_map d' = delete [98] (dict_map d) /\
    removed = match dict_map d !! [98] with Some _ => 1 | None => 0 end /\ sorted d' /\ keys_ok d')).
Proof.
  apply (dict_refines_map _ [98] (Object_INTEGER 5)); [..|done].
  - repeat constructor; done.
  - repeat constructor; vm_compute; done.
  - repeat constructor; done.
Defined.
