(* ===== verification/BencSerial.v ===== *)
(** * benc/serialization/standard: bencoded messages

    [BencMessageWriter] pushes a dictionary in front of a message (from the last
    byte to the first), [BencMessageReader] pops one.  [Er_raise] aborts the
    process, so a malformed message is an [Abort]. *)
From S2P Require Import Prelude Bits Message Base10 Benc.

(** ** Writing *)

Definition writeString (str : list Z) (msg : Message) : Er Message :=
  msg ← Message_epush msg (Some str) (len str);
  msg ← Message_epush8 msg 58;
  Base10_write msg (len str).

Definition writeInt (num : Z) (msg : Message) : Er Message :=
  msg ← Message_epush8 msg 101;
  msg ← Base10_write msg num;
  Message_epush8 msg 105.

Section Writer.
Context (writeGeneric : Object -> Message -> Er Message).

Definition writeListItems : List -> Message -> Er Message :=
  fix writeListItems (item : List) (msg : Message) : Er Message :=
    match item with
    | [] => Ret msg
    | elem :: next => msg ← writeListItems next msg; writeGeneric elem msg
    end.

Definition writeList (l : List) (msg : Message) : Er Message :=
  msg ← Message_epush8 msg 101;
  msg ← writeListItems l msg;
  Message_epush8 msg 108.

Definition writeDictEntries : Dict -> Message -> Er Message :=
  fix writeDictEntries (entry : Dict) (msg : Message) : Er Message :=
    match entry with
    | [] => Ret msg
    | (key, val) :: next =>
        msg ← writeDictEntries next msg; msg ← writeGeneric val msg; writeString key msg
    end.

Definition writeDict (d : Dict) (msg : Message) : Er Message :=
  msg ← Message_epush8 msg 101;
  msg ← writeDictEntries d msg;
  Message_epush8 msg 100.
End Writer.

Fixpoint writeGeneric (obj : Object) (msg : Message) : Er Message :=
  match obj with
  | Object_STRING string => writeString string msg
  | Object_DICT dictionary => writeDict writeGeneric dictionary msg
  | Object_LIST l => writeList writeGeneric l msg
  | Object_INTEGER number => writeInt number msg
  end.

Definition misaligned (msg : Message) : bool :=
  negb ((msg_addr msg + msg_bytes msg) mod 8 =? 0).

(** [do { push '0' } while (misaligned)]: at most eight pushes. *)
Fixpoint align_loop (fuel : nat) (msg : Message) : Er Message :=
  msg ← Message_epush8 msg 48;
  if misaligned msg then
    match fuel with O => Abort "out of fuel" | S fuel => align_loop fuel msg end
  else Ret msg.

Definition BencMessageWriter_write (toWrite : Dict) (msg : Message) : Er Message :=
  msg ← writeDict writeGeneric toWrite msg;
  if negb (misaligned msg) then Ret msg
  else
    '(msg, d) ← Message_epop8 msg;
    Assert_true (d =? 100);;
    let first := get (msg_read msg 0 1) 0 in
    Assert_true (negb (first =? 101));;
    Assert_true ((first >=? 49) && (first <=? 57));;
    msg ← align_loop 7 msg;
    '(msg, _) ← Message_epop8 msg;
    Message_epush8 msg 100.

(** ** Reading *)

Definition readInt (msg : Message) : Er (Message * Z) :=
  '(msg, num) ← Base10_read msg;
  '(msg, chr) ← Message_epop8 msg;
  if negb (chr =? 101) then Abort "Int not terminated with 'e'" else Ret (msg, num).

Definition readString (msg : Message) : Er (Message * list Z) :=
  '(msg, length) ← Base10_read msg;
  if length <? 0 then Abort "Negative string length"
  else
    '(msg, chr) ← Message_epop8 msg;
    if negb (chr =? 58) then Abort "String not deliniated with a ':'"
    else if length >? msg_length msg then Abort "String too long"
    else Message_epop msg length.

(** The loops and the nesting consume the message; [fuel] bounds both. *)
Fixpoint readGeneric (fuel : nat) (msg : Message) : Er (Message * Object) :=
  match fuel with
  | O => Abort "out of fuel"
  | S fuel =>
      '(msg, chr) ← Message_epop8 msg;
      if chr =? 108 then '(msg, l) ← readList fuel msg []; Ret (msg, Object_LIST l)
      else if chr =? 100 then '(msg, d) ← readDict fuel msg []; Ret (msg, Object_DICT d)
      else if chr =? 105 then '(msg, n) ← readInt msg; Ret (msg, Object_INTEGER n)
      else if is_digit chr then
        msg ← Message_epush8 msg chr;
        '(msg, s) ← readString msg; Ret (msg, Object_STRING s)
      else Abort "Unexpected character in message"
  end
with readList (fuel : nat) (msg : Message) (last : List) : Er (Message * List) :=
  match fuel with
  | O => Abort "out of fuel"
  | S fuel =>
      '(msg, chr) ← Message_epop8 msg;
      if chr =? 101 then Ret (msg, last)
      else
        msg ← Message_epush8 msg chr;
        '(msg, elem) ← readGeneric fuel msg;
        readList fuel msg (elem :: last)
  end
with readDict (fuel : nat) (msg : Message) (last : Dict) : Er (Message * Dict) :=
  match fuel with
  | O => Abort "out of fuel"
  | S fuel =>
      '(msg, chr) ← Message_epop8 msg;
      if chr =? 101 then Ret (msg, last)
      else
        msg ← Message_epush8 msg chr;
        '(msg, key) ← readString msg;
        '(msg, val) ← readGeneric fuel msg;
        readDict fuel msg ((key, val) :: last)
  end.

Definition reader_fuel (msg : Message) : nat := Z.to_nat (2 * msg_length msg + 2).

Definition BencMessageReader_read (msg : Message) : Er (Message * Dict) :=
  '(msg, chr) ← Message_epop8 msg;
  if negb (chr =? 100)
  then Abort "Message does not begin with a 'd' to open the dictionary"
  else readDict (reader_fuel msg) msg [].

(** [Er_check] is the identity and [er] stays NULL: the error message (first)
    is never set. *)
Definition BencMessageReader_readNoExcept (msg : Message)
  : Er (Message * (option string * option Dict)) :=
  '(msg, out) ← BencMessageReader_read msg;
  Ret (msg, (None, Some out)).

(** ** The text of an object *)

Definition str_text (s : list Z) : list Z := num_text (len s) ++ 58 :: s.

Fixpoint obj_text (o : Object) : list Z :=
  match o with
  | Object_INTEGER n => 105 :: num_text n ++ [101]
  | Object_STRING s => str_text s
  | Object_LIST l => 108 :: concat (map obj_text l) ++ [101]
  | Object_DICT d => 100 :: concat (map (fun e => str_text (fst e) ++ obj_text (snd e)) d) ++ [101]
  end.

(** What the reader makes of it: every list and dictionary the other way round. *)
Fixpoint mirror (o : Object) : Object :=
  match o with
  | Object_LIST l => Object_LIST (rev (map mirror l))
  | Object_DICT d => Object_DICT (rev (map (fun e => (fst e, mirror (snd e))) d))
  | o => o
  end.

Fixpoint obj_ok (o : Object) : Prop :=
  match o with
  | Object_INTEGER n => int64_ok n
  | Object_STRING s => True
  | Object_LIST l => fold_right and True (map obj_ok l)
  | Object_DICT d => fold_right and True (map (fun e => obj_ok (snd e)) d)
  end.

Definition items_text (l : List) : list Z := concat (map obj_text l).
Definition entries_text (d : Dict) : list Z :=
  concat (map (fun e => str_text (fst e) ++ obj_text (snd e)) d).
Definition dict_text (d : Dict) : list Z := 100 :: entries_text d ++ [101].

(** ** Writing produces the text *)

Lemma push8_room m pre room c post x n :
  msg_view m (pre ++ room) c post -> length room = S n -> byte x ->
  exists m' room', Message_epush8 m x = Ret m' /\ length room' = n /\
    msg_view m' (pre ++ room') (x :: c) post.
Proof.
  intros Hv Hr Hx. destruct room as [|r room _] using rev_ind; [done|].
  rewrite length_app in Hr. cbn in Hr. rewrite app_assoc in Hv.
  destruct (epush8_view m _ r c post x Hv Hx) as (m' & He & Hv'). exists m', room.
  split; [done|]. split; [lia|done].
Qed.

Lemma view_len_bound m pre c post : msg_view m pre c post -> len pre + len c + len post < 2 ^ 31.
Proof. intros (? & ? & ?). tauto. Qed.

Lemma writeString_view s m pre room c post :
  msg_view m (pre ++ room) c post -> length room = length (str_text s) ->
  exists m', writeString s m = Ret m' /\ msg_view m' pre (str_text s ++ c) post.
Proof.
  intros Hv Hr. unfold writeString, str_text in *. rewrite length_app in Hr. cbn [length] in Hr.
  pose proof (view_len_bound _ _ _ _ Hv) as Hb. rewrite length_app in Hb.
  destruct (list_split_at (len room - len s) room ltac:(lia)) as (r1 & r2 & -> & Hr1).
  rewrite length_app in Hr, Hr1, Hb. rewrite app_assoc in Hv.
  destruct (epush_view m (pre ++ r1) r2 c post (Some s) (len s) Hv) as (m1 & -> & Hv1 & _);
    [lia|lia|]. cbn [mbind Er_bind]. rewrite take_ge in Hv1 by lia.
  destruct (push8_room m1 pre r1 (s ++ c) post 58 (length (num_text (len s))) Hv1)
    as (m2 & r1' & -> & Hr1' & Hv2); [lia|done|]. cbn [mbind Er_bind].
  destruct (Base10_write_view m2 pre r1' (58 :: s ++ c) post (len s)) as (m3 & He & Hv3);
    [unfold int64_ok; lia|done|done|]. exists m3. split; [done|]. by rewrite <- app_assoc.
Qed.

(** What it means for a writer to produce a text. *)
Definition produces (w : Message -> Er Message) (text : list Z) : Prop :=
  forall m pre room c post, msg_view m (pre ++ room) c post -> length room = length text ->
  exists m', w m = Ret m' /\ msg_view m' pre (text ++ c) post.

(** Two writers in a row: the second text ends up in front. *)
Lemma produces_bind w1 w2 t1 t2 :
  produces w1 t1 -> produces w2 t2 -> produces (fun m => m ← w1 m; w2 m) (t2 ++ t1).
Proof.
  intros H1 H2 m pre room c post Hv Hr. rewrite length_app in Hr.
  destruct (list_split_at (len t2) room ltac:(lia)) as (r1 & r2 & -> & Hr1).
  rewrite length_app in Hr. rewrite app_assoc in Hv.
  destruct (H1 m _ _ _ _ Hv ltac:(lia)) as (m1 & -> & Hv1). cbn [mbind Er_bind].
  destruct (H2 m1 _ _ _ _ Hv1 ltac:(lia)) as (m2 & -> & Hv2). exists m2. by rewrite <- app_assoc.
Qed.

Lemma produces_push8 x : byte x -> produces (fun m => Message_epush8 m x) [x].
Proof.
  intros Hx m pre room c post Hv Hr. destruct room as [|r [|? ?]]; try done.
  by apply (epush8_view m pre r).
Qed.

Lemma produces_nil : produces Ret [].
Proof.
  intros m pre room c post Hv Hr. destruct room; [|done]. rewrite app_nil_r in Hv. by exists m.
Qed.

Lemma produces_string s : produces (writeString s) (str_text s).
Proof. intros m pre room c post. apply writeString_view. Qed.

Lemma produces_framed w x text :
  byte x -> produces w text ->
  produces (fun m => m ← Message_epush8 m 101; m ← w m; Message_epush8 m x) (x :: text ++ [101]).
Proof.
  intros Hx Hw. apply (produces_bind (fun m => Message_epush8 m 101)
    (fun m => m ← w m; Message_epush8 m x) [101] (x :: text)); [by apply produces_push8|].
  change (x :: text) with ([x] ++ text). apply produces_bind; [done|by apply produces_push8].
Qed.

Lemma produces_dict d :
  Forall (fun e => produces (writeGeneric (snd e)) (obj_text (snd e))) d ->
  produces (writeDict writeGeneric d) (dict_text d).
Proof.
  intros Hd. apply produces_framed; [done|].
  induction Hd as [|[k v] d Hv _ IH]; [apply produces_nil|].
  change (entries_text ((k, v) :: d)) with ((str_text k ++ obj_text v) ++ entries_text d).
  apply (produces_bind (writeDictEntries writeGeneric d)
    (fun m => m ← writeGeneric v m; writeString k m)); [done|].
  apply produces_bind; [done|apply produces_string].
Qed.

Lemma produces_list l :
  Forall (fun o => produces (writeGeneric o) (obj_text o)) l ->
  produces (writeList writeGeneric l) (108 :: items_text l ++ [101]).
Proof.
  intros Hl. apply produces_framed; [done|].
  induction Hl as [|o l Ho _ IH]; [apply produces_nil|].
  change (items_text (o :: l)) with (obj_text o ++ items_text l).
  by apply (produces_bind (writeListItems writeGeneric l) (writeGeneric o)).
Qed.

Lemma writeGeneric_produces o : obj_ok o -> produces (writeGeneric o) (obj_text o).
Proof.
  induction o as [n|s|l IH|d IH] using Object_rect_nested; intros Hok.
  - apply (produces_framed (fun m => Base10_write m n) 105 (num_text n)); [done|].
    intros m pre room c post. by apply Base10_write_view.
  - apply produces_string.
  - apply produces_list. cbn [obj_ok] in Hok. induction IH as [|o l Ho _ IHl]; constructor.
    + apply Ho, Hok.
    + apply IHl, Hok.
  - apply produces_dict. cbn [obj_ok] in Hok. induction IH as [|[k v] d Hv _ IHd]; constructor.
    + apply Hv, Hok.
    + apply IHd, Hok.
Qed.

(** ** Reading the text *)

Lemma num_text_len (s : list Z) : len s < 2 ^ 31 ->
  Forall digit_char (num_text (len s)) /\ num_text (len s) <> [] /\
  dval 0 (num_text (len s)) = len s.
Proof.
  intros Hs. destruct (num_text_shape (len s)) as (ds & Ht & Hds & Hne & Hv);
    [unfold int64_ok; lia|].
  zdecide_in (len s <? 0) Ht. cbn [app] in Ht. rewrite Ht. split_and!; try done. lia.
Qed.

(** A length may have leading zeros. *)
Lemma readString_view m pre zs s c post :
  Forall (eq 48) zs -> msg_view m pre (zs ++ str_text s ++ c) post ->
  exists m', readString m = Ret (m', s) /\ msg_view m' (pre ++ zs ++ str_text s) c post.
Proof.
  intros Hz Hv. unfold readString, str_text in *. rewrite <- app_assoc in Hv. cbn [app] in Hv.
  pose proof (view_len_bound _ _ _ _ Hv) as Hb. rewrite !length_app in Hb. cbn in Hb.
  rewrite length_app in Hb. destruct (num_text_len s ltac:(lia)) as (Hd & Hne & Hval).
  assert (Hzval : dval 0 (zs ++ num_text (len s)) = len s).
  { transitivity (dval 0 (num_text (len s))); [|done]. clear -Hz.
    induction Hz as [|z zs <- _ IH]; [done|exact IH]. }
  destruct (Base10_read_view m pre false (zs ++ num_text (len s)) (58 :: s ++ c) post)
    as (m1 & -> & Hv1).
  - apply Forall_app. split; [|done]. eapply Forall_impl; [exact Hz|].
    intros ? <-. unfold digit_char. lia.
  - by destruct zs.
  - split; [done|]. unfold digit_char. lia.
  - rewrite Hzval. lia.
  - by rewrite <- app_assoc.
  - cbn [mbind Er_bind]. rewrite Hzval. zdecide (len s <? 0). cbn [app] in Hv1.
    destruct (epop8_view _ _ _ _ _ Hv1) as (m2 & -> & Hv2). cbn [mbind Er_bind Z.eqb Pos.eqb negb].
    rewrite (msg_view_length _ _ _ _ Hv2), length_app.
    replace (len s >? Z.of_nat (length s + length c)) with false
      by (symmetry; rewrite Z.gtb_ltb; apply Z.ltb_ge; lia).
    destruct (epop_view m2 _ s c post (len s) Hv2 eq_refl) as (m3 & -> & Hv3 & _).
    exists m3. split; [done|]. by rewrite <- !app_assoc in *.
Qed.

Lemma readInt_view m pre n c post :
  int64_ok n -> msg_view m pre (num_text n ++ 101 :: c) post ->
  exists m', readInt m = Ret (m', n) /\ msg_view m' (pre ++ num_text n ++ [101]) c post.
Proof.
  intros Hn Hv. destruct (num_text_shape n Hn) as (ds & Ht & Hds & Hne & Hval).
  unfold readInt. rewrite Ht, <- app_assoc in Hv. unfold int64_ok in Hn.
  destruct (Base10_read_view m pre (n <? 0) ds (101 :: c) post) as (m1 & -> & Hv1); try done.
  { split; [done|]. unfold digit_char. lia. }
  { lia. }
  cbn [mbind Er_bind]. destruct (epop8_view _ _ _ _ _ Hv1) as (m2 & -> & Hv2).
  cbn [mbind Er_bind Z.eqb Pos.eqb negb]. exists m2. split.
  - rewrite Hval. do 2 f_equal. destruct (Z.ltb_spec n 0); lia.
  - rewrite Ht. by rewrite <- !app_assoc in *.
Qed.

(** The first byte of a text decides what is read. *)
Lemma str_text_first s : len s < 2 ^ 31 ->
  exists x t, str_text s = x :: t /\ digit_char x.
Proof.
  intros Hs. destruct (num_text_len s Hs) as (Hd & Hne & _). unfold str_text.
  destruct (num_text (len s)) as [|x t]; [done|]. apply Forall_cons in Hd as [Hx _].
  by exists x, (t ++ 58 :: s).
Qed.

Lemma obj_text_first o : len (obj_text o) < 2 ^ 31 ->
  exists x t, obj_text o = x :: t /\ byte x /\ x <> 101.
Proof.
  destruct o as [n|s|l|d]; cbn [obj_text]; intros Hl; try (by eexists _, _).
  assert (len s < 2 ^ 31) by (unfold str_text in Hl; rewrite length_app in Hl; cbn in Hl; lia).
  destruct (str_text_first s) as (x & t & -> & Hx); [done|].
  exists x, t. unfold digit_char in Hx. unfold fits. split; [done|]. lia.
Qed.

Lemma obj_text_len o : (2 <= length (obj_text o))%nat.
Proof.
  assert (Hs : forall s, (2 <= length (str_text s))%nat).
  { intros s. unfold str_text. rewrite length_app. cbn.
    assert (length (num_text (len s)) <> 0)%nat; [|lia].
    unfold num_text. zdecide (len s <? 0). cbn [digits]. rewrite length_app. cbn. lia. }
  destruct o as [n|s|l|d]; cbn [obj_text]; [..|]; try (cbn; rewrite length_app; cbn; lia). apply Hs.
Qed.

(** A reader takes a text off the front and returns a value, given enough fuel. *)
Definition parses {A} (r : nat -> Message -> Er (Message * A)) (text : list Z) (a : A) : Prop :=
  forall fuel m pre c post, (2 * length text <= fuel)%nat -> msg_view m pre (text ++ c) post ->
  exists m', r fuel m = Ret (m', a) /\ msg_view m' (pre ++ text) c post.

Lemma readList_items l : forall fuel m pre c post acc,
  Forall (fun o => parses readGeneric (obj_text o) (mirror o)) l ->
  (2 * length (items_text l) + 1 <= fuel)%nat ->
  msg_view m pre (items_text l ++ 101 :: c) post ->
  exists m', readList fuel m acc = Ret (m', rev (map mirror l) ++ acc) /\
    msg_view m' (pre ++ items_text l ++ [101]) c post.
Proof.
  induction l as [|o l IH]; intros fuel m pre c post acc Hl Hf Hv;
    (destruct fuel as [|fuel]; [lia|]); cbn [readList].
  - destruct (epop8_view _ _ _ _ _ Hv) as (m1 & -> & Hv1). cbn. by exists m1.
  - apply Forall_cons in Hl as [Ho Hl].
    change (items_text (o :: l)) with (obj_text o ++ items_text l) in *.
    rewrite length_app in Hf. pose proof (obj_text_len o) as Hlen.
    rewrite <- app_assoc in Hv. pose proof (view_len_bound _ _ _ _ Hv) as Hb.
    rewrite length_app in Hb. destruct (obj_text_first o ltac:(lia)) as (x & t & Ex & Hx & Hne).
    rewrite Ex in Hv. destruct (epop8_push8 _ _ _ _ _ Hv Hx) as (m1 & m2 & -> & E2 & _ & Hv2).
    cbn [mbind Er_bind]. zdecide (x =? 101). rewrite E2. cbn [mbind Er_bind].
    rewrite app_comm_cons, <- Ex in Hv2.
    destruct (Ho fuel m2 _ _ _ ltac:(lia) Hv2) as (m3 & -> & Hv3). cbn [mbind Er_bind].
    destruct (IH fuel m3 _ c post (mirror o :: acc) Hl ltac:(lia) Hv3) as (m4 & -> & Hv4).
    exists m4. split; [|by rewrite <- !app_assoc in *].
    cbn [map rev]. by rewrite <- app_assoc.
Qed.

Definition mirror_entries (d : Dict) : Dict := rev (map (fun e => (fst e, mirror (snd e))) d).

(** [zs]: zeros in front of the first key, which the writer may insert. *)
Lemma readDict_entries d : forall fuel zs m pre c post acc,
  Forall (fun e => parses readGeneric (obj_text (snd e)) (mirror (snd e))) d ->
  (2 * length (entries_text d) + 1 <= fuel)%nat ->
  Forall (eq 48) zs -> (d = [] -> zs = []) ->
  msg_view m pre (zs ++ entries_text d ++ 101 :: c) post ->
  exists m', readDict fuel m acc = Ret (m', mirror_entries d ++ acc) /\
    msg_view m' (pre ++ zs ++ entries_text d ++ [101]) c post.
Proof.
  induction d as [|[k v] d IH]; intros fuel zs m pre c post acc Hd Hf Hz Hzs Hv;
    (destruct fuel as [|fuel]; [lia|]); cbn [readDict].
  - rewrite (Hzs eq_refl) in *. destruct (epop8_view _ _ _ _ _ Hv) as (m1 & -> & Hv1).
    cbn. by exists m1.
  - apply Forall_cons in Hd as [Ho Hd]. cbn [snd] in Ho.
    change (entries_text ((k, v) :: d)) with ((str_text k ++ obj_text v) ++ entries_text d) in *.
    rewrite !length_app in Hf. pose proof (obj_text_len v) as Hlen.
    pose proof (view_len_bound _ _ _ _ Hv) as Hb. rewrite !length_app in Hb.
    assert (Hfirst : exists x t, zs ++ ((str_text k ++ obj_text v) ++ entries_text d) ++ 101 :: c
      = x :: t /\ byte x /\ x <> 101).
    { destruct Hz as [|z zs <- _]; [|by eexists _, _].
      destruct (str_text_first k) as (x & t & -> & Hx).
      { unfold str_text in Hb. rewrite length_app in Hb. cbn in Hb. lia. }
      eexists x, _. split; [done|]. unfold digit_char in Hx. unfold fits. lia. }
    destruct Hfirst as (x & t & Ex & Hx & Hne). rewrite Ex in Hv.
    destruct (epop8_push8 _ _ _ _ _ Hv Hx) as (m1 & m2 & -> & E2 & _ & Hv2).
    cbn [mbind Er_bind]. zdecide (x =? 101). rewrite E2. cbn [mbind Er_bind].
    rewrite <- Ex, <- !app_assoc in Hv2.
    destruct (readString_view m2 pre zs k _ post Hz Hv2) as (m3 & -> & Hv3). cbn [mbind Er_bind].
    destruct (Ho fuel m3 _ _ _ ltac:(lia) Hv3) as (m4 & -> & Hv4). cbn [mbind Er_bind].
    destruct (IH fuel [] m4 _ c post ((k, mirror v) :: acc) Hd ltac:(lia) ltac:(constructor)
      ltac:(done) Hv4) as (m5 & -> & Hv5).
    exists m5. split; [|by rewrite <- !app_assoc in *].
    unfold mirror_entries. cbn [map rev]. by rewrite <- app_assoc.
Qed.

Lemma readGeneric_parses o : obj_ok o -> parses readGeneric (obj_text o) (mirror o).
Proof.
  induction o as [n|s|l IH|d IH] using Object_rect_nested; intros Hok fuel m pre c post Hf Hv;
    (destruct fuel as [|fuel]; [pose proof (obj_text_len (Object_INTEGER 0)); cbn in Hf; try lia|]).
  - cbn [readGeneric obj_text mirror app] in *. rewrite <- app_assoc in Hv.
    destruct (epop8_view _ _ _ _ _ Hv) as (m1 & -> & Hv1). cbn [mbind Er_bind Z.eqb Pos.eqb].
    destruct (readInt_view m1 _ n c post Hok Hv1) as (m2 & -> & Hv2). cbn [mbind Er_bind].
    exists m2. split; [done|]. by rewrite <- app_assoc in Hv2.
  - pose proof (obj_text_len (Object_STRING s)). cbn [obj_text] in *. lia.
  - cbn [readGeneric obj_text mirror]. cbn [obj_text] in Hv.
    pose proof (view_len_bound _ _ _ _ Hv) as Hb. rewrite length_app in Hb.
    destruct (str_text_first s) as (x & t & Ex & Hx).
    { unfold str_text in Hb. rewrite length_app in Hb. cbn in Hb. lia. }
    rewrite Ex in Hv. unfold digit_char in Hx.
    destruct (epop8_push8 _ _ _ _ _ Hv) as (m1 & m2 & -> & E2 & _ & Hv2); [unfold fits; lia|].
    cbn [mbind Er_bind]. zdecide (x =? 108). zdecide (x =? 100). zdecide (x =? 105).
    rewrite (proj2 (is_digit_spec x)) by (unfold digit_char; lia). rewrite E2. cbn [mbind Er_bind].
    rewrite app_comm_cons, <- Ex in Hv2.
    destruct (readString_view m2 pre [] s c post) as (m3 & -> & Hv3); [constructor|done|].
    cbn [mbind Er_bind]. by exists m3.
  - cbn [readGeneric obj_text mirror app] in *. fold (items_text l) in *. rewrite <- app_assoc in Hv.
    destruct (epop8_view _ _ _ _ _ Hv) as (m1 & -> & Hv1). cbn [mbind Er_bind Z.eqb Pos.eqb].
    destruct (readList_items l fuel m1 (pre ++ [108]) c post []) as (m2 & -> & Hv2); [|..|done|].
    + cbn [obj_ok] in Hok. clear -IH Hok. induction IH as [|o l Ho _ IHl]; constructor.
      * apply Ho, Hok.
      * apply IHl, Hok.
    + cbn in Hf. rewrite length_app in Hf. cbn in Hf. lia.
    + cbn [mbind Er_bind]. rewrite app_nil_r. exists m2. split; [done|].
      by rewrite <- app_assoc in Hv2.
  - cbn [readGeneric obj_text mirror app] in *. fold (entries_text d) in *.
    rewrite <- app_assoc in Hv.
    destruct (epop8_view _ _ _ _ _ Hv) as (m1 & -> & Hv1). cbn [mbind Er_bind Z.eqb Pos.eqb].
    destruct (readDict_entries d fuel [] m1 (pre ++ [100]) c post []) as (m2 & -> & Hv2);
      [|..|done|].
    + cbn [obj_ok] in Hok. clear -IH Hok. induction IH as [|[k v] d Ho _ IHl]; constructor.
      * apply Ho, Hok.
      * apply IHl, Hok.
    + cbn in Hf. rewrite length_app in Hf. cbn in Hf. lia.
    + constructor.
    + done.
    + cbn [mbind Er_bind]. rewrite app_nil_r. exists m2. split; [done|].
      by rewrite <- app_assoc in Hv2.
Qed.

(** ** Alignment *)

Definition position (m : Message) : Z := msg_addr m + msg_bytes m.

Lemma epush8_position m x m' : Message_epush8 m x = Ret m' -> position m' = position m - 1.
Proof.
  unfold Message_epush8, Message_pushH. intros [H1 H2]%epush_addr. unfold position.
  rewrite H1, H2. change (i32 (Z.of_nat 1)) with 1. lia.
Qed.

Lemma epop8_position m m' x : Message_epop8 m = Ret (m', x) -> position m' = position m + 1.
Proof.
  unfold Message_epop8, Message_popH, Message_epop, Message_eshift. change (i32 (Z.of_nat 1)) with 1.
  cbn [Z.opp]. repeat (case_match; cbn [mbind Er_bind]; try done). intros [= <- _].
  unfold position. cbn. lia.
Qed.

Lemma align_loop_view fuel : forall k m pre room c post,
  1 <= k <= Z.of_nat fuel + 1 -> k <= 8 -> position m mod 8 = k mod 8 ->
  msg_view m (pre ++ room) c post -> len room = k ->
  exists m', align_loop fuel m = Ret m' /\ msg_view m' pre (replicate (Z.to_nat k) 48 ++ c) post /\
    position m' = position m - k /\ misaligned m' = false.
Proof.
  induction fuel as [|fuel IH]; intros k m pre room c post Hk Hk8 Hpos Hv Hr; cbn [align_loop].
  all: destruct (push8_room m pre room c post 48 (Z.to_nat (k - 1)) Hv) as (m1 & r1 & E1 & Hr1 & Hv1);
    [lia|done|]; rewrite E1; cbn [mbind Er_bind]; apply epush8_position in E1.
  all: assert (Hm1 : position m1 mod 8 = (k - 1) mod 8)
    by (rewrite E1, Zminus_mod, Hpos, <- Zminus_mod; done).
  all: unfold misaligned; change (msg_addr m1 + msg_bytes m1) with (position m1); rewrite Hm1.
  - assert (k = 1) as -> by lia. destruct r1; [|done]. rewrite app_nil_r in Hv1. cbn.
    exists m1. split_and!; try done. unfold misaligned.
    change (msg_addr m1 + msg_bytes m1) with (position m1). by rewrite Hm1.
  - rewrite Z.mod_small by lia. destruct (Z.eqb_spec (k - 1) 0) as [E|E]; cbn [negb].
    + assert (k = 1) as -> by lia. destruct r1; [|done]. rewrite app_nil_r in Hv1.
      exists m1. split_and!; try done. unfold misaligned.
      change (msg_addr m1 + msg_bytes m1) with (position m1). by rewrite Hm1.
    + destruct (IH (k - 1) m1 pre r1 (48 :: c) post) as (m' & -> & Hv' & Hp & Ha); try done; try lia.
      exists m'. split; [done|]. split; [|split; [lia|done]].
      replace (replicate (Z.to_nat k) 48) with (replicate (Z.to_nat (k - 1)) 48 ++ [48]).
      * by rewrite <- app_assoc.
      * replace (Z.to_nat k) with (Z.to_nat (k - 1) + 1)%nat by lia. by rewrite replicate_add.
Qed.

Lemma digits_first fuel : forall n, 0 < n < 10 ^ Z.of_nat fuel ->
  exists x t, digits fuel n = x :: t /\ 49 <= x <= 57.
Proof.
  induction fuel as [|fuel IH]; intros n Hn; cbn [digits].
  { change (10 ^ Z.of_nat 0) with 1 in Hn. lia. }
  destruct (Z.ltb_spec n 10) as [Hlt|Hge].
  - rewrite Z.mod_small by lia. eexists _, _. split; [done|]. lia.
  - rewrite Nat2Z.inj_succ, Z.pow_succ_r in Hn by lia.
    destruct (IH (n / 10)) as (x & t & -> & Hx).
    { split; [apply Z.div_str_pos; lia|]. apply Z.div_lt_upper_bound; lia. }
    by eexists x, _.
Qed.

(** A dictionary which can be sent: it is not empty and its first key neither. *)
Definition sendable (d : Dict) : Prop :=
  match d with (k, _) :: _ => k <> [] | [] => False end /\ obj_ok (Object_DICT d).

Lemma entries_first d : sendable d -> len (entries_text d) < 2 ^ 31 ->
  exists x t, entries_text d = x :: t /\ 49 <= x <= 57.
Proof.
  intros [Hk _] Hl. destruct d as [|[k v] d]; [done|].
  change (entries_text ((k, v) :: d)) with ((str_text k ++ obj_text v) ++ entries_text d) in *.
  unfold str_text in *. rewrite !length_app in Hl. cbn in Hl.
  assert (0 < len k) by (destruct k; [done|cbn; lia]).
  unfold num_text. zdecide (len k <? 0).
  destruct (digits_first 19 (len k) ltac:(lia)) as (x & t & -> & Hx).
  eexists x, _. split; [|done]. by rewrite <- !app_assoc.
Qed.

Lemma write_view d m pre room c post :
  sendable d -> msg_view m (pre ++ room) c post -> length room = (7 + length (dict_text d))%nat ->
  exists m' spare zs, BencMessageWriter_write d m = Ret m' /\ misaligned m' = false /\
    Forall (eq 48) zs /\ (length spare + length zs = 7)%nat /\
    msg_view m' (pre ++ spare) (100 :: zs ++ entries_text d ++ 101 :: c) post.
Proof.
  intros Hd Hv Hr. pose proof (view_len_bound _ _ _ _ Hv) as Hb. rewrite length_app in Hb.
  destruct (list_split_at 7 room ltac:(lia)) as (r7 & r & -> & Hr7). rewrite length_app in Hr, Hb.
  rewrite app_assoc in Hv.
  destruct (writeGeneric_produces (Object_DICT d) (proj2 Hd) m _ r c post Hv) as (m1 & E1 & Hv1);
    [change (obj_text (Object_DICT d)) with (dict_text d); lia|].
  change (writeGeneric (Object_DICT d) m) with (writeDict writeGeneric d m) in E1.
  change (obj_text (Object_DICT d)) with (dict_text d) in Hv1.
  unfold BencMessageWriter_write. rewrite E1. cbn [mbind Er_bind]. unfold dict_text in *.
  cbn [app length] in *. rewrite <- app_assoc in Hv1. cbn [app] in Hv1.
  rewrite length_app in Hr. cbn in Hr.
  destruct (misaligned m1) eqn:Hmis; cbn [negb].
  2: { exists m1, r7, []. rewrite Hmis. split_and!; [done..| |done]. cbn; lia. }
  destruct (epop8_view _ _ _ _ _ Hv1) as (m2 & E2 & Hv2). rewrite E2.
  cbn [mbind Er_bind Z.eqb Pos.eqb Assert_true].
  destruct (entries_first d Hd ltac:(lia)) as (x & t & Ex & Hx).
  replace (get (msg_read m2 0 1) 0) with x.
  2: { rewrite Ex in Hv2. pose proof (msg_read_view m2 _ [] [x] (t ++ 101 :: c) post Hv2) as Hrd.
       change (msg_read m2 0 1) with (msg_read m2 (len (@nil Z)) (len [x])). by rewrite Hrd. }
  zdecide (x =? 101). cbn [negb Assert_true mbind Er_bind].
  replace (x >=? 49) with true by lia. replace (x <=? 57) with true by lia.
  cbn [andb Assert_true mbind Er_bind].
  (* the position modulo 8 *)
  set (a := position m1 mod 8). assert (Ha : 0 < a < 8).
  { pose proof (Z.mod_pos_bound (position m1) 8). unfold misaligned in Hmis.
    apply negb_true_iff, Z.eqb_neq in Hmis. unfold a, position in *. lia. }
  destruct (list_split_at (7 - a) r7 ltac:(lia)) as (q1 & q2 & -> & Hq). rewrite length_app in Hr7.
  rewrite <- !app_assoc in Hv2.
  replace (pre ++ q1 ++ q2 ++ [100]) with ((pre ++ q1) ++ (q2 ++ [100])) in Hv2
    by (by rewrite <- !app_assoc).
  destruct (align_loop_view 7 (a + 1) m2 (pre ++ q1) (q2 ++ [100]) (entries_text d ++ 101 :: c) post)
    as (m3 & -> & Hv3 & Hp3 & _); [lia|lia| |exact Hv2|rewrite length_app; cbn; lia|].
  { apply epop8_position in E2. rewrite E2. unfold a. by rewrite Zplus_mod_idemp_l. }
  cbn [mbind Er_bind]. replace (Z.to_nat (a + 1)) with (S (Z.to_nat a)) in Hv3 by lia.
  cbn [replicate app] in Hv3.
  destruct (epop8_view _ _ _ _ _ Hv3) as (m4 & E4 & Hv4). rewrite E4. cbn [mbind Er_bind].
  destruct (epush8_view m4 _ 48 _ post 100 Hv4) as (m5 & E5 & Hv5); [done|].
  exists m5, q1, (replicate (Z.to_nat a) 48). split; [done|]. split_and!.
  - apply epop8_position in E2, E4. apply epush8_position in E5. unfold misaligned.
    change (msg_addr m5 + msg_bytes m5) with (position m5).
    replace (position m5) with (position m1 - a) by lia. unfold a.
    by rewrite Zminus_mod_idemp_r, Z.sub_diag.
  - by apply Forall_replicate.
  - rewrite length_replicate. lia.
  - done.
Qed.

Lemma read_view d zs m pre c post :
  sendable d -> Forall (eq 48) zs -> msg_view m pre (100 :: zs ++ entries_text d ++ 101 :: c) post ->
  exists m', BencMessageReader_read m = Ret (m', mirror_entries d) /\ msg_content m' = c.
Proof.
  intros Hd Hz Hv. unfold BencMessageReader_read.
  destruct (epop8_view _ _ _ _ _ Hv) as (m2 & -> & Hv2). cbn [mbind Er_bind Z.eqb Pos.eqb negb].
  destruct (readDict_entries d (reader_fuel m2) zs m2 _ c post [] ltac:(clear -Hd;
    destruct Hd as [_ Hd]; cbn [obj_ok] in Hd; induction d as [|[k v] d IH]; constructor;
    [by apply readGeneric_parses, Hd|apply IH, Hd]) ltac:(unfold reader_fuel;
    rewrite (msg_view_length _ _ _ _ Hv2), !length_app; cbn; lia) Hz ltac:(by intros ->; destruct Hd)
    Hv2) as (m3 & -> & Hv3).
  exists m3. rewrite app_nil_r. split; [done|]. by eapply msg_view_content.
Qed.

(** [C30] Bencoded messages survive the round trip up to order: a dictionary which
    is not empty (nor its first key) and whose integers have a decimal text,
    written in front of a message with enough room, starts at an address which is
    a multiple of eight and is read back, with every list and every dictionary in
    the opposite order; what follows it in the message is not touched. *)
Theorem benc_roundtrip d m pre room c post :
  sendable d -> msg_view m (pre ++ room) c post -> length room = (7 + length (dict_text d))%nat ->
  exists m1 m2, BencMessageWriter_write d m = Ret m1 /\
    (msg_addr m1 + msg_bytes m1) mod 8 = 0 /\
    BencMessageReader_read m1 = Ret (m2, mirror_entries d) /\ msg_content m2 = c.
Proof.
  intros Hd Hv Hr. destruct (write_view d m pre room c post Hd Hv Hr)
    as (m1 & spare & zs & E1 & Hal & Hz & _ & Hv1).
  destruct (read_view d zs m1 _ c post Hd Hz Hv1) as (m2 & E2 & Hc). exists m1, m2.
  split_and!; try done. unfold misaligned in Hal. by apply negb_false_iff, Z.eqb_eq in Hal.
Qed.

(** ** The text is bytes if the strings are *)

Definition str_bytes (s : list Z) : Prop := bytes s /\ len s < 2 ^ 31.

Fixpoint obj_bytes (o : Object) : Prop :=
  match o with
  | Object_INTEGER n => int64_ok n
  | Object_STRING s => str_bytes s
  | Object_LIST l => fold_right and True (map obj_bytes l)
  | Object_DICT d => fold_right and True (map (fun e => str_bytes (fst e) /\ obj_bytes (snd e)) d)
  end.

Lemma num_text_bytes n : int64_ok n -> bytes (num_text n).
Proof.
  intros Hn. destruct (num_text_shape n Hn) as (ds & -> & Hds & _). apply bytes_app. split.
  - destruct (n <? 0); [apply Forall_singleton; unfold fits; lia|constructor].
  - eapply Forall_impl; [exact Hds|]. unfold digit_char, fits. lia.
Qed.

Lemma str_text_bytes s : str_bytes s -> bytes (str_text s).
Proof.
  intros [Hb Hl]. unfold str_text. apply bytes_app. split; [apply num_text_bytes; unfold int64_ok; lia|].
  apply Forall_cons. split; [unfold fits; lia|done].
Qed.

Lemma obj_text_bytes o : obj_bytes o -> bytes (obj_text o).
Proof.
  assert (Hc : forall x, 0 <= x < 256 -> byte x) by (intros x Hx; exact Hx).
  induction o as [n|s|l IH|d IH] using Object_rect_nested; cbn [obj_bytes obj_text]; intros Ho.
  - apply Forall_cons. split; [apply Hc; lia|]. apply bytes_app. split; [by apply num_text_bytes|].
    apply Forall_singleton, Hc. lia.
  - by apply str_text_bytes.
  - apply Forall_cons. split; [apply Hc; lia|]. apply bytes_app. split; [|apply Forall_singleton, Hc; lia].
    induction IH as [|x l Hx _ IHl]; [constructor|]. cbn in Ho |- *. apply bytes_app. naive_solver.
  - apply Forall_cons. split; [apply Hc; lia|]. apply bytes_app. split; [|apply Forall_singleton, Hc; lia].
    induction IH as [|[k x] d Hx _ IHd]; [constructor|]. cbn in Ho, Hx |- *. rewrite <- app_assoc.
    apply bytes_app. split; [apply str_text_bytes, Ho|]. apply bytes_app. naive_solver.
Qed.

(** ** The reader terminates *)

(** [r] does not run out of fuel, and leaves at most [n] bytes. *)
Definition leaves {A} (n : nat) (r : Er (Message * A)) : Prop :=
  match r with
  | Abort why => why <> "out of fuel"%string
  | Ret (m, _) => exists pre c post, msg_view m pre c post /\ bytes c /\ (length c <= n)%nat
  end.

Lemma leaves_bind {A B} n k (r : Er (Message * A)) (f : Message * A -> Er (Message * B)) :
  leaves k r ->
  (forall m a pre c post, msg_view m pre c post -> bytes c -> (length c <= k)%nat ->
     leaves n (f (m, a))) ->
  leaves n (r ≫= f).
Proof.
  intros Hr Hf. destruct r as [[m a]|why]; cbn [mbind Er_bind]; [|done].
  destruct Hr as (pre & c & post & Hv & Hb & Hl). by eapply Hf.
Qed.

(** What is read first: nothing is left, or the first byte is taken. *)
Lemma epop8_cases m pre c post :
  msg_view m pre c post -> bytes c ->
  (c = [] /\ Message_epop8 m = Abort "buffer underflow") \/
  (exists x t m', c = x :: t /\ Message_epop8 m = Ret (m', x) /\ byte x /\ bytes t /\
     msg_view m' (pre ++ [x]) t post).
Proof.
  intros Hv Hb. destruct c as [|x t].
  - left. split; [done|]. unfold Message_epop8, Message_popH, Message_epop, Message_eshift.
    rewrite (msg_view_length _ _ _ _ Hv). done.
  - right. apply Forall_cons in Hb as [Hx Ht]. destruct (epop8_view _ _ _ _ _ Hv) as (m' & E & Hv').
    by exists x, t, m'.
Qed.

Lemma read_loop_leaves fuel : forall m pre chr c post acc neg,
  msg_view m (pre ++ [chr]) c post -> byte chr -> bytes c -> (length c <= fuel)%nat ->
  leaves (if is_digit chr then length c else S (length c)) (read_loop fuel m chr acc neg).
Proof.
  induction fuel as [|fuel IH]; intros m pre chr c post acc neg Hv Hx Hb Hf; cbn [read_loop];
    destruct (is_digit chr).
  2, 4: destruct (epush8_view m pre chr c post chr Hv Hx) as (m' & -> & Hv'); cbn;
    exists pre, (chr :: c), post; split_and!; [done|by constructor|cbn; lia].
  all: rewrite (msg_view_length _ _ _ _ Hv); destruct (Z.eqb_spec (len c) 0) as [E|E];
    [by eexists _, c, _|].
  - destruct c; [done|cbn in Hf; lia].
  - destruct (epop8_cases _ _ _ _ Hv Hb) as [[-> _]|(x & t & m' & -> & -> & Hx' & Hb' & Hv')]; [done|].
    cbn [mbind Er_bind]. cbn [length] in *.
    pose proof (IH m' (pre ++ [chr]) x t post) as H. specialize (H
      (i64 (i64 (acc * 10) + (chr - 48))) neg Hv' Hx' Hb' ltac:(lia)).
    destruct (read_loop fuel m' x _ neg) as [[m2 n]|]; [|done].
    destruct H as (p & c & q & H1 & H2 & H3). exists p, c, q. split_and!; try done.
    destruct (is_digit x); lia.
Qed.

Lemma Base10_read_leaves m pre c post :
  msg_view m pre c post -> bytes c -> leaves (pred (length c)) (Base10_read m).
Proof.
  intros Hv Hb. unfold Base10_read.
  destruct (epop8_cases _ _ _ _ Hv Hb) as [[-> ->]|(x & t & m1 & -> & -> & Hx & Ht & Hv1)]; [done|].
  cbn [mbind Er_bind length pred].
  assert (Hgo : forall m2 p y u neg, msg_view m2 (p ++ [y]) u post -> byte y -> bytes u ->
    (length u <= length t)%nat ->
    leaves (length t) (if is_digit y then read_loop (Z.to_nat (msg_length m2)) m2 y 0 neg
      else _ ← Message_epush8 m2 y; Abort "No base10 characters found")).
  { intros m2 p y u neg Hv2 Hy Hu Hl. destruct (is_digit y) eqn:Ed.
    - rewrite (msg_view_length _ _ _ _ Hv2), Nat2Z.id.
      pose proof (read_loop_leaves (length u) m2 p y u post 0 neg Hv2 Hy Hu ltac:(lia)) as H.
      rewrite Ed in H. destruct (read_loop _ _ _ _ _) as [[m3 n]|]; [|done].
      destruct H as (p' & c & q & H1 & H2 & H3). exists p', c, q. split_and!; try done. lia.
    - destruct (epush8_view m2 p y u post y Hv2 Hy) as (m3 & -> & _). done. }
  destruct (x =? 45); cbn [mbind Er_bind].
  - destruct (epop8_cases _ _ _ _ Hv1 Ht) as [[-> ->]|(y & u & m2 & -> & -> & Hy & Hu & Hv2)]; [done|].
    cbn [mbind Er_bind]. apply (Hgo m2 (pre ++ [x]) y u true); try done. cbn. lia.
  - by apply (Hgo m1 pre x t false).
Qed.

Lemma readInt_leaves m pre c post :
  msg_view m pre c post -> bytes c -> leaves (pred (length c)) (readInt m).
Proof.
  intros Hv Hb. unfold readInt. eapply leaves_bind; [by eapply Base10_read_leaves|].
  intros m1 n p u q Hv1 Hu Hl.
  destruct (epop8_cases _ _ _ _ Hv1 Hu) as [[-> ->]|(x & t & m2 & -> & -> & _ & Ht & Hv2)]; [done|].
  cbn [mbind Er_bind]. destruct (x =? 101); cbn; [|done]. cbn in Hl.
  exists (p ++ [x]), t, q. split_and!; try done. lia.
Qed.

Lemma readString_leaves m pre c post :
  msg_view m pre c post -> bytes c -> leaves (pred (length c)) (readString m).
Proof.
  intros Hv Hb. unfold readString. eapply leaves_bind; [by eapply Base10_read_leaves|].
  intros m1 n p u q Hv1 Hu Hl. destruct (Z.ltb_spec n 0) as [|Hn]; [done|].
  destruct (epop8_cases _ _ _ _ Hv1 Hu) as [[-> ->]|(x & t & m2 & -> & -> & _ & Ht & Hv2)]; [done|].
  cbn [mbind Er_bind length] in *. destruct (x =? 58); cbn [negb]; [|done].
  rewrite (msg_view_length _ _ _ _ Hv2). destruct (Z.gtb_spec n (len t)) as [|Hle]; [done|].
  destruct (list_split_at n t ltac:(lia)) as (s & r & -> & Hs).
  destruct (epop_view m2 _ s r q n Hv2 ltac:(lia)) as (m3 & -> & Hv3 & _).
  apply bytes_app in Ht as [_ Hr]. rewrite length_app in Hl.
  exists ((p ++ [x]) ++ s), r, q. split_and!; try done. lia.
Qed.

Lemma leaves_mono {A} n n' (r : Er (Message * A)) : (n <= n')%nat -> leaves n r -> leaves n' r.
Proof.
  intros Hn. destruct r as [[m a]|]; [|done]. intros (p & c & q & H1 & H2 & H3).
  exists p, c, q. split_and!; try done. lia.
Qed.

Lemma leaves_ret {A} n m (a : A) pre c post :
  msg_view m pre c post -> bytes c -> (length c <= n)%nat -> leaves n (Ret (m, a)).
Proof. intros. by exists pre, c, post. Qed.

Lemma readers_leave fuel :
  (forall m pre c post, msg_view m pre c post -> bytes c -> (2 * length c + 1 <= fuel)%nat ->
     leaves (pred (length c)) (readGeneric fuel m)) /\
  (forall m pre c post last, msg_view m pre c post -> bytes c -> (2 * length c + 2 <= fuel)%nat ->
     leaves (length c) (readList fuel m last)) /\
  (forall m pre c post last, msg_view m pre c post -> bytes c -> (2 * length c + 2 <= fuel)%nat ->
     leaves (length c) (readDict fuel m last)).
Proof.
  induction fuel as [|fuel (IG & IL & ID)]; [split_and!; intros; lia|]. split_and!.
  - intros m pre c post Hv Hb Hf. cbn [readGeneric].
    destruct (epop8_cases _ _ _ _ Hv Hb) as [[-> ->]|(x & t & m1 & -> & -> & Hx & Ht & Hv1)]; [done|].
    cbn [mbind Er_bind length pred] in *.
    destruct (x =? 108); [|destruct (x =? 100); [|destruct (x =? 105); [|destruct (is_digit x)]]].
    + eapply leaves_bind; [eapply (IL m1); [done|done|lia]|]. intros; by eapply leaves_ret.
    + eapply leaves_bind; [eapply (ID m1); [done|done|lia]|]. intros; by eapply leaves_ret.
    + eapply leaves_bind; [by eapply readInt_leaves|]. intros; eapply leaves_ret; try done; lia.
    + destruct (epush8_view m1 _ x t post x Hv1 Hx) as (m2 & -> & Hv2). cbn [mbind Er_bind].
      eapply leaves_bind; [eapply readString_leaves; [done|by constructor]|].
      intros; eapply leaves_ret; try done.
    + done.
  - intros m pre c post last Hv Hb Hf. cbn [readList].
    destruct (epop8_cases _ _ _ _ Hv Hb) as [[-> ->]|(x & t & m1 & -> & -> & Hx & Ht & Hv1)]; [done|].
    cbn [mbind Er_bind length] in *. destruct (x =? 101); [eapply leaves_ret; try done; lia|].
    destruct (epush8_view m1 _ x t post x Hv1 Hx) as (m2 & -> & Hv2). cbn [mbind Er_bind].
    eapply leaves_bind; [eapply (IG m2); [done|by constructor|cbn; lia]|].
    intros m3 a p u q Hv3 Hu Hl. cbn in Hl. eapply leaves_mono; [|eapply (IL m3); [done|done|lia]]. lia.
  - intros m pre c post last Hv Hb Hf. cbn [readDict].
    destruct (epop8_cases _ _ _ _ Hv Hb) as [[-> ->]|(x & t & m1 & -> & -> & Hx & Ht & Hv1)]; [done|].
    cbn [mbind Er_bind length] in *. destruct (x =? 101); [eapply leaves_ret; try done; lia|].
    destruct (epush8_view m1 _ x t post x Hv1 Hx) as (m2 & -> & Hv2). cbn [mbind Er_bind].
    eapply leaves_bind; [eapply readString_leaves; [done|by constructor]|].
    intros m3 k p u q Hv3 Hu Hl. cbn in Hl.
    eapply leaves_bind; [eapply (IG m3); [done|done|lia]|].
    intros m4 a p' u' q' Hv4 Hu' Hl'. eapply leaves_mono; [|eapply (ID m4); [done|done|lia]]. lia.
Qed.

(** [C31] The reader terminates on every input: whatever bytes a message holds, the
    nested loops of [BencMessageReader_read] stop within the fuel of two steps
    per byte, by returning a dictionary and a strictly shorter message or by
    raising an error. *)
Theorem benc_reader_terminates m pre c post :
  msg_view m pre c post -> bytes c -> leaves (pred (length c)) (BencMessageReader_read m).
Proof.
  intros Hv Hb. unfold BencMessageReader_read.
  destruct (epop8_cases _ _ _ _ Hv Hb) as [[-> ->]|(x & t & m1 & -> & -> & Hx & Ht & Hv1)]; [done|].
  cbn [mbind Er_bind length pred]. destruct (x =? 100); cbn [negb]; [|done].
  eapply readers_leave; try done. unfold reader_fuel. rewrite (msg_view_length _ _ _ _ Hv1). lia.
Qed.

(** A message which does not open a dictionary stops the process, although
    [BencMessageReader_readNoExcept] is there to report the error. *)
Lemma readNoExcept_aborts m pre x c post :
  msg_view m pre (x :: c) post -> x <> 100 ->
  BencMessageReader_readNoExcept m =
    Abort "Message does not begin with a 'd' to open the dictionary".
Proof.
  intros Hv Hx. unfold BencMessageReader_readNoExcept, BencMessageReader_read.
  destruct (epop8_view _ _ _ _ _ Hv) as (m1 & -> & _). cbn [mbind Er_bind]. by zdecide (x =? 100).
Qed.

(** ** Witnesses *)

(** [d 1:a l i-5e 2:xy e 1:b i7e e], from the dictionary. *)
Definition sample : Dict :=
  [([97], Object_LIST [Object_INTEGER (-5); Object_STRING [120; 121]]); ([98], Object_INTEGER 7)].

Definition sample_msg : Message :=
  {| msg_length := 2; msg_padding := 30; msg_bytes := 30; msg_capacity := 2;
     msg_associatedFd := 0; msg_addr := 4096; msg_mem := zeros 30 ++ [1; 2] |}.

Lemma sample_msg_view : msg_view sample_msg (zeros 2 ++ zeros 28) [1; 2] [].
Proof. exists [], []. by vm_compute. Qed.

Lemma benc_roundtrip_witness :
  exists m1 m2, BencMessageWriter_write sample sample_msg = Ret m1 /\
    (msg_addr m1 + msg_bytes m1) mod 8 = 0 /\
    BencMessageReader_read m1 = Ret (m2, mirror_entries sample) /\ msg_content m2 = [1; 2].
Proof.
  apply (benc_roundtrip sample sample_msg (zeros 2) (zeros 28) [1; 2] []).
  - split; [done|]. vm_compute. done.
  - apply sample_msg_view.
  - by vm_compute.
Defined.

Lemma benc_reader_terminates_witness : leaves 1 (BencMessageReader_read sample_msg).
Proof.
  apply (benc_reader_terminates sample_msg (zeros 2 ++ zeros 28) [1; 2] []).
  - apply sample_msg_view.
  - by repeat constructor.
Defined.

(** Reading a dictionary turns it round, so that a later put can add a key which
    is already there. *)
Example put_after_read_duplicates :
  map fst (fst (putObject (mirror_entries sample) [97] (Object_INTEGER 1))) = [[97]; [98]; [97]].
Proof. done. Qed.
