(* ===== verification/SchemeBenc.v ===== *)
(** * switch/EncodingScheme.c: schemes as bencoded lists

    [EncodingScheme_asList] and [EncodingScheme_fromList]; the rest of the file is
    in [EncodingScheme]. *)
From S2P Require Import Prelude Bits Hex EncodingScheme Benc.
Import Hex.Hex.

(** ** Definitions *)

(** [while (pfx->bytes[0] == '0' && pfx->len > 2)]: the eight characters are
    stripped in pairs. *)
Fixpoint strip_loop (fuel : nat) (pfx : list Z) : list Z :=
  match fuel with
  | O => pfx
  | S fuel =>
      if (get pfx 0 =? 48) && (len pfx >? 2) then strip_loop fuel (drop 2 pfx) else pfx
  end.

Definition prefix_string (form : EncodingScheme_Form) : list Z :=
  if prefixLen form =? 0 then []
  else
    let prefix_be := le_bytes 4 (Endian_hostToBigEndian32 (prefix form)) in
    strip_loop 4 (snd (Hex_encode (String_newBinary None 8) 8 prefix_be)).

Definition form_dict (form : EncodingScheme_Form) : Dict :=
  let d := fst (Dict_putInt Dict_new (chars "prefixLen") (prefixLen form)) in
  let d := fst (Dict_putInt d (chars "bitCount") (bitCount form)) in
  fst (Dict_putString d (Some (chars "prefix")) (Some (prefix_string form))).

(** [for (i = count - 1; i >= 0; i--)] adds in front. *)
Definition EncodingScheme_asList (scheme : EncodingScheme) : Er List :=
  Assert_ifParanoid (EncodingScheme_isSane scheme);;
  Ret (fold_right (fun form l => List_addDict l (form_dict form)) List_new (forms scheme)).

(** One form of the list; [None] when a field is missing or not as expected. *)
Definition form_of (scheme : List) (i : Z) : option EncodingScheme_Form :=
  let form := List_getDict scheme i in
  match Dict_getInt form (Some (chars "prefixLen")), Dict_getInt form (Some (chars "bitCount")),
        Dict_getString form (Some (chars "prefix")) with
  | Some prefixLen, Some bitCount, Some prefixStr =>
      if negb (len prefixStr =? 8) then None
      else
        let '(r, prefix_be) := Hex_decode (zeros 4) 4 prefixStr in
        if negb (r =? 4) then None
        else Some {| bitCount := u16 bitCount; prefixLen := u16 prefixLen;
                     prefix := Endian_bigEndianToHost32 (le_val prefix_be) |}
  | _, _, _ => None
  end.

Fixpoint fromList_loop (n : nat) (scheme : List) (i : Z) : option (list EncodingScheme_Form) :=
  match n with
  | O => Some []
  | S n =>
      match form_of scheme i with
      | None => None
      | Some form => fs ← fromList_loop n scheme (i + 1); Some (form :: fs)
      end
  end.

Definition EncodingScheme_fromList (scheme : List) : option EncodingScheme :=
  fs ← fromList_loop (Z.to_nat (List_size scheme)) scheme 0;
  if EncodingScheme_isSane (mkScheme fs) then Some (mkScheme fs) else None.

(** ** The round trip fails *)

Lemma strip_short fuel pfx : len pfx <= 6 -> len (strip_loop fuel pfx) <= 6.
Proof.
  revert pfx. induction fuel as [|fuel IH]; intros pfx Hl; cbn [strip_loop]; [done|].
  case_match; [|done]. apply IH. rewrite length_drop. lia.
Qed.

Lemma prefix_string_short form :
  0 <= prefix form < 2 ^ 28 -> len (prefix_string form) <= 6.
Proof.
  intros Hp. unfold prefix_string. case_match; [cbn; lia|].
  replace (le_bytes 4 (Endian_hostToBigEndian32 (prefix form))) with (be_bytes 4 (prefix form)).
  2: { unfold Endian_hostToBigEndian32, Endian_byteSwap32, u32.
       by rewrite Z.mod_small, <- le_bytes_bswap by lia. }
  unfold be_bytes. cbn [le_bytes rev app].
  set (b := prefix form / 256 / 256 / 256). assert (Hb : 0 <= b < 16).
  { unfold b. rewrite !Z.div_div by lia. split; [by apply Z.div_pos; lia|].
    apply Z.div_lt_upper_bound; lia. }
  unfold Hex_encode. cbn [len]. change (u32 _) with 8.
  change (8 <? 8) with false. change (8 >? 8) with false. cbn [snd encode_loop].
  rewrite (Z.mod_small b) by lia.
  replace (Z.shiftr b 4) with 0 by (rewrite Z.shiftr_div_pow2, Z.div_small by lia; done).
  change (get hexEntities 0) with 48. 
  match goal with |- context [wr 0 (48 :: ?l) ?o] => set (rest := l); set (out := o) end.
  change (wr 0 (48 :: rest) out) with (48 :: rest).
  change (strip_loop 4 (48 :: rest)) with (strip_loop 3 (drop 2 (48 :: rest))).
  by apply strip_short.
Qed.

(** A scheme whose first prefix is below 2^28 (or which has no prefixes) is not
    recognised in its own list form: the writer drops leading zeros, the reader
    wants all eight characters. *)
Lemma fromList_asList_fails form fs l :
  0 <= prefix form < 2 ^ 28 -> EncodingScheme_asList (mkScheme (form :: fs)) = Ret l ->
  len l < 2 ^ 31 -> EncodingScheme_fromList l = None.
Proof.
  intros Hp. unfold EncodingScheme_asList. destruct (EncodingScheme_isSane _); [|done].
  cbn [mbind Er_bind Assert_true forms fold_right]. intros [= <-] Hl. set (rest := fold_right _ _ fs) in *.
  unfold EncodingScheme_fromList, List_size. unfold List_addDict, addObject in *.
  replace (Z.to_nat (i32 _)) with (S (length rest)).
  2: { cbn [length] in *. unfold i32. rewrite Z.mod_small by lia. lia. }
  cbn [fromList_loop]. pose proof (prefix_string_short form Hp) as Hs.
  assert (form_of (Object_DICT (form_dict form) :: rest) 0 = None) as ->; [|done].
  unfold form_of, List_getDict, getObject. cbn [getObject_loop Z.eqb].
  set (p := prefix_string form) in *.
  assert (Dict_getString (Some (form_dict form)) (Some (chars "prefix")) = Some p) as -> by done.
  assert (Dict_getInt (Some (form_dict form)) (Some (chars "prefixLen")) = Some (prefixLen form)) as ->
    by done.
  assert (Dict_getInt (Some (form_dict form)) (Some (chars "bitCount")) = Some (bitCount form)) as ->
    by done.
  by zdecide (len p =? 8).
Qed.

(** The scheme every node uses. *)
Example scheme_358_not_recognised :
  match EncodingScheme_asList scheme_358 with
  | Ret l => EncodingScheme_fromList l = None
  | Abort _ => False
  end.
Proof. vm_compute. done. Qed.

(** The stripping goes on as long as a pair begins with a zero, whatever its
    second character: the prefix 0x01020304 becomes "04". *)
Example prefix_digits_lost : prefix_string (mkForm 8 31 0x01020304) = chars "04".
Proof. vm_compute. done. Qed.
