(* ===== verification/ArrayList.v ===== *)
(** * util/ArrayList.c and util/QSort.h: growing arrays and comb sort

    An [ArrayList] is an array of pointers with a capacity which doubles; only
    the first [length] cells count.  [al_list] is the sequence it stands for, and
    [arraylist_refines] says what every operation does to that sequence.  The
    components that use array lists are modelled on the sequences. *)
From Stdlib Require Import Sorted.
From S2P Require Import Prelude.

(** ** QSort *)

Section QSort.
Context {A : Type} (compar : A -> A -> Z).

Definition next_gap (gap : nat) : nat :=
  let gap := (gap * 10 / 13)%nat in
  if (gap =? 9)%nat || (gap =? 10)%nat then 11%nat
  else if (gap <? 1)%nat then 1%nat else gap.

(** Exchange of two cells. *)
Definition swap (i j : nat) (a b : A) (l : list A) : list A := <[j := a]> (<[i := b]> l).

(** [for (i = 0; i < members - gap; i++)]: [count] iterations are left; true if
    there was an exchange ([worked]). *)
Fixpoint comb_pass (count i gap : nat) (l : list A) : list A * bool :=
  match count with
  | O => (l, false)
  | S count =>
      let '(l, worked) :=
        match l !! i, l !! (i + gap)%nat with
        | Some a, Some b => if compar a b >? 0 then (swap i (i + gap) a b l, true) else (l, false)
        | _, _ => (l, false)
        end in
      let '(l, worked') := comb_pass count (S i) gap l in
      (l, worked || worked')
  end.

(** [do { .. } while (gap > 1 || worked)]. *)
Fixpoint qsort_loop (fuel gap : nat) (l : list A) : Er (list A) :=
  match fuel with
  | O => Abort "out of fuel"
  | S fuel =>
      let gap := next_gap gap in
      let '(l, worked) := comb_pass (length l - gap) 0 gap l in
      if (1 <? gap)%nat || worked then qsort_loop fuel gap l else Ret l
  end.

(** The gap shrinks at least by one per round until it is 1, and then every round
    removes an inversion: [qsort_loop_returns] shows that this is enough fuel. *)
Definition QSort (base : list A) : Er (list A) :=
  let members := length base in
  if (members =? 0)%nat then Ret base
  else qsort_loop (members + members * members + 2) members base.

(** ** Inversions *)

Fixpoint inversions (l : list A) : nat :=
  match l with
  | [] => 0
  | a :: l => length (List.filter (fun b => compar a b >? 0) l) + inversions l
  end.

Lemma count_le a l : (length (List.filter (fun b => compar a b >? 0) l) <= length l)%nat.
Proof. induction l as [|b l IH]; cbn; [lia|]. destruct (_ >? 0); cbn; lia. Qed.

Lemma inversions_bound l : (inversions l <= length l * length l)%nat.
Proof.
  induction l as [|a l IH]; cbn [inversions length]; [lia|]. pose proof (count_le a l). lia.
Qed.

(** Exchanging two neighbours which are in the wrong order removes one inversion. *)
Lemma inversions_swap l1 a b l2 :
  compar a b > 0 -> compar b a <= 0 ->
  inversions (l1 ++ a :: b :: l2) = S (inversions (l1 ++ b :: a :: l2)).
Proof.
  intros Hab Hba. induction l1 as [|x l1 IH]; cbn [app inversions List.filter].
  - destruct (Z.gtb_spec (compar a b) 0), (Z.gtb_spec (compar b a) 0); cbn [length]; lia.
  - rewrite IH. rewrite !List.filter_app. cbn [List.filter].
    destruct (compar x a >? 0), (compar x b >? 0); rewrite !length_app; cbn [length]; lia.
Qed.

(** ** One pass *)

Lemma swap_split i gap a b (l : list A) :
  l !! i = Some a -> l !! (i + S gap)%nat = Some b ->
  exists l1 l2 l3, l = l1 ++ a :: l2 ++ b :: l3 /\ length l1 = i /\ length l2 = gap /\
    swap i (i + S gap) a b l = l1 ++ b :: l2 ++ a :: l3.
Proof.
  intros Ha Hb. apply list_elem_of_split_length in Ha as (l1 & k & -> & Hi).
  rewrite lookup_app_r in Hb by lia. replace (i + S gap - length l1)%nat with (S gap) in Hb by lia.
  cbn in Hb. apply list_elem_of_split_length in Hb as (l2 & l3 & -> & Hg).
  exists l1, l2, l3. split_and!; [done..|]. unfold swap.
  rewrite Hi, insert_app_r_alt by lia. rewrite Nat.sub_diag.
  change (<[0%nat:=b]> (a :: l2 ++ b :: l3)) with (b :: l2 ++ b :: l3).
  rewrite insert_app_r_alt by lia. replace (length l1 + S gap - length l1)%nat with (S gap) by lia.
  change (<[S gap:=a]> (b :: l2 ++ b :: l3)) with (b :: <[gap:=a]> (l2 ++ b :: l3)).
  rewrite Hg, insert_app_r_alt by lia. by rewrite Nat.sub_diag.
Qed.

Lemma comb_pass_perm count : forall i gap l, (0 < gap)%nat -> (comb_pass count i gap l).1 ≡ₚ l.
Proof.
  induction count as [|count IH]; intros i gap l Hg; cbn [comb_pass]; [done|].
  assert (Hstep : forall l' w, (let '(l'', w') := comb_pass count (S i) gap l' in (l'', w || w')).1 ≡ₚ l').
  { intros l' w. specialize (IH (S i) gap l' Hg). by destruct (comb_pass count (S i) gap l'). }
  destruct (l !! i) as [a|] eqn:Ha; [|apply Hstep].
  destruct (l !! (i + gap)%nat) as [b|] eqn:Hb; [|apply Hstep].
  destruct (compar a b >? 0); [|apply Hstep]. rewrite Hstep.
  destruct gap as [|gap]; [lia|].
  destruct (swap_split i gap a b l Ha Hb) as (l1 & l2 & l3 & -> & _ & _ & ->). solve_Permutation.
Qed.

Definition ordered (a b : A) : Prop := compar a b <= 0.

(** With gap 1: without an exchange the pairs were in order already, and every
    exchange removes inversions. *)
Lemma comb_pass_neighbours count : forall i l,
  (forall a b, compar a b > 0 -> compar b a <= 0) -> (i + count < length l \/ count = 0)%nat ->
  let '(l', worked) := comb_pass count i 1 l in
  if worked then (inversions l' < inversions l)%nat
  else l' = l /\ forall j a b, (i <= j < i + count)%nat -> l !! j = Some a -> l !! S j = Some b ->
         ordered a b.
Proof.
  induction count as [|count IH]; intros i l Hasym Hlen; cbn [comb_pass]; [split; [done|lia]|].
  rewrite Nat.add_1_r.
  destruct (lookup_lt_is_Some_2 l i ltac:(lia)) as [a Ha].
  destruct (lookup_lt_is_Some_2 l (S i) ltac:(lia)) as [b Hb]. rewrite Ha, Hb.
  destruct (Z.gtb_spec (compar a b) 0) as [Hgt|Hle].
  - rewrite <- Nat.add_1_r in Hb |- *.
    destruct (swap_split i 0 a b l Ha Hb) as (l1 & l2 & l3 & -> & H1 & H2 & ->).
    destruct l2; [|done]. cbn [app] in *.
    specialize (IH (i + 1)%nat (l1 ++ b :: a :: l3) Hasym).
    rewrite !length_app in *. cbn [length] in *.
    destruct (comb_pass count (i + 1) 1 _) as [l' w]. cbn [orb]. rewrite (inversions_swap l1 a b l3) by auto with lia.
    destruct w; [lia|]. destruct IH as [-> _]; lia.
  - specialize (IH (S i) l Hasym ltac:(lia)). destruct (comb_pass count (S i) 1 l) as [l' w].
    cbn [orb]. destruct w; [done|]. destruct IH as [-> IH]. split; [done|].
    intros j x y Hj Hx Hy. destruct (decide (j = i)) as [->|].
    + rewrite Ha in Hx. rewrite Hb in Hy. by simplify_eq.
    + apply (IH j); [lia|done..].
Qed.

(** ** The sort *)

Lemma next_gap_shrinks g : (1 < g)%nat -> (1 <= next_gap g < g)%nat.
Proof.
  intros Hg. unfold next_gap. pose proof (Nat.div_mod (g * 10) 13 ltac:(lia)) as Hd.
  pose proof (Nat.mod_upper_bound (g * 10) 13 ltac:(lia)).
  destruct (Nat.eqb_spec (g * 10 / 13) 9), (Nat.eqb_spec (g * 10 / 13) 10),
    (Nat.ltb_spec (g * 10 / 13) 1); cbn [orb]; lia.
Qed.

Lemma next_gap_1 : next_gap 1 = 1%nat.
Proof. done. Qed.

Context (asym : forall a b, compar a b > 0 -> compar b a <= 0).
#[local] Set Default Proof Using "All".

Lemma sorted_of_pairs l :
  (forall j a b, (j + 1 < length l)%nat -> l !! j = Some a -> l !! S j = Some b -> ordered a b) ->
  Sorted ordered l.
Proof.
  induction l as [|a l IH]; intros H; [done|]. constructor.
  - apply IH. intros j x y Hj Hx Hy. apply (H (S j)); [cbn; lia|done..].
  - destruct l as [|b l]; constructor. by apply (H 0%nat); [cbn; lia|..].
Qed.

Lemma qsort_loop_returns fuel : forall gap l,
  l <> [] -> (1 <= gap <= length l)%nat ->
  ((if (gap =? 1)%nat then 0 else gap) + (if (gap =? 1)%nat then inversions l else length l * length l)
   + 1 < fuel)%nat ->
  exists l', qsort_loop fuel gap l = Ret l' /\ l' ≡ₚ l /\ Sorted ordered l'.
Proof.
  induction fuel as [|fuel IH]; intros gap l Hne Hgap Hfuel; [lia|]. cbn [qsort_loop].
  set (g := next_gap gap). assert (Hg : (1 <= g <= gap)%nat /\ ((gap = 1 /\ g = 1) \/ g < gap)%nat).
  { unfold g. destruct (decide (gap = 1%nat)) as [->|]; [rewrite next_gap_1; lia|].
    pose proof (next_gap_shrinks gap ltac:(lia)). lia. }
  destruct Hg as [Hg1 Hg2]. pose proof (comb_pass_perm (length l - g) 0 g l ltac:(lia)) as Hperm.
  assert (Hnb := comb_pass_neighbours (length l - g) 0 l asym).
  destruct (comb_pass (length l - g) 0 g l) as [l1 w] eqn:E. cbn [fst] in Hperm.
  pose proof (Permutation_length Hperm) as Hlen. pose proof (inversions_bound l1) as Hb1.
  assert (Hne1 : l1 <> []) by (destruct l1, l; try done; cbn in Hlen; lia).
  destruct (Nat.ltb_spec 1 g) as [Hlt|Hle]; cbn [orb].
  - destruct (IH g l1) as (l' & H1 & H2 & H3); [done|lia| |exists l'; split_and!; [done|by rewrite H2|done]].
    destruct (Nat.eqb_spec g 1), (Nat.eqb_spec gap 1); lia.
  - assert (g = 1%nat) as Hgg by lia. rewrite Hgg in E. specialize (Hnb ltac:(lia)). rewrite Hgg, E in Hnb.
    destruct w.
    + destruct (IH g l1) as (l' & H1 & H2 & H3); [done|lia| |exists l'; split_and!; [done|by rewrite H2|done]].
      rewrite Hgg. cbn [Nat.eqb]. destruct (Nat.eqb_spec gap 1); [lia|].
      pose proof (inversions_bound l). lia.
    + destruct Hnb as [-> Hnb]. exists l. split_and!; try done. apply sorted_of_pairs.
      intros j a b Hj. apply Hnb. lia.
Qed.

Lemma QSort_returns l : exists l', QSort l = Ret l' /\ l' ≡ₚ l /\ Sorted ordered l'.
Proof.
  unfold QSort. destruct l as [|a l]; [by exists []|]. cbn [length Nat.eqb].
  apply qsort_loop_returns; [done|cbn; lia|]. cbn [length].
  pose proof (inversions_bound (a :: l)) as Hb. cbn [length] in Hb.
  destruct (Nat.eqb_spec (S (length l)) 1); lia.
Qed.
End QSort.

(** [C35] [QSort] (a comb sort) sorts: for every comparison in which no two
    elements each come before the other, the loop ends, within the fuel of the
    model, and the result is a permutation of the array in which no element is
    greater than its successor. *)
Theorem qsort_sorts {A} (compar : A -> A -> Z) base :
  (forall a b, compar a b > 0 -> compar b a <= 0) ->
  exists sorted, QSort compar base = Ret sorted /\ sorted ≡ₚ base /\
    Sorted (fun a b => compar a b <= 0) sorted.
Proof. intros Hasym. by apply QSort_returns. Qed.

Lemma qsort_sorts_witness :
  exists sorted, QSort Z.sub [5; 3; 9; 1; 3] = Ret sorted /\ sorted ≡ₚ [5; 3; 9; 1; 3] /\
    Sorted (fun a b => a - b <= 0) sorted.
Proof. apply (qsort_sorts Z.sub). intros. lia. Defined.

(** ** ArrayList *)

(** [elements] has [capacity] cells; [None] is NULL. *)
Record ArrayList (A : Type) := mkArrayList {
  al_length : Z;
  al_capacity : Z;
  al_elements : list (option A);
}.
Arguments mkArrayList {A} _ _ _.
Arguments al_length {A} _.
Arguments al_capacity {A} _.
Arguments al_elements {A} _.

Section ArrayList.
Context {A : Type}.
Implicit Types vlist : ArrayList A.

Definition ArrayList_new (initialCapacity : Z) : ArrayList A :=
  mkArrayList 0 initialCapacity (replicate (Z.to_nat initialCapacity) None).

Definition ArrayList_get vlist (number : Z) : option A :=
  if (number >=? al_length vlist) || (number <? 0) then None
  else mjoin (al_elements vlist !! Z.to_nat number).

(** A negative number is not checked: it reads in front of the array. *)
Definition ArrayList_remove vlist (number : Z) : Er (option A * ArrayList A) :=
  if number >=? al_length vlist then Ret (None, vlist)
  else if number <? 0 then Abort "out of bounds"
  else
    let out := mjoin (al_elements vlist !! Z.to_nat number) in
    let elements :=
      if number <? al_length vlist - 1
      then wr number (rd (number + 1) (al_length vlist - number - 1) (al_elements vlist))
             (al_elements vlist)
      else al_elements vlist in
    Ret (out, mkArrayList (al_length vlist - 1) (al_capacity vlist) elements).

Definition ArrayList_put vlist (number : Z) (val : A) : Er (Z * ArrayList A) :=
  Assert_true ((number >=? 0) && (number <=? al_length vlist));;
  let vlist :=
    if number >=? al_capacity vlist then
      let capacity := al_capacity vlist * 2 in
      mkArrayList (al_length vlist) capacity
        (al_elements vlist ++ replicate (Z.to_nat (capacity - al_capacity vlist)) None)
    else vlist in
  if number >=? al_capacity vlist then Abort "out of bounds"
  else
    Ret (number, mkArrayList (if number =? al_length vlist then al_length vlist + 1 else al_length vlist)
                   (al_capacity vlist) (<[Z.to_nat number := Some val]> (al_elements vlist))).

Definition ArrayList_add vlist (val : A) : Er (Z * ArrayList A) :=
  ArrayList_put vlist (al_length vlist) val.
Definition ArrayList_shift vlist : Er (option A * ArrayList A) := ArrayList_remove vlist 0.
Definition ArrayList_pop vlist : Er (option A * ArrayList A) :=
  ArrayList_remove vlist (al_length vlist - 1).

(** The comparison of two cells: below [length] no cell is NULL. *)
Definition sort_compare (compare : A -> A -> Z) (a b : option A) : Z :=
  match a, b with Some a, Some b => compare a b | _, _ => 0 end.

Definition ArrayList_sort vlist (compare : A -> A -> Z) : Er (ArrayList A) :=
  let n := Z.to_nat (al_length vlist) in
  sorted ← QSort (sort_compare compare) (take n (al_elements vlist));
  Ret (mkArrayList (al_length vlist) (al_capacity vlist) (sorted ++ drop n (al_elements vlist))).

Definition ArrayList_clone vlist : ArrayList A :=
  mkArrayList (al_length vlist) (al_capacity vlist) (take (Z.to_nat (al_capacity vlist)) (al_elements vlist)).

(** ** The sequence *)

(** The list stands for the sequence [l]. *)
Definition al_is vlist (l : list A) : Prop :=
  al_length vlist = len l /\ 1 <= al_capacity vlist /\ len l <= al_capacity vlist /\
  exists rest, al_elements vlist = map Some l ++ rest /\
    len (al_elements vlist) = al_capacity vlist.

Lemma al_new n : 1 <= n -> al_is (ArrayList_new n) [].
Proof.
  intros Hn. split_and!; cbn; try lia. eexists. split; [done|]. rewrite length_replicate. lia.
Qed.

Lemma al_get vlist l i : al_is vlist l ->
  ArrayList_get vlist i = if decide (0 <= i) then l !! Z.to_nat i else None.
Proof.
  intros (Hl & _ & _ & rest & He & _). unfold ArrayList_get. rewrite Hl, He.
  destruct (decide (0 <= i)).
  - destruct (Z.geb_spec i (len l)); cbn [orb].
    + by rewrite lookup_ge_None_2 by lia.
    + zdecide (i <? 0). rewrite lookup_app_l by (rewrite length_map; lia).
      rewrite list_lookup_fmap. by destruct (l !! Z.to_nat i).
  - zdecide (i <? 0). by rewrite orb_true_r.
Qed.

Lemma al_remove vlist l i : al_is vlist l -> 0 <= i ->
  exists list', ArrayList_remove vlist i = Ret (l !! Z.to_nat i, list') /\
    al_is list' (delete (Z.to_nat i) l).
Proof.
  intros Hal Hi. pose proof (al_get vlist l i Hal) as Hget. rewrite decide_True in Hget by done.
  destruct Hal as (Hl & Hc & Hle & rest & He & Hlen). unfold ArrayList_remove, ArrayList_get in *.
  rewrite Hl in *. destruct (Z.geb_spec i (len l)) as [Hge|Hlt].
  { rewrite lookup_ge_None_2, delete_take_drop, take_ge, drop_ge, app_nil_r by lia. exists vlist. split; [done|]. split_and!; eauto. }
  zdecide (i <? 0). zdecide_in (i <? 0) Hget. cbn [orb] in Hget. rewrite Hget.
  eexists. split; [done|]. set (n := Z.to_nat i). assert (Hn : (n < length l)%nat) by lia.
  assert (Hd : length (delete n l) = (length l - 1)%nat)
    by (rewrite length_delete; [lia|]; by apply lookup_lt_is_Some_2).
  split_and!; cbn [al_length al_capacity al_elements]; [lia..|].
  assert (Hs : delete n l = take n l ++ drop (S n) l) by apply delete_take_drop.
  destruct (Z.ltb_spec i (len l - 1)) as [Hin|Hlast].
  - exists (skipn (n + (length l - n - 1)) (map Some l ++ rest)). unfold wr, rd. fold n.
    replace (Z.to_nat (len l - i - 1)) with (length l - n - 1)%nat by lia.
    replace (Z.to_nat (i + 1)) with (S n) by lia. rewrite He.
    assert (Hmid : take (length l - n - 1) (drop (S n) (map Some l ++ rest)) = map Some (drop (S n) l)).
    { rewrite drop_app_le by (rewrite length_map; lia).
      rewrite take_app_le by (rewrite length_drop, length_map; lia).
      rewrite take_ge by (rewrite length_drop, length_map; lia). by rewrite <- fmap_drop. }
    rewrite Hmid. split.
    + rewrite take_app_le by (rewrite length_map; lia). rewrite Hs, map_app, app_assoc, length_map, length_drop.
      f_equal; [|f_equal; lia]. by rewrite <- fmap_take.
    + rewrite !length_app, length_take, length_drop, !length_map, length_drop, !length_app, !length_map.
      rewrite He, length_app, length_map in Hlen. lia.
  - exists (drop n (map Some l ++ rest)). rewrite He in *. split; [|done].
    rewrite <- (take_drop n (map Some l ++ rest)) at 1. f_equal.
    rewrite take_app_le by (rewrite length_map; lia). rewrite Hs, drop_ge, app_nil_r by lia.
    by rewrite <- fmap_take.
Qed.

Lemma al_put vlist l i v : al_is vlist l -> 0 <= i <= len l ->
  exists vlist', ArrayList_put vlist i v = Ret (i, vlist') /\
    al_is vlist' (if decide (i = len l) then l ++ [v] else <[Z.to_nat i := v]> l).
Proof.
  intros (Hl & Hc & Hle & rest & He & Hlen) Hi. unfold ArrayList_put. rewrite Hl.
  destruct (Z.geb_spec i 0); [|lia]. zdecide (i <=? len l). cbn [andb Assert_true mbind Er_bind].
  set (grown := if i >=? al_capacity vlist then _ else vlist).
  assert (Hg : al_length grown = len l /\ i < al_capacity grown /\ len l <= al_capacity grown /\
            exists rest', al_elements grown = map Some l ++ rest' /\
              len (al_elements grown) = al_capacity grown).
  { unfold grown. destruct (Z.geb_spec i (al_capacity vlist)); cbn; [|split_and!; eauto; lia].
    split_and!; try lia. eexists. split; [by rewrite He, <- app_assoc|].
    rewrite length_app, length_replicate. lia. }
  destruct Hg as (Hl' & Hi' & Hc' & rest' & He' & Hlen'). rewrite Hl'.
  destruct (Z.geb_spec i (al_capacity grown)); [lia|]. eexists. split; [done|].
  rewrite He', length_app, length_map in Hlen'.
  destruct (decide (i = len l)) as [->|Hne].
  - rewrite Z.eqb_refl, He', Nat2Z.id. destruct rest' as [|r rest']; [cbn in Hlen'; lia|].
    split_and!; cbn [al_length al_capacity al_elements]; rewrite ?length_app; cbn [length]; [lia..|].
    exists rest'. rewrite map_app, <- app_assoc. cbn [map app].
    rewrite insert_app_r_alt by (rewrite length_map; lia). rewrite length_map, Nat.sub_diag. split; [done|].
    rewrite length_app, length_map. cbn [length] in *. change (insert 0%nat (Some v) (r :: rest')) with (Some v :: rest').
    cbn [length]. lia.
  - rewrite (proj2 (Z.eqb_neq _ _) Hne), He'.
    split_and!; cbn [al_length al_capacity al_elements]; rewrite ?length_insert; [lia..|].
    exists rest'. rewrite insert_app_l by (rewrite length_map; lia).
    split; [f_equal; by rewrite <- list_fmap_insert|]. rewrite ?length_insert, length_app, ?length_insert, ?length_map. lia.
Qed.

Lemma sorted_map_Some (R : A -> A -> Prop) (R' : option A -> option A -> Prop) k :
  (forall a b, R' (Some a) (Some b) -> R a b) -> Sorted R' (map Some k) -> Sorted R k.
Proof.
  intros HR. induction k as [|a k IH]; intros Hs; [done|]. inversion Hs as [|? ? Hk Hh]; subst.
  constructor; [auto|]. destruct k; constructor. inversion Hh; auto.
Qed.

Lemma perm_map_Some (l : list A) k : k ≡ₚ map Some l -> exists l', k = map Some l' /\ l' ≡ₚ l.
Proof.
  intros Hp. apply Permutation_map_inv in Hp as (l' & -> & Hp'). by exists l'.
Qed.

Lemma al_sort vlist l compare : al_is vlist l ->
  (forall a b, compare a b > 0 -> compare b a <= 0) ->
  exists vlist' l', ArrayList_sort vlist compare = Ret vlist' /\ al_is vlist' l' /\
    l' ≡ₚ l /\ Sorted (fun a b => compare a b <= 0) l'.
Proof.
  intros (Hl & Hc & Hle & rest & He & Hlen) Hasym. unfold ArrayList_sort. rewrite Hl, He, Nat2Z.id.
  rewrite take_app_length', drop_app_length' by (by rewrite length_map).
  destruct (QSort_returns (sort_compare compare)) with (l := map Some l) as (k & Hk & Hp & Hs).
  { intros [a|] [b|]; cbn; [apply Hasym|lia..]. }
  rewrite Hk. cbn [mbind Er_bind]. apply perm_map_Some in Hp as (l' & -> & Hp).
  eexists _, l'. split; [done|]. pose proof (Permutation_length Hp) as Hll. split_and!; try done.
  - split_and!; cbn; [lia..|]. exists rest. split; [done|].
    rewrite He in Hlen. rewrite length_app, length_map in *. lia.
  - eapply sorted_map_Some, Hs. done.
Qed.

Lemma al_clone vlist l : al_is vlist l -> al_is (ArrayList_clone vlist) l.
Proof.
  intros (Hl & Hc & Hle & rest & He & Hlen). split_and!; cbn; try done. exists rest.
  rewrite take_ge by lia. done.
Qed.
End ArrayList.

(** An array list is a sequence: on a list which stands for [l],
    [ArrayList_get] reads [l] (and yields NULL outside of it), [ArrayList_put]
    replaces an element or appends one, [ArrayList_remove] and
    [ArrayList_shift] delete one, [ArrayList_sort] sorts, and a clone stands for
    the same sequence; no operation on an index which is not negative fails, and
    growing loses nothing. *)
Theorem arraylist_refines {A} (vlist : ArrayList A) l i v compare :
  al_is vlist l -> 0 <= i -> (forall a b, compare a b > 0 -> compare b a <= 0) ->
  ArrayList_get vlist i = l !! Z.to_nat i /\
  (exists vlist', ArrayList_remove vlist i = Ret (l !! Z.to_nat i, vlist') /\
     al_is vlist' (delete (Z.to_nat i) l)) /\
  (exists vlist', ArrayList_shift vlist = Ret (head l, vlist') /\ al_is vlist' (tail l)) /\
  (exists vlist', ArrayList_add vlist v = Ret (len l, vlist') /\ al_is vlist' (l ++ [v])) /\
  (i < len l -> exists vlist', ArrayList_put vlist i v = Ret (i, vlist') /\
     al_is vlist' (<[Z.to_nat i := v]> l)) /\
  (exists vlist' l', ArrayList_sort vlist compare = Ret vlist' /\ al_is vlist' l' /\ l' ≡ₚ l /\
     Sorted (fun a b => compare a b <= 0) l') /\
  al_is (ArrayList_clone vlist) l.
Proof.
  intros Hal Hi Hasym. split_and!.
  - rewrite (al_get vlist l i Hal). by rewrite decide_True.
  - by apply al_remove.
  - destruct (al_remove vlist l 0 Hal ltac:(lia)) as (vlist' & Hr & Ha). exists vlist'.
    unfold ArrayList_shift. rewrite Hr. by destruct l.
  - destruct (al_put vlist l (len l) v Hal ltac:(lia)) as (vlist' & Hp & Ha). exists vlist'.
    unfold ArrayList_add. destruct Hal as (-> & _). rewrite decide_True in Ha by done. done.
  - intros Hlt. destruct (al_put vlist l i v Hal ltac:(lia)) as (vlist' & Hp & Ha). exists vlist'.
    rewrite decide_False in Ha by lia. done.
  - by apply al_sort.
  - by apply al_clone.
Qed.

Definition sample_list : ArrayList Z := mkArrayList 3 4 [Some 5; Some 3; Some 9; None].

Lemma arraylist_refines_witness :
  exists vlist', ArrayList_add sample_list 7 = Ret (3, vlist') /\ al_is vlist' [5; 3; 9; 7].
Proof.
  apply (arraylist_refines sample_list [5; 3; 9] 0 7 Z.sub).
  - split_and!; cbn; try lia. by exists [None].
  - lia.
  - intros a b. lia.
Defined.

(** Popping from an empty list reads in front of the array. *)
Example pop_empty_out_of_bounds : ArrayList_pop (ArrayList_new (A := Z) 8) = Abort "out of bounds".
Proof. done. Qed.
