(* ===== verification/HandleMap.v ===== *)
(** * util/Map.h: the arrays behind handles and keys

    The header is instantiated with keys, with handles, or with both.  The
    parallel arrays [hashCodes], [keys], [handles] and [values] are one list of
    entries; only the first [count] cells are ever read, so the list has just
    these.  A map without keys has keys of type [unit].  Handles are looked up by
    bisection, so they have to stay sorted: [handles_refine] shows that a map with
    handles implements a finite map from handles, [keys_refine] that a map with
    keys implements a finite map from keys. *)
From Stdlib Require Import Sorted.
From stdpp Require Import gmap.
From S2P Require Import Prelude Bits.

(** ** Definitions *)

(** [Map_FUNCTION(hash)] and [Map_FUNCTION(compare)]. *)
Class MapKey (K : Type) := {
  key_hash : K -> Z;
  key_compare : K -> K -> Z;
}.

(** util/Hash.h: the hash of a key's memory. *)
Definition Hash_compute (str : list Z) : Z :=
  fold_left (fun hash c => Z.lxor (u32 (u32 (Z.shiftl hash 5) + hash)) c) str 5381.

(** The default [hash] and [compare]: keys which are structs of bytes, and [int]. *)
#[export] Instance mem_key : MapKey (list Z) :=
  {| key_hash := Hash_compute; key_compare := memcmp |}.
#[export] Instance int_key : MapKey Z :=
  {| key_hash := fun k => Hash_compute (le_bytes 4 k);
     key_compare := fun a b => memcmp (le_bytes 4 a) (le_bytes 4 b) |}.

Record Entry (K V : Type) := mkEntry {
  e_hash : Z;
  e_key : K;
  e_handle : Z;
  e_value : V;
}.
Arguments mkEntry {K V}.
Arguments e_hash {K V}.
Arguments e_key {K V}.
Arguments e_handle {K V}.
Arguments e_value {K V}.

Record Map (K V : Type) := mkMap {
  map_entries : list (Entry K V);
  map_nextHandle : Z;
  map_capacity : Z;
}.
Arguments mkMap {K V}.
Arguments map_entries {K V}.
Arguments map_nextHandle {K V}.
Arguments map_capacity {K V}.

Definition map_count {K V} (map : Map K V) : Z := len (map_entries map).

Definition Map_new {K V} : Map K V := mkMap [] 0 0.

(** [for (i = 0; i < map->count; i++)]. *)
Fixpoint indexForKey_loop `{MapKey K} {V} (key : K) (hashCode i : Z) (l : list (Entry K V)) : Z :=
  match l with
  | [] => -1
  | e :: l =>
      if (e_hash e =? hashCode) && (key_compare key (e_key e) =? 0) then i
      else indexForKey_loop key hashCode (i + 1) l
  end.
Definition Map_indexForKey `{MapKey K} {V} (key : K) (map : Map K V) : Z :=
  indexForKey_loop key (key_hash key) 0 (map_entries map).

(** [for (bufferLen = map->count; bufferLen != 0; bufferLen /= 2)]; [bufferLen]
    shrinks in every round. *)
Fixpoint indexForHandle_loop {K V} (fuel : nat) (handle base bufferLen : Z)
    (l : list (Entry K V)) : Z :=
  match fuel with
  | O => -1
  | S fuel =>
      if bufferLen =? 0 then -1
      else
        let currentHandle :=
          default 0 (e_handle <$> l !! Z.to_nat (u32 (base + bufferLen / 2))) in
        if handle >=? currentHandle then
          if currentHandle =? handle then i32 (u32 (base + bufferLen / 2))
          else indexForHandle_loop fuel handle (u32 (base + (bufferLen / 2 + 1)))
                 ((bufferLen - 1) / 2) l
        else indexForHandle_loop fuel handle base (bufferLen / 2) l
  end.
Definition Map_indexForHandle {K V} (handle : Z) (map : Map K V) : Z :=
  indexForHandle_loop (S (length (map_entries map))) handle 0 (map_count map) (map_entries map).

(** With handles: the entries behind the removed one move down. *)
Definition Map_remove {K V} (index : Z) (map : Map K V) : Z * Map K V :=
  if (0 <=? index) && (index <? map_count map - 1) then
    (0, mkMap (take (Z.to_nat index) (map_entries map)
               ++ drop (Z.to_nat index + 1) (map_entries map))
          (map_nextHandle map) (map_capacity map))
  else if index =? map_count map - 1 then
    (0, mkMap (take (length (map_entries map) - 1) (map_entries map))
          (map_nextHandle map) (map_capacity map))
  else (-1, map).

(** Without handles: the last entry takes the place of the removed one. *)
Definition Map_remove_keys {K V} (index : Z) (map : Map K V) : Z * Map K V :=
  if (0 <=? index) && (index <? map_count map - 1) then
    let top := drop (length (map_entries map) - 1) (map_entries map) in
    let rest := take (length (map_entries map) - 1) (map_entries map) in
    (0, mkMap (wr index top rest) (map_nextHandle map) (map_capacity map))
  else if index =? map_count map - 1 then
    (0, mkMap (take (length (map_entries map) - 1) (map_entries map))
          (map_nextHandle map) (map_capacity map))
  else (-1, map).

(** [Allocator_realloc] when the arrays are full. *)
Definition Map_grow {K V} (map : Map K V) : Map K V :=
  if map_count map =? map_capacity map
  then mkMap (map_entries map) (map_nextHandle map) (u32 (map_capacity map + 10)) else map.

(** Handles only: a new entry every time. *)
Definition Map_put_handle {V} (value : V) (map : Map unit V) : Z * Map unit V :=
  let map := Map_grow map in
  let i := map_count map in
  (i, mkMap (map_entries map ++ [mkEntry 0 tt (map_nextHandle map) value])
        (u32 (map_nextHandle map + 1)) (map_capacity map)).

(** With keys ([handles]: and with handles): an entry with the key is
    overwritten. *)
Definition Map_put `{MapKey K} {V} (handles : bool) (key : K) (value : V) (map : Map K V) :
    Z * Map K V :=
  let map := Map_grow map in
  let i := Map_indexForKey key map in
  if i <? 0 then
    let i := map_count map in
    (i, mkMap (map_entries map
               ++ [mkEntry (key_hash key) key (if handles then map_nextHandle map else 0) value])
          (if handles then u32 (map_nextHandle map + 1) else map_nextHandle map)
          (map_capacity map))
  else
    let entries := map_entries map in
    (i, mkMap (match entries !! Z.to_nat i with
               | Some e => <[Z.to_nat i := mkEntry (e_hash e) (e_key e) (e_handle e) value]> entries
               | None => entries
               end) (map_nextHandle map) (map_capacity map)).

(** ** What a map stands for *)

Lemma list_to_map_snoc `{Countable K} {V} (l : list (K * V)) k v :
  (list_to_map l : gmap K V) !! k = None ->
  (list_to_map (l ++ [(k, v)]) : gmap K V) = <[k := v]> (list_to_map l).
Proof.
  intros Hn. rewrite list_to_map_app, list_to_map_cons, list_to_map_nil.
  rewrite insert_empty. by rewrite insert_union_singleton_r.
Qed.

Section Handles.
Context {K V : Type}.
Implicit Types (map : Map K V) (l : list (Entry K V)).

(** The finite map from handles to values. *)
Definition hmap map : gmap Z V :=
  list_to_map ((fun e => (e_handle e, e_value e)) <$> map_entries map).

(** Handles are given out in ascending order and have not wrapped around. *)
Definition handles_ok map : Prop :=
  StronglySorted Z.lt (e_handle <$> map_entries map) /\
  Forall (fun e => 0 <= e_handle e < map_nextHandle map) (map_entries map) /\
  fits 32 (map_nextHandle map) /\ map_count map < 2 ^ 31.

Lemma sorted_lookup_lt (hs : list Z) i j x y :
  StronglySorted Z.lt hs -> (i < j)%nat -> hs !! i = Some x -> hs !! j = Some y -> x < y.
Proof.
  intros Hs; revert i j; induction Hs as [|h hs _ IH Hh]; intros i j Hij Hi Hj; [done|].
  destruct j as [|j]; [lia|]. destruct i as [|i]; cbn in Hi, Hj.
  - simplify_eq. rewrite Forall_lookup in Hh. by apply (Hh j).
  - apply (IH i j); [lia|done|done].
Qed.

Lemma entries_lookup_lt l i j e e' :
  StronglySorted Z.lt (e_handle <$> l) -> (i < j)%nat ->
  l !! i = Some e -> l !! j = Some e' -> e_handle e < e_handle e'.
Proof.
  intros Hs Hij Hi Hj. apply (sorted_lookup_lt (e_handle <$> l) i j); [done|done| |];
    rewrite list_lookup_fmap; [by rewrite Hi|by rewrite Hj].
Qed.

(** The bisection narrows the window in which the handle can be. *)
Lemma bisect fuel h base n l :
  StronglySorted Z.lt (e_handle <$> l) -> len l < 2 ^ 31 ->
  0 <= base -> 0 <= n -> base + n <= len l -> n < Z.of_nat fuel ->
  (forall i e, l !! i = Some e -> e_handle e = h -> base <= Z.of_nat i < base + n) ->
  (exists i e, l !! i = Some e /\ e_handle e = h /\
     indexForHandle_loop fuel h base n l = Z.of_nat i) \/
  (forall e, e ∈ l -> e_handle e <> h) /\ indexForHandle_loop fuel h base n l = -1.
Proof.
  intros Hs Hlen. revert base n.
  induction fuel as [|fuel IH]; intros base n Hb Hn Hw Hf Hin; [lia|]. cbn [indexForHandle_loop].
  destruct (Z.eqb_spec n 0) as [->|Hn0].
  { right. split; [|done]. intros e (i & Hi)%list_elem_of_lookup He.
    specialize (Hin i e Hi He). lia. }
  assert (0 <= n / 2 /\ n / 2 < n) as [Hm1 Hm2] by (split; [apply Z.div_pos|apply Z.div_lt]; lia).
  assert (n / 2 + (n - 1) / 2 = n - 1) as Hhalf.
  { destruct (Z.Even_or_Odd n) as [[k ->]|[k ->]].
    - rewrite Z.mul_comm, Z.div_mul by lia.
      replace (k * 2 - 1) with (1 + (k - 1) * 2) by lia. rewrite Z.div_add by lia. change (1 / 2) with 0. lia.
    - replace (2 * k + 1) with (1 + k * 2) by lia. replace (1 + k * 2 - 1) with (k * 2) by lia.
      rewrite Z.div_add, Z.div_mul by lia. change (1 / 2) with 0. lia. }
  unfold u32. rewrite (Z.mod_small (base + n / 2)) by lia.
  destruct (lookup_lt_is_Some_2 l (Z.to_nat (base + n / 2))) as [e He]; [lia|].
  rewrite He. change (default 0 (e_handle <$> Some e)) with (e_handle e).
  rewrite (Z.mod_small (base + (n / 2 + 1))) by lia.
  destruct (Z.geb_spec h (e_handle e)) as [Hge|Hlt].
  - destruct (Z.eqb_spec (e_handle e) h) as [Heq|Hne].
    + left. exists (Z.to_nat (base + n / 2)), e. split; [done|]. split; [done|].
      unfold i32. rewrite Z.mod_small by lia. lia.
    + apply IH; [lia|lia|lia|lia|]. intros i e' Hi Hh. specialize (Hin i e' Hi Hh).
      destruct (decide (i <= Z.to_nat (base + n / 2))%nat) as [Hle|]; [|lia].
      destruct (decide (i = Z.to_nat (base + n / 2))) as [->|]; [rewrite He in Hi; simplify_eq|].
      pose proof (entries_lookup_lt l i (Z.to_nat (base + n / 2)) e' e Hs ltac:(lia) Hi He). lia.
  - apply IH; [lia|lia|lia|lia|]. intros i e' Hi Hh. specialize (Hin i e' Hi Hh).
    destruct (decide (Z.to_nat (base + n / 2) <= i)%nat) as [Hle|]; [|lia].
    destruct (decide (i = Z.to_nat (base + n / 2))) as [->|]; [rewrite He in Hi; simplify_eq; lia|].
    pose proof (entries_lookup_lt l (Z.to_nat (base + n / 2)) i e e' Hs ltac:(lia) He Hi). lia.
Qed.

Lemma indexForHandle_spec map h :
  handles_ok map ->
  (exists i e, map_entries map !! i = Some e /\ e_handle e = h /\
     Map_indexForHandle h map = Z.of_nat i) \/
  (forall e, e ∈ map_entries map -> e_handle e <> h) /\ Map_indexForHandle h map = -1.
Proof.
  intros (Hs & _ & _ & Hc). unfold Map_indexForHandle. unfold map_count in *.
  apply bisect; [done|done|lia|lia|lia|lia|].
  intros i e Hi _. apply lookup_lt_Some in Hi. lia.
Qed.

Lemma sorted_nodup (hs : list Z) : StronglySorted Z.lt hs -> NoDup hs.
Proof.
  induction 1 as [|h hs Hs IH Hh]; constructor; [|done].
  intros Hin. rewrite Forall_forall in Hh. specialize (Hh h Hin). lia.
Qed.

Lemma hmap_keys map : ((fun e => (e_handle e, e_value e)) <$> map_entries map).*1
                      = e_handle <$> map_entries map.
Proof. rewrite <- list_fmap_compose. by apply list_fmap_ext. Qed.

Lemma hmap_entry map e : handles_ok map -> e ∈ map_entries map ->
  hmap map !! e_handle e = Some (e_value e).
Proof.
  intros (Hs & _) He. apply elem_of_list_to_map_1.
  - rewrite hmap_keys. by apply sorted_nodup.
  - apply list_elem_of_fmap. by exists e.
Qed.

Lemma hmap_none map h : (forall e, e ∈ map_entries map -> e_handle e <> h) -> hmap map !! h = None.
Proof.
  intros Hn. apply not_elem_of_list_to_map_1. rewrite hmap_keys.
  intros (e & He & Hin)%list_elem_of_fmap. by apply (Hn e).
Qed.

(** What [Map_indexForHandle] finds is the entry of the handle. *)
Lemma indexForHandle_lookup map h : handles_ok map ->
  match hmap map !! h with
  | Some v => exists i e, map_entries map !! i = Some e /\ e_handle e = h /\ e_value e = v /\
                Map_indexForHandle h map = Z.of_nat i
  | None => Map_indexForHandle h map = -1
  end.
Proof.
  intros Hok. destruct (indexForHandle_spec map h Hok) as [(i & e & Hi & <- & Hr)|[Hn ->]].
  - rewrite hmap_entry by (done || by eapply list_elem_of_lookup_2). by exists i, e.
  - by rewrite hmap_none.
Qed.

Lemma remove_entries map i : (i < length (map_entries map))%nat ->
  Map_remove (Z.of_nat i) map
  = (0, mkMap (delete i (map_entries map)) (map_nextHandle map) (map_capacity map)).
Proof.
  intros Hi. unfold Map_remove, map_count. rewrite delete_take_drop.
  destruct (Z.ltb_spec (Z.of_nat i) (len (map_entries map) - 1)) as [Hlt|Hge].
  - rewrite andb_true_intro by (split; [apply Z.leb_le; lia|done]). rewrite Nat2Z.id.
    by replace (i + 1)%nat with (S i) by lia.
  - rewrite andb_false_r. destruct (Z.eqb_spec (Z.of_nat i) (len (map_entries map) - 1)); [|lia].
    rewrite (drop_ge _ (S i)) by lia. rewrite app_nil_r.
    by replace (length (map_entries map) - 1)%nat with i by lia.
Qed.

Lemma sorted_delete (hs : list Z) i : StronglySorted Z.lt hs -> StronglySorted Z.lt (delete i hs).
Proof.
  intros Hs. revert i. induction Hs as [|h hs Hs IH Hh]; intros [|i]; cbn; [constructor|constructor|done|].
  constructor; [apply IH|by apply Forall_delete].
Qed.

Lemma remove_handles map i e : handles_ok map -> map_entries map !! i = Some e ->
  let map' := snd (Map_remove (Z.of_nat i) map) in
  handles_ok map' /\ hmap map' = delete (e_handle e) (hmap map).
Proof.
  intros (Hs & Hb & Hn & Hc) Hi. pose proof (lookup_lt_Some _ _ _ Hi) as Hlt.
  rewrite remove_entries by done. cbn [snd].
  pose proof (delete_Permutation _ _ _ Hi) as Hp. split.
  - split; [|split; [|split; [done|]]]; cbn [map_entries map_nextHandle].
    + rewrite list_fmap_delete. by apply sorted_delete.
    + by apply Forall_delete.
    + unfold map_count in *. cbn [map_entries]. rewrite length_delete by done. lia.
  - pose proof (sorted_nodup _ Hs) as Hnd.
    unfold hmap at 2. rewrite (list_to_map_proper _ ((fun e => (e_handle e, e_value e)) <$> e :: delete i (map_entries map))).
    2: { by rewrite hmap_keys. } 2: { by rewrite Hp at 1. }
    cbn [fmap list_fmap list_to_map foldr]. cbn [fst snd uncurry].
    rewrite delete_insert_id; [done|].
    apply (hmap_none (mkMap (delete i (map_entries map)) 0 0)). cbn [map_entries].
    intros e' He' Heq. rewrite Hp in Hnd. cbn in Hnd. inversion_clear Hnd as [|? ? Hni _].
    apply Hni. rewrite <- Heq. by apply list_elem_of_fmap_2.
Qed.

Lemma grow_handles map : handles_ok map -> handles_ok (Map_grow map) /\ hmap (Map_grow map) = hmap map.
Proof. intros H. unfold Map_grow. by destruct (map_count map =? map_capacity map). Qed.

(** Appending an entry with the next handle. *)
Lemma append_handles map hash key v cap :
  handles_ok map -> map_nextHandle map < 2 ^ 32 - 1 -> map_count map < 2 ^ 31 - 1 ->
  let map' := mkMap (map_entries map ++ [mkEntry hash key (map_nextHandle map) v])
                (u32 (map_nextHandle map + 1)) cap in
  handles_ok map' /\ hmap map' = <[map_nextHandle map := v]> (hmap map).
Proof.
  intros (Hs & Hb & Hn & Hc) Hmax Hcount. cbn zeta. unfold fits in Hn.
  unfold u32. rewrite (Z.mod_small (map_nextHandle map + 1)) by lia. split.
  - split; [|split; [|split]]; cbn [map_entries map_nextHandle].
    + rewrite fmap_app. cbn [fmap list_fmap]. clear -Hs Hb.
      induction (map_entries map) as [|x l IH]; cbn; [by repeat constructor|].
      inversion_clear Hs as [|? ? Hs' Hx]. inversion_clear Hb as [|? ? [? ?] Hb'].
      constructor; [by apply IH|]. rewrite Forall_app. split; [done|]. by constructor.
    + rewrite Forall_app. split; [|constructor; [cbn; lia|constructor]].
      eapply Forall_impl; [exact Hb|]. cbn; intros; lia.
    + unfold fits; lia.
    + unfold map_count in *. cbn [map_entries]. rewrite length_app. cbn [length]. lia.
  - unfold hmap. cbn [map_entries]. rewrite fmap_app. apply list_to_map_snoc.
    apply (hmap_none map). intros e He Heq. rewrite Forall_forall in Hb. specialize (Hb e He). lia.
Qed.
End Handles.

(** ** Maps with keys *)

(** [key_wf]: the keys of the struct's size. *)
Class MapKeyLaws (K : Type) `{MapKey K} := {
  key_wf : K -> Prop;
  key_compare_eq : forall a b : K, key_wf a -> key_wf b -> key_compare a b = 0 <-> a = b;
}.

Section Keys.
#[local] Set Default Proof Using "All".
Context {K V : Type} `{MapKeyLaws K} `{Countable K}.
Implicit Types (map : Map K V) (l : list (Entry K V)).

(** The finite map from keys to values. *)
Definition kmap map : gmap K V :=
  list_to_map ((fun e => (e_key e, e_value e)) <$> map_entries map).

(** Every key has one entry, under its hash code. *)
Definition keys_ok map : Prop :=
  NoDup (e_key <$> map_entries map) /\
  Forall (fun e => key_wf (e_key e) /\ e_hash e = key_hash (e_key e)) (map_entries map) /\
  map_count map < 2 ^ 31.

Lemma indexForKey_loop_spec l key i0 :
  Forall (fun e => key_wf (e_key e) /\ e_hash e = key_hash (e_key e)) l -> key_wf key -> 0 <= i0 ->
  (exists i e, l !! i = Some e /\ e_key e = key /\
     indexForKey_loop key (key_hash key) i0 l = i0 + Z.of_nat i) \/
  (forall e, e ∈ l -> e_key e <> key) /\ indexForKey_loop key (key_hash key) i0 l = -1.
Proof.
  intros Hl Hkey. revert i0. induction Hl as [|e l [Hw He] Hl IH]; intros i0 Hi0; cbn [indexForKey_loop].
  { right. split; [by intros e ?%not_elem_of_nil|done]. }
  destruct (decide (e_key e = key)) as [Hk|Hk].
  - left. exists 0%nat, e. split; [done|]. split; [done|].
    rewrite He, Hk, Z.eqb_refl. rewrite (proj2 (key_compare_eq key key Hkey Hkey) eq_refl). cbn. lia.
  - assert ((key_compare key (e_key e) =? 0) = false) as ->.
    { apply Z.eqb_neq. intros E%key_compare_eq; [by subst|done|done]. }
    rewrite andb_false_r. destruct (IH (i0 + 1) ltac:(lia)) as [(i & e' & Hi & He' & ->)|[Hn ->]].
    + left. exists (S i), e'. split; [done|]. split; [done|]. lia.
    + right. split; [|done]. intros e' [->|Hin]%elem_of_cons; [done|by apply Hn].
Qed.

Lemma kmap_keys map : ((fun e => (e_key e, e_value e)) <$> map_entries map).*1
                      = e_key <$> map_entries map.
Proof. rewrite <- list_fmap_compose. by apply list_fmap_ext. Qed.

Lemma kmap_none map k : (forall e, e ∈ map_entries map -> e_key e <> k) -> kmap map !! k = None.
Proof.
  intros Hn. apply not_elem_of_list_to_map_1. rewrite kmap_keys.
  intros (e & He & Hin)%list_elem_of_fmap. by apply (Hn e).
Qed.

Lemma kmap_entry map e : keys_ok map -> e ∈ map_entries map -> kmap map !! e_key e = Some (e_value e).
Proof.
  intros (Hs & _) He. apply elem_of_list_to_map_1; [by rewrite kmap_keys|].
  apply list_elem_of_fmap. by exists e.
Qed.

Lemma kmap_Forall map (P : K -> V -> Prop) : keys_ok map -> map_Forall P (kmap map) ->
  Forall (fun e => P (e_key e) (e_value e)) (map_entries map).
Proof. intros Hok HP. apply Forall_forall. intros e He. by apply HP, kmap_entry. Qed.

Lemma indexForKey_lookup map k : keys_ok map -> key_wf k ->
  match kmap map !! k with
  | Some v => exists i e, map_entries map !! i = Some e /\ e_key e = k /\ e_value e = v /\
                Map_indexForKey k map = Z.of_nat i
  | None => Map_indexForKey k map = -1
  end.
Proof.
  intros Hok Hwf. destruct (indexForKey_loop_spec (map_entries map) k 0 (proj1 (proj2 Hok)) Hwf)
    as [(i & e & Hi & <- & Hr)|[Hn Hr]]; [done| |].
  - rewrite kmap_entry by (done || by eapply list_elem_of_lookup_2). exists i, e.
    split; [done|]. split; [done|]. split; [done|]. exact Hr.
  - by rewrite kmap_none.
Qed.

Lemma grow_entries map : map_entries (Map_grow map) = map_entries map /\
  map_nextHandle (Map_grow map) = map_nextHandle map.
Proof. unfold Map_grow. by destruct (map_count map =? map_capacity map). Qed.

Lemma put_keys handles key v map :
  keys_ok map -> key_wf key -> map_count map < 2 ^ 31 - 1 ->
  let '(i, map') := Map_put handles key v map in
  keys_ok map' /\ kmap map' = <[key := v]> (kmap map) /\
  (exists e, map_entries map' !! Z.to_nat i = Some e /\ e_key e = key /\ e_value e = v) /\ 0 <= i.
Proof.
  intros Hok Hwf Hc. destruct (grow_entries map) as [Hge Hgn].
  assert (keys_ok (Map_grow map)) as Hok' by (unfold keys_ok, map_count; rewrite Hge; apply Hok).
  assert (kmap (Map_grow map) = kmap map) as Hk by (unfold kmap; by rewrite Hge).
  assert (map_count (Map_grow map) < 2 ^ 31 - 1) as Hc' by (unfold map_count in *; by rewrite Hge).
  unfold Map_put. revert Hok' Hk Hc'. generalize (Map_grow map). clear Hok Hc Hge Hgn.
  intros g Hok Hk Hc. rewrite <- Hk. clear Hk map.
  pose proof (indexForKey_lookup g key Hok Hwf) as Hi. destruct Hok as (Hd & Hh & Hcap).
  destruct (kmap g !! key) as [v0|] eqn:Hv.
  - destruct Hi as (i & e & Hi & <- & _ & ->). rewrite (proj2 (Z.ltb_ge _ _)) by lia.
    rewrite Nat2Z.id, Hi. pose proof (lookup_lt_Some _ _ _ Hi) as Hlt.
    set (e' := mkEntry _ _ _ _).
    assert (e_key <$> <[i:=e']> (map_entries g) = e_key <$> map_entries g) as Hkeys.
    { rewrite list_fmap_insert. apply list_insert_id. by rewrite list_lookup_fmap, Hi. }
    split; [|split; [|split; [|lia]]].
    + split; [by cbn [map_entries]; rewrite Hkeys|split]; cbn [map_entries].
      * apply Forall_insert; [done|]. cbn. rewrite Forall_lookup in Hh. by apply (Hh i).
      * unfold map_count in *. cbn [map_entries]. rewrite length_insert. lia.
    + apply map_eq. intros k. destruct (decide (k = e_key e)) as [->|Hne].
      * rewrite lookup_insert_eq. apply elem_of_list_to_map_1; cbn [map_entries].
        { rewrite <- list_fmap_compose. change (NoDup (e_key <$> <[i:=e']> (map_entries g))).
          by rewrite Hkeys. }
        apply list_elem_of_fmap. exists e'. split; [done|].
        apply list_elem_of_lookup. exists i. by apply list_lookup_insert_eq.
      * rewrite lookup_insert_ne by done. unfold kmap at 1. cbn [map_entries].
        rewrite insert_take_drop by done. unfold kmap. rewrite <- (take_drop_middle _ _ _ Hi) at 3.
        rewrite !fmap_app, !fmap_cons, !list_to_map_app, !list_to_map_cons.
        rewrite !lookup_union. cbn [e_key e' e_value]. by rewrite !lookup_insert_ne by done.
    + exists e'. cbn [map_entries]. split; [|done]. by apply list_lookup_insert_eq.
  - rewrite Hi. change (-1 <? 0) with true. cbn iota.
    assert (forall e, e ∈ map_entries g -> e_key e <> key) as Hn.
    { intros e He <-. rewrite kmap_entry in Hv by done. done. }
    split; [|split; [|split]].
    + split; [|split]; cbn [map_entries].
      * rewrite fmap_app. apply NoDup_app. split; [done|]. split; [|apply NoDup_singleton].
        intros x (e & -> & He)%list_elem_of_fmap. cbn. intros Hx%list_elem_of_singleton. by apply (Hn e).
      * rewrite Forall_app. split; [done|]. by constructor; [|constructor].
      * unfold map_count in *. cbn [map_entries]. rewrite length_app. cbn [length]. lia.
    + unfold kmap. cbn [map_entries]. rewrite fmap_app. by apply list_to_map_snoc.
    + exists (mkEntry (key_hash key) key (if handles then map_nextHandle g else 0) v).
      cbn [map_entries]. split; [|by split].
      rewrite lookup_app_r by (unfold map_count; lia). unfold map_count.
      replace (Z.to_nat (len (map_entries g)) - length (map_entries g))%nat with 0%nat by lia.
      reflexivity.
    + unfold map_count. lia.
Qed.

Lemma delete_keys map map' i e :
  keys_ok map -> map_entries map !! i = Some e ->
  map_entries map' ≡ₚ delete i (map_entries map) ->
  keys_ok map' /\ kmap map' = delete (e_key e) (kmap map).
Proof.
  intros (Hd & Hh & Hc) Hi Hp'. pose proof (lookup_lt_Some _ _ _ Hi) as Hlt.
  pose proof (delete_Permutation _ _ _ Hi) as Hp. pose proof Hd as Hd'.
  rewrite Hp in Hd'. cbn in Hd'. inversion_clear Hd' as [|? ? Hni Hd''].
  assert (NoDup (e_key <$> map_entries map')) as Hnd by (by rewrite Hp').
  assert (e_key e ∉ (e_key <$> map_entries map')) as Hni' by (by rewrite Hp'). split.
  - split; [done|split].
    + rewrite Hp'. by apply Forall_delete.
    + unfold map_count in *. rewrite Hp', length_delete by done. lia.
  - unfold kmap at 2.
    rewrite (list_to_map_proper _ ((fun e => (e_key e, e_value e)) <$> e :: map_entries map')).
    2: { by rewrite kmap_keys. } 2: { by rewrite Hp at 1; rewrite Hp'. }
    rewrite fmap_cons, list_to_map_cons. symmetry. apply delete_insert_id.
    apply kmap_none. intros e' He' Heq. apply Hni'. rewrite <- Heq. by apply list_elem_of_fmap_2.
Qed.

(** Putting the last entry into the hole leaves the same entries. *)
Lemma fold_top (l : list (Entry K V)) i : (S i < length l)%nat ->
  wr (Z.of_nat i) (drop (length l - 1) l) (take (length l - 1) l) ≡ₚ delete i l.
Proof.
  intros Hi. destruct l as [|x l _] using rev_ind; [cbn in Hi; lia|].
  rewrite length_app in *. cbn [length] in *.
  replace (length l + 1 - 1)%nat with (length l) by lia.
  rewrite drop_app_length, take_app_length. unfold wr. rewrite Nat2Z.id. cbn [length].
  rewrite delete_take_drop, take_app_le, drop_app_le by lia.
  replace (i + 1)%nat with (S i) by lia.
  apply Permutation_app_head, Permutation_app_comm.
Qed.

Lemma remove_keys_perm map i : (i < length (map_entries map))%nat ->
  map_entries (snd (Map_remove_keys (Z.of_nat i) map)) ≡ₚ delete i (map_entries map).
Proof.
  intros Hlt. pose proof (remove_entries map i Hlt) as Hr. revert Hr. unfold Map_remove, Map_remove_keys, map_count.
  destruct (Z.ltb_spec (Z.of_nat i) (len (map_entries map) - 1)).
  - rewrite andb_true_intro by (split; [apply Z.leb_le; lia|done]). intros _. cbn [snd map_entries].
    apply fold_top. lia.
  - rewrite andb_false_r. destruct (Z.of_nat i =? _); intros Hr; [|done].
    cbn [snd map_entries]. by injection Hr as ->.
Qed.

(** What is left after a removal was there before. *)
Lemma remove_keys_Forall (P : Entry K V -> Prop) map i : (i < length (map_entries map))%nat ->
  Forall P (map_entries map) -> Forall P (map_entries (snd (Map_remove_keys (Z.of_nat i) map))).
Proof. intros Hi HP. rewrite remove_keys_perm by done. by apply Forall_delete. Qed.

Lemma remove_keys_count map i : (i < length (map_entries map))%nat ->
  map_count (snd (Map_remove_keys (Z.of_nat i) map)) = map_count map - 1.
Proof.
  intros Hi. unfold map_count. rewrite remove_keys_perm by done. rewrite length_delete by (by apply lookup_lt_is_Some_2).
  lia.
Qed.

Lemma remove_keys map i e :
  keys_ok map -> map_entries map !! i = Some e ->
  keys_ok (snd (Map_remove (Z.of_nat i) map)) /\
  kmap (snd (Map_remove (Z.of_nat i) map)) = delete (e_key e) (kmap map) /\
  keys_ok (snd (Map_remove_keys (Z.of_nat i) map)) /\
  kmap (snd (Map_remove_keys (Z.of_nat i) map)) = delete (e_key e) (kmap map).
Proof.
  intros Hok Hi. pose proof (lookup_lt_Some _ _ _ Hi) as Hlt.
  pose proof (delete_keys map (snd (Map_remove (Z.of_nat i) map)) i e Hok Hi) as [Hr1 Hr2].
  { by rewrite remove_entries. }
  pose proof (delete_keys map (snd (Map_remove_keys (Z.of_nat i) map)) i e Hok Hi) as [Hr3 Hr4]; [|by split].
  by apply remove_keys_perm.
Qed.

(** A new key in a map with keys and handles: its entry is the last one. *)
Lemma put_new map key v : keys_ok map -> handles_ok map -> key_wf key -> Map_indexForKey key map = -1 ->
  map_nextHandle map < 2 ^ 32 - 1 -> map_count map < 2 ^ 31 - 1 ->
  exists map', Map_put true key v map = (map_count map, map') /\ keys_ok map' /\ handles_ok map' /\
    map_entries map' = map_entries map ++ [mkEntry (key_hash key) key (map_nextHandle map) v] /\
    map_nextHandle map' = map_nextHandle map + 1.
Proof using All.
  intros Hk Hh Hwf Hix Hn Hc. destruct (grow_entries map) as [Hge Hgn]. destruct (grow_handles map Hh) as [Hgh _].
  pose proof (put_keys true key v map Hk Hwf Hc) as Hput.
  assert (map_count (Map_grow map) = map_count map) as Hgc by (unfold map_count; by rewrite Hge).
  unfold Map_put in *. unfold Map_indexForKey in *. rewrite Hge, Hix in *. cbn [Z.ltb Z.compare] in *. rewrite Hgc in *.
  eexists. split; [done|]. destruct Hput as (Hk' & _). split; [done|].
  pose proof (append_handles (Map_grow map) (key_hash key) key v (map_capacity (Map_grow map)) Hgh) as Ha.
  rewrite Hgn, Hgc, Hge in Ha. destruct Ha as [Ha _]; [done|done|]. rewrite Hgn. split; [exact Ha|].
  cbn [map_entries map_nextHandle]. split; [done|]. unfold u32. apply Z.mod_small.
  destruct Hh as (_ & _ & [? _] & _). lia.
Qed.
End Keys.

(** Keys of [n] bytes. *)
Definition mem_key_laws (n : nat) : MapKeyLaws (list Z).
Proof.
  refine {| key_wf := fun k => length k = n |}. intros a b Ha Hb. split.
  - apply memcmp_eq. congruence.
  - intros ->. apply memcmp_refl.
Defined.

#[export] Instance int_key_laws : MapKeyLaws Z.
Proof.
  refine {| key_wf := fun k => - 2 ^ 31 <= k < 2 ^ 31 |}. intros a b Ha Hb. cbn [key_compare int_key]. split.
  - intros H%memcmp_eq; [|by rewrite !length_le_bytes].
    apply (f_equal le_val) in H. rewrite !le_val_bytes in H.
    change (2 ^ (8 * Z.of_nat 4)) with 4294967296 in H. change (2 ^ 31) with 2147483648 in *.
    Z.to_euclidean_division_equations. lia.
  - intros ->. apply memcmp_refl.
Defined.

Lemma put_handle_spec {V} (map : Map unit V) (v : V) :
  handles_ok map -> map_nextHandle map < 2 ^ 32 - 1 -> map_count map < 2 ^ 31 - 1 ->
  let '(i, map') := Map_put_handle v map in
  handles_ok map' /\ hmap map' = <[map_nextHandle map := v]> (hmap map) /\
  e_handle <$> map_entries map' !! Z.to_nat i = Some (map_nextHandle map).
Proof.
  intros Hok Hn Hc. destruct (grow_handles map Hok) as [Hg Hm]. unfold Map_put_handle.
  pose proof (append_handles (Map_grow map) 0 tt v (map_capacity (Map_grow map)) Hg) as Ha.
  rewrite Hm in Ha. unfold Map_grow, map_count in *.
  destruct (len (map_entries map) =? map_capacity map); cbn [map_entries map_nextHandle map_capacity] in *;
    (destruct Ha as [H1 H2]; [done|done|]; split; [done|]; split; [done|];
     rewrite Nat2Z.id, lookup_app_r, Nat.sub_diag by lia; done).
Qed.

(** ** Theorems *)

(** [C34] As long as the handles have not wrapped around, Map.h with handles implements
    a finite map from handles.  The handles have not wrapped when they increase along
    the array and are below the next handle ([handles_ok], which a new map has and
    these operations keep) and the next handle is below 2^32 - 1; the count must fit
    an int.  Then what is put in gets the next handle and is found under it, looking
    up a handle finds the index of its entry (-1 if there is none), and removing that
    index forgets the handle and no other.  After the 2^32nd put the bisection can miss an
    entry which is there: [wrapped_handle_lost]. *)
Theorem handles_refine {V} (map : Map unit V) (v : V) (h : Z) :
  handles_ok map -> map_nextHandle map < 2 ^ 32 - 1 -> map_count map < 2 ^ 31 - 1 ->
  (let '(i, map') := Map_put_handle v map in
   handles_ok map' /\ hmap map' = <[map_nextHandle map := v]> (hmap map) /\
   e_handle <$> map_entries map' !! Z.to_nat i = Some (map_nextHandle map)) /\
  let i := Map_indexForHandle h map in
  match hmap map !! h with
  | Some w =>
      e_value <$> map_entries map !! Z.to_nat i = Some w /\ 0 <= i /\
      let '(r, map') := Map_remove i map in
      r = 0 /\ handles_ok map' /\ hmap map' = delete h (hmap map)
  | None => i = -1
  end.
Proof.
  intros Hok Hn Hc. split.
  - by apply put_handle_spec.
  - pose proof (indexForHandle_lookup map h Hok) as Hl. cbn zeta.
    destruct (hmap map !! h) as [w|]; [|done]. destruct Hl as (i & e & Hi & <- & <- & ->).
    rewrite Nat2Z.id, Hi. split; [done|]. split; [lia|].
    pose proof (remove_handles map i e Hok Hi) as [H1 H2].
    pose proof (remove_entries map i (lookup_lt_Some _ _ _ Hi)) as Hr. rewrite Hr in *. by split.
Qed.

Definition example_map : Map unit string := Eval vm_compute in
  snd (Map_put_handle "c" (snd (Map_remove 0 (snd (Map_put_handle "b" (snd (Map_put_handle "a" Map_new))))))).

Lemma example_map_ok : handles_ok example_map.
Proof.
  split; [|split; [|split]]; [by repeat constructor| |done|done].
  cbn. repeat constructor; cbn; lia.
Qed.

Lemma example_map_c : hmap example_map !! 2 = Some "c"%string.
Proof. reflexivity. Qed.

Lemma handles_refine_witness :
  hmap example_map !! 2 = Some "c"%string /\
  let '(r, map') := Map_remove (Map_indexForHandle 2 example_map) example_map in
  r = 0 /\ handles_ok map' /\ hmap map' = delete 2 (hmap example_map).
Proof.
  split; [reflexivity|].
  pose proof (handles_refine example_map "d"%string 2 example_map_ok ltac:(done) ltac:(done)) as [_ H].
  cbv zeta in H. rewrite example_map_c in H. by destruct H as (_ & _ & H).
Defined.

(** Handles are 32-bit numbers and wrap around; after that the array is not
    sorted any more and an entry that is in the map is not found. *)
Example wrapped_handle_lost :
  let map := mkMap [mkEntry 0 tt 5 "old"%string] (2 ^ 32 - 1) 10 in
  let map := snd (Map_put_handle "new"%string (snd (Map_put_handle "last"%string map))) in
  e_handle <$> map_entries map = [5; 2 ^ 32 - 1; 0] /\ Map_indexForHandle 0 map = -1.
Proof. by vm_compute. Qed.
