(* ===== verification/Address.v ===== *)
(** * dht/Address.c and util/version/Version.c: nodes and protocol versions

    An [Address] names a node: its key, the IPv6 address derived from the key, a
    path to it and its protocol version.  The address is stored as the bytes of
    the union; [ints] reads it with the halves exchanged ("rotated by 64 bits").
    A function which fills in a missing address returns the changed struct. *)
From S2P Require Import Prelude Bits Hex AddrTools Message Base10 Nacl Key.

(** ** Versions *)

Definition Version_CURRENT_PROTOCOL : Z := 21.
Definition Version_MINIMUM_COMPATIBLE : Z := 20.
Definition Version_DEFAULT_ASSUMPTION : Z := 20.

Definition VERSION_MATRIX : list (list Z) :=
  [[1;1;0;0;0;0;0;0;0;0;0;0;0;0;0;0;0;0;0;0;0;0];
   [1;1;1;1;1;1;0;0;0;0;0;0;0;0;0;0;0;0;0;0;0;0];
   [0;1;1;1;1;1;0;0;0;0;0;0;0;0;0;0;0;0;0;0;0;0];
   [0;1;1;1;1;1;0;0;0;0;0;0;0;0;0;0;0;0;0;0;0;0];
   [0;1;1;1;1;1;0;0;0;0;0;0;0;0;0;0;0;0;0;0;0;0];
   [0;1;1;1;1;1;1;1;1;1;0;0;0;0;0;0;0;0;0;0;0;0];
   [0;0;0;0;0;1;1;1;1;1;0;0;0;0;0;0;0;0;0;0;0;0];
   [0;0;0;0;0;1;1;1;1;1;1;1;1;0;0;0;0;0;0;0;0;0];
   [0;0;0;0;0;1;1;1;1;1;1;1;1;0;0;0;0;0;0;0;0;0];
   [0;0;0;0;0;1;1;1;1;1;1;1;1;0;0;0;0;0;0;0;0;0];
   [0;0;0;0;0;0;0;1;1;1;1;1;1;0;0;0;0;0;0;0;0;0];
   [0;0;0;0;0;0;0;1;1;1;1;1;1;0;0;0;0;0;0;0;0;0];
   [0;0;0;0;0;0;0;1;1;1;1;1;1;1;1;1;1;0;0;0;0;0];
   [0;0;0;0;0;0;0;0;0;0;0;0;1;1;1;1;1;0;0;0;0;0];
   [0;0;0;0;0;0;0;0;0;0;0;0;1;1;1;1;1;0;0;0;0;0];
   [0;0;0;0;0;0;0;0;0;0;0;0;1;1;1;1;1;0;0;0;0;0];
   [0;0;0;0;0;0;0;0;0;0;0;0;1;1;1;1;1;1;1;1;1;0];
   [0;0;0;0;0;0;0;0;0;0;0;0;0;0;0;0;1;1;1;1;1;0];
   [0;0;0;0;0;0;0;0;0;0;0;0;0;0;0;0;1;1;1;1;1;0];
   [0;0;0;0;0;0;0;0;0;0;0;0;0;0;0;0;1;1;1;1;1;0];
   [0;0;0;0;0;0;0;0;0;0;0;0;0;0;0;0;1;1;1;1;1;1];
   [0;0;0;0;0;0;0;0;0;0;0;0;0;0;0;0;0;0;0;0;1;1]].

Definition Version_isCompatible (one two : Z) : Z :=
  let one := if one >? Version_CURRENT_PROTOCOL then Version_CURRENT_PROTOCOL else one in
  let two := if two >? Version_CURRENT_PROTOCOL then Version_CURRENT_PROTOCOL else two in
  get (nth (Z.to_nat one) VERSION_MATRIX []) two.

(** ** Definitions *)

Definition Address_KEY_SIZE : Z := 32.
Definition Address_SEARCH_TARGET_SIZE : Z := 16.

Record Address := mkAddress {
  protocolVersion : Z;
  a_padding : Z;
  ip6 : list Z;
  key : list Z;
  path : Z;
}.

Definition Address_zero : Address := mkAddress 0 0 (zeros 16) (zeros 32) 0.

(** The views [ints] and [longs] of the union. *)
Definition three_be (a : Address) : Z := le_val (rd 0 4 (ip6 a)).
Definition four_be (a : Address) : Z := le_val (rd 4 4 (ip6 a)).
Definition one_be (a : Address) : Z := le_val (rd 8 4 (ip6 a)).
Definition two_be (a : Address) : Z := le_val (rd 12 4 (ip6 a)).
Definition longs_one_be (a : Address) : Z := le_val (rd 8 8 (ip6 a)).

Definition with_ip6 (a : Address) (ip : list Z) : Address :=
  mkAddress (protocolVersion a) (a_padding a) ip (key a) (path a).

Definition Address_prefixForIp6 (ip6 : list Z) : Z :=
  let word := le_val (rd 8 4 ip6) in
  Endian_bigEndianToHost32 word.

Definition Address_prefixForSearchTarget (searchTarget : list Z) : Z :=
  let prefix_be := le_val (rd 8 4 searchTarget) in
  Endian_bigEndianToHost32 prefix_be.

Definition Address_serialize (addr : Address) : list Z :=
  let output := take 32 (key addr) ++ le_bytes 8 (path addr) in
  let path_be := Endian_hostToBigEndian64 (path addr) in
  wr 32 (le_bytes 8 path_be) output.

(** What is not stored keeps its value. *)
Definition Address_parse (addr : Address) (input : list Z) : Address :=
  mkAddress (protocolVersion addr) (a_padding addr) (zeros 16) (rd 0 32 input)
    (Endian_bigEndianToHost64 (le_val (rd 32 8 input))).

Definition Address_isSame (addr addr2 : Address) : bool :=
  (memcmp (key addr) (key addr2) =? 0) && (path addr =? path addr2).

Definition Address_isSameIp (addr addr2 : Address) : bool :=
  memcmp (ip6 addr) (ip6 addr2) =? 0.

Definition Address_xorcmp (target negativeIfCloser positiveIfCloser : Z) : Z :=
  if negativeIfCloser =? positiveIfCloser then 0
  else
    let ref := Endian_bigEndianToHost32 target in
    if Z.lxor (Endian_bigEndianToHost32 negativeIfCloser) ref
       <? Z.lxor (Endian_bigEndianToHost32 positiveIfCloser) ref
    then -1 else 1.

Section Address.
Context {N : Nacl}.

Definition Address_getPrefix (addr : Address) : Address * Z :=
  let addr :=
    if (one_be addr =? 0) && (two_be addr =? 0) && (three_be addr =? 0) && (four_be addr =? 0)
    then with_ip6 addr (snd (AddressCalc_addressForPublicKey (key addr)))
    else addr in
  (addr, Endian_bigEndianToHost32 (one_be addr)).

(** The comparison's result as a [bool]: true when they differ. *)
Definition Address_equalsSearchTarget (addr : Address) (searchTarget : list Z) : Address * bool :=
  let '(addr, _) := Address_getPrefix addr in
  (addr, negb (memcmp (ip6 addr) (take 16 searchTarget) =? 0)).

Definition Address_forKey (out : Address) (key : list Z) : Address :=
  mkAddress (protocolVersion out) (a_padding out) (snd (AddressCalc_addressForPublicKey key))
    (take 32 key) (path out).

Definition Address_printIp (addr : Address) : Address * list Z :=
  let '(addr, _) := Address_getPrefix addr in
  (addr, AddrTools_printIp (ip6 addr)).

Definition Address_printShortIp (addr : Address) : Er (Address * list Z) :=
  let '(addr, _) := Address_getPrefix addr in
  text ← AddrTools_printShortIp (ip6 addr);
  Ret (addr, text).

(** The 60 bytes of [output]. *)
Definition Address_print (addr : Address) : Address * list Z :=
  let '(addr, output) := Address_printIp addr in
  let output := take 39 output ++ [64] in
  (addr, output ++ AddrTools_printPath (path addr)).

(** The three structs, their addresses filled in, and the result. *)
Definition Address_closest (target negativeIfCloser positiveIfCloser : Address)
  : Address * Address * Address * Z :=
  let '(target, _) := Address_getPrefix target in
  let '(negativeIfCloser, _) := Address_getPrefix negativeIfCloser in
  let '(positiveIfCloser, _) := Address_getPrefix positiveIfCloser in
  let compare part := Address_xorcmp (part target) (part negativeIfCloser) (part positiveIfCloser) in
  (target, negativeIfCloser, positiveIfCloser,
    if negb (compare one_be =? 0) then compare one_be
    else if negb (compare two_be =? 0) then compare two_be
    else if negb (compare three_be =? 0) then compare three_be
    else if negb (compare four_be =? 0) then compare four_be
    else 0).

(** ["v%u.%s.%s"]. *)
Definition address_text (version : Z) (path rest : list Z) : list Z :=
  118 :: num_text version ++ 46 :: path ++ 46 :: rest.

Definition Address_toStringKey (addr : Address) : list Z :=
  let key := Key_stringify (key addr) in
  let path := take 19 (AddrTools_printPath (path addr)) in
  address_text (protocolVersion addr) path key.

Definition Address_toString (addr : Address) : Address * list Z :=
  let '(addr, _) := Address_getPrefix addr in
  let ip := take 39 (AddrTools_printIp (ip6 addr)) in
  let path := take 19 (AddrTools_printPath (path addr)) in
  (addr, address_text (protocolVersion addr) path ip).

(** The loop over the digits of the version: the index where it stops and the
    number, [None] for the early return.  The assertion ends it at 77. *)
Fixpoint version_loop (fuel : nat) (str : list Z) (i version : Z) : Er (option (Z * Z)) :=
  match fuel with
  | O => Ret None
  | S fuel =>
      if negb (get str i =? 0) && negb (get str i =? 46) then
        Assert_true (i <? 77);;
        if (get str i >? 57) || (get str i <? 48) then Ret None
        else version_loop fuel str (i + 1) (u32 (u32 (version * 10) + (get str i - 48)))
      else Ret (Some (i, version))
  end.

(** [str] is the string's bytes, a zero byte follows. *)
Definition Address_fromString (str : list Z) : Er (option Address) :=
  if len str <? 77 then Ret None
  else if negb (get str 0 =? 118) then Ret None
  else
    loop ← version_loop 77 str 1 0;
    match loop with
    | None => Ret None
    | Some (i, version) =>
        if negb (get str i =? 46) then Ret None
        else
          let i := i + 1 in
          if negb (len str - i =? 74) then Ret None
          else if negb (get str (i + 19) =? 46) then Ret None
          else
            match AddrTools_parsePath (rd i 19 str ++ [0]) with
            | None => Ret None
            | Some path =>
                let keyPart := rd (i + 20) (len str - i - 20) str in
                Assert_true ((len keyPart =? 54) && (get keyPart 53 =? 107));;
                let '(ret, key, ip6) := Key_parse (Some keyPart) (zeros 32) true in
                if negb (ret =? 0) then Ret None
                else Ret (Some (mkAddress version 0 (default (zeros 16) ip6) key path))
            end
    end.

End Address.

(** ** Theorems *)

(** The current protocol talks to version 20 and to whatever is newer. *)
Theorem current_compatible v :
  0 <= v -> Version_isCompatible Version_CURRENT_PROTOCOL v = Z.b2z (Version_MINIMUM_COMPATIBLE <=? v).
Proof.
  intros Hv. unfold Version_isCompatible, Version_MINIMUM_COMPATIBLE.
  change (Version_CURRENT_PROTOCOL >? Version_CURRENT_PROTOCOL) with false. cbv iota.
  unfold Version_CURRENT_PROTOCOL. destruct (Z.gtb_spec v 21); [zdecide (20 <=? v); reflexivity|].
  assert (v ∈ seqZ 0 22) as Hin by (apply elem_of_seqZ; lia).
  assert (Forall (fun v => get (nth (Z.to_nat 21) VERSION_MATRIX []) v = Z.b2z (20 <=? v)) (seqZ 0 22)) as Hall.
  { cbv [seqZ]. vm_compute seq. cbn [fmap list_fmap]. repeat constructor. }
  rewrite Forall_forall in Hall. by apply Hall.
Qed.

(** The well-formed structs. *)
Definition Address_wf (a : Address) : Prop :=
  fits 32 (protocolVersion a) /\ fits 64 (path a) /\ length (key a) = 32%nat /\ bytes (key a) /\
  length (ip6 a) = 16%nat /\ bytes (ip6 a).

(** Address_serialize and Address_parse are inverse to each other. *)
Theorem address_serialize_parse a b :
  Address_wf a ->
  length (Address_serialize a) = 40%nat /\
  Address_parse b (Address_serialize a)
  = mkAddress (protocolVersion b) (a_padding b) (zeros 16) (key a) (path a).
Proof.
  intros (_ & Hp & Hk & Hkb & _). unfold Address_serialize.
  rewrite take_ge by lia. unfold wr. rewrite be64_bytes by done.
  change (Z.to_nat 32) with 32%nat. rewrite take_app_length' by done.
  rewrite drop_ge by (rewrite length_app, length_le_bytes, length_be_bytes; lia). rewrite app_nil_r.
  split; [rewrite length_app, length_be_bytes; lia|]. unfold Address_parse. f_equal.
  - apply rd_app_0. lia.
  - rewrite <- (app_nil_r (be_bytes 8 (path a))), rd_of_app by (rewrite ?length_be_bytes; lia).
    rewrite host64 by (apply length_be_bytes || apply be_bytes_bytes).
    rewrite be_val_bytes. by apply fits_small.
Qed.

(** *** The distance of addresses *)

(** The address as a number, its halves exchanged. *)
Definition rotated (a : Address) : Z := be_val (rd 8 8 (ip6 a) ++ rd 0 8 (ip6 a)).
Definition distance (a b : Address) : Z := Z.lxor (rotated a) (rotated b).

Lemma host32_lxor_lt a b c : length a = 4%nat -> length b = 4%nat -> length c = 4%nat ->
  bytes a -> bytes b -> bytes c ->
  Address_xorcmp (le_val c) (le_val a) (le_val b)
  = match Z.lxor (be_val a) (be_val c) ?= Z.lxor (be_val b) (be_val c) with
    | Lt => -1 | Eq => 0 | Gt => 1 end.
Proof.
  intros La Lb Lc Ha Hb Hc. unfold Address_xorcmp.
  rewrite !host32 by done. destruct (Z.eqb_spec (le_val a) (le_val b)) as [E|E].
  - assert (a = b) as ->. { rewrite <- (le_bytes_val a), <- (le_bytes_val b) by done. by rewrite La, Lb, E. }
    by rewrite Z.compare_refl.
  - assert (Z.lxor (be_val a) (be_val c) <> Z.lxor (be_val b) (be_val c)) as Hne.
    { intros Hx. apply E. f_equal. apply (f_equal (fun x => Z.lxor x (be_val c))) in Hx.
      rewrite !Z.lxor_assoc, Z.lxor_nilpotent, !Z.lxor_0_r in Hx.
      rewrite <- (be_bytes_val a), <- (be_bytes_val b) by done. by rewrite La, Lb, Hx. }
    destruct (Z.compare_spec (Z.lxor (be_val a) (be_val c)) (Z.lxor (be_val b) (be_val c)));
      [done|zdecide (Z.lxor (be_val a) (be_val c) <? Z.lxor (be_val b) (be_val c))|
       zdecide (Z.lxor (be_val a) (be_val c) <? Z.lxor (be_val b) (be_val c))]; done.
Qed.

(** Comparing numbers by their upper part first. *)
Lemma compare_parts k x y x' y' : 0 <= k -> fits k y -> fits k y' ->
  (x * 2 ^ k + y ?= x' * 2 ^ k + y') =
  match x ?= x' with Eq => (y ?= y') | c => c end.
Proof.
  intros Hk Hy Hy'. unfold fits in *. pose proof (Z.pow_pos_nonneg 2 k ltac:(lia) Hk).
  destruct (Z.compare_spec x x') as [->|Hlt|Hgt].
  - rewrite Z.add_compare_mono_l. done.
  - apply Z.compare_lt_iff. nia.
  - apply Z.compare_gt_iff. nia.
Qed.

Lemma lxor_parts k x y x' y' : 0 <= k -> 0 <= x -> 0 <= x' -> fits k y -> fits k y' ->
  Z.lxor (x * 2 ^ k + y) (x' * 2 ^ k + y') = Z.lxor x x' * 2 ^ k + Z.lxor y y'.
Proof.
  intros Hk Hx Hx' Hy Hy'. rewrite (Z.add_comm _ y), (Z.add_comm _ y'), (Z.add_comm _ (Z.lxor y y')).
  rewrite <- !lor_shiftl_add by (done || by apply fits_lxor).
  apply Z.bits_inj'. intros i Hi. rewrite !Z.lxor_spec, !Z.lor_spec, !Z.lxor_spec, !Z.shiftl_spec by done.
  rewrite Z.lxor_spec. destruct (Z.ltb_spec i k).
  - rewrite !(Z.testbit_neg_r _ (i - k)) by lia. by rewrite !orb_false_r.
  - rewrite (fits_testbit k y), (fits_testbit k y') by done. by cbn.
Qed.

(** Four words of 32 bits, most significant first. *)
Lemma compare_words a1 a2 a3 a4 b1 b2 b3 b4 c1 c2 c3 c4 :
  Forall (fun l => length l = 4%nat /\ bytes l) [a1; a2; a3; a4; b1; b2; b3; b4; c1; c2; c3; c4] ->
  let num w x y z := be_val ((w ++ x) ++ (y ++ z)) in
  let a := Z.lxor (num a1 a2 a3 a4) (num c1 c2 c3 c4) in
  let b := Z.lxor (num b1 b2 b3 b4) (num c1 c2 c3 c4) in
  let part x y z := Z.lxor (be_val x) (be_val z) ?= Z.lxor (be_val y) (be_val z) in
  (a ?= b) = match part a1 b1 c1 with Eq =>
               match part a2 b2 c2 with Eq =>
                 match part a3 b3 c3 with Eq => part a4 b4 c4 | c => c end
               | c => c end
             | c => c end.
Proof.
  intros Hall. rewrite !Forall_cons in Hall. destruct_and!.
  repeat match goal with H : length ?l = 4%nat |- _ =>
    lazymatch goal with
    | _ : fits 32 (be_val l) |- _ => fail
    | Hb : bytes l |- _ =>
        let Hf := fresh in pose proof (be_val_bound l Hb) as Hf; rewrite H in Hf; change (8 * Z.of_nat 4) with 32 in Hf
    end end.
  cbn beta zeta. rewrite !be_val_app, !length_app.
  repeat match goal with H : length ?l = 4%nat |- _ => rewrite H; clear H end.
  change (8 * Z.of_nat 4) with 32. change (8 * Z.of_nat (4 + 4)) with 64.
  assert (forall x y, fits 32 x -> fits 32 y -> fits 64 (x * 2 ^ 32 + y)) as Hw64.
  { unfold fits. intros x y ? ?. change (2 ^ 64) with (2 ^ 32 * 2 ^ 32). nia. }
  assert (forall x y, fits 32 x -> fits 32 y -> fits 32 (Z.lxor x y)) as Hw32.
  { intros. by apply fits_lxor. }
  assert (forall w x, fits w x -> 0 <= x) as Hpos by (by intros ? ? [? _]).
  rewrite !(lxor_parts 64), !(lxor_parts 32) by (done || (eapply Hpos; eauto) || eauto).
  rewrite (compare_parts 64), !(compare_parts 32) by (done || eauto).
  repeat case_match; done.
Qed.

Definition order_sign (c : comparison) : Z := match c with Lt => -1 | Eq => 0 | Gt => 1 end.

Lemma ip_words l : length l = 16%nat -> bytes l ->
  exists w1 w2 w3 w4, l = w3 ++ w4 ++ w1 ++ w2 /\
    Forall (fun w => length w = 4%nat /\ bytes w) [w1; w2; w3; w4].
Proof.
  intros Hl Hb. exists (rd 8 4 l), (rd 12 4 l), (rd 0 4 l), (rd 4 4 l). split.
  - do 16 (destruct l as [|? l]; [done|]). by destruct l.
  - repeat (apply Forall_cons; split; [split; [rewrite length_rd_in; lia|by apply rd_bytes]|]).
    by apply Forall_nil.
Qed.

(** [Address_closest] orders addresses by the XOR of their rotated values with the
    target: the result is the sign of the comparison of the two distances. *)
Theorem closest_is_xor_metric {N : Nacl} target a b :
  let filled x := fst (Address_getPrefix x) in
  Address_wf (filled target) -> Address_wf (filled a) -> Address_wf (filled b) ->
  Address_closest target a b =
    (filled target, filled a, filled b,
     order_sign (distance (filled a) (filled target) ?= distance (filled b) (filled target))).
Proof.
  cbn zeta. unfold Address_closest. destruct (Address_getPrefix target) as [t ?].
  destruct (Address_getPrefix a) as [x ?]. destruct (Address_getPrefix b) as [y ?]. cbn [fst].
  intros (_ & _ & _ & _ & Lt & Bt) (_ & _ & _ & _ & Lx & Bx) (_ & _ & _ & _ & Ly & By). f_equal.
  unfold distance, rotated, one_be, two_be, three_be, four_be.
  destruct (ip_words _ Lt Bt) as (t1 & t2 & t3 & t4 & -> & Wt).
  destruct (ip_words _ Lx Bx) as (x1 & x2 & x3 & x4 & -> & Wx).
  destruct (ip_words _ Ly By) as (y1 & y2 & y3 & y4 & -> & Wy).
  pose proof (compare_words x1 x2 x3 x4 y1 y2 y3 y4 t1 t2 t3 t4) as Hc.
  assert (forall w1 w2 w3 w4, Forall (fun w => length w = 4%nat /\ bytes w) [w1; w2; w3; w4] ->
    rd 0 4 (w3 ++ w4 ++ w1 ++ w2) = w3 /\ rd 4 4 (w3 ++ w4 ++ w1 ++ w2) = w4 /\
    rd 8 4 (w3 ++ w4 ++ w1 ++ w2) = w1 /\ rd 12 4 (w3 ++ w4 ++ w1 ++ w2) = w2 /\
    rd 8 8 (w3 ++ w4 ++ w1 ++ w2) = w1 ++ w2 /\ rd 0 8 (w3 ++ w4 ++ w1 ++ w2) = w3 ++ w4) as Hrd.
  { clear. intros w1 w2 w3 w4 Hw. rewrite !Forall_cons in Hw. destruct_and!.
    split; [apply rd_app_0; lia|]. split; [apply rd_of_app; lia|].
    split; [rewrite app_assoc; apply rd_of_app; rewrite ?length_app; lia|].
    split; [replace (w3 ++ w4 ++ w1 ++ w2) with ((w3 ++ w4 ++ w1) ++ w2 ++ [])
              by (by rewrite app_nil_r, <- !app_assoc); apply rd_of_app; rewrite ?length_app; lia|].
    split; [replace (w3 ++ w4 ++ w1 ++ w2) with ((w3 ++ w4) ++ (w1 ++ w2) ++ [])
              by (by rewrite app_nil_r, <- !app_assoc); apply rd_of_app; rewrite ?length_app; lia|].
    rewrite app_assoc. apply rd_app_0. rewrite length_app. lia. }
  destruct (Hrd _ _ _ _ Wt) as (-> & -> & -> & -> & -> & ->).
  destruct (Hrd _ _ _ _ Wx) as (-> & -> & -> & -> & -> & ->).
  destruct (Hrd _ _ _ _ Wy) as (-> & -> & -> & -> & -> & ->).
  rewrite !Forall_cons in Wt, Wx, Wy. destruct_and!.
  rewrite Hc by (rewrite !Forall_cons; by repeat split). clear Hc Hrd.
  rewrite !host32_lxor_lt by done.
  by repeat (match goal with |- context [match ?c with Lt => -1 | _ => _ end] => destruct c end; cbn).
Qed.

(** *** Text *)

Lemma dval_app l acc d : dval acc (l ++ [d]) = dval acc l * 10 + (d - 48).
Proof. unfold dval. by rewrite fold_left_app. Qed.

(** The loop reads the digits up to the dot. *)
Lemma version_loop_digits ds : forall fuel pre rest v,
  Forall digit_char ds -> 0 <= v -> dval v ds < 2 ^ 32 -> (length ds < fuel)%nat ->
  len pre + len ds < 77 ->
  version_loop fuel (pre ++ ds ++ 46 :: rest) (len pre) v = Ret (Some (len pre + len ds, dval v ds)).
Proof.
  induction ds as [|d ds IH]; intros fuel pre rest v Hd Hv Hb Hf Hl;
    (destruct fuel as [|fuel]; [cbn in Hf; lia|]); cbn [version_loop app].
  - rewrite get_app_here by done. cbn. f_equal. f_equal. f_equal. lia.
  - rewrite get_app_here by done. apply Forall_cons in Hd as [Hd Hds]. pose proof Hd as Hd'.
    unfold digit_char in Hd'. cbn [length] in *.
    zdecide (d =? 0). zdecide (d =? 46). cbn [negb andb]. zdecide (len pre <? 77). cbn [Assert_true mbind Er_bind].
    destruct (Z.gtb_spec d 57); [lia|]. zdecide (d <? 48). cbn [orb].
    rewrite dval_cons in *. pose proof (dval_bound ds (v * 10 + (d - 48)) Hds ltac:(lia)) as Hm.
    unfold u32. rewrite (Z.mod_small (v * 10)) by lia. rewrite Z.mod_small by lia.
    replace (pre ++ d :: ds ++ 46 :: rest) with ((pre ++ [d]) ++ ds ++ 46 :: rest) by (by rewrite <- app_assoc).
    replace (len pre + 1) with (len (pre ++ [d])) by (rewrite length_app; cbn [length]; lia).
    rewrite IH by (done || rewrite ?length_app; cbn [length]; lia).
    rewrite length_app. cbn [length]. do 3 f_equal. lia.
Qed.

Lemma printPath_text p : exists t, AddrTools_printPath p = t ++ [0] /\ length t = 19%nat.
Proof.
  exists (take 19 (AddrTools_printPath p)). unfold AddrTools_printPath. by split.
Qed.

(** [C37] What [Address_toStringKey] prints is read back by [Address_fromString], with the
    address of the key filled in, provided that the key is that of a node (its
    address is valid). *)
Theorem address_text_roundtrip {N : Nacl} a :
  Address_wf a -> AddressCalc_validAddress (snd (AddressCalc_addressForPublicKey (key a))) = true ->
  Address_fromString (Address_toStringKey a) =
    Ret (Some (mkAddress (protocolVersion a) 0 (snd (AddressCalc_addressForPublicKey (key a)))
                 (key a) (path a))).
Proof.
  intros (Hv & Hp & Hk & Hkb & _) Hvalid. unfold Address_toStringKey, address_text.
  destruct (printPath_text (path a)) as (t & Et & Lt). rewrite Et, take_app_length' by done.
  destruct (key_roundtrip (key a) (zeros 32) Hkb Hk eq_refl) as (Lk & Ek & _).
  pose proof (stringify_text (key a) Hkb Hk) as Es. pose proof (length_stringify_text (key a) Hk) as Ls.
  unfold fits in Hv.
  destruct (num_text_shape (protocolVersion a)) as (ds & En & Hds & Hne & Hdv); [unfold int64_ok; lia|].
  zdecide_in (protocolVersion a <? 0) En. cbn [app] in En.
  assert (length ds <= 10)%nat as Ld.
  { rewrite <- En. unfold num_text. zdecide (protocolVersion a <? 0). apply digits_length; lia. }
  assert (1 <= length ds)%nat as Ld1 by (destruct ds; [done|cbn; lia]).
  rewrite Z.abs_eq in Hdv by lia. rewrite En.
  set (k := Key_stringify (key a)) in *. unfold Address_fromString.
  assert (len (118 :: ds ++ 46 :: t ++ 46 :: k) = 76 + len ds) as Hlen.
  { cbn [length]. rewrite !length_app. cbn [length]. rewrite length_app. cbn [length]. lia. }
  rewrite Hlen. zdecide (76 + len ds <? 77). change (get (118 :: _) 0) with 118. cbn [Z.eqb Pos.eqb negb].
  pose proof (version_loop_digits ds 77 [118] (t ++ 46 :: k) 0 Hds) as Hloop.
  rewrite Hdv in Hloop. change (len [118]) with 1 in Hloop. cbn [app] in Hloop.
  rewrite Hloop by lia. clear Hloop. cbn [mbind Er_bind].
  change (118 :: ds ++ 46 :: t ++ 46 :: k) with ((118 :: ds) ++ 46 :: t ++ 46 :: k).
  rewrite (get_app_here (118 :: ds)) by (cbn [length]; lia). cbn [Z.eqb Pos.eqb negb].
  replace (76 + len ds - (1 + len ds + 1)) with 74 by lia. cbn [Z.eqb Pos.eqb negb].
  replace ((118 :: ds) ++ 46 :: t ++ 46 :: k) with ((118 :: ds ++ [46]) ++ t ++ 46 :: k)
    by (cbn; by rewrite <- app_assoc).
  assert (len (118 :: ds ++ [46]) = 1 + len ds + 1) as Hpre
    by (cbn [length]; rewrite length_app; cbn [length]; lia).
  rewrite app_assoc, (get_app_here ((118 :: ds ++ [46]) ++ t)) by (rewrite length_app; lia).
  cbn [Z.eqb Pos.eqb negb]. rewrite <- app_assoc, rd_of_app by lia.
  rewrite <- Et, printPath_parsePath by done.
  assert (rd (1 + len ds + 1 + 20) (74 - 20) ((118 :: ds ++ [46]) ++ t ++ 46 :: k) = k) as ->.
  { replace ((118 :: ds ++ [46]) ++ t ++ 46 :: k) with (((118 :: ds ++ [46]) ++ t ++ [46]) ++ k ++ [])
      by (rewrite app_nil_r, <- !app_assoc; done).
    apply rd_of_app; [rewrite !length_app; cbn [length]; rewrite length_app; cbn [length]; lia|lia]. }
  assert (get k 53 = 107) as ->.
  { rewrite Es. replace (Base32.text (key a) ++ [46; 107]) with ((Base32.text (key a) ++ [46]) ++ [107])
      by (by rewrite <- app_assoc). apply get_app_here. rewrite length_app. cbn [length]. lia. }
  replace (len k) with 54 by lia. cbn [Z.eqb Pos.eqb andb Assert_true mbind Er_bind].
  rewrite Ek, Hvalid. cbn. done.
Qed.

Definition example_address : Address := mkAddress 21 0 (zeros 16) (0xfc :: zeros 31) 0x13.

Lemma example_address_wf : Address_wf example_address.
Proof. repeat split; try done; solve_bytes. Qed.

Lemma address_text_roundtrip_witness :
  Address_fromString (N := toy_nacl) (Address_toStringKey example_address) =
    Ret (Some (mkAddress 21 0 (snd (AddressCalc_addressForPublicKey (N := toy_nacl) (key example_address)))
                 (key example_address) 0x13)).
Proof.
  apply (address_text_roundtrip (N := toy_nacl) example_address); [apply example_address_wf|reflexivity].
Defined.

(** A text of the right shape whose last character is not [k] stops the process,
    and so does a version number of 76 digits. *)
Example fromString_aborts :
  let text := Address_toStringKey example_address in
  Address_fromString (N := toy_nacl) (take 77 text ++ [106]) = Abort "Assertion failure" /\
  Address_fromString (N := toy_nacl) (118 :: repeat 49 80) = Abort "Assertion failure".
Proof. by vm_compute. Qed.

(** The comparison with a search target says the opposite of its name. *)
Example equalsSearchTarget_inverted :
  let a := mkAddress 21 0 (0xfc :: zeros 15) (0xfc :: zeros 31) 0x13 in
  snd (Address_equalsSearchTarget (N := toy_nacl) a (ip6 a)) = false /\
  snd (Address_equalsSearchTarget (N := toy_nacl) a (0xfd :: zeros 15)) = true.
Proof. by vm_compute. Qed.

Lemma closest_is_xor_metric_witness :
  let t := mkAddress 21 0 (0xfc :: zeros 15) (zeros 32) 1 in
  let a := mkAddress 21 0 (0xfc :: zeros 14 ++ [1]) (zeros 32) 1 in
  let b := mkAddress 21 0 (0xfc :: 7 :: zeros 14) (zeros 32) 1 in
  Address_closest (N := toy_nacl) t a b = (t, a, b, 1) /\ distance a t > distance b t.
Proof.
  cbn zeta. split; [|by vm_compute].
  rewrite (closest_is_xor_metric (N := toy_nacl)); [by vm_compute| | |];
    (repeat split; try done; vm_compute; solve_bytes).
Defined.
