(* ===== verification/Pinger.v ===== *)
(** * util/Pinger.c: outstanding pings and their answers

    A ping is a struct on the heap, known to the pinger's map by its handle and to
    two timers by its address.  [pings] is that heap: the live pings by address;
    freeing a ping's allocator removes the ping and its timers, so the event loop
    only calls [timeoutCallback] and [asyncSendPing] for live addresses (a stale
    one is [Abort]).  What the pinger does to its user is a list of [Out]: calls of
    [onResponse] and [sendPing] with the user's context, and [Freed] when the
    ping's allocator goes away and the user's own on-free jobs run.

    [pinger_ok] ties heap and map together; [pinger_run] is any sequence of calls,
    and [responds_once] shows that a ping is answered at most once, by its own
    cookie or by its timeout. *)
From stdpp Require Import gmap.
From S2P Require Import Prelude Bits Message HandleMap.

(** ** Definitions *)

Section Pinger.
Context {C : Type}.

Record Ping := mkPing {
  pg_handle : Z;
  pg_context : option C;
  pg_data : list Z;
  pg_timeSent : Z;
  pg_cookie : Z;
}.

Record Pinger := mkPinger {
  outstandingPings : Map unit nat;
  baseHandle : Z;
  pings : gmap nat Ping;
}.

Inductive Out :=
| OnResponse (ping : nat) (data : option (list Z)) (milliseconds : Z) (context : option C)
| SendPing (ping : nat) (data : list Z) (context : option C)
| Freed (ping : nat) (context : option C).

Definition set_pings (pinger : Pinger) (m : Map unit nat) (ps : gmap nat Ping) : Pinger :=
  mkPinger m (baseHandle pinger) ps.

(** The ping at an address. *)
Definition ping_at (pinger : Pinger) (ptr : nat) : Er Ping :=
  match pings pinger !! ptr with Some p => Ret p | None => Abort "dangling pointer" end.

Definition with_timeSent (p : Ping) (t : Z) : Ping :=
  mkPing (pg_handle p) (pg_context p) (pg_data p) t (pg_cookie p).

(** The on-free job; the struct goes with its allocator. *)
Definition freePing (pinger : Pinger) (ptr : nat) : Er (Pinger * list Out) :=
  p ← ping_at pinger ptr;
  let index := Map_indexForHandle (u32 (pg_handle p - baseHandle pinger)) (outstandingPings pinger) in
  Assert_true (index >? -1);;
  let '(_, m) := Map_remove index (outstandingPings pinger) in
  Ret (set_pings pinger m (delete ptr (pings pinger)), [Freed ptr (pg_context p)]).

(** [time] is the clock, a 64-bit number of milliseconds. *)
Definition callback (data : option (list Z)) (pinger : Pinger) (ptr : nat) (time : Z)
  : Er (Pinger * list Out) :=
  p ← ping_at pinger ptr;
  let now := u32 time in
  let response := OnResponse ptr data (u32 (now - pg_timeSent p)) (pg_context p) in
  let pinger := set_pings pinger (outstandingPings pinger) (<[ptr := with_timeSent p 0]> (pings pinger)) in
  '(pinger, outs) ← freePing pinger ptr;
  Ret (pinger, response :: outs).

Definition timeoutCallback (pinger : Pinger) (ptr : nat) (time : Z) : Er (Pinger * list Out) :=
  p ← ping_at pinger ptr;
  if pg_timeSent p =? 0 then Ret (pinger, [])
  else
    let now := i64 time in
    let diff := i64 (now - pg_timeSent p) in
    Assert_true (diff <? 1000000000);;
    callback None pinger ptr time.

Definition asyncSendPing (pinger : Pinger) (ptr : nat) : Er (list Out) :=
  p ← ping_at pinger ptr;
  Ret [SendPing ptr (pg_data p) (pg_context p)].

(** [ptr] is the address of the new struct, [cookie] the random number. *)
Definition Pinger_newPing (data : option (list Z)) (pinger : Pinger) (ptr : nat) (time cookie : Z)
  : Pinger :=
  let '(pingIndex, m) := Map_put_handle ptr (outstandingPings pinger) in
  let handle :=
    u32 (default 0 (e_handle <$> map_entries m !! Z.to_nat pingIndex) + baseHandle pinger) in
  let toSend := le_bytes 4 handle ++ le_bytes 8 cookie ++ default [] data in
  set_pings pinger m
    (<[ptr := mkPing handle None toSend (i64 time) cookie]> (pings pinger)).

(** [pp->context = context]. *)
Definition set_context (pinger : Pinger) (ptr : nat) (context : C) : Pinger :=
  set_pings pinger (outstandingPings pinger)
    (alter (fun p => mkPing (pg_handle p) (Some context) (pg_data p) (pg_timeSent p) (pg_cookie p))
       ptr (pings pinger)).

Definition Pinger_pongReceived (data : list Z) (pinger : Pinger) (time : Z)
  : Er (Pinger * list Out) :=
  if len data <? 12 then Ret (pinger, [])
  else
    let handle := le_val (rd 0 4 data) in
    let index := Map_indexForHandle (u32 (handle - baseHandle pinger)) (outstandingPings pinger) in
    if index <? 0 then Ret (pinger, [])
    else
      let data := drop 4 data in
      let cookie := le_val (rd 0 8 data) in
      match map_entries (outstandingPings pinger) !! Z.to_nat index with
      | None => Abort "index out of bounds"
      | Some e =>
          p ← ping_at pinger (e_value e);
          if negb (cookie =? pg_cookie p) then Ret (pinger, [])
          else
            let data := drop 8 data in
            if pg_timeSent p =? 0 then Ret (pinger, [])
            else callback (Some data) pinger (e_value e) time
      end.

Definition Pinger_new (rand32 : Z) : Pinger := mkPinger Map_new rand32 ∅.

End Pinger.
Arguments Ping : clear implicits.
Arguments Pinger : clear implicits.
Arguments Out : clear implicits.

(** ** The invariant *)

Section Invariant.
Context {C : Type}.
Implicit Types (P : Pinger C) (p : Ping C).

(** Heap and map have the same pings, under the same handles. *)
Definition pinger_ok P : Prop :=
  handles_ok (outstandingPings P) /\ fits 32 (baseHandle P) /\
  (forall ptr p, pings P !! ptr = Some p ->
     hmap (outstandingPings P) !! u32 (pg_handle p - baseHandle P) = Some ptr /\
     fits 32 (pg_handle p) /\ fits 64 (pg_cookie p)) /\
  (forall h ptr, hmap (outstandingPings P) !! h = Some ptr ->
     exists p, pings P !! ptr = Some p /\ u32 (pg_handle p - baseHandle P) = h).

Lemma pinger_ok_new rand : fits 32 rand -> pinger_ok (Pinger_new (C := C) rand).
Proof.
  intros Hr. split; [|split; [done|split]].
  - split; [constructor|]. split; [constructor|]. by split.
  - intros ptr p Hp. cbn [Pinger_new pings] in Hp. by apply lookup_empty_Some in Hp.
  - intros h ptr Hh. change ((∅ : gmap Z nat) !! h = Some ptr) in Hh. by apply lookup_empty_Some in Hh.
Qed.

Lemma index_of_live P ptr p : pinger_ok P -> pings P !! ptr = Some p ->
  exists i e, map_entries (outstandingPings P) !! i = Some e /\ e_value e = ptr /\
    e_handle e = u32 (pg_handle p - baseHandle P) /\
    Map_indexForHandle (u32 (pg_handle p - baseHandle P)) (outstandingPings P) = Z.of_nat i.
Proof.
  intros (Hm & _ & Hp & _) Hl. destruct (Hp ptr p Hl) as [Hh _].
  pose proof (indexForHandle_lookup _ (u32 (pg_handle p - baseHandle P)) Hm) as Hi.
  rewrite Hh in Hi. destruct Hi as (i & e & Hi & He & Hv & Hr). by exists i, e.
Qed.

(** Freeing a live ping forgets it and nothing else. *)
Lemma freePing_spec P ptr p : pinger_ok P -> pings P !! ptr = Some p ->
  exists P', freePing P ptr = Ret (P', [Freed ptr (pg_context p)]) /\ pinger_ok P' /\
    pings P' = delete ptr (pings P) /\ baseHandle P' = baseHandle P.
Proof.
  intros Hok Hl. destruct (index_of_live P ptr p Hok Hl) as (i & e & Hi & Hv & He & Hx).
  destruct Hok as (Hm & Hb & Hp & Hq). unfold freePing, ping_at. rewrite Hl. cbn [mbind Er_bind].
  rewrite Hx. destruct (Z.gtb_spec (Z.of_nat i) (-1)); [|lia]. cbn [Assert_true mbind Er_bind].
  pose proof (remove_handles _ i e Hm Hi) as [Hm' Hd].
  destruct (Map_remove (Z.of_nat i) (outstandingPings P)) as [r m]. cbn [snd] in *.
  eexists. split; [done|]. split; [|by split]. unfold set_pings.
  split; [done|]. split; [done|]. cbn [outstandingPings baseHandle pings]. rewrite Hd, He. split.
  - intros ptr' p' [Hne Hl']%lookup_delete_Some. destruct (Hp _ _ Hl') as [Hh' Hf]. split; [|done].
    rewrite lookup_delete_ne; [done|]. intros Heq. rewrite <- Heq in Hh'.
    destruct (Hp _ _ Hl) as [Hh _]. rewrite Hh in Hh'. congruence.
  - intros h ptr' [Hne Hh]%lookup_delete_Some. destruct (Hq _ _ Hh) as (p' & Hl' & Heq).
    exists p'. split; [|done]. rewrite lookup_delete_ne; [done|]. intros <-.
    rewrite Hl in Hl'. simplify_eq.
Qed.

Lemma with_timeSent_ok P ptr p t : pinger_ok P -> pings P !! ptr = Some p ->
  pinger_ok (set_pings P (outstandingPings P) (<[ptr := with_timeSent p t]> (pings P))).
Proof.
  intros (Hm & Hb & Hp & Hq) Hl. split; [done|]. split; [done|].
  cbn [set_pings outstandingPings baseHandle pings]. split.
  - intros ptr' p' Hl'. destruct (decide (ptr = ptr')) as [<-|Hne].
    + rewrite lookup_insert_eq in Hl'. simplify_eq. by apply (Hp ptr p).
    + rewrite lookup_insert_ne in Hl' by done. by apply Hp.
  - intros h ptr' Hh. destruct (Hq _ _ Hh) as (p' & Hl' & Heq).
    destruct (decide (ptr = ptr')) as [<-|Hne].
    + exists (with_timeSent p t). rewrite lookup_insert_eq. split; [done|].
      rewrite Hl in Hl'. by simplify_eq.
    + exists p'. by rewrite lookup_insert_ne.
Qed.

Lemma callback_spec P ptr p data time : pinger_ok P -> pings P !! ptr = Some p ->
  exists P', callback data P ptr time
      = Ret (P', [OnResponse ptr data (u32 (u32 time - pg_timeSent p)) (pg_context p);
                  Freed ptr (pg_context p)]) /\
    pinger_ok P' /\ pings P' = delete ptr (pings P) /\ baseHandle P' = baseHandle P.
Proof.
  intros Hok Hl. unfold callback, ping_at. rewrite Hl. cbn [mbind Er_bind].
  pose proof (with_timeSent_ok P ptr p 0 Hok Hl) as Hok1.
  destruct (freePing_spec _ ptr (with_timeSent p 0) Hok1) as (P' & -> & Hok' & Hd & Hb).
  { apply lookup_insert_eq. }
  cbn [mbind Er_bind]. exists P'. split; [done|]. split; [done|]. split; [|done].
  rewrite Hd. cbn [set_pings pings]. by rewrite delete_insert_eq.
Qed.

Lemma timeoutCallback_spec P ptr p time : pinger_ok P -> pings P !! ptr = Some p ->
  pg_timeSent p <> 0 -> i64 (i64 time - pg_timeSent p) < 1000000000 ->
  exists P', timeoutCallback P ptr time
      = Ret (P', [OnResponse ptr None (u32 (u32 time - pg_timeSent p)) (pg_context p);
                  Freed ptr (pg_context p)]) /\
    pinger_ok P' /\ pings P' = delete ptr (pings P).
Proof.
  intros Hok Hl Ht Hd. unfold timeoutCallback. unfold ping_at at 1. rewrite Hl. cbn [mbind Er_bind].
  rewrite (proj2 (Z.eqb_neq _ _)) by done.
  rewrite (proj2 (Z.ltb_lt _ _)) by done. cbn [Assert_true mbind Er_bind].
  destruct (callback_spec P ptr p None time Hok Hl) as (P' & H1 & H2 & H3 & _). by exists P'.
Qed.

(** The handle the ping gets. *)
Definition next_handle P : Z := u32 (map_nextHandle (outstandingPings P) + baseHandle P).

Lemma u32_sub_add a b : u32 (u32 (a + b) - b) = u32 a.
Proof. unfold u32. rewrite Zminus_mod_idemp_l. f_equal. lia. Qed.

Lemma newPing_spec P data ptr time cookie :
  pinger_ok P -> pings P !! ptr = None -> fits 64 cookie ->
  map_nextHandle (outstandingPings P) < 2 ^ 32 - 1 -> map_count (outstandingPings P) < 2 ^ 31 - 1 ->
  let P' := Pinger_newPing data P ptr time cookie in
  pinger_ok P' /\ baseHandle P' = baseHandle P /\
  pings P' = <[ptr := mkPing (next_handle P) None
                        (le_bytes 4 (next_handle P) ++ le_bytes 8 cookie ++ default [] data)
                        (i64 time) cookie]> (pings P).
Proof.
  intros Hok Hn Hc Hh Hcount. cbn zeta. pose proof Hok as (Hm & Hb & Hp & Hq).
  pose proof (put_handle_spec (outstandingPings P) ptr Hm Hh Hcount) as Hput.
  unfold Pinger_newPing, next_handle.
  destruct (Map_put_handle ptr (outstandingPings P)) as [i m] eqn:Em.
  destruct Hput as (Hm' & Hins & He). rewrite He. cbn [default from_option id].
  change (default 0 (Some ?x)) with x. split; [|by split]. unfold set_pings.
  split; [done|]. split; [done|]. cbn [outstandingPings baseHandle pings]. rewrite Hins.
  pose proof Hm as (Hs & Hlt & Hnf & _).
  assert (hmap (outstandingPings P) !! map_nextHandle (outstandingPings P) = None) as Hfresh.
  { apply hmap_none. intros e He' Heq. rewrite Forall_forall in Hlt. specialize (Hlt e He'). lia. }
  assert (u32 (u32 (map_nextHandle (outstandingPings P) + baseHandle P) - baseHandle P)
          = map_nextHandle (outstandingPings P)) as Hback.
  { rewrite u32_sub_add. by apply fits_small. } split.
  - intros ptr' p' Hl'. destruct (decide (ptr = ptr')) as [<-|Hne].
    + rewrite lookup_insert_eq in Hl'. simplify_eq. cbn [pg_handle pg_cookie].
      rewrite Hback, lookup_insert_eq. split; [done|]. split; [by apply fits_mod|done].
    + rewrite lookup_insert_ne in Hl' by done. destruct (Hp _ _ Hl') as [H1 H2]. split; [|done].
      rewrite lookup_insert_ne; [done|]. intros E. rewrite <- E in H1. congruence.
  - intros h ptr' Hl'. destruct (decide (h = map_nextHandle (outstandingPings P))) as [->|Hne].
    + rewrite lookup_insert_eq in Hl'. simplify_eq. eexists. rewrite lookup_insert_eq. split; [done|].
      exact Hback.
    + rewrite lookup_insert_ne in Hl' by done. destruct (Hq _ _ Hl') as (p' & H1 & H2).
      exists p'. split; [|done]. rewrite lookup_insert_ne; [done|]. intros <-. congruence.
Qed.

Lemma u32_sub_inj a c b : fits 32 a -> fits 32 c -> u32 (a - b) = u32 (c - b) -> a = c.
Proof.
  intros Ha Hc E. rewrite <- (fits_small 32 a), <- (fits_small 32 c) by done.
  replace a with ((a - b) + b) by lia. replace c with ((c - b) + b) by lia.
  rewrite <- (Zplus_mod_idemp_l (a - b)), <- (Zplus_mod_idemp_l (c - b)).
  unfold u32 in E. by rewrite E.
Qed.

(** A pong is either without effect or the answer to the ping whose handle and
    cookie it begins with. *)
Lemma pongReceived_spec P data time : pinger_ok P ->
  exists P' outs, Pinger_pongReceived data P time = Ret (P', outs) /\ pinger_ok P' /\
    baseHandle P' = baseHandle P /\
    ((P' = P /\ outs = []) \/
     exists ptr p d, pings P !! ptr = Some p /\
       (bytes data -> data = le_bytes 4 (pg_handle p) ++ le_bytes 8 (pg_cookie p) ++ d) /\
       outs = [OnResponse ptr (Some d) (u32 (u32 time - pg_timeSent p)) (pg_context p);
               Freed ptr (pg_context p)] /\
       pings P' = delete ptr (pings P)).
Proof.
  intros Hok. unfold Pinger_pongReceived. pose proof Hok as (Hm & Hbase & Hp & Hq).
  destruct (Z.ltb_spec (len data) 12) as [|Hlen]; [exists P, []; eauto 10|].
  set (handle := le_val (rd 0 4 data)).
  pose proof (indexForHandle_lookup _ (u32 (handle - baseHandle P)) Hm) as Hi.
  destruct (hmap (outstandingPings P) !! _) as [ptr|] eqn:Hh; cycle 1.
  { rewrite Hi. change (-1 <? 0) with true. exists P, []; eauto 10. }
  destruct Hi as (i & e & Hi & He & Hv & ->). zdecide (Z.of_nat i <? 0).
  rewrite Nat2Z.id, Hi, Hv. destruct (Hq _ _ Hh) as (p & Hl & Heq).
  unfold ping_at. rewrite Hl. cbn [mbind Er_bind].
  destruct (Z.eqb_spec (le_val (rd 0 8 (drop 4 data))) (pg_cookie p)) as [Hc|]; cbn [negb]; cycle 1.
  { exists P, []; eauto 10. }
  destruct (Z.eqb_spec (pg_timeSent p) 0); [exists P, []; eauto 10|].
  destruct (callback_spec P ptr p (Some (drop 8 (drop 4 data))) time Hok Hl) as (P' & -> & Hok' & Hd & Hb').
  exists P'. eexists. split; [done|]. split; [done|]. split; [done|]. right.
  exists ptr, p, (drop 8 (drop 4 data)). split; [done|]. split; [|by split]. intros Hb.
  assert (pg_handle p = handle) as ->.
  { apply (u32_sub_inj _ _ (baseHandle P)); [by apply (Hp ptr p)| |done]. unfold handle.
    pose proof (le_val_bound (rd 0 4 data) (rd_bytes 0 4 data Hb)) as Hf.
    by rewrite length_rd_in in Hf by lia. }
  rewrite <- Hc. unfold handle. unfold rd. change (Z.to_nat 0) with 0%nat. rewrite !drop_0.
  change (Z.to_nat 4) with 4%nat. change (Z.to_nat 8) with 8%nat.
  assert (length (take 4 data) = 4%nat) as L4 by (rewrite length_take; lia).
  assert (length (take 8 (drop 4 data)) = 8%nat) as L8 by (rewrite length_take, length_drop; lia).
  rewrite <- L4 at 1. rewrite le_bytes_val by by apply Forall_take.
  rewrite <- L8 at 1. rewrite le_bytes_val by by apply Forall_take, Forall_drop.
  by rewrite (take_drop 8), (take_drop 4).
Qed.

(** The right pong is answered. *)
Lemma pongReceived_answers P ptr p d time : pinger_ok P -> pings P !! ptr = Some p ->
  pg_timeSent p <> 0 ->
  exists P', Pinger_pongReceived (le_bytes 4 (pg_handle p) ++ le_bytes 8 (pg_cookie p) ++ d) P time
      = Ret (P', [OnResponse ptr (Some d) (u32 (u32 time - pg_timeSent p)) (pg_context p);
                  Freed ptr (pg_context p)]) /\
    pinger_ok P' /\ pings P' = delete ptr (pings P) /\ baseHandle P' = baseHandle P.
Proof.
  intros Hok Hl Ht. unfold Pinger_pongReceived. pose proof Hok as (Hm & Hbase & Hp & Hq).
  destruct (Hp _ _ Hl) as (Hh & Hf4 & Hf8).
  rewrite !length_app, !length_le_bytes. zdecide (Z.of_nat (4 + (8 + length d)) <? 12).
  rewrite rd_app_0 by (by rewrite length_le_bytes). rewrite le_val_bytes, fits_small by done.
  destruct (index_of_live P ptr p Hok Hl) as (i & e & Hi & Hv & He & ->).
  zdecide (Z.of_nat i <? 0). rewrite Nat2Z.id, Hi, Hv. unfold ping_at. rewrite Hl. cbn [mbind Er_bind].
  rewrite drop_app_length' by (by rewrite length_le_bytes).
  rewrite rd_app_0 by (by rewrite length_le_bytes). rewrite le_val_bytes, fits_small by done.
  rewrite Z.eqb_refl. cbn [negb]. rewrite (proj2 (Z.eqb_neq _ _)) by done.
  rewrite drop_app_length' by (by rewrite length_le_bytes).
  destruct (callback_spec P ptr p (Some d) time Hok Hl) as (P' & H1 & H2 & H3 & H4). by exists P'.
Qed.

Lemma set_context_ok P ptr c : pinger_ok P -> pinger_ok (set_context P ptr c).
Proof.
  intros (Hm & Hb & Hp & Hq). split; [done|]. split; [done|].
  cbn [set_context set_pings outstandingPings baseHandle pings]. split.
  - intros ptr' p'. rewrite lookup_alter_Some. intros [(-> & p & Hl & ->)|[_ Hl]]; [exact (Hp ptr' p Hl)|by apply Hp].
  - intros h ptr' Hh. destruct (Hq _ _ Hh) as (p' & Hl & He).
    destruct (decide (ptr = ptr')) as [<-|Hne].
    + eexists. rewrite lookup_alter_eq, Hl. by split.
    + exists p'. by rewrite lookup_alter_ne.
Qed.
End Invariant.

(** ** Runs *)

Section Run.
Context {C : Type}.
Implicit Types (P : Pinger C) (outs : list (Out C)).

(** What the event loop, the network and the owner of a ping's allocator can do. *)
Inductive Call :=
| CSend (ptr : nat)
| CTimeout (ptr : nat) (time : Z)
| CPong (data : list Z) (time : Z)
| CCancel (ptr : nat).

Definition do_call P (c : Call) : Er (Pinger C * list (Out C)) :=
  match c with
  | CSend ptr => outs ← asyncSendPing P ptr; Ret (P, outs)
  | CTimeout ptr time => timeoutCallback P ptr time
  | CPong data time => Pinger_pongReceived data P time
  | CCancel ptr => freePing P ptr
  end.

(** [used] are the addresses given to pings so far.  The handles have not wrapped
    around. *)
Inductive pinger_run : Pinger C -> list (Out C) -> gset nat -> Prop :=
| run_new rand : fits 32 rand -> pinger_run (Pinger_new rand) [] ∅
| run_ping P outs used data ptr time cookie context :
    pinger_run P outs used -> ptr ∉ used -> fits 64 cookie ->
    map_nextHandle (outstandingPings P) < 2 ^ 32 - 1 ->
    map_count (outstandingPings P) < 2 ^ 31 - 1 ->
    pinger_run (set_context (Pinger_newPing data P ptr time cookie) ptr context) outs ({[ptr]} ∪ used)
| run_call P outs used c P' new :
    pinger_run P outs used -> do_call P c = Ret (P', new) -> pinger_run P' (outs ++ new) used.

Definition is_response (ptr : nat) (o : Out C) : bool :=
  match o with OnResponse ptr' _ _ _ => bool_decide (ptr = ptr') | _ => false end.
Definition responses (ptr : nat) outs : nat := length (List.filter (is_response ptr) outs).

Lemma responses_app ptr a b : responses ptr (a ++ b) = (responses ptr a + responses ptr b)%nat.
Proof. unfold responses. by rewrite List.filter_app, length_app. Qed.

(** What one call does: nothing to the heap, or it ends one ping. *)
Lemma call_effect P c P' new : pinger_ok P -> do_call P c = Ret (P', new) ->
  pinger_ok P' /\
  ((pings P' = pings P /\ forall ptr, responses ptr new = 0%nat) \/
   exists ptr p, pings P !! ptr = Some p /\ pings P' = delete ptr (pings P) /\
     (responses ptr new <= 1)%nat /\ forall ptr', ptr' <> ptr -> responses ptr' new = 0%nat).
Proof.
  assert (forall ptr data ms c, let new := [OnResponse ptr data ms c; Freed ptr c] in
    (responses ptr new <= 1)%nat /\ forall ptr', ptr' <> ptr -> responses ptr' new = 0%nat) as Hone.
  { intros ptr data ms c'. unfold responses. cbn. split; [case_match; cbn; lia|].
    intros ptr' Hne. by rewrite bool_decide_false. }
  intros Hok. destruct c as [ptr|ptr time|data time|ptr]; cbn [do_call].
  - unfold asyncSendPing, ping_at. destruct (pings P !! ptr) as [p|]; [|done]. cbn [mbind Er_bind].
    intros [= <- <-]. split; [done|]. left. by split.
  - unfold timeoutCallback. unfold ping_at at 1. destruct (pings P !! ptr) as [p|] eqn:Hl; [|done].
    cbn [mbind Er_bind]. destruct (pg_timeSent p =? 0); [intros [= <- <-]; split; [done|]; by left|].
    destruct (_ <? _); [|done]. cbn [Assert_true mbind Er_bind].
    destruct (callback_spec P ptr p None time Hok Hl) as (P1 & -> & Hok1 & Hd & _). intros [= <- <-].
    split; [done|]. right. exists ptr, p. split; [done|]. split; [done|]. apply Hone.
  - intros E. destruct (pongReceived_spec P data time Hok)
      as (P1 & o1 & E1 & Hok1 & _ & Hcase). rewrite E1 in E. injection E as <- <-. split; [done|].
    destruct Hcase as [[-> ->]|(ptr & p & d & Hl & _ & -> & Hd)]; [by left|].
    right. exists ptr, p. split; [done|]. split; [done|]. apply Hone.
  - intros E. destruct (pings P !! ptr) as [p|] eqn:Hl.
    + destruct (freePing_spec P ptr p Hok Hl) as (P1 & E1 & Hok1 & Hd & _). rewrite E1 in E.
      injection E as <- <-. split; [done|]. right. exists ptr, p. split; [done|]. split; [done|].
      unfold responses. cbn. split; [lia|done].
    + unfold freePing, ping_at in E. by rewrite Hl in E.
Qed.

Lemma run_inv P outs used : pinger_run P outs used ->
  pinger_ok P /\
  (forall ptr, ptr ∉ used -> pings P !! ptr = None /\ responses ptr outs = 0%nat) /\
  (forall ptr, is_Some (pings P !! ptr) -> responses ptr outs = 0%nat) /\
  (forall ptr, (responses ptr outs <= 1)%nat).
Proof.
  induction 1 as [rand Hr|P outs used data ptr time cookie context _ (Hok & Hfresh & Hlive & Hone) Hnew Hc Hh Hn
                 |P outs used c P' new _ (Hok & Hfresh & Hlive & Hone) Hcall].
  - split; [by apply pinger_ok_new|]. split; [|by split; intros; cbn; lia]. intros ptr _. split; [|done].
    apply lookup_empty.
  - destruct (Hfresh ptr Hnew) as [Hnone Hzero].
    pose proof (newPing_spec P data ptr time cookie Hok Hnone Hc Hh Hn) as (Hok' & _ & Hp).
    split; [by apply set_context_ok|]. split; [|split; [|done]].
    + intros ptr' [Hne Hu]%not_elem_of_union. rewrite not_elem_of_singleton in Hne.
      cbn [set_context set_pings pings]. rewrite lookup_alter_ne, Hp, lookup_insert_ne by done.
      by apply Hfresh.
    + intros ptr'. cbn [set_context set_pings pings]. destruct (decide (ptr = ptr')) as [<-|Hne]; [done|].
      rewrite lookup_alter_ne, Hp, lookup_insert_ne by done. apply Hlive.
  - destruct (call_effect P c P' new Hok Hcall) as [Hok' Heff]. split; [done|].
    destruct Heff as [[Hp Hz]|(ptr & p & Hl & Hd & Hle & Hz)].
    + rewrite Hp. setoid_rewrite responses_app. setoid_rewrite Hz.
      setoid_rewrite Nat.add_0_r. done.
    + setoid_rewrite responses_app. rewrite Hd. split; [|split].
      * intros ptr' Hu. destruct (Hfresh ptr' Hu) as [Hnone Hzero].
        destruct (decide (ptr' = ptr)) as [->|Hne]; [congruence|].
        rewrite lookup_delete_ne, Hz by done. split; [done|lia].
      * intros ptr' Hs. destruct (decide (ptr' = ptr)) as [->|Hne].
        { rewrite lookup_delete_eq in Hs. by destruct Hs. }
        rewrite lookup_delete_ne in Hs by done. rewrite Hz, Hlive by done. lia.
      * intros ptr'. destruct (decide (ptr' = ptr)) as [->|Hne].
        { rewrite (Hlive ptr) by (by eexists). lia. }
        rewrite Hz by done. specialize (Hone ptr'). lia.
Qed.
End Run.

(** ** Theorem *)

(** [C28] Whatever the event loop, the network and the users do, as long as the handles do
    not wrap around (fewer than 2^32 - 1 pings), the pinger answers a
    ping at most once and never after it is gone; no pong stops the process; a pong
    only counts as the answer to a live ping when it begins with the ping's handle
    and secret cookie, and a pong which does is delivered with the rest of its
    content and ends the ping. *)
Theorem responds_once {C} (P : Pinger C) outs used :
  pinger_run P outs used ->
  (forall ptr, (responses ptr outs <= 1)%nat) /\
  (forall ptr p, pings P !! ptr = Some p -> responses ptr outs = 0%nat) /\
  (forall data time, bytes data -> exists P' new, Pinger_pongReceived data P time = Ret (P', new) /\
     forall ptr ans ms c, OnResponse ptr ans ms c ∈ new -> exists p d,
       pings P !! ptr = Some p /\ ans = Some d /\
       data = le_bytes 4 (pg_handle p) ++ le_bytes 8 (pg_cookie p) ++ d) /\
  (forall ptr p d time, pings P !! ptr = Some p -> pg_timeSent p <> 0 ->
     exists P', Pinger_pongReceived (le_bytes 4 (pg_handle p) ++ le_bytes 8 (pg_cookie p) ++ d) P time
       = Ret (P', [OnResponse ptr (Some d) (u32 (u32 time - pg_timeSent p)) (pg_context p);
                   Freed ptr (pg_context p)]) /\ pings P' = delete ptr (pings P)).
Proof.
  intros Hr. destruct (run_inv P outs used Hr) as (Hok & _ & Hlive & Hone).
  split; [done|]. split; [intros; by apply Hlive|]. split.
  - intros data time Hb. destruct (pongReceived_spec P data time Hok) as (P' & new & E & _ & _ & Hc).
    exists P', new. split; [done|]. intros ptr ans ms c Hin.
    destruct Hc as [[_ ->]|(ptr' & p & d & Hl & Hd & -> & _)]; [by apply not_elem_of_nil in Hin|].
    rewrite !elem_of_cons in Hin. destruct Hin as [[= -> -> _ _]|[Hx|Hx]]; [|done|by apply not_elem_of_nil in Hx].
    exists p, d. split; [done|]. split; [done|by apply Hd].
  - intros ptr p d time Hl Ht. destruct (pongReceived_answers P ptr p d time Hok Hl Ht) as (P' & E & _ & Hd & _).
    by exists P'.
Qed.

Definition example_pinger : Pinger string :=
  set_context (Pinger_newPing (Some [7; 8]) (Pinger_new 0xfffffffe) 1 1000 99) 1 "mine".

Lemma example_pinger_run : pinger_run example_pinger [] {[1%nat]}.
Proof.
  replace {[1%nat]} with ({[1%nat]} ∪ ∅ : gset nat) by (by rewrite (right_id_L ∅ (∪))).
  apply run_ping; [by apply run_new|set_solver|done|done|done].
Qed.

Lemma responds_once_witness :
  exists P', Pinger_pongReceived ([254; 255; 255; 255] ++ [99; 0; 0; 0; 0; 0; 0; 0] ++ [7; 8]) example_pinger 1250
    = Ret (P', [OnResponse 1 (Some [7; 8]) 250 (Some "mine"); Freed 1 (Some "mine")]) /\
  pings P' = delete 1%nat (pings example_pinger).
Proof.
  destruct (responds_once example_pinger [] {[1%nat]} example_pinger_run) as (_ & _ & _ & H).
  by apply (H 1%nat (mkPing 0xfffffffe (Some "mine") (le_bytes 4 0xfffffffe ++ le_bytes 8 99 ++ [7; 8]) 1000 99)
              [7; 8] 1250).
Defined.
