(* ===== verification/RouteHeader.v ===== *)
(** * wire/RouteHeader.h, wire/ContentType.h, wire/Ethernet.h, TUNMessageType.h

    The headers of messages above the session manager: the route header names the
    node at the other end, the data header the kind of content; messages of the
    TUN device have an ethertype in front of them. *)
From S2P Require Import Prelude Bits Message Checksum MsgAt Headers.

(** ** Definitions *)

Record RouteHeader := mkRouteHeader {
  rh_publicKey : list Z;
  rh_sh : list Z;
  rh_version_be : Z;
  rh_flags : Z;
  rh_unused : Z;
  rh_alsoUnused : Z;
  rh_ip6 : list Z;
}.
Definition RouteHeader_SIZE : Z := 56 + SwitchHeader_SIZE.
Definition RouteHeader_flags_INCOMING : Z := 1.
Definition RouteHeader_flags_CTRLMSG : Z := 2.
Definition RouteHeader_flags_PATHFINDER : Z := 4.

(** The memory of the structs. *)
Definition RouteHeader_bytes (rh : RouteHeader) : list Z :=
  rh_publicKey rh ++ rh_sh rh ++ le_bytes 4 (rh_version_be rh)
  ++ [rh_flags rh; rh_unused rh] ++ le_bytes 2 (rh_alsoUnused rh) ++ rh_ip6 rh.
Definition RouteHeader_of (bs : list Z) : RouteHeader :=
  {| rh_publicKey := rd 0 32 bs; rh_sh := rd 32 12 bs; rh_version_be := le_val (rd 44 4 bs);
     rh_flags := get bs 48; rh_unused := get bs 49; rh_alsoUnused := le_val (rd 50 2 bs);
     rh_ip6 := rd 52 16 bs |}.

Definition DataHeader_SIZE : Z := 4.
Definition DataHeader_bytes (dh : DataHeader) : list Z :=
  [versionAndFlags dh; unused dh] ++ le_bytes 2 (contentType_be dh).
Definition DataHeader_of (bs : list Z) : DataHeader :=
  mkDataHeader (get bs 0) (get bs 1) (le_val (rd 2 2 bs)).

Definition ContentType_IP6_UDP : Z := 17.
Definition ContentType_IP6_MAX : Z := 255.
Definition ContentType_HYPERBORIADHT : Z := 256.
Definition ContentType_IPTUN : Z := 257.

Definition Headers_IP6Header_SIZE : Z := 40.
Definition Headers_UDPHeader_SIZE : Z := 8.

Definition Ethernet_TYPE_IP4 : Z := Endian_hostToBigEndian16 0x0800.
Definition Ethernet_TYPE_IP6 : Z := Endian_hostToBigEndian16 0x86DD.

Definition TUNMessageType_push (message : Message) (ethertype : Z) : Er Message :=
  message ← Message_eshift message 4;
  let message := msg_write message 0 (le_bytes 2 0) in
  Ret (msg_write message 2 (le_bytes 2 ethertype)).

Definition TUNMessageType_pop (message : Message) : Er (Message * Z) :=
  message ← Message_eshift message (-4);
  Ret (message, le_val (msg_read message (-2) 2)).

(** ** Lemmas *)

Definition RouteHeader_wf (rh : RouteHeader) : Prop :=
  length (rh_publicKey rh) = 32%nat /\ length (rh_sh rh) = 12%nat /\ length (rh_ip6 rh) = 16%nat /\
  fits 32 (rh_version_be rh) /\ fits 16 (rh_alsoUnused rh).

Lemma RouteHeader_length rh : RouteHeader_wf rh -> len (RouteHeader_bytes rh) = RouteHeader_SIZE.
Proof.
  intros (H1 & H2 & H3 & _). unfold RouteHeader_bytes. rewrite !length_app, !length_le_bytes, H1, H2, H3.
  reflexivity.
Qed.

Lemma RouteHeader_key rh rest : RouteHeader_wf rh ->
  rd 0 32 (RouteHeader_bytes rh ++ rest) = rh_publicKey rh.
Proof.
  intros (H1 & _). unfold RouteHeader_bytes. rewrite <- app_assoc. apply rd_app_0. by rewrite H1.
Qed.

(** The sizes of the headers are numbers. *)
Ltac header_sizes :=
  unfold RouteHeader_SIZE, SwitchHeader_SIZE, DataHeader_SIZE, Headers_IP6Header_SIZE, Headers_UDPHeader_SIZE,
    CryptoHeader_SIZE, Control_Header_SIZE in *.
Ltac hpart := first [ solve [cut] | header_sizes; known_lengths; lia ].
