(* ===== verification/PFChan.v ===== *)
(** * wire/PFChan.h: the events between core and pathfinder

    The numbers of the events and the structs which travel with them; a struct is
    its bytes in the message. *)
From S2P Require Import Prelude Bits Headers RouteHeader.

(** Events from a pathfinder. *)
Definition PFChan_Pathfinder__TOO_LOW : Z := 511.
Definition PFChan_Pathfinder_CONNECT : Z := 512.
Definition PFChan_Pathfinder_SUPERIORITY : Z := 513.
Definition PFChan_Pathfinder_NODE : Z := 514.
Definition PFChan_Pathfinder_SENDMSG : Z := 515.
Definition PFChan_Pathfinder_PING : Z := 516.
Definition PFChan_Pathfinder_PONG : Z := 517.
Definition PFChan_Pathfinder_SESSIONS : Z := 518.
Definition PFChan_Pathfinder_PEERS : Z := 519.
Definition PFChan_Pathfinder_PATHFINDERS : Z := 520.
Definition PFChan_Pathfinder_CTRL_SENDMSG : Z := 521.
Definition PFChan_Pathfinder_SNODE : Z := 522.
Definition PFChan_Pathfinder__TOO_HIGH : Z := 523.

(** Events from the core. *)
Definition PFChan_Core__TOO_LOW : Z := 1023.
Definition PFChan_Core_CONNECT : Z := 1024.
Definition PFChan_Core_PATHFINDER : Z := 1025.
Definition PFChan_Core_PATHFINDER_GONE : Z := 1026.
Definition PFChan_Core_SWITCH_ERR : Z := 1027.
Definition PFChan_Core_SEARCH_REQ : Z := 1028.
Definition PFChan_Core_PEER : Z := 1029.
Definition PFChan_Core_PEER_GONE : Z := 1030.
Definition PFChan_Core_SESSION : Z := 1031.
Definition PFChan_Core_SESSION_ENDED : Z := 1032.
Definition PFChan_Core_DISCOVERED_PATH : Z := 1033.
Definition PFChan_Core_MSG : Z := 1034.
Definition PFChan_Core_PING : Z := 1035.
Definition PFChan_Core_PONG : Z := 1036.
Definition PFChan_Core_CTRL_MSG : Z := 1037.
Definition PFChan_Core_UNSETUP_SESSION : Z := 1038.
Definition PFChan_Core_LINK_STATE : Z := 1039.
Definition PFChan_Core__TOO_HIGH : Z := 1040.

Record PFChan_Node := mkNode {
  nd_ip6 : list Z;
  nd_publicKey : list Z;
  nd_path_be : Z;
  nd_metric_be : Z;
  nd_version_be : Z;
}.
Definition PFChan_Node_SIZE : Z := 64.
Definition PFChan_Node_bytes (n : PFChan_Node) : list Z :=
  nd_ip6 n ++ nd_publicKey n ++ le_bytes 8 (nd_path_be n) ++ le_bytes 4 (nd_metric_be n)
  ++ le_bytes 4 (nd_version_be n).
Definition PFChan_Node_of (bs : list Z) : PFChan_Node :=
  {| nd_ip6 := rd 0 16 bs; nd_publicKey := rd 16 32 bs; nd_path_be := le_val (rd 48 8 bs);
     nd_metric_be := le_val (rd 56 4 bs); nd_version_be := le_val (rd 60 4 bs) |}.

Definition PFChan_Msg_MIN_SIZE : Z := RouteHeader_SIZE + DataHeader_SIZE.
Definition PFChan_CtrlMsg_MIN_SIZE : Z := RouteHeader_SIZE + Control_Header_SIZE.
Definition PFChan_Ping_SIZE : Z := 8.
Definition PFChan_Pathfinder_Connect_SIZE : Z := 72.
Definition PFChan_Pathfinder_Superiority_SIZE : Z := 4.
Definition PFChan_LinkState_Entry_SIZE : Z := 32.
Definition PFChan_Core_SearchReq_SIZE : Z := 24.
Definition PFChan_Core_Pathfinder_SIZE : Z := 72.
Definition PFChan_Core_Connect_SIZE : Z := 40.
Definition PFChan_Core_SwitchErr_MIN_SIZE : Z :=
  SwitchHeader_SIZE + Control_Header_SIZE + Control_Error_MIN_SIZE + SwitchHeader_SIZE.
