(* ===== verification/PeerLink.v ===== *)
(** * util/Kbps.h and net/PeerLink.c: the link to a peer

    [Kbps] counts the bytes of the last second in eight slots of 128 milliseconds;
    times are milliseconds in 32 bits, which wrap around every 50 days.  [PeerLink]
    is the queue of messages for a peer and the two meters of its traffic.

    [kbps_refines_window] shows that the meter is exact: at every call it has the
    sum of the packets of the current slot and the seven before it. *)
From S2P Require Import Prelude Bits Message ArrayList.

(** ** util/Kbps.h *)

Definition Kbps_WINDOW_SIZE : Z := 8.
Definition Kbps_TIMESPAN : Z := 1024.
Definition Kbps_WINDOW_SH : Z := 3.
Definition Kbps_TIMESPAN_SH : Z := 10.
Definition Kbps_accumulate_NO_PACKET : Z := 0xffffffff.

Record Kbps := mkKbps {
  window : list Z;
  lastTime : Z;
  currentBpt : Z;
}.

(** [ctx->currentBpt -= ctx->window[i]; ctx->window[i] = 0]. *)
Definition clear_slot (ctx : Kbps) (i : Z) : Kbps :=
  mkKbps (set (window ctx) i 0) (lastTime ctx) (u32 (currentBpt ctx - get (window ctx) i)).

(** [for (i = 0; i < Kbps_WINDOW_SIZE; i++)]. *)
Fixpoint clear_all (n : nat) (i : Z) (ctx : Kbps) : Kbps :=
  match n with
  | O => ctx
  | S n => clear_all n (i + 1) (clear_slot ctx i)
  end.

(** [for (i = lslot + 1; ; i++)]: eight rounds come past every slot. *)
Fixpoint advance (fuel : nat) (i slot : Z) (ctx : Kbps) : Er Kbps :=
  match fuel with
  | O => Abort "out of fuel"
  | S fuel =>
      let i := Z.rem i Kbps_WINDOW_SIZE in
      let ctx := clear_slot ctx i in
      if i =? slot then Ret ctx else advance fuel (i + 1) slot ctx
  end.

Definition Kbps_accumulate (ctx : Kbps) (now packetSize : Z) : Er (Z * Kbps) :=
  let xnow := if negb (Z.shiftr (u32 (now - lastTime ctx)) 31 =? 0) then lastTime ctx else now in
  let slot := Z.rem (Z.shiftr xnow (Kbps_TIMESPAN_SH - Kbps_WINDOW_SH)) Kbps_WINDOW_SIZE in
  let lslot := Z.rem (Z.shiftr (lastTime ctx) (Kbps_TIMESPAN_SH - Kbps_WINDOW_SH)) Kbps_WINDOW_SIZE in
  ctx ← (if (u32 (xnow - lastTime ctx) >? Kbps_TIMESPAN)
            || ((lslot =? slot) && (u32 (xnow - lastTime ctx) >? Z.shiftr Kbps_TIMESPAN 1)) then
           let ctx := clear_all 8 0 ctx in
           Assert_true (currentBpt ctx =? 0);;
           Ret ctx
         else if negb (lslot =? slot) then advance 8 (lslot + 1) slot ctx
         else Ret ctx);
  Assert_true (Z.shiftr (currentBpt ctx) 31 =? 0);;
  let ctx :=
    if negb (packetSize =? Kbps_accumulate_NO_PACKET)
    then mkKbps (set (window ctx) slot (u32 (get (window ctx) slot + packetSize))) (lastTime ctx) (u32 (currentBpt ctx + packetSize))
    else ctx in
  let ctx := mkKbps (window ctx) now (currentBpt ctx) in
  Ret (Z.shiftr (currentBpt ctx) (Kbps_TIMESPAN_SH - 3), ctx).

Definition Kbps_zero : Kbps := mkKbps (zeros 8) 0 0.

(** ** net/PeerLink.c *)

Record PeerLink := mkPeerLink {
  queue : ArrayList Message;
  sendBw : Kbps;
  recvBw : Kbps;
}.

(** [now]: the milliseconds of the event base, 64 bits wide. *)
Definition PeerLink_poll (pl : PeerLink) (now : Z) : Er (option Message * PeerLink) :=
  '(out, q) ← ArrayList_shift (queue pl);
  match out with
  | None => Ret (None, mkPeerLink q (sendBw pl) (recvBw pl))
  | Some msg =>
      '(_, bw) ← Kbps_accumulate (sendBw pl) (u32 now) (u32 (msg_length msg));
      Ret (Some msg, mkPeerLink q bw (recvBw pl))
  end.

Definition PeerLink_send (msg : Message) (pl : PeerLink) : Er (Z * PeerLink) :=
  '(_, q) ← ArrayList_add (queue pl) msg;
  Ret (al_length q, mkPeerLink q (sendBw pl) (recvBw pl)).

Definition PeerLink_recv (msg : Message) (pl : PeerLink) (now : Z) : Er PeerLink :=
  '(_, bw) ← Kbps_accumulate (recvBw pl) (u32 now) (u32 (msg_length msg));
  Ret (mkPeerLink (queue pl) (sendBw pl) bw).

(** The rates, received and sent. *)
Definition PeerLink_kbps (pl : PeerLink) (now : Z) : Er (Z * Z * PeerLink) :=
  '(recvKbps, recv) ← Kbps_accumulate (recvBw pl) (u32 now) Kbps_accumulate_NO_PACKET;
  '(sendKbps, send) ← Kbps_accumulate (sendBw pl) (u32 now) Kbps_accumulate_NO_PACKET;
  Ret (recvKbps, sendKbps, mkPeerLink (queue pl) send recv).

Definition PeerLink_new : PeerLink := mkPeerLink (ArrayList_new 8) Kbps_zero Kbps_zero.

(** ** Specification: the packets of the last slots *)

(** Packets as pairs of a time, in milliseconds without a wrap-around, and a size. *)
Definition slot_of (t : Z) : Z := t / 128.

(** The bytes of a slot, and of the last eight up to [S]. *)
Definition bytes_in (ps : list (Z * Z)) (s : Z) : Z :=
  foldr (fun p acc => (if decide (slot_of p.1 = s) then p.2 else 0) + acc) 0 ps.
Definition recent (ps : list (Z * Z)) (s : Z) : Z :=
  foldr (fun p acc => (if decide (s - 8 < slot_of p.1) then p.2 else 0) + acc) 0 ps.

(** The slot which the cell [j] stands for when the current one is [S]. *)
Definition cell (s j : Z) : Z := s - (s - j) mod 8.

Definition cells (ps : list (Z * Z)) (s : Z) : list Z := (fun j => bytes_in ps (cell s j)) <$> [0; 1; 2; 3; 4; 5; 6; 7].

(** The meter [ctx] after the packets [ps], last called at [t]. *)
Record metered (ctx : Kbps) (ps : list (Z * Z)) (t : Z) : Prop := {
  mt_time : lastTime ctx = t mod 2 ^ 32;
  mt_window : window ctx = cells ps (slot_of t);
  mt_sum : currentBpt ctx = recent ps (slot_of t);
  mt_past : Forall (fun p => p.1 <= t /\ 0 <= p.2) ps;
  mt_bound : recent ps (slot_of t) < 2 ^ 31;
}.

(** ** Lemmas *)

Lemma bytes_in_cons p ps s : bytes_in (p :: ps) s = (if decide (slot_of p.1 = s) then p.2 else 0) + bytes_in ps s.
Proof. done. Qed.
Lemma recent_cons p ps s : recent (p :: ps) s = (if decide (s - 8 < slot_of p.1) then p.2 else 0) + recent ps s.
Proof. done. Qed.

Lemma bytes_in_nonneg ps s : Forall (fun p => 0 <= p.2) ps -> 0 <= bytes_in ps s.
Proof. induction 1 as [|p ps Hp _ IH]; [done|]. rewrite bytes_in_cons. case_decide; lia. Qed.

Lemma bytes_in_future ps s t : Forall (fun p => p.1 <= t) ps -> slot_of t < s -> bytes_in ps s = 0.
Proof.
  intros Hps Hs. induction Hps as [|p ps Hp _ IH]; [done|]. rewrite bytes_in_cons, IH, decide_False; [done|].
  unfold slot_of in *. intros E. pose proof (Z.div_le_mono p.1 t 128) as Hm. lia.
Qed.

Lemma cell_spec s j x : 0 <= j < 8 -> cell s j = x <-> s - 8 < x <= s /\ x mod 8 = j.
Proof.
  intros Hj. unfold cell. pose proof (Z.div_mod (s - j) 8 ltac:(lia)) as E. pose proof (Z.mod_pos_bound (s - j) 8 ltac:(lia)) as Hr.
  set (q := (s - j) / 8) in *. set (r := (s - j) mod 8) in *. clearbody q r. split.
  - intros <-. split; [lia|]. replace (s - r) with (j + q * 8) by lia. rewrite Z.mod_add by lia. by apply Z.mod_small.
  - intros [H1 H2]. pose proof (Z.div_mod x 8 ltac:(lia)) as Ex. rewrite H2 in Ex. set (k := x / 8) in *. clearbody k. lia.
Qed.

Lemma sum_cells ps t : Forall (fun p => p.1 <= t) ps -> foldr Z.add 0 (cells ps (slot_of t)) = recent ps (slot_of t).
Proof.
  intros Hps. unfold cells. induction Hps as [|p ps Hp _ IH]; [done|]. rewrite recent_cons, <- IH. clear IH.
  cbn [fmap list_fmap foldr]. rewrite !bytes_in_cons.
  assert (slot_of p.1 <= slot_of t) as Hle by (by apply Z.div_le_mono).
  set (x := slot_of p.1) in *. set (s := slot_of t) in *.
  assert (forall j, 0 <= j < 8 -> (if decide (x = cell s j) then p.2 else 0) = (if decide (s - 8 < x) then if decide (x mod 8 = j) then p.2 else 0 else 0)) as Hj.
  { intros j Hj. pose proof (cell_spec s j x Hj) as Hc. destruct (decide (x = cell s j)) as [E|E].
    - destruct (proj1 Hc (eq_sym E)) as [[H1 _] H2]. by rewrite !decide_True.
    - destruct (decide (s - 8 < x)); [|done]. rewrite decide_False; [done|]. intros E2. apply E. symmetry. by apply Hc. }
  rewrite !Hj by lia. case_decide; [|lia]. assert (0 <= x mod 8 < 8) as Hx by (apply Z.mod_pos_bound; lia).
  assert (x mod 8 = 0 \/ x mod 8 = 1 \/ x mod 8 = 2 \/ x mod 8 = 3 \/ x mod 8 = 4 \/ x mod 8 = 5 \/ x mod 8 = 6 \/ x mod 8 = 7) as Hc by lia.
  repeat destruct Hc as [Hc|Hc]; rewrite Hc; repeat (case_decide; try done); lia.
Qed.

(** ** The meter *)

Lemma length_cells ps s : length (cells ps s) = 8%nat.
Proof. done. Qed.

Lemma cells_lookup ps s (j : nat) : (j < 8)%nat -> cells ps s !! j = Some (bytes_in ps (cell s (Z.of_nat j))).
Proof.
  intros Hj. unfold cells. rewrite list_lookup_fmap.
  assert ([0; 1; 2; 3; 4; 5; 6; 7] !! j = Some (Z.of_nat j)) as ->; [|done]. do 8 (destruct j as [|j]; [done|]). lia.
Qed.

Lemma cells_get ps s j : 0 <= j < 8 -> get (cells ps s) j = bytes_in ps (cell s j).
Proof. intros Hj. unfold get. rewrite nth_lookup, cells_lookup by lia. cbn. by rewrite Z2Nat.id by lia. Qed.

(** The next slot begins: its cell is cleared. *)
Lemma cells_next ps s : bytes_in ps (s + 1) = 0 -> set (cells ps s) ((s + 1) mod 8) 0 = cells ps (s + 1).
Proof.
  intros H0. assert (0 <= (s + 1) mod 8 < 8) as Hb by (apply Z.mod_pos_bound; lia). apply list_eq. intros j. unfold set.
  destruct (decide (j < 8)%nat) as [Hj|Hj].
  - rewrite (cells_lookup ps (s + 1)) by done. destruct (decide (j = Z.to_nat ((s + 1) mod 8))) as [->|Hne].
    + rewrite list_lookup_insert_eq by (rewrite length_cells; lia). f_equal. rewrite Z2Nat.id by lia.
      by rewrite (proj2 (cell_spec (s + 1) _ (s + 1) Hb)) by (split; [lia|done]).
    + rewrite list_lookup_insert_ne by done. rewrite cells_lookup by done. do 2 f_equal. symmetry. apply cell_spec; [lia|].
      destruct (proj1 (cell_spec s (Z.of_nat j) _ ltac:(lia)) eq_refl) as [H1 H2]. split; [|done]. split; [|lia].
      assert (cell s (Z.of_nat j) <> s - 7); [|lia]. intros E. rewrite E in H2. apply Hne.
      replace (s + 1) with (s - 7 + 1 * 8) by lia. rewrite Z.mod_add, H2 by lia. lia.
  - rewrite !(proj2 (lookup_ge_None _ _)); [done|rewrite length_cells; lia|rewrite length_insert, length_cells; lia].
Qed.

Lemma set_sum l (i : nat) x v : l !! i = Some x -> foldr Z.add 0 (<[i := v]> l) = foldr Z.add 0 l - x + v.
Proof.
  revert i. induction l as [|y l IH]; intros [|i] H; try done; [injection H as ->; cbn; lia|].
  change (y + foldr Z.add 0 (<[i := v]> l) = y + foldr Z.add 0 l - x + v). rewrite (IH i H). lia.
Qed.

Lemma cell_le_sum ps s j : Forall (fun p => 0 <= p.2) ps -> 0 <= j < 8 -> 0 <= get (cells ps s) j <= foldr Z.add 0 (cells ps s).
Proof.
  intros Hps Hj. rewrite cells_get by done. pose proof (fun x => bytes_in_nonneg ps x Hps) as Hn. split; [done|].
  unfold cells. cbn [fmap list_fmap foldr]. pose proof (Hn (cell s 0)). pose proof (Hn (cell s 1)). pose proof (Hn (cell s 2)). pose proof (Hn (cell s 3)).
  pose proof (Hn (cell s 4)). pose proof (Hn (cell s 5)). pose proof (Hn (cell s 6)). pose proof (Hn (cell s 7)).
  assert (j = 0 \/ j = 1 \/ j = 2 \/ j = 3 \/ j = 4 \/ j = 5 \/ j = 6 \/ j = 7) as Hc by lia. repeat destruct Hc as [-> |Hc]; [lia..|subst; lia].
Qed.

(** A cell is cleared, with its bytes. *)
Lemma clear_next ctx ps s : window ctx = cells ps s -> currentBpt ctx = foldr Z.add 0 (cells ps s) -> currentBpt ctx < 2 ^ 31 ->
  Forall (fun p => 0 <= p.2) ps -> bytes_in ps (s + 1) = 0 ->
  let ctx' := clear_slot ctx ((s + 1) mod 8) in
  window ctx' = cells ps (s + 1) /\ currentBpt ctx' = foldr Z.add 0 (cells ps (s + 1)) /\ currentBpt ctx' < 2 ^ 31 /\ lastTime ctx' = lastTime ctx.
Proof.
  intros Hw Hc Hb Hps H0 ctx'. assert (0 <= (s + 1) mod 8 < 8) as Hi by (apply Z.mod_pos_bound; lia).
  pose proof (cell_le_sum ps s _ Hps Hi) as Hle. pose proof (cells_next ps s H0) as Hn. unfold ctx', clear_slot. cbn [window currentBpt lastTime].
  rewrite Hw, Hc, Hn. split; [done|]. unfold u32. rewrite Z.mod_small by lia.
  assert (foldr Z.add 0 (cells ps (s + 1)) = foldr Z.add 0 (cells ps s) - get (cells ps s) ((s + 1) mod 8)) as ->.
  { rewrite <- Hn. unfold set. rewrite (set_sum _ _ (get (cells ps s) ((s + 1) mod 8))); [lia|].
    rewrite cells_get by done. rewrite cells_lookup by lia. by rewrite Z2Nat.id by lia. }
  split; [done|]. split; [lia|done].
Qed.

(** The loop over the slots which have passed. *)
Lemma advance_spec n : forall ctx ps s fuel, (n < fuel)%nat ->
  window ctx = cells ps s -> currentBpt ctx = foldr Z.add 0 (cells ps s) -> currentBpt ctx < 2 ^ 31 ->
  Forall (fun p => 0 <= p.2) ps -> (forall x, s < x -> bytes_in ps x = 0) -> (n < 7)%nat ->
  exists ctx', advance fuel (s mod 8 + 1) ((s + 1 + Z.of_nat n) mod 8) ctx = Ret ctx' /\
    window ctx' = cells ps (s + 1 + Z.of_nat n) /\ currentBpt ctx' = foldr Z.add 0 (cells ps (s + 1 + Z.of_nat n)) /\
    currentBpt ctx' < 2 ^ 31 /\ lastTime ctx' = lastTime ctx.
Proof.
  induction n as [|n IH]; intros ctx ps s fuel Hf Hw Hc Hb Hps H0 Hn; (destruct fuel as [|fuel]; [lia|]); cbn [advance].
  all: assert (0 <= s mod 8 < 8) as Hs by (apply Z.mod_pos_bound; lia).
  all: assert (Z.rem (s mod 8 + 1) Kbps_WINDOW_SIZE = (s + 1) mod 8) as ->
    by (rewrite Z.rem_mod_nonneg by (unfold Kbps_WINDOW_SIZE; lia); unfold Kbps_WINDOW_SIZE; by rewrite Zplus_mod_idemp_l).
  all: destruct (clear_next ctx ps s Hw Hc Hb Hps (H0 (s + 1) ltac:(lia))) as (Hw' & Hc' & Hb' & Ht').
  - rewrite Z.add_0_r, Z.eqb_refl. eexists. split; [done|]. done.
  - rewrite (proj2 (Z.eqb_neq _ _)).
    + destruct (IH (clear_slot ctx ((s + 1) mod 8)) ps (s + 1) fuel ltac:(lia) Hw' Hc' Hb' Hps) as (ctx' & E & H1 & H2 & H3 & H4);
        [intros x Hx; apply H0; lia|lia|].
      replace (s + 1 + Z.of_nat (Datatypes.S n)) with (s + 1 + 1 + Z.of_nat n) by lia. rewrite E. exists ctx'. by split_and!.
    + intros E. replace (s + 1 + Z.of_nat (Datatypes.S n)) with (s + 2 + Z.of_nat n) in E by lia.
      assert ((1 + Z.of_nat n) mod 8 = 0) as Hm.
      { replace (1 + Z.of_nat n) with (s + 2 + Z.of_nat n - (s + 1)) by lia. rewrite Zminus_mod, E, Z.sub_diag. done. }
      rewrite Z.mod_small in Hm by lia. lia.
Qed.

(** Everything has passed. *)
Lemma clear_all_spec ctx ps s : window ctx = cells ps s -> currentBpt ctx = foldr Z.add 0 (cells ps s) -> currentBpt ctx < 2 ^ 31 ->
  Forall (fun p => 0 <= p.2) ps -> clear_all 8 0 ctx = mkKbps (zeros 8) (lastTime ctx) 0.
Proof.
  intros Hw Hc Hb Hps. destruct ctx as [w lt cur]. cbn [window currentBpt lastTime] in *. subst w cur. pose proof (fun x => bytes_in_nonneg ps x Hps) as Hn.
  unfold cells in *. cbn [fmap list_fmap foldr] in *.
  pose proof (Hn (cell s 0)). pose proof (Hn (cell s 1)). pose proof (Hn (cell s 2)). pose proof (Hn (cell s 3)).
  pose proof (Hn (cell s 4)). pose proof (Hn (cell s 5)). pose proof (Hn (cell s 6)). pose proof (Hn (cell s 7)).
  generalize dependent (bytes_in ps (cell s 0)). generalize dependent (bytes_in ps (cell s 1)). generalize dependent (bytes_in ps (cell s 2)).
  generalize dependent (bytes_in ps (cell s 3)). generalize dependent (bytes_in ps (cell s 4)). generalize dependent (bytes_in ps (cell s 5)).
  generalize dependent (bytes_in ps (cell s 6)). generalize dependent (bytes_in ps (cell s 7)). intros a H7 b H6 c H5 d H4 e H3 f H2 g H1 h Hb H0.
  cbn [clear_all]. unfold clear_slot. cbn [window currentBpt lastTime]. unfold get, set.
  repeat match goal with |- context [Z.to_nat ?z] => let v := eval vm_compute in (Z.to_nat z) in change (Z.to_nat z) with v end.
  cbn. f_equal. unfold u32.
  repeat match goal with
         | |- context [?x mod 2 ^ 32] => lazymatch x with context [_ mod _] => fail | _ => rewrite (Z.mod_small x (2 ^ 32)) by lia end
         end. lia.
Qed.

(** ** One call *)

Lemma slot_of_u32 t : Z.rem (Z.shiftr (t mod 2 ^ 32) (Kbps_TIMESPAN_SH - Kbps_WINDOW_SH)) Kbps_WINDOW_SIZE = slot_of t mod 8.
Proof.
  change (Kbps_TIMESPAN_SH - Kbps_WINDOW_SH) with 7. unfold Kbps_WINDOW_SIZE. rewrite Z.shiftr_div_pow2 by lia. change (2 ^ 7) with 128.
  pose proof (Z.mod_pos_bound t (2 ^ 32) ltac:(lia)) as Hb. rewrite Z.rem_mod_nonneg by (try apply Z.div_pos; lia). unfold slot_of.
  rewrite (Z.div_mod t (2 ^ 32)) at 2 by lia. replace (2 ^ 32 * (t / 2 ^ 32)) with (t / 2 ^ 32 * 2 ^ 25 * 128) by lia.
  rewrite Z.div_add_l by lia. replace (t / 2 ^ 32 * 2 ^ 25) with (t / 2 ^ 32 * 2 ^ 22 * 8) by lia. by rewrite Z.add_comm, Z.mod_add by lia.
Qed.

Lemma u32_gap t t' : t <= t' < t + 2 ^ 31 -> u32 (t' mod 2 ^ 32 - t mod 2 ^ 32) = t' - t.
Proof. intros H. unfold u32. rewrite <- Zminus_mod. apply Z.mod_small. lia. Qed.

Lemma bytes_in_app ps p s : bytes_in (ps ++ [p]) s = bytes_in ps s + (if decide (slot_of p.1 = s) then p.2 else 0).
Proof. induction ps as [|q ps IH]; cbn [app]; rewrite !bytes_in_cons; [cbn; lia|]. rewrite IH. lia. Qed.
Lemma recent_app ps p s : recent (ps ++ [p]) s = recent ps s + (if decide (s - 8 < slot_of p.1) then p.2 else 0).
Proof. induction ps as [|q ps IH]; cbn [app]; rewrite !recent_cons; [cbn; lia|]. rewrite IH. lia. Qed.
Lemma recent_nonneg ps s : Forall (fun p => 0 <= p.2) ps -> 0 <= recent ps s.
Proof. induction 1 as [|p ps Hp _ IH]; [done|]. rewrite recent_cons. case_decide; lia. Qed.

Lemma cells_app ps t n : cells (ps ++ [(t, n)]) (slot_of t) =
  set (cells ps (slot_of t)) (slot_of t mod 8) (get (cells ps (slot_of t)) (slot_of t mod 8) + n).
Proof.
  set (s := slot_of t). assert (0 <= s mod 8 < 8) as Hb by (apply Z.mod_pos_bound; lia). apply list_eq. intros j. unfold set.
  destruct (decide (j < 8)%nat) as [Hj|Hj].
  - rewrite cells_lookup by done. rewrite bytes_in_app. cbn [fst snd]. fold s.
    pose proof (cell_spec s (Z.of_nat j) s ltac:(lia)) as Hc. destruct (decide (j = Z.to_nat (s mod 8))) as [Ej|Hne].
    + rewrite Ej, list_lookup_insert_eq by (rewrite length_cells; lia). rewrite Z2Nat.id in * by lia. rewrite cells_get by done.
      rewrite decide_True; [done|]. symmetry. apply cell_spec; [done|]. split; [lia|done].
    + rewrite list_lookup_insert_ne by done. rewrite cells_lookup by done. rewrite decide_False; [by rewrite Z.add_0_r|].
      intros E. symmetry in E. apply Hc in E as [_ E]. apply Hne. rewrite E. lia.
  - rewrite !(proj2 (lookup_ge_None _ _)); [done|rewrite length_insert, length_cells; lia|rewrite length_cells; lia].
Qed.

(** The cells at the time of the call. *)
Lemma catch_up ctx ps t t' : metered ctx ps t -> t <= t' < t + 2 ^ 31 ->
  let slot := slot_of t' mod 8 in let lslot := slot_of t mod 8 in
  exists ctx', (if (t' - t >? Kbps_TIMESPAN) || ((lslot =? slot) && (t' - t >? Z.shiftr Kbps_TIMESPAN 1)) then
      let ctx := clear_all 8 0 ctx in Assert_true (currentBpt ctx =? 0);; Ret ctx
    else if negb (lslot =? slot) then advance 8 (lslot + 1) slot ctx else Ret ctx) = Ret ctx' /\
    window ctx' = cells ps (slot_of t') /\ currentBpt ctx' = foldr Z.add 0 (cells ps (slot_of t')) /\ currentBpt ctx' < 2 ^ 31.
Proof.
  intros [Ht Hw Hc Hp Hb] Hle slot lslot. change (Z.shiftr Kbps_TIMESPAN 1) with 512. change Kbps_TIMESPAN with 1024.
  assert (Forall (fun p : Z * Z => 0 <= p.2) ps) as Hpos by (eapply Forall_impl; [exact Hp|]; intros p [_ H]; exact H).
  assert (Forall (fun p : Z * Z => p.1 <= t) ps) as Hpast by (eapply Forall_impl; [exact Hp|]; intros p [H _]; exact H).
  rewrite <- (sum_cells ps t Hpast) in Hc. assert (currentBpt ctx < 2 ^ 31) as Hcb by (rewrite Hc, sum_cells; done).
  assert (forall x, slot_of t < x -> bytes_in ps x = 0) as Hfut by (intros x; by apply bytes_in_future).
  assert (slot_of t <= slot_of t') as Hs by (apply Z.div_le_mono; lia).
  assert (slot_of t' - slot_of t <= (t' - t) / 128 + 1 /\ (t' - t) / 128 <= slot_of t' - slot_of t) as [Hd1 Hd2]
    by (unfold slot_of; Z.to_euclidean_division_equations; lia).
  destruct ((t' - t >? 1024) || ((lslot =? slot) && (t' - t >? 512))) eqn:E.
  - assert (8 <= slot_of t' - slot_of t) as Hd.
    { apply orb_true_iff in E as [E%Z.gtb_lt|[E1%Z.eqb_eq E2%Z.gtb_lt]%andb_true_iff].
      - assert (8 <= (t' - t) / 128); [|lia]. apply Z.div_le_lower_bound; lia.
      - assert (4 <= (t' - t) / 128) by (apply Z.div_le_lower_bound; lia). subst slot lslot. revert E1 Hd2 H. clear.
        generalize ((t' - t) / 128). intros g E1 Hd2 H. Z.to_euclidean_division_equations; lia. }
    rewrite (clear_all_spec ctx ps (slot_of t) Hw Hc Hcb Hpos). cbv zeta. cbn [currentBpt Z.eqb Assert_true mbind Er_bind]. eexists. split; [done|].
    assert (cells ps (slot_of t') = zeros 8) as ->.
    { apply list_eq. intros j. destruct (decide (j < 8)%nat) as [Hj|Hj].
      - rewrite cells_lookup by done. rewrite Hfut; [do 8 (destruct j as [|j]; [done|]); lia|].
        pose proof (proj1 (cell_spec (slot_of t') (Z.of_nat j) _ ltac:(lia)) eq_refl). lia.
      - rewrite (lookup_ge_None_2 (cells ps (slot_of t')) j) by (rewrite length_cells; lia).
        by rewrite (lookup_ge_None_2 (zeros 8) j) by (change (length (zeros 8)) with 8%nat; lia). }
    done.
  - apply orb_false_iff in E as [E1 E2]. assert (t' - t <= 1024) as Hg by (apply Z.gtb_ltb in E1 || (rewrite Z.gtb_ltb in E1; apply Z.ltb_ge in E1); lia).
    assert ((t' - t) / 128 <= 8) as Hd8 by (apply Z.div_le_upper_bound; lia).
    destruct (Z.eqb_spec lslot slot) as [Es|Es]; cbn [negb].
    + cbn [andb] in E2. rewrite Z.gtb_ltb in E2. apply Z.ltb_ge in E2.
      assert ((t' - t) / 128 <= 4) by (apply Z.div_le_upper_bound; lia).
      assert (slot_of t' = slot_of t) as ->.
      { subst slot lslot. revert Es Hd1 Hs H. clear. generalize ((t' - t) / 128). intros g E1 Hd2 H1 H2. Z.to_euclidean_division_equations; lia. }
      by exists ctx.
    + assert (slot_of t' - slot_of t <> 0 /\ slot_of t' - slot_of t <> 8) as [Hn0 Hn8].
      { subst slot lslot. split; intros Ed; apply Es; [by replace (slot_of t') with (slot_of t) by lia|].
        replace (slot_of t') with (slot_of t + 1 * 8) by lia. by rewrite Z.mod_add by lia. }
      assert (slot_of t' - slot_of t <= 8) as Hmax by (unfold slot_of in *; Z.to_euclidean_division_equations; lia).
      destruct (advance_spec (Z.to_nat (slot_of t' - slot_of t - 1)) ctx ps (slot_of t) 8 ltac:(lia) Hw Hc Hcb Hpos Hfut ltac:(lia))
        as (ctx' & Ea & H1 & H2 & H3 & _). rewrite Z2Nat.id in * by lia.
      replace (slot_of t + 1 + (slot_of t' - slot_of t - 1)) with (slot_of t') in * by lia. exists ctx'. done.
Qed.

(** The packets after a call: the size [NO_PACKET] only asks. *)
Definition with_packet (ps : list (Z * Z)) (t n : Z) : list (Z * Z) := if decide (n = Kbps_accumulate_NO_PACKET) then ps else ps ++ [(t, n)].

Lemma accumulate_spec ctx ps t t' n : metered ctx ps t -> t <= t' < t + 2 ^ 31 -> 0 <= n -> fits 32 n ->
  recent (with_packet ps t' n) (slot_of t') < 2 ^ 31 ->
  exists ctx', Kbps_accumulate ctx (t' mod 2 ^ 32) n = Ret (recent (with_packet ps t' n) (slot_of t') / 128, ctx') /\
    metered ctx' (with_packet ps t' n) t'.
Proof.
  intros Hmt Hle Hn Hfit Hb. pose proof Hmt as [Ht Hw Hc Hp _]. unfold Kbps_accumulate. cbv zeta. rewrite Ht.
  rewrite (u32_gap t t' Hle). rewrite (Z.shiftr_div_pow2 (t' - t) 31) by lia. rewrite Z.div_small by lia. cbn [Z.eqb negb].
  rewrite !slot_of_u32, (u32_gap t t' Hle). destruct (catch_up ctx ps t t' Hmt Hle) as (c1 & E1 & Hw1 & Hc1 & Hb1). cbv zeta in E1. rewrite E1, bind_of_ret. clear E1.
  assert (Forall (fun p : Z * Z => 0 <= p.2) ps) as Hpos by (eapply Forall_impl; [exact Hp|]; intros p [_ H]; exact H).
  assert (Forall (fun p : Z * Z => p.1 <= t' /\ 0 <= p.2) ps) as Hp' by (eapply Forall_impl; [exact Hp|]; cbn; intros p [H1 H2]; lia).
  assert (Forall (fun p : Z * Z => p.1 <= t') ps) as Hpast by (eapply Forall_impl; [exact Hp'|]; intros p [H _]; exact H).
  rewrite (sum_cells ps t' Hpast) in Hc1. pose proof (recent_nonneg ps (slot_of t') Hpos) as Hr0. rewrite Hc1 in *.
  rewrite (Z.shiftr_div_pow2 _ 31), Z.div_small by lia. cbn [Z.eqb Assert_true]. rewrite bind_of_ret.
  change (Kbps_TIMESPAN_SH - 3) with 7. unfold with_packet in *.
  destruct (decide (n = Kbps_accumulate_NO_PACKET)) as [->|Hne].
  - rewrite Z.eqb_refl. cbn [negb]. cbn [currentBpt window]. eexists. rewrite Hc1. split; [by rewrite Z.shiftr_div_pow2 by lia|]. by split.
  - rewrite (proj2 (Z.eqb_neq _ _) Hne). cbn [negb currentBpt window]. rewrite recent_app in *. cbn [fst snd] in *.
    rewrite decide_True in * by lia. unfold u32. rewrite (Z.mod_small (recent ps (slot_of t') + n)) by lia.
    eexists. split; [by rewrite Z.shiftr_div_pow2 by lia|]. split; cbn [lastTime window currentBpt].
    + done.
    + rewrite cells_app, Hw1. f_equal. rewrite Z.mod_small; [done|].
      pose proof (cell_le_sum ps (slot_of t') (slot_of t' mod 8) Hpos ltac:(apply Z.mod_pos_bound; lia)) as Hle'.
      rewrite (sum_cells ps t' Hpast) in Hle'. lia.
    + rewrite recent_app. cbn [fst snd]. by rewrite decide_True by lia.
    + apply Forall_app. split; [done|]. apply Forall_singleton. cbn. lia.
    + rewrite recent_app. cbn [fst snd]. by rewrite decide_True by lia.
Qed.

(** Calls one after the other, each with its time and size; the rates they return. *)
Fixpoint kbps_run (ctx : Kbps) (calls : list (Z * Z)) : Er (list Z * Kbps) :=
  match calls with
  | [] => Ret ([], ctx)
  | (t, n) :: calls =>
      '(rate, ctx) ← Kbps_accumulate ctx (u32 t) n;
      '(rates, ctx) ← kbps_run ctx calls;
      Ret (rate :: rates, ctx)
  end.

(** The rates as they should be: the bytes of the current slot of 128 milliseconds and
    the seven before it, in units of 1024 bits a second. *)
Fixpoint true_rates (ps : list (Z * Z)) (calls : list (Z * Z)) : list Z :=
  match calls with
  | [] => []
  | (t, n) :: calls => recent (with_packet ps t n) (slot_of t) / 128 :: true_rates (with_packet ps t n) calls
  end.

(** The clock does not go back, calls are less than 24 days apart and there are fewer
    than 2^31 bytes in a second. *)
Fixpoint calls_ok (ps : list (Z * Z)) (last : Z) (calls : list (Z * Z)) : Prop :=
  match calls with
  | [] => True
  | (t, n) :: calls => last <= t < last + 2 ^ 31 /\ fits 32 n /\ recent (with_packet ps t n) (slot_of t) < 2 ^ 31 /\
      calls_ok (with_packet ps t n) t calls
  end.

Lemma kbps_run_spec calls : forall ctx ps t, metered ctx ps t -> calls_ok ps t calls ->
  exists ctx', kbps_run ctx calls = Ret (true_rates ps calls, ctx').
Proof.
  induction calls as [|[t' n] calls IH]; intros ctx ps t Hm Hok; cbn [kbps_run true_rates]; [by eexists|].
  destruct Hok as (Ht & Hf & Hb & Hok). destruct (accumulate_spec ctx ps t t' n Hm Ht (proj1 Hf) Hf Hb) as (c1 & E & Hm1).
  unfold u32. rewrite E, bind_of_ret. destruct (IH c1 _ t' Hm1 Hok) as (ctx' & ->). rewrite bind_of_ret. by eexists.
Qed.

(** [C38] The meter is exact.  Over any sequence of calls with a clock which does not
    go back, on a 32-bit count of milliseconds which begins in its lower half and may
    wrap around, with calls less than 2^31 milliseconds apart and less than 2^31 bytes in
    a window, no assertion
    fails, the loop over the slots ends, and every call returns the number of bytes
    of the packets in the current slot and the seven slots before it, scaled to
    kilobits a second; older packets are forgotten and none of the newer ones. *)
Theorem kbps_refines_window start calls : start mod 2 ^ 32 = 0 -> calls_ok [] start calls ->
  exists ctx, kbps_run Kbps_zero calls = Ret (true_rates [] calls, ctx).
Proof.
  intros H0 Hok. apply (kbps_run_spec calls Kbps_zero [] start); [|done]. by split.
Qed.

(** ** Any clock

    Whatever the clock does, the counter is the sum of the slots, and a call
    returns while the sum is below 2^31. *)

Definition total (w : list Z) : Z := foldr Z.add 0 w.

Record counting (ctx : Kbps) : Prop := {
  cn_slots : length (window ctx) = 8%nat;
  cn_pos : Forall (fun x => 0 <= x) (window ctx);
  cn_sum : currentBpt ctx = total (window ctx);
}.

Lemma total_pos w : Forall (fun x => 0 <= x) w -> 0 <= total w.
Proof. unfold total. induction 1; cbn; lia. Qed.

Lemma window_lookup w j : 0 <= j < len w -> w !! Z.to_nat j = Some (get w j).
Proof.
  intros Hj. unfold get. rewrite nth_lookup. destruct (lookup_lt_is_Some_2 w (Z.to_nat j)) as [x Hx]; [lia|]. by rewrite Hx.
Qed.

Lemma get_le_total w j : Forall (fun x => 0 <= x) w -> 0 <= j < len w -> 0 <= get w j <= total w.
Proof.
  intros Hw Hj. pose proof (window_lookup w j Hj) as Hl.
  pose proof (set_sum w (Z.to_nat j) (get w j) 0 Hl) as Hs. rewrite Forall_forall in Hw.
  pose proof (Hw _ (list_elem_of_lookup_2 _ _ _ Hl)) as H0. split; [exact H0|].
  assert (0 <= foldr Z.add 0 (<[Z.to_nat j := 0]> w)); [|unfold total; lia].
  apply total_pos, Forall_insert; [|lia]. by apply Forall_forall.
Qed.

Lemma set_total w j v : 0 <= j < len w -> total (set w j v) = total w - get w j + v.
Proof. intros Hj. unfold total, set. by apply set_sum, window_lookup. Qed.

Lemma clear_slot_counting ctx j : counting ctx -> 0 <= j < 8 -> currentBpt ctx < 2 ^ 31 ->
  counting (clear_slot ctx j) /\ currentBpt (clear_slot ctx j) <= currentBpt ctx.
Proof.
  intros [Hl Hp Hs] Hj Hb. pose proof (get_le_total (window ctx) j Hp ltac:(lia)) as Hg.
  pose proof (set_total (window ctx) j 0 ltac:(lia)) as Ht.
  assert (u32 (currentBpt ctx - get (window ctx) j) = currentBpt ctx - get (window ctx) j) as Hu
    by (unfold u32; apply Z.mod_small; lia).
  unfold clear_slot. rewrite Hu. cbn [currentBpt]. split; [|lia]. split; cbn [window currentBpt].
  - by rewrite length_set.
  - unfold set. by apply Forall_insert.
  - lia.
Qed.

Lemma clear_all_counting n : forall i ctx, counting ctx -> 0 <= i -> i + Z.of_nat n <= 8 -> currentBpt ctx < 2 ^ 31 ->
  counting (clear_all n i ctx) /\ (forall j, i <= j < i + Z.of_nat n -> get (window (clear_all n i ctx)) j = 0) /\
  (forall j, 0 <= j < i -> get (window (clear_all n i ctx)) j = get (window ctx) j).
Proof.
  induction n as [|n IH]; intros i ctx Hc Hi Hn Hb; cbn [clear_all]; [split; [done|]; split; [lia|done]|].
  destruct (clear_slot_counting ctx i Hc ltac:(lia) Hb) as [Hc1 Hle].
  destruct (IH (i + 1) (clear_slot ctx i) Hc1 ltac:(lia) ltac:(lia) ltac:(lia)) as (H1 & H2 & H3).
  pose proof (cn_slots ctx Hc) as Hl. split; [done|]. split.
  - intros j Hj. destruct (decide (j = i)) as [->|Hne]; [|apply H2; lia].
    rewrite H3 by lia. unfold clear_slot. cbn [window]. apply get_set_eq. lia.
  - intros j Hj. rewrite H3 by lia. unfold clear_slot. cbn [window]. apply get_set_ne; lia.
Qed.

Lemma clear_all_zero ctx : counting ctx -> currentBpt ctx < 2 ^ 31 ->
  counting (clear_all 8 0 ctx) /\ currentBpt (clear_all 8 0 ctx) = 0.
Proof.
  intros Hc Hb. destruct (clear_all_counting 8 0 ctx Hc) as (H1 & H2 & _); [lia..|]. split; [exact H1|].
  destruct H1 as [Hl _ ->].
  revert H2 Hl. generalize (window (clear_all 8 0 ctx)). intros w H2 Hl.
  do 9 (destruct w as [|? w]; try done).
  pose proof (H2 0 ltac:(lia)) as G0. pose proof (H2 1 ltac:(lia)) as G1. pose proof (H2 2 ltac:(lia)) as G2.
  pose proof (H2 3 ltac:(lia)) as G3. pose proof (H2 4 ltac:(lia)) as G4. pose proof (H2 5 ltac:(lia)) as G5.
  pose proof (H2 6 ltac:(lia)) as G6. pose proof (H2 7 ltac:(lia)) as G7. clear H2. cbv in G0, G1, G2, G3, G4, G5, G6, G7.
  by subst.
Qed.

Lemma advance_counting n : forall i slot ctx fuel, (n < fuel)%nat -> 0 <= i -> 0 <= slot < 8 -> (i + Z.of_nat n) mod 8 = slot ->
  counting ctx -> currentBpt ctx < 2 ^ 31 ->
  exists ctx', advance fuel i slot ctx = Ret ctx' /\ counting ctx' /\ currentBpt ctx' <= currentBpt ctx.
Proof.
  induction n as [|n IH]; intros i slot ctx fuel Hf Hi Hs Hm Hc Hb; (destruct fuel as [|fuel]; [lia|]); cbn [advance];
    unfold Kbps_WINDOW_SIZE; rewrite Z.rem_mod_nonneg by lia; pose proof (Z.mod_pos_bound i 8 ltac:(lia)) as Hb8;
    destruct (clear_slot_counting ctx (i mod 8) Hc Hb8 Hb) as [Hc1 Hle]; destruct (Z.eqb_spec (i mod 8) slot) as [He|He];
    try (eexists; split; [done|]; by split).
  - exfalso. apply He. rewrite <- Hm. f_equal. lia.
  - destruct (IH (i mod 8 + 1) slot (clear_slot ctx (i mod 8)) fuel) as (ctx' & -> & Hc' & Hle'); try done; try lia.
    + rewrite <- Hm. Z.to_euclidean_division_equations. lia.
    + exists ctx'. split; [done|]. split; [done|lia].
Qed.

Lemma accumulate_returns ctx now n : counting ctx -> currentBpt ctx < 2 ^ 31 -> fits 32 (lastTime ctx) -> fits 32 now ->
  0 <= n < 2 ^ 31 \/ n = Kbps_accumulate_NO_PACKET ->
  exists r ctx', Kbps_accumulate ctx now n = Ret (r, ctx') /\ counting ctx' /\ fits 32 (lastTime ctx') /\
    currentBpt ctx' <= currentBpt ctx + (if n =? Kbps_accumulate_NO_PACKET then 0 else n).
Proof.
  intros Hc Hb Hl Hnow Hn. unfold Kbps_accumulate. cbv zeta.
  set (xnow := if negb (Z.shiftr (u32 (now - lastTime ctx)) 31 =? 0) then lastTime ctx else now). assert (Hx : fits 32 xnow) by (unfold xnow; by case_match).
  unfold Kbps_TIMESPAN_SH, Kbps_WINDOW_SH, Kbps_WINDOW_SIZE. change (10 - 3) with 7. change (10 - 3) with 7.
  set (slot := Z.rem (Z.shiftr xnow 7) 8). set (lslot := Z.rem (Z.shiftr (lastTime ctx) 7) 8). unfold fits in Hx, Hl.
  assert (Hs : 0 <= slot < 8) by (unfold slot; rewrite Z.shiftr_div_pow2 by lia; rewrite Z.rem_mod_nonneg by (try apply Z.div_pos; lia); apply Z.mod_pos_bound; lia).
  assert (Hls : 0 <= lslot < 8) by (unfold lslot; rewrite Z.shiftr_div_pow2 by lia; rewrite Z.rem_mod_nonneg by (try apply Z.div_pos; lia); apply Z.mod_pos_bound; lia).
  assert (exists ctx1 : Kbps, (if (u32 (xnow - lastTime ctx) >? Kbps_TIMESPAN) || ((lslot =? slot) && (u32 (xnow - lastTime ctx) >? Z.shiftr Kbps_TIMESPAN 1)) then
           Assert_true (currentBpt (clear_all 8 0 ctx) =? 0);; Ret (clear_all 8 0 ctx)
         else if negb (lslot =? slot) then advance 8 (lslot + 1) slot ctx else Ret ctx) = Ret ctx1 /\
      counting ctx1 /\ currentBpt ctx1 <= currentBpt ctx) as (ctx1 & -> & Hc1 & Hle).
  { destruct (_ || _).
    - destruct (clear_all_zero ctx Hc Hb) as [Hz1 Hz2]. rewrite Hz2. eexists. split; [done|]. split; [done|].
      rewrite Hz2, (cn_sum ctx Hc). apply total_pos, Hc.
    - destruct (Z.eqb_spec lslot slot) as [_|Hne]; cbn [negb]; [eexists; split; [done|]; split; [done|lia]|].
      pose proof (Z.mod_pos_bound (slot - lslot - 1) 8 ltac:(lia)) as Hd.
      apply (advance_counting (Z.to_nat ((slot - lslot - 1) mod 8)) (lslot + 1) slot ctx 8); [lia|lia|done| |done|done].
      rewrite Z2Nat.id by lia. Z.to_euclidean_division_equations. lia. }
  cbn [mbind Er_bind]. rewrite (Z.shiftr_div_pow2 (currentBpt ctx1) 31) by lia. pose proof (total_pos _ (cn_pos ctx1 Hc1)) as Hp.
  pose proof (cn_sum ctx1 Hc1) as Hsum. rewrite (Z.div_small (currentBpt ctx1)) by lia. cbn [Z.eqb Assert_true mbind Er_bind].
  destruct (Z.eqb_spec n Kbps_accumulate_NO_PACKET) as [->|Hne]; cbn [negb].
  - do 2 eexists. split; [reflexivity|]. destruct Hc1. cbn [currentBpt lastTime]. split; [by split|]. split; [exact Hnow|lia].
  - destruct Hn as [Hn|]; [|done]. pose proof (get_le_total (window ctx1) slot (cn_pos _ Hc1) ltac:(pose proof (cn_slots _ Hc1); lia)) as Hg.
    unfold u32. rewrite !Z.mod_small by lia. do 2 eexists. split; [reflexivity|]. cbn [currentBpt lastTime].
    split; [|split; [exact Hnow|lia]]. pose proof (cn_slots _ Hc1) as Hcs. split; cbn [window currentBpt].
    + by rewrite length_set.
    + unfold set. apply Forall_insert; [exact (cn_pos _ Hc1)|lia].
    + rewrite set_total by lia. lia.
Qed.

(** ** The link *)

(** Nothing waits and both meters count, below [room] bytes. *)
Record idle (room : Z) (pl : PeerLink) : Prop := {
  id_queue : al_is (queue pl) [];
  id_send : counting (sendBw pl) /\ fits 32 (lastTime (sendBw pl)) /\ currentBpt (sendBw pl) < room;
  id_recv : counting (recvBw pl) /\ fits 32 (lastTime (recvBw pl)) /\ currentBpt (recvBw pl) < room;
}.

Lemma idle_new room : 0 < room -> idle room PeerLink_new.
Proof.
  intros Hr. assert (counting Kbps_zero) as Hz by (split; [done| |done]; cbn; repeat constructor; lia).
  split; [by apply al_new|..]; (split; [done|]; split; [by split|done]).
Qed.

(** What is added to an empty list is its first element. *)
Lemma al_add_shift {A} (vlist : ArrayList A) v : al_is vlist [] ->
  exists v1 v2, ArrayList_add vlist v = Ret (0, v1) /\ al_length v1 = 1 /\ ArrayList_shift v1 = Ret (Some v, v2) /\ al_is v2 [].
Proof.
  intros Hal. destruct (al_put vlist [] 0 v Hal ltac:(cbn; lia)) as (v1 & E1 & H1). rewrite decide_True in H1 by done.
  destruct (al_remove v1 [v] 0 H1 ltac:(lia)) as (v2 & E2 & H2). exists v1, v2. unfold ArrayList_add.
  destruct Hal as (-> & _). split; [done|]. split; [by destruct H1 as (-> & _)|]. by split.
Qed.

(** A message which is sent comes out again at once. *)
Lemma send_poll pl room msg now : idle room pl -> room <= 2 ^ 31 -> 0 <= msg_length msg < 2 ^ 31 ->
  exists pl1 pl2, PeerLink_send msg pl = Ret (1, pl1) /\ PeerLink_poll pl1 now = Ret (Some msg, pl2) /\
    idle (room + msg_length msg) pl2.
Proof.
  intros [Hq (Hs & Hst & Hsb) (Hr & Hrt & Hrb)] Hroom Hlen. destruct (al_add_shift (queue pl) msg Hq) as (q1 & q2 & E1 & Hl1 & E2 & Hq2).
  assert (u32 (msg_length msg) = msg_length msg) as Hu by (unfold u32; apply Z.mod_small; lia).
  destruct (accumulate_returns (sendBw pl) (u32 now) (msg_length msg) Hs) as (r & k & Ek & Hk & Hkt & Hkb); try done; try lia.
  { unfold u32, fits. apply Z.mod_pos_bound. lia. }
  unfold PeerLink_send. rewrite E1. cbn [mbind Er_bind]. rewrite Hl1.
  exists (mkPeerLink q1 (sendBw pl) (recvBw pl)), (mkPeerLink q2 k (recvBw pl)). split; [done|].
  unfold PeerLink_poll. cbn [queue sendBw recvBw]. rewrite E2. cbn [mbind Er_bind]. rewrite Hu, Ek. cbn [mbind Er_bind].
  split; [done|]. assert (currentBpt k < room + msg_length msg) by (case_match; lia).
  split; [exact Hq2|..]; cbn [sendBw recvBw]; (split; [done|]; split; [done|]); lia.
Qed.

Lemma recv_returns pl room msg now : idle room pl -> room <= 2 ^ 31 -> 0 <= msg_length msg < 2 ^ 31 ->
  exists pl', PeerLink_recv msg pl now = Ret pl' /\ idle (room + msg_length msg) pl'.
Proof.
  intros [Hq (Hs & Hst & Hsb) (Hr & Hrt & Hrb)] Hroom Hlen. unfold PeerLink_recv.
  assert (u32 (msg_length msg) = msg_length msg) as -> by (unfold u32; apply Z.mod_small; lia).
  destruct (accumulate_returns (recvBw pl) (u32 now) (msg_length msg) Hr) as (r & k & -> & Hk & Hkt & Hkb); try done; try lia.
  { unfold u32, fits. apply Z.mod_pos_bound. lia. }
  cbn [mbind Er_bind]. eexists. split; [done|]. assert (currentBpt k < room + msg_length msg) by (case_match; lia).
  split; [exact Hq|..]; cbn [sendBw recvBw]; (split; [done|]; split; [done|]); lia.
Qed.

Lemma kbps_returns pl room now : idle room pl -> room <= 2 ^ 31 ->
  exists r s pl', PeerLink_kbps pl now = Ret (r, s, pl') /\ idle room pl'.
Proof.
  intros [Hq (Hs & Hst & Hsb) (Hr & Hrt & Hrb)] Hroom. unfold PeerLink_kbps.
  assert (fits 32 (u32 now)) as Hn by (unfold u32, fits; apply Z.mod_pos_bound; lia).
  destruct (accumulate_returns (recvBw pl) (u32 now) Kbps_accumulate_NO_PACKET Hr ltac:(lia) Hrt Hn ltac:(by right)) as (r & k & -> & Hk & Hkt & Hkb).
  cbn [mbind Er_bind].
  destruct (accumulate_returns (sendBw pl) (u32 now) Kbps_accumulate_NO_PACKET Hs ltac:(lia) Hst Hn ltac:(by right)) as (s & k' & -> & Hk' & Hkt' & Hkb').
  cbn [mbind Er_bind]. rewrite Z.eqb_refl in Hkb, Hkb'. do 3 eexists. split; [done|].
  split; [done|..]; cbn [sendBw recvBw]; (split; [done|]; split; [done|lia]).
Qed.

(** ** Examples *)

(** Shortly before the count of milliseconds wraps around, and behind it. *)
Definition example_calls : list (Z * Z) :=
  [(2 ^ 31 - 1, 1000); (2 ^ 32 - 300, 4000); (2 ^ 32 - 10, 8000); (2 ^ 32 + 500, 0xffffffff); (2 ^ 32 + 760, 0xffffffff); (2 ^ 32 + 5000, 100)].

Lemma kbps_refines_window_witness : exists ctx, kbps_run Kbps_zero example_calls = Ret ([7; 31; 93; 93; 62; 0], ctx).
Proof.
  destruct (kbps_refines_window 0 example_calls eq_refl) as (ctx & E).
  - unfold example_calls. cbn [calls_ok]. unfold fits. split_and!; (by vm_compute) || done.
  - exists ctx. exact E.
Defined.

(** Where the clock stands at 2^31 milliseconds or more when the meter is made, the first packet is
    counted in the slot 0, so that the meter may forget it too early. *)
Example first_packet_misplaced : exists r ctx, Kbps_accumulate Kbps_zero (2 ^ 31 + 400) 1000 = Ret (r, ctx) /\
  window ctx = [1000; 0; 0; 0; 0; 0; 0; 0] /\ slot_of (2 ^ 31 + 400) mod 8 = 3.
Proof. do 2 eexists. split; [vm_compute; reflexivity|]. by vm_compute. Qed.
