(* ===== verification/EventEmitter.v ===== *)
(** * net/EventEmitter.c: events between the core and the pathfinders

    The parts of the core register for the events of pathfinders they want to see;
    the pathfinders, which run in other processes or threads, are connected by
    interfaces.  An event of the core goes to one pathfinder or to all of them, an
    event of a pathfinder to the parts registered for it, unless the emitter
    handles it itself.

    Both kinds of interfaces have numbers here: [EEToCore] is a call of the part
    with the interface [iface], [EEToPathfinder] a message to the pathfinder with
    the number [id].  The array lists are sequences (ArrayList.v shows that this is
    what they are); pathfinders are never taken out. *)
From S2P Require Import Prelude Bits Message MsgAt Headers RouteHeader PFChan Nacl Key Address.

Definition PING_MAGIC : Z := 0x01234567.

Inductive Pathfinder_state := DISCONNECTED | CONNECTED | ERROR.
#[export] Instance Pathfinder_state_eq : EqDecision Pathfinder_state.
Proof. solve_decision. Defined.

Record Pathfinder := mkPathfinder {
  pf_userAgent : list Z;
  pf_superiority : Z;
  pf_version : Z;
  pf_state : Pathfinder_state;
  pathfinderId : Z;
  bytesSinceLastPing : Z;
}.

Record EventEmitter := mkEventEmitter {
  listTable : list (option (list Z));
  pathfinders : list Pathfinder;
  ee_publicKey : list Z;
}.

Inductive EEOut :=
| EEToPathfinder (id : Z) (msg : Message)
| EEToCore (iface : Z) (msg : Message).

Definition set_superiority (pf : Pathfinder) (x : Z) : Pathfinder :=
  mkPathfinder (pf_userAgent pf) x (pf_version pf) (pf_state pf) (pathfinderId pf) (bytesSinceLastPing pf).
Definition set_pf_state (pf : Pathfinder) (x : Pathfinder_state) : Pathfinder :=
  mkPathfinder (pf_userAgent pf) (pf_superiority pf) (pf_version pf) x (pathfinderId pf) (bytesSinceLastPing pf).
Definition set_bytesSince (pf : Pathfinder) (x : Z) : Pathfinder :=
  mkPathfinder (pf_userAgent pf) (pf_superiority pf) (pf_version pf) (pf_state pf) (pathfinderId pf) x.
Definition set_table (ee : EventEmitter) (x : list (option (list Z))) : EventEmitter :=
  mkEventEmitter x (pathfinders ee) (ee_publicKey ee).
Definition set_pathfinders (ee : EventEmitter) (x : list Pathfinder) : EventEmitter :=
  mkEventEmitter (listTable ee) x (ee_publicKey ee).

(** [ArrayList_Pathfinders_get(ee->pathfinders, i)], and a write through the pointer. *)
Definition pathfinder_at (ee : EventEmitter) (i : Z) : option Pathfinder :=
  if (i >=? len (pathfinders ee)) || (i <? 0) then None else pathfinders ee !! Z.to_nat i.
Definition put_pathfinder (ee : EventEmitter) (i : Z) (pf : Pathfinder) : EventEmitter :=
  set_pathfinders ee (<[Z.to_nat i := pf]> (pathfinders ee)).

Definition OFFSET (ev : Z) : Z := ev - PFChan_Pathfinder__TOO_LOW - 1.

(** The list is made on the first access, whatever [create] says. *)
Definition getHandlers (ee : EventEmitter) (ev : Z) (create : bool) : option (list Z) * EventEmitter :=
  if (ev <=? PFChan_Pathfinder__TOO_LOW) || (ev >=? PFChan_Pathfinder__TOO_HIGH) then (None, ee)
  else
    match mjoin (listTable ee !! Z.to_nat (OFFSET ev)) with
    | Some out => (Some out, ee)
    | None => (Some [], set_table ee (<[Z.to_nat (OFFSET ev) := Some []]> (listTable ee)))
    end.

(** [switch (ev)]; [default] fails. *)
Definition PFChan_Pathfinder_sizeOk (ev size : Z) : Er bool :=
  if ev =? PFChan_Pathfinder_CONNECT then Ret (size =? 8 + PFChan_Pathfinder_Connect_SIZE)
  else if ev =? PFChan_Pathfinder_SUPERIORITY then Ret (size =? 8 + PFChan_Pathfinder_Superiority_SIZE)
  else if (ev =? PFChan_Pathfinder_NODE) || (ev =? PFChan_Pathfinder_SNODE) then Ret (size =? 8 + PFChan_Node_SIZE)
  else if ev =? PFChan_Pathfinder_SENDMSG then Ret (size >=? 8 + PFChan_Msg_MIN_SIZE)
  else if (ev =? PFChan_Pathfinder_PING) || (ev =? PFChan_Pathfinder_PONG) then Ret (size >=? 8 + PFChan_Ping_SIZE)
  else if (ev =? PFChan_Pathfinder_SESSIONS) || (ev =? PFChan_Pathfinder_PEERS) || (ev =? PFChan_Pathfinder_PATHFINDERS)
  then Ret (size =? 8)
  else if ev =? PFChan_Pathfinder_CTRL_SENDMSG then Ret (size >=? 8 + PFChan_CtrlMsg_MIN_SIZE)
  else Abort "invalid event".

Definition PFChan_Core_sizeOk (ev size : Z) : Er bool :=
  if ev =? PFChan_Core_CONNECT then Ret (size =? 8 + PFChan_Core_Connect_SIZE)
  else if (ev =? PFChan_Core_PATHFINDER) || (ev =? PFChan_Core_PATHFINDER_GONE) then Ret (size =? 8 + PFChan_Core_Pathfinder_SIZE)
  else if ev =? PFChan_Core_SWITCH_ERR then Ret (size >=? 8 + PFChan_Core_SwitchErr_MIN_SIZE)
  else if ev =? PFChan_Core_SEARCH_REQ then Ret (size =? 8 + PFChan_Core_SearchReq_SIZE)
  else if (ev =? PFChan_Core_PEER) || (ev =? PFChan_Core_PEER_GONE) || (ev =? PFChan_Core_SESSION) || (ev =? PFChan_Core_SESSION_ENDED)
    || (ev =? PFChan_Core_DISCOVERED_PATH) || (ev =? PFChan_Core_UNSETUP_SESSION) then Ret (size =? 8 + PFChan_Node_SIZE)
  else if ev =? PFChan_Core_MSG then Ret (size >=? 8 + PFChan_Msg_MIN_SIZE)
  else if (ev =? PFChan_Core_PING) || (ev =? PFChan_Core_PONG) then Ret (size =? 8 + PFChan_Ping_SIZE)
  else if ev =? PFChan_Core_CTRL_MSG then Ret (size >=? 8 + PFChan_CtrlMsg_MIN_SIZE)
  else if ev =? PFChan_Core_LINK_STATE then
    Ret ((size >=? 8 + PFChan_LinkState_Entry_SIZE) && (Z.rem (size - 8) PFChan_LinkState_Entry_SIZE =? 0))
  else Abort "invalid event".

Section Emitter.
Context (malloc : Z -> Z * list Z).

(** [Message_clone(msg, alloc)] with fresh memory. *)
Definition clone_msg (msg : Message) : Er Message :=
  let '(addr, mem) := malloc (msg_capacity msg + msg_padding msg + 8) in Message_clone msg addr mem.

(** [pf] is not NULL at any of the calls. *)
Definition sendToPathfinder (msg : Message) (pf : Pathfinder) : Er (Pathfinder * list EEOut) :=
  if negb (bool_decide (pf_state pf = CONNECTED)) then Ret (pf, [])
  else
    outs ← (if (bytesSinceLastPing pf <? 8192) && (u32 (bytesSinceLastPing pf + msg_length msg) >=? 8192) then
              let '(addr, mem) := malloc 512 in
              ping ← Message_epush32be (Message_new 0 512 addr mem) (bytesSinceLastPing pf);
              ping ← Message_epush32be ping PING_MAGIC;
              ping ← Message_epush32be ping PFChan_Core_PING;
              Ret [EEToPathfinder (pathfinderId pf) ping]
            else Ret []);
    Ret (set_bytesSince pf (u32 (bytesSinceLastPing pf + msg_length msg)), outs ++ [EEToPathfinder (pathfinderId pf) msg]).

(** [for (i = 0; i < ee->pathfinders->length; i++)] of a broadcast. *)
Fixpoint broadcast_loop (msg : Message) (pfs : list Pathfinder) : Er (list Pathfinder * list EEOut) :=
  match pfs with
  | [] => Ret ([], [])
  | pf :: pfs =>
      '(pf, outs) ← (if negb (bool_decide (pf_state pf = CONNECTED)) then Ret (pf, [])
                     else messageClone ← clone_msg msg; sendToPathfinder messageClone pf);
      '(pfs, outs') ← broadcast_loop msg pfs;
      Ret (pf :: pfs, outs ++ outs')
  end.

Definition incomingFromCore (msg : Message) (ee : EventEmitter) : Er (EventEmitter * list EEOut) :=
  Assert_true ((msg_addr msg + msg_bytes msg) mod 4 =? 0);;
  '(msg, ev) ← Message_epop32be msg;
  ok ← PFChan_Core_sizeOk ev (msg_length msg + 4);
  Assert_true ok;;
  '(msg, pathfinderNum) ← Message_epop32be msg;
  msg ← Message_epush32be msg ev;
  if negb (pathfinderNum =? 0xffffffff) then
    match pathfinder_at ee (i32 pathfinderNum) with
    | None => Abort "pf && pf->state == Pathfinder_state_CONNECTED"
    | Some pf =>
        Assert_true (bool_decide (pf_state pf = CONNECTED));;
        '(pf, outs) ← sendToPathfinder msg pf;
        Ret (put_pathfinder ee (i32 pathfinderNum) pf, outs)
    end
  else
    '(pfs, outs) ← broadcast_loop msg (pathfinders ee);
    Ret (set_pathfinders ee pfs, outs).

Definition pathfinderMsg (ev : Z) (pf : Pathfinder) : Er Message :=
  let '(addr, mem) := malloc (PFChan_Core_Pathfinder_SIZE + 512) in
  let msg := Message_new PFChan_Core_Pathfinder_SIZE 512 addr mem in
  let msg := msg_write msg 0 (le_bytes 4 (Endian_hostToBigEndian32 (pf_superiority pf))) in
  let msg := msg_write msg 4 (le_bytes 4 (Endian_hostToBigEndian32 (pathfinderId pf))) in
  let msg := msg_write msg 8 (take 64 (pf_userAgent pf)) in
  msg ← Message_epush32be msg 0xffffffff;
  Message_epush32be msg ev.

(** The loop of [PFChan_Pathfinder_PATHFINDERS]: one message for every connected
    pathfinder, all of them about [pf]. *)
Fixpoint pathfinders_loop (n : nat) (i : Z) (id : Z) (ee : EventEmitter) : Er (EventEmitter * list EEOut) :=
  match n with
  | O => Ret (ee, [])
  | S n =>
      match pathfinder_at ee i, pathfinder_at ee id with
      | Some xpf, Some pf =>
          '(ee, outs) ← (if negb (bool_decide (pf_state xpf = CONNECTED)) then Ret (ee, [])
                         else
                           resp ← pathfinderMsg PFChan_Core_PATHFINDER pf;
                           '(pf, outs) ← sendToPathfinder resp pf;
                           Ret (put_pathfinder ee id pf, outs));
          '(ee, outs') ← pathfinders_loop n (i + 1) id ee;
          Ret (ee, outs ++ outs')
      | _, _ => pathfinders_loop n (i + 1) id ee
      end
  end.

(** [id] is the index of [pf]; true if the event was handled. *)
Definition handleFromPathfinder (ev : Z) (msg : Message) (ee : EventEmitter) (id : Z) (pf : Pathfinder) :
    Er (bool * Message * EventEmitter * list EEOut) :=
  if ev =? PFChan_Pathfinder_CONNECT then
    msg ← Message_eshift msg (-8);
    '(msg, connect) ← Message_epop msg PFChan_Pathfinder_Connect_SIZE;
    let pf := mkPathfinder (rd 8 64 connect) (Endian_bigEndianToHost32 (le_val (rd 0 4 connect)))
                (Endian_bigEndianToHost32 (le_val (rd 4 4 connect))) CONNECTED (pathfinderId pf) (bytesSinceLastPing pf) in
    let resp := le_bytes 4 (Endian_bigEndianToHost32 Version_CURRENT_PROTOCOL)
                ++ le_bytes 4 (Endian_hostToBigEndian32 (pathfinderId pf)) ++ ee_publicKey ee in
    msg ← Message_epush msg (Some resp) PFChan_Core_Connect_SIZE;
    msg ← Message_epush32be msg PFChan_Core_CONNECT;
    sendMsg ← clone_msg msg;
    '(pf, outs) ← sendToPathfinder sendMsg pf;
    Ret (true, msg, put_pathfinder ee id pf, outs)
  else if ev =? PFChan_Pathfinder_SUPERIORITY then
    msg ← Message_eshift msg (-8);
    '(msg, superiority) ← Message_epop32be msg;
    let pf := set_superiority pf superiority in
    resp ← pathfinderMsg PFChan_Core_PATHFINDER pf;
    '(ee, outs) ← incomingFromCore resp (put_pathfinder ee id pf);
    Ret (true, msg, ee, outs)
  else if ev =? PFChan_Pathfinder_PING then
    sendMsg ← clone_msg msg;
    Ret (true, msg, ee, [EEToPathfinder (pathfinderId pf) sendMsg])
  else if ev =? PFChan_Pathfinder_PONG then
    msg ← Message_eshift msg (-8);
    '(msg, cookie) ← Message_epop32be msg;
    '(msg, count) ← Message_epop32be msg;
    if negb (cookie =? PING_MAGIC) || (count >? bytesSinceLastPing pf) then
      let pf := set_pf_state pf ERROR in
      resp ← pathfinderMsg PFChan_Core_PATHFINDER_GONE pf;
      '(ee, outs) ← incomingFromCore resp (put_pathfinder ee id pf);
      Ret (true, msg, ee, outs)
    else Ret (true, msg, put_pathfinder ee id (set_bytesSince pf (bytesSinceLastPing pf - count)), [])
  else if ev =? PFChan_Pathfinder_PATHFINDERS then
    '(ee, outs) ← pathfinders_loop (length (pathfinders ee)) 0 id ee;
    Ret (true, msg, ee, outs)
  else Ret (false, msg, ee, []).

Fixpoint handlers_loop (msg : Message) (handlers : list Z) : Er (list EEOut) :=
  match handlers with
  | [] => Ret []
  | iface :: handlers =>
      messageClone ← clone_msg msg;
      outs ← handlers_loop msg handlers;
      Ret (EEToCore iface messageClone :: outs)
  end.

(** [id]: the pathfinder the message came from. *)
Definition incomingFromPathfinder (msg : Message) (ee : EventEmitter) (id : Z) : Er (EventEmitter * list EEOut) :=
  match pathfinder_at ee id with
  | None => Abort "invalid pointer"
  | Some pf =>
      if msg_length msg <? 4 then Ret (ee, [])
      else
        '(msg, ev) ← Message_epop32be msg;
        msg ← Message_epush32be msg (pathfinderId pf);
        msg ← Message_epush32be msg ev;
        if (ev <=? PFChan_Pathfinder__TOO_LOW) || (ev >=? PFChan_Pathfinder__TOO_HIGH) then Ret (ee, [])
        else
          ok ← PFChan_Pathfinder_sizeOk ev (msg_length msg);
          if negb ok then Ret (ee, [])
          else if bool_decide (pf_state pf = DISCONNECTED) && negb (ev =? PFChan_Pathfinder_CONNECT) then Ret (ee, [])
          else if bool_decide (pf_state pf = ERROR) then Ret (ee, [])
          else
            '(handled, msg, ee, outs) ← handleFromPathfinder ev msg ee id pf;
            if handled : bool then Ret (ee, outs)
            else
              let '(handlers, ee) := getHandlers ee ev false in
              match handlers with
              | None => Ret (ee, [])
              | Some handlers => outs ← handlers_loop msg handlers; Ret (ee, outs)
              end
  end.

Definition EventEmitter_regCore (ee : EventEmitter) (iface ev : Z) : Er EventEmitter :=
  let '(l, ee) := getHandlers ee ev true in
  match l with
  | None => Assert_true (ev =? 0);; Ret ee
  | Some l => Ret (set_table ee (<[Z.to_nat (OFFSET ev) := Some (l ++ [iface])]> (listTable ee)))
  end.

(** No place in the list is vacant, so the new one goes to its end. *)
Definition EventEmitter_regPathfinderIface (ee : EventEmitter) : EventEmitter :=
  let i := len (pathfinders ee) in
  set_pathfinders ee (pathfinders ee ++ [mkPathfinder (zeros 64) 0 0 DISCONNECTED (u16 i) 0]).

Definition EventEmitter_new (publicKey : list Z) : EventEmitter :=
  mkEventEmitter (replicate 12 None) [] (take 32 publicKey).
End Emitter.
