(* ===== verification/TUNAdapter.v ===== *)
(** * net/TUNAdapter.c: between the TUN device and the upper distributor

    A packet of the TUN device loses its IPv6 header and gets a route and a data
    header in its place; a packet from the network gets an IPv6 header back.  Both
    rewrites happen in the buffer, the headers overlap.  [tun_outgoing] and
    [tun_incoming] describe the results byte by byte. *)
From S2P Require Import Prelude Bits Message Checksum MsgAt Headers RouteHeader Nacl Key.

(** ** Definitions *)

(** [tunIf_connected]: a device is plumbed to [tunIf]. *)
Record TUNAdapter := mkTUNAdapter {
  ta_myIp6 : list Z;
  tunIf_connected : bool;
}.

Inductive TAOut :=
| TAToTun (msg : Message)
| TAToIpTunnel (msg : Message)
| TAToUpper (msg : Message).

Definition TUNAdapter_new (myIp6 : list Z) : TUNAdapter := mkTUNAdapter (take 16 myIp6) false.

(** [tunIf] is the interface the message came from, so it is connected.  Behind the
    shift the IPv6 header is at [msg->bytes + 32]. *)
Definition incomingFromTunIf (msg : Message) (ud : TUNAdapter) : Er (list TAOut) :=
  '(msg, ethertype) ← TUNMessageType_pop msg;
  let version := Headers_getIpVersion (msg_read msg 0 1) in
  if ((ethertype =? Ethernet_TYPE_IP4) && negb (version =? 4))
     || ((ethertype =? Ethernet_TYPE_IP6) && negb (version =? 6)) then Ret []
  else if ethertype =? Ethernet_TYPE_IP4 then Ret [TAToIpTunnel msg]
  else if negb (ethertype =? Ethernet_TYPE_IP6) then Ret []
  else if msg_length msg <? Headers_IP6Header_SIZE then Ret []
  else
    let sourceAddr := msg_read msg 8 16 in
    let destinationAddr := msg_read msg 24 16 in
    if negb (AddressCalc_validAddress destinationAddr) then Ret [TAToIpTunnel msg]
    else if negb (memcmp sourceAddr (ta_myIp6 ud) =? 0) then Ret []
    else if memcmp destinationAddr (ta_myIp6 ud) =? 0 then
      msg ← TUNMessageType_push msg ethertype;
      Ret [TAToTun msg]
    else
      let msg := msg_write msg (24 - DataHeader_SIZE) destinationAddr in
      msg ← Message_eshift msg (DataHeader_SIZE + RouteHeader_SIZE - Headers_IP6Header_SIZE);
      let msg := msg_write msg RouteHeader_SIZE (zeros DataHeader_SIZE) in
      let nextHeader := get (msg_read msg (DataHeader_SIZE + RouteHeader_SIZE - Headers_IP6Header_SIZE + 6) 1) 0 in
      dh ← DataHeader_setContentType (DataHeader_of (msg_read msg RouteHeader_SIZE DataHeader_SIZE)) nextHeader;
      let dh := DataHeader_setVersion dh DataHeader_CURRENT_VERSION in
      let msg := msg_write msg RouteHeader_SIZE (DataHeader_bytes dh) in
      Ret [TAToUpper (msg_write msg 0 (zeros (RouteHeader_SIZE - 16)))].

Definition sendToTunIf (msg : Message) (ud : TUNAdapter) : list TAOut :=
  if negb (tunIf_connected ud) then [] else [TAToTun msg].

Definition incomingFromIpTunnelIf (msg : Message) (ud : TUNAdapter) : list TAOut := sendToTunIf msg ud.

(** [hdr->ip6] is at 52; the IPv6 header begins at 32. *)
Definition incomingFromUpperDistributorIf (msg : Message) (ud : TUNAdapter) : Er (list TAOut) :=
  Assert_true (msg_length msg >=? RouteHeader_SIZE + DataHeader_SIZE);;
  let type := DataHeader_getContentType (DataHeader_of (msg_read msg RouteHeader_SIZE DataHeader_SIZE)) in
  Assert_true (type <=? ContentType_IP6_MAX);;
  let msg := msg_write msg (52 + DataHeader_SIZE - 16) (msg_read msg 52 16) in
  let msg := msg_write msg (52 + DataHeader_SIZE) (ta_myIp6 ud) in
  msg ← Message_eshift msg (Headers_IP6Header_SIZE - DataHeader_SIZE - RouteHeader_SIZE);
  let msg := msg_write msg 0 (zeros (Headers_IP6Header_SIZE - 32)) in
  let msg := msg_write msg 0 (Headers_setIpVersion Headers_IP6Header_SIZE (msg_read msg 0 1)) in
  let msg := msg_write msg 4 (le_bytes 2 (Endian_bigEndianToHost16 (u16 (msg_length msg - Headers_IP6Header_SIZE)))) in
  let msg := msg_write msg 6 [u8 type] in
  let msg := msg_write msg 7 [42] in
  msg ← TUNMessageType_push msg Ethernet_TYPE_IP6;
  Ret (sendToTunIf msg ud).

(** ** Specification: the packets *)

(** What the device puts in front of a packet. *)
Definition tun_type (ethertype : Z) : list Z := [0; 0] ++ le_bytes 2 ethertype.

(** An IPv6 packet: the four bytes of version, class and flow label, the length,
    the next header, the hop limit, the addresses. *)
Definition ip6_packet (vcf plen : list Z) (nh hops : Z) (src dst payload : list Z) : list Z :=
  vcf ++ plen ++ [nh; hops] ++ src ++ dst ++ payload.

(** What the upper distributor gets and gives: a route header which ends with the
    address of the other node, a data header, the payload. *)
Definition routed (rh : list Z) (nh : Z) (payload : list Z) : list Z := rh ++ [16; 0; 0; nh] ++ payload.

(** The route header of an outgoing packet: only the destination is filled in. *)
Definition dest_header (dst : list Z) : list Z := zeros 52 ++ dst.

(** The packet as the receiving node's device gets it. *)
Definition rebuilt (nh : Z) (src dst payload : list Z) : list Z :=
  ip6_packet [96; 0; 0; 0] (be_bytes 2 (len payload)) nh 42 src dst payload.

(** ** Lemmas *)

Lemma tun_type_fits t : fits 16 t -> le_val (le_bytes 2 t) = t.
Proof. intros Ht. rewrite le_val_bytes. by apply fits_small. Qed.

Lemma TUN_pop_at m a pre t c post : msg_at m a pre (tun_type t ++ c) post -> fits 16 t ->
  exists m', TUNMessageType_pop m = Ret (m', t) /\ msg_at m' (a + 4) (pre ++ tun_type t) c post.
Proof.
  intros Hm Ht. unfold TUNMessageType_pop.
  destruct (at_shift_pop m a pre (tun_type t) c post (-4) Hm) as (m' & -> & Hm');
    [unfold tun_type; by rewrite length_app, length_le_bytes|].
  cbn [mbind Er_bind]. exists m'. split.
  - do 2 f_equal. unfold tun_type in Hm'. rewrite app_assoc in Hm'. destruct Hm' as [Hv _].
    rewrite (msg_read_front m' (pre ++ [0; 0]) (le_bytes 2 t) [] c post (-2) 2 Hv);
      [by rewrite app_nil_r, tun_type_fits|by rewrite length_le_bytes..].
  - unfold tun_type in *. rewrite length_app, length_le_bytes in Hm'. exact Hm'.
Qed.

Lemma TUN_push_at m a pre room c post t : msg_at m a (pre ++ room) c post -> length room = 4%nat ->
  exists m', TUNMessageType_push m t = Ret m' /\ msg_at m' (a - 4) pre (tun_type t ++ c) post.
Proof.
  intros Hm Hr. unfold TUNMessageType_push.
  destruct (at_shift_push m a pre room c post 4 Hm) as (m1 & -> & Hm1); [by rewrite Hr|].
  cbn [mbind Er_bind]. eexists. split; [done|]. rewrite Hr in Hm1.
  destruct room as [|b0 [|b1 [|b2 [|b3 [|? ?]]]]]; try done.
  apply (at_write _ _ _ [0; 0] [b2; b3] c post 2 (le_bytes 2 t)); [|by rewrite length_le_bytes|done].
  by apply (at_write _ _ _ [] [b0; b1] ([b2; b3] ++ c) post 0 (le_bytes 2 0)).
Qed.

Lemma data_header_set nh : byte nh ->
  exists dh, DataHeader_setContentType (DataHeader_of (zeros DataHeader_SIZE)) nh = Ret dh /\
    DataHeader_bytes (DataHeader_setVersion dh DataHeader_CURRENT_VERSION) = [16; 0; 0; nh].
Proof.
  intros Hn. unfold DataHeader_setContentType.
  rewrite (proj2 (Z.leb_le nh 0xffff)) by (unfold fits in Hn; lia). cbn [Assert_true mbind Er_bind].
  eexists. split; [done|]. unfold DataHeader_bytes. cbn [DataHeader_setVersion versionAndFlags unused contentType_be].
  change (u8 _) with 16. rewrite be16_bytes by (by apply (fits_mono 8)). change (be_bytes 2 nh) with ([nh / 256 mod 256; nh mod 256]).
  unfold fits in Hn. change (2 ^ 8) with 256 in Hn.
  rewrite Z.div_small, Z.mod_small by lia. cbn. by rewrite Z.mod_small by lia.
Qed.

Lemma data_header_get nh : byte nh -> DataHeader_getContentType (DataHeader_of [16; 0; 0; nh]) = nh.
Proof.
  intros Hn. unfold DataHeader_getContentType, DataHeader_of. cbn [contentType_be].
  change (rd 2 2 [16; 0; 0; nh]) with [0; nh].
  rewrite host16; [|done|by repeat (apply Forall_cons; split; [done|]); apply Forall_nil].
  unfold be_val. cbn. lia.
Qed.

Lemma ip6_parts vcf plen nh hops src dst payload :
  length vcf = 4%nat -> length plen = 2%nat -> length src = 16%nat -> length dst = 16%nat ->
  len (ip6_packet vcf plen nh hops src dst payload) = 40 + len payload.
Proof. intros H1 H2 H3 H4. unfold ip6_packet. known_lengths. cbn [length]. lia. Qed.

(** A packet of this node's own address to another node leaves for the network. *)
Lemma tun_outgoing m a pre vcf plen nh hops src dst payload post ud :
  msg_at m a pre (tun_type Ethernet_TYPE_IP6 ++ ip6_packet vcf plen nh hops src dst payload) post ->
  28 <= len pre -> length vcf = 4%nat -> Headers_getIpVersion vcf = 6 -> length plen = 2%nat -> byte nh ->
  length src = 16%nat -> length dst = 16%nat -> ta_myIp6 ud = src ->
  AddressCalc_validAddress dst = true -> dst <> src ->
  exists m' pre', incomingFromTunIf m ud = Ret [TAToUpper m'] /\
    msg_at m' (a - 28) pre' (routed (dest_header dst) nh payload) post /\ len pre' = len pre - 28.
Proof.
  intros Hm Hpre Hvcf Hv Hpl Hnh Hsrc Hdst Hmy Hvalid Hne. unfold incomingFromTunIf.
  destruct (TUN_pop_at m a pre _ _ post Hm) as (m1 & -> & Hm1); [done|]. cbn [mbind Er_bind].
  destruct vcf as [|v0 [|v1 [|v2 [|v3 [|? ?]]]]]; try done.
  change (ip6_packet [v0; v1; v2; v3] plen nh hops src dst payload)
    with ([v0] ++ [v1; v2; v3] ++ plen ++ [nh; hops] ++ src ++ dst ++ payload) in Hm1.
  rewrite (at_read m1 _ _ [] [v0] _ _ 0 1 Hm1) by done.
  change (Headers_getIpVersion [v0]) with (Headers_getIpVersion [v0; v1; v2; v3]). rewrite Hv.
  change (Ethernet_TYPE_IP6 =? Ethernet_TYPE_IP4) with false. change (6 =? 6) with true. cbn [negb andb orb].
  rewrite Z.eqb_refl. cbn [negb andb].
  destruct (at_content _ _ _ _ _ Hm1) as [_ ->].
  rewrite (proj2 (Z.ltb_ge _ _)) by (unfold Headers_IP6Header_SIZE; known_lengths; cbn [length]; lia).
  rewrite (at_read_of m1 _ _ _ _ ([v0; v1; v2; v3] ++ plen ++ [nh; hops]) src (dst ++ payload) 8 16 Hm1) by hpart.
  rewrite (at_read_of m1 _ _ _ _ ([v0; v1; v2; v3] ++ plen ++ [nh; hops] ++ src) dst payload 24 16 Hm1) by hpart.
  rewrite Hvalid, Hmy, memcmp_refl. cbn [negb Z.eqb].
  rewrite memcmp_zero_iff by congruence. rewrite bool_decide_false by done.
  destruct (list_split_at 12 src) as (s1 & s2 & Es & Hs1); [lia|]. destruct (list_split_at 12 dst) as (d1 & d2 & Ed & Hd1); [lia|].
  pose proof (f_equal length Es) as Hs2. pose proof (f_equal length Ed) as Hd2. rewrite length_app in Hs2, Hd2.
  set (front := [v0; v1; v2; v3] ++ plen ++ [nh; hops] ++ s1).
  assert (length front = 20%nat) as Hfront by (unfold front; known_lengths; cbn [length]; lia).
  assert (msg_at (msg_write m1 (24 - DataHeader_SIZE) dst) (a + 4) (pre ++ tun_type Ethernet_TYPE_IP6)
    (front ++ dst ++ d2 ++ payload) post) as Hm2.
  { apply (at_write_of _ _ _ _ _ front (s2 ++ d1) (d2 ++ payload) _ _ Hm1); [|hpart..].
    unfold front. rewrite Es, Ed at 1. cut. }
  destruct (split_room (pre ++ tun_type Ethernet_TYPE_IP6) 32) as (pre' & room & Epre & Hroom & Hpre');
    [unfold tun_type; known_lengths; cbn [length]; lia|].
  rewrite Epre in Hm2. destruct (at_shift_push _ _ _ _ _ _ (DataHeader_SIZE + RouteHeader_SIZE - Headers_IP6Header_SIZE) Hm2)
    as (m3 & -> & Hm3); [by rewrite Hroom|]. cbn [mbind Er_bind].
  assert (msg_at (msg_write m3 RouteHeader_SIZE (zeros DataHeader_SIZE)) (a + 4 - len room) pre'
    ((room ++ front ++ dst) ++ zeros 4 ++ payload) post) as Hm4.
  { apply (at_write_of _ _ _ _ _ _ d2 payload _ _ Hm3); [hpart|hpart|].
    hpart. }
  revert Hm4. generalize (msg_write m3 RouteHeader_SIZE (zeros DataHeader_SIZE)). intros m4 Hm4.
  rewrite (at_read m4 _ _ _ (zeros 4) payload _ RouteHeader_SIZE DataHeader_SIZE Hm4)
    by hpart.
  rewrite (at_read_of m4 _ _ _ _ (room ++ [v0; v1; v2; v3] ++ plen) [nh] ([hops] ++ s1 ++ dst ++ zeros 4 ++ payload) _ 1 Hm4)
    by (unfold front; hpart).
  change (get [nh] 0) with nh. destruct (data_header_set nh Hnh) as (dh & Edh & Hdh).
  change (zeros DataHeader_SIZE) with (zeros 4) in Edh. rewrite Edh. cbn [mbind Er_bind].
  rewrite Hdh. eexists _, pre'. split; [done|]. split; [|revert Hpre'; unfold tun_type; known_lengths; lia].
  replace (a - 28) with (a + 4 - len room) by lia. unfold routed, dest_header. rewrite <- app_assoc.
  assert (msg_at (msg_write m4 RouteHeader_SIZE [16; 0; 0; nh]) (a + 4 - len room) pre'
    ((room ++ front ++ dst) ++ [16; 0; 0; nh] ++ payload) post) as Hm5.
  { apply (at_write _ _ _ _ _ _ _ _ _ Hm4); [done|]. hpart. }
  apply (at_write_of _ _ _ _ _ [] (room ++ front) (dst ++ [16; 0; 0; nh] ++ payload) _ _ Hm5); hpart.
Qed.

(** What arrives for the device gets its IPv6 header back. *)
Lemma tun_incoming m a pre key_etc src nh payload post ud :
  msg_at m a pre (routed (key_etc ++ src) nh payload) post ->
  length key_etc = 52%nat -> length src = 16%nat -> byte nh -> len payload < 65536 ->
  length (ta_myIp6 ud) = 16%nat -> tunIf_connected ud = true ->
  exists m' pre', incomingFromUpperDistributorIf m ud = Ret [TAToTun m'] /\
    msg_at m' (a + 28) pre' (tun_type Ethernet_TYPE_IP6 ++ rebuilt nh src (ta_myIp6 ud) payload) post /\
    len pre' = len pre + 28.
Proof.
  intros Hm Hkey Hsrc Hnh Hpl Hmy Hconn. unfold incomingFromUpperDistributorIf, routed in *.
  destruct (at_content _ _ _ _ _ Hm) as [_ ->].
  rewrite (proj2 (Z.geb_le _ _)) by hpart.
  cbn [Assert_true mbind Er_bind].
  rewrite (at_read_of m _ _ _ _ (key_etc ++ src) [16; 0; 0; nh] payload _ _ Hm)
    by hpart.
  rewrite data_header_get by done. rewrite (proj2 (Z.leb_le nh _)) by (unfold fits, ContentType_IP6_MAX in *; lia).
  cbn [Assert_true mbind Er_bind].
  rewrite (at_read_of m _ _ _ _ key_etc src ([16; 0; 0; nh] ++ payload) 52 16 Hm) by hpart.
  destruct (list_split_at 32 key_etc) as (k1 & k23 & Ek & Hk1); [lia|].
  destruct (list_split_at 8 k23) as (k2 & k3 & Ek' & Hk2); [apply (f_equal length) in Ek; revert Ek; known_lengths; lia|].
  destruct (list_split_at 4 src) as (s1 & s2 & Es & Hs1); [lia|]. subst k23.
  pose proof (f_equal length Es) as Hs2. pose proof (f_equal length Ek) as Hk3. rewrite !length_app in Hs2. rewrite !length_app in Hk3.
  assert (msg_at (msg_write m (52 + DataHeader_SIZE - 16) src) a pre
    ((k1 ++ k2) ++ src ++ s2 ++ [16; 0; 0; nh] ++ payload) post) as Hm1.
  { apply (at_write_of _ _ _ _ _ _ (k3 ++ s1) (s2 ++ [16; 0; 0; nh] ++ payload) _ _ Hm); [|hpart..].
    rewrite Ek, Es at 1. cut. }
  assert (msg_at (msg_write (msg_write m (52 + DataHeader_SIZE - 16) src) (52 + DataHeader_SIZE) (ta_myIp6 ud)) a pre
    (k1 ++ k2 ++ src ++ ta_myIp6 ud ++ payload) post) as Hm2.
  { replace (k1 ++ k2 ++ src ++ ta_myIp6 ud ++ payload) with ((k1 ++ k2 ++ src) ++ ta_myIp6 ud ++ payload) by cut.
    apply (at_write_of _ _ _ _ _ _ (s2 ++ [16; 0; 0; nh]) payload _ _ Hm1); hpart. }
  destruct (at_shift_pop _ _ _ _ _ _ (Headers_IP6Header_SIZE - DataHeader_SIZE - RouteHeader_SIZE) Hm2)
    as (m3 & -> & Hm3); [hpart|]. cbn [mbind Er_bind].
  destruct k2 as [|b0 [|b1 [|b2 [|b3 [|b4 [|b5 [|b6 [|b7 [|? ?]]]]]]]]]; try (cbn in Hk2; lia).
  set (tail := src ++ ta_myIp6 ud ++ payload) in *.
  assert (msg_at (msg_write m3 0 (zeros (Headers_IP6Header_SIZE - 32))) (a + 32) (pre ++ k1) (zeros 8 ++ tail) post) as Hm4.
  { replace (a + 32) with (a + len k1) by lia. by apply (at_write_of _ _ _ _ _ [] [b0; b1; b2; b3; b4; b5; b6; b7] tail _ _ Hm3). }
  revert Hm4. generalize (msg_write m3 0 (zeros (Headers_IP6Header_SIZE - 32))). clear m3 Hm3. intros m4 Hm4.
  rewrite (at_read_of m4 _ _ _ _ [] [0] (zeros 7 ++ tail) 0 1 Hm4) by done.
  change (Headers_setIpVersion Headers_IP6Header_SIZE [0]) with [96].
  pose proof (at_write_of _ _ _ _ _ [] [0] (zeros 7 ++ tail) 0 [96] Hm4 eq_refl eq_refl eq_refl) as Hm5.
  destruct (at_content _ _ _ _ _ Hm5) as [_ Hlen].
  revert Hm5 Hlen. generalize (msg_write m4 0 [96]). clear m4 Hm4. intros m5 Hm5 Hlen.
  assert (msg_length m5 - Headers_IP6Header_SIZE = len payload) as Hplen.
  { rewrite Hlen. unfold tail. header_sizes. known_lengths. lia. }
  rewrite Hplen. change (Endian_bigEndianToHost16 (u16 (len payload))) with (Endian_hostToBigEndian16 (u16 (len payload))).
  rewrite be16_bytes by (apply fits_mod; lia). unfold u16. rewrite (fits_small 16) by (unfold fits; lia).
  pose proof (at_write_of _ _ _ _ _ ([96] ++ zeros 3) (zeros 2) (zeros 2 ++ tail) 4 (be_bytes 2 (len payload)) Hm5
    eq_refl eq_refl eq_refl) as Hm6.
  pose proof (at_write_of _ _ _ _ _ ([96; 0; 0; 0] ++ be_bytes 2 (len payload)) [0] ([0] ++ tail) 6 [u8 nh] Hm6
    eq_refl eq_refl eq_refl) as Hm7.
  pose proof (at_write_of _ _ _ _ _ ([96; 0; 0; 0] ++ be_bytes 2 (len payload) ++ [u8 nh]) [0] tail 7 [42] Hm7
    eq_refl eq_refl eq_refl) as Hm8.
  destruct (split_room (pre ++ k1) 4) as (pre' & room & Epre & Hroom & Hpre'); [known_lengths; lia|].
  rewrite Epre in Hm8. destruct (TUN_push_at _ _ _ _ _ _ Ethernet_TYPE_IP6 Hm8) as (m9 & -> & Hm9); [lia|].
  cbn [mbind Er_bind]. unfold sendToTunIf. rewrite Hconn. exists m9, pre'. split; [done|].
  split; [|rewrite length_app in Hpre'; lia].
  replace (a + 28) with (a + 32 - 4) by lia. unfold u8 in Hm9. rewrite (fits_small 8) in Hm9 by done.
  unfold rebuilt, ip6_packet. exact Hm9.
Qed.
