(* ===== verification/UpperDistributor.v ===== *)
(** * net/UpperDistributor.c: who gets a packet above the session manager

    Packets from the session manager go to the control handler, the TUN adapter,
    the pathfinder or the IP tunnel by their kind; a program on the host may
    register a UDP port for a kind and gets a copy of every packet, and may send
    packets itself.  The copies travel as UDP packets between the port 1 of
    [fc00::1] and the port on this node's address.

    [malloc] is the allocator, [sp] the address of the array with the two IPv6
    addresses on the stack (the checksum asserts its parity). *)
From stdpp Require Import gmap.
From S2P Require Import Prelude Bits Message Checksum MsgAt Headers RouteHeader PFChan Nacl Key.
From S2P Require Import Address HandleMap.

(** ** Definitions *)

Record UpperDistributor_Handler := mkHandler {
  h_type : Z;
  h_udpPort : Z;
}.

Record UpperDistributor := mkUpperDistributor {
  ud_myIp6 : list Z;
  ud_handlers : Map Z UpperDistributor_Handler;
  noSendToHandler : Z;
}.

Inductive UDOut :=
| UDToTunAdapter (msg : Message)
| UDToIpTunnel (msg : Message)
| UDToSessionManager (msg : Message)
| UDToControlHandler (msg : Message)
| UDToEvent (msg : Message).

Definition set_handlers (ud : UpperDistributor) (hs : Map Z UpperDistributor_Handler) : UpperDistributor :=
  mkUpperDistributor (ud_myIp6 ud) hs (noSendToHandler ud).
Definition set_noSend (ud : UpperDistributor) (n : Z) : UpperDistributor :=
  mkUpperDistributor (ud_myIp6 ud) (ud_handlers ud) n.

Definition MAGIC_PORT : Z := 1.
Definition ContentType_CTRL : Z := 0xffff + 1.

(** [{0,0,...,1}] after [AddressCalc_makeValidAddress]. *)
Definition magic_ip6 : list Z := AddressCalc_makeValidAddress (zeros 15 ++ [1]).

Definition UpperDistributor_new (myAddress : Address) : UpperDistributor :=
  mkUpperDistributor (ip6 myAddress) Map_new 0.

Section Upper.
Context (malloc : Z -> Z * list Z) (sp : Z).

(** The body of the loop for a handler with the right type: the copy with its
    three headers. *)
Definition handler_copy (msg : Message) (ud : UpperDistributor) (h : UpperDistributor_Handler) : Er Message :=
  let '(addr, mem) := malloc (msg_capacity msg + msg_padding msg + 8) in
  cmsg ← Message_clone msg addr mem;
  let udpH := le_bytes 2 (Endian_hostToBigEndian16 MAGIC_PORT)
              ++ le_bytes 2 (Endian_hostToBigEndian16 (u16 (h_udpPort h)))
              ++ le_bytes 2 (Endian_hostToBigEndian16 (u16 (msg_length cmsg + Headers_UDPHeader_SIZE)))
              ++ le_bytes 2 0 in
  cmsg ← Message_epush cmsg (Some udpH) Headers_UDPHeader_SIZE;
  let srcAndDest := magic_ip6 ++ ud_myIp6 ud in
  checksum_be ← Checksum_udpIp6_be sp srcAndDest (msg_addr cmsg + msg_bytes cmsg) (msg_content cmsg) (msg_length cmsg);
  let cmsg := msg_write cmsg 6 (le_bytes 2 checksum_be) in
  let dh := DataHeader_setVersion (mkDataHeader 0 0 0) DataHeader_CURRENT_VERSION in
  dh ← DataHeader_setContentType dh ContentType_IP6_UDP;
  cmsg ← Message_epush cmsg (Some (DataHeader_bytes dh)) DataHeader_SIZE;
  let rh := mkRouteHeader (zeros 32) (zeros 12) (Endian_hostToBigEndian32 Version_CURRENT_PROTOCOL) 0 0 0 magic_ip6 in
  Message_epush cmsg (Some (RouteHeader_bytes rh)) RouteHeader_SIZE.

Fixpoint sendToHandlers_loop (msg : Message) (type : Z) (ud : UpperDistributor)
    (hs : list (Entry Z UpperDistributor_Handler)) : Er (list UDOut) :=
  match hs with
  | [] => Ret []
  | e :: hs =>
      if negb (h_type (e_value e) =? type) then sendToHandlers_loop msg type ud hs
      else
        cmsg ← handler_copy msg ud (e_value e);
        outs ← sendToHandlers_loop msg type ud hs;
        Ret (UDToTunAdapter cmsg :: outs)
  end.

Definition sendToHandlers (msg : Message) (type : Z) (ud : UpperDistributor) : Er (UpperDistributor * list UDOut) :=
  if negb (noSendToHandler ud =? 0) then Ret (set_noSend ud (noSendToHandler ud - 1), [])
  else
    outs ← sendToHandlers_loop msg type ud (map_entries (ud_handlers ud));
    Ret (ud, outs).

Definition msg_contentType (msg : Message) : Z :=
  DataHeader_getContentType (DataHeader_of (msg_read msg RouteHeader_SIZE DataHeader_SIZE)).
Definition msg_flags (msg : Message) : Z := get (msg_read msg 48 1) 0.

Definition toSessionManagerIf (msg : Message) (ud : UpperDistributor) : Er (UpperDistributor * list UDOut) :=
  Assert_true (msg_length msg >=? RouteHeader_SIZE + DataHeader_SIZE);;
  '(ud, outs) ← sendToHandlers msg (msg_contentType msg) ud;
  Ret (ud, outs ++ [UDToSessionManager msg]).

Definition incomingFromSessionManagerIf (msg : Message) (ud : UpperDistributor) :
    Er (UpperDistributor * list UDOut) :=
  Assert_true (msg_length msg >=? RouteHeader_SIZE);;
  if negb (Z.land (msg_flags msg) RouteHeader_flags_CTRLMSG =? 0) then
    '(ud, outs) ← sendToHandlers msg ContentType_CTRL ud;
    Ret (ud, outs ++ [UDToControlHandler msg])
  else
    Assert_true (msg_length msg >=? RouteHeader_SIZE + DataHeader_SIZE);;
    let type := msg_contentType msg in
    '(ud, outs) ← sendToHandlers msg type ud;
    if type <=? ContentType_IP6_MAX then Ret (ud, outs ++ [UDToTunAdapter msg])
    else if type =? ContentType_HYPERBORIADHT then
      msg ← Message_epush32be msg 0xffffffff;
      msg ← Message_epush32be msg PFChan_Core_MSG;
      Ret (ud, outs ++ [UDToEvent msg])
    else if type =? ContentType_IPTUN then Ret (ud, outs ++ [UDToIpTunnel msg])
    else Ret (ud, outs).

(** A packet from a registered program. *)
Definition fromHandler (msg : Message) (ud : UpperDistributor) : Er (UpperDistributor * list UDOut) :=
  '(msg, _) ← Message_epop msg RouteHeader_SIZE;
  '(msg, dh) ← Message_epop msg DataHeader_SIZE;
  let type := DataHeader_getContentType (DataHeader_of dh) in
  if negb (type =? ContentType_IP6_UDP) then Ret (ud, [])
  else if msg_length msg <? Headers_UDPHeader_SIZE + RouteHeader_SIZE + DataHeader_SIZE then Ret (ud, [])
  else
    let srcAndDest := ud_myIp6 ud ++ magic_ip6 in
    checksum ← Checksum_udpIp6_be sp srcAndDest (msg_addr msg + msg_bytes msg) (msg_content msg) (msg_length msg);
    if negb (checksum =? 0) then Ret (ud, [])
    else if negb (le_val (msg_read msg 2 2) =? Endian_bigEndianToHost16 MAGIC_PORT) then Ret (ud, [])
    else
      let udpPort := Endian_bigEndianToHost16 (le_val (msg_read msg 0 2)) in
      let index := Map_indexForKey udpPort (ud_handlers ud) in
      if index <? 0 then Ret (ud, [])
      else
        '(msg, _) ← Message_epop msg Headers_UDPHeader_SIZE;
        Assert_true (msg_length msg >=? RouteHeader_SIZE);;
        if memcmp (msg_read msg 52 16) (ud_myIp6 ud) =? 0
        then incomingFromSessionManagerIf msg (set_noSend ud 1)
        else Ret (ud, [UDToSessionManager msg]).

Definition incomingFromEventIf (msg : Message) (ud : UpperDistributor) : Er (UpperDistributor * list UDOut) :=
  '(msg, messageType) ← Message_epop32be msg;
  Assert_true ((messageType =? PFChan_Pathfinder_SENDMSG) || (messageType =? PFChan_Pathfinder_CTRL_SENDMSG));;
  '(msg, _) ← Message_epop32be msg;
  toSessionManagerIf msg ud.

Definition incomingFromTunAdapterIf (msg : Message) (ud : UpperDistributor) : Er (UpperDistributor * list UDOut) :=
  Assert_true (msg_length msg >=? RouteHeader_SIZE);;
  if memcmp (msg_read msg 52 16) magic_ip6 =? 0 then fromHandler msg ud
  else toSessionManagerIf msg ud.

Definition incomingFromIpTunnelIf (msg : Message) (ud : UpperDistributor) : Er (UpperDistributor * list UDOut) :=
  toSessionManagerIf msg ud.

Definition incomingFromControlHandlerIf (msg : Message) (ud : UpperDistributor) :
    Er (UpperDistributor * list UDOut) :=
  Assert_true (msg_length msg >=? RouteHeader_SIZE);;
  Assert_true (negb (Z.land (msg_flags msg) RouteHeader_flags_CTRLMSG =? 0));;
  Assert_true (Z.land (msg_flags msg) RouteHeader_flags_INCOMING =? 0);;
  '(ud, outs) ← sendToHandlers msg ContentType_CTRL ud;
  Ret (ud, outs ++ [UDToSessionManager msg]).
End Upper.

Definition UpperDistributor_unregisterHandler_NONEXISTANT : Z := -1.
Definition UpperDistributor_registerHandler_PORT_REGISTERED : Z := -1.

Definition UpperDistributor_unregisterHandler (ud : UpperDistributor) (udpPort : Z) : Z * UpperDistributor :=
  let index := Map_indexForKey udpPort (ud_handlers ud) in
  if index <? 0 then (UpperDistributor_unregisterHandler_NONEXISTANT, ud)
  else (0, set_handlers ud (Map_remove_keys index (ud_handlers ud)).2).

Definition UpperDistributor_listHandlers (ud : UpperDistributor) : Z * list UpperDistributor_Handler :=
  (map_count (ud_handlers ud), e_value <$> map_entries (ud_handlers ud)).

Definition UpperDistributor_registerHandler (ud : UpperDistributor) (ct udpPort : Z) : Er (Z * UpperDistributor) :=
  let index := Map_indexForKey udpPort (ud_handlers ud) in
  if index >=? 0 then Ret (UpperDistributor_registerHandler_PORT_REGISTERED, ud)
  else
    let '(r, hs) := Map_put false udpPort (mkHandler ct udpPort) (ud_handlers ud) in
    Assert_true (r >=? 0);;
    Ret (0, set_handlers ud hs).

(** ** Specification: the packets between a program and the distributor *)

(** A UDP packet; the checksum is a 16-bit field in memory order. *)
Definition udp (src dst ck : Z) (data : list Z) : list Z :=
  be_bytes 2 src ++ be_bytes 2 dst ++ be_bytes 2 (len data + 8) ++ le_bytes 2 ck ++ data.

(** Its checksum is right between the two addresses. *)
Definition udp_ok (addrs : list Z) (packet : list Z) : Prop :=
  forall a b, a mod 2 = 0 -> b mod 2 = 0 -> Checksum_udpIp6_be a addrs b packet (len packet) = Ret 0.

(** The route header of a copy: from [fc00::1], with this protocol version. *)
Definition copy_header : list Z :=
  zeros 44 ++ be_bytes 4 Version_CURRENT_PROTOCOL ++ zeros 4 ++ magic_ip6.

(** [m'] is the copy of the content [c] for the program at the port. *)
Definition copy_for (my : list Z) (port : Z) (c : list Z) (pre post : list Z) (m' : Message) : Prop :=
  exists a' pre' ck, udp_ok (magic_ip6 ++ my) (udp 1 port ck c) /\ len pre' = len pre - 80 /\
    msg_at m' a' pre' (copy_header ++ [16; 0; 0; 17] ++ udp 1 port ck c) post.

(** ** Lemmas *)

Lemma magic_ip6_length : length magic_ip6 = 16%nat.
Proof. reflexivity. Qed.
Lemma magic_ip6_bytes : bytes magic_ip6.
Proof. change magic_ip6 with (0xfc :: zeros 14 ++ [1]). apply Forall_cons. split; [done|]. apply bytes_app. split; [apply zeros_bytes|solve_bytes]. Qed.
#[local] Hint Resolve magic_ip6_length magic_ip6_bytes be_bytes_bytes zeros_bytes : core.

Lemma length_udp s d ck data : len (udp s d ck data) = 8 + len data.
Proof. unfold udp. known_lengths. lia. Qed.

(** The checksum written into the zeroed field of a packet is right. *)
Lemma udp_checksum_ok a b addrs s d data : a mod 2 = 0 -> b mod 2 = 0 -> bytes addrs -> len addrs = 32 ->
  bytes data -> len data <= 65000 ->
  exists ck, Checksum_udpIp6_be a addrs b (udp s d 0 data) (len (udp s d 0 data)) = Ret ck /\
    udp_ok addrs (udp s d ck data).
Proof.
  intros Ha Hb Haddrs Hl Hdata Hlen.
  set (front := be_bytes 2 s ++ be_bytes 2 d ++ be_bytes 2 (len data + 8)).
  assert (forall ck, udp s d ck data = with_field front data ck) as Hf.
  { intros ck. unfold udp, with_field, front. cut. }
  destruct (checksum_ip6_verifies a addrs b front data (Endian_hostToBigEndian32 17)) as (ck & E1 & E2); try done.
  - unfold front. rewrite !bytes_app. auto.
  - unfold with_field, front. known_lengths. lia.
  - exists ck. rewrite !Hf. split; [done|]. intros a' b' Ha' Hb'. rewrite <- E2.
    unfold Checksum_udpIp6_be, Checksum_Ip6_be, Checksum_step. by rewrite Ha, Hb, Ha', Hb'.
Qed.

Lemma port_bytes p : fits 16 p -> le_bytes 2 (Endian_hostToBigEndian16 (u16 p)) = be_bytes 2 p.
Proof. intros Hp. unfold u16. rewrite fits_small by done. by apply be16_bytes. Qed.

Lemma handler_copy_spec malloc sp m a pre c post ud h : malloc_ok malloc ->
  msg_at m a pre c post -> 80 <= len pre -> a mod 2 = 0 -> sp mod 2 = 0 -> bytes c -> len c <= 65000 ->
  length (ud_myIp6 ud) = 16%nat -> bytes (ud_myIp6 ud) -> fits 16 (h_udpPort h) ->
  exists m', handler_copy malloc sp m ud h = Ret m' /\ copy_for (ud_myIp6 ud) (h_udpPort h) c pre post m'.
Proof.
  intros Hmal Hm Hpre Ha Hsp Hc Hlen Hmy Hmyb Hport. unfold handler_copy.
  destruct (malloc _) as [addr mem] eqn:Emem.
  assert (len mem = len pre + len c + len post + 8) as Hmem.
  { pose proof (Hmal (msg_capacity m + msg_padding m + 8)) as H. rewrite Emem in H. cbn [snd] in H. rewrite H.
    destruct Hm as [(s & t & _ & _ & Hp & _ & Hcap & _) _]. rewrite Hp, Hcap. lia. }
  destruct (at_clone m a pre c post addr mem Hm Hmem) as (m1 & a1 & -> & Hm1 & Hal). cbn [mbind Er_bind].
  destruct (at_content _ _ _ _ _ Hm1) as [_ ->].
  assert (a1 mod 2 = 0) as Ha1 by (Z.to_euclidean_division_equations; lia).
  destruct (split_room pre 8) as (pre1 & r1 & -> & Hr1 & Hp1); [lia|].
  destruct (split_room pre1 4) as (pre2 & r2 & -> & Hr2 & Hp2); [lia|].
  destruct (split_room pre2 68) as (pre3 & r3 & -> & Hr3 & Hp3); [lia|].
  rewrite (port_bytes (h_udpPort h)) by done.
  rewrite (port_bytes (len c + Headers_UDPHeader_SIZE)) by (unfold fits, Headers_UDPHeader_SIZE; lia).
  change (le_bytes 2 (Endian_hostToBigEndian16 MAGIC_PORT)) with (be_bytes 2 1).
  set (udpH := be_bytes 2 1 ++ be_bytes 2 (h_udpPort h) ++ be_bytes 2 (len c + Headers_UDPHeader_SIZE) ++ le_bytes 2 0).
  destruct (at_epush m1 a1 _ _ _ _ udpH Hm1) as (m2 & E2 & Hm2); [unfold udpH; hpart|].
  change (len udpH) with Headers_UDPHeader_SIZE in E2, Hm2. rewrite E2. cbn [mbind Er_bind]. clear E2.
  assert (udpH ++ c = udp 1 (h_udpPort h) 0 c) as Hudp by (unfold udpH, udp; cut).
  rewrite Hudp in Hm2. destruct (at_content _ _ _ _ _ Hm2) as [Hc2 Hl2]. rewrite Hc2, Hl2. pose proof Hm2 as [_ ->].
  destruct (udp_checksum_ok sp (a1 - Headers_UDPHeader_SIZE) (magic_ip6 ++ ud_myIp6 ud) 1 (h_udpPort h) c)
    as (ck & -> & Hck); [done| |by apply bytes_app|by rewrite length_app, magic_ip6_length, Hmy|done|done|].
  { unfold Headers_UDPHeader_SIZE. Z.to_euclidean_division_equations; lia. }
  cbn [mbind Er_bind].
  assert (msg_at (msg_write m2 6 (le_bytes 2 ck)) (a1 - 8) ((pre3 ++ r3) ++ r2) (udp 1 (h_udpPort h) ck c) post) as Hm3.
  { set (front := be_bytes 2 1 ++ be_bytes 2 (h_udpPort h) ++ be_bytes 2 (len c + 8)).
    replace (udp 1 (h_udpPort h) ck c) with (front ++ le_bytes 2 ck ++ c) by (unfold udp, front; cut).
    apply (at_write_of _ _ _ _ _ _ (le_bytes 2 0) c _ _ Hm2); [unfold udp, front; cut|hpart|unfold front; hpart]. }
  change (DataHeader_setContentType _ _) with (Ret (mkDataHeader 16 0 (Endian_hostToBigEndian16 17))). cbn [mbind Er_bind].
  destruct (at_epush _ _ _ _ _ _ [16; 0; 0; 17] Hm3) as (m4 & E4 & Hm4); [cbn; lia|].
  change (DataHeader_bytes _) with [16; 0; 0; 17]. change DataHeader_SIZE with 4.
  change (len [16; 0; 0; 17]) with 4 in *. rewrite E4. cbn [mbind Er_bind]. clear E4.
  destruct (at_epush _ _ _ _ _ _ copy_header Hm4) as (m5 & E5 & Hm5); [change (length copy_header) with 68%nat; lia|].
  change (len copy_header) with RouteHeader_SIZE in E5. change (RouteHeader_bytes _) with copy_header. exists m5.
  split; [done|]. eexists _, pre3, ck. split; [done|]. split; [|exact Hm5]. rewrite !length_app. lia.
Qed.

(** The state between two packets: every port has one handler and copies are sent. *)
Definition ud_ok (ud : UpperDistributor) : Prop :=
  keys_ok (ud_handlers ud) /\
  map_Forall (fun port h => port = h_udpPort h /\ fits 16 port) (kmap (ud_handlers ud)) /\
  noSendToHandler ud = 0 /\ length (ud_myIp6 ud) = 16%nat /\ bytes (ud_myIp6 ud).

(** The handlers of a type, in the order of the map. *)
Definition handlers_for (type : Z) (ud : UpperDistributor) : list UpperDistributor_Handler :=
  filter (fun h => h_type h = type) (e_value <$> map_entries (ud_handlers ud)).

(** A packet with content [c] the distributor can work on: room for three more
    headers, an even address. *)
Definition ud_packet (m : Message) (a : Z) (pre c post : list Z) : Prop :=
  msg_at m a pre c post /\ 80 <= len pre /\ a mod 2 = 0 /\ bytes c /\ len c <= 65000.

(** The kind of a packet: control packets have no data header. *)
Definition kind_of (c : list Z) : Z :=
  if decide (Z.land (get c 48) RouteHeader_flags_CTRLMSG = 0)
  then DataHeader_getContentType (DataHeader_of (rd 68 4 c)) else ContentType_CTRL.

(** Where a packet from the session manager goes. *)
Inductive delivered_to (m : Message) (a : Z) (pre c post : list Z) : list UDOut -> Prop :=
| to_control : Z.land (get c 48) RouteHeader_flags_CTRLMSG <> 0 ->
    delivered_to m a pre c post [UDToControlHandler m]
| to_tun type : Z.land (get c 48) RouteHeader_flags_CTRLMSG = 0 ->
    type = DataHeader_getContentType (DataHeader_of (rd 68 4 c)) -> type <= ContentType_IP6_MAX ->
    delivered_to m a pre c post [UDToTunAdapter m]
| to_pathfinder m' pre' : Z.land (get c 48) RouteHeader_flags_CTRLMSG = 0 ->
    DataHeader_getContentType (DataHeader_of (rd 68 4 c)) = ContentType_HYPERBORIADHT ->
    msg_at m' (a - 8) pre' (be_bytes 4 PFChan_Core_MSG ++ be_bytes 4 0xffffffff ++ c) post ->
    delivered_to m a pre c post [UDToEvent m']
| to_iptunnel : Z.land (get c 48) RouteHeader_flags_CTRLMSG = 0 ->
    DataHeader_getContentType (DataHeader_of (rd 68 4 c)) = ContentType_IPTUN ->
    delivered_to m a pre c post [UDToIpTunnel m]
| to_nobody : Z.land (get c 48) RouteHeader_flags_CTRLMSG = 0 ->
    ContentType_IPTUN < DataHeader_getContentType (DataHeader_of (rd 68 4 c)) ->
    delivered_to m a pre c post [].

Lemma contentType_at m a pre c post : msg_at m a pre c post -> 72 <= len c ->
  msg_contentType m = DataHeader_getContentType (DataHeader_of (rd 68 4 c)).
Proof.
  intros [Hv _] Hc. unfold msg_contentType. change RouteHeader_SIZE with 68. change DataHeader_SIZE with 4.
  by rewrite (msg_read_sub m pre c post 68 4 Hv) by lia.
Qed.

Lemma flags_at m a pre c post : msg_at m a pre c post -> 68 <= len c -> msg_flags m = get c 48.
Proof.
  intros [Hv _] Hc. unfold msg_flags. rewrite (msg_read_sub m pre c post 48 1 Hv) by lia.
  unfold rd, get. rewrite !nth_lookup, lookup_take_lt, lookup_drop by lia. do 2 f_equal.
Qed.

Section Copies.
Context (malloc : Z -> Z * list Z) (sp : Z) (Hmalloc : malloc_ok malloc) (Hsp : sp mod 2 = 0).
#[local] Set Default Proof Using "All".

(** The programs of a type and the copies for them. *)
Definition copies_of (type : Z) (ud : UpperDistributor) (c pre post : list Z) (copies : list Message) : Prop :=
  Forall2 (fun h m' => copy_for (ud_myIp6 ud) (h_udpPort h) c pre post m') (handlers_for type ud) copies.

Lemma sendToHandlers_spec m a pre c post type ud : ud_packet m a pre c post -> ud_ok ud ->
  exists copies, sendToHandlers malloc sp m type ud = Ret (ud, UDToTunAdapter <$> copies) /\
    copies_of type ud c pre post copies.
Proof.
  intros (Hm & Hpre & Ha & Hc & Hlen) (Hkeys & Hports & Hno & Hmy & Hmyb).
  apply kmap_Forall in Hports; [|done]. unfold sendToHandlers, copies_of, handlers_for.
  rewrite Hno. cbn [Z.eqb negb].
  assert (exists copies, sendToHandlers_loop malloc sp m type ud (map_entries (ud_handlers ud)) =
    Ret (UDToTunAdapter <$> copies) /\
    Forall2 (fun h m' => copy_for (ud_myIp6 ud) (h_udpPort h) c pre post m')
      (filter (fun h => h_type h = type) (e_value <$> map_entries (ud_handlers ud))) copies)
    as (copies & -> & Hf); [|by exists copies].
  induction Hports as [|e es [He Hp] _ IH]; [by exists []|].
  destruct IH as (copies & IH & Hf). cbn [sendToHandlers_loop fmap list_fmap].
  destruct (Z.eqb_spec (h_type (e_value e)) type) as [Ht|Ht]; cbn [negb].
  - destruct (handler_copy_spec malloc sp m a pre c post ud (e_value e)) as (m' & -> & Hcp); try done.
    { by rewrite <- He. }
    cbn [mbind Er_bind]. rewrite IH. cbn [mbind Er_bind]. exists (m' :: copies). split; [done|].
    rewrite filter_cons_True by done. by apply Forall2_cons.
  - exists copies. split; [done|]. by rewrite filter_cons_False.
Qed.

(** From the node to the session manager. *)
Lemma toSessionManagerIf_spec m a pre c post ud : ud_packet m a pre c post -> ud_ok ud -> 72 <= len c ->
  exists copies, toSessionManagerIf malloc sp m ud = Ret (ud, (UDToTunAdapter <$> copies) ++ [UDToSessionManager m]) /\
    copies_of (DataHeader_getContentType (DataHeader_of (rd 68 4 c))) ud c pre post copies.
Proof.
  intros Hp Hok Hc. pose proof Hp as (Hm & _). unfold toSessionManagerIf.
  destruct (at_content _ _ _ _ _ Hm) as [_ ->].
  rewrite (proj2 (Z.geb_le (len c) _)) by (header_sizes; lia). cbn [Assert_true mbind Er_bind].
  assert (msg_contentType m = DataHeader_getContentType (DataHeader_of (rd 68 4 c))) as ->.
  { by apply contentType_at with (1 := Hm). }
  set (type := DataHeader_getContentType _). destruct (sendToHandlers_spec m a pre c post type ud Hp Hok) as (copies & -> & Hcp).
  cbn [mbind Er_bind]. by exists copies.
Qed.

(** Where it goes does not depend on what the programs get. *)
Lemma fromSession_gen m a pre c post ud ud' outs :
  msg_at m a pre c post -> 8 <= len pre -> 68 <= len c ->
  (Z.land (get c 48) RouteHeader_flags_CTRLMSG = 0 -> 72 <= len c) ->
  sendToHandlers malloc sp m (kind_of c) ud = Ret (ud', outs) ->
  exists dest, incomingFromSessionManagerIf malloc sp m ud = Ret (ud', outs ++ dest) /\ delivered_to m a pre c post dest.
Proof.
  intros Hm Hpre Hc Hc' Hsend. unfold incomingFromSessionManagerIf.
  destruct (at_content _ _ _ _ _ Hm) as [_ ->]. rewrite (flags_at m a pre c post Hm Hc).
  rewrite (proj2 (Z.geb_le (len c) RouteHeader_SIZE)) by (header_sizes; lia). cbn [Assert_true mbind Er_bind].
  destruct (Z.eqb_spec (Z.land (get c 48) RouteHeader_flags_CTRLMSG) 0) as [Hf|Hf]; cbn [negb].
  2:{ unfold kind_of in Hsend. rewrite decide_False in Hsend by done. rewrite Hsend. cbn [mbind Er_bind].
      exists [UDToControlHandler m]. split; [done|]. by apply to_control. }
  unfold kind_of in Hsend. rewrite decide_True in Hsend by done. specialize (Hc' Hf).
  rewrite (proj2 (Z.geb_le (len c) _)) by (header_sizes; lia). cbn [Assert_true mbind Er_bind].
  rewrite (contentType_at m a pre c post Hm Hc'). set (type := DataHeader_getContentType _) in *.
  rewrite Hsend. cbn [mbind Er_bind].
  destruct (Z.leb_spec type ContentType_IP6_MAX) as [Ht|Ht].
  { exists [UDToTunAdapter m]. split; [done|]. by apply to_tun with type. }
  destruct (Z.eqb_spec type ContentType_HYPERBORIADHT) as [Ed|Ed].
  { destruct (split_room pre 4) as (pre1 & r1 & -> & Hr1 & Hp1); [lia|].
    destruct (split_room pre1 4) as (pre2 & r2 & -> & Hr2 & Hp2); [lia|].
    destruct (at_epush32be m a _ _ _ _ 0xffffffff Hm) as (m1 & -> & Hm1); [lia|]. cbn [mbind Er_bind].
    destruct (at_epush32be m1 _ _ _ _ _ PFChan_Core_MSG Hm1) as (m2 & -> & Hm2); [lia|]. cbn [mbind Er_bind].
    exists [UDToEvent m2]. split; [done|]. apply to_pathfinder with pre2; [done|done|].
    by replace (a - 8) with (a - 4 - 4) by lia. }
  destruct (Z.eqb_spec type ContentType_IPTUN) as [Ei|Ei].
  { exists [UDToIpTunnel m]. split; [done|]. by apply to_iptunnel. }
  exists []. rewrite app_nil_r. split; [done|]. apply to_nobody; [done|].
  unfold ContentType_IPTUN, ContentType_IP6_MAX, ContentType_HYPERBORIADHT in *. fold type. lia.
Qed.

(** A packet of a registered program: it is passed on, to this node itself without
    copies. *)
Lemma fromProgram_spec m a pre k port ck data post ud hd :
  msg_at m a pre ((k ++ magic_ip6) ++ [16; 0; 0; 17] ++ udp port 1 ck data) post -> length k = 52%nat ->
  ud_ok ud -> a mod 2 = 0 -> udp_ok (ud_myIp6 ud ++ magic_ip6) (udp port 1 ck data) ->
  kmap (ud_handlers ud) !! port = Some hd -> fits 16 port -> 72 <= len data ->
  exists m' pre' outs, incomingFromTunAdapterIf malloc sp m ud = Ret (ud, outs) /\
    msg_at m' (a + 80) pre' data post /\ len pre' = len pre + 80 /\
    (if decide (rd 52 16 data = ud_myIp6 ud) then delivered_to m' (a + 80) pre' data post outs
     else outs = [UDToSessionManager m']).
Proof.
  intros Hm Hk Hok Ha Hck Hreg Hport Hdata. unfold incomingFromTunAdapterIf.
  pose proof Hok as (Hkeys & _ & Hno & Hmy & _).
  destruct (at_content _ _ _ _ _ Hm) as [_ ->].
  rewrite (proj2 (Z.geb_le _ _)) by (pose proof magic_ip6_length; hpart). cbn [Assert_true mbind Er_bind].
  rewrite (at_read_of m _ _ _ _ k magic_ip6 ([16; 0; 0; 17] ++ udp port 1 ck data) 52 16 Hm) by (done || hpart).
  rewrite memcmp_refl. cbn [Z.eqb]. unfold fromHandler.
  destruct (at_epop m a pre _ _ post RouteHeader_SIZE Hm) as (m1 & -> & Hm1); [pose proof magic_ip6_length; hpart|].
  cbn [mbind Er_bind].
  destruct (at_epop m1 _ _ _ _ post DataHeader_SIZE Hm1) as (m2 & -> & Hm2); [done|]. cbn [mbind Er_bind].
  change (DataHeader_getContentType (DataHeader_of [16; 0; 0; 17])) with ContentType_IP6_UDP.
  rewrite Z.eqb_refl. cbn [negb]. destruct (at_content _ _ _ _ _ Hm2) as [-> ->].
  rewrite (proj2 (Z.ltb_ge _ _)) by (rewrite length_udp; header_sizes; lia). pose proof Hm2 as [_ ->].
  rewrite Hck by (header_sizes; Z.to_euclidean_division_equations; lia). cbn [mbind Er_bind Z.eqb negb].
  rewrite (at_read_of m2 _ _ _ _ (be_bytes 2 port) (be_bytes 2 1) (be_bytes 2 (len data + 8) ++ le_bytes 2 ck ++ data)
    2 2 Hm2) by hpart.
  rewrite (at_read_of m2 _ _ _ _ [] (be_bytes 2 port) (be_bytes 2 1 ++ be_bytes 2 (len data + 8) ++ le_bytes 2 ck ++ data)
    0 2 Hm2) by hpart.
  change (negb _) with false. cbv iota. rewrite host16 by auto using length_be_bytes.
  rewrite be_val_bytes, fits_small by done.
  pose proof (indexForKey_lookup (ud_handlers ud) port Hkeys) as Hix. rewrite Hreg in Hix.
  destruct Hix as (i & e & _ & _ & _ & ->); [cbn; unfold fits in Hport; lia|].
  rewrite (proj2 (Z.ltb_ge _ 0)) by lia.
  unfold udp in Hm2. replace (be_bytes 2 port ++ be_bytes 2 1 ++ be_bytes 2 (len data + 8) ++ le_bytes 2 ck ++ data)
    with ((be_bytes 2 port ++ be_bytes 2 1 ++ be_bytes 2 (len data + 8) ++ le_bytes 2 ck) ++ data) in Hm2 by cut.
  destruct (at_epop m2 _ _ _ _ post Headers_UDPHeader_SIZE Hm2) as (m3 & -> & Hm3); [hpart|]. cbn [mbind Er_bind].
  destruct (at_content _ _ _ _ _ Hm3) as [_ ->].
  rewrite (proj2 (Z.geb_le _ _)) by (header_sizes; lia). cbn [Assert_true mbind Er_bind].
  replace (a + RouteHeader_SIZE + DataHeader_SIZE + Headers_UDPHeader_SIZE) with (a + 80) in Hm3 by (header_sizes; lia).
  rewrite (msg_read_sub m3 _ data post 52 16 (proj1 Hm3)) by lia.
  rewrite memcmp_zero_iff by (by rewrite length_rd_in by lia).
  assert (exists pre', msg_at m3 (a + 80) pre' data post /\ len pre' = len pre + 80) as (pre' & Hm4 & Hpre').
  { eexists. split; [exact Hm3|]. pose proof magic_ip6_length. hpart. }
  exists m3, pre'. destruct (decide (rd 52 16 data = ud_myIp6 ud)) as [Hself|Hself].
  - rewrite bool_decide_true by done.
    destruct (fromSession_gen m3 (a + 80) pre' data post (set_noSend ud 1) ud []) as
      (dest & -> & Hd); [done|lia|lia|done| |by exists dest].
    unfold sendToHandlers. cbn. unfold set_noSend. cbn.
    destruct ud; cbn in *. by subst.
  - rewrite bool_decide_false by done. by exists [UDToSessionManager m3].
Qed.

Lemma fromSession_spec m a pre c post ud : ud_packet m a pre c post -> ud_ok ud ->
  68 <= len c -> (Z.land (get c 48) RouteHeader_flags_CTRLMSG = 0 -> 72 <= len c) ->
  exists copies dest,
    incomingFromSessionManagerIf malloc sp m ud = Ret (ud, (UDToTunAdapter <$> copies) ++ dest) /\
    copies_of (kind_of c) ud c pre post copies /\ delivered_to m a pre c post dest.
Proof.
  intros Hp Hok Hc Hc'. pose proof Hp as (Hm & Hpre & _).
  destruct (sendToHandlers_spec m a pre c post (kind_of c) ud Hp Hok) as (copies & E & Hcp).
  destruct (fromSession_gen m a pre c post ud ud _ Hm ltac:(lia) Hc Hc' E) as (dest & E' & Hd). by exists copies, dest.
Qed.
End Copies.

(** ** Registration refines a finite map *)

Lemma handlers_new my : ud_ok (UpperDistributor_new my) <-> length (ip6 my) = 16%nat /\ bytes (ip6 my).
Proof.
  split; [by intros (_ & _ & _ & H)|]. intros H. split; [|split; [apply map_Forall_empty|split; [done|done]]].
  split; [apply NoDup_nil_2|split; [by apply Forall_nil|done]].
Qed.

Lemma register_spec ud ct port : ud_ok ud -> fits 16 port -> map_count (ud_handlers ud) < 2 ^ 31 - 1 ->
  exists r ud', UpperDistributor_registerHandler ud ct port = Ret (r, ud') /\ ud_ok ud' /\
    match kmap (ud_handlers ud) !! port with
    | Some _ => r = UpperDistributor_registerHandler_PORT_REGISTERED /\ ud' = ud
    | None => r = 0 /\ kmap (ud_handlers ud') = <[port := mkHandler ct port]> (kmap (ud_handlers ud))
    end.
Proof.
  intros Hok Hport Hc. pose proof Hok as (Hkeys & Hp & Hno & Hmy). unfold UpperDistributor_registerHandler.
  assert (key_wf port) as Hwf by (cbn; unfold fits in Hport; lia).
  pose proof (indexForKey_lookup (ud_handlers ud) port Hkeys Hwf) as Hix.
  destruct (kmap (ud_handlers ud) !! port) as [h|] eqn:Ek.
  - destruct Hix as (i & e & _ & _ & _ & ->). rewrite (proj2 (Z.geb_le _ _)) by lia. by eexists _, _.
  - rewrite Hix. cbn [Z.geb Z.compare].
    pose proof (put_keys false port (mkHandler ct port) (ud_handlers ud) Hkeys Hwf Hc) as Hput.
    destruct (Map_put false port (mkHandler ct port) (ud_handlers ud)) as [r hs] eqn:Eput.
    destruct Hput as (Hk' & Hkm & _ & Hr). rewrite (proj2 (Z.geb_le _ _)) by lia. cbn [Assert_true mbind Er_bind].
    eexists _, _. split; [done|]. split; [|done]. split; [done|]. split; [|done]. cbn [set_handlers ud_handlers].
    rewrite Hkm. by apply map_Forall_insert_2.
Qed.

Lemma unregister_spec ud port : ud_ok ud -> fits 16 port ->
  let '(r, ud') := UpperDistributor_unregisterHandler ud port in
  ud_ok ud' /\ kmap (ud_handlers ud') = delete port (kmap (ud_handlers ud)) /\
  r = match kmap (ud_handlers ud) !! port with
      | Some _ => 0
      | None => UpperDistributor_unregisterHandler_NONEXISTANT
      end.
Proof.
  intros Hok Hport. pose proof Hok as (Hkeys & Hp & Hno & Hmy). unfold UpperDistributor_unregisterHandler.
  assert (key_wf port) as Hwf by (cbn; unfold fits in Hport; lia).
  pose proof (indexForKey_lookup (ud_handlers ud) port Hkeys Hwf) as Hix.
  destruct (kmap (ud_handlers ud) !! port) as [h|] eqn:Ek.
  - destruct Hix as (i & e & Hi & <- & <- & ->). rewrite (proj2 (Z.ltb_ge _ _)) by lia.
    destruct (remove_keys (ud_handlers ud) i e Hkeys Hi) as (_ & _ & Hk' & Hkm).
    cbn [set_handlers ud_handlers]. split; [|done]. split; [done|]. split; [|done].
    cbn [set_handlers ud_handlers]. rewrite Hkm. by apply map_Forall_delete.
  - rewrite Hix. cbn. split; [done|]. split; [|done]. by rewrite delete_id.
Qed.
