(* ===== verification/SessionManager.v ===== *)
(** * net/SessionManager.c: end-to-end sessions

    The session manager sits between the switch and the upper distributor.  It
    finds or makes the CryptoAuth session for a packet, by the address on the way
    out and by the handle on the way in, keeps up to three paths per node, holds
    packets back while a node is looked up, and tells the pathfinder what happens.

    Sessions are values in the map which owns them; an index into the map stands
    for the pointer.  A pointer into a packet is an offset in the packet's
    allocation ([msg_bytes] at the time it was taken).  Events to the pathfinder are
    outputs: an [ASynchronizer] between core and pathfinder delays them, so no
    answer comes back during a call.  [Env] holds what a call may ask for: the
    clock in milliseconds and in seconds, and random bytes for CryptoAuth.

    Addresses are keys of 16 bytes of the maps. *)
From stdpp Require Import gmap.
From S2P Require Import Prelude Bits Message Checksum MsgAt Headers RouteHeader PFChan Nacl Key.
From S2P Require Import CryptoAuth HandleMap.

(** ** wire/Metric.h *)

Definition Metric_SM_INCOMING : Z := 0xff700000.
Definition Metric_SM_SEND : Z := 0xff710000.
Definition Metric_NO_INFO : Z := 0xfffffffe.
Definition Metric_DEAD_LINK : Z := 0xffffffff.

(** ** Data *)

Record Path := mkPath {
  timeLastValidated : Z;
  p_label : Z;
  p_metric : Z;
}.
Definition SessionManager_PATH_COUNT : Z := 3.
Definition no_path : Path := mkPath 0 0 0.

Record SMSession := mkSMSession {
  caSession : Session;
  paths : list Path;
  timeOfLastUsage : Z;
  bytesOut : Z;
  bytesIn : Z;
  lastSearchTime : Z;
  receiveHandle : Z;
  sendHandle : Z;
  s_version : Z;
  foundKey : bool;
}.

Record BufferedMessage := mkBuffered {
  b_msg : Message;
  timeSentMilliseconds : Z;
}.

Record SessionManager := mkSessionManager {
  sm_ca : CryptoAuth;
  bufMap : Map (list Z) BufferedMessage;
  ifaceMap : Map (list Z) SMSession;
  firstHandle : Z;
  maxBufferedMessages : Z;
  sessionTimeoutMilliseconds : Z;
  sessionSearchAfterMilliseconds : Z;
}.

Record Env := mkEnv {
  now_ms : Z;
  now_s : Z;
  rand36 : list Z;
  rand32 : list Z;
}.

Inductive SMOut :=
| SMToSwitch (msg : Message)
| SMToInside (msg : Message)
| SMToEvent (msg : Message).

(** [session->field = x] and [sm->field = x]. *)
Definition set_ca (s : SMSession) (x : Session) : SMSession :=
  mkSMSession x (paths s) (timeOfLastUsage s) (bytesOut s) (bytesIn s) (lastSearchTime s) (receiveHandle s)
    (sendHandle s) (s_version s) (foundKey s).
Definition set_paths (s : SMSession) (x : list Path) : SMSession :=
  mkSMSession (caSession s) x (timeOfLastUsage s) (bytesOut s) (bytesIn s) (lastSearchTime s) (receiveHandle s)
    (sendHandle s) (s_version s) (foundKey s).
Definition set_usage (s : SMSession) (x : Z) : SMSession :=
  mkSMSession (caSession s) (paths s) x (bytesOut s) (bytesIn s) (lastSearchTime s) (receiveHandle s)
    (sendHandle s) (s_version s) (foundKey s).
Definition set_bytes (s : SMSession) (out in_ : Z) : SMSession :=
  mkSMSession (caSession s) (paths s) (timeOfLastUsage s) out in_ (lastSearchTime s) (receiveHandle s)
    (sendHandle s) (s_version s) (foundKey s).
Definition set_search (s : SMSession) (x : Z) : SMSession :=
  mkSMSession (caSession s) (paths s) (timeOfLastUsage s) (bytesOut s) (bytesIn s) x (receiveHandle s)
    (sendHandle s) (s_version s) (foundKey s).
Definition set_sendHandle (s : SMSession) (x : Z) : SMSession :=
  mkSMSession (caSession s) (paths s) (timeOfLastUsage s) (bytesOut s) (bytesIn s) (lastSearchTime s)
    (receiveHandle s) x (s_version s) (foundKey s).
Definition set_version (s : SMSession) (x : Z) : SMSession :=
  mkSMSession (caSession s) (paths s) (timeOfLastUsage s) (bytesOut s) (bytesIn s) (lastSearchTime s)
    (receiveHandle s) (sendHandle s) x (foundKey s).
Definition set_foundKey (s : SMSession) (x : bool) : SMSession :=
  mkSMSession (caSession s) (paths s) (timeOfLastUsage s) (bytesOut s) (bytesIn s) (lastSearchTime s)
    (receiveHandle s) (sendHandle s) (s_version s) x.

Definition set_ifaceMap (sm : SessionManager) (x : Map (list Z) SMSession) : SessionManager :=
  mkSessionManager (sm_ca sm) (bufMap sm) x (firstHandle sm) (maxBufferedMessages sm)
    (sessionTimeoutMilliseconds sm) (sessionSearchAfterMilliseconds sm).
Definition set_bufMap (sm : SessionManager) (x : Map (list Z) BufferedMessage) : SessionManager :=
  mkSessionManager (sm_ca sm) x (ifaceMap sm) (firstHandle sm) (maxBufferedMessages sm)
    (sessionTimeoutMilliseconds sm) (sessionSearchAfterMilliseconds sm).

(** The entry at an index of the map of sessions, and its update through the
    pointer. *)
Definition entry_at (sm : SessionManager) (i : Z) : option (Entry (list Z) SMSession) :=
  map_entries (ifaceMap sm) !! Z.to_nat i.
Definition put_session (sm : SessionManager) (i : Z) (s : SMSession) : SessionManager :=
  let m := ifaceMap sm in
  set_ifaceMap sm
    (mkMap (alter (fun e => mkEntry (e_hash e) (e_key e) (e_handle e) s) (Z.to_nat i) (map_entries m))
       (map_nextHandle m) (map_capacity m)).
Definition session_at (sm : SessionManager) (i : Z) : Er SMSession :=
  match entry_at sm i with Some e => Ret (e_value e) | None => Abort "invalid pointer" end.

Definition MIN_FIRST_HANDLE : Z := 4.
Definition MAX_FIRST_HANDLE : Z := 100000.

Definition SessionManager_new (ca : CryptoAuth) (rand : Z) : SessionManager :=
  mkSessionManager ca Map_new Map_new (rand mod (MAX_FIRST_HANDLE - MIN_FIRST_HANDLE) + MIN_FIRST_HANDLE)
    30 120000 30000.

Definition path_at (s : SMSession) (i : nat) : Path := default no_path (paths s !! i).
Definition path0 (s : SMSession) : Path := path_at s 0.

(** Reads and writes through a pointer into the packet. *)
Definition ptr_read (msg : Message) (p off n : Z) : list Z := msg_read msg (p + off - msg_bytes msg) n.
Definition ptr_write (msg : Message) (p off : Z) (bs : list Z) : Message := msg_write msg (p + off - msg_bytes msg) bs.

Definition DecryptErr_num (e : CryptoAuth_DecryptErr) : Z :=
  match e with
  | DecryptErr_NONE => 0 | DecryptErr_RUNT => 1 | DecryptErr_NO_SESSION => 2 | DecryptErr_FINAL_SHAKE_FAIL => 3
  | DecryptErr_FAILED_DECRYPT_RUN_MSG => 4 | DecryptErr_KEY_PKT_ESTABLISHED_SESSION => 5
  | DecryptErr_WRONG_PERM_PUBKEY => 6 | DecryptErr_IP_RESTRICTED => 7 | DecryptErr_AUTH_REQUIRED => 8
  | DecryptErr_UNRECOGNIZED_AUTH => 9 | DecryptErr_STRAY_KEY => 10 | DecryptErr_HANDSHAKE_DECRYPT_FAILED => 11
  | DecryptErr_WISEGUY => 12 | DecryptErr_INVALID_PACKET => 13 | DecryptErr_REPLAY => 14 | DecryptErr_DECRYPT => 15
  end.

(** ** Paths *)

Definition effectiveMetric (now : Z) (path : Path) : Z :=
  let x := i64 (now - timeLastValidated path) in
  let x := i64 (x + p_metric path) in
  if x >? Metric_NO_INFO then Metric_NO_INFO else u32 x.

Definition SessionManager_effectiveMetric (now : Z) (sess : SMSession) : Z := effectiveMetric now (path0 sess).

(** The index of the first path with the label. *)
Fixpoint pathForLabel_loop (label : Z) (i : nat) (ps : list Path) : option nat :=
  match ps with
  | [] => None
  | p :: ps => if p_label p =? label then Some i else pathForLabel_loop label (S i) ps
  end.
Definition pathForLabel (sess : SMSession) (label : Z) : option nat := pathForLabel_loop label 0 (paths sess).

Fixpoint worstPath_loop (now worstEm : Z) (worstI i : nat) (ps : list Path) : nat :=
  match ps with
  | [] => worstI
  | p :: ps =>
      let em := effectiveMetric now p in
      if em >? worstEm then worstPath_loop now em i (S i) ps else worstPath_loop now worstEm worstI (S i) ps
  end.
Definition worstPath (now : Z) (sess : SMSession) : nat := worstPath_loop now 0 0 0 (paths sess).

Fixpoint bestPath_loop (now bestEm : Z) (bestI i : nat) (ps : list Path) : nat :=
  match ps with
  | [] => bestI
  | p :: ps =>
      let em := effectiveMetric now p in
      if em <? bestEm then bestPath_loop now em i (S i) ps else bestPath_loop now bestEm bestI (S i) ps
  end.
Definition rerankPaths (now : Z) (sess : SMSession) : SMSession :=
  let bestI := bestPath_loop now Metric_DEAD_LINK 0 0 (paths sess) in
  if negb (Nat.eqb bestI 0)
  then set_paths sess (<[bestI := path0 sess]> (<[0%nat := path_at sess bestI]> (paths sess)))
  else sess.

Fixpoint mostRecent_loop (bestTime : Z) (bestI i : nat) (ps : list Path) : nat :=
  match ps with
  | [] => bestI
  | p :: ps =>
      if timeLastValidated p >? bestTime then mostRecent_loop (timeLastValidated p) i (S i) ps
      else mostRecent_loop bestTime bestI (S i) ps
  end.
Definition mostRecentValidatedPath (sess : SMSession) : Path := path_at sess (mostRecent_loop 0 0 0 (paths sess)).

Section Manager.
Context {N : Nacl} (malloc : Z -> Z * list Z).

(** ** Events *)

(** A message with a node. *)
Definition event_msg (padding : Z) (node : list Z) (pf ev : Z) : Er Message :=
  let '(addr, mem) := malloc padding in
  msg ← Message_epush (Message_new 0 padding addr mem) (Some node) PFChan_Node_SIZE;
  msg ← Message_epush32be msg pf;
  Message_epush32be msg ev.

Definition sendSession (sess : SMSession) (path : Path) (destPf ev : Z) : Er SMOut :=
  let session := mkNode (herIp6 (caSession sess)) (herPublicKey (caSession sess))
    (Endian_hostToBigEndian64 (p_label path)) (Endian_bigEndianToHost32 (p_metric path))
    (Endian_hostToBigEndian32 (s_version sess)) in
  msg ← event_msg (PFChan_Node_SIZE + 512) (PFChan_Node_bytes session) destPf ev;
  Ret (SMToEvent msg).

Definition unsetupSession (sess : SMSession) : Er (list SMOut) :=
  if (s_version sess =? 0) || (p_metric (path0 sess) =? Metric_DEAD_LINK) then Ret []
  else
    let path_be := Endian_hostToBigEndian64 (p_label (path0 sess)) in
    Assert_true (negb (path_be =? 0));;
    let n := mkNode (herIp6 (caSession sess)) (herPublicKey (caSession sess)) path_be
      (Endian_bigEndianToHost32 (p_metric (path0 sess))) (Endian_hostToBigEndian32 (s_version sess)) in
    msg ← event_msg 512 (PFChan_Node_bytes n) 0xffffffff PFChan_Core_UNSETUP_SESSION;
    Ret [SMToEvent msg].

Definition triggerSearch (target : list Z) (version : Z) : Er SMOut :=
  let '(addr, mem) := malloc 512 in
  msg ← Message_epush32be (Message_new 0 512 addr mem) version;
  msg ← Message_epush32be msg 0;
  msg ← Message_epush msg (Some target) 16;
  msg ← Message_epush32be msg 0xffffffff;
  msg ← Message_epush32be msg PFChan_Core_SEARCH_REQ;
  Ret (SMToEvent msg).

(** ** Finding and making sessions *)

Definition check (sm : SessionManager) (mapIndex : Z) : Er SessionManager :=
  match entry_at sm mapIndex with
  | None => Abort "invalid pointer"
  | Some e =>
      let ssp := e_value e in
      if foundKey ssp then Ret sm
      else
        let herPubKey := herPublicKey (caSession ssp) in
        if negb (Bits_isZero herPubKey) then
          Assert_true (memcmp (e_key e) (AddressCalc_addressForPublicKey herPubKey).2 =? 0);;
          Ret (put_session sm mapIndex (set_foundKey ssp true))
        else Ret sm
  end.

(** The index stands for the pointer to the session. *)
Definition sessionForHandle (handle : Z) (sm : SessionManager) : Er (option Z * SessionManager) :=
  let index := Map_indexForHandle (u32 (handle - firstHandle sm)) (ifaceMap sm) in
  if index <? 0 then Ret (None, sm) else sm ← check sm index; Ret (Some index, sm).

Definition sessionForIp6 (ip6 : list Z) (sm : SessionManager) : Er (option Z * SessionManager) :=
  let ifaceIndex := Map_indexForKey ip6 (ifaceMap sm) in
  if ifaceIndex =? -1 then Ret (None, sm) else sm ← check sm ifaceIndex; Ret (Some ifaceIndex, sm).

Definition SessionManager_getHandleList (sm : SessionManager) : list Z :=
  (fun e => u32 (e_handle e + firstHandle sm)) <$> map_entries (ifaceMap sm).

(** The session after the call, whether the path is an improvement, and the event. *)
Definition discoverPath (now : Z) (sess : SMSession) (label metric : Z) : Er (SMSession * bool * list SMOut) :=
  if label =? 0 then Ret (sess, false, [])
  else
    match pathForLabel sess label with
    | Some i =>
        if negb (metric =? Metric_DEAD_LINK) && (effectiveMetric now (path_at sess i) <=? metric)
        then Ret (sess, false, [])
        else
          let sess := set_paths sess (<[i := mkPath (i64 now) (p_label (path_at sess i)) metric]> (paths sess)) in
          let sess := rerankPaths now sess in
          Ret (sess, p_label (path0 sess) =? label, [])
    | None =>
        let i := worstPath now sess in
        if effectiveMetric now (path_at sess i) <=? metric then Ret (sess, false, [])
        else
          let sess := set_paths sess (<[i := mkPath (i64 now) label metric]> (paths sess)) in
          let sess := rerankPaths now sess in
          if p_label (path0 sess) =? label then
            out ← sendSession sess (path0 sess) 0xffffffff PFChan_Core_DISCOVERED_PATH;
            Ret (sess, true, [out])
          else Ret (sess, false, [])
    end.

Definition getSession (env : Env) (sm : SessionManager) (ip6 pubKey : list Z) (version label metric : Z) :
    Er (Z * SessionManager * list SMOut) :=
  Assert_true (AddressCalc_validAddress ip6);;
  let metric := if label =? 0 then Metric_DEAD_LINK else metric in
  '(found, sm) ← sessionForIp6 ip6 sm;
  match found with
  | Some i =>
      sess ← session_at sm i;
      let sess := set_version sess (if negb (s_version sess =? 0) then s_version sess else version) in
      '(sess, better, outs) ← discoverPath (now_ms env) sess label metric;
      let sess := if better : bool then set_version sess (if negb (version =? 0) then version else s_version sess)
                  else sess in
      Ret (i, put_session sm i sess, outs)
  | None =>
      let ca := CryptoAuth_newSession pubKey false (now_s env) in
      let found := negb (Bits_isZero pubKey) in
      (if found then Assert_true (memcmp (AddressCalc_addressForPublicKey pubKey).2 ip6 =? 0) else Ret tt);;
      let sess := mkSMSession ca (replicate 3 no_path) 0 0 0 0 0 0 0 found in
      let '(ifaceIndex, map) := Map_put true ip6 sess (ifaceMap sm) in
      let sm := set_ifaceMap sm map in
      let handle := default 0 (e_handle <$> entry_at sm ifaceIndex) in
      let sess := mkSMSession ca (mkPath (i64 (now_ms env)) label metric :: replicate 2 no_path) 0 0 0 0
                    (u32 (handle + firstHandle sm)) 0 version found in
      let sm := put_session sm ifaceIndex sess in
      out ← sendSession sess (path0 sess) 0xffffffff PFChan_Core_SESSION;
      sm ← check sm ifaceIndex;
      Ret (ifaceIndex, sm, [out])
  end.

(** ** From the switch *)

Definition ctrlFrame (msg : Message) : Er (list SMOut) :=
  '(msg, sh) ← Message_epop msg SwitchHeader_SIZE;
  '(msg, _) ← Message_epop msg 4;
  let rh := mkRouteHeader (zeros 32) sh 0 (Z.lor RouteHeader_flags_INCOMING RouteHeader_flags_CTRLMSG) 0 0 (zeros 16) in
  msg ← Message_epush msg (Some (RouteHeader_bytes rh)) RouteHeader_SIZE;
  Ret [SMToInside msg].

Definition failedDecrypt (msg : Message) (label_be : Z) : Er (list SMOut) :=
  msg ← Message_epush32be msg Error_AUTHENTICATION;
  msg ← Message_epush16be msg 2;
  msg ← Message_epush16be msg 0;
  csum_be ← Checksum_engine_be (msg_addr msg + msg_bytes msg) (msg_content msg) (msg_length msg);
  '(msg, _) ← Message_epop16h msg;
  msg ← Message_epush16h msg csum_be;
  msg ← Message_epush32be msg 0xffffffff;
  let sh := SwitchHeader_setSuppressErrors (mkSwitchHeader 0 0 0 0) true in
  sh ← SwitchHeader_setVersion sh SwitchHeader_CURRENT_VERSION;
  let sh := with_label_be sh label_be in
  msg ← Message_epush msg (Some (SwitchHeader_bytes sh)) SwitchHeader_SIZE;
  Ret [SMToSwitch msg].

(** Which session a packet is for: by its handle, or by the key in the header of a
    handshake.  [None]: the packet is dropped. *)
Definition session_of_packet (env : Env) (sm : SessionManager) (msg : Message) (switchHeader nonceOrHandle : Z) :
    Er (option (Z * Message) * SessionManager * list SMOut) :=
  if nonceOrHandle >? 3 then
    '(found, sm) ← sessionForHandle nonceOrHandle sm;
    match found with
    | None => Ret (None, sm, [])
    | Some session =>
        msg ← Message_eshift msg (-4);
        let nonce := Endian_bigEndianToHost32 (le_val (msg_read msg 0 4)) in
        if nonce <? 4 then Ret (None, sm, []) else Ret (Some (session, msg), sm, [])
    end
  else if msg_length msg <? CryptoHeader_SIZE + 4 then Ret (None, sm, [])
  else
    let publicKey := msg_read msg 40 32 in
    let '(valid, ip6) := AddressCalc_addressForPublicKey publicKey in
    if negb valid then Ret (None, sm, [])
    else if memcmp publicKey (ca_publicKey (sm_ca sm)) =? 0 then Ret (None, sm, [])
    else
      let label := Endian_bigEndianToHost64 (le_val (ptr_read msg switchHeader 0 8)) in
      '(session, sm, outs) ← getSession env sm ip6 publicKey 0 label Metric_SM_INCOMING;
      sess ← session_at sm session;
      ca ← CryptoAuth_resetIfTimeout (caSession sess) (now_s env);
      Ret (Some (session, msg), put_session sm session (set_ca sess ca), outs).

(** What follows a failed decryption: the first bytes go back to the sender. *)
Definition answer_failed (msg : Message) (switchHeader length0 : Z) (firstSixteen : list Z) (ret : CryptoAuth_DecryptErr)
    (ca : Session) : Er (list SMOut) :=
  msg ← Message_eshift msg (i32 (length0 - msg_length msg - 24));
  let msg := set_msg_length msg 0 in
  msg ← Message_epush32be msg (CryptoAuth_getState ca);
  msg ← Message_epush32be msg (DecryptErr_num ret);
  msg ← Message_epush msg (Some firstSixteen) 16;
  msg ← Message_eshift msg SwitchHeader_SIZE;
  Assert_true (msg_bytes msg =? switchHeader);;
  let label_be := le_val (ptr_read msg switchHeader 0 8) in
  let msg := ptr_write msg switchHeader 0 (le_bytes 8 (Bits_bitReverse64 label_be)) in
  failedDecrypt msg label_be.

(** The fields of the route header other than the switch header. *)
Definition fill_route (msg : Message) (session : SMSession) : Message :=
  let msg := msg_write msg 44 (le_bytes 4 (Endian_hostToBigEndian32 (s_version session))) in
  let msg := msg_write msg 52 (herIp6 (caSession session)) in
  let msg := msg_write msg 0 (herPublicKey (caSession session)) in
  let msg := msg_write msg 49 [0] in
  let msg := msg_write msg 48 [RouteHeader_flags_INCOMING] in
  msg.

(** What follows a successful decryption: the route header in front. *)
Definition pass_inside (env : Env) (sm : SessionManager) (msg : Message) (switchHeader : Z) (currentMessageSetup : bool)
    (i : Z) (session : SMSession) : Er (SessionManager * list SMOut) :=
  '(msg, session) ←
    (if currentMessageSetup then
       '(msg, h) ← Message_epop32be msg; Ret (msg, set_sendHandle session h)
     else Ret (msg, session));
  msg ← Message_eshift msg RouteHeader_SIZE;
  Assert_true (msg_length msg >=? DataHeader_SIZE);;
  let session := set_bytes session (bytesOut session) (u64 (bytesIn session + msg_length msg)) in
  msg ← (if currentMessageSetup then Ret (msg_write msg 32 (ptr_read msg switchHeader 0 12))
         else Assert_true (msg_bytes msg + 32 =? switchHeader);; Ret msg);
  let msg := fill_route msg session in
  let label := Endian_bigEndianToHost64 (le_val (ptr_read msg switchHeader 0 8)) in
  '(session, _, outs) ← discoverPath (now_ms env) session label Metric_SM_INCOMING;
  Ret (put_session sm i session, outs ++ [SMToInside msg]).

Definition incomingFromSwitchIf (env : Env) (sm : SessionManager) (msg : Message) : Er (SessionManager * list SMOut) :=
  if msg_length msg <? SwitchHeader_SIZE + 4 then Ret (sm, [])
  else
    let switchHeader := msg_bytes msg in
    msg ← Message_eshift msg (- SwitchHeader_SIZE);
    let msg := ptr_write msg switchHeader 0 (le_bytes 8 (Bits_bitReverse64 (le_val (ptr_read msg switchHeader 0 8)))) in
    let nonceOrHandle := Endian_bigEndianToHost32 (le_val (msg_read msg 0 4)) in
    if nonceOrHandle =? 0xffffffff then
      msg ← Message_eshift msg SwitchHeader_SIZE;
      outs ← ctrlFrame msg;
      Ret (sm, outs)
    else if msg_length msg <? 4 + 20 then Ret (sm, [])
    else
      let length0 := msg_length msg in
      Assert_true (msg_length msg >=? 16);;
      let firstSixteen := msg_read msg 0 16 in
      '(found, sm, outs) ← session_of_packet env sm msg switchHeader nonceOrHandle;
      match found with
      | None => Ret (sm, outs)
      | Some (i, msg) =>
          let currentMessageSetup := nonceOrHandle <=? 3 in
          session ← session_at sm i;
          '(msg, ca, ret) ← CryptoAuth_decrypt (caSession session) (sm_ca sm) msg (now_s env);
          let session := set_ca session ca in
          let sm := put_session sm i session in
          if negb (bool_decide (ret = DecryptErr_NONE)) then
            outs' ← answer_failed msg switchHeader length0 firstSixteen ret ca;
            Ret (sm, outs ++ outs')
          else
            '(sm, outs') ← pass_inside env sm msg switchHeader currentMessageSetup i session;
            Ret (sm, outs ++ outs')
      end.

(** ** Timeouts *)

(** [for (i = 0; i < count; i++)] with [i--] after a removal: every round either
    goes on or removes an entry. *)
Fixpoint checkTimedOutBuffers_loop (fuel : nat) (now i : Z) (map : Map (list Z) BufferedMessage) :
    Map (list Z) BufferedMessage :=
  match fuel with
  | O => map
  | S fuel =>
      match map_entries map !! Z.to_nat i with
      | None => map
      | Some e =>
          if i64 (now - timeSentMilliseconds (e_value e)) <? 10000
          then checkTimedOutBuffers_loop fuel now (i + 1) map
          else checkTimedOutBuffers_loop fuel now i (Map_remove_keys i map).2
      end
  end.
Definition checkTimedOutBuffers (env : Env) (sm : SessionManager) : SessionManager :=
  set_bufMap sm (checkTimedOutBuffers_loop (S (length (map_entries (bufMap sm)))) (now_ms env) 0 (bufMap sm)).

(** One session; [None]: it is gone. *)
Definition checkTimedOutSession (env : Env) (sm : SessionManager) (sess : SMSession) :
    Er (option SMSession * list SMOut) :=
  let now := now_ms env in
  let path := mostRecentValidatedPath sess in
  if i64 (now - timeLastValidated path) >? sessionTimeoutMilliseconds sm then
    out ← sendSession sess path 0xffffffff PFChan_Core_SESSION_ENDED;
    Ret (None, [out])
  else if i64 (now - timeOfLastUsage sess) >? sessionTimeoutMilliseconds sm then Ret (Some (set_usage sess 0), [])
  else if i64 (now - lastSearchTime sess) >=? sessionSearchAfterMilliseconds sm then
    out ← triggerSearch (herIp6 (caSession sess)) (s_version sess);
    Ret (Some (set_search sess (i64 now)), [out])
  else if CryptoAuth_getState (caSession sess) <? CryptoAuth_State_ESTABLISHED then
    outs ← unsetupSession sess;
    Ret (Some sess, outs)
  else Ret (Some sess, []).

(** [for (i = count - 1; i >= 0; i--)]. *)
Fixpoint checkTimedOutSessions_loop (env : Env) (i : nat) (sm : SessionManager) : Er (SessionManager * list SMOut) :=
  match i with
  | O => Ret (sm, [])
  | S i =>
      sess ← session_at sm (Z.of_nat i);
      '(kept, outs) ← checkTimedOutSession env sm sess;
      let sm := match kept with
                | None => set_ifaceMap sm (Map_remove (Z.of_nat i) (ifaceMap sm)).2
                | Some sess => put_session sm (Z.of_nat i) sess
                end in
      '(sm, outs') ← checkTimedOutSessions_loop env i sm;
      Ret (sm, outs ++ outs')
  end.
Definition checkTimedOutSessions (env : Env) (sm : SessionManager) : Er (SessionManager * list SMOut) :=
  checkTimedOutSessions_loop env (length (map_entries (ifaceMap sm))) sm.

Definition periodically (env : Env) (sm : SessionManager) : Er (SessionManager * list SMOut) :=
  '(sm, outs) ← checkTimedOutSessions env sm;
  Ret (checkTimedOutBuffers env sm, outs).

(** ** From the inside *)

(** The fields of the route header at the front of a message. *)
Definition hdr_ip6 (msg : Message) : list Z := msg_read msg 52 16.
Definition hdr_key (msg : Message) : list Z := msg_read msg 0 32.
Definition hdr_label_be (msg : Message) : Z := le_val (msg_read msg 32 8).
Definition hdr_version_be (msg : Message) : Z := le_val (msg_read msg 44 4).
Definition hdr_flags (msg : Message) : Z := get (msg_read msg 48 1) 0.
Definition hdr_contentType (msg : Message) : Z :=
  DataHeader_getContentType (DataHeader_of (msg_read msg RouteHeader_SIZE DataHeader_SIZE)).

Definition bufferPacket (env : Env) (sm : SessionManager) (msg : Message) : Er SessionManager :=
  Assert_true (msg_length msg >=? RouteHeader_SIZE + DataHeader_SIZE);;
  Assert_true (negb (hdr_contentType msg =? ContentType_HYPERBORIADHT));;
  let index := Map_indexForKey (hdr_ip6 msg) (bufMap sm) in
  let sm := if index >? -1 then set_bufMap sm (Map_remove_keys index (bufMap sm)).2 else sm in
  let '(sm, full) :=
    if map_count (bufMap sm) >=? maxBufferedMessages sm then
      let sm := checkTimedOutBuffers env sm in (sm, map_count (bufMap sm) >=? maxBufferedMessages sm)
    else (sm, false) in
  if full then Ret sm
  else
    let '(r, map) := Map_put false (hdr_ip6 msg) (mkBuffered msg (u64 (now_ms env))) (bufMap sm) in
    Assert_true (r >? -1);;
    Ret (set_bufMap sm map).

Definition needsLookup (env : Env) (sm : SessionManager) (msg : Message) : Er (SessionManager * list SMOut) :=
  sm ← bufferPacket env sm msg;
  out ← triggerSearch (hdr_ip6 msg) (Endian_hostToBigEndian32 (hdr_version_be msg));
  Ret (sm, [out]).

(** A zeroed switch header with the label and the version. *)
Definition fresh_switchHeader (label : Z) : Er (list Z) :=
  let sh := with_label_be (mkSwitchHeader 0 0 0 0) (Endian_hostToBigEndian64 label) in
  sh ← SwitchHeader_setVersion sh SwitchHeader_CURRENT_VERSION;
  Ret (SwitchHeader_bytes sh).

(** The packet as CryptoAuth gets it: with the handle in front in a handshake, the
    switch header copied to where the handshake will begin; and the pointer to the
    switch header. *)
Definition to_encrypt (setup : bool) (m : Message) (handle header : Z) : Er (Message * Z) :=
  if setup then
    msg ← Message_epush32be m handle;
    msg ← Message_eshift msg (CryptoHeader_SIZE + SwitchHeader_SIZE);
    let msg := msg_write msg 0 (ptr_read msg header 32 SwitchHeader_SIZE) in
    let sh := msg_bytes msg in
    msg ← Message_eshift msg (- (CryptoHeader_SIZE + SwitchHeader_SIZE));
    Ret (msg, sh)
  else Ret (m, header + 32).

Definition readyToSend (env : Env) (sm : SessionManager) (msg : Message) (i : Z) : Er (SessionManager * list SMOut) :=
  sess ← session_at sm i;
  let header := msg_bytes msg in
  msg ← Message_eshift msg (- RouteHeader_SIZE);
  ca ← CryptoAuth_resetIfTimeout (caSession sess) (now_s env);
  '(msg, sh) ← to_encrypt (CryptoAuth_getState ca <? CryptoAuth_State_RECEIVED_KEY) msg (receiveHandle sess) header;
  let out := u64 (bytesOut sess + msg_length msg) in
  '(msg, ca) ← CryptoAuth_encrypt ca (sm_ca sm) msg (now_s env) (rand36 env) (rand32 env);
  let sess := set_bytes (set_ca sess ca) out (bytesIn sess) in
  msg ← (if CryptoAuth_getState ca >=? CryptoAuth_State_RECEIVED_KEY
         then Message_epush32be msg (sendHandle sess) else Ret msg);
  msg ← Message_eshift msg SwitchHeader_SIZE;
  Assert_true (sh =? msg_bytes msg);;
  msg ← (if le_val (ptr_read msg sh 0 8) =? 0 then
           bs ← fresh_switchHeader (p_label (path0 sess));
           Ret (ptr_write msg sh 0 bs)
         else Ret msg);
  Ret (put_session sm i sess, [SMToSwitch msg]).

Definition outgoingCtrlFrame (sm : SessionManager) (msg : Message) : Er (SessionManager * list SMOut) :=
  Assert_true (msg_length msg >=? RouteHeader_SIZE);;
  if negb (Bits_isZero (hdr_key msg)) || negb (Bits_isZero (hdr_ip6 msg)) then Ret (sm, [])
  else if Z.land (hdr_flags msg) RouteHeader_flags_CTRLMSG =? 0 then Ret (sm, [])
  else
    let sh := msg_read msg 32 SwitchHeader_SIZE in
    '(msg, _) ← Message_epop msg RouteHeader_SIZE;
    msg ← Message_epush32be msg 0xffffffff;
    msg ← Message_epush msg (Some sh) SwitchHeader_SIZE;
    Ret (sm, [SMToSwitch msg]).

(** From the point where the session is known. *)
Definition send_by_session (env : Env) (sm : SessionManager) (msg : Message) (i : Z) : Er (SessionManager * list SMOut) :=
  sess ← session_at sm i;
  let sess := if Z.land (hdr_flags msg) RouteHeader_flags_PATHFINDER =? 0
              then set_usage sess (i64 (now_ms env)) else sess in
  let sess := if negb (hdr_version_be msg =? 0)
              then set_version sess (Endian_bigEndianToHost32 (hdr_version_be msg)) else sess in
  let sm := put_session sm i sess in
  if s_version sess =? 0 then needsLookup env sm msg
  else if (hdr_label_be msg =? 0) && negb (p_metric (path0 sess) <? Metric_DEAD_LINK) then needsLookup env sm msg
  else
    msg ← (if negb (hdr_label_be msg =? 0) then Ret msg
           else bs ← fresh_switchHeader (p_label (path0 sess)); Ret (msg_write msg 32 bs));
    ca ← CryptoAuth_resetIfTimeout (caSession sess) (now_s env);
    let sess := set_ca sess ca in
    let sm := put_session sm i sess in
    if CryptoAuth_getState ca <? CryptoAuth_State_RECEIVED_KEY then
      if hdr_contentType msg =? ContentType_HYPERBORIADHT then
        outs ← (if negb (timeOfLastUsage sess =? 0) then unsetupSession sess else Ret []);
        '(sm, outs') ← readyToSend env sm msg i;
        Ret (sm, outs ++ outs')
      else
        sm ← bufferPacket env sm msg;
        outs ← unsetupSession sess;
        Ret (sm, outs)
    else readyToSend env sm msg i.

Definition incomingFromInsideIf (env : Env) (sm : SessionManager) (msg : Message) : Er (SessionManager * list SMOut) :=
  Assert_true (msg_length msg >=? RouteHeader_SIZE);;
  if negb (Z.land (hdr_flags msg) RouteHeader_flags_CTRLMSG =? 0) then outgoingCtrlFrame sm msg
  else
    Assert_true (msg_length msg >=? RouteHeader_SIZE + DataHeader_SIZE);;
    '(found, sm) ← sessionForIp6 (hdr_ip6 msg) sm;
    match found with
    | Some i => send_by_session env sm msg i
    | None =>
        if negb (Bits_isZero (hdr_key msg)) && negb (hdr_version_be msg =? 0) then
          '(i, sm, outs) ← getSession env sm (hdr_ip6 msg) (hdr_key msg)
            (Endian_bigEndianToHost32 (hdr_version_be msg)) (Endian_bigEndianToHost64 (hdr_label_be msg))
            (if negb (hdr_label_be msg =? 0) then Metric_SM_SEND else Metric_DEAD_LINK);
          '(sm, outs') ← send_by_session env sm msg i;
          Ret (sm, outs ++ outs')
        else needsLookup env sm msg
    end.

(** ** From the pathfinder *)

Fixpoint sessions_loop (sourcePf : Z) (es : list (Entry (list Z) SMSession)) : Er (list SMOut) :=
  match es with
  | [] => Ret []
  | e :: es =>
      out ← sendSession (e_value e) (path0 (e_value e)) sourcePf PFChan_Core_SESSION;
      outs ← sessions_loop sourcePf es;
      Ret (out :: outs)
  end.

Definition incomingFromEventIf (env : Env) (sm : SessionManager) (msg : Message) : Er (SessionManager * list SMOut) :=
  '(msg, ev) ← Message_epop32be msg;
  '(msg, sourcePf) ← Message_epop32be msg;
  if ev =? PFChan_Pathfinder_SESSIONS then
    Assert_true (msg_length msg =? 0);;
    outs ← sessions_loop sourcePf (map_entries (ifaceMap sm));
    Ret (sm, outs)
  else
    Assert_true (ev =? PFChan_Pathfinder_NODE);;
    '(msg, bs) ← Message_epop msg PFChan_Node_SIZE;
    let node := PFChan_Node_of bs in
    Assert_true (msg_length msg =? 0);;
    let index := Map_indexForKey (nd_ip6 node) (bufMap sm) in
    '(found, sm) ← sessionForIp6 (nd_ip6 node) sm;
    if bool_decide (found = None) && ((index =? -1) || (nd_metric_be node =? Metric_DEAD_LINK)) then Ret (sm, [])
    else
      '(i, sm, outs) ← getSession env sm (nd_ip6 node) (nd_publicKey node)
        (Endian_bigEndianToHost32 (nd_version_be node)) (Endian_bigEndianToHost64 (nd_path_be node))
        (Endian_bigEndianToHost32 (nd_metric_be node));
      sess ← session_at sm i;
      if (index >? -1) && (CryptoAuth_getState (caSession sess) >=? CryptoAuth_State_RECEIVED_KEY) then
        match map_entries (bufMap sm) !! Z.to_nat index with
        | None => Abort "invalid pointer"
        | Some bm =>
            '(sm, outs') ← readyToSend env sm (b_msg (e_value bm)) i;
            Ret (set_bufMap sm (Map_remove_keys index (bufMap sm)).2, outs ++ outs')
        end
      else Ret (sm, outs).
End Manager.
