(* ===== verification/SessionProofs.v ===== *)
(** * The session manager: invariant and safety

    [sm_ok] is the invariant: the maps are well formed, every session belongs to
    the address it is filed under, its CryptoAuth session is sound, its first path
    is usable or marked dead.  [session_manager_safe] runs any sequence of packets
    from the switch, packets from the inside, events and timer ticks. *)
From Stdlib Require Import Sorted.
From stdpp Require Import gmap.
From S2P Require Import Prelude Bits Message Checksum MsgAt Headers RouteHeader PFChan Nacl Key.
From S2P Require Import ReplayProtector CryptoAuth CryptoAuthProofs CryptoFrame HandleMap SessionManager.

#[local] Instance ip6_laws : MapKeyLaws (list Z) := mem_key_laws 16.

(** ** Maps with keys and handles *)

Section Maps.
Context {V : Type}.
Implicit Types map : Map (list Z) V.

(** What the laws look at. *)
Definition shape map : list (Z * list Z * Z) := (fun e => (e_hash e, e_key e, e_handle e)) <$> map_entries map.

Lemma same_shape_ok map map' : shape map' = shape map -> map_nextHandle map' = map_nextHandle map ->
  keys_ok map -> handles_ok map -> keys_ok map' /\ handles_ok map'.
Proof.
  intros Hs Hn (Hd & Hf & Hc) (Hso & Hb & Hfit & _). unfold shape in Hs.
  assert (length (map_entries map') = length (map_entries map)) as Hl.
  { apply (f_equal length) in Hs. by rewrite !length_fmap in Hs. }
  assert (forall B (f : Z * list Z * Z -> B),
    (fun e => f (e_hash e, e_key e, e_handle e)) <$> map_entries map' =
    (fun e => f (e_hash e, e_key e, e_handle e)) <$> map_entries map) as Hproj.
  { intros B f. pose proof (f_equal (fmap f) Hs) as H. by rewrite <- !list_fmap_compose in H. }
  assert (forall P : Z * list Z * Z -> Prop, Forall (fun e => P (e_hash e, e_key e, e_handle e)) (map_entries map) ->
    Forall (fun e => P (e_hash e, e_key e, e_handle e)) (map_entries map')) as Hall.
  { intros P H. apply (Forall_fmap (fun e => (e_hash e, e_key e, e_handle e)) P). rewrite Hs.
    by apply (Forall_fmap (fun e => (e_hash e, e_key e, e_handle e)) P). }
  pose proof (Hproj _ (fun t => t.1.2)) as Hk. pose proof (Hproj _ (fun t => t.2)) as Hh. cbn in Hk, Hh.
  split; [split; [|split]|split; [|split; [|split]]].
  - change (NoDup ((fun e => e_key e) <$> map_entries map')). rewrite Hk. exact Hd.
  - apply (Hall (fun t => key_wf t.1.2 /\ t.1.1 = key_hash t.1.2)). exact Hf.
  - unfold map_count. by rewrite Hl.
  - change (StronglySorted Z.lt ((fun e => e_handle e) <$> map_entries map')). rewrite Hh. exact Hso.
  - rewrite Hn. apply (Hall (fun t => 0 <= t.2 < map_nextHandle map)). exact Hb.
  - by rewrite Hn.
  - unfold map_count. rewrite Hl. apply Hc.
Qed.
End Maps.

(** ** The invariant *)

Definition path_known (p : Path) : Prop := p_label p <> 0 \/ p_metric p = Metric_DEAD_LINK.

(** A path as seen at the time [t]: validated before, or never used. *)
Definition path_ok (t : Z) (p : Path) : Prop :=
  0 <= timeLastValidated p <= t /\ fits 32 (p_metric p) /\ fits 64 (p_label p) /\ (p = no_path \/ path_known p).
Definition paths_ok (t : Z) (ps : list Path) : Prop :=
  length ps = 3%nat /\ Forall (path_ok t) ps /\ path_known (default no_path (ps !! 0%nat)).

Section Invariant.
Context {N : Nacl}.

(** [n]: how many more calls the counters allow; [t]: the clock so far. *)
Definition entry_ok (n t : Z) (e : Entry (list Z) SMSession) : Prop :=
  let ca := caSession (e_value e) in
  e_key e = (AddressCalc_addressForPublicKey (herPublicKey ca)).2 /\ herIp6 ca = e_key e /\
  session_ok ca /\ nextNonce ca + 3 * n < 0xfffffff0 /\ paths_ok t (paths (e_value e)).

(** A packet with a route and a data header and room for a handshake in front. *)
Definition inside_msg (m : Message) : Prop :=
  exists a pre c post, msg_at m a pre c post /\ 72 <= len c /\ 72 <= len pre /\ a mod 4 = 0 /\ bytes c.

Record sm_ok (n t : Z) (sm : SessionManager) : Prop := {
  ok_keys : keys_ok (ifaceMap sm);
  ok_handles : handles_ok (ifaceMap sm);
  ok_buffers : keys_ok (bufMap sm);
  ok_entries : Forall (entry_ok n t) (map_entries (ifaceMap sm));
  ok_packets : Forall (fun e => inside_msg (b_msg (e_value e))) (map_entries (bufMap sm));
  ok_ca : ca_ok (sm_ca sm);
  ok_room : 3 * n < 0xfffffff0;
  ok_handle_room : map_nextHandle (ifaceMap sm) + n < 2 ^ 32 - 1;
  ok_count_room : map_count (ifaceMap sm) + n < 2 ^ 31 - 1;
  ok_buf_max : map_count (bufMap sm) <= maxBufferedMessages sm;
  ok_max : maxBufferedMessages sm = 30;
}.

Lemma paths_ok_mono t t' ps : t <= t' -> paths_ok t ps -> paths_ok t' ps.
Proof.
  intros Ht (Hl & Hf & H0). split; [done|]. split; [|done]. eapply Forall_impl; [done|].
  intros p (H1 & H2). split; [lia|done].
Qed.

Lemma entry_ok_mono n n' t t' e : n' <= n -> t <= t' -> entry_ok n t e -> entry_ok n' t' e.
Proof.
  intros Hn Ht (H1 & H2 & H3 & H4 & H5). split; [done|]. split; [done|]. split; [done|]. split; [lia|].
  by apply paths_ok_mono with t.
Qed.

Lemma sm_ok_mono n n' t t' sm : n' <= n -> t <= t' -> sm_ok n t sm -> sm_ok n' t' sm.
Proof.
  intros Hn Ht []. split; try done; try lia. eapply Forall_impl; [done|]. intros e. by apply entry_ok_mono.
Qed.

Lemma sm_ok_entry n t sm i e : sm_ok n t sm -> entry_at sm i = Some e -> entry_ok n t e.
Proof. intros Hok He. eapply Forall_lookup_1; [apply (ok_entries n t sm Hok)|exact He]. Qed.

(** An update of the session in an entry. *)
Definition with_session (e : Entry (list Z) SMSession) (s : SMSession) : Entry (list Z) SMSession :=
  mkEntry (e_hash e) (e_key e) (e_handle e) s.

Lemma entry_put sm i e s : entry_at sm i = Some e -> entry_at (put_session sm i s) i = Some (with_session e s).
Proof. intros He. unfold entry_at, put_session in *. cbn. by rewrite list_lookup_alter_eq, He. Qed.

Lemma put_session_ok n t sm i e s : sm_ok n t sm -> entry_at sm i = Some e -> entry_ok n t (with_session e s) ->
  sm_ok n t (put_session sm i s).
Proof.
  intros Hok He Hs. pose proof Hok as [].
  destruct (same_shape_ok (ifaceMap sm) (ifaceMap (put_session sm i s))) as [Hk Hh]; try done.
  { unfold shape, put_session. cbn. rewrite (list_fmap_alter _ _ (fun t => t)); [|by apply Forall_true].
    by apply list_alter_id. }
  split; try done.
  - unfold put_session. cbn. apply Forall_alter; [done|]. intros e' He' _. unfold entry_at in He. simplify_eq. exact Hs.
  - unfold put_session, map_count. cbn. by rewrite length_alter.
Qed.

Lemma session_at_entry sm i e : entry_at sm i = Some e -> session_at sm i = Ret (e_value e).
Proof. intros He. unfold session_at. by rewrite He. Qed.

(** The invariant survives CryptoAuth: the peer stays, the nonce moves by at most 3. *)
Lemma entry_ok_ca n t e ca : entry_ok n t e -> same_peer (caSession (e_value e)) ca -> session_ok ca ->
  nextNonce ca <= nextNonce (caSession (e_value e)) + 3 -> entry_ok (n - 1) t (with_session e (set_ca (e_value e) ca)).
Proof.
  intros (H1 & H2 & H3 & H4 & H5) [Hp1 Hp2] Hs Hn. unfold entry_ok. cbn [with_session e_key e_value caSession set_ca paths].
  rewrite Hp1, Hp2. split_and!; try done. lia.
Qed.

(** ** Paths *)

Definition env_ok (env : Env) : Prop :=
  Metric_NO_INFO <= now_ms env < 2 ^ 62 /\ length (rand36 env) = 36%nat /\ Bits_isZero (rand32 env) = false.

Lemma host64_fits x : fits 64 (Endian_bigEndianToHost64 x).
Proof. exact (bswap_fits 8 (u64 x)). Qed.

Lemma i64_id z : - 2 ^ 63 <= z < 2 ^ 63 -> i64 z = z.
Proof. intros Hz. unfold i64. rewrite Z.mod_small by lia. lia. Qed.

(** The age is added to the metric, up to [Metric_NO_INFO]. *)
Lemma effectiveMetric_spec now p : 0 <= timeLastValidated p <= now -> now < 2 ^ 62 -> fits 32 (p_metric p) ->
  effectiveMetric now p = Z.min Metric_NO_INFO (now - timeLastValidated p + p_metric p).
Proof.
  intros Ht Hn Hm. unfold effectiveMetric, fits in *. change (2 ^ 32) with 4294967296 in Hm.
  change (2 ^ 62) with 4611686018427387904 in Hn.
  assert (2 ^ 63 = 9223372036854775808) as E by done. rewrite (i64_id (now - _)) by lia. rewrite i64_id by lia.
  destruct (Z.gtb_spec (now - timeLastValidated p + p_metric p) Metric_NO_INFO); [lia|].
  unfold u32, Metric_NO_INFO in *. change (2 ^ 32) with 4294967296. rewrite Z.mod_small by lia. lia.
Qed.

(** An unused path never looks better than any other. *)
Lemma no_path_worst now : Metric_NO_INFO <= now < 2 ^ 62 -> effectiveMetric now no_path = Metric_NO_INFO.
Proof.
  intros Hn. rewrite effectiveMetric_spec; cbn [no_path timeLastValidated p_metric]; unfold Metric_NO_INFO in *; lia || done.
Qed.

(** The loop keeps its candidate or finds the first of the best paths. *)
Lemma bestPath_spec now ps : forall bestEm bestI i,
  let j := bestPath_loop now bestEm bestI i ps in
  j = bestI /\ (forall k p, ps !! k = Some p -> bestEm <= effectiveMetric now p) \/
  exists k p, j = (i + k)%nat /\ ps !! k = Some p /\ effectiveMetric now p < bestEm /\
    forall k' p', ps !! k' = Some p' -> effectiveMetric now p <= effectiveMetric now p' /\
      ((k' < k)%nat -> effectiveMetric now p < effectiveMetric now p').
Proof.
  induction ps as [|p ps IH]; intros bestEm bestI i; cbn [bestPath_loop]; [by left|].
  destruct (Z.ltb_spec (effectiveMetric now p) bestEm) as [Hlt|Hge].
  - right. destruct (IH (effectiveMetric now p) i (S i)) as [[-> Hall]|(k & q & -> & Hk & Hq & Hall)].
    + exists 0%nat, p. split; [lia|]. split; [done|]. split; [done|].
      intros [|k'] p' Hp'; [simplify_eq/=; split; [lia|lia]|split; [eauto|lia]].
    + exists (S k), q. split; [lia|]. split; [done|]. split; [lia|].
      intros [|k'] p' Hp'; [simplify_eq/=; split; intros; lia|]. destruct (Hall k' p' Hp'). split; [done|]. intros. apply H0. lia.
  - destruct (IH bestEm bestI (S i)) as [[-> Hall]|(k & q & -> & Hk & Hq & Hall)].
    + left. split; [done|]. intros [|k'] p' Hp'; [by simplify_eq/=|eauto].
    + right. exists (S k), q. split; [lia|]. split; [done|]. split; [done|].
      intros [|k'] p' Hp'; [simplify_eq/=; split; intros; lia|]. destruct (Hall k' p' Hp'). split; [done|]. intros. apply H0. lia.
Qed.

Lemma rerank_ok now s : Metric_NO_INFO <= now < 2 ^ 62 -> paths_ok now (paths s) ->
  paths_ok now (paths (rerankPaths now s)).
Proof.
  intros Hnow (Hl & Hf & H0). unfold rerankPaths.
  destruct (bestPath_spec now (paths s) Metric_DEAD_LINK 0 0) as [[-> _]|(k & p & -> & Hk & Hlt & Hall)]; [done|].
  cbn [Nat.add]. destruct k as [|k]; [done|]. cbn [Nat.eqb negb]. unfold path0, path_at. rewrite Hk.
  cbn [default set_paths paths from_option id].
  assert (path_ok now p) as Hp by by eapply Forall_lookup_1.
  destruct (paths s) as [|p0 ps] eqn:Eps; [done|]. cbn [lookup list_lookup from_option id] in *.
  apply Forall_cons in Hf as [Hp0 Hf]. split; [by rewrite !length_insert|]. split.
  - apply Forall_insert; [|done]. cbn. by apply Forall_cons.
  - cbn. destruct Hp as (Ht & Hm & _ & [->|Hk']); [|done]. exfalso.
    destruct (Hall 0%nat p0 eq_refl) as [_ Hs]. specialize (Hs ltac:(lia)). rewrite no_path_worst in Hs by done.
    destruct Hp0 as (Ht0 & Hm0 & _). rewrite effectiveMetric_spec in Hs by (lia || done). lia.
Qed.
End Invariant.

(** ** Secrets

    No established session of the manager has an all-zero secret: what
    [CryptoAuth_decrypt] asserts.  The work in front of the decryption keeps it. *)

Definition secrets (sm : SessionManager) : Prop :=
  Forall (fun e => agreed (caSession (e_value e))) (map_entries (ifaceMap sm)).

#[export] Instance secrets_dec sm : Decision (secrets sm).
Proof. unfold secrets. apply _. Defined.

Section Secrets.
Context {N : Nacl} (malloc : Z -> Z * list Z).

Lemma secrets_at sm i e : secrets sm -> entry_at sm i = Some e -> agreed (caSession (e_value e)).
Proof. intros Hs He. by eapply (Forall_lookup_1 _ _ _ _ Hs). Qed.

Lemma secrets_put sm i s : secrets sm -> agreed (caSession s) -> secrets (put_session sm i s).
Proof. intros Hs Ha. unfold secrets, put_session. cbn. by apply Forall_alter. Qed.

Lemma secrets_check sm i sm' : check sm i = Ret sm' -> secrets sm -> secrets sm'.
Proof.
  unfold check. intros H Hs. destruct (entry_at sm i) as [e|] eqn:He; [|done]. repeat case_match; er_inv; try done.
  apply secrets_put; [done|]. by apply (secrets_at sm i e).
Qed.

Lemma secrets_sessionForIp6 ip6 sm r sm' : sessionForIp6 ip6 sm = Ret (r, sm') -> secrets sm -> secrets sm'.
Proof. unfold sessionForIp6. intros H Hs. case_match; er_inv; [done|]. by eapply secrets_check. Qed.

Lemma secrets_sessionForHandle h sm r sm' : sessionForHandle h sm = Ret (r, sm') -> secrets sm -> secrets sm'.
Proof. unfold sessionForHandle. intros H Hs. case_match; er_inv; [done|]. by eapply secrets_check. Qed.

Lemma secrets_Map_put sm b key sess i map : Map_put b key sess (ifaceMap sm) = (i, map) -> secrets sm ->
  agreed (caSession sess) -> secrets (set_ifaceMap sm map).
Proof.
  intros E Hs Ha. unfold Map_put in E. assert (map_entries (Map_grow (ifaceMap sm)) = map_entries (ifaceMap sm)) as Eg.
  { unfold Map_grow. by destruct (_ =? _). }
  unfold secrets. case_match; injection E as _ <-; cbn; rewrite Eg.
  - apply Forall_app. split; [done|]. by apply Forall_singleton.
  - case_match; [|done]. by apply Forall_insert.
Qed.

Lemma discoverPath_ca now sess label metric sess' better outs :
  discoverPath malloc now sess label metric = Ret (sess', better, outs) -> caSession sess' = caSession sess.
Proof.
  assert (forall s, caSession (rerankPaths now s) = caSession s) as Hr by (intros s; unfold rerankPaths; by case_match).
  unfold discoverPath. intros H. repeat case_match; er_inv; try done; by rewrite Hr.
Qed.

Lemma secrets_getSession env sm ip6 key v l mt i sm' outs :
  getSession malloc env sm ip6 key v l mt = Ret (i, sm', outs) -> secrets sm -> secrets sm'.
Proof.
  unfold getSession. intros H Hs. er_inv. match goal with H : sessionForIp6 _ _ = Ret ?x |- _ => destruct x as [r sm1] end.
  match goal with H : sessionForIp6 _ _ = _ |- _ => apply secrets_sessionForIp6 in H; [|done] end.
  destruct r as [k|]; er_inv.
  - match goal with H : session_at _ ?k = Ret _ |- _ => unfold session_at in H; destruct (entry_at sm1 k) as [e|] eqn:He; [|done]; injection H as <- end.
    match goal with H : discoverPath _ _ _ _ _ = Ret ?x |- _ => destruct x as [[s better] o]; apply discoverPath_ca in H as Eca end.
    er_inv. apply secrets_put; [done|]. apply (secrets_at sm1 _ e) in He; [|done]. by destruct better; cbn in *; rewrite Eca.
  - destruct (Map_put _ _ _ _) as [j map] eqn:Eput. er_inv.
    assert (agreed (CryptoAuth_newSession key false (now_s env))) as Hnew by (apply agreed_idle; reflexivity).
    apply secrets_Map_put in Eput; [|done..].
    match goal with H : check _ _ = _ |- _ => apply secrets_check in H; [done|] end.
    by apply secrets_put.
Qed.

Lemma resetIfTimeout_agreed s now s' : resetIfTimeout s now = Ret s' -> agreed s -> agreed s'.
Proof. unfold resetIfTimeout. intros H Ha. repeat case_match; er_inv; try done; by apply agreed_idle. Qed.

Lemma secrets_session_of_packet env sm m sh noh found sm' outs :
  session_of_packet malloc env sm m sh noh = Ret (found, sm', outs) -> secrets sm -> secrets sm'.
Proof.
  unfold session_of_packet. intros H Hs. case_match; er_inv.
  - match goal with H : sessionForHandle _ _ = Ret ?x |- _ => destruct x as [r sm1]; apply secrets_sessionForHandle in H; [|done] end.
    destruct r; er_inv; [|done]. case_match; er_inv; done.
  - case_match; er_inv; [done|]. destruct (AddressCalc_addressForPublicKey _) as [valid ip6]. repeat (case_match; er_inv; [done|]).
    match goal with H : getSession _ _ _ _ _ _ _ _ = Ret ?x |- _ => destruct x as [[i sm1] o]; apply secrets_getSession in H; [|done] end.
    er_inv. match goal with H : session_at _ ?k = Ret _ |- _ => unfold session_at in H; destruct (entry_at sm1 k) as [e|] eqn:He; [|done]; injection H as <- end.
    apply secrets_put; [done|]. apply (secrets_at sm1 _ e) in He; [|done]. by eapply resetIfTimeout_agreed.
Qed.
End Secrets.

(** ** Events always go out *)

Section Safety.
Context {N : Nacl} {L : NaclLaws N} (malloc : Z -> Z * list Z) (Hmalloc : malloc_ok malloc).
#[local] Set Default Proof Using "All".

Lemma new_pos padding addr mem : 0 <= padding < 2 ^ 31 -> pos (Message_new 0 padding addr mem) addr 0 padding padding.
Proof. intros Hp. unfold pos, Message_new. cbn. rewrite !i32_small by lia. split_and!; lia. Qed.

Lemma event_msg_ret padding node pf ev : 72 <= padding < 2 ^ 31 -> exists m, event_msg malloc padding node pf ev = Ret m.
Proof.
  intros Hp. unfold event_msg. destruct (malloc padding) as [addr mem].
  pose proof (new_pos padding addr mem ltac:(lia)) as H0.
  destruct (pos_epush _ _ _ _ _ (Some node) PFChan_Node_SIZE H0) as (m1 & -> & H1); [unfold PFChan_Node_SIZE; lia..|].
  cbn [mbind Er_bind]. destruct (pos_epush32be _ _ _ _ _ pf H1) as (m2 & -> & H2); [unfold PFChan_Node_SIZE; lia..|].
  cbn [mbind Er_bind]. destruct (pos_epush32be _ _ _ _ _ ev H2) as (m3 & -> & _); [unfold PFChan_Node_SIZE; lia..|].
  by eexists.
Qed.

Lemma sendSession_ret sess path pf ev : exists out, sendSession malloc sess path pf ev = Ret out.
Proof.
  unfold sendSession. destruct (event_msg_ret (PFChan_Node_SIZE + 512)
    (PFChan_Node_bytes (mkNode (herIp6 (caSession sess)) (herPublicKey (caSession sess))
    (Endian_hostToBigEndian64 (p_label path)) (Endian_bigEndianToHost32 (p_metric path))
    (Endian_hostToBigEndian32 (s_version sess)))) pf ev) as (m & ->); [unfold PFChan_Node_SIZE; lia|].
  by eexists.
Qed.

Lemma triggerSearch_ret target version : exists out, triggerSearch malloc target version = Ret out.
Proof.
  unfold triggerSearch. destruct (malloc 512) as [addr mem].
  pose proof (new_pos 512 addr mem ltac:(lia)) as H0.
  destruct (pos_epush32be _ _ _ _ _ version H0) as (m1 & -> & H1); [lia..|]. cbn [mbind Er_bind].
  destruct (pos_epush32be _ _ _ _ _ 0 H1) as (m2 & -> & H2); [lia..|]. cbn [mbind Er_bind].
  destruct (pos_epush _ _ _ _ _ (Some target) 16 H2) as (m3 & -> & H3); [lia..|]. cbn [mbind Er_bind].
  destruct (pos_epush32be _ _ _ _ _ 0xffffffff H3) as (m4 & -> & H4); [lia..|]. cbn [mbind Er_bind].
  destruct (pos_epush32be _ _ _ _ _ PFChan_Core_SEARCH_REQ H4) as (m5 & -> & H5); [lia..|]. by eexists.
Qed.

Lemma hostToBig64_nonzero x : fits 64 x -> x <> 0 -> Endian_hostToBigEndian64 x <> 0.
Proof.
  intros Hx Hn He. apply Hn. unfold Endian_hostToBigEndian64, Endian_byteSwap64, u64 in He.
  rewrite (fits_small 64) in He by done. rewrite <- (bswap_involutive 8 x Hx), He. reflexivity.
Qed.

Lemma unsetupSession_ret sess : path_known (path0 sess) -> fits 64 (p_label (path0 sess)) ->
  exists outs, unsetupSession malloc sess = Ret outs.
Proof.
  intros Hk Hf. unfold unsetupSession. destruct (_ =? 0); [by eexists|]. cbn [orb].
  destruct (Z.eqb_spec (p_metric (path0 sess)) Metric_DEAD_LINK) as [|Hm]; [by eexists|].
  destruct Hk as [Hk|]; [|done].
  rewrite (proj2 (Z.eqb_neq _ 0)) by by apply hostToBig64_nonzero. cbn [negb Assert_true mbind Er_bind].
  destruct (event_msg_ret 512 (PFChan_Node_bytes (mkNode (herIp6 (caSession sess)) (herPublicKey (caSession sess))
    (Endian_hostToBigEndian64 (p_label (path0 sess))) (Endian_bigEndianToHost32 (p_metric (path0 sess)))
    (Endian_hostToBigEndian32 (s_version sess)))) 0xffffffff PFChan_Core_UNSETUP_SESSION) as (m & ->); [lia|].
  by eexists.
Qed.

(** ** Sessions are found and made *)

Lemma pathForLabel_Some sess label i : pathForLabel sess label = Some i -> p_label (path_at sess i) = label.
Proof.
  unfold pathForLabel, path_at.
  enough (forall ps k i, pathForLabel_loop label k ps = Some i -> (k <= i)%nat /\ p_label (default no_path (ps !! (i - k)%nat)) = label) as H.
  { intros [_ Hi]%H. by rewrite Nat.sub_0_r in Hi. }
  induction ps as [|p ps IH]; intros k j; cbn [pathForLabel_loop]; [done|].
  destruct (Z.eqb_spec (p_label p) label) as [E|E].
  - intros [= <-]. split; [lia|]. by rewrite Nat.sub_diag.
  - intros [Hk Hj]%IH. split; [lia|]. replace (j - k)%nat with (S (j - S k)) by lia. exact Hj.
Qed.

Lemma discoverPath_ok now sess label metric : Metric_NO_INFO <= now < 2 ^ 62 -> paths_ok now (paths sess) ->
  fits 64 label -> fits 32 metric ->
  exists ps better outs, discoverPath malloc now sess label metric = Ret (set_paths sess ps, better, outs) /\
    paths_ok now ps.
Proof.
  intros Hnow Hok Hl Hm. unfold discoverPath.
  assert (set_paths sess (paths sess) = sess) as Hid by by destruct sess.
  destruct (Z.eqb_spec label 0) as [|Hl0]; [exists (paths sess); rewrite Hid; by eexists _, _|].
  assert (forall i p, p_label p = label -> p_metric p = metric -> timeLastValidated p = i64 now ->
    paths_ok now (<[i := p]> (paths sess))) as Hins.
  { intros i p H1 H2 H3. destruct Hok as (Hlen & Hf & H0). rewrite i64_id in H3 by (unfold Metric_NO_INFO in *; lia).
    assert (path_ok now p) as Hp.
    { unfold Metric_NO_INFO in *. split; [lia|]. split; [by rewrite H2|]. split; [by rewrite H1|]. right. left. by rewrite H1. }
    split; [by rewrite length_insert|]. split; [by apply Forall_insert|].
    destruct i; [|by rewrite list_lookup_insert_ne].
    rewrite list_lookup_insert_eq by lia. left. cbn. by rewrite H1. }
  assert (forall ps, paths_ok now ps -> exists ps', rerankPaths now (set_paths sess ps) = set_paths sess ps' /\ paths_ok now ps')
    as Hrr.
  { intros ps Hps. exists (paths (rerankPaths now (set_paths sess ps))). split; [|by apply rerank_ok].
    unfold rerankPaths. by case_match. }
  destruct (pathForLabel sess label) as [i|] eqn:Ei.
  - destruct (_ && _); [exists (paths sess); rewrite Hid; by eexists _, _|].
    destruct (Hrr (<[i := mkPath (i64 now) (p_label (path_at sess i)) metric]> (paths sess))) as (ps' & -> & Hps').
    { apply Hins; [|done..]. cbn. by apply pathForLabel_Some. }
    by eexists _, _, _.
  - destruct (_ <=? _); [exists (paths sess); rewrite Hid; by eexists _, _|].
    destruct (Hrr (<[worstPath now sess := mkPath (i64 now) label metric]> (paths sess))) as (ps' & -> & Hps'); [by apply Hins|].
    destruct (_ =? label); [|by eexists _, _, _].
    destruct (sendSession_ret (set_paths sess ps') (path0 (set_paths sess ps')) 0xffffffff PFChan_Core_DISCOVERED_PATH)
      as (out & ->). by eexists _, _, _.
Qed.

Lemma check_ok n t sm i e : sm_ok n t sm -> entry_at sm i = Some e ->
  exists sm' e', check sm i = Ret sm' /\ sm_ok n t sm' /\ entry_at sm' i = Some e'.
Proof.
  intros Hok He. unfold check. rewrite He. pose proof (sm_ok_entry n t sm i e Hok He) as (Hkey & Hrest).
  destruct (foundKey (e_value e)); [by eexists _, _|]. destruct (negb _); [|by eexists _, _].
  rewrite Hkey, memcmp_refl. cbn [Z.eqb Assert_true mbind Er_bind].
  eexists _, _. split; [done|]. split; [|by apply entry_put].
  apply put_session_ok with e; [done|done|]. by split.
Qed.

(** A pointer to a session: an index of the map. *)
Definition points (sm : SessionManager) (r : option Z) : Prop :=
  match r with Some i => exists e, entry_at sm i = Some e | None => True end.

Lemma sessionForHandle_ok n t sm h : sm_ok n t sm ->
  exists r sm', sessionForHandle h sm = Ret (r, sm') /\ sm_ok n t sm' /\ points sm' r.
Proof.
  intros Hok. unfold sessionForHandle.
  pose proof (indexForHandle_lookup (ifaceMap sm) (u32 (h - firstHandle sm)) (ok_handles n t sm Hok)) as Hix.
  destruct (hmap _ !! _); [|rewrite Hix; by eexists None, sm].
  destruct Hix as (i & e & Hi & _ & _ & ->). rewrite (proj2 (Z.ltb_ge _ 0)) by lia.
  destruct (check_ok n t sm (Z.of_nat i) e Hok) as (sm' & e' & -> & Hok' & He'); [unfold entry_at; by rewrite Nat2Z.id|].
  cbn [mbind Er_bind]. eexists (Some _), sm'. split; [done|]. split; [done|]. by exists e'.
Qed.

(** Looking an address up: the session with that key, or none. *)
Lemma sessionForIp6_ok n t sm ip6 : sm_ok n t sm -> length ip6 = 16%nat ->
  exists r sm', sessionForIp6 ip6 sm = Ret (r, sm') /\ sm_ok n t sm' /\ points sm' r /\
    (r = None -> sm' = sm /\ Map_indexForKey ip6 (ifaceMap sm) = -1).
Proof.
  intros Hok Hip. unfold sessionForIp6.
  pose proof (indexForKey_lookup (ifaceMap sm) ip6 (ok_keys n t sm Hok) Hip) as Hix.
  destruct (kmap _ !! _); [|rewrite Hix; by eexists None, sm].
  destruct Hix as (i & e & Hi & _ & _ & ->). rewrite (proj2 (Z.eqb_neq _ _)) by lia.
  destruct (check_ok n t sm (Z.of_nat i) e Hok) as (sm' & e' & -> & Hok' & He'); [unfold entry_at; by rewrite Nat2Z.id|].
  cbn [mbind Er_bind]. eexists (Some _), sm'. split; [done|]. split; [done|]. split; [by exists e'|done].
Qed.

(** The caller gives an address, and the key for it unless there is a session. *)
Definition node_ok (ip6 key : list Z) : Prop :=
  length key = 32%nat /\ Bits_isZero key = false /\ (AddressCalc_addressForPublicKey key).2 = ip6.

Lemma new_session_ok n env ip6 key label metric version handle hash h found : env_ok env ->
  node_ok ip6 key -> fits 64 label -> fits 32 metric -> (label = 0 -> metric = Metric_DEAD_LINK) -> 3 * n < 0xfffffff0 ->
  entry_ok n (now_ms env) (mkEntry hash ip6 h
    (mkSMSession (CryptoAuth_newSession key false (now_s env)) (mkPath (i64 (now_ms env)) label metric :: replicate 2 no_path)
       0 0 0 0 handle 0 version found)).
Proof.
  intros ([Hn1 Hn2] & _) (Hk & Hz & Ha) Hl Hm Hd Hb. unfold Metric_NO_INFO in Hn1.
  unfold entry_ok. cbn [e_key e_value caSession paths CryptoAuth_newSession herPublicKey herIp6].
  rewrite take_ge by lia. split; [done|]. split; [done|]. split; [by apply newSession_ok|]. split; [cbn; lia|].
  split; [done|]. rewrite i64_id by lia. split; [|].
  - apply Forall_cons. split; [|apply Forall_replicate; split; [cbn; lia|]; split; [done|]; split; [done|by left]].
    split; [cbn; lia|]. split; [done|]. split; [done|]. right. unfold path_known. cbn.
    destruct (decide (label = 0)); [right; auto|by left].
  - unfold path_known. cbn. destruct (decide (label = 0)); [right; auto|by left].
Qed.

Lemma getSession_ok n env sm ip6 key version label metric : sm_ok n (now_ms env) sm -> 1 <= n -> env_ok env ->
  length ip6 = 16%nat -> AddressCalc_validAddress ip6 = true -> fits 64 label -> fits 32 metric ->
  (Map_indexForKey ip6 (ifaceMap sm) = -1 -> node_ok ip6 key) ->
  exists i sm' outs, getSession malloc env sm ip6 key version label metric = Ret (i, sm', outs) /\
    sm_ok (n - 1) (now_ms env) sm' /\ points sm' (Some i).
Proof.
  intros Hok Hn Henv Hip Hvalid Hl Hm Hnode. unfold getSession. rewrite Hvalid. cbn [Assert_true mbind Er_bind].
  set (metric' := if label =? 0 then _ else metric).
  assert (fits 32 metric' /\ (label = 0 -> metric' = Metric_DEAD_LINK)) as [Hm' Hdead].
  { unfold metric'. destruct (Z.eqb_spec label 0); [by split|]. split; [done|lia]. }
  destruct (sessionForIp6_ok n _ sm ip6 Hok Hip) as (r & sm1 & -> & Hok1 & Hp & Hnone). cbn [mbind Er_bind].
  destruct r as [i|].
  - destruct Hp as (e & He). rewrite (session_at_entry _ _ _ He). cbn [mbind Er_bind].
    pose proof (sm_ok_entry _ _ _ _ _ Hok1 He) as (Hkey & Hip6 & Hses & Hnon & Hpaths).
    set (sess := set_version _ _).
    destruct (discoverPath_ok (now_ms env) sess label metric') as (ps & better & outs & -> & Hps);
      [apply Henv|done|done|done|]. cbn [mbind Er_bind].
    eexists _, _, _. split; [done|]. split; [|eexists; by apply entry_put].
    apply (sm_ok_mono n (n - 1) (now_ms env) (now_ms env)); [lia|lia|]. apply put_session_ok with e; [done|done|].
    by destruct better.
  - destruct (Hnone eq_refl) as [-> Hix]. specialize (Hnode Hix). pose proof Hnode as (Hk32 & Hkz & Hka).
    rewrite Hkz. cbn [negb]. rewrite Hka, memcmp_refl. cbn [Z.eqb Assert_true mbind Er_bind].
    set (sess0 := mkSMSession _ _ _ _ _ _ _ _ _ _).
    destruct (put_new (ifaceMap sm) ip6 sess0) as (map & -> & Hk' & Hh' & Hent & Hnext);
      [by eapply ok_keys|by eapply ok_handles|done|done|by destruct Hok; lia|by destruct Hok; lia|].
    set (sm2 := set_ifaceMap sm map).
    assert (entry_at sm2 (map_count (ifaceMap sm)) = Some (mkEntry (key_hash ip6) ip6 (map_nextHandle (ifaceMap sm)) sess0)) as He2.
    { unfold entry_at, sm2, map_count. cbn. rewrite Hent, Nat2Z.id, lookup_app_r, Nat.sub_diag by lia. done. }
    set (sess := mkSMSession _ _ _ _ _ _ _ _ _ _).
    assert (sm_ok (n - 1) (now_ms env) (put_session sm2 (map_count (ifaceMap sm)) sess)) as Hok2.
    { destruct Hok. assert (map_entries (ifaceMap (put_session sm2 (map_count (ifaceMap sm)) sess)) =
        map_entries (ifaceMap sm) ++ [mkEntry (key_hash ip6) ip6 (map_nextHandle (ifaceMap sm)) sess]) as Hall.
      { unfold put_session, sm2, map_count. cbn. rewrite Hent, Nat2Z.id, alter_app_r_alt, Nat.sub_diag by lia. done. }
      destruct (same_shape_ok map (ifaceMap (put_session sm2 (map_count (ifaceMap sm)) sess))) as [Hk2 Hh2]; try done.
      { unfold shape. rewrite Hall, Hent, !fmap_app. done. }
      split; try done; try (cbn; lia).
      - rewrite Hall. apply Forall_app. split.
        + eapply Forall_impl; [done|]. intros e. apply entry_ok_mono; lia.
        + apply Forall_cons. split; [|by apply Forall_nil]. apply new_session_ok; try done. lia.
      - unfold map_count in *. rewrite Hall, length_app. cbn [length]. lia. }
    destruct (sendSession_ret sess (path0 sess) 0xffffffff PFChan_Core_SESSION) as (out & ->). cbn [mbind Er_bind].
    destruct (check_ok (n - 1) (now_ms env) _ (map_count (ifaceMap sm)) _ Hok2 (entry_put _ _ _ _ He2))
      as (sm3 & e3 & -> & Hok3 & He3). cbn [mbind Er_bind]. eexists _, _, _. split; [done|]. split; [done|]. by exists e3.
Qed.

(** ** Packets from the switch *)

Lemma ctrlFrame_ok m A s e b : pos m A s e b -> s <= b - 52 -> b + 16 <= e -> exists outs, ctrlFrame m = Ret outs.
Proof.
  intros Hm Hs He. unfold ctrlFrame.
  destruct (pos_epop m A s e b SwitchHeader_SIZE Hm) as (m1 & sh & -> & H1); [header_sizes; lia..|]. cbn [mbind Er_bind].
  destruct (pos_epop m1 A s e _ 4 H1) as (m2 & x & -> & H2); [header_sizes; lia..|]. cbn [mbind Er_bind].
  match goal with |- context [Message_epush m2 ?o _] =>
    destruct (pos_epush m2 A s e _ o RouteHeader_SIZE H2) as (m3 & -> & _); [header_sizes; lia..|] end.
  by eexists.
Qed.

Lemma failedDecrypt_ok m A s e b label_be : pos m A s e b -> s <= b - 24 -> b <= e -> (A + b) mod 2 = 0 ->
  exists outs, failedDecrypt m label_be = Ret outs.
Proof.
  intros Hm Hs He Hev. unfold failedDecrypt.
  destruct (pos_epush32be m A s e b Error_AUTHENTICATION Hm) as (m1 & -> & H1); [lia..|]. cbn [mbind Er_bind].
  destruct (pos_epush16 m1 A s e _ (Endian_hostToBigEndian16 2) H1) as (m2 & E2 & H2); [lia..|].
  change (Message_epush16be m1 2) with (Message_epush16h m1 (Endian_hostToBigEndian16 2)). rewrite E2. cbn [mbind Er_bind].
  destruct (pos_epush16 m2 A s e _ (Endian_hostToBigEndian16 0) H2) as (m3 & E3 & H3); [lia..|].
  change (Message_epush16be m2 0) with (Message_epush16h m2 (Endian_hostToBigEndian16 0)). rewrite E3. cbn [mbind Er_bind].
  destruct (checksum_ret (msg_addr m3 + msg_bytes m3) (msg_content m3) (msg_length m3)) as (ck & ->).
  { destruct H3 as (-> & _ & _ & ->). Z.to_euclidean_division_equations; lia. }
  cbn [mbind Er_bind].
  destruct (pos_epop16 m3 A s e _ H3) as (m4 & x & -> & H4); [lia..|]. cbn [mbind Er_bind].
  destruct (pos_epush16 m4 A s e _ ck H4) as (m5 & -> & H5); [lia..|]. cbn [mbind Er_bind].
  destruct (pos_epush32be m5 A s e _ 0xffffffff H5) as (m6 & -> & H6); [lia..|]. cbn [mbind Er_bind].
  unfold SwitchHeader_setVersion. change (SwitchHeader_CURRENT_VERSION <? 4) with true. cbn [Assert_true mbind Er_bind].
  match goal with |- context [Message_epush m6 ?o _] =>
    destruct (pos_epush m6 A s e _ o SwitchHeader_SIZE H6) as (m7 & -> & _); [header_sizes; lia..|] end.
  by eexists.
Qed.

(** The quoted bytes go back to where the packet began, behind its switch header. *)
Lemma answer_failed_ok m A s e b b0 first err ca : pos m A s e b -> s <= b0 - 36 -> b0 + 24 <= e -> s <= b <= e ->
  e - s < 2 ^ 31 -> (A + b0) mod 4 = 0 ->
  exists outs, answer_failed m (b0 - 12) (e - b0) first err ca = Ret outs.
Proof.
  intros Hm Hs He Hb Hbig Hal. unfold answer_failed. pose proof Hm as (_ & _ & -> & _).
  rewrite i32_small by lia.
  destruct (pos_eshift m A s e b (e - b0 - (e - b) - 24) Hm) as (m1 & -> & H1); [lia|]. cbn [mbind Er_bind].
  apply pos_length in H1. replace (b - (e - b0 - (e - b) - 24)) with (b0 + 24) in H1 by lia.
  destruct (pos_epush32be _ _ _ _ _ (CryptoAuth_getState ca) H1) as (m2 & -> & H2); [lia..|]. cbn [mbind Er_bind].
  destruct (pos_epush32be _ _ _ _ _ (DecryptErr_num err) H2) as (m3 & -> & H3); [lia..|]. cbn [mbind Er_bind].
  destruct (pos_epush _ _ _ _ _ (Some first) 16 H3) as (m4 & -> & H4); [lia..|]. cbn [mbind Er_bind].
  destruct (pos_eshift _ _ _ _ _ SwitchHeader_SIZE H4) as (m5 & -> & H5); [header_sizes; lia|]. cbn [mbind Er_bind].
  replace (b0 + 24 - 4 - 4 - 16 - SwitchHeader_SIZE) with (b0 - 12) in H5 by (header_sizes; lia).
  pose proof H5 as (_ & _ & _ & ->). rewrite Z.eqb_refl. cbn [Assert_true mbind Er_bind].
  eapply failedDecrypt_ok; [by apply pos_write|lia|lia|]. Z.to_euclidean_division_equations; lia.
Qed.

Lemma pass_inside_ok n env sm m A s e b b0 setup i en sess : env_ok env -> sm_ok n (now_ms env) sm ->
  entry_at sm i = Some en -> entry_ok n (now_ms env) (with_session en sess) ->
  pos m A s e b -> s <= b0 - 44 -> b0 + 24 <= e -> b = (if setup : bool then b0 + 120 else b0 + 24) -> b <= e ->
  (setup = true -> b0 + 124 <= e) ->
  exists sm' outs, pass_inside malloc env sm m (b0 - 12) setup i sess = Ret (sm', outs) /\ sm_ok n (now_ms env) sm'.
Proof.
  intros Henv Hok Hen Hsess Hm Hs He Hb Hbe Hse. unfold pass_inside.
  set (r := if setup then _ else _).
  assert (exists m1 h, r = Ret (m1, h) /\ pos m1 A s e (if setup then b0 + 124 else b0 + 24) /\
    entry_ok n (now_ms env) (with_session en h)) as (m1 & h & -> & H1 & Hh).
  { unfold r. destruct setup; [|eexists _, _; split; [done|]; by subst b].
    destruct (pos_epop32be m A s e b Hm) as (m1 & x & -> & H1); [lia|specialize (Hse eq_refl); lia|].
    cbn [mbind Er_bind]. eexists _, _. split; [done|]. subst b. by replace (b0 + 120 + 4) with (b0 + 124) in H1 by lia. }
  cbn [mbind Er_bind].
  assert (setup = true -> b0 + 124 <= e) as Hse' by done. set (b1 := if setup then _ else _) in H1.
  assert (b0 + 24 <= b1 <= e) as Hb1 by (unfold b1; destruct setup; [specialize (Hse eq_refl)|]; lia).
  destruct (pos_eshift m1 A s e b1 RouteHeader_SIZE H1) as (m2 & -> & H2); [header_sizes; lia|].
  cbn [mbind Er_bind]. pose proof H2 as (_ & _ & -> & Hby). 
  rewrite (proj2 (Z.geb_le _ _)) by (header_sizes; lia). cbn [Assert_true mbind Er_bind].
  set (r := if setup then _ else _).
  assert (exists m3, r = Ret m3) as (m3 & ->).
  { unfold r. destruct setup; [by eexists|]. rewrite Hby. unfold b1. rewrite (proj2 (Z.eqb_eq _ _)) by (header_sizes; lia).
    by eexists. }
  rewrite bind_of_ret. set (label := Endian_bigEndianToHost64 _).
  assert (fits 64 label) as Hlabel by apply (host64_fits _). clearbody label.
  destruct (discoverPath_ok (now_ms env) (set_bytes h (bytesOut h) (u64 (bytesIn h + (e - (b1 - RouteHeader_SIZE))))) label
    Metric_SM_INCOMING) as (ps & better & outs & -> & Hps); [apply Henv|apply Hh|exact Hlabel|done|].
  rewrite bind_of_ret. eexists _, _. split; [reflexivity|]. apply put_session_ok with en; [done|done|].
  destruct Hh as (Hh1 & Hh2 & Hh3 & Hh4 & _). by split.
Qed.

Context (Hzero : (AddressCalc_addressForPublicKey (zeros 32)).1 = false).

(** A packet as the switch delivers it. *)
Definition switch_msg (m : Message) : Prop :=
  exists a pre c post, msg_at m a pre c post /\ 64 <= len pre /\ a mod 4 = 0 /\ bytes c /\
    (len c + len post) mod 4 = 0.

(** [key] in a handshake packet whose address is valid. *)
Lemma handshake_node key : length key = 32%nat -> (AddressCalc_addressForPublicKey key).1 = true ->
  let ip6 := (AddressCalc_addressForPublicKey key).2 in
  length ip6 = 16%nat /\ AddressCalc_validAddress ip6 = true /\ node_ok ip6 key.
Proof.
  intros Hk Hv ip6. split; [apply address_length|]. split; [exact Hv|]. split; [done|]. split; [|done].
  destruct (Bits_isZero key) eqn:E; [|done]. apply Bits_isZero_true in E. rewrite Hk in E.
  change (Z.of_nat 32) with 32 in E. subst key. by rewrite Hzero in Hv.
Qed.

(** Found by its handle or its key: the session and the packet for it. *)
Lemma session_of_packet_ok n env sm m a pre sh c post b0 noh : env_ok env -> sm_ok n (now_ms env) sm -> 1 <= n ->
  msg_at m a (pre ++ sh) c post -> length sh = 12%nat -> b0 = msg_bytes m -> 24 <= len c -> bytes c ->
  noh = be_val (take 4 c) ->
  exists found sm' outs, session_of_packet malloc env sm m (b0 - 12) noh = Ret (found, sm', outs) /\
    sm_ok (n - 1) (now_ms env) sm' /\
    match found with
    | None => True
    | Some (i, m') => points sm' (Some i) /\
        if noh <=? 3 then m' = m /\ 124 <= len c
        else exists h4 c', c = h4 ++ c' /\ length h4 = 4%nat /\ msg_at m' (a + 4) ((pre ++ sh) ++ h4) c' post /\
               4 <= be_val (take 4 c') /\ Message_eshift m (-4) = Ret m'
    end.
Proof.
  intros Henv Hok Hn Hm Hsh Hb0 Hc Hby Hnoh. unfold session_of_packet.
  rewrite Z.gtb_ltb. destruct (Z.ltb_spec 3 noh) as [H3|H3].
  - destruct (sessionForHandle_ok n _ sm noh Hok) as (r & sm1 & -> & Hok1 & Hp). cbn [mbind Er_bind].
    apply (sm_ok_mono n (n - 1) (now_ms env) (now_ms env)) in Hok1; [|lia|lia].
    destruct r as [i|]; [|by eexists _, _, _].
    destruct (list_split_at 4 c) as (h4 & c' & -> & H4); [lia|]. apply bytes_app in Hby as [Hb4 Hb'].
    rewrite length_app in Hc.
    destruct (at_shift_pop m a _ h4 c' post (-4) Hm) as (m' & Esh & Hm'); [lia|]. rewrite Esh. cbn [mbind Er_bind].
    destruct (list_split_at 4 c') as (n4 & c'' & -> & Hn4); [lia|]. apply bytes_app in Hb' as [Hbn _].
    rewrite (at_read_of m' _ _ _ _ [] n4 c'' 0 4 Hm') by (done || lia). rewrite host32 by (done || lia).
    destruct (Z.ltb_spec (be_val n4) 4) as [|Hn4']; [by eexists _, _, _|].
    eexists (Some (i, m')), _, _. split; [done|]. split; [done|]. split; [done|].
    rewrite (proj2 (Z.leb_gt _ _)) by lia. exists h4, (n4 ++ c''). split; [done|]. split; [lia|].
    rewrite H4 in Hm'. split; [done|]. split; [by rewrite take_app_length' by lia|done].
  - destruct (at_content _ _ _ _ _ Hm) as [_ ->].
    destruct (Z.ltb_spec (len c) (CryptoHeader_SIZE + 4)) as [|Hl].
    { eexists None, _, _. split; [done|]. split; [|done]. by apply (sm_ok_mono n (n - 1) (now_ms env) (now_ms env)); [lia|lia|]. }
    unfold CryptoHeader_SIZE in Hl. set (key := msg_read m 40 32).
    assert (length key = 32%nat) as Hkey.
    { unfold key. rewrite (msg_read_sub m _ c post 40 32 (proj1 Hm)) by lia. by rewrite length_rd_in by lia. }
    destruct (AddressCalc_addressForPublicKey key) as [valid ip6] eqn:Eaddr.
    pose proof (sm_ok_mono n (n - 1) (now_ms env) (now_ms env) sm ltac:(lia) ltac:(lia) Hok) as Hok'.
    destruct valid; cbn [negb]; [|by eexists None, _, _].
    destruct (_ =? 0); [by eexists None, _, _|].
    pose proof (handshake_node key Hkey) as Hnode. rewrite Eaddr in Hnode. cbn [fst snd] in Hnode.
    destruct (Hnode eq_refl) as (Hip & Hvalid & Hnok). set (label := Endian_bigEndianToHost64 _).
    destruct (getSession_ok n env sm ip6 key 0 label Metric_SM_INCOMING) as (i & sm1 & outs & -> & Hok1 & (e & He));
      try done; [apply bswap_fits|]. cbn [mbind Er_bind]. rewrite (session_at_entry _ _ _ He). cbn [mbind Er_bind].
    pose proof (sm_ok_entry _ _ _ _ _ Hok1 He) as (Hk & Hi6 & Hses & Hnon & Hpaths).
    unfold CryptoAuth_resetIfTimeout. destruct (resetIfTimeout_ok (caSession (e_value e)) (now_s env) Hses)
      as (ca & Eca & Hca & Hnn). rewrite Eca. cbn [mbind Er_bind]. apply resetIfTimeout_peer in Eca as [Hp1 Hp2].
    eexists (Some (i, m)), _, _. split; [done|]. split; [|split; [eexists; by apply entry_put|]].
    + apply put_session_ok with e; [done|done|]. unfold entry_ok. cbn [with_session e_key e_value caSession set_ca paths].
      rewrite Hp1, Hp2. split_and!; try done. lia.
    + rewrite (proj2 (Z.leb_le _ _)) by lia. split; [done|lia].
Qed.

(** The packet as CryptoAuth gets it: all of a handshake, or what follows the handle. *)
Lemma packet_for_session m2 m3 a pre sh n4 c2 post b0 A s e : msg_at m2 (a + 12) (pre ++ sh) (n4 ++ c2) post ->
  length sh = 12%nat -> length n4 = 4%nat -> bytes (n4 ++ c2) -> 24 <= len (n4 ++ c2) ->
  pos m2 A s e b0 -> e = b0 + len (n4 ++ c2) -> (a + 12) mod 4 = 0 -> (len (n4 ++ c2) + len post) mod 4 = 0 ->
  (if be_val n4 <=? 3 then m3 = m2 /\ 124 <= len (n4 ++ c2)
   else exists h4 c', n4 ++ c2 = h4 ++ c' /\ length h4 = 4%nat /\ msg_at m3 (a + 12 + 4) ((pre ++ sh) ++ h4) c' post /\
          4 <= be_val (take 4 c') /\ Message_eshift m2 (-4) = Ret m3) ->
  let setup := be_val n4 <=? 3 in
  exists a3 pre3 c3, msg_at m3 a3 pre3 c3 post /\ a3 mod 4 = 0 /\ (len c3 + len post) mod 4 = 0 /\ bytes c3 /\
    12 <= len pre3 /\ pos m3 A s e (if setup then b0 else b0 + 4) /\
    (Endian_bigEndianToHost32 (le_val (msg_read m3 0 4)) <? 4) = setup /\ (setup = true -> b0 + 124 <= e).
Proof.
  intros Hm2 Hsh H4 Hby H24 Hpos He Hal Hcap Hm3 setup. unfold setup. pose proof Hby as [Hb4 _]%bytes_app.
  destruct (Z.leb_spec (be_val n4) 3) as [H3|H3].
  - destruct Hm3 as [-> Hl124]. eexists _, _, _. split; [exact Hm2|].
    split; [done|]. split; [done|]. split; [done|]. split; [rewrite length_app; lia|]. split; [done|]. split; [|intros; lia].
    rewrite (at_read_of m2 _ _ _ _ [] n4 c2 0 4 Hm2) by (done || lia). rewrite host32 by (done || lia). apply Z.ltb_lt. lia.
  - destruct Hm3 as (h4 & c' & Ec & Hh4 & Hm3 & Hn4 & Esh). rewrite Ec in *. apply bytes_app in Hby as [_ Hbc'].
    rewrite length_app in *. destruct (list_split_at 4 c') as (k4 & c'' & -> & Hk4); [lia|]. rewrite length_app in *.
    eexists _, _, _. split; [exact Hm3|]. rewrite !length_app.
    split; [Z.to_euclidean_division_equations; lia|]. split; [Z.to_euclidean_division_equations; lia|]. split; [done|].
    split; [lia|]. apply (pos_eshift_inv _ A s e b0) in Esh as (Hp3 & _); [|done].
    split; [by replace (b0 + 4) with (b0 - -4) by lia|]. split; [|done].
    apply bytes_app in Hbc' as [Hbk _]. rewrite take_app_length' in Hn4 by lia.
    rewrite (at_read_of m3 _ _ _ _ [] k4 c'' 0 4 Hm3) by (done || lia). rewrite host32 by (done || lia). apply Z.ltb_ge. lia.
Qed.

Lemma fromSwitch_ok n env sm m : env_ok env -> sm_ok n (now_ms env) sm -> secrets sm -> 2 <= n -> switch_msg m ->
  exists sm' outs, incomingFromSwitchIf malloc env sm m = Ret (sm', outs) /\ sm_ok (n - 2) (now_ms env) sm'.
Proof.
  intros Henv Hok Hsec Hn (a & pre & c & post & Hm & Hpre & Hal & Hby & Hcap). unfold incomingFromSwitchIf.
  pose proof (sm_ok_mono n (n - 2) (now_ms env) (now_ms env) sm ltac:(lia) ltac:(lia) Hok) as Hok'.
  destruct (at_content _ _ _ _ _ Hm) as [_ ->]. destruct (Z.ltb_spec (len c) (SwitchHeader_SIZE + 4)) as [|Hc]; [by eexists _, _|].
  unfold SwitchHeader_SIZE in Hc. destruct (list_split_at 12 c) as (sh & c1 & -> & Hsh); [lia|].
  apply bytes_app in Hby as [_ Hby]. rewrite length_app in Hc, Hcap.
  destruct (at_shift_pop m a pre sh c1 post (- SwitchHeader_SIZE) Hm) as (m1 & E1 & Hm1); [header_sizes; lia|].
  rewrite E1. cbn [mbind Er_bind].
  assert (msg_bytes m1 = msg_bytes m + 12) as Hb1.
  { unfold Message_eshift in E1. repeat case_match; simplify_eq. cbn. header_sizes. lia. }
  set (lab := le_bytes 8 _). assert (length lab = 8%nat) as Hlab by apply length_le_bytes. clearbody lab.
  destruct (list_split_at 8 sh) as (s1 & s2 & -> & Hs1); [lia|]. rewrite length_app in Hsh, Hc, Hcap.
  assert (msg_at (ptr_write m1 (msg_bytes m) 0 lab) (a + 12) (pre ++ lab ++ s2) c1 post) as Hm2.
  { unfold ptr_write. destruct Hm1 as [Hv1 Ha1]. rewrite length_app in Ha1. split; [|cbn; lia].
    apply (msg_write_pad m1 pre s1 s2 c1 post _ _ Hv1); lia. }
  assert (msg_bytes (ptr_write m1 (msg_bytes m) 0 lab) = msg_bytes m + 12) as Hb2 by done.
  revert Hm2 Hb2. generalize (ptr_write m1 (msg_bytes m) 0 lab). clear m1 E1 Hm1 Hb1. intros m2 Hm2 Hb2.
  assert (length (lab ++ s2) = 12%nat) as Hl2 by (rewrite length_app; lia).
  remember (msg_bytes m + 12) as b0 eqn:Eb0. replace (msg_bytes m) with (b0 - 12) by lia. clear Hm.
  destruct (list_split_at 4 c1) as (n4 & c2 & -> & H4); [lia|]. pose proof Hby as [Hb4 Hbc2]%bytes_app.
  rewrite (at_read_of m2 _ _ _ _ [] n4 c2 0 4 Hm2) by (done || lia). rewrite host32 by (done || lia).
  destruct (at_pos _ _ _ _ _ Hm2) as [Hpos Ha2]. rewrite Hb2 in Hpos, Ha2. rewrite length_app, Hl2 in Hpos.
  set (A := msg_addr m2) in *. set (s := b0 - Z.of_nat (length pre + 12)) in *. set (e := b0 + len (n4 ++ c2)) in *.
  destruct (Z.eqb_spec (be_val n4) 0xffffffff) as [|Hne].
  { destruct (pos_eshift m2 A s e b0 SwitchHeader_SIZE Hpos) as (m3 & -> & Hp3); [header_sizes; lia|]. cbn [mbind Er_bind].
    destruct (ctrlFrame_ok m3 A s e _ Hp3) as (outs & ->); [header_sizes; lia|unfold e; rewrite length_app; header_sizes; lia|].
    cbn [mbind Er_bind]. by eexists _, _. }
  destruct (at_content _ _ _ _ _ Hm2) as [_ Hlen]. rewrite Hlen.
  destruct (Z.ltb_spec (len (n4 ++ c2)) (4 + 20)) as [|H24]; [by eexists _, _|].
  rewrite (proj2 (Z.geb_le _ _)) by lia. cbn [Assert_true mbind Er_bind].
  assert (be_val n4 = be_val (take 4 (n4 ++ c2))) as Hnoh by (by rewrite take_app_length' by lia).
  destruct (session_of_packet_ok n env sm m2 (a + 12) pre (lab ++ s2) (n4 ++ c2) post b0 (be_val n4))
    as (found & sm1 & outs & Efound & Hok1 & Hfound); try done; [lia|].
  rewrite Efound. apply secrets_session_of_packet in Efound as Hsec1; [|done]. cbn [mbind Er_bind].
  apply (sm_ok_mono (n - 1) (n - 1) _ (now_ms env)) in Hok1 as Hok1'; [|lia|lia].
  destruct found as [[i m3]|]; [|eexists _, _; split; [done|]; by apply (sm_ok_mono (n - 1) (n - 2) (now_ms env) (now_ms env)); [lia|lia|]].
  destruct Hfound as [(en & Hen) Hm3]. rewrite (session_at_entry _ _ _ Hen). cbn [mbind Er_bind].
  pose proof (sm_ok_entry _ _ _ _ _ Hok1 Hen) as Hent. pose proof Hent as (_ & _ & Hses & Hnon & _).
  (* the message for CryptoAuth *)
  set (setup := be_val n4 <=? 3) in *.
  destruct (packet_for_session m2 m3 a pre (lab ++ s2) n4 c2 post b0 A s e) as
    (a3 & pre3 & c3 & Hat3 & Hal3 & Hcap3 & Hby3 & Hpre3 & Hpos3 & Hnonce & Hlong); try done;
    [rewrite !length_app in *; Z.to_euclidean_division_equations; lia..|].
  fold setup in Hpos3, Hnonce, Hlong.
  destruct (decrypt_ok (caSession (e_value en)) (sm_ca sm1) m3 pre3 c3 post (now_s env)) as (m4 & ca & err & Edec & Hca & Hnn);
    [done|by apply (secrets_at sm1 i en)| |apply Hat3|done|done|lia|].
  { split; [unfold aligned; destruct Hat3 as [_ ->]; done|].
    destruct Hat3 as [(x & y & _ & _ & _ & _ & -> & _) _]. rewrite Z.rem_mod_nonneg by lia. done. }
  rewrite Edec. cbn [mbind Er_bind]. pose proof (decrypt_peer _ _ _ _ _ _ _ Edec) as Hpeer.
  apply (decrypt_pos _ _ _ _ _ _ _ A s e _ Hpos3) in Edec as (b4 & Hpos4 & Hb4' & Hnone);
    [|unfold s, e; destruct setup; lia].
  pose proof (entry_ok_ca _ _ _ _ Hent Hpeer Hca Hnn) as Hent'.
  assert (sm_ok (n - 2) (now_ms env) (put_session sm1 i (set_ca (e_value en) ca))) as Hok2.
  { replace (n - 2) with (n - 1 - 1) in * by lia.
    apply put_session_ok with en; [by apply (sm_ok_mono (n - 1) (n - 1 - 1) (now_ms env) (now_ms env)); [lia|lia|]|done|done]. }
  assert (e = b0 + len (n4 ++ c2)) as He by done. assert (s = b0 - Z.of_nat (length pre + 12)) as Hs by done.
  assert (e - s < 2 ^ 31) as Hbig.
  { pose proof (at_bound _ _ _ _ _ Hm2) as Hbd. rewrite !length_app in *. lia. }
  destruct (bool_decide_reflect (err = DecryptErr_NONE)) as [->|Herr]; cbn [negb].
  - destruct (pass_inside_ok (n - 2) env _ m4 A s e b4 b0 setup i _ (set_ca (e_value en) ca) Henv Hok2 (entry_put _ _ _ _ Hen))
      as (sm' & outs' & -> & Hok3); try done; try lia.
    + by replace (n - 2) with (n - 1 - 1) by lia.
    + rewrite (Hnone eq_refl), Hnonce. destruct setup; lia.
    + cbn [mbind Er_bind]. by eexists _, _.
  - assert (len (n4 ++ c2) = e - b0) as -> by lia.
    destruct (answer_failed_ok m4 A s e b4 b0 (msg_read m2 0 16) err ca Hpos4) as (outs' & ->); try lia.
    { destruct setup; lia. }
    { destruct Hm2 as [_ Ha]. rewrite Hb2 in Ha. unfold A. rewrite Ha. Z.to_euclidean_division_equations; lia. }
    cbn [mbind Er_bind]. by eexists _, _.
Qed.

End Safety.
