(* ===== verification/SessionSafety.v ===== *)
(** * The session manager: packets from the inside, events, timers

    The rest of the invariant's proof, for the operations which start on this side:
    held packets time out and are replaced, a packet from the inside is sent,
    held or answered by a search, the pathfinder's events make sessions.  Then the
    runs: [session_manager_safe]. *)
From stdpp Require Import gmap.
From S2P Require Import Prelude Bits Message Checksum MsgAt Headers RouteHeader PFChan Nacl Key.
From S2P Require Import ReplayProtector CryptoAuth CryptoAuthProofs CryptoFrame HandleMap SessionManager SessionProofs.

#[local] Instance ip6_laws : MapKeyLaws (list Z) := mem_key_laws 16.

(** ** Held packets *)

Definition young (now : Z) (e : Entry (list Z) BufferedMessage) : Prop :=
  i64 (now - timeSentMilliseconds (e_value e)) < 10000.
#[local] Instance young_dec now e : Decision (young now e).
Proof. unfold young. apply _. Defined.

Section Held.
Context {V : Type}.
Implicit Types map : Map (list Z) V.

(** A removal does not touch the entries in front. *)
Lemma remove_keys_take map i : (i < length (map_entries map))%nat ->
  take i (map_entries (Map_remove_keys (Z.of_nat i) map).2) = take i (map_entries map).
Proof.
  intros Hi. unfold Map_remove_keys, map_count.
  destruct (_ && _) eqn:E.
  - cbn [snd map_entries]. unfold wr. rewrite Nat2Z.id. rewrite take_app_length' by (rewrite !length_take; lia).
    rewrite take_take. f_equal. lia.
  - destruct (Z.eqb_spec (Z.of_nat i) (len (map_entries map) - 1)); [|done]. cbn [snd map_entries].
    rewrite take_take. f_equal. lia.
Qed.

(** Some of the entries of a map make a map. *)
Lemma keys_ok_sub map map' : map_entries map' ⊆+ map_entries map -> keys_ok map -> keys_ok map'.
Proof.
  intros Hs (Hd & Hf & Hc). pose proof (submseteq_Permutation _ _ Hs) as (rest & Hp). split; [|split].
  - rewrite Hp, fmap_app in Hd. by apply NoDup_app in Hd as [? _].
  - rewrite Hp in Hf. by apply Forall_app in Hf as [? _].
  - unfold map_count in *. apply submseteq_length in Hs. lia.
Qed.
End Held.

(** The loop keeps exactly the young packets. *)
Lemma buffers_loop_spec now : forall fuel i (map : Map (list Z) BufferedMessage),
  (length (map_entries map) - i < fuel)%nat -> Forall (young now) (take i (map_entries map)) ->
  map_entries (checkTimedOutBuffers_loop fuel now (Z.of_nat i) map) ≡ₚ filter (young now) (map_entries map).
Proof.
  induction fuel as [|fuel IH]; intros i map Hf Hy; [lia|]. cbn [checkTimedOutBuffers_loop]. rewrite Nat2Z.id.
  destruct (map_entries map !! i) as [e|] eqn:Ei.
  - pose proof (lookup_lt_Some _ _ _ Ei) as Hlt. fold (young now e).
    destruct (Z.ltb_spec (i64 (now - timeSentMilliseconds (e_value e))) 10000) as [Hyo|Hold].
    + replace (Z.of_nat i + 1) with (Z.of_nat (S i)) by lia. apply IH; [lia|].
      rewrite (take_S_r _ _ _ Ei). apply Forall_app. split; [done|]. by apply Forall_singleton.
    + assert (length (map_entries (Map_remove_keys (Z.of_nat i) map).2) = (length (map_entries map) - 1)%nat) as Hl.
      { pose proof (remove_keys_count map i Hlt) as Hc. unfold map_count in Hc. lia. }
      rewrite IH; [|lia|by rewrite remove_keys_take]. rewrite remove_keys_perm by done.
      rewrite delete_take_drop. rewrite <- (take_drop_middle _ _ _ Ei) at 3. rewrite !filter_app, filter_cons_False; [done|].
      unfold young. lia.
  - apply lookup_ge_None in Ei. rewrite take_ge in Hy by lia. clear Hf IH Ei. symmetry. revert Hy. generalize (map_entries map). intros l.
    induction 1 as [|e l He Hl IHl]; [done|]. rewrite filter_cons_True by done. by apply Permutation_skip.
Qed.

Lemma checkTimedOutBuffers_spec env sm :
  map_entries (bufMap (checkTimedOutBuffers env sm)) ≡ₚ filter (young (now_ms env)) (map_entries (bufMap sm)).
Proof. unfold checkTimedOutBuffers. cbn [bufMap set_bufMap]. apply (buffers_loop_spec _ _ 0); [lia|]. by apply Forall_nil. Qed.

Section Inside.
Context {N : Nacl} {L : NaclLaws N} (malloc : Z -> Z * list Z) (Hmalloc : malloc_ok malloc).
#[local] Set Default Proof Using "All".

(** The invariant as far as it is about held packets. *)
Definition held_ok (max : Z) (map : Map (list Z) BufferedMessage) : Prop :=
  keys_ok map /\ Forall (fun e => inside_msg (b_msg (e_value e))) (map_entries map) /\ map_count map <= max.

Lemma sm_held n t sm : sm_ok n t sm -> held_ok (maxBufferedMessages sm) (bufMap sm).
Proof. intros []. unfold held_ok. split; [done|]. split; [done|lia]. Qed.

Lemma set_bufMap_ok n t sm map : sm_ok n t sm -> held_ok (maxBufferedMessages sm) map -> sm_ok n t (set_bufMap sm map).
Proof. intros [] (? & ? & ?). by split; try done; cbn; lia. Qed.

Lemma held_sub max map map' : map_entries map' ⊆+ map_entries map -> held_ok max map -> held_ok max map'.
Proof.
  intros Hs (Hk & Hf & Hc). split; [by eapply keys_ok_sub|]. split.
  - pose proof (submseteq_Permutation _ _ Hs) as (rest & Hp). rewrite Hp in Hf. by apply Forall_app in Hf as [? _].
  - unfold map_count in *. apply submseteq_length in Hs. lia.
Qed.

Lemma delete_sub {A} (l : list A) i : delete i l ⊆+ l.
Proof. apply sublist_submseteq, sublist_delete. Qed.

Lemma held_remove max map i : (i < length (map_entries map))%nat -> held_ok max map ->
  held_ok max (Map_remove_keys (Z.of_nat i) map).2 /\ map_count (Map_remove_keys (Z.of_nat i) map).2 = map_count map - 1.
Proof.
  intros Hi Hh. split; [|by apply remove_keys_count]. apply (held_sub max map); [|done].
  rewrite remove_keys_perm by done. apply delete_sub.
Qed.

Lemma checkTimedOutBuffers_ok n t env sm : sm_ok n t sm -> sm_ok n t (checkTimedOutBuffers env sm).
Proof.
  intros Hok. pose proof (sm_held n t sm Hok) as Hh. unfold checkTimedOutBuffers. apply set_bufMap_ok; [done|].
  apply (held_sub _ (bufMap sm)); [|done]. rewrite (buffers_loop_spec (now_ms env) _ 0); [|lia|by apply Forall_nil].
  apply sublist_submseteq, sublist_filter.
Qed.

(** Handling a header. *)
Lemma inside_read m : inside_msg m -> length (hdr_ip6 m) = 16%nat /\ length (hdr_key m) = 32%nat /\ 72 <= msg_length m.
Proof.
  intros (a & pre & c & post & Hm & Hc & _). destruct (at_content _ _ _ _ _ Hm) as [_ ->].
  unfold hdr_ip6, hdr_key. rewrite !(msg_read_sub m _ c post _ _ (proj1 Hm)) by lia.
  by rewrite !length_rd_in by lia.
Qed.

(** Only packets of the DHT are refused. *)
Lemma bufferPacket_ok n env sm m : sm_ok n (now_ms env) sm -> inside_msg m -> hdr_contentType m <> ContentType_HYPERBORIADHT ->
  exists sm', bufferPacket env sm m = Ret sm' /\ sm_ok n (now_ms env) sm' /\ ifaceMap sm' = ifaceMap sm /\
    maxBufferedMessages sm' = maxBufferedMessages sm.
Proof.
  intros Hok Hm Hct. pose proof (inside_read m Hm) as (Hip & _ & Hlen). unfold bufferPacket.
  rewrite (proj2 (Z.geb_le (msg_length m) _)) by (header_sizes; lia). cbn [Assert_true mbind Er_bind].
  rewrite (proj2 (Z.eqb_neq _ _)) by done. cbn [negb Assert_true mbind Er_bind].
  set (sm1 := if _ >? -1 then _ else sm).
  assert (sm_ok n (now_ms env) sm1 /\ ifaceMap sm1 = ifaceMap sm /\ maxBufferedMessages sm1 = maxBufferedMessages sm)
    as (Hok1 & Hi1 & Hx1).
  { pose proof (indexForKey_lookup (bufMap sm) (hdr_ip6 m) (ok_buffers _ _ _ Hok) Hip) as Hix. unfold sm1.
    destruct (kmap _ !! _); [|by rewrite Hix]. destruct Hix as (i & e & Hi & _ & _ & ->).
    rewrite (proj2 (Z.gtb_lt _ _)) by lia. split; [|done]. apply set_bufMap_ok; [done|].
    apply held_remove; [by eapply lookup_lt_Some|by eapply sm_held]. }
  clearbody sm1. set (p := if _ >=? _ then _ else _).
  assert (exists sm2 full, p = (sm2, full) /\ sm_ok n (now_ms env) sm2 /\ ifaceMap sm2 = ifaceMap sm /\
    maxBufferedMessages sm2 = maxBufferedMessages sm /\ (full = false -> map_count (bufMap sm2) < maxBufferedMessages sm2))
    as (sm2 & full & -> & Hok2 & Hi2 & Hx2 & Hfull).
  { unfold p. destruct (Z.geb_spec (map_count (bufMap sm1)) (maxBufferedMessages sm1)).
    - eexists _, _. split; [done|]. split; [by apply checkTimedOutBuffers_ok|]. split; [done|]. split; [done|].
      rewrite Z.geb_leb. intros H'%Z.leb_gt. done.
    - eexists _, _. split; [done|]. split; [done|]. split; [done|]. split; [done|]. intros _. done. }
  destruct full; [by eexists|]. specialize (Hfull eq_refl).
  pose proof (sm_held _ _ _ Hok2) as (Hk & Hf & Hc). pose proof (ok_max _ _ _ Hok2) as Hbm.
  pose proof (put_keys false (hdr_ip6 m) (mkBuffered m (u64 (now_ms env))) (bufMap sm2) Hk Hip) as Hput.
  destruct (Map_put _ _ _ _) as [r map] eqn:Eput. destruct Hput as (Hk' & Hkm & _ & Hr); [lia|].
  rewrite (proj2 (Z.gtb_lt _ _)) by lia. cbn [Assert_true mbind Er_bind].
  eexists. split; [done|]. split; [|done]. apply set_bufMap_ok; [done|]. split; [done|]. split.
  - apply (kmap_Forall map (fun _ v => inside_msg (b_msg v)) Hk'). rewrite Hkm. apply map_Forall_insert_2; [done|].
    intros k v (e & Hke & Hin)%elem_of_list_to_map_2%list_elem_of_fmap. injection Hke as -> ->.
    rewrite Forall_forall in Hf. by apply Hf.
  - unfold Map_put, map_count in *. destruct (grow_entries (bufMap sm2)) as [Hge _]. rewrite Hge in Eput.
    destruct (_ <? 0); injection Eput as <- <-; cbn [map_entries]; [rewrite length_app; cbn [length]; lia|].
    case_match; [rewrite length_insert|]; lia.
Qed.

Lemma needsLookup_ok n env sm m : sm_ok n (now_ms env) sm -> inside_msg m -> hdr_contentType m <> ContentType_HYPERBORIADHT ->
  exists sm' outs, needsLookup malloc env sm m = Ret (sm', outs) /\ sm_ok n (now_ms env) sm'.
Proof.
  intros Hok Hm Hct. unfold needsLookup. destruct (bufferPacket_ok n env sm m Hok Hm Hct) as (sm' & -> & Hok' & _).
  cbn [mbind Er_bind]. destruct (triggerSearch_ret malloc Hmalloc (hdr_ip6 m) (Endian_hostToBigEndian32 (hdr_version_be m))) as (out & ->).
  by eexists _, _.
Qed.

(** ** Sending *)

Lemma fresh_switchHeader_ret label : exists bs, fresh_switchHeader label = Ret bs.
Proof. unfold fresh_switchHeader, SwitchHeader_setVersion. change (SwitchHeader_CURRENT_VERSION <? 4) with true. by eexists. Qed.

Lemma getState_setup ca : (CryptoAuth_getState ca <? CryptoAuth_State_RECEIVED_KEY) = (nextNonce ca <? 4).
Proof.
  unfold CryptoAuth_getState. change CryptoAuth_State_RECEIVED_KEY with 4. destruct (Z.leb_spec (nextNonce ca) 4); [done|].
  rewrite (proj2 (Z.ltb_ge (nextNonce ca) 4)) by lia. by destruct (established ca).
Qed.

Lemma to_encrypt_ok setup m a pre c post handle A s e b : msg_at m a pre c post -> 140 <= len pre -> a mod 4 = 0 -> 0 < len c ->
  pos m A s e (b + 68) ->
  exists m' a' pre' c', to_encrypt setup m handle b = Ret (m', if setup then b - 68 else b + 32) /\
    msg_at m' a' pre' c' post /\ a' mod 4 = 0 /\ 120 <= len pre' /\ 0 < len c' /\
    pos m' A s e (if setup then b + 64 else b + 68).
Proof.
  intros Hm Hpre Ha Hc Hpos. unfold to_encrypt. destruct setup; [|by exists m, a, pre, c; split_and!; try done; lia].
  pose proof (at_bound _ _ _ _ _ Hm) as Hbd.
  assert (b + 68 - s = len pre /\ e - (b + 68) = len c) as [Hs He].
  { destruct Hpos as (_ & <- & <- & _). destruct (at_content _ _ _ _ _ Hm) as [_ ->]. split; [|done].
    destruct Hm as [(x & y & _ & _ & -> & _) _]. done. }
  destruct (split_room pre 4) as (pre1 & r4 & -> & Hr4 & Hp1); [lia|].
  destruct (at_epush32be m a pre1 r4 c post handle Hm) as (m1 & E1 & Hm1); [lia|].
  destruct (pos_epush32be m A s e (b + 68) handle Hpos) as (m1' & E1' & Hpos1); [lia..|]. rewrite E1 in E1'. injection E1' as <-.
  rewrite E1. cbn [mbind Er_bind]. set (c1 := be_bytes 4 handle ++ c) in *.
  destruct (split_room pre1 132) as (pre2 & r & -> & Hr & Hp2); [lia|].
  destruct (at_shift_push m1 _ pre2 r c1 post (CryptoHeader_SIZE + SwitchHeader_SIZE) Hm1) as (m2 & E2 & Hm2);
    [unfold CryptoHeader_SIZE; header_sizes; lia|]. rewrite E2. cbn [mbind Er_bind].
  apply (pos_eshift_inv _ A s e _ _ _ Hpos1) in E2 as (Hpos2 & _).
  set (w := ptr_read m2 _ _ _).
  destruct (list_split_at 12 r) as (r12 & r120 & -> & Hr12); [lia|]. rewrite length_app in Hr.
  assert (length w = 12%nat) as Hw.
  { unfold w, ptr_read. assert (msg_bytes m2 = b - 68) as ->.
    { destruct Hpos2 as (_ & _ & _ & ->). unfold CryptoHeader_SIZE, SwitchHeader_SIZE. lia. }
    assert (132 <= len ((r12 ++ r120) ++ c1)) by (rewrite !length_app; lia). unfold SwitchHeader_SIZE.
    rewrite (msg_read_sub m2 _ _ _ _ _ (proj1 Hm2)) by lia. by rewrite length_rd_in by lia. }
  rewrite <- app_assoc in Hm2.
  pose proof (at_write_of m2 _ _ _ _ [] r12 (r120 ++ c1) 0 w Hm2 eq_refl ltac:(lia) eq_refl) as Hm3. cbn [app] in Hm3.
  rewrite app_assoc in Hm3.
  destruct (at_shift_pop _ _ _ (w ++ r120) c1 post (- (CryptoHeader_SIZE + SwitchHeader_SIZE)) Hm3) as (m4 & E4 & Hm4).
  { unfold CryptoHeader_SIZE; header_sizes. rewrite length_app. lia. }
  rewrite E4. cbn [mbind Er_bind].
  apply (pos_eshift_inv _ A s e _ _ _ (pos_write _ _ _ _ _ 0 w Hpos2)) in E4 as (Hpos4 & _).
  eexists m4, _, _, c1. split; [f_equal; f_equal; destruct Hpos2 as (_ & _ & _ & Hb2); cbn; rewrite Hb2; unfold CryptoHeader_SIZE, SwitchHeader_SIZE; lia|].
  split; [exact Hm4|]. rewrite !length_app in *. split; [Z.to_euclidean_division_equations; lia|].
  split; [lia|]. split; [unfold c1; rewrite length_app, length_be_bytes; lia|].
  unfold CryptoHeader_SIZE, SwitchHeader_SIZE in Hpos4. by replace (b + 64) with (b + 68 - 4 - (120 + 12) - - (120 + 12)) by lia.
Qed.

Lemma readyToSend_ok n env sm m i : env_ok env -> sm_ok n (now_ms env) sm -> 1 <= n -> inside_msg m -> points sm (Some i) ->
  exists sm' outs, readyToSend env sm m i = Ret (sm', outs) /\ sm_ok (n - 1) (now_ms env) sm' /\
    bufMap sm' = bufMap sm /\ maxBufferedMessages sm' = maxBufferedMessages sm.
Proof.
  intros (_ & H36 & H32) Hok Hn (a & pre & c & post & Hm & Hc & Hpre & Ha & Hby) (en & Hen). unfold readyToSend.
  rewrite (session_at_entry _ _ _ Hen). cbn [mbind Er_bind].
  pose proof (sm_ok_entry _ _ _ _ _ Hok Hen) as Hent. pose proof Hent as (_ & _ & Hses & Hnon & _).
  destruct (at_pos _ _ _ _ _ Hm) as [Hpos Eab]. set (A := msg_addr m) in *. set (b := msg_bytes m) in *.
  set (s := b - len pre) in *. set (e := b + len c) in *. assert (s = b - len pre /\ e = b + len c) as [Hs He] by done.
  clearbody s e. destruct (list_split_at 68 c) as (rh & c1 & -> & Hrh); [lia|]. rewrite length_app in Hc, He.
  destruct (at_shift_pop m a pre rh c1 post (- RouteHeader_SIZE) Hm) as (m1 & E1 & Hm1); [header_sizes; lia|].
  rewrite E1. cbn [mbind Er_bind]. apply (pos_eshift_inv _ A s e _ _ _ Hpos) in E1 as (Hpos1 & _).
  replace (b - - RouteHeader_SIZE) with (b + 68) in Hpos1 by (header_sizes; lia).
  unfold CryptoAuth_resetIfTimeout. destruct (resetIfTimeout_ok (caSession (e_value en)) (now_s env) Hses)
    as (ca & Eca & Hca & Hcan). rewrite Eca. cbn [mbind Er_bind]. rewrite getState_setup.
  set (setup := nextNonce ca <? 4).
  destruct (to_encrypt_ok setup m1 _ _ c1 post (receiveHandle (e_value en)) A s e b Hm1)
    as (m2 & a2 & pre2 & c2 & -> & Hm2 & Ha2 & Hpre2 & Hc2 & Hpos2); try done; [rewrite length_app; lia|Z.to_euclidean_division_equations; lia|lia|].
  cbn [mbind Er_bind].
  destruct (encrypt_ok ca (sm_ca sm) m2 pre2 c2 post (now_s env) (rand36 env) (rand32 env)) as (m3 & ca' & Eenc & Hca' & Hcan');
    try done; [by destruct Hok|unfold aligned; destruct Hm2 as [_ ->]; done|apply Hm2|]. rewrite Eenc. cbn [mbind Er_bind].
  pose proof (encrypt_peer _ _ _ _ _ _ _ _ Eenc) as [Hq1 Hq2]. pose proof (resetIfTimeout_peer _ _ _ Eca) as [Hq3 Hq4].
  pose proof (so_nonce ca Hca) as [Hca0 _].
  apply (encrypt_pos _ _ _ _ _ _ _ _ A s e _ Hpos2) in Eenc as [Hpos3 Hsetup'];
    [|destruct setup; lia|intros s1; by apply (resetIfTimeout_twice (caSession (e_value en)))|lia].
  assert ((CryptoAuth_getState ca' >=? CryptoAuth_State_RECEIVED_KEY) = negb setup) as ->.
  { rewrite Z.geb_leb, Z.leb_antisym, getState_setup, Hsetup'. done. }
  fold setup in Hpos3. set (r := if negb setup then _ else _).
  assert (exists m4, r = Ret m4 /\ pos m4 A s e (if setup then b - 56 else b + 44)) as (m4 & -> & Hpos4).
  { unfold r. destruct setup; cbn [negb].
    - eexists. split; [done|]. by replace (b - 56) with (b + 64 - 120) by lia.
    - destruct (pos_epush32be m3 A s e _ (sendHandle (set_bytes (set_ca (e_value en) ca')
        (u64 (bytesOut (e_value en) + msg_length m2)) (bytesIn (e_value en)))) Hpos3) as (m4 & -> & H4); [lia|lia|].
      eexists. split; [done|]. by replace (b + 44) with (b + 68 - 20 - 4) by lia. }
  cbn [mbind Er_bind]. destruct (pos_eshift m4 A s e _ SwitchHeader_SIZE Hpos4) as (m5 & -> & Hpos5);
    [unfold SwitchHeader_SIZE; destruct setup; lia|]. cbn [mbind Er_bind].
  destruct Hpos5 as (_ & _ & _ & ->). rewrite (proj2 (Z.eqb_eq (if setup then b - 68 else b + 32) _)) by (unfold SwitchHeader_SIZE; destruct setup; lia).
  cbn [Assert_true mbind Er_bind]. set (q := if le_val _ =? 0 then _ else _).
  assert (exists m6, q = Ret m6) as (m6 & ->).
  { unfold q. destruct (_ =? 0); [|by eexists]. match goal with |- context [fresh_switchHeader ?l] =>
      destruct (fresh_switchHeader_ret l) as (bs & ->) end. by eexists. }
  cbn [mbind Er_bind]. eexists _, _. split; [done|]. split; [|done].
  apply put_session_ok with en; [by apply (sm_ok_mono n (n - 1) (now_ms env) (now_ms env)); [lia|lia|]|done|].
  apply (entry_ok_ca n (now_ms env) en ca' Hent); [|done|lia]. unfold same_peer. split; congruence.
Qed.

(** ** Packets from the inside *)

(** What the programs in front of the session manager promise: a key belongs to the
    address it comes with, and packets of the DHT say where they go. *)
Record request_ok (m : Message) : Prop := {
  rq_msg : inside_msg m;
  rq_dht : hdr_contentType m = ContentType_HYPERBORIADHT ->
    hdr_version_be m <> 0 /\ hdr_label_be m <> 0 /\ Bits_isZero (hdr_key m) = false;
  rq_key : Bits_isZero (hdr_key m) = false ->
    AddressCalc_validAddress (hdr_ip6 m) = true /\ node_ok (hdr_ip6 m) (hdr_key m);
}.

Lemma fresh_switchHeader_shape label : exists bs, fresh_switchHeader label = Ret bs /\ length bs = 12%nat /\ bytes bs.
Proof.
  unfold fresh_switchHeader, SwitchHeader_setVersion. change (SwitchHeader_CURRENT_VERSION <? 4) with true.
  cbn [Assert_true mbind Er_bind]. eexists. split; [done|]. split; [apply length_SwitchHeader_bytes|].
  unfold SwitchHeader_bytes. repeat (apply bytes_app; split); try apply le_bytes_bytes. by repeat constructor.
Qed.

Lemma inside_write m bs : inside_msg m -> length bs = 12%nat -> bytes bs -> inside_msg (msg_write m 32 bs).
Proof.
  intros (a & pre & c & post & Hm & Hc & Hpre & Ha & Hby) Hl Hb.
  destruct (list_split_at 32 c) as (x & c1 & -> & Hx); [lia|]. rewrite length_app in Hc.
  destruct (list_split_at 12 c1) as (y & z & -> & Hy); [lia|]. rewrite length_app in Hc.
  eexists a, pre, _, post. split; [apply (at_write m a pre x y z post 32 bs Hm); lia|].
  rewrite !length_app. split; [lia|]. split; [done|]. split; [done|]. rewrite !bytes_app in *. tauto.
Qed.

Lemma version_nonzero m : inside_msg m -> hdr_version_be m <> 0 -> Endian_bigEndianToHost32 (hdr_version_be m) <> 0.
Proof.
  intros (a & pre & c & post & Hm & Hc & _ & _ & Hby) Hv He. apply Hv. revert He. unfold hdr_version_be.
  rewrite (msg_read_sub m _ c post 44 4 (proj1 Hm)) by lia. set (l := rd 44 4 c).
  assert (length l = 4%nat /\ bytes l) as [Hl Hb] by (split; [by apply length_rd_in; lia|by apply rd_bytes]).
  pose proof (le_val_bound l Hb) as Hf. rewrite Hl in Hf. unfold Endian_bigEndianToHost32, Endian_hostToBigEndian32, Endian_byteSwap32.
  unfold u32. rewrite (fits_small 32) by done. intros He. by rewrite <- (bswap_involutive 4 (le_val l) Hf), He.
Qed.

Lemma send_by_session_ok n env sm m i : env_ok env -> sm_ok n (now_ms env) sm -> 1 <= n ->
  request_ok m -> points sm (Some i) ->
  exists sm' outs, send_by_session malloc env sm m i = Ret (sm', outs) /\ sm_ok (n - 1) (now_ms env) sm'.
Proof.
  intros Henv Hok Hn [Hm Hdht _] (en & Hen). unfold send_by_session.
  rewrite (session_at_entry _ _ _ Hen). cbn [mbind Er_bind].
  set (s0 := if Z.land _ _ =? 0 then _ else _). set (s1 := if negb (hdr_version_be m =? 0) then _ else s0).
  pose proof (sm_ok_entry _ _ _ _ _ Hok Hen) as Hent.
  assert (entry_ok n (now_ms env) (with_session en s1)) as Hent1 by (unfold s1, s0; do 2 case_match; exact Hent).
  assert (hdr_version_be m <> 0 -> s_version s1 <> 0) as Hver.
  { intros Hv. unfold s1. rewrite (proj2 (Z.eqb_neq _ _)) by done. by apply version_nonzero. }
  pose proof (put_session_ok n (now_ms env) sm i en s1 Hok Hen Hent1) as Hok1.
  assert (forall sm', sm_ok n (now_ms env) sm' -> sm_ok (n - 1) (now_ms env) sm') as Hless.
  { intros sm'. by apply sm_ok_mono; lia. }
  assert (hdr_contentType m <> ContentType_HYPERBORIADHT ->
    exists sm' outs, needsLookup malloc env (put_session sm i s1) m = Ret (sm', outs) /\ sm_ok (n - 1) (now_ms env) sm') as Hlook.
  { intros Hct. destruct (needsLookup_ok n env (put_session sm i s1) m Hok1 Hm Hct) as (sm' & outs & -> & Hok').
    eexists _, _. split; [done|auto]. }
  destruct (Z.eqb_spec (s_version s1) 0) as [Hv0|_]; [apply Hlook; intros Hct; by apply Hdht in Hct as (Hv & _); apply Hver|].
  destruct (_ && _) eqn:Enolabel.
  { apply Hlook. intros Hct. apply Hdht in Hct as (_ & Hl & _). apply andb_true_iff in Enolabel as [Hz _]. lia. }
  clearbody s1. set (r := if negb (hdr_label_be m =? 0) then _ else _).
  assert (exists m', r = Ret m' /\ inside_msg m') as (m' & -> & Hm').
  { unfold r. destruct (negb (hdr_label_be m =? 0)); [by exists m|]. destruct (fresh_switchHeader_shape (p_label (path0 s1))) as (bs & -> & Hl & Hb).
    eexists. split; [done|]. by apply inside_write. }
  cbn [mbind Er_bind]. pose proof Hent1 as (Hk & Hi & Hses & Hnon & Hpaths). cbn [with_session e_value e_key] in *.
  unfold CryptoAuth_resetIfTimeout. destruct (resetIfTimeout_ok (caSession s1) (now_s env) Hses) as (ca & Eca & Hca & Hcan).
  rewrite Eca. cbn [mbind Er_bind]. apply resetIfTimeout_peer in Eca as [Hq1 Hq2].
  set (s2 := set_ca s1 ca). assert (entry_ok n (now_ms env) (with_session en s2)) as Hent2.
  { unfold entry_ok. cbn [with_session e_key e_value caSession s2 set_ca paths]. rewrite Hq1, Hq2. split_and!; try done. lia. }
  set (sm2 := put_session (put_session sm i s1) i s2).
  assert (sm_ok n (now_ms env) sm2) as Hok2 by (apply put_session_ok with (with_session en s1); [done|by apply entry_put|done]).
  assert (points sm2 (Some i)) as Hpt by (eexists; unfold sm2; apply entry_put; by apply entry_put).
  destruct (readyToSend_ok n env sm2 m' i Henv Hok2 Hn Hm' Hpt) as (sm3 & outs3 & Er & Hok3 & _).
  assert (exists outs, unsetupSession malloc s2 = Ret outs) as (outs & Eu).
  { destruct Hpaths as (Hl3 & Hf & H0). apply unsetupSession_ret; [done|exact H0|].
    unfold path0, path_at. cbn [s2 set_ca paths]. destruct (paths s1) as [|p ps]; [done|]. apply Forall_cons in Hf as [Hp _]. by apply Hp. }
  destruct (CryptoAuth_getState ca <? CryptoAuth_State_RECEIVED_KEY); [|by rewrite Er; eexists _, _].
  destruct (Z.eqb_spec (hdr_contentType m') ContentType_HYPERBORIADHT) as [|Hct].
  - set (u := if negb _ then _ else _). assert (exists o, u = Ret o) as (o & ->) by (unfold u; case_match; eauto).
    cbn [mbind Er_bind]. rewrite Er. cbn [mbind Er_bind]. by eexists _, _.
  - destruct (bufferPacket_ok n env sm2 m' Hok2 Hm' Hct) as (sm4 & -> & Hok4 & _). cbn [mbind Er_bind].
    rewrite Eu. cbn [mbind Er_bind]. eexists _, _. split; [done|auto].
Qed.

(** A control frame has no data header. *)
Definition inside_ok (m : Message) : Prop :=
  (exists a pre c post, msg_at m a pre c post /\ 68 <= len c) /\
  (Z.land (hdr_flags m) RouteHeader_flags_CTRLMSG = 0 -> request_ok m).

Lemma outgoingCtrlFrame_ok sm m a pre c post : msg_at m a pre c post -> 68 <= len c ->
  exists outs, outgoingCtrlFrame sm m = Ret (sm, outs).
Proof.
  intros Hm Hc. unfold outgoingCtrlFrame. destruct (at_content _ _ _ _ _ Hm) as [_ Hlen].
  rewrite (proj2 (Z.geb_le (msg_length m) _)) by (header_sizes; lia). cbn [Assert_true mbind Er_bind].
  destruct (_ || _); [by eexists|]. destruct (_ =? 0); [by eexists|].
  destruct (at_pos _ _ _ _ _ Hm) as [Hp _].
  destruct (pos_epop _ _ _ _ _ RouteHeader_SIZE Hp) as (m1 & bs & -> & H1); [header_sizes; lia..|]. cbn [mbind Er_bind].
  destruct (pos_epush32be _ _ _ _ _ 0xffffffff H1) as (m2 & -> & H2); [header_sizes; lia..|]. cbn [mbind Er_bind].
  match goal with |- context [Message_epush m2 ?o _] =>
    destruct (pos_epush m2 _ _ _ _ o SwitchHeader_SIZE H2) as (m3 & -> & _); [header_sizes; lia..|] end.
  by eexists.
Qed.

Lemma fromInside_ok n env sm m : env_ok env -> sm_ok n (now_ms env) sm -> 2 <= n -> inside_ok m ->
  exists sm' outs, incomingFromInsideIf malloc env sm m = Ret (sm', outs) /\ sm_ok (n - 2) (now_ms env) sm'.
Proof.
  intros Henv Hok Hn [(a & pre & c & post & Hm & Hc) Hrq]. unfold incomingFromInsideIf.
  destruct (at_content _ _ _ _ _ Hm) as [_ Hlen].
  rewrite (proj2 (Z.geb_le (msg_length m) RouteHeader_SIZE)) by (header_sizes; lia). cbn [Assert_true mbind Er_bind].
  pose proof (sm_ok_mono n (n - 2) (now_ms env) (now_ms env) sm ltac:(lia) ltac:(lia) Hok) as Hok2.
  destruct (Z.eqb_spec (Z.land (hdr_flags m) RouteHeader_flags_CTRLMSG) 0) as [Hz|Hz]; cbn [negb].
  2: { destruct (outgoingCtrlFrame_ok sm m a pre c post Hm Hc) as (outs & ->). by eexists _, _. }
  specialize (Hrq Hz). pose proof Hrq as [Hin Hdht Hkey]. pose proof (inside_read m Hin) as (Hip & Hk32 & H72).
  rewrite (proj2 (Z.geb_le (msg_length m) _)) by (header_sizes; lia). cbn [Assert_true mbind Er_bind].
  destruct (sessionForIp6_ok malloc Hmalloc n _ sm (hdr_ip6 m) Hok Hip) as (r & sm1 & -> & Hok1 & Hpt & Hnone). cbn [mbind Er_bind].
  pose proof (sm_ok_mono n (n - 1) (now_ms env) (now_ms env) sm1 ltac:(lia) ltac:(lia) Hok1) as Hok1'.
  replace (n - 2) with (n - 1 - 1) by lia.
  destruct r as [i|]; [by apply send_by_session_ok; try done; lia|]. destruct (Hnone eq_refl) as [-> Hix].
  destruct (_ && _) eqn:Ekv.
  - apply andb_true_iff in Ekv as [Hkz _]. apply negb_true_iff in Hkz. destruct (Hkey Hkz) as [Hval Hnode].
    match goal with |- context [getSession _ _ _ _ _ ?v ?l ?mt] =>
      destruct (getSession_ok malloc Hmalloc n env sm (hdr_ip6 m) (hdr_key m) v l mt) as (i & sm2 & outs & -> & Hoks & Hpts) end;
      try done; [lia|apply bswap_fits|by case_match|]. cbn [mbind Er_bind].
    destruct (send_by_session_ok (n - 1) env sm2 m i) as (sm3 & outs' & -> & Hok3); try done; [lia|].
    cbn [mbind Er_bind]. by eexists _, _.
  - destruct (needsLookup_ok (n - 1) env sm m) as (sm2 & outs & -> & Hoks); try done.
    + intros Hct. apply Hdht in Hct as (Hv & _ & Hkz). apply andb_false_iff in Ekv as [E|E].
      * by rewrite Hkz in E.
      * apply negb_false_iff, Z.eqb_eq in E. done.
    + eexists _, _. split; [done|]. by apply (sm_ok_mono (n - 1) (n - 1 - 1) (now_ms env) (now_ms env)); [lia|lia|].
Qed.

(** ** Events *)

Lemma check_buf sm i sm' : check sm i = Ret sm' -> bufMap sm' = bufMap sm.
Proof. unfold check. intros H. repeat case_match; er_inv; done. Qed.

Lemma sessionForIp6_buf ip6 sm r sm' : sessionForIp6 ip6 sm = Ret (r, sm') -> bufMap sm' = bufMap sm.
Proof. unfold sessionForIp6. intros H. case_match; er_inv; [done|]. by eapply check_buf. Qed.

Lemma getSession_buf env sm ip6 key v l mt i sm' outs :
  getSession malloc env sm ip6 key v l mt = Ret (i, sm', outs) -> bufMap sm' = bufMap sm.
Proof.
  unfold getSession. intros H. er_inv. match goal with H : sessionForIp6 _ _ = Ret ?x |- _ => destruct x as [r sm1] end.
  match goal with H : sessionForIp6 _ _ = _ |- _ => apply sessionForIp6_buf in H as <- end.
  destruct r; er_inv; [by repeat case_match; er_inv|].
  destruct (Map_put _ _ _ _) as [j map]. er_inv.
  match goal with H : check _ _ = _ |- _ => apply check_buf in H as -> end. done.
Qed.

(** What the event emitter passes on: a request for the sessions, or a node. *)
Definition pathfinder_msg (m : Message) : Prop :=
  exists a pre ev pf rest post, msg_at m a pre (ev ++ pf ++ rest) post /\ length ev = 4%nat /\ length pf = 4%nat /\
    bytes ev /\ bytes pf /\
    (be_val ev = PFChan_Pathfinder_SESSIONS /\ rest = [] \/
     be_val ev = PFChan_Pathfinder_NODE /\ length rest = 64%nat /\
     AddressCalc_validAddress (nd_ip6 (PFChan_Node_of rest)) = true /\
     node_ok (nd_ip6 (PFChan_Node_of rest)) (nd_publicKey (PFChan_Node_of rest))).

Lemma sessions_loop_ret pf es : exists outs, sessions_loop malloc pf es = Ret outs.
Proof.
  induction es as [|e es [outs IH]]; cbn [sessions_loop]; [by eexists|].
  destruct (sendSession_ret malloc Hmalloc (e_value e) (path0 (e_value e)) pf PFChan_Core_SESSION) as (out & ->).
  cbn [mbind Er_bind]. rewrite IH. by eexists.
Qed.

Lemma fromEvent_ok n env sm m : env_ok env -> sm_ok n (now_ms env) sm -> 2 <= n -> pathfinder_msg m ->
  exists sm' outs, incomingFromEventIf malloc env sm m = Ret (sm', outs) /\ sm_ok (n - 2) (now_ms env) sm'.
Proof.
  intros Henv Hok Hn (a & pre & ev & pf & rest & post & Hm & Hl1 & Hl2 & Hb1 & Hb2 & Hev). unfold incomingFromEventIf.
  pose proof (sm_ok_mono n (n - 2) (now_ms env) (now_ms env) sm ltac:(lia) ltac:(lia) Hok) as Hless.
  destruct (at_epop32be m a pre ev (pf ++ rest) post Hm Hl1 Hb1) as (m1 & -> & Hm1). cbn [mbind Er_bind].
  destruct (at_epop32be m1 _ _ pf rest post Hm1 Hl2 Hb2) as (m2 & -> & Hm2). cbn [mbind Er_bind].
  destruct Hev as [[-> ->]|(-> & Hl & Hval & Hnode)].
  { destruct (at_content _ _ _ _ _ Hm2) as [_ ->]. destruct (sessions_loop_ret (be_val pf) (map_entries (ifaceMap sm))) as (outs & Es).
    cbn [Z.eqb Assert_true mbind Er_bind length Z.of_nat]. rewrite Z.eqb_refl. rewrite Es. by eexists _, _. }
  change (PFChan_Pathfinder_NODE =? PFChan_Pathfinder_SESSIONS) with false. rewrite Z.eqb_refl. cbn [Assert_true mbind Er_bind].
  rewrite <- (app_nil_r rest) in Hm2. destruct (at_epop m2 _ _ rest [] post PFChan_Node_SIZE Hm2) as (m3 & -> & Hm3);
    [unfold PFChan_Node_SIZE; lia|]. cbn [mbind Er_bind].
  destruct (at_content _ _ _ _ _ Hm3) as [_ ->]. cbn [Z.eqb Assert_true mbind Er_bind length Z.of_nat].
  set (node := PFChan_Node_of rest) in *. assert (length (nd_ip6 node) = 16%nat) as Hip by (apply length_rd_in; lia).
  destruct (sessionForIp6_ok malloc Hmalloc n _ sm (nd_ip6 node) Hok Hip) as (r & sm1 & Esess & Hok1 & _).
  rewrite Esess. apply sessionForIp6_buf in Esess as Hbuf1. cbn [mbind Er_bind].
  destruct (_ && _); [eexists _, _; split; [done|]; by apply (sm_ok_mono n (n - 2) (now_ms env) (now_ms env)); [lia|lia|]|].
  match goal with |- context [getSession _ _ _ _ _ ?v ?l ?mt] =>
    destruct (getSession_ok malloc Hmalloc n env sm1 (nd_ip6 node) (nd_publicKey node) v l mt) as (i & sm2 & outs & Eget & Hok2 & Hpt) end;
    try done; [lia|apply bswap_fits|apply bswap_fits|].
  rewrite Eget. apply getSession_buf in Eget as Hbuf2. cbn [mbind Er_bind]. pose proof Hpt as (en & Hen).
  rewrite (session_at_entry _ _ _ Hen). cbn [mbind Er_bind]. replace (n - 2) with (n - 1 - 1) by lia.
  destruct (_ && _) eqn:Eix.
  2: { eexists _, _. split; [done|]. by apply (sm_ok_mono (n - 1) (n - 1 - 1) (now_ms env) (now_ms env)); [lia|lia|]. }
  apply andb_true_iff in Eix as [Eix _]. rewrite <- Hbuf1, <- Hbuf2 in *.
  pose proof (indexForKey_lookup (bufMap sm2) (nd_ip6 node) (ok_buffers _ _ _ Hok2) Hip) as Hix.
  destruct (kmap _ !! _); [|by rewrite Hix in Eix]. destruct Hix as (k & bm & Hk & _ & _ & Ek). rewrite Ek, Nat2Z.id, Hk.
  assert (inside_msg (b_msg (e_value bm))) as Hbm.
  { pose proof (ok_packets _ _ _ Hok2) as Hall. rewrite Forall_lookup in Hall. by apply (Hall k bm). }
  destruct (readyToSend_ok (n - 1) env sm2 (b_msg (e_value bm)) i Henv Hok2 ltac:(lia) Hbm Hpt) as (sm3 & outs' & -> & Hok3 & Hb3 & Hx3).
  cbn [mbind Er_bind]. eexists _, _. split; [done|]. apply set_bufMap_ok; [done|]. apply held_remove; [|by apply sm_held with (n - 1 - 1) (now_ms env)].
  rewrite Hb3. by eapply lookup_lt_Some.
Qed.

(** ** Timers *)

Lemma remove_session_ok n t sm k e : sm_ok n t sm -> map_entries (ifaceMap sm) !! k = Some e ->
  sm_ok n t (set_ifaceMap sm (Map_remove (Z.of_nat k) (ifaceMap sm)).2).
Proof.
  intros Hok Hk. pose proof Hok as []. destruct (remove_handles _ k e ok_handles Hk) as [Hh _].
  destruct (remove_keys _ k e ok_keys Hk) as (Hkk & _). pose proof (lookup_lt_Some _ _ _ Hk) as Hlt.
  rewrite remove_entries in * by done. cbn [snd] in *.
  split; try done.
  - cbn. by apply Forall_delete.
  - unfold map_count in *. cbn. rewrite length_delete by done. lia.
Qed.

Lemma checkTimedOutSession_ok n env sm k e : sm_ok n (now_ms env) sm -> map_entries (ifaceMap sm) !! k = Some e ->
  exists kept outs, checkTimedOutSession malloc env sm (e_value e) = Ret (kept, outs) /\
    forall s', kept = Some s' -> entry_ok n (now_ms env) (with_session e s').
Proof.
  intros Hok Hk. pose proof (ok_entries _ _ _ Hok) as Hall. rewrite Forall_lookup in Hall. pose proof (Hall k e Hk) as Hent.
  unfold checkTimedOutSession. destruct (_ >? _).
  { destruct (sendSession_ret malloc Hmalloc (e_value e) (mostRecentValidatedPath (e_value e)) 0xffffffff PFChan_Core_SESSION_ENDED)
      as (out & ->). by eexists None, _. }
  destruct (_ >? _); [eexists _, _; split; [done|]; by intros s' [= <-]|].
  destruct (_ >=? _).
  { destruct (triggerSearch_ret malloc Hmalloc (herIp6 (caSession (e_value e))) (s_version (e_value e))) as (out & ->).
    eexists _, _. split; [done|]. by intros s' [= <-]. }
  assert (forall s', Some (e_value e) = Some s' -> entry_ok n (now_ms env) (with_session e s')) as Hsame.
  { intros s' [= <-]. exact Hent. }
  destruct (_ <? _); [|by eexists _, _].
  destruct (unsetupSession_ret malloc Hmalloc (e_value e)) as (outs & ->); [| |by eexists _, _].
  - by apply Hent.
  - destruct Hent as (_ & _ & _ & _ & _ & Hf & _). unfold path0, path_at. destruct (paths (e_value e)); [done|].
    apply Forall_cons in Hf as [Hp _]. by apply Hp.
Qed.

Lemma checkTimedOutSessions_ok n env : forall i sm, sm_ok n (now_ms env) sm -> (i <= length (map_entries (ifaceMap sm)))%nat ->
  exists sm' outs, checkTimedOutSessions_loop malloc env i sm = Ret (sm', outs) /\ sm_ok n (now_ms env) sm'.
Proof.
  induction i as [|i IH]; intros sm Hok Hi; cbn [checkTimedOutSessions_loop]; [by eexists _, _|].
  destruct (lookup_lt_is_Some_2 (map_entries (ifaceMap sm)) i ltac:(lia)) as (e & He).
  assert (entry_at sm (Z.of_nat i) = Some e) as Hat by (unfold entry_at; by rewrite Nat2Z.id).
  rewrite (session_at_entry _ _ _ Hat). cbn [mbind Er_bind].
  destruct (checkTimedOutSession_ok n env sm i e Hok He) as (kept & outs & -> & Hkept). cbn [mbind Er_bind].
  set (sm1 := match kept with Some _ => _ | None => _ end).
  assert (sm_ok n (now_ms env) sm1 /\ (i <= length (map_entries (ifaceMap sm1)))%nat) as [Hok1 Hi1].
  { unfold sm1. destruct kept as [s'|].
    - split; [apply put_session_ok with e; auto|]. cbn. rewrite length_alter. lia.
    - split; [by apply remove_session_ok with e|]. rewrite remove_entries by lia. cbn.
      rewrite length_delete by done. lia. }
  destruct (IH sm1 Hok1 Hi1) as (sm2 & outs2 & -> & Hok2). cbn [mbind Er_bind]. by eexists _, _.
Qed.

Lemma periodically_ok n env sm : sm_ok n (now_ms env) sm ->
  exists sm' outs, periodically malloc env sm = Ret (sm', outs) /\ sm_ok n (now_ms env) sm'.
Proof.
  intros Hok. unfold periodically, checkTimedOutSessions.
  destruct (checkTimedOutSessions_ok n env _ sm Hok (le_n _)) as (sm1 & outs & -> & Hok1). cbn [mbind Er_bind].
  eexists _, _. split; [done|]. by apply checkTimedOutBuffers_ok.
Qed.

(** ** Runs *)

Inductive SMInput :=
| FromSwitch (m : Message)
| FromInside (m : Message)
| FromEvent (m : Message)
| Tick.

Definition sm_step (env : Env) (sm : SessionManager) (x : SMInput) : Er (SessionManager * list SMOut) :=
  match x with
  | FromSwitch m => incomingFromSwitchIf malloc env sm m
  | FromInside m => incomingFromInsideIf malloc env sm m
  | FromEvent m => incomingFromEventIf malloc env sm m
  | Tick => periodically malloc env sm
  end.

Fixpoint sm_run (sm : SessionManager) (xs : list (Env * SMInput)) : Er (SessionManager * list SMOut) :=
  match xs with
  | [] => Ret (sm, [])
  | (env, x) :: xs =>
      '(sm, outs) ← sm_step env sm x;
      '(sm, outs') ← sm_run sm xs;
      Ret (sm, outs ++ outs')
  end.

Definition input_ok (x : SMInput) : Prop :=
  match x with
  | FromSwitch m => switch_msg m
  | FromInside m => inside_ok m
  | FromEvent m => pathfinder_msg m
  | Tick => True
  end.

(** Clocks do not go back. *)
Fixpoint inputs_ok (t : Z) (xs : list (Env * SMInput)) : Prop :=
  match xs with
  | [] => True
  | (env, x) :: xs => t <= now_ms env /\ env_ok env /\ input_ok x /\ inputs_ok (now_ms env) xs
  end.

Context (Hzero : (AddressCalc_addressForPublicKey (zeros 32)).1 = false).

Lemma sm_step_ok n env sm x : env_ok env -> sm_ok n (now_ms env) sm -> secrets sm \/ (forall m, x <> FromSwitch m) -> 2 <= n -> input_ok x ->
  exists sm' outs, sm_step env sm x = Ret (sm', outs) /\ sm_ok (n - 2) (now_ms env) sm'.
Proof.
  intros Henv Hok Hsec Hn Hx. destruct x as [m|m|m|]; cbn [sm_step input_ok] in *.
  - destruct Hsec as [Hsec|Hno]; [by apply fromSwitch_ok|by destruct (Hno m)].
  - by apply fromInside_ok.
  - by apply fromEvent_ok.
  - destruct (periodically_ok n env sm Hok) as (sm' & outs & -> & Hok'). eexists _, _. split; [done|].
    by apply (sm_ok_mono n (n - 2) (now_ms env) (now_ms env)); [lia|lia|].
Qed.

(** Somewhere in the run a packet of the switch comes while an established session of
    the manager has an all-zero secret, which its CryptoAuth derived: the assertion
    of [CryptoAuth_decrypt]. *)
Definition zero_secret_met (sm : SessionManager) (xs : list (Env * SMInput)) : Prop :=
  exists xs1 env m xs2 sm1 outs e, xs = xs1 ++ (env, FromSwitch m) :: xs2 /\ sm_run sm xs1 = Ret (sm1, outs) /\
    e ∈ map_entries (ifaceMap sm1) /\ session_ok (caSession (e_value e)) /\
    established (caSession (e_value e)) = true /\ Bits_isZero (sharedSecret (caSession (e_value e))) = true.

Lemma zero_secret_met_step sm env x sm1 outs xs : sm_step env sm x = Ret (sm1, outs) -> zero_secret_met sm1 xs ->
  zero_secret_met sm ((env, x) :: xs).
Proof.
  intros E (xs1 & env1 & m & xs2 & sm2 & outs2 & e & -> & Hr & H). exists ((env, x) :: xs1), env1, m, xs2, sm2, (outs ++ outs2), e.
  split; [done|]. split; [|done]. cbn [sm_run]. by rewrite E, bind_of_ret, Hr.
Qed.

Lemma step_secrets n t sm env x xs : sm_ok n t sm ->
  (secrets sm \/ forall m, x <> FromSwitch m) \/ zero_secret_met sm ((env, x) :: xs).
Proof.
  intros Hok. destruct (decide (secrets sm)) as [|Hno]; [by left; left|]. destruct x as [m| | |]; try (by left; right).
  right. unfold secrets in Hno. apply not_Forall_Exists in Hno; [|apply _]. apply Exists_exists in Hno as (e & He & Ha).
  exists [], env, m, xs, sm, [], e. split; [done|]. split; [done|]. split; [done|].
  pose proof (ok_entries _ _ _ Hok) as Hall. rewrite Forall_forall in Hall. destruct (Hall e He) as (_ & _ & Hs & _).
  split; [done|]. by apply not_agreed in Ha.
Qed.

Lemma sm_run_ok : forall xs n t sm, sm_ok n t sm -> inputs_ok t xs -> 2 * len xs <= n ->
  (exists sm' outs t', sm_run sm xs = Ret (sm', outs) /\ sm_ok (n - 2 * len xs) t' sm') \/ zero_secret_met sm xs.
Proof.
  induction xs as [|[env x] xs IH]; intros n t sm Hok Hxs Hn.
  { left. eexists sm, _, t. split; [done|]. cbn. by rewrite Z.sub_0_r. }
  destruct (step_secrets n t sm env x xs Hok) as [Hsec|]; [|by right].
  cbn [inputs_ok sm_run length] in *. destruct Hxs as (Ht & Henv & Hx & Hxs).
  destruct (sm_step_ok n env sm x) as (sm1 & outs & E1 & Hok1); [done|by apply (sm_ok_mono n n t); [lia|lia|]|done|lia|done|].
  rewrite E1, bind_of_ret. destruct (IH (n - 2) (now_ms env) sm1 Hok1 Hxs) as [(sm2 & outs2 & t' & -> & Hok2)|Hz]; [lia| |].
  - left. rewrite bind_of_ret. eexists _, _, t'. split; [done|].
    replace (n - 2 * Z.of_nat (S (length xs))) with (n - 2 - 2 * len xs) by lia. done.
  - right. by eapply zero_secret_met_step.
Qed.

Lemma new_manager_ok ca rand n : ca_ok ca -> 0 <= n < 10 ^ 9 -> sm_ok n 0 (SessionManager_new ca rand).
Proof.
  intros Hca Hn.
  assert (forall V, keys_ok (Map_new : Map (list Z) V)) as Hk.
  { intros V. split; [constructor|]. split; [by apply Forall_nil|done]. }
  split; try done; try apply Hk; try by apply Forall_nil.
  - split; [constructor|]. split; [by apply Forall_nil|done].
  - lia.
  - change (0 + n < 2 ^ 32 - 1). lia.
  - change (0 + n < 2 ^ 31 - 1). lia.
Qed.
End Inside.

Section Runs.
Context {N : Nacl} {L : NaclLaws N}.
#[local] Set Default Proof Using "All".

End Runs.

(** ** An example run

    A handshake arrives, a packet for an unknown address is held back, the
    pathfinder finds the node, time passes. *)

#[local] Existing Instance toy_nacl.
#[local] Existing Instance toy_laws.

Definition flat_malloc (n : Z) : Z * list Z := (4096, zeros n).
Definition clock (t : Z) : Env := mkEnv (10 ^ 12 + 1000 * t) (1000 + t) (replicate 36 8) (replicate 32 9).

Definition peer_key : list Z := replicate 32 2.
Definition peer_ip6 : list Z := Eval vm_compute in (AddressCalc_addressForPublicKey peer_key).2.
Definition from_peer : Message :=
  buffer 124 (zeros 7 ++ [0x15] ++ zeros 4 ++
    be_bytes 4 0 ++ alice_auth ++ replicate 24 7 ++ peer_key ++ hello_body).
Definition to_stranger : Message :=
  buffer 124 (zeros 52 ++ (AddressCalc_addressForPublicKey (replicate 32 3)).2 ++ zeros 4 ++ [1; 2; 3; 4]).
Definition stranger_found : Message :=
  buffer 0 (be_bytes 4 PFChan_Pathfinder_NODE ++ be_bytes 4 0 ++
    PFChan_Node_bytes (mkNode (AddressCalc_addressForPublicKey (replicate 32 3)).2 (replicate 32 3)
      (Endian_hostToBigEndian64 0x13) 0 (Endian_hostToBigEndian32 20))).
Definition example_run : list (Env * SMInput) :=
  [(clock 1, FromSwitch from_peer); (clock 2, FromInside to_stranger); (clock 3, FromEvent stranger_found); (clock 4, Tick)].

Lemma buffer_at room c : Z.of_nat room + len c < 2 ^ 31 -> msg_at (buffer room c) (4096 + Z.of_nat room) (replicate room 0) c [].
Proof. intros H. split; [by apply buffer_view|done]. Qed.

Ltac ground_bytes := apply (bool_decide_unpack _); by vm_compute.

Lemma example_inputs_ok : inputs_ok 0 example_run.
Proof.
  assert (forall t, 0 <= t < 10 -> env_ok (clock t)) as Henv.
  { intros t Ht. split; [unfold clock, Metric_NO_INFO; cbn [now_ms]; lia|done]. }
  assert (forall t, now_ms (clock t) = 10 ^ 12 + 1000 * t) as Ht by done.
  cbn [inputs_ok example_run input_ok]. rewrite !Ht.
  split; [lia|]. split; [apply Henv; lia|]. split; [|split; [lia|split; [apply Henv; lia|split; [|split; [lia|split; [apply Henv; lia|
    split; [|split; [lia|split; [apply Henv; lia|by split]]]]]]]]].
  - eexists _, _, _, _. split; [apply buffer_at; by vm_compute|]. split; [by vm_compute|]. split; [by vm_compute|].
    split; [ground_bytes|by vm_compute].
  - split; [eexists _, _, _, _; split; [apply buffer_at; by vm_compute|by vm_compute]|]. intros _.
    split; [|by vm_compute|by vm_compute].
    eexists _, _, _, _. split; [apply buffer_at; by vm_compute|]. split; [by vm_compute|]. split; [by vm_compute|].
    split; [by vm_compute|ground_bytes].
  - eexists _, _, _, _, _, _. split; [apply buffer_at; by vm_compute|]. split; [done|]. split; [done|]. split; [ground_bytes|].
    split; [ground_bytes|]. right. split; [by vm_compute|]. split; [by vm_compute|]. by vm_compute.
Qed.

