(* ===== verification/SessionDelivery.v ===== *)
(** * The session manager: delivery between two nodes

    What one end's session manager sends through the switch, the other end's passes
    to the inside: the content unchanged, behind a route header which names the
    sender.  The switches in between may change the switch header only. *)
From stdpp Require Import gmap.
From S2P Require Import Prelude Bits Message Checksum MsgAt Headers RouteHeader PFChan Nacl Key.
From S2P Require Import ReplayProtector CryptoAuth CryptoAuthProofs CryptoFrame HandleMap SessionManager SessionProofs SessionSafety.

#[local] Instance ip6_laws : MapKeyLaws (list Z) := mem_key_laws 16.

Section Delivery.
Context {N : Nacl} {L : NaclLaws N} (malloc : Z -> Z * list Z) (Hmalloc : malloc_ok malloc).
#[local] Set Default Proof Using "All".

(** ** Sessions by address and by handle *)

Definition session_for (sm : SessionManager) (ip6 : list Z) : option SMSession := kmap (ifaceMap sm) !! ip6.
Definition session_with (sm : SessionManager) (handle : Z) : option SMSession :=
  hmap (ifaceMap sm) !! u32 (handle - firstHandle sm).

Lemma session_for_entry n t sm i e : sm_ok n t sm -> entry_at sm i = Some e ->
  session_for sm (e_key e) = Some (e_value e) /\ hmap (ifaceMap sm) !! e_handle e = Some (e_value e).
Proof.
  intros [] He. assert (e ∈ map_entries (ifaceMap sm)) as Hin by (by eapply list_elem_of_lookup_2).
  split; [by apply kmap_entry|by apply hmap_entry].
Qed.

Lemma check_found sm i e : entry_at sm i = Some e -> foundKey (e_value e) = true -> check sm i = Ret sm.
Proof. intros He Hf. unfold check. by rewrite He, Hf. Qed.

Lemma session_for_index n t sm ip6 s : sm_ok n t sm -> length ip6 = 16%nat -> session_for sm ip6 = Some s -> foundKey s = true ->
  exists i e, sessionForIp6 ip6 sm = Ret (Some i, sm) /\ entry_at sm i = Some e /\ e_key e = ip6 /\ e_value e = s.
Proof.
  intros Hok Hip Hs Hf. unfold sessionForIp6.
  pose proof (indexForKey_lookup (ifaceMap sm) ip6 (ok_keys n t sm Hok) Hip) as Hix. unfold session_for in Hs. rewrite Hs in Hix.
  destruct Hix as (i & e & Hi & Hk & Hv & ->). rewrite (proj2 (Z.eqb_neq _ _)) by lia.
  assert (entry_at sm (Z.of_nat i) = Some e) as He by (unfold entry_at; by rewrite Nat2Z.id).
  rewrite (check_found _ _ e He) by (by rewrite Hv). by eexists _, e.
Qed.

Lemma session_with_index n t sm h s : sm_ok n t sm -> session_with sm h = Some s -> foundKey s = true ->
  exists i e, sessionForHandle h sm = Ret (Some i, sm) /\ entry_at sm i = Some e /\ e_handle e = u32 (h - firstHandle sm) /\ e_value e = s.
Proof.
  intros Hok Hs Hf. unfold sessionForHandle.
  pose proof (indexForHandle_lookup (ifaceMap sm) (u32 (h - firstHandle sm)) (ok_handles n t sm Hok)) as Hix.
  unfold session_with in Hs. rewrite Hs in Hix.
  destruct Hix as (i & e & Hi & Hk & Hv & ->). rewrite (proj2 (Z.ltb_ge _ _)) by lia.
  assert (entry_at sm (Z.of_nat i) = Some e) as He by (unfold entry_at; by rewrite Nat2Z.id).
  rewrite (check_found _ _ e He) by (by rewrite Hv). by eexists _, e.
Qed.

(** ** Sending *)

(** A session traffic can go out on. *)
Record can_send (s : SMSession) : Prop := {
  cs_found : foundKey s = true;
  cs_version : s_version s <> 0;
  cs_path : p_label (path0 s) <> 0 /\ fits 64 (p_label (path0 s));
  cs_alive : p_metric (path0 s) < Metric_DEAD_LINK;
}.

(** A route header which only names the address: key, label and version are left
    to the session manager. *)
Record addressed (rh ip6 : list Z) : Prop := {
  ad_length : length rh = 68%nat;
  ad_label : le_val (rd 32 8 rh) = 0;
  ad_version : le_val (rd 44 4 rh) = 0;
  ad_flags : Z.land (get rh 48) RouteHeader_flags_CTRLMSG = 0;
  ad_ip6 : rd 52 16 rh = ip6;
}.

Definition outgoing_header (label : Z) : list Z :=
  be_bytes 8 label ++ [0; 64 * SwitchHeader_CURRENT_VERSION; 0; 0].

Lemma fresh_switchHeader_spec label : fits 64 label -> fresh_switchHeader label = Ret (outgoing_header label).
Proof.
  intros Hl. unfold fresh_switchHeader, SwitchHeader_setVersion, outgoing_header.
  change (SwitchHeader_CURRENT_VERSION <? 4) with true. cbn [Assert_true mbind Er_bind].
  unfold SwitchHeader_bytes, Endian_hostToBigEndian64, Endian_byteSwap64, u64.
  cbn [label_be congestAndSuppressErrors versionAndLabelShift trafficClass_be with_label_be].
  rewrite (fits_small 64) by done. by rewrite le_bytes_bswap.
Qed.

(** The two sides of a message's route header, read. *)
Lemma addressed_read m a pre rh ip6 c post : msg_at m a pre (rh ++ c) post -> addressed rh ip6 -> 4 <= len c ->
  hdr_label_be m = 0 /\ hdr_version_be m = 0 /\ hdr_ip6 m = ip6 /\
  Z.land (hdr_flags m) RouteHeader_flags_CTRLMSG = 0 /\ msg_length m = 68 + len c.
Proof.
  intros Hm [Hl Hlab Hver Hfl Hip] Hc. destruct (at_content _ _ _ _ _ Hm) as [_ ->].
  unfold hdr_label_be, hdr_version_be, hdr_ip6, hdr_flags.
  assert (forall off n, 0 <= off -> 0 <= n -> off + n <= 68 -> msg_read m off n = rd off n rh) as Hrd.
  { intros off n Ho Hn Hle. rewrite (msg_read_sub m _ _ _ off n (proj1 Hm)) by (rewrite ?length_app; lia).
    apply rd_prefix; lia. }
  rewrite !Hrd by lia. rewrite length_app. split; [done|]. split; [done|]. split; [done|]. split; [|lia].
  etransitivity; [|exact Hfl]. f_equal. unfold rd, get. change (Z.to_nat 0) with 0%nat. change (Z.to_nat 1) with 1%nat.
  change (Z.to_nat 48) with 48%nat. rewrite !nth_lookup, lookup_take_lt by lia. by rewrite lookup_drop.
Qed.

Lemma getState_running ca : 5 <= nextNonce ca -> (CryptoAuth_getState ca <? CryptoAuth_State_RECEIVED_KEY) = false /\
  (CryptoAuth_getState ca >=? CryptoAuth_State_RECEIVED_KEY) = true.
Proof.
  intros Hn. unfold CryptoAuth_getState. change CryptoAuth_State_RECEIVED_KEY with 4.
  rewrite (proj2 (Z.leb_gt _ _)) by lia. by destruct (established ca).
Qed.

(** The packet of a running session: the switch header moves in front of the handle. *)
Lemma readyToSend_running n env sm i e m a pre rh c post packet ca' :
  sm_ok n (now_ms env) sm -> 0 <= n -> entry_at sm i = Some e ->
  msg_at m a pre (rh ++ c) post -> length rh = 68%nat -> 4 <= len c ->
  72 <= len pre -> a mod 4 = 0 -> bytes rh -> le_val (rd 32 8 rh) <> 0 ->
  let ca := caSession (e_value e) in
  5 <= nextNonce ca -> fresh ca (now_s env) -> sends ca (sm_ca sm) (now_s env) (rand36 env) (rand32 env) c ca' packet ->
  5 <= nextNonce ca' -> len packet = len c + 20 ->
  exists out m', readyToSend env sm m i =
      Ret (put_session sm i (set_bytes (set_ca (e_value e) ca') out (bytesIn (e_value e))), [SMToSwitch m']) /\
    msg_content m' = rd 32 12 rh ++ be_bytes 4 (sendHandle (e_value e)) ++ packet.
Proof.
  intros Hok Hn0 He Hm Hrh Hc Hpre Ha Hby Hlab ca Hn Hfr Hsend Hn' Hpl. unfold readyToSend.
  rewrite (session_at_entry _ _ _ He). cbn [mbind Er_bind]. fold ca.
  destruct (at_shift_pop m a pre rh c post (- RouteHeader_SIZE) Hm) as (m1 & E1 & Hm1); [header_sizes; lia|].
  rewrite E1. cbn [mbind Er_bind]. pose proof (at_pos _ _ _ _ _ Hm) as [Hpos _].
  apply (pos_eshift_inv _ _ _ _ _ _ _ Hpos) in E1 as (Hpos1 & _).
  unfold CryptoAuth_resetIfTimeout. rewrite Hfr. cbn [mbind Er_bind]. rewrite (proj1 (getState_running ca Hn)).
  unfold to_encrypt. cbn [mbind Er_bind].
  destruct (Hsend m1 (pre ++ rh) post (proj1 Hm1)) as (m2 & pre' & room & Eenc & Epre & Hv2);
    [unfold aligned; destruct Hm1 as [_ ->]; Z.to_euclidean_division_equations; lia|rewrite length_app; lia|].
  rewrite Eenc. cbn [mbind Er_bind]. rewrite (proj2 (getState_running ca' Hn')).
  set (A := msg_addr m) in *. set (b := msg_bytes m) in *. set (s := b - len pre) in *. set (e0 := b + len (rh ++ c)) in *.
  replace (b - - RouteHeader_SIZE) with (b + 68) in Hpos1 by (header_sizes; lia).
  pose proof (sm_ok_entry _ _ _ _ _ Hok He) as (_ & _ & Hses & Hnon & _). fold ca in Hses, Hnon.
  assert (nextNonce ca < 0xfffffff0) as Hlim by lia.
  apply (encrypt_pos _ _ _ _ _ _ _ _ A s e0 _ Hpos1) in Eenc as [Hpos2 _]; [|unfold s; lia|intros s1 Hs1; unfold fresh in Hfr; congruence|lia].
  rewrite (proj2 (Z.ltb_ge _ _)) in Hpos2 by lia.
  assert (len room = 20) as Hroom.
  { pose proof (f_equal length Epre) as Hl. rewrite !length_app in Hl. pose proof (msg_view_padding _ _ _ _ Hv2) as Hp2.
    destruct Hpos2 as (_ & Hp2' & _). unfold s in Hp2'. lia. }
  destruct (list_split_at 32 rh) as (k32 & r1 & -> & Hk32); [lia|]. rewrite length_app in Hrh.
  destruct (list_split_at 12 r1) as (sh & r2 & -> & Hsh); [lia|]. rewrite length_app in Hrh.
  destruct (list_split_at 4 r2) as (v4 & r3 & -> & Hv4); [lia|]. rewrite length_app in Hrh.
  assert (pre' = ((pre ++ k32) ++ sh) ++ v4) as ->.
  { refine (proj1 (app_inj_2 _ _ room r3 _ _)); [lia|]. rewrite <- Epre. by rewrite <- !app_assoc. }
  assert (msg_at m2 (msg_addr m2 + msg_bytes m2) (((pre ++ k32) ++ sh) ++ v4) packet post) as Hm2 by by split.
  destruct (at_epush32be m2 _ _ v4 packet post (sendHandle (e_value e)) Hm2) as (m3 & E3 & Hm3); [lia|].
  cbn [sendHandle set_bytes set_ca]. rewrite E3. cbn [mbind Er_bind].
  destruct (pos_epush32be m2 A s e0 _ (sendHandle (e_value e)) Hpos2) as (m3' & E3' & Hpos3);
    [unfold s; lia|unfold e0; rewrite !length_app; lia|]. rewrite E3 in E3'. injection E3' as <-.
  destruct (at_shift_push m3 _ _ sh _ post SwitchHeader_SIZE Hm3) as (m4 & E4 & Hm4); [header_sizes; lia|].
  rewrite E4. cbn [mbind Er_bind]. apply (pos_eshift_inv _ A s e0 _ _ _ Hpos3) in E4 as ((_ & _ & _ & Hb4) & _).
  rewrite Hb4. rewrite (proj2 (Z.eqb_eq (b + 32) _)) by (header_sizes; lia). cbn [Assert_true mbind Er_bind].
  rewrite (rd_app 32 12 k32 sh) by lia.
  assert (ptr_read m4 (b + 32) 0 8 = rd 0 8 sh) as ->.
  { unfold ptr_read. rewrite Hb4. replace (b + 32 + 0 - _) with 0 by (header_sizes; lia).
    rewrite (msg_read_sub m4 _ _ _ _ _ (proj1 Hm4)) by (rewrite ?length_app; lia). apply rd_prefix; lia. }
  assert (rd 32 8 (k32 ++ sh ++ v4 ++ r3) = rd 0 8 sh) as Hsame.
  { unfold rd. rewrite drop_app_length' by lia. cbn [Z.to_nat drop]. by rewrite take_app_le by lia. }
  rewrite Hsame in Hlab. rewrite (proj2 (Z.eqb_neq _ _)) by done. cbn [mbind Er_bind].
  eexists _, m4. split; [reflexivity|]. by destruct (at_content _ _ _ _ _ Hm4) as [-> _].
Qed.

Lemma outgoing_header_shape label : fits 64 label -> label <> 0 ->
  length (outgoing_header label) = 12%nat /\ bytes (outgoing_header label) /\ le_val (take 8 (outgoing_header label)) <> 0.
Proof.
  intros Hf Hl. unfold outgoing_header. rewrite length_app, length_be_bytes. split; [done|].
  split; [apply bytes_app; split; [apply be_bytes_bytes|by repeat constructor]|].
  rewrite take_app_length' by by rewrite length_be_bytes. intros Hz. apply Hl.
  pose proof (bswap_le_val (be_bytes 8 label) (be_bytes_bytes 8 label)) as Hb. rewrite Hz, length_be_bytes in Hb.
  rewrite be_val_bytes in Hb. rewrite (fits_small 64) in Hb by done. by rewrite <- Hb.
Qed.

(** What a packet from the inside becomes in a running session. *)
Lemma inside_sends n env sm ip6 s m a pre rh c post packet ca' :
  sm_ok n (now_ms env) sm -> 1 <= n -> length ip6 = 16%nat -> session_for sm ip6 = Some s -> can_send s ->
  msg_at m a pre (rh ++ c) post -> addressed rh ip6 -> bytes rh -> 4 <= len c -> 72 <= len pre -> a mod 4 = 0 ->
  5 <= nextNonce (caSession s) -> fresh (caSession s) (now_s env) ->
  sends (caSession s) (sm_ca sm) (now_s env) (rand36 env) (rand32 env) c ca' packet ->
  session_ok ca' -> same_peer (caSession s) ca' -> nextNonce ca' = nextNonce (caSession s) + 1 -> len packet = len c + 20 ->
  exists sm' m' s', incomingFromInsideIf malloc env sm m = Ret (sm', [SMToSwitch m']) /\
    msg_content m' = outgoing_header (p_label (path0 s)) ++ be_bytes 4 (sendHandle s) ++ packet /\
    sm_ok (n - 1) (now_ms env) sm' /\ session_for sm' ip6 = Some s' /\ caSession s' = ca' /\ can_send s' /\
    sendHandle s' = sendHandle s /\ path0 s' = path0 s.
Proof.
  intros Hok Hn Hip Hs [Hfound Hver [Hlab Hlf] Hlive] Hm Had Hby Hc Hpre Ha Hn5 Hfr Hsend Hca' Hpeer Hnext Hpl.
  destruct (addressed_read m a pre rh ip6 c post Hm Had Hc) as (Hrl & Hrv & Hri & Hrf & Hrlen).
  destruct (session_for_index _ _ _ _ _ Hok Hip Hs Hfound) as (i & e & Eidx & He & Hkey & Hval).
  unfold incomingFromInsideIf. rewrite Hrlen.
  rewrite !(proj2 (Z.geb_le (68 + len c) _)) by (header_sizes; lia). cbn [Assert_true mbind Er_bind].
  rewrite Hrf, Z.eqb_refl. cbn [negb]. rewrite Hri, Eidx. cbn [mbind Er_bind].
  unfold send_by_session. rewrite (session_at_entry _ _ _ He). cbn [mbind Er_bind]. rewrite Hrv, Hrl, Hval.
  cbn [Z.eqb negb andb]. set (s1 := if Z.land _ _ =? 0 then _ else s).
  assert (s_version s1 = s_version s /\ path0 s1 = path0 s /\ caSession s1 = caSession s /\ paths s1 = paths s /\
    sendHandle s1 = sendHandle s /\ foundKey s1 = foundKey s) as (E1 & E2 & E3 & E4 & E5 & E6) by (unfold s1; by case_match).
  rewrite E1, E2, E3. clearbody s1. rewrite (proj2 (Z.eqb_neq (s_version s) 0)) by done.
  rewrite (proj2 (Z.ltb_lt _ _)) by done. cbn [negb].
  rewrite (fresh_switchHeader_spec _ Hlf). cbn [mbind Er_bind].
  unfold CryptoAuth_resetIfTimeout. rewrite Hfr. cbn [mbind Er_bind]. rewrite (proj1 (getState_running _ Hn5)).
  pose proof (sm_ok_entry _ _ _ _ _ Hok He) as Hent. subst s. pose proof Hent as (Hk1 & Hk2 & Hk3 & Hk4 & Hk5).
  assert (entry_ok n (now_ms env) (with_session e s1)) as Hent1.
  { unfold entry_ok. cbn [with_session e_key e_value]. by rewrite E3, E4. }
  set (s2 := set_ca s1 (caSession (e_value e))).
  assert (entry_ok n (now_ms env) (with_session e s2)) as Hent2.
  { unfold entry_ok. cbn [with_session e_key e_value s2 set_ca caSession paths]. by rewrite E4. }
  pose proof (put_session_ok n _ sm i e s1 Hok He Hent1) as Hok1. pose proof (entry_put sm i e s1 He) as He1.
  pose proof (put_session_ok n _ _ i _ s2 Hok1 He1 Hent2) as Hok2. pose proof (entry_put _ i _ s2 He1) as He2.
  destruct (outgoing_header_shape _ Hlf Hlab) as (Hol & Hob & Hoz). set (hdr := outgoing_header _) in *.
  destruct Had as [Hrh _ _ _ _].
  destruct (list_split_at 32 rh) as (k32 & r1 & -> & Hk32); [lia|]. rewrite length_app in Hrh.
  destruct (list_split_at 12 r1) as (sh & r2 & -> & Hsh); [lia|]. rewrite length_app in Hrh.
  rewrite <- !app_assoc in Hm. pose proof (at_write m a pre k32 sh (r2 ++ c) post 32 hdr Hm) as Hm'.
  replace (k32 ++ hdr ++ r2 ++ c) with ((k32 ++ hdr ++ r2) ++ c) in Hm' by (by rewrite <- !app_assoc).
  rewrite !bytes_app in Hby.
  destruct (readyToSend_running n env _ i _ _ a pre _ c post packet ca' Hok2 ltac:(lia) He2 (Hm' ltac:(lia) ltac:(lia)))
    as (out & m' & -> & Hcont); try done.
  { rewrite !length_app. lia. }
  { rewrite !bytes_app. tauto. }
  { unfold rd. rewrite drop_app_length' by lia. rewrite take_app_le by (cbn; lia). exact Hoz. }
  { lia. }
  cbn [e_value with_session] in *. set (s3 := set_bytes _ _ _).
  eexists _, m', s3. split; [reflexivity|]. split.
  { rewrite Hcont. cbn [s2 set_ca sendHandle]. rewrite E5. f_equal. rewrite rd_app; [done|lia|lia]. }
  assert (entry_ok (n - 1) (now_ms env) (with_session (with_session (with_session e s1) s2) s3)) as Hent3.
  { destruct Hpeer as [Hp1 Hp2]. unfold entry_ok, s3, s2. cbn [with_session e_key e_value set_bytes set_ca caSession paths].
    rewrite Hp1, Hp2, E4. split_and!; try done. lia. }
  pose proof (sm_ok_mono n (n - 1) (now_ms env) (now_ms env) _ ltac:(lia) ltac:(lia) Hok2) as Hok2'.
  pose proof (put_session_ok (n - 1) _ _ i _ s3 Hok2' He2 Hent3) as Hok3. split; [exact Hok3|].
  split. { destruct (session_for_entry _ _ _ i _ Hok3 (entry_put _ i _ s3 He2)) as [Hf _]. cbn in Hf. by rewrite Hkey in Hf. }
  split; [done|]. split; [|split; [exact E5|]].
  - split; unfold s3, s2; cbn; try congruence; rewrite ?E1; try done; unfold path0, path_at in *; cbn; rewrite ?E4; done.
  - unfold path0, path_at, s3, s2. cbn. by rewrite E4.
Qed.

(** ** Receiving *)

Definition is_event (o : SMOut) : Prop := match o with SMToEvent _ => True | _ => False end.

Lemma discoverPath_events now sess label metric sess' b outs :
  discoverPath malloc now sess label metric = Ret (sess', b, outs) -> Forall is_event outs.
Proof.
  unfold discoverPath. intros H. repeat (case_match; er_inv); try by apply Forall_nil.
  match goal with H : sendSession _ _ _ _ _ = _ |- _ => unfold sendSession in H; er_inv end. by apply Forall_singleton.
Qed.

(** The switch header as the receiver sees it: the label is the way back. *)
Definition reversed_header (sh : list Z) : list Z := le_bytes 8 (Bits_bitReverse64 (le_val (take 8 sh))) ++ drop 8 sh.

(** The route header in front of what came from the peer. *)
Definition incoming_route (s : SMSession) (sh unused : list Z) : list Z :=
  herPublicKey (caSession s) ++ sh ++ be_bytes 4 (s_version s) ++ [RouteHeader_flags_INCOMING; 0] ++ unused ++
  herIp6 (caSession s).

Lemma pass_inside_spec n env sm m a pre k sh h4 front c post switchHeader i en sess :
  env_ok env -> sm_ok n (now_ms env) sm -> entry_at sm i = Some en -> entry_ok n (now_ms env) (with_session en sess) ->
  msg_at m a (pre ++ k ++ sh ++ h4 ++ front) c post -> length k = 32%nat -> length sh = 12%nat -> length h4 = 4%nat ->
  length front = 20%nat -> switchHeader = msg_bytes m - 36 ->
  exists sm' m' outs s', pass_inside malloc env sm m switchHeader false i sess = Ret (sm', outs ++ [SMToInside m']) /\
    msg_at m' (a - 68) pre (incoming_route sess sh (take 2 (drop 2 front)) ++ c) post /\ Forall is_event outs /\
    sm_ok n (now_ms env) sm' /\ firstHandle sm' = firstHandle sm /\ entry_at sm' i = Some (with_session en s') /\
    s' = set_paths (set_bytes sess (bytesOut sess) (bytesIn s')) (paths s').
Proof.
  intros Henv Hok Hen Hent Hm Hk Hsh Hh4 Hfr Hsw. unfold pass_inside. cbn [mbind Er_bind].
  destruct (at_shift_push m a pre (k ++ sh ++ h4 ++ front) c post RouteHeader_SIZE Hm) as (m1 & E1 & Hm1);
    [header_sizes; rewrite !length_app; lia|]. rewrite E1. cbn [mbind Er_bind].
  pose proof (at_pos _ _ _ _ _ Hm) as [Hpos _]. apply (pos_eshift_inv _ _ _ _ _ _ _ Hpos) in E1 as ((_ & _ & _ & Hb1) & _).
  destruct (at_content _ _ _ _ _ Hm1) as [_ Hl1]. rewrite Hl1.
  rewrite (proj2 (Z.geb_le _ _)) by (header_sizes; rewrite !length_app; lia). cbn [Assert_true mbind Er_bind].
  rewrite (proj2 (Z.eqb_eq (msg_bytes m1 + 32) _)) by (rewrite Hb1; header_sizes; lia).
  change (Assert_true true) with (Ret tt). rewrite !bind_of_ret.
  destruct (list_split_at 4 front) as (f4 & f16 & -> & Hf4); [lia|]. rewrite length_app in Hfr.
  destruct f4 as [|x0 [|x1 [|x2 [|x3 [|]]]]]; try (cbn in Hf4; lia). clear Hf4.
  assert (length (herIp6 (caSession sess)) = 16%nat /\ length (herPublicKey (caSession sess)) = 32%nat) as [Hi6 Hpk].
  { destruct Hent as (E & Hi & Hs & _). cbn in E, Hi, Hs. split; [rewrite Hi, E; apply address_length|apply (so_herlen _ Hs)]. }
  unfold fill_route. set (ver := le_bytes 4 _). assert (length ver = 4%nat) as Hver by apply length_le_bytes.
  assert (ver = be_bytes 4 (s_version sess)) as Ever.
  { unfold ver. apply le_bytes_be32. }
  set (ip6 := herIp6 _) in *. set (key := herPublicKey _) in *.
  change (length [x0; x1; x2; x3]) with 4%nat in *.
  pose proof (at_write_of m1 _ _ _ _ (k ++ sh) h4 ([x0; x1; x2; x3] ++ f16 ++ c) 44 ver Hm1 ltac:(by rewrite <- !app_assoc) ltac:(lia)
    ltac:(rewrite length_app; lia)) as Hm2.
  pose proof (at_write_of _ _ _ _ _ (k ++ sh ++ ver ++ [x0; x1; x2; x3]) f16 c 52 ip6 Hm2 ltac:(by rewrite <- !app_assoc) ltac:(lia)
    ltac:(rewrite !length_app; cbn [length]; lia)) as Hm3.
  pose proof (at_write_of _ _ _ _ _ [] k (sh ++ ver ++ [x0; x1; x2; x3] ++ ip6 ++ c) 0 key Hm3 ltac:(by rewrite <- !app_assoc) ltac:(lia)
    eq_refl) as Hm4.
  pose proof (at_write_of _ _ _ _ _ (key ++ sh ++ ver ++ [x0]) [x1] ([x2; x3] ++ ip6 ++ c) 49 [0] Hm4 ltac:(by rewrite <- !app_assoc) eq_refl
    ltac:(rewrite !length_app; cbn [length]; lia)) as Hm5.
  pose proof (at_write_of _ _ _ _ _ (key ++ sh ++ ver) [x0] ([0] ++ [x2; x3] ++ ip6 ++ c) 48 [RouteHeader_flags_INCOMING] Hm5
    ltac:(by rewrite <- !app_assoc) eq_refl ltac:(rewrite !length_app; lia)) as Hm6.
  set (m6 := msg_write _ 48 _) in *. clearbody m6. clear Hm1 Hm2 Hm3 Hm4 Hm5.
  set (label := Endian_bigEndianToHost64 _). assert (fits 64 label) as Hlab by apply (host64_fits _). clearbody label.
  set (sess1 := set_bytes sess _ _).
  destruct (discoverPath_ok malloc Hmalloc (now_ms env) sess1 label Metric_SM_INCOMING) as (ps & better & outs & Ed & Hps);
    [apply Henv|apply Hent|exact Hlab|done|]. rewrite Ed. apply discoverPath_events in Ed. cbn [mbind Er_bind].
  eexists _, m6, outs, (set_paths sess1 ps). split; [reflexivity|].
  split. { rewrite !length_app in Hm6. replace (a - 68) with (a - Z.of_nat (length k + (length sh + (length h4 + (4 + length f16))))) by lia.
    unfold incoming_route. rewrite <- Ever. fold ip6 key. cbn [drop take]. rewrite <- !app_assoc in *. exact Hm6. }
  split; [done|]. split; [|split; [done|split; [by apply entry_put|done]]].
  apply put_session_ok with en; [done|done|]. destruct Hent as (Hh1 & Hh2 & Hh3 & Hh4' & _). by split.
Qed.

(** A packet with the handle of a session, up to where CryptoAuth takes over. *)
Lemma run_packet_dispatch n env sm h s m a pre sh n4 sealed post :
  sm_ok n (now_ms env) sm -> session_with sm h = Some s -> foundKey s = true -> 4 <= h < 0xffffffff ->
  msg_at m a pre (sh ++ be_bytes 4 h ++ n4 ++ sealed) post -> length sh = 12%nat -> length n4 = 4%nat -> bytes n4 ->
  4 <= be_val n4 -> 16 <= len sealed ->
  exists i e m', entry_at sm i = Some e /\ e_handle e = u32 (h - firstHandle sm) /\ e_value e = s /\
    msg_at m' (a + 16) (pre ++ reversed_header sh ++ be_bytes 4 h) (n4 ++ sealed) post /\ msg_bytes m' = msg_bytes m + 16 /\
    incomingFromSwitchIf malloc env sm m =
      ('(msg, ca, ret) ← CryptoAuth_decrypt (caSession s) (sm_ca sm) m' (now_s env);
       let session := set_ca s ca in
       if negb (bool_decide (ret = DecryptErr_NONE)) then
         outs ← answer_failed msg (msg_bytes m) (8 + len sealed) (be_bytes 4 h ++ n4 ++ take 8 sealed) ret ca;
         Ret (put_session sm i session, outs)
       else
         '(sm', outs) ← pass_inside malloc env (put_session sm i session) msg (msg_bytes m) false i session;
         Ret (sm', outs)).
Proof.
  intros Hok Hs Hfound Hh Hm Hsh Hn4 Hb4 Hnonce Hl. unfold incomingFromSwitchIf.
  destruct (session_with_index _ _ _ _ _ Hok Hs Hfound) as (i & e & Eidx & He & Hkey & Hval).
  destruct (at_content _ _ _ _ _ Hm) as [_ ->]. rewrite !length_app, length_be_bytes.
  rewrite (proj2 (Z.ltb_ge _ _)) by (header_sizes; lia).
  destruct (at_shift_pop m a pre sh _ post (- SwitchHeader_SIZE) Hm) as (m1 & E1 & Hm1); [header_sizes; lia|].
  rewrite E1. cbn [mbind Er_bind]. pose proof (at_pos _ _ _ _ _ Hm) as [Hpos _].
  apply (pos_eshift_inv _ _ _ _ _ _ _ Hpos) in E1 as ((_ & _ & _ & Hb1) & _).
  replace (msg_bytes m - - SwitchHeader_SIZE) with (msg_bytes m + 12) in Hb1 by (header_sizes; lia).
  destruct (list_split_at 8 sh) as (s8 & s4 & -> & Hs8); [lia|]. rewrite length_app in Hsh.
  assert (ptr_read m1 (msg_bytes m) 0 8 = s8) as ->.
  { unfold ptr_read. rewrite (msg_read_pad m1 pre s8 s4 _ post _ _ (proj1 Hm1)); [done|lia|lia]. }
  unfold reversed_header. rewrite take_app_length', drop_app_length' by lia.
  set (lab := le_bytes 8 (Bits_bitReverse64 (le_val s8))). assert (length lab = 8%nat) as Hlab by apply length_le_bytes. clearbody lab.
  assert (msg_at (ptr_write m1 (msg_bytes m) 0 lab) (a + 12) (pre ++ lab ++ s4) (be_bytes 4 h ++ n4 ++ sealed) post) as Hm2.
  { unfold ptr_write. destruct Hm1 as [Hv1 Ha1]. rewrite length_app in Ha1. split; [|cbn; lia].
    apply (msg_write_pad m1 pre s8 s4 _ post _ _ Hv1); lia. }
  assert (msg_bytes (ptr_write m1 (msg_bytes m) 0 lab) = msg_bytes m + 12) as Hb2 by done.
  revert Hm2 Hb2. generalize (ptr_write m1 (msg_bytes m) 0 lab). clear m1 Hm1 Hb1. intros m2 Hm2 Hb2.
  rewrite (at_read_of m2 _ _ _ _ [] (be_bytes 4 h) (n4 ++ sealed) 0 4 Hm2) by (rewrite ?length_be_bytes; done || lia).
  rewrite host32 by (apply be_bytes_bytes || by rewrite length_be_bytes).
  rewrite be_val_nonce by (unfold fits; lia). rewrite (proj2 (Z.eqb_neq h _)) by lia.
  destruct (list_split_at 8 sealed) as (t8 & t & -> & Ht8); [lia|]. rewrite (take_app_length' t8) by lia.
  assert (msg_read m2 0 16 = be_bytes 4 h ++ n4 ++ t8) as ->.
  { apply (at_read_of m2 _ _ _ _ [] (be_bytes 4 h ++ n4 ++ t8) t 0 16 Hm2); [by rewrite <- !app_assoc|done|].
    rewrite !length_app, length_be_bytes. lia. }
  destruct (at_content _ _ _ _ _ Hm2) as [_ ->]. rewrite !length_app, length_be_bytes in *.
  rewrite (proj2 (Z.ltb_ge _ (4 + 20))) by lia. rewrite (proj2 (Z.geb_le _ 16)) by lia. cbn [Assert_true mbind Er_bind].
  unfold session_of_packet. rewrite (proj2 (Z.gtb_lt h 3)) by lia. rewrite Eidx. cbn [mbind Er_bind].
  destruct (at_shift_pop m2 _ _ (be_bytes 4 h) _ post (-4) Hm2) as (m3 & E3 & Hm3); [by rewrite length_be_bytes|].
  rewrite E3. cbn [mbind Er_bind]. pose proof (at_pos _ _ _ _ _ Hm2) as [Hpos2 _].
  apply (pos_eshift_inv _ _ _ _ _ _ _ Hpos2) in E3 as ((_ & _ & _ & Hb3) & _).
  rewrite (at_read_of m3 _ _ _ _ [] n4 (t8 ++ t) 0 4 Hm3) by (done || lia). rewrite host32 by (done || lia).
  rewrite (proj2 (Z.ltb_ge (be_val n4) 4)) by lia. cbn [mbind Er_bind]. rewrite (proj2 (Z.leb_gt h 3)) by lia.
  rewrite (session_at_entry _ _ _ He). cbn [mbind Er_bind]. rewrite Hval. exists i, e, m3.
  split; [done|]. split; [done|]. split; [done|]. rewrite length_be_bytes in Hm3.
  split. { rewrite <- !app_assoc in *. by replace (a + 12 + Z.of_nat 4) with (a + 16) in Hm3 by lia. }
  split; [lia|]. destruct (CryptoAuth_decrypt _ _ _ _) as [[[m4 ca] ret]|]; [|done]. rewrite !bind_of_ret. cbv beta iota zeta.
  destruct (negb _); [|done]. do 2 f_equal. lia.
Qed.

(** A packet of a running session from the switch: by its handle to the session, and
    on to the inside. *)
Lemma switch_receives n env sm h s m a pre sh packet post c ca' :
  env_ok env -> sm_ok n (now_ms env) sm -> 1 <= n -> session_with sm h = Some s -> foundKey s = true -> 4 <= h < 0xffffffff ->
  msg_at m a pre (sh ++ be_bytes 4 h ++ packet) post -> length sh = 12%nat -> 64 <= len pre -> a mod 4 = 0 ->
  (len packet + len post) mod 4 = 0 -> bytes (take 4 packet) -> 20 <= len packet -> 4 <= be_val (take 4 packet) ->
  receives (caSession s) (sm_ca sm) (now_s env) packet ca' c -> session_ok ca' -> nextNonce ca' <= nextNonce (caSession s) + 3 ->
  exists sm' m' a' pre' outs s' unused, incomingFromSwitchIf malloc env sm m = Ret (sm', outs ++ [SMToInside m']) /\
    msg_at m' a' pre' (incoming_route s (reversed_header sh) unused ++ c) post /\ len pre' = len pre - 32 /\
    length unused = 2%nat /\ Forall is_event outs /\
    sm_ok (n - 1) (now_ms env) sm' /\ session_with sm' h = Some s' /\ caSession s' = ca' /\ foundKey s' = true.
Proof.
  intros Henv Hok Hn Hs Hfound Hh Hm Hsh Hpre Ha Hcap Hby Hpl Hnonce Hrecv Hca' Hnext.
  destruct (list_split_at 4 packet) as (n4 & sealed & -> & Hn4); [lia|]. rewrite take_app_length' in Hnonce, Hby by lia.
  rewrite length_app in Hpl, Hcap.
  destruct (run_packet_dispatch n env sm h s m a pre sh n4 sealed post) as (i & e & m3 & He & Hkey & Hval & Hm3 & Hb3 & ->); try done; [lia|lia|].
  assert (length (reversed_header sh) = 12%nat) as Hrl.
  { unfold reversed_header. rewrite length_app, length_le_bytes, length_drop. lia. }
  revert Hm3 Hrl. generalize (reversed_header sh). intros rsh Hm3 Hrl. pose proof (at_pos _ _ _ _ _ Hm3) as [Hpos3 _].
  destruct (Hrecv m3 _ post (proj1 Hm3)) as (m4 & front & Edec & Hv4).
  { split; [unfold aligned; destruct Hm3 as [_ ->]; Z.to_euclidean_division_equations; lia|].
    destruct Hm3 as [(x & y & _ & _ & _ & _ & -> & _) _]. rewrite Z.rem_mod_nonneg by lia. by rewrite length_app. }
  { rewrite !length_app. lia. }
  rewrite Edec. rewrite bind_of_ret. cbv beta iota zeta. rewrite bool_decide_eq_true_2 by done. cbn [negb].
  pose proof (decrypt_peer _ _ _ _ _ _ _ Edec) as Hpeer.
  apply (decrypt_pos _ _ _ _ _ _ _ _ _ _ _ Hpos3) in Edec as (b4 & Hpos4 & _ & Hb4e);
    [|rewrite !length_app; lia]. specialize (Hb4e eq_refl).
  rewrite (at_read_of m3 _ _ _ _ [] n4 sealed 0 4 Hm3) in Hb4e by (done || lia). rewrite host32 in Hb4e by (done || lia).
  rewrite (proj2 (Z.ltb_ge (be_val n4) 4)) in Hb4e by lia. rewrite Hb3 in *.
  assert (length front = 20%nat) as Hfront.
  { pose proof (msg_view_padding _ _ _ _ Hv4) as Hp4. destruct Hpos4 as (_ & Hp4' & _).
    rewrite !length_app in Hp4. rewrite !length_app in Hp4'. lia. }
  destruct (split_room pre 32) as (pre1 & k & -> & Hk & Hp1); [lia|].
  pose proof (sm_ok_entry _ _ _ _ _ Hok He) as Hent. rewrite <- Hval in Hpeer, Hnext.
  pose proof (entry_ok_ca _ _ _ _ Hent Hpeer Hca' Hnext) as Hent'. rewrite Hval in Hent'.
  pose proof (sm_ok_mono n (n - 1) (now_ms env) (now_ms env) sm ltac:(lia) ltac:(lia) Hok) as Hok'.
  pose proof (put_session_ok (n - 1) _ sm i e _ Hok' He Hent') as Hok1. pose proof (entry_put sm i e (set_ca s ca') He) as He1.
  assert (msg_at m4 (msg_addr m4 + msg_bytes m4) (pre1 ++ k ++ rsh ++ be_bytes 4 h ++ front) c post) as Hm4.
  { split; [|done]. by rewrite <- !app_assoc in *. }
  destruct (pass_inside_spec (n - 1) env _ m4 _ _ k rsh (be_bytes 4 h) front c post (msg_bytes m) i _ (set_ca s ca')
    Henv Hok1 He1 Hent' Hm4) as (sm' & m' & outs & s' & -> & Hcont & Hev & Hok2 & Hfh & He2 & Es');
    [lia|done|by rewrite length_be_bytes|done|destruct Hpos4 as (_ & _ & _ & ->); lia|].
  rewrite bind_of_ret. eexists sm', m', _, pre1, outs, s', _. split; [done|]. split.
  { refine (eq_rect _ (fun x => msg_at _ _ _ (x ++ _) _) Hcont _ _). unfold incoming_route. cbn [set_ca caSession s_version]. rewrite Hval in Hpeer. by destruct Hpeer as [-> ->]. }
  split; [rewrite length_app; lia|]. split; [rewrite length_take, length_drop; lia|]. split; [done|]. split; [done|].
  split. { destruct (session_for_entry _ _ _ i _ Hok2 He2) as [_ Hf]. cbn in Hf. rewrite Hkey in Hf. unfold session_with. rewrite Hfh. exact Hf. }
  rewrite Es'. by split.
Qed.
End Delivery.

Section EndToEnd.
Context {N : Nacl} {L : NaclLaws N}.
#[local] Set Default Proof Using "All".

Lemma data_packet_shape n secret role c : fits 32 n -> len (data_packet n secret role c) = len c + 20 /\
  bytes (take 4 (data_packet n secret role c)) /\ be_val (take 4 (data_packet n secret role c)) = n.
Proof.
  intros Hn. unfold data_packet. rewrite length_app, seal_length, length_be_bytes.
  rewrite !take_app_length' by by rewrite length_be_bytes. split; [lia|]. split; [apply be_bytes_bytes|by apply be_val_nonce].
Qed.

Lemma running_delivery malloc mallocB nA nB envA envB smA smB ip6 sA sB m a pre rh c post :
  malloc_ok malloc -> malloc_ok mallocB -> sm_ok nA (now_ms envA) smA -> 1 <= nA ->
  env_ok envB -> sm_ok nB (now_ms envB) smB -> 1 <= nB ->
  length ip6 = 16%nat -> session_for smA ip6 = Some sA -> can_send sA ->
  session_with smB (sendHandle sA) = Some sB -> foundKey sB = true -> 4 <= sendHandle sA < 0xffffffff ->
  paired (caSession sA) (caSession sB) -> fresh (caSession sA) (now_s envA) ->
  msg_at m a pre (rh ++ c) post -> addressed rh ip6 -> bytes rh -> 4 <= len c -> 72 <= len pre -> a mod 4 = 0 ->
  exists smA' m1 sA' packet, incomingFromInsideIf malloc envA smA m = Ret (smA', [SMToSwitch m1]) /\
    msg_content m1 = outgoing_header (p_label (path0 sA)) ++ packet /\
    sm_ok (nA - 1) (now_ms envA) smA' /\ session_for smA' ip6 = Some sA' /\ can_send sA' /\ sendHandle sA' = sendHandle sA /\
    forall m2 a2 pre2 sh post2, msg_at m2 a2 pre2 (sh ++ packet) post2 -> length sh = 12%nat -> 64 <= len pre2 ->
      a2 mod 4 = 0 -> (len packet + len post2) mod 4 = 0 ->
      exists smB' m3 a3 pre3 outs sB' unused,
        incomingFromSwitchIf mallocB envB smB m2 = Ret (smB', outs ++ [SMToInside m3]) /\ Forall is_event outs /\
        msg_at m3 a3 pre3 (incoming_route sB (reversed_header sh) unused ++ c) post2 /\ len pre3 = len pre2 - 32 /\ length unused = 2%nat /\
        sm_ok (nB - 1) (now_ms envB) smB' /\ session_with smB' (sendHandle sA) = Some sB' /\ foundKey sB' = true /\
        paired (caSession sA') (caSession sB').
Proof.
  intros HmA HmB HokA HnA HenvB HokB HnB Hip HsA Hcan HsB HfB Hh Hpair Hfr Hm Had Hby Hc Hpre Ha.
  destruct (session_for_index malloc HmA _ _ _ _ _ HokA Hip HsA (cs_found _ Hcan)) as (i & e & _ & He & _ & Hval).
  pose proof (sm_ok_entry _ _ _ _ _ HokA He) as (_ & _ & Hses & Hnon & _). rewrite Hval in Hses, Hnon.
  pose proof (pd_started _ _ Hpair) as H5.
  destruct (paired_delivers (caSession sA) (caSession sB) (sm_ca smA) (sm_ca smB) c (now_s envA) (now_s envB)
    (rand36 envA) (rand32 envA) Hpair ltac:(lia) Hfr ltac:(lia)) as (b' & _ & Hsend & Hrecv & Hpair' & Hnb & _).
  set (packet := data_packet _ _ _ c) in *. set (ca' := set_nextNonce _ _) in *.
  destruct (data_packet_shape (nextNonce (caSession sA)) (sharedSecret (caSession sA)) (isInitiator (caSession sA)) c)
    as (Hpl & Hp4 & Hpn); [apply (so_nonce _ Hses)|]. fold packet in Hpl, Hp4, Hpn.
  destruct (inside_sends malloc HmA nA envA smA ip6 sA m a pre rh c post packet ca') as
    (smA' & m1 & sA' & Hrun & Hcont & HokA' & HsA' & Hca & Hcan' & Hsh' & _); try done; [apply Hpair'|].
  eexists smA', m1, sA', (be_bytes 4 (sendHandle sA) ++ packet). split; [done|]. split; [done|]. split; [done|].
  split; [done|]. split; [done|]. split; [done|]. intros m2 a2 pre2 sh post2 Hm2 Hsh Hpre2 Ha2 Hcap.
  rewrite length_app, length_be_bytes in Hcap.
  destruct (switch_receives mallocB HmB nB envB smB (sendHandle sA) sB m2 a2 pre2 sh packet post2 c b') as
    (smB' & m3 & a3 & pre3 & outs & sB' & unused & Hrun' & Hcont' & Hp3 & Hu & Hev & HokB' & HsB' & Hcb & HfB'); try done.
  { Z.to_euclidean_division_equations; lia. }
  { lia. }
  { lia. }
  { apply Hpair'. }
  { lia. }
  exists smB', m3, a3, pre3, outs, sB', unused. split_and!; try done. by rewrite Hca, Hcb.
Qed.

(** [C9] Two nodes share an established session.  A packet from one node's upper
    layers which only names the other's address leaves through the switch with
    the label of the best path in a fresh switch header.  Whatever the switches
    make of that header, when the packet reaches the other node it is found by
    its handle, decrypted and passed to the upper layers with the content
    unchanged, behind a route header with the sender's key, address and version
    and with the label for the way back.  Both ends keep their invariants and
    stay in step for the next packet. *)
Theorem session_delivers malloc mallocB nA nB envA envB smA smB ip6 sA sB m a pre rh c post :
  malloc_ok malloc -> malloc_ok mallocB -> sm_ok nA (now_ms envA) smA -> 1 <= nA ->
  env_ok envB -> sm_ok nB (now_ms envB) smB -> 1 <= nB ->
  length ip6 = 16%nat -> session_for smA ip6 = Some sA -> can_send sA ->
  session_with smB (sendHandle sA) = Some sB -> foundKey sB = true -> 4 <= sendHandle sA < 0xffffffff ->
  paired (caSession sA) (caSession sB) -> fresh (caSession sA) (now_s envA) ->
  msg_at m a pre (rh ++ c) post -> addressed rh ip6 -> bytes rh -> 4 <= len c -> 72 <= len pre -> a mod 4 = 0 ->
  exists smA' m1 sA' packet, incomingFromInsideIf malloc envA smA m = Ret (smA', [SMToSwitch m1]) /\
    msg_content m1 = outgoing_header (p_label (path0 sA)) ++ packet /\
    sm_ok (nA - 1) (now_ms envA) smA' /\ session_for smA' ip6 = Some sA' /\ can_send sA' /\
    forall m2 a2 pre2 sh post2, msg_at m2 a2 pre2 (sh ++ packet) post2 -> length sh = 12%nat -> 64 <= len pre2 ->
      a2 mod 4 = 0 -> (len packet + len post2) mod 4 = 0 ->
      exists smB' m3 outs sB' unused,
        incomingFromSwitchIf mallocB envB smB m2 = Ret (smB', outs ++ [SMToInside m3]) /\ Forall is_event outs /\
        msg_content m3 = incoming_route sB (reversed_header sh) unused ++ c /\ length unused = 2%nat /\
        sm_ok (nB - 1) (now_ms envB) smB' /\ session_with smB' (sendHandle sA) = Some sB' /\
        paired (caSession sA') (caSession sB').
Proof.
  intros H1 H2 H3 H4 H5 H6 H7 H8 H9 H10 H11 H12 H13 H14 H15 H16 H17 H18 H19 H20 H21.
  destruct (running_delivery malloc mallocB nA nB envA envB smA smB ip6 sA sB m a pre rh c post H1 H2 H3 H4 H5 H6 H7 H8 H9 H10 H11 H12
    H13 H14 H15 H16 H17 H18 H19 H20 H21) as (smA' & m1 & sA' & packet & Hrun & Hc & Hok & Hs & Hcan & _ & Hrecv).
  exists smA', m1, sA', packet. split_and!; try done. intros m2 a2 pre2 sh post2 I1 I2 I3 I4 I5.
  destruct (Hrecv m2 a2 pre2 sh post2 I1 I2 I3 I4 I5) as (smB' & m3 & a3 & pre3 & outs & sB' & unused & Hr & He & Hm3 & _ & Hu & Hok' & Hs' & _ & Hp).
  exists smB', m3, outs, sB', unused. split_and!; try done. by destruct (at_content _ _ _ _ _ Hm3) as [-> _].
Qed.
End EndToEnd.

(** ** An example: Alice sends Bob a packet *)

#[local] Existing Instance toy_nacl.
#[local] Existing Instance toy_laws.

Definition one_session (ca : CryptoAuth) (s : Session) (handle : Z) : SessionManager :=
  let sess := mkSMSession s [mkPath (10 ^ 12) 0x15 0; no_path; no_path] 0 0 0 0 100 handle 20 true in
  mkSessionManager ca Map_new (mkMap [mkEntry (key_hash (herIp6 s)) (herIp6 s) 0 sess] 1 10) 100 30 120000 30000.

Definition alice_manager : SessionManager := one_session alice_ca (running true 4) 100.
Definition bob_manager : SessionManager := one_session bob_ca (running false 2) 100.
Definition example_env : Env := mkEnv (10 ^ 12 + 1) 1003 (replicate 36 8) (replicate 32 9).

Definition plain_session (s : Session) : Prop :=
  session_ok s /\ herIp6 s = (AddressCalc_addressForPublicKey (herPublicKey s)).2 /\ nextNonce s <= 8.

Lemma running_plain initiator k : 0 < k -> plain_session (running initiator k).
Proof. intros Hk. split; [by apply running_ok|]. by split. Qed.

Lemma one_session_ok ca s handle : ca_ok ca -> plain_session s -> sm_ok 1 (10 ^ 12 + 1) (one_session ca s handle).
Proof.
  intros Hca (Hs & Ha & Hn). unfold one_session.
  assert (length (herIp6 s) = 16%nat) as Hip by (rewrite Ha; apply address_length).
  assert (forall h, keys_ok (mkMap [mkEntry (key_hash (herIp6 s)) (herIp6 s) 0 h] 1 10 : Map (list Z) SMSession)) as Hkeys.
  { intros x. split; [apply NoDup_singleton|]. split; [|by vm_compute]. apply Forall_singleton. by split. }
  split; cbn [ifaceMap bufMap sm_ca maxBufferedMessages map_entries map_nextHandle].
  - apply Hkeys.
  - split; [repeat constructor|]. split; [apply Forall_singleton; cbn; lia|]. by split.
  - split; [constructor|]. split; [by apply Forall_nil|by vm_compute].
  - apply Forall_singleton. unfold entry_ok. cbn [e_key e_value caSession paths].
    split; [done|]. split; [done|]. split; [done|]. split; [lia|]. split; [done|]. split; [|by left].
    assert (path_ok (10 ^ 12 + 1) no_path) as Hno by (split; [cbn; lia|]; split; [done|]; split; [done|]; by left).
    apply Forall_cons. split; [|by repeat apply Forall_cons_2; try apply Forall_nil].
    split; [cbn; lia|]. split; [done|]. split; [done|]. by right; left.
  - by apply Forall_nil.
  - done.
  - lia.
  - lia.
  - unfold map_count. cbn [map_entries length]. lia.
  - by vm_compute.
  - done.
Qed.

Definition bob_address : list Z := (AddressCalc_addressForPublicKey (replicate 32 4)).2.

Definition hello_bob : Message := buffer 100 ((zeros 52 ++ bob_address) ++ [0; 0; 0; 0; 1; 2; 3; 4]).

Lemma hello_bob_addressed : addressed (zeros 52 ++ bob_address) bob_address.
Proof. by split; vm_compute. Qed.

(** What Alice's manager sends, and Bob's gets out of it. *)
Definition hello_sent_bytes : list Z := Eval vm_compute in
  match incomingFromInsideIf flat_malloc example_env alice_manager hello_bob with
  | Ret (_, [SMToSwitch m]) => msg_content m
  | _ => []
  end.

Lemma hello_sent_spec smA' m1 : incomingFromInsideIf flat_malloc example_env alice_manager hello_bob = Ret (smA', [SMToSwitch m1]) ->
  msg_content m1 = hello_sent_bytes.
Proof.
  intros H. transitivity (match incomingFromInsideIf flat_malloc example_env alice_manager hello_bob with
    | Ret (_, [SMToSwitch m]) => msg_content m | _ => [] end); [by rewrite H|by vm_compute].
Qed.

Definition example_session (s : Session) : SMSession :=
  mkSMSession s [mkPath (10 ^ 12) 0x15 0; no_path; no_path] 0 0 0 0 100 100 20 true.

Lemma one_session_found ca s : ca_ok ca -> plain_session s ->
  session_for (one_session ca s 100) (herIp6 s) = Some (example_session s) /\
  session_with (one_session ca s 100) 100 = Some (example_session s).
Proof.
  intros Hca Hp. pose proof (one_session_ok ca s 100 Hca Hp) as Hok.
  assert (malloc_ok flat_malloc) as Hmalloc by (intros n; apply length_replicate). unfold one_session in *.
  destruct (session_for_entry flat_malloc Hmalloc 1 _ _ 0 (mkEntry (key_hash (herIp6 s)) (herIp6 s) 0 (example_session s)) Hok) as [H1 H2];
    [reflexivity|]. by split.
Qed.

Lemma example_can_send s : can_send (example_session s).
Proof. split; cbn; try done. Qed.

Lemma example_env_ok : env_ok example_env.
Proof. split; [|done]. cbn. unfold Metric_NO_INFO. lia. Qed.

Lemma hello_bob_at : msg_at hello_bob (4096 + 100) (replicate 100 0) ((zeros 52 ++ bob_address) ++ [0; 0; 0; 0; 1; 2; 3; 4]) [].
Proof. apply (buffer_at 100). by vm_compute. Qed.

Lemma hello_bob_bytes : bytes (zeros 52 ++ bob_address).
Proof. ground_bytes. Qed.

Lemma session_delivers_witness :
  exists smA' m1 smB' m3 outs unused,
    incomingFromInsideIf flat_malloc example_env alice_manager hello_bob = Ret (smA', [SMToSwitch m1]) /\
    incomingFromSwitchIf flat_malloc example_env bob_manager (buffer 64 (msg_content m1)) = Ret (smB', outs ++ [SMToInside m3]) /\
    msg_content m3 = replicate 32 2 ++ [168; 0; 0; 0; 0; 0; 0; 0; 0; 64; 0; 0] ++ be_bytes 4 20 ++ [1; 0] ++ unused
      ++ (AddressCalc_addressForPublicKey (replicate 32 2)).2 ++ [0; 0; 0; 0; 1; 2; 3; 4].
Proof.
  assert (malloc_ok flat_malloc) as Hmalloc by (intros n; apply length_replicate).
  pose proof (session_delivers flat_malloc flat_malloc 1 1 example_env example_env alice_manager bob_manager bob_address
    (example_session (running true 4)) (example_session (running false 2))
    hello_bob (4096 + 100) (replicate 100 0) (zeros 52 ++ bob_address) [0; 0; 0; 0; 1; 2; 3; 4] []
    Hmalloc Hmalloc (one_session_ok alice_ca _ 100 ltac:(done) (running_plain true 4 eq_refl)) ltac:(lia) example_env_ok
    (one_session_ok bob_ca _ 100 ltac:(done) (running_plain false 2 eq_refl)) ltac:(lia) eq_refl (proj1 (one_session_found alice_ca _ ltac:(done) (running_plain true 4 eq_refl)))
    (example_can_send _) (proj2 (one_session_found bob_ca _ ltac:(done) (running_plain false 2 eq_refl))) eq_refl
    ltac:(cbn; lia) running_paired (running_fresh _ _)) as H.
  destruct (H hello_bob_at hello_bob_addressed hello_bob_bytes
    ltac:(by vm_compute) ltac:(by vm_compute) ltac:(by vm_compute))
    as (smA' & m1 & sA' & packet & Hrun & Hcont & _ & _ & _ & Hrecv).
  assert (packet = drop 12 hello_sent_bytes /\ take 12 hello_sent_bytes = outgoing_header 21) as [-> Hh].
  { pose proof (hello_sent_spec _ _ Hrun) as H0. rewrite Hcont in H0. rewrite <- H0. by split. }
  destruct (Hrecv (buffer 64 (msg_content m1)) (4096 + 64) (replicate 64 0) (outgoing_header 21) []) as
    (smB' & m3 & outs & sB' & unused & Hrun' & _ & Hcont' & _); [|done|by vm_compute|by vm_compute|by vm_compute|].
  { rewrite Hcont. apply (buffer_at 64). by vm_compute. }
  exists smA', m1, smB', m3, outs, unused. split; [done|]. split; [done|]. rewrite Hcont'.
  unfold incoming_route. by rewrite <- !app_assoc.
Defined.
