(* ===== verification/SessionErrors.v ===== *)
(** * The session manager: refused packets

    A packet which does not decrypt is answered: the first bytes go back to where it
    came from, in a control packet of type [Error_AUTHENTICATION].
    [stale_session_answered] is about data for a session which has no key, the way
    a node notices that its peer has lost the session. *)
From stdpp Require Import gmap.
From S2P Require Import Prelude Bits Message Checksum MsgAt Headers RouteHeader PFChan Nacl Key.
From S2P Require Import ReplayProtector CryptoAuth CryptoAuthProofs CryptoFrame HandleMap SessionManager SessionProofs SessionSafety SessionDelivery.

#[local] Instance ip6_laws : MapKeyLaws (list Z) := mem_key_laws 16.

Section Errors.
Context {N : Nacl} {L : NaclLaws N}.
#[local] Set Default Proof Using "All".

(** The control packet, behind the checksum. *)
Definition auth_error (sh first : list Z) (err state : Z) : list Z :=
  be_bytes 2 2 ++ be_bytes 4 Error_AUTHENTICATION ++ sh ++ first ++ be_bytes 4 err ++ be_bytes 4 state.

(** A switch header without errors in answer. *)
Definition quiet_header (label : list Z) : list Z := label ++ [1; 64; 0; 0].

Lemma failedDecrypt_spec m a pre room body post label_be : msg_at m a (pre ++ room) body post -> length room = 24%nat ->
  bytes body -> len body <= 65000 -> a mod 2 = 0 ->
  let rest := be_bytes 2 2 ++ be_bytes 4 Error_AUTHENTICATION ++ body in
  exists m' ck, failedDecrypt m label_be = Ret [SMToSwitch m'] /\ fits 16 ck /\ verifies (le_bytes 2 ck ++ rest) /\
    msg_content m' = quiet_header (le_bytes 8 label_be) ++ be_bytes 4 0xffffffff ++ le_bytes 2 ck ++ rest.
Proof.
  intros Hm Hr Hb Hl Ha rest. unfold failedDecrypt.
  destruct (list_split_at 12 room) as (r12 & x & -> & Hr12); [lia|]. rewrite length_app in Hr.
  destruct (list_split_at 4 x) as (r4 & y & -> & Hr4); [lia|]. rewrite length_app in Hr.
  destruct (list_split_at 2 y) as (r2 & z & -> & Hr2); [lia|]. rewrite length_app in Hr.
  destruct (list_split_at 2 z) as (t2 & t4 & -> & Ht2); [lia|]. rewrite length_app in Hr.
  rewrite !app_assoc in Hm.
  destruct (at_epush32be m a _ t4 body post Error_AUTHENTICATION Hm) as (m1 & -> & Hm1); [lia|]. cbn [mbind Er_bind].
  destruct (at_epush16be m1 _ _ t2 _ post 2 Hm1) as (m2 & -> & Hm2); [lia|]. cbn [mbind Er_bind]. fold rest in Hm2.
  destruct (at_epush16be m2 _ _ r2 _ post 0 Hm2) as (m3 & -> & Hm3); [lia|]. cbn [mbind Er_bind].
  destruct (at_content _ _ _ _ _ Hm3) as [-> ->]. rewrite (proj2 Hm3).
  assert (bytes rest /\ len rest = 6 + len body) as [Hrb Hrl].
  { unfold rest. rewrite !bytes_app, !length_app, !length_be_bytes. split; [|lia]. by auto using be_bytes_bytes. }
  destruct (engine_field (a - 4 - 2 - 2) [] rest) as (ck & Hck & E & Hv); [Z.to_euclidean_division_equations; lia|done|done|done| |].
  { unfold with_field. cbn [app]. rewrite length_app, length_le_bytes. lia. }
  unfold with_field in E, Hv. cbn [app] in E, Hv. change (be_bytes 2 0) with (le_bytes 2 0). rewrite E. cbn [mbind Er_bind].
  unfold Message_epop16h, Message_popH.
  destruct (at_epop m3 _ _ (be_bytes 2 0) rest post (Z.of_nat 2) Hm3) as (m4 & -> & Hm4); [done|]. cbn [mbind Er_bind].
  unfold Message_epush16h, Message_pushH.
  destruct (at_epush m4 _ _ _ rest post (le_bytes 2 ck) Hm4) as (m5 & E5 & Hm5); [by rewrite length_le_bytes|].
  rewrite length_le_bytes in E5. rewrite E5. cbn [mbind Er_bind].
  destruct (at_epush32be m5 _ _ r4 _ post 0xffffffff Hm5) as (m6 & -> & Hm6); [lia|]. cbn [mbind Er_bind].
  unfold SwitchHeader_setVersion. change (SwitchHeader_CURRENT_VERSION <? 4) with true. cbn [Assert_true mbind Er_bind].
  set (hdr := SwitchHeader_bytes _). assert (hdr = quiet_header (le_bytes 8 label_be)) as -> by reflexivity.
  destruct (at_epush m6 _ _ r12 _ post (quiet_header (le_bytes 8 label_be)) Hm6) as (m7 & E7 & Hm7);
    [unfold quiet_header; rewrite length_app, length_le_bytes; cbn; lia|].
  change (len (quiet_header (le_bytes 8 label_be))) with (Z.of_nat (length (quiet_header (le_bytes 8 label_be)))) in E7.
  replace (Z.of_nat (length (quiet_header (le_bytes 8 label_be)))) with SwitchHeader_SIZE in E7
    by (unfold quiet_header; rewrite length_app, length_le_bytes; done).
  rewrite E7. cbn [mbind Er_bind]. exists m7, ck. split; [done|]. split; [done|]. split; [exact Hv|].
  by destruct (at_content _ _ _ _ _ Hm7) as [-> _].
Qed.

(** From where decryption stopped, with [q] consumed and [t] and [rest] left. *)
Lemma answer_failed_spec m a pre room s8 s4 q t rest post switchHeader length0 first err ca :
  msg_at m a ((pre ++ room) ++ (s8 ++ s4) ++ q) (t ++ rest) post -> length room = 24%nat -> length s8 = 8%nat -> length s4 = 4%nat ->
  len q + len t = 24 -> bytes s4 -> bytes first -> length first = 16%nat ->
  length0 = len q + len t + len rest -> switchHeader = msg_bytes m - len q - 12 -> a mod 4 = len q mod 4 ->
  let sh := le_bytes 8 (Bits_bitReverse64 (le_val s8)) ++ s4 in
  let body := auth_error sh first (DecryptErr_num err) (CryptoAuth_getState ca) in
  exists m' ck, answer_failed m switchHeader length0 first err ca = Ret [SMToSwitch m'] /\ fits 16 ck /\
    verifies (le_bytes 2 ck ++ body) /\
    msg_content m' = quiet_header (le_bytes 8 (le_val s8)) ++ be_bytes 4 0xffffffff ++ le_bytes 2 ck ++ body.
Proof.
  intros Hm Hroom Hs8 Hs4 Hqt Hbs Hbf Hfirst Hl0 Hsw Ha sh body. unfold answer_failed.
  pose proof (at_bound _ _ _ _ _ Hm) as Hbd. rewrite !length_app in Hbd.
  destruct (at_content _ _ _ _ _ Hm) as [_ ->]. rewrite length_app. rewrite i32_small by lia.
  destruct (at_shift_pop m a _ t rest post (length0 - Z.of_nat (length t + length rest) - 24) Hm) as (m1 & E1 & Hm1); [lia|].
  rewrite E1. cbn [mbind Er_bind]. pose proof (at_pos _ _ _ _ _ Hm) as [Hpos _].
  apply (pos_eshift_inv _ _ _ _ _ _ _ Hpos) in E1 as ((_ & _ & _ & Hb1) & _).
  pose proof (at_set_length m1 _ _ [] rest post 0 Hm1 eq_refl) as Hm2. set (m2 := set_msg_length m1 0) in *.
  assert (msg_bytes m2 = switchHeader + 36) as Hb2 by (cbn; lia). clearbody m2. clear m1 Hm1 Hb1 Hpos.
  replace (a + len t) with (a - len q + 24) in Hm2 by lia. rewrite <- !app_assoc in Hm2.
  assert (length (q ++ t) = 24%nat) as Hw by (rewrite length_app; lia). revert Hm2 Hw. generalize (q ++ t). intros w Hm2 Hw.
  destruct (at_pos _ _ _ _ _ Hm2) as [P2 _]. rewrite Hb2 in P2.
  destruct (list_split_at 16 w) as (w16 & x & -> & Hw16); [lia|]. rewrite length_app in Hw.
  destruct (list_split_at 4 x) as (w4 & v4 & -> & Hw4); [lia|]. rewrite length_app in Hw.
  rewrite !length_app in P2. rewrite !app_assoc in Hm2.
  destruct (at_epush32be m2 _ _ v4 _ _ (CryptoAuth_getState ca) Hm2) as (m3 & E3 & Hm3); [lia|].
  destruct (pos_epush32be _ _ _ _ _ (CryptoAuth_getState ca) P2) as (m3' & E3' & P3); [cbn; lia..|].
  rewrite E3 in E3'. injection E3' as <-. rewrite E3. cbn [mbind Er_bind].
  destruct (at_epush32be m3 _ _ w4 _ _ (DecryptErr_num err) Hm3) as (m4 & E4 & Hm4); [lia|].
  destruct (pos_epush32be _ _ _ _ _ (DecryptErr_num err) P3) as (m4' & E4' & P4); [cbn; lia..|].
  rewrite E4 in E4'. injection E4' as <-. rewrite E4. cbn [mbind Er_bind].
  destruct (at_epush m4 _ _ w16 _ _ first Hm4) as (m5 & E5 & Hm5); [lia|]. rewrite Hfirst in E5. change (Z.of_nat 16) with 16 in E5.
  rewrite E5. cbn [mbind Er_bind]. rewrite <- (app_assoc (pre ++ room)) in Hm5.
  destruct (at_shift_push m5 _ _ (s8 ++ s4) _ _ SwitchHeader_SIZE Hm5) as (m6 & E6 & Hm6);
    [header_sizes; rewrite length_app; lia|]. rewrite E6. cbn [mbind Er_bind].
  apply epush_addr in E5 as [_ Hb5].
  assert (msg_bytes m6 = switchHeader) as Hb6.
  { unfold Message_eshift in E6. repeat case_match; simplify_eq. cbn. rewrite Hb5, i32_small by lia.
    destruct P4 as (_ & _ & _ & ->). header_sizes. lia. }
  rewrite Hb6, Z.eqb_refl. cbn [Assert_true mbind Er_bind].
  assert (ptr_read m6 switchHeader 0 8 = s8) as ->.
  { unfold ptr_read. rewrite <- app_assoc in Hm6. apply (at_read m6 _ _ [] s8 _ _ _ _ Hm6); [cbn [length]; lia|lia]. }
  rewrite <- app_assoc in Hm6.
  pose proof (at_write m6 _ _ [] s8 _ _ (switchHeader + 0 - msg_bytes m6) (le_bytes 8 (Bits_bitReverse64 (le_val s8))) Hm6) as Hm7.
  rewrite length_le_bytes in Hm7. specialize (Hm7 (eq_sym Hs8)). cbn [app length] in Hm7.
  unfold ptr_write. specialize (Hm7 ltac:(lia)). set (m7 := msg_write m6 _ _) in *. clearbody m7.
  rewrite app_assoc in Hm7. fold sh in Hm7.
  assert (length sh = 12%nat /\ bytes sh) as [Hshl Hshb].
  { unfold sh. rewrite length_app, length_le_bytes. split; [lia|]. apply bytes_app. by auto using le_bytes_bytes. }
  destruct (failedDecrypt_spec m7 _ pre room _ _ (le_val s8) Hm7 Hroom) as (m' & ck & Hf & Hck & Hver & Hcont).
  { rewrite !bytes_app. by auto using be_bytes_bytes. }
  { rewrite !length_app, !length_be_bytes. cbn [length]. lia. }
  { rewrite !length_app, Hfirst. Z.to_euclidean_division_equations; lia. }
  rewrite app_nil_r in *. exists m', ck. by split_and!.
Qed.

Lemma put_session_same sm i e : entry_at sm i = Some e -> put_session sm i (e_value e) = sm.
Proof.
  intros He. unfold put_session, entry_at in *. destruct sm as [ca bm [es nh cap] fh mb st ss]. cbn in *.
  unfold set_ifaceMap. cbn. do 2 f_equal. apply list_eq. intros j.
  destruct (decide (j = Z.to_nat i)) as [->|Hj]; [rewrite list_lookup_alter_eq, He; by destruct e|by rewrite list_lookup_alter_ne].
Qed.

(** Data for a session which has no key does not change it. *)
Lemma no_session_decrypt s ca m pre n4 sealed post now : session_ok s -> wire_ok m -> msg_view m pre (n4 ++ sealed) post ->
  length n4 = 4%nat -> bytes n4 -> 16 <= len sealed -> 12 <= len pre -> 4 <= be_val n4 -> established s = false -> nextNonce s < 3 ->
  exists m', msg_view m' (pre ++ n4) sealed post /\ CryptoAuth_decrypt s ca m now = Ret (m', s, DecryptErr_NO_SESSION).
Proof.
  intros Hs Hw Hv H4 Hb Hl Hp Hn He Hn3.
  destruct (decrypt_dispatch s ca m pre n4 sealed post now Hs (fun _ => agreed_idle s He) Hw Hv H4 Hb Hl Hp) as (m1 & m2 & Hv1 & _ & ->).
  exists m1. split; [done|]. cbv zeta. unfold is_handshake. rewrite (proj2 (Z.ltb_ge (be_val n4) 4)) by lia. cbn [andb].
  rewrite He. unfold decrypt_final_step, cryptoAuthDebug. change CryptoAuth_State_SENT_KEY with 3.
  rewrite (proj2 (Z.ltb_lt (nextNonce s) 3)) by lia. by rewrite (so_key s Hs).
Qed.

(** [C20] A packet of data for a session in which no key has been agreed on, such as
    the peer sends when this node has reset the session, changes nothing and is
    answered: the control packet goes back along the way the packet came, its
    checksum verifies, it asks for no error in return, and it carries the error
    code, the switch header as it arrived, the first 16 bytes of the packet, the
    reason and the state of the session. *)
Theorem stale_session_answered malloc n env sm h s m a pre sh n4 sealed post :
  malloc_ok malloc -> sm_ok n (now_ms env) sm -> session_with sm h = Some s -> foundKey s = true -> 4 <= h < 0xffffffff ->
  established (caSession s) = false -> nextNonce (caSession s) < CryptoAuth_State_SENT_KEY ->
  msg_at m a pre (sh ++ be_bytes 4 h ++ n4 ++ sealed) post -> length sh = 12%nat -> bytes (sh ++ n4 ++ sealed) -> length n4 = 4%nat ->
  4 <= be_val n4 -> 16 <= len sealed -> 64 <= len pre -> a mod 4 = 0 -> (len sealed + len post) mod 4 = 0 ->
  exists m' ck,
    let way_back := le_bytes 8 (Bits_bitReverse64 (le_val (take 8 sh))) in
    let ctrl := le_bytes 2 ck ++ auth_error sh (be_bytes 4 h ++ n4 ++ take 8 sealed) (DecryptErr_num DecryptErr_NO_SESSION)
                  (CryptoAuth_getState (caSession s)) in
    incomingFromSwitchIf malloc env sm m = Ret (sm, [SMToSwitch m']) /\
    msg_content m' = quiet_header way_back ++ be_bytes 4 0xffffffff ++ ctrl /\ verifies ctrl.
Proof.
  intros Hmalloc Hok Hs Hfound Hh Hest Hnn Hm Hsh Hby H4 Hnonce Hl Hpre Ha Hcap. change CryptoAuth_State_SENT_KEY with 3 in Hnn.
  rewrite !bytes_app in Hby. destruct Hby as (Hbsh & Hb4 & Hbs).
  destruct (run_packet_dispatch malloc Hmalloc n env sm h s m a pre sh n4 sealed post) as (i & e & m3 & He & Hkey & Hval & Hm3 & Hb3 & ->); try done.
  pose proof (sm_ok_entry _ _ _ _ _ Hok He) as (_ & _ & Hses & _). rewrite Hval in Hses.
  destruct (list_split_at 8 sh) as (s8 & s4 & -> & Hs8); [lia|]. rewrite length_app in Hsh.
  unfold reversed_header in Hm3. rewrite take_app_length', ?drop_app_length' in * by lia.
  set (lab := le_bytes 8 (Bits_bitReverse64 (le_val s8))) in *. assert (length lab = 8%nat) as Hlab by apply length_le_bytes.
  destruct (no_session_decrypt (caSession s) (sm_ca sm) m3 (pre ++ (lab ++ s4) ++ be_bytes 4 h) n4 sealed post (now_s env) Hses) as (m4 & Hv4 & Edec); try done.
  { split; [unfold aligned; destruct Hm3 as [_ ->]; Z.to_euclidean_division_equations; lia|].
    destruct Hm3 as [(x & y & _ & _ & _ & _ & -> & _) _]. rewrite Z.rem_mod_nonneg by lia. rewrite length_app. Z.to_euclidean_division_equations; lia. }
  { apply Hm3. }
  { rewrite !length_app. lia. }
  pose proof (at_pos _ _ _ _ _ Hm3) as [Hpos3 _]. rewrite Edec, bind_of_ret. cbv beta iota zeta.
  rewrite bool_decide_eq_false_2 by done. cbn [negb].
  apply (decrypt_pos _ _ _ _ _ _ _ _ _ _ _ Hpos3) in Edec as (b4 & Hpos4 & _); [|rewrite !length_app; lia].
  assert (b4 = msg_bytes m3 + 4) as ->.
  { pose proof (msg_view_padding _ _ _ _ Hv4) as Hp4. destruct Hpos4 as (_ & Hp4' & _). rewrite !length_app in *. lia. }
  destruct (split_room pre 24) as (pre1 & room & -> & Hroom & _); [lia|].
  destruct (list_split_at 16 sealed) as (t & rest & -> & Ht); [lia|].
  assert (msg_at m4 (a + 20) ((pre1 ++ room) ++ (lab ++ s4) ++ be_bytes 4 h ++ n4) (t ++ rest) post) as Hm4.
  { split; [by rewrite <- !app_assoc in *|]. destruct Hpos4 as (-> & _ & _ & ->). destruct Hm3 as [_ Ha3]. lia. }
  replace (set_ca s (caSession s)) with (e_value e) by (rewrite Hval; by destruct s). rewrite (put_session_same _ _ _ He).
  apply bytes_app in Hbsh as [Hbs8 Hbs4].
  destruct (answer_failed_spec m4 _ pre1 room lab s4 (be_bytes 4 h ++ n4) t rest post (msg_bytes m) (8 + len (t ++ rest))
    (be_bytes 4 h ++ n4 ++ take 8 (t ++ rest)) DecryptErr_NO_SESSION (caSession s) Hm4) as (m' & ck & -> & Hck & Hver & Hcont);
    rewrite ?length_app, ?length_be_bytes in *; try done; try lia.
  { rewrite !bytes_app. split; [apply be_bytes_bytes|]. split; [done|]. by apply Forall_take. }
  { rewrite length_take, length_app. lia. }
  { destruct Hpos4 as (_ & _ & _ & ->). lia. }
  { Z.to_euclidean_division_equations; lia. }
  rewrite bind_of_ret. exists m', ck.
  assert (fits 64 (le_val s8)) as Hf8 by (pose proof (le_val_bound s8 Hbs8) as H; by rewrite Hs8 in H).
  assert (le_val lab = Bits_bitReverse64 (le_val s8)) as Elab.
  { unfold lab. rewrite le_val_bytes. apply (fits_small 64), Bits_bitReverse64_fits. }
  rewrite Elab, Bits_bitReverse64_involutive in * by done.
  assert (le_bytes 8 (le_val s8) = s8) as E8 by (rewrite <- (le_bytes_val s8) at 2 by done; by replace (length s8) with 8%nat by lia).
  rewrite E8 in *. by split_and!.
Qed.
End Errors.

(** ** An example: Bob has forgotten Alice's keys *)

#[local] Existing Instance toy_nacl.
#[local] Existing Instance toy_laws.

Definition forgotten : Session := CryptoAuth_newSession (replicate 32 2) false 1000.
Definition late_data : list Z := [0; 0; 0; 9] ++ replicate 20 5.
Definition late_packet : Message := buffer 64 (outgoing_header 0x15 ++ be_bytes 4 100 ++ late_data).

Lemma forgotten_plain : plain_session forgotten.
Proof. split; [by apply newSession_ok|]. by split. Qed.

Lemma stale_session_answered_witness :
  exists m' ck,
    let ctrl := le_bytes 2 ck ++ auth_error (outgoing_header 0x15) (be_bytes 4 100 ++ [0; 0; 0; 9] ++ replicate 8 5) 2 0 in
    incomingFromSwitchIf flat_malloc example_env (one_session bob_ca forgotten 100) late_packet
      = Ret (one_session bob_ca forgotten 100, [SMToSwitch m']) /\
    msg_content m' = quiet_header [168; 0; 0; 0; 0; 0; 0; 0] ++ be_bytes 4 0xffffffff ++ ctrl /\ verifies ctrl.
Proof.
  assert (malloc_ok flat_malloc) as Hmalloc by (intros n; apply length_replicate).
  assert (msg_at late_packet (4096 + 64) (replicate 64 0) (outgoing_header 0x15 ++ be_bytes 4 100 ++ [0; 0; 0; 9] ++ replicate 20 5) []) as Hat
    by (apply (buffer_at 64); by vm_compute).
  exact (stale_session_answered flat_malloc 1 example_env (one_session bob_ca forgotten 100) 100 (example_session forgotten) late_packet
    (4096 + 64) (replicate 64 0) (outgoing_header 0x15) [0; 0; 0; 9] (replicate 20 5) [] Hmalloc
    (one_session_ok bob_ca forgotten 100 ltac:(done) forgotten_plain) (proj2 (one_session_found bob_ca forgotten ltac:(done) forgotten_plain))
    eq_refl ltac:(lia) eq_refl ltac:(by vm_compute) Hat eq_refl ltac:(ground_bytes) eq_refl ltac:(by vm_compute) ltac:(by vm_compute)
    ltac:(by vm_compute) eq_refl eq_refl).
Defined.
