(* ===== verification/UpperProofs.v ===== *)
(** * The upper distributor refines a table of programs

    A program registers a UDP port for a kind of packets.  [table_of] is the
    abstract table, a finite map from ports to kinds; [upper_refines_table] shows
    that after any calls of the registration functions a packet from the session
    manager is copied to exactly the ports which the table has for its kind, and
    goes to the part its kind belongs to. *)
From stdpp Require Import gmap.
From S2P Require Import Prelude Bits Message Checksum MsgAt Headers RouteHeader Nacl Key Address HandleMap UpperDistributor.
From S2P Require Import CryptoAuthProofs SessionSafety.

Inductive TableOp :=
| Register (ct port : Z)
| Unregister (port : Z).

Definition op_port (op : TableOp) : Z := match op with Register _ port | Unregister port => port end.

(** The calls as they are made, with their results thrown away. *)
Fixpoint table_run (ud : UpperDistributor) (ops : list TableOp) : Er UpperDistributor :=
  match ops with
  | [] => Ret ud
  | Register ct port :: ops => '(_, ud) ← UpperDistributor_registerHandler ud ct port; table_run ud ops
  | Unregister port :: ops => table_run (UpperDistributor_unregisterHandler ud port).2 ops
  end.

(** The abstract table. *)
Definition table_step (t : gmap Z Z) (op : TableOp) : gmap Z Z :=
  match op with
  | Register ct port => if decide (t !! port = None) then <[port := ct]> t else t
  | Unregister port => delete port t
  end.
Definition table_of (ops : list TableOp) : gmap Z Z := foldl table_step ∅ ops.

Definition table (ud : UpperDistributor) : gmap Z Z := h_type <$> kmap (ud_handlers ud).

(** ** Lemmas *)

(** A table of ports is small. *)
Lemma ports_bound ud : ud_ok ud -> map_count (ud_handlers ud) <= 65536.
Proof.
  intros (Hkeys & Hp & _). pose proof (kmap_Forall _ _ Hkeys Hp) as Hf. destruct Hkeys as (Hnd & _). unfold map_count.
  assert (e_key <$> map_entries (ud_handlers ud) ⊆+ seqZ 0 65536) as Hs.
  { apply NoDup_submseteq; [done|]. intros k (e & -> & He)%list_elem_of_fmap.
    rewrite Forall_forall in Hf. destruct (Hf e He) as [_ Hk]. apply elem_of_seqZ. unfold fits in Hk. lia. }
  apply submseteq_length in Hs. rewrite length_fmap, length_seqZ in Hs. lia.
Qed.

Lemma register_myIp6 ud ct port r ud' : UpperDistributor_registerHandler ud ct port = Ret (r, ud') -> ud_myIp6 ud' = ud_myIp6 ud.
Proof. unfold UpperDistributor_registerHandler. intros H. repeat (case_match; er_inv); done. Qed.
Lemma unregister_myIp6 ud port : ud_myIp6 (UpperDistributor_unregisterHandler ud port).2 = ud_myIp6 ud.
Proof. unfold UpperDistributor_unregisterHandler. by case_match. Qed.

Lemma table_run_refines ops : forall ud, ud_ok ud -> Forall (fun op => fits 16 (op_port op)) ops ->
  exists ud', table_run ud ops = Ret ud' /\ ud_ok ud' /\ ud_myIp6 ud' = ud_myIp6 ud /\ table ud' = foldl table_step (table ud) ops.
Proof.
  induction ops as [|op ops IH]; intros ud Hok Hops; [by exists ud|]. apply Forall_cons in Hops as [Hop Hops].
  destruct op as [ct port|port]; cbn [op_port table_run foldl table_step] in *.
  - pose proof (ports_bound ud Hok).
    destruct (register_spec ud ct port Hok Hop ltac:(lia)) as (r & ud1 & E & Hok1 & Hm). rewrite E, bind_of_ret.
    destruct (IH ud1 Hok1 Hops) as (ud' & -> & Hok' & Hmy & Ht). exists ud'. split; [done|]. split; [done|].
    split; [by rewrite Hmy, (register_myIp6 _ _ _ _ _ E)|]. rewrite Ht. f_equal.
    assert (table ud !! port = h_type <$> (kmap (ud_handlers ud) !! port)) as Hl by apply lookup_fmap.
    destruct (kmap (ud_handlers ud) !! port) as [h|]; cbn [fmap option_fmap option_map] in Hl.
    + destruct Hm as [_ ->]. rewrite decide_False; [done|by rewrite Hl].
    + destruct Hm as [_ Hm]. rewrite decide_True by done. unfold table. by rewrite Hm, fmap_insert.
  - pose proof (unregister_spec ud port Hok Hop) as Hu. pose proof (unregister_myIp6 ud port) as Hmy1.
    destruct (UpperDistributor_unregisterHandler ud port) as [r ud1]. destruct Hu as (Hok1 & Hm & _). cbn [snd] in *.
    destruct (IH ud1 Hok1 Hops) as (ud' & -> & Hok' & Hmy & Ht). exists ud'. split; [done|]. split; [done|].
    split; [congruence|]. rewrite Ht. f_equal. unfold table. by rewrite Hm, fmap_delete.
Qed.

(** The ports which get a copy are those the table has for the kind. *)
Lemma handlers_table ud type : ud_ok ud ->
  NoDup (h_udpPort <$> handlers_for type ud) /\
  forall port, port ∈ h_udpPort <$> handlers_for type ud <-> table ud !! port = Some type.
Proof.
  intros (Hkeys & Hp & _). pose proof (kmap_Forall _ _ Hkeys Hp) as Hf. rewrite Forall_forall in Hf. split.
  - unfold handlers_for. apply (sublist_NoDup _ (h_udpPort <$> (e_value <$> map_entries (ud_handlers ud)))).
    + rewrite <- list_fmap_compose. destruct Hkeys as (Hnd & _).
      replace ((h_udpPort ∘ e_value) <$> map_entries (ud_handlers ud)) with (e_key <$> map_entries (ud_handlers ud)); [done|].
      apply list_fmap_ext. intros i e He. apply (Hf e). by eapply list_elem_of_lookup_2.
    + apply fmap_sublist, sublist_filter.
  - intros port. unfold handlers_for, table. rewrite lookup_fmap, list_elem_of_fmap. split.
    + intros (h & -> & [Ht (e & -> & He)%list_elem_of_fmap]%list_elem_of_filter). destruct (Hf e He) as [<- _].
      rewrite (kmap_entry _ e Hkeys He). cbn. by rewrite Ht.
    + intros (h & Hl & Ht)%fmap_Some. destruct (Hp port h Hl) as [-> _]. exists h. split; [done|].
      apply list_elem_of_filter. split; [done|]. apply elem_of_list_to_map_2 in Hl. apply list_elem_of_fmap in Hl as (e & [= _ ->] & He).
      apply list_elem_of_fmap. by exists e.
Qed.

(** [C22] After any sequence of registrations and removals of ports, starting with a
    new distributor, the handlers are those of the abstract table: a port keeps its
    first registration until it is removed.  Every packet from the session manager
    is then copied, in UDP packets with a right checksum from port 1 of [fc00::1],
    to each port the table has for its kind and to no other, and goes itself to
    the control handler, the TUN adapter, the pathfinder or the IP tunnel. *)
Theorem upper_refines_table malloc sp my ops m a pre c post :
  malloc_ok malloc -> sp mod 2 = 0 -> length (ip6 my) = 16%nat -> bytes (ip6 my) ->
  Forall (fun op => fits 16 (op_port op)) ops -> ud_packet m a pre c post -> 68 <= len c ->
  (Z.land (get c 48) RouteHeader_flags_CTRLMSG = 0 -> 72 <= len c) ->
  exists ud ports copies dest, table_run (UpperDistributor_new my) ops = Ret ud /\ table ud = table_of ops /\
    incomingFromSessionManagerIf malloc sp m ud = Ret (ud, (UDToTunAdapter <$> copies) ++ dest) /\
    NoDup ports /\ (forall port, port ∈ ports <-> table_of ops !! port = Some (kind_of c)) /\
    Forall2 (fun port m' => copy_for (ip6 my) port c pre post m') ports copies /\
    delivered_to m a pre c post dest.
Proof.
  intros Hmal Hsp Hmy Hmyb Hops Hm Hc Hc'.
  destruct (table_run_refines ops (UpperDistributor_new my)) as (ud & Erun & Hok & Hud & Ht); [by apply handlers_new|done|].
  destruct (fromSession_spec malloc sp Hmal Hsp m a pre c post ud Hm Hok Hc Hc') as (copies & dest & E & Hcp & Hd).
  destruct (handlers_table ud (kind_of c) Hok) as [Hnd Hel].
  assert (table ud = table_of ops) as Htab by (rewrite Ht; unfold table_of, table; cbn; by rewrite fmap_empty).
  exists ud, (h_udpPort <$> handlers_for (kind_of c) ud), copies, dest. split_and!; try done.
  - intros port. by rewrite Hel, Htab.
  - apply Forall2_fmap_l. unfold copies_of in Hcp. rewrite Hud in Hcp. exact Hcp.
Qed.

(** ** An example: a program gets the pathfinder's packets *)

Definition example_my : Address := mkAddress 20 0 (0xfc :: zeros 15) (replicate 32 7) 1.
Definition example_ops : list TableOp := [Register ContentType_HYPERBORIADHT 5000; Register 59 5001; Unregister 5001; Register 59 5000].
Definition dht_packet : list Z := zeros 68 ++ [16; 0; 1; 0; 9; 9; 9; 9].

Lemma dht_packet_at : ud_packet (buffer 80 dht_packet) (4096 + 80) (replicate 80 0) dht_packet [].
Proof. split; [by apply (buffer_at 80)|]. split; [done|]. split; [done|]. split; [ground_bytes|done]. Qed.

Lemma upper_refines_table_witness : exists ud m' dest,
  table_run (UpperDistributor_new example_my) example_ops = Ret ud /\
  incomingFromSessionManagerIf flat_malloc 0 (buffer 80 dht_packet) ud = Ret (ud, UDToTunAdapter m' :: dest) /\
  copy_for (ip6 example_my) 5000 dht_packet (replicate 80 0) [] m'.
Proof.
  destruct (upper_refines_table flat_malloc 0 example_my example_ops (buffer 80 dht_packet) (4096 + 80) (replicate 80 0) dht_packet [])
    as (ud & ports & copies & dest & Erun & Ht & E & Hnd & Hel & Hcp & _);
    [by intros n; apply length_replicate|done|done|ground_bytes|by repeat constructor|apply dht_packet_at|done|done|].
  assert (table_of example_ops = {[5000 := ContentType_HYPERBORIADHT]}) as Htab by by vm_compute.
  assert (kind_of dht_packet = ContentType_HYPERBORIADHT) as Hkind by by vm_compute.
  assert (ports ≡ₚ [5000]) as Hports.
  { clear -Hnd Hel Htab Hkind. apply NoDup_Permutation; [exact Hnd|apply NoDup_singleton|]. intros p. rewrite Hel, Htab, Hkind, list_elem_of_singleton.
    rewrite lookup_singleton_Some. split; [by intros [-> _]|intros ->; split; reflexivity]. }
  apply Permutation_singleton_r in Hports as ->. apply Forall2_cons_inv_l in Hcp as (m' & rest & Hm' & Hrest & ->).
  apply Forall2_nil_inv_l in Hrest as ->. exists ud, m', dest.
  split; [exact Erun|]. split; [exact E|exact Hm'].
Defined.
