(* ===== verification/EventProofs.v ===== *)
(** * The event emitter: what pathfinders and the core see

    [event_fanout]: an event for everyone reaches every connected pathfinder once.
    [pathfinder_protocol]: no bytes from a pathfinder make the emitter fail, and the
    first thing a pathfinder hears is the answer to its own CONNECT. *)
From S2P Require Import Prelude Bits Message MsgAt Headers RouteHeader PFChan Nacl Key Address EventEmitter.
From S2P Require Import CryptoAuthProofs SessionSafety.

(** ** Specification *)

(** What a pathfinder is asked to confirm once 8192 bytes have been sent to it. *)
Definition ping_due (pf : Pathfinder) (n : Z) : Prop :=
  bytesSinceLastPing pf < 8192 /\ 8192 <= u32 (bytesSinceLastPing pf + n).
Inductive pinged (pf : Pathfinder) (n : Z) : list EEOut -> Prop :=
| ping_sent ping : ping_due pf n ->
    msg_content ping = be_bytes 4 PFChan_Core_PING ++ be_bytes 4 PING_MAGIC ++ be_bytes 4 (bytesSinceLastPing pf) ->
    pinged pf n [EEToPathfinder (pathfinderId pf) ping]
| no_ping : ~ ping_due pf n -> pinged pf n [].

(** The content goes to the pathfinders which are connected, in their order. *)
Inductive fanned (c : list Z) : list Pathfinder -> list EEOut -> Prop :=
| fan_end : fanned c [] []
| fan_skip pf pfs outs : pf_state pf <> CONNECTED -> fanned c pfs outs -> fanned c (pf :: pfs) outs
| fan_send pf pfs pings m outs : pf_state pf = CONNECTED -> pinged pf (len c) pings -> msg_content m = c ->
    fanned c pfs outs -> fanned c (pf :: pfs) (pings ++ EEToPathfinder (pathfinderId pf) m :: outs).

(** The same pathfinder, with more bytes counted. *)
Definition counted (pf pf' : Pathfinder) : Prop := exists x, pf' = set_bytesSince pf x /\ fits 32 x.

(** ** Lemmas *)

Section Proofs.
Context (malloc : Z -> Z * list Z) (Hmalloc : malloc_ok malloc) (Haligned : forall n, (malloc n).1 mod 4 = 0).
#[local] Set Default Proof Using "All".

Lemma clone_at m a pre c post : msg_at m a pre c post ->
  exists m' a', clone_msg malloc m = Ret m' /\ msg_at m' a' pre c post /\ a' mod 8 = a mod 8.
Proof.
  intros Hm. unfold clone_msg. destruct (malloc _) as [addr mem] eqn:E. apply (at_clone m a pre c post addr mem Hm).
  pose proof (Hmalloc (msg_capacity m + msg_padding m + 8)) as H. rewrite E in H. cbn [snd] in H. rewrite H.
  destruct Hm as [(s & t & _ & _ & Hp & _ & Hcap & _) _]. rewrite Hp, Hcap. lia.
Qed.

(** A new message with room in front. *)
Lemma new_at n : 0 <= n < 2 ^ 31 -> exists a pre, msg_at (Message_new 0 n (malloc n).1 (malloc n).2) a pre [] [] /\ len pre = n.
Proof.
  intros Hn. exists ((malloc n).1 + n), (malloc n).2. split; [|rewrite Hmalloc; lia]. split; [by apply Message_new_view|done].
Qed.

Lemma u32_fits x : fits 32 (u32 x).
Proof. apply Z.mod_pos_bound. done. Qed.

Lemma sendToPathfinder_ok m pf c : msg_content m = c -> msg_length m = len c -> pf_state pf = CONNECTED ->
  exists pf' pings, sendToPathfinder malloc m pf = Ret (pf', pings ++ [EEToPathfinder (pathfinderId pf) m]) /\
    counted pf pf' /\ pinged pf (len c) pings.
Proof.
  intros Hc Hl Hst. unfold sendToPathfinder. rewrite bool_decide_true by done. cbn [negb]. rewrite Hl.
  destruct ((bytesSinceLastPing pf <? 8192) && (u32 (bytesSinceLastPing pf + len c) >=? 8192)) eqn:E.
  - apply andb_true_iff in E as [E1%Z.ltb_lt E2%Z.geb_le]. destruct (new_at 512) as (a & pre & Hm & Hpre); [lia|].
    destruct (malloc 512) as [addr mem]. cbn [fst snd] in Hm.
    destruct (split_room pre 4) as (p1 & r1 & -> & Hr1 & Hp1); [lia|]. destruct (split_room p1 4) as (p2 & r2 & -> & Hr2 & Hp2); [lia|].
    destruct (split_room p2 4) as (p3 & r3 & -> & Hr3 & Hp3); [lia|].
    destruct (at_epush32be _ _ _ _ _ _ (bytesSinceLastPing pf) Hm) as (m1 & -> & Hm1); [lia|]. rewrite bind_of_ret.
    destruct (at_epush32be _ _ _ _ _ _ PING_MAGIC Hm1) as (m2 & -> & Hm2); [lia|]. rewrite bind_of_ret.
    destruct (at_epush32be _ _ _ _ _ _ PFChan_Core_PING Hm2) as (m3 & -> & Hm3); [lia|]. rewrite !bind_of_ret.
    eexists _, [EEToPathfinder (pathfinderId pf) m3]. split; [reflexivity|]. split; [eexists; split; [reflexivity|apply u32_fits]|].
    apply ping_sent; [done|]. destruct (at_content _ _ _ _ _ Hm3) as [-> _]. by rewrite app_nil_r.
  - rewrite bind_of_ret. eexists _, []. split; [reflexivity|]. split; [eexists; split; [reflexivity|apply u32_fits]|].
    apply no_ping. intros [H1 H2]. apply andb_false_iff in E as [E%Z.ltb_ge|E]; [lia|]. rewrite Z.geb_leb in E. apply Z.leb_gt in E. lia.
Qed.

Lemma broadcast_spec m a pre c post pfs : msg_at m a pre c post ->
  exists pfs' outs, broadcast_loop malloc m pfs = Ret (pfs', outs) /\ fanned c pfs outs /\
    Forall2 (fun pf pf' => pf' = pf \/ pf_state pf = CONNECTED /\ counted pf pf') pfs pfs'.
Proof.
  intros Hm. induction pfs as [|pf pfs (pfs' & outs & IH & Hf & H2)]; cbn [broadcast_loop]; [by eexists [], []; split; [|split; [constructor|]]|].
  destruct (decide (pf_state pf = CONNECTED)) as [Hst|Hst].
  - rewrite bool_decide_true by done. cbn [negb]. destruct (clone_at m a pre c post Hm) as (m' & a' & -> & Hm' & _). rewrite bind_of_ret.
    destruct (at_content _ _ _ _ _ Hm') as [Hc Hl].
    destruct (sendToPathfinder_ok m' pf c Hc Hl Hst) as (pf' & pings & -> & Hco & Hp). rewrite bind_of_ret, IH, bind_of_ret.
    eexists _, _. split; [reflexivity|]. rewrite <- app_assoc. split; [by apply fan_send|]. constructor; [by right|done].
  - rewrite bool_decide_false by done. cbn [negb]. rewrite bind_of_ret, IH, bind_of_ret.
    eexists _, _. split; [reflexivity|]. split; [by apply fan_skip|]. constructor; [by left|done].
Qed.

(** An event of the core: its number, the pathfinder it is for, its content. *)
Definition core_event (ev target : Z) (payload : list Z) : list Z := be_bytes 4 ev ++ be_bytes 4 target ++ payload.

Lemma fromCore_spec m a pre ev target payload post ee : msg_at m a pre (core_event ev target payload) post -> a mod 4 = 0 ->
  fits 32 ev -> fits 32 target -> PFChan_Core_sizeOk ev (8 + len payload) = Ret true ->
  exists m' a' pre', msg_at m' a' pre' (be_bytes 4 ev ++ payload) post /\
    incomingFromCore malloc m ee =
      if negb (target =? 0xffffffff) then
        match pathfinder_at ee (i32 target) with
        | None => Abort "pf && pf->state == Pathfinder_state_CONNECTED"
        | Some pf =>
            Assert_true (bool_decide (pf_state pf = CONNECTED));;
            '(pf, outs) ← sendToPathfinder malloc m' pf;
            Ret (put_pathfinder ee (i32 target) pf, outs)
        end
      else
        '(pfs, outs) ← broadcast_loop malloc m' (pathfinders ee);
        Ret (set_pathfinders ee pfs, outs).
Proof.
  intros Hm Ha Hev Htg Hsize. unfold incomingFromCore, core_event in *. pose proof Hm as [_ Haddr].
  rewrite Haddr, Ha. cbn [Z.eqb Assert_true]. rewrite bind_of_ret.
  destruct (at_epop32be m a pre _ _ post Hm) as (m1 & -> & Hm1); [apply length_be_bytes|apply be_bytes_bytes|]. rewrite bind_of_ret. cbv beta iota.
  rewrite be_val_nonce by done. destruct (at_content _ _ _ _ _ Hm1) as [_ Hl]. rewrite length_app, length_be_bytes in Hl.
  replace (msg_length m1 + 4) with (8 + len payload) by lia. rewrite Hsize, bind_of_ret. cbn [Assert_true]. rewrite bind_of_ret.
  destruct (at_epop32be m1 _ _ _ _ post Hm1) as (m2 & -> & Hm2); [apply length_be_bytes|apply be_bytes_bytes|]. rewrite bind_of_ret. cbv beta iota.
  rewrite be_val_nonce by done.
  destruct (at_epush32be m2 _ _ _ _ _ ev Hm2) as (m3 & -> & Hm3); [apply length_be_bytes|]. rewrite bind_of_ret. by eexists m3, _, _.
Qed.

Definition pathfinder_info (pf : Pathfinder) : list Z :=
  be_bytes 4 (pf_superiority pf) ++ be_bytes 4 (pathfinderId pf) ++ pf_userAgent pf.

Lemma pathfinderMsg_spec ev pf : length (pf_userAgent pf) = 64%nat ->
  exists m a pre, pathfinderMsg malloc ev pf = Ret m /\ msg_at m a pre (core_event ev 0xffffffff (pathfinder_info pf)) [] /\ a mod 4 = 0.
Proof.
  intros Hu. unfold pathfinderMsg. pose proof (Hmalloc (PFChan_Core_Pathfinder_SIZE + 512)) as Hl.
  pose proof (Haligned (PFChan_Core_Pathfinder_SIZE + 512)) as Hal. destruct (malloc _) as [addr mem]. cbn [fst snd] in Hl, Hal.
  change (Z.to_nat (PFChan_Core_Pathfinder_SIZE + 512)) with 584%nat in Hl.
  destruct (list_split_at 512 mem) as (pre & c & -> & Hpre); [lia|]. rewrite length_app in Hl.
  destruct (list_split_at 4 c) as (c1 & c2 & -> & Hc1); [lia|]. rewrite length_app in Hl.
  destruct (list_split_at 4 c2) as (c3 & c4 & -> & Hc3); [lia|]. rewrite length_app in Hl.
  assert (msg_at (Message_new PFChan_Core_Pathfinder_SIZE 512 addr (pre ++ c1 ++ c3 ++ c4)) (addr + 512) pre (c1 ++ c3 ++ c4) []) as Hm.
  { split; [|done]. exists [], []. cbn [Message_new msg_mem msg_bytes msg_padding msg_length msg_capacity app length].
    change (i32 PFChan_Core_Pathfinder_SIZE) with 72. change (i32 512) with 512. rewrite !app_nil_r, !length_app. split_and!; lia || done. }
  pose proof (at_write_of _ _ _ _ _ [] c1 (c3 ++ c4) 0 (le_bytes 4 (Endian_hostToBigEndian32 (pf_superiority pf))) Hm eq_refl
    ltac:(rewrite length_le_bytes; lia) eq_refl) as Hm1.
  pose proof (at_write_of _ _ _ _ _ (le_bytes 4 (Endian_hostToBigEndian32 (pf_superiority pf))) c3 c4 4
    (le_bytes 4 (Endian_hostToBigEndian32 (pathfinderId pf))) Hm1 eq_refl
    ltac:(rewrite length_le_bytes; lia) ltac:(rewrite length_le_bytes; lia)) as Hm2.
  pose proof (at_write_of _ _ _ _ _ (le_bytes 4 (Endian_hostToBigEndian32 (pf_superiority pf)) ++ le_bytes 4 (Endian_hostToBigEndian32 (pathfinderId pf)))
    c4 [] 8 (take 64 (pf_userAgent pf)) Hm2 ltac:(by rewrite app_nil_r, <- app_assoc) ltac:(rewrite length_take; lia)
    ltac:(by rewrite length_app, !length_le_bytes)) as Hm3.
  revert Hm3. generalize (msg_write (msg_write (msg_write (Message_new PFChan_Core_Pathfinder_SIZE 512 addr (pre ++ c1 ++ c3 ++ c4)) 0
    (le_bytes 4 (Endian_hostToBigEndian32 (pf_superiority pf)))) 4 (le_bytes 4 (Endian_hostToBigEndian32 (pathfinderId pf)))) 8
    (take 64 (pf_userAgent pf))). clear Hm Hm1 Hm2. intros m3 Hm3.
  destruct (split_room pre 4) as (p1 & r1 & -> & Hr1 & Hp1); [lia|]. destruct (split_room p1 4) as (p2 & r2 & -> & Hr2 & Hp2); [lia|].
  destruct (at_epush32be _ _ _ _ _ _ 0xffffffff Hm3) as (m4 & -> & Hm4); [lia|]. rewrite bind_of_ret.
  destruct (at_epush32be _ _ _ _ _ _ ev Hm4) as (m5 & -> & Hm5); [lia|]. eexists m5, _, p2. split; [reflexivity|]. split.
  - rewrite app_nil_r, (take_ge (pf_userAgent pf)), <- app_assoc in Hm5 by (by rewrite Hu). unfold core_event, pathfinder_info. rewrite !le_bytes_be32 in Hm5. exact Hm5.
  - Z.to_euclidean_division_equations; lia.
Qed.

(** ** The protocol *)

Lemma pathfinder_at_lookup ee id pf : pathfinder_at ee id = Some pf -> 0 <= id /\ pathfinders ee !! Z.to_nat id = Some pf.
Proof. unfold pathfinder_at. destruct (_ || _) eqn:E; [done|]. apply orb_false_iff in E as [_ E%Z.ltb_ge]. done. Qed.

Lemma lookup_pathfinder_at ee i pf : pathfinders ee !! i = Some pf -> pathfinder_at ee (Z.of_nat i) = Some pf.
Proof.
  intros H. pose proof (lookup_lt_Some _ _ _ H) as Hlt. unfold pathfinder_at. rewrite Z.geb_leb, (proj2 (Z.leb_gt _ _)), (proj2 (Z.ltb_ge _ _)) by lia.
  by rewrite Nat2Z.id.
Qed.

(** Nothing has been said to this pathfinder yet. *)
Definition silent (ee : EventEmitter) (id : Z) : Prop := forall pf, pathfinder_at ee id = Some pf -> pf_state pf = DISCONNECTED.

(** The pathfinder with the number [i]; no bytes are counted before it connects. *)
Definition pathfinder_ok (i : nat) (pf : Pathfinder) : Prop :=
  pathfinderId pf = Z.of_nat i /\ length (pf_userAgent pf) = 64%nat /\ (pf_state pf = DISCONNECTED -> bytesSinceLastPing pf = 0).

Record ee_ok (ee : EventEmitter) : Prop := {
  eo_table : length (listTable ee) = 12%nat;
  eo_key : length (ee_publicKey ee) = 32%nat;
  eo_count : len (pathfinders ee) <= 65536;
  eo_pathfinders : forall i pf, pathfinders ee !! i = Some pf -> pathfinder_ok i pf;
}.

(** The messages for one pathfinder. *)
Definition to_pathfinder (id : Z) (outs : list EEOut) : list Message :=
  omap (fun o => match o with EEToPathfinder i m => if decide (i = id) then Some m else None | EEToCore _ _ => None end) outs.

(** Outputs go to pathfinders which have connected. *)
Definition only_known (ee : EventEmitter) (outs : list EEOut) : Prop :=
  forall id m, EEToPathfinder id m ∈ outs -> ~ silent ee id.

Lemma only_known_nil ee : only_known ee [].
Proof. intros id m H. by apply elem_of_nil in H. Qed.
Lemma only_known_app ee o1 o2 : only_known ee o1 -> only_known ee o2 -> only_known ee (o1 ++ o2).
Proof. intros H1 H2 id m [H|H]%elem_of_app; [by apply (H1 id m)|by apply (H2 id m)]. Qed.

Lemma only_known_silent ee outs id : only_known ee outs -> silent ee id -> to_pathfinder id outs = [].
Proof.
  intros Hk Hs. unfold to_pathfinder. induction outs as [|o outs IH]; [done|]. cbn.
  assert (only_known ee outs) as Hk' by (intros i m Hi; apply (Hk i m); by apply elem_of_cons; right).
  destruct o as [i m|i m]; [|by apply IH]. case_decide as E; [|by apply IH]. subst. exfalso. apply (Hk id m); [by apply elem_of_cons; left|done].
Qed.

(** The same pathfinders, each as connected as before. *)
Definition alike (ee ee' : EventEmitter) : Prop := ee_ok ee' /\ forall id, silent ee id -> silent ee' id.

Lemma fanned_known c ee outs : ee_ok ee -> fanned c (pathfinders ee) outs -> only_known ee outs.
Proof.
  intros Hok Hf id m Hin.
  assert (exists pf, pf ∈ pathfinders ee /\ pathfinderId pf = id /\ pf_state pf = CONNECTED) as (pf & Hpf & <- & Hst).
  { revert Hin. induction Hf as [|pf pfs outs Hst Hf IH|pf pfs pings m' outs Hst Hp Hc Hf IH]; intros Hin.
    - by apply elem_of_nil in Hin.
    - destruct (IH Hin) as (x & Hx & Hr). exists x. split; [by apply elem_of_cons; right|done].
    - apply elem_of_app in Hin as [Hin|[Hin|Hin]%elem_of_cons].
      + destruct Hp; [|by apply elem_of_nil in Hin]. apply list_elem_of_singleton in Hin. injection Hin as -> ->.
        exists pf. split; [by apply elem_of_cons; left|done].
      + injection Hin as -> ->. exists pf. split; [by apply elem_of_cons; left|done].
      + destruct (IH Hin) as (x & Hx & Hr). exists x. split; [by apply elem_of_cons; right|done]. }
  apply list_elem_of_lookup in Hpf as (i & Hi). destruct (eo_pathfinders _ Hok _ _ Hi) as [-> _]. intros Hs.
  apply lookup_pathfinder_at in Hi. specialize (Hs pf Hi). congruence.
Qed.

(** ** Single steps *)

Lemma alike_refl ee : ee_ok ee -> alike ee ee.
Proof. done. Qed.
Lemma alike_trans e1 e2 e3 : alike e1 e2 -> alike e2 e3 -> alike e1 e3.
Proof. intros [_ H1] [H2 H3]. split; [done|]. auto. Qed.
Lemma only_known_alike e1 e2 outs : alike e1 e2 -> only_known e2 outs -> only_known e1 outs.
Proof. intros [_ H1] H2 id m Hin Hs. by apply (H2 id m Hin), H1. Qed.

Lemma put_alike ee id pf pf' : ee_ok ee -> 0 <= id -> pathfinders ee !! Z.to_nat id = Some pf -> pathfinder_ok (Z.to_nat id) pf' ->
  (pf_state pf = DISCONNECTED -> pf_state pf' = DISCONNECTED) -> alike ee (put_pathfinder ee id pf').
Proof.
  intros [Ht Hk Hc Hp] Hid Hl Hok' Hst. split.
  - split; cbn; [done|done|by rewrite length_insert|]. intros i x Hx. apply list_lookup_insert_Some in Hx as [(<- & <- & _)|[_ Hx]]; [done|by apply Hp].
  - intros j Hs x [Hj Hx]%pathfinder_at_lookup. cbn in Hx.
    apply list_lookup_insert_Some in Hx as [(E & <- & _)|[_ Hx]]; [apply Hst|]; apply Hs; rewrite <- (Z2Nat.id j) by done;
      apply lookup_pathfinder_at; congruence.
Qed.

Lemma counted_ok i pf pf' : pathfinder_ok i pf -> pf_state pf = CONNECTED -> counted pf pf' -> pathfinder_ok i pf'.
Proof. intros (H1 & H2 & _) Hst (x & -> & _). split; [done|]. split; [done|]. cbn. congruence. Qed.
Lemma counted_state pf pf' : counted pf pf' -> pf_state pf' = pf_state pf.
Proof. by intros (x & -> & _). Qed.

(** A message to a connected pathfinder. *)
Lemma send_step ee id pf m c : ee_ok ee -> pathfinder_at ee id = Some pf -> pf_state pf = CONNECTED ->
  msg_content m = c -> msg_length m = len c ->
  exists pf' outs, sendToPathfinder malloc m pf = Ret (pf', outs) /\ alike ee (put_pathfinder ee id pf') /\ only_known ee outs /\
    pf_state pf' = CONNECTED.
Proof.
  intros Hok Hat Hst Hc Hl. destruct (pathfinder_at_lookup _ _ _ Hat) as [Hid Hlook].
  pose proof (eo_pathfinders _ Hok _ _ Hlook) as Hpf.
  destruct (sendToPathfinder_ok m pf c Hc Hl Hst) as (pf' & pings & -> & Hco & Hp). eexists pf', _. split; [reflexivity|].
  split; [apply put_alike with pf; try done; [by apply counted_ok with pf|congruence]|].
  split; [|by rewrite (counted_state _ _ Hco)].
  assert (~ silent ee (pathfinderId pf)) as Hkn.
  { intros Hs. destruct Hpf as [E _]. rewrite E, Z2Nat.id in Hs by done. specialize (Hs pf Hat). congruence. }
  apply only_known_app.
  - intros i x Hin. destruct Hp; [|by apply elem_of_nil in Hin]. apply list_elem_of_singleton in Hin. injection Hin as -> ->. exact Hkn.
  - intros i x Hin. apply list_elem_of_singleton in Hin. injection Hin as -> ->. exact Hkn.
Qed.

(** A broadcast. *)
Lemma broadcast_step m a pre ev payload post ee : ee_ok ee ->
  msg_at m a pre (core_event ev 0xffffffff payload) post -> a mod 4 = 0 -> fits 32 ev ->
  PFChan_Core_sizeOk ev (8 + len payload) = Ret true ->
  exists ee' outs, incomingFromCore malloc m ee = Ret (ee', outs) /\ alike ee ee' /\ only_known ee outs.
Proof.
  intros Hok Hm Ha Hev Hs. destruct (fromCore_spec m a pre ev 0xffffffff payload post ee Hm Ha Hev) as (m' & a' & pre' & Hm' & ->); [done|done|].
  destruct (broadcast_spec m' a' pre' _ post (pathfinders ee) Hm') as (pfs & outs & E & Hf & H2). cbn [Z.eqb Pos.eqb negb]. rewrite E, bind_of_ret.
  eexists _, outs. split; [reflexivity|]. split; [|by apply fanned_known with (2 := Hf)].
  assert (forall i x, pfs !! i = Some x -> exists pf, pathfinders ee !! i = Some pf /\ pf_state x = pf_state pf /\ pathfinder_ok i x) as Hsame.
  { intros i x Hx. destruct (Forall2_lookup_r _ _ _ _ _ H2 Hx) as (pf & Hpf & Hor). exists pf. split; [done|].
    pose proof (eo_pathfinders _ Hok _ _ Hpf) as Hpok. destruct Hor as [->|[Hst Hco]]; [done|]. split; [by apply counted_state|]. by apply counted_ok with pf. }
  split.
  - destruct Hok as [Ht Hk Hc Hp]. split; cbn; [done|done|by rewrite <- (Forall2_length _ _ _ H2)|]. intros i x Hx. by destruct (Hsame i x Hx) as (? & _ & _ & ?).
  - intros id Hsil x [Hid Hx]%pathfinder_at_lookup. destruct (Hsame _ x Hx) as (pf & Hpf & -> & _). apply Hsil.
    rewrite <- (Z2Nat.id id) by done. by apply lookup_pathfinder_at.
Qed.

(** The loop of a request for the pathfinders. *)
Lemma pathfinders_step n : forall i id pf ee, ee_ok ee -> pathfinder_at ee id = Some pf -> pf_state pf = CONNECTED ->
  exists ee' outs, pathfinders_loop malloc n i id ee = Ret (ee', outs) /\ alike ee ee' /\ only_known ee outs.
Proof.
  induction n as [|n IH]; intros i id pf ee Hok Hat Hst; cbn [pathfinders_loop].
  { eexists ee, []. split; [done|]. split; [by apply alike_refl|apply only_known_nil]. }
  destruct (pathfinder_at ee i) as [xpf|]; [|by apply IH with pf]. rewrite Hat.
  destruct (negb _).
  { rewrite bind_of_ret. destruct (IH (i + 1) id pf ee Hok Hat Hst) as (ee' & outs & -> & H1 & H2). rewrite bind_of_ret.
    eexists ee', outs. split; [reflexivity|done]. }
  destruct (pathfinder_at_lookup _ _ _ Hat) as [Hid Hlook]. pose proof (eo_pathfinders _ Hok _ _ Hlook) as (_ & Hua & _).
  destruct (pathfinderMsg_spec PFChan_Core_PATHFINDER pf Hua) as (resp & a & pre & -> & Hm & _). rewrite bind_of_ret.
  destruct (at_content _ _ _ _ _ Hm) as [Hc Hl].
  destruct (send_step ee id pf resp _ Hok Hat Hst Hc Hl) as (pf' & outs & -> & Hal & Hkn & Hst'). rewrite !bind_of_ret.
  assert (pathfinder_at (put_pathfinder ee id pf') id = Some pf') as Hat'.
  { revert Hat. unfold pathfinder_at. cbn. rewrite length_insert. destruct (_ || _); [done|]. intros _.
    rewrite list_lookup_insert_eq; [done|]. by eapply lookup_lt_Some. }
  destruct (IH (i + 1) id pf' _ (proj1 Hal) Hat' Hst') as (ee' & outs' & -> & H1 & H2). rewrite bind_of_ret.
  eexists ee', _. split; [reflexivity|]. split; [by apply alike_trans with (1 := Hal)|].
  apply only_known_app; [done|]. by apply only_known_alike with (1 := Hal).
Qed.

Lemma handlers_step m a pre c post ee hs : msg_at m a pre c post ->
  exists outs, handlers_loop malloc m hs = Ret outs /\ only_known ee outs.
Proof.
  intros Hm. induction hs as [|h hs (outs & IH & Hk)]; cbn [handlers_loop]; [eexists []; split; [done|apply only_known_nil]|].
  destruct (clone_at m a pre c post Hm) as (m' & a' & -> & _). rewrite bind_of_ret, IH, bind_of_ret. eexists. split; [reflexivity|].
  intros id x Hin. apply elem_of_cons in Hin as [Hin|Hin]; [done|by apply (Hk id x)].
Qed.

Lemma getHandlers_alike ee ev create : ee_ok ee -> alike ee (getHandlers ee ev create).2.
Proof.
  intros Hok. unfold getHandlers. destruct (_ || _); [by apply alike_refl|]. destruct (mjoin _); [by apply alike_refl|].
  destruct Hok as [Ht Hk Hc Hp]. split; [|done]. split; cbn; try done. by rewrite length_insert.
Qed.

(** What a first message has to be. *)
Definition greets (ms : list Message) : Prop :=
  match ms with m :: _ => take 4 (msg_content m) = be_bytes 4 PFChan_Core_CONNECT | [] => False end.
Definition protocol (ee ee' : EventEmitter) (outs : list EEOut) : Prop :=
  ee_ok ee' /\ forall id, silent ee id -> to_pathfinder id outs = [] /\ silent ee' id \/ greets (to_pathfinder id outs).

Lemma alike_protocol ee ee' outs : alike ee ee' -> only_known ee outs -> protocol ee ee' outs.
Proof. intros [Hok Hs] Hk. split; [done|]. intros id Hsil. left. split; [by apply only_known_silent with ee|by apply Hs]. Qed.

(** A pathfinder connects. *)
Lemma connect_step m a pre connect post ee id pf : ee_ok ee -> pathfinder_at ee id = Some pf ->
  msg_at m a pre (be_bytes 4 PFChan_Pathfinder_CONNECT ++ be_bytes 4 (pathfinderId pf) ++ connect) post -> length connect = 72%nat ->
  exists msg ee' outs, handleFromPathfinder malloc PFChan_Pathfinder_CONNECT m ee id pf = Ret (true, msg, ee', outs) /\
    protocol ee ee' outs.
Proof.
  intros Hok Hat Hm Hcl. destruct (pathfinder_at_lookup _ _ _ Hat) as [Hid Hlook].
  pose proof (eo_pathfinders _ Hok _ _ Hlook) as (Hpid & Hua & Hzero). unfold handleFromPathfinder. rewrite Z.eqb_refl.
  rewrite app_assoc in Hm.
  destruct (at_shift_pop _ _ _ _ _ _ (-8) Hm) as (m1 & -> & Hm1); [by rewrite length_app, !length_be_bytes|]. rewrite bind_of_ret.
  rewrite <- (app_nil_r connect) in Hm1.
  destruct (at_epop _ _ _ _ _ _ PFChan_Pathfinder_Connect_SIZE Hm1) as (m2 & -> & Hm2); [by rewrite Hcl|]. rewrite bind_of_ret. cbv beta iota zeta.
  set (pf1 := mkPathfinder _ _ _ CONNECTED _ _). cbn [pathfinderId pf1].
  set (resp := le_bytes 4 (Endian_bigEndianToHost32 Version_CURRENT_PROTOCOL) ++ _ ++ _).
  assert (length resp = 40%nat) as Hrl by (unfold resp; rewrite !length_app, !length_le_bytes, (eo_key _ Hok); done).
  destruct (split_room (((pre ++ be_bytes 4 PFChan_Pathfinder_CONNECT ++ be_bytes 4 (pathfinderId pf)) ++ connect)) 40) as (p1 & r1 & E1 & Hr1 & Hp1);
    [rewrite !length_app; lia|]. rewrite E1 in Hm2.
  destruct (at_epush _ _ _ _ _ _ resp Hm2) as (m3 & E3 & Hm3); [lia|]. rewrite Hrl in E3. change (Z.of_nat 40) with PFChan_Core_Connect_SIZE in E3.
  rewrite E3, bind_of_ret. destruct (split_room p1 4) as (p2 & r2 & -> & Hr2 & Hp2); [rewrite Hp1, !length_app; lia|].
  destruct (at_epush32be _ _ _ _ _ _ PFChan_Core_CONNECT Hm3) as (m4 & -> & Hm4); [lia|]. rewrite bind_of_ret.
  destruct (clone_at _ _ _ _ _ Hm4) as (m5 & a5 & -> & Hm5 & _). rewrite bind_of_ret. destruct (at_content _ _ _ _ _ Hm5) as [Hc5 Hl5].
  destruct (sendToPathfinder_ok m5 pf1 _ Hc5 Hl5 eq_refl) as (pf' & pings & -> & Hco & Hp). rewrite bind_of_ret.
  eexists m4, _, _. split; [reflexivity|]. split.
  - pose proof Hco as (x & -> & _). destruct Hok as [Ht Hk Hc Hpp]. split; cbn; [done|done|by rewrite length_insert|]. intros i y Hy.
    apply list_lookup_insert_Some in Hy as [(<- & <- & _)|[_ Hy]]; [|by apply Hpp]. split; [done|]. split; [|done].
    cbn. unfold rd. rewrite length_take, length_drop. change (Z.to_nat 8) with 8%nat. change (Z.to_nat 64) with 64%nat. lia.
  - rewrite Z2Nat.id in Hpid by done. intros j Hsil. destruct (decide (j = id)) as [->|Hj].
    + right. assert (pings = []) as ->.
      { destruct Hp as [ping [_ Hdue] _|_]; [|done]. exfalso. revert Hdue. cbn [pf1 bytesSinceLastPing]. rewrite (Hzero (Hsil _ Hat)).
        rewrite !length_app, length_be_bytes, Hrl. intros Hdue. vm_compute in Hdue. by apply Hdue. }
      cbn. rewrite decide_True by done. cbn. rewrite Hc5. by rewrite take_app_length' by by rewrite length_be_bytes.
    + left. split.
      * unfold to_pathfinder. rewrite omap_app. assert (pathfinderId pf1 <> j) as Hne by (cbn; congruence).
        cbn [pathfinderId pf1] in Hne. destruct Hp; cbn; by rewrite !decide_False by done.
      * intros x [Hjp Hx]%pathfinder_at_lookup. cbn in Hx. rewrite list_lookup_insert_ne in Hx by lia. apply Hsil.
        rewrite <- (Z2Nat.id j) by done. by apply lookup_pathfinder_at.
Qed.

(** ** Whole messages of pathfinders *)

Lemma core_pathfinder_size ev pf : ev = PFChan_Core_PATHFINDER \/ ev = PFChan_Core_PATHFINDER_GONE -> length (pf_userAgent pf) = 64%nat ->
  PFChan_Core_sizeOk ev (8 + len (pathfinder_info pf)) = Ret true /\ fits 32 ev.
Proof.
  intros Hev Hu. unfold pathfinder_info. rewrite !length_app, !length_be_bytes, Hu. by destruct Hev as [-> | ->].
Qed.

(** A pathfinder which is told about with everyone listening. *)
Lemma announce_step ee id pf pf' ev : ee_ok ee -> pathfinder_at ee id = Some pf -> pathfinder_ok (Z.to_nat id) pf' ->
  (pf_state pf = DISCONNECTED -> pf_state pf' = DISCONNECTED) -> ev = PFChan_Core_PATHFINDER \/ ev = PFChan_Core_PATHFINDER_GONE ->
  exists resp ee' outs, pathfinderMsg malloc ev pf' = Ret resp /\ incomingFromCore malloc resp (put_pathfinder ee id pf') = Ret (ee', outs) /\
    alike ee ee' /\ only_known ee outs.
Proof.
  intros Hok Hat Hpok Hst Hev. destruct (pathfinder_at_lookup _ _ _ Hat) as [Hid Hlook].
  pose proof (put_alike ee id pf pf' Hok Hid Hlook Hpok Hst) as Hal. destruct Hpok as (_ & Hua & _).
  destruct (pathfinderMsg_spec ev pf' Hua) as (resp & a & pre & E & Hm & Ha). destruct (core_pathfinder_size ev pf' Hev Hua) as [Hsz Hfit].
  destruct (broadcast_step resp a pre ev _ [] _ (proj1 Hal) Hm Ha Hfit Hsz) as (ee' & outs & E' & Hal' & Hk).
  exists resp, ee', outs. split; [done|]. split; [done|]. split; [by apply alike_trans with (1 := Hal)|by apply only_known_alike with (1 := Hal)].
Qed.

(** What the emitter handles itself, apart from connecting. *)
Lemma handle_step m a pre ev rest post ee id pf : ee_ok ee -> pathfinder_at ee id = Some pf -> pf_state pf = CONNECTED ->
  msg_at m a pre (be_bytes 4 ev ++ be_bytes 4 (pathfinderId pf) ++ rest) post -> bytes rest -> ev <> PFChan_Pathfinder_CONNECT ->
  PFChan_Pathfinder_sizeOk ev (8 + len rest) = Ret true ->
  exists handled m' ee' outs, handleFromPathfinder malloc ev m ee id pf = Ret (handled, m', ee', outs) /\
    alike ee ee' /\ only_known ee outs /\ (handled = false -> m' = m /\ ee' = ee).
Proof.
  intros Hok Hat Hst Hm Hb Hne Hsz. destruct (pathfinder_at_lookup _ _ _ Hat) as [Hid Hlook].
  pose proof (eo_pathfinders _ Hok _ _ Hlook) as Hpf. pose proof Hpf as (Hpid & Hua & _).
  unfold handleFromPathfinder, PFChan_Pathfinder_sizeOk in *.
  rewrite (proj2 (Z.eqb_neq _ _) Hne) in *. pose proof Hm as Hm0. rewrite app_assoc in Hm.
  destruct (at_shift_pop _ _ _ _ _ _ (-8) Hm) as (m1 & E1 & Hm1); [by rewrite length_app, !length_be_bytes|].
  destruct (Z.eqb_spec ev PFChan_Pathfinder_SUPERIORITY) as [->|Hne2].
  { rewrite E1, bind_of_ret. injection Hsz as Hsz%Z.eqb_eq. change PFChan_Pathfinder_Superiority_SIZE with 4 in Hsz. rewrite <- (app_nil_r rest) in Hm1.
    destruct (at_epop32be _ _ _ _ _ _ Hm1) as (m2 & -> & _); [lia|done|]. rewrite bind_of_ret. cbv beta iota zeta.
    destruct (announce_step ee id pf (set_superiority pf (be_val rest)) PFChan_Core_PATHFINDER) as (resp & ee' & outs & -> & E & H1 & H2);
      [done|done|done|done|by left|]. rewrite bind_of_ret, E, bind_of_ret. eexists true, m2, ee', outs. done. }
  destruct (Z.eqb_spec ev PFChan_Pathfinder_PING) as [->|Hne3].
  { destruct (clone_at _ _ _ _ _ Hm0) as (m2 & a2 & -> & _). rewrite bind_of_ret. eexists true, m, ee, _. split; [reflexivity|].
    split; [by apply alike_refl|]. split; [|done]. intros i x Hin. apply list_elem_of_singleton in Hin. injection Hin as -> ->.
    rewrite Hpid, Z2Nat.id by done. intros Hs. specialize (Hs pf Hat). congruence. }
  destruct (Z.eqb_spec ev PFChan_Pathfinder_PONG) as [->|Hne4].
  { rewrite E1, bind_of_ret. cbn [orb] in Hsz. injection Hsz as Hsz%Z.geb_le. change PFChan_Ping_SIZE with 8 in Hsz.
    destruct (list_split_at 4 rest) as (x1 & r1 & -> & Hx1); [lia|]. rewrite length_app in Hsz. apply bytes_app in Hb as [Hb1 Hb2].
    destruct (list_split_at 4 r1) as (x2 & r2 & -> & Hx2); [lia|]. apply bytes_app in Hb2 as [Hb2 _].
    destruct (at_epop32be _ _ _ _ _ _ Hm1) as (m2 & -> & Hm2); [lia|done|]. rewrite bind_of_ret. cbv beta iota zeta.
    destruct (at_epop32be _ _ _ _ _ _ Hm2) as (m3 & -> & Hm3); [lia|done|]. rewrite bind_of_ret. cbv beta iota zeta.
    destruct (_ || _).
    - destruct (announce_step ee id pf (set_pf_state pf ERROR) PFChan_Core_PATHFINDER_GONE) as (resp & ee' & outs & -> & E & H1 & H2);
        [done|done|done|congruence|by right|]. rewrite bind_of_ret, E, bind_of_ret. eexists true, m3, ee', outs. done.
    - eexists true, m3, _, []. split; [reflexivity|]. split; [|split; [apply only_known_nil|done]].
      apply put_alike with pf; try done. split; [done|]. split; [done|]. cbn. congruence. }
  destruct (Z.eqb_spec ev PFChan_Pathfinder_PATHFINDERS) as [->|Hne5].
  { destruct (pathfinders_step (length (pathfinders ee)) 0 id pf ee Hok Hat Hst) as (ee' & outs & -> & H1 & H2). rewrite bind_of_ret.
    eexists true, m, ee', outs. done. }
  eexists false, m, ee, []. split; [reflexivity|]. split; [by apply alike_refl|]. split; [apply only_known_nil|done].
Qed.

(** Any bytes from a pathfinder. *)
Lemma pathfinder_step m a pre c post ee id pf : ee_ok ee -> pathfinder_at ee id = Some pf -> msg_at m a pre c post -> bytes c -> 4 <= len pre ->
  exists ee' outs, incomingFromPathfinder malloc m ee id = Ret (ee', outs) /\ protocol ee ee' outs.
Proof.
  intros Hok Hat Hm Hb Hpre. unfold incomingFromPathfinder. rewrite Hat. destruct (at_content _ _ _ _ _ Hm) as [_ ->].
  assert (forall ee', ee' = ee -> exists ee1 outs, Ret (ee', []) = Ret (ee1, outs) /\ protocol ee ee1 outs) as Hdrop.
  { intros ? ->. eexists ee, []. split; [done|]. apply alike_protocol; [by apply alike_refl|apply only_known_nil]. }
  destruct (Z.ltb_spec (len c) 4) as [Hl|Hl]; [by apply Hdrop|].
  destruct (list_split_at 4 c) as (e4 & rest & -> & He4); [lia|]. apply bytes_app in Hb as [Hb4 Hbr].
  destruct (at_epop32be _ _ _ _ _ _ Hm) as (m1 & -> & Hm1); [lia|done|]. rewrite bind_of_ret. cbv beta iota zeta.
  assert (fits 32 (be_val e4)) as Hfit. { pose proof (be_val_bound e4 Hb4) as H. by rewrite He4 in H. }
  set (ev := be_val e4) in *. clearbody ev.
  destruct (at_epush32be _ _ _ _ _ _ (pathfinderId pf) Hm1) as (m2 & -> & Hm2); [lia|]. rewrite bind_of_ret.
  destruct (split_room pre 4) as (p1 & r1 & -> & Hr1 & Hp1); [lia|].
  destruct (at_epush32be _ _ _ _ _ _ ev Hm2) as (m3 & -> & Hm3); [lia|]. rewrite bind_of_ret.
  destruct (at_content _ _ _ _ _ Hm3) as [_ Hl3]. rewrite !length_app, !length_be_bytes in Hl3.
  destruct ((ev <=? PFChan_Pathfinder__TOO_LOW) || (ev >=? PFChan_Pathfinder__TOO_HIGH)) eqn:Erange; [by apply Hdrop|].
  replace (msg_length m3) with (8 + len rest) by lia.
  assert (exists ok, PFChan_Pathfinder_sizeOk ev (8 + len rest) = Ret ok) as [ok Eok].
  { apply orb_false_iff in Erange as [E1%Z.leb_gt E2]. rewrite Z.geb_leb in E2. apply Z.leb_gt in E2.
    unfold PFChan_Pathfinder__TOO_LOW, PFChan_Pathfinder__TOO_HIGH in *.
    assert (ev = 512 \/ ev = 513 \/ ev = 514 \/ ev = 515 \/ ev = 516 \/ ev = 517 \/ ev = 518 \/ ev = 519 \/ ev = 520 \/ ev = 521 \/ ev = 522) as Hx by lia.
    unfold PFChan_Pathfinder_sizeOk. by repeat destruct Hx as [->|Hx]; [eexists; reflexivity..|subst; eexists; reflexivity]. }
  rewrite Eok, bind_of_ret. destruct ok; [cbn [negb]|by apply Hdrop].
  destruct (decide (ev = PFChan_Pathfinder_CONNECT)) as [->|Hne].
  - rewrite Z.eqb_refl, andb_false_r. destruct (bool_decide (pf_state pf = ERROR)); [by apply Hdrop|].
    assert (length rest = 72%nat) as Hr72. { injection Eok as Eok%Z.eqb_eq. change PFChan_Pathfinder_Connect_SIZE with 72 in Eok. lia. }
    destruct (connect_step m3 _ _ rest post ee id pf Hok Hat Hm3 Hr72) as (msg & ee' & outs & -> & Hp). rewrite bind_of_ret. by eexists _, _.
  - rewrite (proj2 (Z.eqb_neq _ _) Hne). cbn [negb]. rewrite andb_true_r.
    destruct (bool_decide_reflect (pf_state pf = DISCONNECTED)) as [_|Hd]; [by apply Hdrop|].
    destruct (bool_decide_reflect (pf_state pf = ERROR)) as [_|He]; [by apply Hdrop|].
    assert (pf_state pf = CONNECTED) as Hst by (by destruct (pf_state pf)).
    destruct (handle_step m3 _ _ ev rest post ee id pf Hok Hat Hst Hm3 Hbr Hne Eok) as (handled & m' & ee' & outs & -> & Hal & Hk & Hun).
    rewrite bind_of_ret. cbv beta iota zeta. destruct handled; [eexists _, _; split; [reflexivity|by apply alike_protocol]|].
    destruct (Hun eq_refl) as [-> ->]. pose proof (getHandlers_alike ee ev false Hok) as Hg. destruct (getHandlers ee ev false) as [[hs|] ee1]; cbn [snd] in Hg.
    + destruct (handlers_step m3 _ _ _ _ ee hs Hm3) as (o & -> & Hko). rewrite bind_of_ret. eexists _, _. split; [reflexivity|]. by apply alike_protocol.
    + eexists _, _. split; [reflexivity|]. apply alike_protocol; [done|apply only_known_nil].
Qed.

(** ** Runs *)

Inductive EEIn :=
| CoreEvent (m : Message)
| PathfinderMsg (id : Z) (m : Message)
| NewPathfinder
| Listen (iface ev : Z).

Definition ee_step (ee : EventEmitter) (x : EEIn) : Er (EventEmitter * list EEOut) :=
  match x with
  | CoreEvent m => incomingFromCore malloc m ee
  | PathfinderMsg id m => incomingFromPathfinder malloc m ee id
  | NewPathfinder => Ret (EventEmitter_regPathfinderIface ee, [])
  | Listen iface ev => ee ← EventEmitter_regCore ee iface ev; Ret (ee, [])
  end.

Fixpoint ee_run (ee : EventEmitter) (xs : list EEIn) : Er (EventEmitter * list EEOut) :=
  match xs with
  | [] => Ret (ee, [])
  | x :: xs =>
      '(ee, outs) ← ee_step ee x;
      '(ee, outs') ← ee_run ee xs;
      Ret (ee, outs ++ outs')
  end.

(** What the others keep to: the core sends events of their size, aligned, to
    everyone or in answer to a connected pathfinder; what a pathfinder sends is any
    bytes, with room for the four bytes the emitter adds. *)
Definition input_ok (ee : EventEmitter) (x : EEIn) : Prop :=
  match x with
  | CoreEvent m => exists a pre ev target payload post, msg_at m a pre (core_event ev target payload) post /\ a mod 4 = 0 /\
      fits 32 ev /\ fits 32 target /\ PFChan_Core_sizeOk ev (8 + len payload) = Ret true /\
      (target = 0xffffffff \/ exists pf, pathfinder_at ee (i32 target) = Some pf /\ pf_state pf = CONNECTED)
  | PathfinderMsg id m => is_Some (pathfinder_at ee id) /\ exists a pre c post, msg_at m a pre c post /\ bytes c /\ 4 <= len pre
  | NewPathfinder => len (pathfinders ee) < 65536
  | Listen _ ev => ev = 0 \/ PFChan_Pathfinder__TOO_LOW < ev < PFChan_Pathfinder__TOO_HIGH
  end.
Fixpoint inputs_ok (ee : EventEmitter) (xs : list EEIn) : Prop :=
  match xs with
  | [] => True
  | x :: xs => input_ok ee x /\ forall ee' outs, ee_step ee x = Ret (ee', outs) -> inputs_ok ee' xs
  end.

Lemma core_step m ee : ee_ok ee -> input_ok ee (CoreEvent m) ->
  exists ee' outs, incomingFromCore malloc m ee = Ret (ee', outs) /\ protocol ee ee' outs.
Proof.
  intros Hok (a & pre & ev & target & payload & post & Hm & Ha & Hev & Htg & Hsz & Hto).
  destruct (decide (target = 0xffffffff)) as [->|Hne].
  - destruct (broadcast_step m a pre ev payload post ee Hok Hm Ha Hev Hsz) as (ee' & outs & E & Hal & Hk). exists ee', outs. split; [done|]. by apply alike_protocol.
  - destruct Hto as [->|(pf & Hat & Hst)]; [done|].
    destruct (fromCore_spec m a pre ev target payload post ee Hm Ha Hev Htg Hsz) as (m' & a' & pre' & Hm' & ->).
    rewrite (proj2 (Z.eqb_neq _ _) Hne). cbn [negb]. rewrite Hat, bool_decide_true by done. cbn [Assert_true]. rewrite bind_of_ret.
    destruct (at_content _ _ _ _ _ Hm') as [Hc Hl]. destruct (send_step ee (i32 target) pf m' _ Hok Hat Hst Hc Hl) as (pf' & outs & -> & Hal & Hk & _).
    rewrite bind_of_ret. eexists _, _. split; [reflexivity|]. by apply alike_protocol.
Qed.

Lemma ee_step_ok ee x : ee_ok ee -> input_ok ee x -> exists ee' outs, ee_step ee x = Ret (ee', outs) /\ protocol ee ee' outs.
Proof.
  intros Hok Hx. destruct x as [m|id m| |iface ev].
  - by apply core_step.
  - destruct Hx as [[pf Hat] (a & pre & c & post & Hm & Hb & Hp)]. by apply (pathfinder_step m a pre c post ee id pf).
  - cbn in *. eexists _, []. split; [reflexivity|]. apply alike_protocol; [|apply only_known_nil]. destruct Hok as [Ht Hk Hc Hp]. split.
    + split; cbn; [done|done|rewrite length_app; cbn; lia|]. intros i pf [Hi|[Hi Hpf]]%lookup_app_Some; [by apply Hp|].
      apply list_lookup_singleton_Some in Hpf as [Hi0 <-]. split; [cbn; unfold u16; rewrite Z.mod_small by lia; lia|]. by split.
    + intros j Hs pf [Hj Hl]%pathfinder_at_lookup. cbn in Hl. apply lookup_app_Some in Hl as [Hl|[_ Hl]].
      * apply Hs. rewrite <- (Z2Nat.id j) by done. by apply lookup_pathfinder_at.
      * by apply list_lookup_singleton_Some in Hl as [_ <-].
  - cbn in *. unfold EventEmitter_regCore. pose proof (getHandlers_alike ee ev true Hok) as Hg.
    destruct (getHandlers ee ev true) as [[l|] ee1] eqn:Eg; cbn [snd] in Hg.
    + rewrite bind_of_ret. eexists _, []. split; [reflexivity|]. apply alike_protocol; [|apply only_known_nil]. apply alike_trans with (1 := Hg).
      destruct Hg as [[Ht Hk Hc Hp] _]. split; [|done]. split; cbn; try done. by rewrite length_insert.
    + destruct Hx as [->|Hx]; [change (Assert_true (0 =? 0)) with (Ret tt); rewrite !bind_of_ret; eexists _, []; split; [reflexivity|]; apply alike_protocol; [done|apply only_known_nil]|].
      exfalso. revert Eg. unfold getHandlers. rewrite (proj2 (Z.leb_gt _ _)), Z.geb_leb, (proj2 (Z.leb_gt _ _)) by lia. cbn [orb]. by destruct (mjoin _).
Qed.

Lemma ee_run_ok xs : forall ee, ee_ok ee -> inputs_ok ee xs -> exists ee' outs, ee_run ee xs = Ret (ee', outs) /\ protocol ee ee' outs.
Proof.
  induction xs as [|x xs IH]; intros ee Hok Hx; cbn [ee_run].
  { eexists ee, []. split; [done|]. apply alike_protocol; [by apply alike_refl|apply only_known_nil]. }
  destruct Hx as [Hx Hxs]. destruct (ee_step_ok ee x Hok Hx) as (ee1 & o1 & E1 & Hok1 & Hp1). rewrite E1, bind_of_ret.
  destruct (IH ee1 Hok1 (Hxs _ _ E1)) as (ee2 & o2 & -> & Hok2 & Hp2). rewrite bind_of_ret. eexists _, _. split; [reflexivity|]. split; [done|].
  intros id Hs. unfold to_pathfinder. rewrite omap_app. destruct (Hp1 id Hs) as [[H1 Hs1]|H1].
  - unfold to_pathfinder in H1. rewrite H1. by apply Hp2.
  - right. unfold to_pathfinder in H1. by destruct (omap _ o1).
Qed.

(** [C23] An event which a part of the core sends to everyone reaches each connected
    pathfinder exactly once, in the order of their numbers, without the target
    field; a pathfinder which has been sent 8192 bytes since its last ping is
    pinged first, with the count of its bytes.  Pathfinders which are not connected
    get nothing, and apart from the counts nothing changes. *)
Theorem event_fanout m a pre ev payload post ee :
  msg_at m a pre (core_event ev 0xffffffff payload) post -> a mod 4 = 0 -> fits 32 ev ->
  PFChan_Core_sizeOk ev (8 + len payload) = Ret true ->
  exists pfs outs, incomingFromCore malloc m ee = Ret (set_pathfinders ee pfs, outs) /\
    fanned (be_bytes 4 ev ++ payload) (pathfinders ee) outs /\
    Forall2 (fun pf pf' => pf' = pf \/ pf_state pf = CONNECTED /\ counted pf pf') (pathfinders ee) pfs.
Proof.
  intros Hm Ha Hev Hs. destruct (fromCore_spec m a pre ev 0xffffffff payload post ee Hm Ha Hev) as (m' & a' & pre' & Hm' & ->); [done|done|].
  destruct (broadcast_spec m' a' pre' _ post (pathfinders ee) Hm') as (pfs & outs & E & Hf & H2). cbn [Z.eqb Pos.eqb negb]. rewrite E, bind_of_ret.
  by exists pfs, outs.
Qed.

(** [C21] From the state of a new emitter, whatever bytes pathfinders send and
    however their messages, the events of the core and registrations are
    interleaved, no assertion fails; and every pathfinder hears nothing at all, or
    first of all the answer to its own CONNECT, as the description of the event
    promises.  So a pathfinder which has not connected cannot make the emitter send
    it anything. *)
Theorem pathfinder_protocol publicKey xs : (32 <= length publicKey)%nat -> inputs_ok (EventEmitter_new publicKey) xs ->
  exists ee outs, ee_run (EventEmitter_new publicKey) xs = Ret (ee, outs) /\ ee_ok ee /\
    forall id, to_pathfinder id outs = [] \/ greets (to_pathfinder id outs).
Proof.
  intros Hpk Hxs. assert (ee_ok (EventEmitter_new publicKey)) as Hok.
  { split; cbn; [done|rewrite length_take; lia|lia|]. intros i pf Hi. by rewrite lookup_nil in Hi. }
  destruct (ee_run_ok xs _ Hok Hxs) as (ee & outs & E & Hok' & Hp). exists ee, outs. split; [done|]. split; [done|]. intros id.
  destruct (Hp id) as [[H _]|H]; [|by left|by right]. intros pf [_ Hl]%pathfinder_at_lookup. done.
Qed.
End Proofs.

(** ** An example: a pathfinder connects and hears of a search *)

Definition connect_bytes : list Z := be_bytes 4 PFChan_Pathfinder_CONNECT ++ be_bytes 4 7 ++ be_bytes 4 20 ++ zeros 64.
Definition search_bytes : list Z := be_bytes 4 PFChan_Core_SEARCH_REQ ++ be_bytes 4 0xffffffff ++ zeros 24.
Definition example_inputs : list EEIn :=
  [Listen 1 PFChan_Pathfinder_NODE; NewPathfinder; CoreEvent (buffer 0 search_bytes); PathfinderMsg 0 (buffer 4 connect_bytes);
   CoreEvent (buffer 0 search_bytes)].

Lemma flat_malloc_ok : malloc_ok flat_malloc /\ forall n, (flat_malloc n).1 mod 4 = 0.
Proof. split; [intros n; apply length_replicate|done]. Qed.

Lemma search_event_ok ee : input_ok ee (CoreEvent (buffer 0 search_bytes)).
Proof.
  exists 4096, [], PFChan_Core_SEARCH_REQ, 0xffffffff, (zeros 24), []. split; [by apply (buffer_at 0)|]. split_and!; try done. by left.
Qed.

Lemma example_inputs_are_ok : inputs_ok flat_malloc (EventEmitter_new (replicate 32 7)) example_inputs.
Proof.
  unfold example_inputs. cbn [inputs_ok]. split; [by right|]. intros ee1 o1 [= <- <-]. split; [done|]. intros ee2 o2 [= <- <-].
  split; [apply search_event_ok|]. intros ee3 o3 E3. vm_compute in E3. injection E3 as <- <-.
  split; [split; [by eexists|]; exists (4096 + 4), (replicate 4 0), connect_bytes, []; split; [by apply (buffer_at 4)|]; split; [ground_bytes|done]|].
  intros ee4 o4 _. split; [apply search_event_ok|]. by intros.
Qed.

Lemma pathfinder_protocol_witness :
  exists ee outs, ee_run flat_malloc (EventEmitter_new (replicate 32 7)) example_inputs = Ret (ee, outs) /\
    greets (to_pathfinder 0 outs) /\ length (to_pathfinder 0 outs) = 2%nat.
Proof.
  destruct (pathfinder_protocol flat_malloc (proj1 flat_malloc_ok) (proj2 flat_malloc_ok) (replicate 32 7) example_inputs ltac:(done)
    example_inputs_are_ok) as (ee & outs & E & _ & Hp).
  exists ee, outs. split; [exact E|]. specialize (Hp 0). revert E Hp. vm_compute (ee_run _ _ _). intros [= <- <-] [H|H].
  - by vm_compute in H.
  - split; [exact H|by vm_compute].
Defined.

Lemma event_fanout_witness : exists pfs m outs,
  incomingFromCore flat_malloc (buffer 0 search_bytes)
    (set_pathfinders (EventEmitter_new (replicate 32 7)) [mkPathfinder (zeros 64) 0 0 DISCONNECTED 0 0; mkPathfinder (zeros 64) 7 20 CONNECTED 1 8190])
    = Ret (set_pathfinders (EventEmitter_new (replicate 32 7)) pfs, outs ++ [EEToPathfinder 1 m]) /\
  msg_content m = be_bytes 4 PFChan_Core_SEARCH_REQ ++ zeros 24 /\ length outs = 1%nat.
Proof.
  destruct (event_fanout flat_malloc (proj1 flat_malloc_ok) (proj2 flat_malloc_ok) (buffer 0 search_bytes) 4096 [] PFChan_Core_SEARCH_REQ (zeros 24) []
    (set_pathfinders (EventEmitter_new (replicate 32 7)) [mkPathfinder (zeros 64) 0 0 DISCONNECTED 0 0; mkPathfinder (zeros 64) 7 20 CONNECTED 1 8190])
    ltac:(by apply (buffer_at 0)) eq_refl ltac:(done) eq_refl) as (pfs & outs & E & Hf & _).
  inversion Hf as [|? ? ? _ Hf'|? ? ? ? ? Hc]; [|done]. inversion Hf' as [|? ? ? Hn|? ? pings m outs' _ Hp Hc Hend]; [done|]. inversion Hend. subst.
  exists pfs, m, pings. split; [exact E|]. split; [exact Hc|]. inversion Hp as [ping Hd Hcont|Hd]; [done|].
  exfalso. apply Hd. split; by vm_compute.
Defined.

(** ** Behaviour beside the specification *)

Definition two_pathfinders : EventEmitter :=
  set_pathfinders (EventEmitter_new (replicate 32 7)) [mkPathfinder (zeros 64) 5 20 CONNECTED 0 0; mkPathfinder (zeros 64) 7 20 CONNECTED 1 0].

(** Asked for all pathfinders, the emitter describes the one who asks, once for every
    connected one; and unlike other events the answers keep the field of the
    target. *)
Example pathfinders_describes_asker : exists ee m1 m2,
  incomingFromPathfinder flat_malloc (buffer 4 (be_bytes 4 PFChan_Pathfinder_PATHFINDERS)) two_pathfinders 0
    = Ret (ee, [EEToPathfinder 0 m1; EEToPathfinder 0 m2]) /\
  msg_content m1 = core_event PFChan_Core_PATHFINDER 0xffffffff (be_bytes 4 5 ++ be_bytes 4 0 ++ zeros 64) /\ msg_content m2 = msg_content m1.
Proof. do 3 eexists. split; [vm_compute; reflexivity|]. by vm_compute. Qed.

(** A ping is not answered by a pong but sent back as it is, with the pathfinder's
    number in front of the cookie. *)
Example ping_sent_back : exists ee m,
  incomingFromPathfinder flat_malloc (buffer 4 (be_bytes 4 PFChan_Pathfinder_PING ++ replicate 8 9)) two_pathfinders 1
    = Ret (ee, [EEToPathfinder 1 m]) /\
  msg_content m = be_bytes 4 PFChan_Pathfinder_PING ++ be_bytes 4 1 ++ replicate 8 9.
Proof. do 2 eexists. split; [vm_compute; reflexivity|]. by vm_compute. Qed.
