(* ===== verification/ControlHandler.v ===== *)
(** * net/ControlHandler.c: control packets addressed to this node

    Control packets come from the switch with a route header in front.  Pings,
    key pings, questions for the supernode and for the reverse path are answered
    in place, in the buffer they came in; pongs go on to the switch pinger, the
    rest to the pathfinder as events.  A handler's result is the list of messages
    it sends on, with the interface. *)
From S2P Require Import Prelude Bits Message Checksum Headers RouteHeader PFChan.
From S2P Require Import NumberCompress Address.

(** ** Definitions *)

Record ControlHandler := mkControlHandler {
  ch_myPublicKey : list Z;
  ch_activeSnode : Address;
}.

Inductive CHOut :=
| ToCore (msg : Message)
| ToSwitchPinger (msg : Message)
| ToEvent (msg : Message).

Definition ControlHandler_new (myPublicKey : list Z) : ControlHandler :=
  mkControlHandler (take 32 myPublicKey) Address_zero.

(** The control header at [msg->bytes + off]. *)
Definition ctrl_type_be (msg : Message) : Z := le_val (msg_read msg 2 2).

(** [ctrl->header.checksum_be = 0; ctrl->header.checksum_be = Checksum_engine_be(..)]
    with [ctrl] at [msg->bytes]. *)
Definition ctrl_checksum (msg : Message) : Er Message :=
  let msg := msg_write msg 0 (le_bytes 2 0) in
  checksum ← Checksum_engine_be (msg_addr msg + msg_bytes msg) (msg_content msg) (msg_length msg);
  Ret (msg_write msg 0 (le_bytes 2 checksum)).

(** The route header in front of an answer: a zeroed struct with the version of the
    switch header, the label and the flag. *)
Definition ctrl_routeHeader (msg : Message) (label_be : Z) : Er Message :=
  msg ← Message_eshift msg RouteHeader_SIZE;
  let msg := msg_write msg 0 (zeros RouteHeader_SIZE) in
  sh ← SwitchHeader_setVersion (SwitchHeader_of (msg_read msg 32 12)) SwitchHeader_CURRENT_VERSION;
  let msg := msg_write msg 32 (SwitchHeader_bytes sh) in
  let msg := msg_write msg 32 (le_bytes 8 label_be) in
  Ret (msg_write msg 48 [Z.lor (get (msg_read msg 48 1) 0) RouteHeader_flags_CTRLMSG]).

Definition handleError_MIN_SIZE : Z :=
  Control_Header_SIZE + Control_Error_MIN_SIZE + SwitchHeader_SIZE + 4.

(** [rh] is the copy of the route header. *)
Definition handleError (msg : Message) (rh : list Z) : Er (list CHOut) :=
  if msg_length msg <? handleError_MIN_SIZE then Ret []
  else
    let msg := set_msg_length msg handleError_MIN_SIZE in
    msg ← Message_epush msg (Some (rh_sh (RouteHeader_of rh))) SwitchHeader_SIZE;
    msg ← Message_epush32be msg 0xffffffff;
    msg ← Message_epush32be msg PFChan_Core_SWITCH_ERR;
    Ret [ToEvent msg].

Definition handlePing_MIN_SIZE : Z := Control_Header_SIZE + Control_Ping_MIN_SIZE.

(** Behind the shift the ping is at [msg->bytes], the control header at -4. *)
Definition handlePing (msg : Message) (ch : ControlHandler) (label messageType_be : Z)
  : Er (list CHOut) :=
  if msg_length msg <? handlePing_MIN_SIZE then Ret []
  else
    msg ← Message_eshift msg (- Control_Header_SIZE);
    let herVersion := Endian_bigEndianToHost32 (le_val (msg_read msg 4 4)) in
    if Version_isCompatible Version_CURRENT_PROTOCOL herVersion =? 0 then Ret []
    else
      let magic := le_val (msg_read msg 0 4) in
      reply ←
        (if messageType_be =? Control_KEYPING_be then
           if msg_length msg <? Control_KeyPing_HEADER_SIZE then Ret None
           else if msg_length msg >? Control_KeyPing_MAX_SIZE then Ret None
           else if negb (magic =? Control_KeyPing_MAGIC) then Ret None
           else
             let msg := msg_write msg 0 (le_bytes 4 Control_KeyPong_MAGIC) in
             let msg := msg_write msg (-2) (le_bytes 2 Control_KEYPONG_be) in
             Ret (Some (msg_write msg 8 (take 32 (ch_myPublicKey ch))))
         else if messageType_be =? Control_PING_be then
           if negb (magic =? Control_Ping_MAGIC) then Ret None
           else
             let msg := msg_write msg 0 (le_bytes 4 Control_Pong_MAGIC) in
             Ret (Some (msg_write msg (-2) (le_bytes 2 Control_PONG_be)))
         else Abort "2+2=5");
      match reply with
      | None => Ret []
      | Some msg =>
          let msg := msg_write msg 4 (le_bytes 4 (Endian_hostToBigEndian32 Version_CURRENT_PROTOCOL)) in
          msg ← Message_eshift msg Control_Header_SIZE;
          msg ← ctrl_checksum msg;
          msg ← ctrl_routeHeader msg (Endian_hostToBigEndian64 label);
          Ret [ToCore msg]
      end.

Definition handleRPathQuery_MIN_SIZE : Z := Control_Header_SIZE + Control_RPath_HEADER_SIZE.

Definition handleRPathQuery (msg : Message) (label : Z) : Er (list CHOut) :=
  if msg_length msg <? handleRPathQuery_MIN_SIZE then Ret []
  else if negb (le_val (msg_read msg 4 4) =? Control_RPATH_QUERY_MAGIC) then Ret []
  else
    let msg := msg_write msg 2 (le_bytes 2 Control_RPATH_REPLY_be) in
    let msg := msg_write msg 8 (le_bytes 4 (Endian_hostToBigEndian32 Version_CURRENT_PROTOCOL)) in
    let msg := msg_write msg 4 (le_bytes 4 Control_RPATH_REPLY_MAGIC) in
    let label_be := Endian_hostToBigEndian64 label in
    let msg := msg_write msg 12 (le_bytes 8 label_be) in
    msg ← ctrl_checksum msg;
    msg ← ctrl_routeHeader msg label_be;
    Ret [ToCore msg].

Definition handleGetSnodeQuery_MIN_SIZE : Z := Control_Header_SIZE + Control_GetSnode_HEADER_SIZE.

Definition handleGetSnodeQuery (msg : Message) (ch : ControlHandler) (label : Z) : Er (list CHOut) :=
  if msg_length msg <? handleGetSnodeQuery_MIN_SIZE then Ret []
  else if negb (le_val (msg_read msg 4 4) =? Control_GETSNODE_QUERY_MAGIC) then Ret []
  else
    let herVersion := Endian_bigEndianToHost32 (le_val (msg_read msg 8 4)) in
    if Version_isCompatible Version_CURRENT_PROTOCOL herVersion =? 0 then Ret []
    else
      let snode := ch_activeSnode ch in
      let msg := msg_write msg 2 (le_bytes 2 Control_GETSNODE_REPLY_be) in
      let msg := msg_write msg 16 (le_bytes 4 0xffffffff) in
      let msg := msg_write msg 8 (le_bytes 4 (Endian_hostToBigEndian32 Version_CURRENT_PROTOCOL)) in
      let msg := msg_write msg 4 (le_bytes 4 Control_GETSNODE_REPLY_MAGIC) in
      let msg :=
        if negb (path snode =? 0) then
          let fixedLabel := NumberCompress_getLabelFor (path snode) label in
          let msg := msg_write msg 52 (le_bytes 8 (Endian_hostToBigEndian64 fixedLabel)) in
          let msg := msg_write msg 20 (take 32 (key snode)) in
          msg_write msg 12 (le_bytes 4 (Endian_hostToBigEndian32 (protocolVersion snode)))
        else
          let msg := msg_write msg 12 (le_bytes 4 0) in
          let msg := msg_write msg 52 (zeros 8) in
          msg_write msg 20 (zeros 32) in
      msg ← ctrl_checksum msg;
      msg ← ctrl_routeHeader msg (Endian_hostToBigEndian64 label);
      Ret [ToCore msg].

Definition incomingFromCore (msg : Message) (ch : ControlHandler) : Er (list CHOut) :=
  '(msg, routeHdr) ← Message_epop msg RouteHeader_SIZE;
  let label := Endian_bigEndianToHost64 (label_be (SwitchHeader_of (rh_sh (RouteHeader_of routeHdr)))) in
  if msg_length msg <? 4 + Control_Header_SIZE then Ret []
  else
    Assert_true (negb (Z.land (rh_flags (RouteHeader_of routeHdr)) RouteHeader_flags_CTRLMSG =? 0));;
    checksum ← Checksum_engine_be (msg_addr msg + msg_bytes msg) (msg_content msg) (msg_length msg);
    if negb (checksum =? 0) then Ret []
    else
      let type_be := ctrl_type_be msg in
      if type_be =? Control_ERROR_be then handleError msg routeHdr
      else if (type_be =? Control_KEYPING_be) || (type_be =? Control_PING_be) then
        handlePing msg ch label type_be
      else if (type_be =? Control_KEYPONG_be) || (type_be =? Control_PONG_be) then
        msg ← Message_epush msg (Some routeHdr) RouteHeader_SIZE;
        Ret [ToSwitchPinger msg]
      else if type_be =? Control_GETSNODE_QUERY_be then handleGetSnodeQuery msg ch label
      else if (type_be =? Control_GETSNODE_REPLY_be) || (type_be =? Control_RPATH_REPLY_be) then
        msg ← Message_epush msg (Some routeHdr) RouteHeader_SIZE;
        msg ← Message_epush32be msg 0xffffffff;
        msg ← Message_epush32be msg PFChan_Core_CTRL_MSG;
        Ret [ToEvent msg]
      else if type_be =? Control_RPATH_QUERY_be then handleRPathQuery msg label
      else Ret [].

Definition incomingFromSwitchPinger (msg : Message) : list CHOut := [ToCore msg].

(** An event of the pathfinder: the supernode has changed. *)
Definition changeSnode (msg : Message) (ch : ControlHandler) : Er ControlHandler :=
  '(msg, ev) ← Message_epop32be msg;
  Assert_true (ev =? PFChan_Pathfinder_SNODE);;
  '(msg, _) ← Message_epop32be msg;
  '(msg, bs) ← Message_epop msg PFChan_Node_SIZE;
  let node := PFChan_Node_of bs in
  Assert_true (msg_length msg =? 0);;
  let path' := Endian_bigEndianToHost64 (nd_path_be node) in
  let protocolVersion' := Endian_bigEndianToHost32 (nd_version_be node) in
  let snode := ch_activeSnode ch in
  let changed :=
    if path snode =? 0 then negb (nd_path_be node =? 0)
    else if nd_path_be node =? 0 then true
    else if negb (memcmp (key snode) (nd_publicKey node) =? 0) then true
    else if negb (path' =? path snode) then true
    else negb (protocolVersion snode =? protocolVersion') in
  if negb changed then Ret ch
  else Ret (mkControlHandler (ch_myPublicKey ch)
              (mkAddress protocolVersion' (a_padding snode) (ip6 snode) (nd_publicKey node) path')).
