(* ===== verification/SwitchPinger.v ===== *)
(** * net/SwitchPinger.c: pings along a label

    The switch pinger writes ping packets of four kinds, hands them to the control
    handler and matches what comes back with the pinger of Pinger.v.  The fields
    [incoming...] carry what was read from a packet to [onPingResponse], which the
    pinger calls back.  The pinger's context of a ping is the [SwitchPing] below;
    [sp_user] stands for the user's callback and its argument. *)
From stdpp Require Import gmap.
From S2P Require Import Prelude Bits Message Checksum Headers RouteHeader Nacl Key Benc.
From S2P Require Import Address HandleMap Pinger ControlHandler.

(** ** Definitions *)

Definition SwitchPinger_DEFAULT_MAX_CONCURRENT_PINGS : Z := 50.

Inductive SwitchPinger_Result :=
| Result_OK | Result_LABEL_MISMATCH | Result_WRONG_DATA | Result_ERROR_RESPONSE
| Result_LOOP_ROUTE | Result_TIMEOUT.

Inductive SwitchPinger_Type := Type_PING | Type_KEYPING | Type_GETSNODE | Type_RPATH.

(** [struct Ping]: the public part ([type], [kbpsLimit], [snode]) is filled in by the
    user after [SwitchPinger_newPing]. *)
Record SwitchPing := mkSwitchPing {
  sp_type : SwitchPinger_Type;
  sp_kbpsLimit : Z;
  sp_snode : Address;
  sp_label : Z;
  sp_data : option (list Z);
  sp_user : Z;
}.

Record SwitchPinger_Response := mkResponse {
  resp_res : SwitchPinger_Result;
  resp_label : Z;
  resp_data : option (list Z);
  resp_milliseconds : Z;
  resp_version : Z;
  resp_key : list Z;
  resp_kbpsLimit : Z;
  resp_snode : Address;
  resp_rpath : Z;
  resp_ping : nat;
}.

Record SwitchPinger := mkSwitchPinger {
  s_pinger : Pinger SwitchPing;
  s_myAddr : Address;
  s_incomingLabel : Z;
  s_incomingVersion : Z;
  s_incomingKey : list Z;
  s_incomingSnodeAddr : Address;
  s_incomingSnodeKbps : Z;
  s_rpath : Z;
  s_error : Z;
  s_outstandingPings : Z;
  s_maxConcurrentPings : Z;
}.

(** Calls of the users' callbacks, and messages for the control handler. *)
Inductive SPOut :=
| Respond (user : Z) (resp : SwitchPinger_Response)
| ToControlHandler (msg : Message).

Definition set_pinger (ctx : SwitchPinger) (p : Pinger SwitchPing) : SwitchPinger :=
  mkSwitchPinger p (s_myAddr ctx) (s_incomingLabel ctx) (s_incomingVersion ctx) (s_incomingKey ctx)
    (s_incomingSnodeAddr ctx) (s_incomingSnodeKbps ctx) (s_rpath ctx) (s_error ctx)
    (s_outstandingPings ctx) (s_maxConcurrentPings ctx).
Definition set_outstanding (ctx : SwitchPinger) (n : Z) : SwitchPinger :=
  mkSwitchPinger (s_pinger ctx) (s_myAddr ctx) (s_incomingLabel ctx) (s_incomingVersion ctx)
    (s_incomingKey ctx) (s_incomingSnodeAddr ctx) (s_incomingSnodeKbps ctx) (s_rpath ctx) (s_error ctx)
    n (s_maxConcurrentPings ctx).
(** The fields which a message sets, all at once. *)
Definition set_incoming (ctx : SwitchPinger) (label version : Z) (key : list Z) (snode : Address)
    (kbps rpath error : Z) : SwitchPinger :=
  mkSwitchPinger (s_pinger ctx) (s_myAddr ctx) label version key snode kbps rpath error
    (s_outstandingPings ctx) (s_maxConcurrentPings ctx).

Definition onPingResponse (ctx : SwitchPinger) (data : option (list Z)) (milliseconds : Z)
    (ptr : nat) (p : SwitchPing) : SPOut :=
  let label := s_incomingLabel ctx in
  let '(err, label) :=
    match data with
    | Some d =>
        (if negb (label =? sp_label p) then Result_LABEL_MISMATCH
         else if (bool_decide (is_Some (sp_data p)) || (len d >? 0)) && negb (String_equals data (sp_data p))
         then Result_WRONG_DATA
         else if s_error ctx =? Error_LOOP_ROUTE then Result_LOOP_ROUTE
         else if negb (s_error ctx =? 0) then Result_ERROR_RESPONSE
         else Result_OK, label)
    | None => (Result_TIMEOUT, sp_label p)
    end in
  Respond (sp_user p)
    (mkResponse err label data milliseconds (s_incomingVersion ctx) (s_incomingKey ctx)
       (s_incomingSnodeKbps ctx) (s_incomingSnodeAddr ctx) (s_rpath ctx) ptr).

(** The on-free job. *)
Definition onPingFree (ctx : SwitchPinger) : Er SwitchPinger :=
  let ctx := set_outstanding ctx (s_outstandingPings ctx - 1) in
  Assert_true (s_outstandingPings ctx >=? 0);;
  Ret ctx.

(** [while (((uintptr_t)msg->bytes - data->len) % 4)]: at most three rounds. *)
Fixpoint sendPing_align (fuel : nat) (msg : Message) (n : Z) : Er Message :=
  match fuel with
  | O => Ret msg
  | S fuel =>
      if negb ((msg_addr msg + msg_bytes msg - n) mod 4 =? 0)
      then msg ← Message_epush8 msg 0; sendPing_align fuel msg n
      else Ret msg
  end.

(** The header of a ping of each kind, and the type of the control packet. *)
Definition ping_header (ctx : SwitchPinger) (p : SwitchPing) (msg : Message) : Er (Message * Z) :=
  let version_be := Endian_hostToBigEndian32 Version_CURRENT_PROTOCOL in
  match sp_type p with
  | Type_KEYPING =>
      msg ← Message_epush msg None Control_KeyPing_HEADER_SIZE;
      let msg := msg_write msg 0 (le_bytes 4 Control_KeyPing_MAGIC) in
      let msg := msg_write msg 4 (le_bytes 4 version_be) in
      Ret (msg_write msg 8 (take 32 (key (s_myAddr ctx))), Control_KEYPING_be)
  | Type_PING =>
      msg ← Message_epush msg None Control_Ping_HEADER_SIZE;
      let msg := msg_write msg 0 (le_bytes 4 Control_Ping_MAGIC) in
      Ret (msg_write msg 4 (le_bytes 4 version_be), Control_PING_be)
  | Type_GETSNODE =>
      msg ← Message_epush msg None Control_GetSnode_HEADER_SIZE;
      let msg := msg_write msg 0 (le_bytes 4 Control_GETSNODE_QUERY_MAGIC) in
      let msg := msg_write msg 4 (le_bytes 4 version_be) in
      let msg := msg_write msg 12 (le_bytes 4 (Endian_hostToBigEndian32 (sp_kbpsLimit p))) in
      let msg := msg_write msg 16 (take 32 (key (sp_snode p))) in
      let msg := msg_write msg 48 (le_bytes 8 (Endian_hostToBigEndian64 (path (sp_snode p)))) in
      Ret (msg_write msg 8 (le_bytes 4 (Endian_hostToBigEndian32 (protocolVersion (sp_snode p)))),
           Control_GETSNODE_QUERY_be)
  | Type_RPATH =>
      msg ← Message_epush msg None Control_RPath_HEADER_SIZE;
      let msg := msg_write msg 0 (le_bytes 4 Control_RPATH_QUERY_MAGIC) in
      let msg := msg_write msg 4 (le_bytes 4 version_be) in
      Ret (msg_write msg 8 (le_bytes 8 (Endian_hostToBigEndian64 (sp_label p))), Control_RPATH_QUERY_be)
  end.

(** [malloc] is the allocator.  The zero written into the checksum field before the
    type is written again by [ctrl_checksum]. *)
Definition sendPing (malloc : Z -> Z * list Z) (ctx : SwitchPinger) (data : list Z) (p : SwitchPing)
  : Er SPOut :=
  let '(addr, mem) := malloc (len data + 512) in
  let msg := Message_new 0 (len data + 512) addr mem in
  msg ← sendPing_align 4 msg (len data);
  let msg := set_msg_length msg 0 in
  msg ← Message_epush msg (Some data) (len data);
  Assert_true ((msg_addr msg + msg_bytes msg) mod 4 =? 0);;
  '(msg, type_be) ← ping_header ctx p msg;
  msg ← Message_eshift msg Control_Header_SIZE;
  let msg := msg_write msg 0 (le_bytes 2 0) in
  let msg := msg_write msg 2 (le_bytes 2 type_be) in
  msg ← ctrl_checksum msg;
  sh ← SwitchHeader_setVersion
         (mkSwitchHeader (Endian_hostToBigEndian64 (sp_label p)) 0 0 0) SwitchHeader_CURRENT_VERSION;
  let rh := mkRouteHeader (zeros 32) (SwitchHeader_bytes sh) 0 RouteHeader_flags_CTRLMSG 0 0 (zeros 16) in
  msg ← Message_epush msg (Some (RouteHeader_bytes rh)) RouteHeader_SIZE;
  Ret (ToControlHandler msg).

(** What the pinger called back, in order. *)
Fixpoint run_outs (malloc : Z -> Z * list Z) (ctx : SwitchPinger) (outs : list (Out SwitchPing))
  : Er (SwitchPinger * list SPOut) :=
  match outs with
  | [] => Ret (ctx, [])
  | OnResponse ptr data ms (Some p) :: outs =>
      let o := onPingResponse ctx data ms ptr p in
      '(ctx, rest) ← run_outs malloc ctx outs;
      Ret (ctx, o :: rest)
  | SendPing ptr data (Some p) :: outs =>
      o ← sendPing malloc ctx data p;
      '(ctx, rest) ← run_outs malloc ctx outs;
      Ret (ctx, o :: rest)
  | Freed ptr (Some p) :: outs =>
      ctx ← onPingFree ctx;
      run_outs malloc ctx outs
  | _ => Abort "Identity_check"
  end.

Definition SwitchPinger_resultString (result : SwitchPinger_Result) : string :=
  match result with
  | Result_OK => "pong"
  | Result_LABEL_MISMATCH => "diff_label"
  | Result_WRONG_DATA => "diff_data"
  | Result_ERROR_RESPONSE => "err_switch"
  | Result_TIMEOUT => "timeout"
  | Result_LOOP_ROUTE => "err_loop"
  end.

(** [ptr], [time] and [cookie] as for [Pinger_newPing]; [user] is the callback.  [None]
    when no ping is made. *)
Definition SwitchPinger_newPing (ctx : SwitchPinger) (label : Z) (data : option (list Z)) (user : Z)
    (ptr : nat) (time cookie : Z) : option SwitchPinger :=
  if match data with Some d => len d >? Control_Ping_MAX_SIZE | None => false end then None
  else if s_outstandingPings ctx >? s_maxConcurrentPings ctx then None
  else
    let pinger := Pinger_newPing data (s_pinger ctx) ptr time cookie in
    let pinger := set_context pinger ptr (mkSwitchPing Type_PING 0 Address_zero label data user) in
    Some (set_outstanding (set_pinger ctx pinger) (s_outstandingPings ctx + 1)).

(** The user fills in the public part of its ping. *)
Definition set_type (ctx : SwitchPinger) (ptr : nat) (type : SwitchPinger_Type) (kbpsLimit : Z)
    (snode : Address) : SwitchPinger :=
  match pings (s_pinger ctx) !! ptr with
  | Some (mkPing _ (Some p) _ _ _) =>
      set_pinger ctx (set_context (s_pinger ctx) ptr
        (mkSwitchPing type kbpsLimit snode (sp_label p) (sp_data p) (sp_user p)))
  | _ => ctx
  end.

Definition SwitchPinger_new (rand32 : Z) (myAddr : Address) : SwitchPinger :=
  mkSwitchPinger (Pinger_new rand32) myAddr 0 0 (zeros 32) Address_zero 0 0 0 0
    SwitchPinger_DEFAULT_MAX_CONCURRENT_PINGS.

(** The timers. *)
Definition pingTimeout (malloc : Z -> Z * list Z) (ctx : SwitchPinger) (ptr : nat) (time : Z)
  : Er (SwitchPinger * list SPOut) :=
  '(pinger, outs) ← timeoutCallback (s_pinger ctx) ptr time;
  run_outs malloc (set_pinger ctx pinger) outs.
Definition pingSend (malloc : Z -> Z * list Z) (ctx : SwitchPinger) (ptr : nat)
  : Er (SwitchPinger * list SPOut) :=
  outs ← asyncSendPing (s_pinger ctx) ptr;
  run_outs malloc ctx outs.
Definition pingCancel (malloc : Z -> Z * list Z) (ctx : SwitchPinger) (ptr : nat)
  : Er (SwitchPinger * list SPOut) :=
  '(pinger, outs) ← freePing (s_pinger ctx) ptr;
  run_outs malloc (set_pinger ctx pinger) outs.

Section Receive.
Context {N : Nacl}.

(** Reading a packet: the context with its fields set and, unless it is dropped, the
    message at the data which belongs to the pinger. *)
Definition readControl (ctx : SwitchPinger) (msg : Message) (label : Z)
  : Er (SwitchPinger * option Message) :=
  let set version key snode kbps rpath error := set_incoming ctx label version key snode kbps rpath error in
  let type_be := ctrl_type_be msg in
  let error := s_error ctx in
  if type_be =? Control_PONG_be then
    msg ← Message_eshift msg (- Control_Header_SIZE);
    if msg_length msg >=? Control_Pong_MIN_SIZE then
      let version := Endian_bigEndianToHost32 (le_val (msg_read msg 4 4)) in
      let ctx := set version (zeros 32) Address_zero 0 0 Error_NONE in
      if negb (le_val (msg_read msg 0 4) =? Control_Pong_MAGIC) then Ret (ctx, None)
      else
        msg ← Message_eshift msg (- Control_Pong_HEADER_SIZE);
        Ret (ctx, Some msg)
    else Ret (set 0 (zeros 32) Address_zero 0 0 Error_NONE, None)
  else if type_be =? Control_KEYPONG_be then
    msg ← Message_eshift msg (- Control_Header_SIZE);
    if (msg_length msg >=? Control_KeyPong_HEADER_SIZE) && (msg_length msg <=? Control_KeyPong_MAX_SIZE) then
      let version := Endian_bigEndianToHost32 (le_val (msg_read msg 4 4)) in
      if negb (le_val (msg_read msg 0 4) =? Control_KeyPong_MAGIC)
      then Ret (set version (zeros 32) Address_zero 0 0 Error_NONE, None)
      else
        let ctx := set version (msg_read msg 8 32) Address_zero 0 0 Error_NONE in
        msg ← Message_eshift msg (- Control_KeyPong_HEADER_SIZE);
        Ret (ctx, Some msg)
    else Ret (set 0 (zeros 32) Address_zero 0 0 Error_NONE, None)
  else if type_be =? Control_GETSNODE_REPLY_be then
    msg ← Message_eshift msg (- Control_Header_SIZE);
    let dropped snode := Ret (set 0 (zeros 32) snode 0 0 Error_NONE, None) in
    if msg_length msg <? Control_GetSnode_HEADER_SIZE then dropped Address_zero
    else if negb (le_val (msg_read msg 0 4) =? Control_GETSNODE_REPLY_MAGIC) then dropped Address_zero
    else
      let snodeKey := msg_read msg 16 32 in
      if Bits_isZero snodeKey then dropped Address_zero
      else
        let '(ok, ip) := AddressCalc_addressForPublicKey snodeKey in
        let snode := with_ip6 Address_zero ip in
        if negb ok then dropped snode
        else
          let version := Endian_hostToBigEndian32 (le_val (msg_read msg 4 4)) in
          let path := Endian_bigEndianToHost64 (le_val (msg_read msg 48 8)) in
          let snode := mkAddress (Endian_bigEndianToHost32 (le_val (msg_read msg 8 4))) 0 ip snodeKey path in
          let kbps := Endian_bigEndianToHost32 (le_val (msg_read msg 12 4)) in
          let ctx := set version (zeros 32) snode kbps 0 Error_NONE in
          msg ← Message_eshift msg (- Control_GetSnode_HEADER_SIZE);
          Ret (ctx, Some msg)
  else if type_be =? Control_RPATH_REPLY_be then
    msg ← Message_eshift msg (- Control_Header_SIZE);
    let dropped := Ret (set 0 (zeros 32) Address_zero 0 0 Error_NONE, None) in
    if msg_length msg <? Control_RPath_HEADER_SIZE then dropped
    else if negb (le_val (msg_read msg 0 4) =? Control_RPATH_REPLY_MAGIC) then dropped
    else
      let version := Endian_hostToBigEndian32 (le_val (msg_read msg 4 4)) in
      let rpath := Endian_bigEndianToHost64 (le_val (msg_read msg 8 8)) in
      let ctx := set version (zeros 32) Address_zero 0 rpath Error_NONE in
      msg ← Message_eshift msg (- Control_RPath_HEADER_SIZE);
      Ret (ctx, Some msg)
  else if type_be =? Control_ERROR_be then
    msg ← Message_eshift msg (- Control_Header_SIZE);
    if msg_length msg <? Control_Error_HEADER_SIZE + SwitchHeader_SIZE + Control_Header_SIZE
    then Ret (set 0 (zeros 32) Address_zero 0 0 error, None)
    else
      '(msg, err) ← Message_epop32be msg;
      let ctx := set 0 (zeros 32) Address_zero 0 0 (i32 err) in
      msg ← Message_epush32be msg 0;
      msg ← Message_eshift msg (- (Control_Error_HEADER_SIZE + SwitchHeader_SIZE));
      let orig := ctrl_type_be msg in
      shift ←
        (if orig =? Control_PING_be then Ret (- (Control_Header_SIZE + Control_Ping_HEADER_SIZE))
         else if orig =? Control_KEYPING_be then Ret (- (Control_Header_SIZE + Control_KeyPing_HEADER_SIZE))
         else Abort "problem in Ducttape.c");
      msg ← Message_eshift msg shift;
      Ret (ctx, Some msg)
  else Abort "Assertion failure".

Definition messageFromControlHandler (malloc : Z -> Z * list Z) (ctx : SwitchPinger) (msg : Message)
    (time : Z) : Er (SwitchPinger * list SPOut) :=
  '(msg, rh) ← Message_epop msg RouteHeader_SIZE;
  let label := Endian_bigEndianToHost64 (label_be (SwitchHeader_of (rh_sh (RouteHeader_of rh)))) in
  '(ctx, data) ← readControl ctx msg label;
  match data with
  | None => Ret (ctx, [])
  | Some msg =>
      '(pinger, outs) ← Pinger_pongReceived (msg_content msg) (s_pinger ctx) time;
      '(ctx, outs) ← run_outs malloc (set_pinger ctx pinger) outs;
      Ret (set_incoming ctx (s_incomingLabel ctx) (s_incomingVersion ctx) (zeros 32)
             (s_incomingSnodeAddr ctx) (s_incomingSnodeKbps ctx) (s_rpath ctx) (s_error ctx), outs)
  end.

End Receive.
