(* ===== verification/ControlProofs.v ===== *)
(** * Control packets: safety and the answer to a ping

    [control_plane_safe]: no packet which the core can hand to the control handler
    stops the process, also when it is passed on to the switch pinger.
    [ping_answered]: a ping written by one node and answered by another is reported
    to the user as a success, with the other node's version and key. *)
From stdpp Require Import gmap.
From S2P Require Import Prelude Bits Message Checksum MsgAt Headers RouteHeader PFChan Nacl Key Benc.
From S2P Require Import NumberCompress Address HandleMap Pinger ControlHandler SwitchPinger.

(** The sizes of the headers are numbers. *)
Ltac sizes :=
  unfold handleError_MIN_SIZE, handlePing_MIN_SIZE, Control_Error_MIN_SIZE, Control_Error_HEADER_SIZE,
    RouteHeader_SIZE, SwitchHeader_SIZE, Control_Header_SIZE, Control_Pong_MIN_SIZE, Control_Ping_MIN_SIZE,
    Control_Pong_HEADER_SIZE, Control_Ping_HEADER_SIZE, Control_KeyPong_HEADER_SIZE,
    Control_KeyPing_HEADER_SIZE in *; lia.

Lemma ctrl_checksum_geometry m l p a : geometry m l p a -> a mod 2 = 0 ->
  exists m', ctrl_checksum m = Ret m' /\ geometry m' l p a.
Proof.
  intros Hg Ha. unfold ctrl_checksum. destruct Hg as (Hl & Hp & Hpos).
  cbn [msg_write msg_addr msg_bytes]. rewrite Hpos.
  destruct (checksum_ret a (msg_content (msg_write m 0 (le_bytes 2 0)))
              (msg_length (msg_write m 0 (le_bytes 2 0))) Ha) as (ck & ->).
  cbn [mbind Er_bind]. eexists. split; [done|]. by split.
Qed.

Lemma ctrl_routeHeader_geometry m l p a label : geometry m l p a -> 0 <= l -> RouteHeader_SIZE <= p ->
  exists m', ctrl_routeHeader m label = Ret m' /\ geometry m' (l + 68) (p - 68) (a - 68).
Proof.
  intros Hg Hl Hp. unfold ctrl_routeHeader.
  destruct (eshift_geometry m l p a RouteHeader_SIZE Hg) as (m1 & -> & Hg1 & _); [done|sizes|].
  cbn [mbind Er_bind]. unfold SwitchHeader_setVersion.
  change (SwitchHeader_CURRENT_VERSION <? 4) with true. cbn [Assert_true mbind Er_bind].
  eexists. split; [done|]. by repeat apply geometry_write.
Qed.

(** An answer: checksum and route header. *)
Lemma ctrl_answer_geometry m l p a label : geometry m l p a -> a mod 2 = 0 -> 0 <= l -> RouteHeader_SIZE <= p ->
  exists m', (msg ← ctrl_checksum m; msg ← ctrl_routeHeader msg label; Ret [ToCore msg]) = Ret [ToCore m'].
Proof.
  intros Hg Ha Hl Hp. destruct (ctrl_checksum_geometry m l p a Hg Ha) as (m1 & -> & Hg1).
  cbn [mbind Er_bind]. destruct (ctrl_routeHeader_geometry m1 l p a label Hg1 Hl Hp) as (m2 & -> & _).
  cbn [mbind Er_bind]. by exists m2.
Qed.

(** No handler passes anything on to the switch pinger. *)
Definition not_pinger (o : CHOut) : Prop := match o with ToSwitchPinger _ => False | _ => True end.
Definition answers (r : Er (list CHOut)) : Prop := exists outs, r = Ret outs /\ Forall not_pinger outs.

Lemma answers_nil : answers (Ret []).
Proof. by exists []. Qed.
Lemma answers_core m : answers (Ret [ToCore m]).
Proof. exists [ToCore m]. split; [done|]. by constructor. Qed.
#[local] Hint Resolve answers_nil answers_core : core.

Lemma answers_ctrl m l p a label : geometry m l p a -> a mod 2 = 0 -> 0 <= l -> RouteHeader_SIZE <= p ->
  answers (msg ← ctrl_checksum m; msg ← ctrl_routeHeader msg label; Ret [ToCore msg]).
Proof.
  intros. destruct (ctrl_answer_geometry m l p a label) as (m' & ->); [done..|]. apply answers_core.
Qed.

Lemma handleError_answers m l p a rh : geometry m l p a -> RouteHeader_SIZE <= p -> answers (handleError m rh).
Proof.
  intros Hg Hp. unfold handleError. destruct (_ <? _) eqn:E; [auto|].
  destruct (epush_geometry (set_msg_length m handleError_MIN_SIZE) handleError_MIN_SIZE p a
    (Some (rh_sh (RouteHeader_of rh))) SwitchHeader_SIZE) as (m1 & -> & Hg1); [eauto|sizes..|].
  cbn [mbind Er_bind].
  destruct (epush32be_geometry m1 _ _ _ 0xffffffff Hg1) as (m2 & -> & Hg2); [sizes..|]. cbn [mbind Er_bind].
  destruct (epush32be_geometry m2 _ _ _ PFChan_Core_SWITCH_ERR Hg2) as (m3 & -> & _); [sizes..|].
  cbn [mbind Er_bind]. exists [ToEvent m3]. split; [done|]. by constructor.
Qed.

Lemma handlePing_answers m l p a ch label type : geometry m l p a -> RouteHeader_SIZE <= p -> a mod 2 = 0 ->
  type = Control_KEYPING_be \/ type = Control_PING_be -> answers (handlePing m ch label type).
Proof.
  intros Hg Hp Ha Ht. unfold handlePing. destruct Hg as (Hl & Hg').
  destruct (Z.ltb_spec (msg_length m) handlePing_MIN_SIZE) as [|Hmin]; [auto|].
  rewrite Hl in Hmin.
  destruct (eshift_geometry m l p a (- Control_Header_SIZE)) as (m1 & -> & Hg1 & _);
    [by split|sizes..|]. cbn [mbind Er_bind].
  destruct (_ =? 0); [auto|].
  set (r := if type =? Control_KEYPING_be then _ else _).
  assert (exists reply, r = Ret reply /\
    forall m', reply = Some m' -> geometry m' (l + - Control_Header_SIZE) (p - - Control_Header_SIZE)
      (a - - Control_Header_SIZE)) as (reply & -> & Hreply).
  { unfold r. destruct Ht as [-> | ->].
    - rewrite Z.eqb_refl. do 3 (case_match; [by eexists|]).
      eexists. split; [done|]. intros m' [= <-]. eauto.
    - change (Control_PING_be =? Control_KEYPING_be) with false. cbv iota. rewrite Z.eqb_refl.
      case_match; [by eexists|]. eexists. split; [done|]. intros m' [= <-]. eauto. }
  cbn [mbind Er_bind]. destruct reply as [m2|]; [|auto]. specialize (Hreply m2 eq_refl).
  set (m3 := msg_write m2 _ _).
  destruct (eshift_geometry m3 _ _ _ Control_Header_SIZE (geometry_write _ _ _ _ _ _ Hreply))
    as (m4 & -> & Hg4 & _); [sizes..|]. cbn [mbind Er_bind].
  replace (l + - Control_Header_SIZE + Control_Header_SIZE) with l in Hg4 by lia.
  replace (p - - Control_Header_SIZE - Control_Header_SIZE) with p in Hg4 by lia.
  replace (a - - Control_Header_SIZE - Control_Header_SIZE) with a in Hg4 by lia.
  apply (answers_ctrl m4 l p a); [done|done|sizes|done].
Qed.

Lemma handleRPathQuery_answers m l p a label : geometry m l p a -> RouteHeader_SIZE <= p -> a mod 2 = 0 ->
  0 <= l -> answers (handleRPathQuery m label).
Proof.
  intros Hg Hp Ha Hl. unfold handleRPathQuery. destruct (_ <? _); [auto|]. destruct (negb _); [auto|].
  apply (answers_ctrl _ l p a); [eauto|done..].
Qed.

Lemma handleGetSnodeQuery_answers m l p a ch label : geometry m l p a -> RouteHeader_SIZE <= p -> a mod 2 = 0 ->
  0 <= l -> answers (handleGetSnodeQuery m ch label).
Proof.
  intros Hg Hp Ha Hl. unfold handleGetSnodeQuery. destruct (_ <? _); [auto|]. destruct (negb _); [auto|].
  destruct (_ =? 0); [auto|]. apply (answers_ctrl _ l p a); [|done..].
  destruct (negb _); eauto.
Qed.

(** ** The control handler is safe *)

Definition ctrl_flag (rh : list Z) : Prop :=
  Z.land (rh_flags (RouteHeader_of rh)) RouteHeader_flags_CTRLMSG <> 0.

(** Either an answer which is not for the switch pinger, or the message itself on to
    the switch pinger, its type being that of a pong. *)
Lemma incomingFromCore_ret m a pre rh c post ch :
  msg_at m a pre (rh ++ c) post -> len rh = RouteHeader_SIZE -> 8 <= len pre -> a mod 2 = 0 -> ctrl_flag rh ->
  exists outs, incomingFromCore m ch = Ret outs /\
    (Forall not_pinger outs \/
     exists m', outs = [ToSwitchPinger m'] /\ msg_at m' a pre (rh ++ c) post /\ 8 <= len c /\
       (le_val (rd 2 2 c) = Control_PONG_be \/ le_val (rd 2 2 c) = Control_KEYPONG_be)).
Proof.
  intros Hm Hrh Hpre Ha Hflag. unfold incomingFromCore.
  destruct (at_epop m a pre rh c post _ Hm (eq_sym Hrh)) as (m1 & -> & Hm1). cbn [mbind Er_bind].
  destruct (at_content _ _ _ _ _ Hm1) as [Hc Hl]. rewrite Hl.
  assert (forall r, answers r -> exists outs, r = Ret outs /\ (Forall not_pinger outs \/
     exists m', outs = [ToSwitchPinger m'] /\ msg_at m' a pre (rh ++ c) post /\ 8 <= len c /\
       (le_val (rd 2 2 c) = Control_PONG_be \/ le_val (rd 2 2 c) = Control_KEYPONG_be))) as Hans.
  { intros r (outs & -> & Ho). exists outs. split; [done|]. by left. }
  destruct (Z.ltb_spec (len c) (4 + Control_Header_SIZE)) as [|Hlen]; [apply Hans; auto|].
  unfold ctrl_flag in Hflag. rewrite (proj2 (Z.eqb_neq _ _) Hflag). cbn [negb Assert_true mbind Er_bind].
  pose proof (at_geometry _ _ _ _ _ Hm1) as Hg. pose proof Hg as (_ & _ & Hpos).
  assert ((a + RouteHeader_SIZE) mod 2 = 0) as Ha'.
  { rewrite Z.add_mod, Ha by lia. done. }
  assert (RouteHeader_SIZE <= len (pre ++ rh)) as Hp by (rewrite length_app; sizes).
  rewrite Hpos. destruct (checksum_ret (a + RouteHeader_SIZE) (msg_content m1) (len c) Ha') as (ck & ->).
  cbn [mbind Er_bind]. destruct (negb (ck =? 0)); [apply Hans; auto|].
  assert (ctrl_type_be m1 = le_val (rd 2 2 c)) as ->.
  { unfold ctrl_type_be. f_equal. destruct Hm1 as [Hv _]. eapply msg_read_sub; [done|sizes..]. }
  set (type := le_val (rd 2 2 c)).
  destruct (Z.eqb_spec type Control_ERROR_be); [eapply Hans, handleError_answers; eauto|].
  destruct (Z.eqb_spec type Control_KEYPING_be) as [Ek|]; [eapply Hans, handlePing_answers; eauto|].
  destruct (Z.eqb_spec type Control_PING_be) as [Ep|]; [eapply Hans, handlePing_answers; eauto|]. cbn [orb].
  destruct ((type =? Control_KEYPONG_be) || (type =? Control_PONG_be)) eqn:Epong.
  { rewrite <- Hrh. destruct (at_epush m1 (a + RouteHeader_SIZE) pre rh c post rh Hm1 eq_refl) as (m2 & -> & Hm2).
    cbn [mbind Er_bind]. exists [ToSwitchPinger m2]. split; [done|]. right. exists m2. split; [done|].
    replace (a + RouteHeader_SIZE - len rh) with a in Hm2 by lia. split; [done|]. split; [sizes|].
    apply orb_true_iff in Epong as [E|E]; apply Z.eqb_eq in E; auto. }
  destruct (type =? Control_GETSNODE_QUERY_be); [eapply Hans, handleGetSnodeQuery_answers; eauto; sizes|].
  destruct ((type =? Control_GETSNODE_REPLY_be) || (type =? Control_RPATH_REPLY_be)).
  { destruct (epush_geometry m1 _ _ _ (Some rh) RouteHeader_SIZE Hg) as (m2 & -> & Hg2); [sizes..|].
    rewrite length_app in Hg2. cbn [mbind Er_bind].
    destruct (epush32be_geometry m2 _ _ _ 0xffffffff Hg2) as (m3 & -> & Hg3); [sizes..|]. cbn [mbind Er_bind].
    destruct (epush32be_geometry m3 _ _ _ PFChan_Core_CTRL_MSG Hg3) as (m4 & -> & _); [sizes..|].
    cbn [mbind Er_bind]. apply Hans. exists [ToEvent m4]. split; [done|]. by constructor. }
  destruct (type =? Control_RPATH_QUERY_be); [eapply Hans, handleRPathQuery_answers; eauto; lia|].
  apply Hans. auto.
Qed.

(** ** The switch pinger is safe *)

(** What the pinger sends for a ping: its handle, its cookie and the user's data. *)
Definition ping_data (p : Ping SwitchPing) (c : SwitchPing) : list Z :=
  le_bytes 4 (pg_handle p) ++ le_bytes 8 (pg_cookie p) ++ default [] (sp_data c).

(** The pinger's invariant, every ping has its context, and the counter counts the
    live pings. *)
Definition sw_ok (ctx : SwitchPinger) : Prop :=
  pinger_ok (s_pinger ctx) /\
  (forall ptr p, pings (s_pinger ctx) !! ptr = Some p ->
     exists c, pg_context p = Some c /\ pg_data p = ping_data p c /\
       bytes (default [] (sp_data c)) /\ len (default [] (sp_data c)) <= Control_Ping_MAX_SIZE) /\
  s_outstandingPings ctx = Z.of_nat (size (pings (s_pinger ctx))).

Lemma sw_ok_new rand addr : fits 32 rand -> sw_ok (SwitchPinger_new rand addr).
Proof.
  intros Hr. split; [by apply pinger_ok_new|]. split; [|done].
  intros ptr p Hp. cbn [SwitchPinger_new s_pinger Pinger_new pings] in Hp. by apply lookup_empty_Some in Hp.
Qed.

Lemma sw_ok_incoming ctx l v k a n r e : sw_ok ctx -> sw_ok (set_incoming ctx l v k a n r e).
Proof. done. Qed.

(** When the pinger ends a ping, the callback and the on-free job run. *)
Lemma run_outs_end malloc ctx P' ptr p (answer : option (option (list Z) * Z)) :
  sw_ok ctx -> pings (s_pinger ctx) !! ptr = Some p ->
  pinger_ok P' -> pings P' = delete ptr (pings (s_pinger ctx)) ->
  let outs := match answer with
              | Some (data, ms) => [OnResponse ptr data ms (pg_context p); Freed ptr (pg_context p)]
              | None => [Freed ptr (pg_context p)]
              end in
  exists c ctx' r, pg_context p = Some c /\
    run_outs malloc (set_pinger ctx P') outs = Ret (ctx', r) /\ sw_ok ctx' /\
    r = match answer with
        | Some (data, ms) => [onPingResponse ctx data ms ptr c]
        | None => []
        end /\
    s_pinger ctx' = P' /\ s_incomingLabel ctx' = s_incomingLabel ctx.
Proof.
  intros (Hok & Hctx & Hcount) Hl Hok' Hd. cbn zeta. destruct (Hctx ptr p Hl) as (c & Hc & _). rewrite Hc.
  assert (size (pings (s_pinger ctx)) <> 0%nat) as Hs.
  { intros Hz. apply map_size_empty_inv in Hz. by rewrite Hz in Hl. }
  exists c. set (ctx' := set_outstanding (set_pinger ctx P') (s_outstandingPings ctx - 1)).
  assert (onPingFree (set_pinger ctx P') = Ret ctx') as Hfree.
  { unfold onPingFree. cbn [set_pinger set_outstanding s_outstandingPings].
    destruct (Z.geb_spec (s_outstandingPings ctx - 1) 0); [done|lia]. }
  exists ctx', (match answer with Some (data, ms) => [onPingResponse ctx data ms ptr c] | None => [] end).
  split; [done|]. split; [destruct answer as [[data ms]|]; cbn [run_outs]; rewrite Hfree; cbn [mbind Er_bind run_outs]; done|].
  split; [|done].
  split; [done|]. cbn [ctx' set_pinger set_outstanding s_pinger s_outstandingPings]. rewrite Hd. split.
  - intros ptr' p' [_ Hl']%lookup_delete_Some. by apply (Hctx ptr').
  - rewrite Hcount, map_size_delete, Hl. lia.
Qed.

Lemma pong_safe malloc ctx data time : sw_ok ctx ->
  exists pinger outs ctx' r, Pinger_pongReceived data (s_pinger ctx) time = Ret (pinger, outs) /\
    run_outs malloc (set_pinger ctx pinger) outs = Ret (ctx', r) /\ sw_ok ctx'.
Proof.
  intros Hok. destruct (pongReceived_spec (s_pinger ctx) data time (proj1 Hok))
    as (P' & outs & -> & Hok' & _ & [[-> ->]|(ptr & p & d & Hl & _ & -> & Hd)]).
  - exists (s_pinger ctx), [], (set_pinger ctx (s_pinger ctx)), []. by destruct ctx.
  - destruct (run_outs_end malloc ctx P' ptr p (Some (Some d, u32 (u32 time - pg_timeSent p))) Hok Hl Hok' Hd)
      as (c & ctx' & r & _ & E & Hok2 & _). by eexists _, _, ctx', r.
Qed.

(** Pongs: dropped or handed to the pinger. *)
Lemma readControl_pong {N : Nacl} ctx m a pre c post label :
  msg_at m a pre c post -> 8 <= len c ->
  le_val (rd 2 2 c) = Control_PONG_be \/ le_val (rd 2 2 c) = Control_KEYPONG_be ->
  exists l v k e r, readControl ctx m label = Ret (set_incoming ctx l v k Address_zero 0 0 e, r).
Proof.
  intros Hm Hl Ht. unfold readControl.
  assert (ctrl_type_be m = le_val (rd 2 2 c)) as ->.
  { unfold ctrl_type_be. f_equal. destruct Hm as [Hv _]. eapply msg_read_sub; [done|lia..]. }
  pose proof (at_geometry _ _ _ _ _ Hm) as Hg.
  destruct (eshift_geometry m (len c) (len pre) a (- Control_Header_SIZE) Hg) as (m1 & E1 & Hg1 & _); [sizes..|].
  destruct Ht as [-> | ->].
  - rewrite Z.eqb_refl, E1. cbn [mbind Er_bind]. pose proof Hg1 as (Hl1 & _).
    destruct (Z.geb_spec (msg_length m1) Control_Pong_MIN_SIZE); [|by repeat eexists].
    case_match; [by repeat eexists|].
    destruct (eshift_geometry m1 _ _ _ (- Control_Pong_HEADER_SIZE) Hg1) as (m2 & -> & _); [sizes..|].
    cbn [mbind Er_bind]. by repeat eexists.
  - change (Control_KEYPONG_be =? Control_PONG_be) with false. cbv iota. rewrite Z.eqb_refl, E1.
    cbn [mbind Er_bind]. pose proof Hg1 as (Hl1 & _).
    destruct (Z.geb_spec (msg_length m1) Control_KeyPong_HEADER_SIZE); cbn [andb]; [|by repeat eexists].
    destruct (_ <=? _); [|by repeat eexists]. case_match; [by repeat eexists|].
    destruct (eshift_geometry m1 _ _ _ (- Control_KeyPong_HEADER_SIZE) Hg1) as (m2 & -> & _); [sizes..|].
    cbn [mbind Er_bind]. by repeat eexists.
Qed.

Lemma pong_from_handler_safe {N : Nacl} malloc ctx m a pre rh c post time :
  sw_ok ctx -> msg_at m a pre (rh ++ c) post -> len rh = RouteHeader_SIZE -> 8 <= len c ->
  le_val (rd 2 2 c) = Control_PONG_be \/ le_val (rd 2 2 c) = Control_KEYPONG_be ->
  exists ctx' r, messageFromControlHandler malloc ctx m time = Ret (ctx', r) /\ sw_ok ctx'.
Proof.
  intros Hok Hm Hrh Hl Ht. unfold messageFromControlHandler.
  destruct (at_epop m a pre rh c post _ Hm (eq_sym Hrh)) as (m1 & -> & Hm1). cbn [mbind Er_bind].
  set (label := Endian_bigEndianToHost64 _).
  destruct (readControl_pong ctx m1 _ _ _ _ label Hm1 Hl Ht) as (l & v & k & e & r & ->). cbn [mbind Er_bind].
  set (ctx1 := set_incoming ctx l v k Address_zero 0 0 e).
  assert (sw_ok ctx1) as Hok1 by exact Hok.
  destruct r as [m2|]; [|by eexists _, _].
  destruct (pong_safe malloc ctx1 (msg_content m2) time Hok1) as (P' & outs & ctx' & r & -> & Hrun & Hok').
  cbn [mbind Er_bind]. rewrite Hrun. cbn [mbind Er_bind]. by eexists _, _.
Qed.

(** What users and the event loop do to the switch pinger keeps the invariant. *)
Lemma newPing_ok ctx label data user ptr time cookie ctx' :
  sw_ok ctx -> pings (s_pinger ctx) !! ptr = None -> fits 64 cookie ->
  map_nextHandle (outstandingPings (s_pinger ctx)) < 2 ^ 32 - 1 ->
  map_count (outstandingPings (s_pinger ctx)) < 2 ^ 31 - 1 -> bytes (default [] data) ->
  SwitchPinger_newPing ctx label data user ptr time cookie = Some ctx' -> sw_ok ctx'.
Proof.
  intros (Hok & Hctx & Hcount) Hfresh Hc Hh Hn Hb. unfold SwitchPinger_newPing.
  destruct (match data with Some _ => _ | None => _ end) eqn:Hlen; [done|].
  assert (len (default [] data) <= Control_Ping_MAX_SIZE) as Hmax.
  { destruct data as [d|]; [|done]. destruct (Z.gtb_spec (len d) Control_Ping_MAX_SIZE); [done|done]. }
  destruct (_ >? _); [done|]. intros [= <-].
  pose proof (newPing_spec (s_pinger ctx) data ptr time cookie Hok Hfresh Hc Hh Hn) as (Hok' & _ & Hp).
  split; [by apply set_context_ok|].
  cbn [set_pinger set_outstanding s_pinger set_context set_pings pings s_outstandingPings]. split.
  - intros ptr' p'. rewrite lookup_alter_Some, Hp. intros [(<- & p & Hl & ->)|[Hne Hl]].
    { rewrite lookup_insert_eq in Hl. injection Hl as <-. eexists. split; [done|]. by split. }
    rewrite lookup_insert_ne in Hl by done. by apply (Hctx ptr').
  - rewrite Hp, alter_insert_eq, map_size_insert_None by done. lia.
Qed.

(** ** Writing a ping *)

Definition version_bytes : list Z := be_bytes 4 Version_CURRENT_PROTOCOL.

(** The headers of the kinds of pings. *)
Definition ping_head (ctx : SwitchPinger) (p : SwitchPing) : list (list Z) :=
  match sp_type p with
  | Type_PING => [le_bytes 4 Control_Ping_MAGIC; version_bytes]
  | Type_KEYPING => [le_bytes 4 Control_KeyPing_MAGIC; version_bytes; key (s_myAddr ctx)]
  | Type_GETSNODE =>
      [le_bytes 4 Control_GETSNODE_QUERY_MAGIC; version_bytes; be_bytes 4 (protocolVersion (sp_snode p));
       be_bytes 4 (sp_kbpsLimit p); key (sp_snode p); be_bytes 8 (path (sp_snode p))]
  | Type_RPATH => [le_bytes 4 Control_RPATH_QUERY_MAGIC; version_bytes; be_bytes 8 (sp_label p)]
  end.

Definition ping_type (p : SwitchPing) : Z :=
  match sp_type p with
  | Type_PING => Control_PING_be | Type_KEYPING => Control_KEYPING_be
  | Type_GETSNODE => Control_GETSNODE_QUERY_be | Type_RPATH => Control_RPATH_QUERY_be
  end.

Definition ping_wf (ctx : SwitchPinger) (p : SwitchPing) : Prop :=
  length (key (s_myAddr ctx)) = 32%nat /\ bytes (key (s_myAddr ctx)) /\
  length (key (sp_snode p)) = 32%nat /\ bytes (key (sp_snode p)) /\ fits 64 (path (sp_snode p)) /\
  fits 32 (protocolVersion (sp_snode p)) /\ fits 32 (sp_kbpsLimit p) /\ fits 64 (sp_label p).

Lemma le_version : le_bytes 4 (Endian_hostToBigEndian32 Version_CURRENT_PROTOCOL) = version_bytes.
Proof. by apply be32_bytes. Qed.

Lemma ping_header_view ctx p m a pre data post :
  ping_wf ctx p -> msg_at m a pre data post -> 56 <= len pre ->
  exists m' pre', ping_header ctx p m = Ret (m', ping_type p) /\
    len pre' = len pre - len (concat (ping_head ctx p)) /\
    msg_at m' (a - len (concat (ping_head ctx p))) pre' (concat (ping_head ctx p ++ [data])) post.
Proof.
  intros (Hk & _ & Hsk & _ & Hpath & Hver & Hkbps & Hlabel) Hm Hpre.
  unfold ping_header, ping_type, ping_head. rewrite !le_version, !be32_bytes, !be64_bytes by done.
  rewrite !take_ge by lia.
  assert (forall n, 0 <= n <= 56 -> exists pre' m', len pre' = len pre - n /\
    Message_epush m None n = Ret m' /\ msg_at m' (a - n) pre' (zeros n ++ data) post) as Hpush.
  { intros n Hn. destruct (split_room pre n ltac:(lia)) as (pre' & room & -> & Hr & Hp').
    destruct (at_epush_zeros m a pre' room data post n Hm Hr) as (m' & E & Hm'). by exists pre', m'. }
  assert (forall (head : list (list Z)) n, len (concat head) = n -> 0 <= n <= 56 ->
    exists (pre' : list Z) m', Message_epush m None n = Ret m' /\
    len pre' = len pre - len (concat head) /\
    msg_at m' (a - len (concat head)) pre' (zeros n ++ data) post) as Hhead.
  { intros head n Hn Hb. destruct (Hpush n Hb) as (pre' & m' & H1 & H2 & H3). rewrite Hn. by exists pre', m'. }
  set (g := be_bytes 4). set (h := be_bytes 8). destruct (sp_type p).
  - destruct (Hhead [le_bytes 4 Control_Ping_MAGIC; version_bytes] Control_Ping_HEADER_SIZE) as (pre' & m1 & -> & Hp' & Hm1);
      [done..|]. cbn [mbind Er_bind]. eexists _, pre'. split; [done|]. split; [done|].
    apply (at_write_chunk _ _ _ [le_bytes 4 Control_Ping_MAGIC] (zeros 4) [data]); [|done..].
    apply (at_write_chunk _ _ _ [] (zeros 4) [zeros 4; data]); [|done..].
    cbn [concat app]. rewrite (app_nil_r data). exact Hm1.
  - destruct (Hhead [le_bytes 4 Control_KeyPing_MAGIC; version_bytes; key (s_myAddr ctx)] Control_KeyPing_HEADER_SIZE)
      as (pre' & m1 & -> & Hp' & Hm1);
      [cbn [concat]; rewrite !length_app, Hk; done|done|]. cbn [mbind Er_bind].
    eexists _, pre'. split; [done|]. split; [done|].
    apply (at_write_chunk _ _ _ [le_bytes 4 Control_KeyPing_MAGIC; version_bytes] (zeros 32) [data]); [|done..].
    apply (at_write_chunk _ _ _ [le_bytes 4 Control_KeyPing_MAGIC] (zeros 4) [zeros 32; data]); [|done..].
    apply (at_write_chunk _ _ _ [] (zeros 4) [zeros 4; zeros 32; data]); [|done..].
    cbn [concat app]. rewrite (app_nil_r data). exact Hm1.
  - set (snode := sp_snode p) in *.
    destruct (Hhead [le_bytes 4 Control_GETSNODE_QUERY_MAGIC; version_bytes; g (protocolVersion snode);
      g (sp_kbpsLimit p); key snode; h (path snode)] Control_GetSnode_HEADER_SIZE) as (pre' & m1 & -> & Hp' & Hm1);
      [cbn [concat]; unfold g, h; rewrite !length_app, Hsk, !length_be_bytes; done|done|]. cbn [mbind Er_bind].
    eexists _, pre'. split; [done|]. split; [done|].
    assert (forall x, length (g x) = 4%nat) as Hg by apply length_be_bytes.
    assert (forall x, length (h x) = 8%nat) as Hh by apply length_be_bytes.
    set (A := le_bytes 4 Control_GETSNODE_QUERY_MAGIC).
    apply (at_write_chunk _ _ _ [A; version_bytes] (zeros 4)
             [g (sp_kbpsLimit p); key snode; h (path snode); data]); [|done..].
    apply (at_write_chunk _ _ _ [A; version_bytes; zeros 4; g (sp_kbpsLimit p); key snode] (zeros 8) [data]);
      [|done|cbn [concat]; rewrite !length_app, Hg, Hsk; done].
    apply (at_write_chunk _ _ _ [A; version_bytes; zeros 4; g (sp_kbpsLimit p)] (zeros 32) [zeros 8; data]);
      [|done|cbn [concat]; rewrite !length_app, Hg; done].
    apply (at_write_chunk _ _ _ [A; version_bytes; zeros 4] (zeros 4) [zeros 32; zeros 8; data]); [|done..].
    apply (at_write_chunk _ _ _ [A] (zeros 4) [zeros 4; zeros 4; zeros 32; zeros 8; data]); [|done..].
    apply (at_write_chunk _ _ _ [] (zeros 4) [zeros 4; zeros 4; zeros 4; zeros 32; zeros 8; data]); [|done..].
    cbn [concat app]. rewrite (app_nil_r data). exact Hm1.
  - destruct (Hhead [le_bytes 4 Control_RPATH_QUERY_MAGIC; version_bytes; h (sp_label p)] Control_RPath_HEADER_SIZE)
      as (pre' & m1 & -> & Hp' & Hm1);
      [cbn [concat]; unfold h; rewrite !length_app, length_be_bytes; done|done|]. cbn [mbind Er_bind].
    eexists _, pre'. split; [done|]. split; [done|].
    apply (at_write_chunk _ _ _ [le_bytes 4 Control_RPATH_QUERY_MAGIC; version_bytes] (zeros 8) [data]);
      [|unfold h; by rewrite length_be_bytes|done].
    apply (at_write_chunk _ _ _ [le_bytes 4 Control_RPATH_QUERY_MAGIC] (zeros 4) [zeros 8; data]); [|done..].
    apply (at_write_chunk _ _ _ [] (zeros 4) [zeros 4; zeros 8; data]); [|done..].
    cbn [concat app]. rewrite (app_nil_r data). exact Hm1.
Qed.

Lemma ctrl_checksum_at m a pre c0 t post :
  msg_at m a pre (c0 ++ t) post -> length c0 = 2%nat -> bytes t -> 2 + len t <= 65535 -> a mod 2 = 0 ->
  exists m' ck, ctrl_checksum m = Ret m' /\ fits 16 ck /\ verifies (le_bytes 2 ck ++ t) /\
    msg_at m' a pre (le_bytes 2 ck ++ t) post.
Proof.
  intros Hm Hc0 Ht Hlen Ha. unfold ctrl_checksum.
  pose proof (at_write m a pre [] c0 t post 0 (le_bytes 2 0) Hm ltac:(by rewrite Hc0) eq_refl) as Hm1.
  destruct (at_content _ _ _ _ _ Hm1) as [Hc Hl]. rewrite Hc, Hl, (proj2 Hm1).
  destruct (engine_field a [] t Ha) as (ck & Hck & E & Hv); [done|done|done| |].
  { unfold with_field. cbn [app]. rewrite length_app, length_le_bytes. lia. }
  unfold with_field in E, Hv. cbn [app] in E, Hv. cbn [app]. rewrite E. cbn [mbind Er_bind].
  eexists _, ck. split; [done|]. split; [done|]. split; [exact Hv|].
  by apply (at_write _ a pre [] (le_bytes 2 0) t post 0 (le_bytes 2 ck) Hm1).
Qed.

(** The route header in front of control packets. *)
Definition ctrl_route (label : Z) : list Z :=
  RouteHeader_bytes (mkRouteHeader (zeros 32)
    (SwitchHeader_bytes (mkSwitchHeader (Endian_hostToBigEndian64 label) 0 64 0))
    0 RouteHeader_flags_CTRLMSG 0 0 (zeros 16)).

Lemma ctrl_route_length label : len (ctrl_route label) = RouteHeader_SIZE.
Proof. unfold ctrl_route. by rewrite RouteHeader_length by done. Qed.

(** Up to three bytes of alignment. *)
Lemma sendPing_align_at fuel : forall m a pre room c post n k,
  msg_at m a (pre ++ room) c post -> len room = k -> k = (a - n) mod 4 -> k < Z.of_nat fuel ->
  exists m', sendPing_align fuel m n = Ret m' /\ msg_at m' (a - k) pre (zeros k ++ c) post.
Proof.
  induction fuel as [|fuel IH]; intros m a pre room c post n k Hm Hr Hk Hf; [pose proof (Z.mod_pos_bound (a - n) 4); lia|].
  cbn [sendPing_align]. rewrite (proj2 Hm), <- Hk. destruct (Z.eqb_spec k 0) as [->|Hk0]; cbn [negb].
  - destruct room; [|cbn in Hr; lia]. rewrite app_nil_r in Hm. exists m. split; [done|]. by rewrite Z.sub_0_r.
  - destruct room as [|x room _] using rev_ind; [cbn in Hr; lia|]. rewrite length_app in Hr. cbn [length] in Hr.
    rewrite app_assoc in Hm. destruct (at_epush m a (pre ++ room) [x] c post [0] Hm eq_refl) as (m1 & E & Hm1).
    unfold Message_epush8, Message_pushH. change (le_bytes 1 0) with [0]. change (Z.of_nat 1) with (len [0]).
    rewrite E. cbn [mbind Er_bind]. change (len [0]) with 1 in Hm1.
    destruct (IH m1 (a - 1) pre room ([0] ++ c) post n (k - 1) Hm1) as (m2 & -> & Hm2); [lia| |lia|].
    { pose proof (Z.div_mod (a - n) 4 ltac:(lia)). pose proof (Z.mod_pos_bound (a - n) 4 ltac:(lia)).
      apply (Z.mod_unique _ _ ((a - n) / 4)); lia. }
    exists m2. split; [done|]. replace (a - 1 - (k - 1)) with (a - k) in Hm2 by lia.
    replace (zeros k ++ c) with (zeros (k - 1) ++ [0] ++ c); [done|].
    unfold zeros. rewrite app_assoc. f_equal. replace (Z.to_nat k) with (Z.to_nat (k - 1) + 1)%nat by lia.
    by rewrite replicate_add.
Qed.

(** The packet of a ping, below the route header: its type, header and data. *)
Definition ping_packet (ctx : SwitchPinger) (p : SwitchPing) (data : list Z) (ck : Z) : list Z :=
  le_bytes 2 ck ++ le_bytes 2 (ping_type p) ++ concat (ping_head ctx p ++ [data]).

Lemma ping_head_bytes ctx p : ping_wf ctx p ->
  bytes (concat (ping_head ctx p)) /\ len (concat (ping_head ctx p)) <= 56.
Proof.
  intros (Hk & Hkb & Hsk & Hskb & _). unfold ping_head.
  assert (forall l : list (list Z), Forall (fun x => bytes x) l -> bytes (concat l)) as Hc.
  { induction 1; cbn [concat]; [done|]. by apply bytes_app. }
  split.
  - apply Hc. destruct (sp_type p);
      repeat (apply Forall_cons; split; [done || apply le_bytes_bytes || apply be_bytes_bytes|]);
      by apply Forall_nil.
  - destruct (sp_type p); cbn [concat]; rewrite !length_app, ?Hk, ?Hsk, ?length_be_bytes, ?length_le_bytes;
      unfold version_bytes; rewrite ?length_be_bytes; cbn [length]; lia.
Qed.

Lemma sendPing_at malloc ctx data p :
  malloc_ok malloc -> ping_wf ctx p -> bytes data -> len data <= 1000 ->
  exists m a pre post ck, sendPing malloc ctx data p = Ret (ToControlHandler m) /\
    msg_at m a pre (ctrl_route (sp_label p) ++ ping_packet ctx p data ck) post /\
    a mod 2 = 0 /\ 300 <= len pre /\ fits 16 ck /\ verifies (ping_packet ctx p data ck).
Proof.
  intros Hmal Hwf Hb Hlen. destruct (ping_head_bytes ctx p Hwf) as [Hhb Hhl]. unfold sendPing.
  pose proof (Message_new_view malloc (len data + 512) Hmal ltac:(lia)) as Hnew.
  pose proof (Hmal (len data + 512)) as Hroom.
  destruct (malloc (len data + 512)) as [addr mem]. cbn [fst snd] in *.
  set (m0 := Message_new 0 (len data + 512) addr mem) in *.
  set (a0 := msg_addr m0 + msg_bytes m0). assert (msg_at m0 a0 mem [] []) as Hm0 by done.
  set (k := (a0 - len data) mod 4). assert (0 <= k < 4) as Hk by (apply Z.mod_pos_bound; lia).
  destruct (split_room mem k ltac:(lia)) as (pre0 & room & -> & Hr & Hp0).
  destruct (sendPing_align_at 4 m0 a0 pre0 room [] [] (len data) k Hm0 Hr eq_refl ltac:(lia)) as (m1 & -> & Hm1).
  cbn [mbind Er_bind].
  pose proof (at_set_length m1 (a0 - k) pre0 [] (zeros k ++ []) [] 0 Hm1 eq_refl) as Hm2.
  destruct (split_room pre0 (len data) ltac:(lia)) as (pre1 & room1 & -> & Hr1 & Hp1).
  destruct (at_epush _ _ pre1 room1 _ _ data Hm2 ltac:(lia)) as (m3 & -> & Hm3). cbn [mbind Er_bind].
  rewrite app_nil_r in Hm3. rewrite (proj2 Hm3).
  assert ((a0 - k - len data) mod 4 = 0) as Ha4.
  { unfold k. replace (a0 - (a0 - len data) mod 4 - len data) with ((a0 - len data) - (a0 - len data) mod 4) by lia.
    rewrite Zminus_mod, Z.mod_mod, Z.sub_diag by lia. done. }
  rewrite Ha4. cbn [Z.eqb Assert_true mbind Er_bind].
  destruct (ping_header_view ctx p m3 _ pre1 data _ Hwf Hm3 ltac:(lia)) as (m4 & pre2 & -> & Hp2 & Hm4).
  cbn [mbind Er_bind].
  destruct (split_room pre2 4 ltac:(lia)) as (pre3 & room3 & -> & Hr3 & Hp3).
  destruct (at_shift_push m4 _ pre3 room3 _ _ Control_Header_SIZE Hm4 ltac:(sizes)) as (m5 & -> & Hm5).
  cbn [mbind Er_bind].
  destruct (list_split_at 2 room3 ltac:(lia)) as (r1 & r2 & -> & Hr1').
  assert (length r1 = 2%nat /\ length r2 = 2%nat) as [L1 L2] by (rewrite length_app in Hr3; lia).
  set (body := concat (ping_head ctx p ++ [data])) in *. rewrite <- app_assoc in Hm5.
  pose proof (at_write m5 _ pre3 [] r1 (r2 ++ body) _ 0 (le_bytes 2 0) Hm5 ltac:(by rewrite L1) eq_refl) as Hm6.
  pose proof (at_write _ _ pre3 (le_bytes 2 0) r2 body _ 2 (le_bytes 2 (ping_type p)) Hm6
                ltac:(by rewrite L2, length_le_bytes) eq_refl) as Hm7.
  assert (bytes body /\ len body <= 56 + len data) as [Hbb Hbl].
  { unfold body. rewrite concat_app. cbn [concat]. rewrite app_nil_r, length_app. split; [by apply bytes_app|lia]. }
  set (aa := a0 - k - len data - len (concat (ping_head ctx p)) - len (r1 ++ r2)) in *.
  assert (aa mod 2 = 0) as Haa.
  { assert (len (concat (ping_head ctx p)) mod 2 = 0) as Hev.
    { destruct Hwf as (W1 & _ & W2 & _). unfold ping_head.
      destruct (sp_type p); cbn [concat]; rewrite !length_app, ?W1, ?W2, ?length_be_bytes, ?length_le_bytes;
        unfold version_bytes; rewrite ?length_be_bytes; done. }
    unfold aa. rewrite Hr3. rewrite Zminus_mod, (Zminus_mod (a0 - k - len data)), Hev.
    replace ((a0 - k - len data) mod 2) with 0; [done|]. symmetry.
    apply Z.div_exact in Ha4; [|lia]. rewrite Ha4. replace (4 * ((a0 - k - len data) / 4)) with
      (2 * ((a0 - k - len data) / 4) * 2) by lia. by rewrite Z_mod_mult. }
  destruct (ctrl_checksum_at _ aa pre3 (le_bytes 2 0) (le_bytes 2 (ping_type p) ++ body) _ Hm7)
    as (m8 & ck & E8 & Hck & Hver & Hm8);
    [done|apply bytes_app; split; [apply le_bytes_bytes|done]|rewrite length_app, length_le_bytes; lia|done|].
  rewrite E8. cbn [mbind Er_bind].
  unfold SwitchHeader_setVersion. change (SwitchHeader_CURRENT_VERSION <? 4) with true. cbn [Assert_true mbind Er_bind].
  destruct (split_room pre3 RouteHeader_SIZE ltac:(sizes)) as (pre4 & room4 & -> & Hr4 & Hp4).
  pose proof (ctrl_route_length (sp_label p)) as Hcl.
  destruct (at_epush m8 aa pre4 room4 _ _ (ctrl_route (sp_label p)) Hm8 ltac:(lia)) as (m9 & E9 & Hm9).
  rewrite Hcl in E9, Hm9.
  eexists m9, _, pre4, _, ck. split.
  { change (RouteHeader_bytes _) with (ctrl_route (sp_label p)). by rewrite E9. }
  split; [exact Hm9|]. split; [|split; [sizes|by split]].
  rewrite Zminus_mod, Haa. done.
Qed.

(** ** Answering a ping *)

Lemma ctrl_routeHeader_at m a pre room c post label :
  msg_at m a (pre ++ room) c post -> len room = RouteHeader_SIZE ->
  exists m', ctrl_routeHeader m (Endian_hostToBigEndian64 label) = Ret m' /\
    msg_at m' (a - RouteHeader_SIZE) pre (ctrl_route label ++ c) post.
Proof.
  intros Hm Hr. unfold ctrl_routeHeader.
  destruct (at_shift_push m a pre room c post _ Hm (eq_sym Hr)) as (m1 & -> & Hm1). cbn [mbind Er_bind].
  rewrite Hr in Hm1.
  pose proof (at_write m1 _ pre [] room c post 0 (zeros RouteHeader_SIZE) Hm1) as Hm2.
  cbn [app] in Hm2. specialize (Hm2 ltac:(unfold zeros; rewrite length_replicate; lia) eq_refl).
  change (zeros RouteHeader_SIZE ++ c) with (concat ([zeros 32] ++ zeros 12 :: [zeros 4; [0]; zeros 19]) ++ c) in Hm2.
  set (m2 := msg_write m1 0 (zeros RouteHeader_SIZE)) in *.
  assert (msg_read m2 32 12 = zeros 12) as ->.
  { apply (at_read m2 (a - RouteHeader_SIZE) pre (zeros 32) (zeros 12) (zeros 4 ++ [0] ++ zeros 19 ++ c) post);
      [exact Hm2|done|done]. }
  change (SwitchHeader_setVersion (SwitchHeader_of (zeros 12)) SwitchHeader_CURRENT_VERSION)
    with (Ret (mkSwitchHeader 0 0 64 0)). cbn [mbind Er_bind].
  change (SwitchHeader_bytes (mkSwitchHeader 0 0 64 0)) with (zeros 8 ++ [0; 64; 0; 0]).
  pose proof (at_write m2 _ pre (zeros 32) (zeros 12) (zeros 4 ++ [0] ++ zeros 19 ++ c) post 32
                (zeros 8 ++ [0; 64; 0; 0]) Hm2 eq_refl eq_refl) as Hm3.
  set (m3 := msg_write m2 32 (zeros 8 ++ [0; 64; 0; 0])) in *. set (lb := Endian_hostToBigEndian64 label).
  pose proof (at_write m3 _ pre (zeros 32) (zeros 8) ([0; 64; 0; 0] ++ zeros 4 ++ [0] ++ zeros 19 ++ c) post 32
                (le_bytes 8 lb) Hm3 ltac:(by rewrite length_le_bytes) eq_refl) as Hm4.
  set (m4 := msg_write m3 32 (le_bytes 8 lb)) in *.
  pose proof (at_write m4 (a - RouteHeader_SIZE) pre (zeros 32 ++ le_bytes 8 lb ++ [0; 64; 0; 0] ++ zeros 4) [0] (zeros 19 ++ c) post 48
                [RouteHeader_flags_CTRLMSG]) as Hm5.
  assert (msg_read m4 48 1 = [0]) as ->.
  { apply (at_read m4 (a - RouteHeader_SIZE) pre (zeros 32 ++ le_bytes 8 lb ++ [0; 64; 0; 0] ++ zeros 4) [0] (zeros 19 ++ c) post);
      [exact Hm4|done|done]. }
  eexists. split; [done|]. exact (Hm5 Hm4 eq_refl eq_refl).
Qed.

Definition ctrl_packet (ck type : Z) (body : list Z) : list Z := le_bytes 2 ck ++ le_bytes 2 type ++ body.

(** The answer's end: version, checksum, route header. *)
Lemma answer_tail m a pre room c0 type mg v rest post label :
  msg_at m (a + 4) ((pre ++ room) ++ c0 ++ le_bytes 2 type) (mg ++ v ++ rest) post ->
  len room = RouteHeader_SIZE -> length c0 = 2%nat -> length mg = 4%nat -> length v = 4%nat ->
  bytes mg -> bytes rest -> len rest <= 60000 -> a mod 2 = 0 ->
  exists m' ck,
    (let msg := msg_write m 4 (le_bytes 4 (Endian_hostToBigEndian32 Version_CURRENT_PROTOCOL)) in
     msg ← Message_eshift msg Control_Header_SIZE;
     msg ← ctrl_checksum msg;
     msg ← ctrl_routeHeader msg (Endian_hostToBigEndian64 label);
     Ret [ToCore msg]) = Ret [ToCore m'] /\ fits 16 ck /\
    verifies (ctrl_packet ck type (mg ++ version_bytes ++ rest)) /\
    msg_at m' (a - RouteHeader_SIZE) pre
      (ctrl_route label ++ ctrl_packet ck type (mg ++ version_bytes ++ rest)) post.
Proof.
  intros Hm Hr Hc0 Hmg Hv Hmgb Hrb Hlen Ha. cbn zeta. rewrite le_version.
  pose proof (at_write m _ _ mg v rest post 4 version_bytes Hm ltac:(by rewrite Hv) ltac:(by rewrite Hmg)) as Hm1.
  assert (len (c0 ++ le_bytes 2 type) = 4) as Hl4 by (rewrite length_app, length_le_bytes; lia).
  destruct (at_shift_push _ _ _ _ _ _ Control_Header_SIZE Hm1 ltac:(by rewrite Hl4)) as (m2 & -> & Hm2).
  cbn [mbind Er_bind]. rewrite Hl4 in Hm2. replace (a + 4 - 4) with a in Hm2 by lia. rewrite <- app_assoc in Hm2.
  destruct (ctrl_checksum_at m2 a (pre ++ room) c0 _ post Hm2 Hc0) as (m3 & ck & -> & Hck & Hver & Hm3);
    [|rewrite !length_app, length_le_bytes; unfold version_bytes; rewrite length_be_bytes; lia|done|].
  { apply bytes_app; split; [apply le_bytes_bytes|]. apply bytes_app; split; [done|].
    apply bytes_app; split; [apply be_bytes_bytes|done]. }
  cbn [mbind Er_bind].
  destruct (ctrl_routeHeader_at m3 a pre room _ post label Hm3 Hr) as (m4 & -> & Hm4). cbn [mbind Er_bind].
  by exists m4, ck.
Qed.

Lemma own_version_compatible :
  (Version_isCompatible Version_CURRENT_PROTOCOL (Endian_bigEndianToHost32 (le_val version_bytes)) =? 0) = false.
Proof. reflexivity. Qed.

(** What a node answers: the other magic, its version, and its key to a key ping. *)
Definition is_ping (t : SwitchPinger_Type) : Prop := t = Type_PING \/ t = Type_KEYPING.
Definition pong_type (t : SwitchPinger_Type) : Z :=
  match t with Type_KEYPING => Control_KEYPONG_be | _ => Control_PONG_be end.
Definition pong_body (t : SwitchPinger_Type) (key data : list Z) : list Z :=
  match t with
  | Type_KEYPING => le_bytes 4 Control_KeyPong_MAGIC ++ version_bytes ++ key ++ data
  | _ => le_bytes 4 Control_Pong_MAGIC ++ version_bytes ++ data
  end.

Lemma handlePing_at m a pre room ck ctx p data post ch label :
  msg_at m a (pre ++ room) (ping_packet ctx p data ck) post -> len room = RouteHeader_SIZE ->
  is_ping (sp_type p) -> ping_wf ctx p -> bytes data -> len data <= 1000 ->
  (sp_type p = Type_KEYPING -> len data <= 64) -> a mod 2 = 0 ->
  length (ch_myPublicKey ch) = 32%nat -> bytes (ch_myPublicKey ch) ->
  exists m' ck', handlePing m ch label (ping_type p) = Ret [ToCore m'] /\ fits 16 ck' /\
    let packet := ctrl_packet ck' (pong_type (sp_type p)) (pong_body (sp_type p) (ch_myPublicKey ch) data) in
    verifies packet /\ msg_at m' (a - RouteHeader_SIZE) pre (ctrl_route label ++ packet) post.
Proof.
  intros Hm Hr Hp (Hk & Hkb & _) Hb Hlen Hkp Ha Hck Hckb. unfold handlePing.
  destruct (at_content _ _ _ _ _ Hm) as [_ Hl]. rewrite Hl. clear Hl.
  unfold ping_packet, ping_head, ping_type in *.
  assert (forall t, length (le_bytes 2 ck ++ le_bytes 2 t) = 4%nat) as L4
    by (intros; by rewrite length_app, !length_le_bytes).
  destruct Hp as [E|E]; rewrite E in *; clear E; cbn [app concat pong_type pong_body] in *;
    rewrite app_nil_r, app_assoc in Hm; rewrite !length_app, !length_le_bytes.
  - rewrite (proj2 (Z.ltb_ge _ _)) by (unfold version_bytes; rewrite length_be_bytes; sizes).
    destruct (at_shift_pop m a _ _ _ post (- Control_Header_SIZE) Hm ltac:(by rewrite L4)) as (m1 & -> & Hm1).
    rewrite L4 in Hm1. cbn [mbind Er_bind].
    rewrite (at_read m1 _ _ _ version_bytes data post 4 4 Hm1 eq_refl eq_refl), own_version_compatible.
    change (Control_PING_be =? Control_KEYPING_be) with false. cbv iota. rewrite Z.eqb_refl.
    rewrite (at_read m1 _ _ [] _ (version_bytes ++ data) post 0 4 Hm1 eq_refl eq_refl).
    change (le_val (le_bytes 4 Control_Ping_MAGIC)) with Control_Ping_MAGIC. rewrite Z.eqb_refl. cbn [negb mbind Er_bind].
    pose proof (at_write m1 _ _ [] _ (version_bytes ++ data) post 0 (le_bytes 4 Control_Pong_MAGIC) Hm1 eq_refl eq_refl) as Hm2.
    rewrite app_assoc in Hm2.
    pose proof (at_write_front _ _ _ _ _ _ (-2) (le_bytes 2 Control_PONG_be) Hm2 eq_refl eq_refl) as Hm3.
    rewrite <- app_assoc in Hm3.
    apply (answer_tail _ a pre room (le_bytes 2 ck) Control_PONG_be _ version_bytes data post label Hm3);
      done || lia || apply le_bytes_bytes.
  - specialize (Hkp eq_refl).
    rewrite (proj2 (Z.ltb_ge _ _)) by (unfold version_bytes; rewrite length_be_bytes, Hk; sizes).
    destruct (at_shift_pop m a _ _ _ post (- Control_Header_SIZE) Hm ltac:(by rewrite L4)) as (m1 & -> & Hm1).
    rewrite L4 in Hm1. cbn [mbind Er_bind].
    rewrite (at_read m1 _ _ _ version_bytes _ post 4 4 Hm1 eq_refl eq_refl), own_version_compatible.
    rewrite Z.eqb_refl. destruct (at_content _ _ _ _ _ Hm1) as [_ Hl1].
    assert (msg_length m1 = 40 + len data) as ->.
    { rewrite Hl1, !length_app, length_le_bytes, Hk. unfold version_bytes. rewrite length_be_bytes. lia. }
    rewrite (proj2 (Z.ltb_ge _ _)) by sizes.
    destruct (Z.gtb_spec (40 + len data) Control_KeyPing_MAX_SIZE) as [Hgt|_];
      [unfold Control_KeyPing_MAX_SIZE in Hgt; sizes|].
    rewrite (at_read m1 _ _ [] _ (version_bytes ++ key (s_myAddr ctx) ++ data) post 0 4 Hm1 eq_refl eq_refl).
    change (le_val (le_bytes 4 Control_KeyPing_MAGIC)) with Control_KeyPing_MAGIC. rewrite Z.eqb_refl. cbn [negb mbind Er_bind].
    pose proof (at_write m1 _ _ [] _ (version_bytes ++ key (s_myAddr ctx) ++ data) post 0
                  (le_bytes 4 Control_KeyPong_MAGIC) Hm1 eq_refl eq_refl) as Hm2.
    rewrite app_assoc in Hm2.
    pose proof (at_write_front _ _ _ _ _ _ (-2) (le_bytes 2 Control_KEYPONG_be) Hm2 eq_refl eq_refl) as Hm3.
    rewrite <- app_assoc in Hm3. cbn [app] in Hm3. rewrite (app_assoc (le_bytes 4 _)) in Hm3.
    rewrite take_ge by lia.
    pose proof (at_write _ _ _ (le_bytes 4 Control_KeyPong_MAGIC ++ version_bytes) (key (s_myAddr ctx)) data post 8
                  (ch_myPublicKey ch) Hm3 ltac:(lia) eq_refl) as Hm4.
    rewrite <- (app_assoc (le_bytes 4 _)) in Hm4.
    apply (answer_tail _ a pre room (le_bytes 2 ck) Control_KEYPONG_be _ version_bytes (ch_myPublicKey ch ++ data) post label Hm4);
      try (done || apply le_bytes_bytes); [by apply bytes_app|rewrite length_app; lia].
Qed.

(** ** From one end to the other *)

Definition rh_label (rh : list Z) : Z :=
  Endian_bigEndianToHost64 (label_be (SwitchHeader_of (rh_sh (RouteHeader_of rh)))).

(** A control packet arrives: from the core, under the route header [rh]. *)
Definition arrives (m : Message) (a : Z) (pre rh packet post : list Z) : Prop :=
  msg_at m a pre (rh ++ packet) post /\ len rh = RouteHeader_SIZE /\ ctrl_flag rh /\ a mod 2 = 0.

Lemma ctrl_packet_type ck t body : fits 16 t -> le_val (rd 2 2 (ctrl_packet ck t body)) = t.
Proof.
  intros Ht. unfold ctrl_packet. rewrite rd_of_app by (by rewrite length_le_bytes).
  rewrite le_val_bytes. by apply fits_small.
Qed.

(** The checks in front of the handlers. *)
Lemma incoming_dispatch m a pre rh ck t body post ch :
  arrives m a pre rh (ctrl_packet ck t body) post -> verifies (ctrl_packet ck t body) -> fits 16 t ->
  4 <= len body ->
  exists m1, msg_at m1 (a + RouteHeader_SIZE) (pre ++ rh) (ctrl_packet ck t body) post /\
    incomingFromCore m ch =
      (if t =? Control_ERROR_be then handleError m1 rh
       else if (t =? Control_KEYPING_be) || (t =? Control_PING_be) then handlePing m1 ch (rh_label rh) t
       else if (t =? Control_KEYPONG_be) || (t =? Control_PONG_be) then
         msg ← Message_epush m1 (Some rh) RouteHeader_SIZE; Ret [ToSwitchPinger msg]
       else if t =? Control_GETSNODE_QUERY_be then handleGetSnodeQuery m1 ch (rh_label rh)
       else if (t =? Control_GETSNODE_REPLY_be) || (t =? Control_RPATH_REPLY_be) then
         msg ← Message_epush m1 (Some rh) RouteHeader_SIZE;
         msg ← Message_epush32be msg 0xffffffff;
         msg ← Message_epush32be msg PFChan_Core_CTRL_MSG; Ret [ToEvent msg]
       else if t =? Control_RPATH_QUERY_be then handleRPathQuery m1 (rh_label rh)
       else Ret []).
Proof.
  intros (Hm & Hrh & Hflag & Ha) Hver Ht Hb. unfold incomingFromCore.
  destruct (at_epop m a pre rh _ post _ Hm (eq_sym Hrh)) as (m1 & -> & Hm1). cbn [mbind Er_bind].
  exists m1. split; [done|]. destruct (at_content _ _ _ _ _ Hm1) as [Hc Hl]. rewrite Hl.
  assert (8 <= len (ctrl_packet ck t body)) as H8.
  { unfold ctrl_packet. rewrite !length_app, !length_le_bytes. lia. }
  rewrite (proj2 (Z.ltb_ge _ _)) by sizes. unfold ctrl_flag in Hflag.
  rewrite (proj2 (Z.eqb_neq _ _) Hflag). cbn [negb Assert_true mbind Er_bind].
  rewrite (proj2 Hm1), Hc, Hver by (rewrite Z.add_mod, Ha by lia; done). cbn [mbind Er_bind Z.eqb negb].
  assert (ctrl_type_be m1 = t) as ->; [|done].
  unfold ctrl_type_be. destruct Hm1 as [Hv _]. rewrite (msg_read_sub m1 _ _ _ 2 2 Hv) by lia.
  by apply ctrl_packet_type.
Qed.

Lemma pong_type_fits t : fits 16 (pong_type t).
Proof. by destruct t. Qed.

Lemma pong_body_length t key data : is_ping t -> length key = 32%nat ->
  len (pong_body t key data) = match t with Type_KEYPING => 40 | _ => 8 end + len data.
Proof.
  intros [-> | ->] Hk; cbn [pong_body]; rewrite !length_app, length_le_bytes; unfold version_bytes;
    rewrite length_be_bytes; lia.
Qed.

(** The remote node answers. *)
Lemma incoming_ping m a pre rh ctx p data ck post ch :
  arrives m a pre rh (ping_packet ctx p data ck) post -> verifies (ping_packet ctx p data ck) ->
  is_ping (sp_type p) -> ping_wf ctx p -> bytes data -> len data <= 1000 ->
  (sp_type p = Type_KEYPING -> len data <= 64) ->
  length (ch_myPublicKey ch) = 32%nat -> bytes (ch_myPublicKey ch) ->
  exists m' ck', incomingFromCore m ch = Ret [ToCore m'] /\
    let packet := ctrl_packet ck' (pong_type (sp_type p)) (pong_body (sp_type p) (ch_myPublicKey ch) data) in
    verifies packet /\ msg_at m' a pre (ctrl_route (rh_label rh) ++ packet) post.
Proof.
  intros Harr Hver Hp Hwf Hb Hlen Hkp Hk Hkb.
  assert (ping_packet ctx p data ck = ctrl_packet ck (ping_type p) (concat (ping_head ctx p ++ [data]))) as Ep by done.
  rewrite Ep in Harr, Hver. pose proof Harr as (_ & Hrh & _ & Ha).
  assert (4 <= len (concat (ping_head ctx p ++ [data]))) as H4.
  { unfold ping_head. destruct Hp as [-> | ->]; cbn [app concat]; rewrite !length_app, !length_le_bytes; lia. }
  assert (fits 16 (ping_type p)) as Hft by (unfold ping_type; by destruct (sp_type p)).
  destruct (incoming_dispatch m a pre rh ck _ _ post ch Harr Hver Hft H4) as (m1 & Hm1 & ->).
  destruct (handlePing_at m1 _ pre rh ck ctx p data post ch (rh_label rh) Hm1 Hrh Hp Hwf Hb Hlen Hkp)
    as (m2 & ck' & E & _ & Hv & Hm2); [rewrite Z.add_mod, Ha by lia; done|done|done|].
  replace (a + RouteHeader_SIZE - RouteHeader_SIZE) with a in Hm2 by lia.
  exists m2, ck'. split; [|by split]. rewrite <- E. unfold ping_type. by destruct Hp as [-> | ->].
Qed.

(** The pong is passed on as it came. *)
Lemma incoming_pong m a pre rh ck t body post ch :
  arrives m a pre rh (ctrl_packet ck (pong_type t) body) post ->
  verifies (ctrl_packet ck (pong_type t) body) -> 4 <= len body ->
  exists m', incomingFromCore m ch = Ret [ToSwitchPinger m'] /\
    msg_at m' a pre (rh ++ ctrl_packet ck (pong_type t) body) post.
Proof.
  intros Harr Hver Hb. pose proof Harr as (_ & Hrh & _ & Ha).
  destruct (incoming_dispatch m a pre rh ck _ _ post ch Harr Hver (pong_type_fits t) Hb) as (m1 & Hm1 & ->).
  destruct (at_epush m1 _ pre rh _ post rh Hm1 eq_refl) as (m2 & E & Hm2). rewrite Hrh in E, Hm2.
  replace (a + RouteHeader_SIZE - RouteHeader_SIZE) with a in Hm2 by lia.
  exists m2. split; [|done]. rewrite E. cbn [mbind Er_bind]. by destruct t.
Qed.

Definition pong_key (t : SwitchPinger_Type) (key : list Z) : list Z :=
  match t with Type_KEYPING => key | _ => zeros 32 end.

(** Reading the pong: version and key are noted, the data is left. *)
Lemma readControl_at {N : Nacl} ctx m a pre ck t k data post label :
  msg_at m a pre (ctrl_packet ck (pong_type t) (pong_body t k data)) post -> is_ping t ->
  length k = 32%nat -> (t = Type_KEYPING -> len data <= 64) ->
  exists m', readControl ctx m label =
    Ret (set_incoming ctx label Version_CURRENT_PROTOCOL (pong_key t k) Address_zero 0 0 Error_NONE, Some m') /\
    msg_content m' = data.
Proof.
  intros Hm Ht Hk Hkp. unfold readControl.
  assert (ctrl_type_be m = pong_type t) as ->.
  { unfold ctrl_type_be. destruct Hm as [Hv _].
    rewrite (msg_read_sub m _ _ _ 2 2 Hv) by (unfold ctrl_packet; rewrite ?length_app, ?length_le_bytes; lia).
    apply ctrl_packet_type, pong_type_fits. }
  unfold ctrl_packet in Hm. rewrite app_assoc in Hm.
  destruct (at_shift_pop m a _ _ _ post (- Control_Header_SIZE) Hm) as (m1 & E1 & Hm1);
    [by rewrite length_app, !length_le_bytes|].
  destruct (at_content _ _ _ _ _ Hm1) as [_ Hl1]. rewrite (pong_body_length t k data Ht Hk) in Hl1.
  assert (Endian_bigEndianToHost32 (le_val version_bytes) = Version_CURRENT_PROTOCOL) as Hver by done.
  destruct Ht as [-> | ->]; cbn [pong_type pong_body pong_key] in *.
  - rewrite Z.eqb_refl, E1. cbn [mbind Er_bind]. rewrite Hl1.
    destruct (Z.geb_spec (8 + len data) Control_Pong_MIN_SIZE); [|sizes].
    rewrite (at_read m1 _ _ _ version_bytes data post 4 4 Hm1 eq_refl eq_refl), Hver.
    rewrite (at_read m1 _ _ [] _ (version_bytes ++ data) post 0 4 Hm1 eq_refl eq_refl).
    change (le_val (le_bytes 4 Control_Pong_MAGIC)) with Control_Pong_MAGIC. rewrite Z.eqb_refl. cbn [negb].
    rewrite (app_assoc (le_bytes 4 _)) in Hm1.
    destruct (at_shift_pop m1 _ _ _ _ post (- Control_Pong_HEADER_SIZE) Hm1 eq_refl) as (m2 & -> & Hm2).
    cbn [mbind Er_bind]. exists m2. split; [done|]. by destruct (at_content _ _ _ _ _ Hm2).
  - change (Control_KEYPONG_be =? Control_PONG_be) with false. cbv iota. rewrite Z.eqb_refl, E1.
    cbn [mbind Er_bind]. rewrite Hl1. specialize (Hkp eq_refl).
    destruct (Z.geb_spec (40 + len data) Control_KeyPong_HEADER_SIZE); [|sizes].
    rewrite (proj2 (Z.leb_le _ _)) by (unfold Control_KeyPong_MAX_SIZE, Control_KeyPing_MAX_SIZE; sizes). cbn [andb].
    rewrite (at_read m1 _ _ _ version_bytes _ post 4 4 Hm1 eq_refl eq_refl), Hver.
    rewrite (at_read m1 _ _ [] _ (version_bytes ++ k ++ data) post 0 4 Hm1 eq_refl eq_refl).
    change (le_val (le_bytes 4 Control_KeyPong_MAGIC)) with Control_KeyPong_MAGIC. rewrite Z.eqb_refl. cbn [negb].
    rewrite (app_assoc (le_bytes 4 _)) in Hm1.
    rewrite (at_read m1 _ _ _ k data post 8 32 Hm1 eq_refl ltac:(lia)).
    rewrite (app_assoc (le_bytes 4 _ ++ version_bytes)) in Hm1.
    destruct (at_shift_pop m1 _ _ _ _ post (- Control_KeyPong_HEADER_SIZE) Hm1) as (m2 & -> & Hm2);
      [rewrite length_app, Hk; done|].
    cbn [mbind Er_bind]. exists m2. split; [done|]. by destruct (at_content _ _ _ _ _ Hm2).
Qed.

(** The pong reaches the user. *)
Lemma pong_reported {N : Nacl} malloc ctx ptr p c m a pre rh ck k post time :
  sw_ok ctx -> pings (s_pinger ctx) !! ptr = Some p -> pg_context p = Some c -> pg_timeSent p <> 0 ->
  is_ping (sp_type c) -> length k = 32%nat -> (sp_type c = Type_KEYPING -> len (ping_data p c) <= 64) ->
  msg_at m a pre (rh ++ ctrl_packet ck (pong_type (sp_type c)) (pong_body (sp_type c) k (ping_data p c))) post ->
  len rh = RouteHeader_SIZE -> rh_label rh = sp_label c ->
  exists ctx', messageFromControlHandler malloc ctx m time =
    Ret (ctx', [Respond (sp_user c)
      (mkResponse Result_OK (sp_label c) (Some (default [] (sp_data c))) (u32 (u32 time - pg_timeSent p))
         Version_CURRENT_PROTOCOL (pong_key (sp_type c) k) 0 Address_zero 0 ptr)]) /\
    pings (s_pinger ctx') = delete ptr (pings (s_pinger ctx)) /\ sw_ok ctx'.
Proof.
  intros Hok Hl Hc Ht Hp Hk Hkp Hm Hrh Hlabel. unfold messageFromControlHandler.
  destruct (at_epop m a pre rh _ post _ Hm (eq_sym Hrh)) as (m1 & -> & Hm1). cbn [mbind Er_bind].
  fold (rh_label rh). rewrite Hlabel.
  destruct (readControl_at ctx m1 _ _ ck (sp_type c) k (ping_data p c) post (sp_label c) Hm1 Hp Hk Hkp)
    as (m2 & -> & Hd). cbn [mbind Er_bind]. rewrite Hd.
  set (ctx1 := set_incoming ctx _ _ _ _ _ _ _). assert (sw_ok ctx1) as Hok1 by exact Hok.
  destruct (pongReceived_answers (s_pinger ctx1) ptr p (default [] (sp_data c)) time (proj1 Hok1) Hl Ht)
    as (P' & E & Hok' & Hdel & _). unfold ping_data. rewrite E. cbn [mbind Er_bind].
  destruct (run_outs_end malloc ctx1 P' ptr p
    (Some (Some (default [] (sp_data c)), u32 (u32 time - pg_timeSent p))) Hok1 Hl Hok' Hdel)
    as (c' & ctx2 & r & Hc' & Erun & Hok2 & -> & HP & _).
  rewrite Hc in Hc'. injection Hc' as <-. rewrite Erun. cbn [mbind Er_bind].
  exists (set_incoming ctx2 (s_incomingLabel ctx2) (s_incomingVersion ctx2) (zeros 32) (s_incomingSnodeAddr ctx2)
            (s_incomingSnodeKbps ctx2) (s_rpath ctx2) (s_error ctx2)).
  split; [|split; [cbn [set_incoming s_pinger]; by rewrite HP|done]]. unfold onPingResponse.
  cbn [ctx1 set_incoming s_incomingLabel s_error s_incomingVersion s_incomingKey s_incomingSnodeKbps
       s_incomingSnodeAddr s_rpath]. rewrite Z.eqb_refl. cbn [negb].
  assert (forall d : list Z, String_equals (Some d) (Some d) = true) as Heq.
  { intros d. cbn [String_equals]. rewrite Z.eqb_refl. rewrite (proj2 (Z.eqb_eq _ _) (memcmp_refl d)). done. }
  destruct (sp_data c) as [d|]; cbn [default from_option id]; [|done].
  change (default [] (Some d)) with d. rewrite (Heq d), andb_false_r. done.
Qed.

(** *** The packet of a ping can always be built *)

Lemma sendPing_align_pos fuel : forall m A e b n, pos m A 0 e b -> b <= e -> (A + b - n) mod 4 <= Z.of_nat fuel <= b ->
  exists m', sendPing_align fuel m n = Ret m' /\ pos m' A 0 e (b - (A + b - n) mod 4).
Proof.
  induction fuel as [|fuel IH]; intros m A e b n Hm He Hf; cbn [sendPing_align].
  { exists m. split; [done|]. replace ((A + b - n) mod 4) with 0 by (pose proof (Z.mod_pos_bound (A + b - n) 4); lia). by rewrite Z.sub_0_r. }
  pose proof Hm as (-> & _ & _ & ->). destruct (Z.eqb_spec ((A + b - n) mod 4) 0) as [->|Hne]; cbn [negb].
  { exists m. split; [done|]. by rewrite Z.sub_0_r. }
  assert ((A + (b - 1) - n) mod 4 = (A + b - n) mod 4 - 1) as Hmod by (Z.to_euclidean_division_equations; lia).
  destruct (pos_epush m A 0 e b (Some (le_bytes 1 0)) 1 Hm) as (m1 & E & Hm1); [lia..|].
  change (Message_epush8 m 0) with (Message_epush m (Some (le_bytes 1 0)) 1). rewrite E. cbn [mbind Er_bind].
  destruct (IH m1 A e (b - 1) n Hm1) as (m2 & E2 & Hm2); [lia|lia|]. exists m2. split; [exact E2|].
  rewrite Hmod in Hm2. by replace (b - (A + b - n) mod 4) with (b - 1 - ((A + b - n) mod 4 - 1)) by lia.
Qed.

Lemma pos_geometry m A s e b : pos m A s e b -> geometry m (e - b) (b - s) (A + b).
Proof. intros (HA & Hp & Hl & HB). split; [exact Hl|]. split; [exact Hp|]. by rewrite HA, HB. Qed.

Lemma checksum_pos m A s e b : pos m A s e b -> (A + b) mod 2 = 0 -> exists m', ctrl_checksum m = Ret m' /\ pos m' A s e b.
Proof.
  intros Hm Ha. pose proof Hm as (EA & Hp & Hl & EB). unfold ctrl_checksum. cbn [msg_write msg_addr msg_bytes]. rewrite EA, EB.
  destruct (checksum_ret (A + b) (msg_content (msg_write m 0 (le_bytes 2 0))) (msg_length (msg_write m 0 (le_bytes 2 0))) Ha) as (ck & ->).
  cbn [mbind Er_bind]. eexists. split; [done|]. by apply pos_write, pos_write.
Qed.

Lemma ping_header_pos ctx p m A e b : pos m A 0 e b -> 64 <= b <= e ->
  exists m' t k, ping_header ctx p m = Ret (m', t) /\ pos m' A 0 e (b - k) /\ 0 <= k <= 60 /\ k mod 4 = 0.
Proof.
  intros Hm Hb. unfold ping_header. destruct (sp_type p);
  match goal with |- context [Message_epush m None ?k] =>
    destruct (pos_epush m A 0 e b None k Hm) as (m1 & -> & Hm1); [by split|unfold Control_KeyPing_HEADER_SIZE, Control_Ping_HEADER_SIZE, Control_GetSnode_HEADER_SIZE, Control_RPath_HEADER_SIZE; lia|lia|]; cbn [mbind Er_bind];
    eexists _, _, k; split; [done|]; split; [by repeat apply pos_write|by split] end.
Qed.

Lemma sendPing_returns malloc ctx data p : len data < 2 ^ 30 -> exists m, sendPing malloc ctx data p = Ret (ToControlHandler m).
Proof.
  intros Hd. unfold sendPing. set (l := len data + 512). destruct (malloc l) as [A mem].
  assert (pos (Message_new 0 l A mem) A 0 l l) as Hm.
  { unfold pos, Message_new. cbn [msg_addr msg_padding msg_length msg_bytes]. rewrite !i32_small by (unfold l; lia). split_and!; lia || done. }
  pose proof (Z.mod_pos_bound (A + l - len data) 4 ltac:(lia)) as Hr. set (r := (A + l - len data) mod 4) in *.
  destruct (sendPing_align_pos 4 _ A l l (len data) Hm) as (m1 & -> & Hm1); [lia|unfold l in *; lia|]. fold r in Hm1. cbn [mbind Er_bind].
  apply pos_length in Hm1. destruct (pos_epush _ A 0 _ _ (Some data) (len data) Hm1) as (m2 & -> & Hm2); [lia|unfold l; lia|lia|].
  cbn [mbind Er_bind]. set (b := l - r - len data) in *. pose proof Hm2 as (-> & _ & _ & ->).
  assert ((A + b) mod 4 = 0) as Hal by (unfold b, r; Z.to_euclidean_division_equations; lia).
  rewrite Hal. cbn [Z.eqb Assert_true mbind Er_bind]. assert (508 <= b <= 512) as Hb by (unfold b, l; lia).
  assert (b <= l - r) as Hbe by (unfold b; lia).
  destruct (ping_header_pos ctx p m2 A (l - r) b Hm2) as (m3 & t & k & -> & Hm3 & Hk & Hk4); [lia|]. cbn [mbind Er_bind].
  destruct (pos_eshift m3 A 0 _ _ Control_Header_SIZE Hm3) as (m4 & -> & Hm4); [unfold Control_Header_SIZE; lia|]. cbn [mbind Er_bind].
  set (m5 := msg_write (msg_write m4 _ _) _ _). assert (pos m5 A 0 (l - r) (b - k - Control_Header_SIZE)) as Hm5 by (by apply pos_write, pos_write).
  destruct (checksum_pos m5 _ _ _ _ Hm5) as (m6 & -> & Hm6); [unfold Control_Header_SIZE; Z.to_euclidean_division_equations; lia|]. cbn [mbind Er_bind].
  unfold SwitchHeader_setVersion. change (SwitchHeader_CURRENT_VERSION <? 4) with true. cbn [Assert_true mbind Er_bind].
  match goal with |- context [Message_epush m6 ?o _] =>
    destruct (pos_epush m6 A 0 _ _ o RouteHeader_SIZE Hm6) as (m7 & -> & _); [by split|unfold Control_Header_SIZE, RouteHeader_SIZE, SwitchHeader_SIZE; lia|unfold Control_Header_SIZE; lia|] end.
  by exists m7.
Qed.

(** *** What a step of the pinger leaves *)

(** Pings only go, and no handle is given out. *)
Record shrinks {C} (P P' : Pinger C) : Prop := {
  sk_next : map_nextHandle (outstandingPings P') = map_nextHandle (outstandingPings P);
  sk_count : map_count (outstandingPings P') <= map_count (outstandingPings P);
  sk_pings : forall ptr p, pings P' !! ptr = Some p -> is_Some (pings P !! ptr);
}.

Lemma remove_shrinks {V} i (m : Map unit V) : map_nextHandle (Map_remove i m).2 = map_nextHandle m /\
  map_count (Map_remove i m).2 <= map_count m.
Proof.
  unfold Map_remove, map_count. destruct (Z.leb_spec 0 i); cbn [andb]; [destruct (Z.ltb_spec i (len (map_entries m) - 1))|]; [| |].
  - cbn. rewrite length_app, length_take, length_drop. lia.
  - case_match; cbn; [|lia]. rewrite length_take. lia.
  - case_match; cbn; [|lia]. rewrite length_take. lia.
Qed.

Lemma shrinks_refl {C} (P : Pinger C) : shrinks P P.
Proof. split; [done|lia|]. intros ptr p Hp. by exists p. Qed.

Lemma freePing_shrinks {C} (P : Pinger C) ptr P' outs : freePing P ptr = Ret (P', outs) -> shrinks P P'.
Proof.
  unfold freePing. intros H. er_inv. set (i := Map_indexForHandle _ _) in H. pose proof (remove_shrinks i (outstandingPings P)) as [Hn Hc].
  destruct (Map_remove i (outstandingPings P)) as [? m]. er_inv. split; [exact Hn|exact Hc|].
  intros q pq Hq. cbn in Hq. apply lookup_delete_Some in Hq as [_ Hq]. by exists pq.
Qed.

Lemma callback_shrinks {C} data (P : Pinger C) ptr time P' outs : callback data P ptr time = Ret (P', outs) -> shrinks P P'.
Proof.
  unfold callback. intros H. er_inv. match goal with H : freePing _ _ = Ret ?y |- _ => destruct y as [P1 o]; apply freePing_shrinks in H as [Hn Hc Hp] end.
  er_inv. split; [exact Hn|exact Hc|]. intros q pq Hq. apply Hp in Hq as [r Hr]. cbn in Hr.
  apply lookup_insert_Some in Hr as [[<- _]|[_ Hr]]; [|by exists r].
  match goal with H : ping_at _ _ = Ret _ |- _ => unfold ping_at in H; destruct (pings P !! ptr) as [r'|]; [by exists r'|done] end.
Qed.

Lemma run_outs_pinger malloc outs : forall ctx ctx' r, run_outs malloc ctx outs = Ret (ctx', r) -> s_pinger ctx' = s_pinger ctx.
Proof.
  induction outs as [|[ptr data ms [c|]|ptr data [c|]|ptr [c|]] outs IH]; intros ctx ctx' r; cbn [run_outs]; intros H; try done.
  - by injection H as <- _.
  - er_inv. match goal with H : run_outs _ _ _ = Ret ?y |- _ => destruct y as [c1 o]; apply IH in H end. by er_inv.
  - er_inv. match goal with H : run_outs _ _ _ = Ret ?y |- _ => destruct y as [c1 o]; apply IH in H end. by er_inv.
  - er_inv. apply IH in H. unfold onPingFree in *. er_inv. exact H.
Qed.

Lemma pingTimeout_shrinks malloc ctx ptr time ctx' outs : pingTimeout malloc ctx ptr time = Ret (ctx', outs) ->
  shrinks (s_pinger ctx) (s_pinger ctx').
Proof.
  unfold pingTimeout. intros H. er_inv. match goal with H : timeoutCallback _ _ _ = Ret ?y |- _ => destruct y as [P1 o]; rename H into E end.
  apply run_outs_pinger in H. cbn in H. rewrite H. unfold timeoutCallback in E. er_inv.
  destruct (_ =? 0); er_inv; [apply shrinks_refl|]. by apply callback_shrinks in E.
Qed.

Lemma message_shrinks {N : Nacl} malloc ctx m time ctx' outs : messageFromControlHandler malloc ctx m time = Ret (ctx', outs) ->
  shrinks (s_pinger ctx) (s_pinger ctx').
Proof.
  unfold messageFromControlHandler. intros H. apply Er_bind_ret in H as ([m1 rh] & _ & H). apply Er_bind_ret in H as ([ctx1 r] & E1 & H).
  assert (s_pinger ctx1 = s_pinger ctx) as Hs by (unfold readControl in E1; repeat first [progress (er_inv; simplify_eq)|case_match]; done).
  destruct r as [m2|]; [|injection H as <- _; rewrite Hs; apply shrinks_refl].
  apply Er_bind_ret in H as ([P' o] & E2 & H). apply Er_bind_ret in H as ([ctx2 r] & E3 & H). injection H as <- _.
  apply run_outs_pinger in E3. cbn in E3 |- *. rewrite E3, <- Hs. unfold Pinger_pongReceived in E2.
  destruct (_ <? 12); [injection E2 as <- _; apply shrinks_refl|]. destruct (_ <? 0); [injection E2 as <- _; apply shrinks_refl|].
  destruct (map_entries _ !! _) as [e|]; [|done]. apply Er_bind_ret in E2 as (p & _ & E2).
  destruct (negb _); [injection E2 as <- _; apply shrinks_refl|]. destruct (_ =? 0); [injection E2 as <- _; apply shrinks_refl|].
  by apply callback_shrinks in E2.
Qed.

Lemma pingSend_returns malloc ctx ptr p : sw_ok ctx -> pings (s_pinger ctx) !! ptr = Some p ->
  exists m, pingSend malloc ctx ptr = Ret (ctx, [ToControlHandler m]).
Proof.
  intros (_ & Hctx & _) Hp. destruct (Hctx ptr p Hp) as (c & Hc & Hd & _ & Hl). unfold pingSend, asyncSendPing, ping_at. rewrite Hp.
  cbn [mbind Er_bind]. rewrite Hc. cbn [run_outs].
  destruct (sendPing_returns malloc ctx (pg_data p) c) as (m & ->); [|cbn [mbind Er_bind]; by exists m].
  rewrite Hd. unfold ping_data. rewrite !length_app, !length_le_bytes. unfold Control_Ping_MAX_SIZE in Hl. lia.
Qed.

Lemma pingTimeout_returns malloc ctx ptr p time : sw_ok ctx -> pings (s_pinger ctx) !! ptr = Some p ->
  i64 (i64 time - pg_timeSent p) < 1000000000 -> exists ctx' outs, pingTimeout malloc ctx ptr time = Ret (ctx', outs) /\ sw_ok ctx'.
Proof.
  intros Hok Hp Ht. unfold pingTimeout, timeoutCallback. unfold ping_at at 1. rewrite Hp. cbn [mbind Er_bind].
  destruct (pg_timeSent p =? 0); [cbn; exists ctx, []; by destruct ctx|].
  rewrite (proj2 (Z.ltb_lt _ _) Ht). cbn [Assert_true mbind Er_bind].
  destruct (callback_spec (s_pinger ctx) ptr p None time (proj1 Hok) Hp) as (P' & -> & Hok' & Hd & _). cbn [mbind Er_bind].
  destruct (run_outs_end malloc ctx P' ptr p (Some (None, u32 (u32 time - pg_timeSent p))) Hok Hp Hok' Hd) as (c & ctx' & r & _ & E & Hok2 & _).
  by exists ctx', r.
Qed.

(** ** Theorems *)

(** The states of the switch pinger: pings are made, typed, sent, time out, are
    cancelled, and pongs arrive. *)
Inductive sw_reachable {N : Nacl} (malloc : Z -> Z * list Z) : SwitchPinger -> Prop :=
| sw_new rand addr : fits 32 rand -> sw_reachable malloc (SwitchPinger_new rand addr)
| sw_ping ctx label data user ptr time cookie ctx' :
    sw_reachable malloc ctx -> pings (s_pinger ctx) !! ptr = None -> fits 64 cookie ->
    map_nextHandle (outstandingPings (s_pinger ctx)) < 2 ^ 32 - 1 ->
    map_count (outstandingPings (s_pinger ctx)) < 2 ^ 31 - 1 -> bytes (default [] data) ->
    SwitchPinger_newPing ctx label data user ptr time cookie = Some ctx' -> sw_reachable malloc ctx'
| sw_type ctx ptr t kbps snode :
    sw_reachable malloc ctx -> sw_reachable malloc (set_type ctx ptr t kbps snode)
| sw_timeout ctx ptr time ctx' outs :
    sw_reachable malloc ctx -> pingTimeout malloc ctx ptr time = Ret (ctx', outs) -> sw_reachable malloc ctx'
| sw_cancel ctx ptr ctx' outs :
    sw_reachable malloc ctx -> pingCancel malloc ctx ptr = Ret (ctx', outs) -> sw_reachable malloc ctx'
| sw_pong ctx m time ctx' outs :
    sw_reachable malloc ctx -> messageFromControlHandler malloc ctx m time = Ret (ctx', outs) ->
    sw_reachable malloc ctx'.

Lemma set_type_ok ctx ptr t kbps snode : sw_ok ctx -> sw_ok (set_type ctx ptr t kbps snode).
Proof.
  intros (Hok & Hctx & Hcount). unfold set_type.
  destruct (pings (s_pinger ctx) !! ptr) as [[h [c|] d ts ck]|] eqn:Hl; [|done..].
  split; [by apply set_context_ok|]. cbn [set_pinger s_pinger set_context set_pings pings s_outstandingPings].
  destruct (Hctx ptr _ Hl) as (c' & Hc' & Hd & Hb & Hmax). cbn in Hc'. injection Hc' as <-. split.
  - intros ptr' p'. rewrite lookup_alter_Some. intros [(<- & p & Hl' & ->)|[Hne Hl']]; [|by apply (Hctx ptr')].
    rewrite Hl in Hl'. injection Hl' as <-. eexists. split; [done|]. by split.
  - rewrite Hcount. f_equal. rewrite <- !size_dom. f_equal. symmetry. apply dom_alter_L.
Qed.

Lemma end_ping_ok malloc ctx P' ptr p answer ctx' outs :
  sw_ok ctx -> pings (s_pinger ctx) !! ptr = Some p -> pinger_ok P' ->
  pings P' = delete ptr (pings (s_pinger ctx)) ->
  run_outs malloc (set_pinger ctx P')
    (match answer with
     | Some (data, ms) => [OnResponse ptr data ms (pg_context p); Freed ptr (pg_context p)]
     | None => [Freed ptr (pg_context p)]
     end) = Ret (ctx', outs) -> sw_ok ctx'.
Proof.
  intros Hok Hl Hok' Hd E. destruct (run_outs_end malloc ctx P' ptr p answer Hok Hl Hok' Hd)
    as (c & ctx2 & r & _ & E2 & Hok2 & _). rewrite E2 in E. by injection E as <- _.
Qed.

Lemma readControl_ok {N : Nacl} ctx m label ctx' r : sw_ok ctx -> readControl ctx m label = Ret (ctx', r) -> sw_ok ctx'.
Proof.
  intros Hok E. unfold readControl in E.
  repeat first [progress (er_inv; simplify_eq)|case_match]; exact Hok.
Qed.

Lemma reachable_sw_ok {N : Nacl} malloc ctx : sw_reachable malloc ctx -> sw_ok ctx.
Proof.
  induction 1 as [rand addr Hr|ctx label data user ptr time cookie ctx' _ IH Hf Hc Hh Hn Hb E|ctx ptr t kbps snode _ IH
    |ctx ptr time ctx' outs _ IH E|ctx ptr ctx' outs _ IH E|ctx m time ctx' outs _ IH E].
  - by apply sw_ok_new.
  - by eapply newPing_ok.
  - by apply set_type_ok.
  - unfold pingTimeout, timeoutCallback in E. unfold ping_at at 1 in E.
    destruct (pings (s_pinger ctx) !! ptr) as [p|] eqn:Hl; [|done]. cbn [mbind Er_bind] in E.
    destruct (pg_timeSent p =? 0); [cbn in E; injection E as <- _; by destruct ctx|].
    destruct (_ <? _); [|done]. cbn [Assert_true mbind Er_bind] in E.
    destruct (callback_spec (s_pinger ctx) ptr p None time (proj1 IH) Hl) as (P' & E' & Hok' & Hd & _).
    rewrite E' in E. cbn [mbind Er_bind] in E.
    by apply (end_ping_ok malloc ctx P' ptr p (Some (None, u32 (u32 time - pg_timeSent p))) ctx' outs).
  - unfold pingCancel in E. destruct (pings (s_pinger ctx) !! ptr) as [p|] eqn:Hl.
    + destruct (freePing_spec (s_pinger ctx) ptr p (proj1 IH) Hl) as (P' & E' & Hok' & Hd & _).
      rewrite E' in E. cbn [mbind Er_bind] in E. by apply (end_ping_ok malloc ctx P' ptr p None ctx' outs).
    + unfold freePing, ping_at in E. by rewrite Hl in E.
  - unfold messageFromControlHandler in E. apply Er_bind_ret in E as ([m1 rh] & _ & E).
    apply Er_bind_ret in E as ([ctx1 r] & E1 & E). apply readControl_ok in E1; [|done].
    destruct r as [m2|]; [|by injection E as <- _].
    destruct (pong_safe malloc ctx1 (msg_content m2) time E1) as (P' & o & ctx2 & r & E2 & E3 & Hok2).
    rewrite E2 in E. cbn [mbind Er_bind] in E. rewrite E3 in E. cbn [mbind Er_bind] in E. by injection E as <- _.
Qed.

(** [C18] No control packet stops the node: whatever arrives from the core as a
    control packet, in whatever state the switch pinger is, the control handler
    returns; it passes only pongs and key pongs on to the switch pinger, and the
    switch pinger returns on them too and keeps its invariant. *)
Theorem control_plane_safe {N : Nacl} malloc ctx ch m a pre rh c post time :
  sw_reachable malloc ctx -> arrives m a pre rh c post -> 8 <= len pre ->
  exists outs, incomingFromCore m ch = Ret outs /\
    forall m', ToSwitchPinger m' ∈ outs ->
      (le_val (rd 2 2 c) = Control_PONG_be \/ le_val (rd 2 2 c) = Control_KEYPONG_be) /\
      exists ctx' r, messageFromControlHandler malloc ctx m' time = Ret (ctx', r) /\ sw_ok ctx'.
Proof.
  intros Hr (Hm & Hrh & Hf & Ha) Hp. apply reachable_sw_ok in Hr.
  destruct (incomingFromCore_ret m a pre rh c post ch Hm Hrh Hp Ha Hf) as (outs & -> & Hcase).
  exists outs. split; [done|]. intros m' Hin. destruct Hcase as [Hn|(m1 & -> & Hm1 & Hl & Ht)].
  - rewrite Forall_forall in Hn. by apply Hn in Hin.
  - apply list_elem_of_singleton in Hin as [= ->]. split; [done|].
    by apply (pong_from_handler_safe malloc ctx m1 a pre rh c post time).
Qed.

(** [C17] A ping is answered: the packet which the switch pinger sends for a live
    ping (or key ping, with data that fits its size limit), when it arrives at
    another node under any route header, is answered with a packet addressed to
    the label of that header; and when that packet arrives back under the label
    which was pinged, the control handler passes it on and the user's callback is
    called once, with success, the user's data, the version and, for a key ping,
    the public key of the other node. *)
Theorem ping_answered {N : Nacl} malloc ctx ptr p c ch mine time :
  sw_reachable malloc ctx -> malloc_ok malloc ->
  pings (s_pinger ctx) !! ptr = Some p -> pg_context p = Some c -> pg_timeSent p <> 0 ->
  is_ping (sp_type c) -> ping_wf ctx c ->
  (sp_type c = Type_KEYPING -> len (default [] (sp_data c)) <= 52) ->
  length (ch_myPublicKey ch) = 32%nat -> bytes (ch_myPublicKey ch) ->
  exists sent ping, pingSend malloc ctx ptr = Ret (ctx, [ToControlHandler sent]) /\
    msg_content sent = ctrl_route (sp_label c) ++ ping /\
    forall m a pre rh post, arrives m a pre rh ping post ->
    exists answer pong, incomingFromCore m ch = Ret [ToCore answer] /\
      msg_content answer = ctrl_route (rh_label rh) ++ pong /\
      forall m' a' pre' rh' post', arrives m' a' pre' rh' pong post' -> rh_label rh' = sp_label c ->
      exists m'' ctx', incomingFromCore m' mine = Ret [ToSwitchPinger m''] /\
        messageFromControlHandler malloc ctx m'' time = Ret (ctx', [Respond (sp_user c)
          (mkResponse Result_OK (sp_label c) (Some (default [] (sp_data c)))
             (u32 (u32 time - pg_timeSent p)) Version_CURRENT_PROTOCOL
             (pong_key (sp_type c) (ch_myPublicKey ch)) 0 Address_zero 0 ptr)]) /\
        pings (s_pinger ctx') = delete ptr (pings (s_pinger ctx)).
Proof.
  intros Hr Hmal Hl Hc Ht Hp Hwf Hkp Hk Hkb. apply reachable_sw_ok in Hr as Hok.
  pose proof Hok as (_ & Hctx & _). destruct (Hctx ptr p Hl) as (c' & Hc' & Hd & Hb & Hmax).
  rewrite Hc in Hc'. injection Hc' as <-.
  assert (bytes (ping_data p c)) as Hdb.
  { unfold ping_data. apply bytes_app; split; [apply le_bytes_bytes|]. apply bytes_app; split; [apply le_bytes_bytes|done]. }
  assert (len (ping_data p c) = 12 + len (default [] (sp_data c))) as Hdl.
  { unfold ping_data. rewrite !length_app, !length_le_bytes. lia. }
  assert (len (ping_data p c) <= 1000) as Hd1000 by (unfold Control_Ping_MAX_SIZE in Hmax; lia).
  assert (sp_type c = Type_KEYPING -> len (ping_data p c) <= 64) as Hkp'.
  { intros E. specialize (Hkp E). lia. }
  destruct (sendPing_at malloc ctx (ping_data p c) c Hmal Hwf Hdb Hd1000)
    as (m0 & a0 & pre0 & post0 & ck & Es & Hm0 & _ & _ & _ & Hv).
  exists m0, (ping_packet ctx c (ping_data p c) ck). split; [|split; [by destruct (at_content _ _ _ _ _ Hm0)|]].
  { unfold pingSend, asyncSendPing, ping_at. rewrite Hl. cbn [mbind Er_bind]. rewrite Hc, Hd. cbn [run_outs].
    rewrite Es. done. }
  intros m a pre rh post Harr.
  destruct (incoming_ping m a pre rh ctx c _ ck post ch Harr Hv Hp Hwf Hdb Hd1000 Hkp' Hk Hkb)
    as (m1 & ck1 & E1 & Hv1 & Hm1). eexists m1, _. split; [done|]. split; [by destruct (at_content _ _ _ _ _ Hm1)|].
  intros m' a' pre' rh' post' Harr' Hlabel.
  destruct (incoming_pong m' a' pre' rh' ck1 (sp_type c) _ post' mine Harr' Hv1) as (m2 & E2 & Hm2).
  { rewrite (pong_body_length _ _ _ Hp Hk). case_match; lia. }
  destruct Harr' as (_ & Hrh' & _).
  destruct (pong_reported malloc ctx ptr p c m2 a' pre' rh' ck1 _ post' time Hok Hl Hc Ht Hp Hk Hkp' Hm2 Hrh' Hlabel)
    as (ctx' & E3 & Hdel & _). by exists m2, ctx'.
Qed.

(** ** Witnesses *)

Definition plain_malloc (n : Z) : Z * list Z := (0, zeros n).

Lemma plain_malloc_ok : malloc_ok plain_malloc.
Proof. intros n. apply length_replicate. Qed.

Definition my_address : Address := mkAddress 21 0 (0xfc :: zeros 15) (0xfc :: zeros 31) 1.

Definition example_switchPinger : SwitchPinger :=
  set_type
    (default (SwitchPinger_new 7 my_address)
       (SwitchPinger_newPing (SwitchPinger_new 7 my_address) 0x13 (Some [1; 2; 3]) 5 1 1000 99))
    1 Type_KEYPING 0 Address_zero.

Lemma example_switchPinger_reachable : sw_reachable (N := toy_nacl) plain_malloc example_switchPinger.
Proof.
  apply sw_type. apply (sw_ping plain_malloc (SwitchPinger_new 7 my_address) 0x13 (Some [1; 2; 3]) 5 1 1000 99);
    [by apply sw_new|done|by split|done|done|cbn; solve_bytes|reflexivity].
Qed.

(** A packet which arrives with its checksum not even set. *)
Definition example_arrival : Message :=
  mkMessage 88 8 8 88 0 0 (zeros 8 ++ ctrl_route 0x13 ++ zeros 20).

Lemma example_arrives : arrives example_arrival 8 (zeros 8) (ctrl_route 0x13) (zeros 20) [].
Proof.
  split; [|split; [apply ctrl_route_length|split; [done|done]]].
  split; [|done]. exists [], []. vm_compute. by repeat split.
Qed.

Lemma control_plane_safe_witness :
  exists outs, incomingFromCore example_arrival (ControlHandler_new (zeros 32)) = Ret outs.
Proof.
  destruct (control_plane_safe (N := toy_nacl) plain_malloc example_switchPinger (ControlHandler_new (zeros 32))
    example_arrival 8 (zeros 8) (ctrl_route 0x13) (zeros 20) [] 1250
    example_switchPinger_reachable example_arrives ltac:(done)) as (outs & H & _).
  by exists outs.
Defined.

Lemma ping_answered_witness :
  exists sent ping, pingSend plain_malloc example_switchPinger 1 = Ret (example_switchPinger, [ToControlHandler sent]) /\
    msg_content sent = ctrl_route 0x13 ++ ping.
Proof.
  pose proof (ping_answered (N := toy_nacl) plain_malloc example_switchPinger 1
    (mkPing 7 (Some (mkSwitchPing Type_KEYPING 0 Address_zero 0x13 (Some [1; 2; 3]) 5))
       (le_bytes 4 7 ++ le_bytes 8 99 ++ [1; 2; 3]) 1000 99)
    (mkSwitchPing Type_KEYPING 0 Address_zero 0x13 (Some [1; 2; 3]) 5)
    (ControlHandler_new (zeros 32)) (ControlHandler_new (zeros 32)) 1250
    example_switchPinger_reachable plain_malloc_ok) as H.
  destruct H as (sent & ping & H1 & H2 & _).
  - reflexivity.
  - reflexivity.
  - done.
  - by right.
  - repeat (split; [done || (vm_compute; solve_bytes)|]). done.
  - done.
  - reflexivity.
  - vm_compute. solve_bytes.
  - by exists sent, ping.
Defined.

(** The answers to the other two kinds of pings go to the pathfinder, not to the
    switch pinger which asked: there they can only time out. *)
Example getsnode_reply_not_for_pinger :
  let body := le_bytes 4 Control_GETSNODE_REPLY_MAGIC ++ zeros 52 in
  let packet ck := ctrl_packet ck Control_GETSNODE_REPLY_be body in
  match Checksum_engine_be 0 (packet 0) 60 with
  | Ret ck =>
      let m := mkMessage 128 8 8 128 0 0 (zeros 8 ++ ctrl_route 0x13 ++ packet ck) in
      match incomingFromCore m (ControlHandler_new (zeros 32)) with
      | Ret [ToEvent _] => True
      | _ => False
      end
  | Abort _ => False
  end.
Proof. by vm_compute. Qed.

(** What a timeout reports as the version is what the last packet contained. *)
Example timeout_reports_old_version :
  let ctx := set_incoming example_switchPinger 0x15 20 (zeros 32) Address_zero 0 0 0 in
  match pingTimeout plain_malloc ctx 1 5000 with
  | Ret (_, [Respond _ r]) => resp_res r = Result_TIMEOUT /\ resp_version r = 20
  | _ => False
  end.
Proof. by vm_compute. Qed.
