(* ===== verification/NetCore.v ===== *)
(** * net/NetCore.c: the components of a node, plumbed together

    [NetCore_new] builds a node and connects the interfaces of its parts with
    [Iface_plumb].  A wire of [Wire] is one direction of such a connection, a message
    on it is handled by the part at its end ([wire_step]).  Interfaces call each
    other directly, so what a part sends is handled before anything which was
    waiting: [dispatch] works through the messages depth first.  [NodeOut] is what
    leaves: to the switch, the TUN device, the IP tunnel, the event emitter, or a
    caller of the switch pinger.

    [dispatch] counts the messages with fuel and answers [None] when it runs out;
    [dispatch_terminates] shows that some fuel is enough for every message: the wires
    among these parts form no circle. *)
From stdpp Require Import gmap.
From S2P Require Import Prelude Bits Message Checksum MsgAt Headers RouteHeader PFChan Nacl Key Address.
From S2P Require Import CryptoAuth HandleMap Pinger TUNAdapter UpperDistributor SessionManager ControlHandler SwitchPinger.

Record NetCore := mkNetCore {
  nc_myAddress : Address;
  nc_sessions : SessionManager;
  nc_upper : UpperDistributor;
  nc_control : ControlHandler;
  nc_pinger : SwitchPinger;
  nc_tun : TUNAdapter;
}.

Inductive Wire :=
| TunToUpper (msg : Message)
| UpperToTun (msg : Message)
| SessionsToUpper (msg : Message)
| UpperToSessions (msg : Message)
| UpperToControl (msg : Message)
| ControlToUpper (msg : Message)
| ControlToPinger (msg : Message)
| PingerToControl (msg : Message).

Inductive NodeOut :=
| OutSwitch (msg : Message)
| OutDevice (msg : Message)
| OutIpTunnel (msg : Message)
| OutEvent (msg : Message)
| OutResponse (user : Z) (resp : SwitchPinger_Response).

Definition set_sessions (nc : NetCore) (x : SessionManager) : NetCore :=
  mkNetCore (nc_myAddress nc) x (nc_upper nc) (nc_control nc) (nc_pinger nc) (nc_tun nc).
Definition set_upper (nc : NetCore) (x : UpperDistributor) : NetCore :=
  mkNetCore (nc_myAddress nc) (nc_sessions nc) x (nc_control nc) (nc_pinger nc) (nc_tun nc).
Definition set_control (nc : NetCore) (x : ControlHandler) : NetCore :=
  mkNetCore (nc_myAddress nc) (nc_sessions nc) (nc_upper nc) x (nc_pinger nc) (nc_tun nc).
Definition set_nc_pinger (nc : NetCore) (x : SwitchPinger) : NetCore :=
  mkNetCore (nc_myAddress nc) (nc_sessions nc) (nc_upper nc) (nc_control nc) x (nc_tun nc).

(** [sm_rand] and [sp_rand] are what the random generator gives the session manager
    and the pinger. *)
Definition NetCore_new {N : Nacl} (privateKey : option (list Z)) (rand32 : list Z) (sm_rand sp_rand : Z) : NetCore :=
  let ca := CryptoAuth_new privateKey rand32 in
  let myAddress := mkAddress 0 0 (zeros 16) (take 32 (ca_publicKey ca)) 0 in
  let '(myAddress, _) := Address_getPrefix myAddress in
  let myAddress := mkAddress Version_CURRENT_PROTOCOL (a_padding myAddress) (ip6 myAddress) (key myAddress) 1 in
  mkNetCore myAddress (SessionManager_new ca sm_rand) (UpperDistributor_new myAddress) (ControlHandler_new (ca_publicKey ca))
    (SwitchPinger_new sp_rand myAddress) (TUNAdapter_new (ip6 myAddress)).

(** What the parts send, on which wire. *)
Definition tun_wire (o : TAOut) : Wire + NodeOut :=
  match o with
  | TAToTun m => inr (OutDevice m)
  | TAToIpTunnel m => inr (OutIpTunnel m)
  | TAToUpper m => inl (TunToUpper m)
  end.
Definition upper_wire (o : UDOut) : Wire + NodeOut :=
  match o with
  | UDToTunAdapter m => inl (UpperToTun m)
  | UDToIpTunnel m => inr (OutIpTunnel m)
  | UDToSessionManager m => inl (UpperToSessions m)
  | UDToControlHandler m => inl (UpperToControl m)
  | UDToEvent m => inr (OutEvent m)
  end.
Definition sessions_wire (o : SMOut) : Wire + NodeOut :=
  match o with
  | SMToSwitch m => inr (OutSwitch m)
  | SMToInside m => inl (SessionsToUpper m)
  | SMToEvent m => inr (OutEvent m)
  end.
Definition control_wire (o : CHOut) : Wire + NodeOut :=
  match o with
  | ToCore m => inl (ControlToUpper m)
  | ToSwitchPinger m => inl (ControlToPinger m)
  | ToEvent m => inr (OutEvent m)
  end.
Definition pinger_wire (o : SPOut) : Wire + NodeOut :=
  match o with
  | Respond user resp => inr (OutResponse user resp)
  | ToControlHandler m => inl (PingerToControl m)
  end.

Section Node.
Context {N : Nacl} (malloc : Z -> Z * list Z) (sp : Z).

Definition upper_step (nc : NetCore) (r : Er (UpperDistributor * list UDOut)) : Er (NetCore * list (Wire + NodeOut)) :=
  '(ud, outs) ← r; Ret (set_upper nc ud, map upper_wire outs).
Definition sessions_step (nc : NetCore) (r : Er (SessionManager * list SMOut)) : Er (NetCore * list (Wire + NodeOut)) :=
  '(sm, outs) ← r; Ret (set_sessions nc sm, map sessions_wire outs).

Definition wire_step (env : Env) (nc : NetCore) (w : Wire) : Er (NetCore * list (Wire + NodeOut)) :=
  match w with
  | TunToUpper m => upper_step nc (UpperDistributor.incomingFromTunAdapterIf malloc sp m (nc_upper nc))
  | UpperToTun m => outs ← TUNAdapter.incomingFromUpperDistributorIf m (nc_tun nc); Ret (nc, map tun_wire outs)
  | SessionsToUpper m => upper_step nc (UpperDistributor.incomingFromSessionManagerIf malloc sp m (nc_upper nc))
  | UpperToSessions m => sessions_step nc (SessionManager.incomingFromInsideIf malloc env (nc_sessions nc) m)
  | UpperToControl m => outs ← ControlHandler.incomingFromCore m (nc_control nc); Ret (nc, map control_wire outs)
  | ControlToUpper m => upper_step nc (UpperDistributor.incomingFromControlHandlerIf malloc sp m (nc_upper nc))
  | ControlToPinger m =>
      '(p, outs) ← SwitchPinger.messageFromControlHandler malloc (nc_pinger nc) m (now_ms env);
      Ret (set_nc_pinger nc p, map pinger_wire outs)
  | PingerToControl m => Ret (nc, map control_wire (ControlHandler.incomingFromSwitchPinger m))
  end.

Fixpoint dispatch (fuel : nat) (env : Env) (nc : NetCore) (ws : list (Wire + NodeOut)) : option (Er (NetCore * list NodeOut)) :=
  match fuel with
  | O => None
  | S fuel =>
      match ws with
      | [] => Some (Ret (nc, []))
      | inr o :: ws =>
          match dispatch fuel env nc ws with
          | Some (Ret (nc, outs)) => Some (Ret (nc, o :: outs))
          | r => r
          end
      | inl w :: ws =>
          match wire_step env nc w with
          | Ret (nc, ws') => dispatch fuel env nc (ws' ++ ws)
          | Abort why => Some (Abort why)
          end
      end
  end.

(** What reaches the parts from outside: the switch, the TUN device, the two
    interfaces of the IP tunnel, the events the emitter passes to the parts which
    registered for them, the control handler's and the session manager's timers. *)
Inductive NodeIn :=
| FromSwitch (msg : Message)
| FromDevice (msg : Message)
| FromTunnelToNode (msg : Message)
| FromTunnelToDevice (msg : Message)
| EventToUpper (msg : Message)
| EventToSessions (msg : Message)
| EventToControl (msg : Message)
| SessionTimer.

Definition receive (env : Env) (nc : NetCore) (i : NodeIn) : Er (NetCore * list (Wire + NodeOut)) :=
  match i with
  | FromSwitch m => sessions_step nc (SessionManager.incomingFromSwitchIf malloc env (nc_sessions nc) m)
  | FromDevice m => outs ← TUNAdapter.incomingFromTunIf m (nc_tun nc); Ret (nc, map tun_wire outs)
  | FromTunnelToNode m => upper_step nc (UpperDistributor.incomingFromIpTunnelIf malloc sp m (nc_upper nc))
  | FromTunnelToDevice m => Ret (nc, map tun_wire (TUNAdapter.incomingFromIpTunnelIf m (nc_tun nc)))
  | EventToUpper m => upper_step nc (UpperDistributor.incomingFromEventIf malloc sp m (nc_upper nc))
  | EventToSessions m => sessions_step nc (SessionManager.incomingFromEventIf malloc env (nc_sessions nc) m)
  | EventToControl m => ch ← ControlHandler.changeSnode m (nc_control nc); Ret (set_control nc ch, [])
  | SessionTimer => sessions_step nc (SessionManager.periodically malloc env (nc_sessions nc))
  end.

Definition node_step (fuel : nat) (env : Env) (nc : NetCore) (i : NodeIn) : option (Er (NetCore * list NodeOut)) :=
  match receive env nc i with
  | Ret (nc, ws) => dispatch fuel env nc ws
  | Abort why => Some (Abort why)
  end.
End Node.

(** ** Dispatching: more fuel, and messages one after the other *)

Section Dispatch.
Context {N : Nacl} (malloc : Z -> Z * list Z) (sp : Z).
#[local] Set Default Proof Using "All".

Lemma dispatch_more f : forall k env nc ws r, dispatch malloc sp f env nc ws = Some r -> dispatch malloc sp (f + k) env nc ws = Some r.
Proof.
  induction f as [|f IH]; intros k env nc ws r; cbn [dispatch Nat.add]; [done|]. destruct ws as [|[w|o] ws]; [done| |].
  - destruct (wire_step malloc sp env nc w) as [[nc' ws']|]; [apply IH|done].
  - destruct (dispatch malloc sp f env nc ws) as [[[nc' outs]|why]|] eqn:E; [| |done]; by rewrite (IH k _ _ _ _ E).
Qed.

(** Messages after others. *)
Lemma dispatch_app f1 : forall f2 env nc ws1 ws2 nc1 o1 r,
  dispatch malloc sp f1 env nc ws1 = Some (Ret (nc1, o1)) -> dispatch malloc sp f2 env nc1 ws2 = Some r ->
  dispatch malloc sp (f1 + f2) env nc (ws1 ++ ws2) =
    Some (match r with Ret (nc2, o2) => Ret (nc2, o1 ++ o2) | Abort why => Abort why end).
Proof.
  induction f1 as [|f1 IH]; intros f2 env nc ws1 ws2 nc1 o1 r; cbn [dispatch]; [done|].
  destruct ws1 as [|[w|o] ws1].
  - intros [= <- <-] H2. cbn [app]. rewrite Nat.add_comm. rewrite (dispatch_more f2 (S f1) _ _ _ _ H2). by destruct r as [[? ?]|].
  - intros H1 H2. cbn [app Nat.add dispatch]. destruct (wire_step malloc sp env nc w) as [[nc' ws']|]; [|done].
    rewrite app_assoc. by apply IH with nc1.
  - intros H1 H2. destruct (dispatch malloc sp f1 env nc ws1) as [[[nc' outs]|]|] eqn:E; [|done|done].
    injection H1 as <- <-. cbn [app Nat.add dispatch]. rewrite (IH f2 _ _ _ _ _ _ _ E H2). by destruct r as [[? ?]|].
Qed.

Lemma dispatch_abort f1 : forall f2 env nc ws1 ws2 why,
  dispatch malloc sp f1 env nc ws1 = Some (Abort why) -> dispatch malloc sp (f1 + f2) env nc (ws1 ++ ws2) = Some (Abort why).
Proof.
  induction f1 as [|f1 IH]; intros f2 env nc ws1 ws2 why; cbn [dispatch]; [done|]. destruct ws1 as [|[w|o] ws1]; [done| |].
  - intros H1. cbn [app Nat.add dispatch]. destruct (wire_step malloc sp env nc w) as [[nc' ws']|]; [|done].
    rewrite app_assoc. by apply IH.
  - intros H1. destruct (dispatch malloc sp f1 env nc ws1) as [[[nc' outs]|]|] eqn:E; [done| |done].
    injection H1 as <-. cbn [app Nat.add dispatch]. by rewrite (IH f2 _ _ _ _ _ E).
Qed.

(** ** No circles *)

(** Which wires a message may still come past. *)
Definition level (w : Wire) : nat :=
  match w with
  | TunToUpper _ => 7
  | SessionsToUpper _ => 7
  | UpperToControl _ => 6
  | ControlToPinger _ => 5
  | PingerToControl _ => 4
  | ControlToUpper _ => 3
  | UpperToSessions _ => 2
  | UpperToTun _ => 1
  end.
Definition below (k : nat) (x : Wire + NodeOut) : Prop := match x with inl w => (level w < k)%nat | inr _ => True end.

(** What a call which returns gives has the property. *)
Definition yields {A} (Q : A -> Prop) (r : Er A) : Prop := match r with Ret a => Q a | Abort _ => True end.

Lemma yields_bind {A B} (Q : B -> Prop) (m : Er A) (f : A -> Er B) : (forall a, yields Q (f a)) -> yields Q (m ≫= f).
Proof. intros H. destruct m as [a|]; cbn; [apply H|done]. Qed.
Lemma yields_after {A B} (P : A -> Prop) (Q : B -> Prop) (m : Er A) (f : A -> Er B) :
  yields P m -> (forall a, P a -> yields Q (f a)) -> yields Q (m ≫= f).
Proof. intros Hm H. destruct m as [a|]; cbn; [by apply H|done]. Qed.
Lemma yields_all {A} (r : Er A) : yields (fun _ => True) r.
Proof. by destruct r. Qed.
Lemma yields_mono {A} (P Q : A -> Prop) (r : Er A) : yields P r -> (forall a, P a -> Q a) -> yields Q r.
Proof. intros Hr H. destruct r; cbn; [by apply H|done]. Qed.

#[local] Hint Resolve yields_all : core.

(** Walks through a handler: its calls, its branches, its results. *)
Ltac walk :=
  repeat first
    [ progress cbv beta iota zeta
    | exact I
    | assumption
    | lazymatch goal with
      | |- yields _ (Ret _) => cbn [yields snd fst]
      | |- yields _ (Abort _) => exact I
      | |- yields _ (mbind _ _) => apply yields_bind; intros ?
      | |- yields _ (if ?b then _ else _) => destruct b
      | |- yields _ (match ?x with _ => _ end) => destruct x
      | |- Forall _ [] => apply Forall_nil; exact I
      | |- Forall _ (_ ++ _) => apply Forall_app; split
      | |- Forall _ (_ :: _) => apply Forall_cons; split
      end ].

(** The session manager answers a packet from inside to the switch and the
    pathfinder only. *)
Definition not_inside (o : SMOut) : Prop := match o with SMToInside _ => False | _ => True end.
Definition quiet {A} (r : A * list SMOut) : Prop := Forall not_inside r.2.

Lemma sendSession_quiet sess path pf ev : yields not_inside (sendSession malloc sess path pf ev).
Proof. unfold sendSession. walk. Qed.
Lemma triggerSearch_quiet target version : yields not_inside (triggerSearch malloc target version).
Proof. unfold triggerSearch. walk. Qed.
Lemma unsetupSession_quiet sess : yields (Forall not_inside) (unsetupSession malloc sess).
Proof. unfold unsetupSession. walk. Qed.
Lemma needsLookup_quiet env sm m : yields quiet (needsLookup malloc env sm m).
Proof.
  unfold needsLookup, quiet. apply yields_bind. intros sm'. eapply yields_after; [apply triggerSearch_quiet|]. intros o Ho. walk.
Qed.
Lemma readyToSend_quiet env sm m i : yields quiet (readyToSend env sm m i).
Proof. unfold readyToSend, quiet. walk. Qed.
Lemma discoverPath_quiet now sess label metric : yields quiet (discoverPath malloc now sess label metric).
Proof.
  unfold discoverPath, quiet. destruct (label =? 0); [walk|]. destruct (pathForLabel sess label); [walk|]. cbv zeta.
  destruct (_ <=? metric); [walk|]. destruct (_ =? label); [|walk].
  eapply yields_after; [apply sendSession_quiet|]. intros o Ho. walk.
Qed.
Lemma getSession_quiet env sm ip pk version label metric : yields quiet (getSession malloc env sm ip pk version label metric).
Proof.
  unfold getSession, quiet. apply yields_bind. intros _. cbv zeta. apply yields_bind. intros [[i|] sm'].
  - apply yields_bind. intros sess. eapply yields_after; [apply discoverPath_quiet|]. intros [[s b] outs] Ho. walk.
  - apply yields_bind. intros _. destruct (Map_put true ip _ (ifaceMap sm')) as [k mp].
    eapply yields_after; [apply sendSession_quiet|]. intros o Ho. walk.
Qed.
Lemma send_by_session_quiet env sm m i : yields quiet (send_by_session malloc env sm m i).
Proof.
  unfold send_by_session. apply yields_bind. intros sess. cbv zeta.
  destruct (s_version _ =? 0); [apply needsLookup_quiet|]. destruct (_ && _); [apply needsLookup_quiet|].
  apply yields_bind. intros m'. apply yields_bind. intros ca. destruct (CryptoAuth_getState ca <? _); [|apply readyToSend_quiet].
  destruct (hdr_contentType m' =? _).
  - apply (yields_after (Forall not_inside)); [destruct (negb _); [apply unsetupSession_quiet|by apply Forall_nil]|].
    intros outs Ho. eapply yields_after; [apply readyToSend_quiet|]. unfold quiet. intros [sm' outs'] Ho'. walk.
  - apply yields_bind. intros sm'. eapply yields_after; [apply unsetupSession_quiet|]. intros outs Ho. walk.
Qed.
Lemma inside_quiet env sm m : yields quiet (SessionManager.incomingFromInsideIf malloc env sm m).
Proof.
  unfold SessionManager.incomingFromInsideIf. apply yields_bind. intros _.
  destruct (negb _); [unfold outgoingCtrlFrame, quiet; walk|]. apply yields_bind. intros _. apply yields_bind. intros [[i|] sm'].
  - apply send_by_session_quiet.
  - destruct (_ && _); [|apply needsLookup_quiet].
    eapply yields_after; [apply getSession_quiet|]. intros [[i sm1] outs] Ho.
    eapply yields_after; [apply send_by_session_quiet|]. unfold quiet in *. intros [sm2 outs'] Ho'. walk.
Qed.

(** The upper distributor passes what the control handler sends to the sessions and
    copies of it to the device. *)
Definition not_control (o : UDOut) : Prop := match o with UDToTunAdapter _ | UDToSessionManager _ => True | _ => False end.
Lemma sendToHandlers_loop_tun m type ud hs : yields (Forall not_control) (sendToHandlers_loop malloc sp m type ud hs).
Proof.
  induction hs as [|e hs IH]; cbn [sendToHandlers_loop]; [by apply Forall_nil|]. destruct (negb _); [done|].
  apply yields_bind. intros c. eapply yields_after; [apply IH|]. intros outs Ho. walk.
Qed.
Lemma fromControl_tun m ud : yields (fun r => Forall not_control r.2) (UpperDistributor.incomingFromControlHandlerIf malloc sp m ud).
Proof.
  unfold UpperDistributor.incomingFromControlHandlerIf. do 3 (apply yields_bind; intros _).
  apply (yields_after (fun r => Forall not_control r.2)).
  - unfold sendToHandlers. destruct (negb _); [by apply Forall_nil|].
    eapply yields_after; [apply sendToHandlers_loop_tun|]. intros outs Ho. walk.
  - intros [ud' outs] Ho. walk.
Qed.

Lemma upper_tun_leaves m ta : yields (Forall (fun o => exists m', o = TAToTun m')) (TUNAdapter.incomingFromUpperDistributorIf m ta).
Proof.
  unfold TUNAdapter.incomingFromUpperDistributorIf, sendToTunIf.
  repeat (cbv zeta; first [apply yields_bind; intros ?|destruct (negb _)]); walk. by eexists.
Qed.

(** A part never sends on a wire at or above the one the message came by. *)
Lemma wire_step_below env nc w : yields (fun r => Forall (below (level w)) r.2) (wire_step malloc sp env nc w).
Proof.
  destruct w as [m|m|m|m|m|m|m|m]; cbn [wire_step level]; unfold upper_step, sessions_step.
  - apply yields_bind. intros [ud outs]. cbn. apply Forall_map, Forall_true. intros []; cbn; lia.
  - eapply yields_after; [apply upper_tun_leaves|]. intros outs Ho. cbn. apply Forall_map.
    eapply Forall_impl; [exact Ho|]. by intros o [m' ->].
  - apply yields_bind. intros [ud outs]. cbn. apply Forall_map, Forall_true. intros []; cbn; lia.
  - eapply yields_after; [apply inside_quiet|]. intros [sm outs] Ho. cbn. apply Forall_map.
    eapply Forall_impl; [exact Ho|]. intros []; cbn; by try lia.
  - apply yields_bind. intros outs. cbn. apply Forall_map, Forall_true. intros []; cbn; lia.
  - eapply yields_after; [apply fromControl_tun|]. intros [ud outs] Ho. cbn. apply Forall_map.
    eapply Forall_impl; [exact Ho|]. intros []; cbn; by try lia.
  - apply yields_bind. intros [p outs]. cbn. apply Forall_map, Forall_true. intros []; cbn; lia.
  - cbn. apply Forall_cons. split; [cbn; lia|by apply Forall_nil].
Qed.

Lemma dispatch_below k : forall env nc ws, Forall (below k) ws -> exists fuel r, dispatch malloc sp fuel env nc ws = Some r.
Proof.
  induction k as [k IHk] using lt_wf_ind. intros env nc ws. revert nc. induction ws as [|[w|o] ws IH]; intros nc Hws.
  - by exists 1%nat, (Ret (nc, [])).
  - apply Forall_cons in Hws as [Hw Hws]. cbn in Hw. pose proof (wire_step_below env nc w) as Hb.
    destruct (wire_step malloc sp env nc w) as [[nc1 ws1]|why] eqn:E; cbn in Hb.
    + destruct (IHk (level w) Hw env nc1 ws1 Hb) as (f1 & r1 & E1). destruct r1 as [[nc2 o1]|why].
      * destruct (IH nc2 Hws) as (f2 & r2 & E2). eexists (S (f1 + f2)), _. cbn [dispatch]. rewrite E.
        by apply (dispatch_app f1 f2 _ _ _ _ nc2 o1 r2).
      * exists (S (f1 + 0)), (Abort why). cbn [dispatch]. rewrite E. by apply dispatch_abort.
    + exists 1%nat, (Abort why). cbn [dispatch]. by rewrite E.
  - apply Forall_cons in Hws as [_ Hws]. destruct (IH nc Hws) as (f & r & E).
    exists (S f). cbn [dispatch]. rewrite E. destruct r as [[nc' outs]|why]; by eexists.
Qed.
End Dispatch.

(** ** The node always answers *)

(** Whatever the state of the parts and whatever comes from the switch, the
    device, the tunnel, the pathfinder or a timer, the calls of these parts into each
    other come to an end: with some fuel the dispatcher returns, and more fuel
    gives the same answer.  So no packet can send the session manager, the upper
    distributor, the control handler, the pinger and the TUN adapter in a circle
    among themselves; the switch core, the event emitter and the interface controller
    are outside of this model, and what the parts send them leaves it. *)
Theorem dispatch_terminates : forall (N : Nacl) malloc sp env nc i, exists fuel r, forall k,
  node_step malloc sp (fuel + k) env nc i = Some r.
Proof.
  intros N malloc sp env nc i. unfold node_step. destruct (receive malloc sp env nc i) as [[nc1 ws]|why]; [|by exists 0%nat, (Abort why)].
  destruct (dispatch_below malloc sp 8 env nc1 ws) as (f & r & E).
  - apply Forall_true. intros [[]|]; cbn; lia.
  - exists f, r. intros k. by apply dispatch_more.
Qed.
