(* ===== verification/NodeDelivery.v ===== *)
(** * From one TUN device to another

    [node_delivers_ip6] follows an IPv6 packet through two whole nodes: from the
    TUN device of one through its TUN adapter, upper distributor and session
    manager into the switch, and from the switch of the other through its session
    manager, upper distributor and TUN adapter to its device.  It is the
    composition of what the parts' files prove ([tun_outgoing], [running_delivery],
    [fromSession_gen], [tun_incoming]) along the wires of NetCore.v. *)
From stdpp Require Import gmap.
From S2P Require Import Prelude Bits Message Checksum MsgAt Headers RouteHeader PFChan Nacl Key Address.
From S2P Require Import ReplayProtector CryptoAuth CryptoAuthProofs CryptoFrame HandleMap Pinger TUNAdapter UpperDistributor.
From S2P Require Import SessionManager SessionProofs SessionSafety SessionDelivery ControlHandler SwitchPinger NetCore.

(** ** The upper distributor without programs *)

(** No program on the host has registered for packets of this kind. *)
Definition no_program (type : Z) (ud : UpperDistributor) : Prop := noSendToHandler ud = 0 /\ handlers_for type ud = [].

Lemma no_program_silent malloc sp m type ud : no_program type ud -> sendToHandlers malloc sp m type ud = Ret (ud, []).
Proof.
  intros [Hno Hh]. unfold sendToHandlers. rewrite Hno. cbn [Z.eqb negb]. unfold handlers_for in Hh.
  assert (sendToHandlers_loop malloc sp m type ud (map_entries (ud_handlers ud)) = Ret []) as ->; [|done].
  revert Hh. generalize (map_entries (ud_handlers ud)). intros es. induction es as [|e es IH]; [done|]. cbn [sendToHandlers_loop fmap list_fmap].
  destruct (Z.eqb_spec (h_type (e_value e)) type) as [E|E]; cbn [negb].
  - by rewrite filter_cons_True.
  - rewrite filter_cons_False by done. exact IH.
Qed.

(** ** The headers on the way *)

Lemma dest_header_addressed dst : length dst = 16%nat -> addressed (dest_header dst) dst.
Proof.
  intros Hd. unfold dest_header. split.
  - by rewrite length_app, Hd.
  - by rewrite (rd_prefix (zeros 52) dst 32 8) by done.
  - by rewrite (rd_prefix (zeros 52) dst 44 4) by done.
  - done.
  - unfold rd. rewrite drop_app_length' by done. by rewrite take_ge by (rewrite Hd; done).
Qed.

Lemma incoming_route_shape s sh unused nh payload :
  length (herPublicKey (caSession s)) = 32%nat -> length sh = 12%nat -> length unused = 2%nat ->
  exists front, incoming_route s sh unused ++ [16; 0; 0; nh] ++ payload = routed (front ++ herIp6 (caSession s)) nh payload /\
    length front = 52%nat /\ get front 48 = RouteHeader_flags_INCOMING.
Proof.
  intros Hk Hs Hu.
  exists (herPublicKey (caSession s) ++ sh ++ be_bytes 4 (s_version s) ++ [RouteHeader_flags_INCOMING; 0] ++ unused). split_and!.
  - unfold incoming_route, routed. by rewrite <- !app_assoc.
  - rewrite !length_app, length_be_bytes. cbn [length]. lia.
  - unfold get. change (Z.to_nat 48) with 48%nat. rewrite nth_lookup. rewrite lookup_app_r by lia. rewrite Hk. rewrite lookup_app_r by lia. by rewrite Hs.
Qed.

Section Delivery.
Context {N : Nacl} {L : NaclLaws N}.
#[local] Set Default Proof Using "All".

(** ** Through one node *)

(** From the device to the switch. *)
Lemma device_to_session malloc sp env nc m a pre vcf plen nh hops src dst payload post :
  msg_at m a pre (tun_type Ethernet_TYPE_IP6 ++ ip6_packet vcf plen nh hops src dst payload) post ->
  28 <= len pre -> length vcf = 4%nat -> Headers_getIpVersion vcf = 6 -> length plen = 2%nat -> byte nh ->
  length src = 16%nat -> length dst = 16%nat -> ta_myIp6 (nc_tun nc) = src ->
  AddressCalc_validAddress dst = true -> dst <> src -> dst <> magic_ip6 -> no_program nh (nc_upper nc) ->
  exists m' pre', msg_at m' (a - 28) pre' (dest_header dst ++ [16; 0; 0; nh] ++ payload) post /\ len pre' = len pre - 28 /\
    forall sm' m1, SessionManager.incomingFromInsideIf malloc env (nc_sessions nc) m' = Ret (sm', [SMToSwitch m1]) ->
    forall k, node_step malloc sp (4 + k) env nc (FromDevice m) = Some (Ret (set_sessions nc sm', [OutSwitch m1])).
Proof.
  intros Hm Hpre Hvcf Hv Hpl Hnh Hsrc Hdst Hmy Hvalid Hne Hmagic Hprog.
  destruct (tun_outgoing m a pre vcf plen nh hops src dst payload post (nc_tun nc)) as (m' & pre' & Etun & Hm' & Hpre'); try done.
  exists m', pre'. split; [done|]. split; [done|]. intros sm' m1 Ein k. unfold node_step, receive. rewrite Etun, bind_of_ret.
  unfold routed, dest_header in Hm'. cbn [map tun_wire Nat.add dispatch wire_step app].
  unfold UpperDistributor.incomingFromTunAdapterIf, toSessionManagerIf.
  destruct (at_content _ _ _ _ _ Hm') as [_ Hlen]. rewrite !length_app in Hlen. cbn [length] in Hlen. change (length (zeros 52)) with 52%nat in Hlen.
  rewrite Hlen. rewrite !(proj2 (Z.geb_le _ _)) by (header_sizes; lia). cbn [Assert_true]. rewrite !bind_of_ret.
  rewrite (at_read_of m' _ _ _ _ (zeros 52) dst ([16; 0; 0; nh] ++ payload) 52 16 Hm') by (done || (by rewrite <- app_assoc) || lia).
  rewrite memcmp_zero_iff by (by rewrite Hdst, magic_ip6_length). rewrite bool_decide_false by done.
  rewrite (contentType_at m' _ _ _ _ Hm') by (rewrite !length_app; cbn [length]; change (length (zeros 52)) with 52%nat; lia).
  rewrite rd_app by (done || (rewrite length_app; change (length (zeros 52)) with 52%nat; lia)).
  rewrite data_header_get by done. rewrite no_program_silent by done. rewrite !bind_of_ret. cbv beta iota zeta.
  cbn [app]. unfold upper_step at 1. rewrite bind_of_ret. cbv beta iota zeta. cbn [map upper_wire app].
  cbn [dispatch wire_step nc_sessions set_upper]. rewrite Ein. unfold sessions_step. rewrite bind_of_ret.
  destruct nc. reflexivity.
Qed.

(** The message of an event. *)
Definition event_of (o : SMOut) : Message := match o with SMToSwitch m | SMToInside m | SMToEvent m => m end.

Lemma dispatch_events malloc sp env nc outs : forall fuel ws nc' o, Forall is_event outs ->
  dispatch malloc sp fuel env nc ws = Some (Ret (nc', o)) ->
  dispatch malloc sp (length outs + fuel) env nc (map sessions_wire outs ++ ws) =
    Some (Ret (nc', (OutEvent <$> (event_of <$> outs)) ++ o)).
Proof.
  induction outs as [|x outs IH]; intros fuel ws nc' o Hev E; [exact E|]. apply Forall_cons in Hev as [Hx Hev].
  destruct x as [m|m|m]; try done. cbn [map sessions_wire app length Nat.add dispatch fmap list_fmap event_of].
  by rewrite (IH _ _ _ _ Hev E).
Qed.

(** From the switch to the device. *)
Lemma session_to_device malloc sp env nc m sm' outs m3 a3 pre3 s sh unused nh payload post :
  malloc_ok malloc -> sp mod 2 = 0 ->
  SessionManager.incomingFromSwitchIf malloc env (nc_sessions nc) m = Ret (sm', outs ++ [SMToInside m3]) -> Forall is_event outs ->
  msg_at m3 a3 pre3 (incoming_route s sh unused ++ [16; 0; 0; nh] ++ payload) post -> 8 <= len pre3 ->
  length (herPublicKey (caSession s)) = 32%nat -> length (herIp6 (caSession s)) = 16%nat -> length sh = 12%nat -> length unused = 2%nat ->
  byte nh -> len payload < 65536 -> length (ta_myIp6 (nc_tun nc)) = 16%nat -> tunIf_connected (nc_tun nc) = true ->
  no_program nh (nc_upper nc) ->
  exists m4 events fuel, (forall k, node_step malloc sp (fuel + k) env nc (FromSwitch m) =
      Some (Ret (set_sessions nc sm', (OutEvent <$> events) ++ [OutDevice m4]))) /\
    msg_content m4 = tun_type Ethernet_TYPE_IP6 ++ rebuilt nh (herIp6 (caSession s)) (ta_myIp6 (nc_tun nc)) payload.
Proof.
  intros Hmal Hsp Ein Hev Hm Hpre Hkey Hip Hsh Hun Hnh Hpl Hmy Hconn Hprog.
  destruct (incoming_route_shape s sh unused nh payload Hkey Hsh Hun) as (front & E & Hf & Hflag). rewrite E in Hm. clear E.
  set (c := routed _ _ _) in Hm.
  assert (get c 48 = RouteHeader_flags_INCOMING) as Hc48.
  { rewrite <- Hflag. unfold c, routed, get. change (Z.to_nat 48) with 48%nat. rewrite !nth_lookup. by rewrite <- !app_assoc, lookup_app_l by lia. }
  assert (rd 68 4 c = [16; 0; 0; nh]) as Hrd by (unfold c, routed; apply rd_app; rewrite ?length_app; cbn [length]; lia).
  assert (72 <= len c) as Hlc by (unfold c, routed; rewrite !length_app; cbn [length]; lia).
  assert (kind_of c = nh) as Hkind by (unfold kind_of; rewrite Hc48, Hrd; cbn; by apply data_header_get).
  destruct (fromSession_gen malloc sp Hmal Hsp m3 a3 pre3 c post (nc_upper nc) (nc_upper nc) []) as (dest & Eup & Hd);
    [done|lia|lia|lia|rewrite Hkind; by apply no_program_silent|].
  assert (dest = [UDToTunAdapter m3]) as ->.
  { inversion Hd as [Hx|Hx|? ? Hx Hy|Hx Hy|Hx Hy]; try done; [by rewrite Hc48 in Hx|exfalso..].
    all: rewrite Hrd, data_header_get in Hy by done; unfold fits in Hnh; revert Hy;
      unfold ContentType_HYPERBORIADHT, ContentType_IPTUN; lia. }
  destruct (tun_incoming m3 a3 pre3 front (herIp6 (caSession s)) nh payload post (nc_tun nc)) as (m4 & pre4 & Etun & Hm4 & _); try done.
  exists m4, (event_of <$> outs), (length outs + 4)%nat. split; [|by destruct (at_content _ _ _ _ _ Hm4) as [-> _]].
  intros k. unfold node_step, receive, sessions_step. rewrite Ein, bind_of_ret. cbv beta iota zeta.
  rewrite map_app. cbn [map sessions_wire]. rewrite <- Nat.add_assoc.
  apply (dispatch_events malloc sp env _ outs (4 + k) [inl (SessionsToUpper m3)] _ _ Hev).
  cbn [Nat.add dispatch wire_step nc_upper set_sessions]. unfold upper_step. rewrite Eup, bind_of_ret. cbv beta iota zeta.
  cbn [map upper_wire app dispatch wire_step nc_tun set_upper set_sessions]. rewrite Etun, bind_of_ret.
  cbn [map tun_wire app dispatch]. destruct nc. reflexivity.
Qed.

(** ** Two nodes with a session *)

(** The node [A] has a session [sA] for the address, on which it can send; [B] has
    the other end under the handle which [A] puts into its packets.  No program
    of either host listens to packets of the kind [nh]. *)
Record linked (nA nB tA tB nh : Z) (ncA ncB : NetCore) (dst : list Z) (sA sB : SMSession) : Prop := {
  ln_okA : sm_ok nA tA (nc_sessions ncA);
  ln_okB : sm_ok nB tB (nc_sessions ncB);
  ln_session : session_for (nc_sessions ncA) dst = Some sA;
  ln_can : can_send sA;
  ln_handle : 4 <= sendHandle sA < 0xffffffff;
  ln_other : session_with (nc_sessions ncB) (sendHandle sA) = Some sB;
  ln_found : foundKey sB = true;
  ln_paired : paired (caSession sA) (caSession sB);
  ln_device : tunIf_connected (nc_tun ncB) = true /\ length (ta_myIp6 (nc_tun ncB)) = 16%nat;
  ln_silent : no_program nh (nc_upper ncA) /\ no_program nh (nc_upper ncB);
}.

(** An IPv6 packet which the device of the node may send to [dst]. *)
Record for_node (nc : NetCore) (nh : Z) (dst vcf plen src : list Z) : Prop := {
  fn_version : length vcf = 4%nat /\ Headers_getIpVersion vcf = 6;
  fn_plen : length plen = 2%nat;
  fn_kind : byte nh;
  fn_src : length src = 16%nat /\ ta_myIp6 (nc_tun nc) = src;
  fn_dst : length dst = 16%nat /\ bytes dst /\ AddressCalc_validAddress dst = true;
  fn_other : dst <> src /\ dst <> magic_ip6;
}.

(** [C10] Two nodes share an established session.  An IPv6 packet from the TUN
    device of one, from its own address to the address of the other, leaves its
    switch as one encrypted packet along the label of the best path.  Whatever
    the switches make of the switch header, when the packet comes out of the
    switch of the other node its TUN device gets an IPv6 packet with the same
    next header and payload, to its own address and from the address which
    belongs to the key of the session, after at most some events for the
    pathfinder.  Both nodes are then ready for the next packet. *)
Theorem node_delivers_ip6 malloc mallocB spA spB nA nB envA envB ncA ncB nh dst sA sB m a pre vcf plen hops src payload post :
  malloc_ok malloc -> malloc_ok mallocB -> spB mod 2 = 0 -> env_ok envB -> 1 <= nA -> 1 <= nB ->
  linked nA nB (now_ms envA) (now_ms envB) nh ncA ncB dst sA sB -> fresh (caSession sA) (now_s envA) ->
  msg_at m a pre (tun_type Ethernet_TYPE_IP6 ++ ip6_packet vcf plen nh hops src dst payload) post ->
  for_node ncA nh dst vcf plen src -> len payload < 65536 -> 100 <= len pre -> a mod 4 = 0 ->
  exists ncA' m1 packet,
    (forall k, node_step malloc spA (4 + k) envA ncA (FromDevice m) = Some (Ret (ncA', [OutSwitch m1]))) /\
    msg_content m1 = outgoing_header (p_label (path0 sA)) ++ packet /\
    forall m2 a2 pre2 sh post2, msg_at m2 a2 pre2 (sh ++ packet) post2 -> length sh = 12%nat -> 64 <= len pre2 ->
      a2 mod 4 = 0 -> (len packet + len post2) mod 4 = 0 ->
      exists ncB' m3 events fuel sA' sB',
        (forall k, node_step mallocB spB (fuel + k) envB ncB (FromSwitch m2) =
           Some (Ret (ncB', (OutEvent <$> events) ++ [OutDevice m3]))) /\
        msg_content m3 = tun_type Ethernet_TYPE_IP6 ++ rebuilt nh (herIp6 (caSession sB)) (ta_myIp6 (nc_tun ncB)) payload /\
        linked (nA - 1) (nB - 1) (now_ms envA) (now_ms envB) nh ncA' ncB' dst sA' sB'.
Proof.
  intros HmA HmB Hsp HenvB HnA HnB Hln Hfr Hm [[Hv1 Hv2] Hpl Hnh [Hs1 Hs2] (Hd1 & Hd2 & Hd3) [Ho1 Ho2]] Hlen Hpre Ha.
  pose proof Hln as [HokA HokB HsA Hcan Hh HsB HfB Hpair [Hconn Hmy] [HqA HqB]].
  destruct (device_to_session malloc spA envA ncA m a pre vcf plen nh hops src dst payload post) as (m' & pre' & Hm' & Hpre' & Hdev); try done; [lia|].
  destruct (running_delivery malloc mallocB nA nB envA envB (nc_sessions ncA) (nc_sessions ncB) dst sA sB m' (a - 28) pre'
    (dest_header dst) ([16; 0; 0; nh] ++ payload) post) as (smA' & m1 & sA' & packet & Hrun & Hc & HokA' & HsA' & Hcan' & Hsame & Hrecv);
    try done.
  { by apply dest_header_addressed. }
  { apply bytes_app. split; [apply zeros_bytes|done]. }
  { rewrite length_app. cbn [length]. lia. }
  { lia. }
  { Z.to_euclidean_division_equations; lia. }
  exists (set_sessions ncA smA'), m1, packet. split; [by apply Hdev|]. split; [done|]. intros m2 a2 pre2 sh post2 I1 I2 I3 I4 I5.
  destruct (Hrecv m2 a2 pre2 sh post2 I1 I2 I3 I4 I5) as (smB' & m3 & a3 & pre3 & outs & sB' & unused & Hr & Hev & Hm3 & Hp3 & Hu & HokB' & HsB' & HfB' & Hpair').
  destruct (session_with_index mallocB HmB _ _ _ _ _ HokB HsB HfB) as (i & e & _ & He & _ & Hval).
  pose proof (sm_ok_entry _ _ _ _ _ HokB He) as (Ek & Ei & Hso & _). rewrite Hval in Ek, Ei, Hso.
  destruct (session_to_device mallocB spB envB ncB m2 smB' outs m3 a3 pre3 sB (reversed_header sh) unused nh payload post2)
    as (m4 & events & fuel & Hstep & Hc4); try done.
  { lia. }
  { apply (so_herlen _ Hso). }
  { rewrite Ei, Ek. apply address_length. }
  { unfold reversed_header. rewrite length_app, length_le_bytes, length_drop. lia. }
  exists (set_sessions ncB smB'), m4, events, fuel, sA', sB'. split; [done|]. split; [done|].
  split; cbn; rewrite ?Hsame; done.
Qed.
End Delivery.

(** ** An example: Alice's host sends Bob's host a packet *)

#[local] Existing Instance toy_nacl.
#[local] Existing Instance toy_laws.

Definition alice_address : list Z := (AddressCalc_addressForPublicKey (replicate 32 2)).2.

Definition node_of (sm : SessionManager) (pk my : list Z) : NetCore :=
  let addr := mkAddress Version_CURRENT_PROTOCOL 0 my pk 1 in
  mkNetCore addr sm (UpperDistributor_new addr) (ControlHandler_new pk) (SwitchPinger_new 0 addr) (mkTUNAdapter my true).
Definition alice_node : NetCore := node_of alice_manager (replicate 32 2) alice_address.
Definition bob_node : NetCore := node_of bob_manager (replicate 32 4) bob_address.

Definition host_packet : list Z :=
  tun_type Ethernet_TYPE_IP6 ++ ip6_packet [96; 0; 0; 0] [0; 4] 59 64 alice_address bob_address [1; 2; 3; 4].
Definition host_message : Message := buffer 100 host_packet.

Definition node_sent_bytes : list Z := Eval vm_compute in
  match node_step flat_malloc 0 4 example_env alice_node (FromDevice host_message) with
  | Some (Ret (_, [OutSwitch m])) => msg_content m
  | _ => []
  end.

Lemma node_sent_spec nc m1 : node_step flat_malloc 0 4 example_env alice_node (FromDevice host_message) = Some (Ret (nc, [OutSwitch m1])) ->
  msg_content m1 = node_sent_bytes.
Proof.
  intros H. transitivity (match node_step flat_malloc 0 4 example_env alice_node (FromDevice host_message) with
    | Some (Ret (_, [OutSwitch m])) => msg_content m | _ => [] end); [by rewrite H|by vm_compute].
Qed.

Lemma host_message_at : msg_at host_message (4096 + 100) (replicate 100 0) host_packet [].
Proof. apply (buffer_at 100). by vm_compute. Qed.

Lemma host_packet_for_bob : for_node alice_node 59 bob_address [96; 0; 0; 0] [0; 4] alice_address.
Proof.
  split; try done. split; [done|]. split; [ground_bytes|by vm_compute].
Qed.

Lemma nodes_linked : linked 1 1 (10 ^ 12 + 1) (10 ^ 12 + 1) 59 alice_node bob_node bob_address
  (example_session (running true 4)) (example_session (running false 2)).
Proof.
  assert (ca_ok alice_ca /\ ca_ok bob_ca) as [Ha Hb] by done.
  pose proof (running_plain true 4 eq_refl) as HpA. pose proof (running_plain false 2 eq_refl) as HpB. split.
  - exact (one_session_ok alice_ca _ 100 Ha HpA).
  - exact (one_session_ok bob_ca _ 100 Hb HpB).
  - exact (proj1 (one_session_found alice_ca _ Ha HpA)).
  - apply example_can_send.
  - cbn. lia.
  - exact (proj2 (one_session_found bob_ca _ Hb HpB)).
  - done.
  - apply running_paired.
  - done.
  - done.
Qed.

Lemma node_delivers_ip6_witness : exists ncA' m1 ncB' m3 events fuel,
  node_step flat_malloc 0 4 example_env alice_node (FromDevice host_message) = Some (Ret (ncA', [OutSwitch m1])) /\
  node_step flat_malloc 0 fuel example_env bob_node (FromSwitch (buffer 64 (msg_content m1))) =
    Some (Ret (ncB', (OutEvent <$> events) ++ [OutDevice m3])) /\
  msg_content m3 = tun_type Ethernet_TYPE_IP6 ++ rebuilt 59 alice_address bob_address [1; 2; 3; 4].
Proof.
  assert (malloc_ok flat_malloc) as Hmalloc by (intros n; apply length_replicate).
  destruct (node_delivers_ip6 flat_malloc flat_malloc 0 0 1 1 example_env example_env alice_node bob_node 59 bob_address
    (example_session (running true 4)) (example_session (running false 2)) host_message (4096 + 100) (replicate 100 0)
    [96; 0; 0; 0] [0; 4] 64 alice_address [1; 2; 3; 4] [] Hmalloc Hmalloc eq_refl example_env_ok ltac:(lia) ltac:(lia)
    nodes_linked (running_fresh _ _) host_message_at host_packet_for_bob ltac:(by vm_compute) ltac:(by vm_compute) ltac:(by vm_compute))
    as (ncA' & m1 & packet & Hrun & Hcont & Hrecv).
  specialize (Hrun 0%nat).
  assert (packet = drop 12 node_sent_bytes /\ take 12 node_sent_bytes = outgoing_header 21) as [-> Hh].
  { pose proof (node_sent_spec _ _ Hrun) as H0. rewrite Hcont in H0. rewrite <- H0. by split. }
  destruct (Hrecv (buffer 64 (msg_content m1)) (4096 + 64) (replicate 64 0) (outgoing_header 21) []) as
    (ncB' & m3 & events & fuel & sA' & sB' & Hrun' & Hcont' & _); [|done|by vm_compute|by vm_compute|by vm_compute|].
  { rewrite Hcont. apply (buffer_at 64). by vm_compute. }
  exists ncA', m1, ncB', m3, events, (fuel + 0)%nat. split; [done|]. split; [apply Hrun'|]. exact Hcont'.
Defined.

(** ** A packet which stops the other node

    The session manager checks that a decrypted packet has a data header only after
    it has put the route header in front, so the check never fails; the upper
    distributor then asserts that the data header is there.  An empty packet in a
    handshake, from anyone, ends the process. *)
Definition empty_hello : list Z := Eval vm_compute in
  match CryptoAuth_encrypt (CryptoAuth_newSession (replicate 32 4) false 1000) alice_ca (buffer 140 (be_bytes 4 5)) 1000
          (replicate 36 8) (replicate 32 9) with
  | Ret (m, _) => msg_content m
  | Abort _ => []
  end.

Example empty_hello_stops_node : exists why,
  node_step flat_malloc 0 20 example_env (node_of (SessionManager_new bob_ca 0) (replicate 32 4) bob_address)
    (FromSwitch (buffer 124 (zeros 7 ++ [0x15] ++ zeros 4 ++ empty_hello))) = Some (Abort why).
Proof. eexists. vm_compute. reflexivity. Qed.
