(* ===== verification/Sockaddr.v ===== *)
(** * util/platform/Sockaddr.c: socket addresses and their text

    A [Sockaddr] is the memory of the struct: eight bytes of header (length,
    flags, type, prefix, padding) and the native [sockaddr_in] or
    [sockaddr_in6] in the layout of Linux.  The conversion of the address itself
    ([uv_inet_pton], [uv_inet_ntop] of libuv) is the interface [InetText].
    Strings are the bytes in front of the terminator; a pointer into a string is
    an index. *)
From S2P Require Import Prelude Bits Message Base10 Hex.

(** ** Definitions *)

Abbreviation Sockaddr := (list Z).

Definition Sockaddr_AF_INET : Z := 2.
Definition Sockaddr_AF_INET6 : Z := 10.
Definition Sockaddr_flags_BCAST : Z := 1.
Definition Sockaddr_flags_PREFIX : Z := 2.
Definition Sockaddr_PLATFORM : Z := 0.
Definition Sockaddr_HANDLE : Z := 1.
Definition Sockaddr_OVERHEAD : Z := 8.
Definition Sockaddr_MAXSIZE : Z := 128.
Definition Sockaddr_addrHandle_INVALID : Z := 0xffffffff.
Definition sizeof_sockaddr_in : Z := 16.
Definition sizeof_sockaddr_in6 : Z := 28.
Definition sizeof_Sockaddr_storage : Z := 136.

(** The fields. *)
Definition sa_addrLen (addr : Sockaddr) : Z := le_val (rd 0 2 addr).
Definition sa_flags (addr : Sockaddr) : Z := get addr 2.
Definition sa_type (addr : Sockaddr) : Z := get addr 3.
Definition sa_prefix (addr : Sockaddr) : Z := get addr 4.
Definition sa_family (addr : Sockaddr) : Z := le_val (rd 8 2 addr).

(** [uv_inet_pton(af, text)] and [uv_inet_ntop(af, bytes)]; [None] is an error. *)
Class InetText := {
  inet_pton : Z -> list Z -> option (list Z);
  inet_ntop : Z -> list Z -> option (list Z);
}.

(** libuv/src/inet.c is not modelled; what its documentation promises: the text
    of an address is read back, it fits [INET6_ADDRSTRLEN], it is made of digits
    and dots or of hexadecimal digits, colons and dots, and the text of an IPv6
    address has at least two colons. *)
Definition is_hex_digit (c : Z) : bool :=
  ((48 <=? c) && (c <=? 57)) || ((97 <=? c) && (c <=? 102)).

Class InetTextLaws (I : InetText) := {
  ntop4 a : length a = 4%nat -> bytes a ->
    exists t, inet_ntop Sockaddr_AF_INET a = Some t /\ inet_pton Sockaddr_AF_INET t = Some a /\
      (1 <= length t <= 15)%nat /\ Forall (fun c => is_hex_digit c = true \/ c = 46) t;
  ntop6 a : length a = 16%nat -> bytes a ->
    exists t, inet_ntop Sockaddr_AF_INET6 a = Some t /\ inet_pton Sockaddr_AF_INET6 t = Some a /\
      (1 <= length t <= 45)%nat /\
      Forall (fun c => is_hex_digit c = true \/ c = 46 \/ c = 58) t /\
      exists t1 t2 t3, t = t1 ++ 58 :: t2 ++ 58 :: t3;
}.

(** [strchr] and [strrchr]. *)
Fixpoint strchr (s : list Z) (c : Z) : option nat :=
  match s with
  | [] => None
  | x :: s => if x =? c then Some 0%nat else S <$> strchr s c
  end.
Fixpoint strrchr (s : list Z) (c : Z) : option nat :=
  match s with
  | [] => None
  | x :: s =>
      match strrchr s c with
      | Some i => Some (S i)
      | None => if x =? c then Some 0%nat else None
      end
  end.

Definition Sockaddr_getFamily (sockaddr : Sockaddr) : Z :=
  if sa_addrLen sockaddr <? 2 + Sockaddr_OVERHEAD then -1 else sa_family sockaddr.

Definition Sockaddr_getPrefix (addr : Sockaddr) : Z :=
  if negb (Z.land (sa_flags addr) Sockaddr_flags_PREFIX =? 0) then sa_prefix addr
  else
    let af := Sockaddr_getFamily addr in
    if af =? Sockaddr_AF_INET then 32 else if af =? Sockaddr_AF_INET6 then 128 else -1.

(** The length and, if it is not -1, the bytes of the address. *)
Definition Sockaddr_getAddress (sockaddr : Sockaddr) : Z * list Z :=
  if sa_addrLen sockaddr <? 2 + Sockaddr_OVERHEAD then (-1, [])
  else if sa_family sockaddr =? Sockaddr_AF_INET then (4, rd 12 4 sockaddr)
  else if sa_family sockaddr =? Sockaddr_AF_INET6 then (16, rd 16 16 sockaddr)
  else (-1, []).

(** The offset of the port. *)
Definition getPortPtr (sockaddr : Sockaddr) : option Z :=
  if sa_addrLen sockaddr <? 2 + Sockaddr_OVERHEAD then None
  else if sa_family sockaddr =? Sockaddr_AF_INET then Some 10
  else if sa_family sockaddr =? Sockaddr_AF_INET6 then Some 10
  else None.

Definition Sockaddr_getPort (sockaddr : Sockaddr) : Z :=
  match getPortPtr sockaddr with
  | Some pp => Endian_bigEndianToHost16 (le_val (rd pp 2 sockaddr))
  | None => -1
  end.

Definition Sockaddr_setPort (sockaddr : Sockaddr) (port : Z) : Z * Sockaddr :=
  match getPortPtr sockaddr with
  | Some pp => (0, wr pp (le_bytes 2 (Endian_hostToBigEndian16 port)) sockaddr)
  | None => (-1, sockaddr)
  end.

Definition Sockaddr_fromBytes (bs : list Z) (addrFamily : Z) : Er Sockaddr :=
  let out := zeros sizeof_Sockaddr_storage in
  if addrFamily =? Sockaddr_AF_INET then
    let out := wr 8 (le_bytes 2 Sockaddr_AF_INET) out in
    let out := wr 12 (take 4 bs) out in
    Ret (wr 0 (le_bytes 2 (sizeof_sockaddr_in + Sockaddr_OVERHEAD)) out)
  else if addrFamily =? Sockaddr_AF_INET6 then
    let out := wr 8 (le_bytes 2 Sockaddr_AF_INET6) out in
    let out := wr 16 (take 16 bs) out in
    Ret (wr 0 (le_bytes 2 (sizeof_sockaddr_in6 + Sockaddr_OVERHEAD)) out)
  else Abort "unrecognized address type".

(** The clone has [addrLen] bytes. *)
Definition Sockaddr_clone (addr : Sockaddr) : Sockaddr := rd 0 (sa_addrLen addr) addr.

Definition Sockaddr_fromNative (ss : list Z) (addrLen : Z) : Sockaddr :=
  let out := wr 8 (rd 0 addrLen ss) (zeros sizeof_Sockaddr_storage) in
  wr 0 (le_bytes 2 (u16 (addrLen + Sockaddr_OVERHEAD))) out.

(** [hash = ((hash << 5) + hash) ^ str[i]]. *)
Definition Hash_compute (str : list Z) (length : Z) : Z :=
  foldl (fun hash c => Z.lxor (u32 (Z.shiftl hash 5 + hash)) c) 5381 (rd 0 length str).

Definition Sockaddr_hash (addr : Sockaddr) : Z := Hash_compute addr (sa_addrLen addr).

Definition Sockaddr_compare (a b : Sockaddr) : Z :=
  memcmp (rd 0 (sa_addrLen a) a) (rd 0 (sa_addrLen a) b).

Definition Sockaddr_addrHandle (addr : Sockaddr) : Z :=
  if negb (sa_addrLen addr =? 8) || negb (sa_type addr =? Sockaddr_HANDLE)
  then Sockaddr_addrHandle_INVALID
  else le_val (rd 4 4 addr).

(** [addr] is overwritten. *)
Definition Sockaddr_addrFromHandle (handle : Z) : Er Sockaddr :=
  Assert_true (negb (handle =? Sockaddr_addrHandle_INVALID));;
  let addr := zeros 8 in
  let addr := wr 3 [Sockaddr_HANDLE] addr in
  let addr := wr 0 (le_bytes 2 8) addr in
  Ret (wr 4 (le_bytes 4 handle) addr).

(** *** Parsing *)

(** The [&lastColon[1]] branch and its two neighbours: the port and the text
    without it, [None] when the function returns -1.  [at_] is the address of the
    buffer. *)
Definition parse_port (at_ : Z) (buff : list Z) : Er (option (Z * list Z)) :=
  let lastColon := strrchr buff 58 in
  let firstColon := strchr buff 58 in
  let bracket := strchr buff 93 in
  match lastColon with
  | None => Ret (Some (0, buff))
  | Some lc =>
      if negb (bool_decide (lastColon = firstColon)) &&
         match bracket with None => true | Some b => (lc <? b)%nat end
      then Ret (Some (0, buff))
      else if match bracket with None => false | Some b => negb (lc =? S b)%nat end then Ret None
      else
        r ← Base10_fromString (drop (S lc) buff) (at_ + Z.of_nat lc + 1);
        match r with
        | None => Ret None
        | Some port => if port >? 65535 then Ret None else Ret (Some (port, take lc buff))
        end
  end.

(** The prefix length (-1 without one) and the text in front of the slash. *)
Definition parse_prefix (at_ : Z) (buff : list Z) : Er (option (Z * list Z)) :=
  match strchr buff 47 with
  | None => Ret (Some (-1, buff))
  | Some slash =>
      if bool_decide (drop (S slash) buff = []) then Ret None
      else
        r ← Base10_fromString (drop (S slash) buff) (at_ + Z.of_nat slash + 1);
        match r with
        | None => Ret None
        | Some prefix => Ret (Some (prefix, take slash buff))
        end
  end.

Definition opened (buff : list Z) : bool := get buff 0 =? 91.

Section Text.
Context {I : InetText}.

(** The storage with the native address and the port; [None] when the text is
    not an address. *)
Definition parse_native (v6 : bool) (buff : list Z) (port : Z) : option Sockaddr :=
  let out := zeros sizeof_Sockaddr_storage in
  let port_be := le_bytes 2 (Endian_hostToBigEndian16 (u16 port)) in
  if v6 then
    match inet_pton Sockaddr_AF_INET6 (if opened buff then drop 1 buff else buff) with
    | None => None
    | Some a =>
        let out := wr 16 a out in
        let out := wr 0 (le_bytes 2 (sizeof_sockaddr_in6 + Sockaddr_OVERHEAD)) out in
        let out := wr 10 port_be out in
        Some (wr 8 (le_bytes 2 Sockaddr_AF_INET6) out)
    end
  else
    match inet_pton Sockaddr_AF_INET buff with
    | None => None
    | Some a =>
        let out := wr 12 a out in
        let out := wr 0 (le_bytes 2 (sizeof_sockaddr_in + Sockaddr_OVERHEAD)) out in
        let out := wr 10 port_be out in
        Some (wr 8 (le_bytes 2 Sockaddr_AF_INET) out)
    end.

(** [None] is -1.  [CString_safeStrncpy(buff, input, 63)] keeps 62 characters. *)
Definition Sockaddr_parse (at_ : Z) (input : list Z) : Er (option Sockaddr) :=
  if len input >? 63 then Ret None
  else
    let buff := take 62 input in
    let v6 := negb (bool_decide (strrchr buff 58 = strchr buff 58)) in
    let bracket := strchr buff 93 in
    r ← parse_port at_ buff;
    match r with
    | None => Ret None
    | Some (port, buff) =>
        let unbracketed :=
          match bracket with
          | Some b => if opened buff then Some (take b buff) else None
          | None => if opened buff then None else Some buff
          end in
        match unbracketed with
        | None => Ret None
        | Some buff =>
            r ← parse_prefix at_ buff;
            match r with
            | None => Ret None
            | Some (prefix, buff) =>
                match parse_native v6 buff port with
                | None => Ret None
                | Some out =>
                    if prefix =? -1 then Ret (Some out)
                    else if (prefix <? 0) || (prefix >? 128) then Ret None
                    else if (Sockaddr_getFamily out =? Sockaddr_AF_INET) && (prefix >? 32) then Ret None
                    else
                      let out := wr 4 [prefix] out in
                      Ret (Some (wr 2 [Z.lor (sa_flags out) Sockaddr_flags_PREFIX] out))
                end
            end
        end
    end.

(** *** Printing *)

(** [snprintf] with a size keeps one character less. *)
Definition Sockaddr_print (sockaddr : Sockaddr) : list Z :=
  if (sa_addrLen sockaddr <? 2 + Sockaddr_OVERHEAD)
     || (sa_addrLen sockaddr >? Sockaddr_MAXSIZE + Sockaddr_OVERHEAD)
  then chars "invalid"
  else
    let v4 := sa_family sockaddr =? Sockaddr_AF_INET in
    let v6 := sa_family sockaddr =? Sockaddr_AF_INET6 in
    if negb (v4 || v6) then
      let n := sa_addrLen sockaddr - Sockaddr_OVERHEAD in
      let '(_, hex) := Hex.Hex_encode (zeros (Sockaddr_MAXSIZE * 2 + 1)) (Sockaddr_MAXSIZE * 2 + 1)
                         (rd 8 n sockaddr) in
      chars "unknown (" ++ take (Z.to_nat (2 * n)) hex ++ chars ")"
    else
      let inAddr := if v4 then rd 12 4 sockaddr else rd 16 16 sockaddr in
      let port := Endian_bigEndianToHost16 (le_val (rd 10 2 sockaddr)) in
      match inet_ntop (sa_family sockaddr) inAddr with
      | None => chars "invalid"
      | Some printedAddr =>
          let printedPrefix :=
            if negb (Z.land (sa_flags sockaddr) Sockaddr_flags_PREFIX =? 0)
            then take 14 (47 :: num_text (sa_prefix sockaddr)) else [] in
          let printedPort := if negb (port =? 0) then take 14 (58 :: num_text port) else [] in
          take 126 (if negb (port =? 0) && v6
                    then [91] ++ printedAddr ++ printedPrefix ++ [93] ++ printedPort
                    else printedAddr ++ printedPrefix ++ printedPort)
      end.

End Text.

(** ** Lemmas: text *)

Lemma strchr_none s c : c ∉ s -> strchr s c = None.
Proof.
  induction s as [|x s IH]; intros Hc; [done|]. cbn [strchr]. apply not_elem_of_cons in Hc as [Hx Hc].
  by rewrite (proj2 (Z.eqb_neq x c)), IH.
Qed.

Lemma strchr_first s1 s2 c : c ∉ s1 -> strchr (s1 ++ c :: s2) c = Some (length s1).
Proof.
  induction s1 as [|x s1 IH]; intros Hc; cbn [app strchr length]; [by rewrite Z.eqb_refl|].
  apply not_elem_of_cons in Hc as [Hx Hc]. by rewrite (proj2 (Z.eqb_neq x c)), IH.
Qed.

Lemma strrchr_none s c : c ∉ s -> strrchr s c = None.
Proof.
  induction s as [|x s IH]; intros Hc; [done|]. cbn [strrchr]. apply not_elem_of_cons in Hc as [Hx Hc].
  by rewrite IH, (proj2 (Z.eqb_neq x c)).
Qed.

Lemma strrchr_last s1 s2 c : c ∉ s2 -> strrchr (s1 ++ c :: s2) c = Some (length s1).
Proof.
  intros Hc. induction s1 as [|x s1 IH]; cbn [app strrchr length].
  - by rewrite strrchr_none, Z.eqb_refl.
  - by rewrite IH.
Qed.

Lemma strrchr_after s1 s2 c : exists i, strrchr (s1 ++ c :: s2) c = Some i /\ (length s1 <= i)%nat.
Proof.
  induction s1 as [|x s1 (i & IH & Hi)]; cbn [app strrchr length].
  - destruct (strrchr s2 c) as [i|]; [exists (S i); split; [done|lia]|]. rewrite Z.eqb_refl. eauto.
  - rewrite IH. exists (S i). split; [done|lia].
Qed.

Lemma strchr_before s1 s2 c : exists i, strchr (s1 ++ c :: s2) c = Some i /\ (i <= length s1)%nat.
Proof.
  induction s1 as [|x s1 (i & IH & Hi)]; cbn [app strchr length].
  - rewrite Z.eqb_refl. eauto.
  - destruct (x =? c); [exists 0%nat; split; [done|lia]|]. rewrite IH. cbn. exists (S i). split; [done|lia].
Qed.

Lemma strrchr_bound s c i : strrchr s c = Some i -> (i < length s)%nat.
Proof.
  revert i. induction s as [|x s IH]; intros i; cbn [strrchr length]; [done|].
  destruct (strrchr s c) as [j|]; [intros [= <-]; specialize (IH j eq_refl); lia|].
  destruct (x =? c); [intros [= <-]; lia|done].
Qed.

(** A number of a few digits: its text and what reads it. *)
Lemma small_num_text n k : 0 <= n < 10 ^ Z.of_nat k -> (1 <= k <= 9)%nat ->
  (1 <= length (num_text n) <= k)%nat /\ Forall digit_char (num_text n) /\
  forall at_, Base10_fromString (num_text n) at_ = Ret (Some n).
Proof.
  intros Hn Hk. assert (Hn' : n < 10 ^ 9).
  { eapply Z.lt_le_trans; [apply Hn|]. apply Z.pow_le_mono_r; lia. }
  destruct (num_text_shape n) as (ds & Ht & Hds & Hne & Hv); [unfold int64_ok; lia|].
  zdecide_in (n <? 0) Ht. cbn [app] in Ht. rewrite Ht.
  assert (Hl : (length ds <= k)%nat).
  { rewrite <- Ht. unfold num_text. zdecide (n <? 0). by apply digits_length; [|lia]. }
  assert (Hl1 : (1 <= length ds)%nat) by (destruct ds; [done|cbn; lia]).
  split; [lia|]. split; [done|]. intros at_. unfold Base10_fromString.
  rewrite i32_small by lia. zdecide (len ds <? 1).
  destruct ds as [|d ds]; [done|]. pose proof Hds as Hd. apply Forall_cons in Hd as [Hd _].
  unfold digit_char in Hd. change (get (d :: ds) 0) with d. zdecide (d =? 45). cbn [andb negb].
  zdecide (d <? 48). destruct (Z.gtb_spec d 57); [lia|]. cbn [orb].
  set (m := mkMessage _ _ _ _ _ _ _).
  destruct (Base10_read_view m [] false (d :: ds) [] []) as (m' & Hr & _); try done.
  - rewrite Hv. lia.
  - exists [], [0]. unfold m. cbn [msg_mem msg_bytes msg_padding msg_length msg_capacity app].
    rewrite app_nil_r. change (len (@nil Z)) with 0. split_and!; (done || lia).
  - rewrite Hr. cbn [mbind Er_bind]. rewrite Hv. by rewrite Z.abs_eq by lia.
Qed.

Definition prefix_text (prefix : option Z) : list Z :=
  match prefix with Some p => 47 :: num_text p | None => [] end.
Definition port_text (port : Z) : list Z := if port =? 0 then [] else 58 :: num_text port.

Lemma not_in_digits c ds : Forall digit_char ds -> ~ digit_char c -> c ∉ ds.
Proof. intros Hd Hc Hin. rewrite Forall_forall in Hd. apply Hc, Hd, Hin. Qed.

(** Neither the slash nor the digits behind it are one of the other marks. *)
Lemma prefix_text_plain prefix c :
  match prefix with Some p => 0 <= p <= 128 | None => True end -> c <> 47 -> ~ digit_char c ->
  c ∉ prefix_text prefix.
Proof.
  intros Hp Hc Hd. destruct prefix as [p|]; cbn [prefix_text]; [|apply not_elem_of_nil].
  destruct (small_num_text p 3) as (_ & Hds & _); [cbn; lia|lia|].
  apply not_elem_of_cons. split; [done|by apply not_in_digits].
Qed.

Lemma drop_app_cons (A : list Z) c B : drop (S (length A)) (A ++ c :: B) = B.
Proof. replace (S (length A)) with (length A + 1)%nat by lia. by rewrite <- drop_drop, drop_app_length. Qed.

Lemma parse_prefix_text at_ A prefix :
  47 ∉ A -> match prefix with Some p => 0 <= p <= 128 | None => True end ->
  parse_prefix at_ (A ++ prefix_text prefix) = Ret (Some (default (-1) prefix, A)).
Proof.
  intros HA Hp. unfold parse_prefix. destruct prefix as [p|]; cbn [prefix_text].
  - rewrite strchr_first, take_app_length by done.
    destruct (small_num_text p 3) as (Hl & _ & Hr); [cbn; lia|lia|].
    rewrite drop_app_cons.
    rewrite bool_decide_false by (intros E; rewrite E in Hl; cbn in Hl; lia). by rewrite Hr.
  - by rewrite app_nil_r, strchr_none.
Qed.


(** A port behind a text without colons. *)
Lemma parse_port_plain at_ X port :
  58 ∉ X -> 93 ∉ X -> 0 <= port <= 65535 ->
  parse_port at_ (X ++ port_text port) = Ret (Some (port, X)).
Proof.
  intros Hc Hb Hp. unfold parse_port, port_text. destruct (Z.eqb_spec port 0) as [->|Hne].
  - by rewrite app_nil_r, strrchr_none.
  - destruct (small_num_text port 5) as (Hl & Hds & Hr); [cbn; lia|lia|].
    assert (H58 : 58 ∉ num_text port) by (apply not_in_digits; [done|unfold digit_char; lia]).
    assert (H93 : 93 ∉ num_text port) by (apply not_in_digits; [done|unfold digit_char; lia]).
    rewrite strrchr_last, strchr_first, strchr_none by (try done; by rewrite not_elem_of_app, not_elem_of_cons).
    rewrite bool_decide_true by done. cbn [negb andb]. rewrite drop_app_cons, Hr. cbn [mbind Er_bind].
    destruct (Z.gtb_spec port 65535); [lia|]. by rewrite take_app_length.
Qed.

(** Two colons and no bracket: no port. *)
Lemma two_colons t1 t2 t3 : strrchr (t1 ++ 58 :: t2 ++ 58 :: t3) 58 <> strchr (t1 ++ 58 :: t2 ++ 58 :: t3) 58.
Proof.
  destruct (strchr_before t1 (t2 ++ 58 :: t3) 58) as (i & -> & Hi).
  destruct (strrchr_after (t1 ++ 58 :: t2) t3 58) as (j & Hj & Hij).
  rewrite <- app_assoc in Hj. cbn [app] in Hj. rewrite Hj. rewrite length_app in Hij. cbn in Hij.
  intros [= E]. lia.
Qed.

Lemma parse_port_none at_ t1 t2 t3 :
  let X := t1 ++ 58 :: t2 ++ 58 :: t3 in
  93 ∉ X -> parse_port at_ X = Ret (Some (0, X)).
Proof.
  intros X Hb. unfold parse_port. pose proof (two_colons t1 t2 t3) as Hne. fold X in Hne.
  destruct (strrchr X 58) as [lc|]; [|done]. rewrite bool_decide_false by done.
  by rewrite (strchr_none X 93).
Qed.

(** A port behind a bracket. *)
Lemma parse_port_bracket at_ X port :
  93 ∉ X -> 0 < port <= 65535 ->
  parse_port at_ (X ++ 93 :: 58 :: num_text port) = Ret (Some (port, X ++ [93])).
Proof.
  intros Hb Hp. unfold parse_port.
  destruct (small_num_text port 5) as (Hl & Hds & Hr); [cbn; lia|lia|].
  assert (H58 : 58 ∉ num_text port) by (apply not_in_digits; [done|unfold digit_char; lia]).
  assert (Hlast : strrchr (X ++ 93 :: 58 :: num_text port) 58 = Some (S (length X))).
  { replace (X ++ 93 :: 58 :: num_text port) with ((X ++ [93]) ++ 58 :: num_text port)
      by (by rewrite <- app_assoc). rewrite strrchr_last by done. rewrite length_app. f_equal. cbn. lia. }
  rewrite Hlast, strchr_first by done.
  destruct (Nat.ltb_spec (S (length X)) (length X)); [lia|]. rewrite andb_false_r, Nat.eqb_refl. cbn [negb].
  replace (X ++ 93 :: 58 :: num_text port) with ((X ++ [93]) ++ 58 :: num_text port)
    by (by rewrite <- app_assoc).
  replace (S (length X)) with (length (X ++ [93])) by (rewrite length_app; cbn; lia).
  rewrite drop_app_cons, Hr, take_app_length. cbn [mbind Er_bind].
  destruct (Z.gtb_spec port 65535); [lia|done].
Qed.

(** ** Addresses *)

(** The memory of an address with a port (0: none) and a prefix length. *)
Definition head_bytes (size : Z) (prefix : option Z) : list Z :=
  le_bytes 2 (size + Sockaddr_OVERHEAD)
  ++ [match prefix with Some _ => Sockaddr_flags_PREFIX | None => 0 end; Sockaddr_PLATFORM;
      default 0 prefix; 0; 0; 0].
Definition sockaddr_in_of (a : list Z) (port : Z) (prefix : option Z) : Sockaddr :=
  head_bytes sizeof_sockaddr_in prefix
  ++ le_bytes 2 Sockaddr_AF_INET ++ be_bytes 2 port ++ a ++ zeros 120.
Definition sockaddr_in6_of (a : list Z) (port : Z) (prefix : option Z) : Sockaddr :=
  head_bytes sizeof_sockaddr_in6 prefix
  ++ le_bytes 2 Sockaddr_AF_INET6 ++ be_bytes 2 port ++ zeros 4 ++ a ++ zeros 104.

Lemma port_of_be port : fits 16 port -> Endian_bigEndianToHost16 (le_val (be_bytes 2 port)) = port.
Proof.
  intros Hp. transitivity (be_val (be_bytes 2 port)).
  { apply (toHost_be 2 16 _ eq_refl eq_refl); [apply length_be_bytes|apply be_bytes_bytes]. }
  rewrite be_val_bytes. by apply fits_small.
Qed.

Lemma be_of_port port : fits 16 port -> le_bytes 2 (Endian_hostToBigEndian16 (u16 port)) = be_bytes 2 port.
Proof.
  intros Hp. unfold u16, Endian_hostToBigEndian16, Endian_byteSwap16, u16.
  rewrite !(fits_small 16 port) by done. apply le_bytes_bswap.
Qed.

Lemma in_of_fields a port prefix :
  length a = 4%nat -> fits 16 port ->
  let sa := sockaddr_in_of a port prefix in
  sa_addrLen sa = 24 /\ sa_family sa = Sockaddr_AF_INET /\ rd 12 4 sa = a /\
  Endian_bigEndianToHost16 (le_val (rd 10 2 sa)) = port /\ sa_prefix sa = default 0 prefix /\
  (Z.land (sa_flags sa) Sockaddr_flags_PREFIX =? 0) = bool_decide (prefix = None).
Proof.
  intros Ha Hp. destruct a as [|a0 [|a1 [|a2 [|a3 [|]]]]]; try done.
  cbv zeta. split_and!; try done; [|by destruct prefix].
  change (rd 10 2 (sockaddr_in_of _ port prefix)) with (be_bytes 2 port).
  by apply port_of_be.
Qed.

Lemma in6_of_fields a port prefix :
  length a = 16%nat -> fits 16 port ->
  let sa := sockaddr_in6_of a port prefix in
  sa_addrLen sa = 36 /\ sa_family sa = Sockaddr_AF_INET6 /\ rd 16 16 sa = a /\
  Endian_bigEndianToHost16 (le_val (rd 10 2 sa)) = port /\ sa_prefix sa = default 0 prefix /\
  (Z.land (sa_flags sa) Sockaddr_flags_PREFIX =? 0) = bool_decide (prefix = None).
Proof.
  intros Ha Hp. cbv zeta. split_and!; try done; [|by apply port_of_be|by destruct prefix].
  unfold sockaddr_in6_of. unfold rd. change (drop (Z.to_nat 16) _) with (a ++ zeros 104).
  by rewrite take_app_length'.
Qed.

Section RoundTrip.
Context {I : InetText} {L : InetTextLaws I}.
#[local] Set Default Proof Using "All".

(** The storage the parser fills. *)
Lemma parse_native_4 t a port :
  inet_pton Sockaddr_AF_INET t = Some a -> length a = 4%nat -> fits 16 port ->
  parse_native false t port = Some (sockaddr_in_of a port None).
Proof.
  intros Ht Ha Hp. unfold parse_native. rewrite Ht, be_of_port by done.
  destruct a as [|a0 [|a1 [|a2 [|a3 [|]]]]]; done.
Qed.

Lemma parse_native_6 t a port (br : bool) :
  inet_pton Sockaddr_AF_INET6 t = Some a -> length a = 16%nat -> fits 16 port ->
  opened t = false ->
  parse_native true (if br then 91 :: t else t) port = Some (sockaddr_in6_of a port None).
Proof.
  intros Ht Ha Hp Ho. unfold parse_native.
  replace (if opened _ then _ else _) with t by (destruct br; [done|by rewrite Ho]).
  rewrite Ht, be_of_port by done.
  do 16 (destruct a as [|? a]; [done|]). destruct a; done.
Qed.

Lemma with_prefix_4 a port p :
  wr 2 [Z.lor (sa_flags (wr 4 [p] (sockaddr_in_of a port None))) Sockaddr_flags_PREFIX]
    (wr 4 [p] (sockaddr_in_of a port None)) = sockaddr_in_of a port (Some p).
Proof. done. Qed.

Lemma with_prefix_6 a port p :
  wr 2 [Z.lor (sa_flags (wr 4 [p] (sockaddr_in6_of a port None))) Sockaddr_flags_PREFIX]
    (wr 4 [p] (sockaddr_in6_of a port None)) = sockaddr_in6_of a port (Some p).
Proof. done. Qed.

(** The texts behind the address are short. *)
Lemma printed_prefix prefix :
  match prefix with Some p => 0 <= p <= 128 | None => True end ->
  (if negb (bool_decide (prefix = None)) then take 14 (47 :: num_text (default 0 prefix)) else [])
  = prefix_text prefix /\ (length (prefix_text prefix) <= 4)%nat.
Proof.
  intros Hp. destruct prefix as [p|]; [|split; [done|cbn; lia]]. rewrite bool_decide_false by done.
  cbn [negb]. change (default 0 (Some p)) with p. destruct (small_num_text p 3) as (Hl & _ & _); [cbn; lia|lia|].
  rewrite take_ge by (cbn [length]; lia). split; [done|]. cbn [prefix_text length]. lia.
Qed.

Lemma printed_port port : 0 <= port <= 65535 ->
  (if negb (port =? 0) then take 14 (58 :: num_text port) else []) = port_text port /\
  (length (port_text port) <= 6)%nat.
Proof.
  intros Hp. unfold port_text. destruct (Z.eqb_spec port 0); [split; [done|cbn; lia]|].
  destruct (small_num_text port 5) as (Hl & _ & _); [cbn; lia|lia|]. cbn [negb].
  rewrite take_ge by (cbn [length]; lia). split; [done|]. cbn [length]. lia.
Qed.

Lemma print_in a port prefix t :
  inet_ntop Sockaddr_AF_INET a = Some t -> length a = 4%nat -> 0 <= port <= 65535 ->
  (length t <= 15)%nat -> match prefix with Some p => 0 <= p <= 128 | None => True end ->
  Sockaddr_print (sockaddr_in_of a port prefix) = t ++ prefix_text prefix ++ port_text port.
Proof.
  intros Ht Ha Hp Hl Hpf. unfold Sockaddr_print.
  destruct (in_of_fields a port prefix Ha ltac:(unfold fits; lia)) as (-> & -> & -> & -> & -> & ->).
  change ((24 <? 2 + Sockaddr_OVERHEAD) || (24 >? Sockaddr_MAXSIZE + Sockaddr_OVERHEAD)) with false.
  cbv zeta iota. change (negb ((Sockaddr_AF_INET =? Sockaddr_AF_INET) || (Sockaddr_AF_INET =? Sockaddr_AF_INET6)))
    with false. cbv iota.
  change (Sockaddr_AF_INET =? Sockaddr_AF_INET) with true. cbv iota. rewrite Ht.
  destruct (printed_prefix prefix Hpf) as [-> Hl1]. destruct (printed_port port Hp) as [-> Hl2].
  change (Sockaddr_AF_INET =? Sockaddr_AF_INET6) with false. rewrite andb_false_r.
  apply take_ge. rewrite !length_app. lia.
Qed.

Lemma print_in6 a port prefix t :
  inet_ntop Sockaddr_AF_INET6 a = Some t -> length a = 16%nat -> 0 <= port <= 65535 ->
  (length t <= 45)%nat -> match prefix with Some p => 0 <= p <= 128 | None => True end ->
  Sockaddr_print (sockaddr_in6_of a port prefix) =
  if port =? 0 then t ++ prefix_text prefix
  else (91 :: t ++ prefix_text prefix) ++ 93 :: 58 :: num_text port.
Proof.
  intros Ht Ha Hp Hl Hpf. unfold Sockaddr_print.
  destruct (in6_of_fields a port prefix Ha ltac:(unfold fits; lia)) as (-> & -> & -> & -> & -> & ->).
  change ((36 <? 2 + Sockaddr_OVERHEAD) || (36 >? Sockaddr_MAXSIZE + Sockaddr_OVERHEAD)) with false.
  cbv zeta iota. change (negb ((Sockaddr_AF_INET6 =? Sockaddr_AF_INET) || (Sockaddr_AF_INET6 =? Sockaddr_AF_INET6)))
    with false. cbv iota.
  change (Sockaddr_AF_INET6 =? Sockaddr_AF_INET) with false. cbv iota. rewrite Ht.
  destruct (printed_prefix prefix Hpf) as [-> Hl1]. destruct (printed_port port Hp) as [-> Hl2].
  change (Sockaddr_AF_INET6 =? Sockaddr_AF_INET6) with true. rewrite andb_true_r.
  unfold port_text in *. destruct (port =? 0); cbn [negb].
  - rewrite app_nil_r, take_ge by (rewrite !length_app; lia). done.
  - rewrite take_ge by (rewrite !length_app in *; cbn [length] in *; lia).
    cbn [app]. by rewrite <- !app_assoc.
Qed.

(** Where the marks of the syntax cannot be. *)
Lemma address_chars t c :
  Forall (fun c => is_hex_digit c = true \/ c = 46 \/ c = 58) t ->
  is_hex_digit c = false -> c <> 46 -> c <> 58 -> c ∉ t.
Proof.
  intros Ht Hx H46 H58 Hin. rewrite Forall_forall in Ht. destruct (Ht c Hin) as [H|[H|H]]; congruence.
Qed.

Lemma address_opens t : Forall (fun c => is_hex_digit c = true \/ c = 46 \/ c = 58) t -> t <> [] ->
  forall rest, opened (t ++ rest) = false.
Proof.
  intros Ht Hne rest. destruct t as [|c t]; [done|]. apply Forall_cons in Ht as [Hc _].
  unfold opened. change (get ((c :: t) ++ rest) 0) with c. apply Z.eqb_neq. intros ->.
  destruct Hc as [H|[H|H]]; done.
Qed.

Definition prefix_ok (max : Z) (prefix : option Z) : Prop :=
  match prefix with Some p => 0 <= p <= max | None => True end.

(** The end of the parser: the prefix is put into the storage. *)
Lemma finish_4 a port prefix :
  length a = 4%nat -> fits 16 port -> prefix_ok 32 prefix ->
  (let out := sockaddr_in_of a port None in
   let prefix := default (-1) prefix in
   if prefix =? -1 then Ret (Some out)
   else if (prefix <? 0) || (prefix >? 128) then Ret None
   else if (Sockaddr_getFamily out =? Sockaddr_AF_INET) && (prefix >? 32) then Ret None
   else
     let out := wr 4 [prefix] out in
     Ret (Some (wr 2 [Z.lor (sa_flags out) Sockaddr_flags_PREFIX] out)))
  = Ret (Some (sockaddr_in_of a port prefix)).
Proof.
  intros Ha Hp Hpf. destruct prefix as [p|]; [|done]. cbn [prefix_ok] in Hpf. cbv zeta.
  change (default (-1) (Some p)) with p. zdecide (p =? -1). zdecide (p <? 0).
  destruct (Z.gtb_spec p 128); [lia|]. destruct (Z.gtb_spec p 32); [lia|]. rewrite andb_false_r.
  cbn [orb]. by rewrite with_prefix_4.
Qed.

Lemma finish_6 a port prefix :
  length a = 16%nat -> fits 16 port -> prefix_ok 128 prefix ->
  (let out := sockaddr_in6_of a port None in
   let prefix := default (-1) prefix in
   if prefix =? -1 then Ret (Some out)
   else if (prefix <? 0) || (prefix >? 128) then Ret None
   else if (Sockaddr_getFamily out =? Sockaddr_AF_INET) && (prefix >? 32) then Ret None
   else
     let out := wr 4 [prefix] out in
     Ret (Some (wr 2 [Z.lor (sa_flags out) Sockaddr_flags_PREFIX] out)))
  = Ret (Some (sockaddr_in6_of a port prefix)).
Proof.
  intros Ha Hp Hpf. destruct prefix as [p|]; [|done]. cbn [prefix_ok] in Hpf. cbv zeta.
  change (default (-1) (Some p)) with p. zdecide (p =? -1). zdecide (p <? 0).
  destruct (Z.gtb_spec p 128); [lia|].
  assert ((Sockaddr_getFamily (sockaddr_in6_of a port None) =? Sockaddr_AF_INET) = false) as -> by done.
  cbn [orb andb]. by rewrite with_prefix_6.
Qed.

Lemma parse_print_4 at_ a port prefix :
  bytes a -> length a = 4%nat -> 0 <= port <= 65535 -> prefix_ok 32 prefix ->
  Sockaddr_parse at_ (Sockaddr_print (sockaddr_in_of a port prefix))
  = Ret (Some (sockaddr_in_of a port prefix)).
Proof.
  intros Hb Ha Hp Hpf. destruct (ntop4 a Ha Hb) as (t & Hn & Hpt & Hl & Hc).
  assert (Hpf' : prefix_ok 128 prefix) by (destruct prefix; cbn in *; lia).
  assert (Hc' : Forall (fun c => is_hex_digit c = true \/ c = 46 \/ c = 58) t)
    by (eapply Forall_impl; [exact Hc|]; cbn; tauto).
  assert (H58t : 58 ∉ t).
  { intros Hin. rewrite Forall_forall in Hc. destruct (Hc 58 Hin) as [H|H]; done. }
  rewrite (print_in a port prefix t) by (done || lia).
  destruct (printed_prefix prefix Hpf') as [_ Hl1]. destruct (printed_port port Hp) as [_ Hl2].
  unfold Sockaddr_parse. rewrite !length_app.
  destruct (Z.gtb_spec (Z.of_nat (length t + (length (prefix_text prefix) + length (port_text port)))) 63); [lia|].
  rewrite take_ge by (rewrite !length_app; lia). rewrite app_assoc. set (X := t ++ prefix_text prefix).
  assert (H58 : 58 ∉ X).
  { unfold X. rewrite not_elem_of_app. split; [done|].
    apply prefix_text_plain; [done|lia|unfold digit_char; lia]. }
  assert (H93 : 93 ∉ X).
  { unfold X. rewrite not_elem_of_app. split; [by apply address_chars|].
    apply prefix_text_plain; [done|lia|unfold digit_char; lia]. }
  assert (Hv6 : negb (bool_decide (strrchr (X ++ port_text port) 58 = strchr (X ++ port_text port) 58)) = false).
  { unfold port_text. destruct (Z.eqb_spec port 0).
    - by rewrite app_nil_r, strchr_none, strrchr_none.
    - destruct (small_num_text port 5) as (_ & Hds & _); [cbn; lia|lia|].
      rewrite strrchr_last, strchr_first; [by rewrite bool_decide_true|done|].
      apply not_in_digits; [done|unfold digit_char; lia]. }
  assert (Hbr : strchr (X ++ port_text port) 93 = None).
  { apply strchr_none. rewrite not_elem_of_app. split; [done|]. unfold port_text. case_match.
    - apply not_elem_of_nil.
    - destruct (small_num_text port 5) as (_ & Hds & _); [cbn; lia|lia|].
      rewrite not_elem_of_cons. split; [done|]. apply not_in_digits; [done|unfold digit_char; lia]. }
  rewrite Hv6, Hbr, parse_port_plain by done. cbn [mbind Er_bind].
  assert (Ho : opened X = false) by (apply address_opens; [done|by destruct t; cbn in Hl; [lia|]]).
  rewrite Ho. unfold X at 1. rewrite parse_prefix_text; [|by apply address_chars|done].
  cbn [mbind Er_bind]. rewrite (parse_native_4 t a port) by (done || (unfold fits; lia)).
  apply finish_4; [done|unfold fits; lia|done].
Qed.

Lemma parse_print_6 at_ a port prefix :
  bytes a -> length a = 16%nat -> 0 <= port <= 65535 -> prefix_ok 128 prefix ->
  Sockaddr_parse at_ (Sockaddr_print (sockaddr_in6_of a port prefix))
  = Ret (Some (sockaddr_in6_of a port prefix)).
Proof.
  intros Hb Ha Hp Hpf. destruct (ntop6 a Ha Hb) as (t & Hn & Hpt & Hl & Hc & t1 & t2 & t3 & Ht).
  assert (Hne : t <> []) by (destruct t; cbn in Hl; [lia|done]).
  rewrite (print_in6 a port prefix t) by (done || lia).
  destruct (printed_prefix prefix Hpf) as [_ Hl1]. set (X := t ++ prefix_text prefix).
  assert (HX : X = t1 ++ 58 :: t2 ++ 58 :: (t3 ++ prefix_text prefix))
    by (unfold X; rewrite Ht, <- !app_assoc; cbn [app]; by rewrite <- app_assoc).
  assert (H93 : 93 ∉ X).
  { unfold X. rewrite not_elem_of_app. split; [by apply address_chars|].
    apply prefix_text_plain; [done|lia|unfold digit_char; lia]. }
  assert (H47 : 47 ∉ t) by (by apply address_chars).
  assert (HXl : (length X <= 49)%nat) by (unfold X; rewrite length_app; lia).
  unfold Sockaddr_parse. destruct (Z.eqb_spec port 0) as [->|Hne0].
  - destruct (Z.gtb_spec (len X) 63); [lia|]. rewrite take_ge by lia.
    rewrite bool_decide_false by (rewrite HX; apply two_colons).
    rewrite (strchr_none X 93) by done.
    replace (parse_port at_ X) with (Ret (Some (0, X))).
    2: { rewrite HX. symmetry. apply parse_port_none. by rewrite <- HX. }
    cbn [mbind Er_bind negb].
    assert (opened X = false) as -> by (by apply address_opens).
    unfold X. rewrite parse_prefix_text by done. cbn [mbind Er_bind].
    rewrite (parse_native_6 t a 0 false); [|done|done|unfold fits; lia|].
    + apply finish_6; [done|unfold fits; lia|done].
    + rewrite <- (app_nil_r t). by apply address_opens.
  - destruct (small_num_text port 5) as (Hl2 & Hds & _); [cbn; lia|lia|].
    set (Y := 91 :: X). assert (H93Y : 93 ∉ Y) by (apply not_elem_of_cons; done).
    assert (HYl : (length (Y ++ 93%Z :: 58%Z :: num_text port) <= 57)%nat)
      by (rewrite length_app; unfold Y; cbn [length]; lia).
    destruct (Z.gtb_spec (len (Y ++ 93 :: 58 :: num_text port)) 63); [lia|]. rewrite take_ge by lia.
    rewrite bool_decide_false.
    2: { replace (Y ++ 93 :: 58 :: num_text port)
           with ((91 :: t1) ++ 58 :: (t2 ++ 58 :: (t3 ++ prefix_text prefix) ++ [93]) ++ 58 :: num_text port).
         { apply two_colons. }
         unfold Y. rewrite HX. repeat (cbn [app]; rewrite <- app_assoc). done. }
    rewrite strchr_first, parse_port_bracket by (done || lia). cbn [mbind Er_bind negb].
    assert (opened (Y ++ [93]) = true) as -> by done. rewrite take_app_length.
    unfold Y, X. change (91 :: t ++ prefix_text prefix) with ((91 :: t) ++ prefix_text prefix).
    rewrite parse_prefix_text; [|by apply not_elem_of_cons|done]. cbn [mbind Er_bind].
    rewrite (parse_native_6 t a port true); [|done|done|unfold fits; lia|].
    + apply finish_6; [done|unfold fits; lia|done].
    + rewrite <- (app_nil_r t). by apply address_opens.
Qed.
End RoundTrip.

(** ** Properties *)

(** [C36] The text of a socket address is parsed back to the same bytes: for every
    IPv4 and IPv6 address, with or without a port and a prefix length, whatever
    the conversion of the bare address is as long as it can be undone and sticks
    to the characters of addresses. *)
Theorem sockaddr_print_parse {I : InetText} {L : InetTextLaws I} at_ a a6 port prefix prefix6 :
  bytes a -> length a = 4%nat -> bytes a6 -> length a6 = 16%nat -> 0 <= port <= 65535 ->
  prefix_ok 32 prefix -> prefix_ok 128 prefix6 ->
  Sockaddr_parse at_ (Sockaddr_print (sockaddr_in_of a port prefix))
  = Ret (Some (sockaddr_in_of a port prefix)) /\
  Sockaddr_parse at_ (Sockaddr_print (sockaddr_in6_of a6 port prefix6))
  = Ret (Some (sockaddr_in6_of a6 port prefix6)).
Proof. intros. split; [by apply parse_print_4|by apply parse_print_6]. Qed.

(** Hexadecimal text with colons for both kinds of addresses satisfies the laws
    for IPv6; IPv4 addresses are written without them. *)
Definition toy_text (a : list Z) : list Z :=
  flat_map (fun b => [get Hex.hexEntities (b / 16); get Hex.hexEntities (b mod 16)]) a.
Definition hex_value (c : Z) : Z := if c <=? 57 then c - 48 else c - 87.
Fixpoint toy_bytes (t : list Z) : list Z :=
  match t with
  | x :: y :: t => 16 * hex_value x + hex_value y :: toy_bytes t
  | _ => []
  end.

Definition toy_inet : InetText := {|
  inet_pton af t := if af =? Sockaddr_AF_INET then Some (toy_bytes t) else Some (toy_bytes (drop 2 t));
  inet_ntop af a := if af =? Sockaddr_AF_INET then Some (toy_text a) else Some (58 :: 58 :: toy_text a);
|}.

Lemma toy_byte b : byte b ->
  16 * hex_value (get Hex.hexEntities (b / 16)) + hex_value (get Hex.hexEntities (b mod 16)) = b /\
  is_hex_digit (get Hex.hexEntities (b / 16)) = true /\
  is_hex_digit (get Hex.hexEntities (b mod 16)) = true.
Proof.
  intros Hb. assert (Hall : forallb (fun b =>
    (16 * hex_value (get Hex.hexEntities (b / 16)) + hex_value (get Hex.hexEntities (b mod 16)) =? b)
    && is_hex_digit (get Hex.hexEntities (b / 16)) && is_hex_digit (get Hex.hexEntities (b mod 16)))
    (seqZ 0 256) = true) by (vm_compute; reflexivity).
  rewrite forallb_forall in Hall. specialize (Hall b).
  rewrite !andb_true_iff, Z.eqb_eq in Hall. destruct Hall as [[? ?] ?]; [|done].
  apply list_elem_of_In, elem_of_seqZ. unfold fits in Hb. lia.
Qed.

Lemma toy_text_ok a : bytes a ->
  toy_bytes (toy_text a) = a /\ length (toy_text a) = (2 * length a)%nat /\
  Forall (fun c => is_hex_digit c = true) (toy_text a).
Proof.
  induction 1 as [|b a Hb _ (IH1 & IH2 & IH3)]; [done|]. destruct (toy_byte b Hb) as (H1 & H2 & H3).
  unfold toy_text in *. cbn [flat_map app toy_bytes length]. rewrite IH1, IH2, H1. split_and!; [done|lia|].
  repeat constructor; done.
Qed.

Lemma toy_inet_laws : InetTextLaws toy_inet.
Proof.
  split; intros a Ha Hb; destruct (toy_text_ok a Hb) as (H1 & H2 & H3).
  - exists (toy_text a). unfold inet_ntop, inet_pton, toy_inet. rewrite Z.eqb_refl, H2.
    split_and!; try done; try lia; [by f_equal|].
    eapply Forall_impl; [exact H3|]. tauto.
  - exists (58 :: 58 :: toy_text a). unfold inet_ntop, inet_pton, toy_inet.
    change (Sockaddr_AF_INET6 =? Sockaddr_AF_INET) with false. cbn [drop length]. rewrite H2.
    split_and!; try done; try lia; [by f_equal| |].
    + constructor; [tauto|]. constructor; [tauto|]. eapply Forall_impl; [exact H3|]. tauto.
    + by exists [], [], (toy_text a).
Qed.

Lemma sockaddr_print_parse_witness :
  @Sockaddr_parse toy_inet 4096 (@Sockaddr_print toy_inet (sockaddr_in_of [10; 1; 2; 3] 80 (Some 24)))
  = Ret (Some (sockaddr_in_of [10; 1; 2; 3] 80 (Some 24))) /\
  @Sockaddr_parse toy_inet 4096 (@Sockaddr_print toy_inet (sockaddr_in6_of (zeros 16) 80 None))
  = Ret (Some (sockaddr_in6_of (zeros 16) 80 None)).
Proof.
  apply (@sockaddr_print_parse toy_inet toy_inet_laws); try done; try lia.
  - repeat (apply Forall_cons; split; [by split|]). by apply Forall_nil.
  - apply zeros_bytes.
Defined.

(** *** Limits of the code *)

(** A negative port is accepted, and a prefix length of -1 counts as none. *)
Example negative_numbers_accepted :
  @Sockaddr_parse toy_inet 4096 (chars "0a010203:-5")
  = Ret (Some (sockaddr_in_of [10; 1; 2; 3] 65531 None)) /\
  @Sockaddr_parse toy_inet 4096 (chars "0a010203/-1") = Ret (Some (sockaddr_in_of [10; 1; 2; 3] 0 None)).
Proof. vm_compute. done. Qed.

(** What follows the digits of a port is ignored. *)
Example port_garbage_accepted :
  @Sockaddr_parse toy_inet 4096 (chars "0a010203:80xyz")
  = Ret (Some (sockaddr_in_of [10; 1; 2; 3] 80 None)).
Proof. vm_compute. done. Qed.

Lemma addrHandle_roundtrip handle :
  fits 32 handle -> handle <> Sockaddr_addrHandle_INVALID ->
  exists sa, Sockaddr_addrFromHandle handle = Ret sa /\ Sockaddr_addrHandle sa = handle.
Proof.
  intros Hf Hne. unfold Sockaddr_addrFromHandle. rewrite (proj2 (Z.eqb_neq _ _) Hne).
  cbn [negb Assert_true mbind Er_bind]. eexists. split; [done|].
  unfold Sockaddr_addrHandle. change (sa_addrLen _) with 8. change (sa_type _) with 1.
  change (_ || _) with false. cbv iota.
  change (rd 4 4 _) with (le_bytes 4 handle). rewrite le_val_bytes. by apply fits_small.
Qed.
