(* ===== verification/RouteGen.v ===== *)
(** * tunnel/RouteGen.c: the routes of the tunnel

    The generator keeps, for IPv4 and for IPv6, the prefixes to route into the
    tunnel, the local prefixes and the exceptions (the addresses of the peers,
    which must not be routed into the tunnel), and computes the set of routes
    with [genPrefixes].  The source writes the algorithm twice, once per address
    family; here it is written once over the class [PrefixOps], whose two
    instances are the structs and helper functions of the families.
    Array lists are their sequences
    (ArrayList.v); the allocators of the prefixes are left out.  A prefix length
    beyond the width of the family makes shifts undefined in C; [sockaddrToPrefix]
    lets one through, [Sockaddr_parse] does not, and the theorems are about
    lengths within the width. *)
From S2P Require Import Prelude Bits Hex Message Sockaddr ArrayList Benc.

(** ** Prefixes *)

Record Prefix6 := mkPrefix6 { highBits : Z; lowBits : Z; prefix6 : Z }.
Record Prefix4 := mkPrefix4 { bits : Z; prefix4 : Z }.

Definition comparePrefixes6 (a b : Prefix6) : Z :=
  if negb (prefix6 a =? prefix6 b) then (if prefix6 a <? prefix6 b then -1 else 1)
  else if negb (highBits a =? highBits b) then (if highBits a <? highBits b then 1 else -1)
  else if negb (lowBits a =? lowBits b) then (if lowBits a <? lowBits b then 1 else -1)
  else 0.

Definition comparePrefixes4 (a b : Prefix4) : Z :=
  if negb (prefix4 a =? prefix4 b) then (if prefix4 a <? prefix4 b then -1 else 1)
  else if negb (bits a =? bits b) then (if bits a <? bits b then 1 else -1)
  else 0.

(** [out->flags |= Sockaddr_flags_PREFIX; out->prefix = prefix]. *)
Definition with_prefix (out : Sockaddr) (prefix : Z) : Sockaddr :=
  set (set out 2 (Z.lor (sa_flags out) Sockaddr_flags_PREFIX)) 4 (u8 prefix).

Definition sockaddrForPrefix4 (pfx4 : Prefix4) : Er Sockaddr :=
  out ← Sockaddr_fromBytes (le_bytes 4 (Endian_hostToBigEndian32 (bits pfx4))) Sockaddr_AF_INET;
  Ret (with_prefix out (prefix4 pfx4)).

Definition sockaddrForPrefix6 (pfx6 : Prefix6) : Er Sockaddr :=
  out ← Sockaddr_fromBytes (le_bytes 8 (Endian_hostToBigEndian64 (highBits pfx6)) ++
                            le_bytes 8 (Endian_hostToBigEndian64 (lowBits pfx6))) Sockaddr_AF_INET6;
  Ret (with_prefix out (prefix6 pfx6)).

Definition sockaddrToPrefix4 (sa : Sockaddr) : Er Prefix4 :=
  let '(n, addr) := Sockaddr_getAddress sa in
  Assert_true (n =? 4);;
  let pfx := Sockaddr_getPrefix sa in
  Assert_true (pfx >? -1);;
  Ret (mkPrefix4 (Endian_bigEndianToHost32 (le_val addr)) pfx).

Definition sockaddrToPrefix6 (sa : Sockaddr) : Er Prefix6 :=
  let '(n, addr) := Sockaddr_getAddress sa in
  Assert_true (n =? 16);;
  let pfx := Sockaddr_getPrefix sa in
  Assert_true (pfx >? -1);;
  Ret (mkPrefix6 (Endian_bigEndianToHost64 (le_val (rd 0 8 addr)))
                 (Endian_bigEndianToHost64 (le_val (rd 8 8 addr))) pfx).

(** The sibling blocks of a prefix and of the prefixes around it, the smallest
    first. *)
Definition invertPrefix4 (toInvert : Prefix4) : Er (list Prefix4) :=
  if prefix4 toInvert >? 32 then Abort "shift by a negative number"
  else
    Ret ((fun i => mkPrefix4 (Z.lxor (Z.land (bits toInvert) (u32 (Z.shiftl UINT32_MAX i)))
                                     (Z.shiftl 1 i)) (32 - i))
         <$> seqZ (32 - prefix4 toInvert) (prefix4 toInvert)).

Definition invertPrefix6 (toInvert : Prefix6) : Er (list Prefix6) :=
  if prefix6 toInvert >? 128 then Abort "shift by a negative number"
  else
    Ret ((fun i =>
            if i >=? 64 then
              mkPrefix6 (Z.lxor (Z.land (highBits toInvert) (u64 (Z.shiftl UINT64_MAX (i - 64))))
                                (Z.shiftl 1 (i - 64))) 0 (128 - i)
            else
              mkPrefix6 (highBits toInvert)
                        (Z.lxor (Z.land (lowBits toInvert) (u64 (Z.shiftl UINT64_MAX i)))
                                (Z.shiftl 1 i)) (128 - i))
         <$> seqZ (128 - prefix6 toInvert) (prefix6 toInvert)).

Definition isSubsetOf4 (isSubset isSuperset : Prefix4) : bool :=
  if prefix4 isSuperset >? prefix4 isSubset then false
  else if prefix4 isSuperset >=? 32 then bits isSuperset =? bits isSubset
  else if prefix4 isSuperset =? 0 then true
  else
    let shift := 32 - prefix4 isSuperset in
    Z.shiftr (bits isSuperset) shift =? Z.shiftr (bits isSubset) shift.

Definition isSubsetOf6 (isSubset isSuperset : Prefix6) : bool :=
  if prefix6 isSuperset >? prefix6 isSubset then false
  else if prefix6 isSuperset >? 64 then
    let shift := 128 - prefix6 isSuperset in
    (highBits isSuperset =? highBits isSubset) &&
    (Z.shiftr (lowBits isSuperset) shift =? Z.shiftr (lowBits isSubset) shift)
  else if negb (prefix6 isSuperset =? 0) then
    let shift := 64 - prefix6 isSuperset in
    Z.shiftr (highBits isSuperset) shift =? Z.shiftr (highBits isSubset) shift
  else true.

(** The target of [mergePrefixSets]: the last bit of the prefix flipped. *)
Definition flip4 (target : Prefix4) : Prefix4 :=
  mkPrefix4 (Z.lxor (bits target)
               (if negb (prefix4 target =? 0) then Z.shiftl 1 (32 - prefix4 target) else 0))
            (prefix4 target).

Definition flip6 (target : Prefix6) : Prefix6 :=
  if prefix6 target >? 64 then
    mkPrefix6 (highBits target) (Z.lxor (lowBits target) (Z.shiftl 1 (128 - prefix6 target)))
              (prefix6 target)
  else if negb (prefix6 target =? 0) then
    mkPrefix6 (Z.lxor (highBits target) (Z.shiftl 1 (64 - prefix6 target))) 0 (prefix6 target)
  else target.

Definition mkPseudoDefault4 : list Prefix4 := [mkPrefix4 0 1; mkPrefix4 0x80000000 1].
Definition mkPseudoDefault6 : list Prefix6 := [mkPrefix6 0 0 1; mkPrefix6 0x8000000000000000 0 1].

(** ** The algorithm *)

(** What differs between the families; [pfx_sortFirst]: [genPrefixes6] sorts before the
    collapsing loop, [genPrefixes4] does not. *)
Class PrefixOps (P : Type) := {
  pfx_prefix : P -> Z;
  pfx_compare : P -> P -> Z;
  pfx_invert : P -> Er (list P);
  pfx_subset : P -> P -> bool;
  pfx_flip : P -> P;
  pfx_sortFirst : bool;
  pfx_pseudoDefault : list P;
}.

#[export] Instance Ops4 : PrefixOps Prefix4 := {|
  pfx_prefix := prefix4; pfx_compare := comparePrefixes4; pfx_invert := invertPrefix4;
  pfx_subset := isSubsetOf4; pfx_flip := flip4; pfx_sortFirst := false;
  pfx_pseudoDefault := mkPseudoDefault4 |}.
#[export] Instance Ops6 : PrefixOps Prefix6 := {|
  pfx_prefix := prefix6; pfx_compare := comparePrefixes6; pfx_invert := invertPrefix6;
  pfx_subset := isSubsetOf6; pfx_flip := flip6; pfx_sortFirst := true;
  pfx_pseudoDefault := mkPseudoDefault6 |}.

Section Generate.
Context {P : Type} `{PrefixOps P}.

Definition highestPrefix (prefixes : list P) : option P :=
  fold_left (fun highest result =>
    match highest with
    | None => Some result
    | Some h => if pfx_prefix h <? pfx_prefix result then Some result else highest
    end) prefixes None.

(** A prefix is added to a list unless the list has a subset of it. *)
Definition include (mergeInto : list P) (toInclude : P) : list P :=
  if existsb (fun test => pfx_subset test toInclude) mergeInto then mergeInto
  else mergeInto ++ [toInclude].

Definition mergePrefixSets (mergeInto prefixes : list P) : Er (list P) :=
  match highestPrefix prefixes with
  | None => Abort "memcpy from NULL"
  | Some highest =>
      let target := pfx_flip highest in
      let mergeInto := List.filter (fun result => negb (pfx_subset target result)) mergeInto in
      Ret (fold_left include prefixes mergeInto)
  end.

Definition isDefaultRoute (prefixes : list P) : bool :=
  match prefixes with [pfx] => pfx_prefix pfx =? 0 | _ => false end.

(** The local prefixes which have no prefix to route inside them. *)
Definition effectiveLocal (prefixes localPrefixes : list P) : list P :=
  List.filter (fun localPfx => negb (existsb (fun pfx => pfx_subset pfx localPfx) prefixes))
    localPrefixes.

(** The exceptions outside those. *)
Definition effective (local : list P) (pfxToInvert : P) : bool :=
  negb (existsb (fun localPfx => pfx_subset pfxToInvert localPfx) local).

Fixpoint addExceptions (local exceptions allPrefixes : list P) : Er (list P) :=
  match exceptions with
  | [] => Ret allPrefixes
  | pfxToInvert :: exceptions =>
      if effective local pfxToInvert then
        prefixes ← pfx_invert pfxToInvert;
        allPrefixes ← mergePrefixSets allPrefixes prefixes;
        addExceptions local exceptions allPrefixes
      else addExceptions local exceptions allPrefixes
  end.

(** [for (i = length - 2; i >= 0; i--)] over neighbours. *)
Fixpoint collapse (fuel : nat) (i : Z) (allPrefixes : list P) : Er (list P) :=
  match fuel with
  | O => Abort "out of fuel"
  | S fuel =>
      if i <? 0 then Ret allPrefixes
      else
        match allPrefixes !! Z.to_nat i, allPrefixes !! Z.to_nat (i + 1) with
        | Some pfx, Some pfx2 =>
            if pfx_subset pfx2 pfx then
              let allPrefixes := delete (Z.to_nat (i + 1)) allPrefixes in
              collapse fuel (if i <? len allPrefixes - 2 then i else i - 1) allPrefixes
            else collapse fuel (i - 1) allPrefixes
        | _, _ => Abort "NULL dereference"
        end
  end.

Definition genPrefixes (prefixes exceptions localPrefixes : list P) : Er (list P) :=
  allPrefixes ← addExceptions (effectiveLocal prefixes localPrefixes) exceptions [];
  allPrefixes ← (if pfx_sortFirst then QSort pfx_compare allPrefixes else Ret allPrefixes);
  allPrefixes ← collapse (2 * length allPrefixes + 1) (len allPrefixes - 2) allPrefixes;
  let allPrefixes := fold_left include prefixes allPrefixes in
  allPrefixes ← QSort pfx_compare allPrefixes;
  Ret (List.filter (fun pfx => existsb (fun pfx2 => pfx_subset pfx pfx2) prefixes) allPrefixes).

(** One half of [getGeneratedRoutes]. *)
Definition generate (prefixes exceptions localPrefixes : list P) : Er (list P) :=
  if len prefixes >? 0 then
    out ← genPrefixes prefixes exceptions localPrefixes;
    Ret (if isDefaultRoute out then pfx_pseudoDefault else out)
  else Ret [].

(** One half of [removeSomething]: the prefixes equal to [p] go; true if there
    were any. *)
Definition removeEqual (p : P) (l : list P) : list P * bool :=
  (List.filter (fun p2 => negb (pfx_compare p p2 =? 0)) l,
   existsb (fun p2 => pfx_compare p p2 =? 0) l).
End Generate.

(** ** The generator *)

Record RouteGen := mkRouteGen {
  rg_prefixes6 : list Prefix6;
  rg_localPrefixes6 : list Prefix6;
  rg_exceptions6 : list Prefix6;
  rg_prefixes4 : list Prefix4;
  rg_localPrefixes4 : list Prefix4;
  rg_exceptions4 : list Prefix4;
  rg_hasUncommittedChanges : bool;
}.

(** The pair of lists an operation is about. *)
Inductive Which := Prefixes | LocalPrefixes | Exceptions.

Definition rg_lists (rp : RouteGen) (w : Which) : list Prefix6 * list Prefix4 :=
  match w with
  | Prefixes => (rg_prefixes6 rp, rg_prefixes4 rp)
  | LocalPrefixes => (rg_localPrefixes6 rp, rg_localPrefixes4 rp)
  | Exceptions => (rg_exceptions6 rp, rg_exceptions4 rp)
  end.

Definition rg_set (rp : RouteGen) (w : Which) (l : list Prefix6 * list Prefix4) : RouteGen :=
  match w with
  | Prefixes => mkRouteGen l.1 (rg_localPrefixes6 rp) (rg_exceptions6 rp) l.2
                  (rg_localPrefixes4 rp) (rg_exceptions4 rp) (rg_hasUncommittedChanges rp)
  | LocalPrefixes => mkRouteGen (rg_prefixes6 rp) l.1 (rg_exceptions6 rp) (rg_prefixes4 rp)
                  l.2 (rg_exceptions4 rp) (rg_hasUncommittedChanges rp)
  | Exceptions => mkRouteGen (rg_prefixes6 rp) (rg_localPrefixes6 rp) l.1 (rg_prefixes4 rp)
                  (rg_localPrefixes4 rp) l.2 (rg_hasUncommittedChanges rp)
  end.

Definition rg_setUncommitted (rp : RouteGen) (b : bool) : RouteGen :=
  mkRouteGen (rg_prefixes6 rp) (rg_localPrefixes6 rp) (rg_exceptions6 rp) (rg_prefixes4 rp)
    (rg_localPrefixes4 rp) (rg_exceptions4 rp) b.

Definition addSomething (rp : RouteGen) (exempt : Sockaddr) (w : Which) : Er RouteGen :=
  let '(list6, list4) := rg_lists rp w in
  rp ← (if Sockaddr_getFamily exempt =? Sockaddr_AF_INET then
          p4 ← sockaddrToPrefix4 exempt;
          Ret (rg_set rp w (list6, list4 ++ [p4]))
        else if Sockaddr_getFamily exempt =? Sockaddr_AF_INET6 then
          p6 ← sockaddrToPrefix6 exempt;
          Ret (rg_set rp w (list6 ++ [p6], list4))
        else Abort "unexpected addr type");
  Ret (rg_setUncommitted rp true).

Definition RouteGen_addException (rg : RouteGen) (destination : Sockaddr) : Er RouteGen :=
  addSomething rg destination Exceptions.
Definition RouteGen_addPrefix (rg : RouteGen) (destination : Sockaddr) : Er RouteGen :=
  addSomething rg destination Prefixes.
Definition RouteGen_addLocalPrefix (rg : RouteGen) (destination : Sockaddr) : Er RouteGen :=
  addSomething rg destination LocalPrefixes.

(** [hasUncommittedChanges] is not set. *)
Definition removeSomething (rp : RouteGen) (toRemove : Sockaddr) (w : Which) : Er (bool * RouteGen) :=
  let '(list6, list4) := rg_lists rp w in
  if Sockaddr_getFamily toRemove =? Sockaddr_AF_INET then
    p4 ← sockaddrToPrefix4 toRemove;
    let '(list4, ret) := removeEqual p4 list4 in
    Ret (ret, rg_set rp w (list6, list4))
  else if Sockaddr_getFamily toRemove =? Sockaddr_AF_INET6 then
    p6 ← sockaddrToPrefix6 toRemove;
    let '(list6, ret) := removeEqual p6 list6 in
    Ret (ret, rg_set rp w (list6, list4))
  else Abort "unexpected addr type".

Definition RouteGen_removePrefix (rg : RouteGen) (toRemove : Sockaddr) : Er (bool * RouteGen) :=
  removeSomething rg toRemove Prefixes.
Definition RouteGen_removeLocalPrefix (rg : RouteGen) (toRemove : Sockaddr) : Er (bool * RouteGen) :=
  removeSomething rg toRemove LocalPrefixes.
Definition RouteGen_removeException (rg : RouteGen) (toRemove : Sockaddr) : Er (bool * RouteGen) :=
  removeSomething rg toRemove Exceptions.

Definition getGeneratedRoutes (rp : RouteGen) : Er (list Prefix4 * list Prefix6) :=
  p4 ← generate (rg_prefixes4 rp) (rg_exceptions4 rp) (rg_localPrefixes4 rp);
  p6 ← generate (rg_prefixes6 rp) (rg_exceptions6 rp) (rg_localPrefixes6 rp);
  Ret (p4, p6).

Fixpoint each {A B} (f : A -> Er B) (l : list A) : Er (list B) :=
  match l with
  | [] => Ret []
  | x :: l => y ← f x; ys ← each f l; Ret (y :: ys)
  end.

(** The routes handed to [NetDev_setRoutes], and the generator once that
    returned. *)
Definition RouteGen_commit (rp : RouteGen) : Er (list Sockaddr * RouteGen) :=
  '(p4, p6) ← getGeneratedRoutes rp;
  s4 ← each sockaddrForPrefix4 p4;
  s6 ← each sockaddrForPrefix6 p6;
  Ret (s4 ++ s6, rg_setUncommitted rp false).

Section Text.
Context `{InetText}.

Definition printPrefix4 (pfx4 : Prefix4) : Er (list Z) :=
  sa ← sockaddrForPrefix4 pfx4; Ret (Sockaddr_print sa).
Definition printPrefix6 (pfx6 : Prefix6) : Er (list Z) :=
  sa ← sockaddrForPrefix6 pfx6; Ret (Sockaddr_print sa).

(** The lists are sorted in place; the dictionary has their texts. *)
Definition getSomething (list6 : list Prefix6) (list4 : list Prefix4) :
    Er (Dict * (list Prefix6 * list Prefix4)) :=
  list6 ← QSort comparePrefixes6 list6;
  list4 ← QSort comparePrefixes4 list4;
  t4 ← each printPrefix4 list4;
  t6 ← each printPrefix6 list6;
  let prefixes4 := fold_left List_addString t4 List_new in
  let prefixes6 := fold_left List_addString t6 List_new in
  let out := (Dict_putList Dict_new (Some (chars "ipv4")) (Some prefixes4)).1 in
  let out := (Dict_putList out (Some (chars "ipv6")) (Some prefixes6)).1 in
  Ret (out, (list6, list4)).

Definition getStored (rg : RouteGen) (w : Which) : Er (Dict * RouteGen) :=
  let '(list6, list4) := rg_lists rg w in
  '(out, lists) ← getSomething list6 list4;
  Ret (out, rg_set rg w lists).
Definition RouteGen_getPrefixes (rg : RouteGen) : Er (Dict * RouteGen) := getStored rg Prefixes.
Definition RouteGen_getLocalPrefixes (rg : RouteGen) : Er (Dict * RouteGen) :=
  getStored rg LocalPrefixes.
Definition RouteGen_getExceptions (rg : RouteGen) : Er (Dict * RouteGen) := getStored rg Exceptions.

Definition RouteGen_getGeneratedRoutes (rg : RouteGen) : Er Dict :=
  '(p4, p6) ← getGeneratedRoutes rg;
  '(out, _) ← getSomething p6 p4;
  Ret out.

(** [ADD_PREFIX]; [at_] is the address of the buffer [Sockaddr_parse] copies the
    text into. *)
Definition add_prefix (at_ : Z) (str : string) (rp : RouteGen) : Er RouteGen :=
  ss ← Sockaddr_parse at_ (chars str);
  match ss with
  | None => Abort "assertion"
  | Some ss => RouteGen_addLocalPrefix rp ss
  end.

Definition setupDefaultLocalPrefixes (at_ : Z) (rp : RouteGen) : Er RouteGen :=
  rp ← add_prefix at_ "fe80::/10" rp;
  rp ← add_prefix at_ "fd00::/8" rp;
  rp ← add_prefix at_ "10.0.0.0/8" rp;
  rp ← add_prefix at_ "172.16.0.0/12" rp;
  rp ← add_prefix at_ "192.168.0.0/16" rp;
  add_prefix at_ "127.0.0.0/8" rp.

Definition RouteGen_new (at_ : Z) : Er RouteGen :=
  setupDefaultLocalPrefixes at_ (mkRouteGen [] [] [] [] [] [] false).
End Text.
