(* ===== verification/RouteGenProofs.v ===== *)
(** * The routes of the tunnel: what they cover

    [PrefixLaws] is what the algorithm of RouteGen.v needs of the two address
    families: a prefix stands for the addresses whose upper bits are its own.
    The working list of the algorithm is a set of disjoint blocks which together
    cover everything outside the exceptions ([blocks], [complete]); under the
    conditions of [follows] it avoids the exceptions ([exact]). *)
From Stdlib Require Import Sorted.
From S2P Require Import Prelude Bits Hex Message Sockaddr ArrayList Benc RouteGen.

(** ** What a prefix stands for *)

Class PrefixLaws (P : Type) `{PrefixOps P} := {
  pfx_width : Z;
  (** the address as a number *)
  pfx_bits : P -> Z;
  pfx_wf : P -> Prop;
  wf_range p : pfx_wf p -> fits pfx_width (pfx_bits p) /\ 0 <= pfx_prefix p <= pfx_width;
  width_pos : 0 < pfx_width;
  subset_spec p q : pfx_wf p -> pfx_wf q ->
    pfx_subset p q = true <->
    pfx_prefix q <= pfx_prefix p /\
    Z.shiftr (pfx_bits p) (pfx_width - pfx_prefix q) =
    Z.shiftr (pfx_bits q) (pfx_width - pfx_prefix q);
  invert_spec p : pfx_wf p -> exists l, pfx_invert p = Ret l /\
    Forall2 (fun i s => pfx_wf s /\ pfx_prefix s = pfx_width - i /\
      Z.shiftr (pfx_bits s) i = Z.lxor (Z.shiftr (pfx_bits p) i) 1)
      (seqZ (pfx_width - pfx_prefix p) (pfx_prefix p)) l;
  flip_spec p : pfx_wf p -> 0 < pfx_prefix p ->
    pfx_wf (pfx_flip p) /\ pfx_prefix (pfx_flip p) = pfx_prefix p /\
    Z.shiftr (pfx_bits (pfx_flip p)) (pfx_width - pfx_prefix p) =
    Z.lxor (Z.shiftr (pfx_bits p) (pfx_width - pfx_prefix p)) 1;
  compare_asym a b : pfx_compare a b > 0 -> pfx_compare b a <= 0;
  pseudo_wf : Forall pfx_wf pfx_pseudoDefault;
  pseudo_spec a : fits pfx_width a -> exists p, p ∈ pfx_pseudoDefault /\
    Z.shiftr a (pfx_width - pfx_prefix p) = Z.shiftr (pfx_bits p) (pfx_width - pfx_prefix p);
}.

(** *** IPv4 *)

Lemma shiftr_mask n i z : 0 <= i <= n -> fits n z ->
  Z.shiftr (Z.lxor (Z.land z (Z.shiftl (2 ^ n - 1) i mod 2 ^ n)) (Z.shiftl 1 i)) i
  = Z.lxor (Z.shiftr z i) 1.
Proof.
  intros Hi Hz. apply Z.bits_inj'. intros k Hk.
  rewrite Z.shiftr_spec, !Z.lxor_spec, Z.land_spec, Z.shiftl_spec, Z.shiftr_spec by lia.
  replace (k + i - i) with k by lia. f_equal.
  destruct (Z.lt_ge_cases (k + i) n).
  - rewrite Z.mod_pow2_bits_low, Z.shiftl_spec by lia. replace (k + i - i) with k by lia.
    replace (2 ^ n - 1) with (Z.ones n) by (rewrite Z.ones_equiv; lia).
    rewrite Z.ones_spec_low by lia. apply andb_true_r.
  - rewrite (fits_testbit n z) by (done || lia). done.
Qed.

Lemma fits_mask n i z : 0 <= i < n -> fits n z ->
  fits n (Z.lxor (Z.land z (Z.shiftl (2 ^ n - 1) i mod 2 ^ n)) (Z.shiftl 1 i)).
Proof.
  intros Hi Hz. apply fits_lxor; [lia| |].
  - apply fits_land_l; [lia|done|]. apply Z.mod_pos_bound. lia.
  - split; [apply Z.shiftl_nonneg; lia|]. rewrite Z.shiftl_1_l. apply Z.pow_lt_mono_r; lia.
Qed.

Lemma shiftr_flip i z : 0 <= i -> Z.shiftr (Z.lxor z (Z.shiftl 1 i)) i = Z.lxor (Z.shiftr z i) 1.
Proof. intros Hi. rewrite Z.shiftr_lxor. f_equal. rewrite Z.shiftr_shiftl_l by lia. by rewrite Z.sub_diag. Qed.

Lemma compare4_asym a b : comparePrefixes4 a b > 0 -> comparePrefixes4 b a <= 0.
Proof.
  unfold comparePrefixes4. rewrite (Z.eqb_sym (prefix4 b)), (Z.eqb_sym (bits b)).
  do 2 (case Z.eqb_spec; intros ?; cbn [negb]; [|case Z.ltb_spec; intros ?; case Z.ltb_spec; intros ?; lia]).
  lia.
Qed.
Lemma compare6_asym a b : comparePrefixes6 a b > 0 -> comparePrefixes6 b a <= 0.
Proof.
  unfold comparePrefixes6.
  rewrite (Z.eqb_sym (prefix6 b)), (Z.eqb_sym (highBits b)), (Z.eqb_sym (lowBits b)).
  do 3 (case Z.eqb_spec; intros ?; cbn [negb]; [|case Z.ltb_spec; intros ?; case Z.ltb_spec; intros ?; lia]).
  lia.
Qed.

Definition wf4 (p : Prefix4) : Prop := fits 32 (bits p) /\ 0 <= prefix4 p <= 32.

Lemma subset4_spec p q : wf4 p -> wf4 q ->
  isSubsetOf4 p q = true <->
  prefix4 q <= prefix4 p /\ Z.shiftr (bits p) (32 - prefix4 q) = Z.shiftr (bits q) (32 - prefix4 q).
Proof.
  intros [Hp Hpp] [Hq Hqp]. unfold isSubsetOf4. rewrite Z.gtb_ltb, Z.geb_leb.
  destruct (Z.ltb_spec (prefix4 p) (prefix4 q)); [split; [done|lia]|].
  destruct (Z.leb_spec 32 (prefix4 q)) as [Hge|].
  - replace (32 - prefix4 q) with 0 by lia. rewrite !Z.shiftr_0_r, Z.eqb_eq. split; [|by intros [_ ->]].
    intros ->. split; [lia|done].
  - destruct (Z.eqb_spec (prefix4 q) 0) as [->|].
    + split; [|done]. intros _. split; [lia|]. rewrite !Z.shiftr_div_pow2 by lia.
      change (32 - 0) with 32. unfold fits in *. by rewrite !Z.div_small by lia.
    + rewrite Z.eqb_eq. split; [|by intros [_ ->]]. intros ->. split; [lia|done].
Qed.

Lemma Forall2_seqZ {P} (f : Z -> P) (R : Z -> P -> Prop) m n :
  (forall i, m <= i < m + n -> R i (f i)) -> Forall2 R (seqZ m n) (f <$> seqZ m n).
Proof.
  intros HR. apply Forall2_fmap_r, Forall_Forall2_diag, Forall_forall.
  intros i Hi. apply HR. by apply elem_of_seqZ.
Qed.

Lemma invert4_spec p : wf4 p -> exists l, invertPrefix4 p = Ret l /\
  Forall2 (fun i s => wf4 s /\ prefix4 s = 32 - i /\
    Z.shiftr (bits s) i = Z.lxor (Z.shiftr (bits p) i) 1) (seqZ (32 - prefix4 p) (prefix4 p)) l.
Proof.
  intros [Hp Hpp]. unfold invertPrefix4. destruct (Z.gtb_spec (prefix4 p) 32); [lia|].
  eexists. split; [done|]. apply Forall2_seqZ. intros i Hi. split_and!; cbn [bits prefix4].
  - split; cbn [bits prefix4]; [apply (fits_mask 32)|]; (done || lia).
  - done.
  - apply (shiftr_mask 32); [lia|done].
Qed.

Lemma flip4_spec p : wf4 p -> 0 < prefix4 p ->
  wf4 (flip4 p) /\ prefix4 (flip4 p) = prefix4 p /\
  Z.shiftr (bits (flip4 p)) (32 - prefix4 p) = Z.lxor (Z.shiftr (bits p) (32 - prefix4 p)) 1.
Proof.
  intros [Hp Hpp] H0. unfold flip4, wf4. cbn [bits prefix4].
  rewrite (proj2 (Z.eqb_neq _ _)) by lia. cbn [negb]. split_and!; [|lia..|done|apply shiftr_flip; lia].
  apply fits_lxor; [lia|done|]. split; [apply Z.shiftl_nonneg; lia|].
  rewrite Z.shiftl_1_l. apply Z.pow_lt_mono_r; lia.
Qed.

Lemma halves w a : 0 < w -> fits w a -> Z.shiftr a (w - 1) = 0 \/ Z.shiftr a (w - 1) = 1.
Proof.
  intros Hw Ha. rewrite Z.shiftr_div_pow2 by lia. unfold fits in Ha.
  assert (2 ^ w = 2 * 2 ^ (w - 1)) as Hp by (rewrite <- Z.pow_succ_r by lia; f_equal; lia).
  pose proof (Z.div_pos a (2 ^ (w - 1))). pose proof (Z.div_lt_upper_bound a (2 ^ (w - 1)) 2).
  pose proof (Z.pow_pos_nonneg 2 (w - 1)). lia.
Qed.

#[export] Program Instance Laws4 : PrefixLaws Prefix4 := {|
  pfx_width := 32; pfx_bits := bits; pfx_wf := wf4;
  subset_spec := subset4_spec; invert_spec := invert4_spec; flip_spec := flip4_spec;
  compare_asym := compare4_asym |}.
Next Obligation. by intros p. Qed.
Next Obligation. lia. Qed.
Next Obligation. repeat (apply Forall_cons; split; [by repeat split|]). by apply Forall_nil. Qed.
Next Obligation.
  intros a Ha. destruct (halves 32 a) as [E|E]; [lia|done|..].
  - exists (mkPrefix4 0 1). split; [apply list_elem_of_here|exact E].
  - exists (mkPrefix4 0x80000000 1). split; [right; apply list_elem_of_here|exact E].
Qed.

(** *** IPv6: the two halves as one number *)

Definition bits6 (p : Prefix6) : Z := highBits p * 2 ^ 64 + lowBits p.
Definition wf6 (p : Prefix6) : Prop :=
  fits 64 (highBits p) /\ fits 64 (lowBits p) /\ 0 <= prefix6 p <= 128.

Lemma bits6_high h l p i : fits 64 l -> 64 <= i ->
  Z.shiftr (bits6 (mkPrefix6 h l p)) i = Z.shiftr h (i - 64).
Proof.
  intros Hl Hi. unfold bits6. cbn [highBits lowBits]. replace i with (64 + (i - 64)) at 1 by lia.
  rewrite <- Z.shiftr_shiftr by lia. f_equal. rewrite Z.shiftr_div_pow2 by lia. unfold fits in Hl.
  rewrite Z.add_comm, Z_div_plus_full, Z.div_small by lia. lia.
Qed.

Lemma bits6_low h l p i : 0 <= i <= 64 ->
  Z.shiftr (bits6 (mkPrefix6 h l p)) i = h * 2 ^ (64 - i) + Z.shiftr l i.
Proof.
  intros Hi. unfold bits6. cbn [highBits lowBits]. rewrite !Z.shiftr_div_pow2 by lia.
  replace (h * 2 ^ 64) with (h * 2 ^ (64 - i) * 2 ^ i)
    by (rewrite <- Z.mul_assoc, <- Z.pow_add_r by lia; do 2 f_equal; lia).
  pose proof (Z.pow_pos_nonneg 2 i). by rewrite Z.add_comm, Z_div_plus_full, Z.add_comm by lia.
Qed.

Lemma bits6_fits p : wf6 p -> fits 128 (bits6 p).
Proof.
  intros (Hh & Hl & _). unfold fits, bits6 in *. change (2 ^ 128) with (2 ^ 64 * 2 ^ 64).
  change (2 ^ 64) with 18446744073709551616 in *. nia.
Qed.

(** A number whose lower part is flipped. *)
Lemma lxor_1_add h l i : 0 <= i < 64 -> fits 64 l ->
  Z.lxor (h * 2 ^ (64 - i) + Z.shiftr l i) 1 = h * 2 ^ (64 - i) + Z.lxor (Z.shiftr l i) 1.
Proof.
  intros Hi Hl. assert (Hf : fits (64 - i) (Z.shiftr l i)) by (apply fits_shiftr; [lia|done]).
  assert (Hf1 : fits (64 - i) (Z.lxor (Z.shiftr l i) 1)).
  { apply fits_lxor; [lia|done|]. split; [lia|]. apply (Z.pow_gt_1 2 (64 - i)); lia. }
  rewrite !(Z.add_comm (h * _)), <- !lor_shiftl_add by (done || lia).
  apply Z.bits_inj'. intros k Hk. rewrite !Z.lxor_spec, !Z.lor_spec, !Z.lxor_spec.
  destruct (Z.eq_dec k 0) as [->|].
  - rewrite Z.shiftl_spec_low by lia. by destruct (Z.testbit (Z.shiftr l i) 0).
  - replace (Z.testbit 1 k) with false; [by rewrite !xorb_false_r|].
    symmetry. apply (fits_testbit 1); [split; lia|lia].
Qed.

Lemma subset6_spec p q : wf6 p -> wf6 q ->
  isSubsetOf6 p q = true <->
  prefix6 q <= prefix6 p /\ Z.shiftr (bits6 p) (128 - prefix6 q) = Z.shiftr (bits6 q) (128 - prefix6 q).
Proof.
  destruct p as [ph pl pp], q as [qh ql qp]. intros (Hph & Hpl & Hpp) (Hqh & Hql & Hqp).
  unfold isSubsetOf6. cbn [highBits lowBits prefix6] in *. rewrite !Z.gtb_ltb.
  destruct (Z.ltb_spec pp qp); [split; [done|lia]|].
  destruct (Z.ltb_spec 64 qp).
  - rewrite !bits6_low by lia. rewrite andb_true_iff, !Z.eqb_eq.
    replace (64 - (128 - qp)) with (qp - 64) by lia.
    pose proof (fits_shiftr 64 (128 - qp) pl ltac:(lia) Hpl) as H1.
    pose proof (fits_shiftr 64 (128 - qp) ql ltac:(lia) Hql) as H2.
    replace (64 - (128 - qp)) with (qp - 64) in H1, H2 by lia. unfold fits in H1, H2.
    split; [intros [-> ->]; split; [lia|done]|]. intros [_ E].
    rewrite !(Z.mul_comm _ (2 ^ _)) in E. by apply Z.div_mod_unique in E as [E1 E2]; [|lia..].
  - destruct (Z.eqb_spec qp 0) as [->|]; cbn [negb].
    + split; [|done]. intros _. split; [lia|]. change (128 - 0) with 128.
      rewrite !Z.shiftr_div_pow2 by lia.
      pose proof (bits6_fits (mkPrefix6 ph pl pp)) as H1. pose proof (bits6_fits (mkPrefix6 qh ql 0)) as H2.
      unfold fits in H1, H2. rewrite !Z.div_small; [done|apply H2; done|apply H1; done].
    + rewrite !bits6_high by (done || lia). replace (128 - qp - 64) with (64 - qp) by lia.
      rewrite Z.eqb_eq. split; [intros ->; split; [lia|done]|by intros [_ ->]].
Qed.

Lemma invert6_spec p : wf6 p -> exists l, invertPrefix6 p = Ret l /\
  Forall2 (fun i s => wf6 s /\ prefix6 s = 128 - i /\
    Z.shiftr (bits6 s) i = Z.lxor (Z.shiftr (bits6 p) i) 1) (seqZ (128 - prefix6 p) (prefix6 p)) l.
Proof.
  destruct p as [h l n]. intros (Hh & Hl & Hn). unfold invertPrefix6. cbn [highBits lowBits prefix6] in *.
  destruct (Z.gtb_spec n 128); [lia|]. eexists. split; [done|]. apply Forall2_seqZ. intros i Hi.
  rewrite Z.geb_leb. destruct (Z.leb_spec 64 i) as [Hi2|Hi2].
  - assert (Hm := fits_mask 64 (i - 64) h ltac:(lia) Hh). split_and!; [|done|].
    + split_and!; [done|split; cbn; lia|cbn; lia..].
    + rewrite !bits6_high by (done || lia). apply (shiftr_mask 64); [lia|done].
  - assert (Hm := fits_mask 64 i l ltac:(lia) Hl). split_and!; [|done|].
    + split_and!; [done|done|cbn; lia..].
    + rewrite !bits6_low by lia. rewrite lxor_1_add by (done || lia). f_equal.
      apply (shiftr_mask 64); [lia|done].
Qed.

Lemma flip6_spec p : wf6 p -> 0 < prefix6 p ->
  wf6 (flip6 p) /\ prefix6 (flip6 p) = prefix6 p /\
  Z.shiftr (bits6 (flip6 p)) (128 - prefix6 p) = Z.lxor (Z.shiftr (bits6 p) (128 - prefix6 p)) 1.
Proof.
  destruct p as [h l n]. intros (Hh & Hl & Hn) H0. unfold flip6. cbn [highBits lowBits prefix6] in *.
  assert (Hpow : forall k, 0 <= k < 64 -> fits 64 (Z.shiftl 1 k)).
  { intros k Hk. split; [apply Z.shiftl_nonneg; lia|]. rewrite Z.shiftl_1_l. apply Z.pow_lt_mono_r; lia. }
  destruct (Z.gtb_spec n 64); [|rewrite (proj2 (Z.eqb_neq n 0)) by lia; cbn [negb]].
  - assert (fits 64 (Z.lxor l (Z.shiftl 1 (128 - n)))) by (apply fits_lxor; [lia|done|apply Hpow; lia]).
    split_and!; [done..|]. rewrite !bits6_low by lia. rewrite lxor_1_add by (done || lia). f_equal.
    apply shiftr_flip. lia.
  - assert (fits 64 (Z.lxor h (Z.shiftl 1 (64 - n)))) by (apply fits_lxor; [lia|done|apply Hpow; lia]).
    split_and!; [|done|].
    + split_and!; [done|by split|cbn; lia..].
    + rewrite !bits6_high by (done || lia || by split). replace (128 - n - 64) with (64 - n) by lia.
      apply shiftr_flip. lia.
Qed.

#[export] Program Instance Laws6 : PrefixLaws Prefix6 := {|
  pfx_width := 128; pfx_bits := bits6; pfx_wf := wf6;
  subset_spec := subset6_spec; invert_spec := invert6_spec; flip_spec := flip6_spec;
  compare_asym := compare6_asym |}.
Next Obligation. intros p Hp. split; [by apply bits6_fits|apply Hp]. Qed.
Next Obligation. lia. Qed.
Next Obligation. repeat (apply Forall_cons; split; [by repeat split|]). by apply Forall_nil. Qed.
Next Obligation.
  intros a Ha. destruct (halves 128 a) as [E|E]; [lia|done|..].
  - exists (mkPrefix6 0 0 1). split; [apply list_elem_of_here|exact E].
  - exists (mkPrefix6 0x8000000000000000 0 1). split; [right; apply list_elem_of_here|exact E].
Qed.

(** ** Blocks of addresses *)

Section Theory.
Context {P : Type} `{HL : PrefixLaws P}.
#[local] Set Default Proof Using "All".
Implicit Types p q e s m : P.
Implicit Types M es : list P.

Abbreviation W := pfx_width.

Definition covers (p : P) (a : Z) : Prop :=
  fits W a /\ Z.shiftr a (W - pfx_prefix p) = Z.shiftr (pfx_bits p) (W - pfx_prefix p).

#[global] Instance covers_dec p a : Decision (covers p a).
Proof. unfold covers, fits. apply _. Defined.

Definition covered (l : list P) (a : Z) : Prop := exists p, p ∈ l /\ covers p a.

#[global] Instance covered_dec l a : Decision (covered l a).
Proof.
  refine (cast_if (decide (Exists (fun p => covers p a) l))); unfold covered;
    [abstract (by apply Exists_exists)|abstract (by rewrite <- Exists_exists)].
Defined.

Lemma shiftr_le a b x y : 0 <= x <= y -> Z.shiftr a x = Z.shiftr b x -> Z.shiftr a y = Z.shiftr b y.
Proof.
  intros Hxy E. replace y with (x + (y - x)) by lia. by rewrite <- !Z.shiftr_shiftr, E by lia.
Qed.

Lemma covers_subset p q a : pfx_wf p -> pfx_wf q ->
  pfx_subset p q = true -> covers p a -> covers q a.
Proof.
  intros Hp Hq [Hle E]%(subset_spec p q Hp Hq) [Ha Hpa]. split; [done|]. rewrite <- E.
  apply wf_range in Hp as [_ Hp], Hq as [_ Hq]. eapply shiftr_le; [|exact Hpa]. lia.
Qed.

Lemma nest p q a : pfx_wf p -> pfx_wf q -> covers p a -> covers q a ->
  pfx_subset p q = true \/ pfx_subset q p = true.
Proof.
  intros Hp Hq [_ Hpa] [_ Hqa]. rewrite !subset_spec by done.
  apply wf_range in Hp as [_ Hp], Hq as [_ Hq].
  destruct (Z.le_ge_cases (pfx_prefix q) (pfx_prefix p)); [left|right]; (split; [lia|]).
  - rewrite <- Hqa. symmetry. eapply shiftr_le; [|exact Hpa]. lia.
  - rewrite <- Hpa. symmetry. eapply shiftr_le; [|exact Hqa]. lia.
Qed.

Lemma subset_refl p : pfx_wf p -> pfx_subset p p = true.
Proof. intros Hp. by apply subset_spec. Qed.

Lemma subset_trans p q r : pfx_wf p -> pfx_wf q -> pfx_wf r ->
  pfx_subset p q = true -> pfx_subset q r = true -> pfx_subset p r = true.
Proof.
  intros Hp Hq Hr [H1 E1]%(subset_spec p q Hp Hq) [H2 E2]%(subset_spec q r Hq Hr).
  apply subset_spec; [done..|]. apply wf_range in Hp as [_ Hp], Hq as [_ Hq], Hr as [_ Hr].
  split; [lia|]. rewrite <- E2. eapply shiftr_le; [|exact E1]. lia.
Qed.

Lemma covers_self p : pfx_wf p -> covers p (pfx_bits p).
Proof. intros Hp. apply wf_range in Hp as [? _]. by split. Qed.

(** *** The blocks next to an exception *)

Lemma sibling_bit x y i : 0 <= i ->
  Z.shiftr x i <> Z.shiftr y i -> Z.shiftr x (i + 1) = Z.shiftr y (i + 1) ->
  Z.shiftr x i = Z.lxor (Z.shiftr y i) 1.
Proof.
  intros Hi Hne E. rewrite <- !Z.shiftr_shiftr in E by lia.
  set (u := Z.shiftr x i) in *. set (v := Z.shiftr y i) in *.
  assert (Hbits : forall k, 0 < k -> Z.testbit u k = Z.testbit v k).
  { intros k Hk. apply (f_equal (fun z => Z.testbit z (k - 1))) in E.
    rewrite !Z.shiftr_spec in E by lia. by replace (k - 1 + 1) with k in E by lia. }
  apply Z.bits_inj'. intros k Hk. rewrite Z.lxor_spec.
  destruct (Z.eq_dec k 0) as [->|].
  - change (Z.testbit 1 0) with true. destruct (Z.testbit u 0) eqn:Eu, (Z.testbit v 0) eqn:Ev; try done;
      exfalso; apply Hne, Z.bits_inj'; intros k Hk';
      (destruct (Z.eq_dec k 0) as [->|]; [congruence|apply Hbits; lia]).
  - rewrite (Hbits k) by lia. replace (Z.testbit 1 k) with false; [by rewrite xorb_false_r|].
    symmetry. apply (fits_testbit 1); [split; lia|lia].
Qed.

(** Two addresses below [2 ^ W] which differ above bit [k] part at some bit. *)
Lemma parting (n : nat) : forall x y k, 0 <= k ->
  Z.shiftr x (k + Z.of_nat n) = Z.shiftr y (k + Z.of_nat n) -> Z.shiftr x k <> Z.shiftr y k ->
  exists i, k <= i < k + Z.of_nat n /\ Z.shiftr x i = Z.lxor (Z.shiftr y i) 1.
Proof.
  induction n as [|n IH]; intros x y k Hk E Hne; [by replace (k + Z.of_nat 0) with k in E by lia|].
  destruct (Z.eq_dec (Z.shiftr x (k + 1)) (Z.shiftr y (k + 1))) as [E1|N1].
  - exists k. split; [lia|]. by apply sibling_bit.
  - destruct (IH x y (k + 1)) as (i & Hi & Hx); [lia| |done|exists i; split; [lia|done]].
    by replace (k + 1 + Z.of_nat n) with (k + Z.of_nat (S n)) by lia.
Qed.

Lemma shiftr_lxor_1 x i j : 0 <= i < j -> Z.shiftr (Z.lxor (Z.shiftr x i) 1) (j - i) = Z.shiftr x j.
Proof.
  intros Hij. rewrite Z.shiftr_lxor, Z.shiftr_shiftr by lia. replace (i + (j - i)) with j by lia.
  replace (Z.shiftr 1 (j - i)) with 0; [apply Z.lxor_0_r|]. symmetry. rewrite Z.shiftr_div_pow2 by lia.
  apply Z.div_small. split; [lia|]. apply Z.pow_gt_1; lia.
Qed.

Lemma lxor_1_neq x : Z.lxor x 1 <> x.
Proof.
  intros E. apply (f_equal (fun z => Z.testbit z 0)) in E. rewrite Z.lxor_spec in E.
  change (Z.testbit 1 0) with true in E. by destruct (Z.testbit x 0).
Qed.

(** The block next to [e] at bit [i]. *)
Definition sibling (e : P) (i : Z) (s : P) : Prop :=
  pfx_wf s /\ pfx_prefix s = W - i /\ Z.shiftr (pfx_bits s) i = Z.lxor (Z.shiftr (pfx_bits e) i) 1.

Lemma sibling_apart e i s a : pfx_wf e -> W - pfx_prefix e <= i -> sibling e i s ->
  covers s a -> ~ covers e a.
Proof.
  intros He Hi (Hs & Hp & E) [_ Ha] [_ Hb]. apply wf_range in He as [_ He].
  rewrite Hp in Ha. replace (W - (W - i)) with i in Ha by lia. rewrite E in Ha.
  apply (lxor_1_neq (Z.shiftr (pfx_bits e) i)). rewrite <- Ha. eapply shiftr_le; [|exact Hb]. lia.
Qed.

(** A block which meets a sibling of [e] lies inside the sibling or contains [e]. *)
Lemma sibling_nest e i s m a : pfx_wf e -> pfx_wf m -> W - pfx_prefix e <= i -> sibling e i s ->
  covers m a -> covers s a -> pfx_subset m s = true \/ pfx_subset e m = true.
Proof.
  intros He Hm Hi (Hs & Hp & E) [_ Hma] [_ Hsa]. rewrite !subset_spec by done.
  apply wf_range in He as [_ He], Hm as [_ Hm]. rewrite Hp in Hsa |- *.
  replace (W - (W - i)) with i in * by lia.
  destruct (Z.le_gt_cases (W - pfx_prefix m) i) as [Hle|Hgt]; [left|right]; (split; [lia|]).
  - rewrite <- Hsa. symmetry. eapply shiftr_le; [|exact Hma]. lia.
  - rewrite <- Hma, <- (shiftr_lxor_1 (pfx_bits e) i), <- E, <- Hsa by lia.
    rewrite Z.shiftr_shiftr by lia. f_equal. lia.
Qed.

Lemma sibling_inj e i j s s' a : pfx_wf e -> W - pfx_prefix e <= i -> i < j ->
  sibling e i s -> sibling e j s' -> covers s a -> covers s' a -> False.
Proof.
  intros He Hi Hij (_ & Hp & E) (_ & Hp' & E') [_ Ha] [_ Ha']. apply wf_range in He as [_ He].
  rewrite Hp, Hp' in *. replace (W - (W - i)) with i in Ha by lia.
  replace (W - (W - j)) with j in Ha' by lia. rewrite E in Ha. rewrite E' in Ha'.
  apply (lxor_1_neq (Z.shiftr (pfx_bits e) j)). rewrite <- Ha'.
  rewrite <- (shiftr_lxor_1 (pfx_bits e) i j), <- Ha by lia. rewrite Z.shiftr_shiftr by lia. f_equal. lia.
Qed.
(** What [pfx_invert] gives. *)
Record inverted (e : P) (l : list P) : Prop := {
  inv_wf : Forall pfx_wf l;
  inv_nodup : NoDup l;
  inv_cover a : fits W a -> ~ covers e a -> covered l a;
  inv_apart s a : s ∈ l -> covers s a -> ~ covers e a;
  inv_nest s m a : s ∈ l -> pfx_wf m -> covers m a -> covers s a ->
    pfx_subset m s = true \/ pfx_subset e m = true;
  inv_disjoint s s' a : s ∈ l -> s' ∈ l -> covers s a -> covers s' a -> s = s';
  inv_target : 0 < pfx_prefix e -> exists h, highestPrefix l = Some h /\
    forall m, pfx_wf m -> pfx_subset (pfx_flip h) m = pfx_subset e m;
}.

Lemma siblings_elem e k n l s :
  Forall2 (sibling e) (seqZ k n) l -> s ∈ l -> exists i, k <= i < k + n /\ sibling e i s.
Proof.
  intros HF (j & Hj)%list_elem_of_lookup_1.
  destruct (Forall2_lookup_r _ _ _ _ _ HF Hj) as (i & Hi & Hs).
  exists i. split; [|done]. apply elem_of_seqZ, list_elem_of_lookup. by exists j.
Qed.

Lemma highest_first h l :
  Forall (fun s => pfx_prefix s <= pfx_prefix h) l -> highestPrefix (h :: l) = Some h.
Proof.
  unfold highestPrefix. cbn [fold_left]. induction 1 as [|s l Hs _ IH]; [done|]. cbn [fold_left].
  by rewrite (proj2 (Z.ltb_ge _ _)).
Qed.

Lemma invert_target e l : pfx_wf e -> 0 < pfx_prefix e ->
  Forall2 (sibling e) (seqZ (W - pfx_prefix e) (pfx_prefix e)) l ->
  exists h, highestPrefix l = Some h /\
    forall m, pfx_wf m -> pfx_subset (pfx_flip h) m = pfx_subset e m.
Proof.
  intros He H0 HF. pose proof (wf_range e He) as [_ Hr]. rewrite seqZ_cons in HF by lia.
  apply Forall2_cons_inv_l in HF as (h & l' & Hh & HF & ->). exists h. split.
  - apply highest_first, Forall_forall. intros s Hs.
    destruct (siblings_elem _ _ _ _ _ HF Hs) as (i & Hi & _ & -> & _).
    destruct Hh as (_ & -> & _). lia.
  - destruct Hh as (Hhw & Hhp & Hhb). replace (W - (W - pfx_prefix e)) with (pfx_prefix e) in Hhp by lia.
    destruct (flip_spec h Hhw ltac:(lia)) as (Hfw & Hfp & Hfb). rewrite Hhp in Hfp, Hfb.
    rewrite Hhb, Z.lxor_assoc, Z.lxor_0_r in Hfb. intros m Hm. apply eq_true_iff_eq.
    rewrite !subset_spec, Hfp by done. apply wf_range in Hm as [_ Hm]. split; intros [Hle E]; (split; [done|]).
    + rewrite <- E. symmetry. eapply shiftr_le; [|exact Hfb]. lia.
    + rewrite <- E. eapply shiftr_le; [|exact Hfb]. lia.
Qed.

Lemma invert_inverted e : pfx_wf e -> exists l, pfx_invert e = Ret l /\ inverted e l.
Proof.
  intros He. destruct (invert_spec e He) as (l & Hl & HF). exists l. split; [done|].
  pose proof (wf_range e He) as [Hb Hr]. pose proof (siblings_elem e (W - pfx_prefix e) (pfx_prefix e) l) as Hel.
  assert (Hdis : forall s s' a, s ∈ l -> s' ∈ l -> covers s a -> covers s' a -> s = s').
  { intros s s' a (j & Hj)%list_elem_of_lookup_1 (j' & Hj')%list_elem_of_lookup_1 Ha Ha'.
    destruct (Forall2_lookup_r _ _ _ _ _ HF Hj) as (i & Hi & Hs).
    destruct (Forall2_lookup_r _ _ _ _ _ HF Hj') as (i' & Hi' & Hs').
    apply lookup_seqZ in Hi as [-> Hlj], Hi' as [-> Hlj'].
    destruct (Nat.lt_trichotomy j j') as [Hlt|[->|Hlt]]; [exfalso|congruence|exfalso].
    - eapply (sibling_inj e); [done| | |exact Hs|exact Hs'|done..]; lia.
    - eapply (sibling_inj e); [done| | |exact Hs'|exact Hs|done..]; lia. }
  split.
  - apply Forall_forall. intros s Hs. by destruct (Hel s HF Hs) as (i & _ & Hw & _).
  - apply NoDup_alt. intros j j' s Hj Hj'.
    destruct (Forall2_lookup_r _ _ _ _ _ HF Hj) as (i & Hi & _ & Hp & _).
    destruct (Forall2_lookup_r _ _ _ _ _ HF Hj') as (i' & Hi' & _ & Hp' & _).
    apply lookup_seqZ in Hi as [-> _], Hi' as [-> _]. lia.
  - intros a Ha Hne. destruct (parting (Z.to_nat (pfx_prefix e)) a (pfx_bits e) (W - pfx_prefix e))
      as (i & Hi & E); [lia| | |].
    + replace (W - pfx_prefix e + Z.of_nat _) with W by lia. rewrite !Z.shiftr_div_pow2 by lia.
      unfold fits in *. by rewrite !Z.div_small by lia.
    + intros E. by apply Hne.
    + assert (Hin : i ∈ seqZ (W - pfx_prefix e) (pfx_prefix e)) by (apply elem_of_seqZ; lia).
      apply list_elem_of_lookup_1 in Hin as (j & Hj).
      destruct (Forall2_lookup_l _ _ _ _ _ HF Hj) as (s & Hs & _ & Hp & Hsb).
      exists s. split; [apply list_elem_of_lookup; by exists j|]. split; [done|]. rewrite Hp.
      replace (W - (W - i)) with i by lia. by rewrite Hsb.
  - intros s a Hs. destruct (Hel s HF Hs) as (i & Hi & Hsib). eapply sibling_apart; [done| |exact Hsib]. lia.
  - intros s m a Hs Hm. destruct (Hel s HF Hs) as (i & Hi & Hsib).
    eapply sibling_nest; [done|done| |exact Hsib]. lia.
  - done.
  - intros H0. by apply invert_target.
Qed.

(** *** Merging *)

Definition some_subset (M : list P) (x : P) : Prop := exists m, m ∈ M /\ pfx_subset m x = true.

Lemma existsb_subset M x : existsb (fun test => pfx_subset test x) M = true <-> some_subset M x.
Proof.
  rewrite existsb_exists. unfold some_subset. by setoid_rewrite list_elem_of_In.
Qed.

Lemma include_elem M x y : y ∈ include M x <-> y ∈ M \/ (y = x /\ ~ some_subset M x).
Proof.
  unfold include. destruct (existsb _ M) eqn:E.
  - apply existsb_subset in E. naive_solver.
  - assert (~ some_subset M x) by (rewrite <- existsb_subset; congruence).
    rewrite elem_of_app, list_elem_of_singleton. naive_solver.
Qed.

Lemma include_nodup M x : pfx_wf x -> NoDup M -> NoDup (include M x).
Proof.
  intros Hx HM. unfold include. destruct (existsb _ M) eqn:E; [done|].
  apply NoDup_app. split_and!; [done| |by apply NoDup_singleton].
  intros y Hy ->%list_elem_of_singleton. apply not_true_iff_false in E. apply E, existsb_subset.
  exists x. split; [done|by apply subset_refl].
Qed.

(** Blocks none of which lies in another are each included or not by themselves. *)
Lemma fold_include_apart l : forall M y,
  NoDup l -> (forall s s', s ∈ l -> s' ∈ l -> pfx_subset s s' = true -> s = s') ->
  y ∈ fold_left include l M <-> y ∈ M \/ (y ∈ l /\ ~ some_subset M y).
Proof.
  induction l as [|x l IH]; intros M y Hnd Hsub; cbn [fold_left].
  - split; [tauto|]. intros [?|[?%not_elem_of_nil _]]; done.
  - apply NoDup_cons in Hnd as [Hx Hnd]. rewrite IH, include_elem, elem_of_cons by
      (done || (intros; apply Hsub; by try apply list_elem_of_further)).
    assert (Hss : y ∈ l -> some_subset (include M x) y <-> some_subset M y).
    { intros Hy. unfold some_subset. setoid_rewrite include_elem. split; [|naive_solver].
      intros (m & [Hm|[-> _]] & Hmy); [by exists m|]. exfalso. apply Hx.
      by rewrite (Hsub x y) by (done || by constructor). }
    naive_solver.
Qed.

Lemma fold_include_nodup l : forall M, Forall pfx_wf l -> NoDup M -> NoDup (fold_left include l M).
Proof.
  induction l as [|x l IH]; intros M Hl HM; [done|]. apply Forall_cons in Hl as [Hx Hl].
  apply IH; [done|]. by apply include_nodup.
Qed.

(** The working list: disjoint blocks. *)
Record blocks (M : list P) : Prop := {
  blk_wf : Forall pfx_wf M;
  blk_nodup : NoDup M;
  blk_disjoint p q a : p ∈ M -> q ∈ M -> covers p a -> covers q a -> p = q;
}.

Lemma blocks_nil : blocks [].
Proof. split; [constructor|constructor|]. by intros ? ? ? ?%not_elem_of_nil. Qed.

Lemma blocks_subset M p q : blocks M -> p ∈ M -> q ∈ M -> pfx_subset p q = true -> p = q.
Proof.
  intros HM Hp Hq Hs. pose proof (blk_wf _ HM) as Hw. rewrite Forall_forall in Hw.
  apply (blk_disjoint _ HM p q (pfx_bits p)); [done|done|by apply covers_self; auto|].
  apply (covers_subset p q); auto using covers_self.
Qed.

(** The list after the blocks of one exception have been merged in. *)
Definition merged (e : P) (l M : list P) (y : P) : Prop :=
  (y ∈ M /\ pfx_subset e y = false) \/
  (y ∈ l /\ forall m, m ∈ M -> pfx_subset e m = false -> pfx_subset m y = false).

Lemma merge_spec e l M : pfx_wf e -> 0 < pfx_prefix e -> inverted e l -> Forall pfx_wf M -> NoDup M ->
  exists M', mergePrefixSets M l = Ret M' /\ NoDup M' /\ forall y, y ∈ M' <-> merged e l M y.
Proof.
  intros He H0 Hl HM Hnd. destruct (inv_target _ _ Hl H0) as (h & Hh & Ht).
  unfold mergePrefixSets. rewrite Hh. eexists. split; [done|]. pose proof (inv_wf _ _ Hl) as Hw.
  assert (Hfil : forall y, y ∈ List.filter (fun r => negb (pfx_subset (pfx_flip h) r)) M
                 <-> y ∈ M /\ pfx_subset e y = false).
  { intros y. rewrite list_elem_of_In, filter_In, <- list_elem_of_In, negb_true_iff.
    rewrite Forall_forall in HM. split; intros [Hy Hs]; (split; [done|]); rewrite Ht in * by auto; done. }
  split.
  - apply fold_include_nodup; [done|]. apply NoDup_ListNoDup, List.NoDup_filter. by apply NoDup_ListNoDup.
  - intros y. rewrite fold_include_apart, Hfil.
    + unfold merged, some_subset. setoid_rewrite Hfil. split; (intros [?|[? Hn]]; [by left|right]);
        (split; [done|]).
      * intros m Hm Hem. apply not_true_iff_false. intros ?. apply Hn. by exists m.
      * intros (m & [Hm Hem] & Hs). by rewrite Hn in Hs.
    + apply Hl.
    + intros s s' Hs Hs' Hsub. rewrite Forall_forall in Hw.
      apply (inv_disjoint _ _ Hl s s' (pfx_bits s)); auto using covers_self.
      apply (covers_subset s s'); auto using covers_self.
Qed.

Lemma merged_disjoint e l M p q a : inverted e l -> blocks M ->
  merged e l M p -> merged e l M q -> covers p a -> covers q a -> p = q.
Proof.
  intros Hl HM Hp Hq Ha Hb. pose proof (blk_wf _ HM) as Hw. rewrite Forall_forall in Hw.
  assert (Hmix : forall m s, m ∈ M -> pfx_subset e m = false -> s ∈ l ->
    (forall m, m ∈ M -> pfx_subset e m = false -> pfx_subset m s = false) ->
    covers m a -> covers s a -> False).
  { intros m s Hm Hem Hs Hn H1 H2. destruct (inv_nest _ _ Hl s m a) as [E|E]; auto; [|congruence].
    by rewrite Hn in E. }
  destruct Hp as [[Hp Hep]|[Hp Hnp]], Hq as [[Hq Heq]|[Hq Hnq]].
  - by apply (blk_disjoint _ HM p q a).
  - destruct (Hmix p q); done.
  - destruct (Hmix q p); done.
  - by apply (inv_disjoint _ _ Hl p q a).
Qed.

(** Coverage of what no exception so far covers; before the first exception the
    list is empty. *)
Definition complete (es M : list P) : Prop :=
  (es = [] /\ M = []) \/ forall a, fits W a -> ~ covered es a -> covered M a.

Lemma merged_complete e l es M a : pfx_wf e -> inverted e l -> blocks M -> complete es M ->
  fits W a -> ~ covered es a -> ~ covers e a -> exists p, merged e l M p /\ covers p a.
Proof.
  intros He Hl HM Hc Ha Hes Hea. destruct (inv_cover _ _ Hl a Ha Hea) as (s & Hs & Hsa).
  destruct Hc as [[-> ->]|Hc].
  { exists s. split; [right; split; [done|]|done]. by intros m Hm%not_elem_of_nil. }
  destruct (Hc a Ha Hes) as (m & Hm & Hma). pose proof (blk_wf _ HM) as Hw. rewrite Forall_forall in Hw.
  pose proof (inv_wf _ _ Hl) as Hwl. rewrite Forall_forall in Hwl.
  destruct (pfx_subset e m) eqn:Hem; [|exists m; by split; [left|]].
  exists s. split; [right; split; [done|]|done]. intros m' Hm' Hem'. apply not_true_iff_false. intros Hs'.
  destruct (nest s m a) as [Hsm|Hms]; auto.
  - assert (m' = m); [|congruence]. apply (blocks_subset M); auto. apply (subset_trans m' s m); auto.
  - apply (inv_apart _ _ Hl s (pfx_bits e) Hs); [|by apply covers_self].
    apply (covers_subset m s); auto. apply (covers_subset e m); auto using covers_self.
Qed.

(** Exactness: no block meets an exception, and every larger block does. *)
Record exact (es M : list P) : Prop := {
  exact_avoid m a : m ∈ M -> covers m a -> ~ covered es a;
  exact_max m q : m ∈ M -> pfx_wf q -> pfx_subset m q = true -> pfx_subset q m = false ->
    exists b, covers q b /\ covered es b;
}.

(** The exception [e] can follow [es]: it is apart from them or one of them again,
    and no block next to it lies within them. *)
Definition follows (es : list P) (e : P) : Prop :=
  (forall e' a, e' ∈ es -> covers e' a -> covers e a ->
     pfx_subset e e' = true /\ pfx_subset e' e = true) /\
  (forall i s, W - pfx_prefix e <= i < W -> sibling e i s -> exists b, covers s b /\ ~ covered es b).

Lemma covered_snoc es e a : covered (es ++ [e]) a <-> covered es a \/ covers e a.
Proof.
  unfold covered. setoid_rewrite elem_of_app. setoid_rewrite list_elem_of_singleton. naive_solver.
Qed.

Lemma invert_follows e l es s : pfx_invert e = Ret l -> pfx_wf e -> follows es e -> s ∈ l ->
  exists b, covers s b /\ ~ covered es b.
Proof.
  intros Hl He [_ Hf] Hs. destruct (invert_spec e He) as (l' & Hl' & HF).
  rewrite Hl in Hl'. injection Hl' as <-.
  destruct (siblings_elem _ _ _ _ _ HF Hs) as (i & Hi & Hsib). eapply Hf; [|exact Hsib]. lia.
Qed.

Lemma merged_avoids e l es M y a : pfx_wf e -> pfx_invert e = Ret l -> inverted e l -> blocks M ->
  Forall pfx_wf es -> complete es M -> exact es M -> follows es e ->
  merged e l M y -> covers y a -> ~ covered (es ++ [e]) a.
Proof.
  intros He Hinv Hl HM Hwe Hc Hx Hf Hy Ha. pose proof (blk_wf _ HM) as Hw. rewrite Forall_forall in Hw.
  pose proof (inv_wf _ _ Hl) as Hwl. rewrite Forall_forall in Hwl, Hwe. rewrite covered_snoc.
  destruct Hy as [[Hy Hey]|[Hy Hn]].
  - pose proof (exact_avoid _ _ Hx y a Hy Ha) as Hna. intros [Hes|Hea]; [done|].
    destruct (nest y e a) as [Hye|Hey']; auto; [|congruence].
    destruct (exact_max _ _ Hx y e) as (b & Hb & e' & He' & Hb'); auto.
    destruct (proj1 Hf e' b) as [Hs _]; auto. apply Hna. exists e'. split; [done|].
    apply (covers_subset e e'); auto.
  - intros [Hes|Hea]; [|by apply (inv_apart _ _ Hl y a)].
    destruct Hc as [[-> _]|Hc]; [by destruct Hes as (? & []%not_elem_of_nil & _)|].
    destruct (invert_follows e l es y) as (b & Hb & Hnb); auto.
    destruct (Hc b (proj1 Hb) Hnb) as (m & Hm & Hmb).
    assert (Hapart : pfx_subset e m = true -> pfx_subset m y = true -> False).
    { intros H1 H2. apply (inv_apart _ _ Hl y (pfx_bits e) Hy); [|by apply covers_self].
      apply (covers_subset m y); auto. apply (covers_subset e m); auto using covers_self. }
    destruct (pfx_subset m y) eqn:Hmy.
    { destruct (pfx_subset e m) eqn:Hem; [by apply Hapart|]. rewrite Hn in Hmy; done. }
    destruct (nest y m b) as [Hym|]; auto; [|congruence].
    apply (exact_avoid _ _ Hx m a); auto. apply (covers_subset y m); auto.
Qed.

Lemma merged_max e l es M y q : pfx_wf e -> inverted e l -> exact es M ->
  merged e l M y -> pfx_wf q -> pfx_subset y q = true -> pfx_subset q y = false ->
  exists b, covers q b /\ covered (es ++ [e]) b.
Proof.
  intros He Hl Hx Hy Hq Hyq Hqy. setoid_rewrite covered_snoc. destruct Hy as [[Hy _]|[Hy _]].
  - destruct (exact_max _ _ Hx y q) as (b & ? & ?); auto. exists b. auto.
  - pose proof (inv_wf _ _ Hl) as Hwl. rewrite Forall_forall in Hwl.
    destruct (inv_nest _ _ Hl y q (pfx_bits y)) as [E|E]; auto using covers_self; [|congruence|].
    + apply (covers_subset y q); auto using covers_self.
    + exists (pfx_bits e). split; [|by right; apply covers_self].
      apply (covers_subset e q); auto using covers_self.
Qed.

(** One exception. *)
Lemma exception_step e es M : pfx_wf e -> 0 < pfx_prefix e -> blocks M -> complete es M ->
  exists l M', pfx_invert e = Ret l /\ mergePrefixSets M l = Ret M' /\ blocks M' /\
    complete (es ++ [e]) M' /\
    (Forall pfx_wf es -> exact es M -> follows es e -> exact (es ++ [e]) M').
Proof.
  intros He H0 HM Hc. destruct (invert_inverted e He) as (l & Hinv & Hl).
  destruct (merge_spec e l M) as (M' & Hm & Hnd & Hel); auto; [apply HM..|].
  exists l, M'. split_and!; [done|done| | |].
  - split; [|done|].
    + apply Forall_forall. intros y [[Hy _]|[Hy _]]%Hel.
      * pose proof (blk_wf _ HM) as Hw. rewrite Forall_forall in Hw. auto.
      * pose proof (inv_wf _ _ Hl) as Hw. rewrite Forall_forall in Hw. auto.
    + intros p q a Hp%Hel Hq%Hel. by apply (merged_disjoint e l M).
  - right. intros a Ha Hn. rewrite covered_snoc in Hn.
    destruct (merged_complete e l es M a) as (p & Hp & Hpa); auto. exists p. by rewrite Hel.
  - intros Hes Hx Hf. split.
    + intros m a Hy%Hel. by apply (merged_avoids e l es M).
    + intros m q Hy%Hel. by apply (merged_max e l es M).
Qed.

(** The effective exceptions of a list, each of which can follow those before. *)
Fixpoint follow_all (es l : list P) : Prop :=
  match l with [] => True | e :: l => follows es e /\ follow_all (es ++ [e]) l end.

Definition effectiveExceptions (local exceptions : list P) : list P :=
  List.filter (effective local) exceptions.

Lemma addExceptions_spec local l : forall es M,
  Forall pfx_wf l -> Forall (fun e => 0 < pfx_prefix e) (effectiveExceptions local l) ->
  Forall pfx_wf es -> blocks M -> complete es M ->
  exists M', addExceptions local l M = Ret M' /\ blocks M' /\
    complete (es ++ effectiveExceptions local l) M' /\
    (exact es M -> follow_all es (effectiveExceptions local l) ->
     exact (es ++ effectiveExceptions local l) M').
Proof.
  induction l as [|e l IH]; intros es M Hw H0 Hes HM Hc; unfold effectiveExceptions in *;
    cbn [addExceptions List.filter] in *.
  - exists M. rewrite app_nil_r. done.
  - apply Forall_cons in Hw as [He Hw]. destruct (effective local e); [|by apply IH].
    apply Forall_cons in H0 as [He0 H0].
    destruct (exception_step e es M) as (pl & M1 & E1 & E2 & HM1 & Hc1 & Hx1); auto.
    rewrite E1. cbn [mbind Er_bind]. rewrite E2. cbn [mbind Er_bind].
    destruct (IH (es ++ [e]) M1) as (M' & E3 & HM' & Hc' & Hx'); auto.
    { apply Forall_app. auto. }
    rewrite <- app_assoc in Hc', Hx'. exists M'. split_and!; auto. intros Hx [Hf Hfs]. auto.
Qed.

(** *** The routes *)

(** The collapsing loop ends on every list, *)
Lemma collapse_returns fuel : forall i M, (i + 1 < len M \/ i < 0) ->
  (Z.to_nat (i + 1) + length M < fuel)%nat -> exists M', collapse fuel i M = Ret M'.
Proof.
  induction fuel as [|fuel IH]; intros i M Hi Hf; [lia|]. cbn [collapse].
  destruct (Z.ltb_spec i 0); [by eexists|].
  destruct (lookup_lt_is_Some_2 M (Z.to_nat i) ltac:(lia)) as [p ->].
  destruct (lookup_lt_is_Some_2 M (Z.to_nat (i + 1)) ltac:(lia)) as [q ->].
  destruct (pfx_subset q p); [|apply IH; lia].
  pose proof (length_delete M (Z.to_nat (i + 1)) ltac:(apply lookup_lt_is_Some_2; lia)) as Hd.
  destruct (Z.ltb_spec i (len (delete (Z.to_nat (i + 1)) M) - 2)); apply IH; lia.
Qed.

(** and has nothing to do on disjoint blocks. *)
Lemma collapse_blocks M : blocks M -> forall fuel i, (i + 1 < len M \/ i < 0) ->
  (Z.to_nat (i + 1) < fuel)%nat -> collapse fuel i M = Ret M.
Proof.
  intros HM. induction fuel as [|fuel IH]; intros i Hi Hf; [lia|]. cbn [collapse].
  destruct (Z.ltb_spec i 0); [done|].
  destruct (lookup_lt_is_Some_2 M (Z.to_nat i) ltac:(lia)) as [p Hp].
  destruct (lookup_lt_is_Some_2 M (Z.to_nat (i + 1)) ltac:(lia)) as [q Hq]. rewrite Hp, Hq.
  destruct (pfx_subset q p) eqn:Hqp; [|apply IH; lia]. exfalso.
  assert (q = p) as -> by (apply (blocks_subset M); eauto using list_elem_of_lookup_2).
  pose proof (NoDup_lookup M _ _ p (blk_nodup _ HM) Hp Hq). lia.
Qed.

Lemma fold_include_grows l : forall M y, y ∈ M -> y ∈ fold_left include l M.
Proof.
  induction l as [|x l IH]; intros M y Hy; [done|]. apply IH, include_elem. by left.
Qed.

Lemma fold_include_sub l : forall M y,
  y ∈ fold_left include l M -> y ∈ M \/ (y ∈ l /\ ~ some_subset M y).
Proof.
  induction l as [|x l IH]; intros M y Hy; [by left|]. cbn [fold_left] in Hy.
  apply IH in Hy as [Hy|[Hy Hn]].
  - apply include_elem in Hy as [Hy|[-> Hn]]; [by left|right]. split; [constructor|done].
  - right. split; [by apply list_elem_of_further|]. intros (m & Hm & Hs). apply Hn. exists m.
    split; [apply include_elem; by left|done].
Qed.

(** No prefix of the list has a larger one behind it. *)
Definition larger_first (l : list P) : Prop :=
  ForallOrdPairs (fun p q => pfx_subset p q = true -> pfx_subset q p = true) l.

Lemma fold_include_reach l : forall M p,
  Forall pfx_wf l -> larger_first l -> p ∈ l ->
  some_subset M p \/
  exists x, x ∈ fold_left include l M /\ pfx_subset x p = true /\ pfx_subset p x = true.
Proof.
  induction l as [|x l IH]; intros M p Hw Ho Hp; [by apply not_elem_of_nil in Hp|].
  apply Forall_cons in Hw as [Hx Hw]. inversion Ho as [|? ? Hxl Hl]; subst. cbn [fold_left].
  apply elem_of_cons in Hp as [->|Hp].
  - destruct (existsb (fun test => pfx_subset test x) M) eqn:E; [left; by apply existsb_subset|right].
    exists x. split; [|by rewrite subset_refl]. apply fold_include_grows, include_elem. right.
    split; [done|]. by rewrite <- existsb_subset, E.
  - destruct (IH (include M x) p) as [(m & Hm & Hs)|?]; auto.
    apply include_elem in Hm as [Hm|[-> Hn]]; [left; by exists m|right].
    exists x. split; [apply fold_include_grows, include_elem; by right|]. split; [done|].
    rewrite Forall_forall in Hxl. by apply Hxl.
Qed.

(** The routes: blocks between the exceptions and whole prefixes. *)
Lemma genPrefixes_spec prefixes exceptions local :
  let es := effectiveExceptions (effectiveLocal prefixes local) exceptions in
  Forall pfx_wf prefixes -> Forall pfx_wf exceptions -> Forall (fun e => 0 < pfx_prefix e) es ->
  exists M routes, genPrefixes prefixes exceptions local = Ret routes /\
    blocks M /\ complete es M /\ (follow_all [] es -> exact es M) /\
    (forall r, r ∈ routes <->
       r ∈ fold_left include prefixes M /\ exists p, p ∈ prefixes /\ pfx_subset r p = true).
Proof.
  intros es Hp He H0. destruct (addExceptions_spec (effectiveLocal prefixes local) exceptions [] [])
    as (M0 & E0 & HM & Hc & Hx); auto using blocks_nil; [by left|].
  cbn [app] in Hc, Hx. fold es in Hc, Hx.
  assert (Hx0 : follow_all [] es -> exact es M0).
  { apply Hx. split; by intros ? ? ?%not_elem_of_nil. }
  assert (Hsort : exists M, (if pfx_sortFirst then QSort pfx_compare M0 else Ret M0) = Ret M /\ M ≡ₚ M0).
  { destruct pfx_sortFirst; [|by exists M0].
    destruct (QSort_returns pfx_compare compare_asym M0) as (M & ? & ? & _). by exists M. }
  destruct Hsort as (M & Es & HMp). exists M.
  assert (Hel : forall y, y ∈ M <-> y ∈ M0) by (intros y; by rewrite HMp).
  assert (HM' : blocks M).
  { split; [rewrite HMp; apply HM|rewrite HMp; apply HM|].
    intros p q a Hp' Hq'. apply Hel in Hp', Hq'. by apply (blk_disjoint _ HM). }
  destruct (QSort_returns pfx_compare compare_asym (fold_left include prefixes M)) as (R & Er & HR & _).
  eexists. split_and!.
  - unfold genPrefixes. rewrite E0. cbn [mbind Er_bind]. rewrite Es. cbn [mbind Er_bind].
    rewrite collapse_blocks by (done || lia). cbn [mbind Er_bind]. rewrite Er. cbn [mbind Er_bind]. done.
  - done.
  - destruct Hc as [[-> ->]|Hc]; [left; split; [done|]|right].
    + apply Permutation_nil_r in HMp. done.
    + intros a Ha Hn. destruct (Hc a Ha Hn) as (p & Hpm & Hpa). exists p. by rewrite Hel.
  - intros Hf. destruct (Hx0 Hf) as [Ha Hm]. split; intros ? ? Hy%Hel; eauto.
  - intros r. rewrite list_elem_of_In, filter_In, <- list_elem_of_In, HR, existsb_exists.
    split; intros [Hr (p & Hp1 & Hp2)]; (split; [done|exists p; split; [by apply list_elem_of_In|done]]).
Qed.

Lemma route_complete prefixes M a :
  Forall pfx_wf prefixes -> larger_first prefixes -> blocks M ->
  covered prefixes a -> (M = [] \/ covered M a) ->
  exists r p, r ∈ fold_left include prefixes M /\ p ∈ prefixes /\ pfx_subset r p = true /\ covers r a.
Proof.
  intros Hw Ho HM (p & Hp & Hpa) Hc. pose proof (blk_wf _ HM) as HwM.
  pose proof Hw as Hw'. rewrite Forall_forall in Hw', HwM.
  destruct (fold_include_reach prefixes M p) as [(m & Hm & Hs)|(x & Hx & Hxp & Hpx)]; auto.
  - destruct Hc as [->|(m' & Hm' & Ha')]; [by apply not_elem_of_nil in Hm|].
    exists m', p. split_and!; [by apply fold_include_grows|done| |done].
    destruct (nest m' p a) as [|Hpm']; auto.
    assert (m = m') as <-; [|done]. apply (blocks_subset M); auto. apply (subset_trans m p m'); auto.
  - assert (pfx_wf x) by (apply fold_include_sub in Hx as [?|[? _]]; auto).
    exists x, p. split_and!; [done..|]. apply (covers_subset p x); auto.
Qed.

Lemma route_exact prefixes es M r a :
  Forall pfx_wf prefixes -> Forall pfx_wf es -> blocks M -> complete es M -> exact es M ->
  (forall p, p ∈ prefixes -> exists b, covers p b /\ ~ covered es b) ->
  r ∈ fold_left include prefixes M -> covers r a -> ~ covered es a.
Proof.
  intros Hw Hwe HM Hc Hx Hfree Hr Ha. pose proof (blk_wf _ HM) as HwM.
  rewrite Forall_forall in Hw, HwM. apply fold_include_sub in Hr as [Hr|[Hr Hn]].
  - by apply (exact_avoid _ _ Hx r).
  - destruct Hc as [[-> _]|Hc]; [by intros (? & ?%not_elem_of_nil & _)|].
    destruct (Hfree r Hr) as (b & Hb & Hnb). destruct (Hc b (proj1 Hb) Hnb) as (m & Hm & Hmb).
    destruct (nest m r b) as [Hmr|Hrm]; auto; [exfalso; apply Hn; by exists m|].
    apply (exact_avoid _ _ Hx m); auto. apply (covers_subset r m); auto.
Qed.

(** The two halves of the default route stand for it. *)
Lemma pseudo_default_same routes a : Forall pfx_wf routes ->
  covered (if isDefaultRoute routes then pfx_pseudoDefault else routes) a <-> covered routes a.
Proof.
  intros Hw. unfold isDefaultRoute. destruct routes as [|r [|? ?]]; try done.
  destruct (Z.eqb_spec (pfx_prefix r) 0) as [E|]; [|done].
  apply Forall_cons in Hw as [Hr _]. apply wf_range in Hr as [Hb _]. split.
  - intros (p & _ & Ha & _). exists r. split; [by apply list_elem_of_singleton|]. split; [done|].
    rewrite E, Z.sub_0_r. unfold fits in *. pose proof width_pos.
    rewrite !Z.shiftr_div_pow2, !Z.div_small by lia. done.
  - intros (p & _ & Ha & _). destruct (pseudo_spec a Ha) as (q & Hq & E'). by exists q.
Qed.

Lemma covered_nonempty l a : covered l a -> len l > 0.
Proof. intros (p & Hp & _). destruct l; [by apply not_elem_of_nil in Hp|]. cbn [length]. lia. Qed.

Lemma generate_spec prefixes exceptions local :
  let es := effectiveExceptions (effectiveLocal prefixes local) exceptions in
  Forall pfx_wf prefixes -> Forall pfx_wf exceptions -> Forall (fun e => 0 < pfx_prefix e) es ->
  exists routes, generate prefixes exceptions local = Ret routes /\ Forall pfx_wf routes /\
    (forall a, covered routes a -> covered prefixes a) /\
    (larger_first prefixes -> forall a, covered prefixes a -> ~ covered es a -> covered routes a) /\
    (follow_all [] es -> (forall p, p ∈ prefixes -> exists b, covers p b /\ ~ covered es b) ->
     forall a, covered routes a -> ~ covered es a).
Proof.
  intros es Hp He H0. unfold generate. destruct (Z.gtb_spec (len prefixes) 0) as [Hlt|Hle].
  2: { destruct prefixes; [|cbn [length] in Hle; lia]. exists [].
       split_and!; [done|done|done|by intros ? a|]. by intros _ _ a (? & ?%not_elem_of_nil & _). }
  destruct (genPrefixes_spec prefixes exceptions local) as (M & R & ER & HM & Hc & Hx & HR); auto.
  fold es in Hc, Hx. rewrite ER. cbn [mbind Er_bind]. eexists. split; [done|].
  pose proof (blk_wf _ HM) as HwM. pose proof Hp as Hp'. rewrite Forall_forall in HwM, Hp'.
  assert (HwR : Forall pfx_wf R).
  { apply Forall_forall. intros r [Hr _]%HR. apply fold_include_sub in Hr as [?|[? _]]; auto. }
  assert (Hes : Forall pfx_wf es).
  { unfold es, effectiveExceptions. rewrite Forall_forall in *. intros e. rewrite list_elem_of_In, filter_In,
      <- list_elem_of_In. intros [? _]; auto. }
  split; [destruct (isDefaultRoute R); [apply pseudo_wf|done]|].
  split_and!; [intros a|intros Ho a Ha Hn|intros Hf Hfree a]; rewrite pseudo_default_same by done.
  - intros (r & Hr & Hra). pose proof HwR as HwR'. rewrite Forall_forall in HwR'.
    pose proof (HwR' r Hr). apply HR in Hr as [_ (p & Hpp & Hs)]. exists p. split; [done|].
    apply (covers_subset r p); auto.
  - assert (Hf : fits W a) by (destruct Ha as (? & _ & [? _]); done).
    destruct (route_complete prefixes M a) as (r & p & Hr & Hpp & Hs & Hra); auto.
    { destruct Hc as [[_ ->]|Hc]; [by left|right; auto]. }
    exists r. split; [apply HR; split; [done|by exists p]|done].
  - intros (r & [Hr _]%HR & Hra). by apply (route_exact prefixes es M r a); auto.
Qed.

(** A test which is enough for [follows]: the exceptions are apart, and the
    address which differs from [e] in one bit of its prefix is free. *)
Definition follows_test (es : list P) (e : P) : bool :=
  forallb (fun e' => negb (pfx_subset e e') && negb (pfx_subset e' e)) es &&
  forallb (fun i => bool_decide (~ covered es (Z.lxor (pfx_bits e) (Z.shiftl 1 i))))
    (seqZ (W - pfx_prefix e) (pfx_prefix e)).

Lemma follows_tested es e : pfx_wf e -> Forall pfx_wf es -> follows_test es e = true -> follows es e.
Proof.
  intros He Hes [H1 H2]%andb_true_iff. rewrite forallb_forall in H1, H2. rewrite Forall_forall in Hes.
  pose proof (wf_range e He) as [Hb Hr]. split.
  - intros e' a He' Ha Ha'. specialize (H1 e' (proj1 (list_elem_of_In _ _) He')).
    apply andb_true_iff in H1 as [Hn1%negb_true_iff Hn2%negb_true_iff].
    destruct (nest e e' a); auto; congruence.
  - intros i s Hi (Hs & Hp & E). exists (Z.lxor (pfx_bits e) (Z.shiftl 1 i)). split.
    + split.
      * apply fits_lxor; [lia|done|]. split; [apply Z.shiftl_nonneg; lia|].
        rewrite Z.shiftl_1_l. apply Z.pow_lt_mono_r; lia.
      * rewrite Hp. replace (W - (W - i)) with i by lia. rewrite E. apply shiftr_flip. lia.
    + eapply bool_decide_eq_true_1, H2, list_elem_of_In, elem_of_seqZ. lia.
Qed.
End Theory.

(** ** Prefixes as socket addresses *)

Definition sockaddr_of4 (p : Prefix4) : Sockaddr :=
  sockaddr_in_of (be_bytes 4 (bits p)) 0 (Some (prefix4 p)).
Definition sockaddr_of6 (p : Prefix6) : Sockaddr :=
  sockaddr_in6_of (be_bytes 8 (highBits p) ++ be_bytes 8 (lowBits p)) 0 (Some (prefix6 p)).

Lemma u8_small z : 0 <= z <= 128 -> u8 z = z.
Proof. intros Hz. apply (fits_small 8). split; lia. Qed.

Lemma ForPrefix4_of p : wf4 p -> sockaddrForPrefix4 p = Ret (sockaddr_of4 p).
Proof.
  intros [Hb Hp]. unfold sockaddrForPrefix4. rewrite be32_bytes by done. unfold with_prefix.
  rewrite u8_small by lia. done.
Qed.
Lemma ForPrefix6_of p : wf6 p -> sockaddrForPrefix6 p = Ret (sockaddr_of6 p).
Proof.
  intros (Hh & Hl & Hp). unfold sockaddrForPrefix6. rewrite !be64_bytes by done. unfold with_prefix.
  rewrite u8_small by lia. done.
Qed.

Lemma getAddress_4 a port prefix : length a = 4%nat -> fits 16 port ->
  Sockaddr_getAddress (sockaddr_in_of a port prefix) = (4, a) /\
  Sockaddr_getFamily (sockaddr_in_of a port prefix) = Sockaddr_AF_INET /\
  Sockaddr_getPrefix (sockaddr_in_of a port prefix) = default 32 prefix.
Proof.
  intros Ha Hp. destruct (in_of_fields a port prefix Ha Hp) as (H1 & H2 & H3 & _ & H5 & H6).
  assert (Hf : Sockaddr_getFamily (sockaddr_in_of a port prefix) = Sockaddr_AF_INET)
    by (unfold Sockaddr_getFamily; by rewrite H1, H2).
  split_and!; [|done|].
  - unfold Sockaddr_getAddress. by rewrite H1, H2, H3.
  - unfold Sockaddr_getPrefix. rewrite H5, H6, Hf. by destruct prefix.
Qed.
Lemma getAddress_6 a port prefix : length a = 16%nat -> fits 16 port ->
  Sockaddr_getAddress (sockaddr_in6_of a port prefix) = (16, a) /\
  Sockaddr_getFamily (sockaddr_in6_of a port prefix) = Sockaddr_AF_INET6 /\
  Sockaddr_getPrefix (sockaddr_in6_of a port prefix) = default 128 prefix.
Proof.
  intros Ha Hp. destruct (in6_of_fields a port prefix Ha Hp) as (H1 & H2 & H3 & _ & H5 & H6).
  assert (Hf : Sockaddr_getFamily (sockaddr_in6_of a port prefix) = Sockaddr_AF_INET6)
    by (unfold Sockaddr_getFamily; by rewrite H1, H2).
  split_and!; [|done|].
  - unfold Sockaddr_getAddress. by rewrite H1, H2, H3.
  - unfold Sockaddr_getPrefix. rewrite H5, H6, Hf. by destruct prefix.
Qed.

Lemma toPrefix4_of a port prefix : bytes a -> length a = 4%nat -> fits 16 port -> prefix_ok 32 prefix ->
  sockaddrToPrefix4 (sockaddr_in_of a port prefix) = Ret (mkPrefix4 (be_val a) (default 32 prefix)) /\
  wf4 (mkPrefix4 (be_val a) (default 32 prefix)).
Proof.
  intros Hb Ha Hp Hpf. destruct (getAddress_4 a port prefix Ha Hp) as (H1 & _ & H2).
  assert (0 <= default 32 prefix <= 32) by (destruct prefix; cbn in *; lia).
  split.
  - unfold sockaddrToPrefix4. rewrite H1, H2. cbn [Assert_true mbind Er_bind Z.eqb Pos.eqb].
    destruct (Z.gtb_spec (default 32 prefix) (-1)); [|lia]. cbn [Assert_true mbind Er_bind].
    by rewrite host32.
  - split; [|done]. pose proof (be_val_bound a Hb) as Hv. by rewrite Ha in Hv.
Qed.
Lemma toPrefix6_of a1 a2 port prefix :
  bytes a1 -> bytes a2 -> length a1 = 8%nat -> length a2 = 8%nat -> fits 16 port -> prefix_ok 128 prefix ->
  sockaddrToPrefix6 (sockaddr_in6_of (a1 ++ a2) port prefix)
  = Ret (mkPrefix6 (be_val a1) (be_val a2) (default 128 prefix)) /\
  wf6 (mkPrefix6 (be_val a1) (be_val a2) (default 128 prefix)).
Proof.
  intros Hb1 Hb2 Ha1 Ha2 Hp Hpf.
  destruct (getAddress_6 (a1 ++ a2) port prefix) as (H1 & _ & H2); [rewrite length_app; lia|done|].
  assert (0 <= default 128 prefix <= 128) by (destruct prefix; cbn in *; lia).
  split.
  - unfold sockaddrToPrefix6. rewrite H1, H2. cbn [Assert_true mbind Er_bind Z.eqb Pos.eqb].
    destruct (Z.gtb_spec (default 128 prefix) (-1)); [|lia]. cbn [Assert_true mbind Er_bind].
    rewrite rd_app_0 by lia. rewrite <- (app_nil_r a2), rd_app by lia. rewrite app_nil_r. by rewrite !host64.
  - pose proof (be_val_bound a1 Hb1) as Hv1. pose proof (be_val_bound a2 Hb2) as Hv2.
    rewrite Ha1 in Hv1. rewrite Ha2 in Hv2. split; [exact Hv1|split; [exact Hv2|done]].
Qed.

(** A prefix put into a socket address and taken out again. *)
Lemma prefix4_roundtrip p : wf4 p -> sockaddrToPrefix4 (sockaddr_of4 p) = Ret p.
Proof.
  intros [Hb Hp]. destruct (toPrefix4_of (be_bytes 4 (bits p)) 0 (Some (prefix4 p))) as [E _];
    [apply be_bytes_bytes|apply length_be_bytes|split; lia|cbn; lia|].
  unfold sockaddr_of4. rewrite E, be_val_bytes. change (default 32 (Some (prefix4 p))) with (prefix4 p).
  change (8 * Z.of_nat 4) with 32. rewrite (fits_small 32 _ Hb). by destruct p.
Qed.
Lemma prefix6_roundtrip p : wf6 p -> sockaddrToPrefix6 (sockaddr_of6 p) = Ret p.
Proof.
  intros (Hh & Hl & Hp).
  destruct (toPrefix6_of (be_bytes 8 (highBits p)) (be_bytes 8 (lowBits p)) 0 (Some (prefix6 p))) as [E _];
    [apply be_bytes_bytes..|apply length_be_bytes|apply length_be_bytes|split; lia|cbn; lia|].
  unfold sockaddr_of6. rewrite E, !be_val_bytes.
  change (default 128 (Some (prefix6 p))) with (prefix6 p).
  change (8 * Z.of_nat 8) with 64. rewrite (fits_small 64 _ Hh), (fits_small 64 _ Hl). by destruct p.
Qed.

(** ** The state *)

(** Prefix lengths within the width of the family. *)
Definition rg_wf (rp : RouteGen) : Prop :=
  forall w, Forall wf6 (rg_lists rp w).1 /\ Forall wf4 (rg_lists rp w).2.

(** What [Sockaddr_parse] and the peers' addresses give. *)
Definition address_ok (sa : Sockaddr) : Prop :=
  (exists a port prefix, bytes a /\ length a = 4%nat /\ fits 16 port /\ prefix_ok 32 prefix /\
     sa = sockaddr_in_of a port prefix) \/
  (exists a1 a2 port prefix, bytes a1 /\ bytes a2 /\ length a1 = 8%nat /\ length a2 = 8%nat /\
     fits 16 port /\ prefix_ok 128 prefix /\ sa = sockaddr_in6_of (a1 ++ a2) port prefix).

(** The exceptions which count, and that none of them is everything. *)
Definition exceptions4 (rp : RouteGen) : list Prefix4 :=
  effectiveExceptions (effectiveLocal (rg_prefixes4 rp) (rg_localPrefixes4 rp)) (rg_exceptions4 rp).
Definition exceptions6 (rp : RouteGen) : list Prefix6 :=
  effectiveExceptions (effectiveLocal (rg_prefixes6 rp) (rg_localPrefixes6 rp)) (rg_exceptions6 rp).
Definition exceptions_proper (rp : RouteGen) : Prop :=
  Forall (fun e => 0 < prefix4 e) (exceptions4 rp) /\ Forall (fun e => 0 < prefix6 e) (exceptions6 rp).

Lemma rg_set_wf rp w l6 l4 : rg_wf rp -> Forall wf6 l6 -> Forall wf4 l4 -> rg_wf (rg_set rp w (l6, l4)).
Proof.
  intros Hrp H6 H4 w'. pose proof (Hrp w') as Hw.
  destruct w, w'; cbn [rg_set rg_lists fst snd rg_prefixes6 rg_prefixes4 rg_localPrefixes6
    rg_localPrefixes4 rg_exceptions6 rg_exceptions4]; done.
Qed.

Lemma rg_setUncommitted_wf rp b : rg_wf rp -> rg_wf (rg_setUncommitted rp b).
Proof. intros Hrp w. specialize (Hrp w). by destruct w. Qed.

Lemma Forall_filter {A} (Q : A -> Prop) f (l : list A) : Forall Q l -> Forall Q (List.filter f l).
Proof. induction 1; cbn [List.filter]; [done|]. destruct (f _); auto. Qed.

Lemma addSomething_wf rp sa w : rg_wf rp -> address_ok sa ->
  exists rp', addSomething rp sa w = Ret rp' /\ rg_wf rp' /\ rg_hasUncommittedChanges rp' = true.
Proof.
  intros Hrp Hsa. unfold addSomething. destruct (Hrp w) as [H6 H4]. destruct (rg_lists rp w) as [l6 l4].
  cbn [fst snd] in H6, H4.
  destruct Hsa as [(a & port & pf & Hb & Ha & Hp & Hpf & ->)|
                   (a1 & a2 & port & pf & Hb1 & Hb2 & Ha1 & Ha2 & Hp & Hpf & ->)].
  - destruct (getAddress_4 a port pf) as (_ & -> & _); [done..|]. rewrite Z.eqb_refl.
    destruct (toPrefix4_of a port pf) as [-> Hwf]; [done..|]. cbn [mbind Er_bind]. eexists.
    split_and!; [done| |done]. apply rg_setUncommitted_wf, rg_set_wf; [done..|].
    apply Forall_app. auto.
  - destruct (getAddress_6 (a1 ++ a2) port pf) as (_ & -> & _); [rewrite length_app; lia|done|].
    change (Sockaddr_AF_INET6 =? Sockaddr_AF_INET) with false. rewrite Z.eqb_refl.
    destruct (toPrefix6_of a1 a2 port pf) as [-> Hwf]; [done..|]. cbn [mbind Er_bind]. eexists.
    split_and!; [done| |done]. apply rg_setUncommitted_wf, rg_set_wf; [done| |done].
    apply Forall_app. auto.
Qed.

Lemma removeSomething_wf rp sa w : rg_wf rp -> address_ok sa ->
  exists b rp', removeSomething rp sa w = Ret (b, rp') /\ rg_wf rp'.
Proof.
  intros Hrp Hsa. unfold removeSomething. destruct (Hrp w) as [H6 H4]. destruct (rg_lists rp w) as [l6 l4].
  cbn [fst snd] in H6, H4.
  destruct Hsa as [(a & port & pf & Hb & Ha & Hp & Hpf & ->)|
                   (a1 & a2 & port & pf & Hb1 & Hb2 & Ha1 & Ha2 & Hp & Hpf & ->)].
  - destruct (getAddress_4 a port pf) as (_ & -> & _); [done..|]. rewrite Z.eqb_refl.
    destruct (toPrefix4_of a port pf) as [-> Hwf]; [done..|]. cbn [mbind Er_bind removeEqual].
    do 2 eexists. split; [done|]. apply rg_set_wf; [done..|]. by apply Forall_filter.
  - destruct (getAddress_6 (a1 ++ a2) port pf) as (_ & -> & _); [rewrite length_app; lia|done|].
    change (Sockaddr_AF_INET6 =? Sockaddr_AF_INET) with false. rewrite Z.eqb_refl.
    destruct (toPrefix6_of a1 a2 port pf) as [-> Hwf]; [done..|]. cbn [mbind Er_bind removeEqual].
    do 2 eexists. split; [done|]. apply rg_set_wf; [done| |done]. by apply Forall_filter.
Qed.

Lemma each_map {A B} (f : A -> Er B) (g : A -> B) (Q : A -> Prop) l :
  (forall x, Q x -> f x = Ret (g x)) -> Forall Q l -> each f l = Ret (g <$> l).
Proof.
  intros Hf. induction 1 as [|x l Hx _ IH]; [done|]. cbn [each]. rewrite Hf, IH by done. done.
Qed.

(** ** What is handed to the system *)

Definition routed4 (set : list Sockaddr) (a : Z) : Prop :=
  exists sa p, sa ∈ set /\ sockaddrToPrefix4 sa = Ret p /\ covers p a.
Definition routed6 (set : list Sockaddr) (a : Z) : Prop :=
  exists sa p, sa ∈ set /\ sockaddrToPrefix6 sa = Ret p /\ covers p a.

Lemma of6_not4 p q : sockaddrToPrefix4 (sockaddr_of6 p) <> Ret q.
Proof.
  unfold sockaddrToPrefix4, sockaddr_of6. destruct (getAddress_6 (be_bytes 8 (highBits p) ++ be_bytes 8 (lowBits p)) 0
    (Some (prefix6 p))) as (-> & _); [rewrite length_app, !length_be_bytes; done|split; lia|done].
Qed.
Lemma of4_not6 p q : sockaddrToPrefix6 (sockaddr_of4 p) <> Ret q.
Proof.
  unfold sockaddrToPrefix6, sockaddr_of4. destruct (getAddress_4 (be_bytes 4 (bits p)) 0
    (Some (prefix4 p))) as (-> & _); [apply length_be_bytes|split; lia|done].
Qed.

Lemma routed_covered r4 r6 a : Forall wf4 r4 -> Forall wf6 r6 ->
  let set := (sockaddr_of4 <$> r4) ++ (sockaddr_of6 <$> r6) in
  (routed4 set a <-> covered r4 a) /\ (routed6 set a <-> covered r6 a).
Proof.
  intros H4 H6. cbv zeta. rewrite Forall_forall in H4. rewrite Forall_forall in H6. unfold routed4, routed6, covered.
  setoid_rewrite elem_of_app. split; split.
  - intros (sa & p & [(q & -> & Hq)%list_elem_of_fmap|(q & -> & Hq)%list_elem_of_fmap] & E & Ha);
      [|by apply of6_not4 in E].
    rewrite prefix4_roundtrip in E by auto. injection E as <-. by exists q.
  - intros (p & Hp & Ha). exists (sockaddr_of4 p), p. rewrite prefix4_roundtrip by auto.
    split_and!; [left; by apply list_elem_of_fmap_2|done..].
  - intros (sa & p & [(q & -> & Hq)%list_elem_of_fmap|(q & -> & Hq)%list_elem_of_fmap] & E & Ha);
      [by apply of4_not6 in E|].
    rewrite prefix6_roundtrip in E by auto. injection E as <-. by exists q.
  - intros (p & Hp & Ha). exists (sockaddr_of6 p), p. rewrite prefix6_roundtrip by auto.
    split_and!; [right; by apply list_elem_of_fmap_2|done..].
Qed.

(** The specification of the routes of one family. *)
Definition within {P} `{PrefixLaws P} (routed : Z -> Prop) (prefixes : list P) : Prop :=
  forall a, routed a -> covered prefixes a.
Definition all_routed {P} `{PrefixLaws P} (routed : Z -> Prop) (prefixes es : list P) : Prop :=
  larger_first prefixes -> forall a, covered prefixes a -> ~ covered es a -> routed a.
Definition none_excepted {P} `{PrefixLaws P} (routed : Z -> Prop) (prefixes es : list P) : Prop :=
  follow_all [] es -> (forall p, p ∈ prefixes -> exists b, covers p b /\ ~ covered es b) ->
  forall a, routed a -> ~ covered es a.

Lemma commit_spec rp : rg_wf rp -> exceptions_proper rp ->
  exists set, RouteGen_commit rp = Ret (set, rg_setUncommitted rp false) /\
    (within (routed4 set) (rg_prefixes4 rp) /\ within (routed6 set) (rg_prefixes6 rp)) /\
    (all_routed (routed4 set) (rg_prefixes4 rp) (exceptions4 rp) /\
     all_routed (routed6 set) (rg_prefixes6 rp) (exceptions6 rp)) /\
    (none_excepted (routed4 set) (rg_prefixes4 rp) (exceptions4 rp) /\
     none_excepted (routed6 set) (rg_prefixes6 rp) (exceptions6 rp)).
Proof.
  intros Hrp [H4 H6]. destruct (Hrp Prefixes) as [Hp6 Hp4], (Hrp Exceptions) as [He6 He4].
  cbn [rg_lists fst snd] in *.
  destruct (generate_spec (rg_prefixes4 rp) (rg_exceptions4 rp) (rg_localPrefixes4 rp))
    as (r4 & E4 & W4 & A4 & B4 & C4); [done..|].
  destruct (generate_spec (rg_prefixes6 rp) (rg_exceptions6 rp) (rg_localPrefixes6 rp))
    as (r6 & E6 & W6 & A6 & B6 & C6); [done..|].
  unfold RouteGen_commit, getGeneratedRoutes. rewrite E4. cbn [mbind Er_bind]. rewrite E6.
  cbn [mbind Er_bind].
  rewrite (each_map _ sockaddr_of4 wf4) by (done || apply ForPrefix4_of). cbn [mbind Er_bind].
  rewrite (each_map _ sockaddr_of6 wf6) by (done || apply ForPrefix6_of). cbn [mbind Er_bind].
  eexists. split; [done|].
  pose proof (fun a => routed_covered r4 r6 a W4 W6) as Hr. cbv zeta in Hr.
  split_and!; intros ?; intros; repeat match goal with
    | |- context [routed4 _ ?a] => rewrite (proj1 (Hr a))
    | |- context [routed6 _ ?a] => rewrite (proj2 (Hr a))
    | H : context [routed4 _ ?a] |- _ => rewrite (proj1 (Hr a)) in H
    | H : context [routed6 _ ?a] |- _ => rewrite (proj2 (Hr a)) in H end;
    eauto.
Qed.

(** ** Properties *)

(** The operations of the generator. *)
Inductive rg_op :=
  | OpAdd (w : Which) (sa : Sockaddr)
  | OpRemove (w : Which) (sa : Sockaddr)
  | OpGet (w : Which)
  | OpCommit.

Definition rg_step `{InetText} (rp : RouteGen) (o : rg_op) : Er RouteGen :=
  match o with
  | OpAdd w sa => addSomething rp sa w
  | OpRemove w sa => '(_, rp) ← removeSomething rp sa w; Ret rp
  | OpGet w => '(_, rp) ← getStored rp w; Ret rp
  | OpCommit => '(_, rp) ← RouteGen_commit rp; Ret rp
  end.

Definition rg_op_ok (rp : RouteGen) (o : rg_op) : Prop :=
  match o with
  | OpAdd _ sa | OpRemove _ sa => address_ok sa
  | OpGet _ => True
  | OpCommit => exceptions_proper rp
  end.

Lemma getSomething_wf `{InetText} l6 l4 : Forall wf6 l6 -> Forall wf4 l4 ->
  exists d s6 s4, getSomething l6 l4 = Ret (d, (s6, s4)) /\ s6 ≡ₚ l6 /\ s4 ≡ₚ l4.
Proof.
  intros H6 H4. unfold getSomething.
  destruct (QSort_returns comparePrefixes6 compare6_asym l6) as (s6 & -> & P6 & _).
  destruct (QSort_returns comparePrefixes4 compare4_asym l4) as (s4 & -> & P4 & _). cbn [mbind Er_bind].
  rewrite (each_map _ (fun p => Sockaddr_print (sockaddr_of4 p)) wf4).
  - cbn [mbind Er_bind]. rewrite (each_map _ (fun p => Sockaddr_print (sockaddr_of6 p)) wf6).
    + cbn [mbind Er_bind]. by do 3 eexists.
    + intros p Hp. unfold printPrefix6. by rewrite ForPrefix6_of.
    + by rewrite P6.
  - intros p Hp. unfold printPrefix4. by rewrite ForPrefix4_of.
  - by rewrite P4.
Qed.

(** [C33] The lists stay well formed.  On a generator whose prefixes fit their family,
    adding and removing, with an IPv4 or IPv6 address of valid prefix length, listing,
    and a commit, when no effective exception has length 0 (such an exception does
    stop the process: [exception_of_everything]), return, no assertion fails, and
    all lists of the new state fit their family again. *)
Theorem routegen_wf `{InetText} rp o : rg_wf rp -> rg_op_ok rp o ->
  exists rp', rg_step rp o = Ret rp' /\ rg_wf rp'.
Proof.
  intros Hrp Ho. destruct o as [w sa|w sa|w|]; cbn [rg_step rg_op_ok] in *.
  - destruct (addSomething_wf rp sa w) as (rp' & -> & Hrp' & _); [done..|]. by exists rp'.
  - destruct (removeSomething_wf rp sa w) as (b & rp' & -> & Hrp'); [done..|]. by exists rp'.
  - unfold getStored. destruct (Hrp w) as [H6 H4]. destruct (rg_lists rp w) as [l6 l4].
    cbn [fst snd] in *. destruct (getSomething_wf l6 l4) as (d & s6 & s4 & -> & P6 & P4); [done..|].
    eexists. split; [done|]. apply rg_set_wf; [done|by rewrite P6|by rewrite P4].
  - destruct (commit_spec rp Hrp Ho) as (set & -> & _). eexists. split; [done|].
    by apply rg_setUncommitted_wf.
Qed.

(** 10.1.0.0/16 in the tunnel, everything but 1.2.3.4 and 9.9.9.9 as well;
    192.168.0.0/16 is local. *)
Definition example_rg : RouteGen :=
  mkRouteGen [mkPrefix6 0 0 0] [mkPrefix6 0xfd00000000000000 0 8] [mkPrefix6 0x20010db800000000 1 128]
    [mkPrefix4 0 0; mkPrefix4 0x0a010000 16] [mkPrefix4 0xc0a80000 16]
    [mkPrefix4 0x01020304 32; mkPrefix4 0xc0a80001 32; mkPrefix4 0x09090909 32] true.

Lemma example_rg_wf : rg_wf example_rg.
Proof.
  intros []; split; repeat (apply Forall_cons; split; [by repeat split|]); by apply Forall_nil.
Qed.

Lemma example_rg_proper : exceptions_proper example_rg.
Proof.
  split; [change (exceptions4 example_rg) with [mkPrefix4 0x01020304 32; mkPrefix4 0x09090909 32]
         |change (exceptions6 example_rg) with [mkPrefix6 0x20010db800000000 1 128]];
    repeat (apply Forall_cons; split; [done|]); by apply Forall_nil.
Qed.

Lemma routegen_wf_witness :
  (exists rp', @rg_step toy_inet example_rg OpCommit = Ret rp' /\ rg_wf rp') /\
  (exists rp', @rg_step toy_inet example_rg (OpAdd Exceptions (sockaddr_in_of [8; 8; 8; 8] 53 None)) = Ret rp'
     /\ rg_wf rp').
Proof.
  split; apply (@routegen_wf toy_inet example_rg _ example_rg_wf).
  - exact example_rg_proper.
  - left. exists [8; 8; 8; 8], 53, None. split; [|done].
    repeat (apply Forall_cons; split; [by split|]). by apply Forall_nil.
Defined.

(** [C25] What is committed: the routes handed to the system lie within the
    prefixes, and, when no prefix has a larger one behind it in the list, every
    address of a prefix which no effective exception covers is routed, for IPv4
    and for IPv6; the generator then has no uncommitted changes. *)
Theorem commit_covers rp :
  rg_wf rp -> exceptions_proper rp ->
  larger_first (rg_prefixes4 rp) -> larger_first (rg_prefixes6 rp) ->
  exists set rp', RouteGen_commit rp = Ret (set, rp') /\ rg_hasUncommittedChanges rp' = false /\
    (forall a, (routed4 set a -> covered (rg_prefixes4 rp) a) /\
       (covered (rg_prefixes4 rp) a -> ~ covered (exceptions4 rp) a -> routed4 set a)) /\
    (forall a, (routed6 set a -> covered (rg_prefixes6 rp) a) /\
       (covered (rg_prefixes6 rp) a -> ~ covered (exceptions6 rp) a -> routed6 set a)).
Proof.
  intros Hrp Hx H4 H6. destruct (commit_spec rp Hrp Hx) as (set & E & [A4 A6] & [B4 B6] & _).
  exists set, (rg_setUncommitted rp false). split_and!; [done|done|..]; intros a; split; auto.
Qed.

Lemma example_larger_first :
  larger_first (rg_prefixes4 example_rg) /\ larger_first (rg_prefixes6 example_rg).
Proof.
  split; cbn [rg_prefixes4 rg_prefixes6 example_rg]; repeat constructor; vm_compute; done.
Qed.

Lemma commit_covers_witness :
  exists set rp', RouteGen_commit example_rg = Ret (set, rp') /\ rg_hasUncommittedChanges rp' = false /\
    (forall a, (routed4 set a -> covered (rg_prefixes4 example_rg) a) /\
       (covered (rg_prefixes4 example_rg) a -> ~ covered (exceptions4 example_rg) a -> routed4 set a)) /\
    (forall a, (routed6 set a -> covered (rg_prefixes6 example_rg) a) /\
       (covered (rg_prefixes6 example_rg) a -> ~ covered (exceptions6 example_rg) a -> routed6 set a)).
Proof.
  apply (commit_covers example_rg example_rg_wf example_rg_proper); apply example_larger_first.
Defined.

(** [C14] Exceptions are respected, address for address.  Only the effective
    exceptions count: those which do not lie within a local prefix that has no
    prefix to route inside it.  When no prefix has a larger one behind it in the
    list, no effective exception is the whole address space, the effective
    exceptions are apart from each other (or repeated), no block next to one of them
    lies within those before it, and no prefix lies within them altogether, the
    committed routes are the prefixes without the effective exceptions.  Each condition
    is there because of the algorithm: [larger_prefix_lost] and the examples behind
    it show what is routed otherwise. *)
Theorem commit_exact rp :
  rg_wf rp -> exceptions_proper rp ->
  larger_first (rg_prefixes4 rp) -> larger_first (rg_prefixes6 rp) ->
  follow_all [] (exceptions4 rp) -> follow_all [] (exceptions6 rp) ->
  (forall p, p ∈ rg_prefixes4 rp -> exists b, covers p b /\ ~ covered (exceptions4 rp) b) ->
  (forall p, p ∈ rg_prefixes6 rp -> exists b, covers p b /\ ~ covered (exceptions6 rp) b) ->
  exists set rp', RouteGen_commit rp = Ret (set, rp') /\
    (forall a, routed4 set a <-> covered (rg_prefixes4 rp) a /\ ~ covered (exceptions4 rp) a) /\
    (forall a, routed6 set a <-> covered (rg_prefixes6 rp) a /\ ~ covered (exceptions6 rp) a).
Proof.
  intros Hrp Hx H4 H6 F4 F6 P4 P6.
  destruct (commit_spec rp Hrp Hx) as (set & E & [A4 A6] & [B4 B6] & [C4 C6]).
  exists set, (rg_setUncommitted rp false). split; [done|].
  split; intros a; (split; [intros Ha; split; auto|intros [Ha Hn]; auto]).
Qed.

Lemma commit_exact_witness :
  exists set rp', RouteGen_commit example_rg = Ret (set, rp') /\
    (forall a, routed4 set a <->
       covered (rg_prefixes4 example_rg) a /\ ~ covered (exceptions4 example_rg) a) /\
    (forall a, routed6 set a <->
       covered (rg_prefixes6 example_rg) a /\ ~ covered (exceptions6 example_rg) a).
Proof.
  apply (commit_exact example_rg example_rg_wf example_rg_proper); [apply example_larger_first..| | | |].
  - change (exceptions4 example_rg) with [mkPrefix4 0x01020304 32; mkPrefix4 0x09090909 32].
    split; [|split; [|done]]; (apply follows_tested; [by repeat split| |vm_compute; done]).
    + by apply Forall_nil.
    + apply Forall_cons. split; [by repeat split|by apply Forall_nil].
  - change (exceptions6 example_rg) with [mkPrefix6 0x20010db800000000 1 128].
    split; [|done]. apply follows_tested; [by repeat split|by apply Forall_nil|vm_compute; done].
  - intros p Hp. exists 0x0a010000. change (exceptions4 example_rg) with [mkPrefix4 0x01020304 32; mkPrefix4 0x09090909 32].
    split.
    + apply elem_of_cons in Hp as [->|[->|[]%not_elem_of_nil]%elem_of_cons]; by repeat split.
    + by apply (bool_decide_unpack _), I.
  - intros p [->|[]%not_elem_of_nil]%elem_of_cons. exists 0.
    change (exceptions6 example_rg) with [mkPrefix6 0x20010db800000000 1 128].
    split; [by repeat split|]. by apply (bool_decide_unpack _), I.
Defined.

(** *** Where the code falls short of that *)

(** Two neighbouring exceptions: the first is routed into the tunnel after all. *)
Example neighbouring_exceptions_routed :
  exists routes,
    generate [mkPrefix4 0 0] [mkPrefix4 0x01020304 32; mkPrefix4 0x01020305 32] [] = Ret routes /\
    mkPrefix4 0x01020304 32 ∈ routes.
Proof.
  eexists. split; [vm_compute; reflexivity|]. do 31 apply list_elem_of_further. apply list_elem_of_here.
Qed.

(** An exception inside an exception: its neighbour 192.0.2.128/25 is routed. *)
Example nested_exceptions_routed :
  exists routes,
    generate [mkPrefix4 0 0] [mkPrefix4 0xc0000200 24; mkPrefix4 0xc0000200 25] [] = Ret routes /\
    covered routes 0xc0000281.
Proof.
  eexists. split; [vm_compute; reflexivity|]. by apply (bool_decide_unpack _), I.
Qed.

(** 10.1.0.0/16 added before 10.0.0.0/8: the larger prefix is not routed. *)
Example larger_prefix_lost :
  generate [mkPrefix4 0x0a010000 16; mkPrefix4 0x0a000000 8] [] [] = Ret [mkPrefix4 0x0a010000 16].
Proof. reflexivity. Qed.

(** An exception of length 0 has no inverse. *)
Example exception_of_everything :
  generate [mkPrefix4 0 0] [mkPrefix4 0 0] [] = Abort "memcpy from NULL".
Proof. reflexivity. Qed.

(** Removing a prefix does not ask for a commit. *)
Example removal_not_uncommitted :
  exists rp', RouteGen_removePrefix (rg_setUncommitted example_rg false)
                (sockaddr_in_of [10; 1; 0; 0] 0 (Some 16)) = Ret (true, rp') /\
    rg_prefixes4 rp' = [mkPrefix4 0 0] /\ rg_hasUncommittedChanges rp' = false.
Proof. eexists. split_and!; [vm_compute; reflexivity|reflexivity|reflexivity]. Qed.
