(* ===== verification/InterfaceController.v ===== *)
(** * net/InterfaceController.c: the links to the peers of a node

    The controller has the interfaces over which packets of peers come and go.  A
    peer is known by its address on such an interface; its packets are encrypted
    with a CryptoAuth session and leave and enter the switch through an interface
    of the switch, so that the label of a packet leads to it.  Beacons and
    unknown senders make new peers, a timer pings silent ones and forgets those
    which came by themselves.

    Peers are shared: the map of an interface, the switch, the on-free jobs and the
    callbacks of pings all have pointers to the struct.  [ic_peers] is the heap of
    live peers; the pointer is a number which is never used again, the name of the
    peer in the switch ([SwitchCore.conns]), of its allocator and of its pings.
    Following a pointer to a freed peer is [Abort].  The switch and the switch
    pinger are shared objects too and are fields of the state.

    [Ctl] is the monad of the handlers: state, output and the failures of [Er].
    What leaves is [ICOut]; events go to the pathfinders through a queue, so
    no answer comes back during a call. *)
From stdpp Require Import gmap.
From S2P Require Import Prelude Bits Hex Message MsgAt Headers RouteHeader PFChan Nacl Key Address ArrayList HandleMap.
From S2P Require Import ReplayProtector SwitchCore CryptoAuth PeerLink Pinger SwitchPinger SessionManager Sockaddr.

(** ** Constants *)

Definition UNRESPONSIVE_AFTER_MILLISECONDS : Z := 20 * 1024.
Definition PING_AFTER_MILLISECONDS : Z := 3 * 1024.
Definition TIMEOUT_MILLISECONDS : Z := 2 * 1024.
Definition FORGET_AFTER_MILLISECONDS : Z := 256 * 1024.

(** The first six states are those of CryptoAuth. *)
Definition PeerState_ESTABLISHED : Z := CryptoAuth_State_ESTABLISHED.
Definition PeerState_UNRESPONSIVE : Z := -1.
Definition PeerState_UNAUTHENTICATED : Z := -2.
Definition PeerState_INCOMPATIBLE : Z := -3.

Definition beaconState_newState_OFF : Z := 0.
Definition beaconState_newState_ACCEPT : Z := 1.
Definition beaconState_newState_SEND : Z := 2.
Definition beaconState_NO_SUCH_IFACE : Z := -1.
Definition beaconState_INVALID_STATE : Z := -2.

Definition bootstrapPeer_BAD_IFNUM : Z := -1.
Definition bootstrapPeer_BAD_KEY : Z := -2.
Definition bootstrapPeer_OUT_OF_SPACE : Z := -3.
Definition disconnectPeer_NOTFOUND : Z := -1.

Definition Metric_IC_PEER : Z := 0xffff0000.
Definition Metric_IC_PEER_MASK : Z := 0x0000ffff.

Definition Headers_Beacon_PASSWORD_LEN : Z := 20.
Definition Headers_Beacon_SIZE : Z := 56.

(** [struct Headers_Beacon]: the version (0), the password (4), the key (24). *)
Record Headers_Beacon := mkBeacon {
  b_version_be : Z;
  b_password : list Z;
  b_publicKey : list Z;
}.
Definition Headers_Beacon_bytes (b : Headers_Beacon) : list Z := le_bytes 4 (b_version_be b) ++ b_password b ++ b_publicKey b.
Definition Headers_Beacon_of (bs : list Z) : Headers_Beacon := mkBeacon (le_val (rd 0 4 bs)) (rd 4 20 bs) (rd 24 32 bs).

(** ** The map from addresses to peers *)

#[local] Instance sockaddr_key : MapKey Sockaddr := {| key_hash := Sockaddr_hash; key_compare := Sockaddr_compare |}.

Definition EndpointsBySockaddr_indexForKey (key : Sockaddr) (map : Map Sockaddr Z) : Z := Map_indexForKey (H := sockaddr_key) key map.
Definition EndpointsBySockaddr_put (key : Sockaddr) (ep : Z) (map : Map Sockaddr Z) : Z * Map Sockaddr Z :=
  Map_put (H := sockaddr_key) true key ep map.

(** ** State *)

Record Iface_pvt := mkIface {
  if_name : list Z;
  if_beaconState : Z;
  if_peerMap : Map Sockaddr Z;
  if_lastPeerPinged : Z;
}.
Definition if_set_map (ici : Iface_pvt) (x : Map Sockaddr Z) : Iface_pvt := mkIface (if_name ici) (if_beaconState ici) x (if_lastPeerPinged ici).
Definition if_set_beacon (ici : Iface_pvt) (x : Z) : Iface_pvt := mkIface (if_name ici) x (if_peerMap ici) (if_lastPeerPinged ici).
Definition if_set_pinged (ici : Iface_pvt) (x : Z) : Iface_pvt := mkIface (if_name ici) (if_beaconState ici) (if_peerMap ici) x.

(** For timestamping packets. *)
Record Stamp := mkStamp {
  st_lastPeer : option Z;
  st_lastRecvTime : Z;
  st_lastNonce : Z;
  st_lastLength : Z;
  st_seq : Z;
}.

Record Peer := mkPeer {
  p_caSession : Session;
  p_displayName : option (list Z);
  p_peerLink : PeerLink;
  p_ici : Z;
  p_lladdr : Sockaddr;
  p_addr : Address;
  p_timeOfLastMessage : Z;
  p_timeOfLastPing : Z;
  p_pingCount : Z;
  p_handle : Z;
  p_isIncomingConnection : bool;
  p_state : Z;
  p__lastDrops : Z;
  p__lastPackets : Z;
  p_lastDrops : Z;
  p_lastPackets : Z;
  p_bytesOut : Z;
  p_bytesIn : Z;
}.

Definition p_set_ca (ep : Peer) (x : Session) : Peer :=
  mkPeer x (p_displayName ep) (p_peerLink ep) (p_ici ep) (p_lladdr ep) (p_addr ep) (p_timeOfLastMessage ep)
    (p_timeOfLastPing ep) (p_pingCount ep) (p_handle ep) (p_isIncomingConnection ep) (p_state ep)
    (p__lastDrops ep) (p__lastPackets ep) (p_lastDrops ep) (p_lastPackets ep) (p_bytesOut ep) (p_bytesIn ep).

Definition p_set_link (ep : Peer) (x : PeerLink) : Peer :=
  mkPeer (p_caSession ep) (p_displayName ep) x (p_ici ep) (p_lladdr ep) (p_addr ep) (p_timeOfLastMessage ep)
    (p_timeOfLastPing ep) (p_pingCount ep) (p_handle ep) (p_isIncomingConnection ep) (p_state ep)
    (p__lastDrops ep) (p__lastPackets ep) (p_lastDrops ep) (p_lastPackets ep) (p_bytesOut ep) (p_bytesIn ep).

Definition p_set_addr (ep : Peer) (x : Address) : Peer :=
  mkPeer (p_caSession ep) (p_displayName ep) (p_peerLink ep) (p_ici ep) (p_lladdr ep) x (p_timeOfLastMessage ep)
    (p_timeOfLastPing ep) (p_pingCount ep) (p_handle ep) (p_isIncomingConnection ep) (p_state ep)
    (p__lastDrops ep) (p__lastPackets ep) (p_lastDrops ep) (p_lastPackets ep) (p_bytesOut ep) (p_bytesIn ep).

Definition p_set_lastMessage (ep : Peer) (x : Z) : Peer :=
  mkPeer (p_caSession ep) (p_displayName ep) (p_peerLink ep) (p_ici ep) (p_lladdr ep) (p_addr ep) x
    (p_timeOfLastPing ep) (p_pingCount ep) (p_handle ep) (p_isIncomingConnection ep) (p_state ep)
    (p__lastDrops ep) (p__lastPackets ep) (p_lastDrops ep) (p_lastPackets ep) (p_bytesOut ep) (p_bytesIn ep).

Definition p_set_lastPing (ep : Peer) (x : Z) : Peer :=
  mkPeer (p_caSession ep) (p_displayName ep) (p_peerLink ep) (p_ici ep) (p_lladdr ep) (p_addr ep)
    (p_timeOfLastMessage ep) x (p_pingCount ep) (p_handle ep) (p_isIncomingConnection ep) (p_state ep)
    (p__lastDrops ep) (p__lastPackets ep) (p_lastDrops ep) (p_lastPackets ep) (p_bytesOut ep) (p_bytesIn ep).

Definition p_set_pingCount (ep : Peer) (x : Z) : Peer :=
  mkPeer (p_caSession ep) (p_displayName ep) (p_peerLink ep) (p_ici ep) (p_lladdr ep) (p_addr ep)
    (p_timeOfLastMessage ep) (p_timeOfLastPing ep) x (p_handle ep) (p_isIncomingConnection ep) (p_state ep)
    (p__lastDrops ep) (p__lastPackets ep) (p_lastDrops ep) (p_lastPackets ep) (p_bytesOut ep) (p_bytesIn ep).

Definition p_set_handle (ep : Peer) (x : Z) : Peer :=
  mkPeer (p_caSession ep) (p_displayName ep) (p_peerLink ep) (p_ici ep) (p_lladdr ep) (p_addr ep)
    (p_timeOfLastMessage ep) (p_timeOfLastPing ep) (p_pingCount ep) x (p_isIncomingConnection ep) (p_state ep)
    (p__lastDrops ep) (p__lastPackets ep) (p_lastDrops ep) (p_lastPackets ep) (p_bytesOut ep) (p_bytesIn ep).

Definition p_set_state (ep : Peer) (x : Z) : Peer :=
  mkPeer (p_caSession ep) (p_displayName ep) (p_peerLink ep) (p_ici ep) (p_lladdr ep) (p_addr ep)
    (p_timeOfLastMessage ep) (p_timeOfLastPing ep) (p_pingCount ep) (p_handle ep) (p_isIncomingConnection ep) x
    (p__lastDrops ep) (p__lastPackets ep) (p_lastDrops ep) (p_lastPackets ep) (p_bytesOut ep) (p_bytesIn ep).

Definition p_set_displayName (ep : Peer) (x : option (list Z)) : Peer :=
  mkPeer (p_caSession ep) x (p_peerLink ep) (p_ici ep) (p_lladdr ep) (p_addr ep) (p_timeOfLastMessage ep)
    (p_timeOfLastPing ep) (p_pingCount ep) (p_handle ep) (p_isIncomingConnection ep) (p_state ep)
    (p__lastDrops ep) (p__lastPackets ep) (p_lastDrops ep) (p_lastPackets ep) (p_bytesOut ep) (p_bytesIn ep).

Definition p_set_counters (ep : Peer) (x0 : Z) (x1 : Z) (x2 : Z) (x3 : Z) : Peer :=
  mkPeer (p_caSession ep) (p_displayName ep) (p_peerLink ep) (p_ici ep) (p_lladdr ep) (p_addr ep)
    (p_timeOfLastMessage ep) (p_timeOfLastPing ep) (p_pingCount ep) (p_handle ep) (p_isIncomingConnection ep)
    (p_state ep) x0 x1 x2 x3 (p_bytesOut ep) (p_bytesIn ep).

Definition p_set_bytesOut (ep : Peer) (x : Z) : Peer :=
  mkPeer (p_caSession ep) (p_displayName ep) (p_peerLink ep) (p_ici ep) (p_lladdr ep) (p_addr ep)
    (p_timeOfLastMessage ep) (p_timeOfLastPing ep) (p_pingCount ep) (p_handle ep) (p_isIncomingConnection ep)
    (p_state ep) (p__lastDrops ep) (p__lastPackets ep) (p_lastDrops ep) (p_lastPackets ep) x (p_bytesIn ep).

Definition p_set_bytesIn (ep : Peer) (x : Z) : Peer :=
  mkPeer (p_caSession ep) (p_displayName ep) (p_peerLink ep) (p_ici ep) (p_lladdr ep) (p_addr ep)
    (p_timeOfLastMessage ep) (p_timeOfLastPing ep) (p_pingCount ep) (p_handle ep) (p_isIncomingConnection ep)
    (p_state ep) (p__lastDrops ep) (p__lastPackets ep) (p_lastDrops ep) (p_lastPackets ep) (p_bytesOut ep) x.

Record InterfaceController := mkInterfaceController {
  ic_ca : CryptoAuth;
  ic_switchCore : SwitchCore;
  ic_switchPinger : SwitchPinger;
  ic_icis : list Iface_pvt;
  ic_peers : gmap Z Peer;
  ic_timestampPackets : bool;
  ic_stamp : Stamp;
  ic_beacon : list Z;
  ic_nextPeer : Z;
  ic_nextPing : nat;
}.

Definition ic_set_ca (ic : InterfaceController) (x : CryptoAuth) : InterfaceController :=
  mkInterfaceController x (ic_switchCore ic) (ic_switchPinger ic) (ic_icis ic) (ic_peers ic)
    (ic_timestampPackets ic) (ic_stamp ic) (ic_beacon ic) (ic_nextPeer ic) (ic_nextPing ic).

Definition ic_set_core (ic : InterfaceController) (x : SwitchCore) : InterfaceController :=
  mkInterfaceController (ic_ca ic) x (ic_switchPinger ic) (ic_icis ic) (ic_peers ic) (ic_timestampPackets ic)
    (ic_stamp ic) (ic_beacon ic) (ic_nextPeer ic) (ic_nextPing ic).

Definition ic_set_pinger (ic : InterfaceController) (x : SwitchPinger) : InterfaceController :=
  mkInterfaceController (ic_ca ic) (ic_switchCore ic) x (ic_icis ic) (ic_peers ic) (ic_timestampPackets ic)
    (ic_stamp ic) (ic_beacon ic) (ic_nextPeer ic) (ic_nextPing ic).

Definition ic_set_icis (ic : InterfaceController) (x : list Iface_pvt) : InterfaceController :=
  mkInterfaceController (ic_ca ic) (ic_switchCore ic) (ic_switchPinger ic) x (ic_peers ic)
    (ic_timestampPackets ic) (ic_stamp ic) (ic_beacon ic) (ic_nextPeer ic) (ic_nextPing ic).

Definition ic_set_peers (ic : InterfaceController) (x : gmap Z Peer) : InterfaceController :=
  mkInterfaceController (ic_ca ic) (ic_switchCore ic) (ic_switchPinger ic) (ic_icis ic) x
    (ic_timestampPackets ic) (ic_stamp ic) (ic_beacon ic) (ic_nextPeer ic) (ic_nextPing ic).

Definition ic_set_stamp (ic : InterfaceController) (x : Stamp) : InterfaceController :=
  mkInterfaceController (ic_ca ic) (ic_switchCore ic) (ic_switchPinger ic) (ic_icis ic) (ic_peers ic)
    (ic_timestampPackets ic) x (ic_beacon ic) (ic_nextPeer ic) (ic_nextPing ic).

Definition ic_set_next (ic : InterfaceController) (x0 : Z) (x1 : nat) : InterfaceController :=
  mkInterfaceController (ic_ca ic) (ic_switchCore ic) (ic_switchPinger ic) (ic_icis ic) (ic_peers ic)
    (ic_timestampPackets ic) (ic_stamp ic) (ic_beacon ic) x0 x1.


(** The clocks and the random numbers during a call: milliseconds, seconds, the
    high resolution clock, the bytes for the n-th packet which is encrypted, the
    cookie of the n-th ping. *)
Record ICEnv := mkICEnv {
  ie_ms : Z;
  ie_s : Z;
  ie_hr : Z;
  ie_rand : nat -> list Z * list Z;
  ie_cookie : nat -> Z;
}.

Inductive ICOut :=
| ICToWire (ici : Z) (msg : Message)
| ICToSwitch (ep : Z) (msg : Message)
| ICToEvent (msg : Message)
| ICPinger (o : SPOut).

(** ** The monad of the handlers *)

Definition Ctl (A : Type) : Type := InterfaceController -> Er (A * InterfaceController * list ICOut).

#[export] Instance Ctl_ret : MRet Ctl := fun A a ic => Ret (a, ic, []).
#[export] Instance Ctl_bind : MBind Ctl := fun A B f m ic =>
  match m ic with
  | Ret (a, ic, outs) =>
      match f a ic with
      | Ret (b, ic, outs') => Ret (b, ic, outs ++ outs')
      | Abort why => Abort why
      end
  | Abort why => Abort why
  end.

Definition gets {A} (f : InterfaceController -> A) : Ctl A := fun ic => Ret (f ic, ic, []).
Definition modify (f : InterfaceController -> InterfaceController) : Ctl unit := fun ic => Ret (tt, f ic, []).
Definition lift {A} (m : Er A) : Ctl A := fun ic => match m with Ret a => Ret (a, ic, []) | Abort why => Abort why end.
Definition emit (o : ICOut) : Ctl unit := fun ic => Ret (tt, ic, [o]).

(** Through a pointer to a peer. *)
Definition peer (ep : Z) : Ctl Peer := fun ic =>
  match ic_peers ic !! ep with Some p => Ret (p, ic, []) | None => Abort "dangling pointer" end.
Definition update (ep : Z) (f : Peer -> Peer) : Ctl unit :=
  p ← peer ep; modify (fun ic => ic_set_peers ic (<[ep := f p]> (ic_peers ic))).

(** The interface with a number. *)
Definition iface (n : Z) : Ctl Iface_pvt := fun ic =>
  match ic_icis ic !! Z.to_nat n with Some i => Ret (i, ic, []) | None => Abort "dangling pointer" end.
Definition update_iface (n : Z) (f : Iface_pvt -> Iface_pvt) : Ctl unit :=
  i ← iface n; modify (fun ic => ic_set_icis ic (<[Z.to_nat n := f i]> (ic_icis ic))).
Definition value_at (n i : Z) : Ctl Z :=
  ici ← iface n;
  lift (match map_entries (if_peerMap ici) !! Z.to_nat i with Some e => Ret (e_value e) | None => Abort "index out of bounds" end).

(** [for (i = 0; i < n; i++)]. *)
Fixpoint for_loop (n : nat) (i : nat) (body : nat -> Ctl unit) : Ctl unit :=
  match n with
  | O => mret tt
  | S n => body i;; for_loop n (S i) body
  end.

Section Controller.
Context {N : Nacl} (malloc : Z -> Z * list Z) (env : ICEnv).

(** [Address_toString(&ep->addr)] in a debug message: the address is filled in. *)
Definition log_address (ep : Z) : Ctl unit := update ep (fun p => p_set_addr p (Address_getPrefix (p_addr p)).1).

(** Whether a version is known and not ours to talk to. *)
Definition incompatible (version : Z) : bool :=
  negb (version =? 0) && (Version_isCompatible version Version_CURRENT_PROTOCOL =? 0).

(** ** Events *)

Definition sendPeer (pathfinderId ev ep latency : Z) : Ctl unit :=
  p ← peer ep;
  let a := p_addr p in
  if protocolVersion a =? 0 then mret tt
  else if Version_isCompatible (protocolVersion a) Version_CURRENT_PROTOCOL =? 0 then mret tt
  else
    let '(addr, mem) := malloc (PFChan_Node_SIZE + 512) in
    let msg := Message_new PFChan_Node_SIZE 512 addr mem in
    let metric := if negb (ev =? PFChan_Core_PEER_GONE) then Z.lor Metric_IC_PEER (Z.land latency Metric_IC_PEER_MASK)
                  else Metric_DEAD_LINK in
    let node := mkNode (ip6 a) (take 32 (key a)) (Endian_hostToBigEndian64 (path a)) (Endian_hostToBigEndian32 metric)
      (Endian_hostToBigEndian32 (protocolVersion a)) in
    let msg := msg_write msg 0 (PFChan_Node_bytes node) in
    msg ← lift (Message_epush32be msg pathfinderId);
    msg ← lift (Message_epush32be msg ev);
    emit (ICToEvent msg).

(** ** Peers come and go *)

Definition closeInterface (toClose : Z) : Ctl unit :=
  sendPeer 0xffffffff PFChan_Core_PEER_GONE toClose 0xffff;;
  p ← peer toClose;
  ici ← iface (p_ici p);
  let index := Map_indexForHandle (p_handle p) (if_peerMap ici) in
  lift (Assert_true (index >=? 0));;
  v ← value_at (p_ici p) index;
  lift (Assert_true (v =? toClose));;
  update_iface (p_ici p) (fun ici => if_set_map ici (Map_remove index (if_peerMap ici)).2).

(** The pings of a peer are freed with its allocator. *)
Definition ping_owner (p : Ping SwitchPing) : option Z := sp_user <$> pg_context p.
Definition pings_of (ep : Z) (ctx : SwitchPinger) : list nat :=
  (filter (fun x : nat * Ping SwitchPing => ping_owner x.2 = Some ep) (map_to_list (pings (s_pinger ctx)))).*1.
Fixpoint cancel_pings (l : list nat) (ctx : SwitchPinger) : Er SwitchPinger :=
  match l with
  | [] => Ret ctx
  | ptr :: l => '(ctx, _) ← pingCancel malloc ctx ptr; cancel_pings l ctx
  end.

(** [Allocator_free(ep->alloc)]. *)
Definition free_peer (ep : Z) : Ctl unit :=
  closeInterface ep;;
  pinger ← gets ic_switchPinger;
  pinger ← lift (cancel_pings (pings_of ep pinger) pinger);
  modify (fun ic => ic_set_pinger ic pinger);;
  modify (fun ic => ic_set_core ic (free_alloc (ic_switchCore ic) ep));;
  modify (fun ic => ic_set_peers ic (delete ep (ic_peers ic))).

(** The names of the next peer and the next ping. *)
Definition new_peer_name : Ctl Z :=
  n ← gets ic_nextPeer; modify (fun ic => ic_set_next ic (ic_nextPeer ic + 1) (ic_nextPing ic));; mret n.
Definition new_ping_name : Ctl nat :=
  n ← gets ic_nextPing; modify (fun ic => ic_set_next ic (ic_nextPeer ic) (S (ic_nextPing ic)));; mret n.

Definition Peer_zero (ici : Z) (lladdr : Sockaddr) : Peer :=
  mkPeer (CryptoAuth_newSession (zeros 32) false 0) None PeerLink_new ici lladdr Address_zero 0 0 0 0 false 0 0 0 0 0 0 0.

(** [ep->caSession = CryptoAuth_newSession(..., "outer")], which names the session. *)
Definition set_session (p : Peer) (session : Session) : Peer :=
  p_set_displayName (p_set_ca p session) (Some (chars "outer")).

(** [Map_put] and [ep->handle = map.handles[index]]. *)
Definition register_peer (ep ici : Z) (lladdr : Sockaddr) : Ctl Z :=
  i ← iface ici;
  let '(index, map) := EndpointsBySockaddr_put lladdr ep (if_peerMap i) in
  update_iface ici (fun i => if_set_map i map);;
  let handle := default 0 (e_handle <$> map_entries map !! Z.to_nat index) in
  update ep (fun p => p_set_handle p handle);;
  mret index.

(** Whether the switch has a place for the peer. *)
Definition add_to_switch (ep : Z) : Ctl bool :=
  core ← gets ic_switchCore;
  '(rc, core, label) ← lift (SwitchCore_addInterface core ep ep);
  modify (fun ic => ic_set_core ic core);;
  match label with
  | Some label => update ep (fun p => p_set_addr p
      (mkAddress (protocolVersion (p_addr p)) (a_padding (p_addr p)) (ip6 (p_addr p)) (key (p_addr p)) label))
  | None => mret tt
  end;;
  mret (rc =? 0).

Definition set_if_state (ep st : Z) : Ctl unit :=
  core ← gets ic_switchCore;
  core ← lift (SwitchCore_setInterfaceState core ep st);
  modify (fun ic => ic_set_core ic core).

(** ** Pings *)

Definition sendPing (ep : Z) : Ctl unit :=
  update ep (fun p => p_set_pingCount p (u32 (p_pingCount p + 1)));;
  p ← peer ep;
  pinger ← gets ic_switchPinger;
  ptr ← new_ping_name;
  match SwitchPinger_newPing pinger (path (p_addr p)) (Some []) ep ptr (ie_ms env) (ie_cookie env ptr) with
  | None => log_address ep
  | Some pinger =>
      modify (fun ic => ic_set_pinger ic pinger);;
      log_address ep
  end.

Definition onPingResponse (resp : SwitchPinger_Response) (ep : Z) : Ctl unit :=
  match resp_res resp with
  | Result_OK =>
      update ep (fun p => p_set_addr p
        (mkAddress (resp_version resp) (a_padding (p_addr p)) (ip6 (p_addr p)) (key (p_addr p)) (path (p_addr p))));;
      log_address ep;;
      if Version_isCompatible Version_CURRENT_PROTOCOL (resp_version resp) =? 0 then mret tt
      else
        p ← peer ep;
        (if p_state p =? PeerState_ESTABLISHED
         then sendPeer 0xffffffff PFChan_Core_PEER ep (u16 (resp_milliseconds resp)) else mret tt);;
        update ep (fun p => p_set_lastPing p (ie_ms env));;
        log_address ep
  | _ => mret tt
  end.

(** ** The timers *)

(** The counters of one peer and its entry. *)
Definition link_entry (ep : Z) : Ctl (list Z) :=
  p ← peer ep;
  let drops := lostPackets (replayProtector (p_caSession p)) in
  let newDrops := if drops >? p__lastDrops p then u32 (drops - p__lastDrops p) else 0 in
  let packets := baseOffset (replayProtector (p_caSession p)) in
  let newPackets := if packets >? p__lastPackets p then u32 (packets - p__lastPackets p) else 0 in
  update ep (fun p => p_set_counters p drops packets (u64 (p_lastDrops p + newDrops)) (u64 (p_lastPackets p + newPackets)));;
  p ← peer ep;
  mret (le_bytes 8 (path (p_addr p)) ++ le_bytes 8 (p_lastPackets p) ++ le_bytes 8 (p_lastDrops p)
        ++ le_bytes 8 (Z.shiftr (p_bytesIn p) 10)).

Fixpoint linkState_peers (n : nat) (i : nat) (ici : Z) (msg : Message) : Ctl Message :=
  match n with
  | O => mret msg
  | S n =>
      ep ← value_at ici (Z.of_nat i);
      e ← link_entry ep;
      msg ← lift (Message_epush msg (Some e) PFChan_LinkState_Entry_SIZE);
      linkState_peers n (S i) ici msg
  end.
Fixpoint linkState_loop (n : nat) (i : nat) (msg : Message) : Ctl Message :=
  match n with
  | O => mret msg
  | S n =>
      ici ← iface (Z.of_nat i);
      msg ← linkState_peers (length (map_entries (if_peerMap ici))) 0 (Z.of_nat i) msg;
      linkState_loop n (S i) msg
  end.

Definition linkState : Ctl unit :=
  icis ← gets ic_icis;
  let msgLen := foldl (fun n ici => u32 (n + PFChan_LinkState_Entry_SIZE * map_count (if_peerMap ici))) 64 icis in
  let '(addr, mem) := malloc msgLen in
  msg ← linkState_loop (length icis) 0 (Message_new 0 msgLen addr mem);
  if negb (msg_length msg =? 0) then
    msg ← lift (Message_epush32be msg 0xffffffff);
    msg ← lift (Message_epush32be msg PFChan_Core_LINK_STATE);
    emit (ICToEvent msg)
  else mret tt.

(** One round of the loop of [iciPing]; [true]: the loop ends here. *)
Definition ping_round (first : bool) (ep : Z) : Ctl bool :=
  let now := ie_ms env in
  p ← peer ep;
  if incompatible (protocolVersion (p_addr p)) then
    update ep (fun p => p_set_state p PeerState_INCOMPATIBLE);;
    mret false
  else
    log_address ep;;
    if negb (protocolVersion (p_addr p) =? 0) && (now <? u64 (p_timeOfLastMessage p + PING_AFTER_MILLISECONDS)) then
      (if first && (p_state p =? PeerState_ESTABLISHED) then sendPeer 0xffffffff PFChan_Core_PEER ep 0xffff else mret tt);;
      mret false
    else if now <? u64 (p_timeOfLastPing p + PING_AFTER_MILLISECONDS) then mret false
    else if p_isIncomingConnection p && (now >? u64 (p_timeOfLastMessage p + FORGET_AFTER_MILLISECONDS)) then
      sendPeer 0xffffffff PFChan_Core_PEER_GONE ep 0xffff;;
      free_peer ep;;
      mret false
    else
      let unresponsive := now >? u64 (p_timeOfLastMessage p + UNRESPONSIVE_AFTER_MILLISECONDS) in
      if unresponsive && negb (p_pingCount p mod 8 =? 0) then
        update ep (fun p => p_set_pingCount p (u32 (p_pingCount p + 1)));;
        mret false
      else
        (if unresponsive then
           sendPeer 0xffffffff PFChan_Core_PEER_GONE ep 0xffff;;
           update ep (fun p => p_set_state p PeerState_UNRESPONSIVE);;
           set_if_state ep SwitchCore_setInterfaceState_ifaceState_DOWN
         else mret tt);;
        sendPing ep;;
        mret true.

(** [count] goes up in every round and the map does not grow: as many rounds as it
    had entries are enough. *)
Fixpoint iciPing_loop (fuel : nat) (ici i count : Z) : Ctl unit :=
  match fuel with
  | O => mret tt
  | S fuel =>
      x ← iface ici;
      let n := map_count (if_peerMap x) in
      if count <? n then
        let i := u32 (i + 1) mod n in
        ep ← value_at ici i;
        stop ← ping_round (count + 1 =? 1) ep;
        if stop : bool then mret tt else iciPing_loop fuel ici i (count + 1)
      else mret tt
  end.

Definition iciPing (ici : Z) : Ctl unit :=
  x ← iface ici;
  let n := map_count (if_peerMap x) in
  if n =? 0 then mret tt
  else
    let startAt := u32 (if_lastPeerPinged x + 1) mod n in
    update_iface ici (fun x => if_set_pinged x startAt);;
    iciPing_loop (Z.to_nat n) ici startAt 0.

Definition pingCallback : Ctl unit :=
  icis ← gets ic_icis;
  for_loop (length icis) 0 (fun i => iciPing (Z.of_nat i)).

(** ** Packets *)

Definition receivedPostCryptoAuth (msg : Message) (ep : Z) : Ctl unit :=
  update ep (fun p => p_set_bytesIn p (u64 (p_bytesIn p + msg_length msg)));;
  p ← peer ep;
  let caState := CryptoAuth_getState (p_caSession p) in
  let pass := lift (Assert_true (Z.rem (msg_capacity msg) 4 =? 0));; emit (ICToSwitch ep msg) in
  if p_state p <? PeerState_ESTABLISHED then
    update ep (fun p => p_set_state p caState);;
    set_if_state ep SwitchCore_setInterfaceState_ifaceState_UP;;
    update ep (fun p =>
      let a := p_addr p in
      let a := mkAddress (protocolVersion a) (a_padding a) (ip6 a) (herPublicKey (p_caSession p)) (path a) in
      p_set_addr p (Address_getPrefix a).1);;
    if negb (caState =? CryptoAuth_State_ESTABLISHED) then
      if (msg_length msg <? 8) || negb (get (msg_read msg 7 1) 0 =? 1) then mret tt
      else
        (if negb (u32 (p_pingCount p + 1) mod 7 =? 0) then sendPing ep else mret tt);;
        pass
    else pass
  else if (p_state p =? PeerState_UNRESPONSIVE) && (caState =? CryptoAuth_State_ESTABLISHED) then
    update ep (fun p => p_set_state p PeerState_ESTABLISHED);;
    set_if_state ep SwitchCore_setInterfaceState_ifaceState_UP;;
    pass
  else
    update ep (fun p => p_set_lastMessage p (ie_ms env));;
    pass.

(** The queue of the link is emptied. *)
Fixpoint send_loop (n : nat) (i : nat) (ep : Z) : Ctl unit :=
  match n with
  | O => mret tt
  | S n =>
      p ← peer ep;
      '(msg, link) ← lift (PeerLink_poll (p_peerLink p) (ie_ms env));
      update ep (fun p => p_set_link p link);;
      ca ← gets ic_ca;
      match msg with
      | None => lift (Abort "NULL message")
      | Some msg =>
          '(msg, session) ← lift (CryptoAuth_encrypt (p_caSession p) ca msg (ie_s env) (ie_rand env i).1 (ie_rand env i).2);
          update ep (fun p => p_set_ca p session);;
          lift (Assert_true ((msg_addr msg + msg_bytes msg) mod 4 =? 0));;
          msg ← lift (Message_epush msg (Some (p_lladdr p)) (sa_addrLen (p_lladdr p)));
          emit (ICToWire (p_ici p) msg);;
          send_loop n (S i) ep
      end
  end.

Definition sendFromSwitch (msg : Message) (ep : Z) : Ctl unit :=
  p ← peer ep;
  if incompatible (protocolVersion (p_addr p)) then log_address ep
  else
    update ep (fun p => p_set_bytesOut p (u64 (p_bytesOut p + msg_length msg)));;
    '(msgs, link) ← lift (PeerLink_send msg (p_peerLink p));
    update ep (fun p => p_set_link p link);;
    send_loop (Z.to_nat msgs) 0 ep.

(** The new peer's allocator and struct. *)
Definition alloc_peer (ici : Z) (lladdr : Sockaddr) : Ctl Z :=
  ep ← new_peer_name;
  modify (fun ic => ic_set_peers ic (<[ep := Peer_zero ici lladdr]> (ic_peers ic)));;
  mret ep.

(** [now - pingAfterMilliseconds - 1]: the peer is taken for a lazy one. *)
Definition seem_lazy (ep : Z) : Ctl unit :=
  update ep (fun p => p_set_lastMessage p (u64 (ie_ms env - PING_AFTER_MILLISECONDS - 1))).

Definition set_incoming_connection (p : Peer) (a : Address) (st : Z) : Peer :=
  mkPeer (p_caSession p) (p_displayName p) (p_peerLink p) (p_ici p) (p_lladdr p) a (p_timeOfLastMessage p)
    (p_timeOfLastPing p) (p_pingCount p) (p_handle p) true st (p__lastDrops p) (p__lastPackets p) (p_lastDrops p)
    (p_lastPackets p) (p_bytesOut p) (p_bytesIn p).

Definition handleBeacon (msg : Message) (ici : Z) : Ctl unit :=
  x ← iface ici;
  if if_beaconState x =? 0 then mret tt
  else if msg_length msg <? Sockaddr_OVERHEAD then mret tt
  else
    let addrLen := le_val (msg_read msg 0 2) in
    if msg_length msg <? addrLen + Headers_Beacon_SIZE then mret tt
    else
      let msg := msg_write msg 2 [0] in
      let lladdr := msg_read msg 0 addrLen in
      msg ← lift (Message_eshift msg (- addrLen));
      '(msg, bs) ← lift (Message_epop msg Headers_Beacon_SIZE);
      let beacon := Headers_Beacon_of bs in
      let addr := mkAddress (Endian_bigEndianToHost32 (b_version_be beacon)) 0 (zeros 16) (b_publicKey beacon) 0 in
      let addr := (Address_getPrefix addr).1 in
      ca ← gets ic_ca;
      if negb (AddressCalc_validAddress (ip6 addr)) then mret tt
      else if memcmp (ca_publicKey ca) (key addr) =? 0 then mret tt
      else if Version_isCompatible (protocolVersion addr) Version_CURRENT_PROTOCOL =? 0 then mret tt
      else
        let beaconPass := Some (b_password beacon) in
        let epIndex := EndpointsBySockaddr_indexForKey lladdr (if_peerMap x) in
        if epIndex >? -1 then
          ep ← value_at ici epIndex;
          update ep (fun p => p_set_ca p (CryptoAuth_setAuth beaconPass None (p_caSession p)))
        else
          ep ← alloc_peer ici (Sockaddr_clone lladdr);
          register_peer ep ici (Sockaddr_clone lladdr);;
          update ep (fun p => set_incoming_connection p addr (p_state p));;
          update ep (fun p => set_session p (CryptoAuth_newSession (b_publicKey beacon) false (ie_s env)));;
          update ep (fun p => p_set_ca p (CryptoAuth_setAuth beaconPass None (p_caSession p)));;
          ok ← add_to_switch ep;
          if negb ok then free_peer ep
          else
            seem_lazy ep;;
            log_address ep;;
            sendPeer 0xffffffff PFChan_Core_PEER ep 0xffff.

Definition handleUnexpectedIncoming (msg : Message) (ici : Z) : Ctl unit :=
  let lladdr := Sockaddr_clone (msg_read msg 0 (le_val (msg_read msg 0 2))) in
  msg ← lift (Message_eshift msg (- sa_addrLen lladdr));
  if msg_length msg <? CryptoHeader_SIZE then mret tt
  else
    lift (Assert_true ((msg_addr msg + msg_bytes msg) mod 4 =? 0));;
    if negb (Z.land (le_val (msg_read msg 0 4)) (Endian_bigEndianToHost32 (u32 (Z.lnot 1))) =? 0) then mret tt
    else
      ep ← alloc_peer ici lladdr;
      let session := CryptoAuth_newSession (msg_read msg 40 32) true (ie_s env) in
      ca ← gets ic_ca;
      '(msg, session, err) ← lift (CryptoAuth_decrypt session ca msg (ie_s env));
      update ep (fun p => set_session p session);;
      if negb (bool_decide (err = DecryptErr_NONE)) then modify (fun ic => ic_set_peers ic (delete ep (ic_peers ic)))
      else
        lift (Assert_true (negb (Bits_isZero (herPublicKey session))));;
        x ← iface ici;
        lift (Assert_true (EndpointsBySockaddr_indexForKey lladdr (if_peerMap x) =? -1));;
        index ← register_peer ep ici lladdr;
        lift (Assert_true (index >=? 0));;
        update ep (fun p => set_incoming_connection p (p_addr p) PeerState_UNAUTHENTICATED);;
        ok ← add_to_switch ep;
        if negb ok then free_peer ep
        else
          seem_lazy ep;;
          update ep (fun p =>
            let a := p_addr p in
            p_set_addr p (mkAddress (protocolVersion a) (a_padding a) (herIp6 session) (herPublicKey session) (path a)));;
          log_address ep;;
          receivedPostCryptoAuth msg ep.

(** What is remembered of the last packet; the sequence number goes to the log. *)
Definition stamp (ep nonce length : Z) : Ctl unit :=
  on ← gets ic_timestampPackets;
  if negb on then mret tt
  else
    st ← gets ic_stamp;
    let seq :=
      if bool_decide (st_lastPeer st = Some ep) && (u32 (st_lastNonce st + 1) =? nonce)
         && (Z.land (u32 (st_lastLength st - length)) 0xffff <? 100)
      then u32 (st_seq st + 1) else 0 in
    modify (fun ic => ic_set_stamp ic (mkStamp (Some ep) (ie_hr env) nonce (u32 length) seq)).

Definition handleIncomingFromWire (msg : Message) (ici : Z) : Ctl unit :=
  let addrLen := le_val (msg_read msg 0 2) in
  if (msg_length msg <? Sockaddr_OVERHEAD) || (msg_length msg <? addrLen) then mret tt
  else
    lift (Assert_true ((msg_addr msg + msg_bytes msg) mod 4 =? 0));;
    lift (Assert_true (addrLen mod 4 =? 0));;
    let lladdr := msg_read msg 0 addrLen in
    if negb (Z.land (get (msg_read msg 2 1) 0) Sockaddr_flags_BCAST =? 0) then handleBeacon msg ici
    else
      x ← iface ici;
      let epIndex := EndpointsBySockaddr_indexForKey lladdr (if_peerMap x) in
      if epIndex =? -1 then handleUnexpectedIncoming msg ici
      else
        ep ← value_at ici epIndex;
        p ← peer ep;
        msg ← lift (Message_eshift msg (- addrLen));
        if incompatible (protocolVersion (p_addr p)) then log_address ep
        else
          session ← lift (CryptoAuth_resetIfTimeout (p_caSession p) (ie_s env));
          let nonce := Endian_bigEndianToHost32 (le_val (msg_read msg 0 4)) in
          ca ← gets ic_ca;
          '(msg, session, err) ← lift (CryptoAuth_decrypt session ca msg (ie_s env));
          update ep (fun p => p_set_ca p session);;
          if negb (bool_decide (err = DecryptErr_NONE)) then mret tt
          else
            stamp ep nonce (msg_length msg);;
            link ← lift (PeerLink_recv msg (p_peerLink p) (ie_ms env));
            update ep (fun p => p_set_link p link);;
            (if (p_state p =? PeerState_ESTABLISHED) && negb (CryptoAuth_getState session =? CryptoAuth_State_ESTABLISHED)
             then sendPeer 0xffffffff PFChan_Core_PEER_GONE ep 0xffff else mret tt);;
            receivedPostCryptoAuth msg ep.

(** ** Interfaces and beacons *)

Definition InterfaceController_ifaceCount : Ctl Z := icis ← gets ic_icis; mret (len icis).

(** The number of the interface; [None] for [NULL]. *)
Definition InterfaceController_getIface (ifNum : Z) : Ctl (option Z) :=
  icis ← gets ic_icis; mret (if (0 <=? ifNum) && (ifNum <? len icis) then Some ifNum else None).

Definition InterfaceController_newIface (name : list Z) : Ctl Z :=
  icis ← gets ic_icis;
  modify (fun ic => ic_set_icis ic (icis ++ [mkIface name 0 Map_new 0]));;
  mret (len icis).

(** The header for a broadcast: [addrLen] and [flags]. *)
Definition broadcast_sockaddr : Sockaddr := le_bytes 2 Sockaddr_OVERHEAD ++ [Sockaddr_flags_BCAST] ++ zeros 5.

Definition sendBeacon (ici : Z) : Ctl unit :=
  x ← iface ici;
  if if_beaconState x <? beaconState_newState_SEND then mret tt
  else
    beacon ← gets ic_beacon;
    let '(addr, mem) := malloc 128 in
    msg ← lift (Message_epush (Message_new 0 128 addr mem) (Some beacon) Headers_Beacon_SIZE);
    msg ← lift (Message_epush msg (Some broadcast_sockaddr) Sockaddr_OVERHEAD);
    emit (ICToWire ici msg).

Definition beaconInterval : Ctl unit :=
  icis ← gets ic_icis;
  for_loop (length icis) 0 (fun i => sendBeacon (Z.of_nat i)).

Definition InterfaceController_beaconState (interfaceNumber newState : Z) : Ctl Z :=
  found ← InterfaceController_getIface interfaceNumber;
  match found with
  | None => mret beaconState_NO_SUCH_IFACE
  | Some ici =>
      if negb ((newState =? beaconState_newState_OFF) || (newState =? beaconState_newState_ACCEPT)
               || (newState =? beaconState_newState_SEND))
      then mret beaconState_INVALID_STATE
      else
        update_iface ici (fun x => if_set_beacon x newState);;
        (if newState =? beaconState_newState_SEND then sendBeacon ici else mret tt);;
        mret 0
  end.

(** ** Peers by configuration *)

(** The result, and the peer which is dropped when the caller's allocator is freed. *)
Definition InterfaceController_bootstrapPeer (interfaceNumber : Z) (herPublicKey : list Z) (lladdrParm : Sockaddr)
    (password : list Z) (login user : option (list Z)) : Ctl (Z * option Z) :=
  found ← InterfaceController_getIface interfaceNumber;
  match found with
  | None => mret (bootstrapPeer_BAD_IFNUM, None)
  | Some ici =>
      ca ← gets ic_ca;
      let '(_, ip) := AddressCalc_addressForPublicKey herPublicKey in
      if negb (AddressCalc_validAddress ip) || (memcmp (ca_publicKey ca) (take 32 herPublicKey) =? 0)
      then mret (bootstrapPeer_BAD_KEY, None)
      else
        let lladdr := Sockaddr_clone lladdrParm in
        ep ← alloc_peer ici lladdr;
        index ← register_peer ep ici lladdr;
        lift (Assert_true (index >=? 0));;
        update ep (fun p =>
          p_set_addr p (Address_getPrefix (mkAddress 0 0 (zeros 16) (take 32 herPublicKey) 0)).1);;
        update ep (fun p => set_session p (CryptoAuth_newSession herPublicKey false (ie_s env)));;
        update ep (fun p => p_set_ca p (CryptoAuth_setAuth (Some password) login (p_caSession p)));;
        (match user with Some u => update ep (fun p => p_set_displayName p (Some u)) | None => mret tt end);;
        ok ← add_to_switch ep;
        if negb ok then free_peer ep;; mret (bootstrapPeer_OUT_OF_SPACE, None)
        else
          seem_lazy ep;;
          log_address ep;;
          sendPing ep;;
          mret (0, Some ep)
  end.

Record PeerStats := mkPeerStats {
  ps_ifNum : Z;
  ps_lladdr : Sockaddr;
  ps_addr : Address;
  ps_bytesOut : Z;
  ps_bytesIn : Z;
  ps_timeOfLastMessage : Z;
  ps_state : Z;
  ps_isIncomingConnection : bool;
  ps_user : option (list Z);
  ps_duplicates : Z;
  ps_receivedOutOfRange : Z;
  ps_sendKbps : Z;
  ps_recvKbps : Z;
  ps_receivedPackets : Z;
  ps_lostPackets : Z;
}.

Definition peer_stats (ici ep : Z) : Ctl PeerStats :=
  p ← peer ep;
  '(recv, send, link) ← lift (PeerLink_kbps (p_peerLink p) (ie_ms env));
  update ep (fun p => p_set_link p link);;
  let rp := replayProtector (p_caSession p) in
  mret (mkPeerStats ici (Sockaddr_clone (p_lladdr p)) (p_addr p) (p_bytesOut p) (p_bytesIn p) (p_timeOfLastMessage p)
          (p_state p) (p_isIncomingConnection p) (p_displayName p) (duplicates rp) (receivedOutOfRange rp) send recv
          (u32 (p_lastPackets p)) (u32 (p_lastDrops p))).

(** All the peers: interface by interface, in the order of its map. *)
Fixpoint collect {A} (n : nat) (i : nat) (body : nat -> Ctl (list A)) : Ctl (list A) :=
  match n with
  | O => mret []
  | S n => x ← body i; rest ← collect n (S i) body; mret (x ++ rest)
  end.

Definition InterfaceController_getPeerStats : Ctl (list PeerStats) :=
  icis ← gets ic_icis;
  collect (length icis) 0 (fun j =>
    ici ← iface (Z.of_nat j);
    collect (length (map_entries (if_peerMap ici))) 0 (fun i =>
      ep ← value_at (Z.of_nat j) (Z.of_nat i);
      s ← peer_stats (Z.of_nat j) ep;
      mret [s])).

Definition for_peers (body : Z -> Ctl unit) : Ctl unit :=
  icis ← gets ic_icis;
  for_loop (length icis) 0 (fun j =>
    ici ← iface (Z.of_nat j);
    for_loop (length (map_entries (if_peerMap ici))) 0 (fun i => ep ← value_at (Z.of_nat j) (Z.of_nat i); body ep)).

(** [None] for [NULL]: all peers. *)
Definition InterfaceController_resetPeering (herPubKey : option (list Z)) : Ctl unit :=
  for_peers (fun ep =>
    p ← peer ep;
    if match herPubKey with None => true | Some k => memcmp k (herPublicKey (p_caSession p)) =? 0 end
    then update ep (fun p => p_set_ca p (CryptoAuth_reset (p_caSession p))) else mret tt).

(** The first peer with the key, in the order of the loops. *)
Fixpoint find_peer (herPubKey : list Z) (eps : list Z) : Ctl (option Z) :=
  match eps with
  | [] => mret None
  | ep :: eps =>
      p ← peer ep;
      if memcmp herPubKey (herPublicKey (p_caSession p)) =? 0 then mret (Some ep) else find_peer herPubKey eps
  end.
Definition InterfaceController_disconnectPeer (herPubKey : list Z) : Ctl Z :=
  icis ← gets ic_icis;
  found ← find_peer herPubKey (concat ((fun ici => e_value <$> map_entries (if_peerMap ici)) <$> icis));
  match found with
  | Some ep => free_peer ep;; mret 0
  | None => mret disconnectPeer_NOTFOUND
  end.

(** ** Events of pathfinders *)

Definition incomingFromEventEmitterIf (msg : Message) : Ctl unit :=
  '(msg, peers) ← lift (Message_epop32be msg);
  lift (Assert_true (peers =? PFChan_Pathfinder_PEERS));;
  '(msg, pathfinderId) ← lift (Message_epop32be msg);
  lift (Assert_true (msg_length msg =? 0));;
  for_peers (fun ep =>
    p ← peer ep;
    if negb (p_state p =? PeerState_ESTABLISHED) then mret tt
    else sendPeer pathfinderId PFChan_Core_PEER ep 0xffff).

(** ** The switch pinger and its answers *)

(** What the pinger calls back: a peer's [onPingResponse], or another user's, which
    is output like the packets for the control handler. *)
Fixpoint pinger_outs (outs : list SPOut) : Ctl unit :=
  match outs with
  | [] => mret tt
  | Respond user resp :: outs =>
      peers ← gets ic_peers;
      (if bool_decide (is_Some (peers !! user)) then onPingResponse resp user else emit (ICPinger (Respond user resp)));;
      pinger_outs outs
  | ToControlHandler m :: outs => emit (ICPinger (ToControlHandler m));; pinger_outs outs
  end.
Definition pinger_step (f : SwitchPinger -> Er (SwitchPinger * list SPOut)) : Ctl unit :=
  pinger ← gets ic_switchPinger;
  '(pinger, outs) ← lift (f pinger);
  modify (fun ic => ic_set_pinger ic pinger);;
  pinger_outs outs.

(** A packet for the pinger, the timer which sends a ping and the one which gives
    it up. *)
Definition pinger_receive (msg : Message) : Ctl unit :=
  pinger_step (fun pinger => messageFromControlHandler malloc pinger msg (ie_ms env)).
Definition pinger_send (ptr : nat) : Ctl unit := pinger_step (fun pinger => pingSend malloc pinger ptr).
Definition pinger_timeout (ptr : nat) : Ctl unit := pinger_step (fun pinger => pingTimeout malloc pinger ptr (ie_ms env)).

(** ** Through the switch *)

(** A packet of a user of the switch: it goes to a peer or to the router. *)
Inductive SwitchOut := RouterGets (msg : Message) | PeerGets.
Definition through_switch (user : Z) (msg : Message) : Ctl (option SwitchOut) :=
  core ← gets ic_switchCore;
  r ← lift (user_send core user msg);
  match r with
  | None => mret None
  | Some (_, dest, msg) =>
      peers ← gets ic_peers;
      if bool_decide (is_Some (peers !! dest)) then sendFromSwitch msg dest;; mret (Some PeerGets)
      else mret (Some (RouterGets msg))
  end.
End Controller.

(** [CryptoAuth_addUser] makes the beacon's password one of the node's users;
    [password] is what the random generator gives. *)
Definition InterfaceController_new {N : Nacl} (ca : CryptoAuth) (switchCore : SwitchCore) (switchPinger : SwitchPinger)
    (password : list Z) : Er InterfaceController :=
  '(_, ca) ← CryptoAuth_addUser password (Some (chars "Local Peers")) ca;
  let beacon := mkBeacon (Endian_hostToBigEndian32 Version_CURRENT_PROTOCOL) password (take 32 (ca_publicKey ca)) in
  Ret (mkInterfaceController ca switchCore switchPinger [] ∅ false (mkStamp None 0 0 0 0) (Headers_Beacon_bytes beacon) 1 0).
