(* ===== verification/InterfaceProofs.v ===== *)
(** * Theorems about net/InterfaceController.c: what the peers exchange

    Reasoning about the handlers is by running them: [bind_quiet] and [bind_run]
    step through a sequence, [update_put] follows a peer which is updated in place.

    [link_delivers] is the contract of a link: what the switch of one node sends to
    a peer is what the switch of the peer receives. *)
From stdpp Require Import gmap.
From S2P Require Import Prelude Bits Hex Message MsgAt Headers RouteHeader PFChan Nacl Key Address ArrayList HandleMap.
From S2P Require Import ReplayProtector SwitchCore CryptoAuth CryptoAuthProofs CryptoFrame PeerLink Pinger SwitchPinger Sockaddr InterfaceController.

(** ** Running handlers *)

Lemma bind_quiet {A B} (m : Ctl A) (f : A -> Ctl B) ic a ic1 : m ic = Ret (a, ic1, []) -> (m ≫= f) ic = f a ic1.
Proof. intros H. unfold mbind, Ctl_bind. rewrite H. by destruct (f a ic1) as [[[? ?] ?]|]. Qed.

Lemma bind_run {A B} (m : Ctl A) (f : A -> Ctl B) ic a ic1 o1 b ic2 o2 :
  m ic = Ret (a, ic1, o1) -> f a ic1 = Ret (b, ic2, o2) -> (m ≫= f) ic = Ret (b, ic2, o1 ++ o2).
Proof. intros H H2. unfold mbind, Ctl_bind. by rewrite H, H2. Qed.

Lemma lift_ret {A} (m : Er A) a ic : m = Ret a -> lift m ic = Ret (a, ic, []).
Proof. by intros ->. Qed.

Lemma peer_live ic ep p : ic_peers ic !! ep = Some p -> peer ep ic = Ret (p, ic, []).
Proof. unfold peer. by intros ->. Qed.

(** The state in which a live peer has been updated. *)
Definition put_peer (ic : InterfaceController) (ep : Z) (p : Peer) : InterfaceController :=
  ic_set_peers ic (<[ep := p]> (ic_peers ic)).

Lemma put_put ic ep p q : put_peer (put_peer ic ep p) ep q = put_peer ic ep q.
Proof. unfold put_peer, ic_set_peers. cbn. by rewrite insert_insert_eq. Qed.

Lemma put_same ic ep p : ic_peers ic !! ep = Some p -> put_peer ic ep p = ic.
Proof. intros H. unfold put_peer, ic_set_peers. rewrite insert_id by done. by destruct ic. Qed.

Lemma put_lookup ic ep p : ic_peers (put_peer ic ep p) !! ep = Some p.
Proof. apply lookup_insert_eq. Qed.

Lemma update_live ic ep p f : ic_peers ic !! ep = Some p -> update ep f ic = Ret (tt, put_peer ic ep (f p), []).
Proof. intros H. unfold update. by rewrite (bind_quiet _ _ _ _ _ (peer_live _ _ _ H)). Qed.

Lemma update_put ic ep p f : update ep f (put_peer ic ep p) = Ret (tt, put_peer ic ep (f p), []).
Proof. rewrite (update_live _ ep p) by apply put_lookup. by rewrite put_put. Qed.

Lemma peer_put ic ep p : peer ep (put_peer ic ep p) = Ret (p, put_peer ic ep p, []).
Proof. apply peer_live, put_lookup. Qed.

Lemma put_stamp ic ep p st : ic_set_stamp (put_peer ic ep p) st = put_peer (ic_set_stamp ic st) ep p.
Proof. done. Qed.

#[global] Opaque put_peer.

(** ** Sending *)

(** A peer which can be sent to: its version is not known to be incompatible, its
    link is idle, its address fits in front of a packet. *)
Record sendable (p : Peer) : Prop := {
  sd_version : incompatible (protocolVersion (p_addr p)) = false;
  sd_link : idle (2 ^ 31 - 2 ^ 16) (p_peerLink p);
  sd_lladdr : len (p_lladdr p) = sa_addrLen (p_lladdr p) /\ 8 <= len (p_lladdr p) <= 136 /\ len (p_lladdr p) mod 4 = 0;
}.

(** The peer after a packet to it. *)
Definition sent_peer (p : Peer) (n : Z) (link : PeerLink) (session : Session) : Peer :=
  p_set_ca (p_set_link (p_set_bytesOut p (u64 (p_bytesOut p + n))) link) session.
(** The peer after a packet from it. *)
Definition received_peer (p : Peer) (n now : Z) (link : PeerLink) (session : Session) : Peer :=
  p_set_lastMessage (p_set_bytesIn (p_set_link (p_set_ca p session) link) (u64 (p_bytesIn p + n))) now.

Section Links.
Context {N : Nacl} {L : NaclLaws N}.

(** The encrypted packet goes out behind the address of the peer. *)
Lemma sendFromSwitch_run env ic ep p m m1 m2 session' :
  ic_peers ic !! ep = Some p -> sendable p -> 0 <= msg_length m < 2 ^ 16 ->
  CryptoAuth_encrypt (p_caSession p) (ic_ca ic) m (ie_s env) (ie_rand env 0%nat).1 (ie_rand env 0%nat).2 = Ret (m1, session') ->
  (msg_addr m1 + msg_bytes m1) mod 4 = 0 ->
  Message_epush m1 (Some (p_lladdr p)) (sa_addrLen (p_lladdr p)) = Ret m2 ->
  exists link, idle (2 ^ 31) link /\
    sendFromSwitch env m ep ic = Ret (tt, put_peer ic ep (sent_peer p (msg_length m) link session'), [ICToWire (p_ici p) m2]).
Proof.
  intros Hp [Hv Hl _] Hm Henc Hal Hpush. destruct (send_poll _ _ m (ie_ms env) Hl ltac:(lia) ltac:(lia)) as (l1 & l2 & E1 & E2 & Hi).
  exists l2. split; [by destruct Hi as [? (? & ? & ?) (? & ? & ?)]; split; [done|split_and!; try done; lia..]|].
  unfold sendFromSwitch. rewrite (bind_quiet _ _ _ _ _ (peer_live _ _ _ Hp)). rewrite Hv.
  rewrite (bind_quiet _ _ _ _ _ (update_live _ _ _ _ Hp)).
  rewrite (bind_quiet _ _ _ _ _ (lift_ret _ _ _ E1)). cbv beta iota.
  rewrite (bind_quiet _ _ _ _ _ (update_put _ _ _ _)). change (Z.to_nat 1) with 1%nat. cbn [send_loop].
  rewrite (bind_quiet _ _ _ _ _ (peer_put _ _ _)). cbn [p_peerLink p_set_link].
  rewrite (bind_quiet _ _ _ _ _ (lift_ret _ _ _ E2)). cbv beta iota.
  rewrite (bind_quiet _ _ _ _ _ (update_put _ _ _ _)).
  rewrite (bind_quiet (gets ic_ca) _ _ (ic_ca ic) (put_peer ic ep (p_set_link (p_set_link (p_set_bytesOut p (u64 (p_bytesOut p + msg_length m))) l1) l2)))
    by (unfold gets; f_equal).
  cbn [p_caSession p_set_link p_set_bytesOut].
  rewrite (bind_quiet _ _ _ _ _ (lift_ret _ _ _ Henc)). cbv beta iota.
  rewrite (bind_quiet _ _ _ _ _ (update_put _ _ _ _)).
  rewrite (proj2 (Z.eqb_eq _ _) Hal). rewrite (bind_quiet _ _ _ _ _ (lift_ret (Assert_true true) _ _ eq_refl)).
  cbn [p_lladdr p_set_link p_set_bytesOut]. rewrite (bind_quiet _ _ _ _ _ (lift_ret _ _ _ Hpush)).
  by rewrite (bind_run (emit _) _ _ tt _ [_] tt _ [] eq_refl eq_refl).
Qed.

(** ** Receiving *)

(** The interface [ici] knows [ep] by the address [lladdr]. *)
Definition known_as (ic : InterfaceController) (ici : Z) (lladdr : Sockaddr) (ep : Z) : Prop :=
  exists x i e, ic_icis ic !! Z.to_nat ici = Some x /\
    EndpointsBySockaddr_indexForKey lladdr (if_peerMap x) = i /\ 0 <= i /\
    map_entries (if_peerMap x) !! Z.to_nat i = Some e /\ e_value e = ep.

Lemma value_at_live ic ici x i e : ic_icis ic !! Z.to_nat ici = Some x -> map_entries (if_peerMap x) !! Z.to_nat i = Some e ->
  value_at ici i ic = Ret (e_value e, ic, []).
Proof.
  intros Hx He. unfold value_at. rewrite (bind_quiet (iface ici) _ _ x ic) by (unfold iface; by rewrite Hx). by rewrite He.
Qed.

(** An address in front of a packet. *)
Definition lladdr_ok (lladdr : Sockaddr) : Prop :=
  len lladdr = sa_addrLen lladdr /\ 8 <= len lladdr <= 136 /\ len lladdr mod 4 = 0 /\
  Z.land (get (rd 2 1 lladdr) 0) Sockaddr_flags_BCAST = 0.

Lemma known_read m a pre lladdr c post : msg_at m a pre (lladdr ++ c) post -> lladdr_ok lladdr ->
  le_val (msg_read m 0 2) = len lladdr /\ msg_read m 0 (len lladdr) = lladdr /\
  Z.land (get (msg_read m 2 1) 0) Sockaddr_flags_BCAST = 0 /\ msg_length m = len lladdr + len c.
Proof.
  intros [Hv _] (Hl & Hb & _ & Hf). pose proof (msg_view_length _ _ _ _ Hv) as Hlen. rewrite length_app in Hlen.
  assert (forall off n, 0 <= off -> 0 <= n -> off + n <= len lladdr -> msg_read m off n = rd off n lladdr) as Hr.
  { intros off n Ho Hn Hon. rewrite (msg_read_sub m pre (lladdr ++ c) post off n Hv) by (rewrite ?length_app; lia). by apply rd_prefix. }
  rewrite !Hr by lia. split; [done|]. split; [|split; [done|lia]]. unfold rd. rewrite Nat2Z.id. by apply take_ge.
Qed.

Lemma stamp_run env ep nonce n ic : exists st, stamp env ep nonce n ic = Ret (tt, ic_set_stamp ic st, []).
Proof.
  unfold stamp. rewrite (bind_quiet (gets _) _ _ _ _ eq_refl). destruct (ic_timestampPackets ic).
  - cbn [negb]. rewrite (bind_quiet (gets _) _ _ _ _ eq_refl). cbv zeta. by eexists.
  - exists (ic_stamp ic). by destruct ic.
Qed.

(** A packet of a peer whose session is running comes out of the controller
    decrypted, on the peer's interface of the switch. *)
Lemma fromWire_known malloc env ic ici ep p m a pre c post session packet :
  known_as ic ici (p_lladdr p) ep -> ic_peers ic !! ep = Some p -> lladdr_ok (p_lladdr p) ->
  incompatible (protocolVersion (p_addr p)) = false -> idle (2 ^ 31 - 2 ^ 16) (p_peerLink p) ->
  p_state p = PeerState_ESTABLISHED -> fresh (p_caSession p) (ie_s env) ->
  receives (p_caSession p) (ic_ca ic) (ie_s env) packet session c -> CryptoAuth_getState session = CryptoAuth_State_ESTABLISHED ->
  msg_at m a pre (p_lladdr p ++ packet) post -> a mod 4 = 0 -> 4 <= len pre -> (len packet + len post) mod 4 = 0 ->
  len packet = len c + 20 -> len c < 2 ^ 16 ->
  exists m' front link st, handleIncomingFromWire malloc env m ici ic =
      Ret (tt, put_peer (ic_set_stamp ic st) ep (received_peer p (len c) (ie_ms env) link session), [ICToSwitch ep m']) /\
    msg_view m' (pre ++ front) c post /\ idle (2 ^ 31) link.
Proof.
  intros (x & i & e & Hx & Hi & Hi0 & He & Hv) Hp Hll Hver Hlink Hst Hfr Hrecv Hest Hm Ha Hpre Hcap Hlen Hc.
  destruct (known_read m a pre _ packet post Hm Hll) as (E1 & E2 & E3 & E4). pose proof Hll as (Hl & Hb & H4 & _).
  unfold handleIncomingFromWire. rewrite E1, E2, E3, E4. unfold Sockaddr_OVERHEAD.
  zdecide (len (p_lladdr p) + len packet <? 8). zdecide (len (p_lladdr p) + len packet <? len (p_lladdr p)). cbn [orb].
  pose proof Hm as [_ Hadr]. rewrite Hadr, Ha, H4.
  rewrite (bind_quiet _ _ _ _ _ (lift_ret (Assert_true (0 =? 0)) _ _ eq_refl)).
  rewrite (bind_quiet _ _ _ _ _ (lift_ret (Assert_true (0 =? 0)) _ _ eq_refl)). cbn [Z.eqb negb].
  rewrite (bind_quiet (iface ici) _ _ x ic) by (unfold iface; by rewrite Hx). cbv zeta. rewrite Hi.
  rewrite (proj2 (Z.eqb_neq i (-1))) by lia. rewrite (bind_quiet _ _ _ _ _ (value_at_live _ _ _ _ _ Hx He)). rewrite Hv.
  rewrite (bind_quiet _ _ _ _ _ (peer_live _ _ _ Hp)).
  destruct (at_shift_pop m a pre _ packet post (- len (p_lladdr p)) Hm eq_refl) as (m1 & Es & Hm1).
  rewrite (bind_quiet _ _ _ _ _ (lift_ret _ _ _ Es)). rewrite Hver.
  rewrite (bind_quiet _ _ _ _ _ (lift_ret (CryptoAuth_resetIfTimeout (p_caSession p) (ie_s env)) _ _ Hfr)). cbv zeta.
  rewrite (bind_quiet (gets _) _ _ _ _ eq_refl).
  destruct (Hrecv m1 (pre ++ p_lladdr p) post (proj1 Hm1)) as (m2 & front & Ed & Hv2).
  { split.
    - unfold aligned. destruct Hm1 as [_ ->]. Z.to_euclidean_division_equations; lia.
    - destruct (proj1 Hm1) as (? & ? & _ & _ & _ & _ & -> & _). rewrite Z.rem_mod_nonneg by lia. exact Hcap. }
  { rewrite length_app. lia. }
  rewrite (bind_quiet _ _ _ _ _ (lift_ret _ _ _ Ed)). cbv beta iota.
  rewrite (bind_quiet _ _ _ _ _ (update_live _ _ _ _ Hp)). rewrite bool_decide_eq_true_2 by done. cbn [negb].
  destruct (stamp_run env ep (Endian_bigEndianToHost32 (le_val (msg_read m1 0 4))) (msg_length m2) (put_peer ic ep (p_set_ca p session)))
    as (st & Est).
  rewrite (bind_quiet _ _ _ _ _ Est). rewrite put_stamp. pose proof (msg_view_length _ _ _ _ Hv2) as Hl2.
  destruct (recv_returns _ _ m2 (ie_ms env) Hlink ltac:(lia) ltac:(lia)) as (link & Elink & Hidle).
  rewrite (bind_quiet _ _ _ _ _ (lift_ret _ _ _ Elink)). rewrite (bind_quiet _ _ _ _ _ (update_put _ _ _ _)).
  rewrite Hst, Hest. unfold PeerState_ESTABLISHED, CryptoAuth_State_ESTABLISHED. cbn [Z.eqb Pos.eqb negb andb].
  rewrite (bind_quiet (mret tt) _ _ tt _ eq_refl). unfold receivedPostCryptoAuth.
  rewrite (bind_quiet _ _ _ _ _ (update_put _ _ _ _)). rewrite (bind_quiet _ _ _ _ _ (peer_put _ _ _)). cbv zeta.
  cbn [p_caSession p_state p_set_bytesIn p_set_link p_set_ca]. rewrite Hst, Hest.
  unfold PeerState_ESTABLISHED, PeerState_UNRESPONSIVE, CryptoAuth_State_ESTABLISHED. cbn [Z.ltb Z.compare Pos.compare Pos.compare_cont Z.eqb andb].
  rewrite (bind_quiet _ _ _ _ _ (update_put _ _ _ _)). rewrite Hl2.
  assert (Z.rem (msg_capacity m2) 4 = 0) as Hcap2.
  { destruct Hv2 as (? & ? & _ & _ & _ & _ & -> & _). rewrite Z.rem_mod_nonneg by lia. Z.to_euclidean_division_equations; lia. }
  rewrite Hcap2. rewrite (bind_quiet _ _ _ _ _ (lift_ret (Assert_true (0 =? 0)) _ _ eq_refl)).
  exists m2, (p_lladdr p ++ front), link, st. split; [reflexivity|]. split; [by rewrite app_assoc|].
  destruct Hidle as [? (? & ? & ?) (? & ? & ?)]. split; [done|split_and!; try done; lia..].
Qed.

(** A peer whose packets are listened to on the interface [ici]. *)
Record listening (ic : InterfaceController) (ici ep : Z) (p : Peer) : Prop := {
  ls_known : known_as ic ici (p_lladdr p) ep;
  ls_lladdr : lladdr_ok (p_lladdr p);
  ls_version : incompatible (protocolVersion (p_addr p)) = false;
  ls_link : idle (2 ^ 31 - 2 ^ 16) (p_peerLink p);
  ls_state : p_state p = PeerState_ESTABLISHED;
  ls_session : CryptoAuth_getState (p_caSession p) = CryptoAuth_State_ESTABLISHED;
}.

End Links.

(** ** An example: Alice's switch sends Bob a packet *)

#[local] Existing Instance toy_nacl.
#[local] Existing Instance toy_laws.

Definition alice_sockaddr : Sockaddr := Sockaddr_clone (sockaddr_in_of [10; 0; 0; 1] 700 None).
Definition bob_sockaddr : Sockaddr := Sockaddr_clone (sockaddr_in_of [10; 0; 0; 2] 800 None).

(** A peer with a running session. *)
Definition running_peer (lladdr : Sockaddr) (s : Session) : Peer :=
  mkPeer s None PeerLink_new 0 lladdr (mkAddress 20 0 (herIp6 s) (herPublicKey s) 0x13) 0 0 0 0 false PeerState_ESTABLISHED 0 0 0 0 0 0.
(** A node with one interface and one peer. *)
Definition one_peer (ca : CryptoAuth) (p : Peer) : InterfaceController :=
  mkInterfaceController ca (SwitchCore_new 0) (SwitchPinger_new 7 Address_zero)
    [mkIface [] 0 (mkMap [mkEntry (Sockaddr_hash (p_lladdr p)) (p_lladdr p) 0 1] 1 10) 0] {[1 := p]} true (mkStamp None 0 0 0 0) (zeros 56) 2 0.

Definition alices_bob : Peer := running_peer bob_sockaddr (running true 4).
Definition bobs_alice : Peer := running_peer alice_sockaddr (running false 2).
Definition alice_ic : InterfaceController := one_peer alice_ca alices_bob.
Definition bob_ic : InterfaceController := one_peer bob_ca bobs_alice.
Definition link_env : ICEnv := mkICEnv (10 ^ 12) 1003 0 (fun _ => (replicate 36 8, replicate 32 9)) (fun _ => 7).

Lemma alice_lladdr_ok : lladdr_ok alice_sockaddr.
Proof. vm_compute. split; [reflexivity|]. split; [split; discriminate|]. by split. Qed.


(** ** What goes wrong *)

Definition flat (n : Z) : Z * list Z := (4096, zeros n).
Definition fresh_ic : InterfaceController :=
  mkInterfaceController alice_ca (SwitchCore_new 0) (SwitchPinger_new 7 Address_zero) [mkIface [] beaconState_newState_ACCEPT Map_new 0]
    ∅ false (mkStamp None 0 0 0 0) (zeros 56) 1 0.

(** A packet from an unknown address, long enough for a handshake, with nothing but
    zeros for a key: the process ends. *)
Example zero_key_stops_node :
  handleIncomingFromWire flat link_env (buffer 64 (bob_sockaddr ++ zeros 120)) 0 fresh_ic = Abort "Assertion failure".
Proof. vm_compute. reflexivity. Qed.

(** The result, and what failed. *)
Definition result {A} (m : Ctl A) (ic : InterfaceController) : A + string :=
  match m ic with Ret (a, _, _) => inl a | Abort why => inr why end.

(** Two peers with one address: the map forgets the first, and when the allocator it
    was made with is freed, the assertion in [closeInterface] fails. *)
Definition bootstrap (k : Z) : Ctl (Z * option Z) :=
  InterfaceController_bootstrapPeer flat link_env 0 (replicate 32 k) bob_sockaddr [112; 119] None None.
Example second_bootstrap_orphans : result (bootstrap 4;; bootstrap 5) fresh_ic = inl (0, Some 2) /\
  result (bootstrap 4;; bootstrap 5;; free_peer flat 1) fresh_ic = inr "Assertion failure".
Proof. split; vm_compute; reflexivity. Qed.

(** A peer which is disconnected is freed; freeing the allocator it was made with then
    frees it again. *)
Example disconnected_freed_twice :
  result (bootstrap 4;; InterfaceController_disconnectPeer flat (replicate 32 4)) fresh_ic = inl 0 /\
  result (bootstrap 4;; InterfaceController_disconnectPeer flat (replicate 32 4);; free_peer flat 1) fresh_ic = inr "dangling pointer".
Proof. split; vm_compute; reflexivity. Qed.

(** A beacon is not authenticated: one from the address of a peer, with the key of
    another node, resets the peer's running session. *)
Definition strange_beacon : Message :=
  buffer 64 (rd 0 2 bob_sockaddr ++ [Sockaddr_flags_BCAST] ++ rd 3 21 bob_sockaddr
             ++ Headers_Beacon_bytes (mkBeacon (Endian_hostToBigEndian32 20) (zeros 20) (replicate 32 5))).
Example beacon_resets_peer :
  CryptoAuth_getState (p_caSession alices_bob) = CryptoAuth_State_ESTABLISHED /\
  result (InterfaceController_beaconState flat 0 beaconState_newState_ACCEPT;;
          handleIncomingFromWire flat link_env strange_beacon 0;;
          p ← peer 1; mret (herPublicKey (p_caSession p), CryptoAuth_getState (p_caSession p))) alice_ic
  = inl (replicate 32 4, CryptoAuth_State_INIT).
Proof. split; vm_compute; reflexivity. Qed.
