(* ===== verification/InterfaceSafety.v ===== *)
(** * net/InterfaceController.c does not stop the process

    [ok room n ic] is the invariant of the controller: every live peer is listed in
    the map of its interface under its handle and its address, its session is
    well-formed, its link is idle and it is connected to the switch; maps only list
    live peers.  [n] counts the steps for which handles and nonces still suffice,
    [room] bounds the meters of the links.  [ok_but] excepts a peer which is being
    made.

    [runs m ic Q] says that the handler [m] returns from the state [ic] and that [Q]
    holds of the result and the new state; [interface_controller_safe] collects the
    handlers. *)
From stdpp Require Import gmap.
From S2P Require Import Prelude Bits Hex Message MsgAt Headers RouteHeader PFChan Nacl Key Address ArrayList HandleMap.
From S2P Require Import ReplayProtector NumberCompress SwitchCore CryptoAuth CryptoAuthProofs CryptoFrame PeerLink Pinger SwitchPinger ControlProofs.
From S2P Require Import SessionProofs Sockaddr InterfaceController InterfaceProofs.

(** ** Handlers which return *)

Definition runs {A} (m : Ctl A) (ic : InterfaceController) (Q : A -> InterfaceController -> Prop) : Prop :=
  exists a ic' outs, m ic = Ret (a, ic', outs) /\ Q a ic'.

Lemma runs_ret {A} (a : A) ic (Q : A -> InterfaceController -> Prop) : Q a ic -> runs (mret a) ic Q.
Proof. intros H. by exists a, ic, []. Qed.
Lemma runs_bind {A B} (m : Ctl A) (f : A -> Ctl B) ic Q : runs m ic (fun a ic' => runs (f a) ic' Q) -> runs (m ≫= f) ic Q.
Proof.
  intros (a & ic1 & o1 & E1 & b & ic2 & o2 & E2 & HQ). exists b, ic2, (o1 ++ o2). split; [|done].
  by rewrite (bind_run _ _ _ _ _ _ _ _ _ E1 E2).
Qed.
Lemma runs_mono {A} (m : Ctl A) ic (P Q : A -> InterfaceController -> Prop) :
  runs m ic P -> (forall a ic', P a ic' -> Q a ic') -> runs m ic Q.
Proof. intros (a & ic' & o & E & H) HPQ. exists a, ic', o. auto. Qed.
Lemma runs_lift {A} (m : Er A) a ic Q : m = Ret a -> Q a ic -> runs (lift m) ic Q.
Proof. intros -> H. by exists a, ic, []. Qed.
Lemma runs_assert (b : bool) ic Q : b = true -> Q tt ic -> runs (lift (Assert_true b)) ic Q.
Proof. intros -> H. by apply (runs_lift _ tt). Qed.
Lemma runs_gets {A} (f : InterfaceController -> A) ic Q : Q (f ic) ic -> runs (gets f) ic Q.
Proof. intros H. by exists (f ic), ic, []. Qed.
Lemma runs_modify f ic Q : Q tt (f ic) -> runs (modify f) ic Q.
Proof. intros H. by exists tt, (f ic), []. Qed.
Lemma runs_emit o ic Q : Q tt ic -> runs (emit o) ic Q.
Proof. intros H. by exists tt, ic, [o]. Qed.
Lemma runs_peer ep p ic Q : ic_peers ic !! ep = Some p -> Q p ic -> runs (peer ep) ic Q.
Proof. intros H HQ. exists p, ic, []. split; [by apply peer_live|done]. Qed.
Lemma runs_update ep p f ic Q : ic_peers ic !! ep = Some p -> Q tt (put_peer ic ep (f p)) -> runs (update ep f) ic Q.
Proof. intros H HQ. exists tt, (put_peer ic ep (f p)), []. split; [by apply update_live|done]. Qed.
Lemma runs_iface k x ic Q : ic_icis ic !! Z.to_nat k = Some x -> Q x ic -> runs (iface k) ic Q.
Proof. intros H HQ. exists x, ic, []. split; [unfold iface; by rewrite H|done]. Qed.
Lemma runs_value_at k x i e ic Q : ic_icis ic !! Z.to_nat k = Some x -> map_entries (if_peerMap x) !! Z.to_nat i = Some e ->
  Q (e_value e) ic -> runs (value_at k i) ic Q.
Proof. intros Hx He HQ. exists (e_value e), ic, []. split; [by eapply value_at_live|done]. Qed.
Lemma runs_update_iface k x f ic Q : ic_icis ic !! Z.to_nat k = Some x ->
  Q tt (ic_set_icis ic (<[Z.to_nat k := f x]> (ic_icis ic))) -> runs (update_iface k f) ic Q.
Proof. intros H HQ. unfold update_iface. apply runs_bind. apply (runs_iface k x); [done|]. by apply runs_modify. Qed.

(** The fields of a state in which a peer was updated. *)
Lemma put_fields ic ep p :
  ic_ca (put_peer ic ep p) = ic_ca ic /\ ic_switchCore (put_peer ic ep p) = ic_switchCore ic /\
  ic_switchPinger (put_peer ic ep p) = ic_switchPinger ic /\ ic_icis (put_peer ic ep p) = ic_icis ic /\
  ic_peers (put_peer ic ep p) = <[ep := p]> (ic_peers ic) /\ ic_nextPeer (put_peer ic ep p) = ic_nextPeer ic /\
  ic_nextPing (put_peer ic ep p) = ic_nextPing ic.
Proof. done. Qed.

(** ** Addresses as keys *)

Definition sockaddr_wf (a : Sockaddr) : Prop := len a = sa_addrLen a /\ 8 <= len a <= 136 /\ len a mod 4 = 0.

Lemma memcmp_prefix x1 x2 y1 y2 : length x1 = length y1 -> memcmp (x1 ++ x2) (y1 ++ y2) = 0 -> x1 = y1 /\ memcmp x2 y2 = 0.
Proof.
  revert y1. induction x1 as [|x x1 IH]; intros [|y y1] Hl H; try done. cbn [app memcmp] in H.
  destruct (Z.eqb_spec x y) as [->|]; [|by destruct (x <? y)]. destruct (IH y1 ltac:(by injection Hl) H) as [-> H2]. done.
Qed.

#[export] Instance sockaddr_key_laws : @MapKeyLaws Sockaddr sockaddr_key.
Proof.
  refine {| key_wf := sockaddr_wf |}. intros a b (Ha & Ha8 & _) (Hb & Hb8 & _). cbn [key_compare sockaddr_key]. unfold Sockaddr_compare.
  assert (rd 0 (sa_addrLen a) a = a) as Ra by (unfold rd; rewrite <- Ha, Nat2Z.id; by apply take_ge).
  rewrite Ra. split; [|intros <-; rewrite Ra; apply memcmp_refl]. clear Ra.
  destruct (list_split_at 2 a ltac:(lia)) as (a2 & ar & -> & Hla). destruct (list_split_at 2 b ltac:(lia)) as (b2 & br & -> & Hlb).
  intros H. assert (sa_addrLen (a2 ++ ar) = le_val a2 /\ sa_addrLen (b2 ++ br) = le_val b2) as [Ea Eb].
  { unfold sa_addrLen. rewrite !rd_prefix by lia. unfold rd. rewrite !drop_0. change (Z.to_nat 2) with 2%nat.
    rewrite !take_ge by lia. done. }
  rewrite Ea in *. assert (2 <= le_val a2) as H2 by (rewrite length_app in *; lia).
  assert (rd 0 (le_val a2) (b2 ++ br) = b2 ++ take (Z.to_nat (le_val a2) - 2) br) as Er.
  { unfold rd. rewrite drop_0, take_app_ge by lia. by replace (length b2) with 2%nat by lia. }
  rewrite Er in H. apply memcmp_prefix in H as [-> H]; [|lia]. f_equal. rewrite Eb in Hb. rewrite length_app in *.
  rewrite take_ge in H by lia. apply memcmp_eq; [lia|done].
Defined.

(** ** The switch's promises *)

Definition connected (core : SwitchCore) (ep : Z) : Prop :=
  exists i, conns core !! ep = Some i /\ 0 <= i < NumberCompress_INTERFACES /\ si_send (slot core i) = true /\ si_alloc (slot core i) = Some ep.

Lemma setState_connected core ep st : core_ok core -> connected core ep -> st = 0 \/ st = 1 ->
  exists core', SwitchCore_setInterfaceState core ep st = Ret core' /\ core_ok core' /\ conns core' = conns core /\
    forall u, connected core u -> connected core' u.
Proof.
  intros Hok (i & Hc & Hi & Hs & Ha) Hst. eexists. split.
  { unfold SwitchCore_setInterfaceState. rewrite Hc, Hs. cbn [Assert_true mbind Er_bind].
    replace (st =? Z.land st 1) with true by (by destruct Hst; subst). cbn [Assert_true mbind Er_bind]. reflexivity. }
  split; [|split; [done|]].
  - apply (core_ok_setState core ep st); [done|]. unfold SwitchCore_setInterfaceState. rewrite Hc, Hs. cbn [Assert_true mbind Er_bind].
    by replace (st =? Z.land st 1) with true by (by destruct Hst; subst).
  - intros u (j & Hcu & Hj & Hsu & Hau). exists j. split; [done|]. split; [done|].
    pose proof (co_length _ Hok) as Hlen. rewrite slot_set by lia. destruct (decide (i = j)) as [<-|]; [|done]. cbn [si_send si_alloc]. done.
Qed.

Lemma free_connected core ep u : core_ok core -> connected core u -> u <> ep -> connected (free_alloc core ep) u.
Proof.
  intros Hok (j & Hc & Hj & Hs & Ha) Hne. destruct (free_alloc_spec core ep Hok) as (_ & C & _ & Sl).
  exists j. rewrite C. split; [done|]. split; [done|]. rewrite Sl by lia. rewrite decide_False; [done|].
  intros Hin. destruct (co_jobs _ Hok _ _ Hin) as (_ & _ & Ha'). congruence.
Qed.

Lemma add_connected core ep : core_ok core -> conns core !! ep = None ->
  (exists rc, rc <> 0 /\ SwitchCore_addInterface core ep ep = Ret (rc, core, None)) \/
  exists core' lbl i, SwitchCore_addInterface core ep ep = Ret (0, core', Some lbl) /\ core_ok core' /\
    conns core' = <[ep := i]> (conns core) /\ connected core' ep /\ forall u, connected core u -> connected core' u.
Proof.
  intros Hok Hn. destruct (find_vacant (interfaces core) 0) as [i|] eqn:Hv.
  2: { left. eexists. split; [|unfold SwitchCore_addInterface; by rewrite Hv]. done. }
  right. destruct (vacant_zero core i Hok Hv) as (Hi & Hz & Hi1). pose proof (co_length _ Hok) as Hlen.
  set (si := mkSwitchInterface true None (Some ep) true (Some (ep, i)) SwitchCore_setInterfaceState_ifaceState_UP).
  set (c1 := add_job (set_slot core i si) ep i).
  assert (updates core c1 i si) as [L1 S1] by (apply set_slot_updates; [lia|done]).
  assert (exists c2, Iface_plumb c1 ep i = Ret c2) as (c2' & Hp').
  { unfold Iface_plumb. rewrite (bool_decide_eq_true_2 (conns c1 !! ep = None)) by exact Hn. cbn [Assert_true mbind Er_bind].
    rewrite (bool_decide_eq_true_2 (si_connectedIf (slot c1 i) = None)); [by eexists|]. rewrite S1, decide_True by (done || lia). done. }
  assert (exists core' lbl, SwitchCore_addInterface core ep ep = Ret (0, core', Some lbl)) as (core' & lbl & E).
  { unfold SwitchCore_addInterface. rewrite Hv, Hz. cbn [si_connectedIf si_zero]. fold si. fold c1. rewrite Hp'. by do 2 eexists. }
  exists core', lbl, i. split; [exact E|]. split; [by eapply core_ok_add|].
  revert E. unfold SwitchCore_addInterface. rewrite Hv, Hz. cbn [si_connectedIf si_zero]. fold si. fold c1.
  destruct (Iface_plumb c1 ep i) as [c2|] eqn:Hp; [|done]. cbn [mbind Er_bind]. intros [= <- _].
  apply Iface_plumb_inv in Hp as (_ & _ & [L2 S2] & C2 & _); [|lia]. split; [done|]. split.
  - exists i. rewrite C2, lookup_insert_eq. split; [done|]. split; [done|]. rewrite S2, decide_True by (done || lia). cbn [with_conn].
    rewrite S1, decide_True by (done || lia). done.
  - intros u (j & Hc & Hj & Hs & Ha). exists j. rewrite C2.
    assert (u <> ep) by (intros ->; change (conns c1) with (conns core) in *; congruence).
    rewrite lookup_insert_ne by done. split; [done|]. split; [done|].
    assert (i <> j) by (intros <-; rewrite Hz in Hs; done).
    rewrite S2, decide_False by lia. rewrite S1, decide_False by lia. done.
Qed.

(** ** The invariant *)

Section Invariant.
Context {N : Nacl}.

Definition session_fine (n : Z) (s : Session) : Prop := session_ok s /\ nextNonce s + 3 * n < 2 ^ 32.

Record peer_fine (room n : Z) (p : Peer) : Prop := {
  pf_session : session_fine n (p_caSession p);
  pf_link : idle room (p_peerLink p);
  pf_lladdr : sockaddr_wf (p_lladdr p);
}.

(** The peer is in the map of its interface. *)
Definition listed (ic : InterfaceController) (ep : Z) (p : Peer) : Prop :=
  0 <= p_ici p /\ exists x, ic_icis ic !! Z.to_nat (p_ici p) = Some x /\ hmap (if_peerMap x) !! p_handle p = Some ep.

Record map_fine (n : Z) (map : Map Sockaddr Z) : Prop := {
  mf_keys : keys_ok (H := sockaddr_key) map;
  mf_handles : handles_ok map;
  mf_next : map_nextHandle map + n < 2 ^ 32 - 1;
  mf_count : map_count map + n < 2 ^ 31 - 1;
}.

(** What a map lists is live and knows where it is listed. *)
Definition lists (peers : gmap Z Peer) (k : nat) (x : Iface_pvt) : Prop :=
  forall e, e ∈ map_entries (if_peerMap x) ->
    exists p, peers !! e_value e = Some p /\ p_ici p = Z.of_nat k /\ p_handle p = e_handle e /\ p_lladdr p = e_key e.

Record pinger_fine (n : Z) (next : nat) (ctx : SwitchPinger) : Prop := {
  pg_ok : sw_ok ctx;
  pg_next : map_nextHandle (outstandingPings (s_pinger ctx)) + n < 2 ^ 32 - 1;
  pg_count : map_count (outstandingPings (s_pinger ctx)) + n < 2 ^ 31 - 1;
  pg_names : forall ptr p, pings (s_pinger ctx) !! ptr = Some p -> (ptr < next)%nat;
}.

(** [ex]: a peer which is being made. *)
Record ok_but (ex : option Z) (room n : Z) (ic : InterfaceController) : Prop := {
  ok_ca : ca_ok (ic_ca ic);
  ok_core : core_ok (ic_switchCore ic);
  ok_conns : forall u i, conns (ic_switchCore ic) !! u = Some i -> u < ic_nextPeer ic;
  ok_pinger : pinger_fine n (ic_nextPing ic) (ic_switchPinger ic);
  ok_maps : forall k x, ic_icis ic !! k = Some x -> map_fine n (if_peerMap x);
  ok_lists : forall k x, ic_icis ic !! k = Some x -> lists (ic_peers ic) k x;
  ok_names : forall ep p, ic_peers ic !! ep = Some p -> ep < ic_nextPeer ic;
  ok_peers : forall ep p, ic_peers ic !! ep = Some p -> Some ep <> ex ->
    peer_fine room n p /\ listed ic ep p /\ connected (ic_switchCore ic) ep;
}.
Abbreviation ok := (ok_but None).

Lemma session_fine_mono n n' s : n' <= n -> session_fine n s -> session_fine n' s.
Proof. intros Hn [? ?]. split; [done|lia]. Qed.
Lemma idle_mono room room' pl : room <= room' -> idle room pl -> idle room' pl.
Proof. intros Hr [? (? & ? & ?) (? & ? & ?)]. split; [done|split_and!; try done; lia..]. Qed.
Lemma peer_fine_mono room room' n n' p : n' <= n -> room <= room' -> peer_fine room n p -> peer_fine room' n' p.
Proof. intros Hn Hr [? ? ?]. split; [by eapply session_fine_mono|by eapply idle_mono|done]. Qed.

Lemma ok_mono ex room room' n n' ic : n' <= n -> room <= room' -> ok_but ex room n ic -> ok_but ex room' n' ic.
Proof.
  intros Hn Hr [H1 H2 H3 [P1 P2 P3 P4] H5 H6 H7 H8]. split; try done.
  - split; try done; lia.
  - intros k x Hx. destruct (H5 k x Hx). split; try done; lia.
  - intros ep p Hp Hne. destruct (H8 ep p Hp Hne) as (? & ? & ?). split; [by eapply peer_fine_mono|done].
Qed.

Lemma ok_except ex room n ic : ok room n ic -> ok_but ex room n ic.
Proof. intros [H1 H2 H3 H4 H5 H6 H7 H8]. split; try done. intros ep p Hp _. by apply H8. Qed.

(** Fields of a peer which its places depend on. *)
Definition same_place (p q : Peer) : Prop := p_ici q = p_ici p /\ p_handle q = p_handle p /\ p_lladdr q = p_lladdr p.

Lemma lists_put peers k x ep p q : lists peers k x -> peers !! ep = Some p -> same_place p q -> lists (<[ep := q]> peers) k x.
Proof.
  intros Hl Hp (E1 & E2 & E3) e He. destruct (Hl e He) as (p' & Hp' & ? & ? & ?).
  destruct (decide (ep = e_value e)) as [->|Hne].
  - exists q. rewrite lookup_insert_eq. rewrite Hp in Hp'. injection Hp' as <-. split; [done|]. split_and!; congruence.
  - exists p'. by rewrite lookup_insert_ne.
Qed.

(** A peer changes, but not its place. *)
Lemma ok_put ex room n ic ep p q : ok_but ex room n ic -> ic_peers ic !! ep = Some p -> same_place p q ->
  (Some ep <> ex -> peer_fine room n q) -> ok_but ex room n (put_peer ic ep q).
Proof.
  intros [H1 H2 H3 H4 H5 H6 H7 H8] Hp Hs Hq. destruct (put_fields ic ep q) as (F1 & F2 & F3 & F4 & F5 & F6 & F7).
  split; rewrite ?F1, ?F2, ?F3, ?F4, ?F5, ?F6, ?F7; try done.
  - intros k x Hx. eapply lists_put; [by apply H6|done|done].
  - intros u r. rewrite lookup_insert_Some. intros [[<- <-]|[_ Hr]]; [by apply (H7 _ p)|by apply (H7 _ r)].
  - intros u r Hr Hne. assert (forall u r, listed ic u r -> listed (put_peer ic ep q) u r) as Hli by done.
    apply lookup_insert_Some in Hr as [[<- <-]|[Hu Hr]].
    + destruct (H8 ep p Hp Hne) as (_ & Hl & Hc). split; [by apply Hq|]. split; [|done]. apply Hli.
      destruct Hs as (E1 & E2 & E3). unfold listed in *. by rewrite E1, E2.
    + destruct (H8 u r Hr Hne) as (? & ? & ?). auto.
Qed.

(** The stage is reached in which a new peer is like the others. *)
Lemma ok_complete ep p room n ic : ok_but (Some ep) room n ic -> ic_peers ic !! ep = Some p ->
  peer_fine room n p -> listed ic ep p -> connected (ic_switchCore ic) ep -> ok room n ic.
Proof.
  intros [H1 H2 H3 H4 H5 H6 H7 H8] Hp Hf Hl Hc. split; try done. intros u r Hr _.
  destruct (decide (u = ep)) as [->|Hne]; [|by apply H8; [|congruence]]. rewrite Hp in Hr. by injection Hr as <-.
Qed.

End Invariant.

Abbreviation ok := (ok_but None).

(** ** Parts of the handlers *)

Section Handlers.
Context {N : Nacl} {L : NaclLaws N} (malloc : Z -> Z * list Z) (env : ICEnv).

Lemma log_address_runs ex room n ic ep p Q : ok_but ex room n ic -> ic_peers ic !! ep = Some p ->
  (forall q, same_place p q -> p_caSession q = p_caSession p -> p_peerLink q = p_peerLink p -> p_state q = p_state p ->
     p_timeOfLastMessage q = p_timeOfLastMessage p -> p_pingCount q = p_pingCount p ->
     ok_but ex room n (put_peer ic ep q) -> Q tt (put_peer ic ep q)) ->
  runs (log_address ep) ic Q.
Proof.
  intros Hok Hp HQ. unfold log_address. apply (runs_update ep p); [done|]. apply HQ; try done.
  apply (ok_put ex room n ic ep p); [done..|]. intros Hne. destruct (ok_peers _ _ _ _ Hok ep p Hp Hne) as ([? ? ?] & _). by split.
Qed.

(** An event changes nothing. *)
Lemma sendPeer_runs pf ev ep lat ic p (Q : unit -> InterfaceController -> Prop) : ic_peers ic !! ep = Some p -> Q tt ic ->
  runs (sendPeer malloc pf ev ep lat) ic Q.
Proof.
  intros Hp HQ. unfold sendPeer. apply runs_bind, (runs_peer ep p); [done|]. cbv zeta.
  destruct (_ =? 0); [by apply runs_ret|]. destruct (_ =? 0); [by apply runs_ret|].
  destruct (malloc (PFChan_Node_SIZE + 512)) as [addr mem]. set (m := msg_write _ 0 _).
  assert (pos m addr 0 576 512) as Hm by (apply pos_write; done).
  destruct (pos_epush32be m addr 0 576 512 pf Hm) as (m1 & E1 & Hm1); [lia..|].
  apply runs_bind, (runs_lift _ m1); [done|].
  destruct (pos_epush32be m1 addr 0 576 508 ev Hm1) as (m2 & E2 & Hm2); [lia..|].
  apply runs_bind, (runs_lift _ m2); [done|]. by apply runs_emit.
Qed.

(** *** The switch and the pinger *)

Lemma ok_set_core ex room n ic core' : ok_but ex room n ic -> core_ok core' ->
  (forall u i, conns core' !! u = Some i -> u < ic_nextPeer ic) ->
  (forall u, connected (ic_switchCore ic) u -> Some u <> ex -> connected core' u) -> ok_but ex room n (ic_set_core ic core').
Proof.
  intros [H1 H2 H3 H4 H5 H6 H7 H8] Hc Hb Hi. split; try done. intros u r Hr Hne. destruct (H8 u r Hr Hne) as (? & ? & ?).
  split; [done|]. split; [done|]. cbn. auto.
Qed.

Lemma ok_set_pinger ex room n ic ctx k : ok_but ex room n ic -> (ic_nextPing ic <= k)%nat -> pinger_fine n k ctx ->
  ok_but ex room n (ic_set_next (ic_set_pinger ic ctx) (ic_nextPeer ic) k).
Proof. intros [H1 H2 H3 H4 H5 H6 H7 H8] Hk Hp. by split. Qed.

Lemma set_if_state_runs ex room n ic ep st (Q : unit -> InterfaceController -> Prop) : ok_but ex room n ic ->
  connected (ic_switchCore ic) ep -> st = 0 \/ st = 1 ->
  (forall core', connected core' ep -> ok_but ex room n (ic_set_core ic core') -> Q tt (ic_set_core ic core')) ->
  runs (set_if_state ep st) ic Q.
Proof.
  intros Hok Hc Hst HQ. unfold set_if_state. apply runs_bind, runs_gets.
  destruct (setState_connected _ ep st (ok_core _ _ _ _ Hok) Hc Hst) as (core' & E & Hok' & Hcc & Hi).
  apply runs_bind, (runs_lift _ core'); [done|]. apply runs_modify, HQ; [by apply Hi|].
  apply ok_set_core; [done|done| |auto]. rewrite Hcc. apply (ok_conns _ _ _ _ Hok).
Qed.

Lemma grow_same {K V} (m : Map K V) : map_entries (Map_grow m) = map_entries m /\ map_nextHandle (Map_grow m) = map_nextHandle m.
Proof. unfold Map_grow. by destruct (map_count m =? map_capacity m). Qed.

Lemma newPing_fine n next ctx label user time cookie ctx' : pinger_fine n next ctx -> 0 < n -> fits 64 cookie ->
  SwitchPinger_newPing ctx label (Some []) user next time cookie = Some ctx' -> pinger_fine (n - 1) (S next) ctx'.
Proof.
  intros [Hok Hn Hc Hnames] Hp Hcookie E. assert (pings (s_pinger ctx) !! next = None) as Hfresh.
  { destruct (pings (s_pinger ctx) !! next) as [p|] eqn:Hl; [|done]. apply Hnames in Hl. lia. }
  pose proof (newPing_ok ctx label (Some []) user next time cookie ctx' Hok Hfresh Hcookie ltac:(lia) ltac:(lia) ltac:(constructor) E) as Hok'.
  revert E. unfold SwitchPinger_newPing. destruct (len [] >? _); [done|]. destruct (_ >? _); [done|]. intros [= <-].
  unfold Pinger_newPing in *. unfold Map_put_handle in *. split; [done|..];
    cbn [s_pinger set_outstanding set_pinger set_context set_pings outstandingPings map_nextHandle map_count map_entries pings] in *.
  - destruct (grow_same (outstandingPings (s_pinger ctx))) as [_ ->]. unfold u32.
    destruct Hok as (((_ & _ & [Hf0 _] & _) & _) & _). rewrite Z.mod_small by lia. lia.
  - rewrite (proj1 (grow_same (outstandingPings (s_pinger ctx)))). unfold map_count in *. cbn [map_entries]. rewrite length_app. cbn [length]. lia.
  - intros ptr p. rewrite lookup_alter_Some. intros [(<- & q & Hq & _)|[Hne Hq]]; [lia|].
    apply lookup_insert_Some in Hq as [[-> _]|[_ Hq]]; [lia|]. apply Hnames in Hq. lia.
Qed.

Lemma pinger_fine_mono n n' k k' ctx : n' <= n -> (k <= k')%nat -> pinger_fine n k ctx -> pinger_fine n' k' ctx.
Proof. intros Hn Hk [? ? ? Hnm]. split; [done|lia|lia|]. intros ptr p Hp. apply Hnm in Hp. lia. Qed.

Lemma cancel_fine n k l : forall ctx, pinger_fine n k ctx -> NoDup l -> (forall ptr, ptr ∈ l -> is_Some (pings (s_pinger ctx) !! ptr)) ->
  exists ctx', cancel_pings malloc l ctx = Ret ctx' /\ pinger_fine n k ctx'.
Proof.
  induction l as [|ptr l IH]; intros ctx Hf Hnd Hl; cbn [cancel_pings]; [by eexists|].
  apply NoDup_cons in Hnd as [Hni Hnd]. destruct (Hl ptr ltac:(apply list_elem_of_here)) as [p Hp]. destruct Hf as [Hok Hn Hc Hnm].
  destruct (freePing_spec (s_pinger ctx) ptr p (proj1 Hok) Hp) as (P' & E & HokP & Hd & _).
  destruct (run_outs_end malloc ctx P' ptr p None Hok Hp HokP Hd) as (c & ctx' & r & _ & Er & Hok' & -> & HP & _).
  unfold pingCancel. rewrite E. cbn [mbind Er_bind]. rewrite Er. cbn [mbind Er_bind].
  apply freePing_shrinks in E as [Hn' Hc' _].
  apply IH; [|done|].
  - split; [done|rewrite HP; lia|rewrite HP; lia|]. intros q pq. rewrite HP, Hd. intros [_ Hq]%lookup_delete_Some. by apply (Hnm q pq).
  - intros q Hq. rewrite HP, Hd. rewrite lookup_delete_ne by (intros ->; done). apply Hl. by apply list_elem_of_further.
Qed.

Lemma pings_of_live ep ctx : NoDup (pings_of ep ctx) /\ forall ptr, ptr ∈ pings_of ep ctx -> is_Some (pings (s_pinger ctx) !! ptr).
Proof.
  unfold pings_of. split.
  - apply (NoDup_fmap_fst (A := nat)); [|apply NoDup_filter, NoDup_map_to_list].
    intros x y1 y2 H1%list_elem_of_filter H2%list_elem_of_filter. destruct H1 as [_ H1%elem_of_map_to_list], H2 as [_ H2%elem_of_map_to_list].
    congruence.
  - intros ptr ([q p] & -> & Hin)%list_elem_of_fmap. apply list_elem_of_filter in Hin as [_ Hin%elem_of_map_to_list]. by eexists.
Qed.

(** *** Pings *)

(** Only the peer [ep] has changed, from [p] to [q], and not its place. *)
Record touched (ic : InterfaceController) (ep : Z) (p : Peer) (ic' : InterfaceController) (q : Peer) : Prop := {
  tc_peers : ic_peers ic' = <[ep := q]> (ic_peers ic);
  tc_icis : ic_icis ic' = ic_icis ic;
  tc_core : ic_switchCore ic' = ic_switchCore ic;
  tc_ca : ic_ca ic' = ic_ca ic;
  tc_next : ic_nextPeer ic' = ic_nextPeer ic;
  tc_place : same_place p q;
  tc_session : p_caSession q = p_caSession p;
  tc_link : p_peerLink q = p_peerLink p;
}.

Lemma touched_live ic ep p ic' q : touched ic ep p ic' q -> ic_peers ic' !! ep = Some q.
Proof. intros [-> _ _ _ _ _ _ _]. apply lookup_insert_eq. Qed.

Lemma sendPing_runs ex room n ic ep p (Q : unit -> InterfaceController -> Prop) : ok_but ex room n ic -> 0 < n ->
  (forall k, fits 64 (ie_cookie env k)) -> ic_peers ic !! ep = Some p ->
  (forall ic' q, ok_but ex room (n - 1) ic' -> touched ic ep p ic' q -> Q tt ic') -> runs (sendPing env ep) ic Q.
Proof.
  intros Hok Hn Hck Hp HQ. unfold sendPing. apply runs_bind, (runs_update ep p); [done|].
  set (p1 := p_set_pingCount p _). set (ic1 := put_peer ic ep p1).
  assert (ok_but ex room n ic1) as Hok1.
  { apply (ok_put ex room n ic ep p); [done..|]. intros Hne. destruct (ok_peers _ _ _ _ Hok ep p Hp Hne) as ([? ? ?] & _). by split. }
  assert (ic_peers ic1 !! ep = Some p1) as Hp1 by apply put_lookup.
  apply runs_bind, (runs_peer ep p1); [done|]. apply runs_bind, runs_gets. unfold new_ping_name.
  apply runs_bind, runs_bind, runs_gets, runs_bind, runs_modify, runs_ret.
  set (ic2 := ic_set_next ic1 (ic_nextPeer ic1) (S (ic_nextPing ic1))).
  assert (forall ic', ok_but ex room (n - 1) ic' -> ic_peers ic' = ic_peers ic1 -> ic_icis ic' = ic_icis ic1 -> ic_switchCore ic' = ic_switchCore ic1 ->
    ic_ca ic' = ic_ca ic1 -> ic_nextPeer ic' = ic_nextPeer ic1 -> runs (log_address ep) ic' Q) as Hend.
  { intros ic' Hok' E1 E2 E3 E4 E5. apply (log_address_runs ex room (n - 1) ic' ep p1); [done|by rewrite E1|].
    intros q Hs Hca Hl _ _ _ Hokq. apply (HQ _ q); [done|]. destruct (put_fields ic' ep q) as (F1 & F2 & _ & F4 & F5 & F6 & _).
    destruct (put_fields ic ep p1) as (G1 & G2 & _ & G4 & G5 & G6 & _). fold ic1 in G1, G2, G4, G5, G6.
    split; [rewrite F5, E1, G5; by rewrite insert_insert_eq|congruence..|exact Hs|done|done]. }
  destruct (SwitchPinger_newPing _ _ _ _ _ _ _) as [ctx'|] eqn:Enew.
  - apply runs_bind, runs_modify. apply Hend; try done.
    apply (ok_mono _ _ room n (n - 1)) in Hok1 as Hok1'; [|lia..].
    change (ic_set_pinger ic2 ctx') with (ic_set_next (ic_set_pinger ic1 ctx') (ic_nextPeer ic1) (S (ic_nextPing ic1))).
    apply ok_set_pinger; [done|lia|]. eapply newPing_fine; [apply (ok_pinger _ _ _ _ Hok1)|done|apply Hck|exact Enew].
  - apply Hend; try done. apply (ok_mono _ _ room n (n - 1)) in Hok1 as Hok1'; [|lia..].
    change ic2 with (ic_set_next (ic_set_pinger ic1 (ic_switchPinger ic1)) (ic_nextPeer ic1) (S (ic_nextPing ic1))).
    apply ok_set_pinger; [done|lia|]. eapply pinger_fine_mono; [done| |apply (ok_pinger _ _ _ _ Hok1')]. lia.
Qed.

Lemma onPingResponse_runs room n ic ep p resp (Q : unit -> InterfaceController -> Prop) : ok room n ic -> ic_peers ic !! ep = Some p ->
  (forall ic', ok room n ic' -> dom (ic_peers ic') = dom (ic_peers ic) -> Q tt ic') -> runs (onPingResponse malloc env resp ep) ic Q.
Proof.
  intros Hok Hp HQ. unfold onPingResponse. destruct (resp_res resp); try (by apply runs_ret, HQ).
  assert (forall ic1 p1 f, ok room n ic1 -> ic_peers ic1 !! ep = Some p1 -> same_place p1 (f p1) -> p_caSession (f p1) = p_caSession p1 ->
    p_peerLink (f p1) = p_peerLink p1 -> ok room n (put_peer ic1 ep (f p1))) as Hput.
  { intros ic1 p1 f Hok1 Hp1 Hs Hca Hl. apply (ok_put None room n ic1 ep p1); [done..|]. intros Hne.
    destruct (ok_peers _ _ _ _ Hok1 ep p1 Hp1 Hne) as ([? ? ?] & _). destruct Hs as (_ & _ & E). split; congruence. }
  assert (forall ic1 p1 q, ic_peers ic1 !! ep = Some p1 -> dom (ic_peers (put_peer ic1 ep q)) = dom (ic_peers ic1)) as Hdom.
  { intros ic1 p1 q Hp1. destruct (put_fields ic1 ep q) as (_ & _ & _ & _ & -> & _).
    apply dom_insert_lookup_L. by eexists. }
  apply runs_bind, (runs_update ep p); [done|]. set (p1 := p_set_addr p _).
  assert (ok room n (put_peer ic ep p1)) as Hok1 by (by apply (Hput ic p (fun p => p_set_addr p _))).
  apply runs_bind, (log_address_runs None room n _ ep p1); [done|apply put_lookup|]. intros q Hs _ _ _ _ _ Hokq.
  assert (dom (ic_peers (put_peer (put_peer ic ep p1) ep q)) = dom (ic_peers ic)) as Hd
    by (rewrite (Hdom _ p1) by apply put_lookup; by rewrite (Hdom _ p)).
  destruct (_ =? 0); [by apply runs_ret, HQ|]. apply runs_bind, (runs_peer ep q); [apply put_lookup|].
  apply runs_bind. assert (forall ic1, ic1 = put_peer (put_peer ic ep p1) ep q ->
    runs (update ep (fun p => p_set_lastPing p (ie_ms env));; log_address ep) ic1 Q) as Hend.
  { intros ic1 ->. apply runs_bind, (runs_update ep q); [apply put_lookup|]. set (q1 := p_set_lastPing q _).
    assert (ok room n (put_peer (put_peer (put_peer ic ep p1) ep q) ep q1)) as Hok2
      by (apply (Hput _ q (fun p => p_set_lastPing p (ie_ms env))); by try apply put_lookup).
    apply (log_address_runs None room n _ ep q1); [done|apply put_lookup|]. intros r _ _ _ _ _ _ Hokr. apply HQ; [done|].
    rewrite (Hdom _ q1) by apply put_lookup. rewrite (Hdom _ q) by apply put_lookup. exact Hd. }
  destruct (_ =? PeerState_ESTABLISHED).
  - apply (sendPeer_runs _ _ _ _ _ q); [apply put_lookup|]. by apply Hend.
  - apply runs_ret. by apply Hend.
Qed.

(** *** A peer goes *)

(** No interface comes or goes, and no map grows. *)
Definition no_more (icis icis' : list Iface_pvt) : Prop :=
  length icis' = length icis /\
  forall k x', icis' !! k = Some x' -> exists x, icis !! k = Some x /\ map_count (if_peerMap x') <= map_count (if_peerMap x).

(** A map without the entry of a peer. *)
Lemma unlist n map i e : map_fine n map -> map_entries map !! i = Some e ->
  let map' := (Map_remove (Z.of_nat i) map).2 in
  map_fine n map' /\ hmap map' = delete (e_handle e) (hmap map) /\ map_count map' = map_count map - 1 /\
  forall e', e' ∈ map_entries map' -> e' ∈ map_entries map /\ e_handle e' <> e_handle e.
Proof.
  intros [Hk Hh Hn Hc] He map'. destruct (remove_handles map i e Hh He) as [Hh' Hm']. fold map' in Hh', Hm'.
  destruct (remove_keys (H := sockaddr_key) map i e Hk He) as (Hk' & _). fold map' in Hk'.
  pose proof (lookup_lt_Some _ _ _ He) as Hlt.
  assert (map_entries map' = delete i (map_entries map) /\ map_nextHandle map' = map_nextHandle map) as [Hent Hnext].
  { unfold map'. by rewrite remove_entries. }
  assert (map_count map' = map_count map - 1) as Hcount.
  { unfold map_count. rewrite Hent, length_delete by done. lia. }
  split; [split; [done|done|lia|lia]|]. split; [done|]. split; [done|].
  intros e' He'. split.
  - rewrite Hent in He'. eapply elem_of_submseteq; [exact He'|]. apply sublist_submseteq, sublist_delete.
  - intros Heq. pose proof (hmap_entry map' e' Hh' He') as Hx. rewrite Hm', Heq, lookup_delete_eq in Hx. done.
Qed.

Lemma free_peer_runs ex room n ic ep p (Q : unit -> InterfaceController -> Prop) :
  ok_but ex room n ic -> (ex = None \/ ex = Some ep) -> ic_peers ic !! ep = Some p -> listed ic ep p ->
  (forall ic', ok room n ic' -> ic_peers ic' = delete ep (ic_peers ic) -> no_more (ic_icis ic) (ic_icis ic') -> Q tt ic') ->
  runs (free_peer malloc ep) ic Q.
Proof.
  intros Hok Hex Hp (Hk0 & x & Hx & Hh) HQ. unfold free_peer. apply runs_bind. unfold closeInterface.
  pose proof (ok_maps _ _ _ _ Hok _ _ Hx) as Hmf. pose proof (indexForHandle_lookup _ (p_handle p) (mf_handles _ _ Hmf)) as Hix. rewrite Hh in Hix.
  destruct Hix as (i & e & He & Heh & Hev & Hix).
  apply runs_bind, (sendPeer_runs _ _ _ _ _ p); [done|].
  apply runs_bind, (runs_peer ep p); [done|]. apply runs_bind, (runs_iface _ x); [done|]. cbv zeta. rewrite Hix.
  apply runs_bind, runs_assert; [lia|]. apply runs_bind, (runs_value_at _ x _ e); [done|by rewrite Nat2Z.id|].
  apply runs_bind, runs_assert; [by apply Z.eqb_eq|].
  apply (runs_update_iface _ x); [done|]. destruct (unlist n _ i e Hmf He) as (Hmf' & Hm' & Hcount & Hent).
  set (x' := if_set_map x _). set (map' := (Map_remove (Z.of_nat i) (if_peerMap x)).2) in *.
  set (ic1 := ic_set_icis ic _).
  apply runs_bind, runs_gets. apply runs_bind. destruct (pings_of_live ep (ic_switchPinger ic)) as [Hnd Hlive].
  destruct (cancel_fine n _ _ _ (ok_pinger _ _ _ _ Hok) Hnd Hlive) as (ctx' & Ec & Hpf).
  apply (runs_lift _ ctx'); [exact Ec|]. apply runs_bind, runs_modify, runs_bind, runs_modify, runs_modify.
  assert (forall u r, ic_peers ic !! u = Some r -> u <> ep -> peer_fine room n r /\ listed ic u r /\ connected (ic_switchCore ic) u) as Hothers.
  { intros u r Hr Hne. apply (ok_peers _ _ _ _ Hok u r Hr). intros Heq. destruct Hex; congruence. }
  apply HQ; [|done|].
  - destruct Hok as [H1 H2 H3 H4 H5 H6 H7 H8].
    split; cbn [ic_set_peers ic_set_core ic_set_pinger ic1 ic_set_icis ic_ca ic_switchCore ic_switchPinger ic_icis ic_peers ic_nextPeer ic_nextPing].
    + done.
    + by apply core_ok_free.
    + destruct (free_alloc_spec _ ep H2) as (_ & -> & _). done.
    + done.
    + intros k y. rewrite list_lookup_insert_Some. intros [(<- & <- & _)|[_ Hy]]; [done|by apply (H5 k)].
    + intros k y Hy. apply list_lookup_insert_Some in Hy as [(<- & <- & _)|[Hne Hy]].
      * intros e' He'. destruct (Hent e' He') as [Hin Hneh]. destruct (H6 _ _ Hx e' Hin) as (q & Hq & E1 & E2 & E3).
        exists q. rewrite lookup_delete_ne; [done|]. intros Heq. rewrite <- Heq, Hp in Hq. injection Hq as <-. congruence.
      * intros e' He'. destruct (H6 _ _ Hy e' He') as (q & Hq & E1 & E2 & E3).
        exists q. rewrite lookup_delete_ne; [done|]. intros Heq. rewrite <- Heq, Hp in Hq. injection Hq as <-. lia.
    + intros u r [_ Hr]%lookup_delete_Some. by apply (H7 u r).
    + intros u r [Hne Hr]%lookup_delete_Some _. destruct (Hothers u r Hr ltac:(done)) as (Hf & (Hk & y & Hy & Hyh) & Hc).
      split; [done|]. split; [|by apply free_connected]. split; [done|]. unfold listed in *.
      destruct (decide (Z.to_nat (p_ici p) = Z.to_nat (p_ici r))) as [Heq|Hneq].
      * exists x'. rewrite <- Heq in *. rewrite Hx in Hy. injection Hy as <-. split.
        { apply list_lookup_insert_eq. by eapply lookup_lt_Some. }
        change (hmap map' !! p_handle r = Some u). rewrite Hm', lookup_delete_ne; [done|]. intros E. rewrite <- E, Heh, Hh in Hyh. congruence.
      * exists y. split; [|exact Hyh]. change (<[Z.to_nat (p_ici p) := x']> (ic_icis ic) !! Z.to_nat (p_ici r) = Some y).
        by rewrite list_lookup_insert_ne.
  - split; [exact (length_insert (ic_icis ic) _ _)|]. intros k y Hy.
    change (<[Z.to_nat (p_ici p) := x']> (ic_icis ic) !! k = Some y) in Hy.
    apply list_lookup_insert_Some in Hy as [(<- & <- & _)|[_ Hy]]; [|by exists y].
    exists x. split; [done|]. change (map_count map' <= map_count (if_peerMap x)). lia.
Qed.

(** The condition of the code. *)
Ltac branch := match goal with |- runs (if ?b then _ else _) _ _ => destruct b end.

Ltac branch_on H x := match goal with |- runs (if ?b then _ else _) _ _ => destruct H as [x|x] end.

(** An interface changes, but not its map. *)
Lemma ok_set_icis room n ic k x y : ok room n ic -> ic_icis ic !! k = Some x -> if_peerMap y = if_peerMap x ->
  ok room n (ic_set_icis ic (<[k := y]> (ic_icis ic))) /\ no_more (ic_icis ic) (ic_icis (ic_set_icis ic (<[k := y]> (ic_icis ic)))).
Proof.
  intros [H1 H2 H3 H4 H5 H6 H7 H8] Hx Hy.
  assert (forall j z, <[k := y]> (ic_icis ic) !! j = Some z -> exists z', ic_icis ic !! j = Some z' /\ if_peerMap z = if_peerMap z') as Hl.
  { intros j z. rewrite list_lookup_insert_Some. intros [(<- & <- & _)|[_ Hz]]; [by exists x|by exists z]. }
  split; [split; try done|].
  - intros j z Hz. destruct (Hl j z Hz) as (z' & Hz' & ->). by apply (H5 j).
  - intros j z Hz. destruct (Hl j z Hz) as (z' & Hz' & E). unfold lists. rewrite E. by apply (H6 j z').
  - intros u r Hr Hne. destruct (H8 u r Hr Hne) as (Hf & (Hk & z & Hz & Hh) & Hc). split; [done|]. split; [|done]. split; [done|].
    cbn [ic_icis ic_set_icis]. destruct (decide (k = Z.to_nat (p_ici r))) as [->|Hn].
    + exists y. split; [apply list_lookup_insert_eq; by eapply lookup_lt_Some|]. rewrite Hy. congruence.
    + exists z. by rewrite list_lookup_insert_ne.
  - split; [exact (length_insert (ic_icis ic) _ _)|]. intros j z Hz. destruct (Hl j z Hz) as (z' & Hz' & E). exists z'. split; [done|].
    rewrite E. lia.
Qed.

(** *** The timers *)

Lemma no_more_refl icis : no_more icis icis.
Proof. split; [done|]. intros k x Hx. by exists x. Qed.
Lemma no_more_trans a b c : no_more a b -> no_more b c -> no_more a c.
Proof.
  intros [H1 H2] [H3 H4]. split; [lia|]. intros k z Hz. destruct (H4 k z Hz) as (y & Hy & ?).
  destruct (H2 k y Hy) as (x & Hx & ?). exists x. split; [done|lia].
Qed.

(** A change which keeps session, link and place. *)
Lemma ok_tweak room n ic ep p q : ok room n ic -> ic_peers ic !! ep = Some p -> same_place p q -> p_caSession q = p_caSession p ->
  p_peerLink q = p_peerLink p -> ok room n (put_peer ic ep q).
Proof.
  intros Hok Hp Hs Hca Hl. apply (ok_put None room n ic ep p); [done..|]. intros Hne.
  destruct (ok_peers _ _ _ _ Hok ep p Hp Hne) as ([? ? ?] & _). destruct Hs as (_ & _ & E). split; congruence.
Qed.

Lemma ping_round_runs first room n ic ep p (Q : bool -> InterfaceController -> Prop) : ok room n ic -> 0 < n ->
  (forall k, fits 64 (ie_cookie env k)) -> ic_peers ic !! ep = Some p ->
  (forall ic', ok room n ic' -> no_more (ic_icis ic) (ic_icis ic') -> Q false ic') ->
  (forall ic', ok room (n - 1) ic' -> no_more (ic_icis ic) (ic_icis ic') -> Q true ic') ->
  runs (ping_round malloc env first ep) ic Q.
Proof.
  intros Hok Hn Hck Hp HQ HQ'. unfold ping_round. cbv zeta. apply runs_bind, (runs_peer ep p); [done|].
  assert (forall q ic1, ic_icis (put_peer ic1 ep q) = ic_icis ic1) as Hic by done.
  destruct (incompatible _).
  { apply runs_bind, (runs_update ep p); [done|]. apply runs_ret, HQ; [by apply (ok_tweak _ _ _ _ p)|]. rewrite Hic. apply no_more_refl. }
  apply runs_bind, (log_address_runs None room n _ ep p); [done..|]. intros q Hs Hca Hl _ _ _ Hok1.
  set (ic1 := put_peer ic ep q) in *. assert (ic_peers ic1 !! ep = Some q) as Hq by apply put_lookup.
  assert (no_more (ic_icis ic) (ic_icis ic1)) as Hnm by apply no_more_refl.
  branch.
  { apply runs_bind. destruct (first && _); [apply (sendPeer_runs _ _ _ _ _ q); [done|]|apply runs_ret]; by apply runs_ret, HQ. }
  branch; [by apply runs_ret, HQ|]. branch.
  { apply runs_bind, (sendPeer_runs _ _ _ _ _ q); [done|]. destruct (ok_peers _ _ _ _ Hok1 ep q Hq ltac:(done)) as (_ & Hli & _).
    apply runs_bind, (free_peer_runs None room n _ ep q); [done|by left|done|done|]. intros ic2 Hok2 _ Hnm2.
    apply runs_ret, HQ; [done|]. exact (no_more_trans _ _ _ Hnm Hnm2). }
  branch.
  { apply runs_bind, (runs_update ep q); [done|]. apply runs_ret, HQ; [by apply (ok_tweak _ _ _ _ q)|done]. }
  apply runs_bind.
  assert (forall ic2 r, ok room n ic2 -> ic_peers ic2 !! ep = Some r -> no_more (ic_icis ic) (ic_icis ic2) ->
    runs (sendPing env ep;; mret true) ic2 Q) as Hend.
  { intros ic2 r Hok2 Hr Hnm2. apply runs_bind, (sendPing_runs None room n ic2 ep r); [done..|]. intros ic3 t Hok3 Ht.
    apply runs_ret, HQ'; [done|]. by rewrite (tc_icis _ _ _ _ _ Ht). }
  branch; [|by apply runs_ret, (Hend _ q)].
  apply runs_bind, (sendPeer_runs _ _ _ _ _ q); [done|]. apply runs_bind, (runs_update ep q); [done|].
  set (q1 := p_set_state q PeerState_UNRESPONSIVE).
  assert (ok room n (put_peer ic1 ep q1)) as Hok2 by (by apply (ok_tweak _ _ _ _ q)).
  destruct (ok_peers _ _ _ _ Hok1 ep q Hq ltac:(done)) as (_ & _ & Hc).
  apply (set_if_state_runs None room n _ ep); [done|exact Hc|by left|]. intros core' _ Hok3.
  apply (Hend _ q1); [done|apply put_lookup|done].
Qed.
(** What is in a map is a live peer. *)
Lemma entry_live ex room n ic k x i : ok_but ex room n ic -> ic_icis ic !! k = Some x -> 0 <= i < map_count (if_peerMap x) ->
  exists e p, map_entries (if_peerMap x) !! Z.to_nat i = Some e /\ ic_peers ic !! e_value e = Some p.
Proof.
  intros Hok Hx Hi. destruct (lookup_lt_is_Some_2 (map_entries (if_peerMap x)) (Z.to_nat i)) as [e He]; [unfold map_count in Hi; lia|].
  destruct (ok_lists _ _ _ _ Hok _ _ Hx e ltac:(by eapply list_elem_of_lookup_2)) as (p & Hp & _). by exists e, p.
Qed.

Lemma no_more_lookup icis icis' k x : no_more icis icis' -> icis !! k = Some x ->
  exists x', icis' !! k = Some x' /\ map_count (if_peerMap x') <= map_count (if_peerMap x).
Proof.
  intros [Hl Hm] Hx. destruct (lookup_lt_is_Some_2 icis' k) as [x' Hx']; [rewrite Hl; by eapply lookup_lt_Some|].
  exists x'. split; [done|]. destruct (Hm k x' Hx') as (y & Hy & Hle). rewrite Hx in Hy. by injection Hy as <-.
Qed.

Lemma iciPing_loop_runs room n k fuel : forall ic i count (Q : unit -> InterfaceController -> Prop), ok room n ic -> 0 < n ->
  (forall j, fits 64 (ie_cookie env j)) -> is_Some (ic_icis ic !! Z.to_nat k) -> 0 <= count ->
  (forall ic', ok room (n - 1) ic' -> no_more (ic_icis ic) (ic_icis ic') -> Q tt ic') ->
  runs (iciPing_loop malloc env fuel k i count) ic Q.
Proof.
  induction fuel as [|fuel IH]; intros ic i count Q Hok Hn Hck [x Hx] Hc HQ; cbn [iciPing_loop].
  { apply runs_ret, HQ; [by eapply ok_mono; [..|exact Hok]; lia|apply no_more_refl]. }
  apply runs_bind, (runs_iface _ x); [done|]. cbv zeta. branch_on (Z.ltb_spec count (map_count (if_peerMap x))) Hlt.
  2: { apply runs_ret, HQ; [by eapply ok_mono; [..|exact Hok]; lia|apply no_more_refl]. }
  set (j := u32 (i + 1) mod _). assert (0 <= j < map_count (if_peerMap x)) as Hj by (apply Z.mod_pos_bound; lia).
  destruct (entry_live None room n ic _ x j Hok Hx Hj) as (e & p & He & Hp).
  apply runs_bind, (runs_value_at _ x _ e); [done..|]. apply runs_bind, (ping_round_runs _ room n _ _ p); [done..| |].
  - intros ic1 Hok1 Hnm. destruct (no_more_lookup _ _ _ _ Hnm Hx) as (x1 & Hx1 & _).
    apply IH; [done..|by exists x1|lia|]. intros ic2 Hok2 Hnm2. apply HQ; [done|exact (no_more_trans _ _ _ Hnm Hnm2)].
  - intros ic1 Hok1 Hnm. by apply runs_ret, HQ.
Qed.

Lemma iciPing_runs room n k ic (Q : unit -> InterfaceController -> Prop) : ok room n ic -> 0 < n ->
  (forall j, fits 64 (ie_cookie env j)) -> is_Some (ic_icis ic !! Z.to_nat k) ->
  (forall ic', ok room (n - 1) ic' -> no_more (ic_icis ic) (ic_icis ic') -> Q tt ic') -> runs (iciPing malloc env k) ic Q.
Proof.
  intros Hok Hn Hck [x Hx] HQ. unfold iciPing. apply runs_bind, (runs_iface _ x); [done|]. cbv zeta.
  branch; [apply runs_ret, HQ; [by eapply ok_mono; [..|exact Hok]; lia|apply no_more_refl]|].
  set (start := u32 _ mod _). apply runs_bind, (runs_update_iface _ x); [done|]. set (ic1 := ic_set_icis ic _).
  destruct (ok_set_icis room n ic (Z.to_nat k) x (if_set_pinged x start) Hok Hx eq_refl) as [Hok1 Hnm].
  apply iciPing_loop_runs with (room := room) (n := n); [exact Hok1|done|done| |lia|].
  - exists (if_set_pinged x start). apply list_lookup_insert_eq. by eapply lookup_lt_Some.
  - intros ic2 Hok2 Hnm2. apply HQ; [done|exact (no_more_trans _ _ _ Hnm Hnm2)].
Qed.

Lemma for_loop_runs (body : nat -> Ctl unit) (I : nat -> InterfaceController -> Prop) len : forall start ic (Q : unit -> InterfaceController -> Prop),
  (forall j ic, (start <= j < start + len)%nat -> I j ic -> runs (body j) ic (fun _ ic' => I (S j) ic')) ->
  I start ic -> (forall ic', I (start + len)%nat ic' -> Q tt ic') -> runs (for_loop len start body) ic Q.
Proof.
  induction len as [|len IH]; intros start ic Q Hb H0 HQ; cbn [for_loop].
  - apply runs_ret, HQ. by rewrite Nat.add_0_r.
  - apply runs_bind. eapply runs_mono; [apply Hb; [lia|exact H0]|]. intros [] ic1 H1. apply IH; [|done|].
    + intros j ic2 Hj. apply Hb. lia.
    + intros ic2 H2. apply HQ. by rewrite Nat.add_succ_r.
Qed.

Lemma pingCallback_runs room n ic (Q : unit -> InterfaceController -> Prop) : ok room n ic -> len (ic_icis ic) <= n ->
  (forall j, fits 64 (ie_cookie env j)) -> (forall ic', ok room (n - len (ic_icis ic)) ic' -> Q tt ic') ->
  runs (pingCallback malloc env) ic Q.
Proof.
  intros Hok Hn Hck HQ. unfold pingCallback. apply runs_bind, runs_gets.
  apply (for_loop_runs _ (fun j ic' => ok room (n - Z.of_nat j) ic' /\ length (ic_icis ic') = length (ic_icis ic))).
  - intros j ic1 Hj [Hok1 Hl]. apply (iciPing_runs room (n - Z.of_nat j)); [done|lia|done| |].
    + rewrite Nat2Z.id. apply lookup_lt_is_Some_2. lia.
    + intros ic2 Hok2 [Hl2 _]. split; [by replace (n - Z.of_nat (S j)) with (n - Z.of_nat j - 1) by lia|congruence].
  - split; [by rewrite Z.sub_0_r|done].
  - intros ic1 [Hok1 _]. by apply HQ.
Qed.

(** *** Packets from the switch *)

(** What the calls are given: random bytes of the lengths asked for. *)
Record env_fine : Prop := {
  ef_rand : forall j, length (ie_rand env j).1 = 36%nat /\ Bits_isZero (ie_rand env j).2 = false;
  ef_cookie : forall j, fits 64 (ie_cookie env j);
}.
Context (Henv : env_fine).
#[local] Set Default Proof Using "All".

(** The bytes a meter may have counted before a packet, and behind it. *)
Abbreviation calm_room := (2 ^ 31 - 2 ^ 16).
Abbreviation full_room := (2 ^ 31).

(** A packet which the switch sends: with room for the headers of the link. *)
Definition switched (m : Message) : Prop :=
  exists a pre c post, msg_at m a pre c post /\ 256 <= len pre /\ a mod 4 = 0 /\ 0 < len c < 2 ^ 16.

Lemma sendFromSwitch_runs n ic ep p m (Q : unit -> InterfaceController -> Prop) : ok calm_room n ic -> 0 < n ->
  ic_peers ic !! ep = Some p -> switched m ->
  (forall ic', ok full_room (n - 1) ic' -> Q tt ic') -> runs (sendFromSwitch env m ep) ic Q.
Proof.
  intros Hok Hn Hp (a & pre & c & post & Hm & Hpre & Ha & Hc) HQ. unfold sendFromSwitch.
  assert (forall ic', ok calm_room n ic' -> Q tt ic') as HQ'.
  { intros ic' H. apply HQ. eapply ok_mono; [..|exact H]; lia. }
  apply runs_bind, (runs_peer ep p); [done|]. branch.
  { apply (log_address_runs None calm_room n ic ep p); [done..|]. intros q _ _ _ _ _ _ Hq. by apply HQ'. }
  apply runs_bind, (runs_update ep p); [done|]. set (p1 := p_set_bytesOut p _).
  destruct (ok_peers _ _ _ _ Hok ep p Hp ltac:(done)) as ([[Hs Hnon] Hlink (Hll & Hl8 & _)] & _).
  pose proof (at_content _ _ _ _ _ Hm) as [_ Hlen].
  destruct (send_poll (p_peerLink p) calm_room m (ie_ms env) Hlink) as (pl1 & pl2 & E1 & E2 & Hpl2); [lia|lia|].
  apply runs_bind, (runs_lift _ (1, pl1)); [exact E1|]. cbv beta iota.
  apply runs_bind, (runs_update ep p1); [apply put_lookup|]. set (p2 := p_set_link p1 pl1). rewrite put_put.
  change (Z.to_nat 1) with 1%nat. cbn [send_loop]. apply runs_bind, (runs_peer ep p2); [apply put_lookup|].
  apply runs_bind, (runs_lift _ (Some m, pl2)); [exact E2|]. cbv beta iota.
  apply runs_bind, (runs_update ep p2); [apply put_lookup|]. set (p3 := p_set_link p2 pl2). rewrite put_put.
  apply runs_bind, runs_gets. destruct (ef_rand Henv 0%nat) as [H36 H32].
  destruct (encrypt_ok (p_caSession p) (ic_ca ic) m pre c post (ie_s env) (ie_rand env 0).1 (ie_rand env 0).2) as (m1 & se & E & Hse & Hsn);
    try done; [by apply (ok_ca _ _ _ _ Hok)|unfold aligned; destruct Hm as [_ ->]; done|apply Hm|lia|lia|].
  apply runs_bind, (runs_lift _ (m1, se)); [exact E|]. cbv beta iota.
  apply runs_bind, (runs_update ep p3); [apply put_lookup|]. set (p4 := p_set_ca p3 se). rewrite put_put.
  destruct (at_pos _ _ _ _ _ Hm) as [Hpos Hab].
  apply (encrypt_space _ _ _ _ _ _ _ _ _ _ _ _ Hpos (so_nonce _ Hs)) in E as (k & Hp1 & Hk).
  pose proof Hp1 as (HA & _ & _ & HB). rewrite HA, HB.
  apply runs_bind, runs_assert; [apply Z.eqb_eq; rewrite Hab in Ha; destruct Hk; subst k; Z.to_euclidean_division_equations; lia|].
  destruct (pos_epush _ _ _ _ _ (Some (p_lladdr p)) (sa_addrLen (p_lladdr p)) Hp1) as (m2 & E3 & _); [lia|lia|lia|].
  apply runs_bind, (runs_lift _ m2); [exact E3|]. apply runs_bind, runs_emit, runs_ret, HQ.
  apply (ok_put None full_room (n - 1) ic ep p); [eapply ok_mono; [..|exact Hok]; lia|done..|].
  intros _. split; [split; [done|]; cbn; lia| |split; [exact Hll|]].
  - eapply idle_mono; [|exact Hpl2]. rewrite Hlen. lia.
  - destruct (ok_peers _ _ _ _ Hok ep p Hp ltac:(done)) as ([_ _ (_ & H & H')] & _). done.
Qed.

(** *** Packets from the wire *)

Lemma pass_runs m ep ic (Q : unit -> InterfaceController -> Prop) : Z.rem (msg_capacity m) 4 = 0 -> Q tt ic ->
  runs (lift (Assert_true (Z.rem (msg_capacity m) 4 =? 0));; emit (ICToSwitch ep m)) ic Q.
Proof. intros Hc HQ. apply runs_bind, runs_assert; [by apply Z.eqb_eq|]. by apply runs_emit. Qed.

Lemma received_runs room n ic ep p m (Q : unit -> InterfaceController -> Prop) : ok room n ic -> 0 < n ->
  ic_peers ic !! ep = Some p -> Z.rem (msg_capacity m) 4 = 0 ->
  (forall ic', ok room (n - 1) ic' -> Q tt ic') -> runs (receivedPostCryptoAuth env m ep) ic Q.
Proof.
  intros Hok Hn Hp Hcap HQ. unfold receivedPostCryptoAuth. apply runs_bind, (runs_update ep p); [done|].
  set (p1 := p_set_bytesIn p _). assert (ok room n (put_peer ic ep p1)) as Hok1 by (by apply (ok_tweak _ _ _ _ p)).
  assert (forall ic', ok room n ic' -> Q tt ic') as HQ' by (intros ic' H; apply HQ; eapply ok_mono; [..|exact H]; lia).
  destruct (ok_peers _ _ _ _ Hok1 ep p1 (put_lookup _ _ _) ltac:(done)) as (_ & _ & Hcon).
  apply runs_bind, (runs_peer ep p1); [apply put_lookup|]. cbv zeta. branch; [|branch].
  - apply runs_bind, (runs_update ep p1); [apply put_lookup|]. rewrite put_put. set (p2 := p_set_state p1 _).
    assert (ok room n (put_peer ic ep p2)) as Hok2 by (by apply (ok_tweak _ _ _ _ p)).
    apply runs_bind, (set_if_state_runs None room n _ ep); [done|exact Hcon|by right|]. intros core' _ Hok3.
    set (ic3 := ic_set_core (put_peer ic ep p2) core') in *. assert (ic_peers ic3 !! ep = Some p2) as Hp3 by exact (put_lookup ic ep p2).
    apply runs_bind, (runs_update ep p2); [done|]. cbv zeta. set (p4 := p_set_addr p2 _).
    assert (ok room n (put_peer ic3 ep p4)) as Hok4 by (by apply (ok_tweak _ _ _ _ p2)).
    branch; [|by apply pass_runs, HQ']. branch; [by apply runs_ret, HQ'|].
    apply runs_bind. branch.
    + apply (sendPing_runs None room n _ ep p4); [done|done|apply (ef_cookie Henv)|apply put_lookup|].
      intros ic5 q Hok5 _. by apply pass_runs, HQ.
    + by apply runs_ret, pass_runs, HQ'.
  - apply runs_bind, (runs_update ep p1); [apply put_lookup|]. rewrite put_put. set (p2 := p_set_state p1 _).
    assert (ok room n (put_peer ic ep p2)) as Hok2 by (by apply (ok_tweak _ _ _ _ p)).
    apply runs_bind, (set_if_state_runs None room n _ ep); [done|exact Hcon|by right|]. intros core' _ Hok3.
    by apply pass_runs, HQ'.
  - apply runs_bind, (runs_update ep p1); [apply put_lookup|]. rewrite put_put.
    apply pass_runs; [done|]. apply HQ'. by apply (ok_tweak _ _ _ _ p).
Qed.

(** *** New peers *)

Definition unlisted (ep : Z) (ic : InterfaceController) : Prop :=
  forall k x e, ic_icis ic !! k = Some x -> e ∈ map_entries (if_peerMap x) -> e_value e <> ep.

(** A peer which is being made: it has its struct and no place in the switch. *)
Record made (room n : Z) (ep : Z) (p : Peer) (ic : InterfaceController) : Prop := {
  md_ok : ok_but (Some ep) room n ic;
  md_live : ic_peers ic !! ep = Some p;
  md_free : conns (ic_switchCore ic) !! ep = None;
}.

Lemma made_put room n ep p q ic : made room n ep p ic -> same_place p q -> made room n ep q (put_peer ic ep q).
Proof. intros [H1 H2 H3] Hs. split; [by apply (ok_put _ _ _ _ _ p)|apply put_lookup|exact H3]. Qed.

Lemma made_update_runs room n ep p f ic (Q : unit -> InterfaceController -> Prop) : made room n ep p ic -> same_place p (f p) ->
  (made room n ep (f p) (put_peer ic ep (f p)) -> Q tt (put_peer ic ep (f p))) -> runs (update ep f) ic Q.
Proof. intros Hm Hs HQ. apply (runs_update ep p); [apply Hm|]. by apply HQ, (made_put _ _ _ p). Qed.

Lemma alloc_runs room n ic ici lladdr (Q : Z -> InterfaceController -> Prop) : ok room n ic ->
  (forall ic', made room n (ic_nextPeer ic) (Peer_zero ici lladdr) ic' -> unlisted (ic_nextPeer ic) ic' ->
     ic_icis ic' = ic_icis ic -> ic_ca ic' = ic_ca ic -> Q (ic_nextPeer ic) ic') ->
  runs (alloc_peer ici lladdr) ic Q.
Proof.
  intros [H1 H2 H3 H4 H5 H6 H7 H8] HQ. unfold alloc_peer, new_peer_name.
  apply runs_bind, runs_bind, runs_gets, runs_bind, runs_modify, runs_ret. apply runs_bind, runs_modify, runs_ret.
  assert (forall u r, ic_peers ic !! u = Some r -> ic_nextPeer ic <> u) as Hne by (intros u r Hr; apply H7 in Hr; lia).
  apply HQ; [|intros k x e Hx He Hv|done..].
  - split; [split|apply lookup_insert_eq|].
    + done.
    + done.
    + intros u i Hu. apply H3 in Hu. cbn. lia.
    + done.
    + done.
    + intros k x Hx e He. destruct (H6 k x Hx e He) as (r & Hr & E). exists r. split; [|done].
      cbn. by rewrite lookup_insert_ne by (by eapply Hne).
    + intros u r Hr. cbn in *. apply lookup_insert_Some in Hr as [[<- _]|[_ Hr]]; [lia|]. apply H7 in Hr. lia.
    + intros u r Hr Hex. cbn in Hr. apply lookup_insert_Some in Hr as [[<- _]|[_ Hr]]; [done|]. by apply (H8 u r).
    + destruct (conns (ic_switchCore ic) !! ic_nextPeer ic) as [i|] eqn:E; [|exact E]. apply H3 in E. lia.
  - destruct (H6 k x Hx e He) as (r & Hr & _). rewrite Hv in Hr. by apply Hne in Hr.
Qed.

(** A peer which is in no map goes without a trace. *)
Lemma ok_drop room n ep ic : ok_but (Some ep) room n ic -> unlisted ep ic -> ok room n (ic_set_peers ic (delete ep (ic_peers ic))).
Proof.
  intros [H1 H2 H3 H4 H5 H6 H7 H8] Hun. split; try done.
  - intros k x Hx e He. destruct (H6 k x Hx e He) as (r & Hr & E). exists r. split; [|done].
    cbn. rewrite lookup_delete_ne; [done|]. intros Heq. by apply (Hun k x e).
  - intros u r Hr. cbn in *. apply lookup_delete_Some in Hr as [_ Hr]. by apply (H7 u r).
  - intros u r Hr _. cbn in Hr. apply lookup_delete_Some in Hr as [Hne Hr]. apply (H8 u r Hr). congruence.
Qed.

(** The map of an interface with one more entry. *)
Lemma map_fine_put n map lladdr ep : map_fine n map -> 0 < n -> sockaddr_wf lladdr -> EndpointsBySockaddr_indexForKey lladdr map = -1 ->
  exists map' h e, EndpointsBySockaddr_put lladdr ep map = (map_count map, map') /\ map_fine (n - 1) map' /\
    map_entries map' = map_entries map ++ [e] /\ e_key e = lladdr /\ e_value e = ep /\ e_handle e = h /\
    hmap map' !! h = Some ep /\ forall h' u, hmap map !! h' = Some u -> hmap map' !! h' = Some u.
Proof.
  intros [Hk Hh Hnx Hc] Hn Hwf Hix.
  destruct (put_new map lladdr ep Hk Hh Hwf Hix) as (map' & E & Hk' & Hh' & Hent & Hnext); [lia..|].
  eexists map', _, _. split; [exact E|]. split.
  { split; [done|done|lia|]. unfold map_count in *. rewrite Hent, length_app. cbn [length]. lia. }
  split; [exact Hent|]. split_and!; try done.
  - eapply (hmap_entry map'); [done|]. rewrite Hent. apply elem_of_app. right. by apply list_elem_of_singleton.
  - intros h' u Hu. pose proof (indexForHandle_lookup map h' Hh) as Hi. rewrite Hu in Hi. destruct Hi as (i & e & He & <- & <- & _).
    apply hmap_entry; [done|]. rewrite Hent. apply elem_of_app. left. by eapply list_elem_of_lookup_2.
Qed.

Lemma register_ok room n ep p k x map' e ic : made room n ep p ic -> unlisted ep ic -> 0 <= k ->
  ic_icis ic !! Z.to_nat k = Some x -> p_ici p = k -> p_lladdr p = e_key e ->
  map_fine (n - 1) map' -> map_entries map' = map_entries (if_peerMap x) ++ [e] -> e_value e = ep ->
  hmap map' !! e_handle e = Some ep -> (forall h u, hmap (if_peerMap x) !! h = Some u -> hmap map' !! h = Some u) ->
  let ic' := put_peer (ic_set_icis ic (<[Z.to_nat k := if_set_map x map']> (ic_icis ic))) ep (p_set_handle p (e_handle e)) in
  made room (n - 1) ep (p_set_handle p (e_handle e)) ic' /\ listed ic' ep (p_set_handle p (e_handle e)).
Proof.
  intros [Hok Hp Hfree] Hun Hk Hx Hpk Hpl Hmf Hent Hev Hh Hhm ic'. set (q := p_set_handle p (e_handle e)) in *.
  pose proof (lookup_lt_Some _ _ _ Hx) as Hlt.
  assert (forall j y, <[Z.to_nat k := if_set_map x map']> (ic_icis ic) !! j = Some y ->
    (j = Z.to_nat k /\ y = if_set_map x map') \/ (j <> Z.to_nat k /\ ic_icis ic !! j = Some y)) as Hicis.
  { intros j y Hy. apply list_lookup_insert_Some in Hy as [(<- & <- & _)|[? ?]]; [by left|right; split; [congruence|done]]. }
  apply (ok_mono _ _ room n (n - 1)) in Hok as Hok1; [|lia..]. destruct Hok1 as [H1 H2 H3 H4 H5 H6 H7 H8].
  assert (forall j y e0, ic_icis ic !! j = Some y -> e0 ∈ map_entries (if_peerMap y) ->
    exists r, <[ep := q]> (ic_peers ic) !! e_value e0 = Some r /\ p_ici r = Z.of_nat j /\ p_handle r = e_handle e0 /\ p_lladdr r = e_key e0) as Hold.
  { intros j y e0 Hy He0. destruct (H6 j y Hy e0 He0) as (r & Hr & E). exists r. split; [|done].
    rewrite lookup_insert_ne; [done|]. intros Heq. by apply (Hun j y e0). }
  split; [split; [split|apply put_lookup|exact Hfree]|]; change (ic_icis ic') with (<[Z.to_nat k := if_set_map x map']> (ic_icis ic)).
  - done.
  - done.
  - done.
  - done.
  - intros j y Hy. destruct (Hicis j y Hy) as [[-> ->]|[_ Hy']]; [done|by apply (H5 j)].
  - intros j y Hy. destruct (Hicis j y Hy) as [[-> ->]|[_ Hy']]; intros e0 He0; change (ic_peers ic') with (<[ep := q]> (ic_peers ic)).
    + cbn [if_set_map if_peerMap] in He0. rewrite Hent in He0. apply elem_of_app in He0 as [He0|He0%list_elem_of_singleton]; [by apply (Hold _ x)|].
      subst e0. exists q. rewrite Hev, lookup_insert_eq. split; [done|]. cbn. split; [lia|done].
    + by apply (Hold _ y).
  - intros u r Hr. change (ic_peers ic') with (<[ep := q]> (ic_peers ic)) in Hr.
    apply lookup_insert_Some in Hr as [[<- _]|[_ Hr]]; [by apply (H7 _ p)|by apply (H7 u r)].
  - intros u r Hr Hne. change (ic_peers ic') with (<[ep := q]> (ic_peers ic)) in Hr.
    apply lookup_insert_Some in Hr as [[<- _]|[_ Hr]]; [done|]. destruct (H8 u r Hr Hne) as (Hf & (Hi & y & Hy & Hyh) & Hc).
    split; [done|]. split; [|done]. split; [done|]. change (ic_icis ic') with (<[Z.to_nat k := if_set_map x map']> (ic_icis ic)).
    destruct (decide (Z.to_nat k = Z.to_nat (p_ici r))) as [Heq|Hneq].
    + exists (if_set_map x map'). rewrite <- Heq in *. rewrite Hx in Hy. injection Hy as <-.
      split; [by apply list_lookup_insert_eq|]. by apply Hhm.
    + exists y. by rewrite list_lookup_insert_ne.
  - split; [cbn; lia|]. exists (if_set_map x map'). cbn [q p_set_handle p_ici p_handle]. rewrite Hpk. split; [by apply list_lookup_insert_eq|done].
Qed.

Lemma register_runs room n ep p k x lladdr ic (Q : Z -> InterfaceController -> Prop) : made room n ep p ic -> unlisted ep ic -> 0 < n ->
  0 <= k -> ic_icis ic !! Z.to_nat k = Some x -> p_ici p = k -> p_lladdr p = lladdr -> sockaddr_wf lladdr ->
  EndpointsBySockaddr_indexForKey lladdr (if_peerMap x) = -1 ->
  (forall ic' h, made room (n - 1) ep (p_set_handle p h) ic' -> listed ic' ep (p_set_handle p h) -> ic_ca ic' = ic_ca ic ->
    Q (map_count (if_peerMap x)) ic') -> runs (register_peer ep k lladdr) ic Q.
Proof.
  intros Hm Hun Hn Hk Hx Hpk Hpl Hwf Hix HQ. unfold register_peer. apply runs_bind, (runs_iface _ x); [done|].
  destruct (map_fine_put n (if_peerMap x) lladdr ep (ok_maps _ _ _ _ (md_ok _ _ _ _ _ Hm) _ _ Hx) Hn Hwf Hix)
    as (map' & h & e & -> & Hmf & Hent & Hek & Hev & <- & Hh & Hhm).
  apply runs_bind, (runs_update_iface _ x); [done|]. cbv zeta.
  assert (default 0 (e_handle <$> map_entries map' !! Z.to_nat (map_count (if_peerMap x))) = e_handle e) as ->.
  { rewrite Hent. unfold map_count. rewrite Nat2Z.id, lookup_app_r, Nat.sub_diag by lia. done. }
  destruct (register_ok room n ep p k x map' e ic) as [Hm' Hl]; try done; [congruence|].
  apply runs_bind, (runs_update ep p); [apply Hm|]. by eapply runs_ret, HQ.
Qed.

(** The switch has a place for the peer, or nothing has changed. *)
Lemma add_runs room n ep p ic (Q : bool -> InterfaceController -> Prop) : made room n ep p ic -> listed ic ep p -> peer_fine room n p ->
  Q false ic ->
  (forall ic' q, ok room n ic' -> ic_peers ic' !! ep = Some q -> p_caSession q = p_caSession p -> Q true ic') ->
  runs (add_to_switch ep) ic Q.
Proof.
  intros [Hok Hp Hfree] Hl Hf HF HT. unfold add_to_switch. apply runs_bind, runs_gets.
  destruct (add_connected _ ep (ok_core _ _ _ _ Hok) Hfree) as [(rc & Hrc & E)|(core' & lbl & i & E & Hok' & Hcs & Hcon & Hcons)].
  - apply runs_bind, (runs_lift _ (rc, ic_switchCore ic, None)); [exact E|]. cbv beta iota. apply runs_bind, runs_modify.
    replace (ic_set_core ic (ic_switchCore ic)) with ic by (by destruct ic).
    apply runs_bind, runs_ret, runs_ret. by rewrite (proj2 (Z.eqb_neq rc 0) Hrc).
  - apply runs_bind, (runs_lift _ (0, core', Some lbl)); [exact E|]. cbv beta iota. apply runs_bind, runs_modify.
    set (ic1 := ic_set_core ic core'). apply runs_bind, (runs_update ep p); [exact Hp|]. set (q := p_set_addr p _).
    apply runs_ret. apply (HT _ q); [|apply put_lookup|done].
    assert (ok_but (Some ep) room n ic1) as Hok1.
    { apply ok_set_core; [done|done| |auto]. intros u j. rewrite Hcs, lookup_insert_Some. intros [[<- _]|[_ Hu]].
      - by apply (ok_names _ _ _ _ Hok _ p).
      - by apply (ok_conns _ _ _ _ Hok u j). }
    apply (ok_tweak _ _ _ _ p); try done. by apply (ok_complete ep p).
Qed.

(** A peer which has its place in a map but none in the switch. *)
Definition placed (room n : Z) (ep : Z) (p : Peer) (ic : InterfaceController) : Prop := made room n ep p ic /\ listed ic ep p.

Lemma placed_update_runs room n ep p f ic (Q : unit -> InterfaceController -> Prop) : placed room n ep p ic -> same_place p (f p) ->
  (forall ic', placed room n ep (f p) ic' -> ic_ca ic' = ic_ca ic -> Q tt ic') -> runs (update ep f) ic Q.
Proof.
  intros [Hm Hl] Hs HQ. apply (made_update_runs room n ep p); [done..|]. intros Hm'. apply HQ; [|done]. split; [done|].
  destruct Hs as (E1 & E2 & _). unfold listed in *. by rewrite E1, E2.
Qed.

Lemma free_placed_runs room n ep p ic (Q : unit -> InterfaceController -> Prop) : placed room n ep p ic ->
  (forall ic', ok room n ic' -> Q tt ic') -> runs (free_peer malloc ep) ic Q.
Proof.
  intros [[Hok Hp _] Hl] HQ. apply (free_peer_runs (Some ep) room n ic ep p); [done|by right|done..|]. intros ic' Hok' _ _. by apply HQ.
Qed.

Lemma seem_lazy_runs room n ep p ic (Q : unit -> InterfaceController -> Prop) : ok room n ic -> ic_peers ic !! ep = Some p ->
  (forall ic' q, ok room n ic' -> ic_peers ic' !! ep = Some q -> Q tt ic') -> runs (seem_lazy env ep) ic Q.
Proof.
  intros Hok Hp HQ. unfold seem_lazy. apply (runs_update ep p); [done|]. eapply HQ; [|apply put_lookup]. by apply (ok_tweak _ _ _ _ p).
Qed.

Lemma log_runs room n ep p ic (Q : unit -> InterfaceController -> Prop) : ok room n ic -> ic_peers ic !! ep = Some p ->
  (forall ic' q, ok room n ic' -> ic_peers ic' !! ep = Some q -> Q tt ic') -> runs (log_address ep) ic Q.
Proof.
  intros Hok Hp HQ. apply (log_address_runs None room n ic ep p); [done..|]. intros q _ _ _ _ _ _ Hok'. eapply HQ; [done|apply put_lookup].
Qed.

(** A new session, also after its credentials are set. *)
Lemma new_session_fine n key auth : length key = 32%nat -> Bits_isZero key = false -> n <= 2 ^ 30 ->
  session_fine n (CryptoAuth_newSession key auth (ie_s env)) /\
  forall pass log, session_fine n (CryptoAuth_setAuth pass log (CryptoAuth_newSession key auth (ie_s env))).
Proof.
  intros Hl Hz Hn. pose proof (newSession_ok key auth (ie_s env) Hl Hz) as Hs.
  assert (nextNonce (CryptoAuth_newSession key auth (ie_s env)) = 0) as H0 by done. split; [split; [done|lia]|].
  intros pass log. destruct (setAuth_ok pass log _ Hs). split; [done|lia].
Qed.

Lemma valid_key_nonzero key : length key = 32%nat -> (AddressCalc_addressForPublicKey (zeros 32)).1 = false ->
  AddressCalc_validAddress (AddressCalc_addressForPublicKey key).2 = true -> Bits_isZero key = false.
Proof.
  intros Hl Hz Hv. destruct (Bits_isZero key) eqn:E; [|done]. apply Bits_isZero_true in E. rewrite Hl in E.
  change (Z.of_nat 32) with 32 in E. subst key. change ((AddressCalc_addressForPublicKey (zeros 32)).1 = true) in Hv. congruence.
Qed.

(** The beginning of a packet from the wire: the address of the sender. *)
Lemma wire_address m a pre la r post : msg_at m a pre (la ++ r) post -> sockaddr_wf la ->
  le_val (msg_read m 0 2) = len la /\ msg_read m 0 (len la) = la.
Proof.
  intros Hm (Hl & Hb & _). split.
  - destruct (list_split_at 2 la ltac:(lia)) as (l2 & lr & -> & H2). rewrite (at_read_of m _ _ _ _ [] l2 (lr ++ r) 0 2 Hm); [|by rewrite <- app_assoc|done|lia].
    rewrite Hl. unfold sa_addrLen. rewrite rd_prefix by lia. unfold rd. by rewrite drop_0, take_ge by lia.
  - by rewrite (at_read_of m _ _ _ _ [] la r 0 (len la) Hm).
Qed.

Lemma clear_flags la : sockaddr_wf la -> exists l2 f lr, la = l2 ++ [f] ++ lr /\ len l2 = 2 /\ sockaddr_wf (l2 ++ [0] ++ lr) /\ get la 2 = f.
Proof.
  intros (Hl & Hb & H4). destruct (list_split_at 2 la ltac:(lia)) as (l2 & lr & -> & H2). rewrite length_app in *.
  destruct lr as [|f lr]; [cbn in *; lia|]. exists l2, f, lr. split; [done|]. split; [lia|]. split.
  - unfold sockaddr_wf, sa_addrLen in *. rewrite rd_prefix in Hl by lia. rewrite rd_prefix by lia. rewrite !length_app in *. cbn [length] in *. done.
  - unfold get. rewrite app_nth2 by lia. by replace (Z.to_nat 2 - length l2)%nat with 0%nat by lia.
Qed.

(** *** Beacons *)

(** The zero key belongs to no address of the network. *)
Context (Hzero : (AddressCalc_addressForPublicKey (zeros 32)).1 = false).

Lemma prefix_of_key v k : (Address_getPrefix (mkAddress v 0 (zeros 16) k 0)).1 = mkAddress v 0 (AddressCalc_addressForPublicKey k).2 k 0.
Proof. reflexivity. Qed.

(** A peer which a beacon names gets its places. *)
Lemma join_runs room n k x la ic addr key pass (Q : unit -> InterfaceController -> Prop) : ok room n ic -> 0 < room -> 0 < n <= 2 ^ 30 ->
  0 <= k -> ic_icis ic !! Z.to_nat k = Some x -> sockaddr_wf la -> EndpointsBySockaddr_indexForKey la (if_peerMap x) = -1 ->
  length key = 32%nat -> Bits_isZero key = false -> (forall ic', ok room (n - 1) ic' -> Q tt ic') ->
  runs (ep ← alloc_peer k la;
        register_peer ep k la;;
        update ep (fun p => set_incoming_connection p addr (p_state p));;
        update ep (fun p => set_session p (CryptoAuth_newSession key false (ie_s env)));;
        update ep (fun p => p_set_ca p (CryptoAuth_setAuth pass None (p_caSession p)));;
        ok ← add_to_switch ep;
        if negb ok then free_peer malloc ep
        else seem_lazy env ep;; log_address ep;; sendPeer malloc 0xffffffff PFChan_Core_PEER ep 0xffff) ic Q.
Proof.
  intros Hok Hroom Hn Hk Hx Hwf Hix Hkl Hkz HQ. apply runs_bind, (alloc_runs room n); [done|]. intros ic1 Hm Hun Hi Hca.
  set (ep := ic_nextPeer ic) in *. rewrite <- Hi in Hx.
  apply runs_bind, (register_runs room n ep (Peer_zero k la) k x la ic1); [done|done|lia|done..|]. intros ic2 h Hm2 Hl2 _. pose proof (conj Hm2 Hl2 : placed _ _ _ _ _) as Hp2.
  apply runs_bind, (placed_update_runs room (n - 1) ep (p_set_handle (Peer_zero k la) h)); [done..|]. intros ic3 Hp3 _.
  apply runs_bind. eapply (placed_update_runs room (n - 1) ep); [exact Hp3|done|]. intros ic4 Hp4 _.
  apply runs_bind. eapply (placed_update_runs room (n - 1) ep); [exact Hp4|done|]. intros ic5 Hp5 _.
  apply runs_bind. eapply (add_runs room (n - 1) ep); [apply Hp5..| | |].
  - destruct (new_session_fine (n - 1) key false Hkl Hkz ltac:(lia)) as [_ Hs]. split; [apply Hs|by apply idle_new|done].
  - cbn [negb]. eapply free_placed_runs; [exact Hp5|done].
  - intros ic6 q Hok6 Hq _. cbn [negb]. apply runs_bind, (seem_lazy_runs room (n - 1) ep q); [done..|]. intros ic7 q7 Hok7 Hq7.
    apply runs_bind, (log_runs room (n - 1) ep q7); [done..|]. intros ic8 q8 Hok8 Hq8.
    apply (sendPeer_runs _ _ _ _ _ q8); [done|]. by apply HQ.
Qed.

Lemma handleBeacon_runs room n ic k x m a pre la r post (Q : unit -> InterfaceController -> Prop) : ok room n ic -> 0 < room ->
  0 < n <= 2 ^ 30 -> 0 <= k -> ic_icis ic !! Z.to_nat k = Some x -> msg_at m a pre (la ++ r) post -> sockaddr_wf la ->
  (forall ic', ok room (n - 1) ic' -> Q tt ic') -> runs (handleBeacon malloc env m k) ic Q.
Proof.
  intros Hok Hroom Hn Hk Hx Hm Hwf HQ. unfold handleBeacon. apply runs_bind, (runs_iface _ x); [done|].
  assert (Q tt ic) as Hsame by (apply HQ; eapply ok_mono; [..|exact Hok]; lia).
  branch; [by apply runs_ret|]. branch; [by apply runs_ret|]. destruct (wire_address m a pre la r post Hm Hwf) as [-> _]. cbv zeta.
  pose proof (at_content _ _ _ _ _ Hm) as [_ ->]. rewrite length_app. branch_on (Z.ltb_spec (Z.of_nat (length la + length r)) (len la + Headers_Beacon_SIZE)) Hlen;
    [by apply runs_ret|]. unfold Headers_Beacon_SIZE in Hlen. destruct (clear_flags la Hwf) as (l2 & f & lr & -> & Hl2 & Hwf' & _).
  assert (msg_at (msg_write m 2 [0]) a pre ((l2 ++ [0] ++ lr) ++ r) post) as Hm1.
  { rewrite <- !app_assoc. apply (at_write_of m a pre ((l2 ++ [f] ++ lr) ++ r) post l2 [f] (lr ++ r)); [exact Hm|by rewrite <- !app_assoc|done|lia]. }
  set (la' := l2 ++ [0] ++ lr) in *. assert (len (l2 ++ [f] ++ lr) = len la') as Hll by (unfold la'; rewrite !length_app; done). rewrite Hll in *.
  destruct (wire_address _ _ _ _ _ _ Hm1 Hwf') as [_ ->].
  destruct (at_shift_pop _ a pre la' r post (- len la') Hm1 eq_refl) as (m2 & E2 & Hm2). apply runs_bind, (runs_lift _ m2); [exact E2|].
  destruct (list_split_at 56 r ltac:(lia)) as (bs & r' & -> & Hbs).
  destruct (at_epop m2 _ _ bs r' post Headers_Beacon_SIZE Hm2 ltac:(done)) as (m3 & E3 & _). apply runs_bind, (runs_lift _ (m3, bs)); [exact E3|].
  cbv beta iota. set (beacon := Headers_Beacon_of bs). rewrite prefix_of_key. cbn [ip6 key protocolVersion]. apply runs_bind, runs_gets.
  destruct (AddressCalc_validAddress (AddressCalc_addressForPublicKey (b_publicKey beacon)).2) eqn:Hvalid; cbn [negb]; [|by apply runs_ret].
  branch; [by apply runs_ret|]. branch; [by apply runs_ret|].
  assert (length (b_publicKey beacon) = 32%nat) as Hkl.
  { pose proof (length_rd_in 24 32 bs ltac:(lia) ltac:(lia) ltac:(lia)) as H. cbn [beacon Headers_Beacon_of b_publicKey]. lia. }
  assert (Sockaddr_clone la' = la') as ->.
  { unfold Sockaddr_clone. destruct Hwf' as (<- & _). unfold rd. by rewrite drop_0, take_ge by lia. }
  pose proof (indexForKey_lookup (if_peerMap x) la' (mf_keys _ _ (ok_maps _ _ _ _ Hok _ _ Hx)) Hwf') as Hix.
  change (Map_indexForKey la' (if_peerMap x)) with (EndpointsBySockaddr_indexForKey la' (if_peerMap x)) in Hix.
  destruct (kmap (if_peerMap x) !! la').
  - destruct Hix as (i & e & He & _ & _ & ->). rewrite (proj2 (Z.gtb_lt _ _)) by lia.
    apply runs_bind, (runs_value_at _ x _ e); [done|by rewrite Nat2Z.id|].
    destruct (ok_lists _ _ _ _ Hok _ _ Hx e ltac:(by eapply list_elem_of_lookup_2)) as (p & Hp & _).
    apply (runs_update _ p); [done|]. apply HQ. apply (ok_mono _ _ room n (n - 1)) in Hok as Hok'; [|lia..].
    apply (ok_put None room (n - 1) ic _ p); [done..|]. intros Hne. destruct (ok_peers _ _ _ _ Hok' _ p Hp Hne) as ([[Hs Hsn] Hl Ha] & _).
    destruct (setAuth_ok (Some (b_password beacon)) None _ Hs) as [Hs' Hn']. split; [split; [exact Hs'|cbn [p_set_ca p_caSession]; lia]|done|done].
  - rewrite Hix. cbn [Z.gtb Z.compare]. apply join_runs with (room := room) (n := n) (x := x); try done.
    by apply valid_key_nonzero.
Qed.

(** *** Packets of peers *)

(** What is received can be decrypted, and what is left can be handed on. *)
Lemma decrypt_runs n s ca m a pre c post : session_fine n s -> agreed s -> 0 < n -> msg_at m a pre c post -> bytes c -> 12 <= len pre ->
  a mod 4 = 0 -> (len c + len post) mod 4 = 0 ->
  exists m' s' err, CryptoAuth_decrypt s ca m (ie_s env) = Ret (m', s', err) /\
    session_fine (n - 1) s' /\ (err = DecryptErr_NONE -> Z.rem (msg_capacity m') 4 = 0) /\ 0 <= msg_length m' <= len c.
Proof.
  intros [Hs Hsn] Hagr Hn Hm Hb Hpre Ha Hcap. pose proof Hm as [(y & z & _ & _ & _ & _ & Hc & _) Hadr].
  destruct (decrypt_ok s ca m pre c post (ie_s env)) as (m' & s' & err & E & Hs' & Hn'); try done; [|apply Hm|lia|].
  { split; [unfold aligned; by rewrite Hadr|]. rewrite Hc, Z.rem_mod_nonneg by lia. done. }
  exists m', s', err. split; [exact E|]. split; [split; [done|lia]|].
  destruct (at_pos _ _ _ _ _ Hm) as [Hp _]. pose proof E as E'.
  apply (decrypt_pos _ _ _ _ _ _ _ _ _ _ _ Hp) in E' as (b' & (_ & _ & Hl & Hb') & Hbb & Hnone); [|lia]. split; [|lia].
  intros Herr. specialize (Hnone Herr). apply decrypt_cap in E. unfold cap_end in E. apply Z.rem_divide; [lia|].
  apply Z.mod_divide in Hcap as [q Hq]; [|lia].
  exists (if Endian_bigEndianToHost32 (le_val (msg_read m 0 4)) <? 4 then q - 30 else q - 5). destruct (_ <? 4); lia.
Qed.

Lemma ok_stamp room n ic st : ok room n ic -> ok room n (ic_set_stamp ic st).
Proof. intros [H1 H2 H3 H4 H5 H6 H7 H8]. by split. Qed.

Lemma handleUnexpected_runs room n ic k x m a pre la r post (Q : unit -> InterfaceController -> Prop) : ok room n ic -> 0 < room ->
  3 < n <= 2 ^ 30 -> 0 <= k -> ic_icis ic !! Z.to_nat k = Some x -> msg_at m a pre (la ++ r) post -> sockaddr_wf la ->
  EndpointsBySockaddr_indexForKey la (if_peerMap x) = -1 -> bytes r -> 12 <= len pre -> a mod 4 = 0 ->
  (len la + len r + len post) mod 4 = 0 -> (120 <= len r -> Bits_isZero (rd 40 32 r) = false) ->
  (forall ic', ok room (n - 3) ic' -> Q tt ic') -> runs (handleUnexpectedIncoming malloc env m k) ic Q.
Proof.
  intros Hok Hroom Hn Hk Hx Hm Hwf Hix Hb Hpre Ha Hcap Hkey HQ. unfold handleUnexpectedIncoming.
  assert (forall ic' n', n - 3 <= n' -> ok room n' ic' -> Q tt ic') as HQ' by (intros ic' n' Hn' H; apply HQ; eapply ok_mono; [..|exact H]; lia).
  destruct (wire_address m a pre la r post Hm Hwf) as [-> ->]. pose proof Hwf as (Hal & Hl8 & H4).
  assert (Sockaddr_clone la = la) as -> by (unfold Sockaddr_clone; rewrite <- Hal; unfold rd; by rewrite drop_0, take_ge by lia).
  cbv zeta. rewrite <- Hal.
  destruct (at_shift_pop m a pre la r post (- len la) Hm eq_refl) as (m1 & E1 & Hm1). apply runs_bind, (runs_lift _ m1); [exact E1|].
  pose proof (at_content _ _ _ _ _ Hm1) as [_ ->]. branch_on (Z.ltb_spec (len r) CryptoHeader_SIZE) Hlen; [by apply runs_ret, (HQ' _ n); [lia|]|].
  change CryptoHeader_SIZE with 120 in Hlen. specialize (Hkey Hlen). pose proof Hm1 as [_ Hadr].
  assert ((a + len la) mod 4 = 0) as Ha1 by (Z.to_euclidean_division_equations; lia).
  apply runs_bind, runs_assert; [by rewrite Hadr; apply Z.eqb_eq|]. branch; [by apply runs_ret, (HQ' _ n); [lia|]|].
  apply runs_bind, (alloc_runs room n); [done|]. intros ic1 Hmk Hun Hi Hca. set (ep := ic_nextPeer ic) in *. rewrite <- Hi in Hx.
  assert (msg_read m1 40 32 = rd 40 32 r) as ->.
  { destruct (list_split_at 40 r ltac:(lia)) as (r1 & r2 & -> & Hr1). rewrite length_app in Hlen.
    destruct (list_split_at 32 r2 ltac:(lia)) as (r3 & r4 & -> & Hr3).
    rewrite (at_read_of m1 _ _ _ _ r1 r3 r4 40 32 Hm1) by (done || lia). unfold rd. by rewrite drop_app_length', take_app_length' by lia. }
  set (key := rd 40 32 r) in *. assert (length key = 32%nat) as Hkl by (unfold key; pose proof (length_rd_in 40 32 r ltac:(lia) ltac:(lia) ltac:(lia)); lia).
  destruct (new_session_fine (n - 1) key true Hkl Hkey ltac:(lia)) as [Hfine _]. apply runs_bind, runs_gets.
  destruct (decrypt_runs (n - 1) _ (ic_ca ic1) m1 _ _ r post Hfine ltac:(by apply agreed_idle) ltac:(lia) Hm1 Hb) as (m2 & s & err & Ed & Hs & Hcap2 & _);
    [rewrite length_app; lia|done|Z.to_euclidean_division_equations; lia|].
  apply runs_bind, (runs_lift _ (m2, s, err)); [exact Ed|]. cbv beta iota.
  apply runs_bind, (made_update_runs room n ep (Peer_zero k la)); [done..|]. intros Hm2. set (p2 := set_session (Peer_zero k la) s) in *.
  set (ic2 := put_peer ic1 ep p2) in *. assert (unlisted ep ic2) as Hun2 by exact Hun.
  destruct (bool_decide_reflect (err = DecryptErr_NONE)) as [Hnone|_]; cbn [negb].
  2: { apply runs_modify, (HQ' _ n); [lia|]. apply ok_drop; [apply Hm2|done]. }
  apply runs_bind, runs_assert; [destruct Hs as [[Hknow _ _ _ _ _ _ _ _] _]; exact Hknow|].
  apply runs_bind, (runs_iface _ x); [exact Hx|]. apply runs_bind, runs_assert; [by rewrite Hix|].
  apply runs_bind, (register_runs room n ep p2 k x la ic2); [done|done|lia|done..|]. intros ic3 h Hm3 Hl3 _.
  pose proof (conj Hm3 Hl3 : placed _ _ _ _ _) as Hp3.
  apply runs_bind, runs_assert; [apply Z.geb_le; unfold map_count; lia|].
  apply runs_bind. eapply (placed_update_runs room (n - 1) ep); [exact Hp3|done|]. intros ic4 Hp4 _.
  apply runs_bind. eapply (add_runs room (n - 2) ep).
  - destruct Hp4 as [[Hok4 ? ?] ?]. split; [apply (ok_mono _ room _ (n - 1)); [lia|lia|exact Hok4]|done..].
  - apply Hp4.
  - split; [replace (n - 2) with (n - 1 - 1) by lia; exact Hs|by apply idle_new|done].
  - cbn [negb]. eapply free_placed_runs; [exact Hp4|]. intros ic5 Hok5. apply (HQ' _ (n - 1)); [lia|done].
  - intros ic5 q Hok5 Hq _. cbn [negb]. apply runs_bind, (seem_lazy_runs room (n - 2) ep q); [done..|]. intros ic6 q6 Hok6 Hq6.
    apply runs_bind, (runs_update ep q6); [done|]. cbv zeta. set (q7 := p_set_addr q6 _).
    apply runs_bind, (log_runs room (n - 2) ep q7); [by apply (ok_tweak _ _ _ _ q6)|apply put_lookup|]. intros ic8 q8 Hok8 Hq8.
    apply (received_runs room (n - 2) _ _ q8); [done|lia|done|by apply Hcap2|]. intros ic9 Hok9. apply HQ. by replace (n - 3) with (n - 2 - 1) by lia.
Qed.

(** What a driver hands up on the interface [k]: bytes at an aligned address, with
    the address of the sender in front.  A stranger's hello shows a key. *)
Definition wired (ic : InterfaceController) (k : Z) (m : Message) : Prop :=
  exists a pre c post, msg_at m a pre c post /\ bytes c /\ 12 <= len pre /\ a mod 4 = 0 /\ (len c + len post) mod 4 = 0 /\
    len c < 2 ^ 16 /\ (8 <= len c -> exists n, le_val (rd 0 2 c) = n /\ 8 <= n <= 136 /\ n mod 4 = 0 /\
      forall x, ic_icis ic !! Z.to_nat k = Some x -> n + 120 <= len c -> Z.land (get c 2) Sockaddr_flags_BCAST = 0 ->
        EndpointsBySockaddr_indexForKey (rd 0 n c) (if_peerMap x) = -1 -> Bits_isZero (rd (n + 40) 32 c) = false).

Lemma known_runs n ic ep p m a pre r post nonce (Q : unit -> InterfaceController -> Prop) : ok calm_room n ic -> 3 < n ->
  ic_peers ic !! ep = Some p -> agreed (p_caSession p) -> msg_at m a pre r post -> bytes r -> 12 <= len pre -> a mod 4 = 0 -> (len r + len post) mod 4 = 0 ->
  len r < 2 ^ 16 -> (forall ic', ok full_room (n - 3) ic' -> Q tt ic') ->
  runs (session ← lift (CryptoAuth_resetIfTimeout (p_caSession p) (ie_s env));
        ca ← gets ic_ca;
        '(msg, session, err) ← lift (CryptoAuth_decrypt session ca m (ie_s env));
        update ep (fun p => p_set_ca p session);;
        if negb (bool_decide (err = DecryptErr_NONE)) then mret tt
        else
          stamp env ep nonce (msg_length msg);;
          link ← lift (PeerLink_recv msg (p_peerLink p) (ie_ms env));
          update ep (fun p => p_set_link p link);;
          (if (p_state p =? PeerState_ESTABLISHED) && negb (CryptoAuth_getState session =? CryptoAuth_State_ESTABLISHED)
           then sendPeer malloc 0xffffffff PFChan_Core_PEER_GONE ep 0xffff else mret tt);;
          receivedPostCryptoAuth env msg ep) ic Q.
Proof.
  intros Hok Hn Hp Hagr Hm Hb Hpre Ha Hcap Hlen HQ. destruct (ok_peers _ _ _ _ Hok ep p Hp ltac:(done)) as ([[Hs Hsn] Hlink Hla] & _).
  destruct (resetIfTimeout_ok (p_caSession p) (ie_s env) Hs) as (s1 & E1 & Hs1 & Hn1).
  apply runs_bind, (runs_lift _ s1); [exact E1|]. apply runs_bind, runs_gets.
  destruct (decrypt_runs n s1 (ic_ca ic) m a pre r post) as (m2 & s2 & err & E2 & Hs2 & Hcap2 & Hl2); try done; [split; [done|lia]|by eapply resetIfTimeout_agreed|lia|].
  apply runs_bind, (runs_lift _ (m2, s2, err)); [exact E2|]. cbv beta iota.
  apply runs_bind, (runs_update ep p); [done|]. set (p2 := p_set_ca p s2).
  apply (ok_mono _ _ calm_room n (n - 1)) in Hok as Hok1; [|lia..].
  assert (ok calm_room (n - 1) (put_peer ic ep p2)) as Hok2 by (apply (ok_put None calm_room (n - 1) ic ep p); [done..|]; intros _; by split).
  destruct (bool_decide_reflect (err = DecryptErr_NONE)) as [Hnone|_]; cbn [negb].
  2: { apply runs_ret, HQ. eapply ok_mono; [..|exact Hok2]; lia. }
  destruct (stamp_run env ep nonce (msg_length m2) (put_peer ic ep p2)) as (st & Est).
  apply runs_bind. exists tt, (ic_set_stamp (put_peer ic ep p2) st), []. split; [exact Est|]. rewrite put_stamp.
  destruct (recv_returns (p_peerLink p) calm_room m2 (ie_ms env) Hlink ltac:(lia) ltac:(lia)) as (link & El & Hidle).
  apply runs_bind, (runs_lift _ link); [exact El|]. apply runs_bind, (runs_update ep p2); [apply put_lookup|]. rewrite put_put.
  set (p3 := p_set_link p2 link). set (ic3 := put_peer (ic_set_stamp ic st) ep p3).
  assert (ok full_room (n - 1) ic3) as Hok3.
  { apply (ok_put None full_room (n - 1) (ic_set_stamp ic st) ep p); [|done..|].
    - apply ok_stamp. eapply ok_mono; [..|exact Hok1]; lia.
    - intros _. split; [done| |done]. eapply idle_mono; [|exact Hidle]. lia. }
  assert (runs (receivedPostCryptoAuth env m2 ep) ic3 Q) as Hrest.
  { apply (received_runs full_room (n - 1) ic3 ep p3); [done|lia|apply put_lookup|by apply Hcap2|].
    intros ic4 Hok4. apply HQ. eapply ok_mono; [..|exact Hok4]; lia. }
  apply runs_bind. branch; [|by apply runs_ret]. apply (sendPeer_runs _ _ _ _ _ p3); [apply put_lookup|done].
Qed.

(** No established session of a peer has an all-zero secret, which
    [CryptoAuth_decrypt] asserts. *)
Definition agreed_peers (ic : InterfaceController) : Prop :=
  forall ep p, ic_peers ic !! ep = Some p -> agreed (p_caSession p).

Lemma handleIncomingFromWire_runs n ic k m (Q : unit -> InterfaceController -> Prop) : ok calm_room n ic -> agreed_peers ic -> 3 < n <= 2 ^ 30 ->
  0 <= k < len (ic_icis ic) -> wired ic k m -> (forall ic', ok full_room (n - 3) ic' -> Q tt ic') ->
  runs (handleIncomingFromWire malloc env m k) ic Q.
Proof.
  intros Hok Hagr Hn Hk (a & pre & c & post & Hm & Hb & Hpre & Ha & Hcap & Hlen & Hc) HQ. unfold handleIncomingFromWire.
  assert (forall ic' n', n - 3 <= n' -> ok calm_room n' ic' -> Q tt ic') as HQ' by (intros ic' n' Hn' H; apply HQ; eapply ok_mono; [..|exact H]; lia).
  cbv zeta. pose proof (at_content _ _ _ _ _ Hm) as [_ ->]. unfold Sockaddr_OVERHEAD.
  destruct (Z.ltb_spec (len c) 8) as [|H8]; [by apply runs_ret, (HQ' _ n); [lia|]|]. cbn [orb]. destruct (Hc H8) as (nl & En & Hnl & H4 & Hkey). clear Hc.
  assert (le_val (msg_read m 0 2) = nl) as ->.
  { destruct (list_split_at 2 c ltac:(lia)) as (c2 & cr & -> & H2). rewrite (at_read_of m _ _ _ _ [] c2 cr 0 2 Hm) by (done || lia).
    rewrite rd_prefix in En by lia. rewrite <- En. unfold rd. by rewrite drop_0, take_ge by lia. }
  branch_on (Z.ltb_spec (len c) nl) Hlt; [by apply runs_ret, (HQ' _ n); [lia|]|].
  pose proof Hm as [_ Hadr]. apply runs_bind, runs_assert; [by rewrite Hadr; apply Z.eqb_eq|]. apply runs_bind, runs_assert; [by apply Z.eqb_eq|].
  destruct (list_split_at nl c ltac:(lia)) as (la & r & -> & Hla). rewrite length_app in *.
  assert (sockaddr_wf la) as Hwf.
  { split; [|split; [lia|by rewrite Hla]]. rewrite rd_prefix in En by lia. unfold sa_addrLen. lia. }
  destruct (wire_address m a pre la r post Hm Hwf) as [_ Hra]. rewrite <- Hla. rewrite Hra.
  pose proof Hb as [_ Hbr]%bytes_app. destruct (lookup_lt_is_Some_2 (ic_icis ic) (Z.to_nat k) ltac:(lia)) as [x Hx].
  assert (get (msg_read m 2 1) 0 = get la 2) as ->.
  { destruct (clear_flags la Hwf) as (l2 & f & lr & -> & Hl2 & _ & ->).
    rewrite (at_read_of m _ _ _ _ l2 [f] (lr ++ r) 2 1 Hm) by (done || lia || by rewrite <- !app_assoc). done. }
  destruct (Z.eqb_spec (Z.land (get la 2) Sockaddr_flags_BCAST) 0) as [Hfl|Hfl]; cbn [negb].
  2: { apply (handleBeacon_runs calm_room n ic k x m a pre la r post); [done|lia|lia|lia|done..|]. intros ic1 Hok1. by apply (HQ' _ (n - 1)); [lia|]. }
  apply runs_bind, (runs_iface _ x); [done|].
  pose proof (indexForKey_lookup (if_peerMap x) la (mf_keys _ _ (ok_maps _ _ _ _ Hok _ _ Hx)) Hwf) as Hix.
  change (Map_indexForKey la (if_peerMap x)) with (EndpointsBySockaddr_indexForKey la (if_peerMap x)) in Hix.
  destruct (kmap (if_peerMap x) !! la).
  - destruct Hix as (i & e & He & _ & _ & ->). rewrite (proj2 (Z.eqb_neq (Z.of_nat i) (-1))) by lia.
    apply runs_bind, (runs_value_at _ x _ e); [done|by rewrite Nat2Z.id|].
    destruct (ok_lists _ _ _ _ Hok _ _ Hx e ltac:(by eapply list_elem_of_lookup_2)) as (p & Hp & _).
    apply runs_bind, (runs_peer _ p); [done|].
    destruct (at_shift_pop m a pre la r post (- len la) Hm eq_refl) as (m1 & E1 & Hm1). apply runs_bind, (runs_lift _ m1); [exact E1|].
    branch; [apply (log_runs calm_room n _ p); [done..|]; intros ic1 q Hok1 _; by apply (HQ' _ n); [lia|]|].
    apply (known_runs n ic (e_value e) p m1 (a + len la) (pre ++ la) r post); try done; try lia; [by apply (Hagr (e_value e))|rewrite length_app; lia|Z.to_euclidean_division_equations; lia..].
  - rewrite Hix. change (-1 =? -1) with true. cbv iota.
    apply (handleUnexpected_runs calm_room n ic k x m a pre la r post); try done; try lia.
    2: { intros ic1 Hok1. by apply (HQ' _ (n - 3)); [lia|]. }
    intros H120. rewrite <- (Hkey x Hx); [|lia| |].
    + f_equal. unfold rd. rewrite drop_app_ge by lia. do 2 f_equal. lia.
    + unfold get in *. by rewrite app_nth1 by lia.
    + rewrite <- Hla, rd_prefix by lia. unfold rd. by rewrite drop_0, take_ge by lia.
Qed.

(** *** All the peers *)

(** What keeps the invariant and the interfaces. *)
Definition keeps (room n : Z) (ic ic' : InterfaceController) : Prop := ok room n ic' /\ ic_icis ic' = ic_icis ic.

Lemma keeps_trans room n a b c : keeps room n a b -> keeps room n b c -> keeps room n a c.
Proof. intros [_ H1] [H2 H3]. split; [done|congruence]. Qed.

Lemma for_peers_runs room n body ic (Q : unit -> InterfaceController -> Prop) : ok room n ic ->
  (forall ic1 ep p, ok room n ic1 -> ic_peers ic1 !! ep = Some p -> runs (body ep) ic1 (fun _ ic' => keeps room n ic1 ic')) ->
  (forall ic', ok room n ic' -> Q tt ic') -> runs (for_peers body) ic Q.
Proof.
  intros Hok Hb HQ. unfold for_peers. apply runs_bind, runs_gets.
  apply (for_loop_runs _ (fun _ ic' => keeps room n ic ic')); [|by split|intros ic' [H _]; by apply HQ].
  intros j ic1 Hj [Hok1 Hi1]. destruct (lookup_lt_is_Some_2 (ic_icis ic) j ltac:(lia)) as [x Hx].
  apply runs_bind, (runs_iface _ x); [by rewrite Nat2Z.id, Hi1|].
  apply (for_loop_runs _ (fun _ ic' => keeps room n ic ic')); [|by split|done].
  intros i ic2 Hi [Hok2 Hi2]. rewrite <- Hi2 in Hx.
  destruct (entry_live None room n ic2 j x (Z.of_nat i) Hok2 Hx) as (e & p & He & Hp); [unfold map_count; lia|].
  apply runs_bind, (runs_value_at _ x _ e); [by rewrite Nat2Z.id|done|].
  eapply runs_mono; [by apply (Hb ic2 (e_value e) p)|]. intros u ic3 H3. eapply keeps_trans; [|exact H3]. by split.
Qed.

Lemma resetPeering_runs room n key ic (Q : unit -> InterfaceController -> Prop) : ok room n ic ->
  (forall ic', ok room n ic' -> Q tt ic') -> runs (InterfaceController_resetPeering key) ic Q.
Proof.
  intros Hok HQ. apply (for_peers_runs room n); [done| |done]. intros ic1 ep p Hok1 Hp. apply runs_bind, (runs_peer _ p); [done|].
  branch; [|by apply runs_ret; split]. apply (runs_update _ p); [done|]. split; [|done].
  apply (ok_put None room n ic1 ep p); [done..|]. intros Hne. destruct (ok_peers _ _ _ _ Hok1 _ p Hp Hne) as ([[Hs Hsn] Hl Ha] & _).
  split; [split; [by apply reset_ok|]|done|done]. cbn. pose proof (so_nonce _ Hs) as [? _]. change CryptoAuth_State_INIT with 0. lia.
Qed.

(** A request of a pathfinder: PEERS and its number. *)
Definition peers_request (m : Message) : Prop :=
  exists a pre id post, msg_at m a pre (be_bytes 4 PFChan_Pathfinder_PEERS ++ id) post /\ length id = 4%nat /\ bytes id.

Lemma events_runs room n m ic (Q : unit -> InterfaceController -> Prop) : ok room n ic -> peers_request m ->
  (forall ic', ok room n ic' -> Q tt ic') -> runs (incomingFromEventEmitterIf malloc m) ic Q.
Proof.
  intros Hok (a & pre & id & post & Hm & Hid & Hidb) HQ. unfold incomingFromEventEmitterIf.
  destruct (at_epop32be m a pre _ id post Hm eq_refl (be_bytes_bytes _ _)) as (m1 & E1 & Hm1).
  apply runs_bind, (runs_lift _ _ _ _ E1). cbv beta iota. apply runs_bind, runs_assert; [reflexivity|].
  rewrite <- (app_nil_r id) in Hm1.
  destruct (at_epop32be m1 _ _ _ [] post Hm1 Hid Hidb) as (m2 & E2 & Hm2).
  apply runs_bind, (runs_lift _ _ _ _ E2). cbv beta iota.
  pose proof (at_content _ _ _ _ _ Hm2) as [_ ->]. apply runs_bind, runs_assert; [reflexivity|].
  apply (for_peers_runs room n); [done| |done]. intros ic1 ep p Hok1 Hp. apply runs_bind, (runs_peer _ p); [done|].
  branch; [by apply runs_ret; split|]. apply (sendPeer_runs _ _ _ _ _ p); [done|by split].
Qed.

Lemma collect_runs {A} (body : nat -> Ctl (list A)) (I : InterfaceController -> Prop) len : forall start ic (Q : list A -> InterfaceController -> Prop),
  (forall j ic, (start <= j < start + len)%nat -> I ic -> runs (body j) ic (fun _ ic' => I ic')) ->
  I ic -> (forall l ic', I ic' -> Q l ic') -> runs (collect len start body) ic Q.
Proof.
  induction len as [|len IH]; intros start ic Q Hb H0 HQ; cbn [collect]; [by apply runs_ret, HQ|].
  apply runs_bind. eapply runs_mono; [apply Hb; [lia|exact H0]|]. intros x ic1 H1. apply runs_bind, IH; [|done|].
  - intros j ic2 Hj. apply Hb. lia.
  - intros l ic2 H2. by apply runs_ret, HQ.
Qed.

Lemma getPeerStats_runs room n ic (Q : list PeerStats -> InterfaceController -> Prop) : ok room n ic -> room <= full_room ->
  (forall l ic', ok room n ic' -> Q l ic') -> runs (InterfaceController_getPeerStats env) ic Q.
Proof.
  intros Hok Hroom HQ. unfold InterfaceController_getPeerStats. apply runs_bind, runs_gets.
  apply (collect_runs _ (fun ic' => keeps room n ic ic')); [|by split|intros l ic' [H _]; by apply HQ].
  intros j ic1 Hj [Hok1 Hi1]. destruct (lookup_lt_is_Some_2 (ic_icis ic) j ltac:(lia)) as [x Hx].
  apply runs_bind, (runs_iface _ x); [by rewrite Nat2Z.id, Hi1|].
  apply (collect_runs _ (fun ic' => keeps room n ic ic')); [|by split|done].
  intros i ic2 Hi [Hok2 Hi2]. rewrite <- Hi2 in Hx.
  destruct (entry_live None room n ic2 j x (Z.of_nat i) Hok2 Hx) as (e & p & He & Hp); [unfold map_count; lia|].
  apply runs_bind, (runs_value_at _ x _ e); [by rewrite Nat2Z.id|done|]. apply runs_bind. unfold peer_stats.
  apply runs_bind, (runs_peer _ p); [done|]. destruct (ok_peers _ _ _ _ Hok2 _ p Hp ltac:(done)) as ([Hs Hl Ha] & _).
  destruct (kbps_returns (p_peerLink p) room (ie_ms env) Hl Hroom) as (r & sd & pl & E & Hpl).
  apply runs_bind, (runs_lift _ (r, sd, pl)); [exact E|]. cbv beta iota. apply runs_bind, (runs_update _ p); [done|].
  apply runs_ret, runs_ret. split; [|done]. apply (ok_put None room n ic2 _ p); [done..|]. intros _. by split.
Qed.

Lemma find_peer_runs key l : forall ic (Q : option Z -> InterfaceController -> Prop), (forall ep, ep ∈ l -> is_Some (ic_peers ic !! ep)) ->
  (forall ep, ep ∈ l -> Q (Some ep) ic) -> Q None ic -> runs (find_peer key l) ic Q.
Proof.
  induction l as [|ep l IH]; intros ic Q Hl HQ HN; cbn [find_peer]; [by apply runs_ret|].
  destruct (Hl ep ltac:(apply list_elem_of_here)) as [p Hp]. apply runs_bind, (runs_peer _ p); [done|].
  branch; [apply runs_ret, HQ, list_elem_of_here|]. apply IH; [|intros u Hu; apply HQ|done]; try (intros u Hu; apply Hl); by apply list_elem_of_further.
Qed.

Lemma free_runs room n ic ep (Q : unit -> InterfaceController -> Prop) : ok room n ic -> is_Some (ic_peers ic !! ep) ->
  (forall ic', ok room n ic' -> Q tt ic') -> runs (free_peer malloc ep) ic Q.
Proof.
  intros Hok [p Hp] HQ. destruct (ok_peers _ _ _ _ Hok ep p Hp ltac:(done)) as (_ & Hl & _).
  apply (free_peer_runs None room n ic ep p); [done|by left|done|done|]. intros ic' H _ _. by apply HQ.
Qed.

Lemma disconnectPeer_runs room n key ic (Q : Z -> InterfaceController -> Prop) : ok room n ic ->
  (forall r ic', ok room n ic' -> Q r ic') -> runs (InterfaceController_disconnectPeer malloc key) ic Q.
Proof.
  intros Hok HQ. unfold InterfaceController_disconnectPeer. apply runs_bind, runs_gets, runs_bind.
  assert (forall ep, ep ∈ concat ((fun ici => e_value <$> map_entries (if_peerMap ici)) <$> ic_icis ic) -> is_Some (ic_peers ic !! ep)) as Hlive.
  { intros ep (l & Hep & Hl)%list_elem_of_In%in_concat. apply list_elem_of_In, list_elem_of_fmap in Hep as Hx.
    destruct Hx as (x & -> & Hx). apply list_elem_of_In, list_elem_of_fmap in Hl as (e & -> & He).
    apply list_elem_of_lookup in Hx as [k Hk]. destruct (ok_lists _ _ _ _ Hok _ _ Hk e He) as (p & Hp & _). by exists p. }
  apply find_peer_runs; [exact Hlive| |by apply runs_ret, HQ].
  intros ep Hep. apply runs_bind, (free_runs room n); [done|by apply Hlive|]. intros ic1 Hok1. by apply runs_ret, HQ.
Qed.

(** *** Interfaces and beacons *)

Lemma newIface_runs room n name ic (Q : Z -> InterfaceController -> Prop) : ok room n ic -> n <= 2 ^ 30 ->
  (forall r ic', ok room n ic' -> Q r ic') -> runs (InterfaceController_newIface name) ic Q.
Proof.
  intros [H1 H2 H3 H4 H5 H6 H7 H8] Hn HQ. unfold InterfaceController_newIface. apply runs_bind, runs_gets, runs_bind, runs_modify, runs_ret, HQ.
  assert (forall k x, (ic_icis ic ++ [mkIface name 0 Map_new 0]) !! k = Some x -> ic_icis ic !! k = Some x \/ if_peerMap x = Map_new) as Hl.
  { intros k x [Hx|[_ Hx]]%lookup_app_Some; [by left|]. apply list_lookup_singleton_Some in Hx as [_ <-]. by right. }
  split; try done.
  - intros k x Hx. destruct (Hl k x Hx) as [Hx'| ->]; [by apply (H5 k)|]. split; [| |unfold Map_new; cbn [map_nextHandle]; lia|unfold map_count, Map_new; cbn [map_entries length]; lia].
    + split; [constructor|split; [constructor|done]].
    + split; [constructor|split; [constructor|split; [by split|done]]].
  - intros k x Hx e He. destruct (Hl k x Hx) as [Hx'|E]; [by apply (H6 k x)|]. rewrite E in He. by apply not_elem_of_nil in He.
  - intros u r Hr Hne. destruct (H8 u r Hr Hne) as (Hf & (Hk & x & Hx & Hh) & Hc). split; [done|]. split; [|done]. split; [done|].
    exists x. split; [by apply lookup_app_l_Some|done].
Qed.

Lemma sendBeacon_runs k ic (Q : unit -> InterfaceController -> Prop) : is_Some (ic_icis ic !! Z.to_nat k) -> Q tt ic ->
  runs (sendBeacon malloc k) ic Q.
Proof.
  intros [x Hx] HQ. unfold sendBeacon. apply runs_bind, (runs_iface _ x); [done|]. branch; [by apply runs_ret|].
  apply runs_bind, runs_gets. destruct (malloc 128) as [A mem]. assert (pos (Message_new 0 128 A mem) A 0 128 128) as Hm by done.
  destruct (pos_epush _ A 0 128 128 (Some (ic_beacon ic)) Headers_Beacon_SIZE Hm) as (m1 & E1 & Hm1); [by split|unfold Headers_Beacon_SIZE; lia|lia|].
  apply runs_bind, (runs_lift _ m1); [exact E1|]. change (128 - Headers_Beacon_SIZE) with 72 in Hm1.
  destruct (pos_epush m1 A 0 128 72 (Some broadcast_sockaddr) Sockaddr_OVERHEAD Hm1) as (m2 & E2 & _); [by split|unfold Sockaddr_OVERHEAD; lia|lia|].
  apply runs_bind, (runs_lift _ m2); [exact E2|]. by apply runs_emit.
Qed.

Lemma beaconInterval_runs ic (Q : unit -> InterfaceController -> Prop) : Q tt ic -> runs (beaconInterval malloc) ic Q.
Proof.
  intros HQ. unfold beaconInterval. apply runs_bind, runs_gets. apply (for_loop_runs _ (fun _ ic' => ic' = ic)); [|done|by intros ic' ->].
  intros j ic1 Hj ->. apply sendBeacon_runs; [|done]. rewrite Nat2Z.id. apply lookup_lt_is_Some_2. lia.
Qed.

Lemma getIface_runs k ic (Q : option Z -> InterfaceController -> Prop) : (0 <= k < len (ic_icis ic) -> Q (Some k) ic) -> Q None ic ->
  runs (InterfaceController_getIface k) ic Q.
Proof.
  intros HQ HN. unfold InterfaceController_getIface. apply runs_bind, runs_gets, runs_ret.
  destruct (Z.leb_spec 0 k); [|done]. destruct (Z.ltb_spec k (len (ic_icis ic))); [|done]. by apply HQ.
Qed.

Lemma beaconState_runs room n k st ic (Q : Z -> InterfaceController -> Prop) : ok room n ic ->
  (forall r ic', ok room n ic' -> Q r ic') -> runs (InterfaceController_beaconState malloc k st) ic Q.
Proof.
  intros Hok HQ. unfold InterfaceController_beaconState. apply runs_bind, getIface_runs; [|by apply runs_ret, HQ].
  intros Hk. branch; [by apply runs_ret, HQ|]. destruct (lookup_lt_is_Some_2 (ic_icis ic) (Z.to_nat k) ltac:(lia)) as [x Hx].
  apply runs_bind, (runs_update_iface _ x); [done|]. destruct (ok_set_icis room n ic _ x (if_set_beacon x st) Hok Hx eq_refl) as [Hok1 _].
  set (ic1 := ic_set_icis ic _) in *. apply runs_bind. branch; [|by apply runs_ret, runs_ret, HQ].
  apply sendBeacon_runs; [|by apply runs_ret, HQ]. exists (if_set_beacon x st). apply list_lookup_insert_eq. lia.
Qed.

(** *** Peers by configuration *)

Lemma bootstrapPeer_runs room n k key lladdr pass log user ic (Q : Z * option Z -> InterfaceController -> Prop) : ok room n ic -> 0 < room ->
  2 < n <= 2 ^ 30 -> length key = 32%nat -> sockaddr_wf (Sockaddr_clone lladdr) ->
  (forall x, ic_icis ic !! Z.to_nat k = Some x -> EndpointsBySockaddr_indexForKey (Sockaddr_clone lladdr) (if_peerMap x) = -1) ->
  (forall r ic', ok room (n - 2) ic' -> Q r ic') -> runs (InterfaceController_bootstrapPeer malloc env k key lladdr pass log user) ic Q.
Proof.
  intros Hok Hroom Hn Hkl Hwf Hix HQ. unfold InterfaceController_bootstrapPeer.
  assert (forall r ic' n', n - 2 <= n' -> ok room n' ic' -> Q r ic') as HQ' by (intros r ic' n' Hn' H; apply HQ; eapply ok_mono; [..|exact H]; lia).
  apply runs_bind, getIface_runs; [|by apply runs_ret, (HQ' _ _ n); [lia|]]. intros Hk.
  destruct (lookup_lt_is_Some_2 (ic_icis ic) (Z.to_nat k) ltac:(lia)) as [x Hx]. specialize (Hix x Hx).
  apply runs_bind, runs_gets. destruct (AddressCalc_addressForPublicKey key) as [v ip] eqn:Ek.
  destruct (AddressCalc_validAddress ip) eqn:Hvalid; cbn [negb orb]; [|by apply runs_ret, (HQ' _ _ n); [lia|]].
  branch; [by apply runs_ret, (HQ' _ _ n); [lia|]|]. cbv zeta. set (la := Sockaddr_clone lladdr) in *.
  assert (Bits_isZero key = false) as Hkz by (apply valid_key_nonzero; [done|done|by rewrite Ek]).
  apply runs_bind, (alloc_runs room n); [done|]. intros ic1 Hm Hun Hi Hca. set (ep := ic_nextPeer ic) in *. rewrite <- Hi in Hx.
  apply runs_bind, (register_runs room n ep (Peer_zero k la) k x la ic1); [done|done|lia|lia|done..|]. intros ic2 h Hm2 Hl2 _.
  pose proof (conj Hm2 Hl2 : placed _ _ _ _ _) as Hp2. apply runs_bind, runs_assert; [apply Z.geb_le; unfold map_count; lia|].
  apply runs_bind. eapply (placed_update_runs room (n - 1) ep); [exact Hp2|done|]. intros ic3 Hp3 _.
  apply runs_bind. eapply (placed_update_runs room (n - 1) ep); [exact Hp3|done|]. intros ic4 Hp4 _.
  apply runs_bind. eapply (placed_update_runs room (n - 1) ep); [exact Hp4|done|]. intros ic5 Hp5 _.
  destruct (new_session_fine (n - 1) key false Hkl Hkz ltac:(lia)) as [_ Hs].
  assert (forall ic6 p6, placed room (n - 1) ep p6 ic6 -> peer_fine room (n - 1) p6 ->
    runs (ok ← add_to_switch ep;
          if negb ok then free_peer malloc ep;; mret (bootstrapPeer_OUT_OF_SPACE, None)
          else seem_lazy env ep;; log_address ep;; sendPing env ep;; mret (0, Some ep)) ic6 Q) as Hend.
  { intros ic6 p6 Hp6 Hf. apply runs_bind, (add_runs room (n - 1) ep p6); [apply Hp6|apply Hp6|done| |].
    - cbn [negb]. apply runs_bind. eapply free_placed_runs; [exact Hp6|]. intros ic7 Hok7. by apply runs_ret, (HQ' _ _ (n - 1)); [lia|].
    - intros ic7 q Hok7 Hq _. cbn [negb]. apply runs_bind, (seem_lazy_runs room (n - 1) ep q); [done..|]. intros ic8 q8 Hok8 Hq8.
      apply runs_bind, (log_runs room (n - 1) ep q8); [done..|]. intros ic9 q9 Hok9 Hq9.
      apply runs_bind, (sendPing_runs None room (n - 1) _ ep q9); [done|lia|apply (ef_cookie Henv)|done|]. intros ic10 q10 Hok10 _.
      apply runs_ret, HQ. by replace (n - 2) with (n - 1 - 1) by lia. }
  apply runs_bind. destruct user as [u|].
  - eapply (placed_update_runs room (n - 1) ep); [exact Hp5|done|]. intros ic6 Hp6 _. eapply Hend; [exact Hp6|].
    split; [apply Hs|by apply idle_new|done].
  - apply runs_ret. eapply Hend; [exact Hp5|]. split; [apply Hs|by apply idle_new|done].
Qed.

(** *** The link state *)

Definition peers_of (icis : list Iface_pvt) : list Z := concat ((fun ici => e_value <$> map_entries (if_peerMap ici)) <$> icis).

Lemma peers_distinct peers icis : forall start,
  (forall k x, icis !! k = Some x -> lists peers (start + k) x /\ handles_ok (if_peerMap x)) ->
  NoDup (peers_of icis) /\ forall ep, ep ∈ peers_of icis -> exists p, peers !! ep = Some p /\ Z.of_nat start <= p_ici p.
Proof using Type.
  induction icis as [|x icis IH]; intros start Hl; [split; [constructor|by intros ep ?%not_elem_of_nil]|].
  destruct (Hl 0%nat x eq_refl) as [Hx (Hs & _)]. rewrite Nat.add_0_r in Hx.
  destruct (IH (S start)) as [Hnd Hin]. { intros k y Hy. destruct (Hl (S k) y Hy). by rewrite Nat.add_succ_comm. }
  assert (forall ep, ep ∈ e_value <$> map_entries (if_peerMap x) -> exists p, peers !! ep = Some p /\ p_ici p = Z.of_nat start) as Hhere.
  { intros ep (e & -> & He)%list_elem_of_fmap. destruct (Hx e He) as (p & Hp & Hi & _). by exists p. }
  change (peers_of (x :: icis)) with ((e_value <$> map_entries (if_peerMap x)) ++ peers_of icis). split.
  - apply NoDup_app. split; [|split; [|exact Hnd]].
    + apply (NoDup_fmap_1 (fun ep => default 0 (p_handle <$> peers !! ep))).
      assert ((fun ep => default 0 (p_handle <$> peers !! ep)) <$> (e_value <$> map_entries (if_peerMap x)) = e_handle <$> map_entries (if_peerMap x)) as ->.
      { rewrite <- list_fmap_compose. apply list_fmap_ext. intros k e He. destruct (Hx e ltac:(by eapply list_elem_of_lookup_2)) as (p & Hp & _ & Hh & _).
        cbn. by rewrite Hp. }
      by apply sorted_nodup.
    + intros ep Hep Hep'. destruct (Hhere ep Hep) as (p & Hp & Hi). destruct (Hin ep Hep') as (q & Hq & Hi'). rewrite Hp in Hq.
      injection Hq as <-. lia.
  - intros ep [Hep|Hep]%elem_of_app.
    + destruct (Hhere ep Hep) as (p & Hp & Hi). exists p. split; [done|lia].
    + destruct (Hin ep Hep) as (p & Hp & Hi). exists p. split; [done|lia].
Qed.

(** There are at most as many peers as the switch has slots. *)
Lemma peers_bounded room n ic : ok room n ic -> len (peers_of (ic_icis ic)) <= NumberCompress_INTERFACES.
Proof using Type.
  intros Hok. destruct (peers_distinct (ic_peers ic) (ic_icis ic) 0) as [Hnd Hin].
  { intros k x Hx. split; [by apply (ok_lists _ _ _ _ Hok)|by apply (ok_maps _ _ _ _ Hok k x)]. }
  set (f := fun ep => default 0 (conns (ic_switchCore ic) !! ep)).
  assert (forall ep, ep ∈ peers_of (ic_icis ic) -> 0 <= f ep < NumberCompress_INTERFACES /\ si_alloc (slot (ic_switchCore ic) (f ep)) = Some ep) as Hf.
  { intros ep Hep. destruct (Hin ep Hep) as (p & Hp & _). destruct (ok_peers _ _ _ _ Hok ep p Hp ltac:(done)) as (_ & _ & i & Hc & Hi & _ & Ha).
    unfold f. by rewrite Hc. }
  assert (NoDup (f <$> peers_of (ic_icis ic))) as Hnd'.
  { apply NoDup_fmap_2_strong; [|done]. intros u v Hu Hv E. destruct (Hf u Hu) as [_ Hu']. destruct (Hf v Hv) as [_ Hv']. congruence. }
  assert (f <$> peers_of (ic_icis ic) ⊆+ seqZ 0 NumberCompress_INTERFACES) as Hsub.
  { apply NoDup_submseteq; [done|]. intros i (ep & -> & Hep)%list_elem_of_fmap. apply elem_of_seqZ. destruct (Hf ep Hep). lia. }
  apply submseteq_length in Hsub. rewrite length_fmap, length_seqZ in Hsub.
  unfold NumberCompress_INTERFACES, NumberCompress_v3x5x8_INTERFACES in *. lia.
Qed.

Lemma link_entry_runs room n ic ep p (Q : list Z -> InterfaceController -> Prop) : ok room n ic -> ic_peers ic !! ep = Some p ->
  (forall e ic', keeps room n ic ic' -> Q e ic') -> runs (link_entry ep) ic Q.
Proof using Type.
  intros Hok Hp HQ. unfold link_entry. apply runs_bind, (runs_peer _ p); [done|]. cbv zeta. apply runs_bind, (runs_update _ p); [done|].
  set (q := p_set_counters p _ _ _ _). apply runs_bind, (runs_peer _ q); [apply put_lookup|]. apply runs_ret, HQ. split; [|done].
  by apply (ok_tweak _ _ _ _ p).
Qed.

Lemma linkState_peers_runs room n j x A e cnt : forall i ic m b (Q : Message -> InterfaceController -> Prop), ok room n ic ->
  ic_icis ic !! j = Some x -> (i + cnt <= length (map_entries (if_peerMap x)))%nat -> pos m A 0 e b -> 32 * Z.of_nat cnt <= b <= e ->
  (forall m' ic', keeps room n ic ic' -> pos m' A 0 e (b - 32 * Z.of_nat cnt) -> Q m' ic') ->
  runs (linkState_peers cnt i (Z.of_nat j) m) ic Q.
Proof.
  induction cnt as [|cnt IH]; intros i ic m b Q Hok Hx Hi Hm Hb HQ; cbn [linkState_peers].
  { apply runs_ret, HQ; [by split|]. by rewrite Z.mul_0_r, Z.sub_0_r. }
  destruct (entry_live None room n ic j x (Z.of_nat i) Hok Hx) as (en & p & He & Hp); [unfold map_count; lia|].
  apply runs_bind, (runs_value_at _ x _ en); [by rewrite Nat2Z.id|done|]. apply runs_bind, (link_entry_runs room n _ _ p); [done..|].
  intros bs ic1 [Hok1 Hi1]. destruct (pos_epush m A 0 e b (Some bs) PFChan_LinkState_Entry_SIZE Hm) as (m1 & E & Hm1);
    [by split|unfold PFChan_LinkState_Entry_SIZE; lia|lia|]. apply runs_bind, (runs_lift _ m1); [exact E|].
  change PFChan_LinkState_Entry_SIZE with 32 in Hm1.
  apply (IH (S i) ic1 m1 (b - 32)); [done|by rewrite Hi1|lia|done|lia|]. intros m2 ic2 H2 Hm2. apply HQ.
  - eapply keeps_trans; [|exact H2]. by split.
  - by replace (b - 32 * Z.of_nat (S cnt)) with (b - 32 - 32 * Z.of_nat cnt) by lia.
Qed.

Lemma linkState_loop_runs room n A e cnt : forall i ic m b (Q : Message -> InterfaceController -> Prop), ok room n ic ->
  (i + cnt = length (ic_icis ic))%nat -> pos m A 0 e b -> 32 * len (peers_of (drop i (ic_icis ic))) <= b <= e ->
  (forall m' ic', keeps room n ic ic' -> pos m' A 0 e (b - 32 * len (peers_of (drop i (ic_icis ic)))) -> Q m' ic') ->
  runs (linkState_loop cnt i m) ic Q.
Proof.
  induction cnt as [|cnt IH]; intros i ic m b Q Hok Hi Hm Hb HQ; cbn [linkState_loop].
  { apply runs_ret, HQ; [by split|]. rewrite drop_ge by lia. cbn. by rewrite Z.sub_0_r. }
  destruct (lookup_lt_is_Some_2 (ic_icis ic) i ltac:(lia)) as [x Hx]. rewrite (drop_S _ _ _ Hx) in *.
  change (peers_of (x :: drop (S i) (ic_icis ic))) with ((e_value <$> map_entries (if_peerMap x)) ++ peers_of (drop (S i) (ic_icis ic))) in *.
  rewrite length_app, length_fmap in *. set (c := length (map_entries (if_peerMap x))) in *.
  apply runs_bind, (runs_iface _ x); [by rewrite Nat2Z.id|]. apply runs_bind, (linkState_peers_runs room n i x A e c 0 ic m b); [done|done|lia|done|lia|].
  intros m1 ic1 [Hok1 Hi1] Hm1. apply (IH (S i) ic1 m1 (b - 32 * Z.of_nat c)); [done|rewrite Hi1; lia|done|rewrite Hi1; lia|].
  rewrite Hi1. intros m2 ic2 [Hok2 Hi2] Hm2. apply HQ; [split; [done|congruence]|].
  by replace (b - 32 * Z.of_nat (c + length (peers_of (drop (S i) (ic_icis ic))))) with (b - 32 * Z.of_nat c - 32 * len (peers_of (drop (S i) (ic_icis ic)))) by lia.
Qed.

Lemma linkState_length l : forall n, 0 <= n -> n + 32 * len (peers_of l) < 2 ^ 32 ->
  foldl (fun n ici => u32 (n + PFChan_LinkState_Entry_SIZE * map_count (if_peerMap ici))) n l = n + 32 * len (peers_of l).
Proof using Type.
  induction l as [|x l IH]; intros n Hn Hb; [cbn; lia|]. cbn [foldl].
  change (peers_of (x :: l)) with ((e_value <$> map_entries (if_peerMap x)) ++ peers_of l) in *. rewrite length_app, length_fmap in *.
  change PFChan_LinkState_Entry_SIZE with 32 in *. unfold map_count. unfold u32 at 2. rewrite Z.mod_small by lia. rewrite IH by lia. lia.
Qed.

Lemma linkState_runs room n ic (Q : unit -> InterfaceController -> Prop) : ok room n ic -> (forall ic', ok room n ic' -> Q tt ic') ->
  runs (linkState malloc) ic Q.
Proof.
  intros Hok HQ. unfold linkState. apply runs_bind, runs_gets. pose proof (peers_bounded room n ic Hok) as Hpb. unfold NumberCompress_INTERFACES, NumberCompress_v3x5x8_INTERFACES in Hpb.
  rewrite linkState_length by lia. set (l := 64 + 32 * len (peers_of (ic_icis ic))). cbv zeta. destruct (malloc l) as [A mem].
  assert (pos (Message_new 0 l A mem) A 0 l l) as Hm by (unfold pos, Message_new; cbn [msg_addr msg_padding msg_length msg_bytes]; rewrite !i32_small by (unfold l; lia); split_and!; lia || done).
  apply runs_bind, (linkState_loop_runs room n A l _ 0 ic _ l); [done|done|exact Hm|rewrite drop_0; unfold l; lia|]. rewrite drop_0.
  intros m1 ic1 [Hok1 _] Hm1. replace (l - 32 * len (peers_of (ic_icis ic))) with 64 in Hm1 by (unfold l; lia).
  assert (64 <= l) as Hl by (unfold l; lia). clearbody l. branch; [|by apply runs_ret, HQ].
  destruct (pos_epush32be _ _ _ _ _ 0xffffffff Hm1) as (m2 & E2 & Hm2); [lia|lia|]. apply runs_bind, (runs_lift _ m2); [exact E2|].
  destruct (pos_epush32be _ _ _ _ _ PFChan_Core_LINK_STATE Hm2) as (m3 & E3 & _); [lia|lia|]. apply runs_bind, (runs_lift _ m3); [exact E3|].
  by apply runs_emit, HQ.
Qed.

(** *** The switch pinger *)

Lemma pinger_outs_runs room n outs : forall ic (Q : unit -> InterfaceController -> Prop), ok room n ic ->
  (forall ic', ok room n ic' -> Q tt ic') -> runs (pinger_outs malloc env outs) ic Q.
Proof.
  induction outs as [|[user resp|m] outs IH]; intros ic Q Hok HQ; cbn [pinger_outs]; [by apply runs_ret, HQ|..].
  - apply runs_bind, runs_gets, runs_bind. case_bool_decide as Hp; [|apply runs_emit; by apply IH]. destruct Hp as [p Hp].
    apply (onPingResponse_runs room n _ _ p); [done..|]. intros ic1 Hok1 _. by apply IH.
  - apply runs_bind, runs_emit. by apply IH.
Qed.

Lemma pinger_step_runs room n f ctx' outs ic (Q : unit -> InterfaceController -> Prop) : ok room n ic ->
  f (ic_switchPinger ic) = Ret (ctx', outs) -> sw_ok ctx' -> shrinks (s_pinger (ic_switchPinger ic)) (s_pinger ctx') ->
  (forall ic', ok room n ic' -> Q tt ic') -> runs (pinger_step malloc env f) ic Q.
Proof.
  intros Hok E Hsw [Hn Hc Hp] HQ. unfold pinger_step. apply runs_bind, runs_gets, runs_bind, (runs_lift _ (ctx', outs)); [exact E|].
  cbv beta iota. apply runs_bind, runs_modify. apply (pinger_outs_runs room n); [|done].
  change (ic_set_pinger ic ctx') with (ic_set_next (ic_set_pinger ic ctx') (ic_nextPeer ic) (ic_nextPing ic)).
  apply ok_set_pinger; [done|lia|]. destruct (ok_pinger _ _ _ _ Hok) as [_ Hpn Hpc Hpm]. split; [done|lia|lia|].
  intros ptr p Hptr. apply Hp in Hptr as [q Hq]. by apply (Hpm ptr q).
Qed.

(** ** Any call of the controller *)

Inductive ICIn :=
| InWire (ici : Z) (msg : Message)
| InSwitch (ep : Z) (msg : Message)
| InEvent (msg : Message)
| InPong (msg : Message)
| InPingTimer | InLinkTimer | InBeaconTimer
| InPingSend (ptr : nat) | InPingTimeout (ptr : nat)
| InNewIface (name : list Z)
| InBeaconState (ici state : Z)
| InBootstrap (ici : Z) (key : list Z) (lladdr : Sockaddr) (password : list Z) (login user : option (list Z))
| InFree (ep : Z)
| InStats | InReset (key : option (list Z)) | InDisconnect (key : list Z).

Definition ic_step (i : ICIn) : Ctl unit :=
  match i with
  | InWire ici msg => handleIncomingFromWire malloc env msg ici
  | InSwitch ep msg => sendFromSwitch env msg ep
  | InEvent msg => incomingFromEventEmitterIf malloc msg
  | InPong msg => pinger_receive malloc env msg
  | InPingTimer => pingCallback malloc env
  | InLinkTimer => linkState malloc
  | InBeaconTimer => beaconInterval malloc
  | InPingSend ptr => pinger_send malloc env ptr
  | InPingTimeout ptr => pinger_timeout malloc env ptr
  | InNewIface name => InterfaceController_newIface name;; mret tt
  | InBeaconState ici state => InterfaceController_beaconState malloc ici state;; mret tt
  | InBootstrap ici key lladdr pass log user =>
      InterfaceController_bootstrapPeer malloc env ici key lladdr pass log user;; mret tt
  | InFree ep => free_peer malloc ep
  | InStats => InterfaceController_getPeerStats env;; mret tt
  | InReset key => InterfaceController_resetPeering key
  | InDisconnect key => InterfaceController_disconnectPeer malloc key;; mret tt
  end.

(** A pong as the control handler passes it on. *)
Definition pong (m : Message) : Prop :=
  exists a pre rh c post, msg_at m a pre (rh ++ c) post /\ len rh = RouteHeader_SIZE /\ 8 <= len c /\
    (le_val (rd 2 2 c) = Control_PONG_be \/ le_val (rd 2 2 c) = Control_KEYPONG_be).

(** The contract of each caller.  Configuration adds no peer at the address of
    another one on the same interface and frees no peer twice; the timers run for
    pings which are there, a ping is given up before eleven days. *)
Definition in_contract (ic : InterfaceController) (i : ICIn) : Prop :=
  let ps := pings (s_pinger (ic_switchPinger ic)) in
  match i with
  | InWire ici msg => 0 <= ici < len (ic_icis ic) /\ wired ic ici msg
  | InSwitch ep msg => is_Some (ic_peers ic !! ep) /\ switched msg
  | InEvent msg => peers_request msg
  | InPong msg => pong msg
  | InPingSend ptr => is_Some (ps !! ptr)
  | InPingTimeout ptr => exists p, ps !! ptr = Some p /\ i64 (i64 (ie_ms env) - pg_timeSent p) < 1000000000
  | InBootstrap ici key lladdr _ _ _ => length key = 32%nat /\ sockaddr_wf (Sockaddr_clone lladdr) /\
      forall x, ic_icis ic !! Z.to_nat ici = Some x -> EndpointsBySockaddr_indexForKey (Sockaddr_clone lladdr) (if_peerMap x) = -1
  | InFree ep => is_Some (ic_peers ic !! ep)
  | InPingTimer | InLinkTimer | InBeaconTimer | InNewIface _ | InBeaconState _ _ | InStats | InReset _ | InDisconnect _ => True
  end.

(** No link carried two gigabytes within the last second. *)
Definition calm (ic : InterfaceController) : Prop :=
  forall ep p, ic_peers ic !! ep = Some p ->
    currentBpt (sendBw (p_peerLink p)) < calm_room /\ currentBpt (recvBw (p_peerLink p)) < calm_room.

Lemma ok_calm n ic : ok full_room n ic -> calm ic -> ok calm_room n ic.
Proof.
  intros [H1 H2 H3 H4 H5 H6 H7 H8] Hc. split; try done. intros ep p Hp Hne. destruct (H8 ep p Hp Hne) as ([Hs [Hq (? & ? & _) (? & ? & _)] Ha] & Hl & Hcon).
  destruct (Hc ep p Hp). split; [|done]. split; [done|by split|done].
Qed.

(** How many handles and nonces a call uses up. *)
Definition cost (ic : InterfaceController) : Z := 3 + len (ic_icis ic).

Lemma step_runs n ic i : ok full_room n ic -> calm ic -> agreed_peers ic -> in_contract ic i -> cost ic < n <= 2 ^ 30 ->
  runs (ic_step i) ic (fun _ ic' => ok full_room (n - cost ic) ic').
Proof.
  intros Hok Hcalm Hagr Hi Hn. unfold cost in *. set (l := len (ic_icis ic)) in *. assert (0 <= l) by (unfold l; lia).
  pose proof (ok_calm n ic Hok Hcalm) as Hok'.
  assert (forall ic' n', n - (3 + l) <= n' -> ok full_room n' ic' -> ok full_room (n - (3 + l)) ic') as Hend
    by (intros ic' n' Hn' H'; eapply ok_mono; [..|exact H']; lia).
  destruct i; cbn [ic_step in_contract] in *.
  - destruct Hi as [Hk Hw]. apply (handleIncomingFromWire_runs n); [done|done|lia|done|done|]. intros ic' H'. by apply (Hend _ (n - 3)); [lia|].
  - destruct Hi as [[p Hp] Hm]. apply (sendFromSwitch_runs n _ _ p); [done|lia|done|done|]. intros ic' H'. by apply (Hend _ (n - 1)); [lia|].
  - apply (events_runs full_room n); [done|done|]. intros ic' H'. by apply (Hend _ n); [lia|].
  - destruct Hi as (a & pre & rh & c & post & Hm & Hrh & Hc & Ht). pose proof (ok_pinger _ _ _ _ Hok) as [Hsw _ _ _].
    destruct (pong_from_handler_safe malloc _ msg a pre rh c post (ie_ms env) Hsw Hm Hrh Hc Ht) as (ctx' & outs & E & Hsw').
    apply (pinger_step_runs full_room n _ ctx' outs); [done|exact E|done|by apply message_shrinks in E|]. intros ic' H'. by apply (Hend _ n); [lia|].
  - apply (pingCallback_runs full_room n); [done|fold l; lia|apply (ef_cookie Henv)|]. intros ic' H'. by apply (Hend _ (n - l)); [lia|].
  - apply (linkState_runs full_room n); [done|]. intros ic' H'. by apply (Hend _ n); [lia|].
  - apply beaconInterval_runs. by apply (Hend _ n); [lia|].
  - destruct Hi as [p Hp]. pose proof (ok_pinger _ _ _ _ Hok) as [Hsw _ _ _].
    destruct (pingSend_returns malloc _ ptr p Hsw Hp) as (m & E).
    apply (pinger_step_runs full_room n _ (ic_switchPinger ic) [ToControlHandler m]); [done|exact E|done|apply shrinks_refl|].
    intros ic' H'. by apply (Hend _ n); [lia|].
  - destruct Hi as (p & Hp & Ht). pose proof (ok_pinger _ _ _ _ Hok) as [Hsw _ _ _].
    destruct (pingTimeout_returns malloc _ ptr p (ie_ms env) Hsw Hp Ht) as (ctx' & outs & E & Hsw').
    apply (pinger_step_runs full_room n _ ctx' outs); [done|exact E|done|by apply pingTimeout_shrinks in E|].
    intros ic' H'. by apply (Hend _ n); [lia|].
  - apply runs_bind, (newIface_runs full_room n); [done|lia|]. intros r ic' H'. apply runs_ret. by apply (Hend _ n); [lia|].
  - apply runs_bind, (beaconState_runs full_room n); [done|]. intros r ic' H'. apply runs_ret. by apply (Hend _ n); [lia|].
  - destruct Hi as (Hk & Hwf & Hfree). apply runs_bind, (bootstrapPeer_runs full_room n); [done|lia|lia|done..|].
    intros r ic' H'. apply runs_ret. by apply (Hend _ (n - 2)); [lia|].
  - apply (free_runs full_room n); [done|done|]. intros ic' H'. by apply (Hend _ n); [lia|].
  - apply runs_bind, (getPeerStats_runs full_room n); [done|lia|]. intros r ic' H'. apply runs_ret. by apply (Hend _ n); [lia|].
  - apply (resetPeering_runs full_room n); [done|]. intros ic' H'. by apply (Hend _ n); [lia|].
  - apply runs_bind, (disconnectPeer_runs full_room n); [done|]. intros r ic' H'. apply runs_ret. by apply (Hend _ n); [lia|].
Qed.
End Handlers.

(** ** Runs *)

Section Runs.
Context {N : Nacl} {L : NaclLaws N} (malloc : Z -> Z * list Z).

(** The states of the controller of a node: its own users of the switch have names up
    to 0, and [k] counts the cost of the calls so far. *)
Inductive reaches : InterfaceController -> Z -> Prop :=
| reaches_new ca core rand addr password ic : ca_ok ca -> core_ok core -> (forall u i, conns core !! u = Some i -> u <= 0) ->
    fits 32 rand -> InterfaceController_new ca core (SwitchPinger_new rand addr) password = Ret ic -> reaches ic 0
| reaches_step ic k env i ic' outs : reaches ic k -> env_fine env -> calm ic -> agreed_peers ic -> in_contract env ic i ->
    ic_step malloc env i ic = Ret (tt, ic', outs) -> reaches ic' (k + cost ic).

(** The maps of the interfaces list live peers under their addresses, and all the
    peers have a place in the switch. *)
Record sound (ic : InterfaceController) : Prop := {
  sn_entries : forall k x e, ic_icis ic !! k = Some x -> e ∈ map_entries (if_peerMap x) ->
    exists p, ic_peers ic !! e_value e = Some p /\ p_ici p = Z.of_nat k /\ p_lladdr p = e_key e;
  sn_keys : forall k x, ic_icis ic !! k = Some x -> NoDup (e_key <$> map_entries (if_peerMap x));
  sn_connected : forall ep p, ic_peers ic !! ep = Some p -> connected (ic_switchCore ic) ep;
  sn_count : len (peers_of (ic_icis ic)) <= NumberCompress_INTERFACES;
}.

Lemma ok_sound room n ic : ok room n ic -> sound ic.
Proof using Type.
  intros Hok. split.
  - intros k x e Hx He. destruct (ok_lists _ _ _ _ Hok k x Hx e He) as (p & ? & ? & _ & ?). by exists p.
  - intros k x Hx. by destruct (mf_keys _ _ (ok_maps _ _ _ _ Hok k x Hx)).
  - intros ep p Hp. by destruct (ok_peers _ _ _ _ Hok ep p Hp ltac:(done)) as (_ & _ & ?).
  - exact (peers_bounded room n ic Hok).
Qed.

Lemma new_ok ca core rand addr password ic : ca_ok ca -> core_ok core -> (forall u i, conns core !! u = Some i -> u <= 0) ->
  fits 32 rand -> InterfaceController_new ca core (SwitchPinger_new rand addr) password = Ret ic -> ok (2 ^ 31) (2 ^ 30) ic.
Proof using Type.
  intros [Hca] Hcore Hconns Hr E. unfold InterfaceController_new in E. apply Er_bind_ret in E as ([rc ca'] & Ea & E). injection E as <-.
  split; cbn [ic_ca ic_switchCore ic_switchPinger ic_icis ic_peers ic_nextPeer ic_nextPing]; try done.
  - split. unfold CryptoAuth_addUser, CryptoAuth_addUser_ipv6 in Ea. apply Er_bind_ret in Ea as ([h2 ac2] & _ & Ea).
    apply Er_bind_ret in Ea as ([h1 ac1] & _ & Ea). destruct (existsb _ _); by injection Ea as _ <-.
  - intros u i Hu. apply Hconns in Hu. lia.
  - split; [by apply sw_ok_new|by vm_compute|by vm_compute|]. intros ptr p Hp. cbn in Hp. by apply lookup_empty_Some in Hp.
Qed.

Context (Hzero : (AddressCalc_addressForPublicKey (zeros 32)).1 = false).

Lemma cost_pos ic : 3 <= cost ic.
Proof using Type. unfold cost. lia. Qed.

Lemma reaches_ok ic k : reaches ic k -> 0 <= k /\ (k < 2 ^ 30 -> ok (2 ^ 31) (2 ^ 30 - k) ic).
Proof using L Hzero.
  induction 1 as [ca core rand addr password ic Hca Hcore Hconns Hr E|ic k env i ic' outs _ [Hk IH] Henv Hcalm Hagr Hi E].
  - split; [lia|]. intros _. rewrite Z.sub_0_r. by eapply new_ok.
  - pose proof (cost_pos ic). split; [lia|]. intros Hlt.
    destruct (step_runs malloc env Henv Hzero (2 ^ 30 - k) ic i (IH ltac:(lia)) Hcalm Hagr Hi ltac:(lia)) as ([] & ic1 & o & E1 & Hok).
    rewrite E in E1. injection E1 as <- _. by replace (2 ^ 30 - (k + cost ic)) with (2 ^ 30 - k - cost ic) by lia.
Qed.

(** [C11] No call within the contract of its callers stops the interface controller of
    a node, whatever calls came before: packets from the wire with any content,
    packets from the switch, requests of pathfinders, pongs, all the timers, and
    configuration which uses an address once.  The maps of the interfaces, the peers
    and the switch stay consistent.  The conditions: the calls together cost less
    than 2^30, where a call costs 3 and one more for each interface, as handles and
    nonces do stop the process when they are used up; no link carried two gigabytes
    within a second, which overflows its meter; no established session has an all-zero
    secret; the zero key has no valid address, and a stranger's hello does not show it,
    which the code asserts. *)
Theorem interface_controller_safe ic k env i : reaches ic k -> env_fine env -> calm ic -> agreed_peers ic -> in_contract env ic i ->
  k + cost ic < 2 ^ 30 ->
  sound ic /\ exists ic' outs, ic_step malloc env i ic = Ret (tt, ic', outs) /\ sound ic'.
Proof using L Hzero.
  intros Hr Henv Hcalm Hagr Hi Hk. apply reaches_ok in Hr as [Hk0 Hok]. pose proof (cost_pos ic). specialize (Hok ltac:(lia)).
  split; [by eapply ok_sound|].
  destruct (step_runs malloc env Henv Hzero (2 ^ 30 - k) ic i Hok Hcalm Hagr Hi ltac:(lia)) as ([] & ic1 & o & E1 & Hok1).
  exists ic1, o. split; [done|by eapply ok_sound].
Qed.
End Runs.

(** ** An example: an interface, a configured peer, a stranger's hello *)

#[local] Existing Instance toy_nacl.
#[local] Existing Instance toy_laws.

Definition born_ic : InterfaceController :=
  match InterfaceController_new alice_ca (SwitchCore_new 0) (SwitchPinger_new 7 Address_zero) (replicate 20 65) with
  | Ret ic => ic
  | Abort _ => fresh_ic
  end.
Definition after (i : ICIn) (ic : InterfaceController) : InterfaceController :=
  match ic_step flat link_env i ic with Ret (_, ic', _) => ic' | Abort _ => ic end.
Definition add_bob : ICIn := InBootstrap 0 (replicate 32 4) bob_sockaddr [112; 119] None None.
Definition bob_ic2 : InterfaceController := after add_bob (after (InNewIface [101]) born_ic).

Lemma reaches_after ic k i : reaches flat ic k -> calm ic -> agreed_peers ic -> in_contract link_env ic i ->
  (exists outs, ic_step flat link_env i ic = Ret (tt, after i ic, outs)) -> reaches flat (after i ic) (k + cost ic).
Proof. intros Hr Hc Ha Hi [outs E]. eapply reaches_step; [exact Hr| |exact Hc|exact Ha|exact Hi|exact E]. split; [by intros j|by intros j; split]. Qed.

Lemma runs_after i ic : match ic_step flat link_env i ic with Ret _ => true | Abort _ => false end = true ->
  exists outs, ic_step flat link_env i ic = Ret (tt, after i ic, outs).
Proof. unfold after. destruct (ic_step flat link_env i ic) as [[[[] ic'] outs]|]; [|done]. intros _. by exists outs. Qed.

Lemma calm_check ic : forallb (fun x : Z * Peer => (currentBpt (sendBw (p_peerLink x.2)) <? 2 ^ 31 - 2 ^ 16) &&
    (currentBpt (recvBw (p_peerLink x.2)) <? 2 ^ 31 - 2 ^ 16)) (map_to_list (ic_peers ic)) = true -> calm ic.
Proof.
  intros H ep p Hp. rewrite forallb_forall in H. specialize (H (ep, p) ltac:(by apply list_elem_of_In, elem_of_map_to_list)).
  apply andb_true_iff in H as [H1%Z.ltb_lt H2%Z.ltb_lt]. by split.
Qed.

Lemma agreed_check ic : forallb (fun x : Z * Peer => bool_decide (agreed (p_caSession x.2))) (map_to_list (ic_peers ic)) = true -> agreed_peers ic.
Proof.
  intros H ep p Hp. rewrite forallb_forall in H. specialize (H (ep, p) ltac:(by apply list_elem_of_In, elem_of_map_to_list)).
  by apply bool_decide_eq_true in H.
Qed.

Definition stranger_hello : list Z := alice_sockaddr ++ zeros 40 ++ replicate 32 7 ++ replicate 48 3.

Lemma bob_address_ok : sockaddr_wf (Sockaddr_clone bob_sockaddr).
Proof. vm_compute. split; [reflexivity|]. split; [split; discriminate|reflexivity]. Qed.

Lemma stranger_wired : wired bob_ic2 0 (buffer 64 stranger_hello).
Proof.
  exists (4096 + 64), (replicate 64 0), stranger_hello, []. split; [split; [by apply buffer_view|reflexivity]|].
  split; [apply (bool_decide_unpack _); by vm_compute|]. split; [by vm_compute|]. split; [reflexivity|]. split; [reflexivity|]. split; [by vm_compute|].
  intros _. exists 24. split; [by vm_compute|]. split; [lia|]. split; [reflexivity|]. intros x _ _ _ _. by vm_compute.
Qed.

Lemma interface_controller_safe_witness :
  sound bob_ic2 /\ exists ic' outs, ic_step flat link_env (InWire 0 (buffer 64 stranger_hello)) bob_ic2 = Ret (tt, ic', outs) /\ sound ic'.
Proof.
  assert (reaches flat born_ic 0) as H0.
  { apply (reaches_new flat alice_ca (SwitchCore_new 0) 7 Address_zero (replicate 20 65)); [done|apply core_ok_new|by intros u i|by split|].
    unfold born_ic. by vm_compute. }
  assert (reaches flat (after (InNewIface [101]) born_ic) (0 + cost born_ic)) as H1.
  { apply reaches_after; [exact H0|apply calm_check; by vm_compute|apply agreed_check; by vm_compute|done|apply runs_after; by vm_compute]. }
  assert (reaches flat bob_ic2 (0 + cost born_ic + cost (after (InNewIface [101]) born_ic))) as H2.
  { apply reaches_after; [exact H1|apply calm_check; by vm_compute|apply agreed_check; by vm_compute| |apply runs_after; by vm_compute].
    split; [done|]. split; [exact bob_address_ok|]. intros x Hx. vm_compute in Hx. injection Hx as <-. by vm_compute. }
  apply (interface_controller_safe flat ltac:(done) bob_ic2 _ link_env (InWire 0 (buffer 64 stranger_hello)) H2);
    [split; [by intros j|by intros j; split]|apply calm_check; by vm_compute|apply agreed_check; by vm_compute| |by vm_compute].
  split; [by vm_compute|exact stranger_wired].
Defined.
