(* ===== verification/IpTunnel.v ===== *)
(** * tunnel/IpTunnel.c: the IP tunnel

    A node can let others tunnel IPv4 and IPv6 through it: the connections are
    kept in an array, incoming ones with the addresses which the other end is
    given, outgoing ones with the addresses which were received.  Packets of the
    TUN device and of nodes are passed on when their addresses belong to the
    connection.  Addresses are asked for and given out in bencoded control
    messages, UDP packets from and to the zero address.

    A pointer to a connection is its index.  What the handlers do to the rest of
    the system is a list of [Out]: messages on the two interfaces, an address for
    the TUN device ([NetDev_addAddress]) and a set of routes
    ([NetDev_setRoutes]).  Log output is left out. *)
From S2P Require Import Prelude Bits Hex Checksum Message Headers RouteHeader Nacl Key Benc.
From S2P Require Import BencSerial Sockaddr RouteGen.

(** ** Definitions *)

Record Connection := mkConnection {
  c_routeHeader : RouteHeader;
  connectionIp6 : list Z;
  connectionIp4 : list Z;
  connectionIp6Prefix : Z;
  connectionIp6Alloc : Z;
  connectionIp4Prefix : Z;
  connectionIp4Alloc : Z;
  isOutgoing : bool;
  number : Z;
}.

(** After [memset]. *)
Definition zeroHeader : RouteHeader := mkRouteHeader (zeros 32) (zeros 12) 0 0 0 0 (zeros 16).
Definition zeroConnection : Connection := mkConnection zeroHeader (zeros 16) (zeros 4) 0 0 0 0 false 0.

(** [tunName] is that of the global configuration, [None] while there is no TUN
    device. *)
Record IpTunnel := mkIpTunnel {
  connections : list Connection;
  connectionCapacity : Z;
  nextConnectionNumber : Z;
  rg : RouteGen;
  tunName : option (list Z);
}.

Inductive Out :=
  | ToNode (message : Message)
  | ToTun (message : Message)
  | AddAddress (sa : Sockaddr)
  | SetRoutes (prefixSet : list Sockaddr).

Definition set_connections (t : IpTunnel) (cs : list Connection) : IpTunnel :=
  mkIpTunnel cs (connectionCapacity t) (nextConnectionNumber t) (rg t) (tunName t).
Definition set_rg (t : IpTunnel) (r : RouteGen) : IpTunnel :=
  mkIpTunnel (connections t) (connectionCapacity t) (nextConnectionNumber t) r (tunName t).
Definition set_peer (c : Connection) (key ip6 : list Z) : Connection :=
  let rh := c_routeHeader c in
  mkConnection (mkRouteHeader key (rh_sh rh) (rh_version_be rh) (rh_flags rh) (rh_unused rh)
                  (rh_alsoUnused rh) ip6)
    (connectionIp6 c) (connectionIp4 c) (connectionIp6Prefix c) (connectionIp6Alloc c)
    (connectionIp4Prefix c) (connectionIp4Alloc c) (isOutgoing c) (number c).
Definition set_ip4 (c : Connection) (ip4 : list Z) (prefix alloc : Z) : Connection :=
  mkConnection (c_routeHeader c) (connectionIp6 c) ip4 (connectionIp6Prefix c)
    (connectionIp6Alloc c) prefix alloc (isOutgoing c) (number c).
Definition set_ip6 (c : Connection) (ip6 : list Z) (prefix alloc : Z) : Connection :=
  mkConnection (c_routeHeader c) ip6 (connectionIp4 c) prefix alloc (connectionIp4Prefix c)
    (connectionIp4Alloc c) (isOutgoing c) (number c).

(** A signed bit field of 31 bits. *)
Definition i31 (z : Z) : Z := (z + 2 ^ 30) mod 2 ^ 31 - 2 ^ 30.

(** The loop of [newConnection] for an incoming connection: [conn] is the free
    cell; [i] counts down. *)
Fixpoint make_room (i : nat) (conn : nat) (cs : list Connection) : nat * list Connection :=
  match i with
  | O => (conn, cs)
  | S i =>
      match cs !! i, cs !! S i with
      | Some c, Some next =>
          if negb (isOutgoing c) && negb (conn =? S i)%nat
          then make_room i (S i) (<[conn := next]> cs)
          else make_room i conn cs
      | _, _ => make_room i conn cs
      end
  end.

(** The index of the new connection. *)
Definition newConnection (outgoing : bool) (t : IpTunnel) : Er (nat * IpTunnel) :=
  let count := length (connections t) in
  let capacity := if Z.of_nat count =? connectionCapacity t then u32 (connectionCapacity t + 4)
                  else connectionCapacity t in
  let '(conn, cs) :=
    if negb outgoing then make_room count count (connections t ++ [zeroConnection])
    else (count, connections t ++ [zeroConnection]) in
  let z := zeroConnection in
  let new := mkConnection (c_routeHeader z) (connectionIp6 z) (connectionIp4 z) 0 0 0 0 outgoing
               (i31 (nextConnectionNumber t)) in
  let next := u32 (nextConnectionNumber t + 1) in
  Assert_true (next <? Z.shiftr UINT32_MAX 1);;
  Ret (conn, mkIpTunnel (<[conn := new]> cs) capacity next (rg t) (tunName t)).

(** The elements behind the removed one move up. *)
Definition deleteConnection (i : nat) (t : IpTunnel) : Er IpTunnel :=
  Assert_true (i <? length (connections t))%nat;;
  Ret (set_connections t (delete i (connections t))).

Fixpoint findIndex {A} (f : A -> bool) (l : list A) : option nat :=
  match l with
  | [] => None
  | x :: l => if f x then Some 0%nat else S <$> findIndex f l
  end.

Definition connectionByPubKey (pubKey : list Z) (t : IpTunnel) : option nat :=
  findIndex (fun conn => memcmp pubKey (rh_publicKey (c_routeHeader conn)) =? 0) (connections t).

Definition IpTunnel_removeConnection_NOT_FOUND : Z := -1.

Definition IpTunnel_removeConnection (connectionNumber : Z) (t : IpTunnel) : Er (Z * IpTunnel) :=
  match findIndex (fun c => number c =? connectionNumber) (connections t) with
  | Some i => t ← deleteConnection i t; Ret (0, t)
  | None => Ret (IpTunnel_removeConnection_NOT_FOUND, t)
  end.

Section Peers.
Context `{Nacl}.

(** The address of a socket address, [None] where the pointer stays NULL. *)
Definition address_of (sa : option Sockaddr) : option (list Z) :=
  match sa with
  | None => None
  | Some sa => let '(n, a) := Sockaddr_getAddress sa in if n =? -1 then None else Some a
  end.

Definition IpTunnel_allowConnection (publicKeyOfAuthorizedNode : list Z)
    (ip6Addr : option Sockaddr) (ip6Prefix ip6Alloc : Z)
    (ip4Addr : option Sockaddr) (ip4Prefix ip4Alloc : Z) (t : IpTunnel) : Er (Z * IpTunnel) :=
  '(i, t) ← newConnection false t;
  match connections t !! i with
  | None => Abort "out of bounds"
  | Some conn =>
      let conn := set_peer conn publicKeyOfAuthorizedNode
                    (AddressCalc_addressForPublicKey publicKeyOfAuthorizedNode).2 in
      conn ← match address_of ip4Addr with
             | Some ip4 =>
                 Assert_true (negb (ip4Alloc =? 0));;
                 Ret (set_ip4 conn (take 4 ip4) ip4Prefix ip4Alloc)
             | None => Ret conn
             end;
      conn ← match address_of ip6Addr with
             | Some ip6 =>
                 Assert_true (negb (ip6Alloc =? 0));;
                 Ret (set_ip6 conn (take 16 ip6) ip6Prefix ip6Alloc)
             | None => Ret conn
             end;
      Ret (number conn, set_connections t (<[i := conn]> (connections t)))
  end.
End Peers.

(** *** Control messages *)

Definition sendToNode (message : Message) (conn : Connection) : Er Message :=
  message ← Message_epush message None DataHeader_SIZE;
  let dh := DataHeader_of (msg_read message 0 DataHeader_SIZE) in
  dh ← DataHeader_setContentType dh ContentType_IPTUN;
  let dh := DataHeader_setVersion dh DataHeader_CURRENT_VERSION in
  let message := msg_write message 0 (DataHeader_bytes dh) in
  Message_epush message (Some (RouteHeader_bytes (c_routeHeader conn))) RouteHeader_SIZE.

(** The UDP and IPv6 headers. *)
Definition control_headers (msg : Message) : Er Message :=
  let length := msg_length msg in
  msg ← Message_eshift msg Headers_UDPHeader_SIZE;
  (* srcPort_be, destPort_be, length_be, checksum_be *)
  let msg := msg_write msg 0 (zeros 4 ++ le_bytes 2 (Endian_hostToBigEndian16 (u16 length)) ++ le_bytes 2 0) in
  let payloadLength := u16 (msg_length msg) in
  msg ← Message_eshift msg Headers_IP6Header_SIZE;
  (* versionClassAndFlowLabel, flowLabelLow_be, payloadLength_be, nextHeader, hopLimit *)
  let msg := msg_write msg 0 (zeros 4 ++ le_bytes 2 (Endian_hostToBigEndian16 payloadLength) ++ [17; 0]) in
  let msg := msg_write msg 0 (Headers_setIpVersion Headers_IP6Header_SIZE (msg_read msg 0 8)) in
  let msg := msg_write msg 8 (zeros 32) in
  let at_ := msg_addr msg + msg_bytes msg in
  checksum ← Checksum_udpIp6_be (at_ + 8) (msg_read msg 8 32) (at_ + 40)
               (msg_read msg 40 (msg_length msg - Headers_IP6Header_SIZE))
               (msg_length msg - Headers_IP6Header_SIZE);
  Ret (msg_write msg 46 (le_bytes 2 checksum)).

Section Control.
Context (malloc : Z -> Z * list Z).

Definition sendControlMessage (dict : Dict) (conn : Connection) : Er Message :=
  let '(addr, mem) := malloc 1024 in
  let msg := Message_new 0 1024 addr mem in
  msg ← BencMessageWriter_write dict msg;
  msg ← control_headers msg;
  sendToNode msg conn.

Definition getAddresses : list Z := chars "IpTunnel_getAddresses".

Definition requestAddresses (conn : Connection) : Er Message :=
  sendControlMessage
    [(chars "q", Object_STRING getAddresses);
     (chars "txid", Object_STRING (le_bytes 4 (number conn)))] conn.

Definition IpTunnel_connectTo `{Nacl} (publicKeyOfNodeToConnectTo : list Z) (t : IpTunnel) :
    Er (Z * IpTunnel * list Out) :=
  '(i, t) ← newConnection true t;
  match connections t !! i with
  | None => Abort "out of bounds"
  | Some conn =>
      let conn := set_peer conn publicKeyOfNodeToConnectTo
                    (AddressCalc_addressForPublicKey publicKeyOfNodeToConnectTo).2 in
      msg ← requestAddresses conn;
      Ret (number conn, set_connections t (<[i := conn]> (connections t)), [ToNode msg])
  end.

Definition isControlMessageInvalid (message : Message) : Er (bool * Message) :=
  let header := msg_read message 0 Headers_IP6Header_SIZE in
  let length := Endian_bigEndianToHost16 (le_val (rd 4 2 header)) in
  if negb (get header 6 =? 17) || (msg_length message <? length + Headers_IP6Header_SIZE)
  then Ret (true, message)
  else
    let at_ := msg_addr message + msg_bytes message in
    message ← Message_eshift message (- Headers_IP6Header_SIZE);
    let udp := msg_read message 0 Headers_UDPHeader_SIZE in
    checksum ← Checksum_udpIp6_be (at_ + 8) (rd 8 32 header) (at_ + 40)
                 (msg_read message 0 length) length;
    if negb (checksum =? 0) then Ret (true, message)
    else
      let length := u16 (length - Headers_UDPHeader_SIZE) in
      if negb (Endian_bigEndianToHost16 (le_val (rd 4 2 udp)) =? length)
         || negb (le_val (rd 0 2 udp) =? 0) || negb (le_val (rd 2 2 udp) =? 0)
      then Ret (true, message)
      else
        message ← Message_eshift message (- Headers_UDPHeader_SIZE);
        Ret (false, mkMessage length (msg_padding message) (msg_bytes message) (msg_capacity message)
                      (msg_associatedFd message) (msg_addr message) (msg_mem message)).

Definition putString (d : Dict) (key : string) (val : list Z) : Dict :=
  (Dict_putString d (Some (chars key)) (Some val)).1.
Definition putInt (d : Dict) (key : string) (val : Z) : Dict := (Dict_putInt d (chars key) val).1.

(** The reply to a request, if there is one. *)
Definition requestForAddresses (request : Dict) (conn : Connection) : Er (list Out) :=
  if isOutgoing conn then Ret []
  else
    let '(addresses, noAddresses) :=
      if negb (Bits_isZero (connectionIp6 conn)) then
        let addresses := putString Dict_new "ip6" (String_newBinary (Some (connectionIp6 conn)) 16) in
        let addresses := putInt addresses "ip6Prefix" (connectionIp6Prefix conn) in
        (putInt addresses "ip6Alloc" (connectionIp6Alloc conn), false)
      else (Dict_new, true) in
    let '(addresses, noAddresses) :=
      if negb (Bits_isZero (connectionIp4 conn)) then
        let addresses := putString addresses "ip4" (String_newBinary (Some (connectionIp4 conn)) 4) in
        let addresses := putInt addresses "ip4Prefix" (connectionIp4Prefix conn) in
        (putInt addresses "ip4Alloc" (connectionIp4Alloc conn), false)
      else (addresses, noAddresses) in
    if (noAddresses : bool) then Ret []
    else
      let msg := (Dict_putDict Dict_new (Some (chars "addresses")) (Some addresses)).1 in
      let msg := match Dict_getString (Some request) (Some (chars "txid")) with
                 | Some txid => putString msg "txid" txid
                 | None => msg
                 end in
      m ← sendControlMessage msg conn;
      Ret [ToNode m].

Section Addresses.
Context `{InetText} (at_ : Z).

(** [at_] is the address of the parser's buffer. *)
Definition addAddress (printedAddr : list Z) (prefixLen allocSize : Z) (t : IpTunnel) :
    Er (IpTunnel * list Out) :=
  match tunName t with
  | None => Ret (t, [])
  | Some _ =>
      ss ← Sockaddr_parse at_ printedAddr;
      match ss with
      | None => Ret (t, [])
      | Some ss =>
          let ss := set ss 2 (Z.lor (sa_flags ss) Sockaddr_flags_PREFIX) in
          let ss := set ss 4 allocSize in
          let outs := [AddAddress ss] in
          let ss := set ss 4 prefixLen in
          installRoute ←
            (if Sockaddr_getFamily ss =? Sockaddr_AF_INET then Ret (prefixLen <? 32)
             else if Sockaddr_getFamily ss =? Sockaddr_AF_INET6 then Ret (prefixLen <? 128)
             else Abort "bad address family");
          if (installRoute : bool) then
            r ← RouteGen_addPrefix (rg t) ss;
            Ret (set_rg t r, outs)
          else Ret (t, outs)
      end
  end.

(** [Sockaddr_LOOPBACK] on a little endian host, and [Sockaddr_LOOPBACK6]. *)
Definition Sockaddr_LOOPBACK : Sockaddr :=
  le_bytes 2 24 ++ zeros 6 ++ le_bytes 2 Sockaddr_AF_INET ++ zeros 2 ++ le_bytes 4 0x0100007f ++ zeros 8.
Definition Sockaddr_LOOPBACK6 : Sockaddr :=
  le_bytes 2 36 ++ zeros 6 ++ le_bytes 2 Sockaddr_AF_INET6 ++ zeros 6 ++ zeros 15 ++ [1] ++ zeros 4.

(** A prefix length of the message within [0 .. max], or [max]. *)
Definition prefix_or_max (p : option Z) (max : Z) : Z :=
  match p with Some p => if (p >=? 0) && (p <=? max) then u8 p else max | None => max end.

(** [for (i = 0; i < count; i++)] of [incomingAddresses]: the connection the
    transaction id names; [None] if it is of another node. *)
Fixpoint txid_loop (cs : list Connection) (i : nat) (txid : Z) (key : list Z) (conn : nat) :
    option nat :=
  match cs with
  | [] => Some conn
  | c :: cs =>
      if number c =? txid then
        if negb (memcmp key (rh_publicKey (c_routeHeader c)) =? 0) then None
        else txid_loop cs (S i) txid (rh_publicKey (c_routeHeader c)) i
      else txid_loop cs (S i) txid key conn
  end.

Definition getDictString (d : option Dict) (key : string) := Dict_getString d (Some (chars key)).
Definition getDictInt (d : option Dict) (key : string) := Dict_getInt d (Some (chars key)).

(** The IPv4 and the IPv6 half of what is done with the offered addresses. *)
Definition accept4 (addresses : option Dict) (i : nat) (conn : Connection) (t : IpTunnel) :
    Er (Connection * IpTunnel * list Out) :=
  match getDictString addresses "ip4" with
  | Some ip4 =>
      if len ip4 =? 4 then
        let conn := set_ip4 conn ip4 (prefix_or_max (getDictInt addresses "ip4Prefix") 32)
                      (prefix_or_max (getDictInt addresses "ip4Alloc") 32) in
        let t := set_connections t (<[i := conn]> (connections t)) in
        let sa := wr 12 ip4 (Sockaddr_clone Sockaddr_LOOPBACK) in
        '(t, outs) ← addAddress (Sockaddr_print sa) (connectionIp4Prefix conn) (connectionIp4Alloc conn) t;
        Ret (conn, t, outs)
      else Ret (conn, t, [])
  | None => Ret (conn, t, [])
  end.

Definition accept6 (addresses : option Dict) (i : nat) (conn : Connection) (t : IpTunnel) :
    Er (Connection * IpTunnel * list Out) :=
  match getDictString addresses "ip6" with
  | Some ip6 =>
      if len ip6 =? 16 then
        let conn := set_ip6 conn ip6 (prefix_or_max (getDictInt addresses "ip6Prefix") 128)
                      (prefix_or_max (getDictInt addresses "ip6Alloc") 128) in
        let t := set_connections t (<[i := conn]> (connections t)) in
        let sa := wr 16 ip6 (Sockaddr_clone Sockaddr_LOOPBACK6) in
        '(t, outs) ← addAddress (Sockaddr_print sa) (connectionIp6Prefix conn) (connectionIp6Alloc conn) t;
        Ret (conn, t, outs)
      else Ret (conn, t, [])
  | None => Ret (conn, t, [])
  end.

(** The routes are committed if there are changes. *)
Definition commit_routes (t : IpTunnel) : Er (IpTunnel * list Out) :=
  if rg_hasUncommittedChanges (rg t) then
    match tunName t with
    | None => Ret (t, [])
    | Some _ => '(set, r) ← RouteGen_commit (rg t); Ret (set_rg t r, [SetRoutes set])
    end
  else Ret (t, []).

Definition incomingAddresses (d : Dict) (i : nat) (conn : Connection) (t : IpTunnel) :
    Er (IpTunnel * list Out) :=
  if negb (isOutgoing conn) then Ret (t, [])
  else
    match getDictString (Some d) "txid" with
    | None => Ret (t, [])
    | Some txid =>
        if negb (len txid =? 4) then Ret (t, [])
        else
          let number_ := i32 (le_val txid) in
          if (number_ <? 0) || (number_ >=? i32 (nextConnectionNumber t)) then Ret (t, [])
          else
            match (if negb (number_ =? number conn)
                   then txid_loop (connections t) 0 number_ (rh_publicKey (c_routeHeader conn)) i
                   else Some i) with
            | None => Ret (t, [])
            | Some i =>
                match connections t !! i with
                | None => Abort "out of bounds"
                | Some conn =>
                    let addresses := Dict_getDict (Some d) (Some (chars "addresses")) in
                    '(conn, t, out4) ← accept4 addresses i conn t;
                    '(conn, t, out6) ← accept6 addresses i conn t;
                    '(t, out) ← commit_routes t;
                    Ret (t, out4 ++ out6 ++ out)
                end
            end
    end.

Definition incomingControlMessage (message : Message) (i : nat) (conn : Connection) (t : IpTunnel) :
    Er (IpTunnel * list Out) :=
  '(invalid, message) ← isControlMessageInvalid message;
  if (invalid : bool) then Ret (t, [])
  else
    '(message, (err, d)) ← BencMessageReader_readNoExcept message;
    match err with
    | Some _ => Ret (t, [])
    | None =>
        match d with
        | None => Abort "NULL dereference"
        | Some d =>
            match Dict_getDict (Some d) (Some (chars "addresses")) with
            | Some _ => incomingAddresses d i conn t
            | None =>
                if String_equals (Some getAddresses) (getDictString (Some d) "q")
                then outs ← requestForAddresses d conn; Ret (t, outs)
                else Ret (t, [])
            end
        end
    end.

(** *** Packets *)

(** [GET64] and [GET32]: the address must be a multiple of four. *)
Definition GET64 (at_ : Z) (buffer : list Z) : Er Z :=
  Assert_true (at_ mod 4 =? 0);;
  let x := u64 (le_val (rd 0 4 buffer)) in
  let x := Z.lor x (u64 (Z.shiftl (le_val (rd 4 4 buffer)) 32)) in
  Ret (Endian_bigEndianToHost64 x).
Definition GET32 (at_ : Z) (buffer : list Z) : Er Z :=
  Assert_true (at_ mod 4 =? 0);;
  Ret (Endian_bigEndianToHost32 (le_val (rd 0 4 buffer))).

(** [atA] is the address of [addressA]; the addresses in a connection are aligned. *)
Definition prefixMatches6 (atA : Z) (addressA refAddr : list Z) (prefixLen : Z) : Er bool :=
  if prefixLen =? 0 then Assert_true (Bits_isZero refAddr);; Ret false
  else
    Assert_true (prefixLen <=? 128);;
    a0 ← GET64 atA addressA;
    b0 ← GET64 0 refAddr;
    if prefixLen <=? 64 then Ret (Z.shiftr (Z.lxor a0 b0) (64 - prefixLen) =? 0)
    else
      a1 ← GET64 (atA + 8) (drop 8 addressA);
      b1 ← GET64 8 (drop 8 refAddr);
      Ret (Z.lor (Z.lxor a0 b0) (Z.shiftr (Z.lxor a1 b1) (128 - prefixLen)) =? 0).

Definition prefixMatches4 (atA : Z) (addressA refAddr : list Z) (prefixLen : Z) : Er bool :=
  if prefixLen =? 0 then Assert_true (Bits_isZero refAddr);; Ret false
  else
    Assert_true (prefixLen <=? 32);;
    a ← GET32 atA addressA;
    b ← GET32 0 refAddr;
    Ret (Z.shiftr (Z.lxor a b) (32 - prefixLen) =? 0).

(** The offset of the address which must be the other end's: the source of what it
    sends, the destination of what it gets; for an outgoing connection ours. *)
Definition compareSource (isFromTun : bool) (conn : Connection) : bool :=
  if isFromTun then isOutgoing conn else negb (isOutgoing conn).

Definition isValidAddress4 (at_ : Z) (sourceAndDestIp4 : list Z) (isFromTun : bool) (conn : Connection) :
    Er bool :=
  let off := if compareSource isFromTun conn then 0 else 4 in
  prefixMatches4 (at_ + off) (rd off 4 sourceAndDestIp4) (connectionIp4 conn) (connectionIp4Alloc conn).

Definition isValidAddress6 (at_ : Z) (sourceAndDestIp6 : list Z) (isFromTun : bool) (conn : Connection) :
    Er bool :=
  if AddressCalc_validAddress (rd 0 16 sourceAndDestIp6)
     || AddressCalc_validAddress (rd 16 16 sourceAndDestIp6) then Ret false
  else
    let off := if compareSource isFromTun conn then 0 else 16 in
    prefixMatches6 (at_ + off) (rd off 16 sourceAndDestIp6) (connectionIp6 conn)
      (connectionIp6Alloc conn).

(** The first connection for which the test holds. *)
Fixpoint findConnection (valid : Connection -> Er bool) (cs : list Connection) : Er (option Connection) :=
  match cs with
  | [] => Ret None
  | conn :: cs =>
      ok ← valid conn;
      if (ok : bool) then Ret (Some conn) else findConnection valid cs
  end.

(** [connections] is NULL as long as there was none. *)
Definition incomingFromTun (message : Message) (t : IpTunnel) : Er (list Out) :=
  let version := Headers_getIpVersion (msg_read message 0 1) in
  let at_ := msg_addr message + msg_bytes message in
  conn ←
    (if connectionCapacity t =? 0 then Ret None
     else if (msg_length message >? 40) && (version =? 6) then
       findConnection (isValidAddress6 (at_ + 8) (msg_read message 8 32) true) (connections t)
     else if (msg_length message >? 20) && (version =? 4) then
       findConnection (isValidAddress4 (at_ + 12) (msg_read message 12 8) true) (connections t)
     else Ret None);
  match conn with
  | None => Ret []
  | Some conn => m ← sendToNode message conn; Ret [ToNode m]
  end.

Definition ip6FromNode (message : Message) (i : nat) (conn : Connection) (t : IpTunnel) :
    Er (IpTunnel * list Out) :=
  let sourceAddr := msg_read message 8 16 in
  let destinationAddr := msg_read message 24 16 in
  if Bits_isZero sourceAddr || Bits_isZero destinationAddr then
    if Bits_isZero (msg_read message 8 32) then incomingControlMessage message i conn t
    else Ret (t, [])
  else
    valid ← isValidAddress6 (msg_addr message + msg_bytes message + 8) (msg_read message 8 32) false conn;
    if negb valid then Ret (t, [])
    else m ← TUNMessageType_push message Ethernet_TYPE_IP6; Ret (t, [ToTun m]).

Definition ip4FromNode (message : Message) (conn : Connection) (t : IpTunnel) :
    Er (IpTunnel * list Out) :=
  if Bits_isZero (msg_read message 12 4) || Bits_isZero (msg_read message 16 4) then Ret (t, [])
  else
    valid ← isValidAddress4 (msg_addr message + msg_bytes message + 12) (msg_read message 12 8) false conn;
    if negb valid then Ret (t, [])
    else m ← TUNMessageType_push message Ethernet_TYPE_IP4; Ret (t, [ToTun m]).

Definition incomingFromNode (message : Message) (t : IpTunnel) : Er (IpTunnel * list Out) :=
  Assert_true (msg_length message >=? RouteHeader_SIZE + DataHeader_SIZE);;
  let rh := RouteHeader_of (msg_read message 0 RouteHeader_SIZE) in
  let dh := DataHeader_of (msg_read message RouteHeader_SIZE DataHeader_SIZE) in
  Assert_true (DataHeader_getContentType dh =? ContentType_IPTUN);;
  match connectionByPubKey (rh_publicKey rh) t with
  | None => Ret (t, [])
  | Some i =>
      match connections t !! i with
      | None => Abort "out of bounds"
      | Some conn =>
          message ← Message_eshift message (- (RouteHeader_SIZE + DataHeader_SIZE));
          let version := Headers_getIpVersion (msg_read message 0 1) in
          if (msg_length message >? 40) && (version =? 6) then ip6FromNode message i conn t
          else if (msg_length message >? 20) && (version =? 4) then ip4FromNode message conn t
          else Ret (t, [])
      end
  end.
End Addresses.

(** The search of [timeout]: [steps] cells are left to look at, from [i] on. *)
Fixpoint poll_loop (steps i : nat) (cs : list Connection) : option Connection :=
  match steps with
  | O => None
  | S steps =>
      match cs !! i with
      | None => None
      | Some conn =>
          if isOutgoing conn && Bits_isZero (connectionIp6 conn) && Bits_isZero (connectionIp4 conn)
          then Some conn
          else poll_loop steps (S i mod length cs) cs
      end
  end.

(** [rand] is the random number. *)
Definition timeout (rand : Z) (t : IpTunnel) : Er (list Out) :=
  let count := length (connections t) in
  if (count =? 0)%nat then Ret []
  else
    let beginning := Z.to_nat (rand mod Z.of_nat count) in
    match poll_loop count beginning (connections t) with
    | Some conn => m ← requestAddresses conn; Ret [ToNode m]
    | None => Ret []
    end.
End Control.

Definition IpTunnel_new (r : RouteGen) (tun : option (list Z)) : IpTunnel := mkIpTunnel [] 0 0 r tun.
