(* ===== verification/IpTunnelProofs.v ===== *)
(** * The IP tunnel: whose packets pass, and how addresses are given out

    The connections form a set with unique numbers ([connections_refine]).  A
    packet only passes when the address that must belong to the other end (or, on
    an outgoing connection, to us) lies in the block of the connection
    ([tunnel_isolation]).  A request for addresses, its reply and what the client
    makes of it are followed through both ends ([address_assignment]). *)
From S2P Require Import Prelude Bits Hex Checksum Message Headers RouteHeader Nacl Key.
From S2P Require Import Base10 Benc BencSerial Sockaddr ArrayList RouteGen RouteGenProofs.
From S2P Require Import IpTunnel.

(** ** The connections *)

Lemma insert_hole {A} (l : list A) i j x y :
  l !! j = Some y -> (i < length l)%nat -> i <> j -> <[j := x]> (<[i := y]> l) ≡ₚ <[i := x]> l.
Proof.
  intros Hj Hi Hne. set (l' := <[i := x]> l).
  assert (Hli : l' !! i = Some x) by (by apply list_lookup_insert_eq).
  assert (Hlj : l' !! j = Some y) by (unfold l'; by rewrite list_lookup_insert_ne).
  assert (E : <[j := x]> (<[i := y]> l) = <[j := x]> (<[i := y]> l')) by (unfold l'; by rewrite list_insert_insert_eq).
  rewrite E. destruct (Nat.lt_total i j) as [Hlt|[?|Hlt]]; [|done|].
  - replace j with (i + S (j - i - 1))%nat in * by lia.
    destruct (swap_split i (j - i - 1) x y l' Hli Hlj) as (l1 & l2 & l3 & -> & _ & _ & E').
    unfold swap in E'. rewrite E'. solve_Permutation.
  - rewrite list_insert_insert_ne by lia. replace i with (j + S (i - j - 1))%nat in * by lia.
    destruct (swap_split j (i - j - 1) y x l' Hlj Hli) as (l1 & l2 & l3 & -> & _ & _ & E').
    unfold swap in E'. rewrite E'. solve_Permutation.
Qed.

Lemma make_room_perm i : forall conn cs x, (i <= conn < length cs)%nat ->
  let '(conn', cs') := make_room i conn cs in
  (conn' < length cs')%nat /\ <[conn' := x]> cs' ≡ₚ <[conn := x]> cs.
Proof.
  induction i as [|i IH]; intros conn cs x Hlt; cbn [make_room]; [split; [lia|done]|].
  destruct (cs !! i) as [c|] eqn:Hc; [|apply IH; lia].
  destruct (cs !! S i) as [next|] eqn:Hn; [|apply IH; lia].
  destruct (negb (isOutgoing c) && negb (conn =? S i)%nat) eqn:E; [|apply IH; lia].
  apply andb_true_iff in E as [_ E%negb_true_iff]. apply Nat.eqb_neq in E.
  pose proof (lookup_lt_Some _ _ _ Hn).
  specialize (IH (S i) (<[conn := next]> cs) x). rewrite length_insert in IH.
  destruct (make_room i (S i) (<[conn := next]> cs)) as [conn' cs']. destruct IH as [H1 H2]; [lia|].
  split; [done|]. rewrite H2. apply insert_hole; [done|lia|done].
Qed.

(** The numbers are unique and below the next one, which is far from wrapping. *)
Record conns_ok (t : IpTunnel) : Prop := {
  co_nodup : NoDup (number <$> connections t);
  co_below c : c ∈ connections t -> 0 <= number c < nextConnectionNumber t;
  co_next : 0 <= nextConnectionNumber t <= 2 ^ 30 - 1;
}.

Definition fresh (outgoing : bool) (n : Z) : Connection :=
  mkConnection zeroHeader (zeros 16) (zeros 4) 0 0 0 0 outgoing n.

Lemma newConnection_spec outgoing t :
  0 <= nextConnectionNumber t < 2 ^ 30 - 1 ->
  exists i t', newConnection outgoing t = Ret (i, t') /\
    connections t' !! i = Some (fresh outgoing (nextConnectionNumber t)) /\
    connections t' ≡ₚ fresh outgoing (nextConnectionNumber t) :: connections t /\
    nextConnectionNumber t' = nextConnectionNumber t + 1 /\ rg t' = rg t /\ tunName t' = tunName t /\
    (forall x, <[i := x]> (connections t') ≡ₚ x :: connections t).
Proof.
  intros Hn. unfold newConnection. set (cs := connections t). set (n := length cs).
  assert (Hroom : exists conn cs', (if negb outgoing then make_room n n (cs ++ [zeroConnection])
                                    else (n, cs ++ [zeroConnection])) = (conn, cs') /\
            (conn < length cs')%nat /\ forall x, <[conn := x]> cs' ≡ₚ x :: cs).
  { assert (Hins : forall x, <[n := x]> (cs ++ [zeroConnection]) ≡ₚ x :: cs).
    { intros x. unfold n. rewrite insert_app_r_alt, Nat.sub_diag by lia. cbn. solve_Permutation. }
    destruct outgoing; cbn [negb].
    - exists n, (cs ++ [zeroConnection]). split_and!; [done|rewrite length_app; cbn; lia|done].
    - pose proof (make_room_perm n n (cs ++ [zeroConnection])) as Hm.
      destruct (make_room n n (cs ++ [zeroConnection])) as [conn cs'].
      rewrite length_app in Hm. cbn [length] in Hm. exists conn, cs'. split_and!; [done| |].
      + apply (Hm zeroConnection). lia.
      + intros x. destruct (Hm x) as [_ ->]; [lia|done]. }
  destruct Hroom as (conn & cs' & -> & Hlt & Hperm).
  assert (Hu : u32 (nextConnectionNumber t + 1) = nextConnectionNumber t + 1)
    by (unfold u32; apply Z.mod_small; lia).
  assert (Hi : i31 (nextConnectionNumber t) = nextConnectionNumber t)
    by (unfold i31; rewrite Z.mod_small; lia).
  rewrite Hu, Hi. change (Z.shiftr UINT32_MAX 1) with (2 ^ 31 - 1).
  zdecide (nextConnectionNumber t + 1 <? 2 ^ 31 - 1). cbn [Assert_true mbind Er_bind].
  do 2 eexists. split; [done|]. cbn [connections nextConnectionNumber rg tunName].
  split_and!; [by apply list_lookup_insert_eq|apply Hperm|done..|].
  intros x. rewrite list_insert_insert_eq. apply Hperm.
Qed.

Lemma findIndex_Some {A} f (l : list A) i :
  findIndex f l = Some i -> exists x, l !! i = Some x /\ f x = true.
Proof.
  revert i. induction l as [|x l IH]; intros i; cbn [findIndex]; [done|].
  destruct (f x) eqn:E; [intros [= <-]; by exists x|].
  destruct (findIndex f l) as [j|]; cbn; [|done]. intros [= <-]. by apply IH.
Qed.

Lemma findIndex_None {A} f (l : list A) : findIndex f l = None -> forall x, x ∈ l -> f x = false.
Proof.
  induction l as [|x l IH]; cbn [findIndex]; intros E y Hy; [by apply not_elem_of_nil in Hy|].
  destruct (f x) eqn:Ex; [done|]. destruct (findIndex f l); [done|].
  apply elem_of_cons in Hy as [->|Hy]; auto.
Qed.

Lemma removeConnection_spec n t : NoDup (number <$> connections t) ->
  (forall c, c ∈ connections t -> number c = n ->
     exists t', IpTunnel_removeConnection n t = Ret (0, t') /\
       connections t ≡ₚ c :: connections t' /\ nextConnectionNumber t' = nextConnectionNumber t) /\
  ((forall c, c ∈ connections t -> number c <> n) ->
     IpTunnel_removeConnection n t = Ret (IpTunnel_removeConnection_NOT_FOUND, t)).
Proof.
  intros Hnd. unfold IpTunnel_removeConnection.
  destruct (findIndex _ (connections t)) as [i|] eqn:E.
  - apply findIndex_Some in E as (x & Hx & Hxn%Z.eqb_eq). split.
    + intros c (j & Hj)%list_elem_of_lookup_1 Hc.
      assert (i = j) as <-.
      { apply (NoDup_lookup _ _ _ n Hnd); rewrite list_lookup_fmap; [rewrite Hx|rewrite Hj]; cbn; congruence. }
      assert (x = c) as -> by congruence. unfold deleteConnection.
      rewrite (proj2 (Nat.ltb_lt _ _)) by (by eapply lookup_lt_Some). cbn [Assert_true mbind Er_bind].
      eexists. split_and!; [done| |done]. by apply delete_Permutation.
    + intros Hno. exfalso. apply (Hno x); [by eapply list_elem_of_lookup_2|done].
  - pose proof (findIndex_None _ _ E) as Hno. split.
    + intros c Hc Hcn. specialize (Hno c Hc). cbn in Hno. by apply Z.eqb_neq in Hno.
    + done.
Qed.

(** *** Operations on the list *)

Inductive tunnel_op :=
  | OpAllow (key : list Z) (ip6 : option Sockaddr) (prefix6 alloc6 : Z)
      (ip4 : option Sockaddr) (prefix4 alloc4 : Z)
  | OpConnect (key : list Z)
  | OpDisconnect (number : Z).

Definition tunnel_step `{Nacl} malloc (t : IpTunnel) (o : tunnel_op) : Er (Z * IpTunnel) :=
  match o with
  | OpAllow key ip6 prefix6 alloc6 ip4 prefix4 alloc4 =>
      IpTunnel_allowConnection key ip6 prefix6 alloc6 ip4 prefix4 alloc4 t
  | OpConnect key => '(r, t, _) ← IpTunnel_connectTo malloc key t; Ret (r, t)
  | OpDisconnect n => IpTunnel_removeConnection n t
  end.

Lemma conns_ok_add t c t' : conns_ok t -> number c = nextConnectionNumber t ->
  nextConnectionNumber t < 2 ^ 30 - 1 -> nextConnectionNumber t' = nextConnectionNumber t + 1 ->
  connections t' ≡ₚ c :: connections t -> conns_ok t'.
Proof.
  intros [Hnd Hb Hn] Hc Hlt Hn' Hp. split.
  - rewrite Hp. cbn [fmap list_fmap]. apply NoDup_cons. split; [|done].
    intros (d & Hd & Hin)%list_elem_of_fmap. specialize (Hb d Hin). lia.
  - intros d. rewrite Hp. intros [->|Hin]%elem_of_cons; [lia|]. specialize (Hb d Hin). lia.
  - lia.
Qed.

Lemma conns_ok_remove t c t' : conns_ok t -> nextConnectionNumber t' = nextConnectionNumber t ->
  connections t ≡ₚ c :: connections t' -> conns_ok t'.
Proof.
  intros [Hnd Hb Hn] Hn' Hp. split.
  - rewrite Hp in Hnd. by apply NoDup_cons in Hnd as [_ ?].
  - intros d Hd. rewrite Hn'. apply Hb. rewrite Hp. by apply list_elem_of_further.
  - lia.
Qed.

Lemma allow_spec `{Nacl} key ip6 p6 a6 ip4 p4 a4 t r t' :
  0 <= nextConnectionNumber t < 2 ^ 30 - 1 ->
  IpTunnel_allowConnection key ip6 p6 a6 ip4 p4 a4 t = Ret (r, t') ->
  r = nextConnectionNumber t /\ nextConnectionNumber t' = nextConnectionNumber t + 1 /\
  exists c, number c = r /\ isOutgoing c = false /\ rh_publicKey (c_routeHeader c) = key /\
    connections t' ≡ₚ c :: connections t.
Proof.
  intros Hn. unfold IpTunnel_allowConnection.
  destruct (newConnection_spec false t Hn) as (i & t1 & -> & Hi & _ & Hn1 & _ & _ & Hp).
  cbn [mbind Er_bind]. rewrite Hi. set (c0 := set_peer _ _ _).
  assert (Hset : forall c, number c = nextConnectionNumber t -> isOutgoing c = false ->
    rh_publicKey (c_routeHeader c) = key ->
    Ret (number c, set_connections t1 (<[i := c]> (connections t1))) = Ret (r, t') ->
    r = nextConnectionNumber t /\ nextConnectionNumber t' = nextConnectionNumber t + 1 /\
    exists c, number c = r /\ isOutgoing c = false /\ rh_publicKey (c_routeHeader c) = key /\
      connections t' ≡ₚ c :: connections t).
  { intros c H1 H2 H3 [= <- <-]. split_and!; [done|done|]. exists c. by split_and!; [..|apply Hp]. }
  destruct (address_of ip4) as [b4|]; [destruct (negb (a4 =? 0))|]; cbn [Assert_true mbind Er_bind]; [|done|];
    (destruct (address_of ip6) as [b6|]; [destruct (negb (a6 =? 0))|]; cbn [Assert_true mbind Er_bind]; [|done|]);
    by apply Hset.
Qed.

Lemma connect_spec `{Nacl} malloc key t r t' outs :
  0 <= nextConnectionNumber t < 2 ^ 30 - 1 ->
  IpTunnel_connectTo malloc key t = Ret (r, t', outs) ->
  r = nextConnectionNumber t /\ nextConnectionNumber t' = nextConnectionNumber t + 1 /\
  exists c msg, number c = r /\ isOutgoing c = true /\ rh_publicKey (c_routeHeader c) = key /\
    connections t' ≡ₚ c :: connections t /\ requestAddresses malloc c = Ret msg /\ outs = [ToNode msg].
Proof.
  intros Hn. unfold IpTunnel_connectTo.
  destruct (newConnection_spec true t Hn) as (i & t1 & -> & Hi & _ & Hn1 & _ & _ & Hp).
  cbn [mbind Er_bind]. rewrite Hi. set (c0 := set_peer _ _ _).
  destruct (requestAddresses malloc c0) as [msg|] eqn:E; cbn [mbind Er_bind]; [|done].
  intros [= <- <- <-]. split_and!; [done|done|]. exists c0, msg. by split_and!; [..|apply Hp| |].
Qed.

(** [C32] The connections are a set with unique numbers: whatever sequence of
    connections was allowed, made and removed, allowing or making one adds it
    under a number no other connection has, and keeps all others; removing one
    takes away exactly the connection with that number, or reports that there is
    none. *)
Theorem connections_refine `{Nacl} malloc t o r t' :
  conns_ok t -> nextConnectionNumber t < 2 ^ 30 - 1 -> tunnel_step malloc t o = Ret (r, t') ->
  conns_ok t' /\
  match o with
  | OpAllow key _ _ _ _ _ _ | OpConnect key =>
      r = nextConnectionNumber t /\
      exists c, number c = r /\ rh_publicKey (c_routeHeader c) = key /\
        isOutgoing c = (match o with OpConnect _ => true | _ => false end) /\
        connections t' ≡ₚ c :: connections t
  | OpDisconnect n =>
      (r = 0 /\ exists c, number c = n /\ connections t ≡ₚ c :: connections t') \/
      (r = IpTunnel_removeConnection_NOT_FOUND /\ t' = t /\ forall c, c ∈ connections t -> number c <> n)
  end.
Proof.
  intros Hok Hlt. pose proof (co_next _ Hok) as Hn. destruct o as [key ip6 p6 a6 ip4 p4 a4|key|n]; cbn [tunnel_step].
  - intros (-> & Hn' & c & Hc & Ho & Hk & Hp)%allow_spec; [|lia].
    split; [by apply (conns_ok_add t c)|]. split; [done|]. by exists c.
  - destruct (IpTunnel_connectTo malloc key t) as [[[r1 t1] outs]|] eqn:E; [|done].
    cbn [mbind Er_bind]. intros [= <- <-].
    apply connect_spec in E as (-> & Hn' & c & msg & Hc & Ho & Hk & Hp & _); [|lia].
    split; [by apply (conns_ok_add t c)|]. split; [done|]. by exists c.
  - destruct (removeConnection_spec n t (co_nodup _ Hok)) as [Hyes Hno].
    destruct (decide (Exists (fun c => number c = n) (connections t))) as [(c & Hc & Hcn)%Exists_exists|Hn0].
    + destruct (Hyes c Hc Hcn) as (t1 & -> & Hp & Hn'). intros [= <- <-].
      split; [by apply (conns_ok_remove t c)|]. left. split; [done|]. by exists c.
    + assert (Hall : forall c, c ∈ connections t -> number c <> n).
      { intros c Hc Hcn. apply Hn0, Exists_exists. by exists c. }
      rewrite Hno by done. intros [= <- <-]. split; [done|]. by right.
Qed.

(** ** Address blocks *)

(** The block of [alloc] leading bits of [ref] has the address [a]; an [alloc] of
    zero is no block. *)
Definition in_block (width : Z) (a ref : list Z) (alloc : Z) : bool :=
  negb (alloc =? 0) && (Z.shiftr (be_val a) (width - alloc) =? Z.shiftr (be_val ref) (width - alloc)).

Lemma GET64_spec at_ buf : at_ mod 4 = 0 -> (8 <= length buf)%nat -> bytes buf ->
  GET64 at_ buf = Ret (be_val (rd 0 8 buf)).
Proof.
  intros Ha Hl Hb. unfold GET64. rewrite Ha. cbn [Z.eqb Assert_true mbind Er_bind]. f_equal.
  destruct (list_split_at 4 buf) as (x & r & -> & Hx); [lia|]. rewrite length_app in Hl.
  destruct (list_split_at 4 r) as (y & r' & -> & Hy); [lia|].
  apply bytes_app in Hb as [Hbx Hb]. apply bytes_app in Hb as [Hby _].
  rewrite rd_app_0, (rd_app 4 4 x y r') by lia. rewrite (app_assoc x y), rd_app_0 by (rewrite length_app; lia).
  pose proof (le_val_bound x Hbx) as Hvx. pose proof (le_val_bound y Hby) as Hvy. rewrite Hx in Hvx. rewrite Hy in Hvy.
  change (8 * 4) with 32 in *.
  assert (E : Z.lor (u64 (le_val x)) (u64 (Z.shiftl (le_val y) 32)) = le_val (x ++ y)).
  { unfold u64. rewrite (Z.mod_small (le_val x)) by (unfold fits in Hvx; lia).
    rewrite Z.mod_small; [|rewrite Z.shiftl_mul_pow2 by lia; unfold fits in Hvy; lia].
    rewrite lor_shiftl_add, le_val_app, Hx by (lia || done). change (8 * 4) with 32. lia. }
  rewrite E. apply host64; [rewrite length_app; lia|by apply bytes_app].
Qed.

Lemma GET32_spec at_ buf : at_ mod 4 = 0 -> length buf = 4%nat -> bytes buf ->
  GET32 at_ buf = Ret (be_val buf).
Proof.
  intros Ha Hl Hb. unfold GET32. rewrite Ha. cbn [Z.eqb Assert_true mbind Er_bind]. f_equal.
  rewrite rd_whole by lia. by apply host32.
Qed.

Lemma lxor_shiftr_0 a b n : (Z.shiftr (Z.lxor a b) n =? 0) = (Z.shiftr a n =? Z.shiftr b n).
Proof. rewrite Z.shiftr_lxor. apply eq_true_iff_eq. rewrite !Z.eqb_eq. apply Z.lxor_eq_0_iff. Qed.

(** Sixteen bytes as two halves. *)
Lemma halves16 (a : list Z) : length a = 16%nat -> exists h l, a = h ++ l /\ length h = 8%nat /\ length l = 8%nat.
Proof.
  intros Ha. exists (take 8 a), (drop 8 a). rewrite take_drop, length_take, length_drop. split; [done|lia].
Qed.

Lemma shiftr_halves h l h' l' n : bytes l -> bytes l' -> length l = 8%nat -> length l' = 8%nat ->
  0 < n <= 128 ->
  (Z.shiftr (be_val (h ++ l)) (128 - n) =? Z.shiftr (be_val (h' ++ l')) (128 - n)) =
  if n <=? 64 then Z.shiftr (be_val h) (64 - n) =? Z.shiftr (be_val h') (64 - n)
  else (be_val h =? be_val h') &&
       (Z.shiftr (be_val l) (128 - n) =? Z.shiftr (be_val l') (128 - n)).
Proof.
  intros Hb Hb' Hl Hl' Hn. rewrite !be_val_app, Hl, Hl'. change (8 * Z.of_nat 8) with 64.
  pose proof (be_val_bound l Hb) as Hv. pose proof (be_val_bound l' Hb') as Hv'.
  rewrite Hl in Hv. rewrite Hl' in Hv'. change (8 * Z.of_nat 8) with 64 in *.
  destruct (Z.leb_spec n 64).
  - assert (Hs : forall x y, fits 64 y -> Z.shiftr (x * 2 ^ 64 + y) (128 - n) = Z.shiftr x (64 - n)).
    { intros x y Hy. replace (128 - n) with (64 + (64 - n)) by lia. rewrite <- Z.shiftr_shiftr by lia. f_equal.
      rewrite Z.shiftr_div_pow2 by lia. unfold fits in Hy. rewrite Z.add_comm, Z_div_plus_full, Z.div_small by lia. lia. }
    by rewrite !Hs.
  - assert (Hs : forall x y, Z.shiftr (x * 2 ^ 64 + y) (128 - n) = x * 2 ^ (n - 64) + Z.shiftr y (128 - n)).
    { intros x y. rewrite !Z.shiftr_div_pow2 by lia.
      replace (x * 2 ^ 64) with (x * 2 ^ (n - 64) * 2 ^ (128 - n))
        by (rewrite <- Z.mul_assoc, <- Z.pow_add_r by lia; do 2 f_equal; lia).
      pose proof (Z.pow_pos_nonneg 2 (128 - n)). rewrite Z.add_comm, Z_div_plus_full by lia. lia. }
    rewrite !Hs. pose proof (fits_shiftr 64 (128 - n) _ ltac:(lia) Hv) as F1.
    pose proof (fits_shiftr 64 (128 - n) _ ltac:(lia) Hv') as F2.
    replace (64 - (128 - n)) with (n - 64) in F1, F2 by lia. unfold fits in F1, F2.
    apply eq_true_iff_eq. rewrite andb_true_iff, !Z.eqb_eq. split; [|by intros [-> ->]].
    rewrite !(Z.mul_comm _ (2 ^ _)). intros E. apply Z.div_mod_unique in E; [done|lia..].
Qed.

Lemma prefixMatches6_spec atA a ref n :
  atA mod 4 = 0 -> bytes a -> bytes ref -> length a = 16%nat -> length ref = 16%nat -> 0 < n <= 128 ->
  prefixMatches6 atA a ref n = Ret (in_block 128 a ref n).
Proof.
  intros HA Ha Hr Hla Hlr Hn. unfold prefixMatches6, in_block. zdecide (n =? 0). zdecide (n <=? 128).
  cbn [Assert_true mbind Er_bind negb andb].
  destruct (halves16 a Hla) as (h & l & -> & Hh & Hl), (halves16 ref Hlr) as (h' & l' & -> & Hh' & Hl').
  apply bytes_app in Ha as [Hbh Hbl], Hr as [Hbh' Hbl'].
  rewrite !drop_app_length' by done.
  rewrite !GET64_spec by (done || lia || (rewrite length_app; lia) || (apply bytes_app; done)
    || (rewrite Z.add_mod, HA by lia; done)). cbn [mbind Er_bind].
  rewrite !rd_app_0 by lia. rewrite shiftr_halves by done. destruct (n <=? 64); [by rewrite lxor_shiftr_0|].
  rewrite !rd_whole by lia. f_equal. rewrite <- lxor_shiftr_0. apply eq_true_iff_eq.
  rewrite andb_true_iff, !Z.eqb_eq, Z.lor_eq_0_iff, Z.lxor_eq_0_iff. done.
Qed.

Lemma prefixMatches4_spec atA a ref n :
  atA mod 4 = 0 -> bytes a -> bytes ref -> length a = 4%nat -> length ref = 4%nat -> 0 < n <= 32 ->
  prefixMatches4 atA a ref n = Ret (in_block 32 a ref n).
Proof.
  intros HA Ha Hr Hla Hlr Hn. unfold prefixMatches4, in_block. zdecide (n =? 0). zdecide (n <=? 32).
  cbn [Assert_true mbind Er_bind negb andb]. rewrite !GET32_spec by done. cbn [mbind Er_bind].
  by rewrite lxor_shiftr_0.
Qed.

(** ** Packets *)

Definition conn_wf (c : Connection) : Prop :=
  RouteHeader_wf (c_routeHeader c) /\
  (bytes (connectionIp6 c) /\ length (connectionIp6 c) = 16%nat /\ 0 <= connectionIp6Alloc c) /\
  (bytes (connectionIp4 c) /\ length (connectionIp4 c) = 4%nat /\ 0 <= connectionIp4Alloc c).

(** The source or destination of an IP packet. *)
Definition packet_address (six src : bool) (pkt : list Z) : list Z :=
  if six then rd (if src then 8 else 24) 16 pkt else rd (if src then 12 else 16) 4 pkt.

(** The address which counts lies in the block of the connection; addresses of the
    mesh itself (fc00::/8) never pass. *)
Definition owns (six isFromTun : bool) (conn : Connection) (pkt : list Z) : Prop :=
  if six then
    AddressCalc_validAddress (packet_address true true pkt) = false /\
    AddressCalc_validAddress (packet_address true false pkt) = false /\
    in_block 128 (packet_address true (compareSource isFromTun conn) pkt) (connectionIp6 conn)
      (connectionIp6Alloc conn) = true
  else in_block 32 (packet_address false (compareSource isFromTun conn) pkt) (connectionIp4 conn)
         (connectionIp4Alloc conn) = true.

Lemma prefixMatches6_true atA a ref n : bytes a -> bytes ref -> length a = 16%nat -> length ref = 16%nat ->
  0 <= n -> prefixMatches6 atA a ref n = Ret true -> in_block 128 a ref n = true.
Proof.
  intros Ha Hr Hla Hlr Hn E. assert (Hc : atA mod 4 = 0 /\ 0 < n <= 128).
  { unfold prefixMatches6 in E. destruct (Z.eqb_spec n 0); [by destruct (Bits_isZero ref)|].
    destruct (Z.leb_spec n 128); [|done]. unfold GET64 in E. destruct (Z.eqb_spec (atA mod 4) 0); [lia|done]. }
  destruct Hc. rewrite prefixMatches6_spec in E by done. congruence.
Qed.

Lemma prefixMatches4_true atA a ref n : bytes a -> bytes ref -> length a = 4%nat -> length ref = 4%nat ->
  0 <= n -> prefixMatches4 atA a ref n = Ret true -> in_block 32 a ref n = true.
Proof.
  intros Ha Hr Hla Hlr Hn E. assert (Hc : atA mod 4 = 0 /\ 0 < n <= 32).
  { unfold prefixMatches4 in E. destruct (Z.eqb_spec n 0); [by destruct (Bits_isZero ref)|].
    destruct (Z.leb_spec n 32); [|done]. unfold GET32 in E. destruct (Z.eqb_spec (atA mod 4) 0); [lia|done]. }
  destruct Hc. rewrite prefixMatches4_spec in E by done. congruence.
Qed.

Lemma valid6_owns at_ pkt isFromTun conn : conn_wf conn -> bytes pkt -> 40 <= len pkt ->
  isValidAddress6 at_ (rd 8 32 pkt) isFromTun conn = Ret true -> owns true isFromTun conn pkt.
Proof.
  intros (_ & (Hb & Hl & Ha) & _) Hp Hlen. unfold isValidAddress6, owns, packet_address.
  rewrite !rd_rd by (try destruct (compareSource isFromTun conn); lia). change (8 + 0) with 8. change (8 + 16) with 24.
  destruct (AddressCalc_validAddress (rd 8 16 pkt)); [done|].
  destruct (AddressCalc_validAddress (rd 24 16 pkt)); [done|]. cbn [orb]. intros E. split_and!; try done.
  apply prefixMatches6_true in E; try done.
  - by destruct (compareSource isFromTun conn).
  - by apply rd_bytes.
  - apply length_rd_in; destruct (compareSource isFromTun conn); lia.
Qed.

Lemma valid4_owns at_ pkt isFromTun conn : conn_wf conn -> bytes pkt -> 20 <= len pkt ->
  isValidAddress4 at_ (rd 12 8 pkt) isFromTun conn = Ret true -> owns false isFromTun conn pkt.
Proof.
  intros (_ & _ & Hb & Hl & Ha) Hp Hlen. unfold isValidAddress4, owns, packet_address.
  rewrite !rd_rd by (try destruct (compareSource isFromTun conn); lia). intros E.
  apply prefixMatches4_true in E; try done.
  - by destruct (compareSource isFromTun conn).
  - by apply rd_bytes.
  - apply length_rd_in; destruct (compareSource isFromTun conn); lia.
Qed.

Lemma findConnection_true valid cs conn :
  findConnection valid cs = Ret (Some conn) -> conn ∈ cs /\ valid conn = Ret true.
Proof.
  induction cs as [|c cs IH]; cbn [findConnection]; [done|]. intros E. er_inv.
  destruct x; er_inv; [|destruct IH; [done|]; split; [by apply list_elem_of_further|done]].
  simplify_eq. split; [constructor|done].
Qed.

(** *** Sending *)

Definition data_header : list Z := [16; 0; 1; 1].

Lemma sendToNode_view m pre room c post conn :
  RouteHeader_wf (c_routeHeader conn) -> msg_view m (pre ++ room) c post -> length room = 72%nat ->
  exists m', sendToNode m conn = Ret m' /\
    msg_view m' pre (RouteHeader_bytes (c_routeHeader conn) ++ data_header ++ c) post /\
    msg_addr m' + msg_bytes m' = msg_addr m + msg_bytes m - 72.
Proof.
  intros Hrh Hv Hr. destruct (list_split_at 68 room ltac:(lia)) as (r1 & r2 & -> & Hr1).
  rewrite length_app in Hr. rewrite app_assoc in Hv. pose proof (RouteHeader_length _ Hrh) as Hrl.
  unfold sendToNode.
  destruct (epush_view m (pre ++ r1) r2 c post None DataHeader_SIZE Hv) as (m1 & E1 & Hv1 & _);
    [unfold DataHeader_SIZE; lia|lia|]. rewrite E1. cbn [mbind Er_bind].
  assert (msg_read m1 0 DataHeader_SIZE = zeros 4) as ->
    by exact (msg_read_view m1 (pre ++ r1) [] (zeros DataHeader_SIZE) c post Hv1).
  unfold DataHeader_setContentType. change (Assert_true _) with (Ret tt). cbn [mbind Er_bind].
  change (DataHeader_bytes _) with data_header.
  pose proof (msg_write_view m1 (pre ++ r1) [] (zeros DataHeader_SIZE) c post data_header Hv1 eq_refl) as Hv2.
  cbn [app length] in Hv2. change (Z.of_nat 0) with 0 in Hv2. set (m2 := msg_write m1 0 data_header) in *.
  destruct (epush_view m2 pre r1 (data_header ++ c) post (Some (RouteHeader_bytes (c_routeHeader conn)))
              RouteHeader_SIZE Hv2) as (m3 & E3 & Hv3 & _); [change RouteHeader_SIZE with 68; lia|lia|].
  exists m3. split_and!; [done| |].
  - rewrite take_ge in Hv3 by lia. exact Hv3.
  - apply epush_ret in E1 as (_ & _ & H1 & H2); [|change DataHeader_SIZE with 4; lia].
    apply epush_ret in E3 as (_ & _ & H3 & H4); [|change RouteHeader_SIZE with 68; lia].
    change RouteHeader_SIZE with 68 in H4. change DataHeader_SIZE with 4 in H2.
    change (msg_addr m2) with (msg_addr m1) in H3. change (msg_bytes m2) with (msg_bytes m1) in H4. lia.
Qed.

Lemma sendToNode_content m pre c post conn m' :
  RouteHeader_wf (c_routeHeader conn) -> msg_view m pre c post -> sendToNode m conn = Ret m' ->
  msg_content m' = RouteHeader_bytes (c_routeHeader conn) ++ data_header ++ c.
Proof.
  intros Hrh Hv E. assert (72 <= len pre).
  { unfold sendToNode in E. er_inv. apply epush_ret in E0 as (H1 & H2 & _); [|change DataHeader_SIZE with 4; lia].
    apply epush_ret in E as (H3 & _); [|change RouteHeader_SIZE with 68; lia].
    change RouteHeader_SIZE with 68 in H3. change DataHeader_SIZE with 4 in H1, H2. cbn [msg_padding msg_write] in H3.
    destruct Hv as (? & ? & _ & _ & Hp & _). lia. }
  destruct (list_split_at (len pre - 72) pre ltac:(lia)) as (p & room & -> & Hp). rewrite length_app in *.
  destruct (sendToNode_view m p room c post conn Hrh Hv ltac:(lia)) as (m1 & E1 & Hv1 & _).
  rewrite E in E1. injection E1 as <-. by eapply msg_view_content.
Qed.

Definition ethertype (six : bool) : Z := if six then Ethernet_TYPE_IP6 else Ethernet_TYPE_IP4.

Lemma TUN_push_content m pre c post type m' :
  msg_view m pre c post -> TUNMessageType_push m type = Ret m' ->
  msg_content m' = le_bytes 2 0 ++ le_bytes 2 type ++ c.
Proof.
  intros Hv E. unfold TUNMessageType_push in E. er_inv. pose proof E0 as Hs.
  apply eshift_ret in Hs as (H1 & _); [|lia].
  assert (4 <= len pre) by (destruct Hv as (? & ? & _ & _ & Hp & _); lia).
  destruct (list_split_at (len pre - 4) pre ltac:(lia)) as (p & room & -> & Hp). rewrite length_app in *.
  destruct (list_split_at 2 room ltac:(lia)) as (r1 & r2 & -> & Hr1). rewrite length_app in *.
  destruct (eshift_push m p (r1 ++ r2) c post Hv) as (m1 & E1 & Hv1 & _).
  replace (len (r1 ++ r2)) with 4 in E1 by (rewrite length_app; lia). rewrite E0 in E1. injection E1 as <-.
  rewrite <- app_assoc in Hv1.
  pose proof (msg_write_view x p [] r1 (r2 ++ c) post (le_bytes 2 0) Hv1 ltac:(rewrite length_le_bytes; lia)) as Hv2.
  cbn [app] in Hv2. change (len (@nil Z)) with 0 in Hv2.
  pose proof (msg_write_view _ p (le_bytes 2 0) r2 c post (le_bytes 2 type) Hv2
                ltac:(rewrite length_le_bytes; lia)) as Hv3.
  rewrite length_le_bytes in Hv3. by eapply msg_view_content.
Qed.

(** *** Control messages send nothing to the TUN device *)

Definition quiet (outs : list Out) : Prop := forall m, ToTun m ∉ outs.

Lemma quiet_nil : quiet [].
Proof. by intros m ?%not_elem_of_nil. Qed.
Lemma quiet_one o : (forall m, o <> ToTun m) -> quiet [o].
Proof. intros Ho m E%list_elem_of_singleton. by apply (Ho m). Qed.
Lemma quiet_app a b : quiet a -> quiet b -> quiet (a ++ b).
Proof. intros Ha Hb m [?|?]%elem_of_app; [by apply (Ha m)|by apply (Hb m)]. Qed.
Create HintDb quiet.
#[local] Hint Resolve quiet_nil quiet_app : quiet.
#[local] Hint Extern 1 (quiet [_]) => apply quiet_one; done : quiet.

Section Quiet.
Context (malloc : Z -> Z * list Z) `{InetText} (at_ : Z).

Lemma requestForAddresses_quiet d conn outs : requestForAddresses malloc d conn = Ret outs -> quiet outs.
Proof.
  unfold requestForAddresses. destruct (isOutgoing conn); [intros [= <-]; auto with quiet|].
  destruct (negb (Bits_isZero (connectionIp6 conn))), (negb (Bits_isZero (connectionIp4 conn)));
    intros E; er_inv; auto with quiet.
Qed.

Lemma addAddress_quiet a p n t t' outs : addAddress at_ a p n t = Ret (t', outs) -> quiet outs.
Proof.
  unfold addAddress. destruct (tunName t); [|intros [= <- <-]; auto with quiet]. intros E. er_inv.
  destruct x as [ss|]; er_inv; [|simplify_eq; auto with quiet].
  destruct x; er_inv; simplify_eq; auto with quiet.
Qed.

Lemma accept4_quiet ad i conn t conn' t' outs :
  accept4 at_ ad i conn t = Ret (conn', t', outs) -> quiet outs.
Proof.
  unfold accept4. destruct (getDictString ad "ip4") as [ip|]; [|intros [= <- <- <-]; auto with quiet].
  destruct (len ip =? 4); [|intros [= <- <- <-]; auto with quiet]. intros E. er_inv. destruct x as [t1 o1].
  er_inv. simplify_eq. by eapply addAddress_quiet.
Qed.
Lemma accept6_quiet ad i conn t conn' t' outs :
  accept6 at_ ad i conn t = Ret (conn', t', outs) -> quiet outs.
Proof.
  unfold accept6. destruct (getDictString ad "ip6") as [ip|]; [|intros [= <- <- <-]; auto with quiet].
  destruct (len ip =? 16); [|intros [= <- <- <-]; auto with quiet]. intros E. er_inv. destruct x as [t1 o1].
  er_inv. simplify_eq. by eapply addAddress_quiet.
Qed.

Lemma commit_routes_quiet t t' outs : commit_routes t = Ret (t', outs) -> quiet outs.
Proof.
  unfold commit_routes. destruct (rg_hasUncommittedChanges (rg t)); [|intros [= <- <-]; auto with quiet].
  destruct (tunName t); [|intros [= <- <-]; auto with quiet]. intros E. er_inv. destruct x. er_inv.
  simplify_eq. auto with quiet.
Qed.

Lemma incomingAddresses_quiet d i conn t t' outs :
  incomingAddresses at_ d i conn t = Ret (t', outs) -> quiet outs.
Proof.
  unfold incomingAddresses. destruct (negb (isOutgoing conn)); [intros [= <- <-]; auto with quiet|].
  destruct (getDictString (Some d) "txid") as [txid|]; [|intros [= <- <-]; auto with quiet].
  destruct (negb (len txid =? 4)); [intros [= <- <-]; auto with quiet|]. cbv zeta.
  destruct (_ || _); [intros [= <- <-]; auto with quiet|].
  match goal with |- context [match ?r with Some _ => _ | None => _ end] => destruct r as [k|] end;
    [|intros [= <- <-]; auto with quiet].
  destruct (connections t !! k) as [c|]; [|done]. intros E. er_inv.
  destruct x as [[c1 t1] o1]. er_inv. destruct x as [[c2 t2] o2]. er_inv. destruct x as [t3 o3]. er_inv.
  simplify_eq. apply quiet_app; [by eapply accept4_quiet|]. apply quiet_app; [by eapply accept6_quiet|].
  by eapply commit_routes_quiet.
Qed.

Lemma incomingControlMessage_quiet m i conn t t' outs :
  incomingControlMessage malloc at_ m i conn t = Ret (t', outs) -> quiet outs.
Proof.
  unfold incomingControlMessage. intros E. er_inv. destruct x as [[] m1]; [injection E as <- <-; auto with quiet|].
  er_inv. destruct x as [m2 [[err|] [d|]]]; try done; [injection E as <- <-; auto with quiet..|].
  destruct (Dict_getDict (Some d) (Some (chars "addresses"))); [by eapply incomingAddresses_quiet|].
  destruct (String_equals _ _); [|injection E as <- <-; auto with quiet]. er_inv. simplify_eq.
  by eapply requestForAddresses_quiet.
Qed.
End Quiet.

(** *** Isolation *)

(** What passes from a node to the TUN device. *)
Definition delivered (t : IpTunnel) (c : list Z) (out : Message) : Prop :=
  exists conn six, conn ∈ connections t /\ rd 0 32 c = rh_publicKey (c_routeHeader conn) /\
    owns six false conn (drop 72 c) /\
    msg_content out = le_bytes 2 0 ++ le_bytes 2 (ethertype six) ++ drop 72 c.

(** What passes from the TUN device to a node. *)
Definition tunnelled (t : IpTunnel) (c : list Z) (out : Message) : Prop :=
  exists conn six, conn ∈ connections t /\ owns six true conn c /\
    msg_content out = RouteHeader_bytes (c_routeHeader conn) ++ data_header ++ c.

Lemma fromNode_passes malloc `{InetText} at_ m pre c pkt post i conn t t' outs out :
  conn_wf conn -> msg_view m pre pkt post -> bytes pkt -> conn ∈ connections t ->
  drop 72 c = pkt -> rd 0 32 c = rh_publicKey (c_routeHeader conn) ->
  (40 < len pkt /\ ip6FromNode malloc at_ m i conn t = Ret (t', outs) \/
   20 < len pkt /\ ip4FromNode m conn t = Ret (t', outs)) ->
  ToTun out ∈ outs -> delivered t c out /\ t' = t.
Proof.
  intros Hw Hv Hb Hin Hd Hk [[Hl E]|[Hl E]] Ho.
  - unfold ip6FromNode in E. rewrite !(msg_read_sub m pre pkt post) in E by (done || lia).
    destruct (_ || _).
    { destruct (Bits_isZero (rd 8 32 pkt)); [|injection E as <- <-; by apply not_elem_of_nil in Ho].
      exfalso. by apply (incomingControlMessage_quiet _ _ _ _ _ _ _ _ E out). }
    er_inv. destruct x; cbn [negb] in E; er_inv; simplify_eq; [|by apply not_elem_of_nil in Ho].
    apply list_elem_of_singleton in Ho. injection Ho as ->. split; [|done]. exists conn, true.
    split_and!; [done|done| |]; [eapply valid6_owns; [..|exact E0]; (done || lia)|].
    by eapply TUN_push_content.
  - unfold ip4FromNode in E. rewrite !(msg_read_sub m pre pkt post) in E by (done || lia).
    destruct (_ || _); [injection E as <- <-; by apply not_elem_of_nil in Ho|].
    er_inv. destruct x; cbn [negb] in E; er_inv; simplify_eq; [|by apply not_elem_of_nil in Ho].
    apply list_elem_of_singleton in Ho. injection Ho as ->. split; [|done]. exists conn, false.
    split_and!; [done|done| |]; [eapply valid4_owns; [..|exact E0]; (done || lia)|].
    by eapply TUN_push_content.
Qed.

Lemma fromNode_delivers malloc `{InetText} at_ m pre c post t t' outs out :
  Forall conn_wf (connections t) -> msg_view m pre c post -> bytes c ->
  incomingFromNode malloc at_ m t = Ret (t', outs) -> ToTun out ∈ outs -> delivered t c out /\ t' = t.
Proof.
  intros Hw Hv Hb E Ho. unfold incomingFromNode in E. er_inv. rename E0 into Hge. clear E1.
  rewrite (msg_view_length _ _ _ _ Hv) in Hge. apply Z.geb_le in Hge.
  change (RouteHeader_SIZE + DataHeader_SIZE) with 72 in *. change RouteHeader_SIZE with 68 in *.
  rewrite (msg_read_sub m pre c post 0 68) in E by (done || lia).
  destruct (connectionByPubKey _ t) as [i|] eqn:Ek; [|injection E as <- <-; by apply not_elem_of_nil in Ho].
  unfold connectionByPubKey in Ek. apply findIndex_Some in Ek as (conn & Hi & Hkey%Z.eqb_eq). rewrite Hi in E.
  assert (Hc : conn ∈ connections t) by (by eapply list_elem_of_lookup_2).
  pose proof Hw as Hw'. rewrite Forall_forall in Hw'. pose proof (Hw' conn Hc) as Hcw.
  assert (Hk : rd 0 32 c = rh_publicKey (c_routeHeader conn)).
  { unfold RouteHeader_of in Hkey. cbn [rh_publicKey] in Hkey. rewrite rd_rd in Hkey by lia.
    apply memcmp_eq in Hkey; [done|]. destruct Hcw as ((-> & _) & _). apply length_rd_in; lia. }
  er_inv. destruct (list_split_at 72 c ltac:(lia)) as (h & pkt & -> & Hh).
  destruct (eshift_pop m pre h pkt post Hv) as (m1 & E2 & Hv1 & _). rewrite Hh in E2. rewrite E0 in E2.
  injection E2 as ->. apply bytes_app in Hb as [_ Hb].
  rewrite (msg_view_length _ _ _ _ Hv1) in E.
  assert (Hd : drop 72 (h ++ pkt) = pkt) by (apply drop_app_length'; lia).
  eapply (fromNode_passes malloc at_ m1); [done|done|done|done|done|done| |exact Ho].
  destruct (Z.gtb_spec (len pkt) 40) as [H6|H6]; cbn [andb] in E.
  - destruct (Headers_getIpVersion _ =? 6); [by left|].
    destruct (Z.gtb_spec (len pkt) 20); [|lia]. cbn [andb] in E.
    destruct (Headers_getIpVersion _ =? 4); [by right|]. injection E as <- <-. by apply not_elem_of_nil in Ho.
  - destruct (Z.gtb_spec (len pkt) 20); cbn [andb] in E;
      [destruct (Headers_getIpVersion _ =? 4); [by right|]|]; injection E as <- <-; by apply not_elem_of_nil in Ho.
Qed.

Lemma fromTun_tunnels m pre c post t outs out :
  Forall conn_wf (connections t) -> msg_view m pre c post -> bytes c ->
  incomingFromTun m t = Ret outs -> ToNode out ∈ outs -> tunnelled t c out.
Proof.
  intros Hw Hv Hb E Ho. unfold incomingFromTun in E. er_inv. rewrite Forall_forall in Hw.
  destruct x as [conn|]; [|injection E as <-; by apply not_elem_of_nil in Ho]. er_inv.
  apply list_elem_of_singleton in Ho. injection Ho as ->.
  rewrite (msg_view_length _ _ _ _ Hv) in E0.
  assert (Hc : conn ∈ connections t /\ exists six, owns six true conn c).
  { destruct (connectionCapacity t =? 0); [done|].
    destruct (Z.gtb_spec (len c) 40); cbn [andb] in E0;
      [destruct (Headers_getIpVersion _ =? 6); cbn [andb] in E0|].
    - rewrite (msg_read_sub m pre c post) in E0 by (done || lia).
      apply findConnection_true in E0 as [Hc Hval]. split; [done|]. exists true.
      eapply valid6_owns; [..|exact Hval]; auto; lia.
    - destruct (_ && _); [|done]. rewrite (msg_read_sub m pre c post) in E0 by (done || lia).
      apply findConnection_true in E0 as [Hc Hval]. split; [done|]. exists false.
      eapply valid4_owns; [..|exact Hval]; auto; lia.
    - destruct (Z.gtb_spec (len c) 20); cbn [andb] in E0; [|done].
      destruct (_ =? 4); [|done]. rewrite (msg_read_sub m pre c post) in E0 by (done || lia).
      apply findConnection_true in E0 as [Hc Hval]. split; [done|]. exists false.
      eapply valid4_owns; [..|exact Hval]; auto; lia. }
  destruct Hc as [Hc [six Hown]]. exists conn, six. split_and!; [done|done|].
  eapply sendToNode_content; [|done|done]. by apply (Hw conn).
Qed.

(** [C15] Isolation: a packet of a node only reaches the TUN device if a connection
    has the node's public key and its block has the packet's source address (the
    destination if the connection is ours), and is passed on unchanged behind its
    ethertype; a packet of the TUN device only reaches the node of a connection
    whose block has its destination (its source), and is passed on unchanged
    behind the headers for that node.  Addresses of the mesh never pass, and
    connections are not changed by such packets. *)
Theorem tunnel_isolation malloc `{InetText} at_ m pre c post t :
  Forall conn_wf (connections t) -> msg_view m pre c post -> bytes c ->
  (forall t' outs out, incomingFromNode malloc at_ m t = Ret (t', outs) -> ToTun out ∈ outs ->
     delivered t c out /\ t' = t) /\
  (forall outs out, incomingFromTun m t = Ret outs -> ToNode out ∈ outs -> tunnelled t c out).
Proof.
  intros Hw Hv Hb. split; [intros t' outs out E Ho|intros outs out E Ho].
  - by eapply fromNode_delivers.
  - by eapply fromTun_tunnels.
Qed.

(** ** Control messages arrive as they were sent *)

Definition control_text (d : Dict) (text : list Z) : Prop :=
  exists zs, Forall (eq 48) zs /\ text = 100 :: zs ++ entries_text d ++ [101].

Definition ip6_header (payload : Z) : list Z := [96; 0; 0; 0] ++ be_bytes 2 payload ++ [17; 0].
Definition udp_packet (text : list Z) (ck : Z) : list Z :=
  with_field (zeros 4 ++ be_bytes 2 (len text)) text ck.

(** The packet which carries a dictionary. *)
Definition control_packet (d : Dict) (pkt : list Z) : Prop :=
  exists text ck, control_text d text /\ len text <= 1024 /\
    pkt = ip6_header (8 + len text) ++ zeros 32 ++ udp_packet text ck /\
    Checksum_udpIp6_be 0 (zeros 32) 0 (udp_packet text ck) (8 + len text) = Ret 0.

Lemma udp_packet_length text ck : len (udp_packet text ck) = 8 + len text.
Proof.
  unfold udp_packet, with_field. rewrite !length_app, length_be_bytes, length_le_bytes. cbn [length zeros].
  change (length (zeros 4)) with 4%nat. lia.
Qed.

(** Only the parity of the addresses matters. *)
Lemma checksum_even a b ips pkt n ty : a mod 2 = 0 -> b mod 2 = 0 ->
  Checksum_Ip6_be a ips b pkt n ty = Checksum_Ip6_be 0 ips 0 pkt n ty.
Proof. intros Ha Hb. unfold Checksum_Ip6_be, Checksum_step. by rewrite Ha, Hb. Qed.

Lemma udp_checksum a b text : a mod 2 = 0 -> b mod 2 = 0 -> bytes text -> len text <= 1024 ->
  exists ck, Checksum_udpIp6_be a (zeros 32) b (udp_packet text 0) (8 + len text) = Ret ck /\
    Checksum_udpIp6_be 0 (zeros 32) 0 (udp_packet text ck) (8 + len text) = Ret 0.
Proof.
  intros Ha Hb Ht Hl.
  destruct (checksum_ip6_verifies a (zeros 32) b (zeros 4 ++ be_bytes 2 (len text)) text
              (Endian_hostToBigEndian32 17)) as (ck & E1 & E2); try done.
  - apply zeros_bytes.
  - apply bytes_app. split; [apply zeros_bytes|apply be_bytes_bytes].
  - pose proof (udp_packet_length text 0) as H. unfold udp_packet in H. rewrite H. lia.
  - exists ck. fold (udp_packet text 0) in E1. fold (udp_packet text ck) in E2.
    rewrite udp_packet_length in E1, E2. split; [exact E1|].
    unfold Checksum_udpIp6_be. rewrite <- E2. symmetry. by apply checksum_even.
Qed.

(** What [BencMessageWriter_write] can send, short enough for the headers. *)
Definition control_ok (d : Dict) : Prop :=
  sendable d /\ obj_bytes (Object_DICT d) /\ (length (dict_text d) <= 850)%nat.

Lemma ip_version_set n : Headers_setIpVersion Headers_IP6Header_SIZE (zeros 4 ++ be_bytes 2 n ++ [17; 0]) = ip6_header n.
Proof. reflexivity. Qed.

(** Lengths of byte strings. *)
Lemma control_headers_view m pre r40 r8 text :
  msg_view m ((pre ++ r40) ++ r8) text [] -> length r40 = 40%nat -> length r8 = 8%nat ->
  bytes text -> len text <= 1024 -> (msg_addr m + msg_bytes m) mod 8 = 0 ->
  exists m' ck, control_headers m = Ret m' /\
    msg_view m' pre (ip6_header (8 + len text) ++ zeros 32 ++ udp_packet text ck) [] /\
    Checksum_udpIp6_be 0 (zeros 32) 0 (udp_packet text ck) (8 + len text) = Ret 0.
Proof.
  intros Hv H40 H8 Htb Htl Hal. unfold control_headers. rewrite (msg_view_length _ _ _ _ Hv).
  destruct (eshift_push m (pre ++ r40) r8 text [] Hv) as (m2 & E2 & Hv2 & _).
  replace (len r8) with Headers_UDPHeader_SIZE in E2 by (unfold Headers_UDPHeader_SIZE; lia).
  rewrite E2. cbn [mbind Er_bind]. apply eshift_ret in E2 as (_ & _ & Ha2 & Hb2); [|unfold Headers_UDPHeader_SIZE; lia].
  rewrite (be_of_port (len text)) by (unfold fits; lia).
  assert (Hv3 := write_start m2 (pre ++ r40) r8 text [] (zeros 4 ++ be_bytes 2 (len text) ++ le_bytes 2 0) Hv2
    ltac:(byte_lens)).
  set (m3 := msg_write m2 0 _) in *. rewrite <- !app_assoc in Hv3.
  rewrite (msg_view_length _ _ _ _ Hv3).
  replace (len (zeros 4 ++ be_bytes 2 (len text) ++ le_bytes 2 0 ++ text)) with (8 + len text)
    by byte_lens.
  destruct (eshift_push m3 pre r40 _ [] Hv3) as (m4 & E4 & Hv4 & _).
  replace (len r40) with Headers_IP6Header_SIZE in E4 by (unfold Headers_IP6Header_SIZE; lia).
  rewrite E4. cbn [mbind Er_bind]. apply eshift_ret in E4 as (_ & _ & Ha4 & Hb4); [|unfold Headers_IP6Header_SIZE; lia].
  change (msg_addr m3) with (msg_addr m2) in Ha4. change (msg_bytes m3) with (msg_bytes m2) in Hb4.
  rewrite be_of_port by (split; lia).
  destruct (list_split_at 8 r40 ltac:(lia)) as (ra & rb & -> & Hra). rewrite length_app in H40.
  rewrite <- app_assoc in Hv4.
  assert (Hv5 := write_start m4 pre ra _ [] (zeros 4 ++ be_bytes 2 (8 + len text) ++ [17; 0]) Hv4
    ltac:(byte_lens)).
  set (m5 := msg_write m4 0 _) in *.
  rewrite (read_part m5 pre [] (zeros 4 ++ be_bytes 2 (8 + len text) ++ [17; 0]) _ [] 0 8 Hv5 eq_refl)
    by byte_lens.
  rewrite ip_version_set. assert (Hv6 := write_start m5 pre _ _ [] (ip6_header (8 + len text)) Hv5
    ltac:(unfold ip6_header; byte_lens)).
  set (m6 := msg_write m5 0 _) in *.
  assert (Hh : len (ip6_header (8 + len text)) = 8) by (unfold ip6_header; byte_lens).
  assert (Hv7 := write_behind m6 pre _ rb _ [] (zeros 32) 8 Hv6 ltac:(byte_lens) ltac:(by rewrite Hh)).
  set (m7 := msg_write m6 8 _) in *.
  change (zeros 4 ++ be_bytes 2 (len text) ++ le_bytes 2 0 ++ text) with
    (zeros 4 ++ be_bytes 2 (len text) ++ (le_bytes 2 0 ++ text)) in Hv7.
  replace (zeros 4 ++ be_bytes 2 (len text) ++ le_bytes 2 0 ++ text) with (udp_packet text 0) in Hv7
    by (unfold udp_packet, with_field; by rewrite <- app_assoc).
  assert (Htot : len (ip6_header (8 + len text) ++ zeros 32 ++ udp_packet text 0) = 48 + len text)
    by (rewrite !length_app, !Nat2Z.inj_add, Hh, udp_packet_length; change (len (zeros 32)) with 32; lia).
  rewrite (msg_view_length _ _ _ _ Hv7), Htot. unfold Headers_IP6Header_SIZE.
  replace (48 + len text - 40) with (8 + len text) by lia.
  rewrite (read_part m7 pre _ (zeros 32) _ [] 8 32 Hv7) by (by rewrite Hh || reflexivity).
  rewrite (read_part m7 pre (ip6_header (8 + len text) ++ zeros 32) (udp_packet text 0) [] [] 40 (8 + len text)).
  2: { by rewrite app_nil_r, <- app_assoc. }
  2: { rewrite length_app, Nat2Z.inj_add, Hh. reflexivity. }
  2: { by rewrite udp_packet_length. }
  assert (Hpos : msg_addr m7 + msg_bytes m7 = msg_addr m + msg_bytes m + -48).
  { change (msg_addr m7) with (msg_addr m4). change (msg_bytes m7) with (msg_bytes m4).
    unfold Headers_UDPHeader_SIZE, Headers_IP6Header_SIZE in *. lia. }
  destruct (udp_checksum (msg_addr m7 + msg_bytes m7 + 8) (msg_addr m7 + msg_bytes m7 + 40) text)
    as (ck & -> & Hck); [rewrite Hpos, <- Z.add_assoc; by apply even_of_8..|done|done|].
  cbn [mbind Er_bind]. eexists _, ck. split; [done|]. split; [|done].
  unfold udp_packet, with_field in Hv7 |- *.
  replace (ip6_header (8 + len text) ++ zeros 32 ++ (zeros 4 ++ be_bytes 2 (len text)) ++ le_bytes 2 0 ++ text)
    with ((ip6_header (8 + len text) ++ zeros 32 ++ zeros 4 ++ be_bytes 2 (len text)) ++ le_bytes 2 0 ++ text)
    in Hv7 by (by rewrite <- !app_assoc).
  apply (write_behind m7 pre _ (le_bytes 2 0) text [] (le_bytes 2 ck) 46) in Hv7.
  - by rewrite <- !app_assoc in Hv7 |- *.
  - by rewrite !length_le_bytes.
  - rewrite !length_app, !Nat2Z.inj_add, Hh, length_be_bytes. reflexivity.
Qed.

Lemma sendControl_view malloc d conn : malloc_ok malloc -> control_ok d ->
  RouteHeader_wf (c_routeHeader conn) ->
  exists m pkt, sendControlMessage malloc d conn = Ret m /\ control_packet d pkt /\
    msg_content m = RouteHeader_bytes (c_routeHeader conn) ++ data_header ++ pkt.
Proof.
  intros Hm (Hd & Hob & Hlen) Hrh. unfold sendControlMessage.
  pose proof (Message_new_view malloc 1024 Hm ltac:(lia)) as Hv. pose proof (Hm 1024) as Hl.
  destruct (malloc 1024) as [addr mem]. cbn [fst snd] in Hv, Hl.
  destruct (list_split_at (1024 - 7 - len (dict_text d)) mem ltac:(lia)) as (P & room & -> & HP).
  rewrite length_app in Hl.
  destruct (write_view d _ P room [] [] Hd Hv ltac:(lia)) as (m1 & spare & zs & -> & Hal & Hz & Hsp & Hv1).
  cbn [mbind Er_bind]. set (text := 100 :: zs ++ entries_text d ++ [101]) in *.
  assert (Htl : len text <= 1024).
  { unfold text, dict_text in *. cbn [length] in *. rewrite !length_app in *. cbn [length] in *. lia. }
  assert (Htb : bytes text).
  { pose proof (obj_text_bytes _ Hob) as Hb. change (obj_text (Object_DICT d)) with (dict_text d) in Hb.
    unfold dict_text, text in *. apply Forall_cons in Hb as [Hb1 Hb2].
    apply Forall_cons. split; [done|]. apply bytes_app. split; [|done].
    eapply Forall_impl; [exact Hz|]. intros x <-. unfold fits. lia. }
  assert (Hpad : 120 <= len (P ++ spare)) by (rewrite length_app; lia).
  destruct (list_split_at (len (P ++ spare) - 120) (P ++ spare) ltac:(lia)) as (p0 & r & Er & Hp0).
  rewrite Er in Hv1, Hpad, Hp0. rewrite length_app in Hpad, Hp0.
  destruct (list_split_at 72 r ltac:(lia)) as (r72 & r48 & -> & Hr72). rewrite length_app in Hpad, Hp0.
  destruct (list_split_at 40 r48 ltac:(lia)) as (r40 & r8 & -> & Hr40). rewrite length_app in Hpad, Hp0.
  rewrite !app_assoc in Hv1. unfold misaligned in Hal. apply negb_false_iff, Z.eqb_eq in Hal.
  destruct (control_headers_view m1 (p0 ++ r72) r40 r8 text) as (m2 & ck & -> & Hv2 & Hck);
    [done|lia|lia|done|done|done|]. cbn [mbind Er_bind].
  destruct (sendToNode_view m2 p0 r72 _ [] conn Hrh Hv2 ltac:(lia)) as (m3 & E3 & Hv3 & _).
  exists m3. eexists. split; [done|]. split.
  - exists text, ck. split_and!; [by exists zs|done|done|done].
  - by eapply msg_view_content.
Qed.

Lemma ip6_header_fields n c : fits 16 n ->
  Endian_bigEndianToHost16 (le_val (rd 4 2 (ip6_header n ++ c))) = n /\ get (ip6_header n ++ c) 6 = 17 /\
  Headers_getIpVersion (rd 0 1 (ip6_header n ++ c)) = 6.
Proof.
  intros Hn. split_and!; [|reflexivity|reflexivity]. unfold ip6_header. rewrite <- !app_assoc.
  rewrite rd_of_app by reflexivity. by apply port_of_be.
Qed.

(** The checks pass, and leave the text. *)
Lemma control_valid m pre text ck post :
  msg_view m pre (ip6_header (8 + len text) ++ zeros 32 ++ udp_packet text ck) post ->
  (msg_addr m + msg_bytes m) mod 2 = 0 -> len text <= 1024 ->
  Checksum_udpIp6_be 0 (zeros 32) 0 (udp_packet text ck) (8 + len text) = Ret 0 ->
  exists m' pre', isControlMessageInvalid m = Ret (false, m') /\ msg_view m' pre' text post.
Proof.
  intros Hv Hev Htl Hck. unfold isControlMessageInvalid.
  assert (Hh : len (ip6_header (8 + len text)) = 8) by (unfold ip6_header; byte_lens).
  set (hd := ip6_header (8 + len text) ++ zeros 32).
  assert (Hhd : len hd = 40) by (unfold hd; rewrite length_app, Nat2Z.inj_add, Hh; reflexivity).
  rewrite app_assoc in Hv. fold hd in Hv.
  rewrite (read_part m pre [] hd (udp_packet text ck) post 0 Headers_IP6Header_SIZE Hv eq_refl) by (by rewrite Hhd).
  destruct (ip6_header_fields (8 + len text) (zeros 32)) as (F1 & F2 & _); [unfold fits; lia|].
  fold hd in F1, F2. rewrite F1, F2. cbn [Z.eqb Pos.eqb negb orb].
  rewrite (msg_view_length _ _ _ _ Hv), length_app, Nat2Z.inj_add, Hhd, udp_packet_length.
  change Headers_IP6Header_SIZE with 40. zdecide (40 + (8 + len text) <? 8 + len text + 40).
  destruct (eshift_pop m pre hd (udp_packet text ck) post Hv) as (m1 & E1 & Hv1 & _).
  rewrite Hhd in E1. rewrite E1. cbn [mbind Er_bind].
  assert (Hu : udp_packet text ck = (zeros 4 ++ be_bytes 2 (len text) ++ le_bytes 2 ck) ++ text)
    by (unfold udp_packet, with_field; by rewrite <- !app_assoc).
  rewrite (read_part m1 (pre ++ hd) [] (udp_packet text ck) [] post 0 (8 + len text)).
  2: { by rewrite app_nil_r. } 2: { done. } 2: { by rewrite udp_packet_length. }
  assert (Hip : rd 8 32 hd = zeros 32) by (unfold hd; rewrite <- (app_nil_r (zeros 32)); by rewrite rd_of_app).
  rewrite Hip. unfold Checksum_udpIp6_be in *.
  rewrite checksum_even by (rewrite <- Zplus_mod_idemp_l, Hev; reflexivity). rewrite Hck.
  cbn [mbind Er_bind Z.eqb negb]. change (8 + len text - Headers_UDPHeader_SIZE) with (8 + len text - 8).
  replace (8 + len text - 8) with (len text) by lia. unfold u16 at 1 2. rewrite (Z.mod_small (len text)) by lia.
  rewrite Hu in Hv1. set (uh := zeros 4 ++ be_bytes 2 (len text) ++ le_bytes 2 ck) in *.
  assert (Huh : len uh = 8) by (unfold uh; byte_lens).
  rewrite (read_part m1 _ [] uh text post 0 Headers_UDPHeader_SIZE Hv1 eq_refl) by (by rewrite Huh).
  assert (Hl2 : rd 4 2 uh = be_bytes 2 (len text)) by (unfold uh; by rewrite rd_of_app).
  rewrite Hl2, port_of_be, Z.eqb_refl by (unfold fits; lia).
  change (rd 0 2 uh) with (zeros 2). change (rd 2 2 uh) with (zeros 2).
  change (le_val (zeros 2)) with 0. cbn [Z.eqb negb orb].
  destruct (eshift_pop m1 _ uh text post Hv1) as (m2 & E2 & Hv2 & _). rewrite Huh in E2.
  change (- Headers_UDPHeader_SIZE) with (- (8)). rewrite E2. cbn [mbind Er_bind].
  eexists _, _. split; [done|]. destruct Hv2 as (sl & tl & ? & ? & ? & Hlen & ?). exists sl, tl.
  cbn [msg_mem msg_bytes msg_padding msg_length msg_capacity]. done.
Qed.

Definition handle_control malloc `{InetText} at_ (d : Dict) (i : nat) (conn : Connection) (t : IpTunnel) :=
  match Dict_getDict (Some d) (Some (chars "addresses")) with
  | Some _ => incomingAddresses at_ d i conn t
  | None =>
      if String_equals (Some getAddresses) (getDictString (Some d) "q")
      then outs ← requestForAddresses malloc d conn; Ret (t, outs)
      else Ret (t, [])
  end.

Lemma control_handled malloc `{InetText} at_ d pkt m pre post i conn t :
  sendable d -> control_packet d pkt -> msg_view m pre pkt post ->
  (msg_addr m + msg_bytes m) mod 2 = 0 ->
  40 < len pkt /\ Headers_getIpVersion (msg_read m 0 1) = 6 /\
  ip6FromNode malloc at_ m i conn t = handle_control malloc at_ (mirror_entries d) i conn t.
Proof.
  intros Hd (text & ck & (zs & Hz & Htext) & Htl & -> & Hck) Hv Hev.
  assert (Hh : len (ip6_header (8 + len text)) = 8) by (unfold ip6_header; byte_lens).
  assert (Hlen : len (ip6_header (8 + len text) ++ zeros 32 ++ udp_packet text ck) = 48 + len text)
    by (rewrite !length_app, !Nat2Z.inj_add, Hh, udp_packet_length; change (len (zeros 32)) with 32; lia).
  split_and!; [lia| |].
  - rewrite (msg_read_sub _ _ _ _ _ _ Hv) by lia.
    apply ip6_header_fields. unfold fits. lia.
  - unfold ip6FromNode.
    assert (Hz32 : msg_read m 8 32 = zeros 32) by (by apply (read_part m pre _ _ _ post 8 32 Hv)).
    assert (Hz16 : msg_read m 8 16 = zeros 16).
    { change (zeros 32) with (zeros 16 ++ zeros 16) in Hv. rewrite <- app_assoc in Hv.
      by apply (read_part m pre _ _ _ post 8 16 Hv). }
    rewrite Hz16, Hz32. change (Bits_isZero (zeros 16)) with true. change (Bits_isZero (zeros 32)) with true.
    cbn [orb]. unfold incomingControlMessage.
    destruct (control_valid m pre text ck post Hv Hev Htl Hck) as (m1 & pre1 & -> & Hv1). cbn [mbind Er_bind].
    unfold BencMessageReader_readNoExcept. rewrite Htext in Hv1.
    destruct (read_view d zs m1 pre1 [] post Hd Hz Hv1) as (m2 & -> & _). reflexivity.
Qed.

(** A message of a node: what was sent to the other end behind a route header
    which names the sender. *)
Definition arrives (sent : Message) (key : list Z) (m : Message) : Prop :=
  exists rh pre post, RouteHeader_wf rh /\ rh_publicKey rh = key /\
    msg_view m pre (RouteHeader_bytes rh ++ drop 68 (msg_content sent)) post /\
    (msg_addr m + msg_bytes m) mod 2 = 0.

Lemma received malloc `{InetText} at_ d pkt key sent rh0 m i conn t :
  sendable d -> control_packet d pkt -> RouteHeader_wf rh0 ->
  msg_content sent = RouteHeader_bytes rh0 ++ data_header ++ pkt -> arrives sent key m ->
  connectionByPubKey key t = Some i -> connections t !! i = Some conn ->
  incomingFromNode malloc at_ m t = handle_control malloc at_ (mirror_entries d) i conn t.
Proof.
  intros Hd Hp Hrh0 Hs (rh & pre & post & Hrh & Hkey & Hv & Hev) Hk Hi.
  pose proof (RouteHeader_length _ Hrh0) as Hl0. pose proof (RouteHeader_length _ Hrh) as Hl.
  change RouteHeader_SIZE with 68 in Hl0, Hl. rewrite Hs, drop_app_length' in Hv by lia.
  unfold incomingFromNode. rewrite (msg_view_length _ _ _ _ Hv), !length_app, !Nat2Z.inj_add, Hl.
  change (len data_header) with 4. change (RouteHeader_SIZE + DataHeader_SIZE) with 72.
  destruct (Z.geb_spec (68 + (4 + len pkt)) 72); [|lia]. cbn [Assert_true mbind Er_bind].
  rewrite (read_part m pre (RouteHeader_bytes rh) data_header pkt post RouteHeader_SIZE DataHeader_SIZE Hv)
    by (by rewrite Hl || reflexivity).
  change (DataHeader_getContentType (DataHeader_of data_header)) with ContentType_IPTUN. rewrite Z.eqb_refl.
  cbn [Assert_true mbind Er_bind].
  rewrite (read_part m pre [] (RouteHeader_bytes rh) (data_header ++ pkt) post 0 RouteHeader_SIZE Hv)
    by (by rewrite Hl || reflexivity).
  unfold RouteHeader_of at 1. cbn [rh_publicKey].
  rewrite <- (app_nil_r (RouteHeader_bytes rh)), RouteHeader_key, Hkey, Hk, Hi by done.
  rewrite app_assoc in Hv.
  destruct (eshift_pop m pre (RouteHeader_bytes rh ++ data_header) pkt post Hv) as (m1 & E1 & Hv1 & _).
  rewrite length_app, Nat2Z.inj_add, Hl in E1. change (68 + len data_header) with 72 in E1. rewrite E1.
  cbn [mbind Er_bind].
  assert (Hev1 : (msg_addr m1 + msg_bytes m1) mod 2 = 0).
  { unfold Message_eshift in E1. destruct (_ && _); [done|]. destruct (_ <? _); [done|]. injection E1 as <-.
    cbn [msg_addr msg_bytes]. replace (msg_addr m + (msg_bytes m - - (72))) with (msg_addr m + msg_bytes m + 72) by lia.
    by rewrite Z.add_mod, Hev by lia. }
  destruct (control_handled malloc at_ d pkt m1 _ post i conn t Hd Hp Hv1 Hev1) as (H40 & H6 & E).
  rewrite (msg_view_length _ _ _ _ Hv1), H6. destruct (Z.gtb_spec (len pkt) 40); [|lia]. exact E.
Qed.

(** ** Addresses are given out *)

(** The routes can be committed. *)
Definition rg_ready (r : RouteGen) : Prop :=
  rg_wf r /\ Forall (fun e => 0 < prefix4 e) (rg_exceptions4 r) /\
  Forall (fun e => 0 < prefix6 e) (rg_exceptions6 r).

Lemma ready_proper r : rg_ready r -> exceptions_proper r.
Proof. intros (_ & H4 & H6). split; by apply Forall_filter. Qed.

Lemma addPrefix_ready r sa : rg_ready r -> address_ok sa ->
  exists r', RouteGen_addPrefix r sa = Ret r' /\ rg_ready r'.
Proof.
  intros (Hw & H4 & H6) Hsa. destruct (addSomething_wf r sa Prefixes Hw Hsa) as (r' & E & Hw' & _).
  exists r'. split; [done|]. split; [done|].
  assert (rg_exceptions4 r' = rg_exceptions4 r /\ rg_exceptions6 r' = rg_exceptions6 r) as [-> ->]; [|done].
  unfold addSomething in E. cbn [rg_lists] in E. er_inv. destruct (_ =? _) in E0; [|destruct (_ =? _) in E0]; er_inv; done.
Qed.

Lemma commit_routes_ready t : rg_ready (rg t) ->
  exists t' outs, commit_routes t = Ret (t', outs) /\ connections t' = connections t.
Proof.
  intros Hr. unfold commit_routes. destruct (rg_hasUncommittedChanges (rg t)); [|by do 2 eexists].
  destruct (tunName t); [|by do 2 eexists].
  destruct (commit_spec (rg t) (proj1 Hr) (ready_proper _ Hr)) as (set & -> & _). by do 2 eexists.
Qed.

Section Assign.
Context {I : InetText} {L : InetTextLaws I} (at_ : Z).
#[local] Set Default Proof Using "All".

(** The event of an address for the TUN device. *)
Definition announced (t : IpTunnel) (sa : Sockaddr) : list Out :=
  match tunName t with None => [] | Some _ => [AddAddress sa] end.

Lemma addAddress_spec text sa (mk : Z -> Sockaddr) p a t :
  Sockaddr_parse at_ text = Ret (Some sa) ->
  set (set sa 2 (Z.lor (sa_flags sa) Sockaddr_flags_PREFIX)) 4 a = mk a ->
  set (mk a) 4 p = mk p -> address_ok (mk p) -> rg_ready (rg t) ->
  exists t', addAddress at_ text p a t = Ret (t', announced t (mk a)) /\
    connections t' = connections t /\ tunName t' = tunName t /\
    nextConnectionNumber t' = nextConnectionNumber t /\ rg_ready (rg t').
Proof.
  intros Hparse Ha Hp Hok Hr. unfold addAddress, announced. destruct (tunName t) eqn:Et; [|by exists t].
  rewrite Hparse. cbn [mbind Er_bind]. rewrite Ha, Hp.
  destruct (addPrefix_ready (rg t) (mk p) Hr Hok) as (r & Hadd & Hr').
  assert (Hfam : Sockaddr_getFamily (mk p) = Sockaddr_AF_INET \/ Sockaddr_getFamily (mk p) = Sockaddr_AF_INET6).
  { destruct Hok as [(x & port & pf & _ & Hl & Hpo & _ & ->)|(x & y & port & pf & _ & _ & Hl1 & Hl2 & Hpo & _ & ->)].
    - left. by apply getAddress_4.
    - right. apply getAddress_6; [rewrite length_app; lia|done]. }
  destruct Hfam as [-> | ->].
  - change (Sockaddr_AF_INET =? Sockaddr_AF_INET) with true. cbn [mbind Er_bind].
    destruct (p <? 32); [rewrite Hadd|]; cbn [mbind Er_bind]; by eexists.
  - change (Sockaddr_AF_INET6 =? Sockaddr_AF_INET) with false. change (Sockaddr_AF_INET6 =? Sockaddr_AF_INET6) with true.
    cbn [mbind Er_bind]. destruct (p <? 128); [rewrite Hadd|]; cbn [mbind Er_bind]; by eexists.
Qed.

Lemma print_loopback ip4 : length ip4 = 4%nat ->
  Sockaddr_print (wr 12 ip4 (Sockaddr_clone Sockaddr_LOOPBACK)) = Sockaddr_print (sockaddr_in_of ip4 0 None).
Proof. intros H4. destruct ip4 as [|a [|b [|c [|d [|]]]]]; done. Qed.

Lemma print_loopback6 ip6 : length ip6 = 16%nat ->
  Sockaddr_print (wr 16 ip6 (Sockaddr_clone Sockaddr_LOOPBACK6)) = Sockaddr_print (sockaddr_in6_of ip6 0 None).
Proof. intros H6. do 16 (destruct ip6 as [|? ip6]; [done|]). by destruct ip6. Qed.

Lemma prefix_or_max_ok p max : 0 <= p <= max -> max <= 128 -> prefix_or_max (Some p) max = p.
Proof.
  intros Hp Hm. unfold prefix_or_max. destruct (Z.geb_spec p 0); [|lia]. zdecide (p <=? max). cbn [andb].
  apply u8_small. lia.
Qed.

Lemma accept4_spec ad i conn t ip4 p a :
  getDictString ad "ip4" = Some ip4 -> getDictInt ad "ip4Prefix" = Some p -> getDictInt ad "ip4Alloc" = Some a ->
  bytes ip4 -> length ip4 = 4%nat -> 0 <= p <= 32 -> 0 <= a <= 32 -> rg_ready (rg t) ->
  exists t', accept4 at_ ad i conn t
    = Ret (set_ip4 conn ip4 p a, t', announced t (sockaddr_in_of ip4 0 (Some a))) /\
    connections t' = <[i := set_ip4 conn ip4 p a]> (connections t) /\ tunName t' = tunName t /\ rg_ready (rg t').
Proof.
  intros E1 E2 E3 Hb Hl Hp Ha Hr. unfold accept4. rewrite E1, E2, E3, Hl. cbn [Z.eqb Z.of_nat Pos.of_succ_nat Pos.succ Pos.eqb].
  rewrite !prefix_or_max_ok, print_loopback by (done || lia).
  destruct (addAddress_spec (Sockaddr_print (sockaddr_in_of ip4 0 None)) (sockaddr_in_of ip4 0 None)
              (fun x => sockaddr_in_of ip4 0 (Some x)) p a
              (set_connections t (<[i := set_ip4 conn ip4 p a]> (connections t))))
    as (t' & E & Hc & Ht & _ & Hr'); try done.
  - apply parse_print_4; (done || lia).
  - left. exists ip4, 0, (Some p). by split_and!.
  - cbn [connectionIp4Prefix connectionIp4Alloc set_ip4] in E |- *. rewrite E. cbn [mbind Er_bind].
    exists t'. done.
Qed.

Lemma accept6_spec ad i conn t ip6 p a :
  getDictString ad "ip6" = Some ip6 -> getDictInt ad "ip6Prefix" = Some p -> getDictInt ad "ip6Alloc" = Some a ->
  bytes ip6 -> length ip6 = 16%nat -> 0 <= p <= 128 -> 0 <= a <= 128 -> rg_ready (rg t) ->
  exists t', accept6 at_ ad i conn t
    = Ret (set_ip6 conn ip6 p a, t', announced t (sockaddr_in6_of ip6 0 (Some a))) /\
    connections t' = <[i := set_ip6 conn ip6 p a]> (connections t) /\ tunName t' = tunName t /\ rg_ready (rg t').
Proof.
  intros E1 E2 E3 Hb Hl Hp Ha Hr. unfold accept6. rewrite E1, E2, E3, Hl. cbn [Z.eqb Z.of_nat Pos.of_succ_nat Pos.succ Pos.eqb].
  rewrite !prefix_or_max_ok, print_loopback6 by (done || lia).
  destruct (halves16 ip6 Hl) as (h & l & -> & Hh & Hlo). pose proof Hb as Hb'. apply bytes_app in Hb' as [Hbh Hbl].
  destruct (addAddress_spec (Sockaddr_print (sockaddr_in6_of (h ++ l) 0 None)) (sockaddr_in6_of (h ++ l) 0 None)
              (fun x => sockaddr_in6_of (h ++ l) 0 (Some x)) p a
              (set_connections t (<[i := set_ip6 conn (h ++ l) p a]> (connections t))))
    as (t' & E & Hc & Ht & _ & Hr'); try done.
  - apply parse_print_6; (done || lia).
  - right. exists h, l, 0, (Some p). by split_and!.
  - cbn [connectionIp6Prefix connectionIp6Alloc set_ip6] in E |- *. rewrite E. cbn [mbind Er_bind].
    exists t'. done.
Qed.
End Assign.

(** *** The dictionaries *)

Definition request_dict (n : Z) : Dict :=
  [(chars "q", Object_STRING getAddresses); (chars "txid", Object_STRING (le_bytes 4 n))].

Definition offer4 (sc : Connection) : Dict :=
  if Bits_isZero (connectionIp4 sc) then []
  else [(chars "ip4", Object_STRING (connectionIp4 sc)); (chars "ip4Alloc", Object_INTEGER (connectionIp4Alloc sc));
        (chars "ip4Prefix", Object_INTEGER (connectionIp4Prefix sc))].
Definition offer6 (sc : Connection) : Dict :=
  if Bits_isZero (connectionIp6 sc) then []
  else [(chars "ip6", Object_STRING (connectionIp6 sc)); (chars "ip6Alloc", Object_INTEGER (connectionIp6Alloc sc));
        (chars "ip6Prefix", Object_INTEGER (connectionIp6Prefix sc))].
Definition reply_dict (sc : Connection) (txid : list Z) : Dict :=
  [(chars "addresses", Object_DICT (offer4 sc ++ offer6 sc)); (chars "txid", Object_STRING txid)].

(** The server has an address for the client, with lengths which fit. *)
Record can_offer (sc : Connection) : Prop := {
  co_wf : conn_wf sc;
  co_incoming : isOutgoing sc = false;
  co_some : Bits_isZero (connectionIp4 sc) && Bits_isZero (connectionIp6 sc) = false;
  co_4 : 0 <= connectionIp4Prefix sc <= 32 /\ connectionIp4Alloc sc <= 32;
  co_6 : 0 <= connectionIp6Prefix sc <= 128 /\ connectionIp6Alloc sc <= 128;
}.

Lemma requestForAddresses_spec malloc request sc txid :
  can_offer sc -> Dict_getString (Some request) (Some (chars "txid")) = Some txid ->
  requestForAddresses malloc request sc =
  (m ← sendControlMessage malloc (reply_dict sc txid) sc; Ret [ToNode m]).
Proof.
  intros Hc Ht. destruct (co_wf _ Hc) as (_ & (_ & H6 & _) & _ & H4 & _). pose proof (co_some _ Hc) as Hs.
  unfold requestForAddresses. rewrite (co_incoming _ Hc), Ht. unfold reply_dict, offer4, offer6.
  assert (E6 : String_newBinary (Some (connectionIp6 sc)) 16 = connectionIp6 sc) by (cbn; by rewrite take_ge by lia).
  assert (E4 : String_newBinary (Some (connectionIp4 sc)) 4 = connectionIp4 sc) by (cbn; by rewrite take_ge by lia).
  rewrite E6, E4. destruct (Bits_isZero (connectionIp4 sc)), (Bits_isZero (connectionIp6 sc)); done.
Qed.

Lemma txid_number n : 0 <= n < 2 ^ 31 -> i32 (le_val (le_bytes 4 n)) = n.
Proof. intros Hn. rewrite le_val_bytes. rewrite Z.mod_small by (cbn; lia). apply i32_small. lia. Qed.

Lemma chars_ok s : (forallb (fun c => (0 <=? c) && (c <? 256)) (chars s) && (len (chars s) <? 1000)) = true ->
  str_bytes (chars s).
Proof.
  intros [H1 H2%Z.ltb_lt]%andb_true_iff. split; [|lia]. apply Forall_forall. intros c Hc.
  rewrite forallb_forall in H1. specialize (H1 c (proj1 (list_elem_of_In _ _) Hc)).
  apply andb_true_iff in H1 as [?%Z.leb_le ?%Z.ltb_lt]. done.
Qed.

Lemma request_ok n : control_ok (request_dict n).
Proof.
  split; [by split|]. split; [|vm_compute; lia].
  split; [split; [by apply chars_ok|by apply chars_ok]|]. split; [|done].
  split; [by apply chars_ok|]. split; [apply le_bytes_bytes|]. done.
Qed.

Lemma entries_text_app a b : entries_text (a ++ b) = entries_text a ++ entries_text b.
Proof. unfold entries_text. by rewrite map_app, concat_app. Qed.

Lemma int_text_short n : 0 <= n <= 128 -> (length (obj_text (Object_INTEGER n)) <= 5)%nat.
Proof.
  intros Hn. destruct (small_num_text n 3) as (Hl & _); [cbn; lia|lia|].
  cbn [obj_text length]. rewrite length_app. cbn [length]. lia.
Qed.

Lemma str_text_length s k : len s < 10 ^ Z.of_nat k -> (1 <= k <= 9)%nat ->
  (length (str_text s) <= k + 1 + length s)%nat.
Proof.
  intros Hl Hk. destruct (small_num_text (len s) k) as (Hd & _); [lia|lia|].
  unfold str_text. rewrite length_app. cbn [length]. lia.
Qed.

(** Three entries with short keys, a string and two small numbers. *)
Lemma three_entries_short k1 k2 k3 s n1 n2 :
  (length k1 <= 9)%nat -> (length k2 <= 9)%nat -> (length k3 <= 9)%nat -> (length s <= 16)%nat ->
  0 <= n1 <= 128 -> 0 <= n2 <= 128 ->
  (length (entries_text [(k1, Object_STRING s); (k2, Object_INTEGER n1); (k3, Object_INTEGER n2)]) <= 70)%nat.
Proof.
  intros H1 H2 H3 Hs Hn1 Hn2. unfold entries_text. cbn [map concat fst snd]. rewrite !length_app.
  pose proof (int_text_short n1 Hn1). pose proof (int_text_short n2 Hn2).
  pose proof (str_text_length k1 2 ltac:(cbn; lia) ltac:(lia)). pose proof (str_text_length k2 2 ltac:(cbn; lia) ltac:(lia)).
  pose proof (str_text_length k3 2 ltac:(cbn; lia) ltac:(lia)). pose proof (str_text_length s 2 ltac:(cbn; lia) ltac:(lia)).
  change (obj_text (Object_STRING s)) with (str_text s). cbn [length]. lia.
Qed.

Lemma reply_ok sc n : can_offer sc -> control_ok (reply_dict sc (le_bytes 4 n)).
Proof.
  intros Hc. destruct (co_wf _ Hc) as (_ & (Hb6 & Hl6 & Ha6) & Hb4 & Hl4 & Ha4).
  destruct (co_4 _ Hc) as [P4 A4], (co_6 _ Hc) as [P6 A6].
  assert (I1 : int64_ok (connectionIp4Prefix sc)) by (unfold int64_ok; lia).
  assert (I2 : int64_ok (connectionIp4Alloc sc)) by (unfold int64_ok; lia).
  assert (I3 : int64_ok (connectionIp6Prefix sc)) by (unfold int64_ok; lia).
  assert (I4 : int64_ok (connectionIp6Alloc sc)) by (unfold int64_ok; lia).
  assert (S4 : str_bytes (connectionIp4 sc)) by (split; [done|lia]).
  assert (S6 : str_bytes (connectionIp6 sc)) by (split; [done|lia]).
  assert (B : forall s, forallb (fun c => (0 <=? c) && (c <? 256)) (chars s) && (len (chars s) <? 1000) = true ->
    str_bytes (chars s)) by apply chars_ok.
  split; [|split].
  - split; [done|]. cbn [obj_ok reply_dict map fold_right snd]. split; [|done].
    unfold offer4, offer6. destruct (Bits_isZero (connectionIp4 sc)), (Bits_isZero (connectionIp6 sc));
      cbn [app map fold_right snd obj_ok]; done.
  - cbn [obj_bytes reply_dict map fold_right fst snd]. split; [split; [by apply B|]|split; [split; [by apply B|]|done]].
    + unfold offer4, offer6. destruct (Bits_isZero (connectionIp4 sc)), (Bits_isZero (connectionIp6 sc));
        cbn [app map fold_right fst snd obj_bytes]; split_and?; try done; by apply B.
    + split; [apply le_bytes_bytes|]. rewrite length_le_bytes. lia.
  - assert (H4 : (length (entries_text (offer4 sc)) <= 70)%nat).
    { unfold offer4. destruct (Bits_isZero _); [cbn; lia|]. apply three_entries_short; (cbn; lia) || lia. }
    assert (H6 : (length (entries_text (offer6 sc)) <= 70)%nat).
    { unfold offer6. destruct (Bits_isZero _); [cbn; lia|]. apply three_entries_short; (cbn; lia) || lia. }
    unfold dict_text, reply_dict. cbn [length]. rewrite length_app. unfold entries_text at 1.
    cbn [map concat fst snd]. rewrite !length_app.
    change (obj_text (Object_DICT (offer4 sc ++ offer6 sc))) with (dict_text (offer4 sc ++ offer6 sc)).
    unfold dict_text. rewrite entries_text_app. cbn [length]. rewrite !length_app.
    change (length (str_text (chars "addresses"))) with 11%nat. change (length (str_text (chars "txid"))) with 6%nat.
    change (length (obj_text (Object_STRING (le_bytes 4 n)))) with 6%nat. cbn [length]. lia.
Qed.

(** *** Both ends *)

(** The client's connection with the addresses of the server's. *)
Definition with_offer (cc sc : Connection) : Connection :=
  let cc := if Bits_isZero (connectionIp4 sc) then cc
            else set_ip4 cc (connectionIp4 sc) (connectionIp4Prefix sc) (connectionIp4Alloc sc) in
  if Bits_isZero (connectionIp6 sc) then cc
  else set_ip6 cc (connectionIp6 sc) (connectionIp6Prefix sc) (connectionIp6Alloc sc).

(** The addresses the client's TUN device gets. *)
Definition offered (t : IpTunnel) (sc : Connection) : list Out :=
  (if Bits_isZero (connectionIp4 sc) then []
   else announced t (sockaddr_in_of (connectionIp4 sc) 0 (Some (connectionIp4Alloc sc))))
  ++ (if Bits_isZero (connectionIp6 sc) then []
      else announced t (sockaddr_in6_of (connectionIp6 sc) 0 (Some (connectionIp6Alloc sc)))).

Lemma accept_offer {I : InetText} {L : InetTextLaws I} at_ sc i cc t :
  can_offer sc -> connections t !! i = Some cc -> rg_ready (rg t) ->
  exists c4 t4 o4 t6 o6,
    accept4 at_ (Some (mirror_entries (offer4 sc ++ offer6 sc))) i cc t = Ret (c4, t4, o4) /\
    accept6 at_ (Some (mirror_entries (offer4 sc ++ offer6 sc))) i c4 t4 = Ret (with_offer cc sc, t6, o6) /\
    connections t6 = <[i := with_offer cc sc]> (connections t) /\ rg_ready (rg t6) /\
    o4 ++ o6 = offered t sc.
Proof.
  intros Hc Hi Hr. destruct (co_wf _ Hc) as (_ & (Hb6 & Hl6 & Ha6) & Hb4 & Hl4 & Ha4).
  destruct (co_4 _ Hc) as [P4 A4], (co_6 _ Hc) as [P6 A6].
  set (ad := Some (mirror_entries (offer4 sc ++ offer6 sc))).
  assert (Hstep4 : exists c4 t4, accept4 at_ ad i cc t = Ret (c4, t4,
      if Bits_isZero (connectionIp4 sc) then []
      else announced t (sockaddr_in_of (connectionIp4 sc) 0 (Some (connectionIp4Alloc sc)))) /\
    c4 = (if Bits_isZero (connectionIp4 sc) then cc
          else set_ip4 cc (connectionIp4 sc) (connectionIp4Prefix sc) (connectionIp4Alloc sc)) /\
    connections t4 = <[i := c4]> (connections t) /\ tunName t4 = tunName t /\ rg_ready (rg t4)).
  { unfold ad, offer4, offer6. destruct (Bits_isZero (connectionIp4 sc)).
    - exists cc, t. split_and!; [by destruct (Bits_isZero (connectionIp6 sc))|done|by rewrite list_insert_id|done..].
    - edestruct (accept4_spec at_) as (t4 & -> & Hcs & Ht & Hr4); cycle 8.
      { eexists _, t4. split_and!; done. }
      all: first [by destruct (Bits_isZero (connectionIp6 sc))|done|lia]. }
  destruct Hstep4 as (c4 & t4 & E4 & Hc4 & Hcs4 & Ht4 & Hr4). exists c4, t4. eexists.
  assert (Hstep6 : exists t6, accept6 at_ ad i c4 t4 = Ret (with_offer cc sc, t6,
      if Bits_isZero (connectionIp6 sc) then []
      else announced t (sockaddr_in6_of (connectionIp6 sc) 0 (Some (connectionIp6Alloc sc)))) /\
    connections t6 = <[i := with_offer cc sc]> (connections t4) /\ rg_ready (rg t6)).
  { unfold with_offer. rewrite <- Hc4. unfold ad, offer4, offer6. destruct (Bits_isZero (connectionIp6 sc)).
    - exists t4. split_and!; [by destruct (Bits_isZero (connectionIp4 sc))| |done].
      rewrite Hcs4. by rewrite list_insert_insert_eq.
    - edestruct (accept6_spec at_) as (t6 & -> & Hcs & Ht & Hr6); cycle 8.
      { exists t6. unfold announced. rewrite Ht4. split_and!; done. }
      all: first [by destruct (Bits_isZero (connectionIp4 sc))|done|lia]. }
  destruct Hstep6 as (t6 & E6 & Hcs6 & Hr6). exists t6. eexists. split_and!; [exact E4|exact E6| |done|done].
  by rewrite Hcs6, Hcs4, list_insert_insert_eq.
Qed.

Lemma incomingAddresses_spec {I : InetText} {L : InetTextLaws I} at_ sc i cc t :
  can_offer sc -> connections t !! i = Some cc -> isOutgoing cc = true -> rg_ready (rg t) ->
  0 <= number cc < nextConnectionNumber t -> nextConnectionNumber t < 2 ^ 31 ->
  exists t' outs,
    incomingAddresses at_ (mirror_entries (reply_dict sc (le_bytes 4 (number cc)))) i cc t
    = Ret (t', offered t sc ++ outs) /\
    connections t' = <[i := with_offer cc sc]> (connections t).
Proof.
  intros Hc Hi Ho Hr Hn Hnext. unfold incomingAddresses. rewrite Ho. cbn [negb].
  change (getDictString (Some (mirror_entries (reply_dict sc (le_bytes 4 (number cc))))) "txid")
    with (Some (le_bytes 4 (number cc))).
  change (negb (len (le_bytes 4 (number cc)) =? 4)) with false. cbv iota zeta.
  rewrite txid_number by lia. rewrite (i32_small (nextConnectionNumber t)) by lia.
  zdecide (number cc <? 0). rewrite Z.geb_leb. zdecide (nextConnectionNumber t <=? number cc). cbn [orb].
  rewrite (Z.eqb_refl (number cc)). cbn [negb]. rewrite Hi.
  change (Dict_getDict (Some (mirror_entries (reply_dict sc (le_bytes 4 (number cc))))) (Some (chars "addresses")))
    with (Some (mirror_entries (offer4 sc ++ offer6 sc))).
  destruct (accept_offer at_ sc i cc t Hc Hi Hr) as (c4 & t4 & o4 & t6 & o6 & E4 & E6 & Hcs & Hr6 & Hoff).
  rewrite E4. cbn [mbind Er_bind]. rewrite E6. cbn [mbind Er_bind].
  destruct (commit_routes_ready t6 Hr6) as (t7 & outs & -> & Ht7). cbn [mbind Er_bind].
  exists t7, outs. rewrite app_assoc, Hoff. split; [done|]. by rewrite Ht7.
Qed.

(** [C16] Addresses are given out end to end: the request of a client for its
    outgoing connection, once it arrives behind a header with the client's key at
    a server which has a connection for that key, is answered with one message,
    and when that message arrives at the client behind a header with the server's
    key, the client's connection has the addresses, prefixes and blocks the server
    has for it (and keeps its own of a family of which the server has none), all other connections are as before, and the TUN device
    (if there is one) is given those addresses. *)
Theorem address_assignment {I : InetText} {L : InetTextLaws I} malloc malloc' at_ client server
    i j cc sc clientKey serverKey :
  malloc_ok malloc -> malloc_ok malloc' ->
  connectionByPubKey serverKey client = Some i -> connections client !! i = Some cc ->
  connectionByPubKey clientKey server = Some j -> connections server !! j = Some sc ->
  conn_wf cc -> isOutgoing cc = true -> can_offer sc -> rg_ready (rg client) ->
  0 <= number cc < nextConnectionNumber client -> nextConnectionNumber client < 2 ^ 31 ->
  exists request, requestAddresses malloc cc = Ret request /\
  forall m1, arrives request clientKey m1 ->
  exists reply, incomingFromNode malloc' at_ m1 server = Ret (server, [ToNode reply]) /\
  forall m2, arrives reply serverKey m2 ->
  exists client' outs, incomingFromNode malloc at_ m2 client = Ret (client', offered client sc ++ outs) /\
    connections client' = <[i := with_offer cc sc]> (connections client).
Proof.
  intros Hm Hm' Hki Hi Hkj Hj Hcc Ho Hsc Hr Hn Hnext.
  destruct (sendControl_view malloc (request_dict (number cc)) cc Hm (request_ok _) (proj1 Hcc))
    as (request & pkt1 & E1 & Hp1 & Hs1).
  exists request. split; [exact E1|]. intros m1 Harr1.
  rewrite (received malloc' at_ (request_dict (number cc)) pkt1 clientKey request (c_routeHeader cc) m1 j sc server
             (proj1 (request_ok _)) Hp1 (proj1 Hcc) Hs1 Harr1 Hkj Hj).
  unfold handle_control.
  change (Dict_getDict (Some (mirror_entries (request_dict (number cc)))) (Some (chars "addresses"))) with (@None Dict).
  change (String_equals _ _) with true. cbv iota.
  rewrite (requestForAddresses_spec malloc' (mirror_entries (request_dict (number cc))) sc
             (le_bytes 4 (number cc)) Hsc eq_refl).
  destruct (sendControl_view malloc' (reply_dict sc (le_bytes 4 (number cc))) sc Hm' (reply_ok _ _ Hsc)
              (proj1 (co_wf _ Hsc))) as (reply & pkt2 & E2 & Hp2 & Hs2).
  rewrite E2. cbn [mbind Er_bind]. exists reply. split; [done|]. intros m2 Harr2.
  rewrite (received malloc at_ (reply_dict sc (le_bytes 4 (number cc))) pkt2 serverKey reply (c_routeHeader sc) m2 i cc
             client (proj1 (reply_ok _ _ Hsc)) Hp2 (proj1 (co_wf _ Hsc)) Hs2 Harr2 Hki Hi).
  unfold handle_control.
  change (Dict_getDict (Some (mirror_entries (reply_dict sc (le_bytes 4 (number cc))))) (Some (chars "addresses")))
    with (Some (mirror_entries (offer4 sc ++ offer6 sc))). cbv iota.
  by apply incomingAddresses_spec.
Qed.

(** ** Examples *)

Definition keyA : list Z := replicate 32 1.
Definition keyB : list Z := replicate 32 2.
Definition header_for (key : list Z) : RouteHeader := mkRouteHeader key (zeros 12) 0 0 0 0 (252 :: zeros 15).

(** A client with an outgoing connection, and a server which has 10.0.0.7 in a
    block of 8 bits and 2001:db8::7 for it. *)
Definition example_client : IpTunnel :=
  mkIpTunnel [mkConnection (header_for keyB) (zeros 16) (zeros 4) 0 0 0 0 true 0] 4 1
    (mkRouteGen [] [] [] [] [] [] false) (Some (chars "tun0")).
Definition example_server_conn : Connection :=
  mkConnection (header_for keyA) (0x20 :: 0x01 :: 0x0d :: 0xb8 :: zeros 11 ++ [7]) [10; 0; 0; 7] 64 128 8 24 false 0.
Definition example_server : IpTunnel :=
  mkIpTunnel [example_server_conn] 4 1 (mkRouteGen [] [] [] [] [] [] false) None.
Definition example_malloc (n : Z) : Z * list Z := (4096, zeros n).

Lemma example_malloc_ok : malloc_ok example_malloc.
Proof. intros n. apply length_replicate. Qed.

(** Bytes and headers of concrete connections. *)

Lemma example_client_wf : Forall conn_wf (connections example_client).
Proof.
  apply Forall_cons. split; [|by apply Forall_nil]. split; [by repeat split|].
  split; (split; [solve_bytes|by split]).
Qed.
Lemma example_server_wf : conn_wf example_server_conn.
Proof. split; [by repeat split|]. split; (split; [solve_bytes|by split]). Qed.

Lemma address_assignment_witness :
  exists request, requestAddresses example_malloc
    (mkConnection (header_for keyB) (zeros 16) (zeros 4) 0 0 0 0 true 0) = Ret request /\
  forall m1, arrives request keyA m1 ->
  exists reply, @incomingFromNode example_malloc toy_inet 0 m1 example_server
    = Ret (example_server, [ToNode reply]) /\
  forall m2, arrives reply keyB m2 ->
  exists client' outs, @incomingFromNode example_malloc toy_inet 0 m2 example_client
    = Ret (client', offered example_client example_server_conn ++ outs) /\
    connections client' = [with_offer (mkConnection (header_for keyB) (zeros 16) (zeros 4) 0 0 0 0 true 0)
                             example_server_conn].
Proof.
  apply (@address_assignment toy_inet toy_inet_laws example_malloc example_malloc 0 example_client example_server
    0 0 _ example_server_conn keyA keyB example_malloc_ok example_malloc_ok);
    try reflexivity; try done.
  - exact (Forall_inv example_client_wf).
  - split; [apply example_server_wf|done..].
  - split; [|split; by apply Forall_nil]. intros []; split; by apply Forall_nil.
Defined.

(** A packet from 10.0.0.99 to 8.8.8.8. *)
Definition example_packet4 : list Z :=
  [0x45; 0; 0; 24] ++ zeros 8 ++ [10; 0; 0; 99] ++ [8; 8; 8; 8] ++ [1; 2; 3; 4].
Definition example_content : list Z := RouteHeader_bytes (header_for keyA) ++ data_header ++ example_packet4.
Definition example_message : Message :=
  {| msg_length := 96; msg_padding := 100; msg_bytes := 100; msg_capacity := 96;
     msg_associatedFd := 0; msg_addr := 4096; msg_mem := zeros 100 ++ example_content |}.

Lemma tunnel_isolation_witness :
  exists out, @incomingFromNode example_malloc toy_inet 0 example_message example_server
    = Ret (example_server, [ToTun out]) /\ delivered example_server example_content out.
Proof.
  eexists. split; [vm_compute; reflexivity|].
  eapply (proj1 (@tunnel_isolation example_malloc toy_inet 0 example_message (zeros 100) example_content []
    example_server ltac:(apply Forall_cons; split; [apply example_server_wf|by apply Forall_nil])
    ltac:(exists [], []; vm_compute; repeat split; done) ltac:(solve_bytes))); [vm_compute; reflexivity|].
  apply list_elem_of_singleton. reflexivity.
Defined.

Lemma connections_refine_witness :
  exists t', @tunnel_step toy_nacl example_malloc example_client (OpDisconnect 0) = Ret (0, t') /\ conns_ok t'.
Proof.
  eexists. split; [vm_compute; reflexivity|].
  eapply (proj1 (@connections_refine toy_nacl example_malloc example_client (OpDisconnect 0) 0 _
    ltac:(split; [apply NoDup_singleton|intros c ->%list_elem_of_singleton; cbn; lia|cbn; lia])
    ltac:(cbn; lia) eq_refl)).
Defined.

(** *** Where the code falls short *)

(** A block of zero bits for a given address is accepted from the other end
    ([prefix_or_max]); the next packet then fails the assertion that an unused
    block has no address. *)
Definition zero_block_client : IpTunnel :=
  set_connections example_client
    [with_offer (mkConnection (header_for keyB) (zeros 16) (zeros 4) 0 0 0 0 true 0)
       (set_ip4 example_server_conn [10; 0; 0; 7] 0 0)].
Example offered_block_of_zero_aborts :
  connectionIp4Alloc (with_offer (mkConnection (header_for keyB) (zeros 16) (zeros 4) 0 0 0 0 true 0)
    (set_ip4 example_server_conn [10; 0; 0; 7] 0 0)) = 0 /\
  exists why, incomingFromTun
    {| msg_length := 24; msg_padding := 100; msg_bytes := 100; msg_capacity := 24; msg_associatedFd := 0;
       msg_addr := 4096; msg_mem := zeros 100 ++ example_packet4 |} zero_block_client = Abort why.
Proof. split; [reflexivity|]. eexists. vm_compute. reflexivity. Qed.

(** An outgoing connection made after an incoming one was allowed stands behind it
    in the list. *)
Example outgoing_behind_incoming :
  exists i t1 t2 j, newConnection false (IpTunnel_new (rg example_client) None) = Ret (i, t1) /\
    newConnection true t1 = Ret (j, t2) /\ isOutgoing <$> connections t2 = [false; true].
Proof. repeat eexists. Qed.
